(* ===== verification/_CoqProject ===== *)
-Q . S2P
Prelude.v
PyFloat.v
PyVal.v
PyList.v
PyText.v
PyRegex.v
RegExp.v
PyTime.v
Evidence.v
Claim.v
CitationBinder.v
VerdictMatrix.v
PolicyEngine.v
AgentState.v
Config.v
QualityCheck.v
Hallucination.v
AnswerAst.v
AnswerParser.v
FinalAnswer.v
ToolNodes.v
TokenBudget.v
EvidenceFusion.v
PromptAssembly.v
AgentGraph.v
SkillPolicy.v
Governance.v
Approval.v
SkillGraph.v
SkillVersion.v
SkillCatalog.v
HardFilter.v
SkillRouter.v
SkillSelector.v
ReactBudget.v
ReactPolicy.v
ReactLoop.v
DagScheduler.v
RouteModels.v
PreFilter.v
RuleRouter.v
LlmRouter.v
IntentRouter.v
ToolContract.v
ToolExecutors.v
StructuredQuery.v
SkillPlanner.v
Observability.v
Reflection.v
ReactStep.v
ReactNode.v
SkillComposite.v
Authority.v
Answerability.v
ResultAggregator.v
PlanExecutor.v
SqlToolset.v
SqlAgent.v
GraphNodes.v
RestRuntime.v
RestTool.v
ReportData.v
ReportScan.v
ReportBuild.v
ReportClaims.v
ReportVerify.v
ReportStorage.v
ReportExport.v
ReportTool.v
SkillLoad.v
SkillResolve.v
PairVerify.v
ClaimClassify.v
Response.v
