(* ===== verification/Prelude.v ===== *)
(** * Verification of the agentic RAG core (src/agent/langgraph)

    The program answers a user's question by routing it to a tool (document
    retrieval, database, web, REST, graph, a plan of several steps or a ReAct
    loop), judging what the tool returned, generating an answer and refusing
    it when its claims are not supported by the evidence.  This library models
    that core and proves what makes it trustworthy.  Paths below are relative
    to src/agent/langgraph.

    ** How the program fits together

    graph.py wires one turn as a LangGraph graph over a dictionary of fields
    (state.py).  [start_node] dispatches on the persisted action; the intent
    router picks a route; the tool nodes write their reply; evidence_fusion
    turns replies into evidence and a snapshot; quality_check routes on,
    retries or falls back; prompt_assembly and llm_generate produce the
    answer; hallucination scores it claim by claim (citation binder, verdict
    matrix, policy engine) and decides pass, regenerate, refuse or reject;
    answer_renderer and final_answer write what the user sees.  The ReAct loop
    and the SQL agent are loops of their own inside one node, each with a
    budget and a guard; the plan executor runs a dependency graph of steps and
    aggregates their results.  Skills restrict what those loops may do: a
    catalogue of cards is filtered, ranked and decided on by the router,
    composed into one task, and their life cycle (approval) and dependencies
    are separate services.

    ** Files and what they model

    Foundations:
    - [Prelude]: truth values, string membership, tactics.
    - [PyFloat]: binary64 arithmetic of the scores as rationals with rounding.
    - [PyVal]: dynamic values, exceptions, the error monad, ordered dictionaries.
    - [PyList], [PyText], [PyRegex], [PyTime]: slices, stable sorts, code
      points, [repr], the regular expressions the code uses, and dates.
    - [RegExp]: regular expressions as syntax, with derivatives and [search].
    Evidence and judgement:
    - [Evidence]: evidence items, snapshots, fusion, replacement and quotas
      (evidence/models.py, snapshot.py, fusion.py, nodes/evidence_fusion.py).
    - [EvidenceFusion]: the normalisation of tool replies (evidence/models.py)
      and the whole node of nodes/evidence_fusion.py.
    - [TokenBudget]: evidence/token_budget.py.  [PromptAssembly]: nodes/prompt_assembly.py.
    - [Authority]: evidence/authority.py.  [Answerability]: evidence/answerability.py,
      skills/evidence_adapter.py, nodes/answerability_check.py.
    - [Claim]: evidence/claim.py.  [VerdictMatrix]: evidence/verdict_matrix.py.
    - [CitationBinder]: evidence/citation_binder.py.  [PairVerify]:
      evidence/pair_verifier.py and the claim entry of gateways/local_verifier.py.
    - [ClaimClassify]: evidence/claim_classifier.py.  [Response]:
      evidence/citation_metrics.py, response_builder.py.
    - [PolicyEngine]: policy/policy_engine.py.
    - [Hallucination]: nodes/hallucination.py.
    - [AnswerAst]: evidence/answer_ast.py, nodes/answer_renderer.py;
      [AnswerParser]: the parser of model output in evidence/answer_ast.py.
    - [FinalAnswer]: nodes/fallback.py, nodes/final_answer.py.
    Workflow:
    - [AgentState]: state.py.  [Config]: config.py.
    - [QualityCheck]: nodes/quality_check.py.  [ToolNodes]: the tool nodes.
    - [Observability]: nodes/observability.py.  [Reflection]: nodes/reflection.py,
      src/api/utils/reflection.py.
    - [AgentGraph]: graph.py and the conditional edges of nodes/intent_router.py;
      [next] is the routing function, [step] the step relation on states, in
      which a node without a definition there may write anything to its fields.
    - [GraphNodes]: the whole program, every node with its handler; its runs
      are runs of [AgentGraph].
    Routing:
    - [RouteModels]: routers/models.py.  [PreFilter]: routers/pre_filter.py.
    - [RuleRouter]: routers/config_loader.py, complexity_gate.py, rule_router.py.
    - [LlmRouter]: routers/llm_router.py, planner.py.
    - [IntentRouter]: nodes/intent_router.py.
    Tools and plans:
    - [ToolContract]: tools/contract.py, base.py, registry.py and
      executor/tool_dispatcher.py.  [ToolExecutors]: tools/executors/*.py.
    - [PlanExecutor]: nodes/plan_executor.py, over the scheduler, the
      dispatcher and the aggregator.
    - [StructuredQuery]: tools/database/*.py.
    - [RestRuntime]: tools/rest_runtime.py.  [execute] is a coroutine that stops
      at every await of the source; [step] lets the requests of the process
      arrive, be answered and wake in any order over the one shared runtime.
      [RestTool]: tools/rest_tool.py, over any runtime.
    Reports (tools/report):
    - [ReportData]: models.py and evidence/provenance.py.  [ReportScan]:
      sensitive_scanner.py.  [ReportBuild]: templates.py, planner.py,
      generator.py, chart_builder.py, table_builder.py.
    - [ReportClaims]: claims.py, data_sources.py, human_review.py.
    - [ReportVerify]: verifier.py; [publishable] says what it lets through.
    - [ReportStorage]: storage.py.  [ReportExport]: exporter.py.
    - [ReportTool]: report_tool.py, the whole call over a store given as a
      record of operations, of which [local_storage] is one.
    Loops under guard:
    - [SkillPolicy]: skills/policy_adapter.py.  [ReactBudget]: react/budget.py, models.py.
    - [ReactPolicy]: react/policy.py.  [ReactLoop]: react/graph.py.
    - [ReactStep]: react/step.py, react/executor.py, the two halves of a round.
      [ReactNode]: nodes/react_subgraph.py.
    - [DagScheduler]: executor/dag_scheduler.py.  [ResultAggregator]:
      executor/result_aggregator.py.
    - [SqlToolset]: tools/sql_agent/tools.py, tools/db_runtime.py; the class
      [Toolset] with [ToolsetLaws] is what the agent relies on.
    - [SqlAgent]: tools/sql_agent/subgraph.py, budget.py, state.py, prompts.py.
    Skills:
    - [SkillCatalog]: skills/catalog.py, catalog_models.py.  [HardFilter]: skills/hard_filter.py.
    - [SkillRouter]: skills/router.py, filters.py, reranker.py, decision_policy.py.
    - [SkillSelector]: skills/candidate_selector.py, canary_splitter.py.
    - [SkillComposite]: skills/composite_manifest.py.
    - [SkillPlanner]: skills/planner_adapter.py.
    - [SkillLoad]: skills/validator.py, indexes.py, card.py, loader.py, catalog.py,
      registry.py.  [SkillResolve]: skills/resolver.py.
    - [Governance]: skills/governance.py.  [Approval]: skills/approval.py.
    - [SkillGraph] and [SkillVersion]: skills/dependency_graph.py.

    State is explicit: records for objects, insertion-ordered association
    lists for dictionaries whose order is visible, [result] for code that may
    raise.  What lives outside the repository (language models, the graph
    library, database and retrieval servers, clocks, hashes) is a section
    variable, with the documented behaviour the code relies on as named
    hypotheses or as a class.

    ** What the theorems show

    - Termination and bounds: a run of the workflow ends (83 steps plus 14 for
      each retry detour; LangGraph's recursion limit cuts the livelocks, which
      are exhibited); the ReAct loop and the SQL agent end within the budget
      of model calls ([3 * max_llm + 2] rounds of the SQL graph are enough).
    - Safety of actions: everything executed was allowed by the guard, white
      listed and within budget; statements are read-only, on a checked
      database, limited in rows and held to the tables that were listed.  Two
      gaps are exhibited: the ReAct guard and its executor read different
      arguments, and a database named by a number escapes the listed tables.
    - Safety of answers: in enforced mode an answer that passes has no
      contradicted critical claim, and supported claims have supported pairs;
      rendered text is that of supported claims; refusals reveal nothing of
      the generated text.
    - Skills: what is routed to passed the hard filters, decisions are exactly
      their thresholds, an approved skill was signed by its chain; a catalogue
      that loads answers its queries exactly, reloads leave the last good one,
      and whatever resolves a request, its skill set passed the filter.
    - Pairs and responses: verifying pairs ends with one result each, within
      the calls of the model; the claim gateway keeps tenants apart whatever
      the model replies; the class of a claim depends on its text alone; a
      response is independent of evidence its user may not see.
    - Routing and plans: the router always finds an edge, the first filter
      blocks exactly what its patterns describe, plans are read back as they
      were dumped, and what a planned step does with the registered tools.
    - Structured queries: their tables, fields, rows and tenant are those of
      the policy, sensitive values are masked, and when the rendering of the
      parameters as text is the statement it stands for.
    - REST calls: with the lookup of the repository nothing is ever sent,
      however the requests interleave; a named function is requested as it was
      registered; with a lookup that works, the first call of every request goes
      over a session of its own tenant and server, which a retry may not
      ([retry_over_another_session]).
    - Reports: the verification passes exactly the publishable reports, a
      public link is given to those only, no text of a report becomes markup,
      and a call writes at most one file, in the directory of its tenant.
    - The whole program refines the graph: each handler writes only the fields
      the graph model lets its node write.
    - Prompt: the context stays within every token quota, and what it leaves
      out; evidence that can never reach the prompt is exhibited.
    - Functional behaviour: fusion, quotas, replacement, verdict matrix,
      layers of a plan, aggregation, skill dependency order, configuration
      merging, serialisation and parsing round trips, citation classification.

    ** Not modelled

    The prompt texts and their templates, the text and vector indices of
    skills (arguments of the router and of the resolver), the reading of YAML
    files, the rules of api/utils/fact_checker.py (an argument of the pair
    verifier), the RAG and graph clients, the gateways to models, the runner
    that chooses between the SQL agent and the older pipeline, and the RAGFlow
    platform around the agent (parsing, storage, HTTP, web client).
    The database runtime is fixed during one SQL exploration: the session that
    another request may give the shared runtime in between is not modelled.
    Logging and tracing calls are left out throughout, since they change
    nothing the code reads. *)

From Stdlib Require Export ZArith Lia.
From stdpp Require Export base tactics option strings gmap list.
From Stdlib Require Import Ascii.

#[global] Open Scope string_scope.
#[global] Open Scope list_scope.

Declare Scope py_scope.
Delimit Scope py_scope with py.

(** ** Truth values of Python objects *)

(** The test [if x:] of Python, for the types the code tests. *)
Class Truthy (A : Type) := truthy : A -> bool.

#[export] Instance truthy_bool : Truthy bool := fun b => b.
#[export] Instance truthy_string : Truthy string := fun s => negb (String.eqb s "").
#[export] Instance truthy_list {A} : Truthy (list A) :=
  fun l => match l with [] => false | _ => true end.
#[export] Instance truthy_Z : Truthy Z := fun z => negb (Z.eqb z 0).
(** [None] is falsy, any other value has its own truth value. *)
#[export] Instance truthy_option {A} `{Truthy A} : Truthy (option A) :=
  fun o => match o with None => false | Some a => truthy a end.

(** [x or d]: the first operand when it is truthy, the second otherwise. *)
Definition py_or {A} `{Truthy A} (x d : A) : A := if truthy x then x else d.

(** [o or d] for a value that may be [None]. *)
Definition opt_or {A} `{Truthy A} (o : option A) (d : A) : A :=
  match o with Some a => if truthy a then a else d | None => d end.

(** [d.get(k, default)]: the default is used only when the key is absent. *)
Definition get_or {A} (o : option A) (d : A) : A :=
  match o with Some a => a | None => d end.

Notation "x 'or_else' d" := (py_or x d) (at level 60, right associativity) : py_scope.

(** ** Strings *)

(** [x in xs] for a list of strings. *)
Definition str_in (x : string) (xs : list string) : bool := existsb (String.eqb x) xs.

Lemma str_in_spec x xs : str_in x xs = true <-> x ∈ xs.
Proof.
  unfold str_in. rewrite existsb_exists, list_elem_of_In. split.
  - intros (y & Hy & ->%String.eqb_eq). done.
  - intros Hx. exists x. split; [done|apply String.eqb_refl].
Qed.

Lemma str_in_false x xs : str_in x xs = false <-> x ∉ xs.
Proof.
  rewrite <- str_in_spec. destruct (str_in x xs); naive_solver.
Qed.

(** [list.append] when the value is not already there. *)
Definition append_new (x : string) (xs : list string) : list string :=
  if str_in x xs then xs else xs ++ [x].

Lemma append_new_NoDup x xs : NoDup xs -> NoDup (append_new x xs).
Proof.
  intros Hnd. unfold append_new. destruct (str_in x xs) eqn:E; [done|].
  apply str_in_false in E. apply NoDup_app. repeat split; [done| |].
  - intros y Hy ->%list_elem_of_singleton. done.
  - apply NoDup_singleton.
Qed.

Lemma elem_of_append_new y x xs : y ∈ append_new x xs <-> y = x \/ y ∈ xs.
Proof.
  unfold append_new. destruct (str_in x xs) eqn:E.
  - apply str_in_spec in E. split; [by right|]. intros [->|?]; done.
  - rewrite elem_of_app, list_elem_of_singleton. tauto.
Qed.

(** [s.lower()] on the ASCII letters; other characters are left alone (the
    code compares the result with lower-case ASCII words only). *)
Definition lower_ascii (a : ascii) : ascii :=
  let n := nat_of_ascii a in
  if (65 <=? n)%nat && (n <=? 90)%nat then ascii_of_nat (n + 32) else a.

Fixpoint py_lower (s : string) : string :=
  match s with
  | EmptyString => EmptyString
  | String a s' => String (lower_ascii a) (py_lower s')
  end.

(** ** Small reflection and automation *)

Lemma find_none_elem {A} (p : A -> bool) l : List.find p l = None -> forall x, x ∈ l -> p x = false.
Proof. intros H x Hx. apply list_elem_of_In in Hx. eauto using List.find_none. Qed.

Lemma filter_all {A} (p : A -> bool) l : (forall x, x ∈ l -> p x = true) -> List.filter p l = l.
Proof.
  induction l as [|x l IH]; intros H; [done|]. cbn [List.filter]. rewrite H by by left. f_equal. apply IH. intros y Hy. apply H. by right.
Qed.

Lemma filter_nil_iff {A} (p : A -> bool) l : (forall x, x ∈ l -> p x = false) <-> List.filter p l = [].
Proof.
  induction l as [|x l IH]; cbn [List.filter]; [split; [done|by intros _ x Hx%not_elem_of_nil]|]. destruct (p x) eqn:E.
  - split; [|done]. intros H. specialize (H x ltac:(by left)). congruence.
  - rewrite <- IH. split; intros H y Hy; [apply H; by right|]. apply elem_of_cons in Hy as [->|Hy]; auto.
Qed.

Lemma existsb_false_forall {A} (f : A -> bool) l :
  existsb f l = false <-> forall x, x ∈ l -> f x = false.
Proof.
  induction l as [|a l IH]; simpl.
  - split; [set_solver|done].
  - rewrite orb_false_iff, IH. split.
    + intros [H1 H2] x [->|Hx]%elem_of_cons; auto.
    + intros H. split; [apply H; by left|intros x Hx; apply H; by right].
Qed.

Lemma existsb_true_exists {A} (f : A -> bool) l :
  existsb f l = true <-> exists x, x ∈ l /\ f x = true.
Proof. rewrite existsb_exists. by setoid_rewrite list_elem_of_In. Qed.

Lemma forallb_true_forall {A} (f : A -> bool) l :
  forallb f l = true <-> forall x, x ∈ l -> f x = true.
Proof. rewrite forallb_forall. by setoid_rewrite list_elem_of_In. Qed.

(** Filters compared by their length. *)
Lemma length_filter_mono {A} (p q : A -> bool) l : (forall x, p x = true -> q x = true) ->
  (length (List.filter p l) <= length (List.filter q l))%nat.
Proof.
  intros H. induction l as [|x l IH]; cbn [List.filter]; [lia|]. specialize (H x).
  destruct (p x), (q x); cbn [length]; lia.
Qed.

Lemma length_filter_strict {A} (p q : A -> bool) l x : (forall x, p x = true -> q x = true) ->
  x ∈ l -> p x = false -> q x = true -> (S (length (List.filter p l)) <= length (List.filter q l))%nat.
Proof.
  intros H Hin Hp Hq. pose proof (length_filter_mono p q) as Hm.
  induction l as [|y l IH]; [by apply not_elem_of_nil in Hin|]. cbn [List.filter].
  apply elem_of_cons in Hin as [<-|Hin].
  - rewrite Hp, Hq. cbn. specialize (Hm l H). lia.
  - specialize (IH Hin). specialize (H y). destruct (p y), (q y); cbn [length]; lia.
Qed.

(** Membership in a list of literals, by computation. *)
Lemma elem_of_incl x l1 l2 :
  forallb (fun y => str_in y l2) l1 = true -> x ∈ l1 -> x ∈ l2.
Proof. rewrite forallb_true_forall. intros H Hx. by apply str_in_spec, H. Qed.

Ltac str_mem :=
  match goal with
  | |- _ ∈ _ => first [apply str_in_spec; reflexivity | eapply elem_of_incl; [|eassumption]; reflexivity]
  | H : ?s ∈ _ |- _ => exfalso; apply str_in_spec in H; discriminate H
  end.

(** One goal per element of the literal list in a membership hypothesis. *)
Ltac list_cases H :=
  first [ exfalso; apply not_elem_of_nil in H; exact H
        | apply elem_of_cons in H as [H|H]; [|list_cases H] ].

(** Case analysis on the conditions of nested conditionals in the goal. *)
Ltac split_ifs :=
  repeat match goal with
         | |- context [if ?b then _ else _] => destruct b eqn:?
         end.

(** The same, in a hypothesis. *)
Ltac split_ifs_in H :=
  repeat match type of H with
         | context [if ?b then _ else _] => destruct b eqn:?
         end.

(** Reduce boolean connectives of the context to propositions. *)
Ltac bool_facts :=
  repeat match goal with
         | H : (_ && _)%bool = true |- _ => apply andb_true_iff in H as [? ?]
         | H : (_ || _)%bool = false |- _ => apply orb_false_iff in H as [? ?]
         | H : negb _ = true |- _ => apply negb_true_iff in H
         | H : negb _ = false |- _ => apply negb_false_iff in H
         | H : String.eqb _ _ = true |- _ => apply String.eqb_eq in H
         | H : String.eqb _ _ = false |- _ => apply String.eqb_neq in H
         | H : Z.leb _ _ = true |- _ => apply Z.leb_le in H
         | H : Z.leb _ _ = false |- _ => apply Z.leb_gt in H
         | H : Z.ltb _ _ = true |- _ => apply Z.ltb_lt in H
         | H : Z.ltb _ _ = false |- _ => apply Z.ltb_ge in H
         | H : Z.geb _ _ = true |- _ => rewrite Z.geb_leb in H
         | H : Z.geb _ _ = false |- _ => rewrite Z.geb_leb in H
         | H : Z.gtb _ _ = true |- _ => rewrite Z.gtb_ltb in H
         | H : Z.gtb _ _ = false |- _ => rewrite Z.gtb_ltb in H
         end.
