(* ===== verification/PyFloat.v ===== *)
(** * Python floats

    A finite Python float is an IEEE-754 binary64 number, that is, a rational
    of the form [m * 2^k].  The model represents it by that rational (type
    [Q]), so comparisons are exact, and every arithmetic operation is the
    exact rational operation followed by [rnd], rounding to the nearest
    binary64 number, ties to even.  Infinities, NaN and the sign of zero are
    not represented: no operation of the modelled code produces them from
    finite inputs of ordinary magnitude (there is no division by zero, each
    division is guarded, and the magnitudes stay far below [2^1023]). *)

From S2P Require Import Prelude.
From Stdlib Require Export QArith Qround Qpower Qabs Lqa.

#[local] Open Scope Q_scope.

(** Round a rational to an integer, ties to even. *)
Definition round_even (q : Q) : Z :=
  let f := Qfloor q in
  match Qcompare (q - inject_Z f) (1 # 2) with
  | Lt => f
  | Gt => f + 1
  | Eq => if Z.even f then f else f + 1
  end%Z.

(** [floor (log2 x)] for a positive [x]. *)
Definition qlog2 (x : Q) : Z :=
  if Qle_bool 1 x then Z.log2 (Qfloor x) else (- Z.log2_up (Qceiling (/ x)))%Z.

(** The exponent of the last place of the binary64 numbers around [x]. *)
Definition ulp_exp (x : Q) : Z := Z.max (qlog2 x - 52) (-1074).

Definition rnd_pos (x : Q) : Q :=
  inject_Z (round_even (x * 2 ^ (- ulp_exp x))) * 2 ^ (ulp_exp x).

(** Round to nearest binary64, in lowest terms. *)
Definition rnd (x : Q) : Q :=
  Qred (match Qcompare x 0 with
        | Eq => 0
        | Gt => rnd_pos x
        | Lt => - rnd_pos (- x)
        end).

Definition fadd (x y : Q) : Q := rnd (x + y).
Definition fsub (x y : Q) : Q := rnd (x - y).
Definition fmul (x y : Q) : Q := rnd (x * y).
Definition fdiv (x y : Q) : Q := rnd (x / y).

(** Conversion of a Python [int]. *)
Definition fint (z : Z) : Q := rnd (inject_Z z).

(** Comparisons, as Python evaluates them. *)
Definition fle (x y : Q) : bool := Qle_bool x y.
Definition flt (x y : Q) : bool := negb (Qle_bool y x).
Definition fge (x y : Q) : bool := Qle_bool y x.
Definition fgt (x y : Q) : bool := negb (Qle_bool x y).

(** One step of the built-in [sum] of floats: the sum so far and the lost low
    part (Neumaier's compensated summation, since Python 3.12). *)
Definition sum_step (sc : Q * Q) (x : Q) : Q * Q :=
  let '(s, c) := sc in
  let t := fadd s x in
  (t, fadd c (if fge (Qabs s) (Qabs x) then fadd (fsub s t) x else fadd (fsub x t) s)).

(** [sum(l)] of a list of floats. *)
Definition py_sum (l : list Q) : Q :=
  match l with
  | [] => 0
  | x :: l' => let '(s, c) := fold_left sum_step l' (x, 0) in if Qeq_bool c 0 then s else fadd s c
  end.

(** [round(x, nd)]: correctly rounded decimal, then the nearest float. *)
Definition fround (x : Q) (nd : Z) : Q :=
  rnd (inject_Z (round_even (x * inject_Z (10 ^ nd))) / inject_Z (10 ^ nd)).

Example fadd_01_02 : fadd (rnd (1#10)) (rnd (2#10)) = 1351079888211149 # 4503599627370496.
Proof. vm_compute. reflexivity. Qed.

(** ** Rounding to an integer *)

Lemma Qfloor_diff_nonneg q : 0 <= q - inject_Z (Qfloor q).
Proof. pose proof (Qfloor_le q). lra. Qed.

Lemma round_even_lb q : (Qfloor q <= round_even q)%Z.
Proof.
  unfold round_even.
  destruct (Qcompare _ _); try destruct (Z.even _); lia.
Qed.

Lemma round_even_ub q : (round_even q <= Qfloor q + 1)%Z.
Proof.
  unfold round_even.
  destruct (Qcompare _ _); try destruct (Z.even _); lia.
Qed.

Lemma round_even_mono q1 q2 : q1 <= q2 -> (round_even q1 <= round_even q2)%Z.
Proof.
  intros Hle. pose proof (Qfloor_resp_le _ _ Hle) as Hf.
  destruct (Z.eq_dec (Qfloor q1) (Qfloor q2)) as [E|NE].
  - unfold round_even. rewrite E.
    destruct (Qcompare_spec (q1 - inject_Z (Qfloor q2)) (1#2));
    destruct (Qcompare_spec (q2 - inject_Z (Qfloor q2)) (1#2));
      try destruct (Z.even _); try lia; exfalso; lra.
  - pose proof (round_even_ub q1). pose proof (round_even_lb q2). lia.
Qed.

Lemma round_even_Z q z : q == inject_Z z -> round_even q = z.
Proof.
  intros Hq. unfold round_even.
  assert (Qfloor q = z) as -> by (rewrite <- (Qfloor_Z z); apply Qfloor_comp, Hq).
  destruct (Qcompare_spec (q - inject_Z z) (1#2)); [exfalso; lra|done|exfalso; lra].
Qed.

#[export] Instance round_even_proper : Proper (Qeq ==> eq) round_even.
Proof.
  intros x y Hxy. apply Z.le_antisymm; apply round_even_mono; lra.
Qed.

(** ** The binary exponent *)

Lemma Qpower2_pos k : 0 < 2 ^ k.
Proof. apply Qpower_0_lt. lra. Qed.

Lemma Qpower2_plus a b : 2 ^ (a + b) == 2 ^ a * 2 ^ b.
Proof. apply Qpower_plus. lra. Qed.

Lemma Qpower2_Z k : (0 <= k)%Z -> 2 ^ k == inject_Z (2 ^ k).
Proof. intros Hk. change 2 with (inject_Z 2) at 1. rewrite Zpower_Qpower by done. reflexivity. Qed.

Lemma Qpower2_opp k : 2 ^ (- k) * 2 ^ k == 1.
Proof. rewrite <- Qpower2_plus. replace (- k + k)%Z with 0%Z by lia. reflexivity. Qed.

Lemma Qpower2_le a b : (a <= b)%Z -> 2 ^ a <= 2 ^ b.
Proof.
  intros H. replace b with (a + (b - a))%Z by lia. rewrite Qpower2_plus.
  assert (1 <= 2 ^ (b - a)).
  { rewrite Qpower2_Z by lia. change 1 with (inject_Z 1). rewrite <- Zle_Qle.
    pose proof (Z.pow_pos_nonneg 2 (b - a)). lia. }
  pose proof (Qpower2_pos a). nra.
Qed.

Lemma Qpower2_lt_inv a b : 2 ^ a < 2 ^ b -> (a < b)%Z.
Proof.
  intros H. destruct (Z.lt_ge_cases a b) as [?|Hge]; [done|].
  pose proof (Qpower2_le _ _ Hge). lra.
Qed.

Lemma Qpower2_opp_inv k : 2 ^ (- k) == / 2 ^ k.
Proof. apply Qpower_opp. Qed.

Lemma qlog2_spec x : 0 < x -> 2 ^ (qlog2 x) <= x < 2 ^ (qlog2 x + 1).
Proof.
  intros Hx. unfold qlog2. destruct (Qle_bool 1 x) eqn:E.
  - apply Qle_bool_iff in E.
    assert (1 <= Qfloor x)%Z as Hf.
    { change 1%Z with (Qfloor 1). by apply Qfloor_resp_le. }
    pose proof (Z.log2_spec (Qfloor x) ltac:(lia)) as [Hl Hu].
    pose proof (Z.log2_nonneg (Qfloor x)).
    rewrite !Qpower2_Z by lia. split.
    + apply Qle_trans with (inject_Z (Qfloor x)); [by rewrite <- Zle_Qle|apply Qfloor_le].
    + apply Qlt_le_trans with (inject_Z (Qfloor x + 1)); [apply Qlt_floor|].
      rewrite <- Zle_Qle. rewrite Z.add_1_r. lia.
  - assert (x < 1) as Hlt.
    { destruct (Qlt_le_dec x 1) as [|Hge]; [done|].
      apply Qle_bool_iff in Hge. congruence. }
    set (y := / x). set (c := Qceiling y).
    assert (x * y == 1) as Hxy by (unfold y; field; lra).
    assert (0 < y) as Hy0 by (apply Qinv_lt_0_compat; done).
    assert (1 < y) as Hy by nra.
    assert (2 <= c)%Z as Hc.
    { assert (1 < c)%Z; [|lia]. rewrite Zlt_Qlt.
      eapply Qlt_le_trans; [|apply Qle_ceiling]. exact Hy. }
    pose proof (Z.log2_up_spec c ltac:(lia)) as [Hl Hu].
    pose proof (Z.log2_up_pos c ltac:(lia)) as HL.
    set (L := Z.log2_up c) in *.
    assert (y <= 2 ^ L) as H1.
    { rewrite Qpower2_Z by lia. eapply Qle_trans; [apply Qle_ceiling|].
      by rewrite <- Zle_Qle. }
    assert (2 ^ (L - 1) < y) as H2.
    { rewrite Qpower2_Z by lia. replace (L - 1)%Z with (Z.pred L) by lia.
      apply Qle_lt_trans with (inject_Z (c - 1)); [rewrite <- Zle_Qle; lia|].
      apply Qceiling_lt. }
    assert (2 ^ (- L) * 2 ^ L == 1) as P1 by apply Qpower2_opp.
    assert (2 ^ (- L + 1) * 2 ^ (L - 1) == 1) as P2.
    { rewrite <- Qpower2_plus. replace (- L + 1 + (L - 1))%Z with 0%Z by lia. reflexivity. }
    pose proof (Qpower2_pos (- L)). pose proof (Qpower2_pos (- L + 1)).
    pose proof (Qpower2_pos L). pose proof (Qpower2_pos (L - 1)).
    split; nra.
Qed.

Lemma qlog2_mono x y : 0 < x -> x <= y -> (qlog2 x <= qlog2 y)%Z.
Proof.
  intros Hx Hle. pose proof (qlog2_spec x Hx) as [H1 _].
  pose proof (qlog2_spec y ltac:(lra)) as [_ H2].
  assert (qlog2 x < qlog2 y + 1)%Z; [apply Qpower2_lt_inv; lra|lia].
Qed.

(** ** Rounding to binary64 *)

Lemma round_even_le_Z q z : q <= inject_Z z -> (round_even q <= z)%Z.
Proof.
  intros H. apply round_even_mono in H. by rewrite (round_even_Z (inject_Z z) z) in H by reflexivity.
Qed.

Lemma round_even_ge_Z q z : inject_Z z <= q -> (z <= round_even q)%Z.
Proof.
  intros H. apply round_even_mono in H. by rewrite (round_even_Z (inject_Z z) z) in H by reflexivity.
Qed.

Lemma scale_le x b k : x <= b -> x * 2 ^ k <= b * 2 ^ k.
Proof. intros H. pose proof (Qpower2_pos k). nra. Qed.

Lemma unscale_le m n k : (m <= n)%Z -> inject_Z m * 2 ^ k <= inject_Z n * 2 ^ k.
Proof. intros H. apply scale_le. by rewrite <- Zle_Qle. Qed.

Lemma rnd_pos_mono x y : 0 < x -> x <= y -> rnd_pos x <= rnd_pos y.
Proof.
  intros Hx Hle. pose proof (qlog2_mono x y Hx Hle) as Hl.
  pose proof (qlog2_spec x Hx) as [_ Hux].
  pose proof (qlog2_spec y ltac:(lra)) as [Hly _].
  unfold rnd_pos. destruct (Z.eq_dec (ulp_exp x) (ulp_exp y)) as [->|Hne].
  { apply unscale_le, round_even_mono, scale_le, Hle. }
  assert (ulp_exp x < ulp_exp y)%Z as Hk by (unfold ulp_exp in *; lia).
  assert (ulp_exp y = qlog2 y - 52)%Z as Hky by (unfold ulp_exp in *; lia).
  assert (ulp_exp x <= qlog2 y)%Z as Hkx by (unfold ulp_exp in *; lia).
  assert (qlog2 x + 1 <= qlog2 y)%Z as Hlt by (unfold ulp_exp in *; lia).
  set (kx := ulp_exp x) in *. set (ky := ulp_exp y) in *. set (e := qlog2 y) in *.
  apply Qle_trans with (2 ^ e).
  - apply Qle_trans with (inject_Z (2 ^ (e - kx)) * 2 ^ kx).
    + apply unscale_le, round_even_le_Z. rewrite <- Qpower2_Z by lia.
      replace (e - kx)%Z with (e + - kx)%Z by lia. rewrite Qpower2_plus.
      apply scale_le. pose proof (Qpower2_le _ _ Hlt). lra.
    + rewrite <- Qpower2_Z by lia. rewrite <- Qpower2_plus.
      replace (e - kx + kx)%Z with e by lia. apply Qle_refl.
  - apply Qle_trans with (inject_Z (2 ^ (e - ky)) * 2 ^ ky).
    + rewrite <- Qpower2_Z by lia. rewrite <- Qpower2_plus.
      replace (e - ky + ky)%Z with e by lia. apply Qle_refl.
    + apply unscale_le, round_even_ge_Z. rewrite <- Qpower2_Z by lia.
      replace (e - ky)%Z with (e + - ky)%Z by lia. rewrite Qpower2_plus.
      apply scale_le, Hly.
Qed.

Lemma rnd_pos_nonneg x : 0 < x -> 0 <= rnd_pos x.
Proof.
  intros Hx. unfold rnd_pos. pose proof (Qpower2_pos (ulp_exp x)).
  pose proof (Qpower2_pos (- ulp_exp x)).
  assert (0 <= round_even (x * 2 ^ (- ulp_exp x)))%Z as Hz.
  { apply round_even_ge_Z. change (inject_Z 0) with 0. nra. }
  rewrite Zle_Qle in Hz. change (inject_Z 0) with 0 in Hz. nra.
Qed.

(** Rounding is monotone: this carries every comparison of exact values over
    to the floats that represent them. *)
Lemma rnd_mono x y : x <= y -> rnd x <= rnd y.
Proof.
  intros Hle. unfold rnd. rewrite !Qred_correct.
  destruct (Qcompare_spec x 0) as [Hx|Hx|Hx], (Qcompare_spec y 0) as [Hy|Hy|Hy];
    try lra; try (exfalso; lra).
  - by apply rnd_pos_nonneg.
  - pose proof (rnd_pos_nonneg (- x)). lra.
  - pose proof (rnd_pos_mono (- y) (- x)). lra.
  - pose proof (rnd_pos_nonneg (- x)). pose proof (rnd_pos_nonneg y). lra.
  - by apply rnd_pos_mono.
Qed.

#[export] Instance rnd_proper : Proper (Qeq ==> Qeq) rnd.
Proof.
  intros x y Hxy. apply Qle_antisym; apply rnd_mono; lra.
Qed.

Lemma rnd_0 : rnd 0 == 0. Proof. reflexivity. Qed.
Lemma rnd_1 : rnd 1 == 1. Proof. vm_compute. reflexivity. Qed.

Lemma rnd_nonneg x : 0 <= x -> 0 <= rnd x.
Proof. intros H%rnd_mono. by rewrite rnd_0 in H. Qed.

Lemma rnd_le_1 x : x <= 1 -> rnd x <= 1.
Proof. intros H%rnd_mono. by rewrite rnd_1 in H. Qed.

(** ** Operations and comparisons *)

Lemma fle_spec x y : fle x y = true <-> x <= y.
Proof. apply Qle_bool_iff. Qed.

Lemma fge_spec x y : fge x y = true <-> y <= x.
Proof. apply Qle_bool_iff. Qed.

Lemma flt_spec x y : flt x y = true <-> x < y.
Proof.
  unfold flt. rewrite negb_true_iff. destruct (Qle_bool y x) eqn:E.
  - apply Qle_bool_iff in E. split; [done|lra].
  - split; [intros _|done]. destruct (Qlt_le_dec x y) as [|H]; [done|].
    apply Qle_bool_iff in H. congruence.
Qed.

Lemma fgt_spec x y : fgt x y = true <-> y < x.
Proof. apply (flt_spec y x). Qed.

Lemma fge_false x y : fge x y = false <-> x < y.
Proof. rewrite <- flt_spec. unfold fge, flt. by rewrite negb_true_iff. Qed.

Lemma fle_false x y : fle x y = false <-> y < x.
Proof. apply (fge_false y x). Qed.

Lemma flt_false x y : flt x y = false <-> y <= x.
Proof. rewrite <- fle_spec. unfold fle, flt. by rewrite negb_false_iff. Qed.

Lemma fgt_false x y : fgt x y = false <-> x <= y.
Proof. apply (flt_false y x). Qed.

Lemma fadd_mono x y x' y' : x <= x' -> y <= y' -> fadd x y <= fadd x' y'.
Proof. intros. apply rnd_mono. lra. Qed.

Lemma fadd_nonneg x y : 0 <= x -> 0 <= y -> 0 <= fadd x y.
Proof. intros. apply rnd_nonneg. lra. Qed.

Lemma fmul_mono x y x' y' : 0 <= x -> 0 <= y -> x <= x' -> y <= y' -> fmul x y <= fmul x' y'.
Proof. intros. apply rnd_mono. nra. Qed.

Lemma fmul_nonneg x y : 0 <= x -> 0 <= y -> 0 <= fmul x y.
Proof. intros. apply rnd_nonneg. nra. Qed.

Lemma fdiv_unit x y : 0 <= x -> x <= y -> 0 < y -> 0 <= fdiv x y <= 1.
Proof.
  intros Hx Hle Hy. unfold fdiv. split.
  - apply rnd_nonneg. apply Qle_shift_div_l; [done|lra].
  - apply rnd_le_1. apply Qle_shift_div_r; [done|lra].
Qed.

Lemma fdiv_same x : 0 < x -> fdiv x x == 1.
Proof. intros Hx. unfold fdiv. rewrite <- rnd_1. apply rnd_proper. field. lra. Qed.

Lemma fdiv_0 x : fdiv 0 x == 0.
Proof. unfold fdiv. rewrite <- rnd_0. apply rnd_proper. apply Qmult_0_l. Qed.

(** Integers of up to 53 bits are represented exactly. *)
Lemma rnd_Z_pos z : (0 < z < 2 ^ 53)%Z -> rnd (inject_Z z) == inject_Z z.
Proof.
  intros Hz. assert (0 < inject_Z z) as Hq by (change 0 with (inject_Z 0); rewrite <- Zlt_Qlt; lia).
  pose proof (qlog2_spec _ Hq) as [Hl _].
  assert (qlog2 (inject_Z z) < 53)%Z as He.
  { apply Qpower2_lt_inv. eapply Qle_lt_trans; [apply Hl|].
    rewrite Qpower2_Z by lia. rewrite <- Zlt_Qlt. lia. }
  unfold rnd. rewrite Qred_correct. destruct (Qcompare_spec (inject_Z z) 0); [lra|lra|].
  unfold rnd_pos. set (k := ulp_exp (inject_Z z)).
  assert (k <= 0)%Z as Hk by (unfold k, ulp_exp; lia).
  rewrite (round_even_Z _ (z * 2 ^ (- k))).
  - rewrite inject_Z_mult, <- Qpower2_Z by lia.
    rewrite <- Qmult_assoc, Qpower2_opp. lra.
  - rewrite inject_Z_mult, <- Qpower2_Z by lia. reflexivity.
Qed.

Lemma rnd_nonneg_Z z : (0 <= z < 2 ^ 53)%Z -> rnd (inject_Z z) == inject_Z z.
Proof. intros Hz. destruct (Z.eq_dec z 0) as [->|]; [reflexivity|]. apply rnd_Z_pos. lia. Qed.

(** A number that is already a binary64 is not changed by rounding. *)
Lemma rnd_pos_exact y z : 0 < y -> y * 2 ^ (- ulp_exp y) == inject_Z z -> rnd_pos y == y.
Proof.
  intros Hy Hz. unfold rnd_pos. rewrite (round_even_Z _ z Hz), <- Hz.
  rewrite <- Qmult_assoc, Qpower2_opp. lra.
Qed.

(** So are integers of up to 53 bits over a power of two. *)
Lemma rnd_dyadic z k : (0 < z < 2 ^ 53)%Z -> (0 <= k <= 1000)%Z ->
  rnd (inject_Z z * 2 ^ (- k)) == inject_Z z * 2 ^ (- k).
Proof.
  intros Hz Hk. assert (0 < inject_Z z) as Hq by (change 0 with (inject_Z 0); rewrite <- Zlt_Qlt; lia).
  pose proof (Qpower2_pos (- k)) as Hp. assert (0 < inject_Z z * 2 ^ (- k)) as Hy by (by apply Qmult_lt_0_compat).
  pose proof (qlog2_spec _ Hy) as [Hl _].
  assert (qlog2 (inject_Z z * 2 ^ (- k)) < 53 - k)%Z as He.
  { apply Qpower2_lt_inv. eapply Qle_lt_trans; [apply Hl|].
    replace (53 - k)%Z with (53 + - k)%Z by lia. rewrite Qpower2_plus. apply Qmult_lt_r; [done|].
    rewrite Qpower2_Z by lia. rewrite <- Zlt_Qlt. lia. }
  unfold rnd. rewrite Qred_correct. destruct (Qcompare_spec (inject_Z z * 2 ^ (- k)) 0); [lra|lra|].
  set (e := ulp_exp (inject_Z z * 2 ^ (- k))). assert (0 <= - k - e)%Z as Hd by (unfold e, ulp_exp; lia).
  apply (rnd_pos_exact _ (z * 2 ^ (- k - e))); [done|]. fold e.
  rewrite inject_Z_mult, <- Qpower2_Z, <- Qmult_assoc, <- Qpower2_plus by lia. reflexivity.
Qed.

Lemma rnd_pos_idem x : 0 < x -> 0 < rnd_pos x -> rnd_pos (rnd_pos x) == rnd_pos x.
Proof.
  intros Hx Hp. pose proof (qlog2_spec x Hx) as [_ Hux].
  set (k := ulp_exp x) in *. set (m := round_even (x * 2 ^ (- k))).
  assert (rnd_pos x == inject_Z m * 2 ^ k) as Hm by reflexivity.
  assert (m <= 2 ^ 53)%Z as Hm53.
  { apply round_even_le_Z. rewrite <- Qpower2_Z by lia.
    apply Qle_trans with (2 ^ (qlog2 x + 1) * 2 ^ (- k)); [apply scale_le; lra|].
    rewrite <- Qpower2_plus. apply Qpower2_le. unfold k, ulp_exp. lia. }
  set (y := rnd_pos x) in *. pose proof (qlog2_spec y Hp) as [Hly _].
  assert (qlog2 y <= k + 53)%Z as He.
  { assert (qlog2 y < k + 54)%Z; [|lia]. apply Qpower2_lt_inv. eapply Qle_lt_trans; [exact Hly|].
    rewrite Hm. apply Qle_lt_trans with (inject_Z (2 ^ 53) * 2 ^ k); [by apply unscale_le|].
    rewrite <- Qpower2_Z, <- Qpower2_plus by lia.
    replace (k + 54)%Z with (53 + k + 1)%Z by lia. rewrite (Qpower2_plus (53 + k) 1).
    pose proof (Qpower2_pos (53 + k)). change (2 ^ 1) with 2. lra. }
  assert (forall j, (j <= k)%Z -> exists z, y * 2 ^ (- j) == inject_Z z) as Hint.
  { intros j Hj. exists (m * 2 ^ (k - j))%Z. rewrite Hm, inject_Z_mult, <- Qpower2_Z by lia.
    replace (k - j)%Z with (k + - j)%Z by lia. rewrite Qpower2_plus. lra. }
  destruct (Z.le_gt_cases (ulp_exp y) k) as [Hle|Hgt].
  { destruct (Hint _ Hle) as [z Hz]. by apply (rnd_pos_exact y z). }
  assert (ulp_exp y = k + 1)%Z as Hk by (unfold k, ulp_exp in *; lia).
  assert (qlog2 y = k + 53)%Z as Hq by (unfold k, ulp_exp in *; lia).
  apply (rnd_pos_exact y (2 ^ 52)); [done|]. rewrite <- Qpower2_Z by lia. rewrite Hk.
  assert (y == 2 ^ (53 + k)) as ->.
  { apply Qle_antisym.
    - rewrite Hm, Qpower2_plus, (Qpower2_Z 53) by lia. by apply unscale_le.
    - rewrite Hq in Hly. by rewrite Z.add_comm. }
  rewrite <- Qpower2_plus. by replace (53 + k + - (k + 1))%Z with 52%Z by lia.
Qed.

Lemma rnd_idem x : rnd (rnd x) == rnd x.
Proof.
  assert (forall y, 0 < y -> rnd (rnd_pos y) == rnd_pos y) as Hpos.
  { intros y Hy. pose proof (rnd_pos_nonneg y Hy). unfold rnd. rewrite Qred_correct.
    destruct (Qcompare_spec (rnd_pos y) 0); [lra|lra|]. by apply rnd_pos_idem. }
  assert (forall y, 0 < y -> rnd (- rnd_pos y) == - rnd_pos y) as Hneg.
  { intros y Hy. specialize (Hpos y Hy). pose proof (rnd_pos_nonneg y Hy).
    unfold rnd in *. rewrite Qred_correct in *.
    destruct (Qcompare_spec (- rnd_pos y) 0); [lra| |lra].
    destruct (Qcompare_spec (rnd_pos y) 0); [lra|lra|].
    rewrite <- Hpos at 2. apply Qopp_comp.
    unfold rnd_pos at 1. unfold rnd_pos at 3.
    assert (- - rnd_pos y == rnd_pos y) as E by lra.
    change (rnd_pos (- - rnd_pos y) == rnd_pos (rnd_pos y)).
    apply Qle_antisym; apply rnd_pos_mono; lra. }
  assert (rnd x == match Qcompare x 0 with
                   | Eq => 0 | Gt => rnd_pos x | Lt => - rnd_pos (- x) end) as E
    by (unfold rnd; apply Qred_correct).
  rewrite E. destruct (Qcompare_spec x 0); [reflexivity|apply Hneg; lra|by apply Hpos].
Qed.

(** [x] is a binary64 number. *)
Definition is_float (x : Q) : Prop := rnd x == x.

Lemma is_float_0 : is_float 0. Proof. reflexivity. Qed.
Lemma is_float_rnd x : is_float (rnd x). Proof. apply rnd_idem. Qed.
Lemma is_float_fadd x y : is_float (fadd x y). Proof. apply rnd_idem. Qed.

(** Adding a non-negative number never decreases a float. *)
Lemma fadd_ge_l x y : is_float x -> 0 <= y -> x <= fadd x y.
Proof. unfold is_float, fadd. intros Hx Hy. rewrite <- Hx at 1. apply rnd_mono. lra. Qed.

Create HintDb pyfloat.
#[export] Hint Resolve is_float_0 is_float_rnd is_float_fadd rnd_nonneg fadd_nonneg fmul_nonneg : pyfloat.

(** Turn the boolean float comparisons of the context and goal into order facts. *)
Ltac fcompare :=
  repeat match goal with
         | H : fle _ _ = true |- _ => apply fle_spec in H
         | H : fge _ _ = true |- _ => apply fge_spec in H
         | H : flt _ _ = true |- _ => apply flt_spec in H
         | H : fgt _ _ = true |- _ => apply fgt_spec in H
         | H : fle _ _ = false |- _ => apply fle_false in H
         | H : fge _ _ = false |- _ => apply fge_false in H
         | H : flt _ _ = false |- _ => apply flt_false in H
         | H : fgt _ _ = false |- _ => apply fgt_false in H
         | |- fle _ _ = true => apply fle_spec
         | |- fge _ _ = true => apply fge_spec
         | |- flt _ _ = true => apply flt_spec
         | |- fgt _ _ = true => apply fgt_spec
         | |- fge _ _ = false => apply fge_false
         | |- flt _ _ = false => apply flt_false
         | |- fgt _ _ = false => apply fgt_false
         end.
