(* ===== verification/PyVal.v ===== *)
(** * Python values and dictionaries

    The values that travel through [dict]-typed interfaces (state fields,
    serialised objects, configuration), the insertion-ordered dictionary, the
    exceptions the code raises or catches, and a small error monad. *)

From S2P Require Import Prelude PyFloat.

Inductive pyval : Type :=
  | VNone
  | VBool (b : bool)
  | VInt (z : Z)
  | VFloat (q : Q)
  | VStr (s : string)
  | VList (l : list pyval)
  | VDict (d : list (string * pyval)).

(** A dictionary with string keys, in insertion order. *)
Abbreviation pydict := (list (string * pyval)).

(** ** Exceptions *)

Inductive pyexc : Type :=
  | KeyError (k : string)
  | TypeError (msg : string)
  | AttributeError (name : string)
  | ValueError (msg : string)
  | OtherError (msg : string).

Inductive result (A : Type) : Type :=
  | Ok (a : A)
  | Raise (e : pyexc).
Arguments Ok {A} a.
Arguments Raise {A} e.

Definition rbind {A B} (m : result A) (f : A -> result B) : result B :=
  match m with Ok a => f a | Raise e => Raise e end.

Notation "'let!' x ':=' m 'in' k" := (rbind m (fun x => k))
  (at level 10, x pattern, m at level 100, k at level 200) : py_scope.
#[global] Open Scope py_scope.

Fixpoint rmap {A B} (f : A -> result B) (l : list A) : result (list B) :=
  match l with
  | [] => Ok []
  | x :: l' => let! y := f x in let! ys := rmap f l' in Ok (y :: ys)
  end.

Lemma rmap_map {A B} (f : A -> result B) (g : B -> A) (l : list B) :
  (forall b, f (g b) = Ok b) -> rmap f (map g l) = Ok l.
Proof. intros H. induction l as [|b l IH]; simpl; [done|]. by rewrite H, IH. Qed.

(** A monadic map succeeds exactly when every element does. *)
Lemma rmap_Forall2 {A B} (f : A -> result B) l ys : rmap f l = Ok ys <-> Forall2 (fun x y => f x = Ok y) l ys.
Proof.
  revert ys. induction l as [|x l IH]; intros ys; cbn [rmap].
  - split; [intros [= <-]; constructor|intros H; by inversion H].
  - split.
    + destruct (f x) as [y|] eqn:Ef; [|done]. cbn [rbind]. destruct (rmap f l) as [zs|]; [|done]. intros [= <-].
      constructor; [done|by apply IH].
    + intros H. inversion H as [|? y ? zs Hy Hzs]; subst. rewrite Hy. cbn [rbind]. by rewrite (proj2 (IH zs) Hzs).
Qed.

(** ** Dictionaries *)

Fixpoint dlookup {A} (k : string) (d : list (string * A)) : option A :=
  match d with
  | [] => None
  | (k', v) :: d' => if String.eqb k k' then Some v else dlookup k d'
  end.

(** [d[k] = v]: an existing key keeps its place. *)
Fixpoint dset {A} (k : string) (v : A) (d : list (string * A)) : list (string * A) :=
  match d with
  | [] => [(k, v)]
  | (k', v') :: d' => if String.eqb k k' then (k, v) :: d' else (k', v') :: dset k v d'
  end.

Lemma dlookup_dset {A} k k' (v : A) d :
  dlookup k' (dset k v d) = if String.eqb k' k then Some v else dlookup k' d.
Proof.
  induction d as [|[k0 v0] d IH]; simpl; [done|].
  destruct (String.eqb_spec k k0) as [<-|Hne]; simpl.
  - by destruct (String.eqb_spec k' k).
  - rewrite IH. destruct (String.eqb_spec k' k0), (String.eqb_spec k' k); congruence.
Qed.

Lemma dlookup_dset_eq {A} k (v : A) d : dlookup k (dset k v d) = Some v.
Proof. by rewrite dlookup_dset, String.eqb_refl. Qed.

Lemma dlookup_dset_ne {A} k k' (v : A) d : k' <> k -> dlookup k' (dset k v d) = dlookup k' d.
Proof. intros. rewrite dlookup_dset. by destruct (String.eqb_spec k' k). Qed.

Lemma dset_Forall {A} (P : string * A -> Prop) k v d : Forall P d -> P (k, v) -> Forall P (dset k v d).
Proof.
  intros Hd Hk. induction Hd as [|[k' v'] d Hx Hd IH]; cbn; [by constructor|].
  destruct (String.eqb k k'); by constructor.
Qed.

Lemma dlookup_elem {A} k (v : A) d : dlookup k d = Some v -> (k, v) ∈ d.
Proof.
  induction d as [|[k' v'] d IH]; cbn; [done|]. destruct (String.eqb_spec k k') as [->|]; [|by right; auto].
  intros [= ->]. by left.
Qed.

Lemma dset_map_keys {A} k (v : A) d : map fst (dset k v d) = if str_in k (map fst d) then map fst d else map fst d ++ [k].
Proof.
  induction d as [|[k' v'] d IH]; [done|]. cbn [dset map fst]. unfold str_in. cbn [existsb].
  destruct (String.eqb_spec k k') as [->|]; [done|]. cbn [map fst orb]. rewrite IH. fold (str_in k (map fst d)).
  by destruct (str_in k (map fst d)).
Qed.

Lemma dlookup_none_keys {A} k (d : list (string * A)) : dlookup k d = None <-> k ∉ map fst d.
Proof.
  induction d as [|[k' v'] d IH]; cbn [dlookup map fst]; [split; [intros _ ?%not_elem_of_nil; done|done]|].
  destruct (String.eqb_spec k k') as [->|]; [split; [done|intros H; exfalso; apply H; by left]|].
  rewrite IH, not_elem_of_cons. naive_solver.
Qed.

Lemma dlookup_unique {A} k (v : A) d : NoDup (map fst d) -> (k, v) ∈ d -> dlookup k d = Some v.
Proof.
  induction d as [|[k' v'] d IH]; cbn [map fst dlookup]; [by intros _ ?%not_elem_of_nil|]. intros [Hn Hnd]%NoDup_cons.
  intros [[= -> ->]|Hin]%elem_of_cons; [by rewrite String.eqb_refl|].
  destruct (String.eqb_spec k k') as [->|]; [|by apply IH]. exfalso. apply Hn. apply list_elem_of_In, in_map_iff.
  exists (k', v). split; [done|by apply list_elem_of_In].
Qed.

(** [{k: f(k) for k in keys}] *)
Lemma dlookup_map_keys {A} (f : string -> A) keys k :
  k ∈ keys -> dlookup k (map (fun k => (k, f k)) keys) = Some (f k).
Proof.
  induction keys as [|x keys IH]; [by intros ?%not_elem_of_nil|]. cbn.
  destruct (String.eqb_spec k x) as [->|]; [done|]. intros [?|?]%elem_of_cons; [done|auto].
Qed.

Lemma dlookup_map_none {A} (f : string -> A) keys k :
  k ∉ keys -> dlookup k (map (fun k => (k, f k)) keys) = None.
Proof.
  induction keys as [|x keys IH]; [done|]. intros H. cbn.
  destruct (String.eqb_spec k x) as [->|]; [exfalso; apply H; by left|]. apply IH. intros Hin. apply H. by right.
Qed.

(** ** Typed views of values

    A value of another type than the annotation says is kept by Python and
    fails later, if at all; the model stops where it is read. *)

Definition as_str (v : pyval) : result string :=
  match v with VStr s => Ok s | _ => Raise (TypeError "str") end.
Definition as_bool (v : pyval) : result bool :=
  match v with VBool b => Ok b | _ => Raise (TypeError "bool") end.
Definition as_int (v : pyval) : result Z :=
  match v with VInt z => Ok z | _ => Raise (TypeError "int") end.
Definition as_float (v : pyval) : result Q :=
  match v with VFloat q => Ok q | VInt z => Ok (fint z) | _ => Raise (TypeError "float") end.
Definition as_list {A} (f : pyval -> result A) (v : pyval) : result (list A) :=
  match v with VList l => rmap f l | _ => Raise (TypeError "list") end.
Definition as_dict (v : pyval) : result pydict :=
  match v with VDict d => Ok d | _ => Raise (TypeError "dict") end.

(** [d.get(k, default)] and [d[k]], at a type. *)
Definition dget {A} (f : pyval -> result A) (d : pydict) (k : string) (default : A) : result A :=
  match dlookup k d with Some v => f v | None => Ok default end.
Definition dindex {A} (f : pyval -> result A) (d : pydict) (k : string) : result A :=
  match dlookup k d with Some v => f v | None => Raise (KeyError k) end.

Definition VStrs (l : list string) : pyval := VList (map VStr l).
Definition VInts (l : list Z) : pyval := VList (map VInt l).

Lemma as_list_strs l : as_list as_str (VStrs l) = Ok l.
Proof. unfold VStrs. simpl. by apply rmap_map. Qed.

Lemma as_list_ints l : as_list as_int (VInts l) = Ok l.
Proof. unfold VInts. simpl. by apply rmap_map. Qed.

(** The truth value of a dynamic value. *)
#[export] Instance truthy_pyval : Truthy pyval := fun v =>
  match v with
  | VNone => false
  | VBool b => b
  | VInt z => negb (Z.eqb z 0)
  | VFloat q => negb (Qeq_bool q 0)
  | VStr s => negb (String.eqb s "")
  | VList [] | VDict [] => false
  | VList _ | VDict _ => true
  end.

(** ** Equality and conversion *)

#[export] Instance Q_eq_dec : EqDecision Q.
Proof. solve_decision. Defined.
#[export] Instance pyval_eq_dec : EqDecision pyval.
Proof.
  unfold EqDecision, Decision. fix IH 1. intros v w.
  decide equality; first [apply decide; apply _ | apply (List.list_eq_dec IH) | apply List.list_eq_dec; intros [k x] [k' y]].
  destruct (decide (k = k')) as [->|]; [|right; congruence]. destruct (IH x y) as [->|]; [by left|right; congruence].
Defined.

Definition as_number (v : pyval) : option Q :=
  match v with
  | VBool b => Some (if b then 1%Q else 0%Q)
  | VInt z => Some (inject_Z z)
  | VFloat q => Some q
  | _ => None
  end.

(** [v == w]: numbers compare across types, dictionaries without order. *)
Fixpoint py_eq (v w : pyval) : bool :=
  match v, w with
  | VNone, VNone => true
  | VStr s, VStr t => String.eqb s t
  | VList l, VList m =>
    (fix go (l m : list pyval) : bool :=
       match l, m with
       | [], [] => true
       | x :: l', y :: m' => py_eq x y && go l' m'
       | _, _ => false
       end) l m
  | VDict d, VDict e =>
    Nat.eqb (length d) (length e) &&
    (fix go (d : list (string * pyval)) : bool :=
       match d with
       | [] => true
       | (k, x) :: d' => match dlookup k e with Some y => py_eq x y | None => false end && go d'
       end) d
  | _, _ => match as_number v, as_number w with Some p, Some q => Qeq_bool p q | _, _ => false end
  end.

Lemma py_eq_str s v : py_eq (VStr s) v = true -> v = VStr s.
Proof. destruct v; cbn; try done. intros H. apply String.eqb_eq in H. by subst. Qed.

(** [hash(v)] fails on mutable values. *)
Definition hashable (v : pyval) : bool := match v with VList _ | VDict _ => false | _ => true end.

(** Of two values with [==], one of which is a text, both are that text. *)
Lemma py_eq_to_str v s : py_eq v (VStr s) = true -> v = VStr s.
Proof. destruct v; cbn; try done. intros H. apply String.eqb_eq in H. by subst. Qed.

Lemma py_eq_hashable v : hashable v = true -> py_eq v v = true.
Proof. destruct v; try done; intros _; cbn; [apply Qeq_bool_refl..|apply String.eqb_refl]. Qed.

(** The name of the type of a value. *)
Definition type_name (v : pyval) : string :=
  match v with
  | VNone => "NoneType" | VBool _ => "bool" | VInt _ => "int" | VFloat _ => "float" | VStr _ => "str" | VList _ => "list" | VDict _ => "dict"
  end.

(** A dictionary whose keys are compared with [eq], in insertion order: [d.get(k)] and [d[k] = v]. *)
Section keyed.
Context {K A : Type} (eq : K -> K -> bool).

Fixpoint kget (k : K) (d : list (K * A)) : option A :=
  match d with [] => None | (k0, v) :: d' => if eq k k0 then Some v else kget k d' end.

Fixpoint kset (k : K) (v : A) (d : list (K * A)) : list (K * A) :=
  match d with
  | [] => [(k, v)]
  | (k0, v0) :: d' => if eq k k0 then (k0, v) :: d' else (k0, v0) :: kset k v d'
  end.

Lemma kget_kset k v d : eq k k = true -> kget k (kset k v d) = Some v.
Proof. intros Hk. induction d as [|[k0 v0] d IH]; cbn; [by rewrite Hk|]. destruct (eq k k0) eqn:E; cbn; by rewrite E. Qed.

Lemma kget_kset_ne k k' v d : eq k k' = false -> (forall k0, eq k k0 = true -> eq k' k0 = false) ->
  kget k (kset k' v d) = kget k d.
Proof.
  intros Hk Hne. induction d as [|[k0 v0] d IH]; cbn; [by rewrite Hk|].
  destruct (eq k' k0) eqn:E'; cbn; destruct (eq k k0) eqn:E; try done. apply Hne in E. congruence.
Qed.
End keyed.

(** The texts in [set(l)]. *)
Fixpoint set_of_values (l : list pyval) : result (list string) :=
  match l with
  | [] => Ok []
  | v :: l' =>
    if hashable v then let! s := set_of_values l' in Ok (match v with VStr x => x :: s | _ => s end)
    else Raise (TypeError "unhashable")
  end.

(** [float(v)] *)
Definition to_float (float_of_text : string -> option Q) (v : pyval) : result Q :=
  match v with
  | VBool b => Ok (if b then 1%Q else 0%Q)
  | VInt z => Ok (fint z)
  | VFloat q => Ok q
  | VStr s => match float_of_text s with Some q => Ok q | None => Raise (ValueError "float") end
  | _ => Raise (TypeError "float")
  end.

(** [int(v)] *)
Definition to_int (int_of_text : string -> option Z) (v : pyval) : result Z :=
  match v with
  | VBool b => Ok (if b then 1%Z else 0%Z)
  | VInt z => Ok z
  | VFloat q => Ok (if Qle_bool 0 q then Qfloor q else (- Qfloor (- q))%Z)
  | VStr s => match int_of_text s with Some z => Ok z | None => Raise (ValueError "int") end
  | _ => Raise (TypeError "int")
  end.

(** [max(x, y)] of floats. *)
Definition fmax (x y : Q) : Q := if flt x y then y else x.

Lemma fmax_ge x y : (x <= fmax x y /\ y <= fmax x y)%Q.
Proof. unfold fmax. destruct (flt x y) eqn:E; fcompare; lra. Qed.

Lemma fmax_case x y : fmax x y = x \/ fmax x y = y.
Proof. unfold fmax. destruct (flt x y); auto. Qed.

(** [min(x, y)] of floats. *)
Definition fmin (x y : Q) : Q := if flt y x then y else x.

Lemma fmin_le x y : (fmin x y <= x /\ fmin x y <= y)%Q.
Proof. unfold fmin. destruct (flt y x) eqn:E; fcompare; lra. Qed.

Lemma fmin_nonneg x y : (0 <= x)%Q -> (0 <= y)%Q -> (0 <= fmin x y)%Q.
Proof. unfold fmin. by destruct (flt y x). Qed.

Lemma rbind_ok {A B} (m : result A) (f : A -> result B) b : rbind m f = Ok b -> exists a, m = Ok a /\ f a = Ok b.
Proof. destruct m as [a|e]; [eauto|done]. Qed.

(** [d.get(k)] for a dynamic key of a dictionary whose keys are texts. *)
Definition get_key {A} (k : pyval) (d : list (string * A)) : result (option A) :=
  match k with
  | VStr s => Ok (dlookup s d)
  | _ => if hashable k then Ok None else Raise (TypeError "unhashable")
  end.
