(* ===== verification/PyList.v ===== *)
(** * Python lists: slices, stable sorting, sets of strings

    [l[:n]], [list.sort(key=..., reverse=True)], [sorted] on strings, and the
    loops that keep first occurrences. *)

From S2P Require Import Prelude PyFloat.
From Stdlib Require Import Ascii.
From stdpp Require Export sorting.

(** [l[:n]], negative [n] included. *)
Definition py_take {A} (n : Z) (l : list A) : list A :=
  if (n <? 0)%Z then take (Z.to_nat (Z.of_nat (length l) + n)) l else take (Z.to_nat n) l.

(** [l[-n:]] for a positive [n]. *)
Definition py_last {A} (n : nat) (l : list A) : list A := drop (length l - n) l.

Definition py_len {A} (l : list A) : Z := Z.of_nat (length l).

Lemma py_take_app {A} n (l : list A) : exists l', l = py_take n l ++ l'.
Proof.
  unfold py_take. destruct (n <? 0)%Z.
  - exists (drop (Z.to_nat (Z.of_nat (length l) + n)) l). by rewrite take_drop.
  - exists (drop (Z.to_nat n) l). by rewrite take_drop.
Qed.

Lemma py_take_nil {A} n : py_take n (@nil A) = [].
Proof. unfold py_take. by destruct (n <? 0)%Z; rewrite take_nil. Qed.

Lemma py_take_length_nonneg {A} n (l : list A) :
  (0 <= n)%Z -> py_len (py_take n l) = Z.min n (py_len l).
Proof.
  intros Hn. unfold py_take, py_len. destruct (Z.ltb_spec n 0); [lia|].
  rewrite length_take. lia.
Qed.

(** [l[a:b]]: bounds below zero count from the end, and are cut to the list. *)
Definition slice_bound {A} (l : list A) (i : Z) : nat :=
  Z.to_nat (Z.min (py_len l) (if (i <? 0)%Z then Z.max 0 (py_len l + i) else i)).

Definition py_slice {A} (a b : Z) (l : list A) : list A :=
  take (slice_bound l b - slice_bound l a) (drop (slice_bound l a) l).

(** [l[n:]] after [l[:n]]. *)
Definition py_rest {A} (n : Z) (l : list A) : list A := drop (length (py_take n l)) l.

Lemma py_take_rest {A} n (l : list A) : py_take n l ++ py_rest n l = l.
Proof.
  unfold py_rest. destruct (py_take_app n l) as [l' Hl]. revert Hl. generalize (py_take n l). intros t ->.
  by rewrite drop_app_length.
Qed.

(** ** Stable sort by decreasing key *)

Section sort_desc.
Context {A : Type} (key : A -> Q).

Fixpoint insert_desc (x : A) (l : list A) : list A :=
  match l with
  | [] => [x]
  | y :: l' => if fle (key y) (key x) then x :: y :: l' else y :: insert_desc x l'
  end.

(** [l.sort(key=key, reverse=True)]: equal keys keep their order. *)
Fixpoint sort_desc (l : list A) : list A :=
  match l with
  | [] => []
  | x :: l' => insert_desc x (sort_desc l')
  end.

Definition desc (x y : A) : Prop := (key y <= key x)%Q.

Lemma insert_desc_perm x l : insert_desc x l ≡ₚ x :: l.
Proof.
  induction l as [|y l IH]; simpl; [done|]. destruct (fle _ _); [done|].
  rewrite IH. apply Permutation_swap.
Qed.

Lemma sort_desc_perm l : sort_desc l ≡ₚ l.
Proof. induction l as [|x l IH]; simpl; [done|]. by rewrite insert_desc_perm, IH. Qed.

Lemma insert_desc_sorted x l :
  StronglySorted desc l -> StronglySorted desc (insert_desc x l).
Proof.
  induction 1 as [|y l Hs IH Hall]; simpl; [repeat constructor|].
  destruct (fle (key y) (key x)) eqn:E.
  - apply fle_spec in E. constructor; [by constructor|]. constructor; [done|].
    eapply Forall_impl; [exact Hall|]. unfold desc. intros z ?. cbn in *. lra.
  - constructor; [done|]. rewrite insert_desc_perm. constructor; [|done].
    unfold desc. unfold fle in E.
    destruct (Qlt_le_dec (key x) (key y)) as [|H]; [lra|].
    apply Qle_bool_iff in H. congruence.
Qed.

Lemma sort_desc_sorted l : StronglySorted desc (sort_desc l).
Proof. induction l; simpl; [constructor|by apply insert_desc_sorted]. Qed.

Lemma elem_of_sort_desc x l : x ∈ sort_desc l <-> x ∈ l.
Proof. by rewrite sort_desc_perm. Qed.

Lemma length_sort_desc l : length (sort_desc l) = length l.
Proof. by rewrite sort_desc_perm. Qed.

Lemma StronglySorted_app_desc l1 l2 x y :
  StronglySorted desc (l1 ++ l2) -> x ∈ l1 -> y ∈ l2 -> desc x y.
Proof.
  induction l1 as [|z l1 IH]; simpl; intros Hs Hx Hy; [by apply not_elem_of_nil in Hx|].
  inversion Hs as [|? ? Hs' Hall]; subst. apply elem_of_cons in Hx as [->|Hx]; [|auto].
  rewrite Forall_forall in Hall. apply Hall. set_solver.
Qed.

Lemma StronglySorted_app_l l1 l2 :
  StronglySorted desc (l1 ++ l2) -> StronglySorted desc l1.
Proof.
  induction l1 as [|z l1 IH]; simpl; intros Hs; [constructor|].
  inversion Hs as [|? ? Hs' Hall]; subst. apply Forall_app in Hall as [??]. constructor; auto.
Qed.

(** What is cut off never outweighs what is kept. *)
Lemma py_take_sort_desc n l x y l' :
  sort_desc l = py_take n (sort_desc l) ++ l' ->
  x ∈ py_take n (sort_desc l) -> y ∈ l' -> (key y <= key x)%Q.
Proof.
  intros Hl Hx Hy. pose proof (sort_desc_sorted l) as Hs. rewrite Hl in Hs.
  by eapply StronglySorted_app_desc in Hs.
Qed.

Lemma py_take_sorted n l : StronglySorted desc (py_take n (sort_desc l)).
Proof.
  destruct (py_take_app n (sort_desc l)) as [l' Hl].
  pose proof (sort_desc_sorted l) as Hs. rewrite Hl in Hs. by eapply StronglySorted_app_l.
Qed.

(** Stability: elements of one key keep their relative order. *)
Lemma insert_desc_filter x l k :
  StronglySorted desc l ->
  List.filter (fun y => Qeq_bool (key y) k) (insert_desc x l) =
  List.filter (fun y => Qeq_bool (key y) k) (x :: l).
Proof.
  induction 1 as [|y l Hs IH Hall]; [done|]. cbn [insert_desc].
  destruct (fle (key y) (key x)) eqn:E; [done|].
  cbn [List.filter] in *. rewrite IH.
  destruct (Qeq_bool (key x) k) eqn:Ex, (Qeq_bool (key y) k) eqn:Ey; try done.
  apply Qeq_bool_iff in Ex, Ey. exfalso.
  assert (fle (key y) (key x) = true); [apply fle_spec; lra|congruence].
Qed.

Lemma sort_desc_stable l k :
  List.filter (fun y => Qeq_bool (key y) k) (sort_desc l) =
  List.filter (fun y => Qeq_bool (key y) k) l.
Proof.
  induction l as [|x l IH]; [done|]. simpl sort_desc.
  rewrite insert_desc_filter by apply sort_desc_sorted. simpl. by rewrite IH.
Qed.
End sort_desc.

(** ** First of each key *)

Section first_by.
Context {A : Type} (key : A -> string).

(** The elements whose key is new; an empty key never counts as seen. *)
Fixpoint first_by (seen : list string) (l : list A) : list A :=
  match l with
  | [] => []
  | x :: l' =>
    if truthy (key x) then if str_in (key x) seen then first_by seen l' else x :: first_by (key x :: seen) l'
    else x :: first_by seen l'
  end.

Lemma first_by_spec seen l :
  sublist (first_by seen l) l /\
  (forall s, s ∈ seen -> s <> "" -> s ∉ map key (first_by seen l)) /\
  NoDup (List.filter (fun s => truthy s) (map key (first_by seen l))) /\
  (forall t, t ∈ l -> key t ∈ seen \/ key t ∈ map key (first_by seen l)).
Proof.
  revert seen. induction l as [|t l IH]; intros seen; cbn [first_by].
  { split_and!; [constructor|intros; apply not_elem_of_nil|constructor|by intros ? ?%not_elem_of_nil]. }
  destruct (truthy (key t)) eqn:Et; [destruct (str_in (key t) seen) eqn:Es|].
  - destruct (IH seen) as (H1 & H2 & H3 & H4). split_and!; [by constructor|done|done|].
    intros t' [->|Ht]%elem_of_cons; [left; by apply str_in_spec|auto].
  - destruct (IH (key t :: seen)) as (H1 & H2 & H3 & H4).
    assert (key t <> "") as Hne by (intros E; by rewrite E in Et).
    split_and!; [by constructor| | |].
    + intros s Hs Hs'. cbn [map]. rewrite not_elem_of_cons. split; [|apply H2; set_solver].
      intros ->. apply str_in_false in Es. contradiction.
    + cbn [map List.filter]. rewrite Et. constructor; [|done]. intros Hin%list_elem_of_In%List.filter_In.
      destruct Hin as [Hin _]. apply (H2 (key t)); [by left|done|by apply list_elem_of_In].
    + intros t' [->|Ht]%elem_of_cons; [right; by left|].
      destruct (H4 t' Ht) as [[->|?]%elem_of_cons|?]; [right; by left|by left|right; by right].
  - destruct (IH seen) as (H1 & H2 & H3 & H4). split_and!; [by constructor| | |].
    + intros s Hs Hs'. cbn [map]. rewrite not_elem_of_cons. split; [|auto]. intros ->. unfold truthy, truthy_string in Et.
      by destruct (String.eqb_spec (key t) "").
    + cbn [map List.filter]. by rewrite Et.
    + intros t' [->|Ht]%elem_of_cons; [right; by left|]. destruct (H4 t' Ht); [by left|right; by right].
Qed.

(** Of a sorted list, each element is kept or beaten by a kept one of its key. *)
Lemma first_by_sorted (R : A -> A -> Prop) seen l : Reflexive R -> StronglySorted R l -> forall t, t ∈ l ->
  key t ∈ seen \/ exists t', t' ∈ first_by seen l /\ R t' t /\ (t' = t \/ key t' = key t).
Proof.
  intros Hrefl Hs. revert seen. induction Hs as [|x l Hs IH Hx]; intros seen t; [by intros ?%not_elem_of_nil|].
  rewrite Forall_forall in Hx. intros Ht. cbn [first_by].
  destruct (truthy (key x)) eqn:Et; [destruct (str_in (key x) seen) eqn:Es|].
  - apply elem_of_cons in Ht as [->|Ht]; [left; by apply str_in_spec|auto].
  - apply elem_of_cons in Ht as [->|Ht]; [right; exists x; split_and!; [by left|done|by left]|].
    destruct (IH (key x :: seen) t Ht) as [[E|?]%elem_of_cons|(t' & Ht' & ? & ?)]; [|by left|].
    + right. exists x. split_and!; [by left|by apply Hx|by right].
    + right. exists t'. split_and!; [by right|done|done].
  - apply elem_of_cons in Ht as [->|Ht]; [right; exists x; split_and!; [by left|done|by left]|].
    destruct (IH seen t Ht) as [?|(t' & Ht' & ? & ?)]; [by left|]. right. exists t'. split_and!; [by right|done|done].
Qed.
End first_by.

Lemma StronglySorted_sublist {A} (R : A -> A -> Prop) l l' : sublist l l' -> StronglySorted R l' -> StronglySorted R l.
Proof.
  induction 1 as [|x l l' Hsub IH|x l l' Hsub IH]; [done| |]; intros Hs; inversion Hs as [|? ? Hs' Hx]; subst; [|auto].
  constructor; [auto|]. rewrite Forall_forall in *. intros y Hy. apply Hx. by eapply elem_of_sublist.
Qed.

(** ** Sorting strings *)

Definition str_le (a b : string) : Prop := String.leb a b = true.

#[export] Instance str_le_dec : RelDecision str_le.
Proof. intros a b. unfold str_le. apply _. Defined.

#[export] Instance str_le_total : Total str_le.
Proof. intros a b. unfold str_le. destruct (String.leb_total a b); auto. Qed.

#[export] Instance str_le_antisymm : AntiSymm (=) str_le.
Proof. intros a b. apply String.leb_antisym. Qed.

Lemma string_compare_trans a b c :
  String.compare a b <> Gt -> String.compare b c <> Gt -> String.compare a c <> Gt.
Proof.
  revert b c. induction a as [|x a IH]; intros [|y b] [|z c]; simpl; try done.
  unfold Ascii.compare. intros H1 H2.
  destruct (N.compare_spec (N_of_ascii x) (N_of_ascii y));
  destruct (N.compare_spec (N_of_ascii y) (N_of_ascii z));
  destruct (N.compare_spec (N_of_ascii x) (N_of_ascii z)); try done; try lia; eauto.
Qed.

#[export] Instance str_le_trans : Transitive str_le.
Proof.
  intros a b c. unfold str_le, String.leb. intros H1 H2.
  pose proof (string_compare_trans a b c) as H.
  destruct (String.compare a b), (String.compare b c), (String.compare a c); try done;
    exfalso; apply H; done.
Qed.

(** [sorted(l)] for a list of strings. *)
Definition py_sorted (l : list string) : list string := merge_sort str_le l.

Lemma py_sorted_perm l : py_sorted l ≡ₚ l.
Proof. apply merge_sort_Permutation. Qed.

(** The sorted list only depends on the multiset. *)
Lemma py_sorted_Permutation l1 l2 : l1 ≡ₚ l2 -> py_sorted l1 = py_sorted l2.
Proof.
  intros H. apply (StronglySorted_unique str_le).
  - apply StronglySorted_merge_sort; apply _.
  - apply StronglySorted_merge_sort; apply _.
  - by rewrite !py_sorted_perm.
Qed.

(** ** Keys without repetition *)

(** A key names one element where no two elements share it. *)
Lemma NoDup_map_inj {A B} (f : A -> B) l x y : NoDup (map f l) -> x ∈ l -> y ∈ l -> f x = f y -> x = y.
Proof.
  induction l as [|z l IH]; cbn [map]; [by intros _ ?%not_elem_of_nil|]. intros [Hn Hnd]%NoDup_cons.
  assert (forall w, w ∈ l -> f w <> f z) as Hz.
  { intros w Hw E. apply Hn. rewrite <- E. by apply list_elem_of_In, in_map, list_elem_of_In. }
  intros [->|Hx]%elem_of_cons [->|Hy]%elem_of_cons E; [done|by destruct (Hz y Hy)|by destruct (Hz x Hx)|auto].
Qed.
