(* ===== verification/PyText.v ===== *)
(** * Python text

    A Python string is a sequence of Unicode code points; the model keeps it
    UTF-8 encoded.  [chars] splits it into code points, which is what [len],
    slicing and iteration work on. *)

From S2P Require Import Prelude PyFloat PyVal PyList.
From Stdlib Require Import Ascii.
From stdpp Require Import pretty.

(** A UTF-8 continuation byte, [10xxxxxx]. *)
Definition is_continuation (a : ascii) : bool :=
  match a with Ascii _ _ _ _ _ _ false true => true | _ => false end.

(** The code points of a string, each as its UTF-8 encoding. *)
Fixpoint chars (s : string) : list string :=
  match s with
  | EmptyString => []
  | String a s' =>
    match chars s' with
    | c :: cs =>
      match c with
      | String b _ => if is_continuation b then String a c :: cs else String a EmptyString :: c :: cs
      | EmptyString => String a EmptyString :: cs
      end
    | [] => [String a EmptyString]
    end
  end.

Definition text_len (s : string) : Z := Z.of_nat (length (chars s)).
Definition concat_chars (cs : list string) : string := String.concat "" cs.

(** [s[:n]] *)
Definition text_take (n : Z) (s : string) : string := concat_chars (py_take n (chars s)).

(** [sep.join(l)] *)
Definition join (sep : string) (l : list string) : string := String.concat sep l.

Lemma join_cons sep x l : join sep (x :: l) = match l with [] => x | _ => String.append x (String.append sep (join sep l)) end.
Proof. by destruct l. Qed.

(** [s.startswith(p)] and [p in s]. *)
Definition startswith (p s : string) : bool := String.prefix p s.

Fixpoint contains (p s : string) : bool :=
  String.prefix p s || match s with EmptyString => false | String _ s' => contains p s' end.

Lemma startswith_append p s : startswith p (String.append p s) = true.
Proof.
  induction p as [|a p IH]; [by destruct s|]. change (String.append (String a p) s) with (String a (String.append p s)).
  unfold startswith in *. cbn [String.prefix]. by destruct (ascii_dec a a).
Qed.

Lemma startswith_one p s :
  startswith (String p "") s = match s with String a _ => Ascii.eqb p a | EmptyString => false end.
Proof.
  destruct s as [|a s]; [done|].
  change (startswith (String p "") (String a s)) with (if ascii_dec p a then String.prefix "" s else false).
  destruct (ascii_dec p a) as [->|Hne]; [by rewrite Ascii.eqb_refl; destruct s|]. by rewrite (proj2 (Ascii.eqb_neq _ _) Hne).
Qed.

(** White space that [str.strip] removes (the ASCII part). *)
Definition is_space (a : ascii) : bool :=
  let n := nat_of_ascii a in (n =? 32)%nat || ((9 <=? n)%nat && (n <=? 13)%nat) || ((28 <=? n)%nat && (n <=? 31)%nat).

Fixpoint lstrip (s : string) : string :=
  match s with
  | String a s' => if is_space a then lstrip s' else s
  | EmptyString => EmptyString
  end.

Fixpoint rstrip (s : string) : string :=
  match s with
  | EmptyString => EmptyString
  | String a s' => match rstrip s' with
                   | EmptyString => if is_space a then EmptyString else String a EmptyString
                   | r => String a r
                   end
  end.

Definition strip (s : string) : string := rstrip (lstrip s).

Lemma rstrip_cons a s : is_space a = false -> exists r, rstrip (String a s) = String a r.
Proof. intros Ha. cbn. rewrite Ha. destruct (rstrip s); eauto. Qed.

Lemma rstrip_idem s : rstrip (rstrip s) = rstrip s.
Proof.
  induction s as [|a s IH]; [done|]. cbn [rstrip]. destruct (rstrip s) as [|b r] eqn:E.
  - destruct (is_space a) eqn:Ea; cbn; [done|by rewrite Ea].
  - cbn [rstrip] in *. by rewrite IH.
Qed.

Lemma strip_idem s : strip (strip s) = strip s.
Proof.
  unfold strip. assert (lstrip (rstrip (lstrip s)) = rstrip (lstrip s)) as ->; [|apply rstrip_idem].
  induction s as [|a s IH]; [done|]. cbn [lstrip]. destruct (is_space a) eqn:Ea; [done|].
  destruct (rstrip_cons a s Ea) as [r ->]. cbn. by rewrite Ea.
Qed.

(** [s[n:]] when the first [n] characters are ASCII. *)
Fixpoint str_drop (n : nat) (s : string) : string :=
  match n, s with
  | S k, String _ s' => str_drop k s'
  | _, _ => s
  end.

(** [s.split(sep)] for a one-character ASCII separator. *)
Fixpoint split_on (sep : ascii) (s : string) : list string :=
  match s with
  | EmptyString => [EmptyString]
  | String a s' =>
    if Ascii.eqb a sep then EmptyString :: split_on sep s'
    else match split_on sep s' with
         | x :: l => String a x :: l
         | [] => [String a EmptyString]
         end
  end.

(** Every character satisfies [p]. *)
Fixpoint str_all (p : ascii -> bool) (s : string) : bool :=
  match s with String a s' => p a && str_all p s' | EmptyString => true end.

Lemma append_nil_r (s : string) : String.append s "" = s.
Proof. induction s as [|a s IH]; [done|]. change (String a (String.append s "") = String a s). by rewrite IH. Qed.

Lemma append_assoc a b c : String.append (String.append a b) c = String.append a (String.append b c).
Proof.
  induction a as [|x a IH]; [done|].
  change (String x (String.append (String.append a b) c) = String x (String.append a (String.append b c))). by rewrite IH.
Qed.

Lemma str_all_app p a b : str_all p (String.append a b) = str_all p a && str_all p b.
Proof.
  induction a as [|x a IH]; [done|].
  change (String.append (String x a) b) with (String x (String.append a b)). cbn. by rewrite IH, andb_assoc.
Qed.

Lemma str_all_impl (p q : ascii -> bool) s : (forall a, p a = true -> q a = true) -> str_all p s = true -> str_all q s = true.
Proof.
  intros H. induction s as [|a s IH]; [done|]. cbn. intros [H1 H2]%andb_true_iff. by rewrite H, IH.
Qed.

Lemma split_on_app sep a b : str_all (fun c => negb (Ascii.eqb c sep)) a = true ->
  split_on sep (String.append a (String sep b)) = a :: split_on sep b.
Proof.
  induction a as [|x a IH]; intros H.
  - change (String.append "" (String sep b)) with (String sep b). cbn. by rewrite Ascii.eqb_refl.
  - change (String.append (String x a) (String sep b)) with (String x (String.append a (String sep b))).
    cbn in *. apply andb_true_iff in H as [Hx%negb_true_iff Ha]. by rewrite Hx, IH.
Qed.

Lemma split_on_none sep a : str_all (fun c => negb (Ascii.eqb c sep)) a = true -> split_on sep a = [a].
Proof.
  induction a as [|x a IH]; [done|]. cbn. intros [Hx%negb_true_iff Ha]%andb_true_iff. by rewrite Hx, IH.
Qed.

Lemma strip_no_space s : str_all (fun c => negb (is_space c)) s = true -> strip s = s.
Proof.
  intros H. unfold strip. assert (lstrip s = s) as ->.
  { destruct s as [|a s]; [done|]. cbn in *. apply andb_true_iff in H as [Ha%negb_true_iff _]. by rewrite Ha. }
  induction s as [|a s IH]; [done|]. cbn in *. apply andb_true_iff in H as [Ha%negb_true_iff Hs].
  rewrite IH by done. destruct s; [by rewrite Ha|done].
Qed.

(** Text that starts with a code point is cut where it was joined. *)
Lemma chars_app a s b : is_continuation b = false ->
  chars (String.append a (String b s)) = chars a ++ chars (String b s).
Proof.
  intros Hb. set (t := String b s). assert (exists c cs, chars t = String b c :: cs) as (c&cs&Ht).
  { unfold t. cbn. destruct (chars s) as [|[|b' c] cs]; [eauto..|]. destruct (is_continuation b'); eauto. }
  clearbody t. induction a as [|x a IH]; [done|].
  change (chars (String.append (String x a) t)) with (chars (String x (String.append a t))).
  cbn [chars]. rewrite IH, Ht.
  destruct (chars a) as [|[|y w] cs']; cbn; [by rewrite Hb|done|]. destruct (is_continuation y); done.
Qed.

Lemma py_lower_app a b : py_lower (String.append a b) = String.append (py_lower a) (py_lower b).
Proof.
  induction a as [|x a IH]; [done|].
  change (String.append (String x a) b) with (String x (String.append a b)). cbn. by rewrite IH.
Qed.

(** ** [repr] of a string and of a list of strings

    Exact for printable characters; the non-printable ones beyond ASCII, which
    Python writes as escapes, are left as they are. *)
Definition hex_digit (n : nat) : ascii :=
  ascii_of_nat (if (n <? 10)%nat then 48 + n else 87 + n).

Definition repr_char (quote a : ascii) : string :=
  let n := nat_of_ascii a in
  if Ascii.eqb a quote || (n =? 92)%nat then String "\"%char (String a "")
  else if (n =? 10)%nat then "\n" else if (n =? 13)%nat then "\r" else if (n =? 9)%nat then "\t"
  else if (n <? 32)%nat || (n =? 127)%nat
  then String.append "\x" (String (hex_digit (n / 16)) (String (hex_digit (n mod 16)) ""))
  else String a "".

Fixpoint repr_body (quote : ascii) (s : string) : string :=
  match s with
  | EmptyString => ""
  | String a s' => String.append (repr_char quote a) (repr_body quote s')
  end.

Definition single_quote : ascii := ascii_of_nat 39.
Definition double_quote : ascii := ascii_of_nat 34.

Definition py_repr (s : string) : string :=
  let q := if contains (String single_quote "") s && negb (contains (String double_quote "") s)
           then double_quote else single_quote in
  String q (String.append (repr_body q s) (String q "")).

Definition py_repr_list (l : list string) : string :=
  String.append "[" (String.append (join ", " (map py_repr l)) "]").

(** [str(v)] and [repr(v)] of the other values; the decimal text of a float is
    an argument. *)
Section py_str.
Variable float_repr : Q -> string.

Fixpoint py_repr_val (v : pyval) : string :=
  match v with
  | VNone => "None"
  | VBool b => if b then "True" else "False"
  | VInt z => pretty z
  | VFloat q => float_repr q
  | VStr s => py_repr s
  | VList l => join "" ["["; join ", " (map py_repr_val l); "]"]
  | VDict d => join "" ["{"; join ", " (map (fun kv => join ": " [py_repr kv.1; py_repr_val kv.2]) d); "}"]
  end.

Definition py_str (v : pyval) : string := match v with VStr s => s | _ => py_repr_val v end.
End py_str.

(** [s.replace(old, new)] for a text that is not empty: the occurrences from
    the left that do not overlap. *)
Fixpoint replace_from (old new : string) (skip : nat) (s : string) : string :=
  match s with
  | EmptyString => ""
  | String a s' =>
    match skip with
    | S k => replace_from old new k s'
    | O => if String.prefix old s then String.append new (replace_from old new (String.length old - 1) s')
           else String a (replace_from old new O s')
    end
  end.
Definition str_replace (old new s : string) : string := replace_from old new O s.

(** [s.split(sep)] for a separator that is not empty. *)
Fixpoint split_from (sep cur : string) (skip : nat) (s : string) : list string :=
  match s with
  | EmptyString => [cur]
  | String a s' =>
    match skip with
    | S k => split_from sep cur k s'
    | O => if String.prefix sep s then cur :: split_from sep "" (String.length sep - 1) s'
           else split_from sep (String.append cur (String a "")) O s'
    end
  end.
Definition str_split (sep s : string) : list string := split_from sep "" O s.

(** [iter(v)] *)
Definition py_iter (v : pyval) : result (list pyval) :=
  match v with
  | VList l => Ok l
  | VDict d => Ok (map (fun kv => VStr kv.1) d)
  | VStr s => Ok (map VStr (chars s))
  | _ => Raise (TypeError "not iterable")
  end.

Example repr_list_ex : py_repr_list ["ev_1"; "e'2"] = String.append "['ev_1', " (String.append (String double_quote (String.append "e'2" (String double_quote ""))) "]").
Proof. reflexivity. Qed.

Example chars_ex : chars "a中b" = ["a"; "中"; "b"]. Proof. reflexivity. Qed.
Example text_take_ex : text_take 2 "验证器" = "验证". Proof. reflexivity. Qed.
Example strip_ex : strip "  a b " = "a b". Proof. reflexivity. Qed.
