(* ===== verification/PyRegex.v ===== *)
(** * The regular expressions of the source

    [re.search(r"\bword\b", ...)], the runs of upper-case letters of the SQL
    blacklist, and the [FROM name] and [JOIN name] patterns, each as the scan the
    expression describes. *)

From S2P Require Import Prelude PyVal PyList PyText.
From Stdlib Require Import Ascii.

(** ** Whole words *)

Section words.
(** Whether a character beyond ASCII is a word character ([\w]). *)
Variable unicode_word : string -> bool.

Definition is_word_char (c : string) : bool :=
  match c with
  | String a EmptyString =>
    let n := Ascii.nat_of_ascii a in
    ((48 <=? n) && (n <=? 57))%nat || ((65 <=? n) && (n <=? 90))%nat
      || ((97 <=? n) && (n <=? 122))%nat || (n =? 95)%nat
  | _ => unicode_word c
  end.

(** [re.search(r"\bkw\b", text)]: an occurrence of the word with no word
    character on either side. *)
Fixpoint word_at (kw text : list string) : bool :=
  match kw, text with
  | [], [] => true
  | [], c :: _ => negb (is_word_char c)
  | k :: kw', c :: text' => String.eqb k c && word_at kw' text'
  | _ :: _, [] => false
  end.

Fixpoint search_word_from (before : bool) (kw text : list string) : bool :=
  (negb before && word_at kw text) ||
  match text with [] => false | c :: text' => search_word_from (is_word_char c) kw text' end.

Definition search_word (kw text : string) : bool := search_word_from false (chars kw) (chars text).

(** A word that follows a character that is none is found. *)
Lemma search_word_app kw l1 c l2 before :
  is_word_char c = false -> word_at kw l2 = true -> search_word_from before kw (l1 ++ c :: l2) = true.
Proof.
  intros Hc Hw. revert before. induction l1 as [|a l1 IH]; intros before; cbn.
  - rewrite Hc. destruct l2; cbn; rewrite Hw; cbn; apply orb_true_r.
  - rewrite IH. apply orb_true_r.
Qed.
End words.

(** ** Upper case *)

Definition upper_ascii (a : ascii) : ascii :=
  let n := nat_of_ascii a in
  if (97 <=? n)%nat && (n <=? 122)%nat then ascii_of_nat (n - 32) else a.

Fixpoint py_upper (s : string) : string :=
  match s with EmptyString => EmptyString | String a s' => String (upper_ascii a) (py_upper s') end.

(** [re.findall(r"[A-Z_]+", s)] *)
Definition is_upper_word (a : ascii) : bool :=
  let n := nat_of_ascii a in ((65 <=? n)%nat && (n <=? 90)%nat) || (n =? 95)%nat.

Fixpoint upper_runs (cur s : string) : list string :=
  match s with
  | EmptyString => if truthy cur then [cur] else []
  | String a s' =>
    if is_upper_word a then upper_runs (String.append cur (String a "")) s'
    else if truthy cur then cur :: upper_runs "" s' else upper_runs "" s'
  end.

(** [text.split()[0]] *)
Fixpoint first_word (s : string) : string :=
  match s with
  | EmptyString => ""
  | String a s' => if is_space a then "" else String a (first_word s')
  end.

(** ** [re.findall(r"KW\s+([a-zA-Z_][a-zA-Z0-9_]*\)", s, re.IGNORECASE)] *)

Definition is_ident_start (a : ascii) : bool :=
  let n := nat_of_ascii a in
  ((65 <=? n)%nat && (n <=? 90)%nat) || ((97 <=? n)%nat && (n <=? 122)%nat) || (n =? 95)%nat.
Definition is_ident (a : ascii) : bool :=
  let n := nat_of_ascii a in is_ident_start a || ((48 <=? n)%nat && (n <=? 57)%nat).

Fixpoint take_ident (s : string) : string :=
  match s with
  | EmptyString => ""
  | String a s' => if is_ident a then String a (take_ident s') else ""
  end.

(** The name after the (lower-case) keyword at the head of [s], and the number
    of bytes matched. *)
Definition name_at (kw s : string) : option (string * nat) :=
  if String.prefix kw (py_lower s) then
    let rest := String.substring (String.length kw) (String.length s) s in
    let body := lstrip rest in
    if String.eqb rest body then None
    else match body with
         | String a _ =>
           if is_ident_start a then
             Some (take_ident body, (String.length s - String.length body + String.length (take_ident body))%nat)
           else None
         | EmptyString => None
         end
  else None.

Fixpoint names_after (kw : string) (skip : nat) (s : string) : list string :=
  match s with
  | EmptyString => []
  | String _ s' =>
    match skip with
    | S k => names_after kw k s'
    | O => match name_at kw s with
           | Some (name, used) => name :: names_after kw (used - 1) s'
           | None => names_after kw 0 s'
           end
    end
  end.

Example names_after_ex : names_after "from" 0 "SELECT a FROM  t1 x join (select 1 From t_2)" = ["t1"; "t_2"].
Proof. reflexivity. Qed.
Example upper_runs_ex : upper_runs "" "SELECT X1_Y; DROP" = ["SELECT"; "X"; "_Y"; "DROP"].
Proof. reflexivity. Qed.

(** ** [re.findall] on code points

    A matcher gives the length of its match at the start of a text; the scan
    goes on after each match, or one character further. *)

Definition matcher := list string -> option nat.

Fixpoint findall_from (m : matcher) (skip : nat) (text : list string) : list string :=
  match text with
  | [] => []
  | _ :: text' =>
    match skip with
    | S k => findall_from m k text'
    | O => match m text with
           | Some (S n) => concat_chars (take (S n) text) :: findall_from m n text'
           | _ => findall_from m O text'
           end
    end
  end.

Definition findall (m : matcher) (text : string) : list string := findall_from m O (chars text).

(** The longest run of characters that satisfy a test. *)
Fixpoint run (p : string -> bool) (text : list string) : nat :=
  match text with c :: text' => if p c then S (run p text') else O | [] => O end.

(** Exactly the characters [cs], and a bounded run followed by one of them. *)
Fixpoint literal (cs text : list string) : bool :=
  match cs, text with
  | [], _ => true
  | c :: cs', x :: text' => String.eqb c x && literal cs' text'
  | _ :: _, [] => false
  end.

(** Every match of a scan is a match of the matcher somewhere in the text. *)
Lemma findall_from_sound m skip text x : x ∈ findall_from m skip text ->
  exists l1 l2 n, text = l1 ++ l2 /\ m l2 = Some (S n) /\ x = concat_chars (take (S n) l2).
Proof.
  revert skip. induction text as [|c text IH]; intros skip; cbn [findall_from]; [by intros ?%not_elem_of_nil|].
  assert (forall k, x ∈ findall_from m k text -> exists l1 l2 n, c :: text = l1 ++ l2 /\ m l2 = Some (S n) /\
            x = concat_chars (take (S n) l2)) as Hrec.
  { intros k (l1 & l2 & n & -> & ? & ?)%IH. by exists (c :: l1), l2, n. }
  destruct skip as [|k]; [|by apply Hrec]. destruct (m (c :: text)) as [[|n]|] eqn:E; [by apply Hrec| |by apply Hrec].
  intros [->|H]%elem_of_cons; [by exists [], (c :: text), n|by apply (Hrec n)].
Qed.
