(* ===== verification/RegExp.v ===== *)
(** * Regular expressions as data

    The routers and the audit compile patterns with [re].  A pattern here is a
    syntax tree over characters, searched with derivatives; the scan is proved
    to find exactly the matches the tree denotes.  Case-insensitive patterns
    are written in lower case and searched in the lower-cased text. *)

From S2P Require Import Prelude PyVal PyList PyText PyRegex.
From Stdlib Require Import Ascii.

Inductive re : Type :=
  | RVoid
  | REps
  | RSet (p : string -> bool)
  | RCat (r s : re)
  | RAlt (r s : re)
  | RStar (r : re).

(** ** What a pattern matches *)

Inductive re_matches : re -> list string -> Prop :=
  | m_eps : re_matches REps []
  | m_set p c : p c = true -> re_matches (RSet p) [c]
  | m_cat r s l1 l2 : re_matches r l1 -> re_matches s l2 -> re_matches (RCat r s) (l1 ++ l2)
  | m_left r s l : re_matches r l -> re_matches (RAlt r s) l
  | m_right r s l : re_matches s l -> re_matches (RAlt r s) l
  | m_star_nil r : re_matches (RStar r) []
  | m_star r l1 l2 : re_matches r l1 -> re_matches (RStar r) l2 -> re_matches (RStar r) (l1 ++ l2).

(** ** Derivatives *)

Fixpoint nullable (r : re) : bool :=
  match r with
  | RVoid | RSet _ => false
  | REps | RStar _ => true
  | RCat r s => nullable r && nullable s
  | RAlt r s => nullable r || nullable s
  end.

(** Constructors that drop what cannot match. *)
Definition cat (r s : re) : re := match r, s with RVoid, _ | _, RVoid => RVoid | REps, _ => s | _, _ => RCat r s end.
Definition alt (r s : re) : re := match r, s with RVoid, _ => s | _, RVoid => r | _, _ => RAlt r s end.

Fixpoint deriv (c : string) (r : re) : re :=
  match r with
  | RVoid | REps => RVoid
  | RSet p => if p c then REps else RVoid
  | RCat r s => if nullable r then alt (cat (deriv c r) s) (deriv c s) else cat (deriv c r) s
  | RAlt r s => alt (deriv c r) (deriv c s)
  | RStar r' => cat (deriv c r') (RStar r')
  end.

Fixpoint accepts_re (r : re) (l : list string) : bool :=
  match l with [] => nullable r | c :: l' => accepts_re (deriv c r) l' end.

(** ** Searching *)

(** What must follow a match: nothing in particular, the end of the text (or
    its last newline), or a word boundary. *)
Inductive re_tail : Type := TAny | TEnd | TBoundary.

Definition newline_char : string := String (ascii_of_nat 10) "".

Section search.
Variable unicode_word : string -> bool.

Definition word_opt (o : option string) : bool := match o with Some c => is_word_char unicode_word c | None => false end.

Definition tail_ok (t : re_tail) (last : option string) (rest : list string) : bool :=
  match t with
  | TAny => true
  | TEnd => match rest with [] => true | [c] => String.eqb c newline_char | _ => false end
  | TBoundary => xorb (word_opt last) (word_opt (head rest))
  end.

(** A match that starts here; [last] is the character before. *)
Fixpoint match_here (r : re) (t : re_tail) (last : option string) (text : list string) : bool :=
  (nullable r && tail_ok t last text) ||
  match text with [] => false | c :: text' => match_here (deriv c r) t (Some c) text' end.

Fixpoint search_from (r : re) (t : re_tail) (last : option string) (text : list string) : bool :=
  match_here r t last text || match text with [] => false | c :: text' => search_from r t (Some c) text' end.

(** [re.search] of a pattern, which may start with [^]. *)
Record pattern : Type := mkPattern { pt_start : bool; pt_body : re; pt_tail : re_tail }.

Definition search_chars (p : pattern) (text : list string) : bool :=
  if pt_start p then match_here (pt_body p) (pt_tail p) None text else search_from (pt_body p) (pt_tail p) None text.
Definition search (p : pattern) (s : string) : bool := search_chars p (chars s).
End search.

(** The longest match at the start of a text: the match of [re] for patterns
    whose repetitions are greedy and never compete for a character. *)
Fixpoint longest_from (r : re) (n : nat) (best : option nat) (text : list string) : option nat :=
  let best := if nullable r then Some n else best in
  match text with [] => best | c :: text' => longest_from (deriv c r) (S n) best text' end.
Definition longest (r : re) : matcher := longest_from r O None.

(** [re.sub] of such a pattern; [skip] characters of the last match are still
    to be dropped. *)
Fixpoint sub_from (m : matcher) (replacement : list string) (skip : nat) (text : list string) : list string :=
  match text with
  | [] => []
  | c :: text' =>
    match skip with
    | S k => sub_from m replacement k text'
    | O => match m text with
           | Some (S n) => replacement ++ sub_from m replacement n text'
           | _ => c :: sub_from m replacement O text'
           end
    end
  end.
Definition re_sub (r : re) (replacement s : string) : string := concat_chars (sub_from (longest r) (chars replacement) O (chars s)).

(** The first match, where it is not empty ([match.group(0)]). *)
Definition first_match (r : re) (text : list string) : option string := head (findall_from (longest r) O text).

(** ** Building patterns *)

Definition lit (s : string) : re := fold_right (fun c r => cat (RSet (String.eqb c)) r) REps (chars s).
Definition any_lit (l : list string) : re := fold_right (fun s r => alt (lit s) r) RVoid l.
Definition one_in (s : string) : re := RSet (fun c => str_in c (chars s)).
Definition none_in (s : string) : re := RSet (fun c => negb (str_in c (chars s))).
Definition opt (r : re) : re := RAlt REps r.
Definition plus (r : re) : re := RCat r (RStar r).
Fixpoint times (n : nat) (r : re) : re := match n with O => REps | S k => cat r (times k r) end.
Definition at_least (n : nat) (r : re) : re := RCat (times n r) (RStar r).
Fixpoint up_to (n : nat) (r : re) : re := match n with O => REps | S k => opt (RCat r (up_to k r)) end.
Definition between (lo hi : nat) (r : re) : re := cat (times lo r) (up_to (hi - lo) r).
Fixpoint seq (l : list re) : re := match l with [] => REps | [r] => r | r :: l' => cat r (seq l') end.
(** [.], which is any character but a newline. *)
Definition dot : re := RSet (fun c => negb (String.eqb c newline_char)).

(** ** Correctness *)

Lemma nullable_spec r : nullable r = true <-> re_matches r [].
Proof.
  split.
  - induction r; cbn; try done; try (by constructor).
    + intros [H1 H2]%andb_true_iff. apply (m_cat _ _ [] []); auto.
    + intros [H|H]%orb_true_iff; [apply m_left|apply m_right]; auto.
  - remember [] as l eqn:El. induction 1; cbn; try done.
    + apply app_eq_nil in El as [-> ->]. by rewrite IHre_matches1, IHre_matches2.
    + by rewrite IHre_matches.
    + rewrite IHre_matches by done. apply orb_true_r.
Qed.

Lemma matches_void l : ~ re_matches RVoid l.
Proof. intros H. inversion H. Qed.

Lemma cat_inv r s l : re_matches (RCat r s) l -> exists l1 l2, l = l1 ++ l2 /\ re_matches r l1 /\ re_matches s l2.
Proof. intros H. inversion H; subst; eauto. Qed.

Lemma cat_spec r s l : re_matches (cat r s) l <-> re_matches (RCat r s) l.
Proof.
  assert (forall s l, re_matches (RCat REps s) l <-> re_matches s l) as He.
  { intros s0 l0. split.
    - intros (l1 & l2 & -> & H1 & H2)%cat_inv. by inversion H1; subst.
    - intros H. by apply (m_cat _ _ [] l0); [constructor|]. }
  split.
  - destruct r, s; cbn; try done; try (intros H; by apply matches_void in H); intros H; apply (proj2 (He _ _)); exact H.
  - intros H. destruct r; [destruct s; cbn; apply cat_inv in H as (l1 & l2 & -> & H1 & _); by apply matches_void in H1| |..];
      try (destruct s; try done; cbn; apply cat_inv in H as (l1 & l2 & -> & _ & H2); by apply matches_void in H2).
    apply (proj1 (He _ _)) in H. destruct s; exact H.
Qed.

Lemma alt_spec r s l : re_matches (alt r s) l <-> re_matches r l \/ re_matches s l.
Proof.
  assert (forall r s, re_matches (RAlt r s) l <-> re_matches r l \/ re_matches s l) as Ha.
  { intros r0 s0. split; [intros H; inversion H; auto|intros [H|H]; [by apply m_left|by apply m_right]]. }
  assert (forall r, re_matches r l <-> re_matches r l \/ re_matches RVoid l) as Hr.
  { intros r0. split; [by left|intros [?|H]; [done|by apply matches_void in H]]. }
  assert (forall r, re_matches r l <-> re_matches RVoid l \/ re_matches r l) as Hl by (intros r0; rewrite (Hr r0) at 1; tauto).
  destruct r, s; cbn; first [apply Ha | apply Hr | apply Hl].
Qed.

Lemma star_cons r c l : re_matches (RStar r) (c :: l) -> exists l1 l2, l = l1 ++ l2 /\ re_matches r (c :: l1) /\ re_matches (RStar r) l2.
Proof.
  remember (RStar r) as s eqn:Es. remember (c :: l) as m eqn:Em. intros H. revert c l Em. induction H; intros c0 l0 Em; try done.
  injection Es as ->. destruct l1 as [|x l1]; [cbn in Em; subst; by apply IHre_matches2|].
  injection Em as <- <-. by exists l1, l2.
Qed.

Lemma deriv_spec c r l : re_matches (deriv c r) l <-> re_matches r (c :: l).
Proof.
  revert l. induction r as [| |p|r IHr s IHs|r IHr s IHs|r IHr]; intros l; cbn [deriv].
  - split; intros H; inversion H.
  - split; intros H; inversion H.
  - split.
    + destruct (p c) eqn:E; intros H; inversion H; subst. by constructor.
    + intros H. inversion H; subst. rewrite H2. constructor.
  - assert (re_matches (cat (deriv c r) s) l <-> exists l1 l2, l = l1 ++ l2 /\ re_matches r (c :: l1) /\ re_matches s l2) as Hc.
    { rewrite cat_spec. split.
      - intros H. inversion H; subst. exists l1, l2. by rewrite <- IHr.
      - intros (l1 & l2 & -> & H1 & H2). constructor; [by apply IHr|done]. }
    split.
    + intros H. assert (re_matches (cat (deriv c r) s) l \/ nullable r = true /\ re_matches (deriv c s) l) as [H'|[Hn H']].
      { destruct (nullable r); [apply alt_spec in H as [?|?]; auto|auto]. }
      * apply Hc in H' as (l1 & l2 & -> & H1 & H2). by apply (m_cat r s (c :: l1) l2).
      * apply (m_cat r s [] (c :: l)); [by apply nullable_spec|by apply IHs].
    + intros H. inversion H as [| |? ? l1 l2 H1 H2 E1 E2| | | |]; subst. destruct l1 as [|x l1].
      * cbn in E2. subst l2. rewrite (proj2 (nullable_spec r) H1). apply alt_spec. right. by apply IHs.
      * injection E2 as -> <-. assert (re_matches (cat (deriv c r) s) (l1 ++ l2)) by (apply Hc; eauto).
        destruct (nullable r); [apply alt_spec; by left|done].
  - rewrite alt_spec, IHr, IHs. split; [intros [H|H]; [by apply m_left|by apply m_right]|intros H; inversion H; auto].
  - rewrite cat_spec. split.
    + intros H. inversion H; subst. apply (m_star r (c :: l1) l2); [by apply IHr|done].
    + intros (l1 & l2 & -> & H1 & H2)%star_cons. constructor; [by apply IHr|done].
Qed.

Lemma accepts_re_spec r l : accepts_re r l = true <-> re_matches r l.
Proof.
  revert r. induction l as [|c l IH]; intros r; cbn [accepts_re]; [apply nullable_spec|]. by rewrite IH, deriv_spec.
Qed.

(** The last character of [l], or what came before it. *)
Definition last_of (before : option string) (l : list string) : option string := match last l with Some c => Some c | None => before end.

Lemma last_of_cons before c l : last_of before (c :: l) = last_of (Some c) l.
Proof. unfold last_of. destruct l as [|x l]; [done|]. rewrite last_cons_cons. by destruct (last (x :: l)) eqn:E; [|apply last_None in E]. Qed.

Section found.
Variable unicode_word : string -> bool.

Lemma match_here_spec r t before text :
  match_here unicode_word r t before text = true <->
  exists m rest, text = m ++ rest /\ re_matches r m /\ tail_ok unicode_word t (last_of before m) rest = true.
Proof.
  revert r before. induction text as [|c text IH]; intros r before; cbn [match_here]; rewrite orb_true_iff, andb_true_iff, nullable_spec.
  - split.
    + intros [[H1 H2]|?]; [|done]. by exists [], [].
    + intros (m & rest & [-> ->]%eq_sym%app_eq_nil & H1 & H2). by left.
  - rewrite IH. split.
    + intros [[H1 H2]|(m & rest & -> & H1 & H2)]; [by exists [], (c :: text)|].
      exists (c :: m), rest. rewrite last_of_cons. by apply deriv_spec in H1.
    + intros (m & rest & Heq & H1 & H2). destruct m as [|x m]; [cbn in Heq; subst rest; by left|].
      injection Heq as <- ->. right. exists m, rest. rewrite last_of_cons in H2. by rewrite deriv_spec.
Qed.

Lemma search_from_spec r t before text :
  search_from unicode_word r t before text = true <->
  exists pre m rest, text = pre ++ m ++ rest /\ re_matches r m /\ tail_ok unicode_word t (last_of before (pre ++ m)) rest = true.
Proof.
  revert before. induction text as [|c text IH]; intros before; cbn [search_from]; rewrite orb_true_iff, match_here_spec.
  - split.
    + intros [(m & rest & H)|?]; [|done]. by exists [], m, rest.
    + intros (pre & m & rest & [-> H]%eq_sym%app_eq_nil & H1 & H2). left. by exists m, rest.
  - rewrite IH. split.
    + intros [(m & rest & H)|(pre & m & rest & -> & H1 & H2)]; [by exists [], m, rest|].
      exists (c :: pre), m, rest. cbn [app]. by rewrite last_of_cons.
    + intros (pre & m & rest & Heq & H1 & H2). destruct pre as [|x pre]; [left; by exists m, rest|].
      injection Heq as <- ->. right. exists pre, m, rest. cbn [app] in H2. by rewrite last_of_cons in H2.
Qed.

(** A search finds a match exactly when the text has one. *)
Theorem search_found p s : search unicode_word p s = true <->
  exists pre m rest, chars s = pre ++ m ++ rest /\ (pt_start p = true -> pre = []) /\ re_matches (pt_body p) m /\
    tail_ok unicode_word (pt_tail p) (last_of None (pre ++ m)) rest = true.
Proof.
  unfold search, search_chars. destruct (pt_start p).
  - rewrite match_here_spec. split.
    + intros (m & rest & H & ? & ?). by exists [], m, rest.
    + intros (pre & m & rest & H & Hp & ? & ?). rewrite Hp in * by done. by exists m, rest.
  - rewrite search_from_spec. split; intros (pre & m & rest & H).
    + exists pre, m, rest. destruct H as (? & ? & ?). by split_and!.
    + exists pre, m, rest. by destruct H as (? & _ & ? & ?).
Qed.
End found.
