(* ===== verification/PyTime.v ===== *)
(** * Python dates

    [datetime.strftime] and [datetime.strptime] for the one format the code
    uses, ["%Y-%m-%dT%H:%M:%SZ"], and differences of UTC instants. *)

From S2P Require Import Prelude PyFloat PyVal PyText.
From Stdlib Require Import Ascii.

#[local] Open Scope Z_scope.

(** A UTC [datetime]. *)
Record datetime : Type := mkDatetime {
  dt_year : Z; dt_month : Z; dt_day : Z; dt_hour : Z; dt_minute : Z; dt_second : Z; dt_micro : Z }.

Definition is_leap (y : Z) : bool :=
  (y mod 4 =? 0) && (negb (y mod 100 =? 0) || (y mod 400 =? 0)).

Definition month_lengths : list Z := [31; 28; 31; 30; 31; 30; 31; 31; 30; 31; 30; 31].

Definition days_in_month (y m : Z) : Z :=
  if (m =? 2) && is_leap y then 29 else nth (Z.to_nat (m - 1)) month_lengths 0.

Definition valid_datetime (d : datetime) : bool :=
  (1 <=? dt_year d) && (dt_year d <=? 9999) && (1 <=? dt_month d) && (dt_month d <=? 12) &&
  (1 <=? dt_day d) && (dt_day d <=? days_in_month (dt_year d) (dt_month d)) &&
  (0 <=? dt_hour d) && (dt_hour d <=? 23) && (0 <=? dt_minute d) && (dt_minute d <=? 59) &&
  (0 <=? dt_second d) && (dt_second d <=? 59) && (0 <=? dt_micro d) && (dt_micro d <=? 999999).

(** ** Instants *)

(** Days before a year, and before a month of it. *)
Definition days_before_year (y : Z) : Z :=
  let p := y - 1 in p * 365 + p / 4 - p / 100 + p / 400.

Definition days_before_month (y m : Z) : Z :=
  fold_left Z.add (take (Z.to_nat (m - 1)) month_lengths) 0 + if (2 <? m) && is_leap y then 1 else 0.

Definition to_ordinal (d : datetime) : Z :=
  days_before_year (dt_year d) + days_before_month (dt_year d) (dt_month d) + dt_day d.

Definition to_micros (d : datetime) : Z :=
  (((to_ordinal d * 24 + dt_hour d) * 60 + dt_minute d) * 60 + dt_second d) * 1000000 + dt_micro d.

(** [(a - b).total_seconds()], a float. *)
Definition total_seconds (a b : datetime) : Q := rnd (inject_Z (to_micros a - to_micros b) / inject_Z 1000000).

(** ** Text *)

Definition digit (n : Z) : ascii := ascii_of_nat (48 + Z.to_nat n).
Definition pad2 (n : Z) : list ascii := [digit (n / 10); digit (n mod 10)].
Definition pad4 (n : Z) : list ascii :=
  [digit (n / 1000); digit (n / 100 mod 10); digit (n / 10 mod 10); digit (n mod 10)].

(** The format, as characters; the year of a clock has four digits. *)
Definition format_iso (d : datetime) : list ascii :=
  (pad4 (dt_year d) ++ "-" :: pad2 (dt_month d) ++ "-" :: pad2 (dt_day d) ++ "T" ::
   pad2 (dt_hour d) ++ ":" :: pad2 (dt_minute d) ++ ":" :: pad2 (dt_second d) ++ ["Z"])%char.

Definition strftime_iso (d : datetime) : string := String.string_of_list_ascii (format_iso d).

Definition digit_value (a : ascii) : option Z :=
  let n := nat_of_ascii a in
  if (48 <=? n)%nat && (n <=? 57)%nat then Some (Z.of_nat (n - 48)) else None.

(** A number of one or two digits within bounds; a two-digit reading is
    preferred.  What follows it in the format is never a digit. *)
Definition take_num (lo hi : Z) (s : list ascii) : option (Z * list ascii) :=
  match s with
  | a :: s1 =>
    match digit_value a with
    | None => None
    | Some x =>
      let one := if (lo <=? x) && (x <=? hi) then Some (x, s1) else None in
      match s1 with
      | b :: s2 =>
        match digit_value b with
        | Some y => if (lo <=? 10 * x + y) && (10 * x + y <=? hi) then Some (10 * x + y, s2) else one
        | None => one
        end
      | [] => one
      end
    end
  | [] => None
  end.

Definition take_year (s : list ascii) : option (Z * list ascii) :=
  match s with
  | a :: b :: c :: d :: s' =>
    match digit_value a, digit_value b, digit_value c, digit_value d with
    | Some x, Some y, Some z, Some w => Some (1000 * x + 100 * y + 10 * z + w, s')
    | _, _, _, _ => None
    end
  | _ => None
  end.

(** The day may be written with a leading blank. *)
Definition take_day (s : list ascii) : option (Z * list ascii) :=
  match s with
  | a :: s' => if (Ascii.eqb a " ")%char
               then match s' with b :: s2 => match digit_value b with
                      | Some x => if 1 <=? x then Some (x, s2) else None | None => None end
                    | [] => None end
               else take_num 1 31 s
  | [] => None
  end.

(** The letters of the format are matched without regard to case. *)
Definition take_char (c : ascii) (s : list ascii) : option (list ascii) :=
  match s with
  | a :: s' => if Ascii.eqb (lower_ascii a) (lower_ascii c) then Some s' else None
  | [] => None
  end.

Notation "'let?' x ':=' m 'in' k" := (match m with Some x => k | None => None end)
  (at level 10, x pattern, m at level 100, k at level 200) : py_scope.

(** [datetime.strptime(s, "%Y-%m-%dT%H:%M:%SZ")]; [None] stands for the
    [ValueError], of the pattern or of the date. *)
Definition parse_iso (s : list ascii) : option datetime :=
  let? (year, s) := take_year s in let? s := take_char "-" s in
  let? (month, s) := take_num 1 12 s in let? s := take_char "-" s in
  let? (day, s) := take_day s in let? s := take_char "T" s in
  let? (hour, s) := take_num 0 23 s in let? s := take_char ":" s in
  let? (minute, s) := take_num 0 59 s in let? s := take_char ":" s in
  let? (second, s) := take_num 0 61 s in let? s := take_char "Z" s in
  match s with
  | [] => let d := mkDatetime year month day hour minute second 0 in
          if valid_datetime d then Some d else None
  | _ => None
  end.

Definition strptime_iso (s : string) : option datetime := parse_iso (String.list_ascii_of_string s).

(** ** A formatted date is read back, without its microseconds *)

Lemma digit_value_digit n : 0 <= n <= 9 -> digit_value (digit n) = Some n.
Proof.
  intros H. assert (Forall (fun k => digit_value (digit (Z.of_nat k)) = Some (Z.of_nat k)) (seq 0 10)) as Hall
    by (repeat constructor).
  rewrite Forall_forall in Hall. specialize (Hall (Z.to_nat n)). rewrite Z2Nat.id in Hall by lia.
  apply Hall, elem_of_seq. lia.
Qed.

Lemma take_num_pad2 lo hi n s : 0 <= n <= 99 -> lo <= n <= hi -> take_num lo hi (pad2 n ++ s) = Some (n, s).
Proof.
  intros Hn Hb. unfold pad2. cbn [app take_num].
  rewrite !digit_value_digit by (Z.to_euclidean_division_equations; lia).
  replace (10 * (n / 10) + n mod 10) with n by (Z.to_euclidean_division_equations; lia).
  rewrite (proj2 (Z.leb_le lo n)), (proj2 (Z.leb_le n hi)) by lia. done.
Qed.

Lemma take_year_pad4 n s : 0 <= n <= 9999 -> take_year (pad4 n ++ s) = Some (n, s).
Proof.
  intros Hn. unfold pad4. cbn [app take_year].
  rewrite !digit_value_digit by (Z.to_euclidean_division_equations; lia).
  do 2 f_equal. Z.to_euclidean_division_equations; lia.
Qed.

Lemma take_day_pad2 n s : 1 <= n <= 31 -> take_day (pad2 n ++ s) = Some (n, s).
Proof.
  intros Hn. rewrite <- (take_num_pad2 1 31 n s) by lia. unfold take_day, pad2. cbn [app].
  destruct (Ascii.eqb_spec (digit (n / 10)) " ") as [E|]; [|done].
  assert (digit_value (digit (n / 10)) = Some (n / 10)) as H
    by (apply digit_value_digit; Z.to_euclidean_division_equations; lia).
  by rewrite E in H.
Qed.

Lemma take_char_hit c s : take_char c (c :: s) = Some s.
Proof. unfold take_char. by rewrite Ascii.eqb_refl. Qed.

Lemma days_in_month_le y m : days_in_month y m <= 31.
Proof.
  unfold days_in_month. destruct (_ && _); [lia|].
  assert (Forall (fun d => d <= 31) month_lengths) as H by (repeat constructor; lia).
  destruct (nth_in_or_default (Z.to_nat (m - 1)) month_lengths 0) as [Hin| ->]; [|lia].
  rewrite List.Forall_forall in H. by apply H.
Qed.

Lemma strptime_strftime d : valid_datetime d = true ->
  strptime_iso (strftime_iso d) =
  Some (mkDatetime (dt_year d) (dt_month d) (dt_day d) (dt_hour d) (dt_minute d) (dt_second d) 0).
Proof.
  intros Hv. pose proof Hv as Hb. unfold valid_datetime in Hb. bool_facts.
  pose proof (days_in_month_le (dt_year d) (dt_month d)).
  unfold strptime_iso, strftime_iso, parse_iso, format_iso.
  rewrite String.list_ascii_of_string_of_list_ascii, take_year_pad4 by lia.
  rewrite take_char_hit, take_num_pad2, take_char_hit, take_day_pad2, take_char_hit by lia.
  rewrite take_num_pad2, take_char_hit, take_num_pad2, take_char_hit, take_num_pad2, take_char_hit by lia.
  match goal with |- context [valid_datetime ?e] => assert (valid_datetime e = true) as -> end; [|done].
  unfold valid_datetime. cbn [dt_year dt_month dt_day dt_hour dt_minute dt_second dt_micro].
  repeat (apply andb_true_iff; split); by apply Z.leb_le.
Qed.

Example strftime_ex : strftime_iso (mkDatetime 2026 3 7 9 5 0 120) = "2026-03-07T09:05:00Z".
Proof. reflexivity. Qed.
Example strptime_ex : strptime_iso "2024-2-29t23:59:09z" = Some (mkDatetime 2024 2 29 23 59 9 0).
Proof. reflexivity. Qed.
Example strptime_ex2 : strptime_iso "2023-02-29T00:00:00Z" = None. Proof. reflexivity. Qed.
