(* ===== verification/Evidence.v ===== *)
(** * Evidence: snapshots and fusion
    (evidence/models.py, evidence/snapshot.py, evidence/fusion.py and the list
    operations of nodes/evidence_fusion.py)

    [Evidence] is a dictionary with optional keys: a field is [None] when the
    key is absent.  Of [metadata] the record keeps the keys that the modelled
    code reads. *)

From S2P Require Import Prelude PyFloat PyVal PyList PyText.

Record Evidence : Type := mkEvidence {
  ev_evidence_id : option string;
  ev_source_type : option string;
  ev_title : option string;
  ev_content : option string;
  ev_source_uri : option string;
  ev_tenant_id : option string;
  ev_confidence : option Q;
  ev_relevance_score : option Q;
  ev_authority_score : option Q;
  ev_freshness_score : option Q;
  ev_md_tool_run_id : option string;
  ev_md_run_id : option string;
}.

(** [ev.get("evidence_id", "")] and the like. *)
Definition ev_id (e : Evidence) : string := get_or (ev_evidence_id e) "".
Definition ev_source (e : Evidence) : string := get_or (ev_source_type e) "".

(** Reading the dictionary: an absent key stays absent. *)
Definition opt_field {A} (f : pyval -> result A) (k : string) (d : pydict) : result (option A) :=
  match dlookup k d with
  | None => Ok None
  | Some v => let! a := f v in Ok (Some a)
  end.

Definition evidence_of_dict (d : pydict) : result Evidence :=
  let! evidence_id := opt_field as_str "evidence_id" d in
  let! source_type := opt_field as_str "source_type" d in
  let! title := opt_field as_str "title" d in
  let! content := opt_field as_str "content" d in
  let! source_uri := opt_field as_str "source_uri" d in
  let! tenant_id := opt_field as_str "tenant_id" d in
  let! confidence := opt_field as_float "confidence" d in
  let! relevance := opt_field as_float "relevance_score" d in
  let! authority := opt_field as_float "authority_score" d in
  let! freshness := opt_field as_float "freshness_score" d in
  let! metadata := match dlookup "metadata" d with
                   | Some v => if truthy v then as_dict v else Ok []
                   | None => Ok []
                   end in
  let! tool_run_id := opt_field as_str "tool_run_id" metadata in
  let! run_id := opt_field as_str "run_id" metadata in
  Ok (mkEvidence evidence_id source_type title content source_uri tenant_id confidence relevance authority freshness tool_run_id run_id).

(** ** Snapshots (evidence/snapshot.py) *)

Record EvidenceSnapshot : Type := mkSnapshot {
  sn_snapshot_id : string;
  sn_evidences : list Evidence;
  sn_created_at : string;
  sn_tool_run_id : string;
  sn_attempt_id : Z;
  sn_schema_version : string;
}.

Section snapshot_id.
(** [hashlib.sha256(raw.encode("utf-8")).hexdigest()] *)
Variable sha256_hex : string -> string.

Definition make_snapshot_id (evidences : list Evidence) : string :=
  match evidences with
  | [] => "es_empty"
  | _ => String.append "es_" (text_take 16 (sha256_hex (join "|" (py_sorted (map ev_id evidences)))))
  end.

(** [EvidenceSnapshot.build]; [now] is the creation time string. *)
Definition build_snapshot (now : string) (evidences : list Evidence)
  (tool_run_id : string) (attempt_id : Z) : EvidenceSnapshot :=
  mkSnapshot (make_snapshot_id evidences) evidences now tool_run_id attempt_id "1.0".
End snapshot_id.

Definition get_evidences (s : EvidenceSnapshot) : list Evidence := sn_evidences s.

Definition get_evidence_by_id (s : EvidenceSnapshot) (eid : string) : option Evidence :=
  List.find (fun e => match ev_evidence_id e with
                      | Some i => String.eqb i eid
                      | None => false
                      end) (sn_evidences s).

(** 1-based. *)
Definition get_evidence_by_index (s : EvidenceSnapshot) (index : Z) : option Evidence :=
  if (index <? 1)%Z || (index >? py_len (sn_evidences s))%Z then None
  else sn_evidences s !! Z.to_nat (index - 1).

Definition source_is (st : string) (e : Evidence) : bool :=
  match ev_source_type e with Some s => String.eqb s st | None => false end.

Definition count_by_source_type (s : EvidenceSnapshot) (st : string) : Z :=
  py_len (List.filter (source_is st) (sn_evidences s)).

Definition snapshot_to_dict (s : EvidenceSnapshot) : pydict :=
  [ ("schema_version", VStr (sn_schema_version s));
    ("snapshot_id", VStr (sn_snapshot_id s));
    ("evidence_count", VInt (py_len (sn_evidences s)));
    ("created_at", VStr (sn_created_at s));
    ("tool_run_id", VStr (sn_tool_run_id s));
    ("attempt_id", VInt (sn_attempt_id s));
    ("source_type_counts",
      VDict (map (fun st => (st, VInt (count_by_source_type s st))) ["rag"; "db"; "web"; "report"])) ].

(** ** Fusion (evidence/fusion.py) *)

(** [float(x or 0.5)]: a score of [0.0] is falsy and is replaced too. *)
Definition score_or_half (x : option Q) : Q :=
  match x with Some q => if Qeq_bool q 0 then 1 # 2 else q | None => 1 # 2 end.

Definition evidence_weight (e : Evidence) : Q :=
  fadd (fadd (fmul (score_or_half (ev_authority_score e)) (rnd (4 # 10)))
             (fmul (score_or_half (ev_relevance_score e)) (rnd (4 # 10))))
       (fmul (score_or_half (ev_freshness_score e)) (rnd (2 # 10))).

Record Conflict : Type := mkConflict {
  cf_type : string; cf_evidence_ids : list string; cf_description : string }.

(** Share of the characters of the first head that occur in the second. *)
Definition head_overlap (a b : string) : Q :=
  let ha := py_take 50 (chars a) in
  let hb := py_take 50 (chars b) in
  fdiv (fint (py_len (List.filter (fun c => str_in c hb) ha))) (fint (Z.max (py_len ha) 1)).

Definition pair_conflict (ty description : string) (hi lo : Evidence) : list Conflict :=
  let ch := get_or (ev_content hi) "" in
  let cl := get_or (ev_content lo) "" in
  if truthy ch && truthy cl then
    if flt (head_overlap ch cl) (rnd (3 # 10))
    then [mkConflict ty [ev_id hi; ev_id lo] description]
    else []
  else [].

Definition conflicts_between (his los : list Evidence) (ty description : string) : list Conflict :=
  concat (map (fun hi => concat (map (pair_conflict ty description hi) los)) his).

Definition detect_conflicts (evs : list Evidence) : list Conflict :=
  let db := List.filter (source_is "db") evs in
  let rest := List.filter (source_is "rest") evs in
  let web := List.filter (source_is "web") evs in
  conflicts_between db rest "db_rest_low_overlap" "DB 事实与 ERP 系统数据相关性较低，需人工核查" ++
  conflicts_between db web "db_web_low_overlap" "DB 事实与 Web 结果相关性较低，需人工核查" ++
  conflicts_between rest web "rest_web_low_overlap" "ERP 系统数据与 Web 结果相关性较低，需人工核查".

(** Step 1 of [fuse_evidences]: first occurrence of each non-empty id. *)
Fixpoint dedup_by_id (seen : list string) (evs : list Evidence) : list Evidence :=
  match evs with
  | [] => []
  | e :: evs' =>
    let eid := ev_id e in
    if negb (truthy eid) || str_in eid seen then dedup_by_id seen evs'
    else e :: dedup_by_id (eid :: seen) evs'
  end.

Record FusionResult : Type := mkFusion {
  fr_fused : list Evidence;
  fr_fused_count : Z;
  fr_conflicts : list Conflict;
  fr_token_budget : Z;
  fr_dropped_count : Z;
}.

Definition fuse_evidences (evs : list Evidence) (max_count token_budget : Z) : FusionResult :=
  match evs with
  | [] => mkFusion [] 0 [] token_budget 0
  | _ =>
    let deduped := sort_desc evidence_weight (dedup_by_id [] evs) in
    let conflicts := detect_conflicts deduped in
    let fused := py_take max_count deduped in
    mkFusion fused (py_len fused) conflicts token_budget (py_len deduped - py_len fused)
  end.

(** ** Merging with the previous round (nodes/evidence_fusion.py) *)

Definition extract_tool_run_id (e : Evidence) : string :=
  let a := get_or (ev_md_tool_run_id e) "" in
  if truthy a then a else
  let b := get_or (ev_md_run_id e) "" in
  if truthy b then b else "".

Definition run_key (e : Evidence) : string * string := (ev_source e, extract_tool_run_id e).

Definition key_in (k : string * string) (ks : list (string * string)) : bool :=
  existsb (fun k' => String.eqb k.1 k'.1 && String.eqb k.2 k'.2) ks.

Definition merge_with_replacement (old new : list Evidence) : list Evidence :=
  match new, old with
  | [], _ => old
  | _, [] => new
  | _, _ =>
    let new_keys := map run_key (List.filter (fun e => truthy (ev_source e)) new) in
    List.filter (fun e => negb (key_in (run_key e) new_keys)) old ++ new
  end.

(** ** Source quotas *)

Definition DEFAULT_SOURCE_QUOTA : list (string * Z) :=
  [("rag", 10); ("db", 10); ("web", 5); ("report", 5); ("graph", 8)]%Z.

Definition get_source_quota (state_quota : option (list (string * Z))) : list (string * Z) :=
  opt_or state_quota DEFAULT_SOURCE_QUOTA.

Definition quota_source (e : Evidence) : string := get_or (ev_source_type e) "unknown".

(** [by_source.setdefault(st, []).append(ev)] over the list. *)
Definition group_add (groups : list (string * list Evidence)) (e : Evidence) :=
  dset (quota_source e) (get_or (dlookup (quota_source e) groups) [] ++ [e]) groups.

Definition group_by_source (evs : list Evidence) : list (string * list Evidence) :=
  fold_left group_add evs [].

Definition quota_limit (quota : list (string * Z)) (st : string) : Z := get_or (dlookup st quota) 5%Z.

Definition keep_group (quota : list (string * Z)) (g : string * list Evidence) : list Evidence :=
  py_take (quota_limit quota g.1) (sort_desc evidence_weight g.2).

Definition apply_source_quota (evs : list Evidence) (quota : list (string * Z)) : list Evidence :=
  match evs with
  | [] => []
  | _ => concat (map (keep_group quota) (group_by_source evs))
  end.

(** ** Lemmas *)

Lemma filter_In_elem {A} (f : A -> bool) l x : x ∈ List.filter f l <-> x ∈ l /\ f x = true.
Proof. rewrite !list_elem_of_In. apply filter_In. Qed.

Lemma filter_length_split {A} (f : A -> bool) l :
  length l = (length (List.filter f l) + length (List.filter (fun x => negb (f x)) l))%nat.
Proof. induction l as [|x l IH]; simpl; [done|]. destruct (f x); simpl; lia. Qed.

Lemma py_take_subset {A} n (l : list A) x : x ∈ py_take n l -> x ∈ l.
Proof. intros H. destruct (py_take_app n l) as [l' ->]. rewrite elem_of_app. by left. Qed.

Lemma NoDup_fmap_py_take {A B} (f : A -> B) n l : NoDup (f <$> l) -> NoDup (f <$> py_take n l).
Proof.
  destruct (py_take_app n l) as [l' E]. rewrite E at 1. rewrite fmap_app.
  by intros [? _]%NoDup_app.
Qed.

Lemma dedup_elem seen l e :
  e ∈ dedup_by_id seen l -> e ∈ l /\ ev_id e <> "" /\ ev_id e ∉ seen.
Proof.
  revert seen. induction l as [|x l IH]; intros seen; simpl; [by intros ?%not_elem_of_nil|].
  destruct (negb (truthy (ev_id x)) || str_in (ev_id x) seen) eqn:E.
  - intros (?&?&?)%IH. split; [by right|done].
  - bool_facts. intros [->|Hx]%elem_of_cons.
    + split; [by left|]. split; [|by apply str_in_false].
      intros Hid. rewrite Hid in *. discriminate.
    + apply IH in Hx as (?&?&Hn). split; [by right|]. split; [done|]. intros ?. apply Hn. by right.
Qed.

Lemma dedup_NoDup seen l : NoDup (ev_id <$> dedup_by_id seen l).
Proof.
  revert seen. induction l as [|x l IH]; intros seen; simpl; [constructor|].
  destruct (_ || _) eqn:E; [done|]. cbn. constructor; [|done].
  intros (y & Hy & Hin)%list_elem_of_fmap. apply dedup_elem in Hin as (_ & _ & Hn).
  apply Hn. rewrite Hy. by left.
Qed.

Lemma dedup_complete seen l e :
  e ∈ l -> ev_id e <> "" -> ev_id e ∉ seen -> exists e', e' ∈ dedup_by_id seen l /\ ev_id e' = ev_id e.
Proof.
  revert seen. induction l as [|x l IH]; intros seen Hin Hne Hseen; [by apply not_elem_of_nil in Hin|].
  simpl. destruct (_ || _) eqn:E.
  - apply elem_of_cons in Hin as [->|Hin]; [|auto].
    apply orb_true_iff in E as [E|E%str_in_spec]; [|done].
    unfold truthy, truthy_string in E. by destruct (String.eqb_spec (ev_id x) "").
  - destruct (decide (ev_id e = ev_id x)) as [Heq|Hneq].
    + exists x. split; [by left|done].
    + apply elem_of_cons in Hin as [->|Hin]; [done|].
      destruct (IH (ev_id x :: seen)) as (e' & He' & ?); [done|done| |].
      * intros [?|?]%elem_of_cons; done.
      * exists e'. split; [by right|done].
Qed.

Lemma run_key_eq a b : String.eqb a.1 b.1 && String.eqb a.2 b.2 = true <-> a = b.
Proof.
  destruct a, b. simpl. rewrite andb_true_iff, !String.eqb_eq.
  split; [by intros [-> ->]|by intros [= -> ->]].
Qed.

Lemma key_in_spec k ks : key_in k ks = true <-> k ∈ ks.
Proof.
  unfold key_in. rewrite existsb_true_exists. split.
  - intros (k' & Hin & ->%run_key_eq). done.
  - intros Hin. exists k. by rewrite run_key_eq.
Qed.

(** The groups hold, source by source, the evidence of that source in order. *)
Definition groups_of (evs : list Evidence) (groups : list (string * list Evidence)) : Prop :=
  NoDup groups.*1 /\
  forall st, get_or (dlookup st groups) [] = List.filter (fun e => String.eqb (quota_source e) st) evs.

Lemma dset_keys {A} k (v : A) d :
  (dset k v d).*1 = if str_in k d.*1 then d.*1 else d.*1 ++ [k].
Proof.
  induction d as [|[k' v'] d IH]; [done|]. rewrite fmap_cons. simpl.
  destruct (String.eqb_spec k k') as [<-|Hne]; simpl; [done|].
  change (list_fmap _ _ fst) with (fmap (M:=list) (@fst string A)).
  rewrite IH. by destruct (str_in k d.*1).
Qed.

Lemma dset_keys_NoDup {A} k (v : A) d : NoDup d.*1 -> NoDup (dset k v d).*1.
Proof. intros H. rewrite dset_keys. by apply append_new_NoDup. Qed.

Lemma group_by_source_groups evs : groups_of evs (group_by_source evs).
Proof.
  unfold group_by_source.
  assert (forall l pre g, groups_of pre g -> groups_of (pre ++ l) (fold_left group_add l g)) as H.
  { induction l as [|e l IH]; intros pre g [Hnd Hg]; simpl; [by rewrite app_nil_r|].
    replace (pre ++ e :: l) with ((pre ++ [e]) ++ l) by by rewrite <- app_assoc.
    apply IH. split; [by apply dset_keys_NoDup|]. intros st. unfold group_add.
    rewrite dlookup_dset, List.filter_app. simpl. rewrite (String.eqb_sym (quota_source e) st).
    destruct (String.eqb_spec st (quota_source e)) as [->|]; simpl.
    - f_equal. apply Hg.
    - rewrite app_nil_r. apply Hg. }
  apply (H evs [] []). split; [constructor|done].
Qed.

Lemma group_member g evs st l e :
  groups_of evs g -> (st, l) ∈ g -> e ∈ l -> quota_source e = st.
Proof.
  intros [Hnd Hg] Hin He. specialize (Hg st).
  assert (dlookup st g = Some l) as Hl.
  { clear Hg. induction g as [|[k v] g IH]; [by apply not_elem_of_nil in Hin|].
    simpl in *. apply NoDup_cons in Hnd as [Hk Hnd]. apply elem_of_cons in Hin as [[= -> ->]|Hin].
    - by rewrite String.eqb_refl.
    - destruct (String.eqb_spec st k) as [->|]; [|auto].
      destruct Hk. apply list_elem_of_fmap. by exists (k, l). }
  rewrite Hl in Hg. simpl in Hg. rewrite Hg in He.
  apply filter_In_elem in He as [_ He]. by apply String.eqb_eq.
Qed.

Lemma keep_group_source quota evs g st l :
  groups_of evs g -> (st, l) ∈ g ->
  List.filter (fun e => String.eqb (quota_source e) st) (keep_group quota (st, l)) =
    keep_group quota (st, l) /\
  forall st', st' <> st ->
    List.filter (fun e => String.eqb (quota_source e) st') (keep_group quota (st, l)) = [].
Proof.
  intros Hg Hin.
  assert (forall e, e ∈ keep_group quota (st, l) -> quota_source e = st) as Hs.
  { intros e He. unfold keep_group in He. apply py_take_subset, elem_of_sort_desc in He.
    by eapply group_member. }
  revert Hs. generalize (keep_group quota (st, l)) as k. clear. intros k Hs.
  split; [|intros st' Hne]; induction k as [|x k IH]; simpl; try done;
    rewrite (Hs x) by by left.
  - rewrite String.eqb_refl, IH; [done|]. intros e He. apply Hs. by right.
  - destruct (String.eqb_spec st st'); [done|]. apply IH. intros e He. apply Hs. by right.
Qed.

Lemma quota_filter_group quota evs g st :
  groups_of evs g ->
  List.filter (fun e => String.eqb (quota_source e) st) (concat (map (keep_group quota) g)) =
  py_take (quota_limit quota st)
    (sort_desc evidence_weight (get_or (dlookup st g) [])).
Proof.
  intros Hg.
  assert (forall g', (forall x, x ∈ g' -> x ∈ g) -> NoDup g'.*1 ->
    List.filter (fun e => String.eqb (quota_source e) st) (concat (map (keep_group quota) g')) =
    match dlookup st g' with Some l => keep_group quota (st, l) | None => [] end) as H.
  { induction g' as [|[k l] g' IH]; intros Hsub Hnd; [done|]. simpl.
    apply NoDup_cons in Hnd as [Hk Hnd].
    rewrite List.filter_app, IH; [|intros; apply Hsub; by right|done].
    destruct (keep_group_source quota evs g k l) as [Hsame Hother]; [done|apply Hsub; by left|].
    destruct (String.eqb_spec st k) as [->|Hne].
    - rewrite Hsame. destruct (dlookup k g') as [l'|] eqn:E; [|by rewrite app_nil_r].
      exfalso. apply Hk. clear -E. induction g' as [|[k' v'] g' IH]; [done|]. simpl in *.
      destruct (String.eqb_spec k k') as [->|]; [by left|right; auto].
    - by rewrite Hother. }
  rewrite H; [|done|apply Hg].
  destruct (dlookup st g) as [l|]; [done|]. symmetry. apply py_take_nil.
Qed.

(** ** Properties *)

(** Fusing: distinct non-empty ids of the input, by decreasing weight, at most
    [max_count] of them, the heaviest first. *)
Lemma fuse_evidences_spec evs max_count tb :
  (0 <= max_count)%Z ->
  let r := fuse_evidences evs max_count tb in
  NoDup (ev_id <$> fr_fused r) /\
  (forall e, e ∈ fr_fused r -> e ∈ evs /\ ev_id e <> "") /\
  StronglySorted (desc evidence_weight) (fr_fused r) /\
  fr_fused_count r = py_len (fr_fused r) /\
  (fr_fused_count r <= max_count)%Z /\
  (0 <= fr_dropped_count r)%Z /\
  (forall e, e ∈ evs -> ev_id e <> "" ->
    fr_dropped_count r = 0%Z -> exists e', e' ∈ fr_fused r /\ ev_id e' = ev_id e).
Proof.
  intros Hmax. destruct evs as [|e0 evs0].
  { simpl. split_and!; try lia; try (by intros ? ?%not_elem_of_nil); first [apply NoDup_nil_2|constructor|done]. }
  set (evs := e0 :: evs0). unfold fuse_evidences. fold evs. cbn [fr_fused fr_fused_count fr_dropped_count].
  set (d := sort_desc evidence_weight (dedup_by_id [] evs)).
  pose proof (py_take_length_nonneg max_count d Hmax) as Hlen.
  change (match evs with [] => ?a | _ => ?b end) with b.
  cbn [fr_fused fr_fused_count fr_dropped_count].
  split_and!.
  - apply NoDup_fmap_py_take. unfold d.
    rewrite (sort_desc_perm evidence_weight (dedup_by_id [] evs)). apply dedup_NoDup.
  - intros e He%py_take_subset%elem_of_sort_desc. apply dedup_elem in He as (?&?&_). done.
  - apply py_take_sorted.
  - done.
  - lia.
  - lia.
  - intros e Hin Hne Hdrop.
    destruct (dedup_complete [] evs e) as (e' & He' & Hid); [done|done|set_solver|].
    exists e'. split; [|done].
    destruct (py_take_app max_count d) as [l' Hl'].
    assert (l' = []) as ->.
    { apply nil_length_inv. assert (py_len d = py_len (py_take max_count d) + py_len l')%Z.
      { rewrite Hl' at 1. unfold py_len. rewrite length_app. lia. }
      unfold py_len in *. lia. }
    rewrite app_nil_r in Hl'. rewrite <- Hl'. by apply elem_of_sort_desc.
Qed.

(** Retrying a tool replaces exactly the old evidence of the same run key. *)
Lemma merge_with_replacement_spec old new e :
  e ∈ merge_with_replacement old new <->
  e ∈ new \/ (e ∈ old /\ forall n, n ∈ new -> ev_source n <> "" -> run_key n <> run_key e).
Proof.
  unfold merge_with_replacement. destruct new as [|n0 new0].
  { split; [intros Ho; right; split; [done|by intros ? ?%not_elem_of_nil]|].
    intros [Hn|[? _]]; [by apply not_elem_of_nil in Hn|by destruct old]. }
  destruct old as [|o0 old0].
  { split; [by left|]. intros [?|[Ho _]]; [done|]. by apply not_elem_of_nil in Ho. }
  set (new := n0 :: new0). set (old := o0 :: old0).
  rewrite elem_of_app, filter_In_elem, negb_true_iff.
  assert (key_in (run_key e) (map run_key (List.filter (fun e => truthy (ev_source e)) new)) = false
          <-> forall n, n ∈ new -> ev_source n <> "" -> run_key n <> run_key e) as ->; [|tauto].
  rewrite <- not_true_iff_false, key_in_spec. split.
  - intros Hno n Hn Hs Hk. apply Hno. apply list_elem_of_fmap. exists n. split; [done|].
    apply filter_In_elem. split; [done|]. unfold truthy, truthy_string.
    by destruct (String.eqb_spec (ev_source n) "").
  - intros Hno (n & Hk & Hn)%list_elem_of_fmap. apply filter_In_elem in Hn as [Hn Ht].
    apply (Hno n Hn); [|done]. intros Hs. by rewrite Hs in Ht.
Qed.

(** The quota keeps, for every source, its heaviest items up to its limit, and
    never lets one source displace another. *)
Lemma source_quota_per_source evs quota st :
  List.filter (fun e => String.eqb (quota_source e) st) (apply_source_quota evs quota) =
  py_take (quota_limit quota st)
    (sort_desc evidence_weight (List.filter (fun e => String.eqb (quota_source e) st) evs)).
Proof.
  destruct evs as [|e0 evs0].
  { symmetry. apply py_take_nil. }
  unfold apply_source_quota. set (evs := e0 :: evs0).
  pose proof (group_by_source_groups evs) as Hg.
  rewrite (quota_filter_group quota evs) by done. by rewrite (proj2 Hg).
Qed.

Lemma source_quota_elem evs quota e : e ∈ apply_source_quota evs quota -> e ∈ evs.
Proof.
  intros He. assert (e ∈ List.filter (fun e' => String.eqb (quota_source e') (quota_source e)) (apply_source_quota evs quota)) as Hf
    by (apply filter_In_elem; split; [done|apply String.eqb_refl]).
  rewrite source_quota_per_source in Hf. apply py_take_subset, elem_of_sort_desc, filter_In_elem in Hf. by destruct Hf.
Qed.

(** A list without repeated items that all occur in another is not longer. *)
Lemma NoDup_fmap_length {A} (f : A -> string) (l k : list A) : NoDup (f <$> l) -> l ⊆ k -> length l <= length k.
Proof.
  intros Hnd Hsub. apply NoDup_fmap_1 in Hnd. apply submseteq_length, NoDup_submseteq; [done|]. intros x Hx. by apply Hsub.
Qed.

(** The snapshot id depends on the multiset of evidence ids only. *)
Theorem snapshot_id_order_irrelevant sha256_hex l1 l2 :
  map ev_id l1 ≡ₚ map ev_id l2 -> make_snapshot_id sha256_hex l1 = make_snapshot_id sha256_hex l2.
Proof.
  intros H. unfold make_snapshot_id.
  destruct l1 as [|a l1], l2 as [|b l2]; [done| | |].
  - by apply Permutation_nil_cons in H.
  - by apply symmetry, Permutation_nil_cons in H.
  - by rewrite (py_sorted_Permutation _ _ H).
Qed.

Lemma get_evidence_by_index_bounds s i e :
  get_evidence_by_index s i = Some e -> (1 <= i <= py_len (sn_evidences s))%Z /\ e ∈ sn_evidences s.
Proof.
  unfold get_evidence_by_index. destruct (_ || _) eqn:E; [done|]. bool_facts. intros Hl.
  split; [lia|]. by eapply list_elem_of_lookup_2.
Qed.

(** A relevance of zero is ranked like a missing one: above a relevance of 0.4. *)
Definition unscored (rel : Q) : Evidence :=
  mkEvidence (Some "e") (Some "rag") None None None None None (Some rel) None None None None.

Theorem zero_relevance_outranks_low :
  (evidence_weight (unscored (rnd (4 # 10))) < evidence_weight (unscored 0))%Q.
Proof. vm_compute. reflexivity. Qed.
