(* ===== verification/Claim.v ===== *)
(** * Claims and pair verdicts (evidence/claim.py)

    A claim is an atomic statement of an answer; each (claim, evidence) pair
    has its own verdict, and the claim accumulates them.  Status fields are
    strings in the code (the enumerations only name the usual values), and
    they are strings here.  The methods that mutate a claim return the new
    one. *)

From S2P Require Import Prelude PyFloat PyVal.

(** ** Enumerations (their [.value] strings) *)

Inductive ClaimType : Type :=
  | CT_AMOUNT | CT_DATE | CT_RATIO | CT_IDENTITY | CT_COMPLIANCE | CT_CONCLUSION | CT_STATEMENT.

Definition ClaimType_value (t : ClaimType) : string :=
  match t with
  | CT_AMOUNT => "amount" | CT_DATE => "date" | CT_RATIO => "ratio"
  | CT_IDENTITY => "identity" | CT_COMPLIANCE => "compliance"
  | CT_CONCLUSION => "conclusion" | CT_STATEMENT => "statement"
  end.

Inductive ClaimFinalStatus : Type :=
  | FS_PENDING | FS_SUPPORTED | FS_CONTRADICTED | FS_INSUFFICIENT | FS_VERIFIER_ERROR | FS_TRUNCATED.

Definition ClaimFinalStatus_value (s : ClaimFinalStatus) : string :=
  match s with
  | FS_PENDING => "pending" | FS_SUPPORTED => "supported"
  | FS_CONTRADICTED => "contradicted" | FS_INSUFFICIENT => "insufficient"
  | FS_VERIFIER_ERROR => "verifier_error" | FS_TRUNCATED => "truncated"
  end.

Inductive PairStatus : Type :=
  | PS_SUPPORTED | PS_CONTRADICTED | PS_INSUFFICIENT | PS_VERIFIER_ERROR.

Definition PairStatus_value (s : PairStatus) : string :=
  match s with
  | PS_SUPPORTED => "supported" | PS_CONTRADICTED => "contradicted"
  | PS_INSUFFICIENT => "insufficient" | PS_VERIFIER_ERROR => "verifier_error"
  end.

Inductive VerifierStatus : Type :=
  | VS_OK | VS_TIMEOUT | VS_ERROR | VS_MIXED | VS_UNKNOWN | VS_BUDGET_EXHAUSTED.

Definition VerifierStatus_value (s : VerifierStatus) : string :=
  match s with
  | VS_OK => "ok" | VS_TIMEOUT => "timeout" | VS_ERROR => "error"
  | VS_MIXED => "mixed" | VS_UNKNOWN => "unknown"
  | VS_BUDGET_EXHAUSTED => "budget_exhausted"
  end.

#[export] Instance ClaimFinalStatus_eq_dec : EqDecision ClaimFinalStatus.
Proof. solve_decision. Defined.
#[export] Instance VerifierStatus_eq_dec : EqDecision VerifierStatus.
Proof. solve_decision. Defined.

(** ** Records *)

Record PairVerdict : Type := mkPairVerdict {
  pv_evidence_id : string;
  pv_schema_version : string;
  pv_pair_status : string;
  pv_verifier_status : string;
  pv_rule_result : string;
  pv_nli_result : string;
  pv_llm_result : string;
  pv_attempt_id : string;
  pv_is_counter_evidence : bool;
}.

(** [PairVerdict(evidence_id)], every other field at its default. *)
Definition new_PairVerdict (evidence_id : string) : PairVerdict :=
  mkPairVerdict evidence_id "1.0" (PairStatus_value PS_INSUFFICIENT)
    (VerifierStatus_value VS_UNKNOWN) "unknown" "unknown" "unknown" "" false.

Record Claim : Type := mkClaim {
  c_claim_id : string;
  c_text : string;
  c_schema_version : string;
  c_span : Z * Z;
  c_raw_declared_indices : list Z;
  c_resolved_declared_ids : list string;
  c_invalid_indices : list Z;
  c_unauthorized_ids : list string;
  c_truncated_citations : list Z;
  c_verified_support_ids : list string;
  c_contradicting_ids : list string;
  c_pair_verdicts : list PairVerdict;
  c_verifier_status : string;
  c_final_status : string;
  c_model_claim_type : string;
  c_model_is_required : bool;
  c_server_claim_type : string;
  c_server_is_required : bool;
  c_risk_level : string;
}.

(** [Claim(claim_id, text)], every other field at its default. *)
Definition new_Claim (claim_id text : string) : Claim :=
  mkClaim claim_id text "1.0" (0, 0)%Z [] [] [] [] [] [] [] []
    (VerifierStatus_value VS_UNKNOWN) (ClaimFinalStatus_value FS_PENDING)
    (ClaimType_value CT_STATEMENT) false (ClaimType_value CT_STATEMENT) false "low".

(** Attribute assignments used by the methods and their callers. *)
Definition set_verdicts (c : Claim) (support contra : list string) (pvs : list PairVerdict) : Claim :=
  mkClaim (c_claim_id c) (c_text c) (c_schema_version c) (c_span c) (c_raw_declared_indices c)
    (c_resolved_declared_ids c) (c_invalid_indices c) (c_unauthorized_ids c)
    (c_truncated_citations c) support contra pvs (c_verifier_status c) (c_final_status c)
    (c_model_claim_type c) (c_model_is_required c) (c_server_claim_type c)
    (c_server_is_required c) (c_risk_level c).

Definition set_verifier_status (c : Claim) (s : string) : Claim :=
  mkClaim (c_claim_id c) (c_text c) (c_schema_version c) (c_span c) (c_raw_declared_indices c)
    (c_resolved_declared_ids c) (c_invalid_indices c) (c_unauthorized_ids c)
    (c_truncated_citations c) (c_verified_support_ids c) (c_contradicting_ids c)
    (c_pair_verdicts c) s (c_final_status c) (c_model_claim_type c) (c_model_is_required c)
    (c_server_claim_type c) (c_server_is_required c) (c_risk_level c).

Definition set_final_status (c : Claim) (s : string) : Claim :=
  mkClaim (c_claim_id c) (c_text c) (c_schema_version c) (c_span c) (c_raw_declared_indices c)
    (c_resolved_declared_ids c) (c_invalid_indices c) (c_unauthorized_ids c)
    (c_truncated_citations c) (c_verified_support_ids c) (c_contradicting_ids c)
    (c_pair_verdicts c) (c_verifier_status c) s (c_model_claim_type c) (c_model_is_required c)
    (c_server_claim_type c) (c_server_is_required c) (c_risk_level c).

(** ** Methods *)

(** Record a pair verdict and file its evidence under support or contradiction. *)
Definition add_pair_verdict (c : Claim) (v : PairVerdict) : Claim :=
  let pvs := c_pair_verdicts c ++ [v] in
  if String.eqb (pv_pair_status v) (PairStatus_value PS_SUPPORTED) then
    set_verdicts c (append_new (pv_evidence_id v) (c_verified_support_ids c))
      (c_contradicting_ids c) pvs
  else if String.eqb (pv_pair_status v) (PairStatus_value PS_CONTRADICTED) then
    set_verdicts c (c_verified_support_ids c)
      (append_new (pv_evidence_id v) (c_contradicting_ids c)) pvs
  else set_verdicts c (c_verified_support_ids c) (c_contradicting_ids c) pvs.

(** [statuses == {s}] and [s in statuses] for the set of the listed statuses. *)
Definition statuses_eq_singleton (statuses : list string) (s : string) : bool :=
  match statuses with [] => false | _ => forallb (String.eqb s) statuses end.

(** The status that a non-empty list of pair statuses aggregates to. *)
Definition aggregate_statuses (statuses : list string) : string :=
  if statuses_eq_singleton statuses (VerifierStatus_value VS_OK) then VerifierStatus_value VS_OK
  else if str_in (VerifierStatus_value VS_ERROR) statuses then VerifierStatus_value VS_ERROR
  else if str_in (VerifierStatus_value VS_TIMEOUT) statuses then VerifierStatus_value VS_TIMEOUT
  else if str_in (VerifierStatus_value VS_BUDGET_EXHAUSTED) statuses
  then VerifierStatus_value VS_BUDGET_EXHAUSTED
  else VerifierStatus_value VS_MIXED.

(** The returned string is also stored in the claim. *)
Definition aggregate_verifier_status (c : Claim) : Claim * string :=
  let s := match c_pair_verdicts c with
           | [] => VerifierStatus_value VS_UNKNOWN
           | pvs => aggregate_statuses (map pv_verifier_status pvs)
           end in
  (set_verifier_status c s, s).

Definition is_required (c : Claim) : bool := c_server_is_required c || c_model_is_required c.
Definition has_verified_support (c : Claim) : bool := truthy (c_verified_support_ids c).
Definition has_contradiction (c : Claim) : bool := truthy (c_contradicting_ids c).
Definition has_invalid_citations (c : Claim) : bool := truthy (c_invalid_indices c).
Definition has_unauthorized_citations (c : Claim) : bool := truthy (c_unauthorized_ids c).

(** ** Serialisation *)

Definition PairVerdict_to_dict (v : PairVerdict) : pydict :=
  [ ("schema_version", VStr (pv_schema_version v));
    ("evidence_id", VStr (pv_evidence_id v));
    ("pair_status", VStr (pv_pair_status v));
    ("verifier_status", VStr (pv_verifier_status v));
    ("rule_result", VStr (pv_rule_result v));
    ("nli_result", VStr (pv_nli_result v));
    ("llm_result", VStr (pv_llm_result v));
    ("attempt_id", VStr (pv_attempt_id v));
    ("is_counter_evidence", VBool (pv_is_counter_evidence v)) ].

Definition PairVerdict_fields : list string :=
  ["evidence_id"; "schema_version"; "pair_status"; "verifier_status"; "rule_result";
   "nli_result"; "llm_result"; "attempt_id"; "is_counter_evidence"].

(** [PairVerdict( **pv )]: an unknown key or a missing [evidence_id] is a [TypeError]. *)
Definition PairVerdict_of_kwargs (d : pydict) : result PairVerdict :=
  if negb (forallb (fun kv => str_in kv.1 PairVerdict_fields) d)
  then Raise (TypeError "unexpected keyword argument")
  else match dlookup "evidence_id" d with
       | None => Raise (TypeError "missing evidence_id")
       | Some e =>
         let d0 := new_PairVerdict "" in
         let! eid := as_str e in
         let! sv := dget as_str d "schema_version" (pv_schema_version d0) in
         let! ps := dget as_str d "pair_status" (pv_pair_status d0) in
         let! vs := dget as_str d "verifier_status" (pv_verifier_status d0) in
         let! rr := dget as_str d "rule_result" (pv_rule_result d0) in
         let! nr := dget as_str d "nli_result" (pv_nli_result d0) in
         let! lr := dget as_str d "llm_result" (pv_llm_result d0) in
         let! at_ := dget as_str d "attempt_id" (pv_attempt_id d0) in
         let! ce := dget as_bool d "is_counter_evidence" (pv_is_counter_evidence d0) in
         Ok (mkPairVerdict eid sv ps vs rr nr lr at_ ce)
       end.

Definition Claim_to_dict (c : Claim) : pydict :=
  [ ("schema_version", VStr (c_schema_version c));
    ("claim_id", VStr (c_claim_id c));
    ("text", VStr (c_text c));
    ("span", VInts [(c_span c).1; (c_span c).2]);
    ("raw_declared_indices", VInts (c_raw_declared_indices c));
    ("resolved_declared_ids", VStrs (c_resolved_declared_ids c));
    ("invalid_indices", VInts (c_invalid_indices c));
    ("unauthorized_ids", VStrs (c_unauthorized_ids c));
    ("truncated_citations", VInts (c_truncated_citations c));
    ("verified_support_ids", VStrs (c_verified_support_ids c));
    ("contradicting_ids", VStrs (c_contradicting_ids c));
    ("pair_verdicts", VList (map (fun v => VDict (PairVerdict_to_dict v)) (c_pair_verdicts c)));
    ("verifier_status", VStr (c_verifier_status c));
    ("final_status", VStr (c_final_status c));
    ("model_claim_type", VStr (c_model_claim_type c));
    ("model_is_required", VBool (c_model_is_required c));
    ("server_claim_type", VStr (c_server_claim_type c));
    ("server_is_required", VBool (c_server_is_required c));
    ("risk_level", VStr (c_risk_level c)) ].

(** [tuple(span)]; a span of another length has no typed counterpart. *)
Definition as_span (v : pyval) : result (Z * Z) :=
  let! l := as_list as_int v in
  match l with [a; b] => Ok (a, b) | _ => Raise (TypeError "span") end.

Definition as_pair_verdict (v : pyval) : result PairVerdict :=
  let! d := as_dict v in PairVerdict_of_kwargs d.

Definition Claim_from_dict (d : pydict) : result Claim :=
  let c0 := new_Claim "" "" in
  let! pvs := dget (as_list as_pair_verdict) d "pair_verdicts" [] in
  let! sv := dget as_str d "schema_version" (c_schema_version c0) in
  let! cid := dindex as_str d "claim_id" in
  let! txt := dindex as_str d "text" in
  let! sp := dget as_span d "span" (c_span c0) in
  let! raw := dget (as_list as_int) d "raw_declared_indices" [] in
  let! res := dget (as_list as_str) d "resolved_declared_ids" [] in
  let! inv := dget (as_list as_int) d "invalid_indices" [] in
  let! una := dget (as_list as_str) d "unauthorized_ids" [] in
  let! tru := dget (as_list as_int) d "truncated_citations" [] in
  let! sup := dget (as_list as_str) d "verified_support_ids" [] in
  let! con := dget (as_list as_str) d "contradicting_ids" [] in
  let! vst := dget as_str d "verifier_status" (c_verifier_status c0) in
  let! fst_ := dget as_str d "final_status" (c_final_status c0) in
  let! mct := dget as_str d "model_claim_type" (c_model_claim_type c0) in
  let! mir := dget as_bool d "model_is_required" (c_model_is_required c0) in
  let! sct := dget as_str d "server_claim_type" (c_server_claim_type c0) in
  let! sir := dget as_bool d "server_is_required" (c_server_is_required c0) in
  let! rl := dget as_str d "risk_level" (c_risk_level c0) in
  Ok (mkClaim cid txt sv sp raw res inv una tru sup con pvs vst fst_ mct mir sct sir rl).

(** ** Lemmas *)

Lemma PairVerdict_kwargs_roundtrip v : PairVerdict_of_kwargs (PairVerdict_to_dict v) = Ok v.
Proof. by destruct v. Qed.

Lemma as_pair_verdicts_roundtrip l :
  as_list as_pair_verdict (VList (map (fun v => VDict (PairVerdict_to_dict v)) l)) = Ok l.
Proof. simpl. apply rmap_map. intros v. apply PairVerdict_kwargs_roundtrip. Qed.

(** Evaluate the field reads of a literal dictionary, keeping lists folded. *)
Ltac read_fields :=
  unfold dget, dindex;
  cbn [dlookup String.eqb Ascii.eqb Bool.eqb];
  rewrite ?as_list_strs, ?as_list_ints, ?as_pair_verdicts_roundtrip;
  cbn [as_str as_bool rbind].

Lemma statuses_eq_singleton_spec l s :
  statuses_eq_singleton l s = true <-> l <> [] /\ Forall (eq s) l.
Proof.
  destruct l as [|a l]; [split; [discriminate|tauto]|].
  unfold statuses_eq_singleton. rewrite forallb_forall, List.Forall_forall. split.
  - intros H. split; [done|]. intros x Hx. apply String.eqb_eq. auto.
  - intros [_ H] x Hx. rewrite String.eqb_eq. auto.
Qed.

(** The identifiers filed under a status are exactly those of the pairs with
    that status, without duplicates. *)
Definition ids_of_status (s : PairStatus) (pvs : list PairVerdict) (ids : list string) : Prop :=
  NoDup ids /\
  forall e, e ∈ ids <->
    exists v, v ∈ pvs /\ pv_pair_status v = PairStatus_value s /\ pv_evidence_id v = e.

Definition claim_consistent (c : Claim) : Prop :=
  ids_of_status PS_SUPPORTED (c_pair_verdicts c) (c_verified_support_ids c) /\
  ids_of_status PS_CONTRADICTED (c_pair_verdicts c) (c_contradicting_ids c).

Lemma ids_of_status_hit s pvs ids v :
  ids_of_status s pvs ids -> pv_pair_status v = PairStatus_value s ->
  ids_of_status s (pvs ++ [v]) (append_new (pv_evidence_id v) ids).
Proof.
  intros [Hnd Hids] Hv. split; [by apply append_new_NoDup|]. intros e.
  rewrite elem_of_append_new, Hids. split.
  - intros [->|(w & Hw & ?)]; [exists v|exists w]; rewrite elem_of_app, list_elem_of_singleton; tauto.
  - intros (w & [Hw|Hw%list_elem_of_singleton]%elem_of_app & Hs & He); [eauto|left; congruence].
Qed.

Lemma ids_of_status_miss s pvs ids v :
  ids_of_status s pvs ids -> pv_pair_status v <> PairStatus_value s ->
  ids_of_status s (pvs ++ [v]) ids.
Proof.
  intros [Hnd Hids] Hv. split; [done|]. intros e. rewrite Hids. split.
  - intros (w & Hw & ?). exists w. rewrite elem_of_app. auto.
  - intros (w & [Hw|Hw%list_elem_of_singleton]%elem_of_app & Hs & He); [eauto|congruence].
Qed.

Lemma new_Claim_consistent cid txt : claim_consistent (new_Claim cid txt).
Proof. split; (split; [constructor|]; intros e; split; [set_solver|intros (?&?&?); set_solver]). Qed.

Lemma set_verifier_status_consistent c s :
  claim_consistent c -> claim_consistent (set_verifier_status c s).
Proof. done. Qed.

(** ** Properties *)

Theorem add_pair_verdict_consistent c v :
  claim_consistent c -> claim_consistent (add_pair_verdict c v).
Proof.
  intros [Hs Hc]. unfold add_pair_verdict.
  destruct (String.eqb_spec (pv_pair_status v) (PairStatus_value PS_SUPPORTED)) as [E1|N1].
  { split; cbn; [by apply ids_of_status_hit|]. apply ids_of_status_miss; [done|]. by rewrite E1. }
  destruct (String.eqb_spec (pv_pair_status v) (PairStatus_value PS_CONTRADICTED)) as [E2|N2].
  { split; cbn; [by apply ids_of_status_miss|by apply ids_of_status_hit]. }
  split; cbn; by apply ids_of_status_miss.
Qed.

Lemma Claim_from_to_dict c : Claim_from_dict (Claim_to_dict c) = Ok c.
Proof.
  unfold Claim_from_dict, Claim_to_dict, as_span. read_fields. by destruct c as [? ? ? []].
Qed.

(** A claim survives the trip through its dictionary. *)
Theorem claim_dict_roundtrip c : Claim_from_dict (Claim_to_dict c) = Ok c.
Proof. apply Claim_from_to_dict. Qed.

(** ** Instances *)

Lemma add_pair_verdict_consistent_witness :
  claim_consistent (add_pair_verdict (new_Claim "c1" "text")
    (mkPairVerdict "ev_1" "1.0" "supported" "ok" "supported" "entailment" "supported" "" false)).
Proof. apply add_pair_verdict_consistent. apply new_Claim_consistent. Defined.
