(* ===== verification/CitationBinder.v ===== *)
(** * Binding claims to evidence (evidence/citation_binder.py)

    The numbers an answer cites are classified against the snapshot of the
    evidence, cut to the budget, each (claim, evidence) pair is judged, the
    rest of the snapshot is searched for contradictions, and the evidence is
    tried jointly when no single piece supports the claim.  The binder keeps a
    budget of pairs over the whole run. *)

From S2P Require Import Prelude PyFloat PyVal PyList PyText PyRegex Evidence Claim.

(** [VerificationBudget] (config.py). *)
Record VerificationBudget : Type := mkVerificationBudget {
  vb_max_claims : Z; vb_max_claims_per_section : Z;
  vb_max_citations_per_claim : Z; vb_max_total_pairs : Z;
  vb_max_llm_calls : Z; vb_max_nli_calls : Z;
  vb_per_pair_timeout_ms : Z; vb_total_verification_timeout_ms : Z;
  vb_batch_size : Z; vb_batch_concurrency : Z; vb_cache_enabled : bool; vb_cache_ttl_seconds : Z }.

Definition default_VerificationBudget : VerificationBudget :=
  mkVerificationBudget 30 10 5 150 50 100 3000 30000 10 3 true 3600.

(** [VerificationBudget.from_config]; the other fields keep their defaults. *)
Definition VerificationBudget_from_config (config : pyval) : result VerificationBudget :=
  let budget_cfg := match config with
                    | VDict d => get_or (dlookup "verification_budget" d) (VDict [])
                    | _ => VDict []
                    end in
  let! cfg := as_dict budget_cfg in
  let! max_claims := dget as_int cfg "max_claims" 30%Z in
  let! max_citations := dget as_int cfg "max_citations_per_claim" 5%Z in
  let! max_pairs := dget as_int cfg "max_total_pairs" 150%Z in
  let! max_llm := dget as_int cfg "max_llm_calls" 50%Z in
  let! max_nli := dget as_int cfg "max_nli_calls" 100%Z in
  let! per_pair := dget as_int cfg "per_pair_timeout_ms" 3000%Z in
  let! total := dget as_int cfg "total_verification_timeout_ms" 30000%Z in
  Ok (mkVerificationBudget max_claims 10 max_citations max_pairs max_llm max_nli per_pair total 10 3 true 3600).

Example budget_default : VerificationBudget_from_config (VDict []) = Ok default_VerificationBudget.
Proof. reflexivity. Qed.

(** The declared-citation fields of a claim. *)
Definition set_declared (c : Claim) (raw : list Z) (resolved : list string) (invalid : list Z)
    (unauthorized : list string) (truncated : list Z) : Claim :=
  mkClaim (c_claim_id c) (c_text c) (c_schema_version c) (c_span c) raw resolved invalid unauthorized truncated
    (c_verified_support_ids c) (c_contradicting_ids c) (c_pair_verdicts c) (c_verifier_status c) (c_final_status c)
    (c_model_claim_type c) (c_model_is_required c) (c_server_claim_type c) (c_server_is_required c) (c_risk_level c).

(** [if x not in l: l.append(x)] for numbers. *)
Definition append_new_Z (x : Z) (l : list Z) : list Z := if bool_decide (x ∈ l) then l else l ++ [x].

Section text.
(** The value of a decimal digit beyond ASCII. *)
Variable unicode_digit : string -> option Z.

Definition digit_of (c : string) : option Z :=
  match c with
  | String a EmptyString =>
    let n := Ascii.nat_of_ascii a in
    if (48 <=? n)%nat && (n <=? 57)%nat then Some (Z.of_nat (n - 48)) else None
  | _ => unicode_digit c
  end.

Definition is_digit_char (c : string) : bool := match digit_of c with Some _ => true | None => false end.

(** [int(s)] for a run of digits. *)
Definition int_of (cs : list string) : Z :=
  fold_left (fun acc c => (10 * acc + get_or (digit_of c) 0)%Z) cs 0%Z.

(** [_CITATION_PATTERN.findall]: the numbers in square brackets. *)
Definition citation_at : matcher := fun text =>
  match text with
  | c :: rest =>
    if String.eqb c "[" then
      let n := run is_digit_char rest in
      if (0 <? n)%nat && literal ["]"] (drop n rest) then Some (S (S n)) else None
    else None
  | [] => None
  end.

Definition find_citations (text : string) : list Z :=
  map (fun m => let inner := drop 1 (chars m) in int_of (take (length inner - 1) inner)) (findall citation_at text).

(** ** Entities *)

(** [\d+(?:\.\d+)?[%％]?] *)
Definition number_at : matcher := fun text =>
  let n := run is_digit_char text in
  if (n =? 0)%nat then None
  else
    let frac := match drop n text with
                | c :: rest => if String.eqb c "." then let k := run is_digit_char rest in
                                                        if (k =? 0)%nat then O else S k
                               else O
                | [] => O
                end in
    let percent := match drop (n + frac) text with
                   | c :: _ => if str_in c ["%"; "％"] then 1%nat else O
                   | [] => O
                   end in
    Some (n + frac + percent)%nat.

(** [\d{4}年|\d{1,2}月|Q[1-4]|20\d{2}-\d{1,2}], alternatives in order. *)
Definition date_at : matcher := fun text =>
  let n := run is_digit_char text in
  if (4 <=? n)%nat && literal ["年"] (drop 4 text) then Some 5%nat
  else if (2 <=? n)%nat && literal ["月"] (drop 2 text) then Some 3%nat
  else if (1 <=? n)%nat && literal ["月"] (drop 1 text) then Some 2%nat
  else if literal ["Q"] text && match drop 1 text with c :: _ => str_in c ["1"; "2"; "3"; "4"] | [] => false end
  then Some 2%nat
  else if literal ["2"; "0"] text && (4 <=? n)%nat && literal ["-"] (drop 4 text) then
    match run is_digit_char (drop 5 text) with O => None | 1%nat => Some 6%nat | _ => Some 7%nat end
  else None.

(** [[\u4e00-\u9fa5]{2,}]; code points compare as their UTF-8 encodings do. *)
Definition is_cjk (c : string) : bool := String.leb "一" c && String.leb c "龥".
Definition cjk_at : matcher := fun text =>
  let n := run is_cjk text in if (2 <=? n)%nat then Some n else None.

(** [[A-Z][a-zA-Z]{2,}] *)
Definition is_upper (c : string) : bool :=
  match c with
  | String a EmptyString => let n := Ascii.nat_of_ascii a in (65 <=? n)%nat && (n <=? 90)%nat
  | _ => false
  end.
Definition is_letter (c : string) : bool :=
  is_upper c || match c with
                | String a EmptyString => let n := Ascii.nat_of_ascii a in (97 <=? n)%nat && (n <=? 122)%nat
                | _ => false
                end.
Definition proper_noun_at : matcher := fun text =>
  match text with
  | c :: rest => let n := run is_letter rest in if is_upper c && (2 <=? n)%nat then Some (S n) else None
  | [] => None
  end.

Definition extract_entities (text : string) : gset string :=
  list_to_set (findall number_at text) ∪ list_to_set (findall date_at text) ∪
  list_to_set (findall cjk_at text) ∪ list_to_set (findall proper_noun_at text).

Definition NEGATION_WORDS : list string :=
  ["不"; "没有"; "无"; "非"; "未"; "否认"; "反对"; "拒绝"; "错"; "假"; "否"; "并非"; "并未"; "相反"; "冲突"].

Definition has_negation (text : string) : bool := existsb (fun w => contains w text) NEGATION_WORDS.

Definition judge_overlap (claim_text evidence_content : string) : string :=
  let claim_ents := extract_entities claim_text in
  if bool_decide (claim_ents = ∅) then PairStatus_value PS_INSUFFICIENT
  else
    let ev_ents := extract_entities evidence_content in
    let overlap := size (claim_ents ∩ ev_ents) in
    let ratio := fdiv (fint (Z.of_nat overlap)) (fint (Z.of_nat (size claim_ents))) in
    if negb (Bool.eqb (has_negation claim_text) (has_negation evidence_content)) && fge ratio (rnd (3 # 10))
    then PairStatus_value PS_CONTRADICTED
    else if fge ratio (1 # 2) then PairStatus_value PS_SUPPORTED
    else PairStatus_value PS_INSUFFICIENT.

Definition has_entity_overlap (claim_text : string) (ev : Evidence) : bool :=
  let claim_ents := extract_entities claim_text in
  if bool_decide (claim_ents = ∅) then false
  else negb (bool_decide (claim_ents ∩ extract_entities (get_or (ev_content ev) "") = ∅)).
End text.

Example find_citations_ex : find_citations (fun _ => None) "营收 15[1] and [12][x3] [999]" = [1; 12; 999]%Z.
Proof. reflexivity. Qed.
Example entities_ex : extract_entities (fun _ => None) "2024年3月 OpenAI 营收 15.3%" =
  list_to_set ["2024"; "3"; "15.3%"; "2024年"; "3月"; "营收"; "OpenAI"].
Proof. vm_compute. reflexivity. Qed.

(** ** The binder *)

Record BinderState : Type := mkBinder { bs_pair_budget_used : Z; bs_pair_budget_exhausted : bool }.

Definition new_binder : BinderState := mkBinder 0 false.

Section binder.
Variable unicode_digit : string -> option Z.
Variables (snapshot : EvidenceSnapshot) (tenant_id : string) (budget : option VerificationBudget).

Definition index_to_evidence (idx : Z) : option Evidence :=
  if (idx <? 1)%Z then None else get_evidences snapshot !! Z.to_nat (idx - 1).

(** Of several pieces with one id the last one is kept, at the first one's place. *)
Definition ev_id_to_evidence : list (string * Evidence) :=
  fold_left (fun d ev => if truthy (ev_id ev) then dset (ev_id ev) ev d else d) (get_evidences snapshot) [].

Definition ev_id_to_index : list (string * Z) :=
  fold_left (fun d iv => if truthy (ev_id iv.2) then dset (ev_id iv.2) iv.1 d else d)
    (imap (fun i ev => (Z.of_nat i + 1, ev)%Z) (get_evidences snapshot)) [].

Definition own_tenant (ev : Evidence) : bool := bool_decide (ev_tenant_id ev = Some tenant_id).

(** [_extract_citations_for_claim] *)
Definition extract_citations_for_claim (c : Claim) (answer_text : string) : list Z :=
  let from_text := find_citations unicode_digit (c_text c) in
  if truthy answer_text && (snd (c_span c) >? fst (c_span c))%Z then
    let span_text := concat_chars (py_slice (fst (c_span c)) (snd (c_span c)) (chars answer_text)) in
    let cites := find_citations unicode_digit span_text in
    if truthy cites then cites else from_text
  else from_text.

(** Classification of one number: the three lists it may go to. *)
Abbreviation classes := (list Z * list string * list string)%type.

Definition classify (acc : classes) (idx : Z) : classes :=
  let '(invalid, unauthorized, resolved) := acc in
  match index_to_evidence idx with
  | None => (append_new_Z idx invalid, unauthorized, resolved)
  | Some ev =>
    if negb (truthy (ev_id ev)) then (append_new_Z idx invalid, unauthorized, resolved)
    else if negb (own_tenant ev) then (invalid, append_new (ev_id ev) unauthorized, resolved)
    else (invalid, unauthorized, append_new (ev_id ev) resolved)
  end.

(** [_parse_declared_citations] *)
Definition parse_declared_citations (c : Claim) (citations : list Z) : Claim :=
  let '(invalid, unauthorized, resolved) := fold_left classify citations ([], [], []) in
  set_declared c citations resolved invalid unauthorized (c_truncated_citations c).

(** [_truncate_citations_by_budget]: the claim and the ids to verify. *)
Definition truncate_citations_by_budget (c : Claim) : Claim * list string :=
  let with_cut resolved cut :=
    set_declared c (c_raw_declared_indices c) resolved (c_invalid_indices c) (c_unauthorized_ids c) cut in
  let resolved := c_resolved_declared_ids c in
  match budget with
  | None => (with_cut resolved [], resolved)
  | Some b =>
    let max_citations := vb_max_citations_per_claim b in
    if (py_len resolved <=? max_citations)%Z then (with_cut resolved [], resolved)
    else
      let keep_ids := py_take max_citations resolved in
      let drop_ids := py_rest max_citations resolved in
      let cut := fold_left (fun cut eid => match dlookup eid ev_id_to_index with
                                           | Some idx => append_new_Z idx cut
                                           | None => cut
                                           end) drop_ids [] in
      (with_cut keep_ids cut, keep_ids)
  end.

(** [_verify_pair]; on text its exception branch is never taken. *)
Definition rule_verdict (evidence_id pair_status : string) : PairVerdict :=
  mkPairVerdict evidence_id "1.0" pair_status (VerifierStatus_value VS_OK) pair_status "unknown" "unknown" "" false.

Definition verify_pair (c : Claim) (ev : Evidence) : PairVerdict :=
  let content := get_or (ev_content ev) "" in
  if negb (truthy content) then rule_verdict (ev_id ev) (PairStatus_value PS_INSUFFICIENT)
  else rule_verdict (ev_id ev) (judge_overlap unicode_digit (c_text c) content).

Definition exhausted_verdict (evidence_id : string) : PairVerdict :=
  mkPairVerdict evidence_id "1.0" (PairStatus_value PS_VERIFIER_ERROR) (VerifierStatus_value VS_BUDGET_EXHAUSTED)
    "unknown" "unknown" "unknown" "" false.

Definition verify_pair_with_budget (s : BinderState) (c : Claim) (ev : Evidence) : BinderState * PairVerdict :=
  if bs_pair_budget_exhausted s then (s, exhausted_verdict (ev_id ev))
  else
    let verdict := verify_pair c ev in
    match budget with
    | None => (s, verdict)
    | Some b =>
      let used := (bs_pair_budget_used s + 1)%Z in
      (mkBinder used (if (used >=? vb_max_total_pairs b)%Z then true else bs_pair_budget_exhausted s), verdict)
    end.

(** [_aggregate_verifier_status], the rules of the claim's own aggregation. *)
Definition binder_aggregate (verdicts : list PairVerdict) : string :=
  match verdicts with
  | [] => VerifierStatus_value VS_UNKNOWN
  | _ => aggregate_statuses (map pv_verifier_status verdicts)
  end.

(** [_scan_counter_evidence], over the pieces of evidence that are left. *)
Definition mark_counter (v : PairVerdict) : PairVerdict :=
  mkPairVerdict (pv_evidence_id v) (pv_schema_version v) (pv_pair_status v) (pv_verifier_status v)
    (pv_rule_result v) (pv_nli_result v) (pv_llm_result v) (pv_attempt_id v) true.

Fixpoint scan_loop (c : Claim) (declared : list string) (todo : list (string * Evidence)) (s : BinderState)
    (counter : list (string * PairVerdict)) : BinderState * list (string * PairVerdict) :=
  match todo with
  | [] => (s, counter)
  | (eid, ev) :: todo' =>
    if str_in eid declared then scan_loop c declared todo' s counter
    else if negb (own_tenant ev) then scan_loop c declared todo' s counter
    else if negb (has_entity_overlap unicode_digit (c_text c) ev) then scan_loop c declared todo' s counter
    else if bs_pair_budget_exhausted s then (s, counter)
    else
      let '(s, verdict) := verify_pair_with_budget s c ev in
      scan_loop c declared todo' s
        (if String.eqb (pv_pair_status verdict) (PairStatus_value PS_CONTRADICTED)
         then dset eid (mark_counter verdict) counter else counter)
  end.

Definition scan_counter_evidence (s : BinderState) (c : Claim) : BinderState * list (string * PairVerdict) :=
  scan_loop c (c_resolved_declared_ids c ++ c_unauthorized_ids c) ev_id_to_evidence s [].

(** [_verify_joint_support] *)
Definition newline : string := String (Ascii.ascii_of_nat 10) "".

Definition joint_verdict (evidence_ids : list string) (pair_status : string) : PairVerdict :=
  mkPairVerdict (join "," evidence_ids) "1.0" pair_status (VerifierStatus_value VS_OK) "unknown" "unknown"
    pair_status "" false.

Definition verify_joint_support (c : Claim) (evidence_ids : list string) : PairVerdict :=
  let contents := omap (fun eid => match dlookup eid ev_id_to_evidence with
                                   | Some ev => if truthy (ev_content ev) then ev_content ev else None
                                   | None => None
                                   end) evidence_ids in
  let joint_content := join newline contents in
  if negb (truthy joint_content) then joint_verdict evidence_ids (PairStatus_value PS_INSUFFICIENT)
  else joint_verdict evidence_ids (judge_overlap unicode_digit (c_text c) joint_content).

(** ** [bind] *)

(** Step 5: the declared pairs. *)
Fixpoint verify_declared (s : BinderState) (c : Claim) (ids : list string) : BinderState * Claim :=
  match ids with
  | [] => (s, c)
  | eid :: ids' =>
    match dlookup eid ev_id_to_evidence with
    | None => verify_declared s c ids'
    | Some ev => let '(s, verdict) := verify_pair_with_budget s c ev in
                 verify_declared s (add_pair_verdict c verdict) ids'
    end
  end.

(** Step 7: the joint check of the authorized evidence. *)
Definition joint_step (c : Claim) (authorized_ids : list string) : Claim :=
  if negb (has_verified_support c) && (1 <? py_len authorized_ids)%Z then
    let jv := verify_joint_support c authorized_ids in
    if String.eqb (pv_pair_status jv) (PairStatus_value PS_SUPPORTED)
    then set_verdicts c (c_verified_support_ids c ++ authorized_ids) (c_contradicting_ids c) (c_pair_verdicts c ++ [jv])
    else c
  else c.

(** Steps 6 to 8, shared by the two entry points. *)
Definition finish_claim (s : BinderState) (c : Claim) (authorized_ids : list string) : BinderState * Claim :=
  let '(s, counter) := scan_counter_evidence s c in
  let c := fold_left (fun c kv => add_pair_verdict c kv.2) counter c in
  let c := joint_step c authorized_ids in
  (s, set_verifier_status c (binder_aggregate (c_pair_verdicts c))).

(** Steps 2 to 4 and the reset. *)
Definition declare_claim (c : Claim) (answer_text : string) : Claim * list string :=
  let c := parse_declared_citations c (extract_citations_for_claim c answer_text) in
  let '(c, authorized_ids) := truncate_citations_by_budget c in
  (set_verdicts c [] [] [], authorized_ids).

Definition truncated_claim (c : Claim) : Claim :=
  set_verifier_status (set_final_status c (ClaimFinalStatus_value FS_TRUNCATED)) (VerifierStatus_value VS_UNKNOWN).

(** Step 1: whether claim number [i] is over the budget. *)
Definition over_budget (i : nat) : bool :=
  match budget with Some b => (Z.of_nat i >=? vb_max_claims b)%Z | None => false end.

Definition bind_claim (s : BinderState) (c : Claim) (answer_text : string) : BinderState * Claim :=
  let '(c, authorized_ids) := declare_claim c answer_text in
  let '(s, c) := verify_declared s c authorized_ids in
  finish_claim s c authorized_ids.

Fixpoint bind_from (i : nat) (s : BinderState) (claims : list Claim) (answer_text : string) : BinderState * list Claim :=
  match claims with
  | [] => (s, [])
  | c :: claims' =>
    let '(s, c) := if over_budget i then (s, truncated_claim c) else bind_claim s c answer_text in
    let '(s, cs) := bind_from (S i) s claims' answer_text in
    (s, c :: cs)
  end.

Definition bind (s : BinderState) (claims : list Claim) (answer_text : string) : BinderState * list Claim :=
  bind_from 0 s claims answer_text.

(** ** [bind_async] *)

Record PairInput : Type := mkPairInput { pi_claim_text : string; pi_evidence_content : string; pi_evidence_id : string }.

(** The injected verifier: the verdicts of a batch, or the exception it raises. *)
Variable pair_verifier : option (list PairInput -> result (list PairVerdict)).

(** Steps 1 to 4: each claim with its authorized ids ([None]: over the budget). *)
Definition declare_all (claims : list Claim) (answer_text : string) : list (Claim * option (list string)) :=
  imap (fun i c => if over_budget i then (truncated_claim c, None)
                   else let '(c, ids) := declare_claim c answer_text in (c, Some ids)) claims.

Definition is_truncated (c : Claim) : bool := String.eqb (c_final_status c) (ClaimFinalStatus_value FS_TRUNCATED).

(** Step 5: the pairs of all the claims, with the key of each. *)
Definition claim_pairs (ci : nat) (ca : Claim * option (list string)) : list (nat * string * PairInput) :=
  if is_truncated ca.1 then []
  else omap (fun eid => match dlookup eid ev_id_to_evidence with
                        | Some ev => Some (ci, eid, mkPairInput (c_text ca.1) (get_or (ev_content ev) "") eid)
                        | None => None
                        end) (get_or ca.2 []).

Definition all_pairs (declared : list (Claim * option (list string))) : list (nat * string * PairInput) :=
  concat (imap claim_pairs declared).

(** Step 6: the last result stored under a key. *)
Definition result_for (results : list (nat * string * PairVerdict)) (ci : nat) (eid : string) : option PairVerdict :=
  match List.find (fun r => (fst r.1 =? ci)%nat && String.eqb (snd r.1) eid) (rev results) with
  | Some r => Some r.2
  | None => None
  end.

Definition fill_claim (results : list (nat * string * PairVerdict)) (ci : nat) (c : Claim) (ids : list string) : Claim :=
  fold_left (fun c eid => match result_for results ci eid with Some v => add_pair_verdict c v | None => c end) ids c.

Fixpoint finish_from (results : list (nat * string * PairVerdict)) (ci : nat) (s : BinderState)
    (declared : list (Claim * option (list string))) : BinderState * list Claim :=
  match declared with
  | [] => (s, [])
  | (c, ids) :: declared' =>
    let auth_ids := get_or ids [] in
    let '(s, c) := if is_truncated c then (s, c) else finish_claim s (fill_claim results ci c auth_ids) auth_ids in
    let '(s, cs) := finish_from results (S ci) s declared' in
    (s, c :: cs)
  end.

Definition bind_async (s : BinderState) (claims : list Claim) (answer_text : string) : result (BinderState * list Claim) :=
  match pair_verifier with
  | None => Raise (OtherError "RuntimeError")
  | Some verify_pairs =>
    let declared := declare_all claims answer_text in
    let pairs := all_pairs declared in
    let! verdicts := verify_pairs (map snd pairs) in
    Ok (finish_from (combine (map fst pairs) verdicts) 0 s declared)
  end.
End binder.

(** ** Lemmas *)

Lemma append_new_Z_NoDup x l : NoDup l -> NoDup (append_new_Z x l).
Proof.
  intros H. unfold append_new_Z. destruct (bool_decide_reflect (x ∈ l)) as [|Hn]; [done|].
  apply NoDup_app. split_and!; [done| |apply NoDup_singleton]. by intros y Hy ->%list_elem_of_singleton.
Qed.

Lemma elem_of_append_new_Z y x l : y ∈ append_new_Z x l <-> y = x \/ y ∈ l.
Proof.
  unfold append_new_Z. destruct (bool_decide_reflect (x ∈ l)).
  - split; [by right|]. intros [->|?]; done.
  - rewrite elem_of_app, list_elem_of_singleton. tauto.
Qed.

Section binder_lemmas.
Variable unicode_digit : string -> option Z.
Variables (snapshot : EvidenceSnapshot) (tenant_id : string) (budget : option VerificationBudget).

Abbreviation index_of := (index_to_evidence snapshot).
Abbreviation by_id := (ev_id_to_evidence snapshot).
Abbreviation own := (own_tenant tenant_id).
Abbreviation verify_budgeted := (verify_pair_with_budget unicode_digit budget).

(** ** Classification *)

(** A number that names no usable evidence. *)
Definition unusable (i : Z) : Prop := forall ev, index_of i = Some ev -> ev_id ev = "".

(** A number that names evidence [id], of the tenant or not. *)
Definition names_evidence (mine : bool) (i : Z) (id : string) : Prop :=
  exists ev, index_of i = Some ev /\ ev_id ev = id /\ id <> "" /\ own ev = mine.

Definition classified (cits : list Z) (invalid : list Z) (unauthorized resolved : list string) : Prop :=
  (forall i, i ∈ invalid <-> i ∈ cits /\ unusable i) /\
  (forall id, id ∈ unauthorized <-> exists i, i ∈ cits /\ names_evidence false i id) /\
  (forall id, id ∈ resolved <-> exists i, i ∈ cits /\ names_evidence true i id) /\
  NoDup invalid /\ NoDup unauthorized /\ NoDup resolved.

Lemma usable_cases i ev : index_of i = Some ev ->
  (unusable i <-> ev_id ev = "") /\
  forall mine id, names_evidence mine i id <-> id = ev_id ev /\ ev_id ev <> "" /\ own ev = mine.
Proof.
  intros E. unfold unusable, names_evidence. rewrite E. split.
  - split; [by intros H; apply H|by intros ? ? [= <-]].
  - intros mine id. split.
    + by intros (e & [= <-] & <- & Hn & Ho).
    + intros (-> & Hn & Ho). by exists ev.
Qed.

Lemma missing_cases i : index_of i = None -> unusable i /\ forall mine id, names_evidence mine i id <-> False.
Proof.
  intros E. unfold unusable, names_evidence. rewrite E. split; [done|]. intros mine id. split; [|done].
  by intros (e & ? & _).
Qed.

Lemma classify_snoc cits idx invalid unauthorized resolved :
  classified cits invalid unauthorized resolved ->
  let '(invalid', unauthorized', resolved') := classify snapshot tenant_id (invalid, unauthorized, resolved) idx in
  classified (cits ++ [idx]) invalid' unauthorized' resolved'.
Proof.
  intros (Hi & Hu & Hr & N1 & N2 & N3). unfold classify.
  assert (forall P : Z -> Prop, (exists i, i ∈ cits ++ [idx] /\ P i) <-> (exists i, i ∈ cits /\ P i) \/ P idx) as Hex.
  { intros P. setoid_rewrite elem_of_app. setoid_rewrite list_elem_of_singleton. naive_solver. }
  assert (forall i, i ∈ cits ++ [idx] /\ unusable i <-> i ∈ cits /\ unusable i \/ i = idx /\ unusable idx) as Hun.
  { intros i. rewrite elem_of_app, list_elem_of_singleton. naive_solver. }
  assert (forall inv' un' res', (forall i, i ∈ inv' <-> i ∈ invalid \/ i = idx /\ unusable idx) ->
    (forall id, id ∈ un' <-> id ∈ unauthorized \/ names_evidence false idx id) ->
    (forall id, id ∈ res' <-> id ∈ resolved \/ names_evidence true idx id) ->
    NoDup inv' -> NoDup un' -> NoDup res' -> classified (cits ++ [idx]) inv' un' res') as Hgoal.
  { intros inv' un' res' H1 H2 H3 D1 D2 D3. split_and!; [| | |done..]; intros x.
    - by rewrite H1, Hi, Hun.
    - by rewrite H2, Hu, (Hex (fun i => names_evidence false i x)).
    - by rewrite H3, Hr, (Hex (fun i => names_evidence true i x)). }
  destruct (index_of idx) as [ev|] eqn:E.
  - destruct (usable_cases _ _ E) as [Hus Hna]. unfold truthy at 1, truthy_string. rewrite negb_involutive.
    destruct (String.eqb_spec (ev_id ev) "") as [Hid|Hid]; [|destruct (own ev) eqn:Eo; cbn [negb]];
      apply Hgoal; auto using append_new_NoDup, append_new_Z_NoDup;
      intros x; rewrite ?elem_of_append_new, ?elem_of_append_new_Z, ?Hna, ?Hus; clear - Hid; intuition congruence.
  - destruct (missing_cases _ E) as [Hus Hna].
    apply Hgoal; auto using append_new_Z_NoDup; intros x; rewrite ?elem_of_append_new_Z, ?Hna; clear - Hus; tauto.
Qed.

Lemma classify_all cits :
  let '(invalid, unauthorized, resolved) := fold_left (classify snapshot tenant_id) cits ([], [], []) in
  classified cits invalid unauthorized resolved.
Proof.
  induction cits as [|idx cits IH] using rev_ind.
  - cbn. split_and!; [| | |apply NoDup_nil_2..]; intros x.
    + split; [by intros ?%not_elem_of_nil|by intros [?%not_elem_of_nil _]].
    + split; [by intros ?%not_elem_of_nil|by intros (i & ?%not_elem_of_nil & _)].
    + split; [by intros ?%not_elem_of_nil|by intros (i & ?%not_elem_of_nil & _)].
  - rewrite fold_left_app. cbn [fold_left]. destruct (fold_left _ cits _) as [[invalid unauthorized] resolved].
    by apply classify_snoc.
Qed.

(** ** The tables by id *)

Lemma by_id_elem id ev : (id, ev) ∈ by_id -> ev ∈ get_evidences snapshot /\ ev_id ev = id /\ id <> "".
Proof.
  unfold ev_id_to_evidence. set (P := fun kv : string * Evidence => kv.2 ∈ get_evidences snapshot /\ ev_id kv.2 = kv.1 /\ kv.1 <> "").
  assert (forall evs d, Forall P d -> evs ⊆ get_evidences snapshot ->
    Forall P (fold_left (fun d ev => if truthy (ev_id ev) then dset (ev_id ev) ev d else d) evs d)) as H.
  { induction evs as [|e evs IH]; intros d Hd Hsub; cbn [fold_left]; [done|]. apply IH; [|set_solver].
    unfold truthy, truthy_string. destruct (String.eqb_spec (ev_id e) ""); [done|]. apply dset_Forall; [done|].
    split_and!; [set_solver|done|done]. }
  intros Hin. specialize (H (get_evidences snapshot) [] (Forall_nil_2 _) (reflexivity _)).
  rewrite Forall_forall in H. exact (H _ Hin).
Qed.

Lemma by_id_spec id ev : dlookup id by_id = Some ev -> ev ∈ get_evidences snapshot /\ ev_id ev = id /\ id <> "".
Proof. intros H%dlookup_elem. by apply by_id_elem. Qed.

(** Distinct ids, as the fusion of evidence guarantees. *)
Definition distinct_ids : Prop :=
  forall e1 e2, e1 ∈ get_evidences snapshot -> e2 ∈ get_evidences snapshot -> ev_id e1 = ev_id e2 -> e1 = e2.

(** An id of the tenant's own evidence. *)
Definition own_id (id : string) : Prop := exists ev, ev ∈ get_evidences snapshot /\ ev_id ev = id /\ own ev = true.

Lemma names_own i id : names_evidence true i id -> own_id id.
Proof.
  intros (ev & Hi & Hid & _ & Ho). exists ev. split_and!; [|done..].
  unfold index_to_evidence in Hi. destruct (_ <? _)%Z; [done|]. by eapply list_elem_of_lookup_2.
Qed.

Lemma by_id_own id ev : distinct_ids -> own_id id -> dlookup id by_id = Some ev -> own ev = true.
Proof.
  intros Hd (e & He & Hid & Ho) (Hin & Hid' & _)%by_id_spec. by rewrite (Hd ev e) by congruence.
Qed.

(** ** The pair budget *)

(** Reached budgets: at least one pair was judged. *)
Definition budget_ok (s : BinderState) : Prop :=
  match budget with
  | None => True
  | Some b => (bs_pair_budget_used s <= Z.max 1 (vb_max_total_pairs b))%Z /\ (0 <= bs_pair_budget_used s)%Z /\
              (bs_pair_budget_exhausted s = true <->
               (0 < bs_pair_budget_used s /\ vb_max_total_pairs b <= bs_pair_budget_used s)%Z)
  end.

Lemma verify_budget_ok s c ev : budget_ok s -> budget_ok (verify_budgeted s c ev).1.
Proof.
  unfold budget_ok, verify_pair_with_budget. intros H. destruct (bs_pair_budget_exhausted s) eqn:E; cbn [fst].
  { destruct budget; [|done]. by rewrite E. }
  destruct budget as [b|]; [|done]. cbn. destruct H as (H1 & H2 & H3).
  destruct (Z.geb_spec (bs_pair_budget_used s + 1) (vb_max_total_pairs b)).
  - split_and!; [|lia|split; [lia|done]]. destruct (Z_lt_le_dec (bs_pair_budget_used s) (vb_max_total_pairs b)); [lia|].
    destruct (Z_lt_le_dec 0 (bs_pair_budget_used s)); [|lia]. exfalso. by apply Bool.diff_false_true, H3.
  - split_and!; [lia..|]. split; [done|lia].
Qed.

Lemma scan_loop_budget_ok c declared todo : forall s counter, budget_ok s ->
  budget_ok (scan_loop unicode_digit tenant_id budget c declared todo s counter).1.
Proof.
  induction todo as [|[eid ev] todo IH]; intros s counter H; cbn [scan_loop]; [done|].
  destruct (str_in _ _); [auto|]. destruct (negb (own _)); [auto|]. destruct (negb (has_entity_overlap _ _ _)); [auto|].
  destruct (bs_pair_budget_exhausted s); [done|].
  pose proof (verify_budget_ok s c ev H) as Hv. destruct (verify_budgeted s c ev) as [s1 v]. by apply IH.
Qed.

Lemma verify_declared_budget_ok ids : forall s c, budget_ok s ->
  budget_ok (verify_declared unicode_digit snapshot budget s c ids).1.
Proof.
  induction ids as [|eid ids IH]; intros s c H; cbn [verify_declared]; [done|].
  destruct (dlookup eid _) as [ev|]; [|auto].
  pose proof (verify_budget_ok s c ev H) as Hv. destruct (verify_budgeted s c ev) as [s1 v]. by apply IH.
Qed.

Lemma finish_claim_budget_ok s c ids : budget_ok s ->
  budget_ok (finish_claim unicode_digit snapshot tenant_id budget s c ids).1.
Proof.
  intros H. unfold finish_claim, scan_counter_evidence.
  pose proof (scan_loop_budget_ok c (c_resolved_declared_ids c ++ c_unauthorized_ids c) by_id s [] H) as Hs.
  by destruct (scan_loop _ _ _ _ _ _ _ _).
Qed.

Lemma bind_from_budget_ok i s claims answer : budget_ok s ->
  budget_ok (bind_from unicode_digit snapshot tenant_id budget i s claims answer).1.
Proof.
  revert i s. induction claims as [|c claims IH]; intros i s H; cbn [bind_from]; [done|].
  assert (forall s1 c1, budget_ok s1 -> budget_ok
    (let '(s2, cs) := bind_from unicode_digit snapshot tenant_id budget (S i) s1 claims answer in (s2, c1 :: cs)).1) as Hrec.
  { intros s1 c1 H1. specialize (IH (S i) s1 H1). by destruct (bind_from _ _ _ _ _ _ _ _). }
  destruct (over_budget budget i); [by apply Hrec|]. unfold bind_claim.
  destruct (declare_claim _ _ _ _ _ _) as [c1 ids].
  pose proof (verify_declared_budget_ok ids s c1 H) as H1. destruct (verify_declared _ _ _ _ _ _) as [s1 c2].
  pose proof (finish_claim_budget_ok s1 c2 ids H1) as H2. destruct (finish_claim _ _ _ _ _ _ _) as [s2 c3].
  by apply Hrec.
Qed.

(** ** Whose evidence a claim may rest on *)

(** Support among [ids], contradictions and verdicts about own evidence. *)
Definition judged (ids : list string) (c : Claim) : Prop :=
  c_verified_support_ids c ⊆ ids /\ (forall id, id ∈ c_contradicting_ids c -> own_id id) /\
  Forall (fun v => own_id (pv_evidence_id v)) (c_pair_verdicts c).

Lemma add_pair_verdict_judged ids c v : own_id (pv_evidence_id v) ->
  (pv_pair_status v = PairStatus_value PS_SUPPORTED -> pv_evidence_id v ∈ ids) ->
  judged ids c -> judged ids (add_pair_verdict c v).
Proof.
  intros Hown Hsup (H1 & H2 & H3). unfold add_pair_verdict.
  assert (Forall (fun v => own_id (pv_evidence_id v)) (c_pair_verdicts c ++ [v])) as H3' by (apply Forall_app; auto).
  destruct (String.eqb_spec (pv_pair_status v) (PairStatus_value PS_SUPPORTED)) as [E|];
    [|destruct (String.eqb _ _)]; split_and!; cbn; auto.
  - intros x [->|Hx]%elem_of_append_new; auto.
  - intros x [->|Hx]%elem_of_append_new; auto.
Qed.

Lemma add_pair_verdict_resolved c v : c_resolved_declared_ids (add_pair_verdict c v) = c_resolved_declared_ids c.
Proof. unfold add_pair_verdict. by split_ifs. Qed.

Lemma verify_budgeted_id s c ev : pv_evidence_id (verify_budgeted s c ev).2 = ev_id ev.
Proof.
  unfold verify_pair_with_budget, verify_pair.
  destruct (bs_pair_budget_exhausted s); [done|]. destruct budget, (negb _); done.
Qed.

Lemma verify_declared_judged ids todo : distinct_ids -> (forall id, id ∈ todo -> own_id id /\ id ∈ ids) ->
  forall s c, judged ids c ->
  let c' := (verify_declared unicode_digit snapshot budget s c todo).2 in
  judged ids c' /\ c_resolved_declared_ids c' = c_resolved_declared_ids c.
Proof.
  intros Hd. induction todo as [|eid todo IH]; intros Hin s c Hj; cbn [verify_declared]; [done|].
  assert (forall id, id ∈ todo -> own_id id /\ id ∈ ids) as Hin' by (intros x Hx; apply Hin; by right).
  destruct (dlookup eid by_id) as [ev|] eqn:E; [|by apply IH].
  destruct (Hin eid ltac:(by left)) as [Hown Heid]. pose proof (verify_budgeted_id s c ev) as Hid.
  destruct (verify_budgeted s c ev) as [s1 v]. cbn in Hid. apply by_id_spec in E as (_ & He & _).
  destruct (IH Hin' s1 (add_pair_verdict c v)) as [H1 H2].
  - apply add_pair_verdict_judged; rewrite ?Hid, ?He; auto.
  - split; [done|]. by rewrite H2, add_pair_verdict_resolved.
Qed.

(** What the search for contradictions returns. *)
Definition counter_ok (kv : string * PairVerdict) : Prop :=
  own_id (pv_evidence_id kv.2) /\ pv_pair_status kv.2 = PairStatus_value PS_CONTRADICTED.

Lemma scan_loop_counter c declared todo : todo ⊆ by_id -> forall s counter, Forall counter_ok counter ->
  Forall counter_ok (scan_loop unicode_digit tenant_id budget c declared todo s counter).2.
Proof.
  induction todo as [|[eid ev] todo IH]; intros Hsub s counter H; cbn [scan_loop]; [done|].
  assert (todo ⊆ by_id) as Hsub' by set_solver.
  destruct (str_in _ _); [auto|]. destruct (own ev) eqn:Eo; cbn [negb]; [|auto].
  destruct (negb (has_entity_overlap _ _ _)); [auto|]. destruct (bs_pair_budget_exhausted s); [done|].
  pose proof (verify_budgeted_id s c ev) as Hid. destruct (verify_budgeted s c ev) as [s1 v]. cbn in Hid.
  apply IH; [done|]. destruct (String.eqb_spec (pv_pair_status v) (PairStatus_value PS_CONTRADICTED)) as [Es|]; [|done].
  apply dset_Forall; [done|]. split; [|done]. cbn. rewrite Hid. exists ev.
  assert ((eid, ev) ∈ by_id) as (? & ? & ?)%by_id_elem by set_solver. done.
Qed.

Lemma counter_judged ids counter : Forall counter_ok counter -> forall c, judged ids c ->
  let c' := fold_left (fun c kv => add_pair_verdict c kv.2) counter c in
  judged ids c' /\ c_resolved_declared_ids c' = c_resolved_declared_ids c.
Proof.
  induction 1 as [|kv counter [Ho Hs] _ IH]; intros c Hj; cbn [fold_left]; [done|].
  destruct (IH (add_pair_verdict c kv.2)) as [H1 H2].
  - apply add_pair_verdict_judged; auto. by rewrite Hs.
  - split; [done|]. by rewrite H2, add_pair_verdict_resolved.
Qed.

(** What a bound claim guarantees. *)
Definition bound_claim (c : Claim) : Prop :=
  (forall id, id ∈ c_resolved_declared_ids c -> own_id id) /\ NoDup (c_resolved_declared_ids c) /\
  (forall b, budget = Some b -> (0 <= vb_max_citations_per_claim b)%Z ->
     (py_len (c_resolved_declared_ids c) <= vb_max_citations_per_claim b)%Z) /\
  c_verified_support_ids c ⊆ c_resolved_declared_ids c /\
  (forall id, id ∈ c_contradicting_ids c -> own_id id) /\
  (forall v, v ∈ c_pair_verdicts c -> own_id (pv_evidence_id v) \/ pv_evidence_id v = join "," (c_resolved_declared_ids c)) /\
  c_verifier_status c = binder_aggregate (c_pair_verdicts c).

(** A claim whose citations were parsed and cut. *)
Definition declared_claim (c : Claim) (ids : list string) : Prop :=
  c_resolved_declared_ids c = ids /\ (forall id, id ∈ ids -> own_id id) /\ NoDup ids /\
  forall b, budget = Some b -> (0 <= vb_max_citations_per_claim b)%Z -> (py_len ids <= vb_max_citations_per_claim b)%Z.

Lemma declare_claim_ok c answer :
  let '(c', ids) := declare_claim unicode_digit snapshot tenant_id budget c answer in
  declared_claim c' ids /\ judged ids c'.
Proof.
  unfold declare_claim, parse_declared_citations. set (cits := extract_citations_for_claim _ _ _).
  pose proof (classify_all cits) as Hc. destruct (fold_left _ cits _) as [[invalid unauthorized] resolved].
  destruct Hc as (_ & _ & Hr & _ & _ & Hnd).
  assert (forall id, id ∈ resolved -> own_id id) as Hown by (intros id (i & _ & Hi)%Hr; by eapply names_own).
  assert (forall ids c', judged ids (set_verdicts c' [] [] [])) as Hj.
  { intros ids c'. split_and!; cbn; [by intros x ?%not_elem_of_nil|by intros x ?%not_elem_of_nil|constructor]. }
  unfold truncate_citations_by_budget, declared_claim. cbn [set_declared c_resolved_declared_ids].
  destruct budget as [b|]; [|split; [split_and!; done|apply Hj]].
  destruct (Z.leb_spec (py_len resolved) (vb_max_citations_per_claim b)).
  - split; [|apply Hj]. split_and!; [done..|]. by intros b' [= <-].
  - split; [|apply Hj]. destruct (py_take_app (vb_max_citations_per_claim b) resolved) as [l Hl]. split_and!.
    + done.
    + intros id Hid. apply Hown. rewrite Hl. apply elem_of_app. by left.
    + rewrite Hl in Hnd. by apply NoDup_app in Hnd as [? _].
    + intros b' [= <-] Hb. rewrite py_take_length_nonneg by done. lia.
Qed.

Lemma finish_claim_bound s c ids : declared_claim c ids -> judged ids c ->
  bound_claim (finish_claim unicode_digit snapshot tenant_id budget s c ids).2.
Proof.
  intros (Hr & Hown & Hnd & Hlen) Hj. unfold finish_claim, scan_counter_evidence.
  pose proof (scan_loop_counter c (c_resolved_declared_ids c ++ c_unauthorized_ids c) by_id (reflexivity _) s [] (Forall_nil_2 _)) as Hc.
  destruct (scan_loop _ _ _ _ _ _ _ _) as [s1 counter]. cbn [snd] in *.
  destruct (counter_judged ids counter Hc c Hj) as [(H1 & H2 & H3) H4].
  set (c1 := fold_left _ counter c) in *.
  assert (c_resolved_declared_ids c1 = ids) as Hr1 by congruence.
  rewrite Forall_forall in H3. unfold joint_step. set (jv := verify_joint_support _ _ _ _).
  assert (pv_evidence_id jv = join "," ids) as Hjv by (subst jv; unfold verify_joint_support; by destruct (negb _)).
  destruct (_ && _); [destruct (String.eqb _ _)|]; unfold bound_claim; cbn; rewrite Hr1; split_and!; auto.
  - intros x [Hx|Hx]%elem_of_app; auto.
  - intros v [Hv| ->%list_elem_of_singleton]%elem_of_app; [left; auto|by right].
Qed.

Lemma bind_claim_bound s c answer : distinct_ids ->
  bound_claim (bind_claim unicode_digit snapshot tenant_id budget s c answer).2.
Proof.
  intros Hd. unfold bind_claim. pose proof (declare_claim_ok c answer) as Hdc.
  destruct (declare_claim _ _ _ _ _ _) as [c1 ids]. destruct Hdc as [(Hr & Hown & Hrest) Hj].
  destruct (verify_declared_judged ids ids Hd (fun id Hid => conj (Hown id Hid) Hid) s c1 Hj) as [Hj2 Hr2].
  destruct (verify_declared _ _ _ _ _ _) as [s1 c2]. cbn in *.
  apply finish_claim_bound; [|done]. split; [congruence|done].
Qed.
End binder_lemmas.

(** ** Binding twice *)

(** The fields the binder reads or never writes. *)
Definition base (c : Claim) :=
  (c_claim_id c, c_text c, c_schema_version c, c_span c, c_final_status c,
   (c_model_claim_type c, c_model_is_required c, c_server_claim_type c, c_server_is_required c, c_risk_level c)).

Lemma base_add_pair_verdict c v : base (add_pair_verdict c v) = base c.
Proof. unfold add_pair_verdict. by split_ifs. Qed.

Lemma add_pair_verdict_vs c v x : add_pair_verdict (set_verifier_status c x) v = set_verifier_status (add_pair_verdict c v) x.
Proof. unfold add_pair_verdict. cbn [set_verifier_status c_pair_verdicts]. by split_ifs. Qed.

Section idempotent.
Variable unicode_digit : string -> option Z.
Variables (snapshot : EvidenceSnapshot) (tenant_id : string) (budget : option VerificationBudget).

Lemma declare_claim_base c c' answer : base c' = base c ->
  let '(d, ids) := declare_claim unicode_digit snapshot tenant_id budget c answer in
  declare_claim unicode_digit snapshot tenant_id budget c' answer = (set_verifier_status d (c_verifier_status c'), ids) /\
  base d = base c.
Proof.
  destruct c as [a1 a2 a3 a4 a5 a6 a7 a8 a9 a10 a11 a12 a13 a14 a15 a16 a17 a18 a19].
  destruct c' as [b1 b2 b3 b4 b5 b6 b7 b8 b9 b10 b11 b12 b13 b14 b15 b16 b17 b18 b19].
  cbn. intros [= -> -> -> -> -> -> -> -> -> ->].
  unfold declare_claim, parse_declared_citations. cbn [c_text c_span extract_citations_for_claim].
  set (cits := extract_citations_for_claim _ _ _). clearbody cits. destruct (fold_left _ cits _) as [[invalid unauthorized] resolved].
  unfold truncate_citations_by_budget. cbn [set_declared c_resolved_declared_ids].
  destruct budget as [b|]; [|done]. by destruct (_ <=? _)%Z.
Qed.

Lemma verify_declared_base ids : forall s c,
  base (verify_declared unicode_digit snapshot budget s c ids).2 = base c /\
  forall x, verify_declared unicode_digit snapshot budget s (set_verifier_status c x) ids =
    let '(s', c') := verify_declared unicode_digit snapshot budget s c ids in (s', set_verifier_status c' x).
Proof.
  induction ids as [|eid ids IH]; intros s c; cbn [verify_declared]; [done|].
  destruct (dlookup eid _) as [ev|]; [|apply IH]. split.
  - destruct (verify_pair_with_budget _ _ _ _ _) as [s1 v]. by rewrite (proj1 (IH _ _)), base_add_pair_verdict.
  - intros x. change (verify_pair_with_budget unicode_digit budget s (set_verifier_status c x) ev)
      with (verify_pair_with_budget unicode_digit budget s c ev).
    destruct (verify_pair_with_budget _ _ _ _ _) as [s1 v]. rewrite add_pair_verdict_vs. apply IH.
Qed.

Lemma counter_base (counter : list (string * PairVerdict)) : forall c,
  base (fold_left (fun c kv => add_pair_verdict c kv.2) counter c) = base c /\
  forall x, fold_left (fun c kv => add_pair_verdict c kv.2) counter (set_verifier_status c x) =
    set_verifier_status (fold_left (fun c kv => add_pair_verdict c kv.2) counter c) x.
Proof.
  induction counter as [|kv counter IH]; intros c; cbn [fold_left]; [done|]. split.
  - by rewrite (proj1 (IH _)), base_add_pair_verdict.
  - intros x. rewrite add_pair_verdict_vs. apply IH.
Qed.

Lemma scan_loop_vs c x declared todo : forall s counter,
  scan_loop unicode_digit tenant_id budget (set_verifier_status c x) declared todo s counter =
  scan_loop unicode_digit tenant_id budget c declared todo s counter.
Proof.
  induction todo as [|[eid ev] todo IH]; intros s counter; cbn [scan_loop]; [done|]. rewrite !IH.
  change (verify_pair_with_budget unicode_digit budget s (set_verifier_status c x) ev)
    with (verify_pair_with_budget unicode_digit budget s c ev).
  destruct (verify_pair_with_budget _ _ _ _ _) as [s1 v]. by rewrite IH.
Qed.

Lemma finish_claim_base s c ids :
  base (finish_claim unicode_digit snapshot tenant_id budget s c ids).2 = base c /\
  forall x, finish_claim unicode_digit snapshot tenant_id budget s (set_verifier_status c x) ids =
    finish_claim unicode_digit snapshot tenant_id budget s c ids.
Proof.
  unfold finish_claim, scan_counter_evidence. split.
  - destruct (scan_loop _ _ _ _ _ _ _ _) as [s1 counter]. cbn [snd].
    rewrite <- (proj1 (counter_base counter c)). unfold joint_step. by split_ifs.
  - intros x. rewrite scan_loop_vs. cbn [set_verifier_status c_resolved_declared_ids c_unauthorized_ids].
    destruct (scan_loop _ _ _ _ _ _ _ _) as [s1 counter]. rewrite (proj2 (counter_base counter c)).
    set (c1 := fold_left _ counter c). unfold joint_step.
    change (verify_joint_support unicode_digit snapshot (set_verifier_status c1 x) ids)
      with (verify_joint_support unicode_digit snapshot c1 ids).
    change (has_verified_support (set_verifier_status c1 x)) with (has_verified_support c1). by split_ifs.
Qed.

Lemma bind_claim_idempotent s c answer :
  let '(s', c') := bind_claim unicode_digit snapshot tenant_id budget s c answer in
  bind_claim unicode_digit snapshot tenant_id budget s c' answer = (s', c').
Proof.
  unfold bind_claim. pose proof (declare_claim_base c) as Hd.
  destruct (declare_claim unicode_digit snapshot tenant_id budget c answer) as [d ids] eqn:E1.
  destruct (verify_declared _ _ _ s d ids) as [s1 c2] eqn:E2.
  destruct (finish_claim _ _ _ _ s1 c2 ids) as [s2 c3] eqn:E3.
  assert (base c3 = base c) as Hb.
  { pose proof (proj1 (finish_claim_base s1 c2 ids)) as H3. rewrite E3 in H3.
    pose proof (proj1 (verify_declared_base ids s d)) as H2. rewrite E2 in H2.
    specialize (Hd c answer eq_refl). rewrite E1 in Hd. cbn in *. destruct Hd as [_ Hd]. congruence. }
  specialize (Hd c3 answer Hb). rewrite E1 in Hd. destruct Hd as [-> _].
  rewrite (proj2 (verify_declared_base ids s d)), E2. by rewrite (proj2 (finish_claim_base s1 c2 ids)).
Qed.

Lemma bind_from_idempotent i s claims answer :
  let '(s', cs) := bind_from unicode_digit snapshot tenant_id budget i s claims answer in
  bind_from unicode_digit snapshot tenant_id budget i s cs answer = (s', cs).
Proof.
  revert i s. induction claims as [|c claims IH]; intros i s; cbn [bind_from]; [done|].
  destruct (over_budget budget i) eqn:Eo.
  - specialize (IH (S i) s). destruct (bind_from _ _ _ _ _ _ claims _) as [s2 cs]. cbn [bind_from]. rewrite Eo.
    by rewrite IH.
  - pose proof (bind_claim_idempotent s c answer) as Hc.
    destruct (bind_claim _ _ _ _ s c answer) as [s1 c1] eqn:E1. specialize (IH (S i) s1).
    destruct (bind_from _ _ _ _ _ _ claims _) as [s2 cs]. cbn [bind_from]. by rewrite Eo, Hc, IH.
Qed.

Lemma bind_from_lookup i s claims answer j c' : distinct_ids snapshot ->
  (bind_from unicode_digit snapshot tenant_id budget i s claims answer).2 !! j = Some c' ->
  if over_budget budget (i + j) then exists c, claims !! j = Some c /\ c' = truncated_claim c
  else bound_claim snapshot tenant_id budget c'.
Proof.
  intros Hd. revert i s j. induction claims as [|c claims IH]; intros i s j; cbn [bind_from]; [done|].
  assert (forall s1 c1, (if over_budget budget i then c1 = truncated_claim c else bound_claim snapshot tenant_id budget c1) ->
    (let '(s2, cs) := bind_from unicode_digit snapshot tenant_id budget (S i) s1 claims answer in (s2, c1 :: cs)).2 !! j = Some c' ->
    if over_budget budget (i + j) then exists c0, (c :: claims) !! j = Some c0 /\ c' = truncated_claim c0
    else bound_claim snapshot tenant_id budget c') as Hrec.
  { intros s1 c1 H1 Hl. specialize (IH (S i) s1). destruct (bind_from _ _ _ _ _ _ claims _) as [s2 cs].
    destruct j as [|j]; cbn in Hl.
    - injection Hl as <-. rewrite Nat.add_0_r. destruct (over_budget budget i); eauto.
    - specialize (IH j Hl). by rewrite <- plus_n_Sm. }
  destruct (over_budget budget i); [by apply Hrec|].
  pose proof (bind_claim_bound unicode_digit snapshot tenant_id budget s c answer Hd) as Hb.
  destruct (bind_claim _ _ _ _ s c answer) as [s1 c1]. by apply Hrec.
Qed.
End idempotent.

(** ** The asynchronous entry *)

Section async.
Variable unicode_digit : string -> option Z.
Variables (snapshot : EvidenceSnapshot) (tenant_id : string) (budget : option VerificationBudget).

(** Verdicts about the evidence their key names. *)
Definition keyed_results (results : list (nat * string * PairVerdict)) : Prop :=
  Forall (fun r => pv_evidence_id r.2 = snd r.1) results.

Lemma result_for_keyed results ci eid v : keyed_results results ->
  result_for results ci eid = Some v -> pv_evidence_id v = eid.
Proof.
  unfold result_for, keyed_results. rewrite Forall_forall. intros Hk.
  destruct (List.find _ _) as [r|] eqn:E; [|done]. intros [= <-]. apply List.find_some in E as [Hin Hb].
  apply andb_true_iff in Hb as [_ <-%String.eqb_eq]. apply Hk. apply in_rev in Hin. by apply list_elem_of_In.
Qed.

Lemma fill_claim_judged results ci ids todo c : keyed_results results ->
  (forall id, id ∈ todo -> own_id snapshot tenant_id id /\ id ∈ ids) -> judged snapshot tenant_id ids c ->
  let c' := fill_claim results ci c todo in
  judged snapshot tenant_id ids c' /\ c_resolved_declared_ids c' = c_resolved_declared_ids c.
Proof.
  intros Hk. revert c. induction todo as [|eid todo IH]; intros c Hin Hj; [done|].
  unfold fill_claim in *. cbn [fold_left].
  assert (forall id, id ∈ todo -> own_id snapshot tenant_id id /\ id ∈ ids) as Hin' by (intros x Hx; apply Hin; by right).
  destruct (result_for results ci eid) as [v|] eqn:E; [|by apply IH].
  apply result_for_keyed in E; [|done]. destruct (Hin eid ltac:(by left)) as [Ho Hi].
  destruct (IH (add_pair_verdict c v) Hin') as [H1 H2].
  - apply add_pair_verdict_judged; by rewrite ?E.
  - split; [done|]. by rewrite H2, add_pair_verdict_resolved.
Qed.

(** Claims as the declaration phase leaves them. *)
Definition phase_ok (ca : Claim * option (list string)) : Prop :=
  match ca.2 with
  | None => is_truncated ca.1 = true
  | Some ids => declared_claim snapshot tenant_id budget ca.1 ids /\ judged snapshot tenant_id ids ca.1
  end.

Lemma declare_all_ok claims answer :
  Forall phase_ok (declare_all unicode_digit snapshot tenant_id budget claims answer).
Proof.
  apply Forall_forall. intros ca (i & c & -> & _)%elem_of_lookup_imap. destruct (over_budget budget i); [done|].
  pose proof (declare_claim_ok unicode_digit snapshot tenant_id budget c answer) as Hd.
  by destruct (declare_claim _ _ _ _ _ _) as [c1 ids].
Qed.

Lemma finish_from_bound results declared : keyed_results results -> Forall phase_ok declared -> forall ci s,
  let cs := (finish_from unicode_digit snapshot tenant_id budget results ci s declared).2 in
  length cs = length declared /\
  forall j c, cs !! j = Some c -> is_truncated c = true \/ bound_claim snapshot tenant_id budget c.
Proof.
  intros Hk. induction 1 as [|[c ids] declared Hc _ IH]; intros ci s; cbn [finish_from]; [done|].
  assert (forall s1 c1, (is_truncated c1 = true \/ bound_claim snapshot tenant_id budget c1) ->
    let cs := (let '(s2, cs) := finish_from unicode_digit snapshot tenant_id budget results (S ci) s1 declared in (s2, c1 :: cs)).2 in
    length cs = S (length declared) /\
    forall j c, cs !! j = Some c -> is_truncated c = true \/ bound_claim snapshot tenant_id budget c) as Hrec.
  { intros s1 c1 H1. destruct (IH (S ci) s1) as [Hl Hj]. destruct (finish_from _ _ _ _ _ _ _ declared) as [s2 cs]. cbn in *.
    split; [lia|]. intros [|j] c'; [by intros [= <-]|apply Hj]. }
  destruct (is_truncated c) eqn:Et; [apply Hrec; by left|].
  destruct ids as [ids|]; [|unfold phase_ok in Hc; cbn in Hc; congruence].
  destruct Hc as [(Hr & Hown & Hrest) Hj]. cbn [get_or fst snd] in *.
  destruct (fill_claim_judged results ci ids ids c Hk (fun id Hid => conj (Hown id Hid) Hid) Hj) as [Hj' Hr'].
  pose proof (finish_claim_bound unicode_digit snapshot tenant_id budget s (fill_claim results ci c ids) ids) as Hb.
  destruct (finish_claim _ _ _ _ _ _ _) as [s1 c1]. apply Hrec. right. apply Hb; [|done]. split; [congruence|done].
Qed.

Lemma claim_pairs_ids ci ca : Forall (fun p => pi_evidence_id p.2 = snd p.1) (claim_pairs snapshot ci ca).
Proof.
  unfold claim_pairs. destruct (is_truncated ca.1); [constructor|]. apply Forall_forall.
  intros p (eid & _ & H)%list_elem_of_omap. destruct (dlookup eid _); [|done]. by injection H as <-.
Qed.

Lemma all_pairs_ids declared : Forall (fun p => pi_evidence_id p.2 = snd p.1) (all_pairs snapshot declared).
Proof.
  unfold all_pairs. apply Forall_concat, Forall_forall.
  intros l (ci & ca & -> & _)%elem_of_lookup_imap. apply claim_pairs_ids.
Qed.

Lemma combine_keyed (pairs : list (nat * string * PairInput)) verdicts :
  Forall (fun p => pi_evidence_id p.2 = snd p.1) pairs ->
  map pv_evidence_id verdicts = map pi_evidence_id (map snd pairs) ->
  keyed_results (combine (map fst pairs) verdicts).
Proof.
  intros H. revert verdicts. induction H as [|p pairs Hp _ IH]; intros [|v verdicts] Hv; cbn in *; try done; [constructor|].
  injection Hv as Hv1 Hv2. constructor; [cbn; congruence|by apply IH].
Qed.
End async.

(** ** Properties *)

(** Every number an answer declares is kept as declared and goes to exactly the
    list it belongs to: invalid when the snapshot has no evidence of that
    number, unauthorized when it is another tenant's, resolved otherwise; no
    list repeats an entry. *)
Theorem citations_classified snapshot tenant_id c citations :
  let c' := parse_declared_citations snapshot tenant_id c citations in
  c_raw_declared_indices c' = citations /\
  classified snapshot tenant_id citations (c_invalid_indices c') (c_unauthorized_ids c') (c_resolved_declared_ids c').
Proof.
  unfold parse_declared_citations. pose proof (classify_all (fun _ => None) snapshot tenant_id citations) as H.
  destruct (fold_left _ citations _) as [[invalid unauthorized] resolved]. done.
Qed.

(** Binding a list of claims to a snapshot with distinct ids: the claims over
    the budget are marked truncated; each other one resolves at most the
    allowed number of citations, rests only on evidence it declared, is
    contradicted only by evidence of its own tenant, and its pairs are about
    that evidence, singly or as the joint of what it declared. *)
Theorem bind_isolated unicode_digit snapshot tenant_id budget s claims answer j c :
  distinct_ids snapshot ->
  (bind unicode_digit snapshot tenant_id budget s claims answer).2 !! j = Some c ->
  if over_budget budget j then c_final_status c = ClaimFinalStatus_value FS_TRUNCATED
  else bound_claim snapshot tenant_id budget c.
Proof.
  intros Hd Hl. pose proof (bind_from_lookup _ _ _ _ _ _ _ _ _ _ Hd Hl) as H. cbn [Nat.add] in H.
  destruct (over_budget budget j); [|done]. by destruct H as (c0 & _ & ->).
Qed.

(** The same holds of the batch entry, whatever verdicts the verifier returns,
    as long as each is about the evidence it was asked about. *)
Theorem bind_async_isolated unicode_digit snapshot tenant_id budget verify s claims answer s' cs :
  (forall pairs verdicts, verify pairs = Ok verdicts -> map pv_evidence_id verdicts = map pi_evidence_id pairs) ->
  bind_async unicode_digit snapshot tenant_id budget (Some verify) s claims answer = Ok (s', cs) ->
  length cs = length claims /\
  forall j c, cs !! j = Some c ->
    c_final_status c = ClaimFinalStatus_value FS_TRUNCATED \/ bound_claim snapshot tenant_id budget c.
Proof.
  intros Hv. unfold bind_async. set (declared := declare_all _ _ _ _ _ _).
  destruct (verify _) as [verdicts|] eqn:E; [|done]. cbn [rbind]. intros H.
  pose proof (combine_keyed _ verdicts (all_pairs_ids snapshot declared) (Hv _ _ E)) as Hk.
  destruct (finish_from_bound unicode_digit snapshot tenant_id budget _ declared Hk
    (declare_all_ok unicode_digit snapshot tenant_id budget claims answer) 0 s) as [Hl Hj].
  injection H as H. rewrite H in Hl, Hj. cbn [snd] in *. split; [rewrite Hl; apply length_imap|]. intros j c Hc.
  destruct (Hj j c Hc) as [Ht|?]; [left|by right]. by apply String.eqb_eq.
Qed.

(** The pair budget bounds the verifications of a whole run (one is always
    made), and the flag tells when it is used up. *)
Theorem pair_budget_bounded unicode_digit snapshot tenant_id b claims answer :
  let s := (bind unicode_digit snapshot tenant_id (Some b) new_binder claims answer).1 in
  (0 <= bs_pair_budget_used s <= Z.max 1 (vb_max_total_pairs b))%Z /\
  (bs_pair_budget_exhausted s = true <->
   (0 < bs_pair_budget_used s /\ vb_max_total_pairs b <= bs_pair_budget_used s)%Z).
Proof.
  pose proof (bind_from_budget_ok unicode_digit snapshot tenant_id (Some b) 0 new_binder claims answer) as H.
  unfold bind, budget_ok in *. destruct H as (H1 & H2 & H3); [cbn; lia|]. done.
Qed.

(** Binding claims that were bound already changes nothing. *)
Theorem bind_idempotent unicode_digit snapshot tenant_id budget s claims answer :
  let '(s', cs) := bind unicode_digit snapshot tenant_id budget s claims answer in
  bind unicode_digit snapshot tenant_id budget s cs answer = (s', cs).
Proof. apply bind_from_idempotent. Qed.

(** ** Instances *)

Definition sample_evidence (id tenant content : string) : Evidence :=
  mkEvidence (Some id) (Some "rag") None (Some content) None (Some tenant) None None None None None None.

Definition sample_snapshot : EvidenceSnapshot :=
  mkSnapshot "es_1" [sample_evidence "e1" "t1" "营收 100"; sample_evidence "e2" "t2" "营收 100";
                     sample_evidence "e3" "t1" "利润 7"] "" "" 1 "1.0".

Lemma sample_distinct : distinct_ids sample_snapshot.
Proof.
  intros e1 e2 H1 H2. cbn in H1, H2. list_cases H1; list_cases H2; subst; vm_compute; done.
Qed.

Definition no_digit : string -> option Z := fun _ => None.

Definition insufficient_pairs (pairs : list PairInput) : result (list PairVerdict) :=
  Ok (map (fun p => new_PairVerdict (pi_evidence_id p)) pairs).

Abbreviation sample_claim := (new_Claim "c1" "营收 100 利润 7 [1][2][3][9]").
Abbreviation sample_bound := (bind no_digit sample_snapshot "t1" None new_binder [sample_claim] "").

Lemma bind_isolated_witness : exists c, sample_bound.2 = [c] /\
  c_resolved_declared_ids c = ["e1"; "e3"] /\ c_unauthorized_ids c = ["e2"] /\ c_invalid_indices c = [9%Z] /\
  c_verified_support_ids c ⊆ c_resolved_declared_ids c.
Proof.
  eexists. split; [vm_compute; reflexivity|]. split_and!; [reflexivity..|].
  eapply (bind_isolated no_digit sample_snapshot "t1" None new_binder [sample_claim] "" 0 _ sample_distinct).
  vm_compute. reflexivity.
Defined.

(** A verifier that finds every pair insufficient does not have the last word:
    the joint check, which is by overlap, supports the claim all the same. *)
Lemma bind_async_isolated_witness : exists s c,
  bind_async no_digit sample_snapshot "t1" None (Some insufficient_pairs) new_binder [sample_claim] "" = Ok (s, [c]) /\
  c_verified_support_ids c = ["e1"; "e3"] /\ bound_claim sample_snapshot "t1" None c.
Proof.
  assert (forall s c,
    bind_async no_digit sample_snapshot "t1" None (Some insufficient_pairs) new_binder [sample_claim] "" = Ok (s, [c]) ->
    c_final_status c <> ClaimFinalStatus_value FS_TRUNCATED -> bound_claim sample_snapshot "t1" None c) as H.
  { intros s c Hb Hn.
    destruct (bind_async_isolated no_digit sample_snapshot "t1" None insufficient_pairs new_binder [sample_claim] "" s [c]) as [_ H];
      [by intros pairs verdicts [= <-]; rewrite map_map|exact Hb|].
    destruct (H 0%nat c eq_refl); [by destruct Hn|done]. }
  eexists _, _. split; [vm_compute; reflexivity|]. split; [reflexivity|].
  eapply H; [vm_compute; reflexivity|discriminate].
Defined.

(** The batch entry sends every pair, whatever the pair budget. *)
Definition one_pair : VerificationBudget := mkVerificationBudget 30 10 5 1 50 100 3000 30000 10 3 true 3600.

Lemma async_ignores_pair_budget :
  length (all_pairs sample_snapshot
    (declare_all no_digit sample_snapshot "t1" (Some one_pair) [sample_claim; sample_claim] "")) = 4%nat.
Proof. vm_compute. reflexivity. Qed.

Lemma joint_overrides_verifier : exists s c,
  bind_async no_digit sample_snapshot "t1" None (Some insufficient_pairs) new_binder [sample_claim] "" = Ok (s, [c]) /\
  has_verified_support c = true.
Proof. eexists _, _. split; [vm_compute; reflexivity|reflexivity]. Qed.
