(* ===== verification/VerdictMatrix.v ===== *)
(** * The verdict matrix (evidence/verdict_matrix.py)

    A list of rules, tried in order, gives each claim its final status.  The
    rule list handed to the constructor is untyped in the code (a list element
    may be any object, an enumeration field may hold any value); the checks of
    [validate_rules] are about exactly that, so [rule_obj] keeps it. *)

From S2P Require Import Prelude PyFloat PyVal Claim.

Inductive VerdictResult : Type :=
  | VR_VERIFIER_ERROR | VR_CONTRADICTED | VR_INSUFFICIENT | VR_SUPPORTED.

Definition VerdictResult_value (v : VerdictResult) : string :=
  match v with
  | VR_VERIFIER_ERROR => "verifier_error" | VR_CONTRADICTED => "contradicted"
  | VR_INSUFFICIENT => "insufficient" | VR_SUPPORTED => "supported"
  end.

Inductive RuleCondition : Type :=
  | RC_VERIFIER_STATUS_IN | RC_ANY_LAYER_CONTRADICTED | RC_RULE_AND_NLI_SUPPORTED
  | RC_ALL_LAYERS_SUPPORTED | RC_NO_VERIFIED_SUPPORT | RC_DEFAULT.

Definition RuleCondition_value (c : RuleCondition) : string :=
  match c with
  | RC_VERIFIER_STATUS_IN => "verifier_status_in"
  | RC_ANY_LAYER_CONTRADICTED => "any_layer_contradicted"
  | RC_RULE_AND_NLI_SUPPORTED => "rule_and_nli_supported"
  | RC_ALL_LAYERS_SUPPORTED => "all_layers_supported"
  | RC_NO_VERIFIED_SUPPORT => "no_verified_support"
  | RC_DEFAULT => "default"
  end.

#[export] Instance RuleCondition_eq_dec : EqDecision RuleCondition.
Proof. solve_decision. Defined.

(** What a field annotated with an enumeration may hold: a member, a plain
    string (equal to the member with that value, since the enumerations derive
    from [str]), or another object. *)
Inductive enum_field (E : Type) : Type :=
  | Member (e : E)
  | PlainStr (s : string)
  | OtherObj.
Arguments Member {E} e.
Arguments PlainStr {E} s.
Arguments OtherObj {E}.

Definition is_member {E} (f : enum_field E) : bool :=
  match f with Member _ => true | _ => false end.

(** [vr_params] is [None] when it is not a dictionary; [statuses] is the only
    key that is read. *)
Record VerdictRule : Type := mkVerdictRule {
  vr_condition : enum_field RuleCondition;
  vr_verdict : enum_field VerdictResult;
  vr_params : option (option (list string));
}.

Inductive rule_obj : Type :=
  | IsRule (r : VerdictRule)
  | NotARule.

(** [f == RuleCondition.X] *)
Definition condition_is (f : enum_field RuleCondition) (c : RuleCondition) : bool :=
  match f with
  | Member c' => bool_decide (c' = c)
  | PlainStr s => String.eqb s (RuleCondition_value c)
  | OtherObj => false
  end.

(** ** Layer results *)

Definition CONTRADICTION_VALUES : list string := ["contradicted"; "contradiction"].
Definition RULE_LLM_SUPPORT_VALUES : list string := ["supported"].
Definition NLI_SUPPORT_VALUES : list string := ["entailment"].
Definition DEFAULT_ERROR_STATUSES : list string :=
  [VerifierStatus_value VS_TIMEOUT; VerifierStatus_value VS_ERROR;
   VerifierStatus_value VS_MIXED; VerifierStatus_value VS_BUDGET_EXHAUSTED].

Definition is_contradiction (v : string) : bool := str_in (py_lower v) CONTRADICTION_VALUES.
Definition is_rule_llm_support (v : string) : bool := str_in (py_lower v) RULE_LLM_SUPPORT_VALUES.
Definition is_nli_support (v : string) : bool := str_in (py_lower v) NLI_SUPPORT_VALUES.

Definition any_layer_contradicted (c : Claim) : bool :=
  existsb (fun v => is_contradiction (pv_rule_result v) || is_contradiction (pv_nli_result v)
                    || is_contradiction (pv_llm_result v)) (c_pair_verdicts c).

Record layers : Type := mkLayers {
  rule_supported : bool; nli_supported : bool; llm_supported : bool }.

(** The loop sets a flag when some pair supports the claim at that layer. *)
Definition aggregate_layers (c : Claim) : layers :=
  fold_left (fun acc v =>
    mkLayers (if is_rule_llm_support (pv_rule_result v) then true else rule_supported acc)
             (if is_nli_support (pv_nli_result v) then true else nli_supported acc)
             (if is_rule_llm_support (pv_llm_result v) then true else llm_supported acc))
    (c_pair_verdicts c) (mkLayers false false false).

Definition all_layers_supported (c : Claim) : bool :=
  let l := aggregate_layers c in rule_supported l && nli_supported l && llm_supported l.

(** ** Rules *)

Definition default_rules : list rule_obj :=
  [ IsRule (mkVerdictRule (Member RC_VERIFIER_STATUS_IN) (Member VR_VERIFIER_ERROR)
              (Some (Some DEFAULT_ERROR_STATUSES)));
    IsRule (mkVerdictRule (Member RC_ANY_LAYER_CONTRADICTED) (Member VR_CONTRADICTED) (Some None));
    IsRule (mkVerdictRule (Member RC_NO_VERIFIED_SUPPORT) (Member VR_INSUFFICIENT) (Some None));
    IsRule (mkVerdictRule (Member RC_ALL_LAYERS_SUPPORTED) (Member VR_SUPPORTED) (Some None));
    IsRule (mkVerdictRule (Member RC_DEFAULT) (Member VR_INSUFFICIENT) (Some None)) ].

(** The error messages of [validate_rules], with the rule index they quote. *)
Inductive RuleError : Type :=
  | EmptyRules
  | NotVerdictRule (i : nat)
  | BadCondition (i : nat)
  | BadVerdict (i : nat)
  | MissingDefault
  | ManyDefaults (n : nat)
  | DefaultNotLast
  | MissingStatuses (i : nat).

Definition type_errors (i : nat) (r : rule_obj) : list RuleError :=
  match r with
  | NotARule => [NotVerdictRule i]
  | IsRule r => (if is_member (vr_condition r) then [] else [BadCondition i]) ++
                (if is_member (vr_verdict r) then [] else [BadVerdict i])
  end.

Definition is_default (r : rule_obj) : bool :=
  match r with IsRule r => condition_is (vr_condition r) RC_DEFAULT | NotARule => false end.

(** [[i for i, r in enumerate(rules, i) if r is the DEFAULT rule]] *)
Fixpoint default_indices (i : nat) (rules : list rule_obj) : list nat :=
  match rules with
  | [] => []
  | r :: rules' =>
    if is_default r then i :: default_indices (S i) rules' else default_indices (S i) rules'
  end.

Definition default_errors (rules : list rule_obj) : list RuleError :=
  match default_indices 0 rules with
  | [] => [MissingDefault]
  | [i] => if (i =? length rules - 1)%nat then [] else [DefaultNotLast]
  | idxs => [ManyDefaults (length idxs)]
  end.

Definition statuses_errors (i : nat) (r : rule_obj) : list RuleError :=
  match r with
  | NotARule => []
  | IsRule r =>
    if condition_is (vr_condition r) RC_VERIFIER_STATUS_IN then
      match vr_params r with
      | Some (Some (_ :: _)) => []
      | _ => [MissingStatuses i]
      end
    else []
  end.

Definition validate_rules (rules : list rule_obj) : list RuleError :=
  match rules with
  | [] => [EmptyRules]
  | _ => concat (imap type_errors rules) ++ default_errors rules ++ concat (imap statuses_errors rules)
  end.

(** [VerdictMatrix(rules)]: invalid rules raise [ValueError]. *)
Definition init_matrix (rules : option (list rule_obj)) : result (list rule_obj) :=
  let rules := match rules with None => default_rules | Some r => r end in
  match validate_rules rules with
  | [] => Ok rules
  | _ => Raise (ValueError "判定矩阵规则校验失败")
  end.

Definition match_rule (c : Claim) (r : VerdictRule) : result bool :=
  if condition_is (vr_condition r) RC_DEFAULT then Ok true
  else if condition_is (vr_condition r) RC_VERIFIER_STATUS_IN then
    match vr_params r with
    | None => Raise (AttributeError "get")
    | Some st => Ok (str_in (c_verifier_status c) (get_or st []))
    end
  else if condition_is (vr_condition r) RC_ANY_LAYER_CONTRADICTED then Ok (any_layer_contradicted c)
  else if condition_is (vr_condition r) RC_NO_VERIFIED_SUPPORT then Ok (negb (has_verified_support c))
  else if condition_is (vr_condition r) RC_ALL_LAYERS_SUPPORTED then Ok (all_layers_supported c)
  else if condition_is (vr_condition r) RC_RULE_AND_NLI_SUPPORTED then
    let l := aggregate_layers c in Ok (rule_supported l && nli_supported l)
  else Ok false.

(** [rule.verdict.value] *)
Definition verdict_value (r : VerdictRule) : result string :=
  match vr_verdict r with Member v => Ok (VerdictResult_value v) | _ => Raise (AttributeError "value") end.

Fixpoint judge (rules : list rule_obj) (c : Claim) : result string :=
  match rules with
  | [] => Ok (VerdictResult_value VR_INSUFFICIENT)
  | NotARule :: _ => Raise (AttributeError "condition")
  | IsRule r :: rules' =>
    let! hit := match_rule c r in
    if hit then verdict_value r else judge rules' c
  end.

(** ** Lemmas *)

Lemma aggregate_layers_fold l acc :
  fold_left (fun acc v =>
    mkLayers (if is_rule_llm_support (pv_rule_result v) then true else rule_supported acc)
             (if is_nli_support (pv_nli_result v) then true else nli_supported acc)
             (if is_rule_llm_support (pv_llm_result v) then true else llm_supported acc)) l acc
  = mkLayers (rule_supported acc || existsb (fun v => is_rule_llm_support (pv_rule_result v)) l)
             (nli_supported acc || existsb (fun v => is_nli_support (pv_nli_result v)) l)
             (llm_supported acc || existsb (fun v => is_rule_llm_support (pv_llm_result v)) l).
Proof.
  revert acc. induction l as [|v l IH]; intros [r n m]; simpl.
  - by rewrite !orb_false_r.
  - rewrite IH. simpl. f_equal; split_ifs; rewrite ?orb_true_r; done.
Qed.

(** The loop of [_aggregate_layers] computes, layer by layer, whether some
    pair supports the claim. *)
Lemma aggregate_layers_existsb c :
  aggregate_layers c =
  mkLayers (existsb (fun v => is_rule_llm_support (pv_rule_result v)) (c_pair_verdicts c))
           (existsb (fun v => is_nli_support (pv_nli_result v)) (c_pair_verdicts c))
           (existsb (fun v => is_rule_llm_support (pv_llm_result v)) (c_pair_verdicts c)).
Proof. unfold aggregate_layers. by rewrite aggregate_layers_fold. Qed.

(** The decision table that the default rules implement. *)
Definition default_verdict (c : Claim) : VerdictResult :=
  if str_in (c_verifier_status c) DEFAULT_ERROR_STATUSES then VR_VERIFIER_ERROR
  else if any_layer_contradicted c then VR_CONTRADICTED
  else if negb (has_verified_support c) then VR_INSUFFICIENT
  else if all_layers_supported c then VR_SUPPORTED
  else VR_INSUFFICIENT.

Lemma judge_default c : judge default_rules c = Ok (VerdictResult_value (default_verdict c)).
Proof.
  unfold judge, default_rules, match_rule, default_verdict, verdict_value. simpl.
  repeat match goal with |- context [if ?b then _ else _] => destruct b eqn:?; simpl; try done end.
Qed.

Lemma default_rules_valid : validate_rules default_rules = [].
Proof. reflexivity. Qed.

(** A rule that [validate_rules] lets through: genuine enumeration members,
    with statuses where they are needed. *)
Definition rule_ok (r : rule_obj) : Prop :=
  match r with
  | NotARule => False
  | IsRule r => exists c v, vr_condition r = Member c /\ vr_verdict r = Member v /\
      (c = RC_VERIFIER_STATUS_IN -> exists s ss, vr_params r = Some (Some (s :: ss)))
  end.

Lemma concat_imap_nil {A B} (f : nat -> A -> list B) l :
  concat (imap f l) = [] <-> forall i x, l !! i = Some x -> f i x = [].
Proof.
  revert f. induction l as [|a l IH]; intros f; simpl; [split; [done|reflexivity]|].
  rewrite app_nil, (IH (fun i => f (S i))). split.
  - intros [Ha Hl] [|i] x; simpl; [by intros [= <-]|apply Hl].
  - intros H. split; [by apply (H 0%nat)|]. intros i x Hi. by apply (H (S i)).
Qed.

Lemma rule_ok_no_errors i r : type_errors i r = [] -> statuses_errors i r = [] -> rule_ok r.
Proof.
  destruct r as [[[c|?|] [v|?|] ps]|]; simpl; try done.
  intros _ Hs. exists c, v. repeat split. intros ->. simpl in Hs.
  destruct ps as [[[|s ss]|]|]; try done. eauto.
Qed.

Lemma rule_ok_errors i r : rule_ok r -> type_errors i r = [] /\ statuses_errors i r = [].
Proof.
  destruct r as [[f g ps]|]; simpl; [|tauto]. intros (c & v & -> & -> & Hs). simpl.
  split; [done|]. case_bool_decide as E; [|done]. destruct (Hs E) as (s & ss & ->). done.
Qed.

(** Specification of the index computation: exactly the last rule is DEFAULT. *)
Definition one_default_last (rules : list rule_obj) : Prop :=
  exists init last, rules = init ++ [last] /\ is_default last = true /\
    forall r, r ∈ init -> is_default r = false.

Lemma default_indices_nil i l :
  default_indices i l = [] <-> forall r, r ∈ l -> is_default r = false.
Proof.
  revert i. induction l as [|r l IH]; intros i; simpl; [split; [set_solver|done]|].
  destruct (is_default r) eqn:E.
  - split; [done|]. intros H. rewrite H in E; [done|by left].
  - rewrite IH. split; intros H x; [intros [->|?]%elem_of_cons; auto|]. intros ?. apply H. by right.
Qed.

Lemma default_indices_last i l :
  default_indices i l = [(i + length l - 1)%nat] -> l <> [] -> one_default_last l.
Proof.
  revert i. induction l as [|r l IH]; intros i H Hne; [done|]. clear Hne. simpl in H.
  destruct l as [|r' l].
  - exists [], r. simpl in H. destruct (is_default r); [|done]. repeat split; set_solver.
  - destruct (is_default r) eqn:Er.
    { injection H as H _. simpl in H. lia. }
    destruct (IH (S i)) as (init & last & Hl & Hd & Hi); [|done|].
    { rewrite H. f_equal. simpl. lia. }
    exists (r :: init), last. rewrite Hl. repeat split; [done|].
    intros x [->|Hx]%elem_of_cons; auto.
Qed.

Lemma default_indices_snoc i init last :
  is_default last = true -> (forall r, r ∈ init -> is_default r = false) ->
  default_indices i (init ++ [last]) = [(i + length init)%nat].
Proof.
  revert i. induction init as [|r init IH]; intros i Hd Hi; simpl.
  - rewrite Hd. f_equal. lia.
  - rewrite (Hi r) by (by left). rewrite IH; [f_equal; lia|done|]. intros x Hx. apply Hi. by right.
Qed.

Lemma default_errors_nil l : l <> [] -> default_errors l = [] <-> one_default_last l.
Proof.
  intros Hne. unfold default_errors. split.
  - intros H. destruct (default_indices 0 l) as [|i [|? ?]] eqn:E; try done.
    destruct (i =? length l - 1)%nat eqn:Ei; [|done]. apply Nat.eqb_eq in Ei. subst i.
    by apply (default_indices_last 0).
  - intros (init & last & -> & Hd & Hi). rewrite default_indices_snoc by done.
    rewrite length_app. simpl. by rewrite Nat.add_sub, Nat.eqb_refl.
Qed.

Lemma validate_rules_ok rules :
  validate_rules rules = [] <-> one_default_last rules /\ Forall rule_ok rules.
Proof.
  destruct rules as [|r0 rules]; [split; [done|]|].
  { intros [([|? ?] & ? & ? & _) _]; done. }
  unfold validate_rules. set (l := r0 :: rules).
  rewrite !app_nil, !concat_imap_nil, default_errors_nil, Forall_lookup by done.
  split.
  - intros (Ht & Hd & Hs). split; [done|]. intros i r Hi.
    eapply rule_ok_no_errors; [by apply Ht|by apply (Hs i)].
  - intros (Hd & Hr). repeat split; [|done|]; intros i r Hi; by apply (rule_ok_errors i r), (Hr i).
Qed.

Lemma match_rule_ok c r : rule_ok (IsRule r) -> exists b, match_rule c r = Ok b.
Proof.
  intros (k & v & Hk & Hv & Hs). unfold match_rule. rewrite Hk. simpl.
  split_ifs; eauto. apply bool_decide_eq_true in Heqb0 as ->.
  destruct Hs as (s & ss & ->); [done|]. eauto.
Qed.

(** Which aggregated statuses the default rules treat as errors. *)
Lemma aggregate_statuses_cases l : l <> [] ->
  (aggregate_statuses l = VerifierStatus_value VS_OK /\ Forall (eq (VerifierStatus_value VS_OK)) l) \/
  (str_in (aggregate_statuses l) DEFAULT_ERROR_STATUSES = true /\
   ~ Forall (eq (VerifierStatus_value VS_OK)) l).
Proof.
  intros Hne. unfold aggregate_statuses.
  destruct (statuses_eq_singleton l (VerifierStatus_value VS_OK)) eqn:E.
  { apply statuses_eq_singleton_spec in E as [_ E]. by left. }
  right. split; [by split_ifs|]. intros H.
  assert (statuses_eq_singleton l (VerifierStatus_value VS_OK) = true); [|congruence].
  by apply statuses_eq_singleton_spec.
Qed.

(** The final status of a claim, as the verification pipeline computes it:
    aggregate the pair statuses, then judge. *)
Definition settle (rules : list rule_obj) (c : Claim) : result string :=
  judge rules (aggregate_verifier_status c).1.

(** ** Properties *)

(** The validation accepts exactly the rule lists the matrix can run: one
    default rule, which comes last, every element a rule with a known condition
    and verdict, and a status rule that names its statuses. *)
Theorem validate_rules_spec rules :
  validate_rules rules = [] <-> one_default_last rules /\ Forall rule_ok rules.
Proof. apply validate_rules_ok. Qed.

(** A validated matrix judges every claim: it never raises and its answer is one
    of the verdicts. *)
Theorem judge_total rules c :
  validate_rules rules = [] -> exists v, judge rules c = Ok (VerdictResult_value v).
Proof.
  intros [_ Hok]%validate_rules_ok. induction rules as [|[r|] rules IH]; simpl.
  - by exists VR_INSUFFICIENT.
  - apply Forall_cons in Hok as [Hr Hok]. destruct (match_rule_ok c r Hr) as [[] ->]; simpl; [|auto].
    destruct Hr as (k & v & _ & Hv & _). unfold verdict_value. rewrite Hv. eauto.
  - by apply Forall_cons in Hok as [[] _].
Qed.

(** A claim judged supported has a supported pair, and every pair was judged by
    working verifiers, none of whose layers contradicts the claim. *)
Theorem settle_supported_sound c :
  claim_consistent c ->
  settle default_rules c = Ok (ClaimFinalStatus_value FS_SUPPORTED) ->
  (exists v, v ∈ c_pair_verdicts c /\ pv_pair_status v = PairStatus_value PS_SUPPORTED) /\
  Forall (fun v => pv_verifier_status v = VerifierStatus_value VS_OK /\
                   is_contradiction (pv_rule_result v) = false /\
                   is_contradiction (pv_nli_result v) = false /\
                   is_contradiction (pv_llm_result v) = false) (c_pair_verdicts c).
Proof.
  intros [[_ Hsup] _] H. unfold settle in H. rewrite judge_default in H.
  unfold default_verdict in H. cbn [fst aggregate_verifier_status] in H.
  set (st := match c_pair_verdicts c with [] => _ | _ => _ end) in H.
  change (c_verifier_status (set_verifier_status c st)) with st in H.
  change (any_layer_contradicted (set_verifier_status c st)) with (any_layer_contradicted c) in H.
  change (has_verified_support (set_verifier_status c st)) with (has_verified_support c) in H.
  split_ifs_in H; try discriminate.
  match goal with E : negb (has_verified_support c) = false |- _ => rename E into Hv end.
  assert (exists v, v ∈ c_pair_verdicts c /\ pv_pair_status v = PairStatus_value PS_SUPPORTED)
    as (v & Hin & Hps).
  { unfold has_verified_support, truthy, truthy_list in Hv.
    destruct (c_verified_support_ids c) as [|e es]; [done|].
    destruct (proj1 (Hsup e)) as (v & ? & ? & ?); [by left|eauto]. }
  split; [eauto|].
  assert (map pv_verifier_status (c_pair_verdicts c) <> []) as Hne.
  { by destruct (c_pair_verdicts c); [apply not_elem_of_nil in Hin|]. }
  apply Forall_forall. intros w Hw. split.
  - assert (st = aggregate_statuses (map pv_verifier_status (c_pair_verdicts c))) as Hst.
    { unfold st. by destruct (c_pair_verdicts c). }
    destruct (aggregate_statuses_cases _ Hne) as [[_ Hall]|[Hbad _]].
    + rewrite Forall_forall in Hall. symmetry. apply Hall. apply list_elem_of_In, in_map.
      by apply list_elem_of_In.
    + congruence.
  - match goal with E : any_layer_contradicted c = false |- _ =>
      unfold any_layer_contradicted in E; rewrite existsb_false_forall in E; specialize (E w Hw) end.
    bool_facts. done.
Qed.

(** A pair that any verifier could not judge makes the whole claim a verifier error,
    whatever the layers said. *)
Theorem settle_verifier_error c v :
  v ∈ c_pair_verdicts c -> pv_verifier_status v <> VerifierStatus_value VS_OK ->
  settle default_rules c = Ok (ClaimFinalStatus_value FS_VERIFIER_ERROR).
Proof.
  intros Hin Hne. unfold settle. rewrite judge_default. unfold default_verdict.
  cbn [fst aggregate_verifier_status c_verifier_status set_verifier_status].
  assert (map pv_verifier_status (c_pair_verdicts c) <> []) as Hl.
  { by destruct (c_pair_verdicts c); [apply not_elem_of_nil in Hin|]. }
  destruct (aggregate_statuses_cases _ Hl) as [[_ Hall]|[Hbad _]].
  - rewrite Forall_forall in Hall. destruct Hne. symmetry. apply Hall.
    apply list_elem_of_In, in_map. by apply list_elem_of_In.
  - destruct (c_pair_verdicts c) as [|p ps]; [done|]. by rewrite Hbad.
Qed.

(** ** Instances *)

Definition ok_pair : PairVerdict :=
  mkPairVerdict "ev_1" "1.0" "supported" "ok" "supported" "entailment" "supported" "" false.
Definition late_pair : PairVerdict :=
  mkPairVerdict "ev_2" "1.0" "insufficient" "timeout" "unknown" "unknown" "unknown" "" false.
Definition backed_claim : Claim := add_pair_verdict (new_Claim "c1" "sales rose") ok_pair.

Lemma judge_total_witness :
  validate_rules default_rules = [] /\ exists v, judge default_rules backed_claim = Ok (VerdictResult_value v).
Proof. split; [reflexivity|]. apply (judge_total default_rules backed_claim). reflexivity. Defined.

Lemma settle_supported_sound_witness :
  settle default_rules backed_claim = Ok "supported" /\
  exists v, v ∈ c_pair_verdicts backed_claim /\ pv_pair_status v = "supported".
Proof.
  split; [reflexivity|]. refine (proj1 (settle_supported_sound backed_claim _ eq_refl)).
  split; (split; [repeat constructor; set_solver|]); intros e; cbn;
    rewrite ?list_elem_of_singleton; split.
  - intros ->. exists ok_pair. set_solver.
  - by intros (v & ->%list_elem_of_singleton & _ & <-).
  - intros []%not_elem_of_nil.
  - by intros (v & ->%list_elem_of_singleton & [=] & _).
Defined.

Lemma settle_verifier_error_witness :
  settle default_rules (add_pair_verdict backed_claim late_pair) = Ok "verifier_error".
Proof. refine (settle_verifier_error _ late_pair _ _); [cbn; set_solver|done]. Defined.
