(* ===== verification/PolicyEngine.v ===== *)
(** * The policy engine (policy/policy_engine.py)

    The single place that turns verified claims into an action.  Scores and
    thresholds are binary64 floats.  The human-readable [reason] of a decision
    is kept as the branch it names and the values it interpolates. *)

From S2P Require Import Prelude PyFloat PyVal PyList PyText Evidence Claim.

Inductive RunMode : Type := CHITCHAT | FACTUAL | REPORT.

#[export] Instance RunMode_eq_dec : EqDecision RunMode.
Proof. solve_decision. Defined.

Definition RunMode_value (m : RunMode) : string :=
  match m with CHITCHAT => "chitchat" | FACTUAL => "factual" | REPORT => "report" end.

Inductive PolicyAction : Type := PASS | FILTER | REGENERATE | EXHAUSTED | REJECT.

Definition PolicyAction_value (a : PolicyAction) : string :=
  match a with
  | PASS => "pass" | FILTER => "filter" | REGENERATE => "regenerate"
  | EXHAUSTED => "exhausted" | REJECT => "reject"
  end.

(** The f-string of each branch, by its interpolated values. *)
Inductive PolicyReason : Type :=
  | NoClaims
  | CriticalContradicted (ids : list string)
  | CriticalInsufficient (ids : list string)
  | VerifierErrorsTooMany (ratio limit : Q)
  | FaithfulEnough (score limit : Q)
  | PartlySupported (score : Q)
  | RetriesExhausted (count limit : Z) (score : Q)
  | TooUnfaithful (score limit : Q) (attempt max : Z).

Record PolicyDecision : Type := mkDecision {
  pd_schema_version : string;
  pd_action : string;
  pd_reason : PolicyReason;
  pd_faithfulness_score : Q;
  pd_failed_claims : list Claim;
  pd_forbidden_claim_texts : list string;
  pd_allowed_evidence_ids : list string;
  pd_regenerate_instruction : string;
  pd_verifier_status : string;
}.

Record PolicyEngine : Type := mkEngine {
  pe_max_regenerates : Z;
  pe_verifier_error_reject_ratio : Q;
  pe_pass_threshold : Q;
  pe_filter_threshold : Q;
}.

Definition VERIFIER_ERROR_REJECT_RATIO : Q := rnd (3 # 10).
Definition PASS_THRESHOLD : Q := rnd (85 # 100).
Definition FILTER_THRESHOLD : Q := rnd (6 # 10).
Definition DEFAULT_MAX_REGENERATES : Z := 2.
Definition REQUIRED_WEIGHT : Q := 3.
Definition HIGH_RISK_WEIGHT : Q := 2.
Definition NORMAL_WEIGHT : Q := 1.

(** [PolicyEngine(max_regenerates, ...)]: the first argument is combined with
    [or], the others with [is not None]. *)
Definition init_engine (max_regenerates : option Z) (ratio pass_thr filter_thr : option Q) : PolicyEngine :=
  mkEngine (opt_or max_regenerates DEFAULT_MAX_REGENERATES)
           (get_or ratio VERIFIER_ERROR_REJECT_RATIO)
           (get_or pass_thr PASS_THRESHOLD)
           (get_or filter_thr FILTER_THRESHOLD).

Definition default_engine : PolicyEngine := init_engine None None None None.

Definition status_is (s : ClaimFinalStatus) (c : Claim) : bool :=
  String.eqb (c_final_status c) (ClaimFinalStatus_value s).

(** ** The weighted score *)

Definition claim_weight (c : Claim) : Q :=
  if is_required c then REQUIRED_WEIGHT
  else if String.eqb (c_risk_level c) "high" then HIGH_RISK_WEIGHT
  else NORMAL_WEIGHT.

Record ScoreState : Type := mkScore {
  total_weight : Q; supported_weight : Q;
  supported_count : Z; contradicted_count : Z; insufficient_count : Z }.

(** One iteration of the loop of [_compute_weighted_score]. *)
Definition score_step (s : ScoreState) (c : Claim) : ScoreState :=
  let w := claim_weight c in
  let tw := fadd (total_weight s) w in
  if status_is FS_SUPPORTED c then
    mkScore tw (fadd (supported_weight s) w) (supported_count s + 1)
      (contradicted_count s) (insufficient_count s)
  else if status_is FS_CONTRADICTED c then
    mkScore tw (supported_weight s) (supported_count s) (contradicted_count s + 1) (insufficient_count s)
  else if status_is FS_INSUFFICIENT c then
    mkScore tw (supported_weight s) (supported_count s) (contradicted_count s) (insufficient_count s + 1)
  else mkScore tw (supported_weight s) (supported_count s) (contradicted_count s) (insufficient_count s).

Definition score_loop (claims : list Claim) : ScoreState :=
  fold_left score_step claims (mkScore 0 0 0 0 0).

Definition compute_weighted_score (claims : list Claim) : Q * Z * Z * Z :=
  let s := score_loop claims in
  (if fgt (total_weight s) 0 then fdiv (supported_weight s) (total_weight s) else 0%Q,
   supported_count s, contradicted_count s, insufficient_count s).

Definition overall (claims : list Claim) : Q := (compute_weighted_score claims).1.1.1.

(** ** Aggregated verifier status *)

Definition aggregate_engine_status (claims : list Claim) : string :=
  match map c_verifier_status claims with
  | [] => VerifierStatus_value VS_UNKNOWN
  | (s :: _) as statuses =>
    if statuses_eq_singleton statuses (VerifierStatus_value VS_OK) then VerifierStatus_value VS_OK
    else if str_in (VerifierStatus_value VS_ERROR) statuses then VerifierStatus_value VS_ERROR
    else if str_in (VerifierStatus_value VS_TIMEOUT) statuses then VerifierStatus_value VS_TIMEOUT
    else if str_in (VerifierStatus_value VS_BUDGET_EXHAUSTED) statuses
    then VerifierStatus_value VS_BUDGET_EXHAUSTED
    else if negb (statuses_eq_singleton statuses s) then VerifierStatus_value VS_MIXED
    else s
  end.

(** ** Evidence that a regeneration may use *)

(** The two nested loops: non-empty ids, each once, in order. *)
Definition collect_ids (claims : list Claim) : list string :=
  fold_left (fun acc eid => if truthy eid then append_new eid acc else acc)
    (concat (map c_verified_support_ids claims)) [].

Definition collect_allowed_evidence_ids (claims : list Claim) (snapshot : option EvidenceSnapshot)
  : list string :=
  let allowed := collect_ids claims in
  match snapshot with
  | Some sn =>
    if truthy allowed then
      let snapshot_ids := List.filter truthy (omap ev_evidence_id (sn_evidences sn)) in
      List.filter (fun eid => str_in eid snapshot_ids) allowed
    else allowed
  | None => allowed
  end.

Definition instruction_line (c : Claim) : string :=
  if status_is FS_CONTRADICTED c then
    String.append "- 以下内容与资料矛盾，不得再次输出：" (c_text c)
  else if status_is FS_INSUFFICIENT c then
    String.append "- 以下内容资料不足，需补充证据或删除：" (c_text c)
  else if status_is FS_VERIFIER_ERROR c then
    String.append "- 以下内容验证异常，请谨慎处理或删除：" (c_text c)
  else String.append "- 以下内容未通过验证，需修正：" (c_text c).

Definition newline : string := String (Ascii.ascii_of_nat 10) "".

Definition build_regenerate_instruction (failed : list Claim) (allowed : list string) : string :=
  join newline
    ("请根据以下反馈重新生成答案：" :: map instruction_line failed ++
     (if truthy allowed
      then [String.append "- 优先使用以下已验证通过的证据编号：" (py_repr_list allowed)] else [])).

(** ** The decision *)

Definition failed_claims (claims : list Claim) : list Claim :=
  List.filter (fun c => negb (status_is FS_SUPPORTED c)) claims.

Definition critical_with (s : ClaimFinalStatus) (claims : list Claim) : list Claim :=
  List.filter (fun c => is_required c && status_is s c) claims.

Definition verifier_error_ratio (claims : list Claim) : Q :=
  if (py_len claims >? 0)%Z
  then fdiv (fint (py_len (List.filter (status_is FS_VERIFIER_ERROR) claims))) (fint (py_len claims))
  else 0%Q.

Definition reject_with (reason : PolicyReason) (score : Q) (claims : list Claim) (status : string)
  : PolicyDecision :=
  mkDecision "1.0" (PolicyAction_value REJECT) reason score (failed_claims claims)
    (map c_text (failed_claims claims)) [] "" status.

(** The branches below the pass threshold. *)
Definition decide_below_pass (e : PolicyEngine) (claims : list Claim) (regenerate_count : Z)
  (snapshot : option EvidenceSnapshot) (score : Q) (status : string) : PolicyDecision :=
  let failed := failed_claims claims in
  let forbidden := map c_text failed in
  let allowed := collect_allowed_evidence_ids claims snapshot in
  if fge score (pe_filter_threshold e) then
    mkDecision "1.0" (PolicyAction_value FILTER) (PartlySupported score) score failed forbidden
      allowed "" status
  else if (regenerate_count >=? pe_max_regenerates e)%Z then
    mkDecision "1.0" (PolicyAction_value EXHAUSTED)
      (RetriesExhausted regenerate_count (pe_max_regenerates e) score) score failed forbidden
      allowed "" status
  else
    mkDecision "1.0" (PolicyAction_value REGENERATE)
      (TooUnfaithful score (pe_filter_threshold e) (regenerate_count + 1) (pe_max_regenerates e))
      score failed forbidden allowed (build_regenerate_instruction failed allowed) status.

Definition decide (e : PolicyEngine) (claims : list Claim) (run_mode : RunMode)
  (regenerate_count : Z) (snapshot : option EvidenceSnapshot) : PolicyDecision :=
  match claims with
  | [] => mkDecision "1.0" (PolicyAction_value PASS) NoClaims 1 [] [] [] ""
            (VerifierStatus_value VS_UNKNOWN)
  | _ =>
    let score := overall claims in
    let status := aggregate_engine_status claims in
    let contradicted := critical_with FS_CONTRADICTED claims in
    if truthy contradicted then
      reject_with (CriticalContradicted (map c_claim_id contradicted)) score claims status
    else
    let insufficient := critical_with FS_INSUFFICIENT claims in
    if bool_decide (run_mode = FACTUAL) && truthy insufficient then
      reject_with (CriticalInsufficient (map c_claim_id insufficient)) score claims status
    else if fge (verifier_error_ratio claims) (pe_verifier_error_reject_ratio e) then
      mkDecision "1.0" (PolicyAction_value REJECT)
        (VerifierErrorsTooMany (verifier_error_ratio claims) (pe_verifier_error_reject_ratio e))
        score (failed_claims claims) [] [] "" (VerifierStatus_value VS_ERROR)
    else if fge score (pe_pass_threshold e) then
      mkDecision "1.0" (PolicyAction_value PASS) (FaithfulEnough score (pe_pass_threshold e)) score
        [] [] [] "" status
    else decide_below_pass e claims regenerate_count snapshot score status
  end.

(** ** Lemmas *)

Lemma claim_weight_pos c : (1 <= claim_weight c)%Q.
Proof. unfold claim_weight. split_ifs; vm_compute; discriminate. Qed.

(** The invariant of the scoring loop. *)
Definition score_ok (s : ScoreState) : Prop :=
  (0 <= supported_weight s <= total_weight s)%Q /\ is_float (supported_weight s) /\
  is_float (total_weight s).

Lemma score_step_ok s c : score_ok s -> score_ok (score_step s c).
Proof.
  intros ([H0 H1] & Hs & Ht). pose proof (claim_weight_pos c) as Hw.
  assert (total_weight s <= fadd (total_weight s) (claim_weight c))%Q by (apply fadd_ge_l; [done|lra]).
  unfold score_step, score_ok. split_ifs; simpl; split_and!; auto with pyfloat; try lra.
  - apply fadd_nonneg; lra.
  - apply fadd_mono; lra.
Qed.

Lemma score_loop_ok_from claims s : score_ok s -> score_ok (fold_left score_step claims s).
Proof. revert s. induction claims; simpl; auto using score_step_ok. Qed.

Lemma score_loop_ok claims : score_ok (score_loop claims).
Proof. apply score_loop_ok_from. split_and!; simpl; auto with pyfloat; lra. Qed.

Lemma total_weight_mono claims s :
  (score_ok s -> total_weight s <= total_weight (fold_left score_step claims s))%Q.
Proof.
  revert s. induction claims as [|c l IH]; intros s Hs; simpl; [lra|].
  apply Qle_trans with (total_weight (score_step s c)); [|by apply IH, score_step_ok].
  pose proof (claim_weight_pos c). destruct Hs as (_ & _ & ?).
  unfold score_step. split_ifs; simpl; apply fadd_ge_l; auto; lra.
Qed.

Lemma total_weight_pos claims : claims <> [] -> (1 <= total_weight (score_loop claims))%Q.
Proof.
  destruct claims as [|c l]; [done|]. intros _. unfold score_loop. simpl.
  assert (score_ok (mkScore 0 0 0 0 0)) as H0 by (split_and!; simpl; auto with pyfloat; lra).
  eapply Qle_trans; [|apply total_weight_mono; by apply score_step_ok].
  pose proof (claim_weight_pos c) as Hw. rewrite <- rnd_1.
  unfold score_step. split_ifs; simpl; apply rnd_mono; lra.
Qed.

Lemma overall_eq claims : claims <> [] ->
  overall claims = fdiv (supported_weight (score_loop claims)) (total_weight (score_loop claims)).
Proof.
  intros H%total_weight_pos. unfold overall, compute_weighted_score. cbn [fst].
  destruct (fgt _ 0) eqn:E; [done|]. fcompare. lra.
Qed.

Lemma truthy_list_true {A} (l : list A) : truthy l = true <-> l <> [].
Proof. by destruct l. Qed.

Lemma truthy_list_false {A} (l : list A) : truthy l = false <-> l = [].
Proof. by destruct l. Qed.

Lemma critical_with_nil s claims :
  critical_with s claims = [] <->
  forall c, c ∈ claims -> is_required c = true -> c_final_status c <> ClaimFinalStatus_value s.
Proof.
  unfold critical_with. split.
  - intros H c Hin Hr Hs. assert (c ∈ (@nil Claim)) as Hc; [|by apply not_elem_of_nil in Hc].
    rewrite <- H. apply filter_In_elem. split; [done|].
    unfold status_is. by rewrite Hr, Hs, String.eqb_refl.
  - intros H. destruct (List.filter _ _) as [|c l] eqn:E; [done|]. exfalso.
    assert (c ∈ critical_with s claims) as Hc by (unfold critical_with; rewrite E; by left).
    unfold critical_with in Hc. apply filter_In_elem in Hc as [Hin Hc]. bool_facts.
    apply (H c Hin); [done|]. by apply String.eqb_eq.
Qed.

Lemma critical_with_hit s claims c :
  c ∈ claims -> is_required c = true -> c_final_status c = ClaimFinalStatus_value s ->
  truthy (critical_with s claims) = true.
Proof.
  intros Hin Hr Hs. apply truthy_list_true. rewrite critical_with_nil. intros H. by apply (H c).
Qed.

Lemma decide_below_pass_not_pass e claims n sn sc st :
  pd_action (decide_below_pass e claims n sn sc st) <> PolicyAction_value PASS.
Proof. unfold decide_below_pass. by split_ifs. Qed.

(** Replacing claims by supported ones of the same weight. *)
Definition improves (c c' : Claim) : Prop :=
  claim_weight c' = claim_weight c /\
  (status_is FS_SUPPORTED c = true -> status_is FS_SUPPORTED c' = true).

Lemma score_step_weights s c :
  total_weight (score_step s c) = fadd (total_weight s) (claim_weight c) /\
  supported_weight (score_step s c) =
    if status_is FS_SUPPORTED c then fadd (supported_weight s) (claim_weight c) else supported_weight s.
Proof. unfold score_step. by split_ifs. Qed.

Lemma score_loop_improves cs cs' s s' :
  Forall2 improves cs cs' -> score_ok s -> score_ok s' ->
  total_weight s = total_weight s' -> (supported_weight s <= supported_weight s')%Q ->
  total_weight (fold_left score_step cs s) = total_weight (fold_left score_step cs' s') /\
  (supported_weight (fold_left score_step cs s) <= supported_weight (fold_left score_step cs' s'))%Q.
Proof.
  intros Hf. revert s s'. induction Hf as [|c c' l l' [Hw Hi] Hf IH]; intros s s' Hs Hs' Ht Hle; [done|].
  simpl. apply IH; [by apply score_step_ok..| |].
  - destruct (score_step_weights s c) as [-> _], (score_step_weights s' c') as [-> _]. congruence.
  - destruct (score_step_weights s c) as [_ ->], (score_step_weights s' c') as [_ ->].
    pose proof (claim_weight_pos c). rewrite Hw.
    destruct (status_is FS_SUPPORTED c); [rewrite Hi by done; apply fadd_mono; lra|].
    destruct (status_is FS_SUPPORTED c'); [|done].
    apply Qle_trans with (supported_weight s'); [done|]. apply fadd_ge_l; [apply Hs'|lra].
Qed.

Lemma supported_weight_all claims s :
  (forall c, c ∈ claims -> status_is FS_SUPPORTED c = true) ->
  supported_weight s = total_weight s ->
  supported_weight (fold_left score_step claims s) = total_weight (fold_left score_step claims s).
Proof.
  revert s. induction claims as [|c l IH]; intros s H Hs; simpl; [done|].
  apply IH; [intros x Hx; apply H; by right|].
  destruct (score_step_weights s c) as [-> ->]. rewrite (H c) by by left. congruence.
Qed.

Lemma collect_ids_spec claims :
  NoDup (collect_ids claims) /\
  forall e, e ∈ collect_ids claims <-> e <> "" /\ exists c, c ∈ claims /\ e ∈ c_verified_support_ids c.
Proof.
  unfold collect_ids.
  assert (forall l acc, NoDup acc ->
    let r := fold_left (fun acc eid => if truthy eid then append_new eid acc else acc) l acc in
    NoDup r /\ forall e, e ∈ r <-> e ∈ acc \/ (e <> "" /\ e ∈ l)) as H.
  { induction l as [|x l IH]; intros acc Hnd; simpl.
    - split; [done|]. intros e. split; [by left|]. intros [?|[_ He]]; [done|by apply not_elem_of_nil in He].
    - unfold truthy at 2 4, truthy_string. destruct (String.eqb_spec x "") as [->|Hx]; simpl.
      + destruct (IH acc Hnd) as [? He]. split; [done|]. intros e. rewrite He, elem_of_cons. clear. naive_solver.
      + destruct (IH (append_new x acc)) as [? He]; [by apply append_new_NoDup|].
        split; [done|]. intros e. rewrite He, elem_of_append_new, elem_of_cons. clear -Hx. naive_solver. }
  destruct (H (concat (map c_verified_support_ids claims)) []) as [Hnd He]; [constructor|].
  split; [done|]. intros e. rewrite He, (list_elem_of_In (concat _) e), in_concat. split.
  - intros [Hn|[Hne (l & Hl & Hin)]]; [by apply not_elem_of_nil in Hn|].
    apply in_map_iff in Hl as (c & <- & Hc). split; [done|]. exists c. by rewrite !list_elem_of_In.
  - intros (Hne & c & Hc & Hin). right. split; [done|]. exists (c_verified_support_ids c).
    rewrite <- !list_elem_of_In. split; [by apply list_elem_of_fmap_2|done].
Qed.

(** ** Properties *)

Theorem overall_bounds claims : (0 <= overall claims <= 1)%Q.
Proof.
  destruct claims as [|c l]; [vm_compute; split; discriminate|].
  set (cs := c :: l). assert (cs <> []) as Hne by done. rewrite overall_eq by done.
  pose proof (total_weight_pos cs Hne). destruct (score_loop_ok cs) as ([? ?] & _ & _).
  apply fdiv_unit; lra.
Qed.

(** One contradicted critical claim is a veto, however many claims support the answer. *)
Theorem critical_contradiction_veto e claims m n sn c :
  c ∈ claims -> is_required c = true ->
  c_final_status c = ClaimFinalStatus_value FS_CONTRADICTED ->
  pd_action (decide e claims m n sn) = PolicyAction_value REJECT.
Proof.
  intros Hin Hr Hs. pose proof (critical_with_hit _ _ _ Hin Hr Hs) as Ht.
  unfold decide. destruct claims; [by apply not_elem_of_nil in Hin|]. by rewrite Ht.
Qed.

(** In FACTUAL mode a critical claim without sufficient evidence is a refusal. *)
Theorem factual_insufficient_reject e claims n sn c :
  c ∈ claims -> is_required c = true ->
  c_final_status c = ClaimFinalStatus_value FS_INSUFFICIENT ->
  pd_action (decide e claims FACTUAL n sn) = PolicyAction_value REJECT.
Proof.
  intros Hin Hr Hs. pose proof (critical_with_hit _ _ _ Hin Hr Hs) as Ht.
  unfold decide. destruct claims; [by apply not_elem_of_nil in Hin|]. rewrite Ht.
  cbn [bool_decide andb decide_rel]. by split_ifs.
Qed.

(** What a PASS on a non-empty claim list guarantees. *)
Theorem pass_sound e claims m n sn :
  claims <> [] -> pd_action (decide e claims m n sn) = PolicyAction_value PASS ->
  (pe_pass_threshold e <= overall claims)%Q /\
  (verifier_error_ratio claims < pe_verifier_error_reject_ratio e)%Q /\
  forall c, c ∈ claims -> is_required c = true ->
    c_final_status c <> ClaimFinalStatus_value FS_CONTRADICTED /\
    (m = FACTUAL -> c_final_status c <> ClaimFinalStatus_value FS_INSUFFICIENT).
Proof.
  intros Hne H. unfold decide in H. destruct claims as [|c0 l]; [done|].
  set (cs := c0 :: l) in *.
  destruct (truthy (critical_with FS_CONTRADICTED cs)) eqn:Ec; [discriminate|].
  destruct (bool_decide (m = FACTUAL) && truthy (critical_with FS_INSUFFICIENT cs)) eqn:Ei; [discriminate|].
  destruct (fge (verifier_error_ratio cs) _) eqn:Er; [discriminate|].
  destruct (fge (overall cs) _) eqn:Ep; [|by apply decide_below_pass_not_pass in H].
  fcompare. split; [done|]. split; [done|]. intros c Hin Hr.
  apply truthy_list_false in Ec. split; [by eapply critical_with_nil in Ec|].
  intros ->. rewrite bool_decide_eq_true_2, andb_true_l in Ei by done.
  apply truthy_list_false in Ei. by eapply critical_with_nil in Ei.
Qed.

(** An answer whose claims are all supported passes, at any thresholds a score
    of one can reach, even when the retries are used up. *)
Theorem all_supported_pass e claims m n sn :
  (forall c, c ∈ claims -> c_final_status c = ClaimFinalStatus_value FS_SUPPORTED) ->
  (0 < pe_verifier_error_reject_ratio e)%Q -> (pe_pass_threshold e <= 1)%Q ->
  pd_action (decide e claims m n sn) = PolicyAction_value PASS.
Proof.
  intros Hall Hr Hp. destruct claims as [|c0 l]; [done|]. set (cs := c0 :: l) in *.
  assert (forall s, s <> FS_SUPPORTED -> critical_with s cs = []) as Hc.
  { intros s Hs. apply critical_with_nil. intros c Hin _. rewrite (Hall c Hin). by destruct s. }
  assert (List.filter (status_is FS_VERIFIER_ERROR) cs = []) as Hv.
  { assert (forall k, (forall c, c ∈ k -> c ∈ cs) -> List.filter (status_is FS_VERIFIER_ERROR) k = []) as H.
    { induction k as [|c k IH]; intros Hk; [done|]. simpl. unfold status_is at 1.
      rewrite (Hall c) by (apply Hk; by left). simpl. apply IH. intros x Hx. apply Hk. by right. }
    by apply H. }
  assert (1 <= overall cs)%Q as Ho.
  { rewrite overall_eq by done. unfold score_loop.
    rewrite supported_weight_all; [| |done].
    - rewrite fdiv_same; [lra|]. pose proof (total_weight_pos cs ltac:(done)). unfold score_loop in *. lra.
    - intros c Hin. unfold status_is. by rewrite (Hall c Hin), String.eqb_refl. }
  unfold decide. fold cs. change (match cs with [] => ?a | _ => ?b end) with b. cbn zeta.
  rewrite !Hc by done. rewrite andb_false_r. cbn [truthy truthy_list].
  assert (fge (verifier_error_ratio cs) (pe_verifier_error_reject_ratio e) = false) as ->.
  { apply fge_false. unfold verifier_error_ratio. rewrite Hv. cbn [length py_len].
    destruct (_ >? _)%Z; [|done]. change (fint (py_len (@nil Claim))) with 0%Q. by rewrite fdiv_0. }
  assert (fge (overall cs) (pe_pass_threshold e) = true) as -> by (apply fge_spec; lra). done.
Qed.

(** The score is monotone: turning claims into supported ones never lowers it. *)
Theorem overall_mono cs cs' : Forall2 improves cs cs' -> (overall cs <= overall cs')%Q.
Proof.
  intros Hf. destruct cs as [|c l].
  { inversion Hf; subst. apply Qle_refl. }
  destruct cs' as [|c' l']; [by inversion Hf|].
  rewrite !overall_eq by done. unfold score_loop.
  assert (score_ok (mkScore 0 0 0 0 0)) as H0 by (split_and!; simpl; auto with pyfloat; lra).
  destruct (score_loop_improves _ _ _ _ Hf H0 H0 eq_refl (Qle_refl _)) as [Ht Hle].
  pose proof (total_weight_pos (c' :: l') ltac:(done)) as Hp. unfold score_loop in Hp.
  rewrite Ht. apply rnd_mono. unfold Qdiv. apply Qmult_le_compat_r; [done|].
  apply Qinv_le_0_compat. lra.
Qed.

(** A regeneration is ordered only while the budget lasts, lists each failed
    text, and points only to evidence that is in the snapshot and that some
    claim was verified against. *)
Theorem regenerate_sound e claims m n sn d :
  decide e claims m n (Some sn) = d -> pd_action d = PolicyAction_value REGENERATE ->
  (n < pe_max_regenerates e)%Z /\
  pd_forbidden_claim_texts d = map c_text (pd_failed_claims d) /\
  (forall c, c ∈ pd_failed_claims d <->
     c ∈ claims /\ c_final_status c <> ClaimFinalStatus_value FS_SUPPORTED) /\
  NoDup (pd_allowed_evidence_ids d) /\
  forall i, i ∈ pd_allowed_evidence_ids d ->
    (exists c, c ∈ claims /\ i ∈ c_verified_support_ids c) /\
    (exists ev, ev ∈ sn_evidences sn /\ ev_evidence_id ev = Some i).
Proof.
  intros <- H. unfold decide in *. destruct claims as [|c0 l]; [discriminate|].
  set (cs := c0 :: l) in *.
  destruct (truthy (critical_with FS_CONTRADICTED cs)); [discriminate|].
  destruct (bool_decide (m = FACTUAL) && truthy (critical_with FS_INSUFFICIENT cs)); [discriminate|].
  destruct (fge (verifier_error_ratio cs) _); [discriminate|].
  destruct (fge (overall cs) _); [discriminate|].
  unfold decide_below_pass in *. destruct (fge (overall cs) _); [discriminate|].
  destruct (n >=? pe_max_regenerates e)%Z eqn:En; [discriminate|].
  cbn [pd_forbidden_claim_texts pd_failed_claims pd_allowed_evidence_ids].
  split; [rewrite Z.geb_leb in En; lia|]. split; [done|]. split.
  { intros c. unfold failed_claims. rewrite filter_In_elem. unfold status_is.
    by rewrite negb_true_iff, String.eqb_neq. }
  destruct (collect_ids_spec cs) as [Hnd Hids]. unfold collect_allowed_evidence_ids.
  destruct (truthy (collect_ids cs)) eqn:Et.
  - split; [by apply NoDup_ListNoDup, List.NoDup_filter, NoDup_ListNoDup|].
    intros i [Hi Hs]%filter_In_elem. split; [by apply Hids|].
    apply str_in_spec, filter_In_elem in Hs as [Hs _].
    by apply list_elem_of_omap in Hs as (ev & Hev & ?); eauto.
  - apply truthy_list_false in Et. rewrite Et. split; [constructor|by intros i ?%not_elem_of_nil].
Qed.

(** [max_regenerates=0] is read as "use the default": two regenerations. *)
Theorem zero_regenerates_is_default r p f :
  init_engine (Some 0%Z) r p f = init_engine None r p f.
Proof. reflexivity. Qed.

(** ** Instances *)

(** A claim of a given status, critical or not. *)
Definition sample_claim (status : ClaimFinalStatus) (critical : bool) (support : list string) : Claim :=
  mkClaim "c" "text" "1.0" (0, 0)%Z [] [] [] [] [] support [] [] "ok" (ClaimFinalStatus_value status)
    "statement" critical "statement" critical "low".
Definition good := sample_claim FS_SUPPORTED false ["ev_1"].
Definition bad := sample_claim FS_INSUFFICIENT false ["ev_2"].
Definition sample_snapshot : EvidenceSnapshot :=
  mkSnapshot "snap" [mkEvidence (Some "ev_1") (Some "rag") None None None None None None None None None None] "" "" 0 "1.0".

Lemma critical_contradiction_veto_witness :
  pd_action (decide default_engine [good; good; sample_claim FS_CONTRADICTED true []] REPORT 0 None) = "reject".
Proof.
  refine (critical_contradiction_veto default_engine _ REPORT 0%Z None
            (sample_claim FS_CONTRADICTED true []) _ eq_refl eq_refl). set_solver.
Defined.

Lemma factual_insufficient_reject_witness :
  pd_action (decide default_engine [good; sample_claim FS_INSUFFICIENT true []] FACTUAL 0 None) = "reject".
Proof.
  refine (factual_insufficient_reject default_engine _ 0%Z None (sample_claim FS_INSUFFICIENT true []) _ eq_refl eq_refl).
  set_solver.
Defined.

Lemma pass_sound_witness : (pe_pass_threshold default_engine <= overall [good; good])%Q.
Proof. refine (proj1 (pass_sound default_engine [good; good] FACTUAL 0%Z None _ eq_refl)). done. Defined.

Lemma all_supported_pass_witness : pd_action (decide default_engine [good; good] FACTUAL 2 None) = "pass".
Proof.
  refine (all_supported_pass default_engine [good; good] FACTUAL 2%Z None _ _ _); [|reflexivity|by vm_compute].
  intros c [->|[->|[]%not_elem_of_nil]%elem_of_cons]%elem_of_cons; reflexivity.
Defined.

Lemma overall_mono_witness : (overall [good; bad] <= overall [good; good])%Q.
Proof.
  refine (overall_mono [good; bad] [good; good] _). repeat constructor; cbn; try done.
Defined.

Lemma regenerate_sound_witness :
  pd_action (decide default_engine [good; bad] FACTUAL 0 (Some sample_snapshot)) = "regenerate" /\
  pd_forbidden_claim_texts (decide default_engine [good; bad] FACTUAL 0 (Some sample_snapshot)) = ["text"].
Proof.
  split; [reflexivity|].
  exact (proj1 (proj2 (regenerate_sound default_engine [good; bad] FACTUAL 0%Z sample_snapshot _ eq_refl eq_refl))).
Defined.
