(* ===== verification/AgentState.v ===== *)
(** * The shared workflow state (state.py)

    Every node of the main graph reads one state dictionary and returns the
    fields it changes.  Applying the returned fields is the work of the LangGraph
    library: its contract is the class [StateRuntimeLaws], and the only reducer
    the code declares is [merge_timings]. *)

From S2P Require Import Prelude PyFloat PyVal.

Abbreviation pystate := (gmap string pyval).

(** The fields of the TypedDict [AgentState], which are the channels of the graph. *)
Definition declared_keys : list string :=
  ["user_question"; "query_lang"; "query_simplified"; "tenant_id"; "llm_id"; "kb_ids"; "db_id";
   "mcp_server_name"; "route_target"; "route_decision"; "resolved_skill_ref"; "skill_route_trace";
   "catalog_revision"; "skill_set"; "skill_resolution"; "skill_evidence_requirements"; "rag_docs";
   "rag_quality_score"; "rag_has_relevant"; "rag_relevant_count"; "rag_top_score"; "rag_score_source";
   "db_result"; "db_quality_score"; "web_docs"; "rest_result"; "rest_quality_score"; "graph_result";
   "graph_quality_score"; "graph_score_source"; "graph_has_result"; "graph_row_count";
   "merged_context"; "generated_answer"; "quality_decision"; "hallucination_score";
   "hallucination_action"; "regenerate_count"; "final_prompt"; "final_answer"; "retry_count";
   "max_retries"; "retry_token_used"; "retry_token_budget"; "trace_id"; "node_timings";
   "conversation_history"; "conversation_summary"; "agent_config"; "graph_start_time";
   "execution_plan"; "tool_results"; "plan_execution_status"; "reflection_result";
   "clarification_request"; "clarification_context"; "evidence"; "evidence_snapshot_id";
   "evidence_snapshot"; "tool_run_id"; "attempt_id"; "run_mode"; "enforcement_mode"; "answer_ast";
   "claims"; "claim_verdicts"; "policy_action"; "citation_catalog"; "citation_metrics";
   "verifier_status"; "reject_reason"; "agent_iteration_count"; "agent_max_iterations"; "loop_guard";
   "termination_reason"; "termination_source"; "fallback_message"; "rerank_score_history";
   "rerank_drop_count"; "retrieval_observations"; "rag_avg_score"; "rag_result_count";
   "rag_raw_score_source"; "rag_query_signature"; "rag_evidence_signature"; "rag_retrieval_top_k";
   "rag_rerank_top_k"; "react_enabled"; "react_execution_result"; "total_token_budget";
   "locked_system_tokens"; "locked_history_tokens"; "active_tools"; "tool_token_counts";
   "overflown_tools"; "compression_level"; "compact_mode"].

Definition declared (k : string) : bool := str_in k declared_keys.

(** ** Reading the state *)

(** [state.get(k, d)], the value as it is, and at a type. *)
Definition sgetv (st : pystate) (k : string) (d : pyval) : pyval := get_or (st !! k) d.
Definition sget {A} (f : pyval -> result A) (st : pystate) (k : string) (d : A) : result A :=
  match st !! k with Some v => f v | None => Ok d end.

(** [x == "..."] and [x in ("...", ...)] for a value of any type. *)
Definition is_str (v : pyval) (s : string) : bool :=
  match v with VStr s' => String.eqb s' s | _ => false end.
Definition is_one_of (v : pyval) (ss : list string) : bool := existsb (is_str v) ss.

(** [v.get(k, d)]: only dictionaries have the method. *)
Definition vget (v : pyval) (k : string) (d : pyval) : result pyval :=
  match v with VDict m => Ok (get_or (dlookup k m) d) | _ => Raise (AttributeError "get") end.

(** [a or b] on values. *)
Definition vor (a b : pyval) : pyval := if truthy a then a else b.

(** ** Updates *)

(** The reducer of [node_timings]. *)
Definition merge_timings (left right : option pydict) : pydict :=
  let update merged o :=
    match o with
    | Some d => fold_left (fun m kv => dset kv.1 kv.2 m) d merged
    | None => merged
    end in
  update (update [] left) right.

(** The entry every node adds: its own wall-clock time in milliseconds. *)
Definition timing (node : string) (ms : Z) : string * pyval :=
  ("node_timings", VDict [(node, VInt ms)]).

(** What the graph library does with the fields a node returns. *)
Class StateRuntime : Type := apply_updates : pystate -> pydict -> pystate.

(** Its contract, on declared fields: the returned value replaces the old one,
    other fields keep theirs, and [node_timings] goes through its reducer. *)
Class StateRuntimeLaws (R : StateRuntime) : Prop := {
  apply_written st u k v :
    declared k = true -> k <> "node_timings" ->
    dlookup k u = Some v -> apply_updates st u !! k = Some v;
  apply_unwritten st u k :
    declared k = true -> dlookup k u = None -> apply_updates st u !! k = st !! k;
  apply_timings st u old new :
    dlookup "node_timings" u = Some (VDict new) -> st !! "node_timings" = Some (VDict old) ->
    apply_updates st u !! "node_timings" = Some (VDict (merge_timings (Some old) (Some new)));
}.

(** One runtime that has these properties. *)
Definition timings_dict (o : option pyval) : option pydict :=
  match o with Some (VDict d) => Some d | _ => None end.

Fixpoint reference_apply (st : pystate) (u : pydict) : pystate :=
  match u with
  | [] => st
  | (k, v) :: u' =>
    let st' := reference_apply st u' in
    if String.eqb k "node_timings"
    then <[k := VDict (merge_timings (timings_dict (st !! k)) (timings_dict (Some v)))]> st'
    else <[k := v]> st'
  end.

#[export] Instance reference_runtime : StateRuntime := reference_apply.

(** ** Lemmas *)

Lemma merge_timings_lookup left right k :
  dlookup k (merge_timings (Some left) (Some right)) =
  match dlookup k (rev right) with
  | Some v => Some v
  | None => dlookup k (rev left)
  end.
Proof.
  assert (forall {A} k (a b : list (string * A)), dlookup k (a ++ b) =
    match dlookup k a with Some v => Some v | None => dlookup k b end) as Happ.
  { intros A k0 a b. induction a as [|[k' v] a IH]; simpl; [done|].
    by destruct (String.eqb k0 k'). }
  assert (forall (d m : pydict), dlookup k (fold_left (fun m kv => dset kv.1 kv.2 m) d m) =
    match dlookup k (rev d) with Some v => Some v | None => dlookup k m end) as H.
  { induction d as [|[k' v] d IH]; intros m; simpl; [done|].
    rewrite IH, dlookup_dset, Happ. simpl.
    destruct (dlookup k (rev d)); [done|]. by destruct (String.eqb k k'). }
  unfold merge_timings. rewrite !H. simpl. by destruct (dlookup k (rev right)), (dlookup k (rev left)).
Qed.

Lemma is_str_spec v s : is_str v s = true <-> v = VStr s.
Proof.
  destruct v; simpl; try done. rewrite String.eqb_eq. naive_solver.
Qed.

#[export] Instance reference_runtime_laws : StateRuntimeLaws reference_runtime.
Proof.
  split; unfold apply_updates, reference_runtime.
  - intros st u k v _ Hne. induction u as [|[k' v'] u IH]; simpl; [done|].
    destruct (String.eqb_spec k k') as [<-|Hkk]; intros H.
    + injection H as ->. destruct (String.eqb_spec k "node_timings"); [done|].
      by rewrite lookup_insert_eq.
    + destruct (String.eqb_spec k' "node_timings"); rewrite lookup_insert_ne; auto.
  - intros st u k _. induction u as [|[k' v'] u IH]; simpl; [done|].
    destruct (String.eqb_spec k k') as [<-|Hkk]; [done|]. intros H.
    destruct (String.eqb_spec k' "node_timings"); rewrite lookup_insert_ne; auto.
  - intros st u old new Hu Hst. induction u as [|[k' v'] u IH]; cbn [dlookup reference_apply] in *; [done|].
    destruct (String.eqb_spec "node_timings" k') as [<-|Hkk].
    + injection Hu as ->. by rewrite String.eqb_refl, lookup_insert_eq, Hst.
    + destruct (String.eqb_spec k' "node_timings"); rewrite lookup_insert_ne by congruence; auto.
Qed.

(** Reading back after an update. *)
Lemma sgetv_apply_written {R : StateRuntime} {RL : StateRuntimeLaws R} st u k v d :
  declared k = true -> k <> "node_timings" -> dlookup k u = Some v ->
  sgetv (apply_updates st u) k d = v.
Proof. intros. unfold sgetv. by erewrite apply_written. Qed.

Lemma sgetv_apply_unwritten {R : StateRuntime} {RL : StateRuntimeLaws R} st u k d :
  declared k = true -> dlookup k u = None -> sgetv (apply_updates st u) k d = sgetv st k d.
Proof. intros. unfold sgetv. by rewrite apply_unwritten. Qed.

Lemma rbind_Ok {A B} (m : result A) (f : A -> result B) b :
  rbind m f = Ok b -> exists a, m = Ok a /\ f a = Ok b.
Proof. destruct m; [eauto|done]. Qed.

Lemma rbind_ext {A B} (m : result A) (f g : A -> result B) :
  (forall a, f a = g a) -> rbind m f = rbind m g.
Proof. intros H. by destruct m; simpl. Qed.

Lemma Ok_inj {A} (a b : A) : Ok a = Ok b -> a = b.
Proof. by intros [= ->]. Qed.

(** Take apart a computation that succeeded. *)
Ltac inv_ok H :=
  repeat match type of H with
         | rbind _ _ = Ok _ => let a := fresh "a" in let Ha := fresh "Ha" in
           apply rbind_Ok in H as (a & Ha & H); cbn beta in H
         end.
