(* ===== verification/Config.v ===== *)
(** * Configuration (config.py)

    The enhancement configuration (defaults, file, environment), the feature
    switches read from it, and the resolution of the business mode and of the
    enforcement level of a run.  A run configuration is a dynamic value: a
    dictionary or [None]. *)

From S2P Require Import Prelude PyFloat PyVal PyText AgentState PolicyEngine.

Inductive EnforcementMode : Type := DISABLED | SHADOW | ENFORCED.

#[export] Instance EnforcementMode_eq_dec : EqDecision EnforcementMode.
Proof. solve_decision. Defined.

Definition EnforcementMode_value (m : EnforcementMode) : string :=
  match m with DISABLED => "disabled" | SHADOW => "shadow" | ENFORCED => "enforced" end.

(** [EnforcementMode(s)] and [RunMode(s)]: a ValueError for another value. *)
Definition EnforcementMode_of (v : pyval) : option EnforcementMode :=
  List.find (fun m => is_str v (EnforcementMode_value m)) [DISABLED; SHADOW; ENFORCED].
Definition RunMode_of (v : pyval) : option RunMode :=
  List.find (fun m => is_str v (RunMode_value m)) [CHITCHAT; FACTUAL; REPORT].

Definition resolve_run_mode (route_target agent_config : pyval) : result RunMode :=
  let fallback := if is_str route_target "chitchat" then CHITCHAT else FACTUAL in
  if truthy agent_config then
    let! mode := vget agent_config "run_mode" VNone in
    if truthy mode
    then Ok (match RunMode_of mode with Some m => m | None => fallback end)
    else Ok fallback
  else Ok fallback.

Definition resolve_enforcement (m : RunMode) (agent_config : pyval) : result EnforcementMode :=
  if bool_decide (m = CHITCHAT) then Ok DISABLED
  else
    let config := vor agent_config (VDict []) in
    let! citation_cfg := vget config "citation_enhancement" (VDict []) in
    let! enabled := vget citation_cfg "enabled" (VBool false) in
    if negb (truthy enabled) then Ok DISABLED
    else
      let! phase := vget citation_cfg "rollout_phase" (VStr "shadow") in
      Ok (if is_str phase "shadow" then SHADOW else ENFORCED).

(** ** The verification budget *)

Record VerificationBudget : Type := mkVerificationBudget {
  max_claims : pyval; max_claims_per_section : pyval;
  max_citations_per_claim : pyval; max_total_pairs : pyval;
  max_llm_calls : pyval; max_nli_calls : pyval;
  per_pair_timeout_ms : pyval; total_verification_timeout_ms : pyval;
  batch_size : pyval; batch_concurrency : pyval;
  cache_enabled : pyval; cache_ttl_seconds : pyval }.

Definition VerificationBudget_from_config (config : pyval) : result VerificationBudget :=
  let! cfg := match config with
              | VDict _ => vget config "verification_budget" (VDict [])
              | _ => Ok (VDict [])
              end in
  let! claims := vget cfg "max_claims" (VInt 30) in
  let! citations := vget cfg "max_citations_per_claim" (VInt 5) in
  let! pairs := vget cfg "max_total_pairs" (VInt 150) in
  let! llm := vget cfg "max_llm_calls" (VInt 50) in
  let! nli := vget cfg "max_nli_calls" (VInt 100) in
  let! pair_ms := vget cfg "per_pair_timeout_ms" (VInt 3000) in
  let! total_ms := vget cfg "total_verification_timeout_ms" (VInt 30000) in
  Ok (mkVerificationBudget claims (VInt 10) citations pairs llm nli pair_ms total_ms
        (VInt 10) (VInt 3) (VBool true) (VInt 3600)).

(** ** Merging configurations *)

(** [_deep_merge] on two values: dictionaries are merged, anything else is
    replaced by the overriding value. *)
Fixpoint deep_merge_val (base over : pyval) {struct over} : pyval :=
  match base, over with
  | VDict b, VDict o =>
    VDict ((fix go (res : pydict) (l : pydict) : pydict :=
      match l with
      | [] => res
      | (k, v) :: l' =>
        go (match dlookup k res with
            | Some old => dset k (deep_merge_val old v) res
            | None => dset k v res
            end) l'
      end) b o)
  | _, _ => over
  end.

Definition deep_merge (base over : pydict) : pydict :=
  match deep_merge_val (VDict base) (VDict over) with VDict d => d | _ => [] end.

(** ** Paths through nested dictionaries *)

(** [s.split(sep)], for a non-empty separator. *)
Fixpoint split_go (sep : string) (skip : nat) (cur s : string) : list string :=
  match s with
  | EmptyString => [cur]
  | String a s' =>
    match skip with
    | S k => split_go sep k cur s'
    | O => if String.prefix sep s then cur :: split_go sep (String.length sep - 1) "" s'
           else split_go sep 0 (String.append cur (String a "")) s'
    end
  end.
Definition py_split (sep s : string) : list string := split_go sep 0 "" s.

(** The nested assignment of [_apply_env_overrides]; missing levels, and levels
    that are not dictionaries, become dictionaries. *)
Fixpoint set_path (parts : list string) (v : pyval) (d : pydict) : pydict :=
  match parts with
  | [] => d
  | [p] => dset p v d
  | p :: rest =>
    let child := match dlookup p d with Some (VDict c) => c | _ => [] end in
    dset p (VDict (set_path rest v child)) d
  end.

(** The lookup of [is_feature_enabled]: stops at [None] and at non-dictionaries. *)
Fixpoint get_path (parts : list string) (cur : pyval) : option pyval :=
  match parts with
  | [] => Some cur
  | p :: rest =>
    match cur with
    | VDict d => match dlookup p d with
                 | Some VNone | None => None
                 | Some v => get_path rest v
                 end
    | _ => None
    end
  end.

Definition is_feature_enabled (config : pydict) (feature : string) : bool :=
  match get_path (py_split "." feature) (VDict config) with
  | None => false
  | Some (VDict d) => match dlookup "enabled" d with Some v => truthy v | None => true end
  | Some v => truthy v
  end.

Definition get_config_section (config : pydict) (section : string) : pydict :=
  match dlookup section config with Some (VDict d) => d | _ => [] end.

Definition ENV_PREFIX : string := "RAG_ENHANCEMENT__".

(** [key[len(prefix):]] for a key that starts with the prefix. *)
Definition drop_prefix (p s : string) : string := String.substring (String.length p) (String.length s) s.

Section env.
(** [_convert_env_value], the reading of a variable as a typed value. *)
Variable convert_env_value : string -> pyval.

Definition apply_env_override (config : pydict) (env : string * string) : pydict :=
  if startswith ENV_PREFIX env.1 then
    let parts := py_split "__" (py_lower (drop_prefix ENV_PREFIX env.1)) in
    match last parts with
    | Some l => if truthy l then set_path parts (convert_env_value env.2) config else config
    | None => config
    end
  else config.

Definition apply_env_overrides (config : pydict) (environ : list (string * string)) : pydict :=
  fold_left apply_env_override environ config.

(** [load_rag_enhancement_config] for given defaults: [file] is what reading the
    file gave, [None] when it is missing, unreadable or not YAML. *)
Definition load_config (defaults : pydict) (file : option pyval) (environ : list (string * string)) : pydict :=
  let config := match file with
                | Some v => match vor v (VDict []) with
                            | VDict f => deep_merge defaults f
                            | _ => defaults
                            end
                | None => defaults
                end in
  apply_env_overrides config environ.
End env.

Example split_ex : py_split "__" "hallucination__enabled" = ["hallucination"; "enabled"].
Proof. reflexivity. Qed.
Example split_dot_ex : py_split "." "query_rewrite.hyde" = ["query_rewrite"; "hyde"].
Proof. reflexivity. Qed.

(** ** Lemmas *)

(** One override of [_deep_merge]. *)
Definition merge_key (res : pydict) (kv : string * pyval) : pydict :=
  match dlookup kv.1 res with
  | Some old => dset kv.1 (deep_merge_val old kv.2) res
  | None => dset kv.1 kv.2 res
  end.

Lemma deep_merge_val_dicts b o : deep_merge_val (VDict b) (VDict o) = VDict (fold_left merge_key o b).
Proof.
  simpl. f_equal. revert b. induction o as [|[k v] o IH]; intros b; simpl; [done|]. apply IH.
Qed.

Lemma deep_merge_fold b o : deep_merge b o = fold_left merge_key o b.
Proof. unfold deep_merge. by rewrite deep_merge_val_dicts. Qed.

Lemma merge_fold_lookup o b k :
  NoDup o.*1 ->
  dlookup k (fold_left merge_key o b) =
  match dlookup k o with
  | None => dlookup k b
  | Some v => Some (match dlookup k b with Some old => deep_merge_val old v | None => v end)
  end.
Proof.
  revert b. induction o as [|[k' v] o IH]; intros b; simpl; [done|].
  intros [Hn Hnd]%NoDup_cons. rewrite IH by done.
  assert (forall k0, dlookup k0 (merge_key b (k', v)) =
    if String.eqb k0 k' then Some (match dlookup k' b with Some old => deep_merge_val old v | None => v end)
    else dlookup k0 b) as Hm.
  { intros k0. unfold merge_key. simpl. destruct (dlookup k' b); by rewrite dlookup_dset. }
  rewrite Hm. destruct (String.eqb_spec k k') as [->|Hne]; [|done].
  destruct (dlookup k' o) eqn:E; [|done]. exfalso. apply Hn.
  clear -E. induction o as [|[k0 v0] o IH]; simpl in *; [done|].
  destruct (String.eqb_spec k' k0) as [<-|]; [by left|right; auto].
Qed.

Lemma get_set_path parts v d : parts <> [] -> v <> VNone ->
  get_path parts (VDict (set_path parts v d)) = Some v.
Proof.
  intros Hp Hv. revert d. induction parts as [|p rest IH]; intros d; [done|].
  destruct rest as [|q rest]; simpl set_path; cbn [get_path].
  - rewrite dlookup_dset_eq. by destruct v.
  - rewrite dlookup_dset_eq. by apply IH.
Qed.

(** ** Properties *)

(** Merging a file over the defaults, key by key: an overriding dictionary is
    merged into a dictionary, any other overriding value wins, and a key the
    file does not mention keeps its default. *)
Theorem deep_merge_lookup base over k :
  NoDup over.*1 ->
  dlookup k (deep_merge base over) =
  match dlookup k over with
  | None => dlookup k base
  | Some (VDict o) => Some (VDict (match dlookup k base with Some (VDict b) => deep_merge b o | _ => o end))
  | Some v => Some v
  end.
Proof.
  intros Hnd. rewrite deep_merge_fold, merge_fold_lookup by done.
  destruct (dlookup k over) as [v|]; [|done].
  destruct (dlookup k base) as [[| | | | | |b]|], v as [| | | | | |o]; try done.
Qed.

(** An environment variable of the prefix decides the switch it names, whatever
    the file and the earlier variables say. *)
Theorem env_override_wins convert defaults file environ key value feature :
  startswith ENV_PREFIX key = true ->
  py_split "__" (py_lower (drop_prefix ENV_PREFIX key)) = py_split "." feature ++ ["enabled"] ->
  convert value <> VNone ->
  is_feature_enabled (load_config convert defaults file (environ ++ [(key, value)])) feature =
  truthy (convert value).
Proof.
  intros Hp Hs Hv. unfold load_config, apply_env_overrides. rewrite fold_left_app.
  set (c := fold_left _ environ _). simpl. unfold apply_env_override. cbn [fst snd].
  rewrite Hp, Hs, last_snoc. cbn [truthy truthy_string String.eqb negb]. simpl.
  unfold is_feature_enabled. generalize (py_split "." feature) as parts. clearbody c.
  intros parts. set (v := convert value) in *.
  assert (exists d, get_path parts (VDict (set_path (parts ++ ["enabled"]) v c)) = Some (VDict d) /\
    dlookup "enabled" d = Some v) as (d & -> & ->); [|done].
  revert c. induction parts as [|p rest IH]; intros c.
  - simpl. exists (dset "enabled" v c). by rewrite dlookup_dset_eq.
  - destruct rest as [|q rest]; simpl app; cbn [set_path get_path]; rewrite dlookup_dset_eq; apply IH.
Qed.

(** Only a factual or report run whose configuration asks for the full rollout
    is enforced; a chat never is. *)
Theorem resolve_enforcement_enforced m cfg :
  resolve_enforcement m cfg = Ok ENFORCED <->
  m <> CHITCHAT /\ exists d c e, cfg = VDict d /\ dlookup "citation_enhancement" d = Some (VDict c) /\
    dlookup "enabled" c = Some e /\ truthy e = true /\
    exists p, dlookup "rollout_phase" c = Some p /\ p <> VStr "shadow".
Proof.
  unfold resolve_enforcement. destruct (bool_decide_reflect (m = CHITCHAT)) as [->|Hm].
  { split; [done|]. by intros [? _]. }
  unfold vor. split.
  - intros H. split; [done|]. inv_ok H.
    destruct (truthy cfg) eqn:Ec; [|by injection Ha as <-; injection Ha0 as <-].
    destruct cfg as [| | | | | |d]; try done. injection Ha as <-.
    destruct (dlookup "citation_enhancement" d) as [c|] eqn:Ed; cbn [get_or] in *;
      [|by injection Ha0 as <-].
    destruct c as [| | | | | |c]; try done. injection Ha0 as <-.
    destruct (dlookup "enabled" c) as [e|] eqn:Ee; [|done]. cbn [get_or] in *.
    destruct (truthy e) eqn:Et; [|done]. cbn [negb] in H. inv_ok H. injection Ha as <-.
    destruct (dlookup "rollout_phase" c) as [p|] eqn:Ep; cbn [get_or] in *; [|done].
    exists d, c, e. split_and!; try done. exists p. split; [done|]. intros ->. done.
  - intros (_ & d & c & e & -> & Hd & He & Ht & p & Hp & Hne).
    destruct d as [|kv d]; [done|]. cbn [truthy truthy_pyval vget rbind].
    rewrite Hd. cbn [get_or vget rbind]. rewrite He. cbn [get_or]. rewrite Ht. cbn [negb rbind].
    rewrite Hp. cbn [get_or rbind].
    destruct (is_str p "shadow") eqn:E; [|done]. by apply is_str_spec in E.
Qed.

(** ** Instances *)

Lemma deep_merge_lookup_witness :
  dlookup "hallucination" (deep_merge [("hallucination", VDict [("enabled", VBool true); ("max_regenerates", VInt 2)])]
                             [("hallucination", VDict [("enabled", VBool false)])])
  = Some (VDict (deep_merge [("enabled", VBool true); ("max_regenerates", VInt 2)] [("enabled", VBool false)])).
Proof. refine (deep_merge_lookup _ _ "hallucination" _). apply NoDup_singleton. Defined.

Lemma env_override_wins_witness :
  is_feature_enabled (load_config (fun s => VBool (String.eqb s "true")) [("hallucination", VDict [("enabled", VBool true)])]
    None ([] ++ [("RAG_ENHANCEMENT__HALLUCINATION__ENABLED", "false")])) "hallucination" = false.
Proof.
  exact (env_override_wins (fun s => VBool (String.eqb s "true")) _ None []
           "RAG_ENHANCEMENT__HALLUCINATION__ENABLED" "false" "hallucination" eq_refl eq_refl ltac:(done)).
Defined.
