(* ===== verification/QualityCheck.v ===== *)
(** * The quality gate (nodes/quality_check.py)

    Decides, from the scores the tools wrote, whether the retrieved evidence is
    good enough, whether the tool is retried, or whether the run falls back to
    a web search.  [elapsed] is the wall-clock time of the node. *)

From S2P Require Import Prelude PyFloat PyVal AgentState.

Definition QUALITY_PASS_THRESHOLD_BASE : Q := rnd (7 # 10).
Definition QUALITY_PASS_THRESHOLD_GRADER : Q := rnd (65 # 100).
Definition GRAPH_PASS_THRESHOLD : Q := rnd (7 # 10).
Definition DEFAULT_RETRY_TOKEN_BUDGET : Z := 2000.
Definition MIN_RELEVANT_DOCS : Z := 2.
Definition RETRIEVAL_INFRA_ERROR_CODES : list string := ["RETRIEVAL_SERVICE_ERROR"; "RETRIEVAL_AUTH"].

Definition RETRY_DECISIONS : list string := ["retry_rag"; "retry_db"; "retry_graph"].

(** [_decide_by_verdict]: the final state of the SQL exploration decides. *)
Definition decide_by_verdict (verdict : pyval) (retry_count max_retries : Z) : option string :=
  if is_str verdict "data_found" then Some "pass"
  else if is_str verdict "no_data_confirmed" then Some "pass"
  else if is_str verdict "exploration_failed" then
    Some (if (retry_count <? max_retries)%Z then "retry_db" else "fallback_web")
  else if is_str verdict "budget_exhausted" then Some "fallback_web"
  else None.

Definition quality_ok (score : Q) (has_relevant : bool) (relevant_count : Z)
    (route : pyval) (threshold : Q) : bool :=
  if is_one_of route ["database"; "graph"] then
    fge score threshold && (relevant_count >? 0)%Z
  else if is_one_of route ["rag"; "hybrid"] then
    fge score threshold && has_relevant && (relevant_count >=? MIN_RELEVANT_DOCS)%Z
  else fge score threshold && has_relevant.

Definition make_decision (score : Q) (has_relevant : bool) (relevant_count retry_count max_retries : Z)
    (route : pyval) (threshold : Q) : string :=
  if is_str route "chitchat" then "pass"
  else if quality_ok score has_relevant relevant_count route threshold then "pass"
  else if (retry_count <? max_retries)%Z then
    if is_one_of route ["rag"; "hybrid"] then "retry_rag"
    else if is_str route "database" then "retry_db"
    else if is_str route "graph" then "retry_graph"
    else "fallback_web"
  else "fallback_web".

(** The scores of a route, or an early decision of the database branch. *)
Record QualityInputs : Type := mkInputs {
  qi_score : Q; qi_has_relevant : bool; qi_relevant_count : Z; qi_source : pyval }.

Definition no_inputs : QualityInputs := mkInputs 0 false 0 (VStr "base").

Definition gather (st : pystate) (route : pyval) (retry_count max_retries : Z)
    : result (string + QualityInputs) :=
  if is_str route "rag" then
    let! score := sget as_float st "rag_quality_score" 0%Q in
    let! count := sget as_int st "rag_relevant_count" 0%Z in
    Ok (inr (mkInputs score (truthy (sgetv st "rag_has_relevant" (VBool false))) count
               (sgetv st "rag_score_source" (VStr "base"))))
  else if is_str route "database" then
    let! score := sget as_float st "db_quality_score" 0%Q in
    let db_result := sgetv st "db_result" (VDict []) in
    let! rows := vget db_result "row_count" (VInt 0) in
    let! count := as_int rows in
    let! verdict := vget db_result "exploration_verdict" (VStr "") in
    let inputs := mkInputs score (count >? 0)%Z count (VStr "base") in
    if truthy verdict then
      match decide_by_verdict verdict retry_count max_retries with
      | Some decision => Ok (inl decision)
      | None => Ok (inr inputs)
      end
    else Ok (inr inputs)
  else if is_str route "hybrid" then
    let! rag_score := sget as_float st "rag_quality_score" 0%Q in
    let! db_score := sget as_float st "db_quality_score" 0%Q in
    let! count := sget as_int st "rag_relevant_count" 0%Z in
    Ok (inr (mkInputs (if fgt db_score 0 then fdiv (fadd rag_score db_score) 2 else rag_score)
               (truthy (sgetv st "rag_has_relevant" (VBool false))) count
               (sgetv st "rag_score_source" (VStr "base"))))
  else if is_str route "graph" then
    let! score := sget as_float st "graph_quality_score" 0%Q in
    let! count := sget as_int st "graph_row_count" 0%Z in
    Ok (inr (mkInputs score (truthy (sgetv st "graph_has_result" (VBool false))) count
               (sgetv st "graph_score_source" (VStr "graph"))))
  else Ok (inr no_inputs).

Definition threshold_of (source : pyval) : Q :=
  if is_str source "grader_merged" then QUALITY_PASS_THRESHOLD_GRADER
  else if is_str source "graph" then GRAPH_PASS_THRESHOLD
  else QUALITY_PASS_THRESHOLD_BASE.

Definition infra_failed (st : pystate) (route : pyval) : bool :=
  is_one_of route ["rag"; "hybrid"] &&
  is_one_of (sgetv st "retrieval_error_code" (VStr "")) RETRIEVAL_INFRA_ERROR_CODES.

(** The fields returned with a decision; a retry advances [retry_count]. *)
Definition decision_updates (elapsed : Z) (decision : string) (retry_count : Z) (counts : bool) : pydict :=
  [("quality_decision", VStr decision); timing "quality_check" elapsed]
  ++ (if counts then [("retry_count", VInt (retry_count + 1))] else []).

Definition quality_check_node (elapsed : Z) (st : pystate) : result pydict :=
  let route := sgetv st "route_target" (VStr "chitchat") in
  let! retry_count := sget as_int st "retry_count" 0%Z in
  let! max_retries := sget as_int st "max_retries" 3%Z in
  let! used := sget as_int st "retry_token_used" 0%Z in
  let! budget := sget as_int st "retry_token_budget" DEFAULT_RETRY_TOKEN_BUDGET in
  let! gathered := gather st route retry_count max_retries in
  match gathered with
  | inl decision =>
    Ok (decision_updates elapsed decision retry_count (String.eqb decision "retry_db"))
  | inr q =>
    if infra_failed st route then Ok (decision_updates elapsed "fallback_web" retry_count false)
    else if (used >=? budget)%Z then Ok (decision_updates elapsed "fallback_web" retry_count false)
    else
      let decision := make_decision (qi_score q) (qi_has_relevant q) (qi_relevant_count q)
                        retry_count max_retries route (threshold_of (qi_source q)) in
      Ok (decision_updates elapsed decision retry_count (str_in decision RETRY_DECISIONS))
  end.

(** The conditional edge after the node. *)
Definition quality_check_decision (st : pystate) : string :=
  if truthy (sgetv st "termination_reason" (VStr "")) then "fallback"
  else
    let decision := sgetv st "quality_decision" (VStr "pass") in
    if is_str decision "pass" then "prompt_assembly"
    else if is_str decision "retry_rag" then "rag_tool"
    else if is_str decision "retry_db" then "db_tool"
    else if is_str decision "retry_graph" then "graph_tool"
    else if is_str decision "fallback_web" then "web_tool"
    else "prompt_assembly".

(** ** Lemmas *)

Lemma quality_check_inv elapsed st u :
  quality_check_node elapsed st = Ok u ->
  exists rc mr used budget g,
    sget as_int st "retry_count" 0%Z = Ok rc /\ sget as_int st "max_retries" 3%Z = Ok mr /\
    sget as_int st "retry_token_used" 0%Z = Ok used /\
    sget as_int st "retry_token_budget" DEFAULT_RETRY_TOKEN_BUDGET = Ok budget /\
    gather st (sgetv st "route_target" (VStr "chitchat")) rc mr = Ok g /\
    u = match g with
        | inl d => decision_updates elapsed d rc (String.eqb d "retry_db")
        | inr q =>
          if infra_failed st (sgetv st "route_target" (VStr "chitchat")) || (used >=? budget)%Z
          then decision_updates elapsed "fallback_web" rc false
          else let d := make_decision (qi_score q) (qi_has_relevant q) (qi_relevant_count q) rc mr
                          (sgetv st "route_target" (VStr "chitchat")) (threshold_of (qi_source q)) in
               decision_updates elapsed d rc (str_in d RETRY_DECISIONS)
        end.
Proof.
  intros H. unfold quality_check_node in H. inv_ok H.
  exists a, a0, a1, a2, a3. split_and!; try done.
  destruct a3; [by injection H|]. destruct (infra_failed _ _); [by injection H|].
  simpl orb. destruct (a1 >=? a2)%Z; by injection H.
Qed.

Lemma decision_updates_decision ms d rc b :
  dlookup "quality_decision" (decision_updates ms d rc b) = Some (VStr d).
Proof. done. Qed.

Lemma decision_updates_retry ms d rc b :
  dlookup "retry_count" (decision_updates ms d rc b) = if b then Some (VInt (rc + 1)) else None.
Proof. by destruct b. Qed.

Lemma decision_updates_other ms d rc b k :
  k ∉ ["quality_decision"; "node_timings"; "retry_count"] ->
  dlookup k (decision_updates ms d rc b) = None.
Proof.
  intros H. rewrite !not_elem_of_cons in H. destruct H as (H1 & H2 & H3 & _).
  unfold decision_updates, timing. destruct b; cbn [app dlookup];
    by repeat rewrite (proj2 (String.eqb_neq _ _)) by done.
Qed.

Lemma gather_inl st route rc mr d :
  gather st route rc mr = Ok (inl d) ->
  route = VStr "database" /\
  exists r v, sgetv st "db_result" (VDict []) = r /\ vget r "exploration_verdict" (VStr "") = Ok v /\
    decide_by_verdict v rc mr = Some d.
Proof.
  unfold gather. intros H.
  destruct (is_str route "rag"); [inv_ok H; done|].
  destruct (is_str route "database") eqn:E.
  - inv_ok H. split; [by apply is_str_spec|]. eexists _, a2. split_and!; [done|done|].
    destruct (truthy a2); [|done]. destruct (decide_by_verdict a2 rc mr); [|done]. congruence.
  - destruct (is_str route "hybrid"); [inv_ok H; done|].
    destruct (is_str route "graph"); [inv_ok H; done|done].
Qed.

Lemma decide_by_verdict_cases v rc mr d :
  decide_by_verdict v rc mr = Some d ->
  (d = "pass" /\ (v = VStr "data_found" \/ v = VStr "no_data_confirmed")) \/
  (d = "retry_db" /\ v = VStr "exploration_failed" /\ (rc < mr)%Z) \/ d = "fallback_web".
Proof.
  unfold decide_by_verdict.
  destruct (is_str v "data_found") eqn:E1; [apply is_str_spec in E1; naive_solver|].
  destruct (is_str v "no_data_confirmed") eqn:E2; [apply is_str_spec in E2; naive_solver|].
  destruct (is_str v "exploration_failed") eqn:E3.
  - apply is_str_spec in E3. destruct (Z.ltb_spec rc mr); intros [= <-]; auto.
  - destruct (is_str v "budget_exhausted"); intros [= <-]; auto.
Qed.

Lemma make_decision_cases score hr rel rc mr route thr :
  let d := make_decision score hr rel rc mr route thr in
  (d = "pass" /\ (route = VStr "chitchat" \/ quality_ok score hr rel route thr = true)) \/
  (d ∈ RETRY_DECISIONS /\ (rc < mr)%Z) \/ d = "fallback_web".
Proof.
  unfold make_decision. destruct (is_str route "chitchat") eqn:E; [apply is_str_spec in E; auto|].
  destruct (quality_ok _ _ _ _ _); [auto|]. destruct (Z.ltb_spec rc mr); [|auto].
  unfold RETRY_DECISIONS. split_ifs; auto; right; left; (split; [|done]); set_solver.
Qed.

(** The accounting of retries: a retry is only decided below the limit and is
    counted, any other decision leaves the counter alone. *)
Lemma quality_check_step elapsed st u :
  quality_check_node elapsed st = Ok u ->
  exists d rc mr, dlookup "quality_decision" u = Some (VStr d) /\
    sget as_int st "retry_count" 0%Z = Ok rc /\ sget as_int st "max_retries" 3%Z = Ok mr /\
    ((d ∈ RETRY_DECISIONS /\ (rc < mr)%Z /\ dlookup "retry_count" u = Some (VInt (rc + 1))) \/
     (d ∈ ["pass"; "fallback_web"] /\ dlookup "retry_count" u = None)).
Proof.
  intros (rc & mr & used & budget & g & Hrc & Hmr & _ & _ & Hg & ->)%quality_check_inv.
  destruct g as [d|q].
  - exists d, rc, mr. split; [done|]. split; [done|]. split; [done|].
    rewrite decision_updates_retry.
    apply gather_inl in Hg as (_ & r & v & _ & _ & Hd).
    apply decide_by_verdict_cases in Hd as [[-> _]|[(-> & _ & ?)| ->]]; simpl.
    + right. split; [by left|done].
    + left. split; [set_solver|done].
    + right. split; [set_solver|done].
  - destruct (_ || _).
    + exists "fallback_web", rc, mr. rewrite decision_updates_retry. split_and!; try done.
      right. split; [set_solver|done].
    + set (d := make_decision _ _ _ _ _ _ _).
      exists d, rc, mr. cbn zeta. rewrite decision_updates_retry. split_and!; try done.
      destruct (make_decision_cases (qi_score q) (qi_has_relevant q) (qi_relevant_count q) rc mr
        (sgetv st "route_target" (VStr "chitchat")) (threshold_of (qi_source q))) as [[Hd _]|[[Hd ?]|Hd]];
        fold d in Hd.
      * right. rewrite Hd. split; [set_solver|done].
      * left. apply str_in_spec in Hd as Hd'. by rewrite Hd'.
      * right. rewrite Hd. split; [set_solver|done].
Qed.

(** The routes the gate knows how to score. *)
Definition SCORED_ROUTES : list string := ["rag"; "database"; "hybrid"; "graph"; "chitchat"].

Lemma is_one_of_spec v ss : is_one_of v ss = true <-> exists s, s ∈ ss /\ v = VStr s.
Proof. unfold is_one_of. rewrite existsb_true_exists. by setoid_rewrite is_str_spec. Qed.

Lemma is_one_of_cons v s ss : is_one_of v (s :: ss) = is_str v s || is_one_of v ss.
Proof. done. Qed.

(** A route the gate has no branch for always falls back to the web search. *)
Lemma unscored_route_falls_back elapsed st u :
  is_one_of (sgetv st "route_target" (VStr "chitchat")) SCORED_ROUTES = false ->
  quality_check_node elapsed st = Ok u ->
  dlookup "quality_decision" u = Some (VStr "fallback_web") /\ dlookup "retry_count" u = None.
Proof.
  intros Hr (rc & mr & used & budget & g & _ & _ & _ & _ & Hg & ->)%quality_check_inv.
  set (route := sgetv _ _ _) in *. unfold SCORED_ROUTES in Hr. rewrite !is_one_of_cons in Hr.
  bool_facts. unfold gather in Hg.
  repeat match goal with H : is_str route _ = false |- _ => rewrite H in Hg; revert H end.
  intros. injection Hg as <-. destruct (_ || _); [done|].
  assert (make_decision (qi_score no_inputs) (qi_has_relevant no_inputs) (qi_relevant_count no_inputs)
    rc mr route (threshold_of (qi_source no_inputs)) = "fallback_web") as ->; [|done].
  unfold make_decision, quality_ok. rewrite !is_one_of_cons.
  repeat match goal with H : is_str route _ = false |- _ => rewrite H; revert H end.
  intros. cbn. by destruct (_ <? _)%Z.
Qed.

(** ** Properties *)

(** What a "pass" of the gate means: a chat, a conclusive SQL exploration, or a
    score at the threshold of its source with enough relevant results, on a
    route that has a score, within the token budget. *)
Theorem quality_pass_sound elapsed st u :
  quality_check_node elapsed st = Ok u ->
  dlookup "quality_decision" u = Some (VStr "pass") ->
  exists route, sgetv st "route_target" (VStr "chitchat") = VStr route /\ route ∈ SCORED_ROUTES /\
  ((route = "database" /\ exists v, vget (sgetv st "db_result" (VDict [])) "exploration_verdict" (VStr "") = Ok v /\
      (v = VStr "data_found" \/ v = VStr "no_data_confirmed")) \/
   (infra_failed st (VStr route) = false /\
    (exists used budget, sget as_int st "retry_token_used" 0%Z = Ok used /\
       sget as_int st "retry_token_budget" DEFAULT_RETRY_TOKEN_BUDGET = Ok budget /\ (used < budget)%Z) /\
    (route = "chitchat" \/ exists q rc mr, gather st (VStr route) rc mr = Ok (inr q) /\
       (threshold_of (qi_source q) <= qi_score q)%Q /\
       (if str_in route ["database"; "graph"] then (0 < qi_relevant_count q)%Z
        else qi_has_relevant q = true /\ (2 <= qi_relevant_count q)%Z)))).
Proof.
  intros Hn Hd.
  destruct (is_one_of (sgetv st "route_target" (VStr "chitchat")) SCORED_ROUTES) eqn:Hr.
  2:{ destruct (unscored_route_falls_back _ _ _ Hr Hn) as [H _]. congruence. }
  apply is_one_of_spec in Hr as (route & Hin & Hroute).
  apply quality_check_inv in Hn as (rc & mr & used & budget & g & _ & _ & Hu & Hb & Hg & ->).
  rewrite Hroute in *. exists route. split; [done|]. split; [done|].
  destruct g as [d|q].
  - left. apply gather_inl in Hg as (Hr & r & v & <- & Hv & Hdec). injection Hr as ->.
    split; [done|]. exists v. split; [done|].
    rewrite decision_updates_decision in Hd. injection Hd as ->.
    apply decide_by_verdict_cases in Hdec as [[_ ?]|[(? & _)|?]]; done.
  - destruct (infra_failed st (VStr route)) eqn:Ei; [done|]. simpl orb in Hd.
    rewrite Z.geb_leb in Hd. destruct (Z.leb_spec budget used); [done|].
    cbn zeta in Hd. rewrite decision_updates_decision in Hd. injection Hd as Hd.
    right. split; [done|]. split; [by exists used, budget|].
    destruct (make_decision_cases (qi_score q) (qi_has_relevant q) (qi_relevant_count q) rc mr
      (VStr route) (threshold_of (qi_source q))) as [[_ [Hc|Hq]]|[[He _]|He]]; [| |rewrite Hd in He..]; try done.
    + left. by injection Hc.
    + destruct (String.eqb_spec route "chitchat"); [by left|]. right. exists q, rc, mr. split; [done|].
      unfold quality_ok, is_one_of in Hq. cbn [is_str existsb] in Hq. unfold str_in. cbn [existsb].
      unfold SCORED_ROUTES in Hin. rewrite !elem_of_cons in Hin.
      destruct Hin as [->|[->|[->|[->|[->|Hin]]]]]; [..|by apply not_elem_of_nil in Hin]; try congruence.
      all: cbn [String.eqb Ascii.eqb Bool.eqb orb andb] in Hq |- *; bool_facts; fcompare.
      all: repeat apply conj; assumption.
    + unfold RETRY_DECISIONS in He. rewrite !elem_of_cons in He.
      destruct He as [?|[?|[?|He]]]; [..|by apply not_elem_of_nil in He]; done.
Qed.

(** ** Instances *)

Definition scored_rag : pystate :=
  <["route_target" := VStr "rag"]> (<["rag_quality_score" := VFloat (8 # 10)]>
    (<["rag_has_relevant" := VBool true]> {["rag_relevant_count" := VInt 3]})).

Lemma quality_pass_sound_witness :
  exists route, sgetv scored_rag "route_target" (VStr "chitchat") = VStr route /\ route ∈ SCORED_ROUTES.
Proof.
  destruct (quality_pass_sound 0 scored_rag (decision_updates 0 "pass" 0 false) eq_refl eq_refl)
    as (route & H & Hin & _). exists route. exact (conj H Hin).
Defined.
