(* ===== verification/Hallucination.v ===== *)
(** * The faithfulness gate (nodes/hallucination.py)

    Decides whether the generated answer is shown, filtered, regenerated or
    refused.  The verification services are arguments of the model: [verify] is
    the reply of the verifier gateway, [bind_claims] the outcome of building the
    pair verifier and running the citation binder; each may raise. *)

From S2P Require Import Prelude PyFloat PyVal PyText Claim PolicyEngine AgentState Config.

Definition HALLUCINATION_PASS_THRESHOLD : Q := rnd (85 # 100).
Definition HALLUCINATION_FILTER_THRESHOLD : Q := rnd (6 # 10).
Definition REGENERATE_THRESHOLD : Q := rnd (3 # 10).
Definition MAX_REGENERATES : Z := 2.

(** [_dispose] *)
Definition dispose (score : Q) (regenerate_count : Z) : string :=
  if fge score HALLUCINATION_PASS_THRESHOLD then "pass"
  else if fge score HALLUCINATION_FILTER_THRESHOLD then "filter"
  else if fge score REGENERATE_THRESHOLD then
    if (regenerate_count >=? MAX_REGENERATES)%Z then "exhausted" else "regenerate"
  else "reject".

(** [_verify_faithfulness]: the share of the distinct characters of the answer
    that occur in the context, with a penalty for long answers. *)
Definition char_set (s : string) : list string := remove_dups (chars s).

Definition verify_faithfulness (answer context : string) : Q :=
  if negb (truthy answer) || negb (truthy context) then 0%Q
  else
    let answer_chars := char_set answer in
    let overlap := List.filter (fun c => str_in c (char_set context)) answer_chars in
    let ratio := match answer_chars with
                 | [] => 0%Q
                 | _ => fdiv (fint (Z.of_nat (length overlap))) (fint (Z.of_nat (length answer_chars)))
                 end in
    let penalty := if (text_len context >? 0)%Z && (text_len answer >? text_len context * 2)%Z
                   then rnd (8 # 10) else 1%Q in
    let score := fmul ratio penalty in
    if flt score 1 then score else 1%Q.

(** ** Python protocols the node relies on *)

Definition py_len_val (v : pyval) : result Z :=
  let! l := py_iter v in Ok (Z.of_nat (length l)).

(** [float(x)] on numbers. *)
Definition py_float (v : pyval) : result Q :=
  match v with VBool b => Ok (if b then 1%Q else 0%Q) | _ => as_float v end.

(** Attribute access on an object whose class has these attributes. *)
Definition getattr (attributes : list string) (name : string) : result unit :=
  if str_in name attributes then Ok tt else Raise (AttributeError name).

(** A call with keyword arguments only: each must be a parameter. *)
Definition bind_kwargs (params : list string) (kwargs : list string) : result unit :=
  if forallb (fun k => str_in k params) kwargs then Ok tt else Raise (TypeError "unexpected keyword argument").

(** [try: m except Exception: h] *)
Definition catch {A} (m h : result A) : result A := match m with Ok a => Ok a | Raise _ => h end.

Definition VerdictMatrix_attributes : list string :=
  ["_default_rules"; "validate_rules"; "judge"; "_match_rule"; "_any_layer_contradicted";
   "_all_layers_supported"; "_aggregate_layers"; "_is_contradiction"; "_is_rule_llm_support";
   "_is_nli_support"; "rules"].
Definition PolicyEngine_decide_params : list string :=
  ["claims"; "run_mode"; "regenerate_count"; "evidence_snapshot"].
Definition PolicyDecision_attributes : list string :=
  ["schema_version"; "action"; "reason"; "faithfulness_score"; "failed_claims";
   "forbidden_claim_texts"; "allowed_evidence_ids"; "regenerate_instruction"; "verifier_status"; "to_dict"; "from_dict"].

Section node.
Variable config : pydict.          (* load_rag_enhancement_config() *)
Variable verify : pyval -> string -> pyval -> pyval -> result pyval.
Variable bind_claims : list pyval -> list (Claim + pyval) -> pystate -> result (list Claim).

(** The two modes: the value already in the state when it names a member,
    resolution from the configuration otherwise. *)
Definition node_run_mode (st : pystate) (agent_config : pyval) : result RunMode :=
  let s := sgetv st "run_mode" (VStr "") in
  let resolved := resolve_run_mode (sgetv st "route_target" (VStr "")) agent_config in
  if truthy s then match RunMode_of s with Some m => Ok m | None => resolved end else resolved.

Definition node_enforcement (st : pystate) (agent_config : pyval) (m : RunMode) : result EnforcementMode :=
  let s := sgetv st "enforcement_mode" (VStr "") in
  let resolved := resolve_enforcement m agent_config in
  if truthy s then match EnforcementMode_of s with Some e => Ok e | None => resolved end else resolved.

(** [_base_return], with its keyword arguments. *)
Definition base_return (mode : EnforcementMode) (ms : Z) (score : Q) (action : string) (extra : pydict) : pydict :=
  fold_left (fun d kv => dset kv.1 kv.2 d) extra
    [("hallucination_score", VFloat score); ("hallucination_action", VStr action);
     ("enforcement_mode", VStr (EnforcementMode_value mode)); timing "hallucination" ms].

Definition reject_with_reason (mode : EnforcementMode) (ms : Z) (reason : string) : pydict :=
  base_return mode ms 0 "reject" [("reject_reason", VStr reason)].

(** A scored action; "regenerate" advances the counter. *)
Definition scored_return (mode : EnforcementMode) (ms : Z) (score : Q) (regenerate_count : Z) : pydict :=
  let action := dispose score regenerate_count in
  base_return mode ms score action
    (if String.eqb action "regenerate" then [("regenerate_count", VInt (regenerate_count + 1))] else []).

(** ["\n\n".join(ev.get("content", "") for ev in evidence if ev.get("content"))] *)
Definition newline2 : string := String (Ascii.ascii_of_nat 10) (String (Ascii.ascii_of_nat 10) "").

Fixpoint evidence_contents (evs : list pyval) : result (list string) :=
  match evs with
  | [] => Ok []
  | ev :: evs' =>
    let! c := vget ev "content" VNone in
    if truthy c then
      let! s := as_str c in
      let! rest := evidence_contents evs' in Ok (s :: rest)
    else evidence_contents evs'
  end.

(** [EnforcementMode.ENFORCED] with an answer AST: [Ok None] falls through to
    the gateway, an exception is handled by the caller. *)
Definition enforced_branch (st : pystate) (ms : Z) : result (option pydict) :=
  let raw_evidence := vor (sgetv st "evidence" (VList [])) (VList []) in
  if negb (truthy raw_evidence) then Ok (Some (reject_with_reason ENFORCED ms "当前资料不足以确认"))
  else
    let! evs := py_iter raw_evidence in
    let! ids := rmap (fun ev => vget ev "evidence_id" (VStr "")) evs in
    let! raw_claims := py_iter (vor (sgetv st "claims" (VList [])) (VList [])) in
    let! claims := rmap (fun c => match c with
                                  | VDict d => let! c' := Claim_from_dict d in Ok (inl c')
                                  | v => Ok (inr v)
                                  end) raw_claims in
    if negb (truthy claims) then Ok None
    else
      let! bound := bind_claims evs claims st in
      let! _ := getattr VerdictMatrix_attributes "evaluate" in
      let! _ := bind_kwargs PolicyEngine_decide_params
                  ["claims"; "claim_verdicts"; "enforcement_mode"; "regenerate_count"] in
      let! _ := getattr PolicyDecision_attributes "get" in
      Ok None.

(** Steps 5 and 6: the feature switch, the gateway, and the local fallback. *)
Definition gateway_score (st : pystate) (generated : pyval) (context : string) : result Q :=
  let! reply := verify generated context (sgetv st "user_question" (VStr "")) (sgetv st "tenant_id" (VStr "")) in
  let! score := rbind (vget reply "faithfulness_score" (VFloat 0)) py_float in
  let! _ := vget reply "action" (VStr "") in
  let! claims := vget reply "claims" (VList []) in
  let! _ := py_len_val (vor claims (VList [])) in
  Ok score.

Definition gateway_branch (st : pystate) (mode : EnforcementMode) (ms : Z) (generated : pyval)
    (context : string) (regenerate_count : pyval) : pydict :=
  if negb (is_feature_enabled config "hallucination") then base_return mode ms 1 "pass" []
  else
    let finish score := let! n := as_int regenerate_count in Ok (scored_return mode ms score n) in
    match rbind (gateway_score st generated context) finish with
    | Ok u => u
    | Raise _ =>
      if bool_decide (mode = ENFORCED) then reject_with_reason mode ms "验证服务异常"
      else
        match (let! s := as_str generated in finish (verify_faithfulness s context)) with
        | Ok u => u
        | Raise _ => base_return mode ms 1 "pass" []
        end
    end.

Definition hallucination_node (ms : Z) (st : pystate) : result pydict :=
  let agent_config := vor (sgetv st "agent_config" (VDict [])) (VDict []) in
  let regenerate_count := sgetv st "regenerate_count" (VInt 0) in
  let generated := sgetv st "generated_answer" (VStr "") in
  let! run_mode := node_run_mode st agent_config in
  let! mode := node_enforcement st agent_config run_mode in
  let enforced := bool_decide (mode = ENFORCED) in
  if negb (truthy generated) then
    Ok (if enforced then reject_with_reason mode ms "无法生成答案" else base_return mode ms 1 "pass" [])
  else
    let evidence := vor (sgetv st "evidence" (VList [])) (VList []) in
    if negb (truthy evidence) then
      Ok (if enforced then reject_with_reason mode ms "当前资料不足以确认" else base_return mode ms 1 "pass" [])
    else
      let! evs := py_iter evidence in
      let! contents := evidence_contents evs in
      let context := join newline2 contents in
      let answer_ast := sgetv st "answer_ast" VNone in
      if enforced && negb (truthy answer_ast) then
        let! n := as_int regenerate_count in
        if (n >=? MAX_REGENERATES)%Z then Ok (reject_with_reason mode ms "答案结构解析失败")
        else Ok (base_return mode ms 0 "regenerate" [("regenerate_count", VInt (n + 1))])
      else
        let continue_with_gateway := Ok (gateway_branch st mode ms generated context regenerate_count) in
        if enforced then
          match enforced_branch st ms with
          | Ok (Some u) => Ok u
          | Ok None => continue_with_gateway
          | Raise _ => Ok (reject_with_reason mode ms "验证服务异常")
          end
        else continue_with_gateway.
End node.

(** The conditional edge after the node. *)
Definition hallucination_decision (st : pystate) : string :=
  let action := sgetv st "hallucination_action" (VStr "pass") in
  if is_one_of action ["pass"; "filter"] then "answer_renderer"
  else if is_str action "regenerate" then "prompt_assembly"
  else if is_one_of action ["reject"; "exhausted"] then "observability"
  else "observability".

(** ** Lemmas *)

#[local] Opaque rnd.

Lemma as_int_sgetv st k z : as_int (sgetv st k (VInt z)) = sget as_int st k z.
Proof. unfold sgetv, sget. by destruct (st !! k). Qed.

Lemma filter_le_pass : (HALLUCINATION_FILTER_THRESHOLD <= HALLUCINATION_PASS_THRESHOLD)%Q.
Proof. apply Qle_bool_iff. vm_compute. reflexivity. Qed.

Lemma dispose_cases score n :
  (dispose score n = "regenerate" /\ (n < MAX_REGENERATES)%Z) \/
  (dispose score n ∈ ["pass"; "filter"] /\ (HALLUCINATION_FILTER_THRESHOLD <= score)%Q) \/
  dispose score n ∈ ["exhausted"; "reject"].
Proof.
  unfold dispose. rewrite Z.geb_leb.
  destruct (fge score HALLUCINATION_PASS_THRESHOLD) eqn:E1.
  { right; left. fcompare. split; [str_mem|].
    eapply Qle_trans; [apply filter_le_pass|exact E1]. }
  destruct (fge score HALLUCINATION_FILTER_THRESHOLD) eqn:E2.
  { right; left. fcompare. split; [str_mem|done]. }
  destruct (fge score REGENERATE_THRESHOLD); [|right; right; str_mem].
  destruct (Z.leb_spec MAX_REGENERATES n); [right; right; str_mem|]. left. by split.
Qed.

(** The shapes of the node's answer: regenerations carry the advanced counter,
    refusals a reason, and everything else just the scored action. *)
Inductive gate_result (st : pystate) (mode : EnforcementMode) (ms : Z) : pydict -> Prop :=
  | gate_regenerate n score :
      sget as_int st "regenerate_count" 0%Z = Ok n -> (n < MAX_REGENERATES)%Z ->
      gate_result st mode ms (base_return mode ms score "regenerate" [("regenerate_count", VInt (n + 1))])
  | gate_reject reason : gate_result st mode ms (reject_with_reason mode ms reason)
  | gate_plain score action :
      action ∈ ["pass"; "filter"; "exhausted"; "reject"] ->
      gate_result st mode ms (base_return mode ms score action []).

Lemma scored_gate_result st mode ms score n :
  sget as_int st "regenerate_count" 0%Z = Ok n -> gate_result st mode ms (scored_return mode ms score n).
Proof.
  intros Hn. unfold scored_return. cbn zeta.
  destruct (dispose_cases score n) as [[-> ?]|[[Hd _]|Hd]]; simpl.
  - by eapply gate_regenerate.
  - rewrite (proj2 (String.eqb_neq _ _)) by (intros E; rewrite E in Hd; str_mem).
    apply gate_plain. str_mem.
  - rewrite (proj2 (String.eqb_neq _ _)) by (intros E; rewrite E in Hd; str_mem).
    apply gate_plain. str_mem.
Qed.

Lemma gateway_gate_result config verify st mode ms generated context :
  gate_result st mode ms
    (gateway_branch config verify st mode ms generated context (sgetv st "regenerate_count" (VInt 0))).
Proof.
  unfold gateway_branch. rewrite as_int_sgetv. destruct (negb _); [apply gate_plain; str_mem|].
  destruct (rbind _ _) as [u|] eqn:E.
  { inv_ok E. apply Ok_inj in E as <-. by apply scored_gate_result. }
  destruct (bool_decide _); [constructor|].
  match goal with |- context [match ?m with Ok _ => _ | Raise _ => _ end] => destruct m as [u|] eqn:E2 end;
    [|apply gate_plain; str_mem].
  inv_ok E2. apply Ok_inj in E2 as <-. by apply scored_gate_result.
Qed.

(** No method [evaluate] is defined on the matrix: the claim-level branch ends
    without an exception only when it never gets there. *)
Lemma evaluate_missing : getattr VerdictMatrix_attributes "evaluate" = Raise (AttributeError "evaluate").
Proof. reflexivity. Qed.

Lemma chars_nonempty s : truthy s = true -> chars s <> [].
Proof.
  destruct s as [|a s]; [done|]. intros _. simpl. destruct (chars s) as [|[|b c] l]; [done..|].
  by destruct (is_continuation b).
Qed.

Lemma py_iter_nil v : py_iter v = Ok [] -> truthy v = false.
Proof.
  destruct v as [| | | |s|[|]|[|]]; try done. cbn. intros H. injection H as H. apply map_eq_nil in H.
  destruct (truthy s) eqn:E; [by apply chars_nonempty in E|done].
Qed.

Lemma enforced_branch_inv bind st ms r :
  enforced_branch bind st ms = Ok r ->
  match r with
  | Some u => truthy (vor (sgetv st "evidence" (VList [])) (VList [])) = false /\
              u = reject_with_reason ENFORCED ms "当前资料不足以确认"
  | None => truthy (vor (sgetv st "claims" (VList [])) (VList [])) = false
  end.
Proof.
  unfold enforced_branch. cbn zeta. destruct (truthy (vor (sgetv st "evidence" _) _)) eqn:Ee; cbn [negb].
  2:{ intros H. apply Ok_inj in H as <-. done. }
  intros H. inv_ok H. destruct (truthy a2) eqn:En; cbn [negb] in H.
  { inv_ok H. by rewrite evaluate_missing in Ha4. }
  apply Ok_inj in H as <-. apply py_iter_nil. rewrite Ha1. destruct a1 as [|c l]; [done|].
  cbn [rmap] in Ha2. inv_ok Ha2. by injection Ha2 as <-.
Qed.

(** A refusal or a regeneration is not one of the actions in context. *)
Ltac refuses H := cbv in H; injection H as <-; str_mem.

(** The context of the gateway: the contents of the evidence. *)
Definition gate_context (st : pystate) : result string :=
  let! evs := py_iter (vor (sgetv st "evidence" (VList [])) (VList [])) in
  let! contents := evidence_contents evs in Ok (join newline2 contents).

(** What the node did on a successful run: the mode it resolved and the shape of
    its answer. *)
Lemma hallucination_inv config verify bind ms st u :
  hallucination_node config verify bind ms st = Ok u ->
  exists mode, gate_result st mode ms u /\
    (exists cfg m, node_enforcement st cfg m = Ok mode) /\
    (mode = ENFORCED -> forall action, action ∈ ["pass"; "filter"] ->
       dlookup "hallucination_action" u = Some (VStr action) ->
       truthy (sgetv st "generated_answer" (VStr "")) = true /\
       truthy (vor (sgetv st "evidence" (VList [])) (VList [])) = true /\
       truthy (sgetv st "answer_ast" VNone) = true /\
       truthy (vor (sgetv st "claims" (VList [])) (VList [])) = false /\
       exists context, gate_context st = Ok context /\ u = gateway_branch config verify st mode ms
         (sgetv st "generated_answer" (VStr "")) context (sgetv st "regenerate_count" (VInt 0))).
Proof.
  intros H. unfold hallucination_node in H. cbn zeta in H. inv_ok H. exists a0.
  assert (exists cfg m, node_enforcement st cfg m = Ok a0) as Hmode by eauto.
  destruct (bool_decide_reflect (a0 = ENFORCED)) as [->|Hm].
  2:{ split; [|by split]. destruct (truthy (sgetv st "generated_answer" _)); cbn [negb] in H;
        [|apply Ok_inj in H as <-; apply gate_plain; str_mem].
      destruct (truthy (vor (sgetv st "evidence" _) _)); cbn [negb] in H;
        [|apply Ok_inj in H as <-; apply gate_plain; str_mem].
      inv_ok H. cbn [andb] in H. apply Ok_inj in H as <-. apply gateway_gate_result. }
  destruct (truthy (sgetv st "generated_answer" _)) eqn:Egen; cbn [negb] in H.
  2:{ apply Ok_inj in H as <-. split; [constructor|]. split; [done|]. intros _ action Hin Hact. refuses Hact. }
  destruct (negb (truthy (vor (sgetv st "evidence" _) _))) eqn:Eev.
  { apply Ok_inj in H as <-. split; [constructor|]. split; [done|]. intros _ action Hin Hact. refuses Hact. }
  inv_ok H. destruct (truthy (sgetv st "answer_ast" VNone)) eqn:Ea; cbn [negb andb] in H.
  2:{ inv_ok H. rewrite as_int_sgetv in Ha3. rewrite Z.geb_leb in H.
      destruct (Z.leb_spec MAX_REGENERATES a2); apply Ok_inj in H as <-.
      - split; [constructor|]. split; [done|]. intros _ action Hin Hact. refuses Hact.
      - split; [by eapply gate_regenerate|]. split; [done|]. intros _ action Hin Hact. refuses Hact. }
  destruct (enforced_branch bind st ms) as [r|] eqn:Eb; [apply enforced_branch_inv in Eb; destruct r|];
    apply Ok_inj in H as <-.
  - destruct Eb as [Eb _]. by rewrite Eb in Eev.
  - split; [apply gateway_gate_result|]. split; [done|]. intros _ action _ _. apply negb_false_iff in Eev.
    split_and!; try done. eexists. split; [|done]. unfold gate_context. rewrite Ha1. cbn [rbind]. by rewrite Ha2.
  - split; [constructor|]. split; [done|]. intros _ action Hin Hact. refuses Hact.
Qed.

(** The accounting of regenerations: one is only ordered below the limit and is
    counted, any other action leaves the counter alone. *)
Lemma gate_result_step st mode ms u :
  gate_result st mode ms u ->
  exists action, dlookup "hallucination_action" u = Some (VStr action) /\
    dlookup "enforcement_mode" u = Some (VStr (EnforcementMode_value mode)) /\
    ((action = "regenerate" /\ exists n, sget as_int st "regenerate_count" 0%Z = Ok n /\
        (n < MAX_REGENERATES)%Z /\ dlookup "regenerate_count" u = Some (VInt (n + 1))) \/
     (action ∈ ["pass"; "filter"; "exhausted"; "reject"] /\ dlookup "regenerate_count" u = None)).
Proof.
  intros [n score Hn Hlt|reason|score action Ha].
  - exists "regenerate". split; [done|]. split; [done|]. left. eauto.
  - exists "reject". split; [done|]. split; [done|]. right. split; [str_mem|done].
  - exists action. split; [done|]. split; [done|]. by right.
Qed.

Lemma EnforcementMode_value_inj a b : EnforcementMode_value a = EnforcementMode_value b -> a = b.
Proof. by destruct a, b. Qed.

Lemma Some_VStr_inj a b : Some (VStr a) = Some (VStr b) -> a = b.
Proof. by intros [= ->]. Qed.

Lemma gateway_pass config verify st ms generated context n action :
  let u := gateway_branch config verify st ENFORCED ms generated context n in
  dlookup "hallucination_action" u = Some (VStr action) -> action ∈ ["pass"; "filter"] ->
  (is_feature_enabled config "hallucination" = false /\ u = base_return ENFORCED ms 1 "pass" []) \/
  (is_feature_enabled config "hallucination" = true /\
   exists score k, gateway_score verify st generated context = Ok score /\ as_int n = Ok k /\
     (HALLUCINATION_FILTER_THRESHOLD <= score)%Q /\ action = dispose score k /\
     dlookup "hallucination_score" u = Some (VFloat score)).
Proof.
  unfold gateway_branch. destruct (is_feature_enabled config "hallucination"); cbn [negb]; [|by left].
  intros Ha Hin. right. split; [done|]. destruct (gateway_score _ _ _ _) as [score|]; cbn [rbind] in Ha |- *.
  2:{ rewrite bool_decide_eq_true_2 in Ha by done. refuses Ha. }
  destruct (as_int n) as [k|]; cbn [rbind] in Ha |- *.
  2:{ rewrite bool_decide_eq_true_2 in Ha by done. refuses Ha. }
  exists score, k. split; [done|]. split; [done|].
  assert (dlookup "hallucination_action" (scored_return ENFORCED ms score k) = Some (VStr (dispose score k)) /\
          dlookup "hallucination_score" (scored_return ENFORCED ms score k) = Some (VFloat score)) as [Hd Hs].
  { unfold scored_return. cbn zeta. by destruct (String.eqb _ _). }
  rewrite Hd in Ha. apply Some_VStr_inj in Ha. split; [|by rewrite Ha].
  destruct (dispose_cases score k) as [[Hx _]|[[_ ?]|Hx]]; [|done|]; rewrite Ha in Hx; exfalso; clear -Hin Hx.
  - rewrite Hx in Hin. str_mem.
  - rewrite !elem_of_cons in Hx. destruct Hx as [Hx|[Hx|Hx]]; [..|by apply not_elem_of_nil in Hx];
      rewrite Hx in Hin; str_mem.
Qed.

Lemma fint_mono a b : (a <= b)%Z -> (fint a <= fint b)%Q.
Proof. intros. apply rnd_mono. by rewrite <- Zle_Qle. Qed.

Lemma fint_pos a : (0 < a)%Z -> (0 < fint a)%Q.
Proof.
  intros H. apply Qlt_le_trans with 1%Q; [done|]. rewrite <- rnd_1.
  apply (fint_mono 1 a). lia.
Qed.

Lemma char_set_nonempty s : truthy s = true -> char_set s <> [].
Proof.
  intros H%chars_nonempty Hn. destruct (chars s) as [|c l] eqn:E; [done|].
  assert (c ∈ char_set s) as Hc by (unfold char_set; rewrite elem_of_remove_dups, E; by left).
  rewrite Hn in Hc. by apply not_elem_of_nil in Hc.
Qed.

(** ** Properties *)

(** [C2] Fail-closed: in enforced mode an answer gets through only when the
    answer is not empty, there is evidence, the answer has a parsed AST and no
    claim at all to verify, and either the feature is switched off, or the
    gateway, asked with this answer and the contents of this evidence, scored
    it at the filter threshold, the action is the one of that score, and the
    score is the one reported.  In particular an enforced answer with claims
    never gets through. *)
Theorem enforced_fail_closed config verify bind ms st u action :
  hallucination_node config verify bind ms st = Ok u ->
  dlookup "enforcement_mode" u = Some (VStr "enforced") ->
  dlookup "hallucination_action" u = Some (VStr action) -> action ∈ ["pass"; "filter"] ->
  truthy (sgetv st "generated_answer" (VStr "")) = true /\
  truthy (vor (sgetv st "evidence" (VList [])) (VList [])) = true /\
  truthy (sgetv st "answer_ast" VNone) = true /\
  truthy (vor (sgetv st "claims" (VList [])) (VList [])) = false /\
  ((is_feature_enabled config "hallucination" = false /\ action = "pass") \/
   (is_feature_enabled config "hallucination" = true /\
    exists context score n, gate_context st = Ok context /\
     gateway_score verify st (sgetv st "generated_answer" (VStr "")) context = Ok score /\
     (HALLUCINATION_FILTER_THRESHOLD <= score)%Q /\
     as_int (sgetv st "regenerate_count" (VInt 0)) = Ok n /\ action = dispose score n /\
     dlookup "hallucination_score" u = Some (VFloat score))).
Proof.
  intros (mode & Hg & _ & Hpass)%hallucination_inv Hm Ha Hin.
  destruct (gate_result_step _ _ _ _ Hg) as (action' & Ha' & Hm' & _).
  rewrite Hm in Hm'. injection Hm' as Hm'. apply (EnforcementMode_value_inj ENFORCED) in Hm' as <-.
  destruct (Hpass eq_refl action Hin Ha) as (? & ? & ? & ? & context & Hc & ->).
  split_and!; try done.
  destruct (gateway_pass _ _ _ _ _ _ _ _ Ha Hin) as [[? Hu]|(? & q & k & ? & ? & ? & ? & ?)].
  - left. split; [done|]. rewrite Hu in Ha. cbn in Ha. by injection Ha as <-.
  - right. split; [done|]. by exists context, q, k.
Qed.

(** The claim-level verification of an enforced answer never decides: the calls
    it makes do not exist on the objects, so whatever the binder finds the
    answer is refused as a failure of the verification service. *)
Theorem enforced_claims_refused bind ms st :
  truthy (vor (sgetv st "evidence" (VList [])) (VList [])) = true ->
  truthy (vor (sgetv st "claims" (VList [])) (VList [])) = true ->
  exists e, enforced_branch bind st ms = Raise e.
Proof.
  intros He Hc. destruct (enforced_branch bind st ms) as [r|e] eqn:E; [|by exists e].
  apply enforced_branch_inv in E. destruct r; [destruct E|]; congruence.
Qed.

(** The local score is a share: between 0 and 1 for every answer and context. *)
Theorem verify_faithfulness_bounds answer context :
  (0 <= verify_faithfulness answer context <= 1)%Q.
Proof.
  unfold verify_faithfulness. destruct (negb (truthy answer) || _) eqn:E; [by split; vm_compute|].
  apply orb_false_iff in E as [Ha _]. apply negb_false_iff in Ha.
  set (ac := char_set answer). pose proof (char_set_nonempty _ Ha) as Hne. fold ac in Hne.
  set (overlap := List.filter _ ac). set (penalty := if _ && _ then _ else _).
  assert (0 <= penalty)%Q as Hp.
  { unfold penalty. destruct (_ && _); [|done]. by apply rnd_nonneg. }
  assert (0 <= fmul match ac with [] => 0 | _ => fdiv (fint (Z.of_nat (length overlap))) (fint (Z.of_nat (length ac))) end penalty)%Q.
  { apply fmul_nonneg; [|done]. destruct ac eqn:Eac; [done|]. rewrite <- Eac.
    assert (length overlap <= length ac)%nat as Hl by (unfold overlap; rewrite Eac; apply List.filter_length_le).
    apply fdiv_unit.
    - change 0%Q with (fint 0). apply fint_mono. lia.
    - apply fint_mono. lia.
    - apply fint_pos. rewrite Eac. simpl. lia. }
  destruct (flt _ 1) eqn:El; [|split; by vm_compute]. fcompare. split; [done|]. by apply Qlt_le_weak.
Qed.

(** ** Instances *)

Definition enforced_answer : pystate :=
  <["enforcement_mode" := VStr "enforced"]> (<["generated_answer" := VStr "text"]>
    (<["answer_ast" := VDict [("root", VNone)]]> {["evidence" := VList [VDict [("content", VStr "fact")]]]})).
Definition good_gateway (_ : pyval) (_ : string) (_ _ : pyval) : result pyval :=
  Ok (VDict [("faithfulness_score", VFloat (9 # 10))]).

Lemma enforced_fail_closed_witness :
  truthy (vor (sgetv enforced_answer "claims" (VList [])) (VList [])) = false.
Proof.
  refine (proj1 (proj2 (proj2 (proj2 (enforced_fail_closed [("hallucination", VDict [("enabled", VBool true)])] good_gateway
    (fun _ _ _ => Ok []) 0 enforced_answer
    (scored_return ENFORCED 0 (9 # 10) 0) "pass" eq_refl eq_refl eq_refl _))))).
  set_solver.
Defined.

Lemma enforced_claims_refused_witness :
  exists e, enforced_branch (fun _ _ _ => Ok []) (<["claims" := VList [VDict (Claim_to_dict (new_Claim "c1" "t"))]]> enforced_answer) 0
            = Raise e.
Proof.
  exact (enforced_claims_refused (fun _ _ _ => Ok []) 0
           (<["claims" := VList [VDict (Claim_to_dict (new_Claim "c1" "t"))]]> enforced_answer) eq_refl eq_refl).
Defined.
