(* ===== verification/AnswerAst.v ===== *)
(** * The structured answer (evidence/answer_ast.py, nodes/answer_renderer.py)

    The answer tree and its Markdown rendering, the renderer node that copies the
    verified statuses into the tree before rendering it, and the filter of the
    token stream. *)

From stdpp Require Import pretty.
From S2P Require Import Prelude PyFloat PyVal PyList PyText Claim PolicyEngine AgentState Config.

(** ** The tree *)

Record ClaimNode : Type := mkClaimNode {
  cn_schema_version : string; cn_claim_id : string; cn_text : string;
  cn_citation_indices : list Z; cn_model_claim_type : string; cn_model_is_required : bool;
  cn_final_status : string; cn_server_claim_type : string; cn_server_is_required : bool }.

Record TableRowClaimNode : Type := mkRowNode {
  rn_claim_id : string; rn_row_index : Z; rn_row_values : list (string * string);
  rn_citation_indices : list Z; rn_final_status : string }.

(** The children of a paragraph: claims, or narrative text. *)
Inductive ParagraphChild : Type :=
  | PClaim (c : ClaimNode)
  | PNarrative (text : string).

(** The content of a section: paragraphs, tables, sections. *)
Inductive SectionContent : Type :=
  | CParagraph (children : list ParagraphChild)
  | CTable (headers : list string) (row_claims : list TableRowClaimNode)
  | CSection (title : string) (level : Z) (content : list SectionContent).

Record AnswerAST : Type := mkAST {
  ast_schema_version : string;
  ast_title : string; ast_level : Z; ast_content : list SectionContent }.

Definition ast_root (a : AnswerAST) : SectionContent :=
  CSection (ast_title a) (ast_level a) (ast_content a).

(** ** Rendering *)

Definition nl : string := String (Ascii.ascii_of_nat 10) "".
Definition cat (l : list string) : string := join "" l.

Definition STATUS_SUPPORTED : string := "supported".
Definition claim_supported (c : ClaimNode) : bool := String.eqb (cn_final_status c) STATUS_SUPPORTED.
Definition row_supported (r : TableRowClaimNode) : bool := String.eqb (rn_final_status r) STATUS_SUPPORTED.

Definition citation_str (indices : list Z) : string :=
  cat (map (fun i => cat ["["; pretty i; "]"]) indices).

Definition render_child (c : ParagraphChild) : list string :=
  match c with
  | PClaim cn =>
    if claim_supported cn then
      let cs := citation_str (cn_citation_indices cn) in
      [if truthy cs then cat [cn_text cn; cs] else cn_text cn]
    else []
  | PNarrative t => [t]
  end.

Definition render_paragraph (children : list ParagraphChild) : string :=
  join " " (concat (map render_child children)).

Definition render_row (headers : list string) (r : TableRowClaimNode) : string :=
  let row_str := join " | " (map (fun h => get_or (dlookup h (rn_row_values r)) "") headers) in
  let cs := citation_str (rn_citation_indices r) in
  if truthy cs then cat ["| "; row_str; " |"; cs] else cat ["| "; row_str; " |"].

Definition render_table (headers : list string) (rows : list TableRowClaimNode) : string :=
  match List.filter row_supported rows with
  | [] => ""
  | visible =>
    join nl ([cat ["| "; join " | " headers; " |"];
              cat ["| "; join " | " (map (fun _ => "---") headers); " |"]]
             ++ map (render_row headers) visible)
  end.

Fixpoint repeat_str (n : nat) (s : string) : string :=
  match n with O => "" | S k => String.append s (repeat_str k s) end.

Definition render_title (title : string) (level : Z) : list string :=
  if truthy title then [cat [repeat_str (Z.to_nat (Z.max level 1)) "#"; " "; title]] else [].

(** [_render_section], together with the dispatch on the content nodes. *)
Fixpoint render_content (n : SectionContent) : string :=
  match n with
  | CParagraph children => render_paragraph children
  | CTable headers rows => render_table headers rows
  | CSection title level content =>
    join (String.append nl nl)
      (List.filter truthy (render_title title level ++ map render_content content))
  end.

Definition render (a : AnswerAST) : string := strip (render_content (ast_root a)).

(** ** The tree as a dictionary ([to_dict]) *)

Definition claim_node_dict (c : ClaimNode) : pydict :=
  [("node_type", VStr "claim"); ("schema_version", VStr (cn_schema_version c));
   ("claim_id", VStr (cn_claim_id c)); ("text", VStr (cn_text c));
   ("citation_indices", VInts (cn_citation_indices c));
   ("model_claim_type", VStr (cn_model_claim_type c));
   ("model_is_required", VBool (cn_model_is_required c));
   ("final_status", VStr (cn_final_status c));
   ("server_claim_type", VStr (cn_server_claim_type c));
   ("server_is_required", VBool (cn_server_is_required c))].

Definition row_node_dict (r : TableRowClaimNode) : pydict :=
  [("node_type", VStr "table_row_claim"); ("claim_id", VStr (rn_claim_id r));
   ("row_index", VInt (rn_row_index r));
   ("row_values", VDict (map (fun kv => (kv.1, VStr kv.2)) (rn_row_values r)));
   ("citation_indices", VInts (rn_citation_indices r));
   ("final_status", VStr (rn_final_status r))].

Definition child_dict (c : ParagraphChild) : pyval :=
  match c with
  | PClaim cn => VDict (claim_node_dict cn)
  | PNarrative t => VDict [("node_type", VStr "narrative"); ("text", VStr t)]
  end.

Fixpoint content_dict (n : SectionContent) : pyval :=
  match n with
  | CParagraph children =>
    VDict [("node_type", VStr "paragraph"); ("children", VList (map child_dict children))]
  | CTable headers rows =>
    VDict [("node_type", VStr "table"); ("headers", VStrs headers);
           ("row_claims", VList (map (fun r => VDict (row_node_dict r)) rows))]
  | CSection title level content =>
    VDict [("node_type", VStr "section"); ("title", VStr title); ("level", VInt level);
           ("content", VList (map content_dict content))]
  end.

Definition ast_to_dict (a : AnswerAST) : pydict :=
  [("schema_version", VStr (ast_schema_version a)); ("root", content_dict (ast_root a))].

(** ** Synchronising the verified statuses *)

(** [_build_claim_status_map]: the last claim of an id wins; an entry that is
    not a claim dictionary contributes its raw fields. *)
Definition add_claim_status (m : list (string * pyval)) (raw : pyval) : list (string * pyval) :=
  match raw with
  | VDict d =>
    match Claim_from_dict d with
    | Ok c => dset (c_claim_id c) (VStr (c_final_status c)) m
    | Raise _ =>
      match get_or (dlookup "claim_id" d) (VStr "") with
      | VStr cid => if truthy cid
                    then dset cid (get_or (dlookup "final_status" d) (VStr (ClaimFinalStatus_value FS_PENDING))) m
                    else m
      | _ => m
      end
    end
  | _ => m
  end.

Definition build_claim_status_map (claims_raw : list pyval) : list (string * pyval) :=
  fold_left add_claim_status claims_raw [].

(** The status a node dictionary gets: its own, unless it is a claim in the map. *)
Definition sync_status (m : list (string * pyval)) (d : pydict) : pydict :=
  if is_one_of (get_or (dlookup "node_type" d) (VStr "")) ["claim"; "table_row_claim"] then
    match get_or (dlookup "claim_id" d) (VStr "") with
    | VStr cid => match dlookup cid m with Some st => dset "final_status" st d | None => d end
    | _ => d
    end
  else d.

Definition child_keys : list string := ["content"; "children"; "row_claims"].

(** Looping over a value that is not a list: texts and dictionaries hold no
    nodes, [node.get(key) or []] replaces the falsy values, the rest is a
    TypeError. *)
Definition no_children (v : pyval) : result pyval :=
  match v with
  | VStr _ | VDict _ => Ok v
  | _ => if truthy v then Raise (TypeError "not iterable") else Ok v
  end.

(** [_sync_claim_statuses] on the deep copy of the tree. *)
Fixpoint sync_claim_statuses (m : list (string * pyval)) (node : pyval) {struct node} : result pyval :=
  match node with
  | VDict d =>
    let! d' := (fix entries (l : pydict) : result pydict :=
      match l with
      | [] => Ok []
      | (k, v) :: l' =>
        let! v' :=
          if str_in k child_keys then
            match v with
            | VList cs =>
              let! cs' := (fix children (cs : list pyval) : result (list pyval) :=
                match cs with
                | [] => Ok []
                | c :: cs' => let! x := sync_claim_statuses m c in
                              let! xs := children cs' in Ok (x :: xs)
                end) cs in
              Ok (VList cs')
            | _ => no_children v
            end
          else Ok v in
        let! r := entries l' in Ok ((k, v') :: r)
      end) d in
    Ok (VDict (sync_status m d'))
  | _ => Ok node
  end.

(** ** The renderer node *)

Section renderer_node.
(** [AnswerAST.from_dict], the validation of the schema by pydantic. *)
Variable from_dict : pydict -> result AnswerAST.

Definition renderer_return (ms : Z) (text : pyval) : pydict :=
  [("final_answer", text); timing "answer_renderer" ms].

Definition answer_renderer_node (ms : Z) (st : pystate) : result pydict :=
  let answer_ast := vor (sgetv st "answer_ast" VNone) (VDict []) in
  let claims_raw := vor (sgetv st "claims" VNone) (VList []) in
  let generated := vor (sgetv st "generated_answer" (VStr "")) (VStr "") in
  let root := match answer_ast with VDict d => get_or (dlookup "root" d) VNone | _ => VNone end in
  if negb (truthy root) then Ok (renderer_return ms generated)
  else
    let! raws := match claims_raw with
                 | VList l => Ok l
                 | VStr _ | VDict _ => Ok []
                 | _ => Raise (TypeError "not iterable")
                 end in
    let status_map := build_claim_status_map raws in
    let! root' := sync_claim_statuses status_map root in
    let dict := match answer_ast with VDict d => dset "root" root' d | _ => [] end in
    match from_dict dict with
    | Raise _ => Ok (renderer_return ms generated)
    | Ok ast => Ok (renderer_return ms (VStr (render ast)))
    end.
End renderer_node.

(** ** The stream filter *)

Record SSEStreamFilter : Type := mkFilter {
  sf_enforcement : EnforcementMode; sf_claim_buffer : list string }.

Definition new_filter (e : EnforcementMode) : SSEStreamFilter := mkFilter e [].

(** [on_chunk]: the new filter and the text to send, if any. *)
Definition on_chunk (f : SSEStreamFilter) (chunk_type text : string) : SSEStreamFilter * option string :=
  if bool_decide (sf_enforcement f = DISABLED) then (f, Some text)
  else if String.eqb chunk_type "narrative" then (f, Some text)
  else if String.eqb chunk_type "claim" then
    (mkFilter (sf_enforcement f) (sf_claim_buffer f ++ [text]), None)
  else if String.eqb chunk_type "citation" then (f, None)
  else (f, None).

Definition verified_text (claim : pyval) : list pyval :=
  match claim with
  | VDict d =>
    if is_str (get_or (dlookup "final_status" d) VNone) (ClaimFinalStatus_value FS_SUPPORTED) then
      let text := get_or (dlookup "text" d) (VStr "") in if truthy text then [text] else []
    else []
  | _ => []
  end.

Definition on_verification_complete (f : SSEStreamFilter) (verified : list pyval) : list pyval :=
  if bool_decide (sf_enforcement f = DISABLED) then map VStr (sf_claim_buffer f)
  else concat (map verified_text verified).

(** A whole stream: the texts sent, in order. *)
Fixpoint stream (f : SSEStreamFilter) (chunks : list (string * string)) : SSEStreamFilter * list string :=
  match chunks with
  | [] => (f, [])
  | (ty, text) :: rest =>
    let (f', out) := on_chunk f ty text in
    let (f'', outs) := stream f' rest in
    (f'', match out with Some t => t :: outs | None => outs end)
  end.

(** ** The typed reading of the synchronisation *)

Section typed_sync.
Variable m : list (string * pyval).

Definition synced_status (cid status : string) : string :=
  match dlookup cid m with Some (VStr s) => s | _ => status end.

Definition sync_claim_node (c : ClaimNode) : ClaimNode :=
  mkClaimNode (cn_schema_version c) (cn_claim_id c) (cn_text c) (cn_citation_indices c)
    (cn_model_claim_type c) (cn_model_is_required c) (synced_status (cn_claim_id c) (cn_final_status c))
    (cn_server_claim_type c) (cn_server_is_required c).

Definition sync_row (r : TableRowClaimNode) : TableRowClaimNode :=
  mkRowNode (rn_claim_id r) (rn_row_index r) (rn_row_values r) (rn_citation_indices r)
    (synced_status (rn_claim_id r) (rn_final_status r)).

Definition sync_child (c : ParagraphChild) : ParagraphChild :=
  match c with PClaim cn => PClaim (sync_claim_node cn) | PNarrative t => PNarrative t end.

Fixpoint sync_content (n : SectionContent) : SectionContent :=
  match n with
  | CParagraph children => CParagraph (map sync_child children)
  | CTable headers rows => CTable headers (map sync_row rows)
  | CSection title level content => CSection title level (map sync_content content)
  end.

Definition sync_ast (a : AnswerAST) : AnswerAST :=
  mkAST (ast_schema_version a) (ast_title a) (ast_level a) (map sync_content (ast_content a)).
End typed_sync.

(** The tree without the claims and rows that are not supported. *)
Definition child_visible (c : ParagraphChild) : bool :=
  match c with PClaim cn => claim_supported cn | PNarrative _ => true end.

Fixpoint erase_content (n : SectionContent) : SectionContent :=
  match n with
  | CParagraph children => CParagraph (List.filter child_visible children)
  | CTable headers rows => CTable headers (List.filter row_supported rows)
  | CSection title level content => CSection title level (map erase_content content)
  end.

Definition erase (a : AnswerAST) : AnswerAST :=
  mkAST (ast_schema_version a) (ast_title a) (ast_level a) (map erase_content (ast_content a)).

(** ** Lemmas *)

(** Induction on the tree, through the lists of contents. *)
Fixpoint SectionContent_nested (P : SectionContent -> Prop)
    (Hp : forall cs, P (CParagraph cs)) (Ht : forall h rows, P (CTable h rows))
    (Hs : forall t l cs, Forall P cs -> P (CSection t l cs)) (n : SectionContent) : P n :=
  match n with
  | CParagraph cs => Hp cs
  | CTable h rows => Ht h rows
  | CSection t l cs =>
    Hs t l cs ((fix go (cs : list SectionContent) : Forall P cs := match cs with
                             | [] => Forall_nil_2 P
                             | c :: cs' => Forall_cons_2 P c cs' (SectionContent_nested P Hp Ht Hs c) (go cs')
                             end) cs)
  end.

Definition statuses_typed (m : list (string * pyval)) : Prop :=
  forall k v, dlookup k m = Some v -> exists s, v = VStr s.

Lemma sync_child_dict m c :
  statuses_typed m -> sync_claim_statuses m (child_dict c) = Ok (child_dict (sync_child m c)).
Proof.
  intros Hm. destruct c as [cn|t]; [|done].
  cbn. unfold sync_status, claim_node_dict, sync_claim_node, synced_status. cbn.
  destruct (dlookup (cn_claim_id cn) m) as [v|] eqn:E; [|done]. by destruct (Hm _ _ E) as [s ->].
Qed.

Lemma sync_row_dict m r :
  statuses_typed m ->
  sync_claim_statuses m (VDict (row_node_dict r)) = Ok (VDict (row_node_dict (sync_row m r))).
Proof.
  intros Hm. cbn. unfold sync_status, row_node_dict, sync_row, synced_status. cbn.
  destruct (dlookup (rn_claim_id r) m) as [v|] eqn:E; [|done]. by destruct (Hm _ _ E) as [s ->].
Qed.

(** The dictionary-level walk implements the typed one. *)
Lemma sync_content_dict m n :
  statuses_typed m -> sync_claim_statuses m (content_dict n) = Ok (content_dict (sync_content m n)).
Proof.
  intros Hm.
  assert (forall (A : Type) (f : A -> pyval) (g : A -> A) (l : list A),
    Forall (fun x => sync_claim_statuses m (f x) = Ok (f (g x))) l ->
    (fix children (cs : list pyval) : result (list pyval) :=
       match cs with
       | [] => Ok []
       | c :: cs' => let! x := sync_claim_statuses m c in let! xs := children cs' in Ok (x :: xs)
       end) (map f l) = Ok (map f (map g l))) as Hch.
  { intros A f g l Hl. induction Hl as [|x l Hx Hl IH]; cbn [map]; [done|]. by rewrite Hx, IH. }
  induction n as [cs|h rows|t l cs IH] using SectionContent_nested; cbn [content_dict sync_claim_statuses sync_content].
  - rewrite (Hch _ child_dict (sync_child m)); [done|]. apply Forall_true. intros c. by apply sync_child_dict.
  - rewrite (Hch _ (fun r => VDict (row_node_dict r)) (sync_row m)); [done|].
    apply Forall_true. intros r. by apply sync_row_dict.
  - rewrite (Hch _ content_dict (sync_content m)); done.
Qed.

Lemma list_filter_idem {A} (f : A -> bool) l : List.filter f (List.filter f l) = List.filter f l.
Proof. induction l as [|x l IH]; simpl; [done|]. destruct (f x) eqn:E; simpl; [by rewrite E, IH|done]. Qed.

(** What is not supported leaves no trace in the text. *)
Lemma render_erase_content n : render_content (erase_content n) = render_content n.
Proof.
  induction n as [cs|h rows|t l cs IH] using SectionContent_nested; cbn [erase_content render_content].
  - unfold render_paragraph. f_equal. induction cs as [|c cs IH]; simpl; [done|].
    destruct (child_visible c) eqn:E; simpl; rewrite IH; [done|].
    destruct c; [|done]. simpl in *. by rewrite E.
  - unfold render_table. by rewrite list_filter_idem.
  - do 3 f_equal. rewrite map_map. clear -IH. induction IH as [|c cs Hc _ IH]; simpl; [done|]. by rewrite Hc, IH.
Qed.

Lemma build_map_fold cs m k :
  dlookup k (fold_left add_claim_status (map (fun c => VDict (Claim_to_dict c)) cs) m) =
  match List.find (fun c => String.eqb k (c_claim_id c)) (rev cs) with
  | Some c => Some (VStr (c_final_status c))
  | None => dlookup k m
  end.
Proof.
  revert m. induction cs as [|c cs IH]; intros m; simpl; [done|].
  rewrite IH. unfold add_claim_status. rewrite Claim_from_to_dict, dlookup_dset.
  assert (forall (f : Claim -> bool) l, List.find f (l ++ [c]) =
    match List.find f l with Some x => Some x | None => if f c then Some c else None end) as ->.
  { intros f l. induction l as [|x l IHl]; simpl; [done|]. by destruct (f x). }
  destruct (List.find _ (rev cs)); [done|]. by destruct (String.eqb k (c_claim_id c)).
Qed.

(** The authoritative status of an id: that of the last claim with the id. *)
Definition claim_statuses (cs : list Claim) : list (string * pyval) :=
  build_claim_status_map (map (fun c => VDict (Claim_to_dict c)) cs).

Lemma claim_statuses_typed cs : statuses_typed (claim_statuses cs).
Proof.
  intros k v. unfold claim_statuses, build_claim_status_map. rewrite build_map_fold.
  destruct (List.find _ _); [intros [= <-]; by eexists|done].
Qed.

Lemma stream_buffer e chunks buf :
  e <> DISABLED ->
  stream (mkFilter e buf) chunks =
  (mkFilter e (buf ++ map snd (List.filter (fun c => String.eqb c.1 "claim") chunks)),
   map snd (List.filter (fun c => String.eqb c.1 "narrative") chunks)).
Proof.
  intros He. revert buf. induction chunks as [|[ty text] chunks IH]; intros buf; cbn [stream].
  - by rewrite app_nil_r.
  - unfold on_chunk. cbn [sf_enforcement sf_claim_buffer]. rewrite bool_decide_eq_false_2 by done.
    cbn [List.filter fst]. destruct (String.eqb_spec ty "narrative") as [->|Hn].
    { rewrite IH. done. }
    destruct (String.eqb_spec ty "claim") as [->|Hc].
    { rewrite IH. cbn [map snd]. by rewrite <- app_assoc. }
    destruct (String.eqb ty "citation"); by rewrite IH.
Qed.

Lemma verified_text_elem v t : t ∈ verified_text v ->
  exists d, v = VDict d /\ dlookup "final_status" d = Some (VStr "supported") /\
    dlookup "text" d = Some t.
Proof.
  destruct v as [| | | | | |d]; cbn [verified_text]; try by intros ?%not_elem_of_nil.
  destruct (is_str _ _) eqn:E; [|by intros ?%not_elem_of_nil]. apply is_str_spec in E.
  destruct (dlookup "text" d) as [x|] eqn:Ex; cbn [get_or].
  2:{ cbn. by intros ?%not_elem_of_nil. }
  destruct (truthy x); [|by intros ?%not_elem_of_nil]. intros ->%list_elem_of_singleton.
  exists d. split; [done|]. split; [|done].
  destruct (dlookup "final_status" d) as [y|]; cbn in E; [by rewrite E|done].
Qed.

(** ** Properties *)

(** [C24] The renderer node on a stored tree and stored claims: the text is the
    rendering of the tree in which every claim listed in the state has its
    verified status, and it is the same as if the claims and rows that are not
    supported did not exist. *)
Theorem answer_renderer_correct from_dict ms st ast cs :
  st !! "answer_ast" = Some (VDict (ast_to_dict ast)) ->
  st !! "claims" = Some (VList (map (fun c => VDict (Claim_to_dict c)) cs)) ->
  from_dict (ast_to_dict (sync_ast (claim_statuses cs) ast)) = Ok (sync_ast (claim_statuses cs) ast) ->
  answer_renderer_node from_dict ms st =
    Ok (renderer_return ms (VStr (render (sync_ast (claim_statuses cs) ast)))) /\
  render (sync_ast (claim_statuses cs) ast) = render (erase (sync_ast (claim_statuses cs) ast)).
Proof.
  intros Ha Hc Hv. split.
  - unfold answer_renderer_node, sgetv. rewrite Ha, Hc. cbn [get_or].
    change (vor (VDict (ast_to_dict ast)) (VDict [])) with (VDict (ast_to_dict ast)).
    set (raws := map (fun c => VDict (Claim_to_dict c)) cs).
    assert (vor (VList raws) (VList []) = VList raws) as -> by (unfold vor; by destruct raws).
    change (get_or (dlookup "root" (ast_to_dict ast)) VNone) with (content_dict (ast_root ast)).
    assert (truthy (content_dict (ast_root ast)) = true) as -> by done. cbn [negb rbind].
    change (build_claim_status_map raws) with (claim_statuses cs).
    rewrite sync_content_dict by apply claim_statuses_typed. cbn [rbind].
    change (dset "root" (content_dict (sync_content (claim_statuses cs) (ast_root ast))) (ast_to_dict ast))
      with (ast_to_dict (sync_ast (claim_statuses cs) ast)).
    by rewrite Hv.
  - generalize (sync_ast (claim_statuses cs) ast) as a. intros a. unfold render. apply (f_equal strip).
    symmetry. apply (render_erase_content (ast_root a)).
Qed.

(** Before verification the stream carries narrative text only; after it, the
    texts of claims marked supported only. *)
Theorem sse_fail_closed e chunks verified :
  e <> DISABLED ->
  let (f, sent) := stream (new_filter e) chunks in
  sent = map snd (List.filter (fun c => String.eqb c.1 "narrative") chunks) /\
  forall t, t ∈ on_verification_complete f verified ->
    exists d, VDict d ∈ verified /\ dlookup "final_status" d = Some (VStr "supported") /\
      dlookup "text" d = Some t.
Proof.
  intros He. unfold new_filter. rewrite stream_buffer by done. split; [done|].
  intros t. unfold on_verification_complete. cbn [sf_enforcement]. rewrite bool_decide_eq_false_2 by done.
  rewrite list_elem_of_In, in_concat. intros (l & Hl & Ht).
  apply in_map_iff in Hl as (v & <- & Hv). apply list_elem_of_In in Ht.
  destruct (verified_text_elem _ _ Ht) as (d & -> & ? & ?). exists d.
  split; [by apply list_elem_of_In|done].
Qed.

(** A claim the verifier never saw keeps the status the model wrote in the tree:
    with no claim list, a tree that says "supported" is rendered as it is. *)
Theorem unlisted_claims_keep_status ast : sync_ast (claim_statuses []) ast = ast.
Proof.
  destruct ast as [v t l cs]. unfold sync_ast. cbn. f_equal.
  assert (forall n, sync_content [] n = n) as H.
  { induction n as [c|h rows|t' l' cs' IH] using SectionContent_nested; cbn; f_equal.
    - rewrite <- (map_id c) at 2. apply map_ext. by intros [[]|].
    - rewrite <- (map_id rows) at 2. apply map_ext. by intros [].
    - induction IH as [|x l0 Hx _ IH]; cbn; [done|]. by rewrite Hx, IH. }
  rewrite <- (map_id cs) at 2. by apply map_ext.
Qed.

(** ** Instances *)

Definition sample_claim_node (id text status : string) : ClaimNode :=
  mkClaimNode "1.0" id text [1%Z] "statement" false status "statement" false.
Definition sample_ast : AnswerAST :=
  mkAST "1.0" "Report" 1 [CParagraph [PNarrative "In short: "; PClaim (sample_claim_node "c1" "sales rose" "pending");
                                      PClaim (sample_claim_node "c2" "costs fell" "pending")]].
Definition settled (id status : string) : Claim :=
  mkClaim id "t" "1.0" (0, 0)%Z [] [] [] [] [] [] [] [] "ok" status "statement" false "statement" false "low".
Definition sample_claims : list Claim := [settled "c1" "supported"; settled "c2" "contradicted"].
Definition rendered_state : pystate :=
  <["answer_ast" := VDict (ast_to_dict sample_ast)]>
    {["claims" := VList (map (fun c => VDict (Claim_to_dict c)) sample_claims)]}.

Lemma answer_renderer_correct_witness :
  answer_renderer_node (fun _ => Ok (sync_ast (claim_statuses sample_claims) sample_ast)) 0 rendered_state =
  Ok (renderer_return 0 (VStr (render (sync_ast (claim_statuses sample_claims) sample_ast)))).
Proof.
  exact (proj1 (answer_renderer_correct (fun _ => Ok (sync_ast (claim_statuses sample_claims) sample_ast)) 0
                  rendered_state sample_ast sample_claims eq_refl eq_refl eq_refl)).
Defined.

Lemma sse_fail_closed_witness :
  (stream (new_filter ENFORCED) [("narrative", "a"); ("claim", "b"); ("narrative", "c")]).2 = ["a"; "c"].
Proof.
  exact (proj1 (sse_fail_closed ENFORCED [("narrative", "a"); ("claim", "b"); ("narrative", "c")] [] ltac:(done))).
Defined.
