(* ===== verification/AnswerParser.v ===== *)
(** * Reading the model's answer (evidence/answer_ast.py, AnswerParser)

    The text of the model, stripped of its code fence, is read as JSON; the
    field names are normalised to those of the schema, missing claim ids are
    numbered, and the schema is validated.  Reading JSON, [int] and [str] of
    the values they take and the validation by pydantic are arguments. *)

From stdpp Require Import pretty.
From S2P Require Import Prelude PyFloat PyVal PyList PyText AnswerAst.
From Stdlib Require Import Ascii.

(** ** Extracting the JSON object *)

(** The line boundaries of [str.splitlines]. *)
Definition CR : string := String (ascii_of_nat 13) "".
Definition LS : string := String (ascii_of_nat 226) (String (ascii_of_nat 128) (String (ascii_of_nat 168) "")).
Definition line_breaks : list string :=
  [nl; CR; String (ascii_of_nat 11) ""; String (ascii_of_nat 12) ""; String (ascii_of_nat 28) ""; String (ascii_of_nat 29) "";
   String (ascii_of_nat 30) ""; String (ascii_of_nat 194) (String (ascii_of_nat 133) ""); LS;
   String (ascii_of_nat 226) (String (ascii_of_nat 128) (String (ascii_of_nat 169) ""))].

Fixpoint lines_of (cs : list string) : list string :=
  match cs with
  | [] => []
  | c :: cs' =>
    if str_in c line_breaks then
      "" :: match cs' with
            | d :: cs'' => if String.eqb c CR && String.eqb d nl then lines_of cs'' else lines_of cs'
            | [] => []
            end
    else match lines_of cs' with
         | [] => [c]
         | l :: ls => String.append c l :: ls
         end
  end.

Definition splitlines (s : string) : list string := lines_of (chars s).

Definition FENCE : string := "```".

(** The last line goes when it closes the fence. *)
Definition drop_closing (lines : list string) : list string :=
  match rev lines with
  | last :: before => if startswith FENCE (strip last) then rev before else lines
  | [] => []
  end.

Definition candidate_of (stripped : string) : string :=
  if startswith FENCE stripped then join nl (drop_closing (tail (splitlines stripped))) else stripped.

(** [s[s.find("{"):]] and the text up to the last brace. *)
Fixpoint from_brace (s : string) : option string :=
  match s with
  | EmptyString => None
  | String a s' => if Ascii.eqb a "{"%char then Some s else from_brace s'
  end.

Fixpoint upto_last_brace (s : string) : option string :=
  match s with
  | EmptyString => None
  | String a s' =>
    match upto_last_brace s' with
    | Some t => Some (String a t)
    | None => if Ascii.eqb a "}"%char then Some (String a EmptyString) else None
    end
  end.

Definition braced (s : string) : option string :=
  match from_brace s with Some t => upto_last_brace t | None => None end.

Create HintDb parser.

Section parser.
Context (json_loads : string -> option pyval) (float_repr : Q -> string) (int_of_text : string -> option Z)
  (validate : pydict -> result AnswerAST).

(** [json.loads] gave a dictionary. *)
Definition loads_dict (s : string) : option pydict :=
  match json_loads s with Some (VDict d) => Some d | _ => None end.

Definition extract_json (text : string) : result pydict :=
  let candidate := candidate_of (strip text) in
  match loads_dict candidate with
  | Some d => Ok d
  | None =>
    match match braced candidate with Some s => loads_dict s | None => None end with
    | Some d => Ok d
    | None => Raise (ValueError "json")
    end
  end.

(** ** Normalising the nodes *)

Definition field (k : string) (node : pydict) : pyval := get_or (dlookup k node) VNone.
Definition has (k : string) (node : pydict) : bool := str_in k (map fst node).

(** [str(node.get(k) or default)] *)
Definition text_or (k default : string) (node : pydict) : pyval :=
  VStr (py_str float_repr (field k node or_else VStr default)).

Definition declared_type (node : pydict) : string :=
  strip (py_lower (py_str float_repr ((field "type" node or_else field "node_type" node) or_else VStr ""))).

Definition guessed_type (node : pydict) : string :=
  if has "paragraphs" node || has "children" node then "paragraph"
  else if has "row_claims" node then "table"
  else if has "row_index" node then "table_row_claim"
  else if has "content" node || has "title" node then "section"
  else if has "claim_id" node || has "citation_indices" node then "claim"
  else "narrative".

Definition node_type_of (node : pydict) : string :=
  let ntype := declared_type node in if truthy ntype then ntype else guessed_type node.

(** [f"claim_{seq:03d}"] *)
Definition zero_pad (n : nat) (s : string) : string := String.append (repeat_str (n - String.length s) "0") s.
Definition claim_id_of (seq : Z) : string := String.append "claim_" (zero_pad 3 (pretty seq)).

(** The id of a node, or the next generated one. *)
Definition take_claim_id (seq : Z) (node : pydict) : pyval * Z :=
  let given := field "claim_id" node in
  if truthy given then (given, seq) else (VStr (claim_id_of (seq + 1)), (seq + 1)%Z).

(** [int(v) if v is not None else default] *)
Definition int_or (default : Z) (v : pyval) : result Z :=
  match v with VNone => Ok default | _ => to_int int_of_text v end.

(** The dictionaries among the items, normalised in order. *)
Fixpoint normalize_items (f : Z -> pydict -> result (pyval * Z)) (seq : Z) (items : list pyval) : result (list pyval * Z) :=
  match items with
  | [] => Ok ([], seq)
  | VDict d :: items' =>
    let! (n, seq') := f seq d in
    let! (ns, seq'') := normalize_items f seq' items' in
    Ok (n :: ns, seq'')
  | _ :: items' => normalize_items f seq items'
  end.

Definition iter_or_empty (v : pyval) : result (list pyval) := py_iter (v or_else VList []).

Definition normalize_claim (seq : Z) (node : pydict) : result (pyval * Z) :=
  let (claim_id, seq') := take_claim_id seq node in
  let! citations := iter_or_empty (field "citation_indices" node) in
  Ok (VDict [("node_type", VStr "claim"); ("schema_version", text_or "schema_version" "1.0" node); ("claim_id", claim_id);
             ("text", text_or "text" "" node); ("citation_indices", VList citations);
             ("model_claim_type", (field "claim_type" node or_else field "model_claim_type" node) or_else VStr "statement");
             ("model_is_required", VBool (truthy (get_or (dlookup "is_required" node) (get_or (dlookup "model_is_required" node) (VBool false)))));
             ("final_status", text_or "final_status" "pending" node); ("server_claim_type", text_or "server_claim_type" "" node);
             ("server_is_required", VBool (truthy (get_or (dlookup "server_is_required" node) (VBool false))))], seq').

Definition normalize_row (seq : Z) (node : pydict) : result (pyval * Z) :=
  let (claim_id, seq') := take_claim_id seq node in
  let! row_index := int_or 0 (get_or (dlookup "row_index" node) (VInt 0)) in
  let! row_values := match field "row_values" node or_else VDict [] with
                     | VDict d => Ok d
                     | _ => Raise (AttributeError "items")
                     end in
  let! citations := iter_or_empty (field "citation_indices" node) in
  Ok (VDict [("node_type", VStr "table_row_claim"); ("claim_id", claim_id); ("row_index", VInt row_index);
             ("row_values", VDict (map (fun kv => (kv.1, VStr (py_str float_repr kv.2))) row_values));
             ("citation_indices", VList citations); ("final_status", text_or "final_status" "pending" node)], seq').

(** [_normalize_node], to a nesting depth of [fuel]. *)
Fixpoint normalize_node (fuel : nat) (seq : Z) (node : pydict) : result (pyval * Z) :=
  match fuel with
  | O => Raise (OtherError "RecursionError")
  | S fuel' =>
    let recur := normalize_items (normalize_node fuel') in
    let ntype := node_type_of node in
    if String.eqb ntype "section" then
      let! items := py_iter (get_or (dlookup "content" node) (VList [])) in
      let! (content, seq') := recur seq items in
      let! level := int_or 1 (get_or (dlookup "level" node) (VInt 1)) in
      Ok (VDict [("node_type", VStr "section"); ("title", text_or "title" "" node); ("level", VInt level); ("content", VList content)], seq')
    else if String.eqb ntype "paragraph" then
      let! items := iter_or_empty (field "paragraphs" node or_else field "children" node) in
      let! (children, seq') := recur seq items in
      Ok (VDict [("node_type", VStr "paragraph"); ("children", VList children)], seq')
    else if String.eqb ntype "table" then
      let! items := py_iter (get_or (dlookup "row_claims" node) (VList [])) in
      let! (rows, seq') := recur seq items in
      let! headers := iter_or_empty (field "headers" node) in
      Ok (VDict [("node_type", VStr "table"); ("headers", VStrs (map (py_str float_repr) headers)); ("row_claims", VList rows)], seq')
    else if String.eqb ntype "table_row_claim" then normalize_row seq node
    else if String.eqb ntype "claim" then normalize_claim seq node
    else Ok (VDict [("node_type", VStr "narrative"); ("text", text_or "text" "" node)], seq)
  end.

(** The nesting depth of a value. *)
Fixpoint vdepth (v : pyval) : nat :=
  match v with
  | VList l => S (list_max (map vdepth l))
  | VDict d => S (list_max (map (fun kv => vdepth kv.2) d))
  | _ => 0
  end.

Definition normalize_root (seq : Z) (node : pydict) : result (pyval * Z) := normalize_node (vdepth (VDict node)) seq node.

Definition normalize (payload : pydict) : result pydict :=
  let! root :=
    match field "root" payload, field "sections" payload, field "section" payload with
    | VDict d, _, _ => let! (n, _) := normalize_root 0 d in Ok n
    | _, VList l, _ =>
      let! (sections, _) := normalize_items normalize_root 0 l in
      Ok (match sections with
          | [s] => s
          | _ => VDict [("node_type", VStr "section"); ("title", VStr ""); ("level", VInt 0); ("content", VList sections)]
          end)
    | _, _, VDict d => let! (n, _) := normalize_root 0 d in Ok n
    | _, _, _ => let! (n, _) := normalize_root 0 payload in Ok n
    end in
  Ok [("schema_version", text_or "schema_version" "1.0" payload); ("root", root)].

Definition parse (text : string) : result AnswerAST :=
  let! payload := extract_json text in
  let! normalized := normalize payload in
  validate normalized.
(** ** Depth and fuel *)

Definition from_node (node : pydict) (v : pyval) : Prop := v = VNone \/ v = VList [] \/ exists k, dlookup k node = Some v.

Lemma field_from k node : from_node node (field k node).
Proof. unfold field, from_node. destruct (dlookup k node) eqn:E; cbn; eauto. Qed.

Lemma get_or_from k node : from_node node (get_or (dlookup k node) (VList [])).
Proof. unfold from_node. destruct (dlookup k node) eqn:E; cbn; eauto. Qed.

Lemma or_else_from node v w : from_node node v -> from_node node w -> from_node node (v or_else w).
Proof. intros Hv Hw. unfold py_or. by destruct (truthy v). Qed.

Lemma nil_from node : from_node node (VList []).
Proof. right. by left. Qed.

#[local] Hint Resolve field_from get_or_from or_else_from nil_from : parser.

Lemma item_depth node v items d :
  from_node node v -> py_iter v = Ok items -> VDict d ∈ items -> vdepth (VDict d) < vdepth (VDict node).
Proof.
  intros [->|[->|[k Hk]]] Hi Hd; [done|injection Hi as <-; by apply not_elem_of_nil in Hd|].
  destruct v as [| | | |s|l|e]; try done.
  - injection Hi as <-. apply list_elem_of_fmap in Hd as (x & Hx & _). done.
  - injection Hi as <-. assert (vdepth (VDict d) <= list_max (map vdepth l)) as H1.
    { apply list_elem_of_In in Hd. assert (List.Forall (fun n => n <= list_max (map vdepth l)) (map vdepth l)) as Hall by by apply list_max_le.
      rewrite List.Forall_forall in Hall. apply Hall. by apply in_map. }
    assert (vdepth (VList l) <= list_max (map (fun kv => vdepth kv.2) node)) as H2.
    { apply dlookup_elem, list_elem_of_In in Hk. assert (List.Forall (fun n => n <= list_max (map (fun kv => vdepth kv.2) node)) (map (fun kv => vdepth kv.2) node)) as Hall by by apply list_max_le.
      rewrite List.Forall_forall in Hall. apply Hall. apply (in_map (fun kv => vdepth kv.2)) in Hk. exact Hk. }
    cbn [vdepth] in *. lia.
  - injection Hi as <-. apply list_elem_of_fmap in Hd as (x & Hx & _). done.
Qed.

Lemma normalize_items_ext f g seq items :
  (forall s d, VDict d ∈ items -> f s d = g s d) -> normalize_items f seq items = normalize_items g seq items.
Proof.
  revert seq. induction items as [|v items IH]; intros seq H; [done|].
  assert (forall s, normalize_items f s items = normalize_items g s items) as IH' by (intros s; apply IH; intros; apply H; by right).
  destruct v; cbn [normalize_items]; try apply IH'.
  rewrite H by (by left). destruct (g seq d) as [[n s]|e]; [|done]. cbn [rbind]. by rewrite IH'.
Qed.

(** Fuel beyond the depth of the node changes nothing. *)
Lemma normalize_node_fuel n m seq node :
  vdepth (VDict node) <= n -> vdepth (VDict node) <= m -> normalize_node n seq node = normalize_node m seq node.
Proof.
  revert m seq node. induction n as [|n IH]; intros [|m] seq node Hn Hm; try (cbn [vdepth] in *; lia).
  assert (forall v items s, from_node node v -> py_iter v = Ok items ->
    normalize_items (normalize_node n) s items = normalize_items (normalize_node m) s items) as Hit.
  { intros v items s Hv Hi. apply normalize_items_ext. intros s' d Hd. pose proof (item_depth node v items d Hv Hi Hd). apply IH; lia. }
  cbn [normalize_node]. destruct (String.eqb _ "section"); [|destruct (String.eqb _ "paragraph"); [|destruct (String.eqb _ "table"); [|done]]];
    unfold iter_or_empty; (destruct (py_iter _) as [items|e] eqn:E; [|done]); cbn [rbind];
    (erewrite (Hit _ _ _ _ E); done).
  Unshelve. all: auto with parser.
Qed.

Lemma normalize_root_fuel n seq node : vdepth (VDict node) <= n -> normalize_node n seq node = normalize_root seq node.
Proof. intros H. by apply normalize_node_fuel. Qed.

(** ** Serialised trees *)

(** What the parser completes in a tree: a version, a claim type and a status
    that are empty get their defaults, and an empty claim id the next number,
    in the order of the nodes. *)
Definition complete_id (seq : Z) (s : string) : string * Z := if truthy s then (s, seq) else (claim_id_of (seq + 1), (seq + 1)%Z).

Definition complete_claim (seq : Z) (c : ClaimNode) : ClaimNode * Z :=
  let (claim_id, seq') := complete_id seq (cn_claim_id c) in
  (mkClaimNode (cn_schema_version c or_else "1.0") claim_id (cn_text c) (cn_citation_indices c) (cn_model_claim_type c or_else "statement")
     (cn_model_is_required c) (cn_final_status c or_else "pending") (cn_server_claim_type c) (cn_server_is_required c), seq').

Definition complete_row (seq : Z) (r : TableRowClaimNode) : TableRowClaimNode * Z :=
  let (claim_id, seq') := complete_id seq (rn_claim_id r) in
  (mkRowNode claim_id (rn_row_index r) (rn_row_values r) (rn_citation_indices r) (rn_final_status r or_else "pending"), seq').

Definition complete_child (seq : Z) (c : ParagraphChild) : ParagraphChild * Z :=
  match c with PClaim c => let (c', seq') := complete_claim seq c in (PClaim c', seq') | PNarrative t => (PNarrative t, seq) end.

Section map_seq.
Context {A : Type} (f : Z -> A -> A * Z).
Fixpoint map_seq (seq : Z) (l : list A) : list A * Z :=
  match l with
  | [] => ([], seq)
  | x :: l' => let (y, seq') := f seq x in let (l'', seq'') := map_seq seq' l' in (y :: l'', seq'')
  end.
End map_seq.

Fixpoint complete_content (seq : Z) (n : SectionContent) : SectionContent * Z :=
  match n with
  | CParagraph children => let (children', seq') := map_seq complete_child seq children in (CParagraph children', seq')
  | CTable headers rows => let (rows', seq') := map_seq complete_row seq rows in (CTable headers rows', seq')
  | CSection title level content => let (content', seq') := map_seq complete_content seq content in (CSection title level content', seq')
  end.

Definition complete (a : AnswerAST) : AnswerAST :=
  mkAST (ast_schema_version a or_else "1.0") (ast_title a) (ast_level a) (map_seq complete_content 0 (ast_content a)).1.

(** No node of the tree misses its id, its version, its type or its status. *)
Definition claim_filled (c : ClaimNode) : Prop :=
  cn_schema_version c <> "" /\ cn_claim_id c <> "" /\ cn_model_claim_type c <> "" /\ cn_final_status c <> "".
Definition row_filled (r : TableRowClaimNode) : Prop := rn_claim_id r <> "" /\ rn_final_status r <> "".
Definition child_filled (c : ParagraphChild) : Prop := match c with PClaim c => claim_filled c | PNarrative _ => True end.

Fixpoint content_filled (n : SectionContent) : Prop :=
  match n with
  | CParagraph children => Forall child_filled children
  | CTable _ rows => Forall row_filled rows
  | CSection _ _ content => (fix go (l : list SectionContent) : Prop := match l with [] => True | c :: l' => content_filled c /\ go l' end) content
  end.

Definition ast_filled (a : AnswerAST) : Prop := ast_schema_version a <> "" /\ content_filled (ast_root a).

Lemma content_filled_section t l cs : content_filled (CSection t l cs) <-> Forall content_filled cs.
Proof. cbn [content_filled]. induction cs as [|c cs IH]; [by split|]. by rewrite Forall_cons, <- IH. Qed.

Lemma or_else_full (s d : string) : s <> "" -> s or_else d = s.
Proof. unfold py_or. by destruct s. Qed.

Lemma or_else_nonempty (s d : string) : d <> "" -> s or_else d <> "".
Proof. unfold py_or. by destruct s. Qed.

Lemma complete_id_full seq s : s <> "" -> complete_id seq s = (s, seq).
Proof. unfold complete_id. by destruct s. Qed.

Lemma complete_id_nonempty seq s : (complete_id seq s).1 <> "".
Proof. unfold complete_id. by destruct s. Qed.

Lemma map_seq_same {A} (f : Z -> A -> A * Z) seq l : Forall (fun x => forall seq, f seq x = (x, seq)) l -> map_seq f seq l = (l, seq).
Proof. induction 1 as [|x l Hx _ IH]; [done|]. cbn [map_seq]. by rewrite Hx, IH. Qed.

Lemma map_seq_Forall {A} (f : Z -> A -> A * Z) (P : A -> Prop) seq l : Forall (fun x => forall seq, P (f seq x).1) l -> Forall P (map_seq f seq l).1.
Proof.
  intros H. revert seq. induction H as [|x l Hx _ IH]; intros seq; [constructor|]. cbn [map_seq].
  specialize (Hx seq). destruct (f seq x) as [y s]. specialize (IH s). destruct (map_seq f s l) as [l' s']. by constructor.
Qed.

(** A tree that misses nothing is complete; a completed tree misses nothing. *)
Lemma complete_claim_full seq c : claim_filled c -> complete_claim seq c = (c, seq).
Proof. intros (H1 & H2 & H3 & H4). unfold complete_claim. rewrite complete_id_full, !or_else_full by done. by destruct c. Qed.

Lemma complete_content_full n : content_filled n -> forall seq, complete_content seq n = (n, seq).
Proof.
  induction n as [cs|h rows|t l cs IH] using SectionContent_nested; intros Hf seq; cbn [complete_content].
  - rewrite map_seq_same; [done|]. eapply Forall_impl; [exact Hf|]. intros [c|x] Hc s; cbn; [by rewrite complete_claim_full|done].
  - rewrite map_seq_same; [done|]. eapply Forall_impl; [exact Hf|]. intros r [H1 H2] s. unfold complete_row.
    rewrite complete_id_full, or_else_full by done. by destruct r.
  - apply content_filled_section in Hf. rewrite map_seq_same; [done|]. rewrite Forall_forall in *. intros c Hc. apply IH; [done|by apply Hf].
Qed.

Lemma complete_content_filled n : forall seq, content_filled (complete_content seq n).1.
Proof.
  induction n as [cs|h rows|t l cs IH] using SectionContent_nested; intros seq; cbn [complete_content].
  - destruct (map_seq complete_child seq cs) as [cs' s] eqn:E. cbn. change cs' with (cs', s).1. rewrite <- E.
    apply map_seq_Forall, Forall_true. intros [c|x] s'; cbn; [|done]. unfold complete_claim.
    pose proof (complete_id_nonempty s' (cn_claim_id c)). destruct (complete_id _ _) as [i s'']. cbn in *.
    split_and!; try done; by apply or_else_nonempty.
  - destruct (map_seq complete_row seq rows) as [rows' s] eqn:E. cbn. change rows' with (rows', s).1. rewrite <- E.
    apply map_seq_Forall, Forall_true. intros r s'. unfold complete_row.
    pose proof (complete_id_nonempty s' (rn_claim_id r)). destruct (complete_id _ _) as [i s'']. cbn in *. split; [done|by apply or_else_nonempty].
  - destruct (map_seq complete_content seq cs) as [cs' s] eqn:E. cbn [fst]. apply content_filled_section. change cs' with (cs', s).1. rewrite <- E.
    by apply map_seq_Forall.
Qed.

Lemma complete_full a : ast_filled a -> complete a = a.
Proof.
  intros [Hv Hr]. apply content_filled_section in Hr. unfold complete. rewrite or_else_full by done. rewrite map_seq_same.
  - by destruct a.
  - eapply Forall_impl; [exact Hr|]. intros n Hn. by apply complete_content_full.
Qed.

Lemma complete_filled a : ast_filled (complete a).
Proof.
  split; [by apply or_else_nonempty|]. apply content_filled_section, map_seq_Forall, Forall_true. intros n. apply complete_content_filled.
Qed.

(** *** Normalising a serialised tree completes it *)

Lemma text_or_given k default node s : dlookup k node = Some (VStr s) -> text_or k default node = VStr (s or_else default).
Proof. unfold text_or, field, py_or. intros ->. by destruct s. Qed.

Lemma or_else_empty (s : string) : s or_else "" = s.
Proof. by destruct s. Qed.

Lemma iter_or_empty_list k node l : dlookup k node = Some (VList l) -> iter_or_empty (field k node) = Ok l.
Proof. unfold iter_or_empty, field, py_or. intros ->. by destruct l. Qed.

Lemma take_claim_id_given seq node s : dlookup "claim_id" node = Some (VStr s) ->
  take_claim_id seq node = (VStr (complete_id seq s).1, (complete_id seq s).2).
Proof. unfold take_claim_id, field, complete_id. intros ->. by destruct s. Qed.

Lemma normalize_claim_dict seq c :
  normalize_claim seq (claim_node_dict c) = Ok (VDict (claim_node_dict (complete_claim seq c).1), (complete_claim seq c).2).
Proof.
  unfold normalize_claim, complete_claim. rewrite (take_claim_id_given _ _ (cn_claim_id c)) by done.
  rewrite (iter_or_empty_list _ _ (map VInt (cn_citation_indices c))) by done. cbn [rbind].
  rewrite (text_or_given "schema_version" _ _ (cn_schema_version c)), (text_or_given "final_status" _ _ (cn_final_status c)),
    (text_or_given "text" _ _ (cn_text c)), (text_or_given "server_claim_type" _ _ (cn_server_claim_type c)), !or_else_empty by done.
  destruct (complete_id _ _) as [i s']. cbn [fst snd]. unfold field, py_or. cbn. by destruct (cn_model_claim_type c).
Qed.

Lemma normalize_row_dict seq r :
  normalize_row seq (row_node_dict r) = Ok (VDict (row_node_dict (complete_row seq r).1), (complete_row seq r).2).
Proof.
  unfold normalize_row, complete_row. rewrite (take_claim_id_given _ _ (rn_claim_id r)) by done.
  rewrite (iter_or_empty_list _ _ (map VInt (rn_citation_indices r))) by done.
  rewrite (text_or_given "final_status" _ _ (rn_final_status r)) by done.
  destruct (complete_id _ _) as [i s']. cbn [fst snd]. unfold field, py_or. cbn.
  assert (map (fun kv => (kv.1, VStr (py_str float_repr kv.2))) (map (fun kv => (kv.1, VStr kv.2)) (rn_row_values r)) = map (fun kv => (kv.1, VStr kv.2)) (rn_row_values r)) as Hv
    by by rewrite map_map.
  unfold row_node_dict. cbn. destruct (rn_row_values r) as [|kv l] eqn:E; [done|]. cbn [map truthy truthy_pyval rbind] in *. by rewrite Hv.
Qed.

Lemma normalize_items_map {A} f (g : A -> pydict) (h : Z -> A -> A * Z) (l : list A) :
  (forall x, x ∈ l -> forall seq, f seq (g x) = Ok (VDict (g (h seq x).1), (h seq x).2)) -> forall seq,
  normalize_items f seq (map (fun x => VDict (g x)) l) = Ok (map (fun x => VDict (g x)) (map_seq h seq l).1, (map_seq h seq l).2).
Proof.
  induction l as [|x l IH]; intros H seq; [done|]. cbn [map normalize_items map_seq]. rewrite H by (by left). cbn [rbind].
  destruct (h seq x) as [y s]. cbn [fst snd]. rewrite IH by (intros y' Hy; apply H; by right). cbn [rbind]. by destruct (map_seq h s l).
Qed.

Definition child_pydict (c : ParagraphChild) : pydict :=
  match c with
  | PClaim cn => claim_node_dict cn
  | PNarrative t => [("node_type", VStr "narrative"); ("text", VStr t)]
  end.

Definition content_pydict (n : SectionContent) : pydict := match content_dict n with VDict d => d | _ => [] end.

Lemma child_dict_pydict c : child_dict c = VDict (child_pydict c).
Proof. by destruct c. Qed.

Lemma content_dict_pydict n : content_dict n = VDict (content_pydict n).
Proof. by destruct n. Qed.

Lemma normalize_child fuel seq c : vdepth (VDict (child_pydict c)) <= fuel ->
  normalize_node fuel seq (child_pydict c) = Ok (VDict (child_pydict (complete_child seq c).1), (complete_child seq c).2).
Proof.
  intros Hd. destruct fuel as [|fuel]; [cbn [vdepth] in Hd; lia|]. destruct c as [cn|t]; cbn [normalize_node].
  - change (node_type_of (child_pydict (PClaim cn))) with "claim". cbn [String.eqb Ascii.eqb Bool.eqb].
    change (child_pydict (PClaim cn)) with (claim_node_dict cn). rewrite normalize_claim_dict. cbn [complete_child]. by destruct (complete_claim seq cn).
  - change (node_type_of (child_pydict (PNarrative t))) with "narrative". cbn [String.eqb Ascii.eqb Bool.eqb].
    by rewrite (text_or_given "text" _ _ t), or_else_empty.
Qed.

(** What the items of a list under a key become. *)
Lemma normalize_items_dicts {A} fuel k node (g : A -> pydict) (h : Z -> A -> A * Z) (l : list A) :
  vdepth (VDict node) <= S fuel -> dlookup k node = Some (VList (map (fun x => VDict (g x)) l)) ->
  (forall x, x ∈ l -> vdepth (VDict (g x)) <= fuel -> forall seq, normalize_node fuel seq (g x) = Ok (VDict (g (h seq x).1), (h seq x).2)) -> forall seq,
  normalize_items (normalize_node fuel) seq (map (fun x => VDict (g x)) l) = Ok (map (fun x => VDict (g x)) (map_seq h seq l).1, (map_seq h seq l).2).
Proof.
  intros Hd Hk H. apply normalize_items_map. intros x Hx. apply H; [done|].
  assert (vdepth (VDict (g x)) < vdepth (VDict node)); [|lia].
  eapply item_depth; [right; right; by exists k|done|]. apply list_elem_of_fmap. by exists x.
Qed.

Lemma map_py_str_strs l : map (py_str float_repr) (map VStr l) = l.
Proof. induction l as [|s l IH]; [done|]. cbn [map]. by rewrite IH. Qed.

Lemma map_dicts {A} (f : A -> pyval) (g : A -> pydict) l : (forall x, f x = VDict (g x)) -> map f l = map (fun x => VDict (g x)) l.
Proof. intros H. apply map_ext. exact H. Qed.

Lemma normalize_content fuel seq n : vdepth (content_dict n) <= fuel ->
  normalize_node fuel seq (content_pydict n) = Ok (content_dict (complete_content seq n).1, (complete_content seq n).2).
Proof.
  revert fuel seq. induction n as [cs|h rows|t l cs IH] using SectionContent_nested; intros [|fuel] seq Hd;
    try (cbn [content_dict vdepth] in Hd; lia); cbn [normalize_node complete_content].
  - change (node_type_of _) with "paragraph". cbn [String.eqb Ascii.eqb Bool.eqb].
    assert (iter_or_empty (field "paragraphs" (content_pydict (CParagraph cs)) or_else field "children" (content_pydict (CParagraph cs))) = Ok (map child_dict cs)) as ->.
    { by apply (iter_or_empty_list "children"). }
    cbn [rbind content_dict] in *. rewrite (map_dicts _ _ cs child_dict_pydict) in *.
    rewrite (normalize_items_dicts fuel "children" _ child_pydict complete_child cs Hd eq_refl) by (intros c Hc Hcd s; by apply normalize_child).
    destruct (map_seq complete_child seq cs) as [cs' s']. cbn [rbind fst snd content_dict]. by rewrite (map_dicts _ _ cs' child_dict_pydict).
  - change (node_type_of _) with "table". cbn [String.eqb Ascii.eqb Bool.eqb]. cbn [content_pydict content_dict dlookup String.eqb Ascii.eqb Bool.eqb get_or py_iter rbind] in *.
    rewrite (normalize_items_dicts fuel "row_claims" _ row_node_dict complete_row rows Hd eq_refl).
    + destruct (map_seq complete_row seq rows) as [rows' s']. cbn [rbind fst snd content_dict]. unfold VStrs.
      rewrite (iter_or_empty_list "headers" _ (map VStr h)) by done. cbn [rbind]. by rewrite map_py_str_strs.
    + intros r Hr Hrd s. destruct fuel as [|fuel]; [cbn [vdepth] in Hrd; lia|]. cbn [normalize_node].
      change (node_type_of _) with "table_row_claim". cbn [String.eqb Ascii.eqb Bool.eqb]. apply normalize_row_dict.
  - change (node_type_of _) with "section". cbn [String.eqb Ascii.eqb Bool.eqb].
    cbn [content_pydict content_dict dlookup String.eqb Ascii.eqb Bool.eqb get_or py_iter rbind] in *. rewrite (map_dicts _ _ cs content_dict_pydict) in *.
    rewrite (normalize_items_dicts fuel "content" _ content_pydict complete_content cs Hd eq_refl).
    + destruct (map_seq complete_content seq cs) as [cs' s']. cbn [rbind int_or to_int fst snd content_dict].
      by rewrite (text_or_given "title" _ _ t), or_else_empty, (map_dicts _ _ cs' content_dict_pydict).
    + intros c Hc Hcd s. rewrite Forall_forall in IH. rewrite <- (content_dict_pydict (complete_content s c).1). apply IH; [done|by rewrite content_dict_pydict].
Qed.

Lemma normalize_ast a : normalize (ast_to_dict a) = Ok (ast_to_dict (complete a)).
Proof.
  unfold normalize. assert (field "root" (ast_to_dict a) = VDict (content_pydict (ast_root a))) as -> by done.
  unfold normalize_root. rewrite normalize_content by done. unfold ast_root at 1 2. cbn [complete_content].
  destruct (map_seq complete_content 0 (ast_content a)) as [cs s] eqn:E. cbn [rbind fst snd].
  rewrite (text_or_given "schema_version" _ _ (ast_schema_version a)) by done. unfold complete, ast_to_dict, ast_root. cbn. by rewrite E.
Qed.

(** ** The fence *)

Definition unbroken (l : string) : Prop := Forall (fun c => str_in c line_breaks = false) (chars l).


Lemma lines_of_app cs rest : Forall (fun c => str_in c line_breaks = false) cs -> lines_of (cs ++ nl :: rest) = concat_chars cs :: lines_of rest.
Proof.
  induction 1 as [|c cs Hc _ IH].
  - cbn [app lines_of]. change (str_in nl line_breaks) with true. cbn iota. destruct rest as [|d rest]; [done|]. done.
  - cbn [app lines_of]. rewrite Hc, IH. f_equal. unfold concat_chars. destruct cs; cbn [String.concat]; [|done]. apply append_nil_r.
Qed.

Lemma concat_chars_cons c cs : concat_chars (c :: cs) = String.append c (concat_chars cs).
Proof. unfold concat_chars. destruct cs as [|d cs]; cbn [String.concat]; [by rewrite append_nil_r|done]. Qed.

Lemma concat_chars_chars s : concat_chars (chars s) = s.
Proof.
  induction s as [|a s IH]; [done|]. cbn [chars]. destruct (chars s) as [|[|b c] cs]; rewrite <- IH, !concat_chars_cons; try done.
  destruct (is_continuation b); by rewrite !concat_chars_cons.
Qed.

(** Every line break of the text is a newline. *)
Definition newlines_only (cs : list string) : Prop := Forall (fun c => str_in c line_breaks = true -> c = nl) cs.

Definition ends_line (cs : list string) : bool := match last cs with Some c => negb (String.eqb c nl) | None => false end.

Lemma lines_of_cons c cs : newlines_only (c :: cs) ->
  lines_of (c :: cs) = if str_in c line_breaks then "" :: lines_of cs
                       else match lines_of cs with [] => [c] | l :: ls => String.append c l :: ls end.
Proof.
  intros [Hc _]%Forall_cons_1. cbn [lines_of]. destruct (str_in c line_breaks) eqn:E; [|done]. rewrite (Hc eq_refl).
  destruct cs as [|d cs]; [done|]. done.
Qed.

Lemma lines_of_nil cs : lines_of cs = [] -> cs = [].
Proof. destruct cs as [|c cs]; [done|]. cbn [lines_of]. destruct (str_in c line_breaks); [done|]. by destruct (lines_of cs). Qed.

(** Lines split at newlines and joined again. *)
Lemma join_lines cs : newlines_only cs -> ends_line cs = true -> join nl (lines_of cs) = concat_chars cs.
Proof.
  induction cs as [|c cs IH]; [done|]. intros Hn He. rewrite lines_of_cons, concat_chars_cons by done.
  pose proof (Forall_cons_1 _ _ _ Hn) as [Hc Hn']. destruct cs as [|d cs].
  { unfold ends_line in He. cbn in He. destruct (str_in c line_breaks) eqn:E; [by rewrite (Hc eq_refl) in He|]. cbn. by rewrite append_nil_r. }
  specialize (IH Hn' He). rewrite <- IH. destruct (lines_of (d :: cs)) as [|l ls] eqn:El; [by apply lines_of_nil in El|].
  destruct (str_in c line_breaks) eqn:E.
  - rewrite (Hc eq_refl), join_cons. by destruct (lines_of _).
  - destruct ls as [|l' ls]; [done|]. rewrite !join_cons by done. by rewrite append_assoc.
Qed.

Lemma lines_of_app_line cs rest : newlines_only cs -> ends_line cs = true -> lines_of (cs ++ nl :: rest) = lines_of cs ++ lines_of rest.
Proof.
  induction cs as [|c cs IH]; [done|]. intros Hn He. pose proof (Forall_cons_1 _ _ _ Hn) as [Hc Hn'].
  assert (cs = [] \/ lines_of (cs ++ nl :: rest) = lines_of cs ++ lines_of rest /\ cs <> []) as [->|[IH' Hne]].
  { destruct cs as [|d cs]; [by left|right]. split; [by apply IH|done]. }
  - unfold ends_line in He. cbn in He. assert (str_in c line_breaks = false) as E.
    { destruct (str_in c line_breaks) eqn:E; [|done]. by rewrite (Hc eq_refl) in He. }
    rewrite lines_of_app by (by repeat constructor). cbn [lines_of]. by rewrite E.
  - cbn [app]. assert (newlines_only cs) by done. cbn [lines_of]. destruct (str_in c line_breaks) eqn:E.
    + rewrite (Hc eq_refl). change (String.eqb nl CR) with false. cbn [andb]. destruct cs as [|d cs]; [done|]. cbn [app] in *. by rewrite IH'.
    + rewrite IH'. destruct (lines_of cs) eqn:El; [by apply lines_of_nil in El|done].
Qed.

Lemma rstrip_app s t : t <> "" -> rstrip t = t -> rstrip (String.append s t) = String.append s t.
Proof.
  intros Hne Ht. induction s as [|a s IH]; [done|]. change (rstrip (String a (String.append s t)) = String a (String.append s t)).
  cbn [rstrip]. rewrite IH. destruct (String.append s t) eqn:E; [|done]. destruct s; [by destruct (Hne E)|discriminate E].
Qed.

(** A text between two visible characters is not stripped. *)
Lemma strip_between a s b : is_space a = false -> is_space b = false ->
  strip (String a (String.append s (String b ""))) = String a (String.append s (String b "")).
Proof.
  intros Ha Hb. unfold strip. cbn [lstrip]. rewrite Ha.
  change (String a (String.append s (String b ""))) with (String.append (String a s) (String b "")).
  apply rstrip_app; [done|]. cbn. by rewrite Hb.
Qed.

(** A JSON object, and one in a code fence. *)
Definition json_object (mid : string) : string := String "{" (String.append mid "}").
Definition fenced (lang body : string) : string :=
  String.append (String.append FENCE lang) (String.append nl (String.append body (String.append nl FENCE))).

Lemma chars_newline a b s : is_continuation b = false ->
  chars (String.append a (String.append nl (String b s))) = chars a ++ nl :: chars (String b s).
Proof.
  intros Hb. change (String.append nl (String b s)) with (String (ascii_of_nat 10) (String b s)). rewrite chars_app by done.
  f_equal. change (String (ascii_of_nat 10) (String b s)) with (String.append nl (String b s)). by rewrite chars_app.
Qed.

Lemma object_ends_line mid : ends_line (chars (json_object mid)) = true.
Proof.
  change (json_object mid) with (String.append (String "{" mid) "}"). rewrite chars_app by done. unfold ends_line.
  change (chars "}") with ["}"]. by rewrite last_snoc.
Qed.

Lemma candidate_object mid : candidate_of (strip (json_object mid)) = json_object mid.
Proof. unfold json_object. rewrite strip_between by done. done. Qed.

(** The fence goes, the object stays. *)
Lemma candidate_fenced lang mid : unbroken (String.append FENCE lang) -> newlines_only (chars (json_object mid)) ->
  candidate_of (strip (fenced lang (json_object mid))) = json_object mid.
Proof.
  intros Hl Hm. set (text := fenced lang (json_object mid)).
  assert (strip text = text) as ->.
  { unfold text, fenced. set (body := json_object mid).
    assert (exists s, String.append (String.append FENCE lang) (String.append nl (String.append body (String.append nl FENCE))) =
      String "`" (String.append s "`")) as [s ->]; [|by apply strip_between].
    exists (String.append (String.append "``" lang) (String.append nl (String.append body (String.append nl "``")))).
    by rewrite !append_assoc. }
  unfold candidate_of. assert (startswith FENCE text = true) as -> by (unfold text, fenced; rewrite append_assoc; apply startswith_append).
  unfold splitlines, text, fenced.
  change (String.append (json_object mid) (String.append nl FENCE)) with (String "{" (String.append (String.append mid "}") (String.append nl FENCE))).
  rewrite chars_newline by done.
  change (String "{" (String.append (String.append mid "}") (String.append nl FENCE))) with (String.append (json_object mid) (String.append nl FENCE)).
  assert (chars (String.append (json_object mid) (String.append nl FENCE)) = chars (json_object mid) ++ nl :: chars FENCE) as ->
    by by apply (chars_newline (json_object mid) "`" "``").
  rewrite lines_of_app by done.
  cbn [tail]. rewrite lines_of_app_line by (done || apply object_ends_line).
  change (lines_of (chars FENCE)) with [FENCE]. unfold drop_closing. rewrite rev_app_distr. cbn [rev app].
  change (startswith FENCE (strip FENCE)) with true. cbn iota. rewrite rev_involutive.
  rewrite join_lines by (done || apply object_ends_line). apply concat_chars_chars.
Qed.

(** ** The shape of what comes out

    Every node has exactly the fields of its schema class, with values of
    their types; how nodes nest, and the types of claim ids, citations and
    model claim types, are left to the validation. *)
Inductive shaped : pyval -> Prop :=
  | shaped_section title level content : Forall shaped content ->
      shaped (VDict [("node_type", VStr "section"); ("title", VStr title); ("level", VInt level); ("content", VList content)])
  | shaped_paragraph children : Forall shaped children ->
      shaped (VDict [("node_type", VStr "paragraph"); ("children", VList children)])
  | shaped_table headers rows : Forall shaped rows ->
      shaped (VDict [("node_type", VStr "table"); ("headers", VStrs headers); ("row_claims", VList rows)])
  | shaped_row claim_id row_index row_values citations status : truthy claim_id = true ->
      shaped (VDict [("node_type", VStr "table_row_claim"); ("claim_id", claim_id); ("row_index", VInt row_index);
                     ("row_values", VDict (map (fun kv => (kv.1, VStr kv.2)) row_values));
                     ("citation_indices", VList citations); ("final_status", VStr status)])
  | shaped_claim version claim_id text citations claim_type required status server_type server_required :
      truthy claim_id = true -> truthy claim_type = true ->
      shaped (VDict [("node_type", VStr "claim"); ("schema_version", VStr version); ("claim_id", claim_id); ("text", VStr text);
                     ("citation_indices", VList citations); ("model_claim_type", claim_type); ("model_is_required", VBool required);
                     ("final_status", VStr status); ("server_claim_type", VStr server_type); ("server_is_required", VBool server_required)])
  | shaped_narrative text : shaped (VDict [("node_type", VStr "narrative"); ("text", VStr text)]).

Lemma take_claim_id_truthy seq node : truthy (take_claim_id seq node).1 = true.
Proof. unfold take_claim_id. destruct (truthy (field "claim_id" node)) eqn:E; [done|]. cbn. done. Qed.

Lemma or_else_truthy (v w : pyval) : truthy w = true -> truthy (v or_else w) = true.
Proof. unfold py_or. destruct (truthy v) eqn:E; by rewrite ?E. Qed.

Lemma normalize_items_shaped f seq items vs seq' :
  (forall s d v s', f s d = Ok (v, s') -> shaped v) -> normalize_items f seq items = Ok (vs, seq') -> Forall shaped vs.
Proof.
  intros Hf. revert seq vs. induction items as [|v items IH]; intros seq vs; cbn [normalize_items]; [by intros [= <- <-]|].
  destruct v; try apply IH. intros ([n s1] & Hn & ([ns s2] & Hns & [= <- <-])%rbind_ok)%rbind_ok.
  constructor; [by eapply Hf|by eapply IH].
Qed.

Lemma normalize_node_shaped fuel seq node v seq' : normalize_node fuel seq node = Ok (v, seq') -> shaped v.
Proof.
  revert seq node v seq'. induction fuel as [|fuel IH]; intros seq node v seq'; cbn [normalize_node]; [done|].
  pose proof (normalize_items_shaped (normalize_node fuel)) as Hit.
  destruct (String.eqb _ "section").
  { intros (items & _ & ([vs s1] & Hvs & (level & _ & [= <- <-])%rbind_ok)%rbind_ok)%rbind_ok. constructor. by eapply Hit. }
  destruct (String.eqb _ "paragraph").
  { intros (items & _ & ([vs s1] & Hvs & [= <- <-])%rbind_ok)%rbind_ok. constructor. by eapply Hit. }
  destruct (String.eqb _ "table").
  { intros (items & _ & ([vs s1] & Hvs & (hs & _ & [= <- <-])%rbind_ok)%rbind_ok)%rbind_ok. constructor. by eapply Hit. }
  pose proof (take_claim_id_truthy seq node) as Hid.
  destruct (String.eqb _ "table_row_claim").
  { unfold normalize_row. destruct (take_claim_id seq node) as [cid s1].
    intros (i & _ & (vals & _ & (cs & _ & [= <- <-])%rbind_ok)%rbind_ok)%rbind_ok.
    assert (map (fun kv => (kv.1, VStr (py_str float_repr kv.2))) vals = map (fun kv => (kv.1, VStr kv.2)) (map (fun kv => (kv.1, py_str float_repr kv.2)) vals)) as ->
      by by rewrite map_map. by constructor. }
  destruct (String.eqb _ "claim").
  { unfold normalize_claim. destruct (take_claim_id seq node) as [cid s1]. intros (cs & _ & [= <- <-])%rbind_ok.
    constructor; [done|by apply or_else_truthy]. }
  intros [= <- <-]. constructor.
Qed.

Lemma normalize_shaped_root payload d : normalize payload = Ok d ->
  exists version root, d = [("schema_version", VStr version); ("root", root)] /\ shaped root.
Proof.
  unfold normalize. intros (root & Hroot & [= <-])%rbind_ok. eexists _, root. split; [done|].
  assert (forall p r, (let! (n, _) := normalize_root 0 p in Ok n) = Ok r -> shaped r) as Hone.
  { intros p r ([n s] & Hn & [= <-])%rbind_ok. by eapply normalize_node_shaped. }
  assert (forall l r, (let! (sections, _) := normalize_items normalize_root 0 l in
      Ok (match sections with
          | [s] => s
          | _ => VDict [("node_type", VStr "section"); ("title", VStr ""); ("level", VInt 0); ("content", VList sections)]
          end)) = Ok r -> shaped r) as Hmany.
  { intros l r ([vs s] & Hvs & [= <-])%rbind_ok.
    assert (Forall shaped vs) as Hall by (eapply normalize_items_shaped; [|exact Hvs]; intros s' d0 v s''; apply normalize_node_shaped).
    destruct vs as [|v [|v' vs]]; [by constructor| |by constructor]. by destruct (Forall_cons_1 _ _ _ Hall). }
  destruct (field "root" payload); try (by eapply Hone); destruct (field "sections" payload); try (by eapply Hone); try (by eapply Hmany);
    destruct (field "section" payload); by eapply Hone.
Qed.

End parser.

(** ** The properties *)

(** Whatever the model sends, what reaches the validation has exactly the
    fields of the schema at every node, each of its type: unknown fields and
    unknown node types are gone, and every claim has an id. *)
Theorem normalize_typed float_repr int_of_text payload d (Hok : normalize float_repr int_of_text payload = Ok d) :
  exists version root, d = [("schema_version", VStr version); ("root", root)] /\ shaped root.
Proof. by eapply normalize_shaped_root. Qed.

(** [C38] The text of a serialised tree is handed to the validation as that
    tree, completed: an empty schema version, claim type and status get their
    defaults and an empty claim id the next number; a tree that misses none of
    these is handed over as it was written, and a completed one misses none.  The
    same text inside a code fence of any language tag on one line gives the
    same, provided that the only line breaks in it are newlines. *)
Theorem parse_serialized json_loads float_repr int_of_text validate mid a
  (Hload : json_loads (json_object mid) = Some (VDict (ast_to_dict a))) :
  parse json_loads float_repr int_of_text validate (json_object mid) = validate (ast_to_dict (complete a)) /\
  (ast_filled a -> complete a = a) /\ ast_filled (complete a) /\
  (forall lang, unbroken (String.append FENCE lang) -> newlines_only (chars (json_object mid)) ->
     parse json_loads float_repr int_of_text validate (fenced lang (json_object mid)) = validate (ast_to_dict (complete a))).
Proof.
  split; [|split; [apply complete_full|split; [apply complete_filled|intros lang Hl Hm]]];
    unfold parse, extract_json; rewrite ?candidate_fenced, ?candidate_object by done; unfold loads_dict; rewrite Hload; cbn [rbind];
    by rewrite normalize_ast.
Qed.

(** A line separator inside a text of a fenced answer becomes a newline,
    which JSON does not allow in a string; unfenced it is kept. *)
Lemma fence_breaks_separators :
  let body := json_object (join "" ["'a"; LS; "b'"]) in
  candidate_of (strip (fenced "json" body)) = json_object (join "" ["'a"; nl; "b'"]) /\ candidate_of (strip body) = body.
Proof. vm_compute. done. Qed.

Definition claim_payload (fields : pydict) : pyval := VDict (("type", VStr "claim") :: fields).
Definition section_payload (claims : list pyval) : pydict :=
  [("type", VStr "section"); ("title", VStr "t"); ("content", VList [VDict [("type", VStr "paragraph"); ("paragraphs", VList claims)]])].

(** The text of every claim of the first paragraph, with its id and status. *)
Definition first_claims (d : result pydict) : list (pyval * pyval * pyval) :=
  match d with
  | Ok d =>
    match field "root" d with
    | VDict root =>
      match field "content" root with
      | VList [VDict p] =>
        match field "children" p with
        | VList cs => map (fun c => match c with VDict c => (field "text" c, field "claim_id" c, field "final_status" c) | _ => (VNone, VNone, VNone) end) cs
        | _ => []
        end
      | _ => []
      end
    | _ => []
    end
  | Raise _ => []
  end.

(** A generated id can be the id another claim already has: the verdict on
    one claim is then the verdict on both. *)
Lemma generated_id_collides :
  first_claims (normalize (fun _ => "") (fun _ => None)
    (section_payload [claim_payload [("text", VStr "a")]; claim_payload [("text", VStr "b"); ("claim_id", VStr "claim_001")]])) =
  [(VStr "a", VStr "claim_001", VStr "pending"); (VStr "b", VStr "claim_001", VStr "pending")].
Proof. vm_compute. done. Qed.

(** The status that is to be filled after verification is taken from the
    model's own output. *)
Lemma model_status_survives :
  first_claims (normalize (fun _ => "") (fun _ => None)
    (section_payload [claim_payload [("text", VStr "a"); ("final_status", VStr "supported")]])) =
  [(VStr "a", VStr "claim_001", VStr "supported")].
Proof. vm_compute. done. Qed.

Example claim_ids_ex : map claim_id_of [1; 42; 1000]%Z = ["claim_001"; "claim_042"; "claim_1000"].
Proof. vm_compute. done. Qed.

(** ** Witnesses *)

Definition example_tree : AnswerAST :=
  mkAST "1.0" "t" 1 [CParagraph [PClaim (mkClaimNode "1.0" "c1" "x" [1%Z] "statement" false "pending" "" false); PNarrative "y"];
                     CTable ["h"] [mkRowNode "r1" 0 [("h", "v")] [] "pending"]].

Lemma normalize_typed_witness :
  exists version root, ast_to_dict example_tree = [("schema_version", VStr version); ("root", root)] /\ shaped root.
Proof. apply (normalize_typed (fun _ => "") (fun _ => None) (ast_to_dict example_tree)). vm_compute. reflexivity. Defined.

(** A claim and a row without an id. *)
Definition partial_tree : AnswerAST :=
  mkAST "" "t" 1 [CParagraph [PClaim (mkClaimNode "1.0" "" "x" [1%Z] "statement" false "" "" false); PNarrative "y"];
                  CTable ["h"] [mkRowNode "" 0 [("h", "v")] [] "pending"]].

Lemma parse_serialized_witness :
  let loads s := if String.eqb s (json_object "x") then Some (VDict (ast_to_dict partial_tree)) else None in
  let expected := mkAST "1.0" "t" 1 [CParagraph [PClaim (mkClaimNode "1.0" "claim_001" "x" [1%Z] "statement" false "pending" "" false); PNarrative "y"];
                                     CTable ["h"] [mkRowNode "claim_002" 0 [("h", "v")] [] "pending"]] in
  complete partial_tree = expected /\
  parse loads (fun _ => "") (fun _ => None) (fun d => if decide (d = ast_to_dict expected) then Ok expected else Raise (ValueError "ast")) (json_object "x") = Ok expected /\
  parse loads (fun _ => "") (fun _ => None) (fun _ => Ok expected) (fenced "json" (json_object "x")) = Ok expected.
Proof.
  cbv zeta. split; [vm_compute; reflexivity|]. split.
  - rewrite (proj1 (parse_serialized (fun s => if String.eqb s (json_object "x") then Some (VDict (ast_to_dict partial_tree)) else None)
           (fun _ => "") (fun _ => None) _ "x" partial_tree eq_refl)). vm_compute. reflexivity.
  - apply (parse_serialized (fun s => if String.eqb s (json_object "x") then Some (VDict (ast_to_dict partial_tree)) else None)
           (fun _ => "") (fun _ => None) (fun _ => Ok _) "x" partial_tree eq_refl); by repeat constructor.
Defined.
