(* ===== verification/FinalAnswer.v ===== *)
(** * The last nodes (nodes/fallback.py, nodes/final_answer.py)

    The conservative answer of a terminated run and the node that writes the
    answer the caller receives. *)

From stdpp Require Import pretty.
From S2P Require Import Prelude PyFloat PyVal PyList PyText AgentState Config AnswerAst.

(** ** The fallback node *)

Definition TERMINATION_PREFIX_MAP : list (string * string) :=
  [("same_action_loop", "检索未发现新信息"); ("rerank_declining", "检索质量持续下降");
   ("budget_exhausted", "已达到推理上限"); ("policy_denied", "部分操作被安全策略限制");
   ("retrieval_infra_error", "检索服务暂时不可用")].

Definition DEFAULT_FALLBACK_MESSAGE : string := "当前信息不足以回答，建议人工介入".

Definition reason_prefix (reason : pyval) : string :=
  match reason with
  | VStr r => get_or (dlookup r TERMINATION_PREFIX_MAP) "处理过程被中断"
  | _ => "处理过程被中断"
  end.

(** ["- {content[:200]}..."] for each of the first three documents with text. *)
Fixpoint evidence_lines (docs : list pyval) : result (list string) :=
  match docs with
  | [] => Ok []
  | d :: docs' =>
    let! c := vget d "content" (VStr "") in
    let! t := if truthy c then Ok VNone else vget d "text" (VStr "") in
    let content := vor c (vor t (VStr "")) in
    let! rest := evidence_lines docs' in
    if truthy content then
      let! s := as_str content in Ok (cat ["- "; text_take 200 s; "..."] :: rest)
    else Ok rest
  end.

Definition first_docs (v : pyval) : result (list pyval) :=
  match v with VList l => Ok (py_take 3 l) | _ => Raise (TypeError "slice") end.

Definition fallback_node (ms : Z) (st : pystate) : result pydict :=
  let reason := sgetv st "termination_reason" (VStr "unknown") in
  let source := sgetv st "termination_source" (VStr "") in
  let message := sgetv st "fallback_message" (VStr "") in
  let evidence := sgetv st "evidence" (VList []) in
  let rag_docs := sgetv st "rag_docs" (VList []) in
  let db_result := sgetv st "db_result" (VDict []) in
  let web_docs := sgetv st "web_docs" (VList []) in
  let! source_part := if truthy source
                      then let! s := as_str source in Ok [cat ["（来源："; s; "）"]]
                      else Ok [] in
  let! message_part := if truthy message then as_str message else Ok DEFAULT_FALLBACK_MESSAGE in
  let available := vor evidence (vor rag_docs web_docs) in
  let! evidence_part :=
    if truthy available then
      let! lines := if truthy evidence then rbind (first_docs evidence) evidence_lines
                    else if truthy rag_docs then rbind (first_docs rag_docs) evidence_lines
                    else Ok [] in
      Ok (cat [nl; nl; "### 已获取的部分信息"] :: lines)
    else Ok [] in
  let! db_part :=
    if truthy db_result then
      let! rows := rbind (vget db_result "row_count" (VInt 0)) as_int in
      Ok (if (rows >? 0)%Z then [cat [nl; "- 数据库查询返回 "; pretty rows; " 条记录"]] else [])
    else Ok [] in
  Ok [("final_answer", VStr (join nl ([cat ["**"; reason_prefix reason; "**"]] ++ source_part
         ++ [cat [nl; message_part]] ++ evidence_part ++ db_part)));
      ("quality_decision", VStr "fallback"); timing "fallback" ms].

(** ** The answer node *)

Definition REJECTION_MESSAGES : list (string * string) :=
  [("zh_CN", "抱歉，根据现有参考资料无法回答您的问题。建议您提供更多相关信息。");
   ("zh_TW", "抱歉，根據現有參考資料無法回答您的問題。建議您提供更多相關資訊。");
   ("en", "I'm sorry, I cannot answer your question based on the available references. Please provide more relevant information.")].

Definition CONSERVATIVE_PREFIXES : list (string * string) :=
  [("zh_CN", cat ["根据现有参考资料，以下是相关信息："; nl; nl]);
   ("zh_TW", cat ["根據現有參考資料，以下是相關資訊："; nl; nl]);
   ("en", cat ["Based on the available references, here is the relevant information:"; nl; nl])].

(** [messages.get(lang, messages["zh_CN"])] *)
Definition by_lang (messages : list (string * string)) (lang : pyval) : string :=
  let default := get_or (dlookup "zh_CN" messages) "" in
  match lang with VStr l => get_or (dlookup l messages) default | _ => default end.

Definition get_rejection_message (lang : pyval) : string := by_lang REJECTION_MESSAGES lang.

Definition get_conservative_answer (merged_context lang : pyval) : result string :=
  if negb (truthy merged_context) then Ok (get_rejection_message lang)
  else let! s := as_str merged_context in
       Ok (String.append (by_lang CONSERVATIVE_PREFIXES lang) (text_take 2000 s)).

(** [len(x or [])] of a list-like field. *)
Definition vlen (v : pyval) : result pyval :=
  match v with
  | VList l => Ok (VInt (Z.of_nat (length l)))
  | VDict d => Ok (VInt (Z.of_nat (length d)))
  | VStr s => Ok (VInt (text_len s))
  | _ => if truthy v then Raise (TypeError "len") else Ok (VInt 0)
  end.

Definition issue_messages (issues : pyval) : result (list pyval) :=
  match vor issues (VList []) with
  | VList l => Ok (concat (map (fun i => match i with
                                         | VDict d => [get_or (dlookup "message" d) (VStr "")]
                                         | _ => []
                                         end) l))
  | VStr _ | VDict _ => Ok []
  | _ => Raise (TypeError "not iterable")
  end.

(** [_build_report_response] *)
Definition report_failed (st : pystate) (artifact : pyval) (issues : pyval) : result pydict :=
  let! title := vget artifact "title" (VStr "分析报告") in
  let! messages := issue_messages issues in
  let! report_id := vget artifact "report_id" (VStr "") in
  Ok [("type", VStr "report_failed"); ("title", title);
      ("summary", VStr "报告生成过程中发现部分数字无法与数据来源匹配，当前未导出正式报告。");
      ("issues", VList messages); ("action", VStr "regenerate"); ("report_id", report_id);
      ("publish_status", sgetv st "report_publish_status" (VStr "draft"));
      ("needs_human_review", sgetv st "report_needs_human_review" (VBool false))].

Definition report_generated (st : pystate) (artifact verification : pyval) : result pydict :=
  let get := vget artifact in
  let! title := get "title" (VStr "分析报告") in
  let! summary := get "summary" (sgetv st "report_summary" (VStr "")) in
  let! format := get "format" (VStr "markdown") in
  let! sections := rbind (get "sections" (VList [])) vlen in
  let! charts := rbind (get "charts" (VList [])) vlen in
  let! tables := rbind (get "tables" (VList [])) vlen in
  let! report_id := get "report_id" (VStr "") in
  let! partial := get "partial" VNone in
  let! passed := vget verification "passed" (VBool false) in
  let! score := vget verification "score" (VFloat 0) in
  let! publish := get "publish_status" (VStr "approved") in
  let! claims := vlen (sgetv st "report_claims" VNone) in
  let! sources := vlen (sgetv st "report_data_sources" VNone) in
  Ok [("type", VStr "report_generated"); ("title", title); ("summary", summary);
      ("download_url", sgetv st "report_download_url" (VStr ""));
      ("file_uri", sgetv st "report_file_uri" (VStr "")); ("format", format);
      ("sections", sections); ("charts", charts); ("tables", tables); ("report_id", report_id);
      ("partial", VBool (truthy (vor partial (sgetv st "report_partial" (VBool false)))));
      ("verification", VDict [("passed", passed); ("score", score)]);
      ("quality_score", sgetv st "report_quality_score" (VFloat 0));
      ("publish_status", sgetv st "report_publish_status" publish);
      ("needs_human_review",
        sgetv st "report_needs_human_review" (VBool (is_str publish "pending_review")));
      ("claim_count", claims); ("data_source_count", sources);
      ("human_review", vor (sgetv st "report_human_review" (VDict [])) (VDict []))].

Definition build_report_response (st : pystate) (artifacts : list pyval) : result pydict :=
  let artifact := match artifacts with a :: _ => a | [] => VDict [] end in
  let error_code := vor (sgetv st "report_error_code" (VStr "")) (VStr "") in
  let! v := vget artifact "verification_result" (VDict []) in
  let verification := vor v (VDict []) in
  let! issues := vget verification "issues" (VList []) in
  let! passed := vget verification "passed" (VBool true) in
  if is_str error_code "REPORT_VERIFICATION_FAILED" || (truthy verification && negb (truthy passed))
  then report_failed st artifact issues
  else report_generated st artifact verification.

Section answer_node.
(** [json.dumps(response, ensure_ascii=False, default=str)] *)
Variable json_dumps : pydict -> string.

Definition final_answer_node (ms : Z) (st : pystate) : result pydict :=
  let answer v := [("final_answer", v); timing "final_answer" ms] in
  let artifacts := vor (sgetv st "report_artifacts" VNone) (VList []) in
  if truthy artifacts then
    match artifacts with
    | VList l => let! r := build_report_response st l in Ok (answer (VStr (json_dumps r)))
    | _ => Raise (TypeError "report_artifacts")
    end
  else
    let action := sgetv st "hallucination_action" (VStr "pass") in
    let lang := sgetv st "query_lang" (VStr "zh_CN") in
    if is_str action "reject" then Ok (answer (VStr (get_rejection_message lang)))
    else if is_str action "exhausted" then
      let! s := get_conservative_answer (sgetv st "merged_context" (VStr "")) lang in
      Ok (answer (VStr s))
    else Ok (answer (vor (sgetv st "generated_answer" (VStr "")) (VStr ""))).
End answer_node.

(** ** Lemmas *)

Lemma sgetv_agree st st' k d :
  st !! k = st' !! k -> sgetv st k d = sgetv st' k d.
Proof. unfold sgetv. by intros ->. Qed.

(** Outside reports, the answer node is this case distinction. *)
Lemma final_answer_plain json ms st :
  truthy (vor (sgetv st "report_artifacts" VNone) (VList [])) = false ->
  final_answer_node json ms st =
    (let action := sgetv st "hallucination_action" (VStr "pass") in
     let lang := sgetv st "query_lang" (VStr "zh_CN") in
     let answer v := [("final_answer", v); timing "final_answer" ms] in
     if is_str action "reject" then Ok (answer (VStr (get_rejection_message lang)))
     else if is_str action "exhausted" then
       let! s := get_conservative_answer (sgetv st "merged_context" (VStr "")) lang in
       Ok (answer (VStr s))
     else Ok (answer (vor (sgetv st "generated_answer" (VStr "")) (VStr "")))).
Proof. unfold final_answer_node. cbn zeta. by intros ->. Qed.

(** Two states that differ at most in the given fields. *)
Definition same_but (keys : list string) (st st' : pystate) : Prop :=
  forall k, str_in k keys = false -> st !! k = st' !! k.

Lemma same_sgetv keys st st' k d :
  same_but keys st st' -> str_in k keys = false -> sgetv st k d = sgetv st' k d.
Proof. intros H Hk. by apply sgetv_agree, H. Qed.

(** The report answer reads neither the generated text nor the final answer. *)
Definition answer_keys : list string := ["generated_answer"; "final_answer"].

Ltac same_state H := rewrite ?(same_sgetv _ _ _ _ _ H) by reflexivity.

Lemma build_report_response_same st st' l :
  same_but answer_keys st st' -> build_report_response st l = build_report_response st' l.
Proof.
  intros H. unfold build_report_response, report_failed, report_generated. cbn zeta. same_state H.
  do 3 (apply rbind_ext; intros ?). destruct (_ || _).
  - do 3 (apply rbind_ext; intros ?). by same_state H.
  - do 13 (apply rbind_ext; intros ?). by same_state H.
Qed.

(** The node reads these fields only through the report, the gate's verdict, the
    language, the context and the generated text. *)
Lemma final_answer_same json ms st st' :
  same_but answer_keys st st' ->
  sgetv st "generated_answer" (VStr "") = sgetv st' "generated_answer" (VStr "") \/
    is_one_of (sgetv st "hallucination_action" (VStr "pass")) ["reject"; "exhausted"] = true ->
  final_answer_node json ms st = final_answer_node json ms st'.
Proof.
  intros H Hg. unfold final_answer_node. cbn zeta.
  rewrite <- (same_sgetv _ st st' "hallucination_action" _ H) by done.
  rewrite (same_sgetv _ st st' "report_artifacts" _ H), (same_sgetv _ st st' "query_lang" _ H),
    (same_sgetv _ st st' "merged_context" _ H) by done.
  destruct (truthy (vor _ _)).
  - destruct (vor _ _); try done. by rewrite (build_report_response_same st st').
  - destruct Hg as [->|Ha]; [done|]. cbn in Ha. destruct (is_str _ "reject"); [done|].
    by destruct (is_str _ "exhausted").
Qed.

(** ** Properties *)

(** A refused or exhausted answer is not shown: the node's result does not
    depend on the generated text. *)
Theorem refusal_hides_answer json ms st st' action :
  sgetv st "hallucination_action" (VStr "pass") = VStr action -> action ∈ ["reject"; "exhausted"] ->
  same_but ["generated_answer"] st st' ->
  final_answer_node json ms st = final_answer_node json ms st'.
Proof.
  intros Ha Hin H. apply final_answer_same.
  - intros k Hk. apply H. cbn in *. by destruct (String.eqb k "generated_answer").
  - right. rewrite Ha. by list_cases Hin; subst.
Qed.

(** The answer node does not read the text that the renderer or the fallback
    node left as the final answer: whatever it was, it is replaced. *)
Theorem written_answer_discarded json ms st st' :
  same_but ["final_answer"] st st' -> final_answer_node json ms st = final_answer_node json ms st'.
Proof.
  intros H. apply final_answer_same.
  - intros k Hk. apply H. cbn in *. by destruct (String.eqb k "generated_answer"), (String.eqb k "final_answer").
  - left. by apply (same_sgetv _ _ _ _ _ H).
Qed.

(** ** Instances *)

Definition refused (text : string) : pystate :=
  <["hallucination_action" := VStr "reject"]> {["generated_answer" := VStr text]}.

Lemma refusal_hides_answer_witness :
  final_answer_node (fun _ => "") 0 (refused "a") = final_answer_node (fun _ => "") 0 (refused "b").
Proof.
  refine (refusal_hides_answer (fun _ => "") 0 (refused "a") (refused "b") "reject" eq_refl _ _); [set_solver|].
  intros k Hk. unfold refused. destruct (decide (k = "hallucination_action")) as [->|]; [done|].
  rewrite !lookup_insert_ne by done. destruct (decide (k = "generated_answer")) as [->|]; [done|].
  by rewrite !lookup_singleton_ne.
Defined.

Definition answered (text final : string) : pystate :=
  <["generated_answer" := VStr text]> {["final_answer" := VStr final]}.

Lemma written_answer_discarded_witness :
  final_answer_node (fun _ => "") 0 (answered "raw" "rendered") = final_answer_node (fun _ => "") 0 (answered "raw" "").
Proof.
  refine (written_answer_discarded (fun _ => "") 0 (answered "raw" "rendered") (answered "raw" "") _).
  intros k Hk. unfold answered. destruct (decide (k = "generated_answer")) as [->|]; [done|].
  rewrite !lookup_insert_ne by done. destruct (decide (k = "final_answer")) as [->|]; [done|].
  by rewrite !lookup_singleton_ne.
Defined.
