(* ===== verification/ToolNodes.v ===== *)
(** * Entry, tool and generation nodes (nodes/user_question.py,
    nodes/clarification.py, nodes/rag_tool_node.py, nodes/db_tool_node.py,
    nodes/web_tool_node.py, nodes/rest_tool_node.py, nodes/graph_tool_node.py,
    nodes/llm_generate.py)

    Each node builds the request of a tool, calls it and turns the reply into
    state fields.  The tools themselves are arguments: a reply, or an exception.
    Objects (a route decision, a plan step) are dictionaries of their fields. *)

From S2P Require Import Prelude PyFloat PyVal PyList PyText AgentState Config AnswerAst FinalAnswer.

(** Attribute access on an object given by its fields. *)
Definition vattr (v : pyval) (k : string) : result pyval :=
  match v with
  | VDict d => match dlookup k d with Some x => Ok x | None => Raise (AttributeError k) end
  | _ => Raise (AttributeError k)
  end.

(** [state.get("agent_config", {}) or {}] and a section of it. *)
Definition agent_config_of (st : pystate) : pyval := vor (sgetv st "agent_config" (VDict [])) (VDict []).
Definition config_section (st : pystate) (section : string) : result pyval :=
  let! c := vget (agent_config_of st) section (VDict []) in Ok (vor c (VDict [])).

(** ** Entry *)

Section user_question.
Variable detect_query_language : pyval -> string * string.
Variable get_query_simplified : pyval -> string -> string.

Definition user_question_node (ms : Z) (trace_id : string) (graph_start_time : Q) (st : pystate) : result pydict :=
  let user_question := sgetv st "user_question" (VStr "") in
  if negb (truthy user_question) then
    Ok [("user_question", VStr ""); ("query_lang", VStr "zh_CN"); ("query_simplified", VStr "");
        ("route_target", VStr "chitchat"); ("retry_count", VInt 0); ("max_retries", VInt 3);
        ("trace_id", VStr trace_id); ("graph_start_time", VFloat graph_start_time);
        ("react_enabled", VBool false); timing "question_input" ms]
  else
    let (query_lang, historical_lang) := detect_query_language user_question in
    let! react_config := config_section st "react" in
    let react_enabled := match react_config with
                         | VDict d => get_or (dlookup "enabled" d) (VBool false)
                         | _ => VBool false
                         end in
    Ok [("user_question", user_question); ("query_lang", VStr query_lang);
        ("query_simplified", VStr (get_query_simplified user_question historical_lang));
        ("retry_count", VInt 0); ("max_retries", VInt 3); ("trace_id", VStr trace_id);
        ("graph_start_time", VFloat graph_start_time); ("react_enabled", react_enabled);
        timing "question_input" ms].
End user_question.

(** ** Clarification *)

Definition DEFAULT_CLARIFICATION : string := "您的问题不够明确，请补充更多细节以便我更好地为您服务。".

(** [interrupt] suspends the run and gives the user's answer; [None] when the
    library has no such function.  The question must be a text, which is what
    the entry node writes. *)
Definition clarification_node (interrupt : pyval -> option pyval) (ms : Z) (st : pystate) : result pydict :=
  let route_decision := sgetv st "route_decision" VNone in
  if negb (truthy route_decision) then
    Ok [("route_target", VStr "chitchat"); timing "clarification" ms]
  else
    let! m := vattr route_decision "metadata" in
    let metadata := vor m (VDict []) in
    let! question := vget metadata "clarification_question" (VStr DEFAULT_CLARIFICATION) in
    let! options := vget metadata "clarification_options" (VList []) in
    let original := sgetv st "user_question" (VStr "") in
    let request := VDict [("question", question); ("options", options); ("original_question", original)] in
    match interrupt request with
    | None =>
      let! target := vattr route_decision "target" in
      Ok [("route_target", target); ("clarification_request", request); timing "clarification" ms]
    | Some user_answer =>
      let! new_question :=
        match user_answer with
        | VStr a =>
          if negb (truthy a) then Ok original
          else if (text_len a <? 50)%Z then
            let! q := as_str original in Ok (VStr (cat [q; "（补充说明："; a; "）"]))
          else Ok (VStr a)
        | _ => Ok original
        end in
      Ok [("user_question", new_question);
          ("clarification_context", match user_answer with VStr a => VStr a | _ => VStr "" end);
          ("clarification_request", request); ("route_target", VStr ""); ("route_decision", VNone);
          timing "clarification" ms]
    end.

(** ** Retrieval *)

(** How a retrieval ends: a reply, a business error that the node re-raises, or
    another exception. *)
Inductive rag_outcome : Type :=
  | RagReply (v : pyval)
  | RetrievalDataError
  | RagFailed.

Definition empty_rag_state (ms : Z) : pydict :=
  [("rag_docs", VList []); ("rag_quality_score", VFloat 0); ("rag_has_relevant", VBool false);
   ("rag_relevant_count", VInt 0); ("rag_top_score", VFloat 0); ("rag_score_source", VStr "base");
   ("retrieval_error_code", VStr ""); ("retrieval_mode_used", VStr ""); timing "rag_tool" ms].

Definition rag_input (st : pystate) : result pydict :=
  let user_question := sgetv st "user_question" (VStr "") in
  let query_simplified := sgetv st "query_simplified" (VStr "") in
  let! cfg := config_section st "rag_config" in
  let route_decision := vor (sgetv st "route_decision" (VDict [])) (VDict []) in
  let recommended := match route_decision with
                     | VDict d => get_or (dlookup "kb_ids" d) (VList [])
                     | _ => VList []
                     end in
  let! top_k := vget cfg "top_k" (VInt 5) in
  let! rewrite := vget cfg "enable_rewrite" (VBool true) in
  let! rerank := vget cfg "enable_rerank" (VBool true) in
  let! cross := vget cfg "cross_languages" (VList []) in
  let! threshold := vget cfg "similarity_threshold" (VFloat (rnd (2 # 10))) in
  let! weight := vget cfg "keywords_similarity_weight" (VFloat (rnd (5 # 10))) in
  let! rerank_id := vget cfg "rerank_id" (VStr "") in
  Ok [("query", user_question); ("query_simplified", vor query_simplified user_question);
      ("top_k", top_k); ("enable_rewrite", rewrite); ("enable_rerank", rerank);
      ("kb_ids", if truthy recommended then recommended else sgetv st "kb_ids" (VList []));
      ("tenant_id", sgetv st "tenant_id" (VStr "")); ("llm_id", sgetv st "llm_id" (VStr ""));
      ("cross_languages", cross); ("similarity_threshold", threshold);
      ("keywords_similarity_weight", weight); ("rerank_id", rerank_id);
      ("retry_count", sgetv st "retry_count" (VInt 0))].

(** [sum(len(d.get("content", "")) for d in docs)] *)
Fixpoint content_chars (docs : list pyval) : result Z :=
  match docs with
  | [] => Ok 0%Z
  | d :: docs' =>
    let! c := rbind (vget d "content" (VStr "")) as_str in
    let! rest := content_chars docs' in Ok (text_len c + rest)%Z
  end.

Definition rag_reply_state (ms : Z) (st : pystate) (reply : pyval) : result pydict :=
  let! docs := rbind (vget reply "docs" (VList [])) (as_list Ok) in
  let! chars := content_chars docs in
  let! used := sget as_int st "retry_token_used" 0%Z in
  let! score := vget reply "quality_score" (VFloat 0) in
  let! has_relevant := vget reply "has_relevant" (VBool false) in
  let! relevant_count := vget reply "relevant_count" (VInt 0) in
  let! top_score := vget reply "top_score" (VFloat 0) in
  let! source := vget reply "score_source" (VStr "base") in
  let! lang := vget reply "detected_lang" (sgetv st "query_lang" (VStr "zh_CN")) in
  let! simplified := vget reply "query_simplified" (sgetv st "query_simplified" (VStr "")) in
  let! error_code := vget reply "retrieval_error_code" (VStr "") in
  let! mode := vget reply "retrieval_mode_used" (VStr "") in
  Ok [("rag_docs", VList docs); ("rag_quality_score", score); ("rag_has_relevant", has_relevant);
      ("rag_relevant_count", relevant_count); ("rag_top_score", top_score);
      ("rag_score_source", source); ("query_lang", lang); ("query_simplified", simplified);
      ("retrieval_error_code", error_code); ("retrieval_mode_used", mode);
      ("retry_token_used", VInt (used + chars / 4)); timing "rag_tool" ms].

Definition rag_tool_node (invoke : pydict -> rag_outcome) (ms : Z) (st : pystate) : result pydict :=
  if negb (truthy (sgetv st "user_question" (VStr ""))) then Ok (empty_rag_state ms)
  else
    let! input := rag_input st in
    match invoke input with
    | RagReply v => match rag_reply_state ms st v with
                    | Ok u => Ok u
                    | Raise _ => Ok (empty_rag_state ms)
                    end
    | RetrievalDataError => Raise (OtherError "RetrievalDataError")
    | RagFailed => Ok (empty_rag_state ms)
    end.

(** ** Databases *)

Definition db_return (ms : Z) (db_result score : pyval) : pydict :=
  [("db_result", db_result); ("db_quality_score", score); timing "db_tool" ms].

Definition optional_entry (k : string) (v : pyval) : pydict := if truthy v then [(k, v)] else [].

Definition db_input (st : pystate) : result pydict :=
  let user_question := sgetv st "user_question" (VStr "") in
  let! cfg := config_section st "database_config" in
  let! healing := vget cfg "enable_self_healing" (VBool true) in
  let! template := vget cfg "enable_template" (VBool true) in
  let! mode := vget cfg "exploration_mode" VNone in
  let! sql_agent := vget cfg "sql_agent_config" VNone in
  Ok ([("query", user_question);
       ("query_simplified", vor (sgetv st "query_simplified" (VStr "")) user_question);
       ("query_lang", sgetv st "query_lang" (VStr "zh_CN")); ("db_id", sgetv st "db_id" (VStr ""));
       ("tenant_id", sgetv st "tenant_id" (VStr "")); ("llm_id", sgetv st "llm_id" (VStr ""));
       ("mcp_server_name", sgetv st "mcp_server_name" (VStr "database_mcp_server"));
       ("enable_self_healing", healing); ("enable_template", template)]
      ++ optional_entry "exploration_mode" mode ++ optional_entry "sql_agent_config" sql_agent).

Definition db_tool_node (invoke : pydict -> result pyval) (ms : Z) (st : pystate) : result pydict :=
  if negb (truthy (sgetv st "db_tool_enabled" (VBool true)))
     || negb (truthy (sgetv st "user_question" (VStr "")))
  then Ok (db_return ms (VDict []) (VFloat 0))
  else
    let! input := db_input st in
    match (let! reply := invoke input in
           let! score := vget reply "quality_score" (VFloat 0) in Ok (db_return ms reply score)) with
    | Ok u => Ok u
    | Raise _ => Ok (db_return ms (VDict []) (VFloat 0))
    end.

(** ** Web *)

Definition web_return (ms : Z) (docs : pyval) : pydict := [("web_docs", docs); timing "web_tool" ms].

Definition web_tool_node (invoke : pydict -> result pyval) (ms : Z) (st : pystate) : result pydict :=
  let user_question := sgetv st "user_question" (VStr "") in
  if negb (truthy user_question) then Ok (web_return ms (VList []))
  else
    let! cfg := config_section st "web_config" in
    let! engine := vget cfg "search_engine" (VStr "tavily") in
    let! max_results := vget cfg "max_results" (VInt 6) in
    let! api_key := vget cfg "api_key" (VStr "") in
    let input := [("query", user_question); ("query_lang", sgetv st "query_lang" (VStr "zh_CN"));
                  ("search_engine", engine); ("max_results", max_results); ("api_key", api_key)] in
    match (let! reply := invoke input in let! docs := vget reply "docs" (VList []) in Ok (web_return ms docs)) with
    | Ok u => Ok u
    | Raise _ => Ok (web_return ms (VList []))
    end.

(** ** REST calls and graph questions *)

(** The arguments of the first step of the plan for a tool, if there is a plan
    with steps: [Ok None] without a plan, [Ok (Some None)] without such a step. *)
Fixpoint first_step (tool : string) (steps : list pyval) : result (option pyval) :=
  match steps with
  | [] => Ok None
  | s :: rest =>
    let! t := vattr s "tool" in
    let! found := first_step tool rest in
    Ok (if is_str t tool then Some s else found)
  end.

Definition plan_step_args (st : pystate) (tool : string) : result (option (option pyval)) :=
  let plan := sgetv st "execution_plan" VNone in
  if negb (truthy plan) then Ok None
  else
    let! steps := vattr plan "steps" in
    if negb (truthy steps) then Ok None
    else
      let! l := as_list Ok steps in
      let! step := first_step tool l in
      match step with
      | Some s => let! a := vattr s "args" in Ok (Some (Some a))
      | None => Ok (Some None)
      end.

Definition route_metadata (st : pystate) : result pyval :=
  let route_decision := sgetv st "route_decision" VNone in
  if truthy route_decision then vattr route_decision "metadata" else Ok (VDict []).

Definition rest_params (st : pystate) : result pydict :=
  let user_question := sgetv st "user_question" (VStr "") in
  let! plan := plan_step_args st "rest" in
  match plan with
  | Some (Some args) =>
    let! query := vattr args "query" in
    let! function := vattr args "function" in
    let! function_params := vattr args "function_params" in
    let! endpoint := vattr args "rest_endpoint" in
    let! method := vattr args "rest_method" in
    let! payload := vattr args "rest_payload" in
    let! domain := vattr args "erp_domain" in
    Ok [("query", vor query user_question); ("function", vor function (VStr ""));
        ("function_params", vor function_params (VDict [])); ("rest_endpoint", endpoint);
        ("rest_method", vor method (VStr "GET")); ("rest_payload", payload); ("erp_domain", domain)]
  | Some None =>
    Ok [("query", user_question); ("function", VStr ""); ("function_params", VDict []);
        ("rest_endpoint", VStr ""); ("rest_method", VStr "GET"); ("rest_payload", VNone);
        ("erp_domain", VStr "")]
  | None =>
    let! metadata := route_metadata st in
    let! function := vget metadata "function" (VStr "") in
    let! function_params := vget metadata "function_params" (VDict []) in
    let! endpoint := vget metadata "rest_endpoint" (VStr "") in
    let! method := vget metadata "rest_method" (VStr "GET") in
    let! payload := vget metadata "rest_payload" VNone in
    let! domain := vget metadata "erp_domain" (VStr "") in
    Ok [("query", user_question); ("function", function); ("function_params", function_params);
        ("rest_endpoint", endpoint); ("rest_method", method); ("rest_payload", payload);
        ("erp_domain", domain)]
  end.

Definition rest_tool_node (invoke : pydict -> result pyval) (ms : Z) (st : pystate) : result pydict :=
  let! params := rest_params st in
  let! reply := invoke (params ++
    [("query_simplified", sgetv st "query_simplified" (VStr ""));
     ("query_lang", sgetv st "query_lang" (VStr "zh_CN")); ("tenant_id", sgetv st "tenant_id" (VStr ""));
     ("llm_id", sgetv st "llm_id" (VStr ""));
     ("mcp_server_name", sgetv st "mcp_server_name" (VStr "erp_mcp_server"))]) in
  let! status := vget reply "rest_status_code" (VInt 0) in
  let! response := vget reply "rest_response" (VDict []) in
  let! text := vget reply "rest_response_text" (VStr "") in
  let! docs := vget reply "docs" (VList []) in
  let! endpoint := vget reply "rest_endpoint" (VStr "") in
  let! method := vget reply "rest_method" (VStr "GET") in
  let! domain := vget reply "erp_domain" (VStr "") in
  let! score := vget reply "quality_score" (VFloat 0) in
  let! iteration := sget as_int st "agent_iteration_count" 1%Z in
  Ok [("rest_result", VDict [("status_code", status); ("response", response); ("response_text", text);
         ("docs", docs); ("endpoint", endpoint); ("method", method); ("erp_domain", domain)]);
      ("rest_quality_score", score); ("agent_iteration_count", VInt (iteration + 1));
      timing "rest_tool" ms].

Definition graph_params (st : pystate) : result pydict :=
  let user_question := sgetv st "user_question" (VStr "") in
  let! plan := plan_step_args st "graph" in
  match plan with
  | Some (Some args) =>
    let! query := vattr args "query" in
    let! source_type := vattr args "source_type" in
    let! enable_pg := vattr args "enable_pg" in
    let! max_rows := vattr args "max_rows" in
    let! max_chars := vattr args "max_result_chars" in
    let! hybrid := vattr args "enable_hybrid_retrieval" in
    let! timeout := vattr args "timeout_ms" in
    Ok [("query", vor query user_question); ("source_type", vor source_type (VStr "Meeting"));
        ("max_rows", max_rows); ("max_result_chars", max_chars); ("enable_hybrid_retrieval", hybrid);
        ("enable_pg", enable_pg); ("timeout_ms", timeout)]
  | Some None =>
    Ok [("query", user_question); ("source_type", VStr "Meeting"); ("max_rows", VInt 20);
        ("max_result_chars", VInt 12000); ("enable_hybrid_retrieval", VBool false);
        ("enable_pg", VBool false); ("timeout_ms", VInt 30000)]
  | None =>
    let! metadata := route_metadata st in
    let! source_type := vget metadata "source_type" (VStr "Meeting") in
    let! enable_pg := vget metadata "enable_pg" (VBool false) in
    let! max_rows := vget metadata "max_rows" (VInt 20) in
    let! max_chars := vget metadata "max_result_chars" (VInt 12000) in
    let! hybrid := vget metadata "enable_hybrid_retrieval" (VBool false) in
    let! timeout := vget metadata "timeout_ms" (VInt 30000) in
    Ok [("query", user_question); ("source_type", source_type); ("max_rows", max_rows);
        ("max_result_chars", max_chars); ("enable_hybrid_retrieval", hybrid);
        ("enable_pg", enable_pg); ("timeout_ms", timeout)]
  end.

(** The fields copied from the reply, with their defaults. *)
Definition graph_fields : list (string * pyval) :=
  [("answer", VStr ""); ("rows", VList []); ("row_count", VInt 0); ("error", VStr "");
   ("quality_score", VFloat 0); ("repair_trace", VList []); ("query_stats", VDict []);
   ("planner", VDict []); ("cypher_query", VStr ""); ("cypher_params", VDict []);
   ("pg_rows", VList []); ("pg_row_count", VInt 0); ("pg_query_log", VList []);
   ("pg_query_stats", VDict []); ("pg_repair_trace", VList [])].

Definition graph_tool_node (invoke : pyval -> pydict -> result pyval) (ms : Z) (st : pystate) : result pydict :=
  let! params := graph_params st in
  let! cfg := config_section st "graph_config" in
  let! base_url := vget cfg "base_url" VNone in
  let! reply := invoke base_url (params ++
    [("query_simplified", sgetv st "query_simplified" (VStr ""));
     ("tenant_id", sgetv st "tenant_id" (VStr "")); ("llm_id", sgetv st "llm_id" (VStr ""))]) in
  let! fields := rmap (fun kd => let! v := vget reply kd.1 kd.2 in Ok (kd.1, v)) graph_fields in
  let! score := vget reply "quality_score" (VFloat 0) in
  let! row_count := vget reply "row_count" (VInt 0) in
  let! rows := as_int row_count in
  let! iteration := sget as_int st "agent_iteration_count" 1%Z in
  Ok [("graph_result", VDict fields); ("graph_quality_score", score);
      ("graph_score_source", VStr "graph"); ("graph_has_result", VBool (rows >? 0)%Z);
      ("graph_row_count", row_count); ("agent_iteration_count", VInt (iteration + 1));
      timing "graph_tool" ms].

(** ** Generation *)

(** [chat] is the outcome of resolving the model and calling it: [Ok None] when
    no model is configured. *)
Definition llm_generate_node (chat : pyval -> pyval -> pyval -> result (option pyval))
    (ms : Z) (st : pystate) : result pydict :=
  let return_answer v := Ok [("generated_answer", v); timing "llm_generate" ms] in
  let final_prompt := sgetv st "final_prompt" (VStr "") in
  if negb (truthy final_prompt) then return_answer (VStr "")
  else
    match (let! reply := chat (sgetv st "tenant_id" (VStr "")) (sgetv st "llm_id" (VStr "")) final_prompt in
           match reply with
           | None => Ok (VStr "")
           | Some answer =>
             if negb (truthy answer) then Ok (VStr "")
             else let! s := as_str answer in
                  Ok (if contains "**ERROR**" s then VStr "" else answer)
           end) with
    | Ok v => return_answer v
    | Raise _ => return_answer (VStr "")
    end.

(** ** The fields a node may write *)

Definition writes_only (ks : list string) (u : pydict) : Prop := forall k, k ∉ ks -> dlookup k u = None.

Lemma writes_only_keys u ks : u.*1 ⊆ ks -> writes_only ks u.
Proof.
  intros H k Hk. induction u as [|[k' v] u IH]; cbn [dlookup]; [done|].
  destruct (String.eqb_spec k k') as [<-|Hne].
  - exfalso. apply Hk, H. by left.
  - apply IH. intros x Hx. apply H. by right.
Qed.

Lemma writes_only_incl ks ks' u : writes_only ks u -> ks ⊆ ks' -> writes_only ks' u.
Proof. intros H Hi k Hk. apply H. intros Hin. by apply Hk, Hi. Qed.

(** A literal dictionary writes only its keys, by computation. *)
Lemma writes_only_compute ks u :
  forallb (fun kv => str_in kv.1 ks) u = true -> writes_only ks u.
Proof.
  rewrite forallb_true_forall. intros H. apply writes_only_keys. intros k Hk.
  apply list_elem_of_fmap in Hk as ([k' v] & -> & Hin). by apply str_in_spec, (H _ Hin).
Qed.

Ltac literal_writes :=
  match goal with H : Ok _ = Ok _ |- _ => apply Ok_inj in H; subst end;
  apply writes_only_compute; reflexivity.

Definition user_question_writes : list string :=
  ["user_question"; "query_lang"; "query_simplified"; "route_target"; "retry_count"; "max_retries";
   "trace_id"; "graph_start_time"; "react_enabled"; "node_timings"].
Definition clarification_writes : list string :=
  ["user_question"; "clarification_context"; "clarification_request"; "route_target"; "route_decision";
   "node_timings"].
Definition rag_tool_writes : list string :=
  ["rag_docs"; "rag_quality_score"; "rag_has_relevant"; "rag_relevant_count"; "rag_top_score";
   "rag_score_source"; "query_lang"; "query_simplified"; "retrieval_error_code"; "retrieval_mode_used";
   "retry_token_used"; "node_timings"].
Definition db_tool_writes : list string := ["db_result"; "db_quality_score"; "node_timings"].
Definition web_tool_writes : list string := ["web_docs"; "node_timings"].
Definition rest_tool_writes : list string :=
  ["rest_result"; "rest_quality_score"; "agent_iteration_count"; "node_timings"].
Definition graph_tool_writes : list string :=
  ["graph_result"; "graph_quality_score"; "graph_score_source"; "graph_has_result"; "graph_row_count";
   "agent_iteration_count"; "node_timings"].
Definition llm_generate_writes : list string := ["generated_answer"; "node_timings"].

Lemma user_question_writes_only d s ms t g st u :
  user_question_node d s ms t g st = Ok u -> writes_only user_question_writes u.
Proof.
  unfold user_question_node. intros H. destruct (negb _); [literal_writes|].
  destruct (d _). inv_ok H. literal_writes.
Qed.

Lemma clarification_writes_only i ms st u :
  clarification_node i ms st = Ok u -> writes_only clarification_writes u.
Proof.
  unfold clarification_node. intros H. destruct (negb _); [literal_writes|].
  inv_ok H. destruct (i _); inv_ok H; literal_writes.
Qed.

Lemma rag_tool_writes_only i ms st u :
  rag_tool_node i ms st = Ok u -> writes_only rag_tool_writes u.
Proof.
  unfold rag_tool_node. intros H. destruct (negb _); [literal_writes|].
  inv_ok H. destruct (i _); [|done|literal_writes].
  destruct (rag_reply_state _ _ _) eqn:E; [|literal_writes].
  apply Ok_inj in H as <-. unfold rag_reply_state in E. inv_ok E. literal_writes.
Qed.

Lemma db_tool_writes_only i ms st u :
  db_tool_node i ms st = Ok u -> writes_only db_tool_writes u.
Proof.
  unfold db_tool_node. intros H. destruct (_ || _); [literal_writes|]. inv_ok H.
  destruct (rbind _ _) eqn:E; [|literal_writes]. inv_ok E. apply Ok_inj in H as <-. literal_writes.
Qed.

Lemma web_tool_writes_only i ms st u :
  web_tool_node i ms st = Ok u -> writes_only web_tool_writes u.
Proof.
  unfold web_tool_node. intros H. destruct (negb _); [literal_writes|]. inv_ok H.
  destruct (rbind _ _) eqn:E; [|literal_writes]. inv_ok E. apply Ok_inj in H as <-. literal_writes.
Qed.

Lemma rest_tool_writes_only i ms st u :
  rest_tool_node i ms st = Ok u -> writes_only rest_tool_writes u.
Proof. unfold rest_tool_node. intros H. inv_ok H. literal_writes. Qed.

Lemma graph_tool_writes_only i ms st u :
  graph_tool_node i ms st = Ok u -> writes_only graph_tool_writes u.
Proof. unfold graph_tool_node. intros H. inv_ok H. literal_writes. Qed.

Lemma llm_generate_writes_only c ms st u :
  llm_generate_node c ms st = Ok u -> writes_only llm_generate_writes u.
Proof.
  unfold llm_generate_node. cbn zeta. intros H. destruct (negb _); [literal_writes|].
  destruct (rbind _ _); literal_writes.
Qed.
