(* ===== verification/TokenBudget.v ===== *)
(** * The token budget (evidence/token_budget.py)

    How much room the retrieved material has in the prompt: counting, the level
    of compression, the compression of documents and rows, and the assembly of
    evidence under a quota per source.  The tokenizer, the summarising model
    and the decimal text of floats are arguments. *)

From stdpp Require Import pretty.
From S2P Require Import Prelude PyFloat PyVal PyList PyText AgentState Evidence.
From Stdlib Require Import Ascii.

(** ** Constants *)

Definition DEFAULT_MODEL_WINDOW : Z := 128000.
Definition MODEL_WINDOW_RATIO : Q := rnd (17 # 20).
Definition OUTPUT_RESERVE_TOKENS : Z := 2000.
Definition PER_TOOL_EXEMPTION_TOKENS : Z := 30000.
Definition OVERFLOW_THRESHOLDS : list (string * Q) := [("light", rnd (3 # 10)); ("moderate", rnd (4 # 5)); ("severe", rnd (3 # 2))].
Definition COMPRESS_LEVELS : list (string * option string) :=
  [("normal", None); ("light", None); ("moderate", Some "moderate"); ("severe", Some "severe"); ("compact", Some "compact")].
Definition SOURCE_ORDER : list string := ["rag"; "db"; "web"; "report"].

(** [int(q)] of a float, and of the quotient of two integers. *)
Definition trunc (q : Q) : Z := if Qle_bool 0 q then Qfloor q else (- Qfloor (- q))%Z.
Definition true_div (a b : Z) : Q := rnd (inject_Z a / inject_Z b).

Record TokenBudgetScheduler : Type := mkScheduler { ts_total_budget : Z }.

(** [total_budget or int(window * ratio)] *)
Definition init_scheduler (total_budget : option Z) : TokenBudgetScheduler :=
  mkScheduler (match total_budget with
               | Some b => if (b =? 0)%Z then trunc (fmul (inject_Z DEFAULT_MODEL_WINDOW) MODEL_WINDOW_RATIO) else b
               | None => trunc (fmul (inject_Z DEFAULT_MODEL_WINDOW) MODEL_WINDOW_RATIO)
               end).

Section scheduler.
(** [encoder.encode]; [{x:.2f}], [str] of a float, and [float] of a text. *)
Context (encode : string -> option (list Z)) (format2 : Q -> string) (float_repr : Q -> string) (float_of_text : string -> option Q).

Definition num_tokens_from_string (s : string) : Z := match encode s with Some codes => py_len codes | None => 0 end.

(** A value that is not a text makes the encoder raise. *)
Definition num_tokens (v : pyval) : Z := match v with VStr s => num_tokens_from_string s | _ => 0 end.

(** ** Counting *)

Definition doc_tokens (docs : list pydict) : Z :=
  fold_left (fun acc doc => (acc + num_tokens (get_or (dlookup "content" doc) (VStr "")))%Z) docs 0%Z.

Definition row_tokens (rows : list pyval) : Z :=
  fold_left (fun acc row => (acc + num_tokens_from_string (py_str float_repr row))%Z) rows 0%Z.

Definition counted (tool : string) (tokens : Z) : list (string * Z) := if (0 <? tokens)%Z then [(tool, tokens)] else [].

(** The documents under a key of the state, [state.get(k, []) or []]. *)
Definition state_docs (k : string) (st : pystate) : result (list pydict) :=
  let! items := py_iter (vor (sgetv st k (VList [])) (VList [])) in rmap as_dict items.

Definition count_tool_tokens (st : pystate) : result (list (string * Z)) :=
  let! rag_docs := state_docs "rag_docs" st in
  let! rows := vget (vor (sgetv st "db_result" VNone) (VDict [])) "rows" (VList []) in
  let! rows := py_iter rows in
  let! web_docs := state_docs "web_docs" st in
  Ok (counted "rag" (doc_tokens rag_docs) ++ counted "db" (row_tokens rows) ++ counted "web" (doc_tokens web_docs)).

Definition total (counts : list (string * Z)) : Z := fold_left Z.add (map snd counts) 0%Z.

Definition calculate_overflow_ratio (s : TokenBudgetScheduler) (tool_token_counts : list (string * Z)) (locked_tokens : Z) : result Q :=
  let total_evidence := total tool_token_counts in
  let available := (ts_total_budget s - locked_tokens - OUTPUT_RESERVE_TOKENS)%Z in
  if (total_evidence <=? available)%Z then Ok 0%Q
  else if (available =? 0)%Z then Raise (OtherError "ZeroDivisionError")
  else Ok (true_div (total_evidence - available) available).

Definition threshold (level : string) : Q := get_or (dlookup level OVERFLOW_THRESHOLDS) 0%Q.

Definition determine_level (overflow_ratio : Q) : string :=
  if fle overflow_ratio 0 then "normal"
  else if fle overflow_ratio (threshold "light") then "light"
  else if fle overflow_ratio (threshold "moderate") then "moderate"
  else if fle overflow_ratio (threshold "severe") then "severe"
  else "compact".

Definition is_overflown (kv : string * Z) : bool := (kv.2 >? PER_TOOL_EXEMPTION_TOKENS)%Z.

Definition identify_overflown_tools (tool_token_counts : list (string * Z)) : list string * list string :=
  (map fst (List.filter is_overflown tool_token_counts),
   map fst (List.filter (fun kv => negb (is_overflown kv)) tool_token_counts)).

(** ** Compressing documents

    The model gets the key of the prompt, the question and the text, and
    answers or fails. *)
Definition IRRELEVANT : string := "无相关内容".

Definition compress_one (llm : string -> string -> string -> option string) (prompt_key question : string) (chunk : pydict) : result pydict :=
  let content := get_or (dlookup "content" chunk) (VStr "") in
  let tokens := num_tokens content in
  if (tokens <? 100)%Z then Ok chunk
  else
    let! text := as_str content in
    match llm prompt_key question text with
    | None => Ok chunk
    | Some response =>
      let compressed := strip response in
      let compressed_tokens := num_tokens_from_string compressed in
      if flt (fmul (inject_Z tokens) (rnd (9 # 10))) (inject_Z compressed_tokens) then Ok chunk
      else if contains IRRELEVANT compressed then Ok (dset "compressed" (VBool true) (dset "content" (VStr "") chunk))
      else Ok (dset "compression_ratio" (VFloat (true_div compressed_tokens tokens))
                (dset "compressed" (VBool true) (dset "content" (VStr compressed) chunk)))
    end.

Definition compress_rag_chunks (llm : string -> string -> string -> option string) (chunks : list pydict) (question level : string)
    : result (list pydict) :=
  match dlookup level COMPRESS_LEVELS with
  | Some (Some prompt_key) => rmap (compress_one llm prompt_key question) chunks
  | _ => Ok chunks
  end.

(** ** Compressing rows *)

(** [str(row.get(c, ""))] *)
Definition cell (row : pydict) (c : string) : string := py_str float_repr (get_or (dlookup c row) (VStr "")).

Definition newline : string := String (ascii_of_nat 10) "".

Definition format_db_table (rows : list pydict) (columns : list string) : string :=
  match rows with
  | [] => "（空结果）"
  | _ =>
    join newline [join "" ["| "; join " | " columns; " |"];
                  join "" ["|"; join "|" (map (fun _ => "---") columns); "|"];
                  join newline (map (fun row => join "" ["| "; join " | " (map (cell row) columns); " |"]) rows)]
  end.

Fixpoint compact_lines (i : Z) (rows : list pydict) (columns : list string) : list string :=
  match rows with
  | [] => []
  | row :: rows' =>
    join "" ["["; pretty i; "] "; join ", " (map (fun c => join "=" [c; cell row c]) columns)] :: compact_lines (i + 1) rows' columns
  end.

Definition format_compact_rows (rows : list pydict) (columns : list string) : string := join newline (compact_lines 1 rows columns).

(** The cells of a column that are present and not [None]. *)
Definition column_values (rows : list pydict) (col : string) : list pyval :=
  concat (map (fun row => match dlookup col row with Some VNone | None => [] | Some v => [v] end) rows).

Definition is_text_column (rows : list pydict) (col : string) : bool :=
  let lengths := map (fun v => text_len (py_str float_repr v)) (column_values rows col) in
  match lengths with
  | [] => false
  | _ => flt (inject_Z 100) (true_div (fold_left Z.add lengths 0%Z) (py_len lengths))
  end.

Definition identify_text_columns (rows : list pydict) (columns : list string) : list string := List.filter (is_text_column rows) columns.

Definition is_numeric_value (v : pyval) : bool := match v with VBool _ | VInt _ | VFloat _ => true | _ => false end.

Definition identify_numeric_columns (rows : list pydict) (columns : list string) : list string :=
  List.filter (fun col => existsb is_numeric_value (column_values rows col)) columns.

Definition column_summary (rows : list pydict) (nc : string) : result (list string) :=
  let! values := rmap (to_float float_of_text) (column_values rows nc) in
  match values with
  | [] => Ok []
  | _ => let sum := py_sum values in
         Ok [join "" [nc; ": sum="; format2 sum; ", avg="; format2 (fdiv sum (inject_Z (py_len values)))]]
  end.

Definition format_db_summary (rows : list pydict) (columns : list string) : result string :=
  match rows with
  | [] => Ok "（空结果）"
  | sample :: _ =>
    let! stats := rmap (column_summary rows) (identify_numeric_columns rows columns) in
    Ok (join newline ([join "" ["共 "; pretty (py_len rows); " 行。"]] ++ concat stats ++
                      [join "" ["样本: "; format_compact_rows [sample] (py_take 6 columns)]]))
  end.

(** [while size > 1: if it fits: break; cut in half] *)
Section shrink.
Context {A : Type} (size : A -> Z) (fits : A -> bool) (cut : A -> A).

Fixpoint shrink (fuel : nat) (a : A) : A :=
  match fuel with
  | O => a
  | S fuel' => if (size a <=? 1)%Z then a else if fits a then a else shrink fuel' (cut a)
  end.
End shrink.

Definition halved (n : Z) : Z := Z.max 1 (n / 2).

Definition shrink_rows (quota : Z) (columns : list string) (rows : list pydict) : list pydict :=
  shrink py_len (fun kept => (num_tokens_from_string (format_compact_rows kept columns) <=? quota)%Z)
    (fun kept => py_take (halved (py_len kept)) kept) (length rows) rows.

Record CompressedDb : Type := mkCompressed {
  cd_rows : list pydict; cd_columns : list string; cd_truncated : bool; cd_original_row_count : Z; cd_kept_row_count : Z }.

(** The columns left when those of long texts go, unless all would. *)
Definition drop_text_columns (rows : list pydict) (columns : list string) : list string :=
  match List.filter (fun c => negb (str_in c (identify_text_columns rows columns))) columns with
  | [] => columns
  | kept => kept
  end.

(** Rows, columns and the flag before the quota is looked at. *)
Definition level_cut (rows : list pydict) (columns : list string) (level : string) : list pydict * list string * bool :=
  let n := py_len rows in
  if str_in level ["normal"; "light"] then (rows, columns, false)
  else if String.eqb level "moderate" then (py_take (Z.min n 50) rows, columns, (n >? Z.min n 50)%Z)
  else if String.eqb level "severe" then (py_take (Z.min n 10) rows, drop_text_columns rows columns, true)
  else (py_take 1 rows, columns, true).

Definition compress_db_result (rows : list pydict) (columns : list string) (quota : Z) (level : string) : CompressedDb :=
  match rows with
  | [] => mkCompressed [] columns false 0 0
  | _ =>
    let '(kept_rows, kept_columns, truncated) := level_cut rows columns level in
    let kept := shrink_rows quota kept_columns kept_rows in
    mkCompressed kept kept_columns truncated (py_len rows) (py_len kept)
  end.

Record DbText : Type := mkDbText { dt_text : string; dt_truncated : bool; dt_original_rows : Z; dt_kept_rows : Z }.

Definition fit_db_to_quota (rows : list pydict) (columns : list string) (quota original_rows : Z) : DbText :=
  let kept := shrink (fun n => n) (fun n => (num_tokens_from_string (format_db_table (py_take n rows) columns) <=? quota)%Z)
                halved (length rows) (py_len rows) in
  mkDbText (format_db_table (py_take kept rows) columns) (kept <? original_rows)%Z original_rows kept.

Definition compress_db_evidence (rows : list pydict) (columns : list string) (quota : Z) (level : string) : result DbText :=
  let n := py_len rows in
  match rows with
  | [] => Ok (mkDbText "（查询无结果）" false 0 0)
  | _ =>
    if str_in level ["normal"; "light"] then
      let text := format_db_table rows columns in
      Ok (if (num_tokens_from_string text >? quota)%Z then fit_db_to_quota rows columns quota n else mkDbText text false n n)
    else if String.eqb level "moderate" then
      let kept := py_take (Z.min n 50) rows in
      let text := format_db_table kept columns in
      Ok (if (num_tokens_from_string text >? quota)%Z then fit_db_to_quota kept columns quota n
          else mkDbText text (n >? Z.min n 50)%Z n (py_len kept))
    else if String.eqb level "severe" then
      let max_rows := Z.min n 10 in
      let keep_columns := drop_text_columns rows columns in
      let text := format_compact_rows (py_take max_rows rows) keep_columns in
      let kept := if (num_tokens_from_string text >? quota)%Z then py_take (halved max_rows) rows else py_take max_rows rows in
      Ok (mkDbText (format_compact_rows kept keep_columns) true n (py_len kept))
    else let! text := format_db_summary rows columns in Ok (mkDbText text true n 1)
  end.

(** ** Sharing the database quota between tables *)

(** The row counts of the tables stand for the tables. *)
Definition allocate_db_quota (row_counts : list Z) (db_quota : Z) : list Z :=
  match row_counts with
  | [] => []
  | [_] => [db_quota]
  | _ =>
    let total_rows := match fold_left Z.add row_counts 0%Z with 0%Z => 1%Z | t => t end in
    let quotas := map (fun rc => Z.max 200 (trunc (true_div (db_quota * rc) total_rows))) row_counts in
    let total_q := fold_left Z.add quotas 0%Z in
    if (total_q >? db_quota)%Z then
      let scale := true_div db_quota total_q in map (fun q => Z.max 200 (trunc (fmul (inject_Z q) scale))) quotas
    else quotas
  end.

(** ** Assembling the prompt *)

Definition relevance_of (ev : Evidence) : Q :=
  match ev_relevance_score ev with
  | Some q => if Qeq_bool q 0 then get_or (ev_confidence ev) 0%Q else q
  | None => get_or (ev_confidence ev) 0%Q
  end.

Definition format_evidence (ev : Evidence) (source_type : string) : string :=
  let content := get_or (ev_content ev) "" in
  let title := get_or (ev_title ev) "" in
  let score := format2 (relevance_of ev) in
  if String.eqb source_type "rag" then join "" ["(相关度:"; score; ") "; content]
  else if String.eqb source_type "db" then join "" ["(来源:db, 相关度:"; score; ") ["; title; "] "; content]
  else if String.eqb source_type "web" then join "" ["(来源:web, 相关度:"; score; ") ["; title; "] "; content]
  else join "" ["(来源:"; source_type; ", 相关度:"; score; ") "; content].

(** The text before the first full stop. *)
Fixpoint before (sep : string) (cs : list string) : list string :=
  match cs with
  | [] => []
  | c :: cs' => if String.eqb c sep then [] else c :: before sep cs'
  end.

Definition compact_line (i : Z) (ev : Evidence) : string :=
  join "" ["["; pretty i; "] ("; get_or (ev_source_type ev) ""; ") "; get_or (ev_title ev) ""; ": ";
           concat_chars (py_take 200 (before "。" (chars (get_or (ev_content ev) "")))); "..."].

Fixpoint compact_parts (i : Z) (evs : list Evidence) : list string :=
  match evs with [] => [] | ev :: evs' => compact_line i ev :: compact_parts (i + 1) evs' end.

Definition compact_assemble (evidences : list Evidence) : string * bool * Z :=
  match evidences with
  | [] => ("（无足够上下文，请直接回答）", true, 0%Z)
  | _ =>
    let text := join newline ("【精简参考资料】" :: compact_parts 1 (py_take 3 (sort_desc evidence_weight evidences))) in
    (text, true, num_tokens_from_string text)
  end.

(** What the loop over the sources keeps: the lines, the mode, the tokens. *)
Record Assembly : Type := mkAssembly { as_parts : list string; as_compact : bool; as_used : Z }.

Fixpoint assemble_group (limit locked_tokens quota : Z) (st : string) (tool_used : Z) (acc : Assembly) (group : list Evidence) : Assembly :=
  match group with
  | [] => acc
  | ev :: group' =>
    if (tool_used >=? quota)%Z then acc
    else if (as_used acc + locked_tokens >=? limit)%Z then mkAssembly (as_parts acc) true (as_used acc)
    else
      let content := format_evidence ev st in
      let line_tokens := num_tokens_from_string content in
      if (tool_used + line_tokens >? quota)%Z then assemble_group limit locked_tokens quota st tool_used acc group'
      else if (as_used acc + line_tokens + locked_tokens >? limit)%Z then mkAssembly (as_parts acc) true (as_used acc)
      else assemble_group limit locked_tokens quota st (tool_used + line_tokens)%Z
             (mkAssembly (as_parts acc ++ [content]) (as_compact acc) (as_used acc + line_tokens)%Z) group'
  end.

Definition assemble_source (limit locked_tokens : Z) (tool_token_counts : list (string * Z)) (groups : list (string * list Evidence))
    (acc : Assembly) (st : string) : Assembly :=
  match dlookup st groups with
  | Some group => assemble_group limit locked_tokens (get_or (dlookup st tool_token_counts) 0%Z) st 0 acc (sort_desc evidence_weight group)
  | None => acc
  end.

Definition assemble_sources (s : TokenBudgetScheduler) (evidences : list Evidence) (tool_token_counts : list (string * Z)) (locked_tokens : Z) : Assembly :=
  fold_left (assemble_source (ts_total_budget s - OUTPUT_RESERVE_TOKENS) locked_tokens tool_token_counts (group_by_source evidences))
    SOURCE_ORDER (mkAssembly [] false 0).

Definition CONTEXT_HEADER : string := "【参考资料】".

Definition assemble (s : TokenBudgetScheduler) (evidences : list Evidence) (tool_token_counts : list (string * Z)) (locked_tokens : Z)
    : string * bool * Z :=
  if (ts_total_budget s - locked_tokens <=? OUTPUT_RESERVE_TOKENS)%Z then compact_assemble evidences
  else let a := assemble_sources s evidences tool_token_counts locked_tokens in
       (join newline (CONTEXT_HEADER :: as_parts a), as_compact a, as_used a).
End scheduler.

(** ** Active tools *)

Definition tool_family (tool : pyval) : option string :=
  if is_one_of tool ["rag"; "rag_search"] then Some "rag"
  else if is_one_of tool ["database"; "db"; "db_query"] then Some "db"
  else if is_one_of tool ["web"; "web_search"] then Some "web"
  else None.

Fixpoint active_of_results (active : list string) (tool_results : list pyval) : result (list string) :=
  match tool_results with
  | [] => Ok active
  | tr :: trs =>
    let! tool := vget tr "tool" (VStr "") in
    active_of_results (match tool_family tool with Some f => append_new f active | None => active end) trs
  end.

Definition detect_active_tools (st : pystate) : result (list string) :=
  let! tool_results := py_iter (vor (sgetv st "tool_results" (VList [])) (VList [])) in
  let! active := active_of_results [] tool_results in
  match active with
  | _ :: _ => Ok active
  | [] =>
    let db_result := sgetv st "db_result" VNone in
    let! db := if truthy db_result then let! rows := vget db_result "rows" VNone in Ok (truthy rows) else Ok false in
    match (if truthy (sgetv st "rag_docs" VNone) then ["rag"] else []) ++ (if db then ["db"] else []) ++
          (if truthy (sgetv st "web_docs" VNone) then ["web"] else []) with
    | [] => Ok ["rag"]
    | found => Ok found
    end
  end.

(** ** Lemmas: counting *)

Section lemmas.
Context (encode : string -> option (list Z)) (format2 : Q -> string) (float_repr : Q -> string).
#[local] Abbreviation tokens := (num_tokens_from_string encode).

Lemma tokens_nonneg s : (0 <= tokens s)%Z.
Proof. unfold num_tokens_from_string, py_len. destruct (encode s); lia. Qed.

(** The tokens of the evidence, formatted as the lines of a source. *)
Definition line_cost (st : string) (ev : Evidence) : Z := tokens (format_evidence format2 ev st).
Fixpoint lines_cost (st : string) (evs : list Evidence) : Z :=
  match evs with [] => 0%Z | ev :: evs' => (line_cost st ev + lines_cost st evs')%Z end.

Lemma lines_cost_nonneg st evs : (0 <= lines_cost st evs)%Z.
Proof. induction evs as [|ev evs IH]; cbn; [lia|]. pose proof (tokens_nonneg (format_evidence format2 ev st)). unfold line_cost. lia. Qed.

Lemma lines_cost_sublist st l l' : sublist l l' -> (lines_cost st l <= lines_cost st l')%Z.
Proof.
  induction 1 as [|x l l' _ IH|x l l' _ IH]; cbn; [lia|lia|].
  pose proof (tokens_nonneg (format_evidence format2 x st)). unfold line_cost. lia.
Qed.

(** With [used] tokens taken, a line of the group would reach the limit. *)
Definition overruns (limit locked used : Z) (st : string) (group : list Evidence) : Prop :=
  exists ev, ev ∈ group /\ (limit <= used + locked + line_cost st ev)%Z.

Lemma overruns_mono limit locked used used' st group group' : (used <= used')%Z -> (forall ev, ev ∈ group -> ev ∈ group') ->
  overruns limit locked used st group -> overruns limit locked used' st group'.
Proof. intros Hu Hg (ev & Hev & Hl). exists ev. split; [by apply Hg|lia]. Qed.

(** What the loop over one source chooses from [group], when it starts at [acc]
    and ends at [out]. *)
Record group_choice (limit locked quota : Z) (st : string) (tool_used : Z) (acc out : Assembly) (group chosen : list Evidence) : Prop := {
  gc_sub : sublist chosen group;
  gc_parts : as_parts out = as_parts acc ++ map (fun ev => format_evidence format2 ev st) chosen;
  gc_used : as_used out = (as_used acc + lines_cost st chosen)%Z;
  gc_quota : chosen <> [] -> (tool_used < quota)%Z /\ (tool_used + lines_cost st chosen <= quota)%Z;
  gc_limit : (as_used acc + locked <= limit)%Z -> (as_used out + locked <= limit)%Z;
  gc_compact : as_compact acc = true -> as_compact out = true;
  gc_reason : as_compact out = true -> as_compact acc = true \/ overruns limit locked (as_used out) st group;
  gc_full : forall ev, ev ∈ group -> ev ∈ chosen \/ (quota <= tool_used + lines_cost st chosen + line_cost st ev)%Z \/
    (as_compact out = true /\ overruns limit locked (as_used out) st group) }.

Lemma assemble_group_choice limit locked quota st tool_used acc group :
  exists chosen, group_choice limit locked quota st tool_used acc (assemble_group encode format2 limit locked quota st tool_used acc group) group chosen.
Proof.
  revert tool_used acc. induction group as [|ev group IH]; intros tool_used acc; cbn [assemble_group].
  { exists []. split; cbn; rewrite ?app_nil_r; try done; [lia|by left|]. intros ev Hev. by apply not_elem_of_nil in Hev. }
  pose proof (lines_cost_nonneg st) as Hnn. pose proof (fun e => tokens_nonneg (format_evidence format2 e st)) as Hnt.
  destruct (Z.geb_spec tool_used quota) as [Hq|Hq].
  { exists []. split; cbn; rewrite ?app_nil_r; try done; [apply sublist_nil_l|lia|by left|].
    intros e _. right; left. unfold line_cost. specialize (Hnt e). lia. }
  assert (forall u, (limit <= u + locked + line_cost st ev)%Z -> overruns limit locked u st (ev :: group)) as Hov
    by (intros u Hu; exists ev; split; [by left|done]).
  destruct (Z.geb_spec (as_used acc + locked) limit) as [Hl|Hl].
  { exists []. split; cbn; rewrite ?app_nil_r; try done; [apply sublist_nil_l|lia|..].
    - intros _. right. apply Hov. unfold line_cost. specialize (Hnt ev). lia.
    - intros e _. right; right. split; [done|]. apply Hov. unfold line_cost. specialize (Hnt ev). lia. }
  set (line := tokens (format_evidence format2 ev st)).
  destruct (Z.gtb_spec (tool_used + line) quota) as [Hover|Hfit].
  - destruct (IH tool_used acc) as [chosen [C1 C2 C3 C4 C5 C6 C7 C8]]. exists chosen. split; try done; [by constructor|..].
    + intros Hc. destruct (C7 Hc) as [?|Ho]; [by left|right]. eapply overruns_mono, Ho; [lia|]. intros e He. by right.
    + intros e [->|He]%elem_of_cons.
      * right; left. unfold line_cost. fold line. specialize (Hnn chosen). lia.
      * destruct (C8 e He) as [?|[?|[Hc Ho]]]; [by left|by right; left|]. right; right. split; [done|].
        eapply overruns_mono, Ho; [lia|]. intros e' He'. by right.
  - destruct (Z.gtb_spec (as_used acc + line + locked) limit) as [Ho|Ho].
    { exists []. split; cbn; rewrite ?app_nil_r; try done; [apply sublist_nil_l|lia|..].
      - intros _. right. apply Hov. unfold line_cost. fold line. lia.
      - intros e _. right; right. split; [done|]. apply Hov. unfold line_cost. fold line. lia. }
    destruct (IH (tool_used + line)%Z (mkAssembly (as_parts acc ++ [format_evidence format2 ev st]) (as_compact acc) (as_used acc + line)%Z))
      as [chosen [C1 C2 C3 C4 C5 C6 C7 C8]]. cbn [as_parts as_used as_compact] in *.
    exists (ev :: chosen). assert (lines_cost st (ev :: chosen) = (line + lines_cost st chosen)%Z) as Hcost by done.
    assert (forall u, overruns limit locked u st group -> overruns limit locked u st (ev :: group)) as Hmore.
    { intros u. apply overruns_mono; [lia|]. intros e' He'. by right. }
    split.
    + by constructor.
    + rewrite C2, <- app_assoc. done.
    + rewrite C3, Hcost. lia.
    + rewrite Hcost. intros _. destruct chosen as [|e chosen]; [cbn; lia|]. destruct (C4 ltac:(done)). lia.
    + intros _. apply C5. lia.
    + done.
    + intros Hc. destruct (C7 Hc); [by left|right; by apply Hmore].
    + rewrite Hcost. intros e [->|He]%elem_of_cons; [left; by left|].
      destruct (C8 e He) as [?|[?|[? ?]]]; [left; by right|right; left; lia|right; right; split; [done|by apply Hmore]].
Qed.

(** The evidence of a source, best first. *)
Definition ranked_source (evs : list Evidence) (st : string) : list Evidence :=
  sort_desc evidence_weight (List.filter (fun e => String.eqb (quota_source e) st) evs).

(** The whole loop: a list of evidence per source. *)
Definition lines_of_choice (choice : list (string * list Evidence)) : list string :=
  concat (map (fun p => map (fun ev => format_evidence format2 ev p.1) p.2) choice).
Fixpoint cost_of_choice (choice : list (string * list Evidence)) : Z :=
  match choice with [] => 0%Z | p :: choice' => (lines_cost p.1 p.2 + cost_of_choice choice')%Z end.

(** The choice for one source: in order of weight, within the quota, and what is
    left out would reach the quota or follows one that would overrun the room. *)
Definition source_choice (limit locked used : Z) (counts : list (string * Z)) (evs : list Evidence) (compact : bool) (p : string * list Evidence) : Prop :=
  let quota := get_or (dlookup p.1 counts) 0%Z in
  sublist p.2 (ranked_source evs p.1) /\ (p.2 <> [] -> (0 < quota)%Z /\ (lines_cost p.1 p.2 <= quota)%Z) /\
  (forall ev, ev ∈ ranked_source evs p.1 -> ev ∈ p.2 \/ (quota <= lines_cost p.1 p.2 + line_cost p.1 ev)%Z \/
     (compact = true /\ overruns limit locked used p.1 (ranked_source evs p.1))).

Lemma assemble_source_choice limit locked counts evs acc st :
  exists chosen, let out := assemble_source encode format2 limit locked counts (group_by_source evs) acc st in
    group_choice limit locked (get_or (dlookup st counts) 0%Z) st 0 acc out (ranked_source evs st) chosen.
Proof.
  unfold assemble_source, ranked_source. destruct (group_by_source_groups evs) as [_ Hg]. specialize (Hg st).
  destruct (dlookup st (group_by_source evs)) as [group|]; cbn [get_or] in Hg; rewrite <- Hg.
  - apply assemble_group_choice.
  - exists []. split; cbn; rewrite ?app_nil_r; try done; [lia|by left|]. intros ev Hev. by apply not_elem_of_nil in Hev.
Qed.

Lemma cost_of_choice_nonneg choice : (0 <= cost_of_choice choice)%Z.
Proof. induction choice as [|p choice IH]; cbn; [lia|]. pose proof (lines_cost_nonneg p.1 p.2). lia. Qed.

Lemma assemble_fold_choice limit locked counts evs sts acc :
  let out := fold_left (assemble_source encode format2 limit locked counts (group_by_source evs)) sts acc in
  exists choice, map fst choice = sts /\ Forall (source_choice limit locked (as_used out) counts evs (as_compact out)) choice /\
    as_parts out = as_parts acc ++ lines_of_choice choice /\ as_used out = (as_used acc + cost_of_choice choice)%Z /\
    ((as_used acc + locked <= limit)%Z -> (as_used out + locked <= limit)%Z) /\ (as_compact acc = true -> as_compact out = true) /\
    (as_compact out = true -> as_compact acc = true \/ exists st, st ∈ sts /\ overruns limit locked (as_used out) st (ranked_source evs st)).
Proof.
  revert acc. induction sts as [|st sts IH]; intros acc out.
  { exists []. unfold lines_of_choice. cbn. rewrite app_nil_r. repeat split; try done; [unfold out; cbn; lia|by left]. }
  unfold out. cbn [fold_left]. destruct (assemble_source_choice limit locked counts evs acc st) as [chosen [C1 C2 C3 C4 C5 C6 C7 C8]].
  set (mid := assemble_source _ _ _ _ _ _ acc st) in *.
  destruct (IH mid) as (choice & H1 & H2 & H3 & H4 & H5 & H6 & H7). cbn zeta in *.
  assert (forall group, overruns limit locked (as_used mid) st group ->
    overruns limit locked (as_used (fold_left (assemble_source encode format2 limit locked counts (group_by_source evs)) sts mid)) st group) as Hmore.
  { intros group. apply overruns_mono; [|done]. rewrite H4. pose proof (cost_of_choice_nonneg choice). lia. }
  exists ((st, chosen) :: choice). split_and!.
  - cbn. by rewrite H1.
  - constructor; [|done]. split; [done|]. split; [intros Hne; by apply C4|].
    intros ev Hev. destruct (C8 ev Hev) as [?|[?|[Hc Ho]]]; [by left|by right; left|]. right; right. split; [by apply H6|by apply Hmore].
  - rewrite H3, C2, <- app_assoc. done.
  - rewrite H4, C3. cbn [cost_of_choice fst snd]. lia.
  - intros Hl. by apply H5, C5.
  - intros Hc. by apply H6, C6.
  - intros Hc. destruct (H7 Hc) as [Hm|(st' & Hin & Ho)]; [|right; exists st'; split; [by right|done]].
    destruct (C7 Hm) as [?|Ho]; [by left|]. right. exists st. split; [by left|by apply Hmore].
Qed.

Lemma ranked_source_elem evs st ev : ev ∈ ranked_source evs st <-> ev ∈ evs /\ quota_source ev = st.
Proof. unfold ranked_source. rewrite elem_of_sort_desc, filter_In_elem, String.eqb_eq. done. Qed.

(** ** Lemmas: levels *)

Lemma total_counted_nonneg tool n : (0 <= total (counted tool n))%Z.
Proof. unfold counted, total. destruct (Z.ltb_spec 0 n); cbn; lia. Qed.

Lemma true_div_mono a b n : (0 < n)%Z -> (a <= b)%Z -> (true_div a n <= true_div b n)%Q.
Proof.
  intros Hn Hab. unfold true_div. apply rnd_mono. apply Qmult_le_compat_r; [by rewrite <- Zle_Qle|].
  apply Qinv_le_0_compat. change 0%Q with (inject_Z 0). rewrite <- Zle_Qle. lia.
Qed.

Lemma true_div_nonpos a n : (n < 0)%Z -> (0 <= a)%Z -> (true_div a n <= 0)%Q.
Proof.
  intros Hn Ha. unfold true_div. assert (rnd (inject_Z a / inject_Z n) <= rnd 0)%Q as H; [|exact H].
  apply rnd_mono. unfold Qdiv. assert (0 <= inject_Z a)%Q as H0 by (change 0%Q with (inject_Z 0); by rewrite <- Zle_Qle).
  assert (/ inject_Z n <= 0)%Q as H1.
  { assert (/ inject_Z n == - / inject_Z (- n))%Q as ->.
    { rewrite inject_Z_opp. field. intros E. unfold Qeq in E. cbn in E. lia. }
    assert (0 <= / inject_Z (- n))%Q; [|lra]. apply Qinv_le_0_compat. change 0%Q with (inject_Z 0). rewrite <- Zle_Qle. lia. }
  nra.
Qed.

Definition level_rank (level : string) : nat :=
  if String.eqb level "normal" then 0 else if String.eqb level "light" then 1 else if String.eqb level "moderate" then 2
  else if String.eqb level "severe" then 3 else 4.

Lemma determine_level_mono r r' : (r <= r')%Q -> level_rank (determine_level r) <= level_rank (determine_level r').
Proof.
  intros Hr. unfold determine_level.
  assert (threshold "light" == rnd (3 # 10))%Q as H1 by done. assert (threshold "moderate" == rnd (4 # 5))%Q as H2 by done.
  destruct (fle r 0) eqn:A0; [cbn; lia|]. destruct (fle r' 0) eqn:B0; [fcompare; lra|].
  destruct (fle r (threshold "light")) eqn:A1.
  { destruct (fle r' (threshold "light")), (fle r' (threshold "moderate")), (fle r' (threshold "severe")); cbn; lia. }
  destruct (fle r' (threshold "light")) eqn:B1; [fcompare; lra|]. destruct (fle r (threshold "moderate")) eqn:A2.
  { destruct (fle r' (threshold "moderate")), (fle r' (threshold "severe")); cbn; lia. }
  destruct (fle r' (threshold "moderate")) eqn:B2; [fcompare; lra|]. destruct (fle r (threshold "severe")) eqn:A3.
  { destruct (fle r' (threshold "severe")); cbn; lia. }
  destruct (fle r' (threshold "severe")) eqn:B3; [fcompare; lra|]. cbn. lia.
Qed.

(** ** Lemmas: cutting in half *)

Lemma shrink_spec {A} (size : A -> Z) fits cut fuel (a : A) :
  (forall x, (1 < size x)%Z -> (1 <= size (cut x) < size x)%Z) -> (size a <= Z.of_nat fuel)%Z ->
  let r := shrink size fits cut fuel a in (size r <= 1)%Z \/ fits r = true.
Proof.
  intros Hcut. revert a. induction fuel as [|fuel IH]; intros a Hf; cbn [shrink]; [left; lia|].
  destruct (Z.leb_spec (size a) 1); [by left|]. destruct (fits a) eqn:E; [by right|]. apply IH. specialize (Hcut a ltac:(lia)). lia.
Qed.

Lemma shrink_inv {A} (P : A -> Prop) (size : A -> Z) fits cut fuel a :
  (forall x, (1 < size x)%Z -> P x -> P (cut x)) -> P a -> P (shrink size fits cut fuel a).
Proof.
  intros Hcut. revert a. induction fuel as [|fuel IH]; intros a Ha; cbn [shrink]; [done|].
  destruct (Z.leb_spec (size a) 1); [done|]. destruct (fits a); [done|]. apply IH, Hcut; done.
Qed.

Lemma halved_shrinks n : (1 < n)%Z -> (1 <= halved n < n)%Z.
Proof. unfold halved. intros H. pose proof (Z.div_lt_upper_bound n 2 n ltac:(lia) ltac:(lia)). lia. Qed.

Lemma py_len_take_halved {A} (l : list A) : (1 < py_len l)%Z -> py_len (py_take (halved (py_len l)) l) = halved (py_len l).
Proof. intros H. pose proof (halved_shrinks _ H). rewrite py_take_length_nonneg by lia. lia. Qed.

Lemma sublist_full {A} (l k : list A) : sublist l k -> length k <= length l -> l = k.
Proof.
  induction 1 as [|x l k Hs IH|x l k Hs IH]; cbn; intros Hlen; [done| |].
  - by rewrite IH by lia.
  - pose proof (sublist_length _ _ Hs). lia.
Qed.

(** Documents only: their source holds everything, the others nothing. *)
Lemma ranked_rag evs st : Forall (fun ev => ev_source_type ev = Some "rag") evs ->
  ranked_source evs st = if String.eqb st "rag" then sort_desc evidence_weight evs else [].
Proof.
  intros Hall. unfold ranked_source.
  assert (List.filter (fun e => String.eqb (quota_source e) st) evs = if String.eqb st "rag" then evs else []) as ->; [|by destruct (String.eqb st "rag")].
  induction Hall as [|ev evs Hev _ IH]; cbn [List.filter]; [by destruct (String.eqb st "rag")|].
  unfold quota_source at 1. rewrite Hev, IH. cbn [get_or]. rewrite String.eqb_sym. by destruct (String.eqb st "rag").
Qed.

Lemma lines_cost_perm st l l' : l ≡ₚ l' -> lines_cost st l = lines_cost st l'.
Proof. induction 1; cbn; lia. Qed.

Lemma doc_tokens_acc docs a :
  fold_left (fun acc doc => (acc + num_tokens encode (get_or (dlookup "content" doc) (VStr "")))%Z) docs a = (a + doc_tokens encode docs)%Z.
Proof.
  unfold doc_tokens. revert a. induction docs as [|d docs IH]; intros a; cbn [fold_left]; [lia|].
  rewrite IH, (IH (0 + _)%Z). lia.
Qed.

(** Lines that cost more than their texts cost more than the texts together. *)
Lemma doc_tokens_texts evs docs :
  Forall2 (fun ev doc => dlookup "content" doc = option_map VStr (ev_content ev)) evs docs ->
  Forall (fun ev => tokens (get_or (ev_content ev) "") < line_cost "rag" ev)%Z evs ->
  (doc_tokens encode docs + Z.of_nat (length evs) <= lines_cost "rag" evs)%Z.
Proof.
  induction 1 as [|ev doc evs docs Hd _ IH]; intros Hall; cbn; [done|]. apply Forall_cons_1 in Hall as [Hev Hall]. specialize (IH Hall).
  unfold doc_tokens. cbn [fold_left]. rewrite doc_tokens_acc, Hd.
  assert (num_tokens encode (get_or (option_map VStr (ev_content ev)) (VStr "")) = tokens (get_or (ev_content ev) "")) as -> by by destruct (ev_content ev).
  lia.
Qed.

Lemma counted_keys st counts k : count_tool_tokens encode float_repr st = Ok counts -> k ∈ map fst counts -> k ∈ ["rag"; "db"; "web"].
Proof.
  unfold count_tool_tokens. intros (rd & _ & (rows & _ & (rs & _ & (wd & _ & [= <-])%rbind_ok)%rbind_ok)%rbind_ok)%rbind_ok.
  rewrite !map_app, !elem_of_app. unfold counted. intros H. apply str_in_spec.
  destruct (0 <? doc_tokens encode rd)%Z, (0 <? row_tokens encode float_repr rs)%Z, (0 <? doc_tokens encode wd)%Z; cbn in H;
    rewrite ?list_elem_of_singleton in H; destruct_or?; try (by apply not_elem_of_nil in H); by subst.
Qed.

(** Evidence of sources the budget does not count. *)
Lemma uncounted_choice limit locked used counts evs compact choice :
  Forall (source_choice limit locked used counts evs compact) choice ->
  (forall ev, ev ∈ evs -> dlookup (quota_source ev) counts = None) -> lines_of_choice choice = [] /\ cost_of_choice choice = 0%Z.
Proof.
  intros Hall Hun. induction Hall as [|[st l] choice (Hs & Hq & _) _ [IH1 IH2]]; [done|].
  assert (l = []) as ->.
  { destruct l as [|ev l]; [done|]. cbn in Hs, Hq. destruct (Hq ltac:(done)) as [Hpos _].
    assert (ev ∈ ranked_source evs st) as Hev by (eapply elem_of_sublist; [by left|done]).
    apply ranked_source_elem in Hev as [Hev <-]. by rewrite (Hun _ Hev) in Hpos. }
  split; [exact IH1|exact IH2].
Qed.
(** What is left when rows are halved: the first ones, at least one, and
    either within the quota or a single one. *)
Lemma shrink_rows_spec quota columns rows : rows <> [] ->
  let kept := shrink_rows encode float_repr quota columns rows in
  (exists rest, rows = kept ++ rest) /\ (1 <= py_len kept)%Z /\
  (py_len kept = 1%Z \/ (tokens (format_compact_rows float_repr kept columns) <= quota)%Z).
Proof.
  intros Hne kept. assert (1 <= py_len rows)%Z as H1 by (destruct rows; [done|unfold py_len; cbn; lia]).
  assert ((exists rest, rows = kept ++ rest) /\ (1 <= py_len kept)%Z) as [Hpre Hlen].
  { unfold kept, shrink_rows. apply (shrink_inv (fun k => (exists rest, rows = k ++ rest) /\ (1 <= py_len k)%Z)).
    - intros x Hx [[rest Hr] _]. destruct (py_take_app (halved (py_len x)) x) as [x' Hx']. split.
      + exists (x' ++ rest). by rewrite app_assoc, <- Hx'.
      + rewrite py_len_take_halved by done. by apply halved_shrinks.
    - split; [exists []; by rewrite app_nil_r|done]. }
  split; [done|]. split; [done|].
  destruct (shrink_spec py_len (fun k => (tokens (format_compact_rows float_repr k columns) <=? quota)%Z)
    (fun k => py_take (halved (py_len k)) k) (length rows) rows) as [Hr|Hr].
  - intros x Hx. rewrite py_len_take_halved by done. by apply halved_shrinks.
  - unfold py_len. lia.
  - left. fold (shrink_rows encode float_repr quota columns rows) in Hr. fold kept in Hr. lia.
  - right. by apply Z.leb_le in Hr.
Qed.

Lemma level_cut_spec rows columns level : rows <> [] ->
  let '(kept, _, _) := level_cut float_repr rows columns level in
  kept <> [] /\ (exists rest, rows = kept ++ rest) /\
  (level = "severe" -> (py_len kept <= 10)%Z) /\ (level = "moderate" -> (py_len kept <= 50)%Z).
Proof.
  intros Hne. assert (1 <= py_len rows)%Z as H1 by (destruct rows; [done|unfold py_len; cbn; lia]).
  assert (forall m, (1 <= m)%Z -> py_take m rows <> [] /\ exists rest, rows = py_take m rows ++ rest) as Htake.
  { intros m Hm. split; [|apply py_take_app]. intros E. pose proof (py_take_length_nonneg m rows ltac:(lia)) as Hl. rewrite E in Hl.
    unfold py_len in *. cbn in Hl. lia. }
  unfold level_cut. destruct (str_in level ["normal"; "light"]) eqn:E0.
  - apply str_in_spec in E0. rewrite !elem_of_cons in E0. split; [done|]. split; [exists []; by rewrite app_nil_r|].
    split; intros ->; destruct_or? E0; try done; by apply not_elem_of_nil in E0.
  - destruct (String.eqb_spec level "moderate") as [->|Hm].
    { destruct (Htake (Z.min (py_len rows) 50) ltac:(lia)) as [? ?]. split; [done|]. split; [done|]. split; [done|]. intros _. rewrite py_take_length_nonneg by lia. lia. }
    destruct (String.eqb_spec level "severe") as [->|Hs].
    { destruct (Htake (Z.min (py_len rows) 10) ltac:(lia)) as [? ?]. split; [done|]. split; [done|]. split; [|done]. intros _. rewrite py_take_length_nonneg by lia. lia. }
    destruct (Htake 1%Z ltac:(lia)). done.
Qed.

Lemma py_len_app {A} (l l' : list A) : py_len (l ++ l') = (py_len l + py_len l')%Z.
Proof. unfold py_len. rewrite length_app. lia. Qed.

End lemmas.

(** Evidence from a source without a token count, which is every source but
    documents, database and web, never reaches the prompt: the context is its
    bare header. *)
Lemma uncounted_evidence_dropped encode format2 float_repr s st evidences counts locked
  (Hroom : (OUTPUT_RESERVE_TOKENS < ts_total_budget s - locked)%Z)
  (Hcount : count_tool_tokens encode float_repr st = Ok counts)
  (Hsrc : Forall (fun ev => quota_source ev ∉ ["rag"; "db"; "web"]) evidences) :
  exists compact, assemble encode format2 s evidences counts locked = (CONTEXT_HEADER, compact, 0%Z).
Proof.
  unfold assemble. destruct (Z.leb_spec (ts_total_budget s - locked) OUTPUT_RESERVE_TOKENS); [lia|].
  destruct (assemble_fold_choice encode format2 (ts_total_budget s - OUTPUT_RESERVE_TOKENS) locked counts evidences SOURCE_ORDER (mkAssembly [] false 0))
    as (choice & _ & H2 & H3 & H4 & _). unfold assemble_sources. rewrite H3, H4.
  destruct (uncounted_choice _ _ _ _ _ _ _ _ _ H2) as [-> ->]; [|by eexists].
  intros ev Hev. rewrite Forall_forall in Hsrc. specialize (Hsrc ev Hev). apply dlookup_none_keys. intros Hk. apply Hsrc.
  by apply (counted_keys encode float_repr st counts).
Qed.

(** ** The properties *)

(** [C26] The assembled context.  With no room, or just the reserve, it is the
    compact list: the three best items (or the fixed text if there is none), and
    its own token count.  With room, it is the header and one line for each
    chosen evidence, for the four scheduled sources in their order, each in
    order of weight and within its quota, and the lines within what the prompt
    leaves; the token count is their cost.  An evidence of a scheduled source is
    left out only if with it the lines would reach the quota of its source, or
    if the flag reports that a line of its source would have reached what the
    prompt leaves; the flag is set for no other reason.  Evidence of another
    source (a graph, a REST service) is always left out. *)
Theorem assemble_bounded encode format2 s evidences counts locked :
  let limit := (ts_total_budget s - OUTPUT_RESERVE_TOKENS)%Z in
  let '(text, compact, used) := assemble encode format2 s evidences counts locked in
  ((limit <= locked)%Z -> compact = true /\
     match evidences with
     | [] => text = "（无足够上下文，请直接回答）" /\ used = 0%Z
     | _ => exists best rest, best ++ rest ≡ₚ evidences /\ StronglySorted (desc evidence_weight) (best ++ rest) /\
         length best = Nat.min 3 (length evidences) /\
         text = join newline ("【精简参考资料】" :: compact_parts 1 best) /\ used = num_tokens_from_string encode text
     end) /\
  ((locked < limit)%Z ->
     exists choice, map fst choice = SOURCE_ORDER /\
       text = join newline (CONTEXT_HEADER :: lines_of_choice format2 choice) /\ used = cost_of_choice encode format2 choice /\
       (used + locked <= limit)%Z /\
       Forall (source_choice encode format2 limit locked used counts evidences compact) choice /\
       (compact = true -> exists st, st ∈ SOURCE_ORDER /\ overruns encode format2 limit locked used st (ranked_source evidences st)) /\
       (forall ev, quota_source ev ∉ SOURCE_ORDER -> Forall (fun p => ev ∉ p.2) choice)).
Proof.
  unfold assemble. cbv zeta. destruct (Z.leb_spec (ts_total_budget s - locked) OUTPUT_RESERVE_TOKENS) as [Hno|Hroom].
  - destruct (compact_assemble encode evidences) as [[text compact] used] eqn:E. split; [intros _|lia]. unfold compact_assemble in E.
    destruct evidences as [|e evs]; [by injection E as <- <- <-|]. cbv zeta in E. injection E as <- <- <-. split; [done|].
    set (l := sort_desc evidence_weight (e :: evs)). exists (take 3 l), (drop 3 l). rewrite take_drop. split_and!; try done.
    + apply sort_desc_perm.
    + apply sort_desc_sorted.
    + rewrite length_take. unfold l. by rewrite length_sort_desc.
  - split; [lia|intros _].
    destruct (assemble_fold_choice encode format2 (ts_total_budget s - OUTPUT_RESERVE_TOKENS) locked counts evidences SOURCE_ORDER (mkAssembly [] false 0))
      as (choice & H1 & H2 & H3 & H4 & H5 & _ & H7). exists choice. unfold assemble_sources in *. rewrite H3. cbn [as_parts as_used app] in *.
    split_and!; try done; [apply H5; lia|..].
    + intros Hc. by destruct (H7 Hc).
    + intros ev Hev. rewrite Forall_forall in H2 |- *. intros p Hp Hin. apply Hev. destruct (H2 p Hp) as (Hs & _).
      assert (ev ∈ ranked_source evidences p.1) as [_ ->]%ranked_source_elem by (eapply elem_of_sublist; done).
      rewrite <- H1. apply list_elem_of_fmap. by exists p.
Qed.

(** When each line costs more tokens than the text it shows, which the
    relevance prefix adds, documents never all fit: their quota is the number
    of tokens of their texts. *)
Theorem rag_context_incomplete encode format2 s evidences docs locked
  (Hne : evidences <> []) (Hrag : Forall (fun ev => ev_source_type ev = Some "rag") evidences)
  (Htexts : Forall2 (fun ev doc => dlookup "content" doc = option_map VStr (ev_content ev)) evidences docs)
  (Hprefix : Forall (fun ev => num_tokens_from_string encode (get_or (ev_content ev) "") < line_cost encode format2 "rag" ev)%Z evidences) :
  length (as_parts (assemble_sources encode format2 s evidences [("rag", doc_tokens encode docs)] locked)) < length evidences.
Proof.
  destruct (assemble_fold_choice encode format2 (ts_total_budget s - OUTPUT_RESERVE_TOKENS) locked [("rag", doc_tokens encode docs)] evidences
    SOURCE_ORDER (mkAssembly [] false 0)) as (choice & H1 & H2 & H3 & _). unfold assemble_sources. rewrite H3. cbn [as_parts app]. clear H3.
  set (out := fold_left _ _ _) in *.
  assert (Hother : forall p, source_choice encode format2 (ts_total_budget s - OUTPUT_RESERVE_TOKENS) locked (as_used out) [("rag", doc_tokens encode docs)] evidences
      (as_compact out) p ->
    p.1 <> "rag" -> p.2 = []).
  { intros p (Hs & _ & _) Hp. rewrite (ranked_rag evidences p.1 Hrag) in Hs. destruct (String.eqb_spec p.1 "rag"); [done|]. by apply sublist_nil_r in Hs. }
  destruct choice as [|[s1 c1] [|[s2 c2] [|[s3 c3] [|[s4 c4] [|? ?]]]]]; try done. cbn in H1. injection H1 as -> -> -> ->.
  apply Forall_cons_1 in H2 as [Hr H2]. apply Forall_cons_1 in H2 as [Hd H2]. apply Forall_cons_1 in H2 as [Hw H2]. apply Forall_cons_1 in H2 as [Hp _].
  apply Hother in Hd, Hw, Hp; try done. cbn in Hd, Hw, Hp. subst c2 c3 c4. unfold lines_of_choice. cbn. rewrite app_nil_r, length_map.
  destruct Hr as (Hs & Hq & _). cbn in Hs, Hq. rewrite (ranked_rag evidences "rag" Hrag) in Hs. cbn in Hs.
  pose proof (sublist_length _ _ Hs) as Hlen. rewrite length_sort_desc in Hlen.
  destruct (decide (length c1 = length evidences)) as [Heq|]; [|lia]. exfalso.
  assert (c1 = sort_desc evidence_weight evidences) as -> by (apply sublist_full; [done|rewrite length_sort_desc; lia]).
  pose proof (doc_tokens_texts encode format2 evidences docs Htexts Hprefix) as Hcost.
  rewrite (lines_cost_perm encode format2 "rag" _ _ (sort_desc_perm evidence_weight evidences)) in Hq.
  assert (0 < length evidences) by (destruct evidences; [done|cbn; lia]).
  assert (sort_desc evidence_weight evidences <> []) as Hsn by (intros E; apply (f_equal length) in E; rewrite length_sort_desc in E; cbn in E; lia).
  destruct (Hq Hsn). lia.
Qed.

(** The rows kept are the first ones and at least one; either their text is
    within the quota or a single row is left; the moderate and severe levels
    keep at most 50 and 10; and the two row counts are true. *)
Theorem compress_db_result_spec encode float_repr rows columns quota level (Hne : rows <> []) :
  let c := compress_db_result encode float_repr rows columns quota level in
  (exists rest, rows = cd_rows c ++ rest) /\ cd_original_row_count c = py_len rows /\ cd_kept_row_count c = py_len (cd_rows c) /\
  (1 <= cd_kept_row_count c)%Z /\
  (cd_kept_row_count c = 1%Z \/ (num_tokens_from_string encode (format_compact_rows float_repr (cd_rows c) (cd_columns c)) <= quota)%Z) /\
  (level = "severe" -> (cd_kept_row_count c <= 10)%Z) /\ (level = "moderate" -> (cd_kept_row_count c <= 50)%Z).
Proof.
  unfold compress_db_result. destruct rows as [|r rows']; [done|]. set (rows := r :: rows') in *.
  pose proof (level_cut_spec float_repr rows columns level Hne) as Hcut.
  destruct (level_cut float_repr rows columns level) as [[kept cols] truncated]. destruct Hcut as (Hk & [rest Hrest] & H10 & H50).
  cbn [cd_rows cd_columns cd_original_row_count cd_kept_row_count].
  destruct (shrink_rows_spec encode float_repr quota cols kept Hk) as ([rest' Hrest'] & Hl & Hq).
  assert (py_len (shrink_rows encode float_repr quota cols kept) <= py_len kept)%Z as Hle
    by (rewrite Hrest' at 2; rewrite py_len_app; unfold py_len; lia).
  split_and!; try done.
  - exists (rest' ++ rest). by rewrite app_assoc, <- Hrest'.
  - intros E. specialize (H10 E). lia.
  - intros E. specialize (H50 E). lia.
Qed.

(** While there is room, more material never means a weaker compression, and
    what fits is not compressed. *)
Theorem level_monotone s counts counts' locked r r' (Hroom : (0 < ts_total_budget s - locked - OUTPUT_RESERVE_TOKENS)%Z)
  (Hle : (total counts <= total counts')%Z)
  (Hr : calculate_overflow_ratio s counts locked = Ok r) (Hr' : calculate_overflow_ratio s counts' locked = Ok r') :
  level_rank (determine_level r) <= level_rank (determine_level r') /\
  ((total counts + locked + OUTPUT_RESERVE_TOKENS <= ts_total_budget s)%Z -> determine_level r = "normal").
Proof.
  unfold calculate_overflow_ratio in *. set (available := (ts_total_budget s - locked - OUTPUT_RESERVE_TOKENS)%Z) in *.
  destruct (Z.eqb_spec available 0) as [E|_]; [lia|].
  destruct (Z.leb_spec (total counts) available) as [H1|H1]; injection Hr as <-; destruct (Z.leb_spec (total counts') available) as [H2|H2]; injection Hr' as <-.
  - split; [lia|done].
  - split; [|done]. apply determine_level_mono. assert (true_div 0 available <= true_div (total counts' - available) available)%Q by (apply true_div_mono; lia).
    assert (true_div 0 available == 0)%Q as E; [|lra]. unfold true_div. assert (inject_Z 0 / inject_Z available == 0)%Q as E by (unfold Qdiv; ring).
    rewrite E. apply rnd_0.
  - lia.
  - split; [|lia]. apply determine_level_mono, true_div_mono; lia.
Qed.

(** When system prompt and history already overrun the budget, the level is
    normal: nothing at all is compressed.  At exactly no room the code divides
    by zero. *)
Theorem no_room_no_compression s counts locked (Hpos : (0 < total counts)%Z) :
  let available := (ts_total_budget s - locked - OUTPUT_RESERVE_TOKENS)%Z in
  ((available < 0)%Z -> exists r, calculate_overflow_ratio s counts locked = Ok r /\ determine_level r = "normal") /\
  (available = 0%Z -> calculate_overflow_ratio s counts locked = Raise (OtherError "ZeroDivisionError")).
Proof.
  intros available. unfold calculate_overflow_ratio. fold available. split.
  - intros Ha. destruct (Z.leb_spec (total counts) available); [lia|]. destruct (Z.eqb_spec available 0); [lia|].
    eexists. split; [done|]. unfold determine_level. rewrite (proj2 (fle_spec _ _)); [done|]. apply true_div_nonpos; lia.
  - intros ->. destruct (Z.leb_spec (total counts) 0); [lia|]. done.
Qed.

(** Every table gets a share of at least 200 tokens, so the shares of many
    tables exceed the quota they are to divide. *)
Lemma quota_shares_at_least row_counts db_quota : length row_counts <> 1 ->
  length (allocate_db_quota row_counts db_quota) = length row_counts /\ Forall (fun q => (200 <= q)%Z) (allocate_db_quota row_counts db_quota).
Proof.
  intros Hl. unfold allocate_db_quota. destruct row_counts as [|a [|b l]]; [done|done|]. clear Hl. set (rcs := a :: b :: l).
  set (total_rows := match fold_left Z.add rcs 0%Z with 0%Z => 1%Z | t => t end).
  assert (forall (A : Type) (f : A -> Z) xs, Forall (fun q => (200 <= q)%Z) (map (fun x => Z.max 200 (f x)) xs)) as Hmap.
  { intros A f xs. apply Forall_fmap, Forall_true. intros x. cbn. lia. }
  destruct (_ >? db_quota)%Z; rewrite ?length_map; split; try done; apply Hmap.
Qed.

Lemma quota_shares_exceed : fold_left Z.add (allocate_db_quota [1; 1; 1; 1; 1; 1]%Z 600) 0%Z = 1200%Z.
Proof. vm_compute. done. Qed.

(** The lines of the context carry no citation number. *)
Lemma assembled_lines_unnumbered format2 ev st : startswith "(" (format_evidence format2 ev st) = true.
Proof.
  unfold format_evidence. destruct (String.eqb st "rag"); [|destruct (String.eqb st "db"); [|destruct (String.eqb st "web")]];
    rewrite startswith_one; reflexivity.
Qed.

(** Rows cut for the quota are not reported as a truncation. *)
Lemma truncation_unreported :
  let rows := [[("a", VInt 1)]; [("a", VInt 2)]] in
  let c := compress_db_result (fun s => Some (repeat 0%Z (String.length s))) (fun _ => "") rows ["a"] 8 "normal" in
  cd_kept_row_count c = 1%Z /\ cd_original_row_count c = 2%Z /\ cd_truncated c = false.
Proof. vm_compute. done. Qed.

(** ** Witnesses *)

Definition bytes_encode (s : string) : option (list Z) := Some (repeat 0%Z (String.length s)).
Definition sample_evidence (source content : string) : Evidence :=
  mkEvidence (Some "e") (Some source) None (Some content) None None None (Some 1%Q) None None None None.

Lemma assemble_bounded_witness :
  let '(text, compact, used) := assemble bytes_encode (fun _ => "1.00") (mkScheduler 10000) [sample_evidence "rag" "x"; sample_evidence "graph" "y"] [("rag", 100%Z)] 0 in
  exists choice, map fst choice = SOURCE_ORDER /\
    text = join newline (CONTEXT_HEADER :: lines_of_choice (fun _ => "1.00") choice) /\
    Forall (fun p => sample_evidence "graph" "y" ∉ p.2) choice.
Proof.
  pose proof (proj2 (assemble_bounded bytes_encode (fun _ => "1.00") (mkScheduler 10000)
    [sample_evidence "rag" "x"; sample_evidence "graph" "y"] [("rag", 100%Z)] 0) ltac:(vm_compute; reflexivity))
    as (choice & H1 & H2 & _ & _ & _ & _ & H3).
  exists choice. split; [exact H1|]. split; [exact H2|]. apply H3. intros H. apply str_in_spec in H. discriminate H.
Defined.

Lemma rag_context_incomplete_witness :
  length (as_parts (assemble_sources bytes_encode (fun _ => "1.00") (mkScheduler 110000) [sample_evidence "rag" "x"] [("rag", 1%Z)] 0)) < 1.
Proof.
  apply (rag_context_incomplete bytes_encode (fun _ => "1.00") (mkScheduler 110000) [sample_evidence "rag" "x"] [[("content", VStr "x")]] 0); [done|..];
    repeat constructor.
Defined.

Lemma compress_db_result_spec_witness :
  let rows := [[("a", VInt 1)]; [("a", VInt 2)]] in
  let c := compress_db_result bytes_encode (fun _ => "") rows ["a"] 8 "severe" in
  (exists rest, rows = cd_rows c ++ rest) /\ cd_original_row_count c = py_len rows /\ cd_kept_row_count c = py_len (cd_rows c) /\
  (1 <= cd_kept_row_count c)%Z /\
  (cd_kept_row_count c = 1%Z \/ (num_tokens_from_string bytes_encode (format_compact_rows (fun _ => "") (cd_rows c) (cd_columns c)) <= 8)%Z) /\
  ("severe" = "severe" -> (cd_kept_row_count c <= 10)%Z) /\ ("severe" = "moderate" -> (cd_kept_row_count c <= 50)%Z).
Proof. apply (compress_db_result_spec bytes_encode (fun _ => "") [[("a", VInt 1)]; [("a", VInt 2)]] ["a"] 8 "severe"). done. Defined.

Lemma level_monotone_witness :
  let s := mkScheduler 12000 in
  level_rank (determine_level 0) <= level_rank (determine_level (true_div 10000 10000)) /\
  ((total [("rag", 1%Z)] + 0 + OUTPUT_RESERVE_TOKENS <= 12000)%Z -> determine_level 0 = "normal").
Proof. apply (level_monotone (mkScheduler 12000) [("rag", 1%Z)] [("rag", 20000%Z)] 0); [reflexivity|done|reflexivity|reflexivity]. Defined.

Lemma no_room_no_compression_witness :
  let available := (10000 - 9000 - OUTPUT_RESERVE_TOKENS)%Z in
  ((available < 0)%Z -> exists r, calculate_overflow_ratio (mkScheduler 10000) [("rag", 50000%Z)] 9000 = Ok r /\ determine_level r = "normal") /\
  (available = 0%Z -> calculate_overflow_ratio (mkScheduler 10000) [("rag", 50000%Z)] 9000 = Raise (OtherError "ZeroDivisionError")).
Proof. apply (no_room_no_compression (mkScheduler 10000) [("rag", 50000%Z)] 9000). done. Defined.
