(* ===== verification/EvidenceFusion.v ===== *)
(** * From tool replies to fused evidence
    (the normalisers of evidence/models.py, nodes/evidence_fusion.py)

    The replies of the tools become evidence with an identity, a source and
    scores; the node compresses what overflows the budget, replaces the
    evidence of retried tools, applies the quotas and fuses.  Of an evidence
    the record keeps what later code reads; structured data, provenance and the
    remaining metadata are left out.  Hashing, JSON, the texts of floats, the
    Unicode classes of regular expressions and the clock are arguments. *)

From stdpp Require Import pretty.
From S2P Require Import Prelude PyFloat PyVal PyList PyText PyRegex AgentState Evidence TokenBudget.
From Stdlib Require Import Ascii.

Definition TOOL_SOURCE_TYPE_MAP : list (string * string) :=
  [("rag_search", "rag"); ("rag", "rag"); ("db_query", "db"); ("database", "db"); ("web_search", "web"); ("web", "web");
   ("rest", "rest"); ("rest_search", "rest"); ("graph", "graph"); ("graph_tool", "graph"); ("report", "report")].

Definition DEFAULT_AUTHORITY_SCORE : list (string * Q) :=
  [("db", rnd (19 # 20)); ("rest", rnd (9 # 10)); ("graph", rnd (9 # 10)); ("rag", rnd (4 # 5)); ("report", rnd (17 # 20)); ("web", rnd (1 # 2))].
Definition authority_of (source : string) : Q := get_or (dlookup source DEFAULT_AUTHORITY_SCORE) 0%Q.

(** [max(0.0, min(1.0, x))] *)
Definition clamp01 (x : Q) : Q := let y := if flt x 1 then x else 1%Q in if flt 0 y then y else 0%Q.

Section normalisation.
Context (sha256_hex : string -> string) (json_dumps : pyval -> string) (float_repr : Q -> string) (float_of_text : string -> option Q)
  (unicode_word unicode_digit : string -> bool) (now : string).

Abbreviation str_of_val := (py_str float_repr).

Definition make_evidence_id (source_uri content : string) : string :=
  String.append "ev_" (text_take 16 (sha256_hex (join "|" [source_uri; text_take 200 content]))).

Definition truncate_content (content : string) (max_chars : Z) : string * bool :=
  if negb (truthy content) then ("", false)
  else if (text_len content <=? max_chars)%Z then (content, false)
  else (String.append (text_take max_chars content) "…", true).

(** ** Scrubbing *)

Definition is_digit (c : string) : bool :=
  match c with
  | String a EmptyString => let n := nat_of_ascii a in (48 <=? n)%nat && (n <=? 57)%nat
  | _ => unicode_digit c
  end.

(** The characters of a pattern, then no word character. *)
Fixpoint matches (pattern : list (string -> bool)) (text : list string) : bool :=
  match pattern, text with
  | [], [] => true
  | [], c :: _ => negb (is_word_char unicode_word c)
  | p :: pattern', c :: text' => p c && matches pattern' text'
  | _ :: _, [] => false
  end.

(** [re.sub] of a pattern between word boundaries; [skip] characters of the
    last match are still to be dropped. *)
Fixpoint sub_from (pattern : list (string -> bool)) (replacement : list string) (before : bool) (skip : nat) (text : list string) : list string :=
  match text with
  | [] => []
  | c :: text' =>
    match skip with
    | S k => sub_from pattern replacement (is_word_char unicode_word c) k text'
    | O =>
      if negb before && matches pattern text
      then replacement ++ sub_from pattern replacement (is_word_char unicode_word c) (length pattern - 1) text'
      else c :: sub_from pattern replacement (is_word_char unicode_word c) O text'
    end
  end.

Definition one_of (cs : list string) (c : string) : bool := str_in c cs.

Definition PHONE : list (string -> bool) := [one_of ["1"]; one_of ["3"; "4"; "5"; "6"; "7"; "8"; "9"]] ++ repeat is_digit 9.
Definition ID_CARD : list (string -> bool) := repeat is_digit 17 ++ [fun c => is_digit c || one_of ["X"; "x"] c].

Definition scrub_sensitive (content : string) : string :=
  let phones := sub_from PHONE (chars "1XX-XXXX-XXXX") false 0 (chars content) in
  concat_chars (sub_from ID_CARD (chars "ID-XXXXXXXX") false 0 phones).

(** ** SQL fingerprints *)

Fixpoint squeeze (in_space : bool) (s : string) : string :=
  match s with
  | EmptyString => EmptyString
  | String a s' => if is_space a then (if in_space then squeeze true s' else String " "%char (squeeze true s')) else String a (squeeze false s')
  end.

(** What follows the next quote, if there is one. *)
Fixpoint after_quote (s : string) : option string :=
  match s with
  | EmptyString => None
  | String a s' => if Ascii.eqb a single_quote then Some s' else after_quote s'
  end.

Fixpoint hide_literals (fuel : nat) (s : string) : string :=
  match fuel with
  | O => s
  | S fuel' =>
    match s with
    | EmptyString => EmptyString
    | String a s' =>
      if Ascii.eqb a single_quote then
        match after_quote s' with
        | Some rest => String "?"%char (hide_literals fuel' rest)
        | None => s
        end
      else String a (hide_literals fuel' s')
    end
  end.

(** [\b\d+\b]: a whole run of digits between boundaries. *)
Fixpoint digit_run (text : list string) : nat :=
  match text with c :: text' => if is_digit c then S (digit_run text') else O | [] => O end.

Fixpoint hide_numbers (before : bool) (skip : nat) (text : list string) : list string :=
  match text with
  | [] => []
  | c :: text' =>
    match skip with
    | S k => hide_numbers (is_word_char unicode_word c) k text'
    | O =>
      let n := digit_run text in
      if negb before && (0 <? n)%nat && match drop n text with d :: _ => negb (is_word_char unicode_word d) | [] => true end
      then "?" :: hide_numbers (is_word_char unicode_word c) (n - 1) text'
      else c :: hide_numbers (is_word_char unicode_word c) O text'
    end
  end.

Definition make_sql_fingerprint (sql : string) : string :=
  if negb (truthy sql) then "unknown"
  else
    let normalized := squeeze false (strip (py_upper sql)) in
    let normalized := hide_literals (String.length normalized) normalized in
    text_take 16 (sha256_hex (concat_chars (hide_numbers false 0 (chars normalized)))).

(** ** Normalisers *)

Definition dget_or (k : string) (default : pyval) (d : pydict) : pyval := get_or (dlookup k d) default.
(** [d.get(a) or d.get(b) or ""], a text. *)
Definition text_of (keys : list string) (d : pydict) : result string :=
  as_str (fold_right (fun k rest => dget_or k VNone d or_else rest) (VStr "") keys).
(** [float(d.get(k, default) or default)] *)
Definition score_of (k : string) (default : Q) (d : pydict) : result Q :=
  to_float float_of_text (dget_or k (VFloat default) d or_else VFloat default).

(** An evidence with content cut and scrubbed, and one score for confidence
    and relevance. *)
Definition new_evidence (source tenant_id source_uri title content_raw : string) (score freshness : Q) : Evidence :=
  mkEvidence (Some (make_evidence_id source_uri content_raw)) (Some source) (Some title)
    (Some (scrub_sensitive (truncate_content content_raw 2000).1)) (Some source_uri) (Some tenant_id)
    (Some (clamp01 score)) (Some (clamp01 score)) (Some (authority_of source)) (Some freshness) None None.

Definition normalize_rag_doc (tenant_id : string) (doc : pydict) : result Evidence :=
  let! content_raw := text_of ["content"; "text"] doc in
  let! score := score_of "score" 0 doc in
  let kb_id := dget_or "kb_id" (VStr "") doc in
  let doc_id := dget_or "doc_id" VNone doc or_else dget_or "document_id" (VStr "") doc in
  let chunk_id := dget_or "chunk_id" (VStr "") doc in
  let source_uri := if truthy kb_id then join "" ["kb://"; str_of_val kb_id; "/"; str_of_val doc_id; "/"; str_of_val chunk_id]
                    else String.append "rag://" (str_of_val (chunk_id or_else VStr "unknown")) in
  let! title := as_str (dget_or "title" (VStr "") doc or_else VStr (String.append "知识库文档片段 " (str_of_val chunk_id))) in
  Ok (new_evidence "rag" tenant_id source_uri title content_raw score 1).

Definition normalize_rag_evidence (rag_docs : list pydict) (tenant_id : string) : result (list Evidence) := rmap (normalize_rag_doc tenant_id) rag_docs.

Definition key_value (kv : string * pyval) : string := join "=" [kv.1; str_of_val kv.2].

Definition extract_row_key (row : pydict) (first_col : string) : string :=
  match row with
  | [] => "unknown"
  | _ =>
    match List.find (fun pk => match dlookup pk row with Some v => negb (py_eq v (VStr "")) | None => false end)
            ["id"; "ID"; "Id"; "exception_id"; "uid"; "uuid"; "key"] with
    | Some pk => join "=" [pk; str_of_val (dget_or pk VNone row)]
    | None =>
      match (if truthy first_col then dlookup first_col row else None) with
      | Some v => join "=" [first_col; str_of_val v]
      | None => join "_" (map key_value (py_take 3 row))
      end
    end
  end.

Definition AGGREGATE_KEYWORDS : list string := ["COUNT("; "SUM("; "AVG("; "MAX("; "MIN("; "GROUP BY"].

(** The evidence of one row. *)
Definition row_evidence (tenant_id uri_prefix as_of title row_key : string) (quality : Q) (row : pydict) : Evidence :=
  let source_uri := join "" [uri_prefix; "/"; row_key; "?as_of="; as_of] in
  new_evidence "db" tenant_id source_uri title (json_dumps (VDict row)) quality 1.

Definition aggregate_evidence (tenant_id uri_prefix as_of : string) (quality : Q) (count : Z) (row : pydict) : Evidence :=
  row_evidence tenant_id uri_prefix as_of (join "" ["数据库聚合查询结果（"; pretty count; " 行）"])
    (String.append "aggregate_" (join "_" (map key_value row))) quality row.

Definition single_row_evidence (tenant_id uri_prefix as_of first_col : string) (quality : Q) (row : pydict) : Evidence :=
  row_evidence tenant_id uri_prefix as_of
    (join "" ["数据库查询结果行（"; first_col; "="; str_of_val (dget_or first_col (VStr "") row); "）"])
    (extract_row_key row first_col) quality row.

(** No rows: an evidence of its own, with no content. *)
Definition zero_rows_evidence (tenant_id uri_prefix as_of : string) : Evidence :=
  let source_uri := join "" [uri_prefix; "?as_of="; as_of; "&zero_rows=true"] in
  mkEvidence (Some (make_evidence_id source_uri "ZERO_ROWS")) (Some "db") (Some "数据库查询结果（0 行）") (Some "") (Some source_uri) (Some tenant_id)
    (Some 1%Q) (Some (rnd (3 # 10))) (Some (authority_of "db")) (Some 1%Q) None None.

Definition normalize_db_evidence (db_result : pydict) (tenant_id : string) : result (list Evidence) :=
  match db_result with
  | [] => Ok []
  | _ =>
    let! sql := as_str (dget_or "sql" (VStr "") db_result or_else VStr "") in
    let! rows := py_iter (dget_or "rows" (VList []) db_result or_else VList []) in
    let! tables := as_list as_str (dget_or "tables" (VList []) db_result or_else VList []) in
    let query_id := str_of_val (dget_or "query_id" (VStr "") db_result) in
    let sql_fingerprint := str_of_val (dget_or "sql_fingerprint" (VStr "") db_result or_else VStr (make_sql_fingerprint sql)) in
    let as_of := str_of_val (dget_or "as_of" (VStr now) db_result) in
    let table_path := match tables with [] => "unknown" | _ => join "/" tables end in
    let uri_prefix := join "" ["db://"; table_path; "/"; query_id; "/"; sql_fingerprint] in
    match rows with
    | [] => Ok [zero_rows_evidence tenant_id uri_prefix as_of]
    | _ =>
      let! quality := score_of "quality_score" (rnd (4 # 5)) db_result in
      let! rows := rmap as_dict rows in
      let sql_upper := strip (py_upper sql) in
      if existsb (fun kw => contains kw sql_upper) AGGREGATE_KEYWORDS && (py_len rows <=? 5)%Z
      then Ok (map (aggregate_evidence tenant_id uri_prefix as_of quality (py_len rows)) rows)
      else
        match rows with
        | ((first_col, _) :: _) :: _ => Ok (map (single_row_evidence tenant_id uri_prefix as_of first_col quality) rows)
        | _ => Raise (OtherError "IndexError")
        end
    end
  end.

Definition normalize_web_doc (tenant_id : string) (doc : pydict) : result Evidence :=
  let! content_raw := text_of ["content"; "snippet"] doc in
  let! score := score_of "score" (1 # 2) doc in
  let! url := as_str (dget_or "url" (VStr "") doc) in
  let! title := as_str (dget_or "title" (VStr "") doc) in
  Ok (mkEvidence (Some (make_evidence_id url content_raw)) (Some "web") (Some (title or_else url or_else "Web 搜索结果"))
        (Some (scrub_sensitive (truncate_content content_raw 2000).1)) (Some (url or_else "web://unknown")) (Some tenant_id)
        (Some (clamp01 score)) (Some (clamp01 score)) (Some (authority_of "web")) (Some (rnd (7 # 10))) None None).

Definition normalize_web_evidence (web_docs : list pydict) (tenant_id : string) : result (list Evidence) := rmap (normalize_web_doc tenant_id) web_docs.

Definition normalize_rest_doc (tenant_id erp_domain : string) (doc : pydict) : result Evidence :=
  let content := dget_or "content" VNone doc or_else dget_or "data" VNone doc or_else VStr "" in
  let! content_raw := match content with VDict _ => Ok (json_dumps content) | _ => as_str content end in
  let! quality := score_of "quality_score" (rnd (17 # 20)) doc in
  let function_name := dget_or "function" (VStr "") doc in
  let domain := dget_or "erp_domain" (VStr erp_domain) doc in
  let source_uri := if truthy domain
    then join "" ["rest://"; str_of_val domain; "/"; str_of_val function_name; "/"; str_of_val (dget_or "endpoint" (VStr "") doc)]
    else String.append "rest://" (str_of_val (function_name or_else VStr "unknown")) in
  let! title := as_str (dget_or "title" (VStr "") doc or_else
                        VStr (join "" ["ERP 查询结果（"; str_of_val (function_name or_else VStr "未知"); "）"])) in
  Ok (new_evidence "rest" tenant_id source_uri title content_raw quality 1).

Definition normalize_rest_evidence (rest_docs : list pydict) (tenant_id erp_domain : string) : result (list Evidence) :=
  rmap (normalize_rest_doc tenant_id erp_domain) rest_docs.

Definition extract_graph_source_uri (rows : list pyval) : string :=
  match rows with
  | VDict first :: _ =>
    let label := dget_or "label" VNone first or_else dget_or "Label" VNone first or_else dget_or "_label" VNone first or_else VStr "" in
    let key := dget_or "key" VNone first or_else dget_or "Key" VNone first or_else dget_or "_key" VNone first or_else VStr "" in
    let key := if truthy key then key
               else match List.find (fun pk => match dlookup pk first with Some VNone | None => false | Some v => negb (py_eq v (VStr "")) end)
                            ["id"; "ID"; "Id"; "name"; "Name"; "uuid"; "uid"] with
                    | Some pk => VStr (join "=" [pk; str_of_val (dget_or pk VNone first)])
                    | None => key
                    end in
    if truthy label || truthy key
    then join "" ["graph://neo4j/"; str_of_val (label or_else VStr "graph"); "/"; str_of_val (key or_else VStr "unknown")]
    else "graph://neo4j/graph"
  | _ => "graph://neo4j/graph"
  end.

Definition normalize_graph_evidence (graph_result : pydict) (tenant_id : string) : result (list Evidence) :=
  match graph_result with
  | [] => Ok []
  | _ =>
    let! rows := py_iter (dget_or "rows" (VList []) graph_result or_else VList []) in
    let row_count := dget_or "row_count" (VInt (py_len rows)) graph_result in
    let! answer := as_str (dget_or "answer" (VStr "") graph_result or_else VStr "") in
    let! quality := score_of "quality_score" (rnd (17 # 20)) graph_result in
    if truthy (dget_or "error" (VStr "") graph_result) || py_eq row_count (VInt 0) then Ok []
    else
      let content_raw := if truthy answer then answer
                         else join newline (map (fun row => match row with VDict _ => json_dumps row | _ => str_of_val row end) rows) in
      let! title := as_str (dget_or "title" (VStr "") graph_result or_else VStr (join "" ["图谱查询结果（"; str_of_val row_count; " 行）"])) in
      Ok [new_evidence "graph" tenant_id (extract_graph_source_uri rows) title content_raw quality 1]
  end.

(** The documents under [docs], or under the tool's own key. *)
Definition result_docs (own_key : string) (result : pydict) : PyVal.result (list pydict) :=
  let! items := py_iter (dget_or "docs" VNone result or_else dget_or own_key VNone result or_else VList []) in rmap as_dict items.

Definition normalize_tool_result (tool_name : string) (result : pydict) (tenant_id : string) : PyVal.result (list Evidence) :=
  let source_type := get_or (dlookup tool_name TOOL_SOURCE_TYPE_MAP) "" in
  if String.eqb source_type "rag" then let! docs := result_docs "rag_docs" result in normalize_rag_evidence docs tenant_id
  else if str_in source_type ["db"; "report"] then normalize_db_evidence result tenant_id
  else if String.eqb source_type "web" then let! docs := result_docs "web_docs" result in normalize_web_evidence docs tenant_id
  else if String.eqb source_type "rest" then
    let! docs := result_docs "rest_docs" result in
    normalize_rest_evidence docs tenant_id (str_of_val (dget_or "erp_domain" (VStr "") result))
  else if String.eqb source_type "graph" then normalize_graph_evidence result tenant_id
  else Ok [].

(** What the fusion node takes from the state. *)
Definition from_docs (key tool_name : string) (tenant_id : string) (st : pystate) : PyVal.result (list Evidence) :=
  let docs := vor (sgetv st key (VList [])) (VList []) in
  if truthy docs then normalize_tool_result tool_name [("docs", docs)] tenant_id else Ok [].
Definition from_result (key tool_name : string) (tenant_id : string) (st : pystate) : PyVal.result (list Evidence) :=
  let reply := vor (sgetv st key VNone) (VDict []) in
  if truthy reply then let! d := as_dict reply in normalize_tool_result tool_name d tenant_id else Ok [].

Definition normalize_current_tool_results (st : pystate) (tenant_id : string) : PyVal.result (list Evidence) :=
  let! rag := from_docs "rag_docs" "rag_search" tenant_id st in
  let! db := from_result "db_result" "db_query" tenant_id st in
  let! web := from_docs "web_docs" "web_search" tenant_id st in
  let! graph := from_result "graph_result" "graph" tenant_id st in
  Ok (rag ++ db ++ web ++ graph).
End normalisation.

(** ** The node *)

(** The evidence in the state. *)
Definition state_evidence (st : pystate) : result (list Evidence) :=
  let! items := py_iter (vor (sgetv st "evidence" (VList [])) (VList [])) in
  let! dicts := rmap as_dict items in rmap evidence_of_dict dicts.


Section node.
Context (encode : string -> option (list Z)) (sha256_hex : string -> string) (json_dumps : pyval -> string) (float_repr : Q -> string)
  (float_of_text : string -> option Q) (unicode_word unicode_digit : string -> bool) (now : string).

Definition MAX_EVIDENCE_COUNT : Z := 20.

(** The reply of each database query of the plan, or the aggregated one. *)
Fixpoint query_results (tool_results : list pyval) : result (list pydict) :=
  match tool_results with
  | [] => Ok []
  | tr :: trs =>
    let! d := as_dict tr in
    let! rest := query_results trs in
    if is_one_of (dget_or "tool" (VStr "") d) ["database"; "db"; "db_query"] then
      let! reply := as_dict (dget_or "result" VNone d or_else dget_or "db_result" VNone d or_else VDict []) in
      Ok (if truthy (dget_or "rows" VNone reply) then reply :: rest else rest)
    else Ok rest
  end.

Definition split_db_to_tables (st : pystate) (db_result : pydict) : result (list pydict) :=
  let! tool_results := py_iter (vor (sgetv st "tool_results" (VList [])) (VList [])) in
  let! found := query_results tool_results in
  match found with
  | _ :: _ => Ok found
  | [] => Ok (if truthy (dget_or "rows" VNone db_result) then [db_result] else [])
  end.

Definition table_rows (table : pydict) : result (list pydict) :=
  let! rows := py_iter (dget_or "rows" (VList []) table or_else VList []) in rmap as_dict rows.
Definition table_columns (table : pydict) : result (list string) := as_list as_str (dget_or "columns" (VList []) table or_else VList []).

Definition compress_table (level : string) (table : pydict) (quota : Z) : result CompressedDb :=
  let! rows := table_rows table in
  let! columns := table_columns table in
  Ok (compress_db_result encode float_repr rows columns quota level).

Fixpoint compress_tables (level : string) (tables : list pydict) (quotas : list Z) : result (list CompressedDb) :=
  match tables, quotas with
  | t :: tables', q :: quotas' => let! c := compress_table level t q in let! cs := compress_tables level tables' quotas' in Ok (c :: cs)
  | _, _ => Ok []
  end.

Definition compress_db_for_fusion (st : pystate) (db_result : pydict) (level : string) (db_quota : Z) : result pydict :=
  let! tables := split_db_to_tables st db_result in
  match tables with
  | [] => Ok db_result
  | [table] =>
    let! original := table_rows db_result in
    let! c := compress_table level table db_quota in
    Ok (dset "_original_row_count" (VInt (py_len original))
         (dset "_compressed" (VBool (cd_truncated c))
           (dset "columns" (VStrs (cd_columns c)) (dset "rows" (VList (map VDict (cd_rows c))) db_result))))
  | _ =>
    let! counts := rmap (fun t => let! rows := table_rows t in Ok (py_len rows)) tables in
    let! original := table_rows db_result in
    let! columns := table_columns db_result in
    let! compressed := compress_tables level tables (allocate_db_quota counts db_quota) in
    let columns := fold_left (fun cols c => match cd_columns c with [] => cols | cs => cs end) compressed columns in
    Ok (dset "_original_row_count" (VInt (py_len original))
         (dset "_compressed" (VBool (existsb cd_truncated compressed))
           (dset "columns" (VStrs columns) (dset "rows" (VList (map VDict (concat (map cd_rows compressed)))) db_result))))
  end.

(** The documents the summarising model leaves; a failure leaves them all. *)
Definition compressed_docs (llm : string -> string -> string -> option string) (docs : list pydict) (question level : string) : list pydict :=
  match compress_rag_chunks encode llm docs question level with
  | Ok compressed => List.filter (fun c => truthy (dget_or "content" VNone c)) compressed
  | Raise _ => docs
  end.

Definition compress_documents (llm : option (string -> string -> string -> option string)) (level question : string) (st working : pystate) : result pystate :=
  let! docs := state_docs "rag_docs" st in
  Ok (match docs, llm with
      | _ :: _, Some chat => <["rag_docs" := VList (map VDict (compressed_docs chat docs question level))]> working
      | _, _ => working
      end).

Definition compress_rows (level : string) (db_quota : Z) (st working : pystate) : result pystate :=
  let! db_result := as_dict (vor (sgetv st "db_result" VNone) (VDict [])) in
  if truthy (dget_or "rows" VNone db_result)
  then let! compressed := compress_db_for_fusion st db_result level db_quota in Ok (<["db_result" := VDict compressed]> working)
  else Ok working.

(** The state with the replies that overflow the budget compressed. *)
Definition working_state (llm : option (string -> string -> string -> option string)) (st : pystate) (question level : string)
    (overflown : list string) (counts : list (string * Z)) : result pystate :=
  if str_in level ["moderate"; "severe"; "compact"] then
    let! working := if str_in "rag" overflown then compress_documents llm level question st st else Ok st in
    if str_in "db" overflown then compress_rows level (get_or (dlookup "db" counts) 0%Z) st working else Ok working
  else Ok st.

Record FusionUpdate : Type := mkFusionUpdate {
  fu_evidence : list Evidence; fu_snapshot : EvidenceSnapshot; fu_active_tools : list string;
  fu_tool_token_counts : list (string * Z); fu_overflown_tools : list string; fu_compression_level : string }.

Definition state_quota (st : pystate) : result (list (string * Z)) :=
  let v := sgetv st "source_quota" VNone in
  if truthy v then let! d := as_dict v in rmap (fun kv => let! n := as_int kv.2 in Ok (kv.1, n)) d else Ok DEFAULT_SOURCE_QUOTA.

(** Merging, quotas and fusion of the evidence of this round with the old. *)
Definition fuse_round (old new : list Evidence) (quota : list (string * Z)) (token_budget : Z) : FusionResult :=
  fuse_evidences (apply_source_quota (merge_with_replacement old new) quota) MAX_EVIDENCE_COUNT token_budget.

Definition evidence_fusion_node (llm : option (string -> string -> string -> option string)) (st : pystate) : result FusionUpdate :=
  let! tenant_id := sget as_str st "tenant_id" "" in
  let! question := sget as_str st "user_question" "" in
  let! active_tools := detect_active_tools st in
  let! budget := as_int (sgetv st "total_token_budget" (VInt 110000)) in
  let scheduler := init_scheduler (Some budget) in
  let! system := as_int (sgetv st "locked_system_tokens" (VInt 0)) in
  let! history := as_int (sgetv st "locked_history_tokens" (VInt 0)) in
  let! counts := count_tool_tokens encode float_repr st in
  let! ratio := calculate_overflow_ratio scheduler counts (system + history)%Z in
  let level := determine_level ratio in
  let overflown := (identify_overflown_tools counts).1 in
  let! working := working_state llm st question level overflown counts in
  let! new := normalize_current_tool_results sha256_hex json_dumps float_repr float_of_text unicode_word unicode_digit now working tenant_id in
  let! old := state_evidence st in
  let! quota := state_quota st in
  let fused := fr_fused (fuse_round old new quota (total counts)) in
  let! attempt_id := as_int (sgetv st "attempt_id" (VInt 1)) in
  let! tool_run_id := sget as_str st "tool_run_id" "" in
  Ok (mkFusionUpdate fused (build_snapshot sha256_hex now fused tool_run_id attempt_id) active_tools counts overflown level).
End node.

(** ** Lemmas: normalised evidence *)

Lemma clamp01_unit x : (0 <= clamp01 x <= 1)%Q.
Proof.
  unfold clamp01. destruct (flt x 1) eqn:E1.
  - destruct (flt 0 x) eqn:E2; fcompare; lra.
  - destruct (flt 0 1) eqn:E2; fcompare; lra.
Qed.

(** What every normaliser gives its evidence. *)
Record normalized (tenant_id source : string) (e : Evidence) : Prop := {
  nz_tenant : ev_tenant_id e = Some tenant_id;
  nz_source : ev_source_type e = Some source;
  nz_id : ev_id e <> "";
  nz_scores : exists c r, ev_confidence e = Some c /\ ev_relevance_score e = Some r /\ (0 <= c <= 1)%Q /\ (0 <= r <= 1)%Q;
  nz_authority : ev_authority_score e = Some (authority_of source);
  nz_run : extract_tool_run_id e = "" }.

Section normalised.
Context (sha256_hex : string -> string) (json_dumps : pyval -> string) (float_repr : Q -> string) (float_of_text : string -> option Q)
  (unicode_word unicode_digit : string -> bool) (now : string).

Lemma evidence_id_filled uri content : make_evidence_id sha256_hex uri content <> "".
Proof. unfold make_evidence_id. discriminate. Qed.

Lemma new_evidence_normalized source tenant uri title content score freshness :
  normalized tenant source (new_evidence sha256_hex unicode_word unicode_digit source tenant uri title content score freshness).
Proof.
  split; try done. eexists _, _. split_and!; try done; apply clamp01_unit.
Qed.

Lemma rmap_Forall {A B} (f : A -> result B) (P : B -> Prop) l ys : (forall x y, f x = Ok y -> P y) -> rmap f l = Ok ys -> Forall P ys.
Proof. intros Hf H%rmap_Forall2. induction H as [|x y l ys Hxy _ IH]; constructor; [by eapply Hf|done]. Qed.

Lemma rag_normalized docs tenant evs : normalize_rag_evidence sha256_hex float_repr float_of_text unicode_word unicode_digit docs tenant = Ok evs ->
  Forall (normalized tenant "rag") evs.
Proof.
  apply rmap_Forall. intros doc e. unfold normalize_rag_doc.
  intros (c & _ & (q & _ & (t & _ & [= <-])%rbind_ok)%rbind_ok)%rbind_ok. apply new_evidence_normalized.
Qed.

Lemma web_normalized docs tenant evs : normalize_web_evidence sha256_hex float_of_text unicode_word unicode_digit docs tenant = Ok evs ->
  Forall (normalized tenant "web") evs.
Proof.
  apply rmap_Forall. intros doc e. unfold normalize_web_doc.
  intros (c & _ & (q & _ & (u & _ & (t & _ & [= <-])%rbind_ok)%rbind_ok)%rbind_ok)%rbind_ok. split; try done.
  eexists _, _. split_and!; try done; apply clamp01_unit.
Qed.

Lemma graph_normalized d tenant evs :
  normalize_graph_evidence sha256_hex json_dumps float_repr float_of_text unicode_word unicode_digit d tenant = Ok evs ->
  Forall (normalized tenant "graph") evs.
Proof.
  unfold normalize_graph_evidence. destruct d as [|kv d]; [intros [= <-]; constructor|].
  intros (rows & _ & (a & _ & (q & _ & H)%rbind_ok)%rbind_ok)%rbind_ok. destruct (_ || _); [injection H as <-; constructor|].
  apply rbind_ok in H as (t & _ & [= <-]). constructor; [apply new_evidence_normalized|constructor].
Qed.

Lemma db_normalized d tenant evs :
  normalize_db_evidence sha256_hex json_dumps float_repr float_of_text unicode_word unicode_digit now d tenant = Ok evs ->
  Forall (normalized tenant "db") evs.
Proof.
  unfold normalize_db_evidence. destruct d as [|kv d]; [intros [= <-]; constructor|].
  intros (sql & _ & (rows & _ & (tables & _ & H)%rbind_ok)%rbind_ok)%rbind_ok. destruct rows as [|r rows].
  - injection H as <-. constructor; [|constructor]. split; try done. eexists _, _. split_and!; try done; vm_compute; discriminate.
  - apply rbind_ok in H as (q & _ & (ds & _ & H)%rbind_ok).
    assert (forall (f : pydict -> Evidence) l, (forall x, normalized tenant "db" (f x)) -> Forall (normalized tenant "db") (map f l)) as Hmap
      by (intros f l Hf; by apply Forall_fmap, Forall_true).
    destruct (_ && _); [injection H as <-; apply Hmap; intros x; apply new_evidence_normalized|].
    destruct ds as [|[|[c v] row] ds]; try done. apply Ok_inj in H as <-. apply Hmap. intros x. apply new_evidence_normalized.
Qed.

Abbreviation by_tool := (normalize_tool_result sha256_hex json_dumps float_repr float_of_text unicode_word unicode_digit now).

Lemma from_docs_ok key tool tenant st evs :
  from_docs sha256_hex json_dumps float_repr float_of_text unicode_word unicode_digit now key tool tenant st = Ok evs ->
  evs = [] \/ exists d, by_tool tool d tenant = Ok evs.
Proof. unfold from_docs. destruct (truthy _); [eauto|intros [= <-]; by left]. Qed.

Lemma from_result_ok key tool tenant st evs :
  from_result sha256_hex json_dumps float_repr float_of_text unicode_word unicode_digit now key tool tenant st = Ok evs ->
  evs = [] \/ exists d, by_tool tool d tenant = Ok evs.
Proof. unfold from_result. destruct (truthy _); [intros (d & _ & H)%rbind_ok; eauto|intros [= <-]; by left]. Qed.

(** The four tools of the fusion node. *)
Lemma by_tool_normalized tool source d tenant evs : In (tool, source) [("rag_search", "rag"); ("db_query", "db"); ("web_search", "web"); ("graph", "graph")] ->
  by_tool tool d tenant = Ok evs -> Forall (normalized tenant source) evs.
Proof.
  intros [[= <- <-]|[[= <- <-]|[[= <- <-]|[[= <- <-]|[]]]]]; unfold normalize_tool_result; cbn.
  - intros (docs & _ & H)%rbind_ok. by eapply rag_normalized.
  - apply db_normalized.
  - intros (docs & _ & H)%rbind_ok. by eapply web_normalized.
  - apply graph_normalized.
Qed.

Definition fused_sources : list string := ["rag"; "db"; "web"; "graph"].

Lemma current_normalized st tenant evs :
  normalize_current_tool_results sha256_hex json_dumps float_repr float_of_text unicode_word unicode_digit now st tenant = Ok evs ->
  Forall (fun e => exists source, source ∈ fused_sources /\ normalized tenant source e) evs.
Proof.
  unfold normalize_current_tool_results.
  intros (rag & Hrag%from_docs_ok & (db & Hdb%from_result_ok & (web & Hweb%from_docs_ok & (graph & Hgraph%from_result_ok & [= <-])%rbind_ok)%rbind_ok)%rbind_ok)%rbind_ok.
  assert (forall tool source l, In (tool, source) [("rag_search", "rag"); ("db_query", "db"); ("web_search", "web"); ("graph", "graph")] ->
    l = [] \/ (exists d, by_tool tool d tenant = Ok l) ->
    Forall (fun e => exists source, source ∈ fused_sources /\ normalized tenant source e) l) as Hsrc.
  { intros tool source l Ht [->|[d Hd]]; [constructor|]. eapply Forall_impl; [by eapply by_tool_normalized|].
    intros e He. exists source. split; [|done]. apply str_in_spec. by destruct Ht as [[= <- <-]|[[= <- <-]|[[= <- <-]|[[= <- <-]|[]]]]]. }
  rewrite !Forall_app. split_and!; eapply Hsrc; try done; cbn; auto.
Qed.

(** A database reply without rows, whatever its error, is an evidence with
    full confidence. *)
Lemma failed_query_is_evidence d tenant evs : d <> [] -> dlookup "rows" d = Some (VList []) ->
  normalize_db_evidence sha256_hex json_dumps float_repr float_of_text unicode_word unicode_digit now d tenant = Ok evs ->
  exists e, evs = [e] /\ ev_confidence e = Some 1%Q /\ ev_authority_score e = Some (rnd (19 # 20)) /\ ev_content e = Some "".
Proof.
  unfold normalize_db_evidence. intros Hne Hrows. destruct d as [|kv d]; [done|].
  intros (sql & _ & (rows & Hr & (tables & _ & H)%rbind_ok)%rbind_ok)%rbind_ok. unfold dget_or in Hr. rewrite Hrows in Hr.
  cbn in Hr. injection Hr as <-. injection H as <-. by eexists.
Qed.
End normalised.

(** ** Lemmas: a round of fusion *)

Lemma NoDup_map_filter {A} (f : A -> string) (p : A -> bool) l : NoDup (f <$> l) -> NoDup (f <$> List.filter p l).
Proof.
  induction l as [|x l IH]; [done|]. rewrite fmap_cons, NoDup_cons. intros [Hx Hl]. cbn [List.filter].
  destruct (p x); [|by apply IH]. rewrite fmap_cons, NoDup_cons. split; [|by apply IH].
  intros (y & Hxy & Hy)%list_elem_of_fmap. apply Hx, list_elem_of_fmap. exists y. split; [done|]. by apply filter_In_elem in Hy as [? _].
Qed.

(** No source takes more than its quota, over old and new evidence together. *)
Lemma fuse_round_quota old new quota token_budget st : (0 <= quota_limit quota st)%Z ->
  (py_len (List.filter (fun e => String.eqb (quota_source e) st) (fr_fused (fuse_round old new quota token_budget))) <= quota_limit quota st)%Z.
Proof.
  intros Hq. unfold fuse_round. set (kept := apply_source_quota (merge_with_replacement old new) quota).
  destruct (fuse_evidences_spec kept MAX_EVIDENCE_COUNT token_budget ltac:(done)) as (Hnd & Hin & _).
  set (fused := fr_fused _) in *.
  assert (length (List.filter (fun e => String.eqb (quota_source e) st) fused) <= length (List.filter (fun e => String.eqb (quota_source e) st) kept)) as Hlen.
  { apply (NoDup_fmap_length ev_id); [by apply NoDup_map_filter|]. intros e [He Hs]%filter_In_elem. apply filter_In_elem. split; [|done]. by apply Hin. }
  unfold kept in Hlen. rewrite source_quota_per_source in Hlen.
  pose proof (py_take_length_nonneg (quota_limit quota st) (sort_desc evidence_weight (List.filter (fun e => String.eqb (quota_source e) st) (merge_with_replacement old new))) Hq) as Ht.
  unfold py_len in *. lia.
Qed.

(** Where a fused evidence comes from. *)
Lemma fuse_round_elem old new quota token_budget e : e ∈ fr_fused (fuse_round old new quota token_budget) ->
  ev_id e <> "" /\ (e ∈ new \/ (e ∈ old /\ forall n, n ∈ new -> ev_source n <> "" -> run_key n <> run_key e)).
Proof.
  unfold fuse_round. intros He.
  destruct (fuse_evidences_spec (apply_source_quota (merge_with_replacement old new) quota) MAX_EVIDENCE_COUNT token_budget ltac:(done)) as (_ & Hin & _).
  destruct (Hin e He) as [Hq Hid]. split; [done|]. by apply source_quota_elem, merge_with_replacement_spec in Hq.
Qed.

(** Compression changes only the replies it compresses. *)
Lemma working_state_frame encode float_repr llm st question level overflown counts working k :
  working_state encode float_repr llm st question level overflown counts = Ok working -> k <> "rag_docs" -> k <> "db_result" ->
  working !! k = st !! k.
Proof.
  unfold working_state. intros H Hr Hd. destruct (str_in level _); [|by apply Ok_inj in H as <-].
  apply rbind_ok in H as (w & Hw & H).
  assert (w !! k = st !! k) as <-.
  { destruct (str_in "rag" overflown); [|by apply Ok_inj in Hw as <-]. unfold compress_documents in Hw.
    apply rbind_ok in Hw as (docs & _ & Hw). apply Ok_inj in Hw as <-. destruct docs, llm; try done. by rewrite lookup_insert_ne. }
  destruct (str_in "db" overflown); [|by apply Ok_inj in H as <-]. unfold compress_rows in H.
  apply rbind_ok in H as (d & _ & H). destruct (truthy _); [|by apply Ok_inj in H as <-].
  apply rbind_ok in H as (c & _ & H). apply Ok_inj in H as <-. by rewrite lookup_insert_ne.
Qed.

(** ** The properties *)

(** [C25] The fused evidence has distinct ids, at most 20 items, best first, within
    the quota of every source.  An item is either one that the normalisers make
    of the tool results of this round (compressed as the update reports), with
    the tenant of the request, one of the four fused sources and scores in the
    unit interval; or an old one, and then it carries a run id or no result of
    this round has its source: fresh evidence has no run id, so an old item
    without one gives way to the tool that ran again.  The snapshot holds
    exactly this evidence. *)
Theorem evidence_fusion_sound encode sha256_hex json_dumps float_repr float_of_text unicode_word unicode_digit now llm st out tenant question old quota
  (Hok : evidence_fusion_node encode sha256_hex json_dumps float_repr float_of_text unicode_word unicode_digit now llm st = Ok out)
  (Ht : sget as_str st "tenant_id" "" = Ok tenant) (Hu : sget as_str st "user_question" "" = Ok question)
  (Ho : state_evidence st = Ok old) (Hq : state_quota st = Ok quota) :
  NoDup (ev_id <$> fu_evidence out) /\ (py_len (fu_evidence out) <= 20)%Z /\ StronglySorted (desc evidence_weight) (fu_evidence out) /\
  (forall s, (0 <= quota_limit quota s)%Z -> (py_len (List.filter (fun e => String.eqb (quota_source e) s) (fu_evidence out)) <= quota_limit quota s)%Z) /\
  (exists working new,
     working_state encode float_repr llm st question (fu_compression_level out) (fu_overflown_tools out) (fu_tool_token_counts out) = Ok working /\
     (forall k, k <> "rag_docs" -> k <> "db_result" -> working !! k = st !! k) /\
     normalize_current_tool_results sha256_hex json_dumps float_repr float_of_text unicode_word unicode_digit now working tenant = Ok new /\
     forall e, e ∈ fu_evidence out -> ev_id e <> "" /\
       ((e ∈ new /\ exists source, source ∈ fused_sources /\ normalized tenant source e) \/
        (e ∈ old /\ (extract_tool_run_id e <> "" \/ forall n, n ∈ new -> ev_source n <> ev_source e)))) /\
  sn_evidences (fu_snapshot out) = fu_evidence out.
Proof.
  unfold evidence_fusion_node in Hok. rewrite Ht, Hu, Ho, Hq in Hok. cbn [rbind] in Hok.
  apply rbind_ok in Hok as (active & _ & (budget & _ & (sys & _ & (hist & _ & (counts & _ & (ratio & _ & Hok)%rbind_ok)%rbind_ok)%rbind_ok)%rbind_ok)%rbind_ok).
  apply rbind_ok in Hok as (working & Hw & (new & Hnew & Hok)%rbind_ok). cbn [rbind] in Hok.
  apply rbind_ok in Hok as (attempt & _ & (run & _ & Hok)%rbind_ok). apply Ok_inj in Hok as <-.
  cbn [fu_evidence fu_snapshot fu_compression_level fu_overflown_tools fu_tool_token_counts build_snapshot sn_evidences].
  pose proof (current_normalized _ _ _ _ _ _ _ _ _ _ Hnew) as Hnz. rewrite Forall_forall in Hnz.
  destruct (fuse_evidences_spec (apply_source_quota (merge_with_replacement old new) quota) MAX_EVIDENCE_COUNT (total counts) ltac:(done))
    as (H1 & _ & H3 & H4 & H5 & _).
  unfold fuse_round at 1 2 3. split; [done|]. split; [by rewrite <- H4|]. split; [done|]. split; [intros s Hs; by apply fuse_round_quota|]. split; [|done].
  exists working, new. split; [exact Hw|]. split; [intros k; by apply (working_state_frame _ _ _ _ _ _ _ _ _ _ Hw)|]. split; [exact Hnew|].
  intros e [Hid [He|[He Hkey]]]%fuse_round_elem; (split; [done|]); [left; split; [done|by apply Hnz]|right; split; [done|]].
  destruct (decide (extract_tool_run_id e = "")) as [Er|]; [|by left]. right. intros n Hn Es.
  destruct (Hnz n Hn) as (source & Hs & Hz). apply (Hkey n Hn).
  - unfold ev_source. rewrite (nz_source _ _ _ Hz). cbn. intros ->. apply str_in_spec in Hs. done.
  - unfold run_key. by rewrite Es, Er, (nz_run _ _ _ Hz).
Qed.

(** Scrubbing looks at the content only: a phone number in the first column
    of a row is in the title, which the prompt shows. *)
Lemma title_keeps_phone :
  let row := [("phone", VStr "13812345678")] in
  let e := single_row_evidence (fun s => s) (fun _ => "13812345678") (fun _ => "") (fun _ => false) (fun _ => false) "t" "db" "now" "phone" 1 row in
  ev_content e = Some "1XX-XXXX-XXXX" /\ ev_title e = Some "数据库查询结果行（phone=13812345678）" /\
  contains "13812345678" (format_evidence (fun _ => "1.00") e "db") = true.
Proof. vm_compute. done. Qed.

Example scrub_ex :
  scrub_sensitive (fun _ => false) (fun _ => false) "电话13812345678，证件11010519491231002X。x13812345678 138123456789" =
  "电话1XX-XXXX-XXXX，证件ID-XXXXXXXX。x13812345678 138123456789".
Proof. vm_compute. done. Qed.

(** ** Witness *)

Definition fusion_state : pystate :=
  {["tenant_id" := VStr "t"; "user_question" := VStr "q"; "rag_docs" := VList [VDict [("content", VStr "x"); ("score", VFloat 1)]]]}.

Lemma evidence_fusion_sound_witness :
  match evidence_fusion_node bytes_encode (fun s => s) (fun _ => "") (fun _ => "") (fun _ => None) (fun _ => false) (fun _ => false) "now" None fusion_state with
  | Ok out => NoDup (ev_id <$> fu_evidence out) /\ length (fu_evidence out) = 1
  | Raise _ => False
  end.
Proof.
  destruct (evidence_fusion_node bytes_encode (fun s => s) (fun _ => "") (fun _ => "") (fun _ => None) (fun _ => false) (fun _ => false) "now" None fusion_state)
    as [out|e] eqn:E; [|vm_compute in E; discriminate].
  split; [apply (evidence_fusion_sound bytes_encode (fun s => s) (fun _ => "") (fun _ => "") (fun _ => None) (fun _ => false) (fun _ => false) "now" None
    fusion_state out "t" "q" [] DEFAULT_SOURCE_QUOTA E); vm_compute; reflexivity|].
  vm_compute in E. injection E as <-. reflexivity.
Defined.
