(* ===== verification/PromptAssembly.v ===== *)
(** * Assembling the prompt (nodes/prompt_assembly.py)

    The context of the prompt comes from the fused evidence, within the token
    budget, or, without evidence, from the raw tool results.  The prompt is the
    instructions, the history, the context and the question. *)

From stdpp Require Import pretty.
From S2P Require Import Prelude PyFloat PyVal PyList PyText PolicyEngine AgentState Config Evidence Hallucination ToolNodes TokenBudget EvidenceFusion.

Definition LANGUAGE_INSTRUCTIONS : list (string * string) :=
  [("zh_CN", "请使用简体中文回答以下问题。"); ("zh_TW", "請使用繁體中文回答以下問題。");
   ("en", "Please answer the following question in English.")].

Definition lang_instruction (query_lang : string) : string :=
  get_or (dlookup query_lang LANGUAGE_INSTRUCTIONS) "请使用简体中文回答以下问题。".

Definition paragraph : string := String.append newline newline.

(** [get_enforcement_mode]: unknown and missing modes are disabled. *)
Definition get_enforcement_mode (st : pystate) : result string :=
  let! mode := as_str (vor (sgetv st "enforcement_mode" (VStr "")) (VStr "")) in
  let mode := py_lower (strip mode) in
  Ok (if str_in mode ["disabled"; "shadow"; "enforced"] then mode else "disabled").

(** A dictionary of integers. *)
Definition as_counts (v : pyval) : result (list (string * Z)) :=
  let! d := as_dict v in rmap (fun kv => let! n := as_int kv.2 in Ok (kv.1, n)) d.

Section assembly.
Context (encode : string -> option (list Z)) (format2 : Q -> string) (float_repr : Q -> string).

(** ** The raw tool results *)

Definition first_present (keys : list string) (d : pydict) : pyval :=
  fold_right (fun k rest => match dlookup k d with Some VNone | None => rest | Some v => v end) VNone keys.

(** [extract_original_text] (api/utils/chunk_preprocessor.py). *)
Definition extract_original_text (doc : pydict) : string :=
  match first_present ["original_text"; "content"; "content_with_weight"; "text"] doc with
  | VNone => ""
  | v => py_str float_repr v
  end.

Definition doc_get (k : string) (default : pyval) (doc : pydict) : pyval := get_or (dlookup k doc) default.

(** The lines of the documents that have a text, numbered by position. *)
Fixpoint numbered (f : Z -> pydict -> result (list string)) (i : Z) (docs : list pydict) : result (list string) :=
  match docs with
  | [] => Ok []
  | doc :: docs' => let! l := f i doc in let! ls := numbered f (i + 1)%Z docs' in Ok (l ++ ls)
  end.

Definition rag_line (i : Z) (doc : pydict) : result (list string) :=
  let content := extract_original_text doc in
  let source := doc_get "source" (VStr "") doc in
  if negb (truthy content) then Ok []
  else if truthy source then
    let! score := as_float (doc_get "score" (VFloat 0) doc) in
    Ok [join "" [pretty i; ". "; content; "（来源："; py_str float_repr source; "，相关度："; format2 score; "）"]]
  else Ok [join "" [pretty i; ". "; content]].

Definition format_rag_context (rag_docs : list pydict) : result string :=
  match rag_docs with
  | [] => Ok ""
  | _ => let! ls := numbered rag_line 1 (py_take 5 rag_docs) in Ok (join newline (CONTEXT_HEADER :: ls))
  end.

Definition web_line (i : Z) (doc : pydict) : result (list string) :=
  let content := doc_get "content" (VStr "") doc in
  let title := doc_get "title" (VStr "") doc in
  let url := doc_get "url" (VStr "") doc in
  if negb (truthy content) then Ok []
  else
    let! text := as_str content in
    Ok [join "" [pretty i; ". "; text_take 500 text; if truthy title then join "" ["（"; py_str float_repr title; "）"] else "";
                 if truthy url then join "" [" ["; py_str float_repr url; "]"] else ""]].

Definition format_web_context (web_docs : list pydict) : result string :=
  match web_docs with
  | [] => Ok ""
  | _ => let! ls := numbered web_line 1 (py_take 6 web_docs) in Ok (join newline ("【网络搜索结果】" :: ls))
  end.

(** The columns of a row without the mark of its database. *)
Definition own_columns (row : pydict) : pydict := List.filter (fun kv => negb (String.eqb kv.1 "_source_db")) row.

Definition row_line (i : Z) (row : pydict) : result (list string) :=
  let source_db := doc_get "_source_db" (VStr "") row in
  let row_str := join "，" (map (fun kv => join "=" [kv.1; py_str float_repr kv.2]) (own_columns row)) in
  Ok [join "" ["  第"; pretty i; "行："; row_str;
               if truthy source_db then join "" ["（来源："; py_str float_repr source_db; "）"] else ""]].

Definition format_db_context (db_result : pydict) : result string :=
  let sql := doc_get "sql" (VStr "") db_result in
  let! rows := py_iter (doc_get "rows" (VList []) db_result or_else VList []) in
  let row_count := doc_get "row_count" (VInt 0) db_result in
  match rows with
  | [] => Ok ""
  | _ =>
    let! source_dbs := as_list as_str (doc_get "source_dbs" (VList []) db_result or_else VList []) in
    let! display_rows := rmap as_dict (py_take 20 rows) in
    let columns := match display_rows with row :: _ => map fst (own_columns row) | [] => [] end in
    let! lines := numbered row_line 1 display_rows in
    let! count := as_int row_count in
    Ok (join newline
      (["【数据库查询结果】"] ++ (if truthy sql then [join "" ["查询语句："; py_str float_repr sql]] else []) ++
       [join "" ["结果行数："; py_str float_repr row_count]] ++
       (if truthy (doc_get "is_aggregated" (VBool false) db_result) && negb (bool_decide (source_dbs = []))
        then [join "" ["数据来源："; join ", " source_dbs]] else []) ++
       (match columns with [] => [] | _ => [join "" ["列名："; join "、" columns]] end) ++ lines ++
       (if (count >? 20)%Z then [join "" ["  ...（省略 "; pretty (count - 20)%Z; " 行）"]] else [])))
  end.

(** The contexts that are not empty. *)
Definition raw_context (st : pystate) : result string :=
  let! rag_docs := py_iter (vor (sgetv st "rag_docs" (VList [])) (VList [])) in
  let! rag_docs := rmap as_dict rag_docs in
  let! rag := format_rag_context rag_docs in
  let db_result := sgetv st "db_result" (VDict []) in
  let! db := if truthy db_result then let! d := as_dict db_result in format_db_context d else Ok "" in
  let! web_docs := py_iter (vor (sgetv st "web_docs" (VList [])) (VList [])) in
  let! web_docs := rmap as_dict web_docs in
  let! web := format_web_context web_docs in
  Ok (join paragraph (List.filter truthy [rag; db; web])).

(** ** The prompt *)

Definition role_label (role : string) : string :=
  get_or (dlookup role [("user", "用户"); ("assistant", "助手"); ("system", "系统")]) role.

Definition message_line (msg : pydict) : result (list string) :=
  let! role := as_str (doc_get "role" (VStr "user") msg) in
  let! content := as_str (doc_get "content" VNone msg or_else VStr "") in
  let content := strip content in
  Ok (if truthy content then [join ": " [role_label role; content]] else []).

Definition format_conversation_history (history : list pydict) (summary : string) : result string :=
  let! lines := rmap message_line (py_last 10 history) in
  let summary_part := if truthy summary then [join newline ["【历史摘要】"; summary]] else [] in
  Ok (join paragraph (summary_part ++ match concat lines with [] => [] | ls => [join newline ("【对话历史】" :: ls)] end)).

Definition with_history (history_block : string) : list string := if truthy history_block then [""; history_block] else [].
Definition question_line (question : string) : string := join "" ["用户问题："; question].

(** No context: instruction, history, question. *)
Definition bare_prompt (lang : string) (history_block question : string) : list string :=
  [lang_instruction lang] ++ with_history history_block ++ [""; question_line question].

Definition ROLE_LINES : list string :=
  ["你是一个智能助手，请根据以下参考资料回答用户问题。"; "如果参考资料中没有相关信息，请诚实告知，不要编造答案。"].

Definition build_prompt (user_question merged_context query_lang route_target history_block : string) : string :=
  if String.eqb route_target "chitchat" || negb (truthy merged_context)
  then join newline (bare_prompt query_lang history_block user_question)
  else join newline (ROLE_LINES ++ [lang_instruction query_lang] ++ with_history history_block ++
         [""; merged_context; ""; question_line user_question; "";
          "请基于以上参考资料给出准确、完整的回答。如果引用了参考资料，请标注来源。"]).

(** The format the enforced mode asks for. *)
Definition AST_FORMAT_LINES : list string :=
  [""; "【输出格式要求】"; "你必须输出严格的 JSON 格式（Answer AST），结构如下："; "{"; "  'schema_version': '1.0',"; "  'root': {";
   "    'node_type': 'section',"; "    'title': '',"; "    'level': 1,"; "    'content': ["; "      {"; "        'node_type': 'paragraph',";
   "        'children': ["; "          {"; "            'node_type': 'claim',"; "            'claim_id': 'c1',";
   "            'text': '事实陈述文本（不含引用标记）',"; "            'citation_indices': [1, 2],"; "            'model_claim_type': 'statement',";
   "            'model_is_required': false"; "          },"; "          {"; "            'node_type': 'narrative',";
   "            'text': '非事实连接文本（如过渡句、总结句）'"; "          }"; "        ]"; "      }"; "    ]"; "  }"; "}"; "";
   "【引用标注规则】"; "1. 每个事实声明（Claim）必须在 citation_indices 中标注所引用的参考资料编号 [n]。";
   "2. citation_indices 中的编号必须对应下方参考资料中的 [n] 编号。"; "3. 非事实连接文本（Narrative，如过渡句）不需标注引用。";
   "4. 如果某个事实无对应证据，不要编造，应省略该 Claim 或在 narrative 中说明。"; "5. 只输出 JSON，不要输出任何其他文本或 Markdown 代码块标记。"].

Definition CITATION_LINES : list string :=
  [""; "【引用标注规则】"; "请在回答中每个事实句后标注引用编号 [n]，编号对应下方参考资料中的 [n]。"; "例如：根据资料显示，某某指标增长了 15%[1][3]。"].

Definition compact_note (compact_mode : bool) : list string :=
  if compact_mode then [String.append newline "【精简模式】上下文空间不足，请仅输出核心结论（1-3 句话），不要展开详细分析。"] else [].

(** Double quotes of the format lines, written as single ones above. *)
Fixpoint double_quoted (s : string) : string :=
  match s with
  | EmptyString => EmptyString
  | String a s' => String (if Ascii.eqb a single_quote then double_quote else a) (double_quoted s')
  end.

Definition build_citation_aware_prompt (question evidence_context lang enforcement_mode history_block : string) (compact_mode : bool) : string :=
  if negb (truthy evidence_context) then join newline (bare_prompt lang history_block question)
  else if String.eqb enforcement_mode "enforced" then
    join newline (ROLE_LINES ++ [lang_instruction lang] ++ map double_quoted AST_FORMAT_LINES ++ with_history history_block ++
      [""; evidence_context] ++ compact_note compact_mode ++ [""; question_line question])
  else
    join newline (ROLE_LINES ++ [lang_instruction lang] ++ CITATION_LINES ++ with_history history_block ++
      [""; evidence_context] ++ compact_note compact_mode ++
      [""; question_line question; ""; "请基于以上参考资料给出准确、完整的回答，并在事实句后标注引用编号 [n]。"]).

(** ** The node *)

(** Context and mode when there is evidence. *)
Definition evidence_context (st : pystate) (evidences : list Evidence) : result (string * bool) :=
  let! counts := as_counts (sgetv st "tool_token_counts" (VDict [])) in
  let! system := as_int (sgetv st "locked_system_tokens" (VInt 0)) in
  let! history := as_int (sgetv st "locked_history_tokens" (VInt 0)) in
  let! budget := as_int (sgetv st "total_token_budget" (VInt 110000)) in
  let '(text, compact, _) := assemble encode format2 (init_scheduler (Some budget)) evidences counts (system + history)%Z in
  Ok (text, compact).

Definition prompt_assembly_node (ms : Z) (st : pystate) : result pydict :=
  let! user_question := sget as_str st "user_question" "" in
  let! query_lang := sget as_str st "query_lang" "zh_CN" in
  let! route_target := sget as_str st "route_target" "chitchat" in
  let! history := py_iter (vor (sgetv st "conversation_history" (VList [])) (VList [])) in
  let! history := rmap as_dict history in
  let! summary := as_str (vor (sgetv st "conversation_summary" (VStr "")) (VStr "")) in
  let! evidences := state_evidence st in
  let snapshot_id := vor (sgetv st "evidence_snapshot_id" (VStr "")) (VStr "") in
  let! mode := get_enforcement_mode st in
  let! (context, compact_mode) := match evidences with [] => Ok ("", false) | _ => evidence_context st evidences end in
  let! history_block := format_conversation_history history summary in
  let! (merged_context, final_prompt) :=
    if truthy context then Ok (context, build_citation_aware_prompt user_question context query_lang mode history_block compact_mode)
    else let! raw := raw_context st in Ok (raw, build_prompt user_question raw query_lang route_target history_block) in
  Ok ([("merged_context", VStr merged_context); ("final_prompt", VStr final_prompt); ("compact_mode", VBool compact_mode);
       timing "prompt_assembly" ms] ++
      (if truthy snapshot_id then [("evidence_snapshot_id", snapshot_id)] else [])).
End assembly.

(** ** Lemmas *)

Definition occurs (x s : string) : Prop := exists a b, s = String.append a (String.append x b).

Lemma append_nil (s : string) : String.append s "" = s.
Proof. induction s as [|a s IH]; [done|]. change (String a (String.append s "") = String a s). by rewrite IH. Qed.

Lemma join_snoc_cons sep x l : l <> [] -> join sep (x :: l) = String.append x (String.append sep (join sep l)).
Proof. by destruct l. Qed.

Lemma join_occurs sep x l : x ∈ l -> occurs x (join sep l).
Proof.
  induction l as [|y l IH]; [by intros H%not_elem_of_nil|]. intros [->|Hx]%elem_of_cons.
  - exists "". destruct l as [|z l]; [exists ""; cbn [join String.concat]; by rewrite append_nil|].
    exists (String.append sep (join sep (z :: l))). by rewrite join_snoc_cons.
  - destruct (IH Hx) as (a & b & E). destruct l as [|z l]; [by apply not_elem_of_nil in Hx|].
    exists (String.append y (String.append sep a)), b. by rewrite join_snoc_cons, E, !append_assoc.
Qed.

Ltac in_parts := rewrite ?elem_of_app, ?elem_of_cons; tauto.

Lemma build_prompt_parts q context lang route history :
  occurs (question_line q) (build_prompt q context lang route history) /\
  (truthy context = true -> route <> "chitchat" -> occurs context (build_prompt q context lang route history)).
Proof.
  unfold build_prompt, bare_prompt. destruct (String.eqb_spec route "chitchat") as [->|Hr]; cbn [orb].
  - split; [|done]. apply join_occurs. in_parts.
  - destruct (truthy context) eqn:Hc; cbn [negb]; (split; [|intros Ht _; try done]); apply join_occurs; in_parts.
Qed.

Lemma citation_prompt_parts q context lang mode history compact :
  truthy context = true ->
  occurs (question_line q) (build_citation_aware_prompt q context lang mode history compact) /\
  occurs context (build_citation_aware_prompt q context lang mode history compact).
Proof.
  intros Hc. unfold build_citation_aware_prompt. rewrite Hc. cbn [negb].
  destruct (String.eqb mode "enforced"); split; apply join_occurs; in_parts.
Qed.

Lemma assemble_text encode format2 s evs counts locked : truthy (assemble encode format2 s evs counts locked).1.1 = true.
Proof.
  unfold assemble, compact_assemble. destruct (_ <=? _)%Z; [destruct evs as [|ev evs]; [done|]|]; cbn [fst].
  - by destruct (compact_parts 1 _).
  - by destruct (as_parts _).
Qed.

(** States that agree outside some keys. *)
Definition agree_off (keys : list string) (st st' : pystate) : Prop := forall k, str_in k keys = false -> st !! k = st' !! k.

Lemma sgetv_off keys st st' k d : agree_off keys st st' -> str_in k keys = false -> sgetv st k d = sgetv st' k d.
Proof. unfold sgetv. intros H Hk. by rewrite (H k Hk). Qed.

Lemma sget_agree {A} (f : pyval -> result A) keys st st' k d : agree_off keys st st' -> str_in k keys = false -> sget f st k d = sget f st' k d.
Proof. unfold sget. intros H Hk. by rewrite (H k Hk). Qed.

(** Read every key of one state from the other. *)
Ltac agree H :=
  repeat match type of H with
         | agree_off _ ?st ?st' =>
           match goal with
           | |- context [sgetv st ?k ?d] => rewrite (sgetv_off _ st st' k d H) by reflexivity
           | |- context [sget ?f st ?k ?d] => rewrite (sget_agree f _ st st' k d H) by reflexivity
           end
         end.

Lemma prompt_assembly_agree encode format2 float_repr ms st st' : agree_off rest_tool_writes st st' ->
  prompt_assembly_node encode format2 float_repr ms st = prompt_assembly_node encode format2 float_repr ms st'.
Proof.
  intros H. unfold prompt_assembly_node, state_evidence, get_enforcement_mode, evidence_context, raw_context. agree H. done.
Qed.

Lemma normalize_agree sha256_hex json_dumps float_repr float_of_text unicode_word unicode_digit now st st' tenant : agree_off rest_tool_writes st st' ->
  normalize_current_tool_results sha256_hex json_dumps float_repr float_of_text unicode_word unicode_digit now st tenant =
  normalize_current_tool_results sha256_hex json_dumps float_repr float_of_text unicode_word unicode_digit now st' tenant.
Proof. intros H. unfold normalize_current_tool_results, from_docs, from_result. agree H. done. Qed.

Lemma agree_insert keys st st' k v : agree_off keys st st' -> agree_off keys (<[k := v]> st) (<[k := v]> st').
Proof. intros H k' Hk. destruct (String.eqb_spec k k') as [->|Hne]; [by rewrite !lookup_insert_eq|]. rewrite !lookup_insert_ne by done. by apply H. Qed.

(** What the compression leaves, on states that agree. *)
Definition agree_result (keys : list string) (a b : result pystate) : Prop :=
  match a, b with Ok s, Ok s' => agree_off keys s s' | Raise e, Raise e' => e = e' | _, _ => False end.

Lemma agree_bind keys a b f g : agree_result keys a b -> (forall w w', agree_off keys w w' -> agree_result keys (f w) (g w')) ->
  agree_result keys (rbind a f) (rbind b g).
Proof. destruct a as [w|e], b as [w'|e']; cbn; try done; auto. Qed.

Lemma compress_documents_agree encode llm level question st st' w w' : agree_off rest_tool_writes st st' -> agree_off rest_tool_writes w w' ->
  agree_result rest_tool_writes (compress_documents encode llm level question st w) (compress_documents encode llm level question st' w').
Proof.
  intros H Hw. unfold compress_documents, state_docs. agree H. match goal with |- agree_result _ (rbind ?m _) _ => destruct m as [docs|e] end; [|done]. cbn.
  destruct docs, llm; cbn; [done..|by apply agree_insert|done].
Qed.

Lemma compress_rows_agree encode float_repr level quota st st' w w' : agree_off rest_tool_writes st st' -> agree_off rest_tool_writes w w' ->
  agree_result rest_tool_writes (compress_rows encode float_repr level quota st w) (compress_rows encode float_repr level quota st' w').
Proof.
  intros H Hw. unfold compress_rows, compress_db_for_fusion, split_db_to_tables. agree H. match goal with |- agree_result _ (rbind ?m _) _ => destruct m as [d|e] end; [|done]. cbn [rbind].
  destruct (truthy _); [|done]. match goal with |- agree_result _ (let! c := ?m in _) _ => destruct m as [c|e] end; [|done]. cbn. by apply agree_insert.
Qed.

Lemma working_state_agree encode float_repr llm st st' question level overflown counts : agree_off rest_tool_writes st st' ->
  agree_result rest_tool_writes (working_state encode float_repr llm st question level overflown counts)
    (working_state encode float_repr llm st' question level overflown counts).
Proof.
  intros H. unfold working_state. destruct (str_in level _); [|done].
  apply agree_bind.
  - destruct (str_in "rag" overflown); [by apply compress_documents_agree|done].
  - intros w w' Hw. destruct (str_in "db" overflown); [by apply compress_rows_agree|done].
Qed.

Lemma evidence_fusion_agree encode sha256_hex json_dumps float_repr float_of_text unicode_word unicode_digit now llm st st' : agree_off rest_tool_writes st st' ->
  evidence_fusion_node encode sha256_hex json_dumps float_repr float_of_text unicode_word unicode_digit now llm st =
  evidence_fusion_node encode sha256_hex json_dumps float_repr float_of_text unicode_word unicode_digit now llm st'.
Proof.
  intros H. unfold evidence_fusion_node, detect_active_tools, count_tool_tokens, state_docs, state_evidence, state_quota. agree H.
  repeat match goal with
         | |- (let! x := ?m in _) = (let! y := ?m in _) => destruct m; [cbn [rbind]|done]
         end.
  pose proof (working_state_agree encode float_repr llm st st') as Hw. specialize (Hw a0 (determine_level a6) (identify_overflown_tools a5).1 a5 H).
  destruct (working_state _ _ _ st _ _ _ _) as [w|e], (working_state _ _ _ st' _ _ _ _) as [w'|e']; try done; cbn in *; [|by subst].
  by rewrite (normalize_agree _ _ _ _ _ _ _ w w' _ Hw).
Qed.

Definition str_of (v : option pyval) : string := match v with Some (VStr s) => s | _ => "" end.

(** ** The properties *)

(** The prompt shows the question, and the context it reports as merged: always
    when there is evidence, otherwise unless the route is small talk. *)
Theorem prompt_complete encode format2 float_repr ms st upd question route evidences
  (Hok : prompt_assembly_node encode format2 float_repr ms st = Ok upd)
  (Hq : sget as_str st "user_question" "" = Ok question) (Hr : sget as_str st "route_target" "chitchat" = Ok route)
  (Hev : state_evidence st = Ok evidences) :
  let context := str_of (dlookup "merged_context" upd) in
  let prompt := str_of (dlookup "final_prompt" upd) in
  occurs (question_line question) prompt /\
  (truthy context = true -> evidences <> [] \/ route <> "chitchat" -> occurs context prompt).
Proof.
  unfold prompt_assembly_node in Hok. rewrite Hq, Hr, Hev in Hok. cbn [rbind] in Hok.
  apply rbind_ok in Hok as (lang & _ & Hok). cbn [rbind] in Hok.
  apply rbind_ok in Hok as (h1 & _ & (h2 & _ & (summary & _ & (mode & _ & ([context compact] & Hctx & (block & _ & ([merged prompt] & Hp & [= <-])%rbind_ok)%rbind_ok)%rbind_ok)%rbind_ok)%rbind_ok)%rbind_ok).
  cbn. destruct (truthy context) eqn:Hc.
  - injection Hp as <- <-. destruct (citation_prompt_parts question context lang mode block compact Hc). done.
  - apply rbind_ok in Hp as (raw & _ & [= <- <-]). destruct (build_prompt_parts question raw lang route block) as [H1 H2]. split; [done|].
    intros Ht [Hne|Hch]; [|by apply H2]. exfalso. destruct evidences; [done|]. revert Hctx. unfold evidence_context.
    intros (counts & _ & (sys & _ & (hist & _ & (budget & _ & Ha)%rbind_ok)%rbind_ok)%rbind_ok)%rbind_ok.
    pose proof (assemble_text encode format2 (init_scheduler (Some budget)) (e :: evidences) counts (sys + hist)) as Ht'.
    destruct (assemble _ _ _ _ _ _) as [[text c] u]. injection Ha as -> ->. cbn in Ht'. congruence.
Qed.

(** Graph, REST and report evidence is fused, but the prompt shows none of it:
    with such evidence only, the context is its bare header, whatever the
    evidence says and whatever the tools returned.  (The counts are those the
    fusion node takes, from some state [st0]; the budget has room.) *)
Theorem prompt_blind_to_graph encode format2 float_repr ms st st0 upd evidences counts budget system history
  (Hok : prompt_assembly_node encode format2 float_repr ms st = Ok upd)
  (Hev : state_evidence st = Ok evidences) (Hne : evidences <> [])
  (Hsrc : Forall (fun ev => quota_source ev ∉ ["rag"; "db"; "web"]) evidences)
  (Hcounts : as_counts (sgetv st "tool_token_counts" (VDict [])) = Ok counts) (Hcounted : count_tool_tokens encode float_repr st0 = Ok counts)
  (Hb : as_int (sgetv st "total_token_budget" (VInt 110000)) = Ok budget)
  (Hs : as_int (sgetv st "locked_system_tokens" (VInt 0)) = Ok system) (Hh : as_int (sgetv st "locked_history_tokens" (VInt 0)) = Ok history)
  (Hroom : (OUTPUT_RESERVE_TOKENS + system + history < budget)%Z) (Hlocked : (0 <= system + history)%Z) :
  str_of (dlookup "merged_context" upd) = CONTEXT_HEADER.
Proof.
  assert (init_scheduler (Some budget) = mkScheduler budget) as Hbud.
  { unfold init_scheduler. destruct (Z.eqb_spec budget 0); [unfold OUTPUT_RESERVE_TOKENS in *; lia|done]. }
  destruct (uncounted_evidence_dropped encode format2 float_repr (mkScheduler budget) st0 evidences counts (system + history)) as [compact Ha];
    [cbn; unfold OUTPUT_RESERVE_TOKENS in *; lia|done|done|].
  unfold prompt_assembly_node in Hok. rewrite Hev in Hok. apply rbind_ok in Hok as (q & _ & (lang & _ & (route & _ & (h1 & _ & Hok)%rbind_ok)%rbind_ok)%rbind_ok).
  apply rbind_ok in Hok as (h2 & _ & (summary & _ & Hok)%rbind_ok). cbn [rbind] in Hok.
  apply rbind_ok in Hok as (mode & _ & ([context cm] & Hctx & (block & _ & ([merged prompt] & Hp & [= <-])%rbind_ok)%rbind_ok)%rbind_ok).
  assert (context = CONTEXT_HEADER) as ->.
  { destruct evidences; [done|]. revert Hctx. unfold evidence_context. rewrite Hcounts, Hs, Hh, Hb. cbn [rbind]. rewrite Hbud, Ha. by intros [= <- _]. }
  cbn in Hp. by injection Hp as <- <-.
Qed.

(** The reply of the REST tool changes neither the fused evidence nor the
    prompt: nothing the tool node writes is read by the two nodes that follow
    it on the way to the answer. *)
Theorem rest_reply_never_prompted encode format2 float_repr sha256_hex json_dumps float_of_text unicode_word unicode_digit now llm ms st st'
  (Hrest : agree_off rest_tool_writes st st') :
  evidence_fusion_node encode sha256_hex json_dumps float_repr float_of_text unicode_word unicode_digit now llm st =
  evidence_fusion_node encode sha256_hex json_dumps float_repr float_of_text unicode_word unicode_digit now llm st' /\
  prompt_assembly_node encode format2 float_repr ms st = prompt_assembly_node encode format2 float_repr ms st'.
Proof. split; [by apply evidence_fusion_agree|by apply prompt_assembly_agree]. Qed.

(** The gate enforces what the configuration says; the prompt reads the mode
    from the state, where only the gate itself writes it, so the first prompt
    of an enforced run asks for plain text. *)
Lemma prompt_and_gate_disagree st agent_config (Hst : st !! "enforcement_mode" = None) (m : RunMode)
  (Hcfg : resolve_enforcement m agent_config = Ok ENFORCED) :
  get_enforcement_mode st = Ok "disabled" /\ node_enforcement st agent_config m = Ok ENFORCED.
Proof. unfold get_enforcement_mode, node_enforcement, sgetv. by rewrite Hst. Qed.

(** ** Witnesses *)

Definition graph_state : pystate :=
  {["user_question" := VStr "q"; "evidence" := VList [VDict [("source_type", VStr "graph"); ("content", VStr "x")]]]}.

Lemma prompt_complete_witness :
  match prompt_assembly_node bytes_encode (fun _ => "") (fun _ => "") 1 graph_state with
  | Ok upd => occurs (question_line "q") (str_of (dlookup "final_prompt" upd))
  | Raise _ => False
  end.
Proof.
  destruct (prompt_assembly_node bytes_encode (fun _ => "") (fun _ => "") 1 graph_state) as [upd|e] eqn:E; [|vm_compute in E; discriminate].
  apply (prompt_complete bytes_encode (fun _ => "") (fun _ => "") 1 graph_state upd "q" "chitchat"
    [mkEvidence None (Some "graph") None (Some "x") None None None None None None None None] E); vm_compute; reflexivity.
Defined.

Lemma prompt_blind_to_graph_witness :
  match prompt_assembly_node bytes_encode (fun _ => "") (fun _ => "") 1 graph_state with
  | Ok upd => str_of (dlookup "merged_context" upd) = CONTEXT_HEADER
  | Raise _ => False
  end.
Proof.
  destruct (prompt_assembly_node bytes_encode (fun _ => "") (fun _ => "") 1 graph_state) as [upd|e] eqn:E; [|vm_compute in E; discriminate].
  apply (prompt_blind_to_graph bytes_encode (fun _ => "") (fun _ => "") 1 graph_state ∅ upd
    [mkEvidence None (Some "graph") None (Some "x") None None None None None None None None] [] 110000 0 0 E);
    [vm_compute; reflexivity|done| |vm_compute; reflexivity|reflexivity|vm_compute; reflexivity|vm_compute; reflexivity|vm_compute; reflexivity|done|done].
  constructor; [|constructor]. cbn. rewrite <- str_in_spec. done.
Defined.

Lemma rest_reply_never_prompted_witness :
  prompt_assembly_node bytes_encode (fun _ => "") (fun _ => "") 1 graph_state =
  prompt_assembly_node bytes_encode (fun _ => "") (fun _ => "") 1 (<["rest_result" := VStr "secret"]> graph_state).
Proof.
  apply (rest_reply_never_prompted bytes_encode (fun _ => "") (fun _ => "") (fun s => s) (fun _ => "") (fun _ => None) (fun _ => false) (fun _ => false) "now" None 1
    graph_state (<["rest_result" := VStr "secret"]> graph_state)).
  intros k Hk. rewrite lookup_insert_ne; [done|]. intros <-. discriminate Hk.
Defined.
