(* ===== verification/AgentGraph.v ===== *)
(** * The workflow graph (graph.py, nodes/intent_router.py)

    The nodes and edges of [build_agent_graph] as a step relation over pairs of
    a node to run and a state.  Nodes with a model of their own contribute their
    fields exactly; the others may write anything to the fields they own. *)

From S2P Require Import Prelude PyFloat PyVal PyList PyText AgentState Config QualityCheck Hallucination AnswerAst.
From S2P Require Import FinalAnswer ToolNodes.

Inductive node : Type :=
  | question_input | intent_router | clarification | rag_tool | db_tool | web_tool | plan_executor
  | react_subgraph | rest_tool | graph_tool | evidence_fusion | reflection | quality_check
  | prompt_assembly | llm_generate | hallucination | answer_renderer | observability
  | answer_output | fallback | END.

#[export] Instance node_eq_dec : EqDecision node.
Proof. solve_decision. Defined.

(** ** Conditional edges *)

(** [route_decision.metadata and route_decision.metadata.get(key)], as a test. *)
Definition metadata_flag (rd : pyval) (key : string) : result bool :=
  let! m := vattr rd "metadata" in
  if truthy m then let! v := vget m key VNone in Ok (truthy v) else Ok false.

(** Python's [and]: the second test runs only when the first holds. *)
Definition rand (a : result bool) (b : result bool) : result bool :=
  let! x := a in if x then b else Ok false.

Definition attr_is (v : pyval) (k s : string) : result bool := let! x := vattr v k in Ok (is_str x s).

(** [route_decision] *)
Definition route_decision (st : pystate) : result string :=
  let route_target := sgetv st "route_target" (VStr "chitchat") in
  let rd := sgetv st "route_decision" VNone in
  let! clarify := rand (Ok (truthy rd)) (metadata_flag rd "needs_clarification") in
  if clarify then Ok "clarification"
  else
    let! react :=
      rand (Ok (truthy (sgetv st "react_enabled" (VBool false)) && truthy rd))
        (rand (attr_is rd "complexity" "complex")
          (rand (metadata_flag rd "needs_multi_tool")
            (Ok (is_one_of route_target ["hybrid"; "database"])))) in
    if react then Ok "react_subgraph"
    else
      let! planned := rand (Ok (truthy rd))
                        (rand (attr_is rd "source" "planner") (attr_is rd "complexity" "complex")) in
      if planned then Ok "plan_executor"
      else Ok (if is_str route_target "rag" then "rag_tool"
               else if is_str route_target "database" then "db_tool"
               else if is_str route_target "hybrid" then "rag_tool"
               else if is_str route_target "web" then "web_tool"
               else if is_str route_target "rest" then "rest_tool"
               else if is_str route_target "graph" then "graph_tool"
               else "prompt_assembly").

(** [after_rag_tool] *)
Definition after_rag_tool (st : pystate) : string :=
  if is_str (sgetv st "route_target" VNone) "hybrid" then "db_tool" else "evidence_fusion".

(** The mappings passed to [add_conditional_edges]. *)
Definition route_edges : list (string * node) :=
  [("clarification", clarification); ("rag_tool", rag_tool); ("db_tool", db_tool);
   ("react_subgraph", react_subgraph); ("plan_executor", plan_executor); ("rest_tool", rest_tool);
   ("web_tool", web_tool); ("graph_tool", graph_tool); ("prompt_assembly", prompt_assembly)].
Definition rag_edges : list (string * node) := [("db_tool", db_tool); ("evidence_fusion", evidence_fusion)].
Definition quality_edges : list (string * node) :=
  [("prompt_assembly", prompt_assembly); ("rag_tool", rag_tool); ("db_tool", db_tool);
   ("web_tool", web_tool); ("rest_tool", rest_tool); ("graph_tool", graph_tool); ("fallback", fallback)].
Definition hallucination_edges : list (string * node) :=
  [("answer_renderer", answer_renderer); ("observability", observability);
   ("prompt_assembly", prompt_assembly)].

Definition choose (edges : list (string * node)) (name : string) : result node :=
  match dlookup name edges with Some n => Ok n | None => Raise (KeyError name) end.

(** The node that runs after [n], in the state [n] left. *)
Definition next (n : node) (st : pystate) : result node :=
  match n with
  | question_input => Ok intent_router
  | intent_router => rbind (route_decision st) (choose route_edges)
  | clarification => Ok intent_router
  | rag_tool => choose rag_edges (after_rag_tool st)
  | db_tool | web_tool | plan_executor | react_subgraph | rest_tool | graph_tool => Ok evidence_fusion
  | evidence_fusion => Ok reflection
  | reflection => Ok quality_check
  | quality_check => choose quality_edges (quality_check_decision st)
  | prompt_assembly => Ok llm_generate
  | llm_generate => Ok hallucination
  | hallucination => choose hallucination_edges (hallucination_decision st)
  | answer_renderer | fallback => Ok observability
  | observability => Ok answer_output
  | answer_output => Ok END
  | END => Raise (OtherError "END")
  end.

(** ** What the nodes write *)

(** The fields of the nodes left open here; [GraphNodes] gives their handlers. *)
Definition opaque_writes (n : node) : option (list string) :=
  match n with
  | intent_router =>
    Some ["route_target"; "route_decision"; "skill_resolution"; "skill_set";
          "skill_evidence_requirements"; "execution_plan"; "node_timings"]
  | plan_executor =>
    Some ["tool_results"; "execution_plan"; "plan_execution_status"; "rag_docs"; "rag_quality_score";
          "rag_has_relevant"; "rag_relevant_count"; "rag_top_score"; "db_result"; "db_quality_score";
          "web_docs"; "node_timings"]
  | react_subgraph =>
    Some ["react_execution_result"; "evidence"; "termination_reason"; "termination_source";
          "loop_guard"; "rerank_score_history"; "rerank_drop_count"; "retrieval_observations";
          "agent_iteration_count"; "node_timings"]
  | evidence_fusion =>
    Some ["evidence"; "evidence_snapshot_id"; "evidence_snapshot"; "active_tools"; "tool_token_counts";
          "overflown_tools"; "compression_level"; "node_timings"]
  | reflection => Some ["reflection_result"; "node_timings"]
  | prompt_assembly =>
    Some ["merged_context"; "final_prompt"; "compact_mode"; "evidence_snapshot_id"; "node_timings"]
  | observability => Some ["node_timings"]
  | _ => None
  end.

(** The fields a node returns when it is run in a state, for some behaviour of
    the services it calls. *)
Inductive node_updates : node -> pystate -> pydict -> Prop :=
  | upd_question d s ms t g st u :
      user_question_node d s ms t g st = Ok u -> node_updates question_input st u
  | upd_clarification i ms st u : clarification_node i ms st = Ok u -> node_updates clarification st u
  | upd_rag i ms st u : rag_tool_node i ms st = Ok u -> node_updates rag_tool st u
  | upd_db i ms st u : db_tool_node i ms st = Ok u -> node_updates db_tool st u
  | upd_web i ms st u : web_tool_node i ms st = Ok u -> node_updates web_tool st u
  | upd_rest i ms st u : rest_tool_node i ms st = Ok u -> node_updates rest_tool st u
  | upd_graph i ms st u : graph_tool_node i ms st = Ok u -> node_updates graph_tool st u
  | upd_quality ms st u : quality_check_node ms st = Ok u -> node_updates quality_check st u
  | upd_llm c ms st u : llm_generate_node c ms st = Ok u -> node_updates llm_generate st u
  | upd_hallucination config verify bind ms st u :
      hallucination_node config verify bind ms st = Ok u -> node_updates hallucination st u
  | upd_renderer from_dict ms st u :
      answer_renderer_node from_dict ms st = Ok u -> node_updates answer_renderer st u
  | upd_fallback ms st u : fallback_node ms st = Ok u -> node_updates fallback st u
  | upd_answer json ms st u : final_answer_node json ms st = Ok u -> node_updates answer_output st u
  | upd_opaque n ks st u : opaque_writes n = Some ks -> writes_only ks u -> node_updates n st u.

Abbreviation config := (node * pystate)%type.

Section graph.
Context {R : StateRuntime} {RL : StateRuntimeLaws R}.

Inductive step : config -> config -> Prop :=
  | step_node n st u n' :
      node_updates n st u -> next n (apply_updates st u) = Ok n' ->
      step (n, st) (n', apply_updates st u).

(** A run, with the edges it took. *)
Inductive run (c0 : config) : list (node * node) -> config -> Prop :=
  | run_start : run c0 [] c0
  | run_step tr c c' : run c0 tr c -> step c c' -> run c0 (tr ++ [(c.1, c'.1)]) c'.
End graph.

(** ** Edges of interest *)

Definition is_retry (e : node * node) : bool :=
  bool_decide (e.1 = quality_check) && bool_decide (e.2 ∈ [rag_tool; db_tool; graph_tool]).
Definition is_regeneration (e : node * node) : bool :=
  bool_decide (e.1 = hallucination) && bool_decide (e.2 = prompt_assembly).
(** The edges no counter bounds: the web fallback, and asking the user. *)
Definition is_detour (e : node * node) : bool :=
  bool_decide (e = (quality_check, web_tool)) || bool_decide (e.1 = clarification).

Definition count (p : node * node -> bool) (tr : list (node * node)) : nat := length (List.filter p tr).

(** The place of a node on the way to the end. *)
Definition position (n : node) : nat :=
  match n with
  | question_input => 0 | intent_router => 1 | clarification => 2 | rag_tool => 2
  | db_tool | web_tool | plan_executor | react_subgraph | rest_tool | graph_tool => 3
  | evidence_fusion => 4 | reflection => 5 | quality_check => 6 | prompt_assembly => 7
  | llm_generate => 8 | hallucination => 9 | answer_renderer | fallback => 10
  | observability => 11 | answer_output => 12 | END => 13
  end.

(** The nodes an edge can lead to, whatever the state. *)
Definition successors (n : node) : list node :=
  match n with
  | question_input | clarification => [intent_router]
  | intent_router => map snd route_edges
  | rag_tool => map snd rag_edges
  | db_tool | web_tool | plan_executor | react_subgraph | rest_tool | graph_tool => [evidence_fusion]
  | evidence_fusion => [reflection]
  | reflection => [quality_check]
  | quality_check => map snd quality_edges
  | prompt_assembly => [llm_generate]
  | llm_generate => [hallucination]
  | hallucination => map snd hallucination_edges
  | answer_renderer | fallback => [observability]
  | observability => [answer_output]
  | answer_output => [END]
  | END => []
  end.

(** ** Lemmas on nodes and edges *)

Definition node_writes (n : node) : list string :=
  match n with
  | question_input => user_question_writes
  | clarification => clarification_writes
  | rag_tool => rag_tool_writes
  | db_tool => db_tool_writes
  | web_tool => web_tool_writes
  | rest_tool => rest_tool_writes
  | graph_tool => graph_tool_writes
  | quality_check => ["quality_decision"; "node_timings"; "retry_count"]
  | llm_generate => llm_generate_writes
  | hallucination => ["hallucination_score"; "hallucination_action"; "enforcement_mode"; "reject_reason";
                      "regenerate_count"; "node_timings"]
  | answer_renderer | answer_output => ["final_answer"; "node_timings"]
  | fallback => ["final_answer"; "quality_decision"; "node_timings"]
  | n => match opaque_writes n with Some ks => ks | None => [] end
  end.

Lemma node_updates_writes n st u : node_updates n st u -> writes_only (node_writes n) u.
Proof.
  intros H. destruct H as [d s ms t g st u H|i ms st u H|i ms st u H|i ms st u H|i ms st u H|i ms st u H
    |i ms st u H|ms st u H|c ms st u H|cfg v b ms st u H|f ms st u H|ms st u H|j ms st u H|n ks st u Ho H].
  - by eapply user_question_writes_only.
  - by eapply clarification_writes_only.
  - by eapply rag_tool_writes_only.
  - by eapply db_tool_writes_only.
  - by eapply web_tool_writes_only.
  - by eapply rest_tool_writes_only.
  - by eapply graph_tool_writes_only.
  - intros k Hk. apply quality_check_inv in H as (? & ? & ? & ? & g & _ & _ & _ & _ & _ & ->).
    destruct g; [|destruct (_ || _)]; by apply decision_updates_other.
  - by eapply llm_generate_writes_only.
  - apply hallucination_inv in H as (mode & H & _). destruct H; apply writes_only_compute; reflexivity.
  - unfold answer_renderer_node in H. cbn zeta in H. destruct (negb _); [literal_writes|]. inv_ok H.
    destruct (f _); literal_writes.
  - unfold fallback_node in H. cbn zeta in H. inv_ok H. literal_writes.
  - unfold final_answer_node in H. cbn zeta in H. destruct (truthy _).
    { destruct (vor _ _); try done. inv_ok H. literal_writes. }
    destruct (is_str _ _); [literal_writes|]. destruct (is_str _ _); [inv_ok H|]; literal_writes.
  - destruct n; cbn [opaque_writes] in Ho; try done; injection Ho as <-; done.
Qed.

Lemma choose_successors edges name n : choose edges name = Ok n -> n ∈ map snd edges.
Proof.
  unfold choose. destruct (dlookup name edges) as [x|] eqn:E; [|done]. intros [= <-].
  induction edges as [|[k v] edges IH]; cbn [dlookup] in E; [done|].
  destruct (String.eqb name k); cbn [map snd]; [injection E as ->; by left|right; auto].
Qed.

Lemma next_successors n st n' : next n st = Ok n' -> n' ∈ successors n.
Proof.
  destruct n; cbn [next successors]; try (intros [= <-]; by left); try done.
  all: try apply choose_successors.
  intros H. inv_ok H. by eapply choose_successors.
Qed.

Ltac unwritten := match goal with
  | H : writes_only _ ?u |- dlookup _ ?u = None => apply H; apply str_in_false; reflexivity end.

Section counters.
Context {R : StateRuntime} {RL : StateRuntimeLaws R}.

Lemma sget_apply_unwritten {A} (f : pyval -> result A) st u k d :
  declared k = true -> dlookup k u = None -> sget f (apply_updates st u) k d = sget f st k d.
Proof. intros. unfold sget. by rewrite apply_unwritten. Qed.

Lemma sget_apply_written {A} (f : pyval -> result A) st u k v d :
  declared k = true -> k <> "node_timings" -> dlookup k u = Some v ->
  sget f (apply_updates st u) k d = f v.
Proof. intros. unfold sget. by erewrite apply_written. Qed.

(** The counters of a state: retries done, the limit, regenerations done. *)
Definition counters (st : pystate) (rc mr gc : Z) : Prop :=
  sget as_int st "retry_count" 0%Z = Ok rc /\ sget as_int st "max_retries" 3%Z = Ok mr /\
  sget as_int st "regenerate_count" 0%Z = Ok gc.

(** A node other than the three that count leaves the counters alone. *)
Lemma counters_kept n st u rc mr gc :
  n ∉ [question_input; quality_check; hallucination] -> node_updates n st u ->
  counters st rc mr gc -> counters (apply_updates st u) rc mr gc.
Proof.
  intros Hn Hu%node_updates_writes (Hr & Hm & Hg). rewrite !not_elem_of_cons in Hn.
  destruct Hn as (? & ? & ? & _). unfold counters. rewrite !sget_apply_unwritten; try done.
  all: destruct n; try congruence; cbn in Hu; unwritten.
Qed.

Lemma question_counters st u gc :
  node_updates question_input st u -> sget as_int st "regenerate_count" 0%Z = Ok gc ->
  counters (apply_updates st u) 0 3 gc.
Proof.
  intros Hu Hg. pose proof (node_updates_writes _ _ _ Hu) as Hw.
  assert (dlookup "retry_count" u = Some (VInt 0) /\ dlookup "max_retries" u = Some (VInt 3)) as [H1 H2].
  { inversion Hu as [d s ms t g st' u' H| | | | | | | | | | | | |n ks st' u' Ho]; subst; [|done].
    unfold user_question_node in H. destruct (negb _); [by apply Ok_inj in H as <-|].
    destruct (d _). inv_ok H. by apply Ok_inj in H as <-. }
  unfold counters. rewrite (sget_apply_written as_int st u "retry_count" (VInt 0)),
    (sget_apply_written as_int st u "max_retries" (VInt 3)) by done.
  rewrite sget_apply_unwritten; [done|done|unwritten].
Qed.

Lemma quality_updates st u : node_updates quality_check st u -> exists ms, quality_check_node ms st = Ok u.
Proof. inversion 1; subst; [by eexists|done]. Qed.

Lemma hallucination_updates st u : node_updates hallucination st u ->
  exists config verify bind ms, hallucination_node config verify bind ms st = Ok u.
Proof. inversion 1; subst; [by do 4 eexists|done]. Qed.

(** The gate: a retry edge is counted, other edges keep the counters. *)
Lemma quality_counters st u n' rc mr gc :
  node_updates quality_check st u -> next quality_check (apply_updates st u) = Ok n' ->
  counters st rc mr gc ->
  (counters (apply_updates st u) (rc + 1) mr gc /\ (rc < mr)%Z) \/
  (counters (apply_updates st u) rc mr gc /\ n' ∈ [prompt_assembly; web_tool; fallback]).
Proof.
  intros Hu Hnext (Hr & Hm & Hg). pose proof (node_updates_writes _ _ _ Hu) as Hw.
  apply quality_updates in Hu as [ms Hq]. apply quality_check_step in Hq as (d & rc' & mr' & Hd & Hr' & Hm' & Hc).
  rewrite Hr in Hr'. injection Hr' as <-. rewrite Hm in Hm'. injection Hm' as <-.
  unfold counters. rewrite (sget_apply_unwritten _ _ u "max_retries"), (sget_apply_unwritten _ _ u "regenerate_count")
    by (try done; unwritten).
  destruct Hc as [(_ & Hlt & Hrc)|(Hd2 & Hrc)].
  - left. split; [|done]. by rewrite (sget_apply_written as_int st u "retry_count" (VInt (rc + 1))) by done.
  - right. rewrite (sget_apply_unwritten _ _ u "retry_count") by done. split; [done|].
    cbn [next] in Hnext. unfold quality_check_decision in Hnext.
    destruct (truthy _); [injection Hnext as <-; by do 2 right; left|].
    rewrite (sgetv_apply_written st u "quality_decision" (VStr d)) in Hnext by done.
    rewrite !elem_of_cons in Hd2. destruct Hd2 as [->|[->|Hx]]; [| |by apply not_elem_of_nil in Hx];
      injection Hnext as <-; [by left|by right; left].
Qed.

(** The faithfulness gate: a regeneration edge is counted. *)
Lemma hallucination_counters st u n' rc mr gc :
  node_updates hallucination st u -> next hallucination (apply_updates st u) = Ok n' ->
  counters st rc mr gc ->
  (counters (apply_updates st u) rc mr (gc + 1) /\ (gc < MAX_REGENERATES)%Z) \/
  (counters (apply_updates st u) rc mr gc /\ n' ∈ [answer_renderer; observability]).
Proof.
  intros Hu Hnext (Hr & Hm & Hg). pose proof (node_updates_writes _ _ _ Hu) as Hw.
  apply hallucination_updates in Hu as (cfg & v & b & ms & Hh).
  apply hallucination_inv in Hh as (mode & Hgate & _). apply gate_result_step in Hgate as (a & Ha & _ & Hc).
  unfold counters. rewrite (sget_apply_unwritten _ _ u "max_retries"), (sget_apply_unwritten _ _ u "retry_count")
    by (try done; unwritten).
  destruct Hc as [(_ & n & Hn & Hlt & Hrc)|(Ha2 & Hrc)].
  - left. rewrite Hg in Hn. injection Hn as <-. split; [|done].
    by rewrite (sget_apply_written as_int st u "regenerate_count" (VInt (gc + 1))) by done.
  - right. rewrite (sget_apply_unwritten _ _ u "regenerate_count") by done. split; [done|].
    cbn [next] in Hnext. unfold hallucination_decision in Hnext.
    rewrite (sgetv_apply_written st u "hallucination_action" (VStr a)) in Hnext by done.
    rewrite !elem_of_cons in Ha2.
    destruct Ha2 as [->|[->|[->|[->|Hx]]]]; [..|by apply not_elem_of_nil in Hx];
      injection Hnext as <-; first [by left|by right; left].
Qed.
End counters.

(** ** Lemmas on runs *)

(** One goal per edge out of a node. *)
Ltac each_successor H := cbn in H; list_cases H; try discriminate H; subst.

Ltac decide_uncounted :=
  split_and!; [reflexivity|reflexivity|first [left; reflexivity|right; cbn; lia]].

Lemma count_snoc p tr e : count p (tr ++ [e]) = (count p tr + if p e then 1 else 0)%nat.
Proof. unfold count. rewrite List.filter_app, List.length_app. cbn. by destruct (p e). Qed.

Section runs.
Context {R : StateRuntime} {RL : StateRuntimeLaws R}.

(** What the counters say about the edges taken so far. *)
Definition run_invariant (tr : list (node * node)) (c : config) : Prop :=
  (c.1 = question_input /\ tr = [] /\ sget as_int c.2 "regenerate_count" 0%Z = Ok 0%Z) \/
  (c.1 <> question_input /\ exists rc gc, counters c.2 rc 3 gc /\
     (0 <= rc <= 3)%Z /\ (0 <= gc <= MAX_REGENERATES)%Z /\
     (Z.of_nat (count is_retry tr) <= rc)%Z /\ (Z.of_nat (count is_regeneration tr) <= gc)%Z /\
     (Z.of_nat (length tr) <= Z.of_nat (position c.1) + 14 * (rc + gc) + 14 * Z.of_nat (count is_detour tr))%Z).

(** An edge no counter advances on: it goes forward, or is a detour. *)
Definition uncounted (n n' : node) : Prop :=
  is_retry (n, n') = false /\ is_regeneration (n, n') = false /\
  (is_detour (n, n') = true \/ (position n < position n')%nat).

Lemma edge_forward n n' :
  n' ∈ successors n -> n <> quality_check -> n <> hallucination -> uncounted n n'.
Proof. intros Hs H1 H2. destruct n; try congruence; each_successor Hs; decide_uncounted. Qed.

Lemma edge_quality n' : n' ∈ [prompt_assembly; web_tool; fallback] -> uncounted quality_check n'.
Proof. intros Hs. each_successor Hs; decide_uncounted. Qed.

Lemma edge_hallucination n' : n' ∈ [answer_renderer; observability] -> uncounted hallucination n'.
Proof. intros Hs. each_successor Hs; decide_uncounted. Qed.

Lemma no_edge_back n n' : n' ∈ successors n -> n' <> question_input.
Proof. intros Hs. destruct n; each_successor Hs; discriminate. Qed.

(** One step of a run, in terms of the counters. *)
Lemma step_counters n st u n' rc gc :
  n <> question_input -> node_updates n st u -> next n (apply_updates st u) = Ok n' ->
  counters st rc 3 gc ->
  exists rc' gc', counters (apply_updates st u) rc' 3 gc' /\
    ((n = quality_check /\ rc' = (rc + 1)%Z /\ (rc < 3)%Z /\ gc' = gc) \/
     (n = hallucination /\ gc' = (gc + 1)%Z /\ (gc < MAX_REGENERATES)%Z /\ rc' = rc) \/
     (rc' = rc /\ gc' = gc /\ uncounted n n')).
Proof.
  intros Hn Hu Hnext Hc. pose proof (next_successors _ _ _ Hnext) as Hsucc.
  destruct (decide (n = quality_check)) as [->|Nq].
  { destruct (quality_counters _ _ _ _ _ _ Hu Hnext Hc) as [[Hc' Hlt]|[Hc' Hin]].
    - exists (rc + 1)%Z, gc. split; [done|]. left. done.
    - exists rc, gc. split; [done|]. right; right. split; [done|split; [done|by apply edge_quality]]. }
  destruct (decide (n = hallucination)) as [->|Nh].
  { destruct (hallucination_counters _ _ _ _ _ _ Hu Hnext Hc) as [[Hc' Hlt]|[Hc' Hin]].
    - exists rc, (gc + 1)%Z. split; [done|]. right; left. done.
    - exists rc, gc. split; [done|]. right; right. split; [done|split; [done|by apply edge_hallucination]]. }
  exists rc, gc. split.
  - eapply counters_kept; eauto. by rewrite !not_elem_of_cons; split_and!; [..|apply not_elem_of_nil].
  - right; right. split; [done|split; [done|by apply edge_forward]].
Qed.

Lemma position_bound n : (position n <= 13)%nat.
Proof. destruct n; cbn; lia. Qed.

Lemma run_keeps_invariant st0 tr c :
  sget as_int st0 "regenerate_count" 0%Z = Ok 0%Z ->
  run (question_input, st0) tr c -> run_invariant tr c.
Proof.
  intros H0 Hrun. induction Hrun as [|tr c c' Hrun IH Hstep]; [by left|].
  destruct Hstep as [n st u n' Hu Hnext]. right.
  pose proof (next_successors _ _ _ Hnext) as Hsucc.
  destruct IH as [(Hn & -> & Hg0)|(Hn & rc & gc & Hc & Hrc & Hgc & Hr & Hg & Hl)]; cbn [fst snd] in *.
  - subst n. cbn in Hsucc. apply list_elem_of_singleton in Hsucc as ->. split; [done|]. exists 0%Z, 0%Z.
    split; [by apply question_counters|]. split_and!; vm_compute; discriminate.
  - split; [by eapply no_edge_back|].
    destruct (step_counters _ _ _ _ _ _ Hn Hu Hnext Hc) as (rc' & gc' & Hc' & Hcase).
    exists rc', gc'. split; [done|]. rewrite !count_snoc, List.length_app. cbn [length].
    pose proof (position_bound n). pose proof (position_bound n').
    assert (forall e, is_retry e = true -> e.1 = quality_check) as Hre
      by (intros e He; by apply andb_true_iff in He as [?%bool_decide_eq_true_1 _]).
    assert (forall e, is_regeneration e = true -> e.1 = hallucination) as Hge
      by (intros e He; by apply andb_true_iff in He as [?%bool_decide_eq_true_1 _]).
    unfold MAX_REGENERATES in *.
    destruct Hcase as [(-> & -> & ? & ->)|[(-> & -> & ? & ->)|(-> & -> & -> & -> & Hd)]].
    + destruct (is_regeneration _) eqn:E; [by apply Hge in E|].
      destruct (is_retry _), (is_detour _); lia.
    + destruct (is_retry _) eqn:E; [by apply Hre in E|].
      destruct (is_regeneration _), (is_detour _); lia.
    + destruct Hd as [->|Hd]; [lia|]. destruct (is_detour _); lia.
Qed.
End runs.

(** ** Reachability *)

Definition tool_nodes : list node :=
  [rag_tool; db_tool; web_tool; plan_executor; react_subgraph; rest_tool; graph_tool].

(** The loop entered by the web fallback. *)
Definition web_loop : list node := [web_tool; evidence_fusion; reflection; quality_check].

Section reachability.
Context {R : StateRuntime} {RL : StateRuntimeLaws R}.

(** Fields a node does not write survive its step. *)
Lemma step_keeps n st u k d :
  node_updates n st u -> str_in k (node_writes n) = false -> declared k = true ->
  sgetv (apply_updates st u) k d = sgetv st k d.
Proof.
  intros Hu%node_updates_writes Hk Hd. apply sgetv_apply_unwritten; [done|].
  by apply Hu, str_in_false.
Qed.

Lemma step_inv c c' : step c c' ->
  exists u, node_updates c.1 c.2 u /\ c'.2 = apply_updates c.2 u /\ next c.1 c'.2 = Ok c'.1.
Proof. intros [n st u n' Hu Hn]. by exists u. Qed.

(** An invariant of the steps holds along a run. *)
Lemma run_invariant_ind (P : config -> Prop) c0 tr c :
  P c0 -> (forall c c', P c -> step c c' -> P c') -> run c0 tr c -> P c.
Proof. intros H0 Hs Hr. induction Hr; eauto. Qed.

Lemma after_tools c0 tr c :
  c0.1 ∈ tool_nodes -> run c0 tr c ->
  c.1 ∈ tool_nodes \/ c.1 = evidence_fusion \/ exists e, e ∈ tr /\ e.1 = evidence_fusion.
Proof.
  intros H0 Hr. induction Hr as [|tr c c' Hr IH Hs]; [by left|].
  apply step_inv in Hs as (u & _ & _ & Hn%next_successors).
  destruct IH as [Hc|[Hc|(e & He & Hf)]].
  - unfold tool_nodes in Hc. list_cases Hc; rewrite Hc in Hn; cbn in Hn; list_cases Hn;
      first [by right; left|left; rewrite Hn; unfold tool_nodes].
    by right; left.
  - right; right. exists (c.1, c'.1). split; [|done]. apply elem_of_app. right. by left.
  - right; right. exists e. split; [|done]. apply elem_of_app. by left.
Qed.

Lemma web_loop_kept c c' :
  (c.1 ∈ web_loop /\ is_one_of (sgetv c.2 "route_target" (VStr "chitchat")) SCORED_ROUTES = false /\
   truthy (sgetv c.2 "termination_reason" (VStr "")) = false) ->
  step c c' ->
  (c'.1 ∈ web_loop /\ is_one_of (sgetv c'.2 "route_target" (VStr "chitchat")) SCORED_ROUTES = false /\
   truthy (sgetv c'.2 "termination_reason" (VStr "")) = false).
Proof.
  intros (Hin & Hr & Ht) Hs. apply step_inv in Hs as (u & Hu & -> & Hn).
  assert (forall k d, k ∈ ["route_target"; "termination_reason"] ->
    sgetv (apply_updates c.2 u) k d = sgetv c.2 k d) as Hk.
  { intros k d Hkin. eapply step_keeps; [done| |].
    all: unfold web_loop in Hin; list_cases Hkin; rewrite Hkin; try reflexivity.
    all: list_cases Hin; rewrite Hin; reflexivity. }
  rewrite !Hk by str_mem. split; [|done].
  unfold web_loop in Hin. list_cases Hin; rewrite Hin in *; cbn [next] in Hn.
  1-3: injection Hn as <-; unfold web_loop; rewrite !elem_of_cons; auto 6.
  destruct (quality_updates _ _ Hu) as [ms Hq].
  destruct (unscored_route_falls_back _ _ _ Hr Hq) as [Hd _].
  unfold quality_check_decision in Hn. rewrite Hk, Ht in Hn by str_mem.
  rewrite (sgetv_apply_written c.2 u "quality_decision" (VStr "fallback_web")) in Hn by done.
  injection Hn as <-. by left.
Qed.

Lemma enforced_kept c c' :
  (c.1 <> answer_renderer /\ sgetv c.2 "enforcement_mode" (VStr "") = VStr "enforced" /\
   truthy (sgetv c.2 "answer_ast" VNone) = false) ->
  step c c' ->
  (c'.1 <> answer_renderer /\ sgetv c'.2 "enforcement_mode" (VStr "") = VStr "enforced" /\
   truthy (sgetv c'.2 "answer_ast" VNone) = false).
Proof.
  intros (Hne & Hm & Ha) Hs. apply step_inv in Hs as (u & Hu & -> & Hn).
  rewrite (step_keeps _ _ _ "answer_ast" VNone Hu) by (destruct c.1; reflexivity).
  destruct (decide (c.1 = hallucination)) as [Hc|Hc].
  2:{ rewrite (step_keeps _ _ _ "enforcement_mode" (VStr "") Hu) by (destruct c.1; try congruence; reflexivity).
      split; [|done]. intros E. rewrite E in Hn. apply next_successors in Hn.
      destruct c.1; try congruence; each_successor Hn. }
  rewrite Hc in *. destruct (hallucination_updates _ _ Hu) as (cfg & v & b & ms & Hh).
  apply hallucination_inv in Hh as (mode & Hg & (cf & m & Hmode) & Hpass).
  assert (mode = ENFORCED) as ->.
  { unfold node_enforcement in Hmode. rewrite Hm in Hmode. cbn zeta in Hmode.
    change (truthy (VStr "enforced")) with true in Hmode.
    change (EnforcementMode_of (VStr "enforced")) with (Some ENFORCED) in Hmode. cbv iota in Hmode. by apply Ok_inj in Hmode. }
  destruct (gate_result_step _ _ _ _ Hg) as (a & Hact & Hmu & Hcase).
  rewrite (sgetv_apply_written _ u "enforcement_mode" (VStr "enforced")) by done.
  split; [|done]. intros E. rewrite E in Hn. cbn [next] in Hn. unfold hallucination_decision in Hn.
  rewrite (sgetv_apply_written _ u "hallucination_action" (VStr a)) in Hn by done.
  assert (a ∉ ["pass"; "filter"]) as Hnot.
  { intros Hin. destruct (Hpass eq_refl a Hin Hact) as (_ & _ & Ht & _). by rewrite Ha in Ht. }
  destruct Hcase as [[-> _]|[Hin _]]; [done|].
  list_cases Hin; rewrite Hin in *; try done; exfalso; apply Hnot; str_mem.
Qed.
End reachability.

(** ** Properties *)

Section properties.
Context {R : StateRuntime} {RL : StateRuntimeLaws R}.

(** [C1] Every run retries its tools at most three times and regenerates its answer
    at most twice, and apart from the web fallback and the questions asked to
    the user it ends within 83 edges, whatever the nodes return. *)
Theorem run_bounded st0 tr c :
  sget as_int st0 "regenerate_count" 0%Z = Ok 0%Z ->
  run (question_input, st0) tr c ->
  (count is_retry tr <= 3)%nat /\ (count is_regeneration tr <= 2)%nat /\
  (length tr <= 83 + 14 * count is_detour tr)%nat.
Proof.
  intros H0 Hr. destruct (run_keeps_invariant _ _ _ H0 Hr) as [(_ & -> & _)|(_ & rc & gc & _ & Hi)].
  - unfold count. cbn. lia.
  - unfold MAX_REGENERATES in Hi. pose proof (position_bound c.1). lia.
Qed.

(** [C3] The result of a tool reaches the prompt only through the evidence fusion. *)
Theorem prompt_sees_fused_evidence n0 st0 tr st :
  n0 ∈ tool_nodes -> run (n0, st0) tr (prompt_assembly, st) ->
  exists e, e ∈ tr /\ e.1 = evidence_fusion.
Proof.
  intros H0 Hr. destruct (after_tools (n0, st0) tr _ H0 Hr) as [H|[H|H]]; [|done|done].
  unfold tool_nodes in H. cbn in H. by list_cases H.
Qed.

(** A finished run recorded its metrics and wrote its answer last. *)
Theorem end_after_observability st0 tr st :
  run (question_input, st0) tr (END, st) ->
  exists tr0, tr = tr0 ++ [(observability, answer_output); (answer_output, END)].
Proof.
  intros Hr. inversion Hr as [|tr1 c1 c2 Hr1 Hs1]; subst.
  apply step_inv in Hs1 as (u1 & _ & _ & Hn1%next_successors). cbn [fst] in Hn1.
  destruct c1 as [n1 st1]. cbn [fst] in *.
  assert (n1 = answer_output) as -> by (destruct n1; each_successor Hn1; done).
  inversion Hr1 as [|tr2 c3 c4 Hr2 Hs2]; subst.
  apply step_inv in Hs2 as (u2 & _ & _ & Hn2%next_successors). destruct c3 as [n3 st3]. cbn [fst] in *.
  assert (n3 = observability) as -> by (destruct n3; each_successor Hn2; done).
  exists tr2. by rewrite <- app_assoc.
Qed.

(** On a route the quality gate does not score ("web", "rest"), a run that has
    reached the web search never leaves the loop around it: no answer is ever
    generated. *)
Theorem unscored_route_livelock st0 tr n st :
  is_one_of (sgetv st0 "route_target" (VStr "chitchat")) SCORED_ROUTES = false ->
  truthy (sgetv st0 "termination_reason" (VStr "")) = false ->
  run (web_tool, st0) tr (n, st) -> n ∈ web_loop.
Proof.
  intros Hr Ht Hrun.
  assert ((n, st).1 ∈ web_loop /\ is_one_of (sgetv st "route_target" (VStr "chitchat")) SCORED_ROUTES = false /\
    truthy (sgetv st "termination_reason" (VStr "")) = false) as (H & _); [|done].
  revert Hrun. apply (run_invariant_ind (fun c => c.1 ∈ web_loop /\
    is_one_of (sgetv c.2 "route_target" (VStr "chitchat")) SCORED_ROUTES = false /\
    truthy (sgetv c.2 "termination_reason" (VStr "")) = false)).
  - split_and!; [by left|done|done].
  - intros c c'. apply web_loop_kept.
Qed.

(** [C39] In enforced mode no answer is ever rendered: no node of the graph stores the
    parsed answer that the faithfulness gate requires. *)
Theorem enforced_run_never_renders st0 tr n st :
  sgetv st0 "enforcement_mode" (VStr "") = VStr "enforced" ->
  truthy (sgetv st0 "answer_ast" VNone) = false ->
  run (question_input, st0) tr (n, st) -> n <> answer_renderer.
Proof.
  intros Hm Ha Hrun.
  assert ((n, st).1 <> answer_renderer /\ sgetv st "enforcement_mode" (VStr "") = VStr "enforced" /\
    truthy (sgetv st "answer_ast" VNone) = false) as (H & _); [|done].
  revert Hrun. apply (run_invariant_ind (fun c => c.1 <> answer_renderer /\
    sgetv c.2 "enforcement_mode" (VStr "") = VStr "enforced" /\ truthy (sgetv c.2 "answer_ast" VNone) = false)).
  - done.
  - intros c c'. apply enforced_kept.
Qed.
End properties.

(** ** Sample runs, on the reference state runtime *)

Lemma run_cons {R : StateRuntime} c0 tr n st u n' c' tr' : run c0 tr (n, st) -> node_updates n st u ->
  next n (apply_updates st u) = Ok n' -> c' = (n', apply_updates st u) -> tr' = tr ++ [(n, n')] -> run c0 tr' c'.
Proof. intros Hr Hu Hn -> ->. exact (run_step c0 tr (n, st) _ Hr (step_node n st u n' Hu Hn)). Qed.

Definition chat_updates : pydict :=
  match user_question_node (fun _ => ("zh_CN", "zh_CN")) (fun _ _ => "") 1 "t" 0 ∅ with Ok u => u | Raise _ => [] end.
Definition chat_state : pystate := apply_updates ∅ chat_updates.

(** An empty question, up to the prompt. *)
Lemma chat_run : run (question_input, ∅)
  [(question_input, intent_router); (intent_router, prompt_assembly)] (prompt_assembly, chat_state).
Proof.
  eapply (run_cons (question_input, ∅) [(question_input, intent_router)] intent_router chat_state []);
    [|by eapply upd_opaque|reflexivity..].
  eapply (run_cons (question_input, ∅) [] question_input ∅ chat_updates); [constructor| |reflexivity..].
  by eapply (upd_question (fun _ => ("zh_CN", "zh_CN")) (fun _ _ => "") 1 "t" 0).
Qed.

Definition chat_search : pystate := {["route_target" := VStr "chitchat"]}.
Definition web_updates : pydict := web_return 1 (VList []).
Definition pass_updates : pydict := decision_updates 1 "pass" 0 false.
Definition after_web : pystate := apply_updates chat_search web_updates.

(** A web search on a chat route, up to the prompt. *)
Lemma search_run : run (web_tool, chat_search)
  [(web_tool, evidence_fusion); (evidence_fusion, reflection); (reflection, quality_check);
   (quality_check, prompt_assembly)] (prompt_assembly, apply_updates after_web pass_updates).
Proof.
  eapply (run_cons _ [(web_tool, evidence_fusion); (evidence_fusion, reflection); (reflection, quality_check)]
           quality_check after_web pass_updates); [|by eapply (upd_quality 1)|reflexivity..].
  eapply (run_cons _ [(web_tool, evidence_fusion); (evidence_fusion, reflection)] reflection after_web []);
    [|by eapply upd_opaque|reflexivity..].
  eapply (run_cons _ [(web_tool, evidence_fusion)] evidence_fusion after_web []);
    [|by eapply upd_opaque|reflexivity..].
  eapply (run_cons _ [] web_tool chat_search web_updates); [constructor| |reflexivity..].
  by eapply (upd_web (fun _ => Raise (OtherError "")) 1).
Qed.

Definition web_search : pystate := {["route_target" := VStr "web"]}.
Definition web_round : pystate := apply_updates (apply_updates web_search web_updates) (decision_updates 1 "fallback_web" 0 false).

(** A web search on the web route is sent back to the web search. *)
Lemma web_loop_run : run (web_tool, web_search)
  [(web_tool, evidence_fusion); (evidence_fusion, reflection); (reflection, quality_check);
   (quality_check, web_tool)] (web_tool, web_round).
Proof.
  eapply (run_cons _ [(web_tool, evidence_fusion); (evidence_fusion, reflection); (reflection, quality_check)]
           quality_check (apply_updates web_search web_updates)); [|by eapply (upd_quality 1)|reflexivity..].
  eapply (run_cons _ [(web_tool, evidence_fusion); (evidence_fusion, reflection)] reflection
            (apply_updates web_search web_updates) []); [|by eapply upd_opaque|reflexivity..].
  eapply (run_cons _ [(web_tool, evidence_fusion)] evidence_fusion (apply_updates web_search web_updates) []);
    [|by eapply upd_opaque|reflexivity..].
  eapply (run_cons _ [] web_tool web_search web_updates); [constructor| |reflexivity..].
  by eapply (upd_web (fun _ => Raise (OtherError "")) 1).
Qed.

Definition enforced_start : pystate := {["enforcement_mode" := VStr "enforced"]}.

Lemma enforced_chat_run : run (question_input, enforced_start)
  [(question_input, intent_router); (intent_router, prompt_assembly)]
  (prompt_assembly, apply_updates enforced_start chat_updates).
Proof.
  eapply (run_cons _ [(question_input, intent_router)] intent_router
            (apply_updates enforced_start chat_updates) []); [|by eapply upd_opaque|reflexivity..].
  eapply (run_cons _ [] question_input enforced_start chat_updates); [constructor| |reflexivity..].
  by eapply (upd_question (fun _ => ("zh_CN", "zh_CN")) (fun _ _ => "") 1 "t" 0).
Qed.

Lemma run_bounded_witness :
  sget as_int (∅ : pystate) "regenerate_count" 0%Z = Ok 0%Z /\
  (count is_retry [(question_input, intent_router); (intent_router, prompt_assembly)] <= 3)%nat.
Proof. split; [reflexivity|]. exact (proj1 (run_bounded ∅ _ _ eq_refl chat_run)). Defined.

Lemma prompt_sees_fused_evidence_witness :
  exists e : node * node, e ∈ [(web_tool, evidence_fusion); (evidence_fusion, reflection);
    (reflection, quality_check); (quality_check, prompt_assembly)] /\ e.1 = evidence_fusion.
Proof.
  refine (prompt_sees_fused_evidence web_tool _ _ _ _ search_run). unfold tool_nodes. set_solver.
Defined.

Lemma unscored_route_livelock_witness : web_tool ∈ web_loop.
Proof. exact (unscored_route_livelock web_search _ _ _ eq_refl eq_refl web_loop_run). Defined.

Lemma enforced_run_never_renders_witness : prompt_assembly <> answer_renderer.
Proof. exact (enforced_run_never_renders enforced_start _ _ _ eq_refl eq_refl enforced_chat_run). Defined.
