(* ===== verification/SkillPolicy.v ===== *)
(** * Skill constraints as guard rules (skills/policy_adapter.py)

    [build_rules] normalises what the skills of a resolved set declare,
    [evaluate_rules] checks one action against them. [str.casefold] is taken on
    the ASCII letters. *)

From S2P Require Import Prelude PyFloat PyVal PyList PyText AgentState.

(** The fields of the skills that the adapter reads (skills/models.py). *)
Record ReportSkill : Type := mkReportSkill {
  rsk_required_permissions : list string; rsk_allowed_tenants : list string;
  rsk_allowed_formats : list string; rsk_publish_policy : pydict }.
Record DataSkill : Type := mkDataSkill {
  dsk_required_permissions : list string; dsk_policy_constraints : pydict }.
Record RetrievalSkill : Type := mkRetrievalSkill {
  tsk_required_permissions : list string; tsk_retrieval_policy : pydict }.
Record ResolvedSkillSet : Type := mkSkillSet {
  report_skill : ReportSkill; data_skill : option DataSkill; retrieval_skill : option RetrievalSkill }.

Record SkillPolicyRules : Type := mkRules {
  required_permissions : list string; allowed_tenants : list string; require_tenant_filter : bool;
  forbidden_operations : list string; sensitive_field_policy : pydict;
  default_limit : option Z; max_rows : option Z; allowed_formats : list string;
  publish_policy : pydict; allow_web_fallback : bool }.

Record SkillPolicyContext : Type := mkSkillContext {
  sc_tenant_id : string; sc_permissions : list pyval; sc_report_format : string;
  sc_tenant_filter_present : pyval; sc_operation : string; sc_requested_fields : list pyval;
  sc_web_fallback_requested : bool }.

(** [None] is the allowed decision; a denial has a code and a reason. *)
Record SkillDenial : Type := mkDenial { sd_reason_code : string; sd_reason : string }.

(** Booleans are integers in Python. *)
Definition optional_int (v : pyval) : option Z :=
  match v with VInt z => Some z | VBool b => Some (if b then 1%Z else 0%Z) | _ => None end.

Section adapter.
Variable float_repr : Q -> string.

Definition build_rules (skill_set : ResolvedSkillSet) : result SkillPolicyRules :=
  let report := report_skill skill_set in
  let data_policy := match data_skill skill_set with Some d => dsk_policy_constraints d | None => [] end in
  let retrieval_policy := match retrieval_skill skill_set with Some r => tsk_retrieval_policy r | None => [] end in
  let permissions := rsk_required_permissions report
    ++ match data_skill skill_set with Some d => dsk_required_permissions d | None => [] end
    ++ match retrieval_skill skill_set with Some r => tsk_required_permissions r | None => [] end in
  let flag d := truthy (get_or (dlookup "require_tenant_filter" d) (VBool false)) in
  let! operations := py_iter (get_or (dlookup "forbidden_operations" data_policy) (VList [])) in
  let! sensitive := as_dict (get_or (dlookup "sensitive_field_policy" data_policy) (VDict [])) in
  Ok (mkRules permissions (rsk_allowed_tenants report) (flag data_policy || flag retrieval_policy)
        (map (fun op => py_lower (py_str float_repr op)) operations) sensitive
        (optional_int (get_or (dlookup "default_limit" data_policy) VNone))
        (optional_int (get_or (dlookup "max_rows" data_policy) VNone))
        (map py_lower (rsk_allowed_formats report)) (rsk_publish_policy report)
        (truthy (get_or (dlookup "allow_web_fallback" retrieval_policy) (VBool true)))).

(** [set(l)] of a list with a list or a dictionary raises. *)
Definition hashable (v : pyval) : bool := match v with VList _ | VDict _ => false | _ => true end.

Definition has_permission (permissions : list pyval) (p : string) : bool :=
  existsb (fun v => is_str v p) permissions.

Definition evaluate_rules (rules : SkillPolicyRules) (context : SkillPolicyContext) : result (option SkillDenial) :=
  let deny code reason := Ok (Some (mkDenial code reason)) in
  if negb (forallb hashable (sc_permissions context)) then Raise (TypeError "unhashable type")
  else if negb (forallb (has_permission (sc_permissions context)) (required_permissions rules))
  then deny "PERMISSION_DENIED" "用户缺少 Skill 所需权限"
  else if truthy (allowed_tenants rules) && negb (str_in (sc_tenant_id context) (allowed_tenants rules))
  then deny "TENANT_NOT_ALLOWED" "当前租户未启用该 Skill"
  else if truthy (sc_report_format context)
          && (truthy (allowed_formats rules)
              && negb (str_in (py_lower (sc_report_format context)) (allowed_formats rules)))
  then deny "FORMAT_NOT_ALLOWED" "请求的报告格式未被 Skill 允许"
  else if require_tenant_filter rules
          && match sc_tenant_filter_present context with VBool false => true | _ => false end
  then deny "TENANT_FILTER_REQUIRED" "Skill 要求查询包含租户过滤条件"
  else if truthy (sc_operation context) && str_in (py_lower (sc_operation context)) (forbidden_operations rules)
  then deny "OPERATION_FORBIDDEN" "操作被 DataSkill 策略禁止"
  else if sc_web_fallback_requested context && negb (allow_web_fallback rules)
  then deny "WEB_FALLBACK_DENIED" "RetrievalSkill 禁止 Web fallback"
  else Ok None.
End adapter.

(** ** Lemmas *)

(** One check of the chain. *)
Lemma check_step {A} (b : bool) (d : A) r :
  (if b then Ok (Some d) else r) = Ok None <-> b = false /\ r = Ok None.
Proof. destruct b; naive_solver. Qed.

Lemma raise_step {A} (b : bool) e (r : result (option A)) :
  (if b then Raise e else r) = Ok None <-> b = false /\ r = Ok None.
Proof. destruct b; naive_solver. Qed.

Lemma negb_false b : negb b = false <-> b = true.
Proof. by destruct b. Qed.

Lemma has_permission_spec l p : has_permission l p = true <-> VStr p ∈ l.
Proof.
  unfold has_permission. rewrite existsb_true_exists. split.
  - intros (v & Hv & ->%is_str_spec). done.
  - intros Hp. exists (VStr p). by rewrite is_str_spec.
Qed.

Lemma truthy_nil {A} (l : list A) : truthy l = false <-> l = [].
Proof. by destruct l. Qed.

Lemma truthy_text (s : string) : truthy s = false <-> s = "".
Proof. unfold truthy, truthy_string. rewrite negb_false. apply String.eqb_eq. Qed.

(** ** Properties *)

(** An action is let through exactly when it meets every constraint: the user
    holds each required permission, the tenant, the format and the operation are
    admissible, the tenant filter is not known to be missing, and a web
    fallback is requested only where it is allowed. *)
Theorem skill_rules_spec rules context :
  evaluate_rules rules context = Ok None <->
  (forall v, v ∈ sc_permissions context -> hashable v = true) /\
  (forall p, p ∈ required_permissions rules -> VStr p ∈ sc_permissions context) /\
  (allowed_tenants rules = [] \/ sc_tenant_id context ∈ allowed_tenants rules) /\
  (sc_report_format context = "" \/ allowed_formats rules = []
     \/ py_lower (sc_report_format context) ∈ allowed_formats rules) /\
  (require_tenant_filter rules = true -> sc_tenant_filter_present context <> VBool false) /\
  (sc_operation context = "" \/ py_lower (sc_operation context) ∉ forbidden_operations rules) /\
  (sc_web_fallback_requested context = true -> allow_web_fallback rules = true).
Proof.
  unfold evaluate_rules. rewrite raise_step, !check_step, !andb_false_iff, !negb_false.
  rewrite !forallb_true_forall, !str_in_spec, !truthy_nil, !truthy_text, str_in_false.
  setoid_rewrite has_permission_spec.
  destruct (require_tenant_filter rules), (sc_web_fallback_requested context),
    (allow_web_fallback rules), (sc_tenant_filter_present context) as [|[]| | | | |]; naive_solver.
Qed.
