(* ===== verification/Governance.v ===== *)
(** * The life cycle of skills (skills/governance.py)

    Status transitions with their audit entry, the filter of selectable skills
    and the permission check, composed by [is_skill_usable]. *)

From S2P Require Import Prelude PyFloat PyVal PyList PyText.

(** ** Statuses *)

Definition SKILL_STATUS_DRAFT : string := "draft".
Definition SKILL_STATUS_PENDING_REVIEW : string := "pending_review".
Definition SKILL_STATUS_APPROVED : string := "approved".
Definition SKILL_STATUS_ACTIVE : string := "active".
Definition SKILL_STATUS_DEPRECATED : string := "deprecated".

Definition SKILL_STATUS_TRANSITIONS : list (string * list string) :=
  [(SKILL_STATUS_DRAFT, [SKILL_STATUS_PENDING_REVIEW; SKILL_STATUS_DEPRECATED]);
   (SKILL_STATUS_PENDING_REVIEW, [SKILL_STATUS_APPROVED; SKILL_STATUS_DRAFT; SKILL_STATUS_DEPRECATED]);
   (SKILL_STATUS_APPROVED, [SKILL_STATUS_ACTIVE; SKILL_STATUS_DEPRECATED]);
   (SKILL_STATUS_ACTIVE, [SKILL_STATUS_DEPRECATED]);
   (SKILL_STATUS_DEPRECATED, [])].

Definition SELECTABLE_SKILL_STATUSES : list string := [SKILL_STATUS_ACTIVE; SKILL_STATUS_APPROVED].

Definition is_valid_skill_status_transition (from_status to_status : string) : bool :=
  if String.eqb from_status to_status then true
  else str_in to_status (get_or (dlookup from_status SKILL_STATUS_TRANSITIONS) []).

Definition status_to_action (status : string) : string :=
  get_or (dlookup status [(SKILL_STATUS_PENDING_REVIEW, "submit"); (SKILL_STATUS_APPROVED, "approve");
                          (SKILL_STATUS_ACTIVE, "activate"); (SKILL_STATUS_DEPRECATED, "deprecate")]) "edit".

Record ChangeLogEntry : Type := mkChange {
  cl_timestamp : string; cl_actor : string; cl_action : string; cl_from_status : string;
  cl_to_status : string; cl_reason : string; cl_diff : pydict }.

(** [None] for a refused transition; [timestamp] is the reading of the clock. *)
Definition transition_skill_status (timestamp from_status to_status actor reason : string) (diff : option pydict)
    : option ChangeLogEntry :=
  if negb (is_valid_skill_status_transition from_status to_status) then None
  else Some (mkChange timestamp actor (status_to_action to_status) from_status to_status reason (opt_or diff [])).

(** ** Selection and permissions *)

Definition is_selectable (default_allow_approved : bool) (skill_status tenant_id : string)
    (tenant_overrides : option (list (string * bool))) : bool :=
  if str_in skill_status SELECTABLE_SKILL_STATUSES then
    if String.eqb skill_status SKILL_STATUS_ACTIVE then true
    else if default_allow_approved then true
    else match tenant_overrides with
         | Some overrides => if truthy tenant_id && truthy overrides then get_or (dlookup tenant_id overrides) false else false
         | None => false
         end
  else false.

(** Sets of permissions; the effective ones and whether they suffice. *)
Definition permission_compute (user_permissions required : list string) : gset string * bool :=
  let user_set := list_to_set user_permissions in
  let required_set := list_to_set required in
  (user_set ∩ required_set, bool_decide (required_set ⊆@{gset string} user_set)).

Definition is_skill_available (user_permissions required : list string) : bool :=
  (permission_compute user_permissions required).2.

Definition is_skill_usable (skill_status : string) (required user_permissions : list string) (tenant_id : string)
    (tenant_overrides : option (list (string * bool))) (lifecycle_filter : option bool) : bool * string :=
  let default_allow_approved := get_or lifecycle_filter false in
  if negb (is_selectable default_allow_approved skill_status tenant_id tenant_overrides) then
    (false, join "" ["Skill 状态 "; skill_status; " 不可被选择"])
  else if negb (is_skill_available user_permissions required) then (false, "用户权限不满足 Skill 要求")
  else (true, "").

(** ** Lemmas *)

Lemma permissions_sufficient user required :
  is_skill_available user required = true <-> (forall p, p ∈ required -> p ∈ user) .
Proof.
  unfold is_skill_available, permission_compute. cbn. rewrite bool_decide_eq_true. set_solver.
Qed.

Lemma effective_permissions user required :
  is_skill_available user required = true -> (permission_compute user required).1 = list_to_set required.
Proof. intros H. pose proof (proj1 (permissions_sufficient _ _) H). cbn. set_solver. Qed.

(** A permitted transition is logged with both its statuses. *)
Lemma transition_logged timestamp f t actor reason diff e :
  transition_skill_status timestamp f t actor reason diff = Some e ->
  is_valid_skill_status_transition f t = true /\ cl_from_status e = f /\ cl_to_status e = t.
Proof.
  unfold transition_skill_status. destruct (is_valid_skill_status_transition f t); [|done].
  cbn. by intros [= <-].
Qed.

(** ** Properties *)

(** A skill is usable exactly when it is active, or approved and opened to the
    tenant (by the filter's default or by the tenant's own switch), and the
    user holds every permission it requires. *)
Theorem is_skill_usable_spec status required user tenant overrides lifecycle_filter :
  (is_skill_usable status required user tenant overrides lifecycle_filter).1 = true <->
  (status = SKILL_STATUS_ACTIVE \/
   status = SKILL_STATUS_APPROVED /\
   (lifecycle_filter = Some true \/
    tenant <> "" /\ exists o, overrides = Some o /\ dlookup tenant o = Some true)) /\
  (forall p, p ∈ required -> p ∈ user).
Proof.
  rewrite <- permissions_sufficient. unfold is_skill_usable.
  assert (is_selectable (get_or lifecycle_filter false) status tenant overrides = true <->
    status = SKILL_STATUS_ACTIVE \/ status = SKILL_STATUS_APPROVED /\
    (lifecycle_filter = Some true \/ tenant <> "" /\ exists o, overrides = Some o /\ dlookup tenant o = Some true)) as Hs.
  { unfold is_selectable, SELECTABLE_SKILL_STATUSES. cbn [str_in existsb].
    destruct (String.eqb_spec status SKILL_STATUS_ACTIVE) as [->|Ha]; [naive_solver|].
    destruct (String.eqb_spec status SKILL_STATUS_APPROVED) as [->|Hp]; [|naive_solver].
    destruct lifecycle_filter as [[]|]; cbn [get_or orb]; [naive_solver| |];
    (destruct overrides as [o|]; [|naive_solver]);
    unfold truthy at 1, truthy_string; (destruct (String.eqb_spec tenant "") as [->|Ht]; cbn [negb andb]; [naive_solver|]);
    (destruct o as [|kv o]; [naive_solver|]); change (truthy (kv :: o)) with true; cbv iota;
    destruct (dlookup tenant (kv :: o)) as [[]|] eqn:E; cbn [get_or]; naive_solver. }
  rewrite <- Hs. destruct (is_selectable _ _ _ _), (is_skill_available _ _); cbn; naive_solver.
Qed.
