(* ===== verification/Approval.v ===== *)
(** * The approval chain of a skill (skills/approval.py)

    A skill is submitted to a chain of steps; every approver of a step signs
    it, then the chain moves on; a rejection or a timeout sends the skill back
    to draft.  The service mutates one [ApprovalState], modelled as a function
    of the state, of the operation and of the readings of the clock. *)

From stdpp Require Import pretty.
From S2P Require Import Prelude PyFloat PyVal PyList PyText PyTime Governance.

(** ** Statuses *)

Inductive ApprovalStatus : Type := Draft | PendingReview | Approved | Active | Deprecated | Archived.

#[export] Instance ApprovalStatus_eq_dec : EqDecision ApprovalStatus.
Proof. solve_decision. Defined.

Definition status_str (s : ApprovalStatus) : string :=
  match s with
  | Draft => "draft" | PendingReview => "pending_review" | Approved => "approved"
  | Active => "active" | Deprecated => "deprecated" | Archived => "archived"
  end.

Definition APPROVAL_TRANSITIONS (s : ApprovalStatus) : list ApprovalStatus :=
  match s with
  | Draft => [PendingReview; Deprecated]
  | PendingReview => [Approved; Draft; Deprecated]
  | Approved => [Active; Deprecated]
  | Active => [Deprecated]
  | Deprecated => [Archived]
  | Archived => []
  end.

(** ** Data *)

Record ApprovalStep : Type := mkApprovalStep {
  as_role : string; as_approver_ids : list string; as_timeout_hours : Z; as_required : bool }.

(** [current_step] is set to 0 or incremented only. *)
Record ApprovalChain : Type := mkChain { ch_steps : list ApprovalStep; ch_current_step : nat }.

Inductive ApprovalDecision : Type := RApproved | RRejected | RTimeout.

#[export] Instance ApprovalDecision_eq_dec : EqDecision ApprovalDecision.
Proof. solve_decision. Defined.

Record ApprovalRecord : Type := mkApprovalRecord {
  ar_step_index : nat; ar_approver_id : string; ar_decision : ApprovalDecision; ar_reason : string;
  ar_timestamp : string }.

Record ApprovalState : Type := mkApproval {
  ap_chain : ApprovalChain; ap_status : ApprovalStatus; ap_approvals : list ApprovalRecord;
  ap_started_at : string; ap_updated_at : string }.

(** Assignments to the fields. *)
Definition set_status (st : ApprovalStatus) (s : ApprovalState) : ApprovalState :=
  mkApproval (ap_chain s) st (ap_approvals s) (ap_started_at s) (ap_updated_at s).
Definition set_current (i : nat) (s : ApprovalState) : ApprovalState :=
  mkApproval (mkChain (ch_steps (ap_chain s)) i) (ap_status s) (ap_approvals s) (ap_started_at s) (ap_updated_at s).
Definition set_started (t : string) (s : ApprovalState) : ApprovalState :=
  mkApproval (ap_chain s) (ap_status s) (ap_approvals s) t (ap_updated_at s).
Definition set_updated (t : string) (s : ApprovalState) : ApprovalState :=
  mkApproval (ap_chain s) (ap_status s) (ap_approvals s) (ap_started_at s) t.
Definition add_record (r : ApprovalRecord) (s : ApprovalState) : ApprovalState :=
  mkApproval (ap_chain s) (ap_status s) (ap_approvals s ++ [r]) (ap_started_at s) (ap_updated_at s).

Abbreviation ap_steps s := (ch_steps (ap_chain s)).
Abbreviation ap_current s := (ch_current_step (ap_chain s)).

(** ** Operations *)

(** The readings of the clock during one operation, in order. *)
Abbreviation clock := (nat -> datetime).
Definition now_iso (clk : clock) (i : nat) : string := strftime_iso (clk i).

(** [_step_satisfied] *)
Definition approved_by (approvals : list ApprovalRecord) (i : nat) : list string :=
  map ar_approver_id (List.filter (fun r => (ar_step_index r =? i)%nat && bool_decide (ar_decision r = RApproved)) approvals).

Definition step_satisfied (s : ApprovalState) (i : nat) : bool :=
  match ap_steps s !! i with
  | None => true
  | Some step =>
    if negb (truthy (as_approver_ids step)) then true
    else forallb (fun a => str_in a (approved_by (ap_approvals s) i)) (as_approver_ids step)
  end.

(** The loop that skips optional steps, over the steps from [i] on. *)
Fixpoint skip_optional (rest : list ApprovalStep) (i : nat) : nat :=
  match rest with
  | step :: rest' => if negb (as_required step) then skip_optional rest' (S i) else i
  | [] => i
  end.

(** [_advance_chain] *)
Definition advance_chain (clk : clock) (approver_id : string) (s : ApprovalState) : ApprovalState :=
  match ap_steps s !! ap_current s with
  | None => s
  | Some step =>
    if truthy (as_approver_ids step) && negb (str_in approver_id (as_approver_ids step)) then s
    else
      let s1 := add_record (mkApprovalRecord (ap_current s) approver_id RApproved "" (now_iso clk 0)) s in
      if negb (step_satisfied s1 (ap_current s)) then set_updated (now_iso clk 1) s1
      else
        let next := skip_optional (drop (S (ap_current s)) (ap_steps s)) (S (ap_current s)) in
        let s2 := set_current next (set_updated (now_iso clk 1) s1) in
        if (length (ap_steps s) <=? next)%nat then set_status Approved s2 else s2
  end.

Definition submit (clk : clock) (s : ApprovalState) : ApprovalState :=
  if negb (bool_decide (ap_status s = Draft)) then s
  else if negb (truthy (ap_steps s)) then s
  else
    let now := now_iso clk 0 in
    let s1 := set_current 0 (set_status PendingReview s) in
    set_updated now (if negb (truthy (ap_started_at s)) then set_started now s1 else s1).

Definition approve (clk : clock) (approver_id : string) (s : ApprovalState) : ApprovalState :=
  match ap_status s with
  | PendingReview => advance_chain clk approver_id s
  | Approved => set_updated (now_iso clk 0) (set_status Active s)
  | _ => s
  end.

(** Back to draft with a record; shared by [reject] and [check_timeout]. *)
Definition send_back (clk : clock) (r : ApprovalRecord) (s : ApprovalState) : ApprovalState :=
  set_updated (now_iso clk 1) (set_current 0 (set_status Draft (add_record r s))).

Definition reject (clk : clock) (approver_id reason : string) (s : ApprovalState) : ApprovalState :=
  if negb (bool_decide (ap_status s = PendingReview)) then s
  else send_back clk (mkApprovalRecord (ap_current s) approver_id RRejected reason (now_iso clk 0)) s.

Definition withdraw (clk : clock) (s : ApprovalState) : ApprovalState :=
  match ap_status s with
  | Active => set_updated (now_iso clk 0) (set_status Deprecated s)
  | Deprecated => set_updated (now_iso clk 0) (set_status Archived s)
  | Draft | PendingReview | Approved => set_updated (now_iso clk 0) (set_status Deprecated s)
  | Archived => s
  end.

Definition elapsed_hours (now started : datetime) : Q := fdiv (total_seconds now started) (fint 3600).

Definition check_timeout (clk : clock) (s : ApprovalState) : ApprovalState :=
  if negb (bool_decide (ap_status s = PendingReview)) then s
  else match ap_steps s !! ap_current s with
       | None => s
       | Some step =>
         if negb (truthy (ap_updated_at s)) then s
         else match strptime_iso (ap_updated_at s) with
              | None => s
              | Some started =>
                if fgt (elapsed_hours (clk 0%nat) started) (inject_Z (as_timeout_hours step)) then
                  send_back (fun i => clk (S i))
                    (mkApprovalRecord (ap_current s) "" RTimeout
                       (join "" ["步骤 "; as_role step; " 超时（"; pretty (as_timeout_hours step); "h）"])
                       (now_iso clk 1)) s
                else s
              end
       end.

(** ** Runs of the service *)

Inductive ApprovalOp : Type :=
  | OpSubmit | OpApprove (approver_id : string) | OpReject (approver_id reason : string)
  | OpWithdraw | OpCheckTimeout.

Definition approval_step (clk : clock) (op : ApprovalOp) : ApprovalState -> ApprovalState :=
  match op with
  | OpSubmit => submit clk
  | OpApprove a => approve clk a
  | OpReject a reason => reject clk a reason
  | OpWithdraw => withdraw clk
  | OpCheckTimeout => check_timeout clk
  end.

Definition approval_run (ops : list (clock * ApprovalOp)) (s : ApprovalState) : ApprovalState :=
  fold_left (fun s o => approval_step o.1 o.2 s) ops s.

(** A skill that was never submitted. *)
Definition new_approval (steps : list ApprovalStep) : ApprovalState :=
  mkApproval (mkChain steps 0) Draft [] "" "".

(** ** Lemmas *)

(** Evaluate the accessors of updated states. *)
Ltac approval_simpl :=
  cbn [set_status set_current set_started set_updated add_record send_back ap_chain ap_status ap_approvals
       ap_started_at ap_updated_at ch_steps ch_current_step ar_step_index ar_approver_id ar_decision] in *.

Lemma approved_by_app l1 l2 i : approved_by (l1 ++ l2) i = approved_by l1 i ++ approved_by l2 i.
Proof. unfold approved_by. by rewrite List.filter_app, map_app. Qed.

Lemma approved_by_one i a reason t j :
  approved_by [mkApprovalRecord i a RApproved reason t] j = if (i =? j)%nat then [a] else [].
Proof. unfold approved_by. cbn. by destruct (i =? j)%nat. Qed.

Lemma elem_of_approved_by l i a :
  a ∈ approved_by l i <-> exists r, r ∈ l /\ ar_step_index r = i /\ ar_decision r = RApproved /\ ar_approver_id r = a.
Proof.
  unfold approved_by. rewrite list_elem_of_In, in_map_iff. setoid_rewrite List.filter_In.
  setoid_rewrite list_elem_of_In. setoid_rewrite andb_true_iff. setoid_rewrite Nat.eqb_eq.
  setoid_rewrite bool_decide_eq_true. naive_solver.
Qed.

Lemma skip_optional_ge rest i : (i <= skip_optional rest i <= i + length rest)%nat.
Proof.
  revert i. induction rest as [|st rest IH]; intros i; cbn [skip_optional length]; [lia|].
  destruct (as_required st); cbn [negb]; [lia|]. specialize (IH (S i)). lia.
Qed.

(** The skipped steps are optional, the step reached is not. *)
Lemma skip_optional_skipped steps i j st :
  (i <= j < skip_optional (drop i steps) i)%nat -> steps !! j = Some st -> as_required st = false.
Proof.
  remember (drop i steps) as rest eqn:Hr. revert i Hr. induction rest as [|st0 rest IH]; intros i Hr Hj Hl.
  - cbn in Hj. lia.
  - assert (steps !! i = Some st0) as H0 by (rewrite <- (Nat.add_0_r i), <- lookup_drop, <- Hr; done).
    assert (rest = drop (S i) steps) as Hd by (by rewrite (drop_S _ _ _ H0) in Hr; injection Hr).
    cbn [skip_optional] in Hj. destruct (as_required st0) eqn:E; cbn [negb] in Hj; [lia|].
    destruct (decide (j = i)) as [->|]; [congruence|]. apply (IH (S i)); auto; lia.
Qed.

(** ** The invariant *)

(** Step [i] was signed: by someone, and by each of its approvers. *)
Definition signed (s : ApprovalState) (i : nat) : Prop :=
  (exists a, a ∈ approved_by (ap_approvals s) i) /\
  forall st, ap_steps s !! i = Some st -> forall a, a ∈ as_approver_ids st -> a ∈ approved_by (ap_approvals s) i.

(** The steps nobody may skip: the first one and the required ones. *)
Definition mandatory (steps : list ApprovalStep) (i : nat) : Prop :=
  exists st, steps !! i = Some st /\ (i = 0%nat \/ as_required st = true).

(** An approval comes from an approver of its step, when the step names any. *)
Definition entitled (steps : list ApprovalStep) (r : ApprovalRecord) : Prop :=
  ar_decision r = RApproved -> exists st, steps !! ar_step_index r = Some st /\
    (as_approver_ids st = [] \/ ar_approver_id r ∈ as_approver_ids st).

Definition approval_inv (steps : list ApprovalStep) (s : ApprovalState) : Prop :=
  ap_steps s = steps /\ Forall (entitled steps) (ap_approvals s) /\
  match ap_status s with
  | PendingReview => (ap_current s < length steps)%nat /\
                     forall i, (i < ap_current s)%nat -> mandatory steps i -> signed s i
  | Approved | Active => forall i, mandatory steps i -> signed s i
  | _ => True
  end.

(** More records, same chain: what was signed stays signed. *)
Lemma signed_mono s s' i :
  ap_steps s' = ap_steps s -> (forall a, a ∈ approved_by (ap_approvals s) i -> a ∈ approved_by (ap_approvals s') i) ->
  signed s i -> signed s' i.
Proof. intros Hs Ha [[a H1] H2]. split; [eauto|]. rewrite Hs. eauto. Qed.

Lemma signed_add r s i : signed s i -> signed (add_record r s) i.
Proof. apply signed_mono; [done|]. intros a Ha. approval_simpl. rewrite approved_by_app. set_solver. Qed.

Lemma step_satisfied_signed s i :
  (exists a, a ∈ approved_by (ap_approvals s) i) -> step_satisfied s i = true -> signed s i.
Proof.
  intros Hex Hs. split; [done|]. intros st Hst a Ha. unfold step_satisfied in Hs. rewrite Hst in Hs.
  destruct (as_approver_ids st) as [|b l]; [by apply not_elem_of_nil in Ha|]. cbn [truthy truthy_list negb] in Hs.
  rewrite forallb_true_forall in Hs. apply str_in_spec. auto.
Qed.

Lemma advance_chain_inv clk a steps s :
  ap_status s = PendingReview -> approval_inv steps s -> approval_inv steps (advance_chain clk a s).
Proof.
  intros Hp (Hst & Hent & Hinv). rewrite Hp in Hinv. destruct Hinv as [Hlt Hsig]. unfold advance_chain.
  destruct (ap_steps s !! ap_current s) as [step|] eqn:El; [|split_and!; [done..|]; by rewrite Hp].
  destruct (_ && _) eqn:Eg; [split_and!; [done..|]; by rewrite Hp|].
  set (r := mkApprovalRecord _ _ _ _ _). set (s1 := add_record r s).
  assert (Forall (entitled steps) (ap_approvals s1)) as Hent1.
  { apply Forall_app. split; [done|]. constructor; [|done]. intros _. exists step. cbn.
    rewrite <- Hst. split; [done|]. destruct (as_approver_ids step) eqn:Ea; [by left|right].
    cbn [truthy truthy_list andb] in Eg. apply str_in_spec. by apply negb_false_iff in Eg. }
  assert (a ∈ approved_by (ap_approvals s1) (ap_current s)) as Hin.
  { subst s1 r. approval_simpl. rewrite approved_by_app, approved_by_one, Nat.eqb_refl. set_solver. }
  assert (forall i, (i < ap_current s)%nat -> mandatory steps i -> signed s1 i) as Hsig1
    by (intros; apply signed_add; auto).
  destruct (step_satisfied s1 (ap_current s)) eqn:Es; cbn [negb].
  2:{ split_and!; [done..|]. approval_simpl. change (ap_status s1) with (ap_status s). by rewrite Hp. }
  apply step_satisfied_signed in Es; [|by exists a].
  set (next := skip_optional _ _).
  assert (forall i, (i < next)%nat -> mandatory steps i -> signed s1 i) as Hnext.
  { intros i Hi Hm. destruct (Nat.lt_trichotomy i (ap_current s)) as [H|[->|H]]; [auto|done|].
    destruct Hm as (st & Hl & [->|Hr]); [lia|]. rewrite <- Hst in Hl.
    rewrite (skip_optional_skipped (ap_steps s) (S (ap_current s)) i st) in Hr; [done|lia|done]. }
  destruct (length (ap_steps s) <=? next)%nat eqn:Ef.
  - apply Nat.leb_le in Ef. split_and!; [done..|]. approval_simpl. intros i Hm. apply Hnext; [|done].
    destruct Hm as (st & Hl & _). apply lookup_lt_Some in Hl. rewrite Hst in Ef. lia.
  - apply Nat.leb_gt in Ef. split_and!; [done..|]. approval_simpl. change (ap_status s1) with (ap_status s).
    rewrite Hp. rewrite Hst in Ef. split; [exact Ef|]. intros i Hi Hm. by apply Hnext.
Qed.

Lemma approval_step_inv clk op steps s : approval_inv steps s -> approval_inv steps (approval_step clk op s).
Proof.
  intros Hinv. destruct op as [|a|a reason| |]; cbn [approval_step].
  - unfold submit. destruct (bool_decide_reflect (ap_status s = Draft)) as [Hd|]; [|done]. cbn [negb].
    destruct (ap_steps s) as [|st l] eqn:El; [done|]. cbn [truthy truthy_list negb].
    destruct Hinv as (Hst & Hent & _). split_and!; [by destruct (negb _)|by destruct (negb _)|].
    rewrite <- Hst, El. destruct (negb _); approval_simpl; split; cbn; lia || (intros; lia).
  - unfold approve. destruct (ap_status s) eqn:E; try done.
    + by apply advance_chain_inv.
    + destruct Hinv as (Hst & Hent & Hs). rewrite E in Hs. split_and!; done.
  - unfold reject. destruct (bool_decide _); [|done]. cbn [negb]. destruct Hinv as (Hst & Hent & _).
    split_and!; [done| |done]. apply Forall_app. split; [done|]. by constructor.
  - unfold withdraw. destruct Hinv as (Hst & Hent & Hs). destruct (ap_status s) eqn:E; split_and!; try done.
    by rewrite E.
  - unfold check_timeout. destruct (bool_decide _); [|done]. cbn [negb].
    destruct (ap_steps s !! _); [|done]. destruct (negb _); [done|]. destruct (strptime_iso _); [|done].
    destruct (fgt _ _); [|done]. destruct Hinv as (Hst & Hent & _).
    split_and!; [done| |done]. apply Forall_app. split; [done|]. by constructor.
Qed.

Lemma approval_run_inv ops steps s : approval_inv steps s -> approval_inv steps (approval_run ops s).
Proof.
  revert s. induction ops as [|[clk op] ops IH]; intros s H; [done|]. apply IH. by apply approval_step_inv.
Qed.

Lemma new_approval_inv steps : approval_inv steps (new_approval steps).
Proof. split_and!; cbn; [done|constructor|done]. Qed.

(** ** Signing a chain in order *)

(** The signatures a step asks for; an open step takes anyone's. *)
Definition signers (anyone : string) (st : ApprovalStep) : list string :=
  match as_approver_ids st with [] => [anyone] | l => l end.

Lemma step_satisfied_all s i st l : ap_steps s !! i = Some st -> approved_by (ap_approvals s) i = l ->
  step_satisfied s i = forallb (fun a => str_in a l) (as_approver_ids st).
Proof. intros H <-. unfold step_satisfied. rewrite H. by destruct (as_approver_ids st). Qed.

(** The state after the last signature of step [i]. *)
Definition step_left (s s' : ApprovalState) (i : nat) : Prop :=
  let next := skip_optional (drop (S i) (ap_steps s)) (S i) in
  ap_steps s' = ap_steps s /\ (forall k, k <> i -> approved_by (ap_approvals s') k = approved_by (ap_approvals s) k) /\
  if (length (ap_steps s) <=? next)%nat then ap_status s' = Approved
  else ap_status s' = PendingReview /\ ap_current s' = next.

Lemma approve_signs clk s i st a before todo :
  ap_status s = PendingReview -> ap_current s = i -> ap_steps s !! i = Some st ->
  approved_by (ap_approvals s) i = before -> NoDup (as_approver_ids st) ->
  (as_approver_ids st = before ++ a :: todo \/ as_approver_ids st = [] /\ todo = []) ->
  let s' := approve clk a s in
  (todo = [] -> step_left s s' i) /\
  (todo <> [] -> ap_status s' = PendingReview /\ ap_chain s' = ap_chain s /\
     approved_by (ap_approvals s') i = before ++ [a] /\
     forall k, k <> i -> approved_by (ap_approvals s') k = approved_by (ap_approvals s) k).
Proof.
  intros Hp Hi Hl Hb Hnd Hids. cbn. unfold approve, advance_chain. rewrite Hp, Hi, Hl.
  assert ((truthy (as_approver_ids st) && negb (str_in a (as_approver_ids st))) = false) as ->.
  { apply andb_false_iff. destruct Hids as [-> | [-> _]]; [right|by left].
    apply negb_false_iff, str_in_spec. set_solver. }
  set (s1 := add_record _ s).
  assert (approved_by (ap_approvals s1) i = before ++ [a]) as Hb1
    by (subst s1; approval_simpl; by rewrite approved_by_app, approved_by_one, Nat.eqb_refl, Hb).
  assert (forall k, k <> i -> approved_by (ap_approvals s1) k = approved_by (ap_approvals s) k) as Hk.
  { intros k Hne. subst s1. approval_simpl. rewrite approved_by_app, approved_by_one.
    destruct (Nat.eqb_spec i k); [congruence|]. by rewrite app_nil_r. }
  rewrite (step_satisfied_all s1 i st (before ++ [a])) by done. split; intros Ht.
  - subst todo. assert (forallb (fun x => str_in x (before ++ [a])) (as_approver_ids st) = true) as ->.
    { destruct Hids as [-> | [-> _]]; [|done]. apply forallb_true_forall. intros x Hx. by apply str_in_spec. }
    cbn [negb]. unfold step_left. destruct (_ <=? _)%nat; approval_simpl; split_and!; auto.
  - destruct Hids as [Hids|[_ ->]]; [|done].
    destruct (forallb _ _) eqn:Ef; cbn [negb]; [exfalso|approval_simpl; auto].
    destruct todo as [|b todo]; [done|]. rewrite forallb_true_forall in Ef. specialize (Ef b).
    rewrite str_in_spec, Hids in Ef. rewrite Hids in Hnd.
    assert (b ∈ before ++ [a]) as Hbin by (apply Ef; set_solver).
    replace (before ++ a :: b :: todo) with ((before ++ [a]) ++ b :: todo) in Hnd by (by rewrite <- app_assoc).
    apply NoDup_app in Hnd as (_ & Hd & _). apply (Hd b Hbin). by left.
Qed.

Lemma approval_run_app o1 o2 s : approval_run (o1 ++ o2) s = approval_run o2 (approval_run o1 s).
Proof. apply fold_left_app. Qed.

Lemma signing_step anyone todo a ops s i st before :
  map snd ops = map OpApprove (a :: todo) ->
  ap_status s = PendingReview -> ap_current s = i -> ap_steps s !! i = Some st ->
  approved_by (ap_approvals s) i = before -> NoDup (as_approver_ids st) ->
  (before ++ a :: todo = as_approver_ids st \/ as_approver_ids st = [] /\ a :: todo = signers anyone st) ->
  step_left s (approval_run ops s) i.
Proof.
  revert a ops s before. induction todo as [|b todo IH]; intros a ops s before Ho Hp Hi Hl Hb Hnd Hids;
    destruct ops as [|[clk op] ops]; cbn in Ho; try done; injection Ho as -> Ho.
  - destruct ops; [|done]. cbn.
    destruct (approve_signs clk s i st a before [] Hp Hi Hl Hb Hnd) as [H _]; [naive_solver|by apply H].
  - assert (before ++ a :: b :: todo = as_approver_ids st) as Hids'.
    { destruct Hids as [?|[E H]]; [done|]. unfold signers in H. rewrite E in H. done. }
    destruct (approve_signs clk s i st a before (b :: todo) Hp Hi Hl Hb Hnd) as [_ H]; [by left|].
    destruct (H ltac:(done)) as (Hp' & Hc' & Hb' & Hk').
    destruct (IH b ops (approve clk a s) (before ++ [a])) as (H1 & H2 & H3); try done; try (by rewrite Hc').
    { left. by rewrite <- app_assoc. }
    change (approval_run ((clk, OpApprove a) :: ops) s) with (approval_run ops (approve clk a s)).
    unfold step_left. rewrite Hc' in *. split_and!; [done| |done]. intros k Hne. by rewrite H2, Hk'.
Qed.

(** Where the skipping stops among the steps that are left. *)
Lemma skip_optional_filter rest i :
  let next := skip_optional rest i in
  (next = (i + length rest)%nat /\ List.filter as_required rest = []) \/
  exists st, rest !! (next - i)%nat = Some st /\
    List.filter as_required rest = st :: List.filter as_required (drop (S (next - i)) rest).
Proof.
  cbn. revert i. induction rest as [|st rest IH]; intros i; cbn [skip_optional List.filter length]; [left; split; [lia|done]|].
  destruct (as_required st) eqn:E; cbn [negb].
  - right. exists st. by rewrite Nat.sub_diag.
  - pose proof (skip_optional_ge rest (S i)) as Hge. destruct (IH (S i)) as [[Hn Hf]|(st' & Hl & Hf)].
    + left. split; [lia|done].
    + right. exists st'. replace (skip_optional rest (S i) - i)%nat with (S (skip_optional rest (S i) - S i)) by lia. done.
Qed.

Lemma signing_chain anyone n ops s i st :
  (length (ap_steps s) - i <= n)%nat -> ap_status s = PendingReview -> ap_current s = i -> ap_steps s !! i = Some st ->
  (forall k, (i <= k)%nat -> approved_by (ap_approvals s) k = []) ->
  Forall (fun st => NoDup (as_approver_ids st)) (ap_steps s) ->
  map snd ops = map OpApprove (concat (map (signers anyone) (st :: List.filter as_required (drop (S i) (ap_steps s))))) ->
  ap_status (approval_run ops s) = Approved.
Proof.
  revert ops s i st. induction n as [|n IH]; intros ops s i st Hn Hp Hi Hl Hk Hnd Ho.
  { apply lookup_lt_Some in Hl. lia. }
  cbn [map concat] in Ho. rewrite map_app in Ho. apply map_eq_app in Ho as (o1 & o2 & -> & Ho1 & Ho2).
  rewrite approval_run_app.
  assert (exists a todo, signers anyone st = a :: todo) as (a & todo & Hs)
    by (unfold signers; destruct (as_approver_ids st); eauto).
  assert (NoDup (as_approver_ids st)) as Hnd1 by (rewrite Forall_forall in Hnd; apply Hnd; by eapply list_elem_of_lookup_2).
  assert (step_left s (approval_run o1 s) i) as (Hst & Hoth & Hend).
  { eapply (signing_step anyone todo a o1 s i st []); eauto; [by rewrite <- Hs|].
    unfold signers in *. destruct (as_approver_ids st) eqn:E; [by right|by left]. }
  set (s1 := approval_run o1 s) in *.
  pose proof (skip_optional_ge (drop (S i) (ap_steps s)) (S i)) as Hge.
  destruct (skip_optional_filter (drop (S i) (ap_steps s)) (S i)) as [[Hnx Hf]|(st' & Hl' & Hf)].
  - rewrite Hnx in Hend. rewrite Hf in Ho2. destruct o2; [|done]. cbn.
    rewrite length_drop in Hend. apply lookup_lt_Some in Hl.
    by rewrite (proj2 (Nat.leb_le _ _)) in Hend by lia.
  - set (next := skip_optional _ _) in *. rewrite lookup_drop in Hl'.
    replace (S i + (next - S i))%nat with next in Hl' by lia.
    pose proof (lookup_lt_Some _ _ _ Hl') as Hlt. rewrite (proj2 (Nat.leb_gt _ _)) in Hend by lia.
    destruct Hend as [Hp1 Hc1]. rewrite Hf, drop_drop in Ho2.
    replace (S i + S (next - S i))%nat with (S next) in Ho2 by lia.
    apply (IH o2 s1 next st'); rewrite ?Hst; auto; [lia|]. intros k Hge'. rewrite Hoth by lia. apply Hk. lia.
Qed.

(** ** Hours *)

Lemma hours_le w T : (0 <= T < 2 ^ 40)%Z -> (w <= T * 3600 * 1000000)%Z ->
  (fdiv (rnd (inject_Z w / inject_Z 1000000)) (fint 3600) <= inject_Z T)%Q.
Proof.
  intros HT Hw. unfold fdiv, fint. rewrite (rnd_Z_pos 3600) by lia.
  rewrite <- (rnd_nonneg_Z T) by lia. apply rnd_mono, Qle_shift_div_r; [done|].
  rewrite <- inject_Z_mult, <- (rnd_nonneg_Z (T * 3600)) by lia. apply rnd_mono, Qle_shift_div_r; [done|].
  rewrite <- inject_Z_mult, <- Zle_Qle. lia.
Qed.

Lemma hours_gt w T : (0 <= T < 2 ^ 40)%Z -> (w >= (T * 3600 + 1) * 1000000)%Z ->
  (inject_Z T < fdiv (rnd (inject_Z w / inject_Z 1000000)) (fint 3600))%Q.
Proof.
  intros HT Hw. unfold fdiv, fint. rewrite (rnd_Z_pos 3600) by lia.
  apply Qlt_le_trans with (inject_Z (T * 4096 + 1) * 2 ^ (-12))%Q.
  { rewrite inject_Z_plus, inject_Z_mult. change (2 ^ (-12))%Q with (1 # 4096). change (inject_Z 4096) with 4096%Q.
    change (inject_Z 1) with 1%Q. lra. }
  rewrite <- (rnd_dyadic (T * 4096 + 1) 12) by lia. apply rnd_mono, Qle_shift_div_l; [done|].
  apply Qle_trans with (inject_Z (T * 3600 + 1)).
  { rewrite !inject_Z_plus, !inject_Z_mult. change (2 ^ (- (12)))%Q with (1 # 4096). change (inject_Z 4096) with 4096%Q.
    change (inject_Z 3600) with 3600%Q. change (inject_Z 1) with 1%Q. lra. }
  rewrite <- (rnd_nonneg_Z (T * 3600 + 1)) by lia. apply rnd_mono, Qle_shift_div_l; [done|].
  rewrite <- inject_Z_mult, <- Zle_Qle. lia.
Qed.

(** ** Properties *)

(** Every operation moves the status along the transition table (which the
    skill life cycle admits too, archiving apart) or leaves it alone; it never
    edits the chain or removes an audit record; an archived skill is final. *)
Theorem approval_transitions clk op s :
  let s' := approval_step clk op s in
  (ap_status s' = ap_status s \/
   ap_status s' ∈ APPROVAL_TRANSITIONS (ap_status s) /\
   (ap_status s' = Archived \/
    is_valid_skill_status_transition (status_str (ap_status s)) (status_str (ap_status s')) = true)) /\
  ap_steps s' = ap_steps s /\ (exists l, ap_approvals s' = ap_approvals s ++ l) /\
  (ap_status s = Archived -> s' = s).
Proof.
  assert (forall s, (exists l, ap_approvals s = ap_approvals s ++ l)) as Hnil by (intros s0; exists []; by rewrite app_nil_r).
  destruct op as [|a|a reason| |]; cbn [approval_step].
  - unfold submit. destruct (bool_decide_reflect (ap_status s = Draft)) as [E|]; cbn [negb]; [|auto].
    destruct (negb (truthy (ap_steps s))); [auto|]. rewrite E. split_and!; [|by destruct (negb _)| |done].
    + right. destruct (negb _); cbn; split; [set_solver|by right|set_solver|by right].
    + exists []. rewrite app_nil_r. by destruct (negb _).
  - unfold approve. destruct (ap_status s) eqn:E; auto.
    + unfold advance_chain. destruct (_ !! _) as [st|]; [|rewrite E; auto]. destruct (_ && _); [rewrite E; auto|].
      destruct (negb _); [cbn; rewrite E; split_and!; eauto; done|].
      destruct (_ <=? _)%nat; cbn; [|rewrite E]; split_and!; eauto; try done.
      right. split; [set_solver|by right].
    + cbn. split_and!; auto; [|done]. right. split; [set_solver|by right].
  - unfold reject. destruct (bool_decide_reflect (ap_status s = PendingReview)) as [E|]; cbn [negb]; [|auto].
    cbn. rewrite E. split_and!; eauto; [|done]. right. split; [set_solver|by right].
  - unfold withdraw. destruct (ap_status s) eqn:E; cbn; rewrite ?E; split_and!; auto; try done;
      right; (split; [set_solver|]); (by left) || by right.
  - unfold check_timeout. destruct (bool_decide_reflect (ap_status s = PendingReview)) as [E|]; cbn [negb]; [|auto].
    destruct (ap_steps s !! _); [|auto]. destruct (negb _); [auto|]. destruct (strptime_iso _); [|auto].
    destruct (fgt _ _); [|auto]. cbn. rewrite E. split_and!; eauto; [|done]. right. split; [set_solver|by right].
Qed.

(** [C30] Whatever is done to a skill after its creation, when it is approved or
    active its first step and every required step were signed by all their
    approvers, and every recorded approval comes from an approver of its step. *)
Theorem approved_chain_signed steps ops :
  let s := approval_run ops (new_approval steps) in
  ap_status s ∈ [Approved; Active] ->
  ap_steps s = steps /\
  (forall i, mandatory steps i -> signed s i) /\
  (forall r, r ∈ ap_approvals s -> entitled steps r).
Proof.
  cbn. intros Hs. destruct (approval_run_inv ops steps _ (new_approval_inv steps)) as (Hst & Hent & Hinv).
  split_and!; [done| |].
  - apply elem_of_cons in Hs as [E|E%list_elem_of_singleton]; rewrite E in Hinv; exact Hinv.
  - by rewrite Forall_forall in Hent.
Qed.

(** [C40] Once submitted, a new skill is approved when the approvers of its first
    step and of its required steps all sign, in order. *)
Theorem chain_completes anyone first rest clk ops :
  Forall (fun st => NoDup (as_approver_ids st)) (first :: rest) ->
  map snd ops = map OpApprove (concat (map (signers anyone) (first :: List.filter as_required rest))) ->
  ap_status (approval_run ((clk, OpSubmit) :: ops) (new_approval (first :: rest))) = Approved.
Proof.
  intros Hnd Ho. change (approval_run ((clk, OpSubmit) :: ops) ?s) with (approval_run ops (submit clk s)).
  apply (signing_chain anyone (length (first :: rest)) ops _ 0 first); done || cbn; lia.
Qed.

(** A rejection does not withdraw the approvals given before it: after the
    skill is submitted again, an approver of the first step who is the only
    one missing in the whole history completes that step alone. *)
Theorem rejection_keeps_approvals clk1 clk2 clk3 b reason a s st :
  ap_status s = PendingReview -> ap_steps s !! 0%nat = Some st -> a ∈ as_approver_ids st ->
  (forall x, x ∈ as_approver_ids st -> x <> a -> x ∈ approved_by (ap_approvals s) 0) ->
  let s' := approve clk3 a (submit clk2 (reject clk1 b reason s)) in
  ap_status s' = Approved \/ ap_status s' = PendingReview /\ (0 < ap_current s')%nat.
Proof.
  intros Hp Hl Ha Hall. cbn.
  set (s2 := submit clk2 (reject clk1 b reason s)).
  assert (ap_status s2 = PendingReview /\ ap_steps s2 = ap_steps s /\ ap_current s2 = 0%nat /\
          approved_by (ap_approvals s2) 0 = approved_by (ap_approvals s) 0) as (Hp2 & Hs2 & Hc2 & Hb2).
  { subst s2. unfold reject. rewrite (bool_decide_eq_true_2 _ Hp). cbn [negb]. unfold submit.
    approval_simpl. cbn [negb]. rewrite bool_decide_eq_true_2 by done.
    assert (truthy (ap_steps s) = true) as -> by (by destruct (ap_steps s)). cbn [negb].
    assert (approved_by (ap_approvals s ++ [mkApprovalRecord (ap_current s) b RRejected reason (now_iso clk1 0)]) 0
            = approved_by (ap_approvals s) 0) as Hr.
    { rewrite approved_by_app. unfold approved_by at 2. cbn. rewrite andb_false_r. by rewrite app_nil_r. }
    by destruct (negb (truthy (ap_started_at _))). }
  clearbody s2. unfold approve, advance_chain. rewrite Hp2, Hc2, Hs2, Hl.
  assert ((truthy (as_approver_ids st) && negb (str_in a (as_approver_ids st))) = false) as ->.
  { apply andb_false_iff. right. by apply negb_false_iff, str_in_spec. }
  rewrite (step_satisfied_all _ 0 st (approved_by (ap_approvals s) 0 ++ [a])).
  2:{ approval_simpl. by rewrite Hs2. }
  2:{ approval_simpl. by rewrite approved_by_app, approved_by_one, Hb2. }
  assert (forallb (fun x => str_in x (approved_by (ap_approvals s) 0 ++ [a])) (as_approver_ids st) = true) as ->.
  { apply forallb_true_forall. intros x Hx. apply str_in_spec, elem_of_app.
    destruct (decide (x = a)) as [->|]; [right; by left|left; auto]. }
  cbn [negb]. pose proof (skip_optional_ge (drop 1 (ap_steps s)) 1) as Hge.
  destruct (_ <=? _)%nat; approval_simpl; [by left|right]. split; [done|lia].
Qed.

(** A step that has waited no longer than its limit is not timed out; one that
    has waited a second more is sent back to draft.  The wait is counted from
    the written time, which has lost its microseconds. *)
Theorem check_timeout_spec clk s st t0 :
  ap_status s = PendingReview -> ap_steps s !! ap_current s = Some st ->
  ap_updated_at s = strftime_iso t0 -> valid_datetime t0 = true -> (0 <= as_timeout_hours st < 2 ^ 40)%Z ->
  let waited := (to_micros (clk 0%nat) - (to_micros t0 - dt_micro t0))%Z in
  ((waited <= as_timeout_hours st * 3600 * 1000000)%Z -> check_timeout clk s = s) /\
  ((waited >= (as_timeout_hours st * 3600 + 1) * 1000000)%Z -> ap_status (check_timeout clk s) = Draft).
Proof.
  intros Hp Hl Hu Hv Ht waited. unfold check_timeout. rewrite (bool_decide_eq_true_2 _ Hp), Hl, Hu. cbn [negb].
  destruct (truthy (strftime_iso t0)) eqn:E; [|by destruct t0]. cbn [negb]. rewrite strptime_strftime by done.
  set (t1 := mkDatetime _ _ _ _ _ _ 0).
  assert (to_micros t1 = to_micros t0 - dt_micro t0)%Z as Hw1.
  { unfold to_micros. change (to_ordinal t1) with (to_ordinal t0). cbn [dt_hour dt_minute dt_second dt_micro t1]. lia. }
  assert (to_micros (clk 0%nat) - to_micros t1 = waited)%Z as Hw by (unfold waited; lia).
  unfold elapsed_hours, total_seconds. rewrite Hw.
  split; intros Hc.
  - by rewrite (proj2 (fgt_false _ _)) by (apply hours_le; lia).
  - by rewrite (proj2 (fgt_spec _ _)) by (apply hours_gt; lia).
Qed.

(** ** Instances *)

Definition sample_clock : clock := fun _ => mkDatetime 2026 1 2 3 4 5 6.
Definition owners : ApprovalStep := mkApprovalStep "data_owner" ["ann"; "bob"] 48 true.
Definition legal : ApprovalStep := mkApprovalStep "legal" [] 24 false.
Definition security : ApprovalStep := mkApprovalStep "security_officer" ["eve"] 48 true.

Lemma approved_chain_signed_witness :
  let ops := [(sample_clock, OpSubmit); (sample_clock, OpApprove "bob"); (sample_clock, OpApprove "ann");
              (sample_clock, OpApprove "eve")] in
  ap_current (approval_run (take 3 ops) (new_approval [owners; legal; security])) = 2%nat /\
  signed (approval_run ops (new_approval [owners; legal; security])) 2.
Proof.
  intros ops. split; [reflexivity|].
  apply (approved_chain_signed [owners; legal; security] ops); [|by exists security; split; [|right]].
  change (Approved ∈ [Approved; Active]). by left.
Defined.

Lemma chain_completes_witness :
  ap_status (approval_run ((sample_clock, OpSubmit) :: map (fun a => (sample_clock, OpApprove a)) ["ann"; "bob"; "eve"])
    (new_approval [owners; legal; security])) = Approved.
Proof.
  apply (chain_completes "anyone" owners [legal; security] sample_clock); [|reflexivity].
  repeat constructor; set_solver.
Defined.

(** Rejected after one of two signatures, submitted again, signed by the other:
    the step is complete, though nobody signed it twice. *)
Lemma rejection_keeps_approvals_witness :
  let s := approval_run [(sample_clock, OpSubmit); (sample_clock, OpApprove "ann")] (new_approval [owners]) in
  let s' := approve sample_clock "bob" (submit sample_clock (reject sample_clock "bob" "wrong table" s)) in
  ap_status s' = Approved \/ ap_status s' = PendingReview /\ (0 < ap_current s')%nat.
Proof.
  intros s. apply (rejection_keeps_approvals sample_clock sample_clock sample_clock "bob" "wrong table" "bob" s owners);
    [reflexivity|reflexivity|set_solver|].
  intros x Hx Hne. apply elem_of_cons in Hx as [->|Hx%list_elem_of_singleton]; [|done]. by left.
Defined.

Lemma check_timeout_spec_witness :
  let s := approval_run [(sample_clock, OpSubmit)] (new_approval [owners]) in
  ap_status (check_timeout (fun _ => mkDatetime 2026 1 5 3 4 5 6) s) = Draft.
Proof.
  intros s. apply (check_timeout_spec (fun _ => mkDatetime 2026 1 5 3 4 5 6) s owners (mkDatetime 2026 1 2 3 4 5 6));
    vm_compute; repeat split; discriminate.
Defined.
