(* ===== verification/SkillGraph.v ===== *)
(** * The dependency graph of skills (skills/dependency_graph.py)

    Adjacency tables in both directions, Kahn's topological sort and the
    three-colour search for a cycle.  Python's recursion limit is not
    modelled: the search recurses at most as deep as there are nodes. *)

From S2P Require Import Prelude PyFloat PyVal PyList.
From stdpp Require Import relations.

(** ** Data *)

Inductive DependencyRole : Type := DataSource | EvidenceProvider | ReportParent | Companion.
Inductive SelectionMode : Type := ModeRequired | ModePreferred | ModeFallback.

Record SkillDependency : Type := mkDependency {
  sd_skill_id : string; sd_linked_skill_id : string; sd_version_constraint : string;
  sd_required : bool; sd_role : DependencyRole; sd_selection_mode : SelectionMode }.

(** The set of nodes is only read through membership and [sorted]. *)
Record SkillDependencyGraph : Type := mkGraph {
  g_adj : list (string * list SkillDependency);
  g_radj : list (string * list SkillDependency);
  g_nodes : list string }.

Definition empty_graph : SkillDependencyGraph := mkGraph [] [] [].

(** ** Construction *)

(** [d.setdefault(k, [])] *)
Definition setdefault {A} (k : string) (d : list (string * list A)) : list (string * list A) :=
  match dlookup k d with Some _ => d | None => dset k [] d end.

(** [d[k].append(x)], the key being there. *)
Definition dappend {A} (k : string) (x : A) (d : list (string * list A)) : list (string * list A) :=
  dset k (get_or (dlookup k d) [] ++ [x]) d.

Definition add_node (skill_id : string) (g : SkillDependencyGraph) : SkillDependencyGraph :=
  mkGraph (setdefault skill_id (g_adj g)) (setdefault skill_id (g_radj g)) (append_new skill_id (g_nodes g)).

Definition add_edge (d : SkillDependency) (g : SkillDependencyGraph) : SkillDependencyGraph :=
  let g := add_node (sd_linked_skill_id d) (add_node (sd_skill_id d) g) in
  mkGraph (dappend (sd_skill_id d) d (g_adj g)) (dappend (sd_linked_skill_id d) d (g_radj g)) (g_nodes g).

(** ** Queries *)

Definition get_edges (g : SkillDependencyGraph) (skill_id : string) : list SkillDependency :=
  get_or (dlookup skill_id (g_adj g)) [].

Definition get_dependencies (g : SkillDependencyGraph) (skill_id : string) (required_only : bool) : list string :=
  let deps := get_or (dlookup skill_id (g_adj g)) [] in
  if required_only then map sd_linked_skill_id (List.filter sd_required deps) else map sd_linked_skill_id deps.

Definition get_dependents (g : SkillDependencyGraph) (skill_id : string) : list string :=
  map sd_skill_id (get_or (dlookup skill_id (g_radj g)) []).

(** ** Topological sort *)

(** One edge into the node just output: its dependent waits for one less. *)
Definition relax (s : result (list (string * Z) * list string)) (d : SkillDependency)
    : result (list (string * Z) * list string) :=
  let! (in_degree, queue) := s in
  match dlookup (sd_skill_id d) in_degree with
  | None => Raise (KeyError (sd_skill_id d))
  | Some n => Ok (dset (sd_skill_id d) (n - 1)%Z in_degree,
                  if (n - 1 =? 0)%Z then queue ++ [sd_skill_id d] else queue)
  end.

Fixpoint kahn_loop (fuel : nat) (g : SkillDependencyGraph) (in_degree : list (string * Z)) (queue order : list string)
    : result (list string) :=
  match queue, fuel with
  | [], _ => Ok order
  | _, O => Raise (OtherError "fuel")
  | node :: queue, S k =>
    let! (in_degree, queue) := fold_left relax (get_or (dlookup node (g_radj g)) []) (Ok (in_degree, queue)) in
    kahn_loop k g in_degree queue (order ++ [node])
  end.

Definition topological_sort (g : SkillDependencyGraph) : result (list string) :=
  let in_degree := map (fun n => (n, py_len (get_or (dlookup n (g_adj g)) []))) (g_nodes g) in
  let queue := py_sorted (List.filter (fun n => (get_or (dlookup n in_degree) 0 =? 0)%Z) (g_nodes g)) in
  kahn_loop (length (g_nodes g)) g in_degree queue [].

(** ** Cycle detection *)

Inductive Color : Type := WHITE | GRAY | BLACK.

(** [path.index(target)] *)
Fixpoint list_index (x : string) (l : list string) : option nat :=
  match l with
  | [] => None
  | y :: l' => if String.eqb x y then Some O else option_map S (list_index x l')
  end.

(** The colours, the path (which a call leaves as it found it unless it finds
    a cycle) and the cycle found. *)
Abbreviation dfs_state := (list (string * Color) * list string * option (list string))%type.

Section scan.
Variable dfs : string -> list (string * Color) -> list string -> result dfs_state.

Fixpoint scan_deps (node : string) (deps : list SkillDependency) (color : list (string * Color)) (path : list string)
    : result dfs_state :=
  match deps with
  | [] => Ok (dset node BLACK color, removelast path, None)
  | d :: deps' =>
    let target := sd_linked_skill_id d in
    match get_or (dlookup target color) WHITE with
    | GRAY =>
      match list_index target path with
      | None => Raise (ValueError "not in list")
      | Some start => Ok (color, path, Some (drop start path ++ [target]))
      end
    | WHITE =>
      let! (color, path, found) := dfs target color path in
      match found with
      | Some c => Ok (color, path, Some c)
      | None => scan_deps node deps' color path
      end
    | BLACK => scan_deps node deps' color path
    end
  end.
End scan.

Fixpoint dfs (fuel : nat) (g : SkillDependencyGraph) (node : string) (color : list (string * Color)) (path : list string)
    : result dfs_state :=
  match fuel with
  | O => Raise (OtherError "fuel")
  | S k => scan_deps (dfs k g) node (get_or (dlookup node (g_adj g)) []) (dset node GRAY color) (path ++ [node])
  end.

Fixpoint detect_loop (g : SkillDependencyGraph) (todo : list string) (color : list (string * Color))
    : result (option (list string)) :=
  match todo with
  | [] => Ok None
  | n :: todo' =>
    match dlookup n color with
    | Some WHITE =>
      let! (color, _, found) := dfs (length (g_nodes g)) g n color [] in
      match found with Some c => Ok (Some c) | None => detect_loop g todo' color end
    | Some _ => detect_loop g todo' color
    | None => Raise (KeyError n)
    end
  end.

Definition detect_cycle (g : SkillDependencyGraph) : result (option (list string)) :=
  detect_loop g (py_sorted (g_nodes g)) (map (fun n => (n, WHITE)) (g_nodes g)).

(** ** What the graph means *)

(** [x] depends on [y]. *)
Definition depends (g : SkillDependencyGraph) (x y : string) : Prop := y ∈ get_dependencies g x false.

Definition acyclic (g : SkillDependencyGraph) : Prop := forall n, ~ tc (depends g) n n.

(** A list without repetition in which every skill comes after everything it
    depends on. *)
Inductive dep_ordered (g : SkillDependencyGraph) : list string -> Prop :=
  | dep_ordered_nil : dep_ordered g []
  | dep_ordered_snoc l x : dep_ordered g l -> x ∉ l -> (forall y, depends g x y -> y ∈ l) ->
      dep_ordered g (l ++ [x]).

(** Consecutive elements depend on one another. *)
Definition walk (g : SkillDependencyGraph) (l : list string) : Prop :=
  forall i x y, l !! i = Some x -> l !! S i = Some y -> depends g x y.

(** A closed walk: the first skill again at the end. *)
Definition is_cycle (g : SkillDependencyGraph) (c : list string) : Prop :=
  exists x l, c = x :: l ++ [x] /\ walk g c.

(** A graph is built by adding nodes and edges. *)
Inductive GraphOp : Type := OpNode (skill_id : string) | OpEdge (d : SkillDependency).

Definition graph_op (g : SkillDependencyGraph) (op : GraphOp) : SkillDependencyGraph :=
  match op with OpNode n => add_node n g | OpEdge d => add_edge d g end.

Definition build_graph (ops : list GraphOp) : SkillDependencyGraph := fold_left graph_op ops empty_graph.

Definition edges_of (ops : list GraphOp) : list SkillDependency :=
  concat (map (fun op => match op with OpNode _ => [] | OpEdge d => [d] end) ops).

(** The tables of a graph, given all its edges in the order they were added. *)
Definition from_edges (es : list SkillDependency) (n : string) : list SkillDependency :=
  List.filter (fun d => String.eqb (sd_skill_id d) n) es.
Definition into_edges (es : list SkillDependency) (n : string) : list SkillDependency :=
  List.filter (fun d => String.eqb (sd_linked_skill_id d) n) es.

Record represents (g : SkillDependencyGraph) (es : list SkillDependency) : Prop := {
  rep_nodup : NoDup (g_nodes g);
  rep_adj n : dlookup n (g_adj g) = if str_in n (g_nodes g) then Some (from_edges es n) else None;
  rep_radj n : dlookup n (g_radj g) = if str_in n (g_nodes g) then Some (into_edges es n) else None;
  rep_ends d : d ∈ es -> sd_skill_id d ∈ g_nodes g /\ sd_linked_skill_id d ∈ g_nodes g }.

(** ** Construction: the tables hold the edges *)

Lemma setdefault_lookup {A} k k' (d : list (string * list A)) :
  dlookup k' (setdefault k d) = if String.eqb k' k then Some (get_or (dlookup k d) []) else dlookup k' d.
Proof.
  unfold setdefault. destruct (dlookup k d) as [l|] eqn:E; cbn [get_or].
  - by destruct (String.eqb_spec k' k) as [->|].
  - apply dlookup_dset.
Qed.

Lemma str_in_append_new x y l : str_in y (append_new x l) = String.eqb y x || str_in y l.
Proof.
  apply eq_true_iff_eq. rewrite orb_true_iff, !str_in_spec, elem_of_append_new, String.eqb_eq. done.
Qed.

Lemma no_edges_from es n : (forall d, d ∈ es -> sd_skill_id d <> n) -> from_edges es n = [].
Proof.
  induction es as [|d es IH]; intros H; [done|]. unfold from_edges in *. cbn [List.filter].
  destruct (String.eqb_spec (sd_skill_id d) n) as [E|]; [exfalso; by apply (H d); [left|]|].
  apply IH. intros e He. apply H. by right.
Qed.

Lemma no_edges_into es n : (forall d, d ∈ es -> sd_linked_skill_id d <> n) -> into_edges es n = [].
Proof.
  induction es as [|d es IH]; intros H; [done|]. unfold into_edges in *. cbn [List.filter].
  destruct (String.eqb_spec (sd_linked_skill_id d) n) as [E|]; [exfalso; by apply (H d); [left|]|].
  apply IH. intros e He. apply H. by right.
Qed.

Lemma add_node_represents n g es : represents g es -> represents (add_node n g) es.
Proof.
  intros [Hnd Ha Hr He]. split; cbn [add_node g_nodes g_adj g_radj].
  - by apply append_new_NoDup.
  - intros m. rewrite setdefault_lookup, str_in_append_new, !Ha.
    destruct (String.eqb_spec m n) as [->|]; cbn [orb]; [|done].
    destruct (str_in n (g_nodes g)) eqn:E; cbn [get_or]; [done|]. f_equal. symmetry. apply no_edges_from.
    intros d Hd <-. apply str_in_false in E. by apply E, He.
  - intros m. rewrite setdefault_lookup, str_in_append_new, !Hr.
    destruct (String.eqb_spec m n) as [->|]; cbn [orb]; [|done].
    destruct (str_in n (g_nodes g)) eqn:E; cbn [get_or]; [done|]. f_equal. symmetry. apply no_edges_into.
    intros d Hd <-. apply str_in_false in E. by apply E, He.
  - intros d Hd. rewrite !elem_of_append_new. by destruct (He d Hd); auto.
Qed.

Lemma add_edge_represents d g es : represents g es -> represents (add_edge d g) (es ++ [d]).
Proof.
  intros H. unfold add_edge.
  pose proof (add_node_represents (sd_linked_skill_id d) _ _ (add_node_represents (sd_skill_id d) _ _ H)) as [Hnd Ha Hr He].
  set (g' := add_node _ (add_node _ g)) in *.
  assert (sd_skill_id d ∈ g_nodes g' /\ sd_linked_skill_id d ∈ g_nodes g') as [H1 H2]
    by (subst g'; cbn [add_node g_nodes]; rewrite !elem_of_append_new; auto).
  pose proof (proj2 (str_in_spec _ _) H1) as S1. pose proof (proj2 (str_in_spec _ _) H2) as S2.
  split; cbn [g_nodes g_adj g_radj]; [done| | |].
  - intros m. unfold dappend, from_edges. rewrite dlookup_dset, !Ha, List.filter_app. cbn [List.filter]. rewrite S1.
    rewrite (String.eqb_sym (sd_skill_id d)). destruct (String.eqb_spec m (sd_skill_id d)) as [->|]; cbn [get_or].
    + by rewrite S1.
    + by rewrite app_nil_r.
  - intros m. unfold dappend, into_edges. rewrite dlookup_dset, !Hr, List.filter_app. cbn [List.filter]. rewrite S2.
    rewrite (String.eqb_sym (sd_linked_skill_id d)). destruct (String.eqb_spec m (sd_linked_skill_id d)) as [->|]; cbn [get_or].
    + by rewrite S2.
    + by rewrite app_nil_r.
  - intros e [Hin| ->%list_elem_of_singleton]%elem_of_app; [by apply He|done].
Qed.

Lemma build_graph_represents ops : represents (build_graph ops) (edges_of ops).
Proof.
  assert (forall g es, represents g es ->
    represents (fold_left graph_op ops g) (es ++ edges_of ops)) as H.
  { unfold edges_of. induction ops as [|op ops IH]; intros g es H; cbn [fold_left map concat]; [by rewrite app_nil_r|].
    rewrite app_assoc. apply IH. destruct op as [n|d]; cbn [graph_op].
    - rewrite app_nil_r. by apply add_node_represents.
    - by apply add_edge_represents. }
  apply (H _ []). split; cbn; [constructor|done|done|]. by intros d ?%not_elem_of_nil.
Qed.

(** ** Dependencies of a represented graph *)

Section represented.
Context (g : SkillDependencyGraph) (es : list SkillDependency) (Hrep : represents g es).

Lemma get_edges_rep n : get_edges g n = from_edges es n.
Proof.
  unfold get_edges. rewrite (rep_adj _ _ Hrep). destruct (str_in n (g_nodes g)) eqn:E; [done|]. cbn. symmetry.
  apply no_edges_from. intros d Hd <-. apply str_in_false in E. by apply E, (rep_ends _ _ Hrep d).
Qed.

Lemma radj_rep n : get_or (dlookup n (g_radj g)) [] = into_edges es n.
Proof.
  rewrite (rep_radj _ _ Hrep). destruct (str_in n (g_nodes g)) eqn:E; [done|]. cbn. symmetry.
  apply no_edges_into. intros d Hd <-. apply str_in_false in E. by apply E, (rep_ends _ _ Hrep d).
Qed.

Lemma depends_spec x y :
  depends g x y <-> exists d, d ∈ es /\ sd_skill_id d = x /\ sd_linked_skill_id d = y.
Proof.
  unfold depends, get_dependencies. change (get_or (dlookup x (g_adj g)) []) with (get_edges g x).
  rewrite get_edges_rep. unfold from_edges. rewrite list_elem_of_In, in_map_iff. setoid_rewrite List.filter_In.
  setoid_rewrite list_elem_of_In. setoid_rewrite String.eqb_eq. naive_solver.
Qed.

Lemma depends_nodes x y : depends g x y -> x ∈ g_nodes g /\ y ∈ g_nodes g.
Proof. rewrite depends_spec. intros (d & Hd & <- & <-). by apply (rep_ends _ _ Hrep). Qed.

(** ** Ordered lists and acyclicity *)

Lemma dep_ordered_closed l : dep_ordered g l -> forall x y, x ∈ l -> depends g x y -> y ∈ l.
Proof.
  induction 1 as [|l z _ IH _ Hz]; intros x y Hx Hd; [by apply not_elem_of_nil in Hx|].
  apply elem_of_app. apply elem_of_app in Hx as [Hx| ->%list_elem_of_singleton]; left; eauto.
Qed.

Lemma dep_ordered_tc l : dep_ordered g l -> forall x y, tc (depends g) x y -> x ∈ l -> y ∈ l.
Proof. intros Hl x y H. induction H; intros Hx; eauto using dep_ordered_closed. Qed.

Lemma dep_ordered_acyclic l : dep_ordered g l -> forall x, x ∈ l -> ~ tc (depends g) x x.
Proof.
  induction 1 as [|l z Hl IH Hn Hz]; intros x Hx Hc; [by apply not_elem_of_nil in Hx|].
  apply elem_of_app in Hx as [Hx| ->%list_elem_of_singleton]; [by eapply IH|].
  apply Hn. inversion Hc as [? ? Hd|? y ? Hd Ht]; subst; [by apply Hz|].
  eapply dep_ordered_tc; [exact Hl|exact Ht|]. by apply Hz.
Qed.

Lemma dep_ordered_NoDup l : dep_ordered g l -> NoDup l.
Proof.
  induction 1 as [|l z _ IH Hn _]; [constructor|]. apply NoDup_app. split_and!; [done| |apply NoDup_singleton].
  by intros x Hx ->%list_elem_of_singleton.
Qed.

Lemma all_ordered_acyclic l : dep_ordered g l -> g_nodes g ⊆ l -> acyclic g.
Proof.
  intros Hl Hsub x Hc. eapply dep_ordered_acyclic; [exact Hl| |exact Hc]. apply Hsub.
  inversion Hc as [? ? Hd|? y ? Hd _]; subst; apply depends_nodes in Hd as [? ?]; done.
Qed.

(** A cycle as the search reports it refutes acyclicity. *)
Lemma walk_tc l : forall x y, walk g (x :: l ++ [y]) -> tc (depends g) x y.
Proof.
  induction l as [|z l IH]; intros x y Hw.
  - apply tc_once. by apply (Hw 0%nat).
  - eapply tc_l; [by apply (Hw 0%nat)|]. apply IH. intros i a b Ha Hb. by apply (Hw (S i)).
Qed.

Lemma cycle_not_acyclic c : is_cycle g c -> ~ acyclic g.
Proof. intros (x & l & -> & Hw) H. by apply (H x), (walk_tc l). Qed.
End represented.

(** ** Kahn's algorithm *)

Section kahn.
Context (g : SkillDependencyGraph) (es : list SkillDependency) (Hrep : represents g es).

(** How many edges of a list leave [n]. *)
Definition occ (n : string) (ds : list SkillDependency) : nat :=
  length (List.filter (fun d => String.eqb (sd_skill_id d) n) ds).

(** The table of in-degrees holds the counts [c]. *)
Definition degrees (deg : list (string * Z)) (c : string -> nat) : Prop :=
  forall n, n ∈ g_nodes g -> dlookup n deg = Some (Z.of_nat (c n)).

(** Relaxing edges lowers the counts and queues the nodes that reach zero. *)
Lemma relax_all ds : forall deg queue c,
  (forall d, d ∈ ds -> sd_skill_id d ∈ g_nodes g) -> degrees deg c -> (forall n, (occ n ds <= c n)%nat) ->
  exists deg' q', fold_left relax ds (Ok (deg, queue)) = Ok (deg', queue ++ q') /\
    degrees deg' (fun n => c n - occ n ds)%nat /\ NoDup q' /\
    forall n, n ∈ q' <-> (0 < occ n ds)%nat /\ c n = occ n ds.
Proof.
  induction ds as [|d ds IH]; intros deg queue c Hin Hdeg Hocc.
  { exists deg, []. rewrite app_nil_r. split_and!; [done| |constructor|].
    - intros n Hn. rewrite Hdeg by done. cbn. f_equal. lia.
    - intros n. cbn. split; [by intros ?%not_elem_of_nil|lia]. }
  set (x := sd_skill_id d). assert (x ∈ g_nodes g) as Hx by (apply Hin; by left).
  assert (forall n, occ n (d :: ds) = ((if String.eqb n x then 1 else 0) + occ n ds)%nat) as Ho.
  { intros n. unfold occ. cbn [List.filter]. fold x. rewrite String.eqb_sym. by destruct (String.eqb n x). }
  assert (1 <= c x)%nat as Hc1 by (specialize (Hocc x); rewrite Ho, String.eqb_refl in Hocc; lia).
  set (c' := fun n => (c n - if String.eqb n x then 1 else 0)%nat).
  set (deg1 := dset x (Z.of_nat (c x) - 1)%Z deg).
  set (queue1 := if (Z.of_nat (c x) - 1 =? 0)%Z then queue ++ [x] else queue).
  destruct (IH deg1 queue1 c') as (deg' & q' & Hf & Hd & Hnd & Hq).
  { intros e He. apply Hin. by right. }
  { intros n Hn. subst deg1 c'. cbn beta. rewrite dlookup_dset. destruct (String.eqb_spec n x) as [->|].
    - f_equal. lia.
    - rewrite Hdeg by done. f_equal. lia. }
  { intros n. specialize (Hocc n). rewrite Ho in Hocc. unfold c'. destruct (String.eqb n x); lia. }
  exists deg', (if (Z.of_nat (c x) - 1 =? 0)%Z then x :: q' else q').
  assert (x ∈ q' -> c x <> 1%nat) as Hxq.
  { intros [H1 H2]%Hq. unfold c' in H2. rewrite String.eqb_refl in H2. lia. }
  split_and!.
  - cbn [fold_left]. assert (relax (Ok (deg, queue)) d = Ok (deg1, queue1)) as ->.
    { cbn [relax rbind]. change (sd_skill_id d) with x. by rewrite Hdeg. }
    rewrite Hf. unfold queue1. destruct (_ =? _)%Z; [by rewrite <- app_assoc|done].
  - intros n Hn. rewrite Hd, Ho by done. f_equal. unfold c'. lia.
  - destruct (Z.eqb_spec (Z.of_nat (c x) - 1) 0) as [E|]; [|done]. constructor; [|done].
    intros Hxin. apply (Hxq Hxin). lia.
  - intros n. rewrite Ho. specialize (Hocc n). rewrite Ho in Hocc.
    assert (n ∈ q' <-> (0 < occ n ds)%nat /\ c n = ((if String.eqb n x then 1 else 0) + occ n ds)%nat) as Hq'.
    { rewrite Hq. unfold c'. destruct (String.eqb n x); lia. }
    destruct (Z.eqb_spec (Z.of_nat (c x) - 1) 0) as [E|E]; [rewrite elem_of_cons|]; rewrite Hq';
      (destruct (String.eqb_spec n x) as [->|]; [|naive_solver lia]).
    + split; [|by left]. intros _. assert (occ x ds = 0)%nat by lia. lia.
    + lia.
Qed.

(** The edges of [n] whose target is not output yet. *)
Definition waiting (order : list string) (n : string) : nat :=
  length (List.filter (fun d => negb (str_in (sd_linked_skill_id d) order)) (from_edges es n)).

Lemma waiting_zero order n : waiting order n = 0%nat <-> forall y, depends g n y -> y ∈ order.
Proof.
  unfold waiting. setoid_rewrite (depends_spec g es Hrep). split.
  - intros H%length_zero_iff_nil y (d & Hd & Hs & Hl). apply str_in_spec.
    destruct (str_in y order) eqn:E; [done|]. exfalso. apply (in_nil (a := d)). rewrite <- H.
    apply List.filter_In. rewrite Hl, E. split; [|done]. apply List.filter_In. rewrite <- list_elem_of_In.
    by rewrite Hs, String.eqb_refl.
  - intros H. apply length_zero_iff_nil. destruct (List.filter _ _) as [|d l] eqn:E; [done|]. exfalso.
    assert (In d (d :: l)) as Hin by (by left). rewrite <- E in Hin. apply List.filter_In in Hin as [Hin Hn].
    apply List.filter_In in Hin as [Hin Hs%String.eqb_eq]. apply negb_true_iff, str_in_false in Hn. apply Hn.
    apply H. exists d. by rewrite list_elem_of_In.
Qed.

Lemma waiting_snoc order x n : x ∉ order ->
  waiting order n = (waiting (order ++ [x]) n + occ n (into_edges es x))%nat.
Proof.
  intros Hx%str_in_false. unfold waiting, occ, into_edges, from_edges. clear Hrep.
  set (p := fun d => negb (str_in (sd_linked_skill_id d) order)).
  set (q := fun d => negb (str_in (sd_linked_skill_id d) (order ++ [x]))).
  assert (forall d, p d = if String.eqb (sd_linked_skill_id d) x then true else q d) as Hp.
  { intros d. unfold p, q, str_in. rewrite existsb_app. cbn [existsb]. rewrite orb_false_r.
    destruct (String.eqb_spec (sd_linked_skill_id d) x) as [->|]; [|by rewrite orb_false_r]. unfold str_in in Hx. by rewrite Hx. }
  assert (forall d, sd_linked_skill_id d = x -> q d = false) as Hq.
  { intros d Hd. unfold q. apply negb_false_iff, str_in_spec. rewrite Hd. set_solver. }
  clearbody p q. induction es as [|d ds IH]; [done|]. cbn [List.filter].
  destruct (String.eqb_spec (sd_skill_id d) n) as [Hs|Hs]; cbn [List.filter]; rewrite ?Hp;
    destruct (String.eqb_spec (sd_linked_skill_id d) x) as [Hl|Hl]; cbn [List.filter];
    rewrite ?(Hq _ Hl), ?(proj2 (String.eqb_eq _ _) Hs), ?(proj2 (String.eqb_neq _ _) Hs); cbn [length]; [lia| |lia..].
  destruct (q d); cbn [length]; lia.
Qed.

(** The invariant of the loop: the output is ordered, output and queue are the
    nodes that wait for nothing, the table counts what each node waits for. *)
Record kahn_inv (deg : list (string * Z)) (queue order : list string) : Prop := {
  ki_ordered : dep_ordered g order;
  ki_nodup : NoDup (order ++ queue);
  ki_nodes : order ++ queue ⊆ g_nodes g;
  ki_degrees : degrees deg (waiting order);
  ki_ready n : n ∈ g_nodes g -> (waiting order n = 0%nat <-> n ∈ order ++ queue) }.

Lemma kahn_step deg x queue order : kahn_inv deg (x :: queue) order ->
  exists deg' queue', fold_left relax (get_or (dlookup x (g_radj g)) []) (Ok (deg, queue)) = Ok (deg', queue') /\
    kahn_inv deg' queue' (order ++ [x]).
Proof.
  intros [Ho Hnd Hsub Hdeg Hready]. rewrite (radj_rep g es Hrep).
  assert (x ∉ order) as Hx by (apply NoDup_app in Hnd as (_ & H & _); intros Hin; apply (H x Hin); by left).
  assert (x ∈ g_nodes g) as Hxn by (apply Hsub; set_solver).
  pose proof (waiting_snoc order x) as Hw.
  assert (forall n, n ∈ order ++ x :: queue -> occ n (into_edges es x) = 0%nat /\ waiting (order ++ [x]) n = 0%nat) as Hz.
  { intros n Hn. assert (waiting order n = 0%nat) as H0 by (apply Hready; auto). rewrite (Hw n Hx) in H0. lia. }
  destruct (relax_all (into_edges es x) deg queue (waiting order)) as (deg' & q' & Hf & Hd & Hq & Hqn).
  { intros d [Hin _]%list_elem_of_In%List.filter_In. by apply (rep_ends _ _ Hrep), list_elem_of_In. }
  { done. }
  { intros n. rewrite (Hw n Hx). lia. }
  exists deg', (queue ++ q'). split; [done|]. split.
  - constructor; [done..|]. apply waiting_zero, Hready; [done|]. set_solver.
  - replace ((order ++ [x]) ++ queue ++ q') with ((order ++ x :: queue) ++ q') by (by rewrite <- !app_assoc).
    apply NoDup_app. split_and!; [done| |done].
    intros n Hn%Hz Hq'%Hqn. lia.
  - replace ((order ++ [x]) ++ queue ++ q') with ((order ++ x :: queue) ++ q') by (by rewrite <- !app_assoc).
    intros n [Hn|Hn]%elem_of_app; [by apply Hsub|]. apply Hqn in Hn as [Hn _].
    unfold occ in Hn. destruct (List.filter _ _) as [|d l] eqn:E; [cbn in Hn; lia|].
    assert (In d (d :: l)) as Hin by (by left). rewrite <- E in Hin.
    apply List.filter_In in Hin as [[Hin _]%List.filter_In <-%String.eqb_eq].
    by apply (rep_ends _ _ Hrep), list_elem_of_In.
  - intros n Hn. rewrite Hd by done. do 2 f_equal. rewrite (Hw n Hx). lia.
  - intros n Hn. replace ((order ++ [x]) ++ queue ++ q') with ((order ++ x :: queue) ++ q') by (by rewrite <- !app_assoc).
    rewrite elem_of_app, Hqn. specialize (Hw n Hx). specialize (Hready n Hn). specialize (Hz n). split.
    + intros H. destruct (decide (occ n (into_edges es x) = 0%nat)); [left; apply Hready; lia|right; lia].
    + intros [H|H]; [by apply Hz|lia].
Qed.

Lemma kahn_loop_sound fuel : forall deg queue order,
  kahn_inv deg queue order -> (length (g_nodes g) <= length order + fuel)%nat ->
  exists order' deg', kahn_loop fuel g deg queue order = Ok order' /\ kahn_inv deg' [] order'.
Proof.
  induction fuel as [|k IH]; intros deg [|x queue] order Hinv Hfuel; cbn [kahn_loop]; eauto.
  - exfalso. pose proof (NoDup_submseteq _ _ (ki_nodup _ _ _ Hinv) (ki_nodes _ _ _ Hinv)) as Hs%submseteq_length.
    rewrite List.length_app in Hs. cbn in Hs. lia.
  - destruct (kahn_step _ _ _ _ Hinv) as (deg' & queue' & -> & Hinv'). cbn [rbind].
    apply IH; [done|]. rewrite List.length_app. cbn. lia.
Qed.

Lemma kahn_start :
  let in_degree := map (fun n => (n, py_len (get_or (dlookup n (g_adj g)) []))) (g_nodes g) in
  kahn_inv in_degree (py_sorted (List.filter (fun n => (get_or (dlookup n in_degree) 0 =? 0)%Z) (g_nodes g))) [].
Proof.
  set (deg := map _ _). cbn zeta.
  assert (degrees deg (waiting [])) as Hdeg.
  { intros n Hn. unfold deg. rewrite dlookup_map_keys by done.
    change (get_or (dlookup n (g_adj g)) []) with (get_edges g n). rewrite (get_edges_rep g es Hrep).
    unfold py_len, waiting. do 3 f_equal. symmetry. by apply List.forallb_filter_id, forallb_true_forall. }
  split; cbn [app].
  - constructor.
  - rewrite py_sorted_perm. apply NoDup_ListNoDup, List.NoDup_filter, NoDup_ListNoDup, (rep_nodup _ _ Hrep).
  - intros n. rewrite py_sorted_perm. by intros [? _]%list_elem_of_In%List.filter_In%and_comm%and_comm; apply list_elem_of_In.
  - done.
  - intros n Hn. rewrite py_sorted_perm, list_elem_of_In, List.filter_In, <- list_elem_of_In, (Hdeg n Hn). cbn [get_or].
    rewrite Z.eqb_eq. split; [intros ->; done|]. intros [_ H]. lia.
Qed.

(** The sort ends with an ordered list of exactly the nodes whose
    dependencies it holds. *)
Lemma topological_sort_ok : exists order, topological_sort g = Ok order /\
  dep_ordered g order /\ order ⊆ g_nodes g /\
  forall n, n ∈ g_nodes g -> (n ∈ order <-> forall y, depends g n y -> y ∈ order).
Proof.
  destruct (kahn_loop_sound (length (g_nodes g)) _ _ _ kahn_start) as (order & deg & Hl & Hinv); [cbn; lia|].
  exists order. split; [exact Hl|]. destruct Hinv as [Ho _ Hsub _ Hready]. rewrite app_nil_r in *.
  split_and!; [done..|]. intros n Hn. by rewrite <- (Hready n Hn), waiting_zero.
Qed.
End kahn.

(** ** The three-colour search *)

Section dfs.
Context (g : SkillDependencyGraph) (es : list SkillDependency) (Hrep : represents g es).

(** How many nodes are still white. *)
Definition is_white (color : list (string * Color)) (n : string) : bool :=
  match dlookup n color with Some WHITE => true | _ => false end.

Definition whites (color : list (string * Color)) : nat := length (List.filter (is_white color) (g_nodes g)).

(** The invariant: every node has a colour, the gray ones are the path, which
    follows dependencies, and the black ones can be listed in order. *)
Record dfs_inv (color : list (string * Color)) (path : list string) : Prop := {
  di_nodes n : n ∈ g_nodes g <-> dlookup n color <> None;
  di_gray n : dlookup n color = Some GRAY <-> n ∈ path;
  di_nodup : NoDup path;
  di_walk : walk g path;
  di_black : exists fin, dep_ordered g fin /\ forall n, dlookup n color = Some BLACK <-> n ∈ fin }.

Lemma walk_snoc l y : walk g l -> (forall x, last l = Some x -> depends g x y) -> walk g (l ++ [y]).
Proof.
  intros Hw Hy i a b Ha Hb. pose proof (lookup_lt_Some _ _ _ Hb) as Hlt.
  rewrite List.length_app in Hlt. cbn in Hlt.
  rewrite lookup_app_l in Ha by lia. destruct (decide (S i < length l)%nat).
  - rewrite lookup_app_l in Hb by lia. by apply (Hw i).
  - replace (S i) with (length l) in Hb by lia. rewrite lookup_app_r, Nat.sub_diag in Hb by lia.
    injection Hb as <-. apply Hy. rewrite last_lookup. by replace (Nat.pred (length l)) with i by lia.
Qed.

Lemma whites_gray color n : is_white color n = true -> n ∈ g_nodes g ->
  (S (whites (dset n GRAY color)) <= whites color)%nat.
Proof.
  intros Hn Hin. apply (length_filter_strict _ _ _ n); [|done| |done].
  - intros m. unfold is_white. rewrite dlookup_dset. by destruct (String.eqb m n).
  - unfold is_white. by rewrite dlookup_dset_eq.
Qed.

Lemma whites_mono color color' :
  (forall n, dlookup n color' = Some WHITE -> dlookup n color = Some WHITE) -> (whites color' <= whites color)%nat.
Proof.
  intros H. apply length_filter_mono. intros n. unfold is_white. specialize (H n).
  destruct (dlookup n color') as [[]|]; try done. by rewrite H.
Qed.

(** What a call promises: a genuine cycle, or the same path with [node] and
    nothing gray added to the black nodes. *)
Definition dfs_post (color : list (string * Color)) (path : list string) (node : string) (r : dfs_state) : Prop :=
  match r with
  | (_, _, Some c) => is_cycle g c
  | (color', path', None) =>
    path' = path /\ dfs_inv color' path /\ dlookup node color' = Some BLACK /\
    (forall n, dlookup n color = Some BLACK -> dlookup n color' = Some BLACK) /\
    (forall n, dlookup n color' = Some WHITE -> dlookup n color = Some WHITE)
  end.

Lemma list_index_spec x l : x ∈ l -> exists i, list_index x l = Some i /\ l !! i = Some x.
Proof.
  induction l as [|y l IH]; [by intros ?%not_elem_of_nil|]. intros H. cbn [list_index].
  destruct (String.eqb_spec x y) as [->|Hne]; [by exists 0%nat|].
  apply elem_of_cons in H as [?|H]; [done|]. destruct (IH H) as (i & -> & Hi). by exists (S i).
Qed.

Lemma back_edge_cycle path node target start :
  walk g path -> last path = Some node -> depends g node target -> path !! start = Some target ->
  is_cycle g (drop start path ++ [target]).
Proof.
  intros Hw Hlast Hd Hs. assert (exists l, drop start path = target :: l) as [l Hl] by (rewrite (drop_S _ _ _ Hs); eauto).
  exists target, l. split; [by rewrite Hl|]. apply walk_snoc.
  - intros i a b Ha Hb. rewrite lookup_drop in Ha, Hb. apply (Hw (start + i)%nat); [done|].
    by replace (S (start + i))%nat with (start + S i)%nat by lia.
  - intros x Hx. rewrite <- (take_drop start path), Hl, last_app_cons, <- Hl, Hx in Hlast. by injection Hlast as ->.
Qed.

(** Leaving a node all of whose dependencies are black. *)
Lemma finish_node color path node : dfs_inv color (path ++ [node]) ->
  (forall y, depends g node y -> dlookup y color = Some BLACK) ->
  dfs_inv (dset node BLACK color) path.
Proof.
  intros [Hn Hg Hnd Hw (fin & Hf & Hb)] Hdep.
  apply NoDup_app in Hnd as (Hnd & Hnin & _).
  assert (node ∉ path) as Hnode by (intros Hin; apply (Hnin _ Hin); by left).
  assert (dlookup node color = Some GRAY) as Hgray by (apply Hg; set_solver). split.
  - intros n. rewrite dlookup_dset. destruct (String.eqb_spec n node) as [->|]; [|apply Hn].
    rewrite Hn, Hgray. naive_solver.
  - intros n. rewrite dlookup_dset. destruct (String.eqb_spec n node) as [->|]; [naive_solver|].
    rewrite Hg, elem_of_app, list_elem_of_singleton. naive_solver.
  - done.
  - intros i x y Hx Hy. apply (Hw i); by apply lookup_app_l_Some.
  - exists (fin ++ [node]). split.
    + constructor; [done| |]; [intros Hin%Hb; congruence|]. intros y Hy. by apply Hb, Hdep.
    + intros n. rewrite dlookup_dset, elem_of_app, list_elem_of_singleton.
      destruct (String.eqb_spec n node) as [->|]; [naive_solver|]. rewrite Hb. naive_solver.
Qed.

(** Entering a white node. *)
Lemma enter_node color path node : dfs_inv color path -> dlookup node color = Some WHITE ->
  (forall x, last path = Some x -> depends g x node) -> dfs_inv (dset node GRAY color) (path ++ [node]).
Proof.
  intros [Hn Hg Hnd Hw (fin & Hf & Hb)] Hwh Hlast.
  assert (node ∉ path) as Hnode by (intros Hin%Hg; congruence). split.
  - intros n. rewrite dlookup_dset. destruct (String.eqb_spec n node) as [->|]; [|apply Hn].
    rewrite Hn, Hwh. naive_solver.
  - intros n. rewrite dlookup_dset, elem_of_app, list_elem_of_singleton.
    destruct (String.eqb_spec n node) as [->|]; [naive_solver|]. rewrite Hg. naive_solver.
  - apply NoDup_app. split_and!; [done| |apply NoDup_singleton]. by intros x Hx ->%list_elem_of_singleton.
  - by apply walk_snoc.
  - exists fin. split; [done|]. intros n. rewrite dlookup_dset.
    destruct (String.eqb_spec n node) as [->|]; [|apply Hb]. split; [done|]. intros Hin%Hb. congruence.
Qed.

(** What a call of the search needs. *)
Definition dfs_spec (search : string -> list (string * Color) -> list string -> result dfs_state) (k : nat) : Prop :=
  forall node color path, dfs_inv color path -> dlookup node color = Some WHITE ->
    (forall x, last path = Some x -> depends g x node) -> (whites color <= k)%nat ->
    exists r, search node color path = Ok r /\ dfs_post color path node r.

Lemma scan_deps_ok search k node path : dfs_spec search k -> forall deps color,
  (forall d, d ∈ deps -> depends g node (sd_linked_skill_id d)) ->
  (forall y, depends g node y -> y ∈ map sd_linked_skill_id deps \/ dlookup y color = Some BLACK) ->
  dfs_inv color (path ++ [node]) -> (whites color <= k)%nat ->
  exists r, scan_deps search node deps color (path ++ [node]) = Ok r /\ dfs_post color path node r.
Proof.
  intros Hs. induction deps as [|d deps IH]; intros color Hdep Hcov Hinv Hk; cbn [scan_deps].
  { eexists. split; [done|]. rewrite removelast_last. cbn. split_and!; [done| |by rewrite dlookup_dset_eq| |].
    - apply finish_node; [done|]. intros y Hy. destruct (Hcov y Hy) as [Hn|?]; [by apply not_elem_of_nil in Hn|done].
    - intros n Hn. rewrite dlookup_dset. by destruct (String.eqb n node).
    - intros n. rewrite dlookup_dset. by destruct (String.eqb n node). }
  set (target := sd_linked_skill_id d).
  assert (depends g node target) as Hd by (apply Hdep; by left).
  assert (forall e, e ∈ deps -> depends g node (sd_linked_skill_id e)) as Hdep' by (intros e He; apply Hdep; by right).
  assert (forall color', (forall n, dlookup n color = Some BLACK -> dlookup n color' = Some BLACK) ->
    dlookup target color' = Some BLACK ->
    forall y, depends g node y -> y ∈ map sd_linked_skill_id deps \/ dlookup y color' = Some BLACK) as Hcov'.
  { intros color' Hm Ht y Hy. destruct (Hcov y Hy) as [[->|?]%elem_of_cons|?]; auto. }
  destruct (dlookup target color) as [c|] eqn:Ec.
  2:{ exfalso. apply (depends_nodes g es Hrep) in Hd as [_ Ht]. by apply (di_nodes _ _ Hinv) in Ht. }
  cbn [get_or]. destruct c.
  - destruct (Hs target color (path ++ [node]) Hinv Ec) as ([[color1 path1] [c|]] & Hr & Hpost); [|done| |].
    { rewrite last_snoc. by intros x [= <-]. }
    { rewrite Hr. cbn [rbind]. eauto. }
    destruct Hpost as (-> & Hinv1 & Hb1 & Hm1 & Hw1). rewrite Hr. cbn [rbind].
    destruct (IH color1) as (r & Hr2 & Hp2); [done|by apply Hcov'|done| |].
    { pose proof (whites_mono color color1 Hw1). lia. }
    exists r. split; [done|]. destruct r as [[color2 path2] [c|]]; [done|].
    destruct Hp2 as (? & ? & ? & ? & ?). split_and!; auto.
  - destruct (list_index_spec target (path ++ [node])) as (i & -> & Hi); [by apply (di_gray _ _ Hinv)|].
    eexists. split; [done|]. cbn. eapply back_edge_cycle; [by apply (di_walk _ _ Hinv)|by rewrite last_snoc|done|done].
  - apply IH; [done|by apply Hcov'|done|done].
Qed.

Lemma dfs_ok k : dfs_spec (dfs k g) k.
Proof.
  induction k as [|k IH]; intros node color path Hinv Hw Hlast Hk.
  all: assert (node ∈ g_nodes g) as Hn by (apply (di_nodes _ _ Hinv); by rewrite Hw).
  all: pose proof (whites_gray color node) as Hg; unfold is_white in Hg; rewrite Hw in Hg; specialize (Hg eq_refl Hn).
  { lia. }
  cbn [dfs]. set (color1 := dset node GRAY color) in *.
  destruct (scan_deps_ok (dfs k g) k node path IH (get_edges g node) color1) as (r & Hr & Hp).
  - intros d Hd. unfold depends, get_dependencies. by apply list_elem_of_fmap_2.
  - intros y Hy. by left.
  - by apply enter_node.
  - lia.
  - exists r. split; [exact Hr|]. destruct r as [[color2 path2] [c|]]; [done|].
    destruct Hp as (-> & Hinv2 & Hb & Hm & Hwh). unfold color1 in *. split_and!; auto.
    + intros n Hnb. apply Hm. rewrite dlookup_dset. destruct (String.eqb_spec n node) as [->|]; [congruence|done].
    + intros n Hnw%Hwh. rewrite dlookup_dset in Hnw. by destruct (String.eqb n node).
Qed.

Lemma detect_loop_ok todo : forall color, dfs_inv color [] -> todo ⊆ g_nodes g ->
  exists r, detect_loop g todo color = Ok r /\
    match r with
    | Some c => is_cycle g c
    | None => exists fin, dep_ordered g fin /\ todo ⊆ fin /\ forall n, dlookup n color = Some BLACK -> n ∈ fin
    end.
Proof.
  induction todo as [|n todo IH]; intros color Hinv Hsub; cbn [detect_loop].
  { exists None. split; [done|]. destruct (di_black _ _ Hinv) as (fin & Hf & Hb). exists fin.
    split_and!; [done|by intros x ?%not_elem_of_nil|]. intros x. apply Hb. }
  assert (todo ⊆ g_nodes g) as Hsub' by set_solver.
  destruct (dlookup n color) as [[]|] eqn:E.
  - destruct (dfs_ok (length (g_nodes g)) n color [] Hinv E) as ([[color1 path1] [c|]] & Hr & Hpost);
      [done| | |]; [by apply List.filter_length_le|by rewrite Hr; eauto|].
    destruct Hpost as (-> & Hinv1 & Hb1 & Hm1 & _). rewrite Hr. cbn [rbind].
    destruct (IH color1 Hinv1 Hsub') as ([c|] & -> & Hc); eauto. eexists. split; [done|].
    destruct Hc as (fin & Hf & Ht & Hb). exists fin. split_and!; auto. set_solver.
  - exfalso. apply (di_gray _ _ Hinv) in E. by apply not_elem_of_nil in E.
  - destruct (IH color Hinv Hsub') as ([c|] & -> & Hc); eauto. eexists. split; [done|].
    destruct Hc as (fin & Hf & Ht & Hb). exists fin. split_and!; auto. set_solver.
  - exfalso. by apply (di_nodes _ _ Hinv n) in E; [|set_solver].
Qed.

(** The search ends, with a cycle or with an ordered list of all nodes. *)
Lemma detect_cycle_ok : exists r, detect_cycle g = Ok r /\
  match r with Some c => is_cycle g c | None => exists fin, dep_ordered g fin /\ g_nodes g ⊆ fin end.
Proof.
  assert (forall n, dlookup n (map (fun n => (n, WHITE)) (g_nodes g)) = if str_in n (g_nodes g) then Some WHITE else None) as Hl.
  { intros n. destruct (str_in n (g_nodes g)) eqn:E.
    - apply (dlookup_map_keys (fun _ => WHITE)). by apply str_in_spec.
    - apply (dlookup_map_none (fun _ => WHITE)). by apply str_in_false. }
  destruct (detect_loop_ok (py_sorted (g_nodes g)) (map (fun n => (n, WHITE)) (g_nodes g))) as ([c|] & Hr & Hp).
  - split.
    + intros n. rewrite Hl, <- str_in_spec. by destruct (str_in n (g_nodes g)).
    + intros n. rewrite Hl. split; [by destruct (str_in _ _)|by intros ?%not_elem_of_nil].
    + constructor.
    + by intros i x y Hx.
    + exists []. split; [constructor|]. intros n. rewrite Hl. split; [by destruct (str_in _ _)|by intros ?%not_elem_of_nil].
  - intros n. by rewrite py_sorted_perm.
  - by exists (Some c).
  - exists None. split; [done|]. destruct Hp as (fin & Hf & Ht & _). exists fin. split; [done|].
    intros n Hn. apply Ht. by rewrite py_sorted_perm.
Qed.
End dfs.

(** ** Properties *)

(** Whatever edges a graph was given, the sort ends; its output repeats
    nothing, lists every skill after all it depends on, and holds exactly the
    skills whose dependencies it holds. *)
Theorem topological_sort_sound ops :
  let g := build_graph ops in
  exists order, topological_sort g = Ok order /\ dep_ordered g order /\ NoDup order /\ order ⊆ g_nodes g /\
    forall n, n ∈ g_nodes g -> (n ∈ order <-> forall y, depends g n y -> y ∈ order).
Proof.
  cbn. destruct (topological_sort_ok _ _ (build_graph_represents ops)) as (order & Hr & Ho & Hsub & Hn).
  exists order. split_and!; [done..| |done|done]. by eapply dep_ordered_NoDup.
Qed.

(** The search ends too: a list it returns is a closed walk along real
    dependencies, and it returns none exactly when the graph has no cycle. *)
Theorem detect_cycle_spec ops :
  let g := build_graph ops in
  exists r, detect_cycle g = Ok r /\ (forall c, r = Some c -> is_cycle g c) /\ (r = None <-> acyclic g).
Proof.
  cbn. pose proof (build_graph_represents ops) as Hrep.
  destruct (detect_cycle_ok _ _ Hrep) as ([c|] & Hr & Hp); eexists; (split; [exact Hr|]).
  - split; [by intros c' [= <-]|]. split; [done|]. intros Ha. by destruct (cycle_not_acyclic _ c Hp).
  - split; [done|]. split; [|done]. intros _. destruct Hp as (fin & Hf & Hsub). by eapply all_ordered_acyclic.
Qed.

(** The two algorithms agree: the sort outputs every skill exactly when the
    search finds no cycle. *)
Theorem sort_complete_iff_no_cycle ops :
  let g := build_graph ops in
  exists order r, topological_sort g = Ok order /\ detect_cycle g = Ok r /\
    (order ≡ₚ g_nodes g <-> r = None).
Proof.
  cbn. pose proof (build_graph_represents ops) as Hrep.
  destruct (topological_sort_ok _ _ Hrep) as (order & Ht & Ho & Hsub & Hn).
  destruct (detect_cycle_ok _ _ Hrep) as (r & Hr & Hp). exists order, r. split_and!; [done..|]. split.
  - intros Hperm. destruct r as [c|]; [|done]. exfalso. apply (cycle_not_acyclic _ c Hp).
    eapply all_ordered_acyclic; [done|exact Ho|]. intros n. by rewrite Hperm.
  - intros ->. destruct Hp as (fin & Hf & Hfin).
    assert (forall n, n ∈ fin -> n ∈ g_nodes (build_graph ops) -> n ∈ order) as Hall.
    { clear Hfin. induction Hf as [|l x Hl IH Hx Hd]; intros n Hin Hnode; [by apply not_elem_of_nil in Hin|].
      apply elem_of_app in Hin as [Hin| ->%list_elem_of_singleton]; [by apply IH|].
      apply Hn; [done|]. intros y Hy. apply IH; [by apply Hd|]. by eapply depends_nodes. }
    apply NoDup_Permutation; [by eapply dep_ordered_NoDup|by apply (rep_nodup _ _ Hrep)|].
    intros n. split; [apply Hsub|]. intros Hnode. apply Hall; auto.
Qed.
