(* ===== verification/SkillVersion.v ===== *)
(** * Version constraints of skills (skills/dependency_graph.py)

    [resolve_version_constraint] picks the newest available version that meets
    a constraint.  With the packaging library it asks the library; without it,
    versions are compared as triples of numbers.  Digits are the ASCII ones. *)

From stdpp Require Import pretty.
From S2P Require Import Prelude PyFloat PyVal PyList PyText.
From Stdlib Require Import Ascii.

#[local] Open Scope Z_scope.

(** ** Versions as triples *)

Abbreviation semver := (Z * Z * Z)%type.

Definition is_digit (a : ascii) : bool :=
  let n := nat_of_ascii a in (48 <=? n)%nat && (n <=? 57)%nat.

(** The number a text starts with, 0 when it starts with none. *)
Fixpoint leading_number (acc : Z) (s : string) : Z :=
  match s with
  | String a s' => if is_digit a then leading_number (10 * acc + Z.of_nat (nat_of_ascii a - 48)) s' else acc
  | EmptyString => acc
  end.

Definition parse_semver (version : string) : semver :=
  match map (leading_number 0) (take 3 (split_on "."%char (strip version))) with
  | [] => (0, 0, 0)
  | [a] => (a, 0, 0)
  | [a; b] => (a, b, 0)
  | a :: b :: c :: _ => (a, b, c)
  end.

(** Tuples are compared component by component. *)
Definition semver_lt (a b : semver) : bool :=
  let '(a1, a2, a3) := a in
  let '(b1, b2, b3) := b in
  (a1 <? b1) || (a1 =? b1) && ((a2 <? b2) || (a2 =? b2) && (a3 <? b3)).

Definition semver_eq (a b : semver) : bool :=
  let '(a1, a2, a3) := a in
  let '(b1, b2, b3) := b in (a1 =? b1) && (a2 =? b2) && (a3 =? b3).

(** [_cmp] *)
Definition cmp_semver (a : semver) (op : string) (b : semver) : bool :=
  if String.eqb op ">=" then negb (semver_lt a b)
  else if String.eqb op "<=" then negb (semver_lt b a)
  else if String.eqb op ">" then semver_lt b a
  else if String.eqb op "<" then semver_lt a b
  else if String.eqb op "==" then semver_eq a b
  else if String.eqb op "!=" then negb (semver_eq a b)
  else false.

(** ** Caret and tilde *)

Definition range_text (lower upper : semver) : string :=
  let '(a, b, c) := lower in
  let '(d, e, f) := upper in
  join "" [">="; pretty a; "."; pretty b; "."; pretty c; ",<"; pretty d; "."; pretty e; "."; pretty f].

Definition caret_upper (v : semver) : semver :=
  let '(major, minor, patch) := v in
  if 0 <? major then (major + 1, 0, 0)
  else if 0 <? minor then (major, minor + 1, 0)
  else (major, minor, patch + 1).

Definition caret_to_pep440 (ver : string) : string :=
  range_text (parse_semver ver) (caret_upper (parse_semver ver)).

Definition tilde_upper (parts : nat) (v : semver) : semver :=
  let '(major, minor, _) := v in
  if (2 <=? parts)%nat then (major, minor + 1, 0) else (major + 1, 0, 0).

Definition tilde_to_pep440 (ver : string) : string :=
  range_text (parse_semver ver) (tilde_upper (length (split_on "."%char (strip ver))) (parse_semver ver)).

(** [_normalize_constraint]; it never returns [None]. *)
Definition normalize_constraint (constraint : string) : string :=
  let constraint := strip constraint in
  if startswith "^" constraint then caret_to_pep440 (str_drop 1 constraint)
  else if startswith "~" constraint then tilde_to_pep440 (str_drop 1 constraint)
  else constraint.

(** ** Without the packaging library *)

Definition operators : list string := [">="; "<="; "=="; "!="; ">"; "<"].

(** One clause of a constraint; a clause without a known operator is dropped. *)
Definition parse_clause (s : string) : list (string * semver) :=
  match List.find (fun op => startswith op s) operators with
  | Some op => [(op, parse_semver (str_drop (String.length op) s))]
  | None => []
  end.

Definition parse_specs (pep440_constraint : string) : list (string * semver) :=
  concat (map (fun x => parse_clause (strip x))
    (List.filter (fun x => truthy (strip x)) (split_on ","%char pep440_constraint))).

(** [max(l, key=...)]: the first of the greatest. *)
Fixpoint py_max_from {K A} (lt : K -> K -> bool) (key : A -> K) (best : A) (l : list A) : A :=
  match l with
  | [] => best
  | x :: l' => py_max_from lt key (if lt (key best) (key x) then x else best) l'
  end.

Definition py_max {K A} (lt : K -> K -> bool) (key : A -> K) (l : list A) : option A :=
  match l with [] => None | x :: l' => Some (py_max_from lt key x l') end.

Definition meets (specs : list (string * semver)) (v : string) : bool :=
  forallb (fun s => cmp_semver (parse_semver v) s.1 s.2) specs.

Definition fallback_resolve (available : list string) (pep440_constraint : string) : option string :=
  py_max semver_lt parse_semver (List.filter (meets (parse_specs pep440_constraint)) available).

(** ** With the packaging library *)

Section packaging.
(** [Version(text)] ([None]: [InvalidVersion]), its order, and
    [SpecifierSet(text)] ([None]: an exception) with its membership test. *)
Context {Version : Type} (parse_version : string -> option Version) (version_lt : Version -> Version -> bool)
  (specifier_set : string -> option (Version -> bool)).
(** Whether the library could be imported. *)
Variable has_packaging : bool.

(** [valid.sort(key=...)], stable. *)
Fixpoint insert_version (x : Version * string) (l : list (Version * string)) : list (Version * string) :=
  match l with
  | [] => [x]
  | y :: l' => if version_lt y.1 x.1 then y :: insert_version x l' else x :: y :: l'
  end.

Definition sort_versions (l : list (Version * string)) : list (Version * string) := foldr insert_version [] l.

Definition valid_versions (versions : list string) : list (Version * string) :=
  concat (map (fun v => match parse_version v with Some p => [(p, v)] | None => [] end) versions).

Definition max_version (versions : list string) : option string :=
  if negb (truthy versions) then None
  else if has_packaging then option_map snd (last (sort_versions (valid_versions versions)))
  else py_max semver_lt parse_semver versions.

Definition safe_contains (spec : Version -> bool) (version_str : string) : bool :=
  match parse_version version_str with Some v => spec v | None => false end.

Definition resolve_version_constraint (available_versions : list string) (constraint : string) : option string :=
  if negb (truthy available_versions) then None
  else
    let constraint := strip (constraint or_else "*") in
    if str_in constraint [""; "*"] then max_version available_versions
    else
      let pep440_constraint := normalize_constraint constraint in
      if has_packaging then
        match specifier_set pep440_constraint with
        | None => None
        | Some spec =>
          let candidates := List.filter (safe_contains spec) available_versions in
          if negb (truthy candidates) then None else max_version candidates
        end
      else fallback_resolve available_versions pep440_constraint.
End packaging.

(** ** Orders *)

(** What a sort needs of its comparison: [>=] is a total preorder. *)
Class VersionOrder {K} (lt : K -> K -> bool) : Prop := {
  vo_irrefl a : lt a a = false;
  vo_trans a b c : lt a b = false -> lt b c = false -> lt a c = false;
  vo_asym a b : lt a b = true -> lt b a = false }.

#[export] Instance semver_order : VersionOrder semver_lt.
Proof.
  split.
  - intros [[a b] c]. unfold semver_lt. lia.
  - intros [[a1 a2] a3] [[b1 b2] b3] [[c1 c2] c3]. unfold semver_lt. lia.
  - intros [[a1 a2] a3] [[b1 b2] b3]. unfold semver_lt. lia.
Qed.

Section max.
Context {K A : Type} (lt : K -> K -> bool) `{!VersionOrder lt} (key : A -> K).

Lemma py_max_from_spec best l :
  py_max_from lt key best l ∈ best :: l /\
  forall x, x ∈ best :: l -> lt (key (py_max_from lt key best l)) (key x) = false.
Proof.
  revert best. induction l as [|y l IH]; intros best; cbn [py_max_from].
  - split; [by left|]. intros x ->%list_elem_of_singleton. apply vo_irrefl.
  - destruct (IH (if lt (key best) (key y) then y else best)) as [Hin Hmax]. split.
    + apply elem_of_cons in Hin as [->|]; [|set_solver]. destruct (lt _ _); set_solver.
    + assert (forall z, lt (key (if lt (key best) (key y) then y else best)) (key z) = false ->
        lt (key (py_max_from lt key (if lt (key best) (key y) then y else best) l)) (key z) = false) as Ht.
      { intros z Hz. eapply vo_trans; [|exact Hz]. apply Hmax. by left. }
      intros x [->|[->|Hx]%elem_of_cons]%elem_of_cons; [| |apply Hmax; by right]; apply Ht.
      * destruct (lt (key best) (key y)) eqn:E; [by apply vo_asym|apply vo_irrefl].
      * destruct (lt (key best) (key y)) eqn:E; [apply vo_irrefl|done].
Qed.

Lemma py_max_spec l v : py_max lt key l = Some v -> v ∈ l /\ forall x, x ∈ l -> lt (key v) (key x) = false.
Proof. destruct l as [|x l]; [done|]. cbn [py_max]. intros [= <-]. apply py_max_from_spec. Qed.

Lemma py_max_none l : py_max lt key l = None <-> l = [].
Proof. by destruct l. Qed.
End max.

Section sorted.
Context {Version : Type} (version_lt : Version -> Version -> bool) `{!VersionOrder version_lt}.

Lemma insert_version_perm x l : insert_version version_lt x l ≡ₚ x :: l.
Proof.
  induction l as [|y l IH]; cbn; [done|]. destruct (version_lt _ _); [|done]. rewrite IH. apply Permutation_swap.
Qed.

Lemma sort_versions_perm l : sort_versions version_lt l ≡ₚ l.
Proof. induction l as [|x l IH]; cbn; [done|]. by rewrite insert_version_perm, IH. Qed.

Definition ascending (l : list (Version * string)) : Prop :=
  StronglySorted (fun a b => version_lt b.1 a.1 = false) l.

Lemma insert_version_sorted x l : ascending l -> ascending (insert_version version_lt x l).
Proof.
  induction 1 as [|y l Hs IH Hall]; cbn; [repeat constructor|]. destruct (version_lt y.1 x.1) eqn:E.
  - constructor; [done|]. rewrite insert_version_perm. constructor; [|done]. by apply vo_asym.
  - constructor; [by constructor|]. constructor; [done|]. eapply Forall_impl; [exact Hall|]. cbn.
    intros z Hz. by apply (vo_trans _ y.1).
Qed.

Lemma sort_versions_sorted l : ascending (sort_versions version_lt l).
Proof. induction l; cbn; [constructor|by apply insert_version_sorted]. Qed.

Lemma ascending_last l x : ascending l -> last l = Some x -> forall y, y ∈ l -> version_lt x.1 y.1 = false.
Proof.
  intros Hs. induction Hs as [|z l Hs IH Hall]; [done|]. intros Hl y Hy. destruct l as [|w l].
  - cbn in Hl. injection Hl as ->. apply list_elem_of_singleton in Hy as ->. apply vo_irrefl.
  - change (last (z :: w :: l)) with (last (w :: l)) in Hl. apply elem_of_cons in Hy as [->|Hy]; [|by apply IH].
    rewrite Forall_forall in Hall. apply Hall. by apply last_Some_elem_of.
Qed.
End sorted.

(** ** What a constraint admits *)

Section admitted.
Context {Version : Type} (parse_version : string -> option Version) (version_lt : Version -> Version -> bool)
  (specifier_set : string -> option (Version -> bool)) `{!VersionOrder version_lt}.

(** A version the maximum considers at all. *)
Definition readable (has_packaging : bool) (v : string) : bool :=
  if has_packaging then match parse_version v with Some _ => true | None => false end else true.

Definition newer (has_packaging : bool) (w v : string) : bool :=
  if has_packaging
  then match parse_version w, parse_version v with Some a, Some b => version_lt b a | _, _ => false end
  else semver_lt (parse_semver v) (parse_semver w).

Definition admitted (has_packaging : bool) (constraint v : string) : bool :=
  let constraint := strip (constraint or_else "*") in
  if str_in constraint [""; "*"] then readable has_packaging v
  else if has_packaging
       then match specifier_set (normalize_constraint constraint) with
            | Some spec => safe_contains parse_version spec v
            | None => false
            end
       else meets (parse_specs (normalize_constraint constraint)) v.

(** [v] is a newest element of [l] among those that satisfy [p]. *)
Definition newest (has_packaging : bool) (p : string -> bool) (l : list string) (r : option string) : Prop :=
  match r with
  | Some v => v ∈ l /\ p v = true /\ forall w, w ∈ l -> p w = true -> newer has_packaging w v = false
  | None => forall w, w ∈ l -> p w = false
  end.

Lemma elem_of_valid_versions x l :
  x ∈ valid_versions parse_version l <-> x.2 ∈ l /\ parse_version x.2 = Some x.1.
Proof.
  unfold valid_versions. rewrite list_elem_of_In, in_concat. setoid_rewrite in_map_iff. setoid_rewrite list_elem_of_In. split.
  - intros (ys & (v & <- & Hv) & Hx). destruct (parse_version v) as [p|] eqn:E; [|done].
    destruct Hx as [<-|[]]. done.
  - intros [Hin Hp]. eexists. split; [by exists x.2|]. rewrite Hp. left. by destruct x.
Qed.

Lemma max_version_newest has_packaging l :
  newest has_packaging (readable has_packaging) l (max_version parse_version version_lt has_packaging l).
Proof.
  unfold max_version, newest, readable, newer. destruct l as [|x l]; [by intros w ?%not_elem_of_nil|].
  cbn [truthy truthy_list negb]. set (vs := x :: l). destruct has_packaging.
  - pose proof (sort_versions_sorted version_lt (valid_versions parse_version vs)) as Hs.
    pose proof (sort_versions_perm version_lt (valid_versions parse_version vs)) as Hp.
    destruct (last (sort_versions version_lt (valid_versions parse_version vs))) as [y|] eqn:El; cbn [option_map].
    + assert (y ∈ valid_versions parse_version vs) as Hy by (rewrite <- Hp; by apply last_Some_elem_of).
      apply elem_of_valid_versions in Hy as [Hin Hy]. rewrite Hy. split_and!; [done..|].
      intros w Hw Hv. destruct (parse_version w) as [a|] eqn:Ea; [|done].
      apply (ascending_last version_lt _ _ Hs El (a, w)). rewrite Hp. by apply elem_of_valid_versions.
    + intros w Hw. destruct (parse_version w) as [a|] eqn:Ea; [|done]. apply last_None in El. rewrite El in Hp.
      exfalso. apply (not_elem_of_nil (a, w)). rewrite Hp. by apply elem_of_valid_versions.
  - destruct (py_max semver_lt parse_semver vs) as [v|] eqn:E; [|by apply py_max_none in E].
    apply py_max_spec in E as [Hin Hmax]; [|apply _]. split_and!; auto.
Qed.

Lemma newest_filter has_packaging (p q : string -> bool) l r :
  (forall x, p x = true -> q x = true) -> newest has_packaging q (List.filter p l) r -> newest has_packaging p l r.
Proof.
  intros Hpq. unfold newest. destruct r as [v|].
  - intros ([Hin Hp]%list_elem_of_In%List.filter_In & _ & Hmax). split_and!; [by apply list_elem_of_In|done|].
    intros w Hw Hpw. apply Hmax; [|auto]. apply list_elem_of_In, List.filter_In. by rewrite <- list_elem_of_In.
  - intros H w Hw. destruct (p w) eqn:E; [|done]. rewrite <- (H w); [by rewrite Hpq|].
    apply list_elem_of_In, List.filter_In. by rewrite <- list_elem_of_In.
Qed.
End admitted.

(** ** Ranges are read back *)

Lemma leading_number_nonneg s acc : 0 <= acc -> 0 <= leading_number acc s.
Proof.
  revert acc. induction s as [|a s IH]; intros acc H; cbn; [done|]. destruct (is_digit a); [|done]. apply IH. lia.
Qed.

Definition semver_nonneg (v : semver) : Prop := let '(a, b, c) := v in 0 <= a /\ 0 <= b /\ 0 <= c.

Lemma parse_semver_nonneg s : semver_nonneg (parse_semver s).
Proof.
  unfold parse_semver. pose proof (fun x => leading_number_nonneg x 0 (Z.le_refl 0)) as H.
  destruct (take 3 _) as [|a [|b [|c l]]]; cbn; auto using Z.le_refl.
Qed.

Lemma pretty_N_char_digit x : (x < 10)%N ->
  is_digit (pretty_N_char x) = true /\ Z.of_nat (nat_of_ascii (pretty_N_char x) - 48) = Z.of_N x.
Proof.
  intros H. set (P := fun x => is_digit (pretty_N_char x) = true /\ Z.of_nat (nat_of_ascii (pretty_N_char x) - 48) = Z.of_N x).
  assert (Forall (fun k => P (N.of_nat k)) (seq 0 10)) as Hall by (repeat constructor).
  rewrite Forall_forall in Hall. specialize (Hall (N.to_nat x)). rewrite N2Nat.id in Hall. apply Hall, elem_of_seq. lia.
Qed.

Lemma leading_number_pretty_go x : forall s, leading_number 0 (pretty_N_go x s) = leading_number (Z.of_N x) s.
Proof.
  induction (N.lt_wf_0 x) as [x _ IH]. intros s. destruct (decide (x = 0%N)) as [->|Hx]; [by rewrite pretty_N_go_0|].
  rewrite pretty_N_go_step by lia. rewrite IH by (apply N.div_lt; lia). cbn [leading_number].
  destruct (pretty_N_char_digit (x mod 10)) as [-> ->]; [by apply N.mod_lt|]. f_equal.
  rewrite N2Z.inj_div, N2Z.inj_mod. rewrite (Z.div_mod (Z.of_N x) 10) at 3 by lia. lia.
Qed.

Lemma pretty_go_digits x : forall s, str_all is_digit s = true -> str_all is_digit (pretty_N_go x s) = true.
Proof.
  induction (N.lt_wf_0 x) as [x _ IH]. intros s Hs. destruct (decide (x = 0%N)) as [->|Hx]; [by rewrite pretty_N_go_0|].
  rewrite pretty_N_go_step by lia. apply IH; [apply N.div_lt; lia|]. cbn.
  by destruct (pretty_N_char_digit (x mod 10)) as [-> _]; [apply N.mod_lt|].
Qed.

Lemma pretty_number z : 0 <= z -> leading_number 0 (pretty z) = z /\ str_all is_digit (pretty z) = true.
Proof.
  intros Hz. destruct z as [|p|p]; [done| |lia]. change (pretty (Z.pos p)) with (pretty (N.pos p)).
  unfold pretty, pretty_N. case_decide; [done|]. by rewrite leading_number_pretty_go, pretty_go_digits.
Qed.

(** The text of a triple, and what is read back from it. *)
Definition semver_text (v : semver) : string :=
  let '(a, b, c) := v in join "" [pretty a; "."; pretty b; "."; pretty c].

Definition is_plain (a : ascii) : bool := is_digit a || Ascii.eqb a ".".

Lemma plain_not_space x : is_plain x = true -> negb (is_space x) = true.
Proof. by destruct x as [[] [] [] [] [] [] [] []]. Qed.

Lemma parse_semver_text v : semver_nonneg v -> parse_semver (semver_text v) = v /\ str_all is_plain (semver_text v) = true.
Proof.
  destruct v as [[a b] c]. intros (Ha & Hb & Hc).
  destruct (pretty_number a Ha) as [Na Da]. destruct (pretty_number b Hb) as [Nb Db]. destruct (pretty_number c Hc) as [Nc Dc].
  assert (forall s, str_all is_digit s = true -> str_all is_plain s = true) as Hp
    by (intros s; apply str_all_impl; unfold is_plain; by intros x ->).
  assert (forall s, str_all is_digit s = true -> str_all (fun x => negb (Ascii.eqb x ".")) s = true) as Hd.
  { intros s. apply str_all_impl. intros x Hx. by destruct (Ascii.eqb_spec x "."%char) as [->|]. }
  assert (semver_text (a, b, c) = String.append (pretty a) (String "."%char (String.append (pretty b) (String "."%char (pretty c))))) as Ht
    by reflexivity.
  assert (str_all is_plain (semver_text (a, b, c)) = true) as Hall.
  { rewrite Ht, str_all_app. cbn [str_all]. rewrite str_all_app. cbn [str_all]. by rewrite !Hp. }
  split; [|done]. unfold parse_semver. rewrite strip_no_space.
  - rewrite Ht, split_on_app, split_on_app, split_on_none by auto. cbn [take map]. by rewrite Na, Nb, Nc.
  - revert Hall. apply str_all_impl, plain_not_space.
Qed.

Lemma clause_ge t : parse_clause (String ">"%char (String "="%char t)) = [(">=", parse_semver t)].
Proof. by destruct t. Qed.

Lemma clause_lt t : str_all (fun x => negb (Ascii.eqb x "=")) t = true ->
  parse_clause (String "<"%char t) = [("<", parse_semver t)].
Proof.
  intros Ht. unfold parse_clause, operators, startswith. destruct t as [|x t]; [reflexivity|].
  cbn in Ht. apply andb_true_iff in Ht as [Hx%negb_true_iff _].
  cbn [List.find].
  change (String.prefix ">=" (String "<" (String x t))) with false.
  assert (String.prefix "<=" (String "<" (String x t)) = false) as ->.
  { change (String.prefix "<=" (String "<" (String x t))) with (if ascii_dec "=" x then String.prefix "" t else false).
    destruct (ascii_dec "=" x) as [<-|]; [discriminate Hx|done]. }
  reflexivity.
Qed.

Lemma parse_specs_range lo hi : semver_nonneg lo -> semver_nonneg hi ->
  parse_specs (range_text lo hi) = [(">=", lo); ("<", hi)].
Proof.
  intros Hlo Hhi. destruct (parse_semver_text _ Hlo) as [Plo Tlo]. destruct (parse_semver_text _ Hhi) as [Phi Thi].
  assert (range_text lo hi = String.append (String.append ">=" (semver_text lo)) (String ","%char (String.append "<" (semver_text hi)))) as ->
    by (destruct lo as [[? ?] ?], hi as [[? ?] ?]; unfold range_text, semver_text, join; cbn [String.concat]; by rewrite !append_assoc).
  assert (forall s c, is_plain c = false -> str_all is_plain s = true -> str_all (fun x => negb (Ascii.eqb x c)) s = true) as Hno.
  { intros s c Hc. apply str_all_impl. intros x Hx. by destruct (Ascii.eqb_spec x c) as [->|]; [rewrite Hc in Hx|]. }
  assert (forall s, str_all is_plain s = true -> str_all (fun x => negb (is_space x)) s = true) as Hsp.
  { intros s. apply str_all_impl, plain_not_space. }
  unfold parse_specs. rewrite split_on_app, split_on_none.
  2:{ rewrite str_all_app. cbn. by apply Hno. }
  2:{ rewrite str_all_app. cbn. by apply Hno. }
  assert (strip (String.append ">=" (semver_text lo)) = String.append ">=" (semver_text lo)) as Sl
    by (apply strip_no_space; rewrite str_all_app; cbn; by apply Hsp).
  assert (strip (String.append "<" (semver_text hi)) = String.append "<" (semver_text hi)) as Sh
    by (apply strip_no_space; rewrite str_all_app; cbn; by apply Hsp).
  cbn [List.filter]. rewrite Sl, Sh. change (truthy (String.append ">=" (semver_text lo))) with true.
  change (truthy (String.append "<" (semver_text hi))) with true. cbn [map concat app]. rewrite Sl, Sh.
  change (String.append ">=" (semver_text lo)) with (String ">"%char (String "="%char (semver_text lo))).
  change (String.append "<" (semver_text hi)) with (String "<"%char (semver_text hi)).
  rewrite clause_ge, clause_lt by (by apply Hno). by rewrite Plo, Phi.
Qed.

(** ** Properties *)

(** The version chosen is an available one that the constraint admits, and no
    admitted available version is newer; none is chosen exactly when the
    constraint admits no available version. *)
Theorem resolve_newest {Version} parse_version version_lt specifier_set `{!@VersionOrder Version version_lt}
    has_packaging available constraint :
  newest parse_version version_lt has_packaging
    (admitted parse_version specifier_set has_packaging constraint) available
    (resolve_version_constraint parse_version version_lt specifier_set has_packaging available constraint).
Proof.
  unfold resolve_version_constraint, admitted.
  destruct available as [|v0 l0]; [by intros w ?%not_elem_of_nil|]. cbn [truthy truthy_list negb].
  set (available := v0 :: l0). set (c := strip _). destruct (str_in c [""; "*"]); [by apply max_version_newest|].
  destruct has_packaging.
  - destruct (specifier_set (normalize_constraint c)) as [spec|]; [|done].
    apply (newest_filter _ _ _ _ (readable parse_version true)).
    { intros x. unfold safe_contains, readable. by destruct (parse_version x). }
    destruct (List.filter _ available) as [|x l] eqn:E; [by intros w ?%not_elem_of_nil|].
    cbn [truthy truthy_list negb]. by apply max_version_newest.
  - apply (newest_filter _ _ _ _ (fun _ => true)); [done|]. unfold fallback_resolve, newest, newer.
    destruct (py_max _ _ _) as [v|] eqn:E.
    + apply py_max_spec in E as [Hin Hmax]; [|apply _]. split_and!; auto.
    + apply py_max_none in E. intros w Hw. exfalso. apply (not_elem_of_nil w). by rewrite <- E.
Qed.

(** Without the library, a caret constraint only accepts versions from the one
    it names up to the next breaking one, excluded; a tilde constraint those up
    to the next minor version (the next major one when it names no minor). *)
Theorem caret_tilde_ranges {Version} parse_version version_lt specifier_set available constraint v :
  resolve_version_constraint (Version := Version) parse_version version_lt specifier_set false available constraint = Some v ->
  let c := strip constraint in
  let lower := parse_semver (str_drop 1 c) in
  let within upper := semver_lt (parse_semver v) lower = false /\ semver_lt (parse_semver v) upper = true in
  (startswith "^" c = true -> within (caret_upper lower)) /\
  (startswith "~" c = true -> within (tilde_upper (length (split_on "."%char (strip (str_drop 1 c)))) lower)).
Proof.
  intros H c lower within. unfold resolve_version_constraint in H.
  destruct (negb (truthy available)); [done|].
  assert (forall p, p <> EmptyString -> startswith p c = true -> constraint or_else "*" = constraint) as Hor.
  { intros p Hp Hs. unfold py_or, truthy, truthy_string. destruct (String.eqb_spec constraint "") as [->|]; [|done].
    by destruct p. }
  assert (forall p upper, startswith p c = true -> p <> EmptyString -> str_in c [""; "*"] = false ->
    normalize_constraint c = range_text lower upper -> semver_nonneg upper -> within upper) as Hmain.
  { intros p upper Hs Hp Hc Hn Hu. rewrite (Hor p Hp Hs) in H. fold c in H. rewrite Hc, Hn in H. unfold fallback_resolve in H.
    rewrite parse_specs_range in H by (done || apply parse_semver_nonneg).
    apply py_max_spec in H as [[_ H]%list_elem_of_In%List.filter_In _]; [|apply _].
    unfold meets in H. cbn [forallb fst snd] in H. rewrite andb_true_r in H. apply andb_true_iff in H as [H1 H2].
    cbn in H1, H2. apply negb_true_iff in H1. done. }
  assert (normalize_constraint c = if startswith "^" c then caret_to_pep440 (str_drop 1 c)
          else if startswith "~" c then tilde_to_pep440 (str_drop 1 c) else c) as Hn
    by (unfold normalize_constraint, c; by rewrite strip_idem).
  pose proof (parse_semver_nonneg (str_drop 1 c)) as Hnn. fold lower in Hnn.
  destruct lower as [[a b] d] eqn:El. destruct Hnn as (Ha & Hb & Hd).
  assert (forall p, startswith (String p "") c = true -> Ascii.eqb p "*" = false ->
    startswith "^" c = Ascii.eqb p "^" /\ str_in c [""; "*"] = false) as Hhead.
  { intros p Hs Hp. rewrite startswith_one in *. destruct c as [|x c']; [done|]. apply Ascii.eqb_eq in Hs as <-.
    split; [apply Ascii.eqb_sym|]. cbn. rewrite Hp. done. }
  split; intros Hs; destruct (Hhead _ Hs eq_refl) as [Hc1 Hc2].
  - apply (Hmain "^"); [done..| |].
    + rewrite Hn, Hs. unfold caret_to_pep440. fold lower. by rewrite El.
    + unfold caret_upper. split_ifs; cbn; lia.
  - apply (Hmain "~"); [done..| |].
    + rewrite Hn, Hs, Hc1. unfold tilde_to_pep440. fold lower. by rewrite El.
    + unfold tilde_upper. destruct (2 <=? _)%nat; cbn; lia.
Qed.

(** The compatible-release operator of PEP 440 is taken for a tilde: its
    number is lost and ["~=1.4"] stands for [>=0.4.0,<0.5.0]. *)
Theorem compatible_release_misread : normalize_constraint "~=1.4" = ">=0.4.0,<0.5.0".
Proof. reflexivity. Qed.

(** ** Instances *)

Lemma resolve_newest_witness :
  newest Some (fun a b => false) true (fun v => true) ["1.0"; "2.0"] (Some "2.0").
Proof.
  assert (VersionOrder (fun _ _ : string => false)) as Hvo by (split; done).
  exact (resolve_newest Some (fun _ _ => false) (fun _ => Some (fun _ => true)) true ["1.0"; "2.0"] "*").
Defined.

Lemma caret_tilde_ranges_witness :
  semver_lt (parse_semver "1.9.3") (2, 0, 0) = true.
Proof.
  exact (proj2 (proj1 (caret_tilde_ranges Some (fun _ _ => false) (fun _ => None) ["1.3"; "1.9.3"; "2.0"; "1.4.0"] " ^1.4 " "1.9.3"
    ltac:(vm_compute; reflexivity)) eq_refl)).
Defined.
