(* ===== verification/SkillCatalog.v ===== *)
(** * The catalogue of skills (skills/catalog_models.py, skills/catalog.py)

    The cards and manifests of the skills and the snapshot that the filters
    and the router read. *)

From S2P Require Import Prelude PyFloat PyVal PyList PyText.

(** The fields of a card that the filters, the router and the selector read. *)
Record SkillCard : Type := mkCard {
  sc_skill_id : string; sc_version : string; sc_skill_type : string;
  sc_domains : list string; sc_capabilities : list string; sc_intents : list string;
  sc_languages : list string; sc_exclusion_rules : list pyval;
  sc_required_permissions : list string; sc_allowed_tenants : list string;
  sc_lifecycle_status : string; sc_tenant_overrides : list (string * bool);
  sc_risk_level : string; sc_cost_class : string; sc_latency_class : string;
  sc_dependencies_healthy : bool; sc_required_dependency_ids : list string;
  sc_execution_mode : string; sc_report_type : option string }.

Record CatalogGovernance : Type := mkGovernance {
  gv_lifecycle_status : string; gv_owner_team : string; gv_approval_chain : list string;
  gv_canary_tenants : list string; gv_rollout_percentage : Q }.

Record SkillManifest : Type := mkManifest { sm_card : SkillCard; sm_governance : CatalogGovernance }.

(** The two indices a filter reads; [None]: not built. *)
Record CatalogSnapshot : Type := mkCatalog {
  cs_cards_by_key : option (list (string * string * SkillCard));
  cs_manifests_by_id : option (list (string * SkillManifest)) }.

Definition list_cards (s : CatalogSnapshot) : list SkillCard :=
  match cs_cards_by_key s with Some ((_ :: _) as d) => map snd d | _ => [] end.

Definition get_card (s : CatalogSnapshot) (skill_id : string) : option SkillCard :=
  match cs_cards_by_key s with
  | Some d => option_map snd (List.find (fun kc => String.eqb kc.1.1 skill_id) d)
  | None => None
  end.

Definition get_manifest (s : CatalogSnapshot) (skill_id : string) : option SkillManifest :=
  match cs_manifests_by_id s with Some d => dlookup skill_id d | None => None end.

(** The content whose digest is the checksum of a catalogue, for skills given
    by their identifier and version. *)
Definition compute_checksum (sha256_hex : string -> string) (skills : list (string * string)) : string :=
  text_take 16 (sha256_hex (join "|" (py_sorted (map (fun s => join ":" [s.1; s.2]) skills)))).

(** The checksum does not depend on the order in which skills are loaded. *)
Theorem checksum_order_irrelevant sha256_hex l1 l2 :
  l1 ≡ₚ l2 -> compute_checksum sha256_hex l1 = compute_checksum sha256_hex l2.
Proof. intros H. unfold compute_checksum. erewrite py_sorted_Permutation; [done|]. by rewrite H. Qed.

(** A card found by its identifier is a card of the catalogue. *)
Lemma get_card_listed s skill_id c : get_card s skill_id = Some c -> c ∈ list_cards s.
Proof.
  unfold get_card, list_cards. destruct (cs_cards_by_key s) as [d|]; [|done].
  destruct (List.find _ d) as [kc|] eqn:E; [|done]. intros [= <-]. apply List.find_some in E as [Hin _].
  destruct d as [|x d]; [done|]. apply list_elem_of_In, in_map, Hin.
Qed.
