(* ===== verification/HardFilter.v ===== *)
(** * The hard filter of the skill catalogue (skills/hard_filter.py)

    Before any retrieval, the cards of the catalogue go through eight layers
    in a fixed order; each layer drops the cards it forbids and counts them by
    reason. *)

From S2P Require Import Prelude PyFloat PyVal PyList PyText Governance SkillCatalog.

(** ** Filter *)

Definition ROUTE_CAPABILITY_MAP : list (string * list string) :=
  [("chitchat", []); ("database", ["database"]); ("rag", ["rag"]); ("hybrid", ["database"; "rag"]);
   ("report", ["report"; "database"; "rag"]); ("web", ["web"])].

Record HardFilterContext : Type := mkFilterContext {
  hf_tenant_id : string; hf_permissions : list string; hf_route_target : string; hf_locale : string;
  hf_agent_config : pydict }.

Record HardFilterResult : Type := mkFilterResult {
  hr_cards : list SkillCard; hr_filtered_reason_counts : list (string * Z) }.

(** [{reason: n} if n else {}] *)
Definition count_of (reason : string) (n : Z) : list (string * Z) := if truthy n then [(reason, n)] else [].

(** A layer that keeps the cards satisfying [p]. *)
Definition keep_if (reason : string) (p : SkillCard -> bool) (cards : list SkillCard) : list SkillCard * list (string * Z) :=
  let kept := List.filter p cards in (kept, count_of reason (py_len cards - py_len kept)%Z).

(** A loop that keeps a card or drops it for one of two reasons. *)
Inductive fate : Type := Keep | DropFirst | DropSecond.

Definition sift (f : SkillCard -> fate) (cards : list SkillCard) : list SkillCard * Z * Z :=
  fold_left (fun '(kept, a, b) c => match f c with
                                    | Keep => (kept ++ [c], a, b)
                                    | DropFirst => (kept, a + 1, b)%Z
                                    | DropSecond => (kept, a, b + 1)%Z
                                    end) cards ([], 0%Z, 0%Z).

Section filter.
(** Python's [hash] of a text: fixed within one process only. *)
Variable py_hash : string -> Z.
Variable snapshot : CatalogSnapshot.
Variable ctx : HardFilterContext.

Definition filter_lifecycle : list SkillCard -> list SkillCard * list (string * Z) :=
  keep_if "lifecycle" (fun c => String.eqb (sc_lifecycle_status c) "active").

(** The tenant list of a card shuts this tenant out. *)
Definition tenant_excluded (c : SkillCard) : bool :=
  truthy (sc_allowed_tenants c) && negb (str_in (hf_tenant_id ctx) (sc_allowed_tenants c)) &&
  negb (match dlookup (hf_tenant_id ctx) (sc_tenant_overrides c) with Some true => true | _ => false end).

Definition tenant_fate (c : SkillCard) : fate :=
  match dlookup (hf_tenant_id ctx) (sc_tenant_overrides c) with
  | Some false => DropFirst
  | _ =>
    if tenant_excluded c then DropFirst
    else if existsb (fun dep_id => match get_card snapshot dep_id with Some d => tenant_excluded d | None => false end)
              (sc_required_dependency_ids c)
         then DropSecond else Keep
  end.

Definition filter_tenant (cards : list SkillCard) : list SkillCard * list (string * Z) :=
  let '(kept, tenant_filtered, dep_tenant_filtered) := sift tenant_fate cards in
  (kept, count_of "tenant" tenant_filtered ++ count_of "dependency_tenant" dep_tenant_filtered).

Definition filter_permission (cards : list SkillCard) : list SkillCard * list (string * Z) :=
  if negb (truthy (hf_permissions ctx)) then (cards, [])
  else keep_if "permission" (fun c => forallb (fun p => str_in p (hf_permissions ctx)) (sc_required_permissions c)) cards.

Definition filter_route_capability (cards : list SkillCard) : list SkillCard * list (string * Z) :=
  match dlookup (hf_route_target ctx) ROUTE_CAPABILITY_MAP with
  | None => (cards, [])
  | Some needed =>
    if negb (truthy needed) then ([], count_of "route_capability" (py_len cards))
    else keep_if "route_capability" (fun c => existsb (fun x => str_in x needed) (sc_capabilities c)) cards
  end.

Definition filter_language : list SkillCard -> list SkillCard * list (string * Z) :=
  keep_if "language" (fun c => negb (truthy (sc_languages c)) || str_in (hf_locale ctx) (sc_languages c)).

Definition filter_dependency_health : list SkillCard -> list SkillCard * list (string * Z) :=
  keep_if "dependency_health" sc_dependencies_healthy.

(** [RuntimeCapabilityGate.filter] *)
Definition tool_enabled (key : string) (default : bool) : bool :=
  let config := match dlookup key (hf_agent_config ctx) with Some v => py_or v (VDict []) | None => VDict [] end in
  match config with
  | VDict d => match dlookup "enabled" d with Some v => truthy v | None => default end
  | _ => default
  end.

Definition runtime_fate (c : SkillCard) : fate :=
  let db_enabled := tool_enabled "db_tool" true in
  let react_enabled := tool_enabled "react" false in
  if negb db_enabled && str_in "database" (sc_capabilities c) then DropFirst
  else if negb db_enabled && String.eqb (sc_skill_type c) "data" then DropFirst
  else if negb react_enabled && String.eqb (sc_execution_mode c) "react_only" then DropSecond
  else Keep.

Definition filter_runtime_capability (cards : list SkillCard) : list SkillCard * list (string * Z) :=
  let '(kept, db_disabled, react_disabled) := sift runtime_fate cards in
  (kept, count_of "runtime_db_disabled" db_disabled ++ count_of "runtime_react_disabled" react_disabled).

Definition flag_fate (c : SkillCard) : fate :=
  match get_manifest snapshot (sc_skill_id c) with
  | None => Keep
  | Some manifest =>
    let gov := sm_governance manifest in
    if truthy (gv_canary_tenants gov) && negb (str_in (hf_tenant_id ctx) (gv_canary_tenants gov)) then DropFirst
    else if flt (gv_rollout_percentage gov) 100 then
           let hash_val := (py_hash (join ":" [sc_skill_id c; hf_tenant_id ctx]) mod 100)%Z in
           if fge (inject_Z hash_val) (gv_rollout_percentage gov) then DropSecond else Keep
         else Keep
  end.

Definition filter_feature_flag (cards : list SkillCard) : list SkillCard * list (string * Z) :=
  let '(kept, canary, rollout) := sift flag_fate cards in
  (kept, count_of "canary_excluded" canary ++ count_of "rollout_excluded" rollout).

Definition layers : list (list SkillCard -> list SkillCard * list (string * Z)) :=
  [filter_lifecycle; filter_tenant; filter_permission; filter_route_capability; filter_language;
   filter_dependency_health; filter_runtime_capability; filter_feature_flag].

(** [HardFilterChain.filter] *)
Definition hard_filter : HardFilterResult :=
  let '(cards, counts) :=
    fold_left (fun '(cards, counts) layer =>
      let '(kept, rc) := layer cards in
      (kept, fold_left (fun d kv => dset kv.1 kv.2 d) rc counts)) layers (list_cards snapshot, []) in
  mkFilterResult cards counts.

(** ** What a card must satisfy *)

Definition is_keep (f : fate) : bool := match f with Keep => true | _ => false end.

Definition permitted (c : SkillCard) : bool :=
  negb (truthy (hf_permissions ctx)) || forallb (fun p => str_in p (hf_permissions ctx)) (sc_required_permissions c).

Definition capable (c : SkillCard) : bool :=
  match dlookup (hf_route_target ctx) ROUTE_CAPABILITY_MAP with
  | None => true
  | Some needed => existsb (fun x => str_in x needed) (sc_capabilities c)
  end.

(** One test and one set of reasons per layer. *)
Definition layer_specs : list ((SkillCard -> bool) * list string) :=
  [((fun c => String.eqb (sc_lifecycle_status c) "active"), ["lifecycle"]);
   ((fun c => is_keep (tenant_fate c)), ["tenant"; "dependency_tenant"]);
   (permitted, ["permission"]); (capable, ["route_capability"]);
   ((fun c => negb (truthy (sc_languages c)) || str_in (hf_locale ctx) (sc_languages c)), ["language"]);
   (sc_dependencies_healthy, ["dependency_health"]);
   ((fun c => is_keep (runtime_fate c)), ["runtime_db_disabled"; "runtime_react_disabled"]);
   ((fun c => is_keep (flag_fate c)), ["canary_excluded"; "rollout_excluded"])].

Definition usable (c : SkillCard) : bool := forallb (fun s => s.1 c) layer_specs.
End filter.

Definition total (counts : list (string * Z)) : Z := fold_right (fun kv n => kv.2 + n)%Z 0%Z counts.

(** ** Lemmas *)

(** A layer keeps what satisfies [p] and accounts for the rest under [names]. *)
Definition layer_ok (s : (SkillCard -> bool) * list string)
    (layer : list SkillCard -> list SkillCard * list (string * Z)) : Prop :=
  forall cards, (layer cards).1 = List.filter s.1 cards /\
    total (layer cards).2 = (py_len cards - py_len (layer cards).1)%Z /\
    sublist (map fst (layer cards).2) s.2 /\ Forall (fun kv => (0 < kv.2)%Z) (layer cards).2.

Lemma py_len_filter_le {A} (p : A -> bool) l : (py_len (List.filter p l) <= py_len l)%Z.
Proof. unfold py_len. pose proof (List.filter_length_le p l). lia. Qed.

Lemma count_of_ok reason n : (0 <= n)%Z ->
  total (count_of reason n) = n /\ sublist (map fst (count_of reason n)) [reason] /\
  Forall (fun kv => (0 < kv.2)%Z) (count_of reason n).
Proof.
  intros Hn. unfold count_of, truthy, truthy_Z. destruct (Z.eqb_spec n 0) as [->|]; cbn.
  - split_and!; [done|apply sublist_nil_l|constructor].
  - split_and!; [lia|done|]. repeat constructor. cbn. lia.
Qed.

Lemma total_app l1 l2 : total (l1 ++ l2) = (total l1 + total l2)%Z.
Proof.
  induction l1 as [|kv l1 IH]; [done|].
  change (kv.2 + total (l1 ++ l2) = kv.2 + total l1 + total l2)%Z. rewrite IH. lia.
Qed.

Lemma keep_if_ok reason p : layer_ok (p, [reason]) (keep_if reason p).
Proof.
  intros cards. unfold keep_if. cbn [fst snd]. split; [done|].
  pose proof (py_len_filter_le p cards). destruct (count_of_ok reason (py_len cards - py_len (List.filter p cards))) as (? & ? & ?);
    [lia|done].
Qed.

Lemma sift_ok f cards : let '(kept, a, b) := sift f cards in
  kept = List.filter (fun c => is_keep (f c)) cards /\ (0 <= a)%Z /\ (0 <= b)%Z /\ (a + b = py_len cards - py_len kept)%Z.
Proof.
  unfold sift. induction cards as [|c cards IH] using rev_ind; [done|].
  rewrite fold_left_app, List.filter_app. cbn [fold_left List.filter].
  destruct (fold_left _ cards _) as [[kept a] b]. destruct IH as (-> & Ha & Hb & Hab).
  unfold py_len in *. destruct (f c); cbn [is_keep]; rewrite ?app_nil_r, !List.length_app; cbn [length]; split_and!; try done; lia.
Qed.

Lemma sift_layer_ok f n1 n2 :
  layer_ok ((fun c => is_keep (f c)), [n1; n2])
    (fun cards => let '(kept, a, b) := sift f cards in (kept, count_of n1 a ++ count_of n2 b)).
Proof.
  intros cards. pose proof (sift_ok f cards) as H. destruct (sift f cards) as [[kept a] b].
  destruct H as (Hk & Ha & Hb & Hab). cbn [fst snd].
  destruct (count_of_ok n1 a Ha) as (T1 & S1 & P1). destruct (count_of_ok n2 b Hb) as (T2 & S2 & P2).
  split_and!; [done| | |by apply Forall_app].
  - rewrite total_app. lia.
  - rewrite map_app. change [n1; n2] with ([n1] ++ [n2]). by apply sublist_app.
Qed.

(** [dict.update] with fresh keys. *)
Lemma dset_fresh {A} k (v : A) d : k ∉ map fst d -> dset k v d = d ++ [(k, v)].
Proof.
  induction d as [|[k' v'] d IH]; cbn; [done|]. intros H. destruct (String.eqb_spec k k') as [->|]; [exfalso; apply H; by left|].
  rewrite IH; [done|]. intros Hin. apply H. by right.
Qed.

Lemma update_fresh {A} (rc d : list (string * A)) : NoDup (map fst d ++ map fst rc) ->
  fold_left (fun d kv => dset kv.1 kv.2 d) rc d = d ++ rc.
Proof.
  revert d. induction rc as [|[k v] rc IH]; intros d Hnd; cbn [fold_left map]; [by rewrite app_nil_r|].
  cbn [map fst] in Hnd. rewrite dset_fresh.
  - rewrite IH; [by rewrite <- app_assoc|]. rewrite map_app. cbn [map fst]. by rewrite <- app_assoc.
  - intros Hin. apply NoDup_app in Hnd as (_ & H & _). apply (H k Hin). by left.
Qed.

Definition run_layers ls (cards : list SkillCard) (counts : list (string * Z)) :=
  fold_left (fun '(cards, counts) layer =>
    let '(kept, rc) := layer cards in
    (kept, fold_left (fun d kv => dset kv.1 kv.2 d) rc counts)) ls (cards, counts).

Lemma filter_and {A} (p q : A -> bool) l : List.filter q (List.filter p l) = List.filter (fun x => p x && q x) l.
Proof. induction l as [|x l IH]; cbn [List.filter]; [done|]. destruct (p x); cbn [List.filter andb]; by rewrite IH. Qed.

Lemma run_layers_cons layer ls cards counts :
  run_layers (layer :: ls) cards counts =
  run_layers ls (layer cards).1 (fold_left (fun d kv => dset kv.1 kv.2 d) (layer cards).2 counts).
Proof. unfold run_layers. cbn [fold_left]. by destruct (layer cards) as [kept rc]. Qed.

(** The layers together: one filter, every drop counted once. *)
Lemma run_layers_ok specs ls : Forall2 layer_ok specs ls -> forall cards counts,
  NoDup (map fst counts ++ concat (map snd specs)) -> Forall (fun kv => (0 < kv.2)%Z) counts ->
  let r := run_layers ls cards counts in
  r.1 = List.filter (fun c => forallb (fun s => s.1 c) specs) cards /\
  total r.2 = (total counts + (py_len cards - py_len r.1))%Z /\
  sublist (map fst r.2) (map fst counts ++ concat (map snd specs)) /\ Forall (fun kv => (0 < kv.2)%Z) r.2.
Proof.
  induction 1 as [|s layer specs ls Hl _ IH]; intros cards counts Hnd Hpos.
  - change (run_layers [] cards counts) with (cards, counts). cbn [fst snd map concat].
    split_and!; [|unfold py_len; lia|by rewrite app_nil_r|done].
    symmetry. apply List.forallb_filter_id. by apply forallb_true_forall.
  - cbn zeta. rewrite run_layers_cons. destruct (Hl cards) as (Hk & Ht & Hs & Hp).
    destruct (layer cards) as [kept rc]. cbn [fst snd] in *.
    cbn [map concat] in Hnd.
    assert (NoDup ((map fst counts ++ map fst rc) ++ concat (map snd specs))) as Hnd'.
    { eapply sublist_NoDup; [exact Hnd|]. rewrite <- app_assoc. apply sublist_app; [done|]. by apply sublist_app. }
    rewrite update_fresh by (by apply NoDup_app in Hnd' as [? _]).
    destruct (IH kept (counts ++ rc)) as (R1 & R2 & R3 & R4); [by rewrite map_app|by apply Forall_app|].
    split_and!; [|rewrite R2, total_app; lia| |done].
    + rewrite R1, Hk. apply filter_and.
    + etrans; [exact R3|]. rewrite map_app, <- app_assoc. cbn [map concat]. apply sublist_app; [done|]. by apply sublist_app.
Qed.

Lemma filter_none {A} (p : A -> bool) l : (forall x, p x = false) -> List.filter p l = [].
Proof. intros H. induction l as [|x l IH]; cbn [List.filter]; [done|]. by rewrite H. Qed.

(** A layer that lets everything through, and one that stops everything. *)
Lemma pass_ok p names : (forall c, p c = true) -> layer_ok (p, names) (fun cards => (cards, [])).
Proof.
  intros H cards. cbn [fst snd]. split_and!; [by rewrite filter_all|cbn; lia|apply sublist_nil_l|constructor].
Qed.

Lemma stop_ok p reason : (forall c, p c = false) ->
  layer_ok (p, [reason]) (fun cards => ([], count_of reason (py_len cards))).
Proof.
  intros H cards. cbn [fst snd]. destruct (count_of_ok reason (py_len cards)) as (Ht & ? & ?); [unfold py_len; lia|].
  split_and!; [by rewrite filter_none|rewrite Ht; change (py_len (@nil SkillCard)) with 0%Z; lia|done..].
Qed.

Lemma layer_ext s f g : (forall cards, g cards = f cards) -> layer_ok s f -> layer_ok s g.
Proof. intros H Hf cards. rewrite H. apply Hf. Qed.

Lemma permission_ok ctx : layer_ok (permitted ctx, ["permission"]) (filter_permission ctx).
Proof.
  unfold permitted, filter_permission. destruct (truthy (hf_permissions ctx)); cbn [negb orb].
  - apply keep_if_ok.
  - by apply pass_ok.
Qed.

Lemma route_capability_ok ctx : layer_ok (capable ctx, ["route_capability"]) (filter_route_capability ctx).
Proof.
  unfold capable, filter_route_capability. destruct (dlookup (hf_route_target ctx) ROUTE_CAPABILITY_MAP) as [[|x needed]|].
  - apply stop_ok. intros c. by apply existsb_false_forall.
  - apply keep_if_ok.
  - by apply pass_ok.
Qed.

Lemma layers_ok py_hash snapshot ctx : Forall2 layer_ok (layer_specs py_hash snapshot ctx) (layers py_hash snapshot ctx).
Proof.
  unfold layer_specs, layers. repeat apply Forall2_cons_2; [..|apply Forall2_nil_2];
    first [apply permission_ok | apply route_capability_ok | apply keep_if_ok | apply sift_layer_ok].
Qed.

(** The chain is one filter on the catalogue, in the catalogue's order, and
    its counts account for every card dropped, under reasons all distinct and
    all of them positive. *)
Theorem hard_filter_spec py_hash snapshot ctx :
  let r := hard_filter py_hash snapshot ctx in
  hr_cards r = List.filter (usable py_hash snapshot ctx) (list_cards snapshot) /\
  total (hr_filtered_reason_counts r) = (py_len (list_cards snapshot) - py_len (hr_cards r))%Z /\
  NoDup (map fst (hr_filtered_reason_counts r)) /\
  Forall (fun kv => (0 < kv.2)%Z) (hr_filtered_reason_counts r).
Proof.
  cbn zeta. unfold hard_filter. fold (run_layers (layers py_hash snapshot ctx) (list_cards snapshot) []).
  assert (NoDup (concat (map snd (layer_specs py_hash snapshot ctx)))) as Hnd.
  { cbn. apply (bool_decide_unpack _). vm_compute. exact I. }
  destruct (run_layers_ok _ _ (layers_ok py_hash snapshot ctx) (list_cards snapshot) []) as (H1 & H2 & H3 & H4);
    [exact Hnd|constructor|].
  destruct (run_layers _ _ _) as [cards counts]. cbn [hr_cards hr_filtered_reason_counts fst snd] in *.
  split_and!; [exact H1|rewrite H2; cbn; lia|eapply sublist_NoDup; [exact Hnd|exact H3]|exact H4].
Qed.

(** Without any permission the permission layer filters nothing, while the
    governance guard refuses every skill that requires one. *)
Lemma filter_permission_open ctx cards : hf_permissions ctx = [] -> filter_permission ctx cards = (cards, []).
Proof. unfold filter_permission. by intros ->. Qed.
