(* ===== verification/SkillRouter.v ===== *)
(** * The skill router
    (skills/filters.py, skills/retrievers, skills/reranker.py,
    skills/decision_policy.py, skills/router.py)

    From a question to one report skill: hard filter, strong signals, domain
    and recall, reranking by a model, decision by thresholds.  The BM25 index
    and the model are arguments. *)

From stdpp Require Import pretty.
From S2P Require Import Prelude PyFloat PyVal PyList PyText Governance SkillCatalog.

(** ** Hard filter of the router (filters.py) *)

Record SkillResolveContext : Type := mkResolveContext {
  rx_user_question : string; rx_tenant_id : string; rx_skill_id : option string; rx_report_type : option string;
  rx_route_decision : option pydict; rx_agent_config : option pydict }.

Record FilterContext : Type := mkFilterCtx {
  fc_tenant_id : string; fc_user_permissions : option (list pyval); fc_agent_config : pydict;
  fc_route_target : pyval; fc_entities : pyval }.

(** [x.get(k, {})] of a dictionary read as one, anything else as empty. *)
Definition sub_dict (k : string) (d : pydict) : pydict :=
  match dlookup k d with Some (VDict e) => e | _ => [] end.

Definition from_resolve_context (context : SkillResolveContext) : FilterContext :=
  let config := opt_or (rx_agent_config context) [] in
  let route_decision := opt_or (rx_route_decision context) [] in
  let metadata := sub_dict "metadata" route_decision in
  mkFilterCtx (rx_tenant_id context)
    (match dlookup "permissions" config with Some (VList l) => Some l | _ => None end)
    config (get_or (dlookup "target" route_decision) (VStr "")) (get_or (dlookup "entities" metadata) VNone).

Definition is_lifecycle_selectable (card : SkillCard) (context : FilterContext) : bool :=
  let status := sc_lifecycle_status card in
  if String.eqb status "active" then true
  else if String.eqb status "approved" then
    is_selectable false SKILL_STATUS_ACTIVE (fc_tenant_id context)
      (match sc_tenant_overrides card with [] => None | o => Some o end)
  else false.

Definition tenant_allowed (allowed_tenants : list string) (tenant_id : string) : bool :=
  if negb (truthy allowed_tenants) then true else str_in tenant_id allowed_tenants.

Definition permission_ok (card : SkillCard) (context : FilterContext) : result bool :=
  match fc_user_permissions context with
  | None => Ok true
  | Some l => let! user := set_of_values l in Ok (is_skill_available user (sc_required_permissions card))
  end.

Definition runtime_capability_ok (card : SkillCard) (context : FilterContext) : bool :=
  let db_enabled := match dlookup "db_tool" (fc_agent_config context) with
                    | Some (VDict d) => match dlookup "enabled" d with Some v => truthy v | None => true end
                    | _ => true
                    end in
  negb (negb db_enabled && str_in "database" (sc_capabilities card)).

Definition latency_ok (card : SkillCard) (context : FilterContext) : bool :=
  if String.eqb (sc_latency_class card) "interactive" then true else py_eq (fc_route_target context) (VStr "report").

(** [entities.get(field)], the entities being read as [entities or {}] *)
Definition entity_value (entities entity_field : pyval) : result pyval :=
  match entities or_else VDict [] with
  | VDict d => let! v := get_key entity_field d in Ok (get_or v VNone)
  | _ => Raise (AttributeError "get")
  end.

Definition rule_excludes (entities rule : pyval) : result bool :=
  match rule with
  | VDict r =>
    let entity_field := get_or (dlookup "when_entity" r) VNone in
    let equals_value := get_or (dlookup "equals" r) VNone in
    if truthy entity_field && negb (match equals_value with VNone => true | _ => false end) then
      let! v := entity_value entities entity_field in Ok (py_eq v equals_value)
    else Ok false
  | _ => Ok false
  end.

(** The first rule that matches excludes. *)
Fixpoint excluded_by (entities : pyval) (rules : list pyval) : result bool :=
  match rules with
  | [] => Ok false
  | rule :: rules' => let! b := rule_excludes entities rule in if b then Ok true else excluded_by entities rules'
  end.

Definition excluded_by_rules (card : SkillCard) (context : FilterContext) : result bool :=
  excluded_by (fc_entities context) (sc_exclusion_rules card).

(** [HardFilter._check]: [None] lets the card through. *)
Definition hard_check (card : SkillCard) (context : FilterContext) : result (option string) :=
  if negb (is_lifecycle_selectable card context) then Ok (Some "LIFECYCLE_NOT_SELECTABLE")
  else if negb (tenant_allowed (sc_allowed_tenants card) (fc_tenant_id context)) then Ok (Some "TENANT_NOT_ALLOWED")
  else
    let! permitted := permission_ok card context in
    if negb permitted then Ok (Some "PERMISSION_DENIED")
    else if negb (runtime_capability_ok card context) then Ok (Some "CAPABILITY_DISABLED")
    else if negb (latency_ok card context) then Ok (Some "LATENCY_MISMATCH")
    else
      let! excluded := excluded_by_rules card context in
      if excluded then Ok (Some "EXCLUSION_RULE_MATCHED") else Ok None.

(** [HardFilter.apply]: the cards that pass and the others with their reason. *)
Fixpoint hard_apply (cards : list SkillCard) (context : FilterContext) : result (list SkillCard * list (SkillCard * string)) :=
  match cards with
  | [] => Ok ([], [])
  | card :: cards' =>
    let! reason := hard_check card context in
    let! r := hard_apply cards' context in
    Ok (match reason with None => (card :: r.1, r.2) | Some e => (r.1, (card, e) :: r.2) end)
  end.

(** ** Recall (router.py, retrievers/bm25.py) *)

Record ScoredCard : Type := mkScored { sd_card : SkillCard; sd_score : Q; sd_source : string }.

Definition DOMAIN_KEYWORD_RULES : list (string * list string) :=
  [("quality", ["质量"; "品质"; "不良"; "缺陷"; "客诉"; "良率"; "8D"; "IQC"; "OQC"]);
   ("production", ["产线"; "产能"; "稼动"; "OEE"; "工单"; "排程"; "生产"]);
   ("cost", ["成本"; "费用"; "预算"; "利润"; "财务"; "支出"]);
   ("delivery", ["交付"; "物流"; "出货"; "库存"; "周转"; "准时率"]);
   ("operations", ["运营"; "综合"; "月报"; "周报"; "看板"; "KPI"])].

Definition keyword_hits (query : string) (keywords : list string) : Z :=
  py_len (List.filter (fun kw => contains kw query) keywords).

Definition classify_domains_by_rule (query : string) : list string :=
  let scored := List.filter (fun s => 0 <? s.2)%Z
    (map (fun dk => (dk.1, keyword_hits query dk.2)) DOMAIN_KEYWORD_RULES) in
  match scored with
  | [] => ["generic"]
  | _ => map fst (take 3 (sort_desc (fun s => inject_Z s.2) scored))
  end.

Definition filter_by_domain (cards : list SkillCard) (domains : list string) : list SkillCard :=
  if str_in "generic" domains then cards
  else List.filter (fun card => str_in "generic" (sc_domains card) || existsb (fun d => str_in d domains) (sc_domains card)) cards.

(** One list of results added to the fused scores, from rank [rank] on. *)
Fixpoint rrf_add (k rank : Z) (results : list ScoredCard) (acc : list (string * Q) * list (string * SkillCard)) :
    list (string * Q) * list (string * SkillCard) :=
  match results with
  | [] => acc
  | scored :: results' =>
    let sid := sc_skill_id (sd_card scored) in
    let score := fadd (get_or (dlookup sid acc.1) 0%Q) (fdiv 1 (inject_Z (k + rank + 1))) in
    rrf_add k (rank + 1) results' (dset sid score acc.1, dset sid (sd_card scored) acc.2)
  end.

Definition reciprocal_rank_fusion (bm25_results embedding_results : list ScoredCard) (top_k k : Z) : list ScoredCard :=
  let '(rrf_scores, cards_by_id) := rrf_add k 0 embedding_results (rrf_add k 0 bm25_results ([], [])) in
  concat (map (fun sv => match dlookup sv.1 cards_by_id with Some c => [mkScored c sv.2 "rrf"] | None => [] end)
            (py_take top_k (sort_desc snd rrf_scores))).

Definition keyword_score (query : string) (card : SkillCard) : Z :=
  fold_right (fun kw n => if contains (py_lower kw) (py_lower query) then text_len kw + n else n)%Z 0%Z (sc_intents card).

Definition keyword_fallback (query : string) (cards : list SkillCard) : list ScoredCard :=
  let scored := concat (map (fun card => let score := keyword_score query card in
      if (0 <? score)%Z then [mkScored card (fint score) "keyword"] else []) cards) in
  take 20 (sort_desc sd_score scored).

(** The router gives no embedding results, so that a fusion never happens in
    it; [bm25] is the answer of the index, [None] when it raised. *)
Definition hybrid_recall (bm25 : option (string -> Z -> option (list ScoredCard))) (bm25_top_k rrf_top_k : Z) (query : string)
    (cards : list SkillCard) : list ScoredCard :=
  let bm25_results := match bm25 with
                      | Some search => match search query bm25_top_k with Some l => l | None => [] end
                      | None => []
                      end in
  let embedding_results : list ScoredCard := [] in
  if negb (truthy bm25_results) && negb (truthy embedding_results) then []
  else if negb (truthy embedding_results) then py_take rrf_top_k bm25_results
  else if negb (truthy bm25_results) then py_take rrf_top_k embedding_results
  else reciprocal_rank_fusion bm25_results embedding_results rrf_top_k 60.

(** ** Reranking (reranker.py) *)

Record RankedCandidate : Type := mkRanked { rk_skill_id : string; rk_score : Q; rk_reason : string }.

Record SkillRankDecision : Type := mkRankDecision {
  rd_candidates : list RankedCandidate; rd_multi_intent : bool; rd_missing_context : list string;
  rd_ambiguity_reason : option string; rd_rerank_degraded : bool }.

Definition fallback_to_recall_scores (candidates : list ScoredCard) : SkillRankDecision :=
  mkRankDecision
    (map (fun s => mkRanked (sc_skill_id (sd_card s)) (sd_score s) (join "" ["recall fallback (source="; sd_source s; ")"]))
       (take 5 (sort_desc sd_score candidates))) false [] None true.

Section rerank.
(** [float(text)] ([None]: [ValueError]) and [repr] of a float. *)
Context (float_of_text : string -> option Q) (float_repr : Q -> string).

(** [float(score)] clamped, 0 where the conversion fails. *)
Definition clamp_score (v : pyval) : Q :=
  let clamp q := if flt q 0 then 0%Q else if flt 1 q then 1%Q else q in
  match v with
  | VBool b => if b then 1%Q else 0%Q
  | VInt z => clamp (fint z)
  | VFloat q => clamp q
  | VStr s => match float_of_text s with Some q => clamp q | None => 0%Q end
  | VNone | VList _ | VDict _ => 0%Q
  end.

Fixpoint parse_candidates (valid_skill_ids : list string) (items : list pyval) : result (list RankedCandidate) :=
  match items with
  | [] => Ok []
  | VDict item :: items' =>
    match get_or (dlookup "skill_id" item) (VStr "") with
    | VStr skill_id =>
      let! ranked := parse_candidates valid_skill_ids items' in
      if str_in skill_id valid_skill_ids then
        Ok (mkRanked skill_id (clamp_score (get_or (dlookup "score" item) (VFloat 0)))
              (py_str float_repr (get_or (dlookup "reason" item) (VStr ""))) :: ranked)
      else Ok ranked
    | v => if hashable v then parse_candidates valid_skill_ids items' else Raise (TypeError "unhashable")
    end
  | _ :: items' => parse_candidates valid_skill_ids items'
  end.

(** A text, and a text or [None], as the schema of the decision demands. *)
Definition as_text (v : pyval) : result string :=
  match v with VStr s => Ok s | _ => Raise (ValueError "missing_context") end.

Definition as_optional_str (v : pyval) : result (option string) :=
  match v with VNone => Ok None | VStr s => Ok (Some s) | _ => Raise (ValueError "ambiguity_reason") end.

(** [data]: the JSON value of the reply, [None] when it is not JSON. *)
Definition parse_output (output_top_k : Z) (data : option pyval) (candidates : list ScoredCard) : result SkillRankDecision :=
  match data with
  | None => Ok (fallback_to_recall_scores candidates)
  | Some (VDict data) =>
    let! items := py_iter (get_or (dlookup "candidates" data) (VList [])) in
    let! ranked := parse_candidates (map (fun s => sc_skill_id (sd_card s)) candidates) items in
    match ranked with
    | [] => Ok (fallback_to_recall_scores candidates)
    | _ =>
      let! missing := rbind (py_iter (get_or (dlookup "missing_context" data) (VList []))) (rmap as_text) in
      let! ambiguity := as_optional_str (get_or (dlookup "ambiguity_reason" data) VNone) in
      Ok (mkRankDecision (py_take output_top_k ranked)
            (match dlookup "multi_intent" data with Some v => truthy v | None => false end) missing ambiguity false)
    end
  | Some _ => Raise (AttributeError "get")
  end.

(** The reply of the model to the prompt about a query and its candidates. *)
Inductive llm_reply : Type := ReplyFailed | ReplyText (json : option pyval).

Definition rerank (max_candidates output_top_k : Z) (llm_call : option (string -> list ScoredCard -> llm_reply))
    (query : string) (candidates : list ScoredCard) : result SkillRankDecision :=
  let truncated := py_take max_candidates candidates in
  match llm_call with
  | None => Ok (fallback_to_recall_scores truncated)
  | Some call => match call query truncated with
                 | ReplyFailed => Ok (fallback_to_recall_scores truncated)
                 | ReplyText data => parse_output output_top_k data truncated
                 end
  end.
End rerank.

(** ** Decision (decision_policy.py) *)

Record DecisionThresholds : Type := mkThresholds {
  th_absolute : Q; th_margin : Q; th_composition : Q; th_critical : Q; th_no_skill : Q }.

Definition default_thresholds : DecisionThresholds :=
  mkThresholds (rnd (3 # 4)) (rnd (3 # 20)) (rnd (7 # 10)) (rnd (17 # 20)) (rnd (2 # 5)).

(** The critical threshold cannot be configured. *)
Definition thresholds_from_config (float_of_text : string -> option Q) (config : option pydict) : result DecisionThresholds :=
  let d := default_thresholds in
  match opt_or config [] with
  | [] => Ok d
  | config =>
    match get_or (dlookup "skill_router" config) (VDict []) with
    | VDict skill_router =>
      let get k q := to_float float_of_text (get_or (dlookup k skill_router) (VFloat q)) in
      let! a := get "absolute_threshold" (th_absolute d) in
      let! m := get "margin_threshold" (th_margin d) in
      let! c := get "composition_confidence" (th_composition d) in
      let! n := get "no_skill_confidence" (th_no_skill d) in
      Ok (mkThresholds a m c (th_critical d) n)
    | _ => Ok d
    end
  end.

Record DecisionResult : Type := mkDecision {
  dr_decision : string; dr_selected_skill_id : option string; dr_selected_card : option SkillCard;
  dr_clarify_candidates : option (list SkillCard); dr_reason : string }.

(** [f"{q:.3f}"] *)
Definition fixed3 (q : Q) : string :=
  let n := round_even ((if flt q 0 then - q else q) * 1000)%Q in
  join "" [(if flt q 0 then "-" else ""); pretty (n / 1000)%Z; "."; pretty (n / 100 mod 10)%Z;
           pretty (n / 10 mod 10)%Z; pretty (n mod 10)%Z].

Definition with_score (label : string) (q : Q) : string := join "" [label; "("; fixed3 q; ")"].

Definition cards_of (candidates_by_id : list (string * SkillCard)) (ranked : list RankedCandidate) : list SkillCard :=
  concat (map (fun r => match dlookup (rk_skill_id r) candidates_by_id with Some c => [c] | None => [] end) ranked).

Definition build_clarify_result (rank_decision : SkillRankDecision) (candidates_by_id : list (string * SkillCard))
    (reason : string) : DecisionResult :=
  mkDecision "clarify" None None (Some (cards_of candidates_by_id (take 2 (rd_candidates rank_decision)))) reason.

(** Too close to the second candidate. *)
Definition thin_margin (t : DecisionThresholds) (candidates : list RankedCandidate) : option Q :=
  match candidates with
  | top1 :: top2 :: _ =>
    let margin := fsub (rk_score top1) (rk_score top2) in if flt margin (th_margin t) then Some margin else None
  | _ => None
  end.

Definition is_critical (card : option SkillCard) : bool :=
  match card with Some c => String.eqb (sc_risk_level c) "critical" | None => false end.

Definition decide (t : DecisionThresholds) (rank_decision : SkillRankDecision)
    (candidates_by_id : list (string * SkillCard)) : DecisionResult :=
  match rd_candidates rank_decision with
  | [] => mkDecision "no_skill" None None None "NO_CANDIDATES"
  | (top1 :: rest) as candidates =>
    let card := dlookup (rk_skill_id top1) candidates_by_id in
    let clarify := build_clarify_result rank_decision candidates_by_id in
    if flt (rk_score top1) (th_no_skill t) then
      mkDecision "no_skill" None None None (with_score "TOP1_SCORE_BELOW_THRESHOLD" (rk_score top1))
    else if is_critical card && flt (rk_score top1) (th_critical t) then
      clarify (with_score "CRITICAL_SKILL_LOW_CONFIDENCE" (rk_score top1))
    else if flt (rk_score top1) (th_absolute t) then clarify (with_score "TOP1_SCORE_BELOW_ABSOLUTE" (rk_score top1))
    else match thin_margin t candidates with
         | Some margin => clarify (with_score "INSUFFICIENT_MARGIN" margin)
         | None =>
           match opt_or (rd_ambiguity_reason rank_decision) "" with
           | (String _ _) as why => clarify (join "" ["AMBIGUITY("; why; ")"])
           | EmptyString =>
             if rd_multi_intent rank_decision && truthy rest then
               mkDecision "composition" (Some (rk_skill_id top1)) card None "MULTI_INTENT_COMPOSITION"
             else
               mkDecision "select" (Some (rk_skill_id top1)) card None
                 (join "" ["SELECTED(score="; fixed3 (rk_score top1); ")"])
           end
         end
  end.

(** ** Router (router.py) *)

Record RouterConfig : Type := mkRouterConfig {
  rc_bm25_top_k : Z; rc_embedding_top_k : Z; rc_rrf_top_k : Z; rc_reranker_max_candidates : Z; rc_domain_top_n : Z }.

Definition default_RouterConfig : RouterConfig := mkRouterConfig 20 20 20 10 3.

Record SkillResolveResult : Type := mkResolveResult {
  rr_resolved : bool; rr_fallback_used : bool; rr_reason : string; rr_warnings : list string }.

Definition failure (reason : string) : SkillResolveResult := mkResolveResult false false reason [].

Definition build_resolve_result (card : SkillCard) (source : string) : SkillResolveResult :=
  mkResolveResult true false (join ":" ["ROUTED"; source; sc_skill_id card]) [].

Definition build_decision_result (decision : DecisionResult) : SkillResolveResult :=
  let kind k := String.eqb (dr_decision decision) k in
  match kind "select", kind "composition", dr_selected_card decision with
  | true, _, Some card => build_resolve_result card "semantic"
  | _, true, Some card => build_resolve_result card "composition"
  | _, _, _ =>
    if kind "clarify" then
      mkResolveResult false false (join ":" ["CLARIFY"; dr_reason decision])
        [join "" ["clarify_candidates: "; py_repr_list (map sc_skill_id (get_or (dr_clarify_candidates decision) []))]]
    else if kind "no_skill" then failure (join ":" ["NO_SKILL"; dr_reason decision])
    else failure (join ":" ["FALLBACK"; dr_reason decision])
  end.

(** The reranker of a router: its limits; the model is given by each call. *)
Record Reranker : Type := mkReranker { rn_max_candidates : Z; rn_output_top_k : Z }.

Record SkillRouter : Type := mkRouter {
  ro_cards_by_key : list (string * string * SkillCard);
  ro_bm25 : option (string -> Z -> option (list ScoredCard));
  ro_reranker : option Reranker; ro_thresholds : DecisionThresholds; ro_config : RouterConfig }.

(** [skill_id -> card], a later version replacing an earlier one. *)
Definition cards_by_id (router : SkillRouter) : list (string * SkillCard) :=
  fold_left (fun d kc => dset kc.1.1 kc.2 d) (ro_cards_by_key router) [].

Definition extract_report_type (context : SkillResolveContext) : option string :=
  match dlookup "report_type" (sub_dict "metadata" (opt_or (rx_route_decision context) [])) with
  | Some (VStr s) => Some s
  | _ => None
  end.

Definition strong_signal_match (router : SkillRouter) (context : SkillResolveContext) : option SkillCard :=
  let by_id := match opt_or (rx_skill_id context) "" with
               | EmptyString => None
               | id => match dlookup (strip id) (cards_by_id router) with
                       | Some card => if String.eqb (sc_skill_type card) "report" then Some card else None
                       | None => None
                       end
               end in
  match by_id with
  | Some card => Some card
  | None =>
    match (if truthy (rx_report_type context) then rx_report_type context else extract_report_type context) with
    | Some ((String _ _) as t) =>
      List.find (fun card => match sc_report_type card with Some t' => String.eqb t' t | None => false end)
        (map snd (cards_by_id router))
    | _ => None
    end
  end.

Section route.
Context (float_of_text : string -> option Q) (float_repr : Q -> string).

(** Stages 1 to 6. *)
Definition route_semantic (router : SkillRouter) (query : string) (context : SkillResolveContext)
    (llm_call_func : option (string -> list ScoredCard -> llm_reply)) : result SkillResolveResult :=
  let! filtered := hard_apply (map snd (cards_by_id router)) (from_resolve_context context) in
  match filtered.1 with
  | [] => Ok (failure "NO_CANDIDATES_AFTER_FILTER")
  | passed =>
    match List.filter (fun c => String.eqb (sc_skill_type c) "report") passed with
    | [] => Ok (failure "NO_REPORT_SKILLS")
    | report_cards =>
      let domain_filtered := filter_by_domain report_cards (classify_domains_by_rule query) in
      let recalled := hybrid_recall (ro_bm25 router) (rc_bm25_top_k (ro_config router)) (rc_rrf_top_k (ro_config router))
                        query domain_filtered in
      let recall_results := if truthy recalled then recalled else keyword_fallback query domain_filtered in
      match recall_results with
      | [] => Ok (failure "NO_RECALL_RESULTS")
      | _ =>
        let! rank_decision :=
          match ro_reranker router, llm_call_func with
          | Some rn, Some call =>
            rerank float_of_text float_repr (rn_max_candidates rn) (rn_output_top_k rn) (Some call) query recall_results
          | _, _ =>
            Ok (mkRankDecision (map (fun s => mkRanked (sc_skill_id (sd_card s)) (sd_score s) "recall_only") (take 5 recall_results))
                  false [] None true)
          end in
        let candidates_by_id := fold_left (fun d s => dset (sc_skill_id (sd_card s)) (sd_card s) d) recall_results [] in
        Ok (build_decision_result (decide (ro_thresholds router) rank_decision candidates_by_id))
      end
    end
  end.

Definition route (router : SkillRouter) (context : SkillResolveContext)
    (llm_call_func : option (string -> list ScoredCard -> llm_reply)) : result SkillResolveResult :=
  let query := strip (rx_user_question context) in
  if negb (truthy query) then Ok (failure "EMPTY_QUERY")
  else match strong_signal_match router context with
       | Some strong_match =>
         let! reason := hard_check strong_match (from_resolve_context context) in
         match reason with
         | None => Ok (build_resolve_result strong_match "skill_id")
         | Some _ => route_semantic router query context llm_call_func
         end
       | None => route_semantic router query context llm_call_func
       end.
End route.

(** ** Lemmas: filter *)

(** The filter splits the cards by their check. *)
Lemma hard_apply_spec cards ctx r : hard_apply cards ctx = Ok r ->
  sublist r.1 cards /\ Forall (fun c => hard_check c ctx = Ok None) r.1 /\
  Forall (fun ce => hard_check ce.1 ctx = Ok (Some ce.2)) r.2 /\ cards ≡ₚ r.1 ++ map fst r.2.
Proof.
  revert r. induction cards as [|card cards IH]; intros r; cbn [hard_apply].
  - intros [= <-]. cbn. split_and!; [constructor|constructor|constructor|done].
  - intros ([reason|] & Hc & H)%rbind_ok; apply rbind_ok in H as (r' & Hr & [= <-]);
      destruct (IH r' Hr) as (H1 & H2 & H3 & H4); cbn [fst snd map].
    + split_and!; [by constructor|done|by constructor|]. rewrite <- Permutation_middle. by constructor.
    + split_and!; [by constructor|by constructor|done|]. cbn [app]. by constructor.
Qed.

(** What the filter tests. *)
Lemma hard_check_none card ctx : hard_check card ctx = Ok None ->
  sc_lifecycle_status card ∈ ["active"; "approved"] /\
  (sc_allowed_tenants card = [] \/ fc_tenant_id ctx ∈ sc_allowed_tenants card) /\
  permission_ok card ctx = Ok true /\ runtime_capability_ok card ctx = true /\ latency_ok card ctx = true /\
  excluded_by_rules card ctx = Ok false.
Proof.
  unfold hard_check. destruct (is_lifecycle_selectable card ctx) eqn:E1; cbn [negb]; [|done].
  destruct (tenant_allowed _ _) eqn:E2; cbn [negb]; [|done].
  intros (p & Hp & H)%rbind_ok. destruct p; cbn [negb] in H; [|done].
  destruct (runtime_capability_ok card ctx); cbn [negb] in H; [|done].
  destruct (latency_ok card ctx); cbn [negb] in H; [|done].
  apply rbind_ok in H as (x & Hx & H). destruct x; [done|]. split_and!; try done.
  - unfold is_lifecycle_selectable in E1. destruct (String.eqb_spec (sc_lifecycle_status card) "active") as [->|]; [by left|].
    destruct (String.eqb_spec (sc_lifecycle_status card) "approved") as [->|]; [by right; left|done].
  - unfold tenant_allowed in E2. destruct (sc_allowed_tenants card) as [|t l]; [by left|]. right. by apply str_in_spec.
Qed.

(** ** Lemmas: recall *)

Lemma elem_of_py_take {A} n (l : list A) x : x ∈ py_take n l -> x ∈ l.
Proof. destruct (py_take_app n l) as [l' Hl]. rewrite Hl at 2. intros. apply elem_of_app. by left. Qed.

Lemma elem_of_take_list {A} n (l : list A) x : x ∈ take n l -> x ∈ l.
Proof. intros H. rewrite <- (take_drop n l). apply elem_of_app. by left. Qed.

Lemma filter_by_domain_sub cards domains c : c ∈ filter_by_domain cards domains -> c ∈ cards.
Proof.
  unfold filter_by_domain. destruct (str_in "generic" domains); [done|].
  rewrite !list_elem_of_In. intros [H _]%List.filter_In. done.
Qed.

(** A card recalled by keywords has one of its keywords in the question. *)
Lemma elem_of_keyword_fallback query cards s : s ∈ keyword_fallback query cards ->
  sd_card s ∈ cards /\ (0 < keyword_score query (sd_card s))%Z /\ sd_score s = fint (keyword_score query (sd_card s)).
Proof.
  unfold keyword_fallback. intros H%elem_of_take_list. rewrite elem_of_sort_desc in H.
  apply list_elem_of_In, in_concat in H as (l & (c & <- & Hc)%in_map_iff & Hs).
  destruct (Z.ltb_spec 0 (keyword_score query c)); [|done].
  destruct Hs as [<-|[]]. cbn. split; [by apply list_elem_of_In|done].
Qed.

(** Keyword scores are lengths: whatever matches scores at least 1. *)
Lemma keyword_scores_at_least_one query cards s : s ∈ keyword_fallback query cards -> (1 <= sd_score s)%Q.
Proof.
  intros (_ & H & ->)%elem_of_keyword_fallback. unfold fint. rewrite <- rnd_1. apply rnd_mono.
  change 1%Q with (inject_Z 1). rewrite <- Zle_Qle. lia.
Qed.

(** ** Lemmas: reranking *)

Lemma clamp_score_unit float_of_text v : (0 <= clamp_score float_of_text v <= 1)%Q.
Proof.
  assert (forall q, 0 <= (if flt q 0 then 0 else if flt 1 q then 1 else q) <= 1)%Q as Hc.
  { intros q. destruct (flt q 0) eqn:E1; [lra|]. destruct (flt 1 q) eqn:E2; [lra|]. fcompare. lra. }
  destruct v; cbn [clamp_score]; try (split; lra); [by destruct b; split; lra|apply Hc|apply Hc|].
  destruct (float_of_text s); [apply Hc|split; lra].
Qed.

Lemma parse_candidates_spec float_of_text float_repr ids items ranked :
  parse_candidates float_of_text float_repr ids items = Ok ranked ->
  Forall (fun c => rk_skill_id c ∈ ids /\ (0 <= rk_score c <= 1)%Q) ranked.
Proof.
  revert ranked. induction items as [|item items IH]; intros ranked; cbn [parse_candidates]; [intros [= <-]; constructor|].
  destruct item as [| | | | | |item]; try apply IH.
  destruct (get_or _ _) as [| | | |sid|l|d]; cbn [hashable]; try apply IH; try done.
  intros (l & Hl & H)%rbind_ok. destruct (str_in sid ids) eqn:E; injection H as <-; [|by apply IH].
  constructor; [|by apply IH]. cbn. split; [by apply str_in_spec|apply clamp_score_unit].
Qed.

Definition candidate_ids (l : list ScoredCard) : list string := map (fun s => sc_skill_id (sd_card s)) l.

Lemma elem_of_candidate_ids x l : x ∈ candidate_ids l <-> exists s, s ∈ l /\ x = sc_skill_id (sd_card s).
Proof.
  unfold candidate_ids. rewrite list_elem_of_In, in_map_iff. setoid_rewrite list_elem_of_In. naive_solver.
Qed.

Lemma fallback_candidates l c : c ∈ rd_candidates (fallback_to_recall_scores l) -> rk_skill_id c ∈ candidate_ids l.
Proof.
  unfold fallback_to_recall_scores. cbn. rewrite list_elem_of_In, in_map_iff. intros (s & <- & Hs%list_elem_of_In%elem_of_take_list).
  rewrite elem_of_sort_desc in Hs. apply elem_of_candidate_ids. by exists s.
Qed.

Lemma StronglySorted_map_take {A B} (f : A -> B) (R : A -> A -> Prop) (S : B -> B -> Prop) n l :
  (forall x y, R x y -> S (f x) (f y)) -> StronglySorted R l -> StronglySorted S (map f (take n l)).
Proof.
  intros HRS Hs. revert n. induction Hs as [|x l Hs IH Hx]; intros [|n]; cbn; try constructor; [apply IH|].
  apply Forall_forall. intros y (z & <- & Hz)%list_elem_of_In%in_map_iff. apply HRS. rewrite Forall_forall in Hx.
  apply Hx. apply list_elem_of_In in Hz. by apply elem_of_take_list in Hz.
Qed.

Lemma degraded_sorted l :
  StronglySorted (fun a b => (rk_score b <= rk_score a)%Q) (rd_candidates (fallback_to_recall_scores l)).
Proof.
  unfold fallback_to_recall_scores. eapply StronglySorted_map_take; [|apply (sort_desc_sorted sd_score)]. by intros x y H.
Qed.

(** A reply that is accepted names candidates only, with scores within 0 and 1. *)
Lemma parse_output_cases float_of_text float_repr k data candidates d :
  parse_output float_of_text float_repr k data candidates = Ok d ->
  d = fallback_to_recall_scores candidates \/
  exists ranked, rd_candidates d = py_take k ranked /\ ranked <> [] /\ rd_rerank_degraded d = false /\
    Forall (fun c => rk_skill_id c ∈ candidate_ids candidates /\ (0 <= rk_score c <= 1)%Q) ranked.
Proof.
  destruct data as [[| | | | | |data]|]; cbn [parse_output]; try done; [|intros [= <-]; by left].
  intros (items & _ & (ranked & Hr & H)%rbind_ok)%rbind_ok. apply parse_candidates_spec in Hr.
  destruct ranked as [|c ranked]; [injection H as <-; by left|].
  apply rbind_ok in H as (missing & _ & (ambiguity & _ & [= <-])%rbind_ok). right. by exists (c :: ranked).
Qed.

Lemma rerank_candidates float_of_text float_repr m k llm query candidates d c :
  rerank float_of_text float_repr m k llm query candidates = Ok d -> c ∈ rd_candidates d ->
  rk_skill_id c ∈ candidate_ids (py_take m candidates).
Proof.
  intros H Hc. assert (d = fallback_to_recall_scores (py_take m candidates) -> rk_skill_id c ∈ candidate_ids (py_take m candidates)) as Hf.
  { intros ->. by apply fallback_candidates. }
  unfold rerank in H. destruct llm as [call|]; [|injection H as <-; by apply Hf].
  destruct (call query (py_take m candidates)) as [|data]; [injection H as <-; by apply Hf|].
  apply parse_output_cases in H as [->|(ranked & Hr & _ & _ & Hall)]; [by apply Hf|].
  rewrite Hr in Hc. apply elem_of_py_take in Hc. rewrite Forall_forall in Hall. by apply Hall.
Qed.

(** ** Lemmas: decision *)

Definition top_score (d : SkillRankDecision) : Q := match rd_candidates d with c :: _ => rk_score c | [] => 0%Q end.
Definition top_card (d : SkillRankDecision) (by_id : list (string * SkillCard)) : option SkillCard :=
  match rd_candidates d with c :: _ => dlookup (rk_skill_id c) by_id | [] => None end.

(** What it takes to choose the first candidate. *)
Definition confident (t : DecisionThresholds) (d : SkillRankDecision) (by_id : list (string * SkillCard)) : Prop :=
  rd_candidates d <> [] /\ (th_no_skill t <= top_score d)%Q /\ (th_absolute t <= top_score d)%Q /\
  (is_critical (top_card d by_id) = true -> (th_critical t <= top_score d)%Q) /\
  (forall top1 top2 rest, rd_candidates d = top1 :: top2 :: rest -> (th_margin t <= fsub (rk_score top1) (rk_score top2))%Q) /\
  opt_or (rd_ambiguity_reason d) "" = "".

Definition chooses (r : DecisionResult) : Prop := dr_decision r = "select" \/ dr_decision r = "composition".

Lemma decide_confident t d by_id : confident t d by_id -> chooses (decide t d by_id).
Proof.
  unfold confident, top_score, top_card, decide. intros (Hne & Hn & Ha & Hc & Hm & Hw).
  destruct (rd_candidates d) as [|top1 rest] eqn:E; [done|].
  apply flt_false in Hn, Ha. rewrite Hn, Ha, Hw.
  assert (is_critical (dlookup (rk_skill_id top1) by_id) && flt (rk_score top1) (th_critical t) = false) as ->.
  { destruct (is_critical _); [|done]. by apply flt_false, Hc. }
  assert (thin_margin t (top1 :: rest) = None) as ->.
  { destruct rest as [|top2 rest]; [done|]. cbn [thin_margin]. by rewrite (proj2 (flt_false _ _) (Hm _ _ _ eq_refl)). }
  destruct (_ && _); [by right|by left].
Qed.

Lemma decide_chooses t d by_id : chooses (decide t d by_id) -> confident t d by_id.
Proof.
  unfold chooses, confident, top_score, top_card, decide.
  destruct (rd_candidates d) as [|top1 rest] eqn:E; [cbn; naive_solver|].
  destruct (flt (rk_score top1) (th_no_skill t)) eqn:En; [cbn; naive_solver|].
  destruct (is_critical _ && _) eqn:Ec; [cbn; naive_solver|].
  destruct (flt (rk_score top1) (th_absolute t)) eqn:Ea; [cbn; naive_solver|].
  destruct (thin_margin t (top1 :: rest)) eqn:Em; [cbn; naive_solver|].
  destruct (opt_or (rd_ambiguity_reason d) "") eqn:Ew; [|cbn; naive_solver]. intros _. fcompare.
  split_and!; try done.
  - intros Hcrit. rewrite Hcrit in Ec. cbn [andb] in Ec. by apply flt_false in Ec.
  - intros x top2 rest' [= <- ->]. cbn [thin_margin] in Em.
    destruct (flt (fsub (rk_score top1) (rk_score top2)) (th_margin t)) eqn:Ef; [done|]. by apply flt_false in Ef.
Qed.

(** Whatever is decided, a selected card is the first candidate's. *)
Lemma decide_selected_card t d by_id card : dr_selected_card (decide t d by_id) = Some card ->
  chooses (decide t d by_id) /\ top_card d by_id = Some card.
Proof.
  unfold top_card, decide, chooses. destruct (rd_candidates d) as [|top1 rest]; [done|].
  destruct (flt _ _); [done|]. destruct (_ && _); [done|]. destruct (flt _ _); [done|].
  destruct (thin_margin _ _); [done|]. destruct (opt_or _ _); [|done].
  destruct (_ && _); cbn; intros; eauto.
Qed.

(** ** Lemmas: routing *)

Lemma dict_of_cards {A} (key : A -> string) (val : A -> SkillCard) l k c :
  dlookup k (fold_left (fun d x => dset (key x) (val x) d) l []) = Some c -> exists x, x ∈ l /\ key x = k /\ val x = c.
Proof.
  induction l as [|x l IH] using rev_ind; [done|]. rewrite fold_left_app. cbn [fold_left]. rewrite dlookup_dset.
  destruct (String.eqb_spec k (key x)) as [->|]; [intros [= <-]; exists x; set_solver|].
  intros (y & Hy & ?)%IH. exists y. split; [set_solver|done].
Qed.

Lemma build_decision_resolved r : rr_resolved (build_decision_result r) = true ->
  exists card source, dr_selected_card r = Some card /\ build_decision_result r = build_resolve_result card source.
Proof.
  unfold build_decision_result. destruct (String.eqb (dr_decision r) "select"), (String.eqb (dr_decision r) "composition"),
    (dr_selected_card r) as [card|], (String.eqb (dr_decision r) "clarify"), (String.eqb (dr_decision r) "no_skill");
    cbn; intros H; try discriminate; eauto.
Qed.

(** The cards that a router may choose for a request. *)
Definition admitted_card (router : SkillRouter) (context : SkillResolveContext) (card : SkillCard) : Prop :=
  card ∈ map snd (cards_by_id router) /\ hard_check card (from_resolve_context context) = Ok None.

(** A card that the text index returned for the question. *)
Definition indexed_card (router : SkillRouter) (context : SkillResolveContext) (card : SkillCard) : Prop :=
  exists search hits s, ro_bm25 router = Some search /\
    search (strip (rx_user_question context)) (rc_bm25_top_k (ro_config router)) = Some hits /\ s ∈ hits /\ card = sd_card s.

Lemma hybrid_recall_indexed router context k cards s :
  s ∈ hybrid_recall (ro_bm25 router) (rc_bm25_top_k (ro_config router)) k (strip (rx_user_question context)) cards ->
  indexed_card router context (sd_card s).
Proof.
  unfold hybrid_recall, indexed_card. destruct (ro_bm25 router) as [search|]; [|cbn; set_solver].
  destruct (search _ _) as [[|h hits]|] eqn:E; [cbn; set_solver| |cbn; set_solver].
  cbn [truthy truthy_list negb andb]. intros H%elem_of_py_take. eauto 8.
Qed.

Lemma route_semantic_admitted float_of_text float_repr router context llm r :
  route_semantic float_of_text float_repr router (strip (rx_user_question context)) context llm = Ok r -> rr_resolved r = true ->
  exists card source, r = build_resolve_result card source /\
    ((admitted_card router context card /\ sc_skill_type card = "report") \/ indexed_card router context card).
Proof.
  unfold route_semantic. intros ([passed excluded] & Hf & H)%rbind_ok Hres. cbn [fst] in H.
  destruct (hard_apply_spec _ _ _ Hf) as (Hsub & Hpass & _ & _). cbn [fst] in Hsub, Hpass.
  destruct passed as [|p passed]; [by injection H as <-|].
  destruct (List.filter _ (p :: passed)) as [|c reports] eqn:Er; [by injection H as <-|].
  set (dom := filter_by_domain _ _) in H. set (recalled := hybrid_recall _ _ _ _ _) in H.
  assert (forall s, s ∈ (if truthy recalled then recalled else keyword_fallback (strip (rx_user_question context)) dom) ->
    (admitted_card router context (sd_card s) /\ sc_skill_type (sd_card s) = "report") \/ indexed_card router context (sd_card s)) as Hin.
  { intros s. destruct (truthy recalled); [intros Hs; right; by eapply hybrid_recall_indexed|].
    intros (Hs & _)%elem_of_keyword_fallback. left. apply filter_by_domain_sub in Hs. rewrite <- Er in Hs.
    apply list_elem_of_In, List.filter_In in Hs as [Hs Ht%String.eqb_eq]. apply list_elem_of_In in Hs. split; [|done].
    split; [by eapply elem_of_sublist|]. rewrite Forall_forall in Hpass. by apply Hpass. }
  destruct (if truthy recalled then recalled else _) as [|s0 recall] eqn:Ec; [by injection H as <-|].
  apply rbind_ok in H as (rank & _ & [= <-]).
  destruct (build_decision_resolved _ Hres) as (card & source & Hsel & Hb). exists card, source. split; [done|].
  apply decide_selected_card in Hsel as [_ Htop]. unfold top_card in Htop. destruct (rd_candidates rank) as [|top1 rest]; [done|].
  apply (dict_of_cards (fun s => sc_skill_id (sd_card s)) sd_card (s0 :: recall)) in Htop as (s & Hs & _ & <-). by apply Hin.
Qed.

(** ** The properties *)

(** A question is routed to a skill only when that skill passed every hard
    filter and is a card of the catalogue, whatever the model that reranks
    replies; the exception is a card returned by the text index, which is not
    restricted to the filtered cards. *)
Theorem route_admitted float_of_text float_repr router context llm r
  (Hroute : route float_of_text float_repr router context llm = Ok r) (Hres : rr_resolved r = true) :
  exists card source, r = build_resolve_result card source /\
    (admitted_card router context card \/ indexed_card router context card).
Proof.
  unfold route in Hroute. destruct (negb _); [by injection Hroute as <-|].
  destruct (strong_signal_match router context) as [card|] eqn:Es.
  - apply rbind_ok in Hroute as (reason & Hc & H). destruct reason as [reason|].
    + destruct (route_semantic_admitted _ _ _ _ _ _ H Hres) as (c & source & Hr & [[? _]|?]); exists c, source; auto.
    + injection H as <-. exists card, "skill_id". split; [done|]. left. split; [|done].
      unfold strong_signal_match in Es. destruct (match opt_or (rx_skill_id context) "" with "" => None | _ => _ end) as [c|] eqn:Ei.
      * injection Es as ->. destruct (opt_or (rx_skill_id context) "") as [|a id]; [done|].
        destruct (dlookup _ _) as [c|] eqn:Ed; [|done]. destruct (String.eqb _ _); [|done]. injection Ei as ->.
        apply dlookup_elem in Ed. apply list_elem_of_In, in_map_iff. exists (strip (String a id), card). split; [done|].
        by apply list_elem_of_In.
      * destruct (if truthy (rx_report_type context) then _ else _) as [[|a t]|]; [done| |done].
        apply List.find_some in Es as [Hin _]. by apply list_elem_of_In.
  - destruct (route_semantic_admitted _ _ _ _ _ _ Hroute Hres) as (c & source & Hr & [[? _]|?]); exists c, source; auto.
Qed.

(** The decision chooses the first candidate exactly when its score reaches
    every threshold (the critical one too for a critical skill), its lead over
    the second reaches the margin and no ambiguity is reported. *)
Theorem decide_chooses_iff t d by_id : chooses (decide t d by_id) <-> confident t d by_id.
Proof. split; [apply decide_chooses|apply decide_confident]. Qed.

(** Raising thresholds never turns a refusal into a choice. *)
Theorem stricter_thresholds_choose_less t t' d by_id
  (Hle : (th_no_skill t <= th_no_skill t' /\ th_absolute t <= th_absolute t' /\ th_critical t <= th_critical t' /\
          th_margin t <= th_margin t')%Q)
  (Hc : chooses (decide t' d by_id)) : chooses (decide t d by_id).
Proof.
  apply decide_confident. apply decide_chooses in Hc as (? & ? & ? & Hcrit & Hm & ?).
  unfold confident. split_and!; try done; try lra.
  - intros Hk. specialize (Hcrit Hk). lra.
  - intros top1 top2 rest E. specialize (Hm _ _ _ E). lra.
Qed.

(** Reranking never leaves the candidates it was given: at most
    [output_top_k] of them with scores between 0 and 1, or, when the model
    failed or named none of them, the five best by recall, in order. *)
Theorem rerank_stays_in_candidates float_of_text float_repr m k llm query candidates d
  (Hk : (1 <= k)%Z) (H : rerank float_of_text float_repr m k llm query candidates = Ok d) :
  (forall c, c ∈ rd_candidates d -> rk_skill_id c ∈ candidate_ids (py_take m candidates)) /\
  (if rd_rerank_degraded d
   then length (rd_candidates d) <= 5 /\ StronglySorted (fun a b => (rk_score b <= rk_score a)%Q) (rd_candidates d)
   else rd_candidates d <> [] /\ length (rd_candidates d) <= Z.to_nat k /\
        Forall (fun c => (0 <= rk_score c <= 1)%Q) (rd_candidates d)).
Proof.
  split; [intros c; by eapply rerank_candidates|].
  assert (d = fallback_to_recall_scores (py_take m candidates) \/
    exists ranked, rd_candidates d = py_take k ranked /\ ranked <> [] /\ rd_rerank_degraded d = false /\
      Forall (fun c => rk_skill_id c ∈ candidate_ids (py_take m candidates) /\ (0 <= rk_score c <= 1)%Q) ranked) as Hd.
  { unfold rerank in H. destruct llm as [call|]; [|injection H as <-; by left].
    destruct (call query (py_take m candidates)) as [|data]; [injection H as <-; by left|].
    by apply parse_output_cases in H. }
  destruct Hd as [->|(ranked & Hr & Hne & -> & Hall)].
  - cbn. rewrite length_map, length_take. split; [lia|]. by apply degraded_sorted.
  - rewrite Hr. pose proof (py_take_length_nonneg k ranked ltac:(lia)) as Hlen. unfold py_len in Hlen. split_and!; [|lia|].
    + intros E. rewrite E in Hlen. destruct ranked; [done|]. cbn [length] in Hlen. lia.
    + apply Forall_forall. intros c Hc%elem_of_py_take. rewrite Forall_forall in Hall. by apply Hall.
Qed.

(** ** What the router lets through *)

(** An approved skill counts as active, whatever its overrides say. *)
Lemma approved_is_selectable card ctx : sc_lifecycle_status card = "approved" -> is_lifecycle_selectable card ctx = true.
Proof. unfold is_lifecycle_selectable. by intros ->. Qed.

(** A report of the catalogue of the examples. *)
Definition example_card (id status risk : string) : SkillCard :=
  mkCard id "1.0" "report" ["quality"] ["database"] ["q"] [] [] [] [] status [] risk "low" "interactive" true [] "main_chain" None.

Definition example_router (bm25 : option (string -> Z -> option (list ScoredCard))) (cards : list SkillCard) : SkillRouter :=
  mkRouter (map (fun c => (sc_skill_id c, sc_version c, c)) cards) bm25 None default_thresholds default_RouterConfig.

Definition example_context : SkillResolveContext := mkResolveContext "q3 report" "t1" None None None None.

(** The text index brings back what the hard filter removed. *)
Lemma index_bypasses_filter :
  let draft := example_card "draft_report" "draft" "low" in
  let router := example_router (Some (fun _ _ => Some [mkScored draft 5 "bm25"])) [example_card "quality_report" "active" "low"; draft] in
  hard_check draft (from_resolve_context example_context) = Ok (Some "LIFECYCLE_NOT_SELECTABLE") /\
  route (fun _ => None) (fun _ => "") router example_context None = Ok (mkResolveResult true false "ROUTED:semantic:draft_report" []).
Proof. split; vm_compute; reflexivity. Qed.

(** A single shared letter is a confident match, even of a critical skill. *)
Lemma keyword_letter_selects_critical :
  route (fun _ => None) (fun _ => "") (example_router None [example_card "shutdown_report" "active" "critical"]) example_context None
  = Ok (mkResolveResult true false "ROUTED:semantic:shutdown_report" []).
Proof. vm_compute. reflexivity. Qed.

(** The same skill named twice by the model competes with itself. *)
Lemma repeated_candidate_clarifies :
  dr_reason (decide default_thresholds
    (mkRankDecision [mkRanked "a" (rnd (9 # 10)) ""; mkRanked "a" (rnd (9 # 10)) ""] false [] None false) [])
  = "INSUFFICIENT_MARGIN(0.000)".
Proof. vm_compute. reflexivity. Qed.

(** ** Witnesses *)

Lemma route_admitted_witness :
  let router := example_router None [example_card "quality_report" "active" "low"] in
  exists card source, mkResolveResult true false "ROUTED:semantic:quality_report" [] = build_resolve_result card source /\
    (admitted_card router example_context card \/ indexed_card router example_context card).
Proof.
  eapply (route_admitted (fun _ => None) (fun _ => "") _ example_context None); [vm_compute; reflexivity|reflexivity].
Defined.

Definition example_ranking : SkillRankDecision :=
  mkRankDecision [mkRanked "a" (rnd (9 # 10)) ""; mkRanked "b" (rnd (1 # 2)) ""] false [] None false.

Lemma stricter_thresholds_choose_less_witness : chooses (decide (mkThresholds 0 0 0 0 0) example_ranking []).
Proof.
  apply (stricter_thresholds_choose_less _ default_thresholds).
  - repeat split; vm_compute; discriminate.
  - left. vm_compute. reflexivity.
Defined.

Definition example_reply : pyval :=
  VDict [("candidates", VList [VDict [("skill_id", VStr "quality_report"); ("score", VFloat 2)]; VDict [("skill_id", VStr "other")]])].

Lemma rerank_stays_in_candidates_witness :
  let given := [mkScored (example_card "quality_report" "active" "low") 1 "bm25"] in
  let d := mkRankDecision [mkRanked "quality_report" 1 ""] false [] None false in
  (forall c, c ∈ rd_candidates d -> rk_skill_id c ∈ candidate_ids (py_take 10 given)) /\
  (if rd_rerank_degraded d
   then length (rd_candidates d) <= 5 /\ StronglySorted (fun a b => (rk_score b <= rk_score a)%Q) (rd_candidates d)
   else rd_candidates d <> [] /\ length (rd_candidates d) <= Z.to_nat 5 /\
        Forall (fun c => (0 <= rk_score c <= 1)%Q) (rd_candidates d)).
Proof.
  apply (rerank_stays_in_candidates (fun _ => None) (fun _ => "") 10 5 (Some (fun _ _ => ReplyText (Some example_reply))) "q").
  - lia.
  - vm_compute. reflexivity.
Defined.
