(* ===== verification/SkillSelector.v ===== *)
(** * Choosing between implementations and rolling out
    (skills/candidate_selector.py, skills/canary_splitter.py)

    The five-level selector among candidate manifests, and the split of
    traffic between the old and the new router.  The packaging library and
    the MD5 digest are arguments. *)

From S2P Require Import Prelude PyFloat PyVal PyList PyText SkillVersion SkillCatalog.

(** ** Candidate selector *)

Record CandidateSelectionContext : Type := mkSelection {
  sx_tenant_id : string; sx_preferred_skill_id : option string; sx_preferred_cost_class : option string;
  sx_preferred_latency_class : option string; sx_preferred_version : option string }.

Definition cost_rank (cost_class : string) : Z :=
  get_or (dlookup cost_class [("low", 0%Z); ("medium", 1%Z); ("high", 2%Z)]) 1%Z.

Definition latency_rank (latency_class : string) : Z :=
  get_or (dlookup latency_class [("interactive", 0%Z); ("batch", 1%Z)]) 0%Z.

(** [min(rank(c) for c in pool)] and the members that reach it. *)
Fixpoint min_rank (rank : SkillManifest -> Z) (best : Z) (pool : list SkillManifest) : Z :=
  match pool with
  | [] => best
  | c :: pool' => min_rank rank (if (rank c <? best)%Z then rank c else best) pool'
  end.

Definition lowest (rank : SkillManifest -> Z) (pool : list SkillManifest) : list SkillManifest :=
  match pool with
  | [] => []
  | c :: pool' => List.filter (fun x => Z.eqb (rank x) (min_rank rank (rank c) pool')) pool
  end.

(** One level: the preferred class where it occurs, the lowest otherwise. *)
Definition filter_by_class (class : SkillManifest -> string) (rank : SkillManifest -> Z) (pool : list SkillManifest)
    (preferred : option string) : list SkillManifest :=
  if negb (truthy pool) then pool
  else
    let filtered := match preferred with
                    | Some p => if truthy p then List.filter (fun c => String.eqb (class c) p) pool else []
                    | None => []
                    end in
    if truthy filtered then filtered else lowest rank pool or_else pool.

Definition cost_of (c : SkillManifest) : Z := cost_rank (sc_cost_class (sm_card c)).
Definition latency_of (c : SkillManifest) : Z := latency_rank (sc_latency_class (sm_card c)).

Definition filter_by_cost : list SkillManifest -> option string -> list SkillManifest :=
  filter_by_class (fun c => sc_cost_class (sm_card c)) cost_of.
Definition filter_by_latency : list SkillManifest -> option string -> list SkillManifest :=
  filter_by_class (fun c => sc_latency_class (sm_card c)) latency_of.

Section selector.
Context {Version : Type} (parse_version : string -> option Version) (version_lt : Version -> Version -> bool)
  (specifier_set : string -> option (Version -> bool)).
Variable has_packaging : bool.

(** [_version_key]: a version of the library, or a triple where it is
    missing or refuses the text. *)
Definition version_key (version : string) : Version + semver :=
  match (if has_packaging then parse_version version else None) with
  | Some v => inl v
  | None => inr (parse_semver version)
  end.

(** [a > b]: a version and a triple do not compare. *)
Definition key_gt (a b : Version + semver) : result bool :=
  match a, b with
  | inl x, inl y => Ok (version_lt y x)
  | inr x, inr y => Ok (semver_lt y x)
  | _, _ => Raise (TypeError "'>' not supported")
  end.

Definition key_of (c : SkillManifest) : Version + semver := version_key (sc_version (sm_card c)).

(** [max(pool, key=...)] *)
Fixpoint newest_from (best : SkillManifest) (pool : list SkillManifest) : result SkillManifest :=
  match pool with
  | [] => Ok best
  | c :: pool' => let! gt := key_gt (key_of c) (key_of best) in newest_from (if gt then c else best) pool'
  end.

Definition pick_by_version (pool : list SkillManifest) (preferred_version : option string) : result (option SkillManifest) :=
  match pool with
  | [] => Ok None
  | c :: pool' =>
    match (match preferred_version with
           | Some p => if truthy p then List.find (fun x => String.eqb (sc_version (sm_card x)) p) pool else None
           | None => None
           end) with
    | Some x => Ok (Some x)
    | None => let! x := newest_from c pool' in Ok (Some x)
    end
  end.

Definition version_satisfies (version constraint : string) : bool :=
  match resolve_version_constraint parse_version version_lt specifier_set has_packaging [version] constraint with
  | Some v => String.eqb v version
  | None => false
  end.

(** The candidates that meet the constraint, or all where none does. *)
Definition constrained (candidates : list SkillManifest) (constraint : option string) : list SkillManifest :=
  match constraint with
  | Some c => if truthy c then List.filter (fun x => version_satisfies (sc_version (sm_card x)) c) candidates or_else candidates
              else candidates
  | None => candidates
  end.

Definition preferred_candidate (pool : list SkillManifest) (preferred : option string) : option SkillManifest :=
  match preferred with
  | Some p => if truthy p then List.find (fun c => String.eqb (sc_skill_id (sm_card c)) p) pool else None
  | None => None
  end.

(** [CandidateDependencySelector.select] *)
Definition select (candidates : list SkillManifest) (context : CandidateSelectionContext) (constraint : option string) :
    result (option SkillManifest) :=
  if negb (truthy candidates) then Ok None
  else
    let pool := constrained candidates constraint in
    match preferred_candidate pool (sx_preferred_skill_id context) with
    | Some c => Ok (Some c)
    | None =>
      match filter_by_cost pool (sx_preferred_cost_class context) with
      | [c] => Ok (Some c)
      | pool =>
        match filter_by_latency pool (sx_preferred_latency_class context) with
        | [c] => Ok (Some c)
        | pool =>
          let! chosen := pick_by_version pool (sx_preferred_version context) in
          match chosen with Some c => Ok (Some c) | None => Ok (head pool) end
        end
      end
    end.
End selector.

(** ** Canary *)

Record CanaryConfig : Type := mkCanary { cn_canary_tenants : list string; cn_rollout_percentage : Q; cn_enabled : bool }.

(** [md5_head key]: the number in the first eight hexadecimal digits of the
    MD5 digest of [key]. *)
Definition canary_bucket (md5_head : string -> Z) (tenant_id catalog_revision : string) : Q :=
  fdiv (inject_Z (md5_head (join ":" [tenant_id; catalog_revision]) mod 10000)) 100.

Definition should_use_new_router (md5_head : string -> Z) (tenant_id catalog_revision : string) (config : CanaryConfig) : bool :=
  if negb (cn_enabled config) then false
  else if truthy tenant_id && str_in tenant_id (cn_canary_tenants config) then true
  else
    let pct := cn_rollout_percentage config in
    if fle pct 0 then false
    else if fge pct 100 then true
    else flt (canary_bucket md5_head tenant_id catalog_revision) pct.

(** ** Lemmas: ranks *)

Lemma min_rank_le rank best pool :
  (min_rank rank best pool <= best)%Z /\ (forall c, c ∈ pool -> (min_rank rank best pool <= rank c)%Z) /\
  (min_rank rank best pool = best \/ exists c, c ∈ pool /\ min_rank rank best pool = rank c).
Proof.
  revert best. induction pool as [|x pool IH]; intros best; cbn [min_rank]; [split_and!; [lia|set_solver|by left]|].
  destruct (IH (if (rank x <? best)%Z then rank x else best)) as (H1 & H2 & H3). split_and!.
  - destruct (Z.ltb_spec (rank x) best); lia.
  - intros c [->|Hc]%elem_of_cons; [|auto]. destruct (Z.ltb_spec (rank x) best); lia.
  - destruct H3 as [->|(c & Hc & ->)]; [|right; set_solver]. destruct (rank x <? best)%Z; [right; set_solver|by left].
Qed.

Definition is_lowest (rank : SkillManifest -> Z) (pool : list SkillManifest) (c : SkillManifest) : Prop :=
  c ∈ pool /\ forall x, x ∈ pool -> (rank c <= rank x)%Z.

Lemma elem_of_lowest rank pool c : c ∈ lowest rank pool <-> is_lowest rank pool c.
Proof.
  unfold is_lowest. destruct pool as [|x pool]; [set_solver|]. unfold lowest.
  destruct (min_rank_le rank (rank x) pool) as (H1 & H2 & H3). rewrite list_elem_of_In, filter_In, <- list_elem_of_In, Z.eqb_eq.
  split; intros [Hin H]; (split; [done|]).
  - rewrite H. intros y [->|Hy]%elem_of_cons; auto.
  - apply Z.le_antisymm; [destruct H3 as [->|(y & Hy & ->)]; apply H; set_solver|].
    apply elem_of_cons in Hin as [->|Hin]; auto.
Qed.

Lemma lowest_nonempty rank pool : pool <> [] -> lowest rank pool <> [].
Proof.
  destruct pool as [|x pool]; [done|]. intros _ E. destruct (min_rank_le rank (rank x) pool) as (_ & _ & H3).
  assert (exists y, y ∈ x :: pool /\ rank y = min_rank rank (rank x) pool) as (y & Hy & He).
  { destruct H3 as [->|(y & Hy & ->)]; [exists x|exists y]; set_solver. }
  assert (y ∈ lowest rank (x :: pool)) as Hin; [|rewrite E in Hin; by apply not_elem_of_nil in Hin].
  unfold lowest. apply list_elem_of_In, filter_In. split; [by apply list_elem_of_In|by apply Z.eqb_eq].
Qed.

Lemma truthy_nonempty {A} (l : list A) : truthy l = true <-> l <> [].
Proof. by destruct l. Qed.

(** A level never empties the pool, and without a preference takes the lowest class. *)
Lemma filter_by_class_spec class rank pool preferred : pool <> [] ->
  filter_by_class class rank pool preferred <> [] /\
  (forall c, c ∈ filter_by_class class rank pool preferred -> c ∈ pool) /\
  (preferred = None -> forall c, c ∈ filter_by_class class rank pool preferred <-> is_lowest rank pool c).
Proof.
  intros Hne. unfold filter_by_class, py_or. rewrite (proj2 (truthy_nonempty pool) Hne). cbn [negb].
  pose proof (lowest_nonempty rank pool Hne) as Hl. rewrite (proj2 (truthy_nonempty _) Hl).
  set (filtered := match preferred with Some p => _ | None => _ end).
  assert (forall c, c ∈ filtered -> c ∈ pool) as Hsub.
  { intros c. unfold filtered. destruct preferred as [p|]; [|set_solver]. destruct (truthy p); [|set_solver].
    rewrite list_elem_of_In, filter_In. intros [? _]. by apply list_elem_of_In. }
  destruct (truthy filtered) eqn:Ef; split_and!.
  - by apply truthy_nonempty.
  - done.
  - intros ->. done.
  - done.
  - intros c Hc%elem_of_lowest. apply Hc.
  - intros _ c. apply elem_of_lowest.
Qed.

(** ** Lemmas: versions *)

Section newest.
Context {Version : Type} (parse_version : string -> option Version) (version_lt : Version -> Version -> bool)
  `{!VersionOrder version_lt} (has_packaging : bool).

Abbreviation gt := (key_gt version_lt).
Abbreviation key := (key_of parse_version has_packaging).

Lemma key_gt_refl a : gt a a = Ok false.
Proof. destruct a; cbn; by rewrite vo_irrefl. Qed.

Lemma key_gt_asym a b : gt a b = Ok true -> gt b a = Ok false.
Proof. destruct a, b; cbn; intros [= H]; by rewrite (vo_asym _ _ H). Qed.

Lemma key_gt_trans a b c : gt a b = Ok false -> gt b c = Ok false -> gt a c = Ok false.
Proof. destruct a, b, c; cbn; try done; intros [= H1] [= H2]; by rewrite (vo_trans _ _ _ H2 H1). Qed.

(** The newest version, when all versions compare. *)
Lemma newest_from_spec best pool c : newest_from parse_version version_lt has_packaging best pool = Ok c ->
  c ∈ best :: pool /\ forall x, x ∈ best :: pool -> gt (key x) (key c) = Ok false.
Proof.
  revert best. induction pool as [|y pool IH]; intros best; cbn [newest_from].
  - intros [= <-]. split; [by left|]. intros x ->%list_elem_of_singleton. apply key_gt_refl.
  - destruct (gt (key y) (key best)) as [b|] eqn:Eg; [|done]. cbn [rbind]. intros H.
    destruct (IH _ H) as [Hin Hmax]. split; [destruct b; set_solver|].
    intros x Hx. assert (gt (key (if b then y else best)) (key c) = Ok false) as Hb by (apply Hmax; by left).
    apply elem_of_cons in Hx as [->|[->|Hx]%elem_of_cons]; [| |apply Hmax; by right]; (eapply key_gt_trans; [|exact Hb]);
      destruct b; try apply key_gt_refl; [by apply key_gt_asym|done].
Qed.

Lemma pick_by_version_spec pool preferred r : pool <> [] ->
  pick_by_version parse_version version_lt has_packaging pool preferred = Ok r ->
  exists c, r = Some c /\ c ∈ pool /\ (preferred = None -> forall x, x ∈ pool -> gt (key x) (key c) = Ok false).
Proof.
  destruct pool as [|c pool]; [done|]. intros _. unfold pick_by_version.
  set (found := match preferred with Some p => _ | None => _ end). destruct found as [x|] eqn:Ef.
  - intros [= <-]. exists x. split; [done|]. unfold found in Ef. destruct preferred as [p|]; [|done].
    destruct (truthy p); [|done]. apply List.find_some in Ef as [Hin _]. split; [by apply list_elem_of_In|done].
  - destruct (newest_from _ _ _ c pool) as [x|] eqn:En; [|done]. intros [= <-]. exists x.
    apply newest_from_spec in En as [Hin Hmax]. done.
Qed.
End newest.

Lemma constrained_sub {Version} parse_version version_lt specifier_set hp candidates constraint :
  candidates <> [] ->
  @constrained Version parse_version version_lt specifier_set hp candidates constraint <> [] /\
  forall c, c ∈ constrained parse_version version_lt specifier_set hp candidates constraint -> c ∈ candidates.
Proof.
  intros Hne. unfold constrained, py_or. destruct constraint as [t|]; [|done]. destruct (truthy t); [|done].
  destruct (truthy (List.filter _ candidates)) eqn:E; [|done]. split; [by apply truthy_nonempty|].
  intros c. rewrite list_elem_of_In, filter_In. intros [? _]. by apply list_elem_of_In.
Qed.

(** What is selected without preferences: lowest cost, then lowest latency,
    then newest. *)
Definition best_of {Version} (version_lt : Version -> Version -> bool) (key : SkillManifest -> Version + semver)
    (pool : list SkillManifest) (c : SkillManifest) : Prop :=
  forall x, x ∈ pool -> (cost_of c < cost_of x)%Z \/ cost_of c = cost_of x /\
    ((latency_of c < latency_of x)%Z \/ latency_of c = latency_of x /\ key_gt version_lt (key x) (key c) = Ok false).

Lemma best_of_levels {Version} (version_lt : Version -> Version -> bool) key pool c :
  is_lowest cost_of pool c ->
  (forall x, x ∈ pool -> cost_of x = cost_of c -> (latency_of c < latency_of x)%Z \/
    latency_of c = latency_of x /\ key_gt version_lt (key x) (key c) = Ok false) ->
  best_of version_lt key pool c.
Proof.
  intros [_ Hc] H x Hx. specialize (Hc x Hx). destruct (Z.lt_trichotomy (cost_of c) (cost_of x)) as [?|[?|?]]; [by left| |lia].
  right. split; [done|]. apply H; [done|by symmetry].
Qed.

Lemma lowest_tie rank pool c x : is_lowest rank pool c -> x ∈ pool -> rank x = rank c -> is_lowest rank pool x.
Proof. intros [_ H] Hx E. split; [done|]. intros y Hy. rewrite E. auto. Qed.

Lemma preferred_in pool preferred c : preferred_candidate pool preferred = Some c -> c ∈ pool.
Proof.
  unfold preferred_candidate. destruct preferred as [p|]; [|done]. destruct (truthy p); [|done].
  intros [Hin _]%List.find_some. by apply list_elem_of_In.
Qed.

Section levels.
Context {Version : Type} (parse_version : string -> option Version) (version_lt : Version -> Version -> bool)
  `{!VersionOrder version_lt} (has_packaging : bool).

(** The levels below the preferred skill. *)
Definition levels (pool : list SkillManifest) (cost latency version : option string) : result (option SkillManifest) :=
  match filter_by_cost pool cost with
  | [c] => Ok (Some c)
  | pool =>
    match filter_by_latency pool latency with
    | [c] => Ok (Some c)
    | pool =>
      let! chosen := pick_by_version parse_version version_lt has_packaging pool version in
      match chosen with Some c => Ok (Some c) | None => Ok (head pool) end
    end
  end.

Lemma levels_last pool version r : pool <> [] ->
  (let! chosen := pick_by_version parse_version version_lt has_packaging pool version in
   match chosen with Some c => Ok (Some c) | None => Ok (head pool) end) = Ok r ->
  exists c, r = Some c /\ c ∈ pool /\ (version = None -> forall x, x ∈ pool ->
    key_gt version_lt (key_of parse_version has_packaging x) (key_of parse_version has_packaging c) = Ok false).
Proof.
  intros Hne. destruct (pick_by_version _ _ _ _ _) as [o|] eqn:E; [|done]. cbn [rbind].
  destruct (pick_by_version_spec _ _ _ _ _ _ Hne E) as (c & -> & Hin & Hmax). intros [= <-]. eauto.
Qed.

Lemma levels_spec pool cost latency version r : pool <> [] -> levels pool cost latency version = Ok r ->
  exists c, r = Some c /\ c ∈ pool /\ (cost = None -> latency = None -> version = None ->
    best_of version_lt (key_of parse_version has_packaging) pool c).
Proof.
  intros Hne H. unfold levels in H.
  destruct (filter_by_class_spec (fun c => sc_cost_class (sm_card c)) cost_of pool cost Hne) as (Hne1 & Hsub1 & Hlow1).
  fold (filter_by_cost pool cost) in *. remember (filter_by_cost pool cost) as P1 eqn:EP1.
  destruct (filter_by_class_spec (fun c => sc_latency_class (sm_card c)) latency_of P1 latency Hne1) as (Hne2 & Hsub2 & Hlow2).
  fold (filter_by_latency P1 latency) in *. remember (filter_by_latency P1 latency) as P2 eqn:EP2.
  assert (exists c, r = Some c /\ c ∈ P2 /\ (P1 = [c] \/ P2 = [c] \/ (version = None -> forall x, x ∈ P2 ->
    key_gt version_lt (key_of parse_version has_packaging x) (key_of parse_version has_packaging c) = Ok false))) as (c & -> & Hc & Hlast).
  { destruct P1 as [|c1 [|c1' P1']] eqn:E1; [done| |].
    - injection H as <-. exists c1. split; [done|]. split; [|by left]. destruct P2 as [|x P2'] eqn:E2; [done|].
      assert (x ∈ [c1]) as ->%list_elem_of_singleton by (apply Hsub2; by left). by left.
    - rewrite <- EP2 in H. destruct P2 as [|c2 [|c2' P2']] eqn:E2; [done| |].
      + injection H as <-. exists c2. split; [done|]. split; [by left|]. right; by left.
      + apply levels_last in H as (c & -> & Hin & Hmax); [|done]. exists c. auto. }
  exists c. split; [done|]. split; [auto|]. intros -> -> ->. specialize (Hlow1 eq_refl). specialize (Hlow2 eq_refl).
  pose proof (proj1 (Hlow1 c) (Hsub2 c Hc)) as Hc1. pose proof (proj1 (Hlow2 c) Hc) as Hc2.
  apply best_of_levels; [done|]. intros x Hx Ex. pose proof (proj2 (Hlow1 x) (lowest_tie _ _ _ _ Hc1 Hx Ex)) as Hx1.
  destruct Hc2 as [Hcin Hc2]. specialize (Hc2 x Hx1) as Hle.
  destruct (Z.eq_dec (latency_of x) (latency_of c)) as [El|]; [|left; lia]. right. split; [done|].
  pose proof (proj2 (Hlow2 x) (lowest_tie _ _ _ _ (conj Hcin Hc2) Hx1 El)) as Hx2.
  destruct Hlast as [E|[E|Hmax]]; [rewrite E in Hx1|rewrite E in Hx2|by apply Hmax].
  - apply list_elem_of_singleton in Hx1 as ->. exact (key_gt_refl version_lt _).
  - apply list_elem_of_singleton in Hx2 as ->. exact (key_gt_refl version_lt _).
Qed.
End levels.

(** ** The properties *)

(** The selector answers with nothing only for no candidates; otherwise with
    one that meets the version constraint where any does, the preferred skill
    where it is among these, and without preferences one of lowest cost, then
    lowest latency, then newest version. *)
Theorem select_spec {Version} parse_version version_lt specifier_set has_packaging `{!@VersionOrder Version version_lt}
  candidates context constraint r
  (Hsel : select parse_version version_lt specifier_set has_packaging candidates context constraint = Ok r) :
  match r with
  | None => candidates = []
  | Some c =>
    let pool := constrained parse_version version_lt specifier_set has_packaging candidates constraint in
    c ∈ candidates /\ c ∈ pool /\
    match preferred_candidate pool (sx_preferred_skill_id context) with
    | Some p => c = p
    | None => sx_preferred_cost_class context = None -> sx_preferred_latency_class context = None ->
              sx_preferred_version context = None -> best_of version_lt (key_of parse_version has_packaging) pool c
    end
  end.
Proof.
  unfold select in Hsel. destruct candidates as [|c0 rest]; [by injection Hsel as <-|]. cbn [truthy truthy_list negb] in Hsel.
  destruct (constrained_sub parse_version version_lt specifier_set has_packaging (c0 :: rest) constraint) as [Hne Hsub]; [done|].
  set (pool := constrained _ _ _ _ _ _) in *. cbn zeta.
  destruct (preferred_candidate pool _) as [p|] eqn:Ep.
  - injection Hsel as <-. pose proof (preferred_in _ _ _ Ep). auto.
  - fold (levels parse_version version_lt has_packaging pool (sx_preferred_cost_class context)
      (sx_preferred_latency_class context) (sx_preferred_version context)) in Hsel.
    apply levels_spec in Hsel as (c & -> & Hin & Hbest); [|done..]. auto.
Qed.

(** Among 10000 buckets a rollout of [n] percent takes exactly the first
    [100 * n]. *)
Lemma bucket_lt k n : (0 <= k < 10000)%Z -> (1 <= n <= 100)%Z ->
  flt (fdiv (inject_Z k) 100) (inject_Z n) = (k <? 100 * n)%Z.
Proof.
  intros Hk Hn. unfold fdiv. destruct (Z.ltb_spec k (100 * n)).
  - apply flt_spec. apply Qle_lt_trans with (rnd (inject_Z (100 * n - 1) / 100)).
    + apply rnd_mono. apply Qmult_le_compat_r; [|discriminate]. rewrite <- Zle_Qle. lia.
    + assert (forallb (fun n => flt (rnd (inject_Z (100 * Z.of_nat n - 1) / 100)) (inject_Z (Z.of_nat n))) (seq 1 100) = true) as Hall
        by (vm_compute; reflexivity).
      rewrite forallb_true_forall in Hall. specialize (Hall (Z.to_nat n)).
      rewrite Z2Nat.id in Hall by lia. apply flt_spec, Hall, elem_of_seq. lia.
  - apply flt_false. assert (rnd (inject_Z n) == inject_Z n)%Q as <- by (apply rnd_Z_pos; lia).
    apply rnd_mono. apply Qle_shift_div_l; [reflexivity|]. change 100%Q with (inject_Z 100).
    rewrite <- inject_Z_mult, <- Zle_Qle. lia.
Qed.

Definition bucket_number (md5_head : string -> Z) (tenant_id catalog_revision : string) : Z :=
  (md5_head (join ":" [tenant_id; catalog_revision]) mod 10000)%Z.

(** The split of traffic: nobody when switched off; otherwise the white-listed
    tenants and, of the rest, exactly those whose bucket of the 10000 is among
    the first [100 * n] for a rollout of [n] percent. *)
Theorem canary_split_exact md5_head tenant_id revision tenants n enabled (Hn : (0 <= n <= 100)%Z) :
  should_use_new_router md5_head tenant_id revision (mkCanary tenants (inject_Z n) enabled) =
  enabled && (truthy tenant_id && str_in tenant_id tenants || (bucket_number md5_head tenant_id revision <? 100 * n)%Z).
Proof.
  unfold should_use_new_router, canary_bucket. cbn [cn_enabled cn_canary_tenants cn_rollout_percentage].
  fold (bucket_number md5_head tenant_id revision).
  assert (0 <= bucket_number md5_head tenant_id revision < 10000)%Z as Hb by (apply Z.mod_pos_bound; lia).
  destruct enabled; [|done]. cbn [negb andb]. destruct (truthy tenant_id && str_in tenant_id tenants); [done|]. cbn [orb].
  destruct (fle (inject_Z n) 0) eqn:E0.
  - apply fle_spec in E0. change 0%Q with (inject_Z 0) in E0. rewrite <- Zle_Qle in E0. symmetry. apply Z.ltb_ge. lia.
  - assert (0 < n)%Z. { destruct (Z.eq_dec n 0%Z) as [->|]; [done|lia]. }
    destruct (fge (inject_Z n) 100) eqn:E1; [|apply bucket_lt; lia].
    apply fge_spec in E1. change 100%Q with (inject_Z 100) in E1. rewrite <- Zle_Qle in E1. symmetry. apply Z.ltb_lt. lia.
Qed.

(** Raising the rollout never sends a tenant back to the old router. *)
Theorem canary_monotone md5_head tenant_id revision tenants p q enabled (Hpq : (p <= q)%Q) :
  should_use_new_router md5_head tenant_id revision (mkCanary tenants p enabled) = true ->
  should_use_new_router md5_head tenant_id revision (mkCanary tenants q enabled) = true.
Proof.
  unfold should_use_new_router. cbn [cn_enabled cn_canary_tenants cn_rollout_percentage].
  destruct (negb enabled); [done|]. destruct (_ && _); [done|].
  destruct (fle p 0) eqn:E0; [done|].
  change (fge 0 p = false) in E0. apply fge_false in E0.
  assert (fle q 0 = false) as ->. { change (fge 0 q = false). apply fge_false. lra. }
  destruct (fge p 100) eqn:E1; fcompare.
  - intros _. assert (fge q 100 = true) as ->; [|done]. apply fge_spec. lra.
  - intros H%flt_spec. destruct (fge q 100); [done|]. apply flt_spec. lra.
Qed.

(** ** Deviations *)

Definition example_manifest (id version cost : string) : SkillManifest :=
  mkManifest (mkCard id version "data" [] [] [] [] [] [] [] "active" [] "low" cost "interactive" true [] "main_chain" None)
    (mkGovernance "active" "" [] [] 100).

(** A constraint that nothing meets is dropped. *)
Lemma unmet_constraint_ignored {Version} parse_version version_lt specifier_set :
  select (Version := Version) parse_version version_lt specifier_set false [example_manifest "a" "1.0.0" "low"]
    (mkSelection "" None None None None) (Some "^2.0") = Ok (Some (example_manifest "a" "1.0.0" "low")).
Proof. vm_compute. reflexivity. Qed.

(** One version that the library cannot read among others stops the choice. *)
Lemma unreadable_version_raises specifier_set :
  select (Version := Z) (fun v => if String.eqb v "1.0.0" then Some 1%Z else None) Z.ltb specifier_set true
    [example_manifest "a" "1.0.0" "low"; example_manifest "b" "latest" "low"] (mkSelection "" None None None None) None
  = Raise (TypeError "'>' not supported").
Proof. vm_compute. reflexivity. Qed.

(** ** Witnesses *)

Lemma select_spec_witness :
  let l := [example_manifest "a" "1.2.0" "medium"; example_manifest "b" "1.9.0" "low"; example_manifest "c" "1.10.0" "low"] in
  let pool := constrained (Version := semver) (fun _ => None) semver_lt (fun _ => None) false l (Some "^1.0") in
  let c := example_manifest "c" "1.10.0" "low" in
  c ∈ l /\ c ∈ pool /\
  match preferred_candidate pool None with
  | Some p => c = p
  | None => None (A := string) = None -> None (A := string) = None -> None (A := string) = None ->
            best_of semver_lt (key_of (fun _ => None) false) pool c
  end.
Proof.
  apply (select_spec (Version := semver) (fun _ => None) semver_lt (fun _ => None) false
    [example_manifest "a" "1.2.0" "medium"; example_manifest "b" "1.9.0" "low"; example_manifest "c" "1.10.0" "low"]
    (mkSelection "" None None None None) (Some "^1.0") (Some (example_manifest "c" "1.10.0" "low"))).
  vm_compute. reflexivity.
Defined.

Lemma canary_split_exact_witness :
  should_use_new_router (fun _ => 29999%Z) "t" "r" (mkCanary [] (inject_Z 100) true) =
  true && (truthy "t" && str_in "t" [] || (bucket_number (fun _ => 29999%Z) "t" "r" <? 100 * 100)%Z).
Proof. apply canary_split_exact. lia. Defined.

Lemma canary_monotone_witness :
  should_use_new_router (fun _ => 5%Z) "t" "r" (mkCanary [] (rnd (1 # 10)) true) = true.
Proof. apply (canary_monotone (fun _ => 5%Z) "t" "r" [] (rnd (6 # 100))); vm_compute; [discriminate|reflexivity]. Defined.
