(* ===== verification/ReactBudget.v ===== *)
(** * Budgets of the ReAct subgraph (react/budget.py, react/models.py)

    Counters with limits, checked before every round.  [now] is the clock, in
    seconds. *)

From S2P Require Import Prelude PyFloat PyVal AgentState.

Record ReactBudget : Type := mkBudget {
  step_count : Z; max_steps : Z;
  tool_call_count : Z; max_tool_calls : Z;
  db_query_count : Z; max_db_queries : Z;
  llm_call_count : Z; max_llm_calls : Z;
  deadline_ts : Q; token_used : Z; token_budget : Z }.

Inductive BudgetViolationType : Type :=
  | STEPS_EXCEEDED | TOOL_CALLS_EXCEEDED | DB_QUERIES_EXCEEDED | LLM_CALLS_EXCEEDED
  | TOKEN_BUDGET_EXCEEDED | DEADLINE_EXCEEDED.

#[export] Instance BudgetViolationType_eq_dec : EqDecision BudgetViolationType.
Proof. solve_decision. Defined.

(** [BudgetCheckResult]: [None] is [allowed=True]. *)
Definition can_proceed (now : Q) (b : ReactBudget) : option BudgetViolationType :=
  if (step_count b >=? max_steps b)%Z then Some STEPS_EXCEEDED
  else if (tool_call_count b >=? max_tool_calls b)%Z then Some TOOL_CALLS_EXCEEDED
  else if (db_query_count b >=? max_db_queries b)%Z then Some DB_QUERIES_EXCEEDED
  else if (llm_call_count b >=? max_llm_calls b)%Z then Some LLM_CALLS_EXCEEDED
  else if negb (Qeq_bool (deadline_ts b) 0) && fgt now (deadline_ts b) then Some DEADLINE_EXCEEDED
  else if truthy (token_budget b) && (token_used b >=? token_budget b)%Z then Some TOKEN_BUDGET_EXCEEDED
  else None.

Definition can_db_query (now : Q) (b : ReactBudget) : option BudgetViolationType :=
  match can_proceed now b with
  | Some v => Some v
  | None => if (db_query_count b >=? max_db_queries b)%Z then Some DB_QUERIES_EXCEEDED else None
  end.

Definition increment_step (b : ReactBudget) : ReactBudget :=
  mkBudget (step_count b + 1) (max_steps b) (tool_call_count b) (max_tool_calls b) (db_query_count b)
    (max_db_queries b) (llm_call_count b) (max_llm_calls b) (deadline_ts b) (token_used b) (token_budget b).

Definition increment_tool_call (tool_type : string) (b : ReactBudget) : ReactBudget :=
  mkBudget (step_count b) (max_steps b) (tool_call_count b + 1) (max_tool_calls b)
    (if String.eqb tool_type "db_query" then (db_query_count b + 1)%Z else db_query_count b)
    (max_db_queries b) (llm_call_count b) (max_llm_calls b) (deadline_ts b) (token_used b) (token_budget b).

Definition increment_llm_call (tokens_used : Z) (b : ReactBudget) : ReactBudget :=
  mkBudget (step_count b) (max_steps b) (tool_call_count b) (max_tool_calls b) (db_query_count b)
    (max_db_queries b) (llm_call_count b + 1) (max_llm_calls b) (deadline_ts b)
    (if (tokens_used >? 0)%Z then (token_used b + tokens_used)%Z else token_used b) (token_budget b).

Definition remaining_steps (b : ReactBudget) : Z := Z.max 0 (max_steps b - step_count b).
Definition remaining_tool_calls (b : ReactBudget) : Z := Z.max 0 (max_tool_calls b - tool_call_count b).
Definition remaining_db_queries (b : ReactBudget) : Z := Z.max 0 (max_db_queries b - db_query_count b).

Definition set_deadline (ts : Q) (b : ReactBudget) : ReactBudget :=
  mkBudget (step_count b) (max_steps b) (tool_call_count b) (max_tool_calls b) (db_query_count b)
    (max_db_queries b) (llm_call_count b) (max_llm_calls b) ts (token_used b) (token_budget b).

Definition get_default_budget (now deadline_offset_ms : Q) : ReactBudget :=
  mkBudget 0 8 0 6 0 3 0 5 (fadd now (fdiv deadline_offset_ms 1000)) 0 12000.

(** [if key in cfg: budget[key] = int(cfg[key])], for an integer value. *)
Definition override (cfg : pydict) (key : string) (default : Z) : result Z :=
  match dlookup key cfg with Some v => as_int v | None => Ok default end.

Definition build_budget_from_config (now : Q) (react_config : option pydict) (max_latency_ms : option Z)
    : result ReactBudget :=
  let cfg := opt_or react_config [] in
  let! max_latency := match max_latency_ms with
                      | Some m => if truthy m then Ok (fint m) else dget as_float cfg "max_latency_ms" 30000%Q
                      | None => dget as_float cfg "max_latency_ms" 30000%Q
                      end in
  let b := get_default_budget now max_latency in
  let! steps := override cfg "max_steps" (max_steps b) in
  let! tools := override cfg "max_tool_calls" (max_tool_calls b) in
  let! dbs := override cfg "max_db_queries" (max_db_queries b) in
  let! llms := override cfg "max_llm_calls" (max_llm_calls b) in
  let! tokens := override cfg "token_budget" (token_budget b) in
  Ok (mkBudget 0 steps 0 tools 0 dbs 0 llms (deadline_ts b) 0 tokens).

(** ** Lemmas *)

(** The counters of a budget, and those limits that stay fixed. *)
Definition within_limits (b : ReactBudget) : Prop :=
  (0 <= step_count b <= Z.max 0 (max_steps b))%Z /\
  (0 <= tool_call_count b <= Z.max 0 (max_tool_calls b))%Z /\
  (0 <= db_query_count b <= Z.max 0 (max_db_queries b))%Z /\
  (0 <= llm_call_count b <= Z.max 0 (max_llm_calls b))%Z.

(** Budgets with the same limits, deadline included, and the same token count. *)
Definition same_limits (b b' : ReactBudget) : Prop :=
  max_steps b' = max_steps b /\ max_tool_calls b' = max_tool_calls b /\
  max_db_queries b' = max_db_queries b /\ max_llm_calls b' = max_llm_calls b /\
  token_used b' = token_used b /\ deadline_ts b' = deadline_ts b /\ token_budget b' = token_budget b.

#[export] Instance same_limits_preorder : PreOrder same_limits.
Proof. unfold same_limits. split; [done|]. intros ? ? ?. intuition congruence. Qed.

Lemma can_proceed_room now b :
  can_proceed now b = None ->
  (step_count b < max_steps b)%Z /\ (tool_call_count b < max_tool_calls b)%Z /\
  (db_query_count b < max_db_queries b)%Z /\ (llm_call_count b < max_llm_calls b)%Z.
Proof.
  unfold can_proceed. rewrite !Z.geb_leb. intros H.
  destruct (Z.leb_spec (max_steps b) (step_count b)); [done|].
  destruct (Z.leb_spec (max_tool_calls b) (tool_call_count b)); [done|].
  destruct (Z.leb_spec (max_db_queries b) (db_query_count b)); [done|].
  destruct (Z.leb_spec (max_llm_calls b) (llm_call_count b)); [done|]. done.
Qed.

(** What holds of the deadline and the tokens when a round may start. *)
Definition in_time (now : Q) (b : ReactBudget) : Prop :=
  (deadline_ts b == 0 \/ now <= deadline_ts b)%Q /\ (token_budget b = 0 \/ token_used b < token_budget b)%Z.

Lemma can_proceed_in_time now b : can_proceed now b = None -> in_time now b.
Proof.
  intros H. destruct (can_proceed_room _ _ H) as (H1 & H2 & H3 & H4). unfold can_proceed in H.
  repeat (rewrite Z.geb_leb, (proj2 (Z.leb_gt _ _)) in H by lia). split.
  - destruct (Qeq_bool (deadline_ts b) 0) eqn:E; [left; by apply Qeq_bool_iff|].
    destruct (fgt now (deadline_ts b)) eqn:E2; [done|]. right. by apply fgt_false.
  - destruct (negb _ && _); [done|]. unfold truthy, truthy_Z in H.
    destruct (Z.eqb_spec (token_budget b) 0); [by left|]. rewrite Z.geb_leb in H.
    destruct (Z.leb_spec (token_budget b) (token_used b)); [done|by right].
Qed.

Lemma in_time_same now b b' : same_limits b b' -> in_time now b' -> in_time now b.
Proof. unfold in_time. intros (_ & _ & _ & _ & -> & -> & ->). done. Qed.

Lemma build_budget_fresh now cfg ml b :
  build_budget_from_config now cfg ml = Ok b ->
  step_count b = 0%Z /\ tool_call_count b = 0%Z /\ db_query_count b = 0%Z /\ llm_call_count b = 0%Z.
Proof. unfold build_budget_from_config. intros H. inv_ok H. by apply Ok_inj in H as <-. Qed.

(** ** Properties *)

(** A round is refused exactly when a limit is reached, the deadline has passed
    or the token budget is used up; the answer is the first reason in the order
    of the checks, and the extra check before a database query adds nothing. *)
Theorem can_proceed_spec now b :
  (can_proceed now b = None <->
     (step_count b < max_steps b)%Z /\ (tool_call_count b < max_tool_calls b)%Z /\
     (db_query_count b < max_db_queries b)%Z /\ (llm_call_count b < max_llm_calls b)%Z /\
     (deadline_ts b == 0 \/ now <= deadline_ts b)%Q /\
     (token_budget b = 0 \/ token_used b < token_budget b)%Z) /\
  can_db_query now b = can_proceed now b.
Proof.
  split.
  - split.
    + intros H. destruct (can_proceed_room _ _ H) as (H1 & H2 & H3 & H4). destruct (can_proceed_in_time _ _ H). by split_and!.
    + intros (H1 & H2 & H3 & H4 & H5 & H6). unfold can_proceed.
      repeat (rewrite Z.geb_leb, (proj2 (Z.leb_gt _ _)) by lia).
      assert (negb (Qeq_bool (deadline_ts b) 0) && fgt now (deadline_ts b) = false) as ->.
      { destruct H5 as [H5|H5]; [by apply Qeq_bool_iff in H5 as ->|].
        apply fgt_false in H5 as ->. apply andb_false_r. }
      unfold truthy, truthy_Z. destruct H6 as [->|H6]; [done|].
      rewrite Z.geb_leb, (proj2 (Z.leb_gt _ _)) by lia. by rewrite andb_false_r.
  - unfold can_db_query. destruct (can_proceed now b) eqn:E; [done|].
    apply can_proceed_room in E. by rewrite Z.geb_leb, (proj2 (Z.leb_gt _ _)) by lia.
Qed.
