(* ===== verification/ReactPolicy.v ===== *)
(** * The policy guard of the ReAct subgraph (react/policy.py)

    Every action proposed by the model is classified before it is executed. The
    agent configuration and the resolved skills are the same for a whole run and
    are arguments of [evaluate] here; a skill set that does not validate counts
    as none. *)

From S2P Require Import Prelude PyFloat PyVal PyList PyText PyRegex AgentState SkillPolicy.

Inductive PolicyDecisionType : Type :=
  | ALLOW | DENY | NEEDS_APPROVAL | NEEDS_CLARIFICATION | REWRITE_ARGUMENTS.

#[export] Instance PolicyDecisionType_eq_dec : EqDecision PolicyDecisionType.
Proof. solve_decision. Defined.

Record PolicyContext : Type := mkPolicyContext {
  pc_tenant_id : string; pc_user_id : string; pc_tool_name : string; pc_action_type : string;
  pc_purpose : string; pc_arguments : pydict; pc_allowed_tools : list string }.

Record PolicyResult : Type := mkPolicyResult {
  pr_decision : PolicyDecisionType; pr_reason : string; pr_sanitized_arguments : pydict;
  pr_requires_approval : bool; pr_risk_level : string }.

Definition policy_result (d : PolicyDecisionType) (reason : string) (risk : string) : PolicyResult :=
  mkPolicyResult d reason [] false risk.
Definition allow_with (reason : string) (args : pydict) : PolicyResult :=
  mkPolicyResult ALLOW reason args false "low".

Definition HIGH_RISK_KEYWORDS : list string :=
  ["drop"; "delete"; "truncate"; "update"; "insert"; "alter"; "create"; "grant"; "revoke"; "--"; "/*";
   "xp_"; "exec"].
Definition WRITE_KEYWORDS : list string :=
  ["insert"; "update"; "delete"; "drop"; "alter"; "create"; "truncate"; "replace"].
Definition SUSPICIOUS_WORDS : list string := ["javascript:"; "data:"; "file://"; "<script"; "</script"].
Definition PRIVATE_PREFIXES : list string := ["127."; "10."; "192.168."; "172.16."; "localhost"].
Definition DEFAULT_ALLOWED_TOOLS : list string :=
  ["rag_search"; "db_query"; "web_search"; "finish"; "ask_clarification"].

(** [PolicyGuard(agent_config)]: the white list and the per-tool policies. *)
Record PolicyGuard : Type := mkGuard { pg_allowed_tools : list string; pg_tool_policies : pyval }.

Definition init_guard (agent_config : pyval) : result PolicyGuard :=
  let! r := vget (vor agent_config (VDict [])) "react" (VDict []) in
  let react_cfg := vor r (VDict []) in
  let! tools := vget react_cfg "allowed_tools" VNone in
  let! p := vget react_cfg "policy" (VDict []) in
  let! allowed := if truthy tools then as_list as_str tools else Ok DEFAULT_ALLOWED_TOOLS in
  Ok (mkGuard allowed (vor p (VDict []))).

Definition tool_policy (g : PolicyGuard) (tool : string) : result pyval :=
  let! p := vget (pg_tool_policies g) tool (VDict []) in Ok (vor p (VDict [])).

Definition arg (args : pydict) (k : string) (d : pyval) : pyval := get_or (dlookup k args) d.

(** [(args.get(a) or args.get(b) or "").strip()] and the one-key form. *)
Definition text_arg (args : pydict) (ks : list string) : result string :=
  let! s := as_str (fold_right (fun k r => vor (arg args k VNone) r) (VStr "") ks) in Ok (strip s).

(** The first keyword that occurs, as in a [for ... if kw in text: return]. *)
Definition first_keyword (p : string -> bool) (kws : list string) : option string := List.find p kws.

Section guard.
(** Whether a character beyond ASCII is a word character ([\w]). *)
Variable unicode_word : string -> bool.
Variable float_repr : Q -> string.

Definition evaluate_db_query (g : PolicyGuard) (ctx : PolicyContext) : result PolicyResult :=
  let args := pc_arguments ctx in
  let! sql := text_arg args ["sql"; "query"] in
  let db_id := arg args "db_id" (VStr "") in
  let sql_lower := py_lower sql in
  match first_keyword (fun kw => contains kw sql_lower) HIGH_RISK_KEYWORDS with
  | Some kw => Ok (policy_result DENY (join "" ["SQL 包含高风险关键词 '"; kw; "'，拒绝执行"]) "high")
  | None =>
    let! db_policy := tool_policy g "db_query" in
    let! readonly := vget db_policy "readonly" (VBool true) in
    match (if truthy readonly then first_keyword (fun kw => search_word unicode_word kw sql_lower) WRITE_KEYWORDS else None) with
    | Some kw => Ok (policy_result DENY (join "" ["readonly 模式禁止写操作 '"; kw; "'"]) "high")
    | None =>
      if negb (search_word unicode_word "limit" sql_lower) && startswith "select" sql_lower then
        Ok (mkPolicyResult NEEDS_APPROVAL "SQL 缺少 LIMIT 子句，需要审批" [] true "medium")
      else
        let! allowed := vget db_policy "allowed_db_ids" VNone in
        if truthy db_id && truthy allowed then
          match allowed with
          | VList l => if negb (existsb (py_eq db_id) l)
                       then Ok (policy_result DENY
                               (join "" ["数据库 "; py_str float_repr db_id; " 不在白名单 "; py_repr_val float_repr allowed; " 中"]) "high")
                       else Ok (allow_with "DB 工具通过策略校验" args)
          | _ => Ok (allow_with "DB 工具通过策略校验" args)
          end
        else Ok (allow_with "DB 工具通过策略校验" args)
    end
  end.

Definition evaluate_web_search (g : PolicyGuard) (ctx : PolicyContext) : result PolicyResult :=
  let args := pc_arguments ctx in
  let! query := text_arg args ["query"] in
  if negb (truthy query) then Ok (policy_result DENY "Web 搜索 query 为空" "low")
  else
    match first_keyword (fun kw => contains (py_lower kw) (py_lower query)) SUSPICIOUS_WORDS with
    | Some kw => Ok (policy_result DENY (join "" ["Web 搜索 query 包含可疑内容 '"; kw; "'"]) "high")
    | None =>
      let! web_policy := tool_policy g "web_search" in
      let! private := vget web_policy "allow_private_ip" (VBool false) in
      match (match private with
             | VBool false => first_keyword (fun p => contains p query) PRIVATE_PREFIXES
             | _ => None
             end) with
      | Some p => Ok (policy_result DENY (join "" ["Web 搜索禁止访问内网地址 '"; p; "'"]) "high")
      | None => Ok (allow_with "Web 工具通过策略校验" args)
      end
    end.

(** The first knowledge base that is not in the list. *)
Definition first_foreign (allowed kbs : list pyval) : option pyval :=
  List.find (fun kb => negb (existsb (py_eq kb) allowed)) kbs.

Definition evaluate_rag_search (g : PolicyGuard) (ctx : PolicyContext) : result PolicyResult :=
  let args := pc_arguments ctx in
  let! query := text_arg args ["query"] in
  if negb (truthy query) then
    Ok (policy_result NEEDS_CLARIFICATION "RAG 检索 query 为空，需要澄清" "low")
  else
    let! rag_policy := tool_policy g "rag_search" in
    let kb_ids := arg args "kb_ids" (VList []) in
    let! allowed := vget rag_policy "allowed_kb_ids" VNone in
    let! foreign :=
      match truthy kb_ids, allowed with
      | true, VList (v :: l) => let! kbs := py_iter kb_ids in Ok (first_foreign (v :: l) kbs)
      | _, _ => Ok None
      end in
    match foreign with
    | Some kb => Ok (policy_result DENY (join "" ["知识库 "; py_str float_repr kb; " 不在白名单中"]) "medium")
    | None => Ok (allow_with "RAG 工具通过策略校验" args)
    end.

(** [_evaluate_skill_policy]: [None] when the skills do not object. *)
Definition evaluate_skill_policy (agent_config : pyval) (skills : option ResolvedSkillSet)
    (ctx : PolicyContext) (action_type : string) : result (option PolicyResult) :=
  match skills with
  | None => Ok None
  | Some skill_set =>
    let args := pc_arguments ctx in
    let! permissions := vget agent_config "permissions" (VList []) in
    let tenant_filter_present :=
      match arg args "tenant_filter_present" VNone with
      | VNone => VBool (truthy (arg args "tenant_id" VNone))
      | v => v
      end in
    let! rules := build_rules float_repr skill_set in
    let! fields := py_iter (arg args "fields" (VList [])) in
    let! denial := evaluate_rules rules
      (mkSkillContext (pc_tenant_id ctx) (match permissions with VList l => l | _ => [] end)
         (py_str float_repr (arg args "format" (VStr ""))) tenant_filter_present
         (py_str float_repr (arg args "operation" (VStr action_type))) fields
         (truthy (arg args "web_fallback" (VBool false)) || truthy (arg args "use_web_fallback" (VBool false)))) in
    Ok (match denial with
        | None => None
        | Some d => Some (policy_result DENY (join ": " [sd_reason_code d; sd_reason d]) "high")
        end)
  end.

(** [PolicyGuard.evaluate] *)
Definition evaluate (agent_config : pyval) (skills : option ResolvedSkillSet) (g : PolicyGuard)
    (ctx : PolicyContext) : result PolicyResult :=
  let action_type := py_or (pc_action_type ctx) (pc_tool_name ctx) in
  let! skill_decision := evaluate_skill_policy agent_config skills ctx action_type in
  match skill_decision with
  | Some d => Ok d
  | None =>
    if str_in action_type ["finish"; "ask_clarification"] then
      Ok (allow_with (String.append action_type " 始终允许") (pc_arguments ctx))
    else if negb (str_in action_type (pg_allowed_tools g)) then
      Ok (policy_result DENY
            (join "" ["工具 "; action_type; " 不在白名单 "; py_repr_list (pg_allowed_tools g); " 中"]) "medium")
    else if String.eqb action_type "db_query" then evaluate_db_query g ctx
    else if String.eqb action_type "web_search" then evaluate_web_search g ctx
    else if String.eqb action_type "rag_search" then evaluate_rag_search g ctx
    else Ok (allow_with (join "" ["工具 "; action_type; " 通过基础校验"]) (pc_arguments ctx))
  end.
End guard.

Example search_word_ex : search_word (fun _ => true) "limit" "select a from t limit 5" = true.
Proof. reflexivity. Qed.
Example search_word_ex2 : search_word (fun _ => true) "replace" "select my_replace(a) from t" = false.
Proof. reflexivity. Qed.

(** ** Lemmas *)

Lemma first_keyword_none p kws : first_keyword p kws = None -> forall kw, kw ∈ kws -> p kw = false.
Proof. intros H kw Hk. apply (List.find_none _ _ H). by apply list_elem_of_In. Qed.

(** The skills can only deny. *)
Lemma skill_policy_denies fr agent_config skills ctx a d :
  evaluate_skill_policy fr agent_config skills ctx a = Ok (Some d) -> pr_decision d = DENY.
Proof.
  unfold evaluate_skill_policy. destruct skills as [skill_set|]; [|done]. intros H. cbn zeta in H.
  inv_ok H. destruct a3; [|done]. by injection H as <-.
Qed.

(** What an allowed database query looks like: no dangerous keyword anywhere,
    no write keyword as a word unless the tool is configured as writable, a
    LIMIT on a SELECT, and a database of the list when there is one. *)
Lemma db_query_allowed_sound uw fr g ctx r :
  evaluate_db_query uw fr g ctx = Ok r -> pr_decision r = ALLOW ->
  exists sql db_policy,
    text_arg (pc_arguments ctx) ["sql"; "query"] = Ok sql /\ tool_policy g "db_query" = Ok db_policy /\
    pr_sanitized_arguments r = pc_arguments ctx /\
    (forall kw, kw ∈ HIGH_RISK_KEYWORDS -> contains kw (py_lower sql) = false) /\
    (forall ro, vget db_policy "readonly" (VBool true) = Ok ro -> truthy ro = true ->
       forall kw, kw ∈ WRITE_KEYWORDS -> search_word uw kw (py_lower sql) = false) /\
    (startswith "select" (py_lower sql) = true -> search_word uw "limit" (py_lower sql) = true) /\
    (forall v l db, vget db_policy "allowed_db_ids" VNone = Ok (VList (v :: l)) ->
       arg (pc_arguments ctx) "db_id" (VStr "") = VStr db -> db <> "" -> VStr db ∈ v :: l).
Proof.
  intros H Hd. unfold evaluate_db_query in H. cbn zeta in H. inv_ok H.
  destruct (first_keyword _ HIGH_RISK_KEYWORDS) eqn:Ek; [by apply Ok_inj in H as <-|].
  inv_ok H. exists a, a0. split; [done|]. split; [done|].
  destruct (if truthy a1 then _ else _) eqn:Ew; [by apply Ok_inj in H as <-|].
  destruct (negb _ && _) eqn:El; [by apply Ok_inj in H as <-|]. inv_ok H.
  assert (pr_sanitized_arguments r = pc_arguments ctx /\
    (forall v l db, a2 = VList (v :: l) -> arg (pc_arguments ctx) "db_id" (VStr "") = VStr db ->
       db <> "" -> VStr db ∈ v :: l)) as [Hsan Hdb].
  { destruct (truthy (arg _ "db_id" _) && truthy a2) eqn:Et.
    - destruct a2; try by apply Ok_inj in H as <-.
      destruct (negb (existsb _ _)) eqn:Ee; [by apply Ok_inj in H as <-|].
      apply Ok_inj in H as <-. split; [done|]. intros v l0 db [= ->] Hv Hne. rewrite Hv in Ee.
      apply negb_false_iff, existsb_true_exists in Ee as (x & Hx & Hs). by apply py_eq_str in Hs as ->.
    - apply Ok_inj in H as <-. split; [done|]. intros v l db -> Hv Hne. rewrite Hv in Et.
      destruct db; [done|discriminate]. }
  split; [done|]. split; [exact (first_keyword_none _ _ Ek)|]. split_and!.
  - intros ro Hro Ht. rewrite Ha1 in Hro. apply Ok_inj in Hro as <-. rewrite Ht in Ew.
    exact (first_keyword_none _ _ Ew).
  - intros Hsel. rewrite Hsel, andb_true_r in El. by apply negb_false_iff in El.
  - intros v l db Hal. rewrite Ha2 in Hal. apply Ok_inj in Hal. by apply Hdb.
Qed.

(** Of the special decisions only denial and approval are taken for queries. *)
Lemma db_query_decision uw fr g ctx r : evaluate_db_query uw fr g ctx = Ok r ->
  pr_decision r = ALLOW \/ pr_decision r = DENY \/ pr_decision r = NEEDS_APPROVAL.
Proof.
  intros H. unfold evaluate_db_query in H. cbn zeta in H. inv_ok H.
  destruct (first_keyword _ HIGH_RISK_KEYWORDS); [apply Ok_inj in H as <-; auto|].
  inv_ok H. destruct (if truthy a1 then _ else _); [apply Ok_inj in H as <-; auto|].
  destruct (negb _ && _); [apply Ok_inj in H as <-; auto|]. inv_ok H.
  destruct (truthy _ && _); [|apply Ok_inj in H as <-; auto].
  inv_ok H. repeat case_match; apply Ok_inj in H as <-; auto.
Qed.

(** What is not denied passed the skills and the white list, and a database
    query its own check. *)
Lemma evaluate_not_denied uw fr agent_config skills g ctx r :
  evaluate uw fr agent_config skills g ctx = Ok r -> pr_decision r <> DENY ->
  let a := py_or (pc_action_type ctx) (pc_tool_name ctx) in
  evaluate_skill_policy fr agent_config skills ctx a = Ok None /\
  (a ∈ ["finish"; "ask_clarification"] \/ a ∈ pg_allowed_tools g) /\
  (a = "db_query" -> evaluate_db_query uw fr g ctx = Ok r).
Proof.
  intros H Hd. cbn zeta. unfold evaluate in H. cbn zeta in H. set (a := py_or _ _) in *.
  apply rbind_Ok in H as (d & Hs & H). rewrite Hs. destruct d as [d|].
  { apply Ok_inj in H as <-. apply skill_policy_denies in Hs. congruence. }
  split; [done|]. destruct (str_in a ["finish"; "ask_clarification"]) eqn:E1.
  { apply str_in_spec in E1. split; [by left|]. intros ->. str_mem. }
  destruct (str_in a (pg_allowed_tools g)) eqn:E2; [|apply Ok_inj in H as <-; done].
  apply str_in_spec in E2. split; [by right|]. by intros ->.
Qed.

(** ** Properties *)

(** The white list cannot be passed: an allowed action that is not a control
    action is on it, and the skills do not object to it. *)
Theorem allowed_is_whitelisted uw fr agent_config skills g ctx r :
  evaluate uw fr agent_config skills g ctx = Ok r -> pr_decision r = ALLOW ->
  let a := py_or (pc_action_type ctx) (pc_tool_name ctx) in
  evaluate_skill_policy fr agent_config skills ctx a = Ok None /\
  (a ∈ ["finish"; "ask_clarification"] \/ a ∈ pg_allowed_tools g).
Proof.
  intros H Hd. destruct (evaluate_not_denied _ _ _ _ _ _ _ H) as (?&?&_); [congruence|done].
Qed.

(** The first keyword list matches inside words: a query that only reads a
    column called created_at is refused as dangerous, although the second list
    is matched at word boundaries to avoid just that. *)
Theorem created_at_is_dangerous uw fr g ctx :
  pc_arguments ctx = [("sql", VStr "select created_at from orders limit 5")] ->
  exists why, evaluate_db_query uw fr g ctx = Ok (policy_result DENY why "high").
Proof. intros H. unfold evaluate_db_query. rewrite H. eexists. reflexivity. Qed.
