(* ===== verification/ReactLoop.v ===== *)
(** * The ReAct subgraph (react/graph.py)

    The bounded reasoning loop: budget and loop-guard checks, one model call,
    the policy guard, one tool call, bookkeeping.  The model, the executor, the
    clock and the hash are arguments.  [rs_executed] records the calls made to
    the executor, in order. *)

From S2P Require Import Prelude PyFloat PyVal PyList PyText PyRegex Evidence AgentState ReactBudget ReactPolicy.

(** ** Data *)

Record ReactAction : Type := mkAction {
  ra_type : string; ra_stop : bool; ra_thought_summary : string; ra_purpose : string;
  ra_arguments : pydict }.

Record ReactObservation : Type := mkObservation {
  ob_success : bool; ob_content : string; ob_error : string; ob_latency_ms : Z;
  ob_rerank_top_score : option Q }.

Record RetrievalObservation : Type := mkRetrieval {
  ro_iteration : Z; ro_action_signature : string; ro_tool_name : string; ro_evidence_gain : Z;
  ro_rerank_top_score : option Q }.

Record LoopGuardState : Type := mkLoopGuard {
  lg_iteration_count : Z; lg_max_iterations : Z; lg_action_signature : string;
  lg_same_action_count : Z; lg_rerank_score_history : list Q; lg_rerank_drop_count : Z;
  lg_retrieval_observations : list RetrievalObservation; lg_fallback_message : string }.

Record LoopGuardConfig : Type := mkLoopConfig {
  lc_max_iterations : Z; lc_same_action_limit : Z; lc_rerank_drop_limit : Z;
  lc_min_rerank_drop : Q; lc_min_evidence_gain : Z; lc_absolute_quality_floor : Q;
  lc_fallback_message : string }.

Definition DEFAULT_LOOP_GUARD_CONFIG : LoopGuardConfig :=
  mkLoopConfig 8 3 2 (rnd (5 # 100)) 1 (rnd (30 # 100)) "当前信息不足以回答，建议人工介入".

(** A failure is recorded with the step it happened in. *)
Inductive failure_step : Type := StepReason | StepPolicy | StepTool.

Record Failure : Type := mkFailure { fl_step : failure_step; fl_action_type : string; fl_text : string }.

Record HistoryEntry : Type := mkHistory {
  he_action_type : string; he_thought_summary : string; he_purpose : string; he_arguments : pydict; he_result_summary : string }.

Record ReactState : Type := mkState {
  rs_budget : ReactBudget; rs_loop_guard : LoopGuardState;
  rs_action_history : list HistoryEntry; rs_observations : list ReactObservation;
  rs_failures : list Failure; rs_evidence : list Evidence;
  rs_executed : list ReactAction }.

Record ReactExecutionResult : Type := mkResult {
  rr_success : bool; rr_evidence : list Evidence; rr_step_count : Z; rr_finish_reason : string;
  rr_termination_reason : string; rr_termination_source : string; rr_can_continue : bool;
  rr_state : ReactState }.

(** ** Action signatures *)

Definition SENSITIVE_KEYS : list string := ["token"; "api_key"; "secret"; "password"; "authorization"].

(** [value is None or value == "" or value == {} or value == []] *)
Definition is_blank (v : pyval) : bool :=
  match v with VNone => true | VStr s => String.eqb s "" | VList [] | VDict [] => true | _ => false end.

Definition normalize_action_args (args : pydict) : pydict :=
  omap (fun key =>
    if str_in (py_lower key) SENSITIVE_KEYS then None
    else match dlookup key args with
         | Some v => if is_blank v then None else Some (key, v)
         | None => None
         end) (py_sorted (map fst args)).

Section signature.
(** [sha256(json.dumps(normalized, sort_keys=True))] *)
Variable digest : pydict -> string.

Definition build_action_signature (action_type : string) (arguments : pydict)
    (kb_ids : option (list string)) (db_id : string) : string :=
  digest ([("action_type", VStr action_type); ("arguments", VDict (normalize_action_args arguments))]
          ++ (match kb_ids with
              | Some (k :: ks) => [("kb_ids", VStrs (py_sorted (k :: ks)))]
              | _ => []
              end)
          ++ (if truthy db_id then [("db_id", VStr db_id)] else [])).

(** ** The loop guard *)

Definition check_loop_guard_termination (g : LoopGuardState) (c : LoopGuardConfig) : option string :=
  if (lg_same_action_count g >=? lc_same_action_limit c)%Z then Some "same_action_loop"
  else if (lg_rerank_drop_count g >=? lc_rerank_drop_limit c)%Z then Some "rerank_declining"
  else None.

(** The set [{e.get("evidence_id") for e in evs if e.get("evidence_id")}]. *)
Definition evidence_ids (evs : list Evidence) : list string :=
  remove_dups (omap (fun e => match ev_evidence_id e with
                              | Some i => if truthy i then Some i else None
                              | None => None
                              end) evs).

Definition evidence_gain (before after : list Evidence) : Z :=
  py_len (List.filter (fun i => negb (str_in i (evidence_ids before))) (evidence_ids after)).

(** The new drop counter, once a score has been appended to the history. *)
Definition drop_count (c : LoopGuardConfig) (gain : Z) (score : Q) (history : list Q) (old : Z) : Z :=
  match py_last 3 history with
  | [s0; s1; s2] =>
    if flt s2 s1 && flt s1 s0 then
      if fge (fsub s0 s1) (lc_min_rerank_drop c) && fge (fsub s1 s2) (lc_min_rerank_drop c) then
        if (gain <? lc_min_evidence_gain c)%Z || flt score (lc_absolute_quality_floor c)
        then (old + 1)%Z else 0%Z
      else 0%Z
    else 0%Z
  | _ => old
  end.

Definition update_loop_guard (g : LoopGuardState) (c : LoopGuardConfig) (action_type : string)
    (arguments : pydict) (kb_ids : option (list string)) (db_id : string)
    (before after : list Evidence) (rerank_top_score : option Q) : LoopGuardState :=
  let signature := build_action_signature action_type arguments kb_ids db_id in
  let gain := evidence_gain before after in
  let same := if String.eqb signature (lg_action_signature g) && (gain <? lc_min_evidence_gain c)%Z
              then (lg_same_action_count g + 1)%Z else 1%Z in
  let '(history, drops) :=
    match rerank_top_score with
    | Some s =>
      if String.eqb action_type "rag_search" then
        let h := lg_rerank_score_history g ++ [s] in (h, drop_count c gain s h (lg_rerank_drop_count g))
      else (lg_rerank_score_history g, lg_rerank_drop_count g)
    | None => (lg_rerank_score_history g, lg_rerank_drop_count g)
    end in
  mkLoopGuard (lg_iteration_count g + 1) (lg_max_iterations g) signature same history drops
    (lg_retrieval_observations g ++
       [mkRetrieval (lg_iteration_count g) signature action_type gain rerank_top_score])
    (lg_fallback_message g).
End signature.

(** ** One round *)

(** [if not any(e.get("evidence_id") == ev.get("evidence_id") ...): append] *)
Definition add_evidence (acc : list Evidence) (ev : Evidence) : list Evidence :=
  if existsb (fun e => bool_decide (ev_evidence_id e = ev_evidence_id ev)) acc then acc else acc ++ [ev].

(** The best score of the new evidence, for a retrieval that reports none;
    scores that are missing or zero do not count. *)
Definition best_score (evs : list Evidence) : option Q :=
  fold_left (fun best e =>
    match ev_relevance_score e with
    | Some s => if Qeq_bool s 0 then best
                else match best with None => Some s | Some b => Some (if flt b s then s else b) end
    | None => best
    end) evs None.

Definition rerank_score (action_type : string) (ob : ReactObservation) (evs : list Evidence) : option Q :=
  if String.eqb action_type "rag_search"
  then match ob_rerank_top_score ob with Some s => Some s | None => best_score evs end
  else None.

(** How a round ends: the loop goes on, or breaks with a finish reason and the
    termination reason and source reported to the main graph. *)
Inductive round_outcome : Type :=
  | Continue (s : ReactState)
  | Break (finish termination source : string) (s : ReactState).

Definition with_budget (b : ReactBudget) (s : ReactState) : ReactState :=
  mkState b (rs_loop_guard s) (rs_action_history s) (rs_observations s) (rs_failures s)
    (rs_evidence s) (rs_executed s).

Definition add_failure (f : Failure) (s : ReactState) : ReactState :=
  mkState (rs_budget s) (rs_loop_guard s) (rs_action_history s) (rs_observations s)
    (rs_failures s ++ [f]) (rs_evidence s) (rs_executed s).

Definition add_history (h : HistoryEntry) (s : ReactState) : ReactState :=
  mkState (rs_budget s) (rs_loop_guard s) (rs_action_history s ++ [h]) (rs_observations s)
    (rs_failures s) (rs_evidence s) (rs_executed s).

Definition is_policy_failure (f : Failure) : bool :=
  match fl_step f with StepPolicy => true | _ => false end.

(** Policy failures among the last five. *)
Definition denied_count (s : ReactState) : Z :=
  py_len (List.filter is_policy_failure (py_last 5 (rs_failures s))).

Section round.
Variable digest : pydict -> string.
Variable policy : PolicyContext -> result PolicyResult.
(** One model call and its parsing, which may fail. *)
Variable reason : ReactState -> result ReactAction.
(** The executor: an observation and the normalised evidence. *)
Variable execute : ReactState -> ReactAction -> result (ReactObservation * list Evidence).
Variable config : LoopGuardConfig.
Variable tenant_id user_id : string.
Variable allowed_tools : list string.
Variable kb_ids : option (list string).
Variable db_id : string.

Definition policy_context (a : ReactAction) : PolicyContext :=
  mkPolicyContext tenant_id user_id (ra_type a) (ra_type a) (ra_purpose a) (ra_arguments a) allowed_tools.

(** A denied action: recorded, counted as a step, and the third of the last five
    failures ends the run. *)
Definition deny (a : ReactAction) (why : string) (s : ReactState) : round_outcome :=
  let s1 := add_failure (mkFailure StepPolicy (ra_type a) why) s in
  let s2 := add_history (mkHistory (ra_type a) (ra_thought_summary a) "" []
              (join "" ["[POLICY DENIED] "; why])) s1 in
  let s3 := with_budget (increment_step (rs_budget s2)) s2 in
  if (denied_count s3 >=? 3)%Z then Break "policy_denied" "policy_denied" "policy_guard" s3
  else Continue s3.

Definition need_approval (a : ReactAction) (why : string) (s : ReactState) : round_outcome :=
  let s1 := add_failure (mkFailure StepPolicy (ra_type a) (join "" ["NEEDS_APPROVAL: "; why])) s in
  let s2 := add_history (mkHistory (ra_type a) (ra_thought_summary a) "" []
              (join "" ["[NEEDS_APPROVAL] "; why])) s1 in
  Continue (with_budget (increment_step (rs_budget s2)) s2).

(** Step 5: the tool call and its bookkeeping. *)
Definition run_tool (a : ReactAction) (s : ReactState) : result round_outcome :=
  let b := increment_tool_call (ra_type a) (rs_budget s) in
  let before := rs_evidence s in
  let called := mkState b (rs_loop_guard s) (rs_action_history s) (rs_observations s) (rs_failures s)
                  (rs_evidence s) (rs_executed s ++ [a]) in
  let! (ob, evidences) := execute called a in
  let after := fold_left add_evidence evidences before in
  let guard := if ob_success ob
               then update_loop_guard digest (rs_loop_guard s) config (ra_type a) (ra_arguments a)
                      kb_ids db_id before after (rerank_score (ra_type a) ob evidences)
               else rs_loop_guard s in
  let summary := if ob_success ob then text_take 300 (ob_content ob)
                 else join "" ["[ERROR] "; ob_error ob] in
  let failures := if ob_success ob then rs_failures s
                  else rs_failures s ++ [mkFailure StepTool (ra_type a) (ob_error ob)] in
  Ok (Continue (mkState (increment_step b) guard
    (rs_action_history s ++ [mkHistory (ra_type a) (ra_thought_summary a) (ra_purpose a) (ra_arguments a) summary])
    (rs_observations s ++ [ob]) failures after (rs_executed s ++ [a]))).

(** Steps 3 to 5, once the model has answered. *)
Definition act (a : ReactAction) (s : ReactState) : result round_outcome :=
  if String.eqb (ra_type a) "finish" || ra_stop a then Ok (Break "completed" "" "" s)
  else if String.eqb (ra_type a) "ask_clarification" then Ok (Break "needs_clarification" "" "" s)
  else
    let! r := policy (policy_context a) in
    match pr_decision r with
    | DENY => Ok (deny a (pr_reason r) s)
    | NEEDS_APPROVAL => Ok (need_approval a (pr_reason r) s)
    | _ =>
      run_tool (mkAction (ra_type a) (ra_stop a) (ra_thought_summary a) (ra_purpose a)
                  (py_or (pr_sanitized_arguments r) (ra_arguments a))) s
    end.

(** The body of the [while True]. *)
Definition react_round (now : Q) (s : ReactState) : result round_outcome :=
  match can_proceed now (rs_budget s) with
  | Some _ => Ok (Break "budget_exhausted" "budget_exhausted" "budget" s)
  | None =>
    match check_loop_guard_termination (rs_loop_guard s) config with
    | Some why => Ok (Break why why "loop_guard" s)
    | None =>
      let s1 := with_budget (increment_llm_call 0 (rs_budget s)) s in
      match reason s1 with
      | Raise _ => Ok (Break "error" "" "" (add_failure (mkFailure StepReason "" "") s1))
      | Ok a => act a s1
      end
    end
  end.

(** The loop, at most [fuel] rounds; [clock i] is the time of round [i]. *)
Fixpoint react_loop (fuel : nat) (clock : nat -> Q) (i : nat) (s : ReactState)
    : option (result (string * string * string * ReactState)) :=
  match fuel with
  | O => None
  | S k =>
    match react_round (clock i) s with
    | Raise e => Some (Raise e)
    | Ok (Break f t src s') => Some (Ok (f, t, src, s'))
    | Ok (Continue s') => react_loop k clock (S i) s'
    end
  end.

Definition initial_guard : LoopGuardState :=
  mkLoopGuard 0 (lc_max_iterations config) "" 0 [] 0 [] (lc_fallback_message config).

Definition initial_state (b : ReactBudget) : ReactState := mkState b initial_guard [] [] [] [] [].

Definition make_result (f t src : string) (s : ReactState) : ReactExecutionResult :=
  mkResult (String.eqb f "completed" && truthy (rs_evidence s)) (rs_evidence s)
    (step_count (rs_budget s)) f t src (negb (truthy t)) s.

(** [ReactSubgraph.run] on a fresh subgraph: the limit on the model calls gives
    the number of rounds. *)
Definition react_run (clock : nat -> Q) (deadline : option Q) (b : ReactBudget)
    : option (result ReactExecutionResult) :=
  let b' := match deadline with Some d => set_deadline d b | None => b end in
  match react_loop (S (Z.to_nat (max_llm_calls b'))) clock 0 (initial_state b') with
  | None => None
  | Some (Raise e) => Some (Raise e)
  | Some (Ok (f, t, src, s)) => Some (Ok (make_result f t src s))
  end.

(** ** Lemmas *)

(** An action the policy let through, with the arguments it was given. *)
Definition let_through (a : ReactAction) : Prop :=
  exists ctx r, policy ctx = Ok r /\ pr_decision r <> DENY /\ pr_decision r <> NEEDS_APPROVAL /\
    pc_action_type ctx = ra_type a /\ pc_tool_name ctx = ra_type a /\
    ra_arguments a = py_or (pr_sanitized_arguments r) (pc_arguments ctx).

Definition is_db (a : ReactAction) : bool := String.eqb (ra_type a) "db_query".

(** The invariant of the loop: the counters count, and only what the policy let
    through was executed. *)
Definition react_ok (s : ReactState) : Prop :=
  within_limits (rs_budget s) /\
  tool_call_count (rs_budget s) = py_len (rs_executed s) /\
  db_query_count (rs_budget s) = py_len (List.filter is_db (rs_executed s)) /\
  Forall let_through (rs_executed s) /\
  NoDup (map ev_evidence_id (rs_evidence s)).

Lemma add_evidence_NoDup evs acc :
  NoDup (map ev_evidence_id acc) -> NoDup (map ev_evidence_id (fold_left add_evidence evs acc)).
Proof.
  revert acc. induction evs as [|e evs IH]; intros acc H; cbn [fold_left]; [done|]. apply IH.
  unfold add_evidence. destruct (existsb _ acc) eqn:E; [done|].
  rewrite map_app. apply NoDup_app. split_and!; [done| |apply NoDup_singleton].
  intros i Hi Hs. apply list_elem_of_singleton in Hs as ->.
  apply list_elem_of_fmap in Hi as (x & Hx & Hin).
  rewrite existsb_false_forall in E. specialize (E _ Hin). cbn in E.
  apply bool_decide_eq_false_1 in E. congruence.
Qed.

Lemma py_len_snoc {A} (l : list A) x : py_len (l ++ [x]) = (py_len l + 1)%Z.
Proof. unfold py_len. rewrite List.length_app. cbn. lia. Qed.

(** The outcome of a round in terms of the state before the model call. *)
Definition outcome_state (o : round_outcome) : ReactState :=
  match o with Continue s | Break _ _ _ s => s end.

Lemma budget_room_llm now b :
  within_limits b -> can_proceed now b = None -> within_limits (increment_llm_call 0 b).
Proof. intros H (? & ? & ? & ?)%can_proceed_room. unfold within_limits in *. cbn. lia. Qed.

Lemma act_ok a s o :
  react_ok s ->
  (step_count (rs_budget s) < max_steps (rs_budget s))%Z ->
  (tool_call_count (rs_budget s) < max_tool_calls (rs_budget s))%Z ->
  (db_query_count (rs_budget s) < max_db_queries (rs_budget s))%Z ->
  act a s = Ok o ->
  react_ok (outcome_state o) /\ same_limits (rs_budget s) (rs_budget (outcome_state o)) /\
  llm_call_count (rs_budget (outcome_state o)) = llm_call_count (rs_budget s).
Proof.
  intros (Hw & Ht & Hdb & Hf & Hnd) R1 R2 R3 H.
  unfold act in H. destruct (_ || ra_stop a); [by apply Ok_inj in H as <-|].
  destruct (String.eqb (ra_type a) "ask_clarification"); [by apply Ok_inj in H as <-|].
  inv_ok H. rename a0 into r.
  assert (within_limits (increment_step (rs_budget s))) as Hw' by (unfold within_limits in *; cbn; lia).
  destruct (pr_decision r) eqn:Ed.
  2:{ apply Ok_inj in H as <-. unfold deny. destruct (_ >=? 3)%Z; by split_and!. }
  2:{ apply Ok_inj in H as <-. by split_and!. }
  all: unfold run_tool in H; inv_ok H; destruct a0 as [ob evs]; apply Ok_inj in H as <-; cbn.
  all: unfold react_ok; cbn; rewrite py_len_snoc, List.filter_app; cbn [List.filter].
  all: unfold is_db at 2; cbn [ra_type].
  all: split; [|done]; split_and!; try done; try (by apply add_evidence_NoDup); try lia.
  all: try (unfold within_limits in *; cbn in *; destruct (String.eqb (ra_type a) "db_query"); lia).
  all: try (destruct (String.eqb (ra_type a) "db_query"); rewrite ?app_nil_r, ?py_len_snoc; lia).
  all: apply Forall_app; split; [done|]; apply Forall_singleton; exists (policy_context a), r;
    rewrite Ed; by split_and!.
Qed.

(** A round that goes on used one model call. *)
Lemma react_round_ok now s o :
  react_ok s -> react_round now s = Ok o ->
  react_ok (outcome_state o) /\ same_limits (rs_budget s) (rs_budget (outcome_state o)) /\
  match o with
  | Continue s' => (llm_call_count (rs_budget s') = llm_call_count (rs_budget s) + 1)%Z /\
                   (llm_call_count (rs_budget s) < max_llm_calls (rs_budget s))%Z
  | Break _ _ _ _ => True
  end.
Proof.
  intros Hok H. unfold react_round in H. destruct (can_proceed now (rs_budget s)) eqn:Ec.
  { by apply Ok_inj in H as <-. }
  destruct (check_loop_guard_termination _ _); [by apply Ok_inj in H as <-|].
  pose proof (can_proceed_room _ _ Ec) as (R1 & R2 & R3 & R4).
  assert (react_ok (with_budget (increment_llm_call 0 (rs_budget s)) s)) as Hok1.
  { destruct Hok as (Hw & ? & ? & ? & ?). split_and!; try done. by eapply budget_room_llm. }
  destruct (reason _) as [a|]; [|by apply Ok_inj in H as <-].
  destruct (act_ok _ _ _ Hok1 R1 R2 R3 H) as (Hok2 & Hl & Hc). split; [done|]. split; [done|].
  destruct o; [|done]. cbn in *. lia.
Qed.

Lemma react_loop_ok clock fuel i s f t src s' :
  react_ok s -> react_loop fuel clock i s = Some (Ok (f, t, src, s')) ->
  react_ok s' /\ same_limits (rs_budget s) (rs_budget s').
Proof.
  revert i s. induction fuel as [|k IH]; intros i s Hok H; cbn [react_loop] in H; [done|].
  destruct (react_round (clock i) s) as [o|] eqn:Er; [|done].
  destruct (react_round_ok _ _ _ Hok Er) as (Hok' & Hl & _).
  destruct o as [s1|f1 t1 src1 s1]; cbn in Hok', Hl.
  - destruct (IH _ _ Hok' H) as [? Hl2]. split; [done|]. by etransitivity.
  - injection H as <- <- <- <-. done.
Qed.

(** A round executes at most one action, and only when it may start. *)
Lemma react_round_executes now s o : react_round now s = Ok o ->
  rs_executed (outcome_state o) = rs_executed s \/
  (exists a, rs_executed (outcome_state o) = rs_executed s ++ [a]) /\ in_time now (rs_budget s).
Proof.
  unfold react_round. intros H. destruct (can_proceed now (rs_budget s)) eqn:Ec; [apply Ok_inj in H as <-; by left|].
  apply can_proceed_in_time in Ec.
  destruct (check_loop_guard_termination _ _); [apply Ok_inj in H as <-; by left|].
  destruct (reason _) as [a|]; [|apply Ok_inj in H as <-; by left]. unfold act in H.
  destruct (_ || ra_stop a); [apply Ok_inj in H as <-; by left|].
  destruct (String.eqb _ "ask_clarification"); [apply Ok_inj in H as <-; by left|]. inv_ok H.
  destruct (pr_decision a0); try (unfold run_tool in H; inv_ok H; destruct a1 as [ob evs]; apply Ok_inj in H as <-; right; split; [by eexists|done]).
  - apply Ok_inj in H as <-. left. unfold deny. by destruct (_ >=? 3)%Z.
  - apply Ok_inj in H as <-. by left.
Qed.

(** The rounds of a run, and which of them executed its actions. *)
Lemma react_loop_rounds clock fuel i s f t src s' : react_ok s -> react_loop fuel clock i s = Some (Ok (f, t, src, s')) ->
  exists actions rounds, rs_executed s' = rs_executed s ++ actions /\ length rounds = length actions /\ StronglySorted lt rounds /\
    Forall (fun r => i <= r /\ in_time (clock r) (rs_budget s)) rounds.
Proof.
  revert i s. induction fuel as [|k IH]; intros i s Hok H; cbn [react_loop] in H; [done|].
  destruct (react_round (clock i) s) as [o|] eqn:Er; [|done].
  destruct (react_round_ok _ _ _ Hok Er) as (Hok' & Hl & _). apply react_round_executes in Er.
  destruct o as [s1|f1 t1 src1 s1]; cbn [outcome_state] in *.
  - destruct (IH _ _ Hok' H) as (actions & rounds & E & Hlen & Hs & Hr).
    assert (Forall (fun r => i <= r /\ in_time (clock r) (rs_budget s)) rounds) as Hr'.
    { eapply Forall_impl; [exact Hr|]. intros r [Hi Ht]. split; [lia|by eapply in_time_same]. }
    destruct Er as [Ee|[[a Ee] Ht]]; rewrite E, Ee; [by exists actions, rounds|].
    exists (a :: actions), (i :: rounds). split_and!; [by rewrite <- app_assoc|cbn; lia| |by constructor].
    constructor; [done|]. eapply Forall_impl; [exact Hr|]. intros r [Hi _]. cbv beta. lia.
  - injection H as <- <- <- <-. destruct Er as [Ee|[[a Ee] Ht]]; rewrite Ee.
    + exists [], []. rewrite app_nil_r. split_and!; [done|done|constructor|constructor].
    + exists [a], [i]. split_and!; [done|done|repeat constructor|by apply Forall_singleton].
Qed.

Lemma react_loop_total clock fuel i s :
  react_ok s -> (max_llm_calls (rs_budget s) - llm_call_count (rs_budget s) < Z.of_nat fuel)%Z ->
  (0 < fuel)%nat -> react_loop fuel clock i s <> None.
Proof.
  revert i s. induction fuel as [|k IH]; intros i s Hok Hf Hk; [lia|]. cbn [react_loop].
  destruct (react_round (clock i) s) as [o|] eqn:Er; [|done].
  destruct (react_round_ok _ _ _ Hok Er) as (Hok' & (_ & _ & _ & Hm & _) & Hc).
  destruct o as [s1|]; [|done]. cbn in *. destruct Hc. apply IH; [done|lia|lia].
Qed.

Lemma initial_state_ok b :
  step_count b = 0%Z -> tool_call_count b = 0%Z -> db_query_count b = 0%Z -> llm_call_count b = 0%Z ->
  react_ok (initial_state b).
Proof.
  intros H1 H2 H3 H4. unfold react_ok, within_limits. cbn. rewrite H1, H2, H3, H4.
  split_and!; try lia; try done; constructor.
Qed.
End round.

(** The normalised arguments depend only on the entries, not on their order. *)
Lemma dlookup_perm {A} k (d d' : list (string * A)) :
  NoDup d.*1 -> d ≡ₚ d' -> dlookup k d = dlookup k d'.
Proof.
  intros Hnd Hp. revert Hnd. induction Hp as [|[k' v] d d' Hp IH|[k1 v1] [k2 v2] d|d1 d2 d3 H1 IH1 H2 IH2];
    intros Hnd; cbn [dlookup].
  - done.
  - destruct (String.eqb k k'); [done|]. apply IH. by apply NoDup_cons in Hnd as [_ ?].
  - cbn in Hnd. apply NoDup_cons in Hnd as [Hn _].
    destruct (String.eqb_spec k k2) as [E2|], (String.eqb_spec k k1) as [E1|]; try done.
    exfalso. apply Hn. rewrite <- E1, E2. by left.
  - rewrite IH1 by done. apply IH2. by rewrite <- H1.
Qed.

(** The budget a run works with. *)
Definition run_budget (deadline : option Q) (b : ReactBudget) : ReactBudget :=
  match deadline with Some d => set_deadline d b | None => b end.

(** A finished run keeps the invariant and the limits it started with, has
    charged no tokens, and executed its actions in rounds that could start. *)
Lemma react_run_inv digest policy reason execute config tid uid tools kbs db
    now cfg ml b clock deadline res :
  build_budget_from_config now cfg ml = Ok b ->
  react_run digest policy reason execute config tid uid tools kbs db clock deadline b = Some (Ok res) ->
  let s := rr_state res in
  react_ok policy s /\ same_limits (run_budget deadline b) (rs_budget s) /\
  rr_evidence res = rs_evidence s /\ rr_step_count res = step_count (rs_budget s) /\
  exists rounds, length rounds = length (rs_executed s) /\ StronglySorted lt rounds /\
    Forall (fun r => in_time (clock r) (run_budget deadline b)) rounds.
Proof.
  intros (H1 & H2 & H3 & H4)%build_budget_fresh Hr. unfold react_run in Hr. cbn zeta in Hr.
  fold (run_budget deadline b) in Hr. set (b' := run_budget deadline b) in *.
  assert (react_ok policy (initial_state config b')) as Hok
    by (apply initial_state_ok; unfold b', run_budget; by destruct deadline).
  destruct (react_loop _ _ _ _ _ _ _ _ _ _ _ _ _ _) as [[[[[f t] src] s']|]|] eqn:E; try done.
  injection Hr as <-. destruct (react_loop_ok _ _ _ _ _ _ _ _ _ _ _ _ _ _ _ _ _ _ Hok E) as (Hs & Hl).
  destruct (react_loop_rounds _ _ _ _ _ _ _ _ _ _ _ _ _ _ _ _ _ _ Hok E) as (actions & rounds & Ha & Hlen & Hsort & Hrounds).
  cbn in Ha, Hl, Hrounds. cbn. split_and!; try done. exists rounds. rewrite Ha. split_and!; [done|done|].
  eapply Forall_impl; [exact Hrounds|]. by intros r [_ ?].
Qed.

(** ** Properties *)

(** [C28] Every run of the subgraph ends: the limit on model calls bounds its rounds,
    whatever the model, the policy, the tools and the clock do. *)
Theorem react_run_terminates digest policy reason execute config tid uid tools kbs db
    now cfg ml b clock deadline :
  build_budget_from_config now cfg ml = Ok b ->
  react_run digest policy reason execute config tid uid tools kbs db clock deadline b <> None.
Proof.
  intros (H1 & H2 & H3 & H4)%build_budget_fresh. unfold react_run. cbn zeta.
  set (b' := match deadline with Some d => set_deadline d b | None => b end).
  assert (react_ok policy (initial_state config b')) as Hok
    by (apply initial_state_ok; unfold b'; by destruct deadline).
  assert (llm_call_count b' = 0%Z) as Hl by (unfold b'; by destruct deadline).
  pose proof (react_loop_total digest policy reason execute config tid uid tools kbs db clock
    (S (Z.to_nat (max_llm_calls b'))) 0 _ Hok ltac:(cbn; lia) ltac:(lia)) as Ht.
  destruct (react_loop _ _ _ _ _ _ _ _ _ _ _ _ _ _) as [[[[[? ?] ?] ?]|]|]; done.
Qed.

(** [C27] What a finished run has done: it executed only actions the policy let
    through, with the arguments the policy gave them, no more of them, of
    database queries, of steps and of model calls than its limits say; each
    action was executed in a round of its own that began by the deadline and
    with tokens left; no tokens were charged; and its evidence has no
    duplicate identifier. *)
Theorem react_run_safe digest policy reason execute config tid uid tools kbs db
    now cfg ml b clock deadline res :
  build_budget_from_config now cfg ml = Ok b ->
  react_run digest policy reason execute config tid uid tools kbs db clock deadline b = Some (Ok res) ->
  let s := rr_state res in let limit := get_or deadline (deadline_ts b) in
  Forall (let_through policy) (rs_executed s) /\
  (py_len (rs_executed s) <= Z.max 0 (max_tool_calls b))%Z /\
  (py_len (List.filter is_db (rs_executed s)) <= Z.max 0 (max_db_queries b))%Z /\
  (llm_call_count (rs_budget s) <= Z.max 0 (max_llm_calls b))%Z /\
  (rr_step_count res <= Z.max 0 (max_steps b))%Z /\
  (exists rounds : list nat, length rounds = length (rs_executed s) /\ StronglySorted lt rounds /\
     Forall (fun r => (limit == 0 \/ clock r <= limit)%Q /\ (token_budget b = 0 \/ token_used b < token_budget b)%Z) rounds) /\
  token_used (rs_budget s) = token_used b /\
  NoDup (map ev_evidence_id (rr_evidence res)).
Proof.
  intros Hb Hr. destruct (react_run_inv _ _ _ _ _ _ _ _ _ _ _ _ _ _ _ _ _ Hb Hr) as
    ((Hw & Ht & Hd & Hf & Hnd) & (M1 & M2 & M3 & M4 & M5 & _) & He & Hc & rounds & Hlen & Hs & Hrounds). cbn zeta.
  destruct Hw as (W1 & W2 & W3 & W4). rewrite M1 in W1. rewrite M2 in W2. rewrite M3 in W3. rewrite M4 in W4. rewrite He, Hc, <- Ht, <- Hd.
  assert (max_steps (run_budget deadline b) = max_steps b /\ max_tool_calls (run_budget deadline b) = max_tool_calls b /\
    max_db_queries (run_budget deadline b) = max_db_queries b /\ max_llm_calls (run_budget deadline b) = max_llm_calls b) as (E1 & E2 & E3 & E4)
    by by destruct deadline.
  split_and!; try done; try lia; [|by rewrite M5; destruct deadline].
  exists rounds. split_and!; try done. by destruct deadline.
Qed.

(** What the repository's policy guard says of an executed action: the white
    list has it, and for a database query the text it looked at, the argument
    "sql" before "query", has no dangerous keyword and a LIMIT on a SELECT. *)
Lemma executed_by_guard uw fr agent_config skills g digest reason execute config tid uid tools
    kbs db now cfg ml b clock deadline res a :
  build_budget_from_config now cfg ml = Ok b ->
  react_run digest (evaluate uw fr agent_config skills g) reason execute config tid uid tools kbs db
    clock deadline b = Some (Ok res) ->
  a ∈ rs_executed (rr_state res) ->
  a.(ra_type) ∈ "finish" :: "ask_clarification" :: pg_allowed_tools g /\
  (is_db a = true -> exists sql, text_arg (ra_arguments a) ["sql"; "query"] = Ok sql /\
     (forall kw, kw ∈ HIGH_RISK_KEYWORDS -> contains kw (py_lower sql) = false) /\
     (startswith "select" (py_lower sql) = true -> search_word uw "limit" (py_lower sql) = true)).
Proof.
  intros Hb Hr Ha. destruct (react_run_inv _ _ _ _ _ _ _ _ _ _ _ _ _ _ _ _ _ Hb Hr) as ((_&_&_&Hf&_)&_).
  rewrite Forall_forall in Hf. destruct (Hf a Ha) as (ctx & r & He & Hd & Hn & Ht & Hn' & Hargs).
  destruct (evaluate_not_denied _ _ _ _ _ _ _ He Hd) as (_ & Hin & Hq).
  rewrite Ht, Hn' in Hin, Hq. assert (py_or (ra_type a) (ra_type a) = ra_type a) as E by (unfold py_or; by case_match).
  rewrite E in *. split; [set_solver|]. intros Hdb%String.eqb_eq. specialize (Hq Hdb).
  destruct (db_query_decision _ _ _ _ _ Hq) as [Hal|[?|?]]; [|done..].
  destruct (db_query_allowed_sound _ _ _ _ _ Hq Hal) as (sql & pol & Hs & _ & Hsan & Hk & _ & Hl & _).
  rewrite Hargs, Hsan. exists sql. split; [|done]. unfold py_or. by case_match.
Qed.

(** No call charges tokens, so the token budget can never stop a run. *)
Theorem token_budget_never_charged digest policy reason execute config tid uid tools kbs db
    now cfg ml b clock deadline res :
  build_budget_from_config now cfg ml = Ok b ->
  react_run digest policy reason execute config tid uid tools kbs db clock deadline b = Some (Ok res) ->
  token_used (rs_budget (rr_state res)) = token_used b.
Proof.
  intros Hb Hr.
  destruct (react_run_inv _ _ _ _ _ _ _ _ _ _ _ _ _ _ _ _ _ Hb Hr) as (_&(_&_&_&_&->&_)&_). by destruct deadline.
Qed.

(** The loop guard compares actions up to the order of their arguments. *)
Theorem normalize_order_irrelevant args args' :
  NoDup args.*1 -> args ≡ₚ args' -> normalize_action_args args = normalize_action_args args'.
Proof.
  intros Hnd Hp. unfold normalize_action_args.
  assert (py_sorted (map fst args) = py_sorted (map fst args')) as -> by (apply py_sorted_Permutation; by rewrite Hp).
  induction (py_sorted (map fst args')) as [|k l IH]; cbn [omap list_omap]; [done|].
  rewrite (dlookup_perm k args args') by done. by destruct (if str_in _ _ then _ else _); rewrite IH.
Qed.

(** ** Instances *)

(** A model that queries once and then finishes. *)
Definition query_action : ReactAction :=
  mkAction "db_query" false "" "" [("sql", VStr "select name from orders limit 5")].
Definition query_once (s : ReactState) : result ReactAction :=
  Ok (match rs_executed s with [] => query_action | _ => mkAction "finish" true "" "" [] end).
Definition one_row (_ : ReactState) (_ : ReactAction) : result (ReactObservation * list Evidence) :=
  Ok (mkObservation true "1 row" "" 1 None, []).
Definition plain_guard : PolicyGuard := mkGuard DEFAULT_ALLOWED_TOOLS (VDict []).
Definition guarded : PolicyContext -> result PolicyResult :=
  evaluate (fun _ => false) (fun _ => "") (VDict []) None plain_guard.
Definition sample_budget : ReactBudget :=
  match build_budget_from_config 0 None None with Ok b => b | Raise _ => mkBudget 0 0 0 0 0 0 0 0 0 0 0 end.
Definition sample_run : option (result ReactExecutionResult) :=
  react_run (fun _ => "") guarded query_once one_row DEFAULT_LOOP_GUARD_CONFIG "" "" [] None "" (fun _ => 0%Q) None sample_budget.
Definition sample_result : ReactExecutionResult :=
  match sample_run with Some (Ok r) => r | _ => make_result "" "" "" (initial_state DEFAULT_LOOP_GUARD_CONFIG sample_budget) end.

Lemma react_run_terminates_witness : sample_run <> None.
Proof.
  exact (react_run_terminates (fun _ => "") guarded query_once one_row DEFAULT_LOOP_GUARD_CONFIG "" "" [] None ""
           0 None None sample_budget (fun _ => 0%Q) None eq_refl).
Defined.

Lemma react_run_safe_witness : Forall (let_through guarded) (rs_executed (rr_state sample_result)).
Proof.
  exact (proj1 (react_run_safe (fun _ => "") guarded query_once one_row DEFAULT_LOOP_GUARD_CONFIG "" "" [] None ""
           0 None None sample_budget (fun _ => 0%Q) None sample_result eq_refl eq_refl)).
Defined.

Lemma token_budget_never_charged_witness : token_used (rs_budget (rr_state sample_result)) = token_used sample_budget.
Proof.
  exact (token_budget_never_charged (fun _ => "") guarded query_once one_row DEFAULT_LOOP_GUARD_CONFIG "" "" [] None ""
           0 None None sample_budget (fun _ => 0%Q) None sample_result eq_refl eq_refl).
Defined.

Lemma normalize_order_irrelevant_witness :
  normalize_action_args [("a", VInt 1); ("b", VInt 2)] = normalize_action_args [("b", VInt 2); ("a", VInt 1)].
Proof.
  refine (normalize_order_irrelevant [("a", VInt 1); ("b", VInt 2)] [("b", VInt 2); ("a", VInt 1)] _ _).
  - cbn. repeat constructor; set_solver.
  - apply Permutation_swap.
Defined.
