(* ===== verification/DagScheduler.v ===== *)
(** * The plan executor's scheduler (executor/dag_scheduler.py)

    A plan is cut into layers along its dependencies; the steps of a layer run
    concurrently and see the results of the layers before. *)

From S2P Require Import Prelude PyFloat PyVal PyList AgentState.

Section scheduler.
(** The arguments of a step, compared when a step is removed from a list. *)
Context {StepArgs : Type} `{EqDecision StepArgs}.

Record PlanStep : Type := mkStep {
  ps_step_id : string; ps_tool : string; ps_args : StepArgs; ps_depends_on : list string;
  ps_can_parallel : bool; ps_description : string }.

#[export] Instance PlanStep_eq_dec : EqDecision PlanStep.
Proof. solve_decision. Defined.

(** ** Layers *)

Definition ready (completed : list string) (s : PlanStep) : bool :=
  forallb (fun dep => str_in dep completed) (ps_depends_on s).

(** [remaining.remove(s)]: the first equal element. *)
Fixpoint list_remove_first (s : PlanStep) (l : list PlanStep) : list PlanStep :=
  match l with
  | [] => []
  | x :: l' => if bool_decide (x = s) then l' else x :: list_remove_first s l'
  end.

(** The loop of [_topological_layers], one layer per unit of fuel. *)
Fixpoint layers_loop (fuel : nat) (completed : list string) (remaining : list PlanStep)
    : result (list (list PlanStep)) :=
  match remaining, fuel with
  | [], _ => Ok []
  | _, O => Raise (OtherError "fuel")
  | _, S k =>
    match List.filter (ready completed) remaining with
    | [] => Raise (ValueError "cycle")
    | layer =>
      let! rest := layers_loop k (completed ++ map ps_step_id layer)
                     (fold_left (fun r s => list_remove_first s r) layer remaining) in
      Ok (layer :: rest)
    end
  end.

Definition topological_layers (steps : list PlanStep) : result (list (list PlanStep)) :=
  layers_loop (length steps) [] steps.

(** ** Execution *)

(** A tool result: its fields, of which [success] and [error] are read here. *)
Definition error_result (s : PlanStep) (error : string) : pydict :=
  [("step_id", VStr (ps_step_id s)); ("tool", VStr (ps_tool s)); ("success", VBool false);
   ("error", VStr error)].

Section execute.
(** One dispatched step, given the results of the earlier layers; an exception
    becomes a failed result. *)
Variable dispatch : PlanStep -> list (string * pydict) -> pydict + string.

Definition step_result (s : PlanStep) (previous : list (string * pydict)) : pydict :=
  match dispatch s previous with inl r => r | inr error => error_result s error end.

(** The results of a layer are stored once all its steps have ended. *)
Definition execute_layer (results : list (string * pydict)) (layer : list PlanStep) : list (string * pydict) :=
  fold_left (fun acc sr => dset (ps_step_id sr.1) sr.2 acc)
    (map (fun s => (s, step_result s results)) layer) results.

Definition execute_layers (layers : list (list PlanStep)) (results : list (string * pydict))
    : list (string * pydict) :=
  fold_left execute_layer layers results.

(** The calls to the dispatcher, in order, each with the results it sees. *)
Fixpoint dispatched (layers : list (list PlanStep)) (results : list (string * pydict))
    : list (PlanStep * list (string * pydict)) :=
  match layers with
  | [] => []
  | layer :: rest => map (fun s => (s, results)) layer ++ dispatched rest (execute_layer results layer)
  end.

(** [DAGScheduler.execute] *)
Definition execute_plan (steps : list PlanStep) : result (list pydict) :=
  let! layers := topological_layers steps in
  Ok (map snd (execute_layers layers [])).
End execute.

(** ** Lemmas *)

Lemma list_remove_first_perm s l : s ∈ l -> l ≡ₚ s :: list_remove_first s l.
Proof.
  induction l as [|x l IH]; cbn [list_remove_first]; [by intros ?%not_elem_of_nil|].
  destruct (bool_decide_reflect (x = s)) as [->|Hne]; [done|].
  intros [->|Hin]%elem_of_cons; [done|]. rewrite (IH Hin) at 1. apply Permutation_swap.
Qed.

Lemma filter_perm_split (f : PlanStep -> bool) l :
  l ≡ₚ List.filter f l ++ List.filter (fun x => negb (f x)) l.
Proof.
  induction l as [|x l IH]; cbn [List.filter]; [done|]. destruct (f x); cbn [negb app].
  - by rewrite <- IH.
  - rewrite IH at 1. apply Permutation_middle.
Qed.

Lemma remove_all_perm layer l r :
  l ≡ₚ layer ++ r -> fold_left (fun r s => list_remove_first s r) layer l ≡ₚ r.
Proof.
  revert l. induction layer as [|s layer IH]; intros l H; cbn [fold_left]; [done|].
  apply IH. assert (s ∈ l) as Hin by (rewrite H; by left).
  apply (Permutation_cons_inv (a := s)). by rewrite <- list_remove_first_perm.
Qed.

(** What remains after a layer: the steps that were not ready. *)
Lemma layer_remaining completed remaining :
  fold_left (fun r s => list_remove_first s r) (List.filter (ready completed) remaining) remaining
  ≡ₚ List.filter (fun s => negb (ready completed s)) remaining.
Proof. apply remove_all_perm, filter_perm_split. Qed.

(** Layers in which each step waits only for ids that are already there. *)
Fixpoint layered (avail : list string) (layers : list (list PlanStep)) : Prop :=
  match layers with
  | [] => True
  | layer :: rest =>
    layer <> [] /\ (forall s, s ∈ layer -> forall dep, dep ∈ ps_depends_on s -> dep ∈ avail) /\
    layered (avail ++ map ps_step_id layer) rest
  end.

Lemma ready_spec completed s : ready completed s = true <-> forall dep, dep ∈ ps_depends_on s -> dep ∈ completed.
Proof. unfold ready. rewrite forallb_true_forall. by setoid_rewrite str_in_spec. Qed.

Lemma filter_In_spec (f : PlanStep -> bool) l x : x ∈ List.filter f l <-> x ∈ l /\ f x = true.
Proof. by rewrite list_elem_of_In, List.filter_In, <- list_elem_of_In. Qed.

Lemma layers_loop_sound fuel completed remaining layers :
  layers_loop fuel completed remaining = Ok layers ->
  concat layers ≡ₚ remaining /\ layered completed layers.
Proof.
  revert completed remaining layers. induction fuel as [|k IH]; intros completed remaining layers H;
    destruct remaining as [|r0 rs]; cbn [layers_loop] in H; try (apply Ok_inj in H as <-; done); [done|].
  set (remaining := r0 :: rs) in *. destruct (List.filter (ready completed) remaining) as [|s l] eqn:E; [done|].
  rewrite <- E in H. inv_ok H. apply Ok_inj in H as <-. destruct (IH _ _ _ Ha) as [Hp Hl]. split.
  - cbn [concat]. rewrite Hp, layer_remaining. symmetry. apply filter_perm_split.
  - cbn [layered]. split; [by rewrite E|]. split; [|done].
    intros x [_ Hx]%filter_In_spec. by apply ready_spec.
Qed.

(** A stuck set: steps that each wait for an id that no step outside the set has. *)
Definition stuck (steps rem : list PlanStep) : Prop :=
  rem <> [] /\ rem ⊆ steps /\
  forall s, s ∈ rem -> exists dep, dep ∈ ps_depends_on s /\
    forall s', s' ∈ steps -> ps_step_id s' = dep -> s' ∈ rem.

Lemma layers_loop_stuck fuel completed remaining steps e :
  (length remaining <= fuel)%nat ->
  (forall s, s ∈ steps -> s ∈ remaining \/ ps_step_id s ∈ completed) -> remaining ⊆ steps ->
  layers_loop fuel completed remaining = Raise e ->
  e = ValueError "cycle" /\ exists rem, stuck steps rem.
Proof.
  revert completed remaining. induction fuel as [|k IH]; intros completed remaining Hlen Hcov Hsub H;
    destruct remaining as [|r0 rs]; cbn [layers_loop] in H; try done; [cbn in Hlen; lia|].
  set (remaining := r0 :: rs) in *.
  destruct (List.filter (ready completed) remaining) as [|s l] eqn:E.
  - injection H as <-. split; [done|]. exists remaining. split; [done|]. split; [done|].
    intros s Hs. assert (ready completed s = false) as Hr.
    { destruct (ready completed s) eqn:Er; [|done]. exfalso. apply (not_elem_of_nil s).
      rewrite <- E. by apply filter_In_spec. }
    unfold ready in Hr. apply not_true_iff_false in Hr.
    destruct (existsb (fun dep => negb (str_in dep completed)) (ps_depends_on s)) eqn:Ex.
    + apply existsb_true_exists in Ex as (dep & Hd & Hn). apply negb_true_iff, str_in_false in Hn.
      exists dep. split; [done|]. intros s' Hs' Hid. destruct (Hcov _ Hs') as [?|Hc]; [done|]. by rewrite Hid in Hc.
    + exfalso. apply Hr, forallb_true_forall. intros dep Hd. rewrite existsb_false_forall in Ex.
      specialize (Ex _ Hd). by apply negb_false_iff in Ex.
  - rewrite <- E in H. destruct (layers_loop k _ _) eqn:El; [done|]. injection H as <-.
    pose proof (layer_remaining completed remaining) as Hp.
    eapply IH; [| | |exact El].
    + rewrite Hp. assert (length (List.filter (fun s => negb (ready completed s)) remaining) < length remaining)%nat.
      { rewrite (filter_perm_split (ready completed) remaining) at 2. rewrite List.length_app, E. cbn. lia. }
      lia.
    + intros x Hx. destruct (Hcov _ Hx) as [Hr|Hc]; [|right; apply elem_of_app; by left].
      destruct (ready completed x) eqn:Er.
      * right. apply elem_of_app. right. apply list_elem_of_fmap_2. by apply filter_In_spec.
      * left. rewrite Hp. apply filter_In_spec. by rewrite Er.
    + intros x Hx. rewrite Hp in Hx. apply filter_In_spec in Hx as [Hx _]. by apply Hsub.
Qed.

Lemma min_rank (rank : PlanStep -> nat) l : l <> [] -> exists s, s ∈ l /\ forall s', s' ∈ l -> (rank s <= rank s')%nat.
Proof.
  induction l as [|x l IH]; [done|]. intros _. destruct l as [|y l].
  - exists x. split; [by left|]. by intros s' ->%list_elem_of_singleton.
  - destruct (IH ltac:(done)) as (s & Hs & Hm). destruct (le_lt_dec (rank x) (rank s)).
    + exists x. split; [by left|]. intros s' [->|Hs']%elem_of_cons; [done|]. specialize (Hm _ Hs'). lia.
    + exists s. split; [by right|]. intros s' [->|Hs']%elem_of_cons; [lia|by apply Hm].
Qed.

Lemma stuck_never_layered steps rem avail layers :
  stuck steps rem -> layered avail layers -> concat layers ⊆ steps ->
  (forall dep, dep ∈ avail -> exists s', (s' ∈ steps) /\ (s' ∉ rem) /\ ps_step_id s' = dep) ->
  forall s, s ∈ concat layers -> s ∉ rem.
Proof.
  intros Hst. revert avail. induction layers as [|layer layers IH]; intros avail Hl Hsub Hdone s Hs; cbn in Hs.
  { by apply not_elem_of_nil in Hs. }
  destruct Hl as (_ & Hdep & Hl).
  assert (forall x, x ∈ layer -> x ∉ rem) as Hlay.
  { intros x Hx Hr. destruct Hst as (_ & _ & Hst). destruct (Hst _ Hr) as (dep & Hd & Hall).
    destruct (Hdone dep) as (s' & ? & Hn & ?); [by eapply Hdep|]. by apply Hn, Hall. }
  apply elem_of_app in Hs as [Hs|Hs]; [by apply Hlay|].
  eapply IH; [exact Hl| | |done].
  - intros x Hx. apply Hsub. cbn. apply elem_of_app. by right.
  - intros dep [Hd|Hd]%elem_of_app; [by apply Hdone|].
    apply list_elem_of_fmap in Hd as (x & -> & Hx). exists x. split; [|split; [by apply Hlay|done]].
    apply Hsub. cbn. apply elem_of_app. by left.
Qed.

Lemma topological_layers_stuck steps e :
  topological_layers steps = Raise e -> e = ValueError "cycle" /\ exists rem, stuck steps rem.
Proof.
  intros H. eapply (layers_loop_stuck (length steps) [] steps steps); [lia| |done|exact H].
  intros s Hs. by left.
Qed.

Section results.
Variable dispatch : PlanStep -> list (string * pydict) -> pydict + string.

Lemma dset_some k k' (v : pydict) d : dlookup k d <> None -> dlookup k (dset k' v d) <> None.
Proof. intros H. rewrite dlookup_dset. by destruct (String.eqb k k'). Qed.

Lemma execute_layer_keeps results layer k :
  dlookup k results <> None -> dlookup k (execute_layer dispatch results layer) <> None.
Proof.
  unfold execute_layer. generalize (map (fun s => (s, step_result dispatch s results)) layer) as l.
  intros l. revert results. induction l as [|x l IH]; intros results H; cbn [fold_left]; [done|].
  by apply IH, dset_some.
Qed.

Lemma execute_layer_has results layer s :
  s ∈ layer -> dlookup (ps_step_id s) (execute_layer dispatch results layer) <> None.
Proof.
  intros Hs. unfold execute_layer.
  assert (forall (l : list (PlanStep * pydict)) acc, (exists sr, sr ∈ l /\ ps_step_id sr.1 = ps_step_id s) \/
      dlookup (ps_step_id s) acc <> None ->
    dlookup (ps_step_id s) (fold_left (fun acc sr => dset (ps_step_id sr.1) sr.2 acc) l acc) <> None) as H.
  { induction l as [|x l IH]; intros acc Hc; cbn [fold_left].
    - destruct Hc as [(sr & Hn & _)|Hc]; [by apply not_elem_of_nil in Hn|done].
    - apply IH. destruct Hc as [(sr & [->|Hin]%elem_of_cons & Hid)|Hc].
      + right. by rewrite Hid, dlookup_dset_eq.
      + left. by exists sr.
      + right. by apply dset_some. }
  apply H. left. exists (s, step_result dispatch s results). split; [|done].
  by apply (list_elem_of_fmap_2 (fun s => (s, step_result dispatch s results))).
Qed.

Lemma execute_layers_keeps layers results k :
  dlookup k results <> None -> dlookup k (execute_layers dispatch layers results) <> None.
Proof.
  revert results. induction layers as [|l layers IH]; intros results H; cbn; [done|].
  by apply IH, execute_layer_keeps.
Qed.

Lemma execute_layers_has layers results s :
  s ∈ concat layers -> dlookup (ps_step_id s) (execute_layers dispatch layers results) <> None.
Proof.
  revert results. induction layers as [|l layers IH]; intros results Hs; cbn in *; [by apply not_elem_of_nil in Hs|].
  apply elem_of_app in Hs as [Hs|Hs]; [by apply execute_layers_keeps, execute_layer_has|by apply IH].
Qed.

Lemma dispatched_sees avail layers results :
  layered avail layers -> (forall dep, dep ∈ avail -> dlookup dep results <> None) ->
  Forall (fun c => forall dep, dep ∈ ps_depends_on c.1 -> dlookup dep c.2 <> None)
    (dispatched dispatch layers results).
Proof.
  revert avail results. induction layers as [|layer layers IH]; intros avail results Hl Hd; cbn; [done|].
  destruct Hl as (_ & Hdep & Hl). apply Forall_app. split.
  - apply Forall_forall. intros c Hc. apply list_elem_of_fmap in Hc as (s & -> & Hs). cbn. eauto.
  - eapply IH; [exact Hl|]. intros dep [H|H]%elem_of_app; [by apply execute_layer_keeps, Hd|].
    apply list_elem_of_fmap in H as (s & -> & Hs). by apply execute_layer_has.
Qed.

Lemma dispatched_steps layers results : map fst (dispatched dispatch layers results) = concat layers.
Proof.
  revert results. induction layers as [|layer layers IH]; intros results; cbn; [done|].
  by rewrite map_app, map_map, map_id, IH.
Qed.
End results.
End scheduler.

(** ** Properties *)

(** A scheduled plan: its layers hold every step exactly once, none is empty,
    and a step waits only for ids of earlier layers. *)
Theorem topological_layers_sound {A} `{EqDecision A} (steps : list (@PlanStep A)) layers :
  topological_layers steps = Ok layers -> concat layers ≡ₚ steps /\ layered [] layers.
Proof. apply layers_loop_sound. Qed.

(** The scheduler refuses a plan exactly when some steps wait for one another or
    for an id no step has; in particular a plan whose dependencies all exist and
    can be ranked is always scheduled. *)
Theorem topological_layers_refuses {A} `{EqDecision A} (steps : list (@PlanStep A)) :
  (topological_layers steps = Raise (ValueError "cycle") <-> exists rem, stuck steps rem) /\
  ((exists rank : PlanStep -> nat, forall s dep, s ∈ steps -> dep ∈ ps_depends_on s ->
      exists s', s' ∈ steps /\ ps_step_id s' = dep /\ (rank s' < rank s)%nat) ->
   exists layers, topological_layers steps = Ok layers).
Proof.
  split; [split|].
  - intros H. by apply topological_layers_stuck in H as [_ ?].
  - intros (rem & Hst). destruct (topological_layers steps) as [layers|e] eqn:E.
    + exfalso. pose proof (layers_loop_sound _ _ _ _ E) as [Hp Hl].
      destruct Hst as (Hne & Hsub & Hall). destruct rem as [|s rem]; [done|].
      eapply (stuck_never_layered steps (s :: rem) [] layers); [done|done| | | |by left].
      * intros x. by rewrite Hp.
      * by intros dep ?%not_elem_of_nil.
      * rewrite Hp. apply Hsub. by left.
    + by apply topological_layers_stuck in E as [-> _].
  - intros (rank & Hrank). destruct (topological_layers steps) as [layers|e] eqn:E; [by exists layers|].
    exfalso. apply topological_layers_stuck in E as (_ & rem & Hne & Hsub & Hst).
    destruct (min_rank rank rem Hne) as (s & Hs & Hm).
    destruct (Hst s Hs) as (dep & Hd & Hall).
    destruct (Hrank s dep (Hsub _ Hs) Hd) as (s' & Hs' & Hid & Hlt).
    specialize (Hm s' (Hall _ Hs' Hid)). lia.
Qed.

(** Executing a scheduled plan calls the dispatcher once per step, each call
    sees a result for every dependency, and every step ends with a result even
    when tools fail. *)
Theorem execute_plan_complete {A} `{EqDecision A} (steps : list (@PlanStep A)) dispatch layers :
  topological_layers steps = Ok layers ->
  map fst (dispatched dispatch layers []) ≡ₚ steps /\
  Forall (fun c => forall dep, dep ∈ ps_depends_on c.1 -> dlookup dep c.2 <> None)
    (dispatched dispatch layers []) /\
  execute_plan dispatch steps = Ok (map snd (execute_layers dispatch layers [])) /\
  forall s, s ∈ steps -> dlookup (ps_step_id s) (execute_layers dispatch layers []) <> None.
Proof.
  intros H. destruct (layers_loop_sound _ _ _ _ H) as [Hp Hl]. split_and!.
  - by rewrite dispatched_steps.
  - eapply dispatched_sees; [exact Hl|]. by intros dep ?%not_elem_of_nil.
  - unfold execute_plan. by rewrite H.
  - intros s Hs. apply execute_layers_has. by rewrite Hp.
Qed.

(** ** Instances *)

Definition sample_plan : list (@PlanStep string) :=
  [mkStep "b" "db_query" "" ["a"] true ""; mkStep "a" "rag_search" "" [] true ""].
Definition sample_layers : list (list (@PlanStep string)) :=
  [[mkStep "a" "rag_search" "" [] true ""]; [mkStep "b" "db_query" "" ["a"] true ""]].

Lemma topological_layers_sound_witness : concat sample_layers ≡ₚ sample_plan.
Proof. exact (proj1 (topological_layers_sound sample_plan sample_layers eq_refl)). Defined.

Lemma execute_plan_complete_witness :
  execute_plan (fun _ _ => inr "timeout") sample_plan =
  Ok (map snd (execute_layers (fun _ _ => inr "timeout") sample_layers [])).
Proof.
  exact (proj1 (proj2 (proj2 (execute_plan_complete sample_plan (fun _ _ => inr "timeout") sample_layers eq_refl)))).
Defined.
