(* ===== verification/RouteModels.v ===== *)
(** * Routing decisions and plans (routers/models.py)

    The objects that travel between the routers, the planner and the plan
    executor, with their construction from dictionaries and back. *)

From S2P Require Import Prelude PyFloat PyVal PyList PyText DagScheduler.

(** ** Validation

    The classes are pydantic models: a text field takes texts only, numbers and
    booleans may be converted from other values. *)

Class Pydantic : Type := {
  lax_bool : pyval -> option bool;
  lax_int : pyval -> option Z;
  lax_float : pyval -> option Q }.

(** A value of the declared type is taken as it is. *)
Class PydanticLaws (P : Pydantic) : Prop := {
  lax_bool_id b : lax_bool (VBool b) = Some b;
  lax_int_id z : lax_int (VInt z) = Some z;
  lax_float_id q : lax_float (VFloat q) = Some q }.

(** The conversions switched off. *)
#[export] Instance strict_pydantic : Pydantic := {|
  lax_bool v := match v with VBool b => Some b | _ => None end;
  lax_int v := match v with VInt z => Some z | _ => None end;
  lax_float v := match v with VFloat q => Some q | VInt z => Some (fint z) | _ => None end |}.

#[export] Instance strict_pydantic_laws : PydanticLaws strict_pydantic.
Proof. by split. Qed.

(** A failed validation raises an error of its own, a [ValueError]. *)
Definition validated {A} (m : result A) : result A :=
  match m with Ok a => Ok a | Raise _ => Raise (ValueError "validation") end.

Definition lax {A} (conv : pyval -> option A) (v : pyval) : result A :=
  match conv v with Some a => Ok a | None => Raise (ValueError "validation") end.

Definition literal_of (choices : list string) (v : pyval) : result string :=
  match v with VStr s => if str_in s choices then Ok s else Raise (ValueError "literal") | _ => Raise (ValueError "literal") end.

(** ** The arguments of a step *)

Record StepArgs : Type := mkStepArgs {
  sa_query : string; sa_query_simplified : string; sa_kb_ids : list string; sa_db_id : string; sa_mcp_server_name : string;
  sa_search_engine : string; sa_function : string; sa_function_params : pydict; sa_rest_endpoint : string;
  sa_rest_method : string; sa_rest_payload : pydict; sa_erp_domain : string; sa_source_type : string; sa_enable_pg : bool;
  sa_max_rows : Z; sa_max_result_chars : Z; sa_enable_hybrid_retrieval : bool; sa_timeout_ms : Z; sa_extra : pydict }.

#[export] Instance StepArgs_eq_dec : EqDecision StepArgs.
Proof. solve_decision. Defined.

(** [StepArgs()] *)
Definition default_StepArgs : StepArgs :=
  mkStepArgs "" "" [] "" "" "" "" [] "" "" [] "" "Meeting" false 20 12000 false 30000 [].

Definition known_fields : list string :=
  ["query"; "query_simplified"; "kb_ids"; "db_id"; "mcp_server_name"; "search_engine"; "function"; "function_params";
   "rest_endpoint"; "rest_method"; "rest_payload"; "erp_domain"; "source_type"; "enable_pg"; "max_rows";
   "max_result_chars"; "enable_hybrid_retrieval"; "timeout_ms"; "extra"].

(** The tools a plan may name, the targets of a decision and its sources. *)
Definition PLAN_TOOLS : list string := ["rag"; "database"; "web"; "rest"; "report"; "graph"].
Definition ROUTE_TARGETS : list string := ["rag"; "database"; "web"; "rest"; "hybrid"; "chitchat"; "graph"].
Definition ROUTE_SOURCES : list string := ["rule"; "llm"; "planner"; "prefilter"; "react_planner"].
Definition COMPLEXITIES : list string := ["simple"; "moderate"; "complex"].

Record ExecutionPlan : Type := mkPlan {
  ep_plan_id : string; ep_steps : list (@PlanStep StepArgs); ep_estimated_tokens : Z; ep_fallback_strategy : string }.

Record RouteDecision : Type := mkRoute {
  rd_target : string; rd_confidence : Q; rd_source : string; rd_reason : string; rd_complexity : string;
  rd_kb_ids : list string; rd_metadata : pydict }.

(** ** Construction *)

Section models.
Context {P : Pydantic}.

(** [StepArgs] from keyword arguments. *)
Definition new_StepArgs (d : pydict) : result StepArgs :=
  validated (
    let o := default_StepArgs in
    let! query := dget as_str d "query" (sa_query o) in
    let! query_simplified := dget as_str d "query_simplified" (sa_query_simplified o) in
    let! kb_ids := dget (as_list as_str) d "kb_ids" (sa_kb_ids o) in
    let! db_id := dget as_str d "db_id" (sa_db_id o) in
    let! mcp_server_name := dget as_str d "mcp_server_name" (sa_mcp_server_name o) in
    let! search_engine := dget as_str d "search_engine" (sa_search_engine o) in
    let! function := dget as_str d "function" (sa_function o) in
    let! function_params := dget as_dict d "function_params" (sa_function_params o) in
    let! rest_endpoint := dget as_str d "rest_endpoint" (sa_rest_endpoint o) in
    let! rest_method := dget as_str d "rest_method" (sa_rest_method o) in
    let! rest_payload := dget as_dict d "rest_payload" (sa_rest_payload o) in
    let! erp_domain := dget as_str d "erp_domain" (sa_erp_domain o) in
    let! source_type := dget as_str d "source_type" (sa_source_type o) in
    let! enable_pg := dget (lax lax_bool) d "enable_pg" (sa_enable_pg o) in
    let! max_rows := dget (lax lax_int) d "max_rows" (sa_max_rows o) in
    let! max_result_chars := dget (lax lax_int) d "max_result_chars" (sa_max_result_chars o) in
    let! enable_hybrid_retrieval := dget (lax lax_bool) d "enable_hybrid_retrieval" (sa_enable_hybrid_retrieval o) in
    let! timeout_ms := dget (lax lax_int) d "timeout_ms" (sa_timeout_ms o) in
    let! extra := dget as_dict d "extra" (sa_extra o) in
    Ok (mkStepArgs query query_simplified kb_ids db_id mcp_server_name search_engine function function_params rest_endpoint
          rest_method rest_payload erp_domain source_type enable_pg max_rows max_result_chars enable_hybrid_retrieval
          timeout_ms extra)).

(** [StepArgs.from_dict] *)
Definition args_from_dict (data : pyval) : result StepArgs :=
  if negb (truthy data) then Ok default_StepArgs
  else match data with
       | VDict d => new_StepArgs (List.filter (fun kv => str_in kv.1 known_fields) d)
       | _ => Raise (AttributeError "items")
       end.

(** [PlanStep.from_dict] *)
Definition step_from_dict (data : pyval) : result (@PlanStep StepArgs) :=
  match data with
  | VDict d =>
    let! step_args := args_from_dict (get_or (dlookup "args" d) (VDict [])) in
    validated (
      let! step_id := dget as_str d "step_id" "" in
      let! tool := literal_of PLAN_TOOLS (get_or (dlookup "tool" d) (VStr "rag")) in
      let! depends_on := dget (as_list as_str) d "depends_on" [] in
      let! can_parallel := dget (lax lax_bool) d "can_parallel" false in
      let! description := dget as_str d "description" "" in
      Ok (mkStep step_id tool step_args depends_on can_parallel description))
  | _ => Raise (AttributeError "get")
  end.

(** The plan of a dictionary ([_parse_plan] of the executor and the end of
    [_call_planner]), with the id used when it has none. *)
Definition parse_plan (default_id : string) (plan_data : pydict) : result ExecutionPlan :=
  let! steps_data := py_iter (get_or (dlookup "steps" plan_data) (VList [])) in
  let! steps := rmap step_from_dict steps_data in
  validated (
    let! plan_id := dget as_str plan_data "plan_id" default_id in
    let! estimated_tokens := dget (lax lax_int) plan_data "estimated_tokens" 1000%Z in
    let! fallback_strategy := dget as_str plan_data "fallback_strategy" "sequential" in
    Ok (mkPlan plan_id steps estimated_tokens fallback_strategy)).

(** [RouteDecision(...)] *)
Definition new_RouteDecision (target confidence source reason complexity kb_ids : pyval) (metadata : pydict) : result RouteDecision :=
  validated (
    let! target := literal_of ROUTE_TARGETS target in
    let! confidence := lax lax_float confidence in
    let! confidence := if Qle_bool 0 confidence && Qle_bool confidence 1 then Ok confidence else Raise (ValueError "range") in
    let! source := literal_of ROUTE_SOURCES source in
    let! reason := as_str reason in
    let! complexity := literal_of COMPLEXITIES complexity in
    let! kb_ids := as_list as_str kb_ids in
    Ok (mkRoute target confidence source reason complexity kb_ids metadata)).
End models.

(** ** Serialisation ([model_dump]) *)

Definition args_dump (a : StepArgs) : pydict :=
  [("query", VStr (sa_query a)); ("query_simplified", VStr (sa_query_simplified a)); ("kb_ids", VStrs (sa_kb_ids a));
   ("db_id", VStr (sa_db_id a)); ("mcp_server_name", VStr (sa_mcp_server_name a)); ("search_engine", VStr (sa_search_engine a));
   ("function", VStr (sa_function a)); ("function_params", VDict (sa_function_params a)); ("rest_endpoint", VStr (sa_rest_endpoint a));
   ("rest_method", VStr (sa_rest_method a)); ("rest_payload", VDict (sa_rest_payload a)); ("erp_domain", VStr (sa_erp_domain a));
   ("source_type", VStr (sa_source_type a)); ("enable_pg", VBool (sa_enable_pg a)); ("max_rows", VInt (sa_max_rows a));
   ("max_result_chars", VInt (sa_max_result_chars a)); ("enable_hybrid_retrieval", VBool (sa_enable_hybrid_retrieval a));
   ("timeout_ms", VInt (sa_timeout_ms a)); ("extra", VDict (sa_extra a))].

Definition step_dump (s : @PlanStep StepArgs) : pydict :=
  [("step_id", VStr (ps_step_id s)); ("tool", VStr (ps_tool s)); ("args", VDict (args_dump (ps_args s)));
   ("depends_on", VStrs (ps_depends_on s)); ("can_parallel", VBool (ps_can_parallel s)); ("description", VStr (ps_description s))].

Definition plan_dump (p : ExecutionPlan) : pydict :=
  [("plan_id", VStr (ep_plan_id p)); ("steps", VList (map (fun s => VDict (step_dump s)) (ep_steps p)));
   ("estimated_tokens", VInt (ep_estimated_tokens p)); ("fallback_strategy", VStr (ep_fallback_strategy p))].

(** A decision in the state, by its fields. *)
Definition route_value (d : RouteDecision) : pyval :=
  VDict [("target", VStr (rd_target d)); ("confidence", VFloat (rd_confidence d)); ("source", VStr (rd_source d));
         ("reason", VStr (rd_reason d)); ("complexity", VStr (rd_complexity d)); ("kb_ids", VStrs (rd_kb_ids d));
         ("metadata", VDict (rd_metadata d))].

(** ** Lemmas *)

Lemma validated_ok {A} (m : result A) a : validated m = Ok a -> m = Ok a.
Proof. by destruct m. Qed.

Lemma literal_of_ok choices v s : literal_of choices v = Ok s -> v = VStr s /\ s ∈ choices.
Proof. destruct v; try done. cbn. destruct (str_in _ _) eqn:E; [|done]. intros [= <-]. by apply str_in_spec in E. Qed.

(** What every decision satisfies. *)
Record route_wf (d : RouteDecision) : Prop := {
  rw_target : rd_target d ∈ ROUTE_TARGETS;
  rw_confidence : (0 <= rd_confidence d <= 1)%Q;
  rw_source : rd_source d ∈ ROUTE_SOURCES;
  rw_complexity : rd_complexity d ∈ COMPLEXITIES }.

Lemma new_RouteDecision_ok {P : Pydantic} t c s r x k m d : new_RouteDecision t c s r x k m = Ok d ->
  route_wf d /\ rd_metadata d = m /\ t = VStr (rd_target d) /\ s = VStr (rd_source d) /\ x = VStr (rd_complexity d) /\
  r = VStr (rd_reason d) /\ lax_float c = Some (rd_confidence d) /\ as_list as_str k = Ok (rd_kb_ids d).
Proof.
  unfold new_RouteDecision. intros H%validated_ok.
  apply rbind_ok in H as (t' & [Ht1 Ht2]%literal_of_ok & (q & Hq & (q' & Hr & (s' & [Hs1 Hs2]%literal_of_ok &
    (r' & Hre & (x' & [Hx1 Hx2]%literal_of_ok & (k' & Hk & [= <-])%rbind_ok)%rbind_ok)%rbind_ok)%rbind_ok)%rbind_ok)%rbind_ok).
  unfold lax in Hq. destruct (lax_float c) as [q0|]; [|done]. injection Hq as ->.
  destruct (Qle_bool 0 q && Qle_bool q 1) eqn:E; [|done]. injection Hr as <-.
  apply andb_true_iff in E as [E1%Qle_bool_iff E2%Qle_bool_iff]. destruct r; try done. injection Hre as ->.
  by split_and!.
Qed.

(** Tool names of parsed steps are those the schema lists. *)
Lemma step_from_dict_tool {P : Pydantic} v s : step_from_dict v = Ok s -> ps_tool s ∈ PLAN_TOOLS.
Proof.
  destruct v; try done. cbn. intros (a & _ & H%validated_ok)%rbind_ok.
  apply rbind_ok in H as (i & _ & (t & [_ Ht]%literal_of_ok & (o & _ & (b & _ & (e & _ & [= <-])%rbind_ok)%rbind_ok)%rbind_ok)%rbind_ok).
  done.
Qed.

Lemma parse_plan_tools {P : Pydantic} i d p : parse_plan i d = Ok p -> Forall (fun s => ps_tool s ∈ PLAN_TOOLS) (ep_steps p).
Proof.
  unfold parse_plan. intros (l & _ & (steps & Hs & H%validated_ok)%rbind_ok)%rbind_ok.
  apply rbind_ok in H as (? & _ & (? & _ & (? & _ & [= <-])%rbind_ok)%rbind_ok). cbn.
  apply rmap_Forall2 in Hs. induction Hs as [|v s l ss Hv _ IH]; constructor; [by eapply step_from_dict_tool|done].
Qed.

(** ** Round trips *)

Lemma args_round_trip {P : Pydantic} {L : PydanticLaws P} a : args_from_dict (VDict (args_dump a)) = Ok a.
Proof.
  destruct a. cbn. unfold new_StepArgs, dget. cbn. rewrite (rmap_map as_str VStr) by done. cbn. unfold lax.
  rewrite !lax_bool_id. cbn. by rewrite !lax_int_id.
Qed.

Lemma step_round_trip {P : Pydantic} {L : PydanticLaws P} s : ps_tool s ∈ PLAN_TOOLS -> step_from_dict (VDict (step_dump s)) = Ok s.
Proof.
  intros Ht%str_in_spec. unfold step_from_dict.
  change (get_or (dlookup "args" (step_dump s)) (VDict [])) with (VDict (args_dump (ps_args s))).
  rewrite args_round_trip. cbn [rbind]. destruct s as [i t a o c e]. cbn [step_dump ps_tool] in *. unfold dget. cbn in Ht |- *.
  rewrite Ht. cbn. rewrite (rmap_map as_str VStr) by done. cbn. unfold lax. by rewrite lax_bool_id.
Qed.

(** A plan that was written into the metadata of a decision is read back by the
    executor as it was, whatever id the executor would have made up. *)
Theorem plan_round_trip {P : Pydantic} {L : PydanticLaws P} i p (Ht : Forall (fun s => ps_tool s ∈ PLAN_TOOLS) (ep_steps p)) :
  parse_plan i (plan_dump p) = Ok p.
Proof.
  destruct p as [id steps n f]. unfold parse_plan, plan_dump. cbn -[step_from_dict step_dump] in *.
  assert (rmap step_from_dict (map (fun s => VDict (step_dump s)) steps) = Ok steps) as ->.
  { induction Ht as [|s l Hs _ IH]; [done|]. cbn [map rmap]. by rewrite step_round_trip, IH. }
  cbn. unfold dget, lax. cbn. by rewrite lax_int_id.
Qed.

Definition example_plan_step (id tool : string) (deps : list string) : @PlanStep StepArgs :=
  mkStep id tool default_StepArgs deps false "".

Lemma plan_round_trip_witness :
  let p := mkPlan "p" [example_plan_step "a" "rag" []; example_plan_step "b" "database" ["a"]] 1000 "sequential" in
  parse_plan "q" (plan_dump p) = Ok p.
Proof. apply (plan_round_trip "q"). repeat constructor. Defined.
