(* ===== verification/PreFilter.v ===== *)
(** * The filter before the routers (routers/pre_filter.py)

    Security patterns, explicit directives, external searches, greetings and
    entity formats, tried in this order; the first that fits decides. *)

From S2P Require Import Prelude PyFloat PyVal PyList PyText PyRegex RegExp RouteModels.
From Stdlib Require Import Ascii.

(** The first decision of a list. *)
Fixpoint first_some {A} (l : list (option A)) : option A :=
  match l with [] => None | Some a :: _ => Some a | None :: l' => first_some l' end.

Lemma first_some_spec {A} (l : list (option A)) a :
  first_some l = Some a <-> exists l1 l2, l = l1 ++ Some a :: l2 /\ Forall (fun o => o = None) l1.
Proof.
  induction l as [|o l IH]; cbn [first_some].
  - split; [done|]. by intros ([|? ?] & l2 & ? & _).
  - destruct o as [b|].
    + split; [intros [= ->]; by exists [], l|]. intros ([|x l1] & l2 & H & Hn); [by injection H as ->|].
      injection H as <- _. by apply Forall_cons in Hn as [? _].
    + rewrite IH. split.
      * intros (l1 & l2 & -> & Hn). exists (None :: l1), l2. split; [done|by constructor].
      * intros ([|x l1] & l2 & H & Hn); [done|]. injection H as <- ->. apply Forall_cons in Hn as [_ Hn]. by exists l1, l2.
Qed.

(** What [re.IGNORECASE] makes of a character: the lower case of an ASCII
    letter, and the letter for each of the four others it takes for one. *)
Definition CASE_EQUIVALENTS : list (string * string) := [("ſ", "s"); ("K", "k"); ("İ", "i"); ("ı", "i")].
Definition re_fold (c : string) : string := get_or (dlookup c CASE_EQUIVALENTS) (py_lower c).

Section text_classes.
(** Beyond ASCII: white space, digits and word characters. *)
Variables unicode_space unicode_digit unicode_word : string -> bool.

Definition space_char (c : string) : bool := match c with String a EmptyString => is_space a | _ => unicode_space c end.
Definition digit_char (c : string) : bool :=
  match c with
  | String a EmptyString => let n := nat_of_ascii a in (48 <=? n)%nat && (n <=? 57)%nat
  | _ => unicode_digit c
  end.

(** [s.strip()] *)
Fixpoint drop_spaces (l : list string) : list string := match l with c :: l' => if space_char c then drop_spaces l' else l | [] => [] end.
Definition py_strip (s : string) : string := concat_chars (rev (drop_spaces (rev (drop_spaces (chars s))))).

(** [\s*], [\s+], [\d+], [\w+], and a literal whatever its case. *)
Definition spaces : re := RStar (RSet space_char).
Definition some_spaces : re := plus (RSet space_char).
Definition digits : re := plus (RSet digit_char).
Definition words : re := plus (RSet (is_word_char unicode_word)).
Definition lit_ci (s : string) : re := fold_right (fun c r => cat (RSet (fun x => String.eqb (re_fold x) (re_fold c))) r) REps (chars s).
Definition any_ci (l : list string) : re := fold_right (fun s r => alt (lit_ci s) r) RVoid l.

Example long_s_matches : search unicode_word (mkPattern false (lit_ci "INSERT") TAny) "inſert K" = true.
Proof. reflexivity. Qed.

(** ** The tables *)

Definition quotes : re := one_in (String single_quote (String double_quote "")).
Definition found (r : re) : pattern := mkPattern false r TAny.

Definition SQL_INJECTION_PATTERNS : list pattern :=
  [found (seq [quotes; spaces; lit ";"; spaces; any_ci ["DROP"; "DELETE"; "UPDATE"; "INSERT"; "ALTER"; "CREATE"; "TRUNCATE"]]);
   mkPattern false (seq [lit "--"; spaces]) TEnd;
   found (seq [lit_ci "UNION"; some_spaces; opt (seq [lit_ci "ALL"; some_spaces]); lit_ci "SELECT"]);
   found (seq [lit_ci "OR"; some_spaces; lit "1"; spaces; lit "="; spaces; lit "1"]);
   found (seq [lit_ci "AND"; some_spaces; lit "1"; spaces; lit "="; spaces; lit "1"]);
   found (seq [quotes; spaces; lit_ci "OR"; spaces; quotes])].

Definition PRIVILEGE_ESCALATION_KEYWORDS : list string :=
  ["删库"; "删除所有"; "所有用户密码"; "管理员密码"; "root密码"; "系统密码"; "DROP TABLE"; "DROP DATABASE"].

Definition ACTION_KEYWORDS : list string := ["搜索"; "查一下"; "查找"; "上网找"; "网上搜"; "百度一下"; "谷歌搜索"; "搜一下"].
Definition EXTERNAL_SCOPE_KEYWORDS : list string := ["网上"; "百度"; "谷歌"; "外部"; "全网"; "互联网"; "外网"; "搜索引擎"].

(** [^word[！!。.？?]?$] *)
Definition greeting (r : re) : pattern := mkPattern true (seq [r; opt (one_in "！!。.？?")]) TEnd.

Definition GREETING_PATTERNS : list pattern :=
  map greeting [lit "你好"; lit "您好"; lit_ci "hello"; lit_ci "hi"; lit "嗨"; lit "谢谢"; lit "感谢"; seq [lit_ci "thank"; spaces; lit_ci "you"];
                lit_ci "thanks"; lit "再见"; lit_ci "bye"].

(** A directive: its pattern, the text of the pattern and the target. *)
Definition DIRECTIVE_PATTERNS : list (pattern * string * string) :=
  [(mkPattern true (seq [lit "@"; any_ci ["database"; "db"]; some_spaces]) TAny, "^@(?:database|db)\s+", "database");
   (mkPattern true (seq [lit "@"; any_ci ["rag"; "kb"]; some_spaces]) TAny, "^@(?:rag|kb)\s+", "rag");
   (mkPattern true (seq [lit "@"; any_ci ["web"; "search"]; some_spaces]) TAny, "^@(?:web|search)\s+", "web");
   (mkPattern true (seq [lit "@"; any_ci ["graph"; "neo4j"; "图谱"; "知识图谱"]; some_spaces]) TAny, "^@(?:graph|neo4j|图谱|知识图谱)\s+", "graph");
   (mkPattern true (seq [lit "/"; any_ci ["help"; "status"]]) TBoundary, "^/(?:help|status)\b", "chitchat")].

Definition ENTITY_PATTERNS : list (re * string) :=
  [(seq [lit_ci "SKU-"; digits], "database"); (seq [lit_ci "ORD-"; digits], "database");
   (seq [lit "工单号"; one_in "：:"; spaces; digits], "database"); (seq [lit "订单号"; one_in "：:"; spaces; digits], "database");
   (seq [lit "产品编号"; one_in "：:"; spaces; words], "database"); (seq [lit_ci "SKU"; one_in "：:"; spaces; words], "database")].

(** ** The checks *)

Definition prefilter_decision (target : string) (confidence : Q) (reason : string) (metadata : pydict) : RouteDecision :=
  mkRoute target confidence "prefilter" reason "simple" [] metadata.

Definition check_security (query : string) : option RouteDecision :=
  if existsb (fun p => search unicode_word p query) SQL_INJECTION_PATTERNS then
    Some (prefilter_decision "chitchat" 1 "安全拦截：检测到 SQL 注入特征" [("blocked", VBool true); ("reason", VStr "sql_injection")])
  else
    match List.find (fun kw => contains (py_lower kw) (py_lower query)) PRIVILEGE_ESCALATION_KEYWORDS with
    | Some keyword =>
      Some (prefilter_decision "chitchat" 1 (join "" ["安全拦截：检测到越权关键词 '"; keyword; "'"])
              [("blocked", VBool true); ("reason", VStr "privilege_escalation")])
    | None => None
    end.

Definition check_directive (query : string) : option RouteDecision :=
  match List.find (fun d => search unicode_word d.1.1 query) DIRECTIVE_PATTERNS with
  | Some (_, text, target) =>
    Some (prefilter_decision target (rnd (98 # 100)) (String.append "精确指令匹配: " text)
            [("directive", VBool true); ("directive_pattern", VStr text)])
  | None => None
  end.

Definition check_external_search (query : string) : option RouteDecision :=
  let query_lower := py_lower query in
  if existsb (fun kw => contains kw query_lower) ACTION_KEYWORDS && existsb (fun kw => contains kw query_lower) EXTERNAL_SCOPE_KEYWORDS
  then Some (prefilter_decision "web" 1 "命中显式外部搜索指令" [("explicit_external_search", VBool true)])
  else None.

Definition check_greeting (query : string) : option RouteDecision :=
  if existsb (fun p => search unicode_word p (py_lower query)) GREETING_PATTERNS
  then Some (prefilter_decision "chitchat" 1 "命中问候语" [("greeting", VBool true)]) else None.

Definition check_entity_format (query : string) : option RouteDecision :=
  first_some (map (fun p => match first_match p.1 (chars query) with
                            | Some m => Some (prefilter_decision p.2 1 (String.append "命中实体格式: " m)
                                                [("entity_match", VStr m); ("entity_type", VStr p.2)])
                            | None => None
                            end) ENTITY_PATTERNS).

(** [PreFilter.filter] *)
Definition pre_filter (query : string) : option RouteDecision :=
  let query_stripped := py_strip query in
  if negb (truthy query) || negb (truthy query_stripped) then None
  else first_some [check_security query_stripped; check_directive query_stripped; check_external_search query_stripped;
                   check_greeting query_stripped; check_entity_format query_stripped].

(** ** Lemmas *)

(** A security pattern or keyword occurs in the text. *)
Definition dangerous (query : string) : Prop :=
  (exists p, p ∈ SQL_INJECTION_PATTERNS /\ exists pre m rest, chars query = pre ++ m ++ rest /\ re_matches (pt_body p) m /\
     tail_ok unicode_word (pt_tail p) (last_of None (pre ++ m)) rest = true) \/
  (exists kw, kw ∈ PRIVILEGE_ESCALATION_KEYWORDS /\ contains (py_lower kw) (py_lower query) = true).

Definition blocked (d : RouteDecision) : Prop := dlookup "blocked" (rd_metadata d) = Some (VBool true).

Lemma check_security_spec query : (exists d, check_security query = Some d) <-> dangerous query.
Proof.
  unfold check_security, dangerous. destruct (existsb _ SQL_INJECTION_PATTERNS) eqn:E.
  - split; [|intros _; eauto]. intros _. left. apply existsb_true_exists in E as (p & Hp & (pre & m & rest & H & _ & ?)%search_found).
    exists p. split; [done|]. by exists pre, m, rest.
  - assert (~ exists p, p ∈ SQL_INJECTION_PATTERNS /\ exists pre m rest, chars query = pre ++ m ++ rest /\ re_matches (pt_body p) m /\
       tail_ok unicode_word (pt_tail p) (last_of None (pre ++ m)) rest = true) as Hn.
    { intros (p & Hp & pre & m & rest & H & Hm & Ht). rewrite existsb_false_forall in E. specialize (E p Hp).
      assert (search unicode_word p query = true) as Hs; [|by rewrite Hs in E].
      apply search_found. exists pre, m, rest. split_and!; try done. intros Hst. exfalso.
      unfold SQL_INJECTION_PATTERNS in Hp. repeat (apply elem_of_cons in Hp as [->|Hp]; [done|]). by apply not_elem_of_nil in Hp. }
    destruct (List.find _ _) as [kw|] eqn:Ef.
    + split; [|eauto]. intros _. right. apply List.find_some in Ef as [Hin Hc]. exists kw. by rewrite list_elem_of_In.
    + split; [by intros [d Hd]|]. intros [H|(kw & Hkw & Hc)]; [done|].
      apply list_elem_of_In in Hkw. by rewrite (List.find_none _ _ Ef kw Hkw) in Hc.
Qed.

Lemma check_security_blocks query d : check_security query = Some d -> blocked d /\ rd_target d = "chitchat".
Proof.
  unfold check_security. destruct (existsb _ _); [by intros [= <-]|]. destruct (List.find _ _); [by intros [= <-]|done].
Qed.

Lemma check_directive_spec query d : check_directive query = Some d ->
  rd_target d ∈ ["database"; "rag"; "web"; "graph"; "chitchat"] /\ dlookup "directive" (rd_metadata d) = Some (VBool true) /\ ~ blocked d.
Proof.
  unfold check_directive. destruct (List.find _ _) as [[[p text] target]|] eqn:E; [|done]. intros [= <-].
  apply List.find_some in E as [E%list_elem_of_In _]. split_and!; [|done|done]. cbn.
  unfold DIRECTIVE_PATTERNS in E. repeat (apply elem_of_cons in E as [[= _ _ ->]|E]; [apply (bool_decide_unpack _); reflexivity|]).
  by apply not_elem_of_nil in E.
Qed.

Lemma check_entity_spec query d : check_entity_format query = Some d ->
  exists m, d = prefilter_decision "database" 1 (String.append "命中实体格式: " m) [("entity_match", VStr m); ("entity_type", VStr "database")].
Proof.
  unfold check_entity_format. intros (l1 & l2 & H & _)%first_some_spec.
  assert (Some d ∈ map (fun p : re * string => match first_match p.1 (chars query) with
      | Some m => Some (prefilter_decision p.2 1 (String.append "命中实体格式: " m) [("entity_match", VStr m); ("entity_type", VStr p.2)])
      | None => None end) ENTITY_PATTERNS) as Hin by (rewrite H; apply elem_of_app; right; by left).
  apply list_elem_of_fmap in Hin as (p & Hd & Hp). destruct (first_match _ _) as [m|]; [|done]. injection Hd as ->. exists m.
  assert (p.2 = "database") as ->; [|done].
  unfold ENTITY_PATTERNS in Hp. repeat (apply elem_of_cons in Hp as [->|Hp]; [done|]). by apply not_elem_of_nil in Hp.
Qed.
End text_classes.

(** ** The properties *)

(** [C18] The filter blocks exactly the texts in which a security pattern or keyword
    occurs, before anything else is tried, and what it blocks is routed to no
    tool. *)
Theorem prefilter_blocks_iff unicode_space unicode_digit unicode_word query (Hq : truthy (py_strip unicode_space query) = true) :
  (dangerous unicode_space unicode_word (py_strip unicode_space query) <->
   exists d, pre_filter unicode_space unicode_digit unicode_word query = Some d /\ blocked d) /\
  (forall d, pre_filter unicode_space unicode_digit unicode_word query = Some d -> blocked d -> rd_target d = "chitchat").
Proof.
  assert (pre_filter unicode_space unicode_digit unicode_word query =
    first_some [check_security unicode_space unicode_word (py_strip unicode_space query);
                check_directive unicode_space unicode_word (py_strip unicode_space query);
                check_external_search (py_strip unicode_space query); check_greeting unicode_space unicode_word (py_strip unicode_space query);
                check_entity_format unicode_space unicode_digit unicode_word (py_strip unicode_space query)]) as ->.
  { unfold pre_filter. rewrite Hq. by destruct query. }
  set (q := py_strip unicode_space query).
  assert (forall d, first_some [check_security unicode_space unicode_word q; check_directive unicode_space unicode_word q;
            check_external_search q; check_greeting unicode_space unicode_word q; check_entity_format unicode_space unicode_digit unicode_word q] = Some d ->
          blocked d -> check_security unicode_space unicode_word q = Some d) as Hb.
  { intros d. cbn [first_some]. destruct (check_security _ _ _) as [d0|]; [done|].
    destruct (check_directive _ _ _) as [d1|] eqn:E1; [intros [= <-]; by apply check_directive_spec in E1 as (_ & _ & ?)|].
    unfold check_external_search, check_greeting. destruct (_ && _); [by intros [= <-]|]. destruct (existsb _ _); [by intros [= <-]|].
    destruct (check_entity_format _ _ _ _) as [d2|] eqn:E2; [|done]. intros [= <-]. by apply check_entity_spec in E2 as [m ->]. }
  split; [|intros d Hd Hbl; by eapply check_security_blocks, Hb].
  rewrite <- check_security_spec. split.
  - intros [d Hd]. exists d. split; [cbn [first_some]; by rewrite Hd|by eapply check_security_blocks].
  - intros (d & Hd & Hbl). exists d. by apply Hb.
Qed.

(** Every decision of the filter is one the model of decisions admits. *)
Lemma prefilter_wf unicode_space unicode_digit unicode_word query d :
  pre_filter unicode_space unicode_digit unicode_word query = Some d -> route_wf d /\ rd_source d = "prefilter" /\ rd_complexity d = "simple".
Proof.
  unfold pre_filter. destruct (_ || _); [done|]. generalize (py_strip unicode_space query) as q. intros q. cbn [first_some].
  assert (forall t c r m, t ∈ ROUTE_TARGETS -> (0 <= c <= 1)%Q -> route_wf (prefilter_decision t c r m) /\
            rd_source (prefilter_decision t c r m) = "prefilter" /\ rd_complexity (prefilter_decision t c r m) = "simple") as Hw.
  { intros t c r m Ht Hc. split_and!; try done. split; try done; apply (bool_decide_unpack _); reflexivity. }
  assert (0 <= 1 <= 1)%Q as H1 by (split; lra). assert (0 <= rnd (98 # 100) <= 1)%Q as H98 by (vm_compute; split; discriminate).
  assert (forall t, str_in t ROUTE_TARGETS = true -> t ∈ ROUTE_TARGETS) as Hin by (intros t; apply str_in_spec).
  unfold check_security. destruct (existsb _ _); [intros [= <-]; auto|].
  destruct (List.find _ _); [intros [= <-]; auto|].
  unfold check_directive. destruct (List.find _ _) as [[[p x] t]|] eqn:Ed.
  - intros [= <-]. apply Hw; [|done]. apply List.find_some in Ed as [Ed%list_elem_of_In _].
    unfold DIRECTIVE_PATTERNS in Ed. repeat (apply elem_of_cons in Ed as [[= _ _ ->]|Ed]; [by apply Hin|]). by apply not_elem_of_nil in Ed.
  - unfold check_external_search, check_greeting. destruct (_ && _); [intros [= <-]; auto|]. destruct (existsb _ _); [intros [= <-]; auto|].
    destruct (check_entity_format _ _ _ _) as [d2|] eqn:E2; [|done]. intros [= <-]. apply check_entity_spec in E2 as [m ->]. auto.
Qed.

(** ** Examples *)

Definition ascii_filter : string -> option RouteDecision := pre_filter (fun _ => false) (fun _ => false) (fun _ => true).

Example filter_blocks_ex : option_map rd_reason (ascii_filter "x' ; drop table t") = Some "安全拦截：检测到 SQL 注入特征". Proof. vm_compute. reflexivity. Qed.
Example filter_directive_ex : option_map rd_target (ascii_filter " @DB 库存") = Some "database". Proof. vm_compute. reflexivity. Qed.
Example filter_entity_ex : option_map rd_reason (ascii_filter "请查 sku-12x") = Some "命中实体格式: sku-12". Proof. vm_compute. reflexivity. Qed.
Example filter_greeting_ex : option_map rd_target (ascii_filter "Thank you!") = Some "chitchat". Proof. vm_compute. reflexivity. Qed.
Example filter_none_ex : ascii_filter "年假有几天" = None. Proof. vm_compute. reflexivity. Qed.

(** A harmless text that ends with two dashes is blocked. *)
Example trailing_dashes_blocked : option_map rd_reason (ascii_filter "看一下 A --") = Some "安全拦截：检测到 SQL 注入特征". Proof. vm_compute. reflexivity. Qed.

Lemma prefilter_blocks_iff_witness :
  let s := fun _ : string => false in
  (dangerous s s (py_strip s "1 or 1=1") <-> exists d, pre_filter s s s "1 or 1=1" = Some d /\ blocked d) /\
  (forall d, pre_filter s s s "1 or 1=1" = Some d -> blocked d -> rd_target d = "chitchat").
Proof. apply (prefilter_blocks_iff (fun _ => false) (fun _ => false) (fun _ => false)). vm_compute. reflexivity. Defined.
