(* ===== verification/RuleRouter.v ===== *)
(** * Routing without a model (routers/config_loader.py,
    routers/complexity_gate.py, routers/rule_router.py)

    The gate looks at the shape of a question and sends complex ones past the
    rules; the rules match strong patterns with high confidence and count weak
    keywords with a confidence that never decides alone. *)

From S2P Require Import Prelude PyFloat PyVal PyList PyText PyRegex RegExp RouteModels PreFilter.
From Stdlib Require Import Ascii.

(** ** Configuration *)

(** The sections that the gate and the rules read; a switched-off signal is
    [None], a missing keyword list is empty unless the code has a default. *)
Record GateConfig : Type := mkGate {
  gc_enabled : bool; gc_long_query : option nat; gc_multi_clause : option nat; gc_multi_question : option nat;
  gc_reasoning_markers : option (list string); gc_multi_tool : bool; gc_progressive : option (list re) }.

Record Keywords : Type := mkKeywords {
  kw_db_bias : list string; kw_rag_bias : list string; kw_external_scope : list string; kw_freshness : list string;
  kw_historical : list string; kw_erp_bias : option (list string); kw_graph_bias : option (list string) }.

Record IntentRouterConfig : Type := mkRouterConfig {
  ic_gate : GateConfig; ic_keywords : Keywords; ic_rule_to_llm : Q;
  ic_failure_threshold : Z; ic_recovery_timeout_s : Q; ic_direct_adopt : Q; ic_needs_clarification : Q }.

(** [_get_default_config] *)
Definition default_gate : GateConfig :=
  mkGate true (Some 50%nat) (Some 2%nat) (Some 2%nat)
    (Some ["分析"; "对比"; "比较"; "为什么"; "推导"; "评估"; "综合考虑"; "权衡"; "论证"]) true
    (Some [seq [lit "先"; between 1 20 dot; lit "再"]; seq [lit "首先"; between 1 20 dot; lit "然后"]; lit "第一步"; lit "接着"; lit "最后"]).

Definition default_keywords : Keywords :=
  mkKeywords
    ["多少"; "总额"; "总"; "占比"; "排名"; "top"; "环比"; "同比"; "最大值"; "最小值"; "统计"; "汇总"; "平均"; "求和"; "总计"; "计算";
     "查询数据"; "数据量"; "查询"; "数据"; "产线"; "oee"; "销售额"; "业绩"; "产量"]
    ["定义"; "解释"; "含义"; "区别"; "联系"; "影响"; "原因"; "背景"; "什么是"; "是什么"; "如何"; "为什么"; "怎么"; "请问"; "概念"; "原理";
     "方法"; "流程"; "治理"; "改善"]
    ["网上"; "百度"; "谷歌"; "外部"; "全网"; "互联网"; "外网"; "搜索引擎"]
    ["今天"; "最新"; "实时"; "current"; "latest"; "trending"; "现在"; "当前"; "刚刚"]
    ["去年"; "历史"; "往年"; "过去"; "以前"; "之前"; "去年"; "上年"; "上季度"] None None.

Definition default_router_config : IntentRouterConfig :=
  mkRouterConfig default_gate default_keywords (rnd (7 # 10)) 3 60 (3 # 4) (rnd (6 # 10)).

(** ** The gate *)

Record ComplexityResult : Type := mkComplexity { cx_is_complex : bool; cx_triggered_signals : list string; cx_confidence : Q }.

Section routers.
Variables unicode_space unicode_word : string -> bool.

(** The three patterns that count: characters of one line, separators, marks. *)
Definition long_query (threshold : nat) : re := at_least threshold dot.
Definition ended_by (marks : string) : re := RCat (RStar (none_in marks)) (one_in marks).
Definition multi_clause (min_count : nat) : re := at_least min_count (ended_by "，,；;").
Definition multi_question (min_count : nat) : re := at_least min_count (ended_by "？?").

Definition found_in (r : re) (query : string) : bool := search unicode_word (found r) query.

(** [_MultiToolSignal.search]: the first 15 words of each list. *)
Definition multi_tool (kw : Keywords) (query : string) : bool :=
  found_in (any_lit (take 15 (kw_db_bias kw))) query && found_in (any_lit (take 15 (kw_rag_bias kw))) query.

(** [_compile_signals]: the enabled signals, in order. *)
Definition signals (g : GateConfig) (kw : Keywords) : list (string * (string -> bool)) :=
  if negb (gc_enabled g) then []
  else
    (match gc_long_query g with Some n => [("long_query", found_in (long_query n))] | None => [] end)
    ++ (match gc_multi_clause g with Some n => [("multi_clause", found_in (multi_clause n))] | None => [] end)
    ++ (match gc_multi_question g with Some n => [("multi_question", found_in (multi_question n))] | None => [] end)
    ++ (match gc_reasoning_markers g with Some ((_ :: _) as l) => [("reasoning_markers", found_in (any_lit l))] | _ => [] end)
    ++ (if gc_multi_tool g && truthy (kw_db_bias kw) && truthy (kw_rag_bias kw) then [("multi_tool", multi_tool kw)] else [])
    ++ (match gc_progressive g with
        | Some ((_ :: _) as l) => [("progressive", found_in (fold_right alt RVoid l))]
        | _ => []
        end).

(** [ComplexityGate.check] *)
Definition complexity_check (g : GateConfig) (kw : Keywords) (query : string) : ComplexityResult :=
  if negb (truthy query) || negb (truthy (py_strip unicode_space query)) then mkComplexity false [] 0
  else
    let triggered := map fst (List.filter (fun s => s.2 query) (signals g kw)) in
    let is_complex := truthy triggered in
    mkComplexity is_complex triggered
      (if is_complex then fmin (fmul (inject_Z (py_len triggered)) (rnd (3 # 10))) (rnd (9 # 10)) else 0%Q).

(** ** The rules *)

Definition tagged (start : bool) (l : list re) (t : re_tail) (target name : string) : pattern * string * string := (mkPattern start (seq l) t, target, name).
Definition dots : re := RStar dot.
Definition some_dots : re := plus dot.

Definition STRONG_PATTERNS : list (pattern * string * string) :=
  [tagged true [lit "什么是"; some_dots] TAny "rag" "什么是X";
   tagged true [some_dots; lit "是什么"] TEnd "rag" "X是什么";
   tagged true [some_dots; lit "是什么意思"] TEnd "rag" "X是什么意思";
   tagged true [lit "什么意思"] TAny "rag" "什么意思";
   tagged true [some_dots; lit "的原理"] TAny "rag" "X的原理";
   tagged true [lit "统计"; some_dots; any_lit ["数量"; "总数"; "人数"]] TEnd "database" "统计X数量";
   tagged true [lit "查询"; some_dots; any_lit ["数量"; "总数"; "人数"]] TEnd "database" "查询X数量";
   tagged true [lit "查询"; dots; any_lit ["年假"; "请假"; "假期"; "休假"]] TAny "rest" "ERP年假查询";
   tagged true [lit "查询"; dots; any_lit ["考勤"; "打卡"; "出勤"]] TAny "rest" "ERP考勤查询";
   tagged true [lit "查询"; dots; any_lit ["采购"; "订单"; "PO"]] TAny "rest" "ERP采购查询";
   tagged true [lit "查询"; dots; any_lit ["报销"; "费用"; "差旅"]] TAny "rest" "ERP报销查询";
   tagged true [lit "我的"; dots; any_lit ["年假"; "考勤"; "请假"; "假期"]] TAny "rest" "ERP个人查询";
   tagged true [dots; any_lit ["工资"; "薪资"; "薪酬"; "绩效"]; dots; any_lit ["查询"; "多少"]] TAny "rest" "ERP薪酬查询";
   tagged false [any_lit ["关系图谱"; "知识图谱"; "实体关联"; "多跳查询"; "图查询"; "多跳"]] TAny "graph" "图查询"].

Definition WEAK_BASE_SCORE : Q := rnd (45 # 100).
Definition WEAK_BONUS_PER_KEYWORD : Q := rnd (5 # 100).
Definition WEAK_BONUS_CAP : Q := rnd (10 # 100).
Definition WEAK_CONFIDENCE_CAP : Q := rnd (55 # 100).

Definition erp_default : list string :=
  ["年假"; "请假"; "假期"; "休假"; "考勤"; "打卡"; "出勤"; "采购"; "订单"; "报销"; "差旅"; "费用"; "工资"; "薪资"; "薪酬"; "绩效"; "库存";
   "供应链"; "人力"; "财务"; "员工"; "hr"; "erp"; "审批"; "入职"; "离职"; "合同"; "发票"; "物料"; "供应商"; "客户信息"; "资产"; "预算"].
Definition graph_default : list string :=
  ["图谱"; "知识图谱"; "关系图谱"; "实体"; "关系"; "关联"; "多跳"; "图查询"; "neo4j"; "节点"; "边"; "链路"; "上下游"; "相关人"; "相关人员";
   "组织架构"; "关联方"].

Definition any_in (words : list string) (query : string) : bool := existsb (fun kw => contains kw query) words.

Definition detect_scope (query : string) (kw : Keywords) : string := if any_in (kw_external_scope kw) query then "external" else "internal".
Definition detect_freshness (query : string) (kw : Keywords) : bool := any_in (kw_freshness kw) query && negb (any_in (kw_historical kw) query).

Definition match_strong_pattern (query : string) : option (string * string) :=
  match List.find (fun p => search unicode_word p.1.1 query) STRONG_PATTERNS with
  | Some (_, target, name) => Some (target, name)
  | None => None
  end.

(** [_match_*_bias]: the keywords that occur, and their score. *)
Definition match_bias (words : list string) (query : string) : Q * list string :=
  match List.filter (fun kw => contains kw query) words with
  | [] => (0%Q, [])
  | matched =>
    let bonus := fmin (fmul (inject_Z (py_len matched - 1)) WEAK_BONUS_PER_KEYWORD) WEAK_BONUS_CAP in
    (fadd WEAK_BASE_SCORE bonus, matched)
  end.

Definition rule_decision (target : string) (confidence : Q) (reason : string) (metadata : pydict) : RouteDecision :=
  mkRoute target confidence "rule" reason "simple" [] metadata.

Definition default_decision (reason : string) : RouteDecision := rule_decision "chitchat" (1 # 2) reason [].

(** The weak decision: target, confidence and reason from the four scores. *)
Definition weak_choice (db rag erp graph : Q * list string) : string * Q * string :=
  let cap x := fmin x WEAK_CONFIDENCE_CAP in
  let words l := join ", " l in
  if flt 0 db.1 && flt 0 rag.1 then
    ("hybrid", cap (fmax db.1 rag.1), join "" ["混合意图: DB("; words db.2; ") + RAG("; words rag.2; ")"])
  else if flt db.1 erp.1 && flt rag.1 erp.1 && flt 0 erp.1 then ("rest", cap erp.1, String.append "ERP 偏向词: " (words erp.2))
  else if flt db.1 graph.1 && flt rag.1 graph.1 && flt 0 graph.1 then ("graph", cap graph.1, String.append "Graph 偏向词: " (words graph.2))
  else if flt rag.1 db.1 && flt 0 db.1 then ("database", cap db.1, String.append "DB 偏向词: " (words db.2))
  else if flt db.1 rag.1 && flt 0 rag.1 then ("rag", cap rag.1, String.append "RAG 偏向词: " (words rag.2))
  else ("chitchat", (1 # 2)%Q, "无明确关键词匹配").

(** [RuleRouter.route] *)
Definition rule_route (kw : Keywords) (query : string) : RouteDecision :=
  if negb (truthy query) || negb (truthy (py_strip unicode_space query)) then default_decision "查询为空"
  else
    let query_lower := py_lower query in
    let scope := detect_scope query_lower kw in
    let freshness_required := detect_freshness query_lower kw in
    let external := String.eqb scope "external" in
    if external && freshness_required then
      rule_decision "web" (rnd (85 # 100)) "外部范围 + 时效性需求" [("scope", VStr "external"); ("freshness_required", VBool true)]
    else if external then rule_decision "web" (rnd (8 # 10)) "外部范围词匹配" [("scope", VStr "external")]
    else if freshness_required then rule_decision "web" (3 # 4) "时效性关键词匹配" [("freshness_required", VBool true)]
    else
      match match_strong_pattern query with
      | Some (target, pattern_name) =>
        rule_decision target (rnd (80 # 100)) (String.append "强模式: " pattern_name) [("pattern", VStr pattern_name)]
      | None =>
        let db := match_bias (kw_db_bias kw) query_lower in
        let rag := match_bias (kw_rag_bias kw) query_lower in
        let erp := match_bias (get_or (kw_erp_bias kw) erp_default) query_lower in
        let graph := match_bias (get_or (kw_graph_bias kw) graph_default) query_lower in
        let '(target, confidence, reason) := weak_choice db rag erp graph in
        rule_decision target confidence reason
          [("db_score", VFloat db.1); ("rag_score", VFloat rag.1); ("erp_score", VFloat erp.1); ("graph_score", VFloat graph.1);
           ("db_keywords", VStrs db.2); ("rag_keywords", VStrs rag.2); ("erp_keywords", VStrs erp.2); ("graph_keywords", VStrs graph.2);
           ("scope", VStr scope); ("freshness_required", VBool freshness_required)]
      end.
End routers.

(** ** Lemmas: counting marks *)

Definition mark (marks c : string) : bool := str_in c (chars marks).
Definition count_marks (marks : string) (text : list string) : nat := length (List.filter (mark marks) text).

Lemma count_marks_app marks l1 l2 : count_marks marks (l1 ++ l2) = (count_marks marks l1 + count_marks marks l2)%nat.
Proof. unfold count_marks. by rewrite List.filter_app, List.length_app. Qed.

Lemma none_star marks l : re_matches (RStar (none_in marks)) l <-> count_marks marks l = O.
Proof.
  split.
  - remember (RStar (none_in marks)) as r eqn:Er. induction 1 as [| | | | | |r l1 l2 H1 _ H2 IH]; try done.
    injection Er as ->. rewrite count_marks_app, IH by done. inversion H1 as [|p c Hc| | | | |]; subst.
    unfold count_marks, mark. cbn. apply negb_true_iff in Hc. by rewrite Hc.
  - induction l as [|c l IH]; [constructor|]. unfold count_marks. cbn [List.filter]. destruct (mark marks c) eqn:E; [done|].
    intros H. apply (m_star _ [c] l); [|by apply IH]. constructor. unfold mark in E. by rewrite E.
Qed.

Lemma ended_by_count marks l : re_matches (ended_by marks) l -> count_marks marks l = 1%nat.
Proof.
  intros (l1 & l2 & -> & H1%none_star & H2)%cat_inv. rewrite count_marks_app, H1.
  inversion H2 as [|p c Hc| | | | |]; subst. unfold count_marks, mark. cbn. by rewrite Hc.
Qed.

Lemma times_count marks n l : re_matches (times n (ended_by marks)) l -> count_marks marks l = n.
Proof.
  revert l. induction n as [|n IH]; intros l; cbn [times]; [intros H; by inversion H|].
  intros (l1 & l2 & -> & H1%ended_by_count & H2%IH)%cat_spec%cat_inv. by rewrite count_marks_app, H1, H2.
Qed.

Lemma first_mark marks l : (0 < count_marks marks l)%nat ->
  exists l1 c l2, l = l1 ++ c :: l2 /\ count_marks marks l1 = O /\ mark marks c = true.
Proof.
  induction l as [|c l IH]; [cbn; lia|]. unfold count_marks. cbn [List.filter]. destruct (mark marks c) eqn:E.
  - intros _. by exists [], c, l.
  - intros H. destruct (IH H) as (l1 & d & l2 & -> & H1 & H2). exists (c :: l1), d, l2. split_and!; try done.
    unfold count_marks. cbn [List.filter]. by rewrite E.
Qed.

Lemma times_prefix marks n l : (n <= count_marks marks l)%nat -> exists m rest, l = m ++ rest /\ re_matches (times n (ended_by marks)) m.
Proof.
  revert l. induction n as [|n IH]; intros l Hn; cbn [times]; [exists [], l; split; [done|constructor]|].
  destruct (first_mark marks l) as (l1 & c & l2 & -> & H1 & Hc); [lia|].
  rewrite count_marks_app, H1 in Hn. unfold count_marks in Hn. cbn [List.filter] in Hn. rewrite Hc in Hn. cbn in Hn.
  destruct (IH l2) as (m & rest & -> & Hm); [unfold count_marks; lia|]. exists ((l1 ++ [c]) ++ m), rest. split; [by rewrite <- !app_assoc|].
  apply cat_spec. constructor; [|done]. constructor; [by apply none_star|]. by constructor.
Qed.

Lemma at_least_marks uw marks n query :
  found_in uw (at_least n (ended_by marks)) query = true <-> (n <= count_marks marks (chars query))%nat.
Proof.
  unfold found_in. rewrite search_found. split.
  - intros (pre & m & rest & -> & _ & (l1 & l2 & -> & H1%times_count & _)%cat_inv & _). rewrite !count_marks_app. lia.
  - intros (m & rest & Hq & Hm)%times_prefix. exists [], m, rest. split_and!; try done.
    rewrite <- (app_nil_r m). constructor; [done|constructor].
Qed.

(** ** Lemmas: confidence *)

Lemma blank_strip us query : negb (truthy query) || negb (truthy (py_strip us query)) = negb (truthy (py_strip us query)).
Proof. by destruct query. Qed.

Lemma WEAK_below : (WEAK_CONFIDENCE_CAP < rnd (7 # 10))%Q.
Proof. vm_compute. reflexivity. Qed.

Lemma match_bias_nonneg words query : (0 <= (match_bias words query).1)%Q.
Proof.
  unfold match_bias. destruct (List.filter _ _) as [|w l]; [cbn; lra|]. cbn [fst]. apply fadd_nonneg; [by vm_compute|].
  apply fmin_nonneg; [|by vm_compute]. apply fmul_nonneg; [|by vm_compute]. unfold py_len. cbn [length].
  change 0%Q with (inject_Z 0). rewrite <- Zle_Qle. lia.
Qed.

Lemma weak_choice_spec db rag erp graph t c r : weak_choice db rag erp graph = (t, c, r) ->
  (0 <= db.1)%Q -> (0 <= rag.1)%Q -> (0 <= erp.1)%Q -> (0 <= graph.1)%Q ->
  t ∈ ROUTE_TARGETS /\ (0 <= c <= WEAK_CONFIDENCE_CAP)%Q.
Proof.
  intros H H1 H2 H3 H4. assert (forall x, (0 <= x)%Q -> (0 <= fmin x WEAK_CONFIDENCE_CAP <= WEAK_CONFIDENCE_CAP)%Q) as Hc.
  { intros x Hx. split; [apply fmin_nonneg; [done|by vm_compute]|apply fmin_le]. }
  assert (forall t, str_in t ROUTE_TARGETS = true -> t ∈ ROUTE_TARGETS) as Hin by (intros t0; apply str_in_spec).
  unfold weak_choice in H. repeat match type of H with context [if ?b then _ else _] => destruct b end; injection H as <- <- <-;
    (split; [by apply Hin|]); try (by apply Hc).
  - apply Hc. pose proof (fmax_ge db.1 rag.1). lra.
  - vm_compute. split; discriminate.
Qed.

Lemma match_strong_target uw query t n : match_strong_pattern uw query = Some (t, n) -> t ∈ ROUTE_TARGETS.
Proof.
  unfold match_strong_pattern. destruct (List.find _ _) as [[[p t'] n']|] eqn:E; [|done]. intros [= -> ->].
  apply List.find_some in E as [E%list_elem_of_In _]. unfold STRONG_PATTERNS, tagged in E.
  assert (forall t, str_in t ROUTE_TARGETS = true -> t ∈ ROUTE_TARGETS) as Hin by (intros t0; apply str_in_spec).
  repeat (apply elem_of_cons in E as [[= _ -> _]|E]; [by apply Hin|]). by apply not_elem_of_nil in E.
Qed.

(** What makes a rule decide alone. *)
Definition strong_evidence (us uw : string -> bool) (kw : Keywords) (query : string) : Prop :=
  truthy (py_strip us query) = true /\
  (any_in (kw_external_scope kw) (py_lower query) = true \/ detect_freshness (py_lower query) kw = true \/
   match_strong_pattern uw query <> None).

(** The three kinds of outcome of the rules. *)
Lemma rule_route_cases us uw kw query : let d := rule_route us uw kw query in
  route_wf d /\ rd_source d = "rule" /\ rd_complexity d = "simple" /\
  (strong_evidence us uw kw query /\ (rnd (7 # 10) <= rd_confidence d)%Q \/
   ~ strong_evidence us uw kw query /\ (rd_confidence d <= WEAK_CONFIDENCE_CAP)%Q).
Proof.
  cbn zeta. assert (forall t c r m, t ∈ ROUTE_TARGETS -> (0 <= c <= 1)%Q -> route_wf (rule_decision t c r m)) as Hw.
  { intros t c r m Ht Hc. split; try done; apply (bool_decide_unpack _); reflexivity. }
  assert (forall t, str_in t ROUTE_TARGETS = true -> t ∈ ROUTE_TARGETS) as Hin by (intros t; apply str_in_spec).
  unfold rule_route, strong_evidence. rewrite blank_strip. destruct (truthy (py_strip us query)) eqn:Et; cbn [negb].
  2:{ split_and!; [apply Hw; [by apply Hin|vm_compute; split; discriminate]|done|done|]. right. split; [by intros [? _]|vm_compute; discriminate]. }
  cbn zeta. assert (String.eqb (detect_scope (py_lower query) kw) "external" = any_in (kw_external_scope kw) (py_lower query)) as ->.
  { unfold detect_scope. by destruct (any_in _ _). }
  destruct (any_in (kw_external_scope kw) _) eqn:Ee; cbn [andb].
  { destruct (detect_freshness _ _); (split_and!; [apply Hw; [by apply Hin|vm_compute; split; discriminate]|done|done|]); left;
      (split; [auto|vm_compute; discriminate]). }
  destruct (detect_freshness _ _) eqn:Ef.
  { split_and!; [apply Hw; [by apply Hin|vm_compute; split; discriminate]|done|done|]. left. split; [auto|vm_compute; discriminate]. }
  destruct (match_strong_pattern uw query) as [[t n]|] eqn:Es.
  { split_and!; [apply Hw; [by eapply match_strong_target|vm_compute; split; discriminate]|done|done|]. left.
    split; [split; [done|right; right; congruence]|vm_compute; discriminate]. }
  destruct (weak_choice _ _ _ _) as [[t c] r] eqn:Ew.
  apply weak_choice_spec in Ew as [Ht [H0 Hc]]; [|apply match_bias_nonneg..]. cbn.
  split_and!; try done; [|right; split; [|done]; intros [_ [?|[?|?]]]; done].
  apply Hw; [done|]. split; [done|]. eapply Qle_trans; [exact Hc|]. vm_compute. discriminate.
Qed.

(** ** The properties *)

(** Under the default threshold the rules decide alone exactly on strong
    evidence: an external scope, a need for fresh information or a strong
    pattern; weak keywords, however many, always go on to the model. *)
Theorem rules_decide_iff us uw kw query :
  (ic_rule_to_llm default_router_config <= rd_confidence (rule_route us uw kw query))%Q <-> strong_evidence us uw kw query.
Proof.
  destruct (rule_route_cases us uw kw query) as (_ & _ & _ & [[Hs Hc]|[Hs Hc]]); [tauto|]. split; [|done].
  intros H. exfalso. pose proof WEAK_below. cbn [ic_rule_to_llm default_router_config] in H. lra.
Qed.

(** The clause signal fires exactly from the configured number of separators
    on, the question signal from that of question marks. *)
Theorem counting_signals_exact uw n query :
  (found_in uw (multi_clause n) query = true <-> (n <= count_marks "，,；;" (chars query))%nat) /\
  (found_in uw (multi_question n) query = true <-> (n <= count_marks "？?" (chars query))%nat).
Proof. split; apply at_least_marks. Qed.

(** A question is complex exactly when one of the enabled signals fires; the
    confidence is at most 0.9. *)
Lemma complexity_iff us uw g kw query : truthy (py_strip us query) = true ->
  (cx_is_complex (complexity_check us uw g kw query) = true <-> exists s, s ∈ signals uw g kw /\ s.2 query = true) /\
  (cx_confidence (complexity_check us uw g kw query) <= rnd (9 # 10))%Q.
Proof.
  intros Hq. unfold complexity_check. rewrite blank_strip, Hq. cbn [negb].
  assert (truthy (map fst (List.filter (fun s => s.2 query) (signals uw g kw))) = true <-> exists s, s ∈ signals uw g kw /\ s.2 query = true) as Ht.
  { rewrite <- existsb_true_exists. induction (signals uw g kw) as [|s l IH]; [done|]. cbn [List.filter existsb]. by destruct (s.2 query). }
  cbn zeta. cbn [cx_is_complex cx_confidence]. split; [done|]. destruct (truthy (map fst _)); [apply fmin_le|vm_compute; discriminate].
Qed.

(** ** Examples *)

Definition no_class (c : string) : bool := false.

Example rule_strong_ex : option_map fst (match_strong_pattern no_class "查询研发部的年假") = Some "rest". Proof. vm_compute. reflexivity. Qed.
Example rule_weak_ex : rd_confidence (rule_route no_class no_class default_keywords "销售额占比多少") = WEAK_CONFIDENCE_CAP. Proof. vm_compute. reflexivity. Qed.
Example gate_ex : cx_triggered_signals (complexity_check no_class no_class default_gate default_keywords "先查销量再分析，然后呢，对吗") =
  ["multi_clause"; "reasoning_markers"; "progressive"]. Proof. vm_compute. reflexivity. Qed.

(** A long question of several lines is not long: the dot does not match the
    line break. *)
Example long_query_by_line :
  let line := concat_chars (repeat "查" 30) in
  found_in no_class (long_query 50) (join newline_char [line; line]) = false /\ found_in no_class (long_query 50) (join "" [line; line]) = true.
Proof. vm_compute. done. Qed.
