(* ===== verification/LlmRouter.v ===== *)
(** * Routing with a model (routers/llm_router.py, routers/planner.py)

    The model classifies the question behind a circuit breaker, with the rules
    as fallback; complex questions get a plan.  Model replies, the JSON repair
    and the clock are arguments. *)

From S2P Require Import Prelude PyFloat PyVal PyList PyText AgentState DagScheduler RouteModels RuleRouter.

(** ** The circuit breaker *)

Record CircuitBreaker : Type := mkBreaker {
  cb_failure_threshold : Z; cb_recovery_timeout_s : Q; cb_failure_count : Z; cb_last_failure_time : Q; cb_is_open : bool }.

Definition new_breaker (failure_threshold : Z) (recovery_timeout_s : Q) : CircuitBreaker :=
  mkBreaker failure_threshold recovery_timeout_s 0 0 false.

Definition record_failure (now : Q) (b : CircuitBreaker) : CircuitBreaker :=
  let count := (cb_failure_count b + 1)%Z in
  mkBreaker (cb_failure_threshold b) (cb_recovery_timeout_s b) count now
    (if (cb_failure_threshold b <=? count)%Z then true else cb_is_open b).

Definition record_success (b : CircuitBreaker) : CircuitBreaker :=
  mkBreaker (cb_failure_threshold b) (cb_recovery_timeout_s b) 0 (cb_last_failure_time b) false.

(** [can_execute] closes the breaker again when the timeout is over. *)
Definition can_execute (now : Q) (b : CircuitBreaker) : bool * CircuitBreaker :=
  if negb (cb_is_open b) then (true, b)
  else if flt (cb_recovery_timeout_s b) (fsub now (cb_last_failure_time b))
       then (true, mkBreaker (cb_failure_threshold b) (cb_recovery_timeout_s b) 0 (cb_last_failure_time b) false)
       else (false, b).

(** ** Model replies *)

(** The text of a reply, or the reason there is none. *)
Inductive model_reply : Type := Content (text : string) | TimedOut | CallFailed.

Section router.
Context {P : Pydantic}.
Variable json_repair : string -> option pyval.

(** [_call_llm] and the first half of [_call_planner]: an error text raises. *)
Definition parsed_reply (r : model_reply) : option pyval :=
  match r with
  | Content text => if startswith "**ERROR**" text then None else json_repair text
  | _ => None
  end.

Definition target_map : list (string * string) :=
  [("database", "database"); ("rag", "rag"); ("web", "web"); ("rest", "rest"); ("hybrid", "hybrid"); ("chitchat", "chitchat")].

(** [_parse_llm_result] *)
Definition parse_llm_result (llm_result : pyval) : result RouteDecision :=
  match llm_result with
  | VDict d =>
    let g k default := get_or (dlookup k d) default in
    let! target := get_key (g "primary_intent" (VStr "chitchat")) target_map in
    new_RouteDecision (VStr (get_or target "chitchat")) (g "confidence" (VFloat (1 # 2))) (VStr "llm") (g "reason" (VStr ""))
      (g "complexity" (VStr "simple")) (g "kb_ids" (VList []))
      [("sub_intents", g "sub_intents" (VList [])); ("entities", g "entities" (VDict []));
       ("needs_clarification", g "needs_clarification" (VBool false)); ("clarification_question", g "clarification_question" (VStr ""))]
  | _ => Raise (AttributeError "get")
  end.

Definition set_metadata (k : string) (v : pyval) (d : RouteDecision) : RouteDecision :=
  mkRoute (rd_target d) (rd_confidence d) (rd_source d) (rd_reason d) (rd_complexity d) (rd_kb_ids d) (dset k v (rd_metadata d)).

(** What the confidence of the model makes of its decision. *)
Definition adopt (c : IntentRouterConfig) (d : RouteDecision) : RouteDecision :=
  if fge (rd_confidence d) (ic_direct_adopt c) then d
  else if fge (rd_confidence d) (ic_needs_clarification c) then set_metadata "low_confidence_label" (VBool true) d
  else set_metadata "needs_clarification" (VBool true) d.

(** [LLMRouter.route]: the clock when the breaker is asked and when a failure
    is recorded. *)
Definition llm_route (c : IntentRouterConfig) (b : CircuitBreaker) (asked failed : Q) (reply : model_reply)
    (rule_decision : RouteDecision) : RouteDecision * CircuitBreaker :=
  let (allowed, b) := can_execute asked b in
  if negb allowed then (rule_decision, b)
  else
    match parsed_reply reply with
    | None => (rule_decision, record_failure failed b)
    | Some llm_result =>
      let b := record_success b in
      match parse_llm_result llm_result with
      | Raise _ => (rule_decision, record_failure failed b)
      | Ok d => (adopt c d, b)
      end
    end.

(** ** The planner *)

(** [_determine_target]: the kinds of tools the steps use. *)
Definition determine_target (plan : ExecutionPlan) : string :=
  match remove_dups (map ps_tool (ep_steps plan)) with
  | [] => "chitchat"
  | [tool] => tool
  | _ => "hybrid"
  end.

(** [list(dict.fromkeys(l))] *)
Definition unique (l : list string) : list string := fold_left (fun acc x => append_new x acc) l [].

Definition plan_kb_ids (plan : ExecutionPlan) : list string :=
  unique (concat (map (fun s => if String.eqb (ps_tool s) "rag" then sa_kb_ids (ps_args s) else []) (ep_steps plan))).

Definition call_planner (default_id : string) (reply : model_reply) : option ExecutionPlan :=
  match parsed_reply reply with
  | Some (VDict d) => match parse_plan default_id d with Ok plan => Some plan | Raise _ => None end
  | _ => None
  end.

Definition step_count (plan : ExecutionPlan) : string := pretty.pretty (py_len (ep_steps plan)).

(** [Planner.plan] *)
Definition make_plan (default_id : string) (reply : model_reply) (llm_decision : RouteDecision) : result RouteDecision :=
  match call_planner default_id reply with
  | None =>
    Ok (set_metadata (match reply with TimedOut => "planner_timeout" | _ => "planner_failed" end) (VBool true) llm_decision)
  | Some plan =>
    new_RouteDecision (VStr (determine_target plan)) (VFloat (rd_confidence llm_decision)) (VStr "planner")
      (VStr (join "" ["Planner 生成执行计划: "; step_count plan; " 个步骤"])) (VStr "complex") (VStrs (plan_kb_ids plan))
      [("plan", VDict (plan_dump plan)); ("sub_intents", get_or (dlookup "sub_intents" (rd_metadata llm_decision)) (VList []));
       ("entities", get_or (dlookup "entities" (rd_metadata llm_decision)) (VDict []))]
  end.

(** What the skill planner gives. *)
Record SkillPlanResult : Type := mkSkillPlan { sp_plan : option ExecutionPlan; sp_reason : string; sp_missing_context : list string }.

(** [Planner.plan_with_skills], for the plan the skill planner built. *)
Definition plan_with_skills (built : SkillPlanResult) (skill_id : string) (llm_decision : RouteDecision) : result RouteDecision :=
  let metadata :=
    [("sub_intents", get_or (dlookup "sub_intents" (rd_metadata llm_decision)) (VList []));
     ("entities", get_or (dlookup "entities" (rd_metadata llm_decision)) (VDict [])); ("skill_id", VStr skill_id)] in
  match sp_plan built with
  | None =>
    new_RouteDecision (VStr (rd_target llm_decision)) (VFloat (rd_confidence llm_decision)) (VStr (rd_source llm_decision))
      (VStr (String.append "Skill plan unavailable: " (sp_reason built))) (VStr (rd_complexity llm_decision)) (VList [])
      (metadata ++ [("skill_plan_error", VDict [("reason", VStr (sp_reason built)); ("missing_context", VStrs (sp_missing_context built))])])
  | Some plan =>
    new_RouteDecision (VStr "hybrid") (VFloat (rd_confidence llm_decision)) (VStr "planner")
      (VStr (join "" ["Skill planner generated execution plan: "; step_count plan; " steps"])) (VStr "complex") (VStrs (plan_kb_ids plan))
      (metadata ++ [("plan", VDict (plan_dump plan))])
  end.

(** ** Lemmas: the breaker *)

(** Replies with the two times of each call. *)
Record routed : Type := mkRouted { ro_asked : Q; ro_failed : Q; ro_reply : model_reply }.

Definition breaker_after (c : IntentRouterConfig) (d : RouteDecision) (b : CircuitBreaker) (calls : list routed) : CircuitBreaker :=
  fold_left (fun b r => (llm_route c b (ro_asked r) (ro_failed r) (ro_reply r) d).2) calls b.

Lemma route_keeps_limits c d b a f r :
  cb_failure_threshold (llm_route c b a f r d).2 = cb_failure_threshold b /\
  cb_recovery_timeout_s (llm_route c b a f r d).2 = cb_recovery_timeout_s b.
Proof.
  unfold llm_route, can_execute. destruct (negb (cb_is_open b)); [|destruct (flt _ _)]; cbn [negb snd]; try done;
    (destruct (parsed_reply r) as [v|]; [destruct (parse_llm_result v)|]); done.
Qed.

(** A call that fails while the breaker is closed is counted. *)
Lemma route_failed c d b a f r : cb_is_open b = false -> parsed_reply r = None -> llm_route c b a f r d = (d, record_failure f b).
Proof. intros Hb Hr. unfold llm_route, can_execute. by rewrite Hb, Hr. Qed.

(** A call that is answered leaves at most one failure. *)
Lemma route_answered c d b a f r v : parsed_reply r = Some v -> (2 <= cb_failure_threshold b)%Z -> cb_is_open b = false ->
  cb_is_open (llm_route c b a f r d).2 = false.
Proof.
  intros Hr Ht Hb. unfold llm_route, can_execute. rewrite Hb, Hr. cbn [negb].
  destruct (parse_llm_result v); [done|]. unfold record_failure, record_success. cbn.
  destruct (Z.leb_spec (cb_failure_threshold b) (0 + 1)); [lia|done].
Qed.

Lemma failures_counted c d calls b : cb_is_open b = false -> Forall (fun r => parsed_reply (ro_reply r) = None) calls ->
  (cb_failure_count b + Z.of_nat (length calls) < cb_failure_threshold b)%Z ->
  cb_is_open (breaker_after c d b calls) = false /\
  cb_failure_count (breaker_after c d b calls) = (cb_failure_count b + Z.of_nat (length calls))%Z /\
  cb_failure_threshold (breaker_after c d b calls) = cb_failure_threshold b.
Proof.
  revert b. induction calls as [|r calls IH]; intros b Hb Hf Hn; cbn [breaker_after fold_left length] in *.
  { split_and!; [done|lia|done]. }
  apply Forall_cons in Hf as [Hr Hf]. rewrite route_failed by done. cbn [snd].
  destruct (IH (record_failure (ro_failed r) b)) as (H1 & H2 & H3); [|done| |].
  - unfold record_failure. cbn. destruct (Z.leb_spec (cb_failure_threshold b) (cb_failure_count b + 1)); [lia|done].
  - cbn. lia.
  - unfold breaker_after in *. rewrite H1, H2, H3. cbn. split_and!; [done|lia|done].
Qed.

Lemma blocked_route c d b a f r : cb_is_open b = true -> (fsub a (cb_last_failure_time b) <= cb_recovery_timeout_s b)%Q ->
  llm_route c b a f r d = (d, b).
Proof. intros Hb Ht. unfold llm_route, can_execute. rewrite Hb. cbn [negb]. apply flt_false in Ht. by rewrite Ht. Qed.
End router.

(** ** The properties *)

(** As many failed calls in a row as the threshold says open the breaker; from
    then on, until the recovery time is over, the decision of the rules is
    taken as it is and the model is not asked. *)
Theorem breaker_trips {P : Pydantic} json_repair c d b calls last
  (Hclosed : cb_is_open b = false) (Hzero : cb_failure_count b = 0%Z)
  (Hn : cb_failure_threshold b = Z.of_nat (S (length calls)))
  (Hfail : Forall (fun r => parsed_reply json_repair (ro_reply r) = None) (calls ++ [last])) :
  let b' := breaker_after json_repair c d b (calls ++ [last]) in
  cb_is_open b' = true /\
  forall asked failed reply, (fsub asked (ro_failed last) <= cb_recovery_timeout_s b)%Q ->
    llm_route json_repair c b' asked failed reply d = (d, b').
Proof.
  cbn zeta. unfold breaker_after. rewrite fold_left_app. cbn [fold_left]. fold (breaker_after json_repair c d b calls).
  apply Forall_app in Hfail as [Hf [Hl _]%Forall_cons].
  destruct (failures_counted json_repair c d calls b) as (H1 & H2 & H3); [done|done|lia|].
  assert (cb_recovery_timeout_s (breaker_after json_repair c d b calls) = cb_recovery_timeout_s b) as H4.
  { unfold breaker_after. clear H1 H2 H3 Hf Hn Hzero Hclosed. revert b. induction calls as [|r calls IH]; intros b; [done|]. cbn [fold_left].
    rewrite IH. apply route_keeps_limits. }
  rewrite route_failed by done. cbn [snd]. split.
  - unfold record_failure. cbn. destruct (Z.leb_spec (cb_failure_threshold (breaker_after json_repair c d b calls))
      (cb_failure_count (breaker_after json_repair c d b calls) + 1)); [done|lia].
  - intros asked failed reply Ht. apply blocked_route; [|by cbn; rewrite H4].
    unfold record_failure. cbn. destruct (Z.leb_spec (cb_failure_threshold (breaker_after json_repair c d b calls))
      (cb_failure_count (breaker_after json_repair c d b calls) + 1)); [done|lia].
Qed.

(** A model that always answers never opens the breaker, even when no answer
    can be read as a decision: the success is recorded, and the count reset,
    before the answer is parsed. *)
Theorem unreadable_never_trips {P : Pydantic} json_repair c d b calls
  (Hclosed : cb_is_open b = false) (Ht : (2 <= cb_failure_threshold b)%Z)
  (Hans : Forall (fun r => parsed_reply json_repair (ro_reply r) <> None) calls) :
  cb_is_open (breaker_after json_repair c d b calls) = false.
Proof.
  unfold breaker_after. revert b Hclosed Ht. induction Hans as [|r calls Hr _ IH]; intros b Hb Ht; cbn [fold_left]; [done|].
  destruct (parsed_reply json_repair (ro_reply r)) as [v|] eqn:E; [|done].
  apply IH; [by eapply route_answered|]. by rewrite (proj1 (route_keeps_limits json_repair c d b _ _ _)).
Qed.

(** Whatever the model says, the router returns the decision of the rules or a
    well-formed decision of its own, with a clarification asked exactly when
    its confidence or the model itself demands it. *)
Theorem llm_route_sound {P : Pydantic} json_repair c b asked failed reply d :
  let d' := (llm_route json_repair c b asked failed reply d).1 in
  d' = d \/
  (route_wf d' /\ rd_source d' = "llm" /\ rd_target d' <> "graph" /\
   ((rd_confidence d' < ic_needs_clarification c)%Q -> (rd_confidence d' < ic_direct_adopt c)%Q ->
    dlookup "needs_clarification" (rd_metadata d') = Some (VBool true))).
Proof.
  cbn zeta. unfold llm_route. destruct (can_execute asked b) as [allowed b0]. destruct (negb allowed); [by left|].
  destruct (parsed_reply json_repair reply) as [v|]; [|by left]. destruct (parse_llm_result v) as [d1|] eqn:Ed; [|by left]. right. cbn [fst].
  destruct v as [| | | | | |m]; try done. cbn in Ed. apply rbind_ok in Ed as (t & Ht & Hd).
  apply new_RouteDecision_ok in Hd as (Hwf & Hm & Htt & Hs & _). injection Htt as Htt. injection Hs as Hs.
  assert (rd_target d1 <> "graph") as Hg.
  { rewrite <- Htt. unfold get_key in Ht. destruct (get_or (dlookup "primary_intent" m) (VStr "chitchat")) as [| | | |s| |];
      cbn in Ht; try (injection Ht as <-; done); try done. injection Ht as <-.
    unfold target_map. cbn [dlookup]. repeat (destruct (String.eqb s _); [done|]). done. }
  unfold adopt. destruct (fge (rd_confidence d1) (ic_direct_adopt c)) eqn:E1.
  - split_and!; try done. intros _ Hlt. apply fge_spec in E1. lra.
  - destruct (fge (rd_confidence d1) (ic_needs_clarification c)) eqn:E2; cbn.
    + destruct Hwf. split_and!; try done. intros Hlt. apply fge_spec in E2. cbn in Hlt. lra.
    + destruct Hwf. split_and!; try done. intros _ _. apply dlookup_dset_eq.
Qed.

(** ** Deviations and witnesses *)

(** A plan of reports only has a target the model of decisions refuses, and the
    exception is not caught. *)
Lemma report_plan_raises {P : Pydantic} json_repair i text d plan : parsed_reply json_repair (Content text) = Some (VDict (plan_dump plan)) ->
  parse_plan i (plan_dump plan) = Ok plan -> map ps_tool (ep_steps plan) = ["report"] ->
  make_plan json_repair i (Content text) d = Raise (ValueError "validation").
Proof.
  intros Hr Hp Hs. unfold make_plan, call_planner. rewrite Hr, Hp. unfold determine_target. by rewrite Hs.
Qed.

Definition dead_call : routed := mkRouted 0 1 CallFailed.

Lemma breaker_trips_witness :
  let b := new_breaker 3 60 in
  let b' := breaker_after (fun _ => None) default_router_config (default_decision "") b ([dead_call; dead_call] ++ [dead_call]) in
  cb_is_open b' = true /\
  forall asked failed reply, (fsub asked (ro_failed dead_call) <= cb_recovery_timeout_s b)%Q ->
    llm_route (fun _ => None) default_router_config b' asked failed reply (default_decision "") = (default_decision "", b').
Proof. apply (breaker_trips (fun _ => None) default_router_config (default_decision "") (new_breaker 3 60)); [done|done|done|]. repeat constructor. Defined.

Lemma unreadable_never_trips_witness :
  cb_is_open (breaker_after (fun _ => Some (VList [])) default_router_config (default_decision "") (new_breaker 3 60)
                (repeat (mkRouted 0 1 (Content "[]")) 10)) = false.
Proof.
  apply (unreadable_never_trips (fun _ => Some (VList [])) default_router_config (default_decision "") (new_breaker 3 60)); [done|cbn; lia|].
  repeat constructor; discriminate.
Defined.
