(* ===== verification/IntentRouter.v ===== *)
(** * The intent router node (nodes/intent_router.py)

    Filter, gate, rules, model and planner in their order, with the skill
    resolution on the common way out, and where the workflow goes from the
    decision.  It composes [PreFilter], [RuleRouter], [LlmRouter] and
    [AgentGraph]. *)

From S2P Require Import Prelude PyFloat PyVal PyList PyText AgentState ToolNodes AgentGraph DagScheduler RouteModels PreFilter RuleRouter LlmRouter.

(** What the skill resolver gives: a skill set is its report skill and its dump. *)
Record ResolvedSkills : Type := mkSkills { rs_report_id : string; rs_dump : pyval }.
Record SkillResolution : Type := mkResolution {
  sr_resolved : bool; sr_fallback_used : bool; sr_skill_set : option ResolvedSkills; sr_dump : pyval }.

(** What the node writes besides its timing. *)
Record RouterUpdate : Type := mkRouterUpdate { ru_decision : RouteDecision; ru_skills : pydict }.

(** The fields it returns. *)
Definition router_fields (ms : Z) (u : RouterUpdate) : pydict :=
  [("route_target", VStr (rd_target (ru_decision u))); ("route_decision", route_value (ru_decision u))] ++ ru_skills u ++ [timing "intent_router" ms].

(** What one run of the node gets from its services. *)
Record RouterServices : Type := mkServices {
  (** the classifier: when the breaker is asked, when a failure is recorded, the reply *)
  rv_asked : Q; rv_failed : Q; rv_llm_reply : model_reply;
  (** the planner's reply and the id of a plan without one *)
  rv_planner_reply : model_reply; rv_plan_id : string;
  (** the resolver ([None] when it raises), the requirements and the plan of a skill set *)
  rv_resolve : RouteDecision -> option SkillResolution;
  rv_requirements : ResolvedSkills -> option (list pyval);
  rv_build_plan : ResolvedSkills -> option SkillPlanResult }.

Section node.
Context {P : Pydantic}.
Variables unicode_space unicode_digit unicode_word : string -> bool.
Variable json_repair : string -> option pyval.
Variable config : IntentRouterConfig.

(** A skill was found, and not as a fallback. *)
Definition skill_hit (r : option SkillResolution) : option ResolvedSkills :=
  match r with
  | Some r => if sr_resolved r && negb (sr_fallback_used r) then sr_skill_set r else None
  | None => None
  end.

(** [_finalize_route]; the plan in a decision is a validated one. *)
Definition finalize_route (sv : RouterServices) (d : RouteDecision) : RouterUpdate :=
  if String.eqb (rd_target d) "chitchat" then mkRouterUpdate d []
  else if truthy (get_or (dlookup "directive" (rd_metadata d)) VNone) then mkRouterUpdate d []
  else
    let skill_result := rv_resolve sv d in
    let resolution := match skill_result with Some r => [("skill_resolution", sr_dump r)] | None => [] end in
    match skill_hit skill_result with
    | None => mkRouterUpdate d resolution
    | Some skill_set =>
      let fields := resolution ++ [("skill_set", rs_dump skill_set);
                                   ("skill_evidence_requirements", VList (get_or (rv_requirements sv skill_set) []))] in
      match rv_build_plan sv skill_set with
      | None => mkRouterUpdate d fields
      | Some built =>
        match plan_with_skills built (rs_report_id skill_set) d with
        | Raise _ => mkRouterUpdate d fields
        | Ok planned =>
          mkRouterUpdate planned
            (match dlookup "plan" (rd_metadata planned) with
             | Some (VDict ((_ :: _) as plan)) => fields ++ [("execution_plan", VDict plan)]
             | _ => fields
             end)
        end
      end
    end.

(** The rules are skipped for a complex question. *)
Definition gate_decision (c : ComplexityResult) : RouteDecision :=
  mkRoute "chitchat" 0 "rule" (String.append "复杂度闸门跳过规则路由: " (py_repr_list (cx_triggered_signals c))) "complex" []
    [("complexity_gate_skipped", VBool true); ("complexity_signals", VStrs (cx_triggered_signals c)); ("complexity_confidence", VFloat (cx_confidence c))].

Definition needs_multi_tool (d : RouteDecision) : bool :=
  String.eqb (rd_target d) "hybrid" || (String.eqb (rd_complexity d) "complex" && str_in (rd_target d) ["hybrid"; "database"]).

(** The model's decision with what the node adds to it. *)
Definition annotate (c : ComplexityResult) (d : RouteDecision) : RouteDecision :=
  let d := if cx_is_complex c then set_metadata "complexity_signals" (VStrs (cx_triggered_signals c)) d else d in
  match dlookup "needs_multi_tool" (rd_metadata d) with
  | Some _ => d
  | None => set_metadata "needs_multi_tool" (VBool (needs_multi_tool d)) d
  end.

Definition set_field (k : string) (v : pyval) (u : RouterUpdate) : RouterUpdate := mkRouterUpdate (ru_decision u) (dset k v (ru_skills u)).

(** From the model's decision on: clarification, skills or a plan. *)
Definition after_llm (sv : RouterServices) (d : RouteDecision) : result RouterUpdate :=
  if truthy (get_or (dlookup "needs_clarification" (rd_metadata d)) VNone) then Ok (mkRouterUpdate d [])
  else if negb (String.eqb (rd_complexity d) "complex") then Ok (finalize_route sv d)
  else
    let pre_skill_result := rv_resolve sv d in
    match skill_hit pre_skill_result with
    | Some _ => Ok (finalize_route sv d)
    | None =>
      let! planned := make_plan json_repair (rv_plan_id sv) (rv_planner_reply sv) d in
      let u := finalize_route sv planned in
      Ok (match pre_skill_result with Some r => set_field "skill_resolution" (sr_dump r) u | None => u end)
    end.

Definition empty_question_decision : RouteDecision := mkRoute "chitchat" (1 # 2) "rule" "用户问题为空" "simple" [] [].

(** [intent_router_node], with the state of the breaker before and after. *)
Definition intent_router_node (sv : RouterServices) (breaker : CircuitBreaker) (st : pystate) : result (RouterUpdate * CircuitBreaker) :=
  if negb (truthy (sgetv st "user_question" (VStr ""))) then Ok (mkRouterUpdate empty_question_decision [], breaker)
  else
    let! user_question := as_str (sgetv st "user_question" (VStr "")) in
    let! _ := if truthy (sgetv st "tenant_id" (VStr "")) then Ok VNone
              else vget (sgetv st "agent_config" (VDict [])) "tenant_id" (VStr "") in
    match pre_filter unicode_space unicode_digit unicode_word user_question with
    | Some d => Ok (finalize_route sv d, breaker)
    | None =>
      let c := complexity_check unicode_space unicode_word (ic_gate config) (ic_keywords config) user_question in
      let rule_decision := if cx_is_complex c then gate_decision c else rule_route unicode_space unicode_word (ic_keywords config) user_question in
      if negb (cx_is_complex c) && fge (rd_confidence rule_decision) (ic_rule_to_llm config) then Ok (finalize_route sv rule_decision, breaker)
      else
        let (d, breaker) := llm_route json_repair config breaker (rv_asked sv) (rv_failed sv) (rv_llm_reply sv) rule_decision in
        let! u := after_llm sv (annotate c d) in Ok (u, breaker)
    end.

(** ** Lemmas: every decision is well formed *)

Lemma set_metadata_wf k v d : route_wf d -> route_wf (set_metadata k v d).
Proof. by intros []. Qed.

Lemma annotate_wf c d : route_wf d -> route_wf (annotate c d).
Proof.
  intros H. unfold annotate. destruct (cx_is_complex c); cbv zeta; destruct (dlookup "needs_multi_tool" _); auto using set_metadata_wf.
Qed.

Lemma gate_decision_wf c : route_wf (gate_decision c).
Proof. split; try (vm_compute; split; discriminate); apply str_in_spec; reflexivity. Qed.

Lemma finalize_wf sv d : route_wf d -> route_wf (ru_decision (finalize_route sv d)).
Proof.
  intros Hd. unfold finalize_route. destruct (String.eqb _ _); [done|]. destruct (truthy _); [done|].
  destruct (skill_hit _) as [s|]; [|done]. destruct (rv_build_plan sv s) as [built|]; [|done].
  destruct (plan_with_skills _ _ _) as [planned|] eqn:E; [|done]. cbn. unfold plan_with_skills in E.
  destruct (sp_plan built); by apply new_RouteDecision_ok in E as [? _].
Qed.

Lemma make_plan_wf i reply d d' : route_wf d -> make_plan json_repair i reply d = Ok d' -> route_wf d'.
Proof.
  intros Hd. unfold make_plan. destruct (call_planner _ _ _); [|intros [= <-]; by apply set_metadata_wf].
  by intros [? _]%new_RouteDecision_ok.
Qed.

Lemma after_llm_wf sv d u : route_wf d -> after_llm sv d = Ok u -> route_wf (ru_decision u).
Proof.
  intros Hd. unfold after_llm. destruct (truthy _); [by intros [= <-]|]. destruct (negb _); [intros [= <-]; by apply finalize_wf|].
  destruct (skill_hit _); [intros [= <-]; by apply finalize_wf|]. intros (d' & Hm & [= <-])%rbind_ok.
  apply make_plan_wf in Hm; [|done]. destruct (rv_resolve sv d); cbn; by apply finalize_wf.
Qed.

Lemma router_wf sv b st u b' : intent_router_node sv b st = Ok (u, b') -> route_wf (ru_decision u).
Proof.
  unfold intent_router_node. destruct (negb (truthy _)).
  { intros [= <- <-]. split; try (vm_compute; split; discriminate); apply str_in_spec; reflexivity. }
  intros (q & _ & (x & _ & H)%rbind_ok)%rbind_ok. destruct (pre_filter _ _ _ q) as [d|] eqn:Ep.
  { injection H as <- <-. apply finalize_wf. by apply prefilter_wf in Ep as [? _]. }
  cbv zeta in H. set (c := complexity_check _ _ _ _ _) in *.
  set (rd := if cx_is_complex c then gate_decision c else _) in *.
  assert (route_wf rd) as Hrd.
  { unfold rd. destruct (cx_is_complex c); [apply gate_decision_wf|]. by destruct (rule_route_cases unicode_space unicode_word (ic_keywords config) q). }
  destruct (_ && _); [injection H as <- <-; by apply finalize_wf|].
  destruct (llm_route _ _ _ _ _ _ _) as [d b0] eqn:El. apply rbind_ok in H as (u0 & Ha & [= <- <-]).
  eapply after_llm_wf; [|exact Ha]. apply annotate_wf.
  pose proof (llm_route_sound json_repair config b (rv_asked sv) (rv_failed sv) (rv_llm_reply sv) rd) as Hs. rewrite El in Hs. cbn in Hs.
  by destruct Hs as [->|[? _]].
Qed.

(** The node writes its fields and nothing else. *)
Lemma finalize_keys sv d k : k ∈ map fst (ru_skills (finalize_route sv d)) ->
  k ∈ ["skill_resolution"; "skill_set"; "skill_evidence_requirements"; "execution_plan"].
Proof.
  intros Hk. apply str_in_spec. assert (forall l : list string, forallb (fun k => str_in k ["skill_resolution"; "skill_set"; "skill_evidence_requirements"; "execution_plan"]) l = true ->
    k ∈ l -> str_in k ["skill_resolution"; "skill_set"; "skill_evidence_requirements"; "execution_plan"] = true) as Hall
    by (intros l Hl Hin; rewrite forallb_true_forall in Hl; by apply Hl).
  eapply Hall; [|exact Hk]. clear Hall Hk. unfold finalize_route. destruct (String.eqb _ _); [done|]. destruct (truthy _); [done|].
  destruct (rv_resolve sv d) as [r|]; [|done]. cbv zeta. destruct (skill_hit _) as [s|]; [|done].
  destruct (rv_build_plan sv s) as [built|]; [|done]. destruct (plan_with_skills _ _ _) as [planned|]; [|done]. cbn [ru_skills].
  by destruct (dlookup "plan" _) as [[| | | | | |[|? ?]]|].
Qed.

Lemma after_llm_keys sv d u k : after_llm sv d = Ok u -> k ∈ map fst (ru_skills u) ->
  k ∈ ["skill_resolution"; "skill_set"; "skill_evidence_requirements"; "execution_plan"].
Proof.
  unfold after_llm. destruct (truthy _); [intros [= <-] H; by apply not_elem_of_nil in H|].
  destruct (negb _); [intros [= <-]; apply finalize_keys|]. destruct (skill_hit _); [intros [= <-]; apply finalize_keys|].
  intros (d' & _ & [= <-])%rbind_ok. destruct (rv_resolve sv d); [|apply finalize_keys]. cbn [set_field ru_skills].
  rewrite dset_map_keys. destruct (str_in _ _); [apply finalize_keys|].
  intros [H|H%list_elem_of_singleton]%elem_of_app; [by eapply finalize_keys|]. subst k. by left.
Qed.

Lemma router_keys sv b st u b' k : intent_router_node sv b st = Ok (u, b') -> k ∈ map fst (ru_skills u) ->
  k ∈ ["skill_resolution"; "skill_set"; "skill_evidence_requirements"; "execution_plan"].
Proof.
  unfold intent_router_node. destruct (negb (truthy _)); [intros [= <- <-] H; by apply not_elem_of_nil in H|].
  intros (q & _ & (x & _ & H)%rbind_ok)%rbind_ok. destruct (pre_filter _ _ _ q); [injection H as <- <-; apply finalize_keys|].
  cbv zeta in H. destruct (_ && _); [injection H as <- <-; apply finalize_keys|].
  destruct (llm_route _ _ _ _ _ _ _) as [d b0]. apply rbind_ok in H as (u0 & Ha & [= <- <-]). by eapply after_llm_keys.
Qed.
End node.

(** ** Where the workflow goes *)

(** The edge taken for a decision, [react] being the switch of the state. *)
Definition destination (react : bool) (d : RouteDecision) : string :=
  if truthy (get_or (dlookup "needs_clarification" (rd_metadata d)) VNone) then "clarification"
  else if react && String.eqb (rd_complexity d) "complex" && truthy (get_or (dlookup "needs_multi_tool" (rd_metadata d)) VNone)
          && str_in (rd_target d) ["hybrid"; "database"] then "react_subgraph"
  else if String.eqb (rd_source d) "planner" && String.eqb (rd_complexity d) "complex" then "plan_executor"
  else if String.eqb (rd_target d) "rag" then "rag_tool"
  else if String.eqb (rd_target d) "database" then "db_tool"
  else if String.eqb (rd_target d) "hybrid" then "rag_tool"
  else if String.eqb (rd_target d) "web" then "web_tool"
  else if String.eqb (rd_target d) "rest" then "rest_tool"
  else if String.eqb (rd_target d) "graph" then "graph_tool"
  else "prompt_assembly".

Lemma metadata_flag_route d k : metadata_flag (route_value d) k = Ok (truthy (get_or (dlookup k (rd_metadata d)) VNone)).
Proof. unfold metadata_flag, route_value. cbn. by destruct (rd_metadata d). Qed.

Lemma route_decision_value st d : sgetv st "route_decision" VNone = route_value d ->
  sgetv st "route_target" (VStr "chitchat") = VStr (rd_target d) ->
  route_decision st = Ok (destination (truthy (sgetv st "react_enabled" (VBool false))) d).
Proof.
  intros Hd Ht. unfold route_decision. rewrite Hd, Ht. change (truthy (route_value d)) with true.
  cbn [rand rbind]. rewrite !metadata_flag_route. cbn [rbind]. unfold destination.
  destruct (truthy (get_or (dlookup "needs_clarification" _) VNone)); [done|]. rewrite andb_true_r.
  assert (attr_is (route_value d) "complexity" "complex" = Ok (String.eqb (rd_complexity d) "complex")) as -> by done.
  assert (attr_is (route_value d) "source" "planner" = Ok (String.eqb (rd_source d) "planner")) as -> by done.
  assert (is_one_of (VStr (rd_target d)) ["hybrid"; "database"] = str_in (rd_target d) ["hybrid"; "database"]) as -> by done.
  unfold rand. cbn [is_str].
  destruct (truthy (sgetv st "react_enabled" _)), (String.eqb (rd_complexity d) "complex"), (truthy (get_or (dlookup "needs_multi_tool" _) _)),
    (str_in (rd_target d) _), (String.eqb (rd_source d) "planner"); cbn [rbind andb]; reflexivity.
Qed.

Lemma destination_edge react d : exists n, choose route_edges (destination react d) = Ok n.
Proof. unfold destination. repeat match goal with |- context [if ?b then _ else _] => destruct b end; by eexists. Qed.

Section workflow.
Context {P : Pydantic} {R : StateRuntime} {RL : StateRuntimeLaws R}.
Variables us ud uw : string -> bool.

Lemma router_state json_repair config sv b st u b' ms :
  intent_router_node us ud uw json_repair config sv b st = Ok (u, b') ->
  let st' := apply_updates st (router_fields ms u) in
  sgetv st' "route_decision" VNone = route_value (ru_decision u) /\
  sgetv st' "route_target" (VStr "chitchat") = VStr (rd_target (ru_decision u)) /\
  sgetv st' "react_enabled" (VBool false) = sgetv st "react_enabled" (VBool false).
Proof.
  intros H. cbn zeta. split_and!; [by apply sgetv_apply_written..|]. apply sgetv_apply_unwritten; [done|].
  apply dlookup_none_keys. unfold router_fields. rewrite !map_app. intros [Hin|[Hin|Hin]%elem_of_app]%elem_of_app.
  - cbn in Hin. repeat (apply elem_of_cons in Hin as [Hin|Hin]; [discriminate|]). by apply not_elem_of_nil in Hin.
  - apply (router_keys us ud uw json_repair config sv b st u b' _ H) in Hin.
    repeat (apply elem_of_cons in Hin as [Hin|Hin]; [discriminate|]). by apply not_elem_of_nil in Hin.
  - cbn in Hin. by apply list_elem_of_singleton in Hin.
Qed.

Lemma router_next json_repair config sv b st u b' ms :
  intent_router_node us ud uw json_repair config sv b st = Ok (u, b') ->
  next intent_router (apply_updates st (router_fields ms u)) =
    choose route_edges (destination (truthy (sgetv st "react_enabled" (VBool false))) (ru_decision u)).
Proof.
  intros H. destruct (router_state json_repair config sv b st u b' ms H) as (H1 & H2 & H3).
  cbn [next]. rewrite (route_decision_value _ _ H1 H2). cbn [rbind]. by rewrite H3.
Qed.

(** A decision for no tool goes to the prompt. *)
Lemma chitchat_destination react d : rd_target d = "chitchat" -> rd_source d <> "planner" ->
  truthy (get_or (dlookup "needs_clarification" (rd_metadata d)) VNone) = false -> destination react d = "prompt_assembly".
Proof.
  intros Ht Hs Hc. unfold destination. rewrite Hc, Ht. cbn. rewrite (proj2 (String.eqb_neq _ _) Hs). cbn.
  by rewrite andb_false_r.
Qed.
End workflow.

(** ** The properties *)

(** [C8] Whatever the model, the planner and the resolver reply, the node's decision
    is well formed and the workflow has an edge for it. *)
Theorem router_always_routes {P : Pydantic} {R : StateRuntime} {RL : StateRuntimeLaws R} us ud uw json_repair config sv b st u b' ms
  (H : intent_router_node us ud uw json_repair config sv b st = Ok (u, b')) :
  route_wf (ru_decision u) /\ exists n, next intent_router (apply_updates st (router_fields ms u)) = Ok n.
Proof.
  split; [by eapply router_wf|]. erewrite router_next by exact H. apply destination_edge.
Qed.

(** A blocked question is still answered: it goes to the prompt and the model
    like small talk. *)
Theorem blocked_still_answered {P : Pydantic} {R : StateRuntime} {RL : StateRuntimeLaws R} us ud uw json_repair config sv b st ms q
  (Hq : st !! "user_question" = Some (VStr q)) (Ht : truthy (sgetv st "tenant_id" (VStr "")) = true)
  (Hs : truthy (py_strip us q) = true) (Hd : dangerous us uw (py_strip us q)) :
  exists u b', intent_router_node us ud uw json_repair config sv b st = Ok (u, b') /\ blocked (ru_decision u) /\
    next intent_router (apply_updates st (router_fields ms u)) = Ok prompt_assembly.
Proof.
  assert (exists d, pre_filter us ud uw q = Some d /\ blocked d /\ rd_target d = "chitchat" /\ rd_source d = "prefilter" /\
            dlookup "needs_clarification" (rd_metadata d) = None) as (d & Hp & Hb & Htg & Hsrc & Hnc).
  { pose proof Hd as [d Hc]%check_security_spec. exists d. split_and!.
    - unfold pre_filter. assert (negb (truthy q) || negb (truthy (py_strip us q)) = false) as -> by (by rewrite blank_strip, Hs).
      cbn [first_some]. by rewrite Hc.
    - by eapply check_security_blocks.
    - by eapply check_security_blocks.
    - unfold check_security in Hc. destruct (existsb _ _); [by injection Hc as <-|]. destruct (List.find _ _); [by injection Hc as <-|done].
    - unfold check_security in Hc. destruct (existsb _ _); [by injection Hc as <-|]. destruct (List.find _ _); [by injection Hc as <-|done]. }
  assert (intent_router_node us ud uw json_repair config sv b st = Ok (mkRouterUpdate d [], b)) as Hn.
  { unfold intent_router_node, sgetv in *. rewrite Hq. cbn [get_or]. assert (truthy (VStr q) = true) as -> by (by destruct q).
    cbn [negb as_str rbind]. rewrite Ht. cbn [rbind]. rewrite Hp. unfold finalize_route. by rewrite Htg. }
  exists (mkRouterUpdate d []), b. split_and!; [done|done|]. erewrite router_next by exact Hn. cbn [ru_decision].
  rewrite chitchat_destination; [done|done|by rewrite Hsrc|by rewrite Hnc].
Qed.

(** When the model and the planner cannot be reached, a complex question that
    no filter takes is answered without any retrieval. *)
Theorem outage_skips_retrieval {P : Pydantic} {R : StateRuntime} {RL : StateRuntimeLaws R} us ud uw json_repair config sv b st ms q
  (Hq : st !! "user_question" = Some (VStr q)) (Ht : truthy (sgetv st "tenant_id" (VStr "")) = true)
  (Hp : pre_filter us ud uw q = None)
  (Hc : cx_is_complex (complexity_check us uw (ic_gate config) (ic_keywords config) q) = true)
  (Hl : parsed_reply json_repair (rv_llm_reply sv) = None) (Hpl : parsed_reply json_repair (rv_planner_reply sv) = None)
  (Hr : forall d, skill_hit (rv_resolve sv d) = None) :
  exists u b', intent_router_node us ud uw json_repair config sv b st = Ok (u, b') /\ rd_target (ru_decision u) = "chitchat" /\
    next intent_router (apply_updates st (router_fields ms u)) = Ok prompt_assembly.
Proof.
  set (c := complexity_check us uw (ic_gate config) (ic_keywords config) q).
  set (d := set_metadata (match rv_planner_reply sv with TimedOut => "planner_timeout" | _ => "planner_failed" end) (VBool true)
              (annotate c (gate_decision c))).
  fold c in Hc.
  assert (annotate c (gate_decision c) = set_metadata "needs_multi_tool" (VBool false)
            (set_metadata "complexity_signals" (VStrs (cx_triggered_signals c)) (gate_decision c))) as Han
    by (unfold annotate; rewrite Hc; reflexivity).
  assert (finalize_route sv d = mkRouterUpdate d []) as Hfin by (unfold finalize_route, d; by rewrite Han).
  assert (rd_target d = "chitchat" /\ rd_source d = "rule" /\ dlookup "needs_clarification" (rd_metadata d) = None) as (Hdt & Hds & Hdc)
    by (unfold d; rewrite Han; split_and!; [done|done|by destruct (rv_planner_reply sv)]).
  assert (exists u b', intent_router_node us ud uw json_repair config sv b st = Ok (u, b') /\ ru_decision u = d) as (u & b' & Hn & Hu).
  { unfold intent_router_node, sgetv in *. rewrite Hq. cbn [get_or].
    assert (truthy (VStr q) = true) as -> by (destruct q; [unfold c, complexity_check in Hc; cbn in Hc; discriminate|done]).
    cbn [negb as_str rbind]. rewrite Ht. cbn [rbind]. rewrite Hp. cbv zeta. fold c. rewrite Hc. cbn [negb andb].
    assert (exists b0, llm_route json_repair config b (rv_asked sv) (rv_failed sv) (rv_llm_reply sv) (gate_decision c) = (gate_decision c, b0)) as [b0 ->].
    { unfold llm_route. destruct (can_execute _ _) as [al b1]. destruct (negb al); [by exists b1|]. rewrite Hl. by eexists. }
    assert (after_llm json_repair sv (annotate c (gate_decision c)) =
      Ok (match rv_resolve sv (annotate c (gate_decision c)) with Some r => set_field "skill_resolution" (sr_dump r) (mkRouterUpdate d [])
          | None => mkRouterUpdate d [] end)) as ->.
    { unfold after_llm. rewrite Hr. unfold make_plan, call_planner. rewrite Hpl. cbn [rbind]. fold d. rewrite Hfin.
      by rewrite Han. }
    cbn [rbind]. destruct (rv_resolve sv _); by eexists _, _. }
  exists u, b'. split_and!; [done|by rewrite Hu|]. erewrite router_next by exact Hn. rewrite Hu.
  rewrite chitchat_destination; [done|done|by rewrite Hds|by rewrite Hdc].
Qed.

(** ** Witnesses *)

Definition offline : RouterServices := mkServices 0 0 CallFailed TimedOut "p" (fun _ => None) (fun _ => None) (fun _ => None).

Definition example_router_state (question : string) : pystate := {[ "user_question" := VStr question; "tenant_id" := VStr "t1" ]}.

Definition example_breaker : CircuitBreaker := new_breaker 3 60.

Definition example_question : string := "查一下年假".

Definition example_router_update : RouterUpdate :=
  match intent_router_node no_class no_class no_class (fun _ => None) default_router_config offline example_breaker (example_router_state example_question) with
  | Ok (u, _) => u
  | Raise _ => mkRouterUpdate empty_question_decision []
  end.

Lemma router_always_routes_witness :
  rd_target (ru_decision example_router_update) = "rest" /\ route_wf (ru_decision example_router_update) /\
  exists n, next intent_router (apply_updates (example_router_state example_question) (router_fields 0 example_router_update)) = Ok n.
Proof.
  split; [vm_compute; reflexivity|].
  apply (router_always_routes no_class no_class no_class (fun _ => None) default_router_config offline example_breaker
           (example_router_state example_question) example_router_update (record_failure 0 example_breaker) 0).
  vm_compute. reflexivity.
Defined.

Lemma blocked_still_answered_witness :
  exists u b', intent_router_node no_class no_class no_class (fun _ => None) default_router_config offline example_breaker
                 (example_router_state "root密码") = Ok (u, b') /\ blocked (ru_decision u) /\
    next intent_router (apply_updates (example_router_state "root密码") (router_fields 0 u)) = Ok prompt_assembly.
Proof.
  apply (blocked_still_answered no_class no_class no_class (fun _ => None) default_router_config offline example_breaker
           (example_router_state "root密码") 0 "root密码"); [vm_compute; reflexivity..|].
  right. exists "root密码". split; [apply str_in_spec; reflexivity|vm_compute; reflexivity].
Defined.

Lemma outage_skips_retrieval_witness :
  exists u b', intent_router_node no_class no_class no_class (fun _ => None) default_router_config offline example_breaker
                 (example_router_state "对比两个部门的销售额") = Ok (u, b') /\ rd_target (ru_decision u) = "chitchat" /\
    next intent_router (apply_updates (example_router_state "对比两个部门的销售额") (router_fields 0 u)) = Ok prompt_assembly.
Proof.
  apply (outage_skips_retrieval no_class no_class no_class (fun _ => None) default_router_config offline example_breaker
           (example_router_state "对比两个部门的销售额") 0 "对比两个部门的销售额"); [vm_compute; reflexivity..|reflexivity|reflexivity|reflexivity].
Defined.
