(* ===== verification/ToolContract.v ===== *)
(** * Tools behind one contract (tools/contract.py, tools/base.py,
    tools/registry.py, executor/tool_dispatcher.py)

    A step of a plan names a tool; the dispatcher looks it up in the registry and
    runs it through the template method of the base class, which turns every
    exception into a failed outcome.  A method is modelled with its signature:
    calling it checks the arguments before the body runs. *)

From S2P Require Import Prelude PyFloat PyVal PyList PyText AgentState ToolNodes DagScheduler RouteModels.

(** ** Calls *)

(** The parameters of a method after [self], those before and after the [*];
    none has a default. *)
Record Signature : Type := mkSignature { sg_positional : list string; sg_keyword_only : list string }.

(** Whether a call with [n] positional arguments and the given keywords binds
    every parameter exactly once. *)
Definition accepts (sg : Signature) (n : nat) (keywords : list string) : bool :=
  let by_keyword := drop n (sg_positional sg) ++ sg_keyword_only sg in
  (n <=? length (sg_positional sg))%nat
  && forallb (fun k => str_in k by_keyword) keywords
  && forallb (fun p => str_in p keywords) by_keyword.

(** ** Outcomes *)

Record ToolContext : Type := mkContext {
  tc_tenant_id : pyval; tc_kb_ids : pyval; tc_llm_id : pyval; tc_query_lang : pyval; tc_agent_config : pyval }.

Record ToolOutcome : Type := mkOutcome {
  to_success : bool; to_tool : string; to_error_code : string; to_error : string; to_latency_ms : Z;
  to_docs : list pydict; to_quality_score : Q; to_has_relevant : bool; to_relevant_count : Z; to_payload : pydict }.

(** [ToolOutcome(success=..., tool=..., payload=...)], and of a failure. *)
Definition outcome_of (success : bool) (tool : string) (payload : pydict) : ToolOutcome :=
  mkOutcome success tool "" "" 0 [] 0 false 0 payload.
Definition failed_outcome (error_code error : string) : ToolOutcome := mkOutcome false "" error_code error 0 [] 0 false 0 [].

(** [out.update(d)] *)
Definition dict_update (out d : pydict) : pydict := fold_left (fun acc kv => dset kv.1 kv.2 acc) d out.

(** [to_state_fields] *)
Definition to_state_fields (o : ToolOutcome) : pydict :=
  dict_update
    ([("success", VBool (to_success o)); ("tool", VStr (to_tool o)); ("latency_ms", VInt (to_latency_ms o))]
     ++ (if truthy (to_error o) then [("error", VStr (to_error o))] else [])
     ++ (if truthy (to_error_code o) then [("error_code", VStr (to_error_code o))] else []))
    (to_payload o).

(** ** The template method *)

(** What the adapters get: the step, the state and the earlier results. *)
Record ToolInput : Type := mkInput {
  in_step : @PlanStep StepArgs; in_state : pystate; in_previous_results : list (string * pydict) }.

(** An exception of a tool, by its text; [Unavailable] is [ToolUnavailable]. *)
Inductive tool_exc : Type := Unavailable (text : string) | Other (text : string).

(** A subclass of [BaseTool]: its name, the signature and the body of its
    [_do_execute], and the two hooks. *)
Record BaseTool : Type := mkTool {
  bt_name : string; bt_signature : Signature;
  bt_do_execute : ToolInput -> ToolContext -> ToolOutcome + tool_exc;
  bt_validate : ToolInput -> option tool_exc;
  bt_post_process : ToolOutcome -> ToolOutcome + tool_exc }.

(** The hooks of the base class. *)
Definition no_validation (i : ToolInput) : option tool_exc := None.
Definition pass_through (o : ToolOutcome) : ToolOutcome + tool_exc := inl o.

Section tools.
(** The text of the interpreter's [TypeError] for a call that does not fit. *)
Variable call_error : string -> string.

(** [self._do_execute(input_data, ctx)]: two positional arguments. *)
Definition call_do_execute (t : BaseTool) (input_data : ToolInput) (ctx : ToolContext) : ToolOutcome + tool_exc :=
  if accepts (bt_signature t) 2 [] then bt_do_execute t input_data ctx else inr (Other (call_error (bt_name t))).

(** [BaseTool.invoke] *)
Definition invoke (t : BaseTool) (input_data : ToolInput) (ctx : ToolContext) (elapsed_ms : Z) : ToolOutcome :=
  let outcome :=
    match bt_validate t input_data with
    | Some e => inr e
    | None => match call_do_execute t input_data ctx with
              | inl o => bt_post_process t o
              | inr e => inr e
              end
    end in
  let o := match outcome with
           | inl o => o
           | inr (Unavailable text) => failed_outcome "TOOL_UNAVAILABLE" text
           | inr (Other text) => failed_outcome "TOOL_EXECUTION_FAILED" text
           end in
  mkOutcome (to_success o) (bt_name t) (to_error_code o) (to_error o) elapsed_ms (to_docs o) (to_quality_score o)
    (to_has_relevant o) (to_relevant_count o) (to_payload o).

(** ** Registry and dispatcher *)

(** [@register_tool]: a later registration of a name replaces the earlier. *)
Definition register_tool (name : string) (t : BaseTool) (registry : list (string * BaseTool)) : list (string * BaseTool) :=
  dset name t registry.

(** [ToolRegistry.dispatch] *)
Definition registry_dispatch (registry : list (string * BaseTool)) (name : string) (input_data : ToolInput) (ctx : ToolContext)
    (elapsed_ms : Z) : ToolOutcome + string :=
  match dlookup name registry with
  | None => inr (String.append "未知工具类型: " name)
  | Some t => inl (invoke t input_data ctx elapsed_ms)
  end.

Definition tool_context (st : pystate) : ToolContext :=
  mkContext (sgetv st "tenant_id" (VStr "")) (sgetv st "kb_ids" (VList [])) (sgetv st "llm_id" (VStr ""))
    (sgetv st "query_lang" (VStr "zh_CN")) (agent_config_of st).

(** [ToolDispatcher.dispatch]; the two clocks are those of the tool and of the
    dispatcher. *)
Definition dispatch (registry : list (string * BaseTool)) (tool_ms total_ms : Z) (st : pystate) (step : @PlanStep StepArgs)
    (previous_results : list (string * pydict)) : pydict :=
  match registry_dispatch registry (ps_tool step) (mkInput step st previous_results) (tool_context st) tool_ms with
  | inr error =>
    [("step_id", VStr (ps_step_id step)); ("tool", VStr (ps_tool step)); ("success", VBool false); ("error", VStr error);
     ("error_code", VStr "TOOL_EXECUTION_FAILED"); ("latency_ms", VInt total_ms)]
  | inl outcome =>
    let result := to_state_fields outcome in
    let success := truthy (get_or (dlookup "success" result) (VBool true)) in
    let result := dset "step_id" (VStr (ps_step_id step)) result in
    let result := dset "tool" (VStr (ps_tool step)) result in
    let result := dset "success" (VBool success) result in
    dset "latency_ms" (vor (get_or (dlookup "latency_ms" result) VNone) (VInt total_ms)) result
  end.

(** ** Lemmas *)

Lemma dict_update_absent k d out : k ∉ map fst d -> dlookup k (dict_update out d) = dlookup k out.
Proof.
  unfold dict_update. revert out. induction d as [|[k' v] d IH]; intros out H; cbn [fold_left fst snd map] in *; [done|].
  apply not_elem_of_cons in H as [Hne H]. rewrite IH by done. rewrite dlookup_dset. by destruct (String.eqb_spec k k').
Qed.

Lemma dispatch_lookup registry tm ms st step previous k :
  k ∉ ["step_id"; "tool"; "success"; "latency_ms"] ->
  dlookup k (dispatch registry tm ms st step previous) =
    match registry_dispatch registry (ps_tool step) (mkInput step st previous) (tool_context st) tm with
    | inl o => dlookup k (to_state_fields o)
    | inr error => dlookup k [("error", VStr error); ("error_code", VStr "TOOL_EXECUTION_FAILED")]
    end.
Proof.
  intros Hk. rewrite !not_elem_of_cons in Hk. destruct Hk as (H1 & H2 & H3 & H4 & _).
  unfold dispatch. destruct (registry_dispatch _ _ _ _ _) as [o|e].
  - cbn zeta. by rewrite !(dlookup_dset_ne _ k) by done.
  - cbn [dlookup]. rewrite (proj2 (String.eqb_neq k "step_id")), (proj2 (String.eqb_neq k "tool")),
      (proj2 (String.eqb_neq k "success")), (proj2 (String.eqb_neq k "latency_ms")) by done. done.
Qed.

(** Every result names its step and its tool, and says whether it succeeded. *)
Lemma dispatch_identified registry tm ms st step previous :
  let r := dispatch registry tm ms st step previous in
  dlookup "step_id" r = Some (VStr (ps_step_id step)) /\ dlookup "tool" r = Some (VStr (ps_tool step)) /\
  exists b, dlookup "success" r = Some (VBool b).
Proof.
  cbn zeta. unfold dispatch. destruct (registry_dispatch _ _ _ _ _) as [o|e]; cbn zeta.
  - rewrite !dlookup_dset. cbn. split_and!; try done. eauto.
  - cbn. eauto.
Qed.

Lemma state_fields_success o : "success" ∉ map fst (to_payload o) ->
  dlookup "success" (to_state_fields o) = Some (VBool (to_success o)).
Proof. intros H. unfold to_state_fields. by rewrite dict_update_absent. Qed.

(** The outcome of a call that the signature refuses. *)
Lemma invoke_refused t i ctx ms : bt_validate t i = None -> accepts (bt_signature t) 2 [] = false ->
  invoke t i ctx ms = mkOutcome false (bt_name t) "TOOL_EXECUTION_FAILED" (call_error (bt_name t)) ms [] 0 false 0 [].
Proof. intros Hv Ha. unfold invoke, call_do_execute. by rewrite Hv, Ha. Qed.
End tools.

(** ** The contract *)

(** What a dispatched step tells its caller, whatever tools are registered: it
    succeeded only when the registered tool was called with arguments it
    accepts, its body returned and the outcome after the hooks is a success;
    in every other case the result is a failure, and carries a text of the
    error when no outcome was returned. *)
Theorem dispatch_succeeds call_error registry tm ms st step previous
  (H : dlookup "success" (dispatch call_error registry tm ms st step previous) = Some (VBool true)) :
  exists t o o', dlookup (ps_tool step) registry = Some t /\ accepts (bt_signature t) 2 [] = true /\
    bt_validate t (mkInput step st previous) = None /\
    bt_do_execute t (mkInput step st previous) (tool_context st) = inl o /\ bt_post_process t o = inl o' /\
    (to_success o' = true \/ "success" ∈ map fst (to_payload o')).
Proof.
  unfold dispatch, registry_dispatch in H. destruct (dlookup (ps_tool step) registry) as [t|] eqn:Et; [|done].
  rewrite !dlookup_dset in H. cbn -[to_state_fields invoke] in H. injection H as H. exists t.
  unfold invoke, call_do_execute in H. destruct (bt_validate t _) as [e|] eqn:Ev; [by destruct e|].
  destruct (accepts _ _ _) eqn:Ea; [|done]. destruct (bt_do_execute t _ _) as [o|[?|?]] eqn:Eo; try done.
  destruct (bt_post_process t o) as [o'|[?|?]] eqn:Ep; try done. exists o, o'. split_and!; try done.
  destruct (str_in "success" (map fst (to_payload o'))) eqn:Es; [right; by apply str_in_spec|left].
  apply str_in_false in Es. by rewrite state_fields_success in H.
Qed.
