(* ===== verification/ToolExecutors.v ===== *)
(** * The registered tools (tools/executors/)

    The adapters between a step of a plan and a tool: the request they build
    (arguments of the step first, the state second, configuration last), and
    the fields they make of the reply.  The tools themselves are arguments. *)

From stdpp Require Import pretty.
From S2P Require Import Prelude PyFloat PyVal PyList PyText AgentState ToolNodes DagScheduler RouteModels ToolContract.

(** [a or b] on dictionaries of an object's field, as a value. *)
Definition dict_or (d : pydict) (default : pyval) : pyval := match d with [] => default | _ => VDict d end.

(** [step.args.x or state.get(key, default)] *)
Definition arg_or_state (arg : string) (st : pystate) (key : string) (default : pyval) : pyval := vor (VStr arg) (sgetv st key default).

Definition step_kb_ids (step : @PlanStep StepArgs) (st : pystate) : pyval :=
  vor (VStrs (sa_kb_ids (ps_args step))) (sgetv st "kb_ids" (VList [])).

(** [extra.get(key, default)] *)
Definition extra_get (extra : pydict) (key : string) (default : pyval) : pyval := get_or (dlookup key extra) default.

Section executors.
Variable float_repr : Q -> string.
(** The text of an exception. *)
Variable exc_text : pyexc -> string.

Definition raised {A} (m : result A) : A + tool_exc := match m with Ok a => inl a | Raise e => inr (Other (exc_text e)) end.

(** Sequencing of computations that may end with an exception of a tool. *)
Definition tbind {A B} (m : A + tool_exc) (f : A -> B + tool_exc) : B + tool_exc := match m with inl a => f a | inr e => inr e end.

(** A tool takes a request and gives a reply or raises. *)
Definition tool_call : Type := pydict -> pydict + tool_exc.

(** ** Retrieval *)

Section rag.
Variable rag_tool : tool_call.
(** [SkillRAGExecutor]: [prepare] gives the input and its knowledge bases, or
    nothing to do; [skipped_result] is the reply in that case. *)
Variable prepare : pydict -> option (pydict * pyval) + tool_exc.
Variable invoke_prepared : tool_call.
Variable skipped_result : pydict.

(** The fields both paths make of a reply. *)
Definition rag_payload (result : pydict) (kb_ids : pyval) : pydict :=
  let g k d := get_or (dlookup k result) d in
  [("rag_docs", g "docs" (VList [])); ("rag_quality_score", g "quality_score" (VFloat 0)); ("rag_has_relevant", g "has_relevant" (VBool false));
   ("rag_relevant_count", g "relevant_count" (VInt 0)); ("rag_top_score", g "top_score" (VFloat 0)); ("kb_ids", kb_ids);
   ("retrieval_error_code", g "retrieval_error_code" (VStr "")); ("retrieval_mode_used", g "retrieval_mode_used" (VStr ""));
   ("rag_score_source", g "score_source" (VStr "base")); ("rag_avg_score", g "avg_score" (VFloat 0));
   ("rag_result_count", g "result_count" (VInt 0)); ("rag_raw_score_source", g "raw_score_source" (VStr ""));
   ("rag_query_signature", g "query_signature" (VStr "")); ("rag_evidence_signature", g "evidence_signature" (VStr ""));
   ("rag_retrieval_top_k", g "retrieval_top_k" (VInt 0)); ("rag_rerank_top_k", g "rerank_top_k" (VInt 0))].

Definition rag_request (step : @PlanStep StepArgs) (st : pystate) : result pydict :=
  let a := ps_args step in
  let! rag_config := config_section st "rag_config" in
  let! similarity_threshold := vget rag_config "similarity_threshold" (VFloat (rnd (2 # 10))) in
  let! weight := vget rag_config "keywords_similarity_weight" (VFloat (1 # 2)) in
  let! rerank_id := vget rag_config "rerank_id" (VStr "") in
  Ok (dict_update
        [("query", arg_or_state (sa_query a) st "user_question" (VStr "")); ("query_lang", sgetv st "query_lang" (VStr "zh_CN"));
         ("kb_ids", step_kb_ids step st); ("tenant_id", sgetv st "tenant_id" (VStr "")); ("llm_id", sgetv st "llm_id" (VStr ""));
         ("similarity_threshold", similarity_threshold); ("keywords_similarity_weight", weight); ("rerank_id", rerank_id)]
        (sa_extra a)).

(** [_execute_rag] *)
Definition execute_rag (step : @PlanStep StepArgs) (st : pystate) : pydict + tool_exc :=
  tbind (raised (rag_request step st)) (fun request =>
  tbind (rag_tool request) (fun result => inl (rag_payload result (step_kb_ids step st)))).

(** [_execute_skill_rag] *)
Definition execute_skill_rag (step : @PlanStep StepArgs) (st : pystate) (extra : pydict) : pydict + tool_exc :=
  let skill_input :=
    dict_update extra
      [("query", arg_or_state (sa_query (ps_args step)) st "user_question" (VStr "")); ("tenant_id", sgetv st "tenant_id" (VStr ""));
       ("time_range", extra_get extra "time_range" (sgetv st "time_range" VNone));
       ("report_date", extra_get extra "report_date" (sgetv st "report_date" VNone))] in
  tbind (prepare skill_input) (fun prepared =>
  match prepared with
  | None => inl (rag_payload skipped_result (VList []))
  | Some (input_data, kb_ids) => tbind (invoke_prepared input_data) (fun result => inl (rag_payload result kb_ids))
  end).

Definition rag_do_execute (i : ToolInput) (ctx : ToolContext) : ToolOutcome + tool_exc :=
  let extra := sa_extra (ps_args (in_step i)) in
  tbind (if truthy (extra_get extra "retrieval_skill_id" VNone) then execute_skill_rag (in_step i) (in_state i) extra
         else execute_rag (in_step i) (in_state i))
    (fun payload => inl (outcome_of true "rag" payload)).
End rag.

(** ** Database *)

(** What is read of a data skill. *)
Record DataSkill : Type := mkDataSkill {
  dk_skill_id : string; dk_query_templates : list pydict; dk_fallback_mode : string; dk_exploration_hints : pyval }.

(** The result of a structured query. *)
Record StructuredResult : Type := mkStructured {
  st_success : bool; st_error_message : string; st_error_code : string; st_db_id : string; st_table_name : string;
  st_row_count : Z; st_rows : list pyval; st_dump : pydict }.

Section database.
Variable sql_runner : tool_call.
(** The skill registry: an entry that is no data skill is like a missing one. *)
Variable get_data_skill : pyval -> option DataSkill.
(** Building, policy and execution of a structured query: skill, template,
    context, backend of the state (or the default one) and server name. *)
Variable structured_query : DataSkill -> pyval -> pydict -> option pyval -> pyval -> StructuredResult + tool_exc.

(** [_resolve_sql_agent_fallback]; the declared templates are put in a set. *)
Definition resolve_sql_agent_fallback (extra : pydict) : option pyval + tool_exc :=
  match get_data_skill (extra_get extra "data_skill_id" (VStr "")) with
  | None => inl None
  | Some skill =>
    let template := extra_get extra "query_template_id" VNone in
    let declared := map (fun t => get_or (dlookup "template_id" t) VNone) (dk_query_templates skill) in
    if negb (forallb hashable (template :: declared)) then inr (Other (exc_text (TypeError "unhashable")))
    else if existsb (py_eq template) declared then inl None
    else if String.eqb (dk_fallback_mode skill) "sql_agent" && truthy (dk_exploration_hints skill)
         then inl (Some (dk_exploration_hints skill)) else inl None
  end.

Definition format_structured_db_result (r : StructuredResult) : string :=
  join "" ["查询到 "; pretty (st_row_count r); " 条记录，数据来源：数据库 "; st_db_id r; "，表 "; st_table_name r; "。"].

Definition not_none (d : pydict) : pydict := List.filter (fun kv => match kv.2 with VNone => false | _ => true end) d.

Definition mcp_server (step : @PlanStep StepArgs) (st : pystate) : pyval :=
  arg_or_state (sa_mcp_server_name (ps_args step)) st "mcp_server_name" (VStr "database_mcp_server").

(** [_execute_structured_database] *)
Definition execute_structured_database (step : @PlanStep StepArgs) (st : pystate) (extra : pydict) : ToolOutcome + tool_exc :=
  match get_data_skill (extra_get extra "data_skill_id" VNone) with
  | None => inr (Other (join "" ["DataSkill not found: "; py_str float_repr (extra_get extra "data_skill_id" VNone)]))
  | Some skill =>
    let context := not_none
      [("tenant_id", sgetv st "tenant_id" (VStr "")); ("time_range", extra_get extra "time_range" (sgetv st "time_range" VNone));
       ("report_date", extra_get extra "report_date" (sgetv st "report_date" VNone)); ("filters", extra_get extra "filters" (VDict []));
       ("limit", extra_get extra "limit" VNone)] in
    let backend := match sgetv st "structured_db_execute_sql" VNone with VNone => None | b => Some b end in
    tbind (structured_query skill (extra_get extra "query_template_id" VNone) context backend (mcp_server step st)) (fun r =>
    if negb (st_success r) then
      inl (mkOutcome false "" (st_error_code r) (st_error_message r) 0 [] 0 false 0
             [("db_result", VDict (st_dump r)); ("db_quality_score", VFloat 0); ("db_id", VStr (st_db_id r))])
    else
      let db_result := dset "formatted_result" (VStr (format_structured_db_result r)) (st_dump r) in
      inl (outcome_of true "database"
             [("db_result", VDict db_result); ("db_quality_score", VFloat (if truthy (st_rows r) then 1 else 0)%Q);
              ("db_id", VStr (st_db_id r))]))
  end.

(** [input_data[key] = value] when the value is truthy. *)
Definition set_truthy (key : string) (value : pyval) (d : pydict) : pydict := if truthy value then dset key value d else d.

(** The request to the SQL agent.  It is completed with [step.args.extra]; the
    hints of the fallback are in a local copy of it only. *)
Definition sql_agent_request (step : @PlanStep StepArgs) (st : pystate) : result pydict :=
  let a := ps_args step in
  let! db_config := config_section st "database_config" in
  let! enable_self_healing := vget db_config "enable_self_healing" (VBool true) in
  let! enable_template := vget db_config "enable_template" (VBool true) in
  let! exploration_mode := vget db_config "exploration_mode" VNone in
  let! sql_agent_config := vget db_config "sql_agent_config" VNone in
  let query := arg_or_state (sa_query a) st "user_question" (VStr "") in
  let base :=
    [("query", query); ("query_simplified", vor (vor (VStr (sa_query_simplified a)) (sgetv st "query_simplified" (VStr ""))) query);
     ("query_lang", sgetv st "query_lang" (VStr "zh_CN")); ("db_id", arg_or_state (sa_db_id a) st "db_id" (VStr ""));
     ("tenant_id", sgetv st "tenant_id" (VStr "")); ("llm_id", sgetv st "llm_id" (VStr "")); ("mcp_server_name", mcp_server step st);
     ("enable_self_healing", enable_self_healing); ("enable_template", enable_template)] in
  Ok (dict_update (set_truthy "sql_agent_config" sql_agent_config (set_truthy "exploration_mode" exploration_mode base)) (sa_extra a)).

(** The rest of [_execute_database] *)
Definition execute_sql_agent (step : @PlanStep StepArgs) (st : pystate) : ToolOutcome + tool_exc :=
  tbind (raised (sql_agent_request step st)) (fun request =>
  tbind (sql_runner request) (fun result =>
  inl (outcome_of true "database"
         [("db_result", VDict result); ("db_quality_score", get_or (dlookup "quality_score" result) (VFloat 0));
          ("db_id", arg_or_state (sa_db_id (ps_args step)) st "db_id" (VStr ""))]))).

Definition database_do_execute (i : ToolInput) (ctx : ToolContext) : ToolOutcome + tool_exc :=
  let step := in_step i in
  let extra := sa_extra (ps_args step) in
  if truthy (extra_get extra "data_skill_id" VNone) && truthy (extra_get extra "query_template_id" VNone) then
    tbind (resolve_sql_agent_fallback extra) (fun fallback_hints =>
    match fallback_hints with
    | None => execute_structured_database step (in_state i) extra
    | Some hints => let extra := dset "exploration_hints" hints extra in execute_sql_agent step (in_state i)
    end)
  else execute_sql_agent step (in_state i).
End database.

(** ** Web and REST *)

Definition web_do_execute (web_tool : tool_call) (i : ToolInput) (ctx : ToolContext) : ToolOutcome + tool_exc :=
  let a := ps_args (in_step i) in
  let tool_input := dict_update [("query", arg_or_state (sa_query a) (in_state i) "user_question" (VStr ""));
                                 ("query_lang", sgetv (in_state i) "query_lang" (VStr "zh_CN"))] (sa_extra a) in
  tbind (web_tool tool_input) (fun result =>
  inl (outcome_of true "web" [("web_docs", get_or (dlookup "docs" result) (VList []))])).

(** The call of a REST step: from its arguments, or from the routing decision
    when the step names no function. *)
Record RestCall : Type := mkRestCall {
  rc_function : pyval; rc_params : pyval; rc_endpoint : pyval; rc_method : pyval; rc_payload : pyval; rc_erp_domain : pyval }.

Definition rest_call (a : StepArgs) (st : pystate) : result RestCall :=
  let own := mkRestCall (VStr (sa_function a)) (VDict (sa_function_params a)) (VStr (sa_rest_endpoint a)) (VStr (sa_rest_method a))
               (VDict (sa_rest_payload a)) (VStr (sa_erp_domain a)) in
  if truthy (sa_function a) then Ok own
  else
    match sgetv st "route_decision" VNone with
    | VDict route_decision =>
      match dlookup "metadata" route_decision with
      | None => Ok own
      | Some metadata =>
        let metadata := vor metadata (VDict []) in
        let! function_name := vget metadata "function" (VStr "") in
        let! function_params := vget metadata "function_params" (rc_params own) in
        let! rest_endpoint := vget metadata "rest_endpoint" (rc_endpoint own) in
        let! rest_method := vget metadata "rest_method" (rc_method own) in
        let! rest_payload := vget metadata "rest_payload" (rc_payload own) in
        let! erp_domain := vget metadata "erp_domain" (rc_erp_domain own) in
        Ok (mkRestCall function_name function_params rest_endpoint rest_method rest_payload erp_domain)
      end
    | _ => Ok own
    end.

Definition rest_do_execute (rest_tool : tool_call) (i : ToolInput) (ctx : ToolContext) : ToolOutcome + tool_exc :=
  let a := ps_args (in_step i) in
  tbind (raised (rest_call a (in_state i))) (fun c =>
  let tool_input :=
    [("query", arg_or_state (sa_query a) (in_state i) "user_question" (VStr "")); ("function", rc_function c);
     ("function_params", rc_params c); ("rest_endpoint", rc_endpoint c); ("rest_method", rc_method c); ("rest_payload", rc_payload c);
     ("erp_domain", rc_erp_domain c); ("tenant_id", sgetv (in_state i) "tenant_id" (VStr ""));
     ("kb_ids", sgetv (in_state i) "kb_ids" (VList []))] in
  tbind (rest_tool tool_input) (fun result =>
  let g k d := get_or (dlookup k result) d in
  inl (outcome_of true "rest"
         [("rest_result", VDict result); ("rest_quality_score", g "quality_score" (VFloat 0)); ("rest_endpoint", g "endpoint" (rc_endpoint c));
          ("rest_method", g "method" (rc_method c)); ("erp_domain", g "erp_domain" (rc_erp_domain c))]))).

(** ** Reports *)

(** [doc.get(key, default)] of a list element that must be a dictionary. *)
Definition doc_evidence (step_id : string) (tenant_id : pyval) (n : Z) (doc : pyval) : result pyval :=
  let! title := vget doc "title" (VStr "") in
  let! content := vget doc "content" (VStr "") in
  let! doc_id := vget doc "doc_id" (VStr "") in
  let! chunk_id := vget doc "chunk_id" (VStr "") in
  let! score := vget doc "score" (VFloat (1 # 2)) in
  Ok (VDict [("evidence_id", VStr (join "_" ["ev"; step_id; pretty n])); ("source_type", VStr "rag"); ("title", title);
             ("content", content); ("structured_data", VDict []);
             ("source_uri", VStr (join "" ["rag://"; py_str float_repr doc_id; "/"; py_str float_repr chunk_id]));
             ("tenant_id", tenant_id); ("confidence", score); ("relevance_score", score); ("authority_score", VFloat (rnd (8 # 10)));
             ("freshness_score", VFloat 1); ("created_at", VStr ""); ("metadata", VDict [("step_id", VStr step_id)])]).

Definition db_evidence (step_id : string) (tenant_id : pyval) (rdata db_res : pydict) (rows : list pyval) : result pyval :=
  let g k d := get_or (dlookup k db_res) d in
  let! columns := match rows with
                  | VDict first :: _ => Ok (VStrs (map fst first))
                  | [] => Ok (VList [])
                  | _ => Raise (AttributeError "keys")
                  end in
  Ok (VDict [("evidence_id", VStr (join "_" ["ev"; step_id; "db"])); ("source_type", VStr "db");
             ("title", VStr (join "" ["DB 查询结果（"; py_str float_repr (g "row_count" (VInt 0)); " 行）"]));
             ("content", g "formatted_result" (VStr ""));
             ("structured_data", VDict [("columns", columns); ("rows", VList (py_take 100 rows))]);
             ("source_uri", VStr (String.append "db://" (py_str float_repr (g "source" (VStr "unknown")))));
             ("tenant_id", tenant_id); ("confidence", get_or (dlookup "db_quality_score" rdata) (VFloat (1 # 2)));
             ("relevance_score", VFloat (rnd (8 # 10))); ("authority_score", VFloat (rnd (95 # 100))); ("freshness_score", VFloat 1);
             ("created_at", VStr ""); ("metadata", VDict [("step_id", VStr step_id); ("sql", g "sql" (VStr ""))])]).

Fixpoint add_docs (step_id : string) (tenant_id : pyval) (acc docs : list pyval) : result (list pyval) :=
  match docs with
  | [] => Ok acc
  | doc :: rest => let! e := doc_evidence step_id tenant_id (py_len acc) doc in add_docs step_id tenant_id (acc ++ [e]) rest
  end.

(** The evidence of one earlier result, added to that of those before. *)
Definition add_result (step_id : string) (tenant_id : pyval) (acc : list pyval) (rdata : pydict) : result (list pyval) :=
  if negb (truthy (get_or (dlookup "success" rdata) (VBool false))) then Ok acc
  else
    let docs := get_or (dlookup "rag_docs" rdata) VNone in
    let! acc := if truthy docs then let! docs := py_iter docs in add_docs step_id tenant_id acc docs else Ok acc in
    let! rows := vget (get_or (dlookup "db_result" rdata) (VDict [])) "rows" VNone in
    if truthy rows then
      match get_or (dlookup "db_result" rdata) (VDict []), rows with
      | VDict db_res, VList rows => let! e := db_evidence step_id tenant_id rdata db_res rows in Ok (acc ++ [e])
      | _, _ => Raise (TypeError "rows")
      end
    else Ok acc.

Fixpoint previous_evidence (step_id : string) (tenant_id : pyval) (acc : list pyval) (results : list pydict) : result (list pyval) :=
  match results with
  | [] => Ok acc
  | r :: rest => let! acc := add_result step_id tenant_id acc r in previous_evidence step_id tenant_id acc rest
  end.

Definition report_request (step : @PlanStep StepArgs) (st : pystate) (previous : list (string * pydict)) : result pydict :=
  let extra := sa_extra (ps_args step) in
  let tenant_id := sgetv st "tenant_id" (VStr "") in
  let! evidence := previous_evidence (ps_step_id step) tenant_id [] (map snd previous) in
  let! state_evidence := match vor (sgetv st "evidence" (VList [])) (VList []) with
                         | VList l => Ok l
                         | _ => Raise (TypeError "can only concatenate list")
                         end in
  Ok [("title", extra_get extra "title" (VStr "")); ("report_type", extra_get extra "report_type" (VStr "business_analysis"));
      ("skill_id", extra_get extra "skill_id" VNone); ("data_skill_id", extra_get extra "data_skill_id" VNone);
      ("retrieval_skill_id", extra_get extra "retrieval_skill_id" VNone);
      ("skill_set", extra_get extra "skill_set" (sgetv st "skill_set" VNone));
      ("objective", arg_or_state (sa_query (ps_args step)) st "user_question" (VStr ""));
      ("format", extra_get extra "format" (sgetv st "report_format" (VStr "markdown")));
      ("language", sgetv st "query_lang" (VStr "zh_CN")); ("tenant_id", tenant_id); ("user_id", sgetv st "user_id" (VStr ""));
      ("evidence", VList (state_evidence ++ evidence)); ("max_sections", extra_get extra "max_sections" (VInt 10));
      ("max_charts", extra_get extra "max_charts" (VInt 6)); ("max_tables", extra_get extra "max_tables" (VInt 8))].

Definition report_payload (result : pydict) : PyVal.result pydict :=
  let g k d := get_or (dlookup k result) d in
  let artifact := vor (g "artifact" (VDict [])) (VDict []) in
  let! claims := vget artifact "claims" (VList []) in
  let! data_sources := vget artifact "data_sources" (VList []) in
  let! review := vget artifact "human_review_result" (VDict []) in
  let! publish_status := vget artifact "publish_status" (VStr "draft") in
  Ok [("report_artifacts", VList (if truthy (g "success" VNone) then [artifact] else [])); ("report_summary", g "summary" (VStr ""));
      ("report_quality_score", g "quality_score" (VFloat 0)); ("report_error", g "error_message" (VStr ""));
      ("report_error_code", g "error_code" (VStr "")); ("report_file_uri", g "file_uri" (VStr ""));
      ("report_download_url", g "download_url" (VStr "")); ("report_partial", g "partial" (VBool false));
      ("report_claims", vor claims (VList [])); ("report_data_sources", vor data_sources (VList []));
      ("report_human_review", vor review (VDict [])); ("report_publish_status", g "publish_status" publish_status);
      ("report_needs_human_review", g "needs_human_review" (VBool false))].

Definition report_do_execute (report_tool : tool_call) (i : ToolInput) (ctx : ToolContext) : ToolOutcome + tool_exc :=
  tbind (raised (report_request (in_step i) (in_state i) (in_previous_results i))) (fun request =>
  tbind (report_tool request) (fun result =>
  tbind (raised (report_payload result)) (fun payload => inl (outcome_of true "report" payload)))).
End executors.

(** ** The registry *)

(** The signature all adapters share: [_do_execute(self, input_data, *, ctx)]. *)
Definition adapter_signature : Signature := mkSignature ["input_data"] ["ctx"].

Definition adapter (name : string) (body : ToolInput -> ToolContext -> ToolOutcome + tool_exc) : BaseTool :=
  mkTool name adapter_signature body no_validation pass_through.

(** The registrations that importing the package makes, in its order. *)
Definition source_registry (database rag report rest web : ToolInput -> ToolContext -> ToolOutcome + tool_exc) : list (string * BaseTool) :=
  fold_left (fun r t => register_tool (bt_name t) t r)
    [adapter "database" database; adapter "rag" rag; adapter "report" report; adapter "rest" rest; adapter "web" web] [].

(** ** What the adapters do *)

(** The keys of a failed result. *)
Definition failure_keys : list string := ["step_id"; "tool"; "success"; "error"; "error_code"; "latency_ms"].

Definition failed_result (r : pydict) : Prop :=
  dlookup "success" r = Some (VBool false) /\ dlookup "error_code" r = Some (VStr "TOOL_EXECUTION_FAILED") /\
  forall k, k ∉ failure_keys -> dlookup k r = None.

(** A registry whose tools all refuse the call of the base class. *)
Lemma refused_dispatch call_error registry tm ms st step previous :
  Forall (fun kv => accepts (bt_signature kv.2) 2 [] = false /\ bt_validate kv.2 = no_validation) registry ->
  failed_result (dispatch call_error registry tm ms st step previous).
Proof.
  intros H.
  assert (exists error, registry_dispatch call_error registry (ps_tool step) (mkInput step st previous) (tool_context st) tm = inr error \/
    registry_dispatch call_error registry (ps_tool step) (mkInput step st previous) (tool_context st) tm =
      inl (mkOutcome false error "TOOL_EXECUTION_FAILED" (call_error error) tm [] 0 false 0 [])) as (error & Hr).
  { unfold registry_dispatch. destruct (dlookup (ps_tool step) registry) as [t|] eqn:Et; [|eauto].
    apply dlookup_elem in Et. rewrite Forall_forall in H. destruct (H _ Et) as [Ha Hv]. cbn [snd] in *.
    exists (bt_name t). right. f_equal. apply invoke_refused; [by rewrite Hv|done]. }
  split_and!.
  - unfold dispatch. by destruct Hr as [-> | ->]; cbn zeta; rewrite ?dlookup_dset.
  - rewrite dispatch_lookup by (by apply (bool_decide_unpack _)). destruct Hr as [-> | ->]; [done|].
    unfold to_state_fields. cbn [to_error]. by destruct (truthy (call_error error)).
  - intros k Hk. unfold failure_keys in Hk. rewrite !not_elem_of_cons in Hk. destruct Hk as (H1 & H2 & H3 & H4 & H5 & H6 & _).
    rewrite dispatch_lookup by (rewrite !not_elem_of_cons; split_and!; by try apply not_elem_of_nil).
    assert (forall a : string, k <> a -> String.eqb k a = false) as Hne by (intros a; apply String.eqb_neq).
    destruct Hr as [-> | ->]; [cbn; by rewrite !Hne|].
    unfold to_state_fields. cbn [to_error]. destruct (truthy (call_error error)); cbn; by rewrite !Hne.
Qed.
