(* ===== verification/StructuredQuery.v ===== *)
(** * Structured queries of data skills (tools/database/)

    A data skill declares targets, tables and query templates.  The builder
    makes a query from a template and the context of the step, the policy
    checks it against the declared fields and filters, and the executor
    compiles it to SQL with parameters, which the backend of the legacy server
    writes into the text.  Section [building] holds builder, policy and
    executor, the rest shows what a built query may touch and when the text
    with the values written in is the statement that was compiled. *)

From Stdlib Require Import Ascii.
From stdpp Require Import pretty.
From S2P Require Import Prelude PyFloat PyVal PyList PyText PyRegex AgentState LlmRouter ToolContract ToolExecutors RouteModels DagScheduler.

(** ** Models *)

Record StructuredQuery : Type := mkQuery {
  sq_db_id : string; sq_table_name : string; sq_dimensions : list string; sq_metrics : list string; sq_filters : pydict;
  sq_time_field : option string; sq_time_range : option pydict; sq_time_granularity : option string; sq_order_by : list string;
  sq_limit : Z; sq_query_template_id : option string; sq_data_skill_id : option string; sq_columns : list string }.

Record DBQueryResult : Type := mkDbResult {
  db_success : bool; db_db_id : string; db_table_name : string; db_columns : list string; db_rows : list pydict; db_row_count : Z;
  db_query_id : string; db_latency_ms : Z; db_sql : string; db_params : pydict; db_error_message : string; db_error_code : string;
  db_masked_fields : list string }.

(** What is read of a data skill. *)
Record QuerySkill : Type := mkQuerySkill {
  qk_skill_id : string; qk_db_targets : list pydict; qk_query_templates : list pydict; qk_policy_constraints : pydict }.

(** ** Policy *)

Definition FORBIDDEN_OPERATIONS : list string :=
  ["insert"; "update"; "delete"; "drop"; "alter"; "truncate"; "create"; "merge"; "execute"].

(** [_IDENTIFIER_PATTERN.fullmatch] *)
Definition is_identifier (s : string) : bool :=
  match s with String a s' => is_ident_start a && str_all is_ident s' | EmptyString => false end.

Record StructuredQueryPolicy : Type := mkPolicy {
  pl_table_name : pyval; pl_allowed_fields : list string; pl_allowed_filters : list string; pl_sensitive_fields : list string;
  pl_sensitive_field_policy : pyval; pl_require_tenant_filter : bool; pl_forbidden_operations : list string }.

(** A policy error carries its code and its text. *)
Definition policy_error (e : string * string) : pyexc := ValueError (join ": " [e.1; e.2]).

Definition field_ok (p : StructuredQueryPolicy) (field : string) : bool :=
  is_identifier field && negb (str_in (py_lower field) (pl_forbidden_operations p)) && str_in field (pl_allowed_fields p).

(** [validate_query]: the error it raises, if any. *)
Definition validate_query (p : StructuredQueryPolicy) (q : StructuredQuery) : option (string * string) :=
  if negb (py_eq (VStr (sq_table_name q)) (pl_table_name p)) then
    Some ("TABLE_NOT_ALLOWED", join "" ["Table '"; sq_table_name q; "' is not allowed"])
  else if pl_require_tenant_filter p && negb (truthy (get_or (dlookup "tenant_id" (sq_filters q)) VNone)) then
    Some ("TENANT_FILTER_REQUIRED", "A tenant_id filter is required for this query")
  else
    match List.find (fun f => negb (field_ok p f)) (sq_dimensions q ++ sq_metrics q ++ sq_columns q ++ sq_order_by q) with
    | Some field => Some ("FIELD_NOT_ALLOWED", join "" ["Field '"; field; "' is not allowed"])
    | None =>
      match List.find (fun f => negb (str_in f (pl_allowed_filters p))) (map fst (sq_filters q)) with
      | Some field => Some ("FIELD_NOT_ALLOWED", join "" ["Filter field '"; field; "' is not allowed"])
      | None =>
        match sq_time_field q with
        | Some t => if str_in t (pl_allowed_filters p) then None
                    else Some ("FIELD_NOT_ALLOWED", join "" ["Time field '"; t; "' is not an allowed filter"])
        | None => None
        end
      end
    end.

(** [mask_rows]: the rows with the masked columns hidden, and the masked fields that occur. *)
Definition mask_fields (p : StructuredQueryPolicy) : result (list string) :=
  let! kept := rmap (fun f => let! m := vget (pl_sensitive_field_policy p) f (VStr "mask") in Ok (if is_str m "mask" then [f] else []))
                    (unique (pl_sensitive_fields p)) in
  Ok (concat kept).

Definition mask_row (fields : list string) (row : pydict) : pydict :=
  map (fun kv => (kv.1, if str_in kv.1 fields then VStr "***" else kv.2)) row.

Definition mask_rows (p : StructuredQueryPolicy) (rows : list pydict) : result (list pydict * list string) :=
  let! fields := mask_fields p in
  let present := List.filter (fun f => existsb (fun row : pydict => str_in f (map fst row)) rows) fields in
  Ok (map (mask_row fields) rows, py_sorted present).

Section building.
Variable float_repr : Q -> string.
Variable int_of_text : string -> option Z.

(** The constructor of the policy; a field that is missing is an empty set. *)
Definition texts_of (d : pydict) (key : string) : result (list string) :=
  let! l := py_iter (get_or (dlookup key d) (VList [])) in set_of_values l.

Definition new_policy (table constraints : pydict) : result StructuredQueryPolicy :=
  let! allowed_fields := texts_of table "required_fields" in
  let! allowed_filters := texts_of table "allowed_filters" in
  let! sensitive_fields := texts_of table "sensitive_fields" in
  let! operations := py_iter (get_or (dlookup "forbidden_operations" constraints) (VList [])) in
  Ok (mkPolicy (get_or (dlookup "table_name" table) VNone) allowed_fields allowed_filters sensitive_fields
        (get_or (dlookup "sensitive_field_policy" constraints) (VDict []))
        (truthy (get_or (dlookup "require_tenant_filter" constraints) VNone))
        (FORBIDDEN_OPERATIONS ++ map (fun o => py_lower (py_str float_repr o)) operations)).

(** ** Builder *)

Definition not_declared (code what : string) (id : pyval) : pyexc :=
  policy_error (code, join "" [what; " '"; py_str float_repr id; "' is not declared"]).

(** The first dictionary whose [key] equals [id]. *)
Fixpoint find_by (key : string) (id : pyval) (l : list pyval) : result (option pydict) :=
  match l with
  | [] => Ok None
  | v :: l' => let! x := vget v key VNone in
               if py_eq x id then let! d := as_dict v in Ok (Some d) else find_by key id l'
  end.

Definition find_template (sk : QuerySkill) (template_id : pyval) : result pydict :=
  let! found := find_by "template_id" template_id (map VDict (qk_query_templates sk)) in
  match found with Some d => Ok d | None => Raise (not_declared "QUERY_TEMPLATE_NOT_FOUND" "Template" template_id) end.

Definition find_target (sk : QuerySkill) (target_id : pyval) : result pydict :=
  let! found := find_by "target_id" target_id (map VDict (qk_db_targets sk)) in
  match found with Some d => Ok d | None => Raise (not_declared "DB_TARGET_NOT_ALLOWED" "Target" target_id) end.

Definition find_table (target : pydict) (table_name : pyval) : result pydict :=
  let! tables := py_iter (get_or (dlookup "tables" target) (VList [])) in
  let! found := find_by "table_name" table_name tables in
  match found with Some d => Ok d | None => Raise (not_declared "TABLE_NOT_ALLOWED" "Table" table_name) end.

(** A value written "{name}" is taken from the context. *)
Definition in_braces (s : string) : option string :=
  let n := String.length s in
  if startswith "{" s && String.eqb (String.substring (n - 1) 1 s) "}" then Some (String.substring 1 (n - 2) s) else None.

Definition resolve_template_value (value : pyval) (context : pydict) : pyval :=
  match value with
  | VStr s => match in_braces s with Some name => get_or (dlookup name context) VNone | None => value end
  | _ => value
  end.

(** [resolved is not None and filters.setdefault(field, resolved)] over the
    filters of the template. *)
Definition set_default (context : pydict) (filters : pydict) (kv : string * pyval) : pydict :=
  match resolve_template_value kv.2 context with
  | VNone => filters
  | v => match dlookup kv.1 filters with Some _ => filters | None => dset kv.1 v filters end
  end.

Definition is_time_filter (kv : string * pyval) : bool := is_str kv.2 "{time_range}".

Definition resolve_time_filter (template_filters context : pydict) : option string * pyval :=
  match List.find is_time_filter template_filters with
  | None => (None, VNone)
  | Some (field, _) =>
    let report_date := get_or (dlookup "report_date" context) VNone in
    (Some field,
     match get_or (dlookup "time_range" context) VNone with
     | VNone => if truthy report_date then VDict [("start", report_date); ("end", report_date)] else VNone
     | r => r
     end)
  end.

(** [filters.pop(field, None)] *)
Definition dict_pop (field : string) (d : pydict) : pydict := List.filter (fun kv => negb (String.eqb kv.1 field)) d.

(** The filters of the query before and after the tenant and the time filter are settled. *)
Definition tenant_filters (constraints context filters : pydict) : result pydict :=
  if truthy (get_or (dlookup "require_tenant_filter" constraints) VNone) then
    let tenant_id := get_or (dlookup "tenant_id" context) VNone in
    if truthy tenant_id then Ok (dset "tenant_id" tenant_id filters)
    else Raise (policy_error ("TENANT_FILTER_REQUIRED", "Context must contain tenant_id"))
  else Ok filters.

Definition without_time (time : option string * pyval) (filters : pydict) : pydict :=
  match time.1, time.2 with
  | Some _, VNone => filters
  | Some field, _ => if truthy field then dict_pop field filters else filters
  | None, _ => filters
  end.

Definition query_limit (constraints context : pydict) : result Z :=
  let default_limit := get_or (dlookup "default_limit" constraints) (VInt 1000) in
  let! requested := to_int int_of_text (get_or (dlookup "limit" context) default_limit) in
  let! max_rows := to_int int_of_text (get_or (dlookup "max_rows" constraints) default_limit) in
  Ok (Z.min (Z.max 1 requested) max_rows).

(** A field that is a text or nothing, and one that is a dictionary or nothing. *)
Definition opt_str (v : pyval) : result (option string) := match v with VNone => Ok None | _ => let! s := as_str v in Ok (Some s) end.
Definition opt_dict (v : pyval) : result (option pydict) := match v with VNone => Ok None | _ => let! d := as_dict v in Ok (Some d) end.

Definition names_of (template : pydict) (key : string) : result (list string) :=
  let! l := py_iter (get_or (dlookup key template) (VList [])) in rmap as_str l.

Definition build (sk : QuerySkill) (query_template_id : pyval) (context : pydict) : result StructuredQuery :=
  let! template := find_template sk query_template_id in
  let! target := find_target sk (get_or (dlookup "target_id" template) (VStr "")) in
  let! table := find_table target (get_or (dlookup "table_name" template) (VStr "")) in
  let constraints := qk_policy_constraints sk in
  let! given := as_dict (get_or (dlookup "filters" context) (VDict [])) in
  let! template_filters := as_dict (get_or (dlookup "filters" template) (VDict [])) in
  let! filters := tenant_filters constraints context (fold_left (set_default context) template_filters given) in
  let time := resolve_time_filter template_filters context in
  let filters := without_time time filters in
  let! limit := query_limit constraints context in
  let! dimensions := names_of template "dimensions" in
  let! metrics := names_of template "metrics" in
  let! order_by := names_of template "order_by" in
  let! query := validated (
    let! db_id := as_str (get_or (dlookup "db_id" target) (VStr "")) in
    let! table_name := as_str (get_or (dlookup "table_name" table) (VStr "")) in
    let! time_range := opt_dict time.2 in
    let! time_granularity := opt_str (get_or (dlookup "time_granularity" template) VNone) in
    let! template_id := opt_str query_template_id in
    Ok (mkQuery db_id table_name dimensions metrics filters time.1 time_range time_granularity order_by limit template_id
          (Some (qk_skill_id sk)) (unique (dimensions ++ metrics)))) in
  let! policy := new_policy table constraints in
  match validate_query policy query with
  | Some e => Raise (policy_error (e.1, join ": " [e.1; e.2]))
  | None => Ok query
  end.

Definition policy_for (sk : QuerySkill) (query : StructuredQuery) : result StructuredQueryPolicy :=
  let! template := find_template sk (VStr (opt_or (sq_query_template_id query) "")) in
  let! target := find_target sk (get_or (dlookup "target_id" template) (VStr "")) in
  let! table := find_table target (VStr (sq_table_name query)) in
  new_policy table (qk_policy_constraints sk).

(** ** Executor *)

Definition placeholder (name : string) : string := String.append ":" name.

(** The two bounds of the time filter that are set. *)
Definition time_bounds (q : StructuredQuery) : list (string * string * string * pyval) :=
  match sq_time_field q, sq_time_range q with
  | Some t, Some r =>
    if truthy t && truthy r then
      (match get_or (dlookup "start" r) VNone with VNone => [] | v => [(t, " >= ", String.append t "_start", v)] end) ++
      (match get_or (dlookup "end" r) VNone with VNone => [] | v => [(t, " <= ", String.append t "_end", v)] end)
    else []
  | _, _ => []
  end.

(** Field, operator, parameter and value of every predicate. *)
Definition predicates (q : StructuredQuery) : list (string * string * string * pyval) :=
  map (fun kv => (kv.1, " = ", kv.1, kv.2)) (sq_filters q) ++ time_bounds q.

Definition predicate_text (p : string * string * string * pyval) : string := join "" [p.1.1.1; p.1.1.2; placeholder p.1.2].

Definition query_params (q : StructuredQuery) : pydict :=
  dset "limit" (VInt (sq_limit q)) (fold_left (fun d p => dset p.1.2 p.2 d) (predicates q) []).

Definition select_columns (q : StructuredQuery) : list string :=
  let columns := sq_columns q or_else unique (sq_dimensions q ++ sq_metrics q) in columns or_else ["*"].

Definition clause (keyword : string) (sep : string) (l : list string) : string :=
  match l with [] => "" | _ => String.append keyword (join sep l) end.

Definition compile_sql (q : StructuredQuery) : string :=
  join "" [join "" ["SELECT "; join ", " (select_columns q); " FROM "; sq_table_name q];
           clause " WHERE " " AND " (map predicate_text (predicates q));
           match sq_metrics q with [] => "" | _ => clause " GROUP BY " ", " (sq_dimensions q) end;
           clause " ORDER BY " ", " (sq_order_by q); " LIMIT :limit"].

Definition compile (q : StructuredQuery) (policy : StructuredQueryPolicy) : result (string * pydict) :=
  match validate_query policy q with
  | Some e => Raise (policy_error e)
  | None => Ok (compile_sql q, query_params q)
  end.

(** What a backend raises: that it cannot be reached, or anything else. *)
Inductive backend_error : Type := Unavailable (text : string) | BackendFailed (text : string).

Variable exc_text : pyexc -> string.

Definition error_result (q : StructuredQuery) (query_id : string) (ms : Z) (sql : string) (params : pydict) (e : backend_error) : DBQueryResult :=
  mkDbResult false (sq_db_id q) (sq_table_name q) [] [] 0 query_id ms sql params
    (match e with Unavailable t | BackendFailed t => t end)
    (match e with Unavailable _ => "BACKEND_UNAVAILABLE" | BackendFailed _ => "DATABASE_EXECUTION_FAILED" end) [].

(** [execute] and [execute_async] *)
Definition execute (execute_sql : string -> string -> pydict -> list pydict + backend_error) (query_id : string) (ms : Z)
    (q : StructuredQuery) (policy : StructuredQueryPolicy) : result DBQueryResult :=
  let! compiled := compile q policy in
  let sql := compiled.1 in let params := compiled.2 in
  Ok match execute_sql (sq_db_id q) sql params with
     | inr e => error_result q query_id ms sql params e
     | inl rows =>
       match mask_rows policy rows with
       | Raise e => error_result q query_id ms sql params (BackendFailed (exc_text e))
       | Ok (masked_rows, masked_fields) =>
         mkDbResult true (sq_db_id q) (sq_table_name q) (match masked_rows with r :: _ => map fst r | [] => sq_columns q end)
           masked_rows (py_len masked_rows) query_id ms sql params "" "" masked_fields
       end
     end.

(** ** The backend of the legacy server *)

Definition sql_quote : string := String single_quote "".

Definition sql_literal (value : pyval) : string :=
  match value with
  | VBool b => if b then "TRUE" else "FALSE"
  | VNone => "NULL"
  | VInt _ | VFloat _ => py_str float_repr value
  | _ => join "" [sql_quote; str_replace sql_quote (String.append sql_quote sql_quote) (py_str float_repr value); sql_quote]
  end.

(** [_render_sql_parameters] *)
Definition render_sql_parameters (sql : string) (params : pydict) : string :=
  fold_left (fun rendered kv => str_replace (placeholder kv.1) (sql_literal kv.2) rendered) params sql.

(** [DatabaseToolStructuredBackend.__call__], for the server's reply or failure. *)
Definition legacy_backend (execute_sql : string -> string -> list pydict + string) (db_id sql : string) (params : pydict) :
    list pydict + backend_error :=
  match execute_sql db_id (render_sql_parameters sql params) with
  | inl rows => inl rows
  | inr text => inr (Unavailable (String.append "Structured database backend is unavailable: " text))
  end.
End building.

(** ** The path the database adapter takes *)

Definition db_dump (r : DBQueryResult) : pydict :=
  [("success", VBool (db_success r)); ("db_id", VStr (db_db_id r)); ("table_name", VStr (db_table_name r)); ("columns", VStrs (db_columns r));
   ("rows", VList (map VDict (db_rows r))); ("row_count", VInt (db_row_count r)); ("query_id", VStr (db_query_id r));
   ("latency_ms", VInt (db_latency_ms r)); ("sql", VStr (db_sql r)); ("params", VDict (db_params r));
   ("error_message", VStr (db_error_message r)); ("error_code", VStr (db_error_code r)); ("masked_fields", VStrs (db_masked_fields r))].

Definition structured_result (r : DBQueryResult) : StructuredResult :=
  mkStructured (db_success r) (db_error_message r) (db_error_code r) (db_db_id r) (db_table_name r) (db_row_count r)
    (map VDict (db_rows r)) (db_dump r).

(** Build, policy and execution, for the backend the step has. *)
Definition run_structured_query float_repr int_of_text (exc_text : pyexc -> string) (sk : QuerySkill) (template_id : pyval) (context : pydict)
    (backend : string -> string -> pydict -> list pydict + backend_error) (query_id : string) (ms : Z) : result DBQueryResult :=
  let! query := build float_repr int_of_text sk template_id context in
  let! policy := policy_for float_repr sk query in
  execute exc_text backend query_id ms query policy.

(** ** An example skill *)

Definition example_sales : QuerySkill :=
  mkQuerySkill "sales_data"
    [[("target_id", VStr "t1"); ("db_id", VStr "erp");
      ("tables", VList [VDict [("table_name", VStr "orders"); ("required_fields", VStrs ["region"; "amount"]);
                               ("allowed_filters", VStrs ["region"; "status"; "tenant_id"; "order_date"]); ("sensitive_fields", VStrs ["amount"])]])]]
    [[("template_id", VStr "by_region"); ("target_id", VStr "t1"); ("table_name", VStr "orders"); ("dimensions", VStrs ["region"]);
      ("metrics", VStrs ["amount"]); ("filters", VDict [("order_date", VStr "{time_range}"); ("status", VStr "{status}")])]]
    [("require_tenant_filter", VBool true); ("max_rows", VInt 100)].

Definition no_float (q : Q) : string := "0.0".
Definition no_int (s : string) : option Z := None.

Definition example_context (filters : pydict) : pydict :=
  [("tenant_id", VStr "acme"); ("report_date", VStr "2024-05-01"); ("filters", VDict filters); ("limit", VInt 1000)].

(** ** Lemmas: what a validated query is *)

Record query_allowed (p : StructuredQueryPolicy) (q : StructuredQuery) : Prop := {
  qa_table : pl_table_name p = VStr (sq_table_name q);
  qa_fields : forall f, f ∈ sq_dimensions q ++ sq_metrics q ++ sq_columns q ++ sq_order_by q ->
    is_identifier f = true /\ py_lower f ∉ pl_forbidden_operations p /\ f ∈ pl_allowed_fields p;
  qa_filters : forall f, f ∈ map fst (sq_filters q) -> f ∈ pl_allowed_filters p;
  qa_time : forall t, sq_time_field q = Some t -> t ∈ pl_allowed_filters p;
  qa_tenant : pl_require_tenant_filter p = true -> exists v, dlookup "tenant_id" (sq_filters q) = Some v /\ truthy v = true }.

Lemma validate_query_spec p q : validate_query p q = None -> query_allowed p q.
Proof.
  unfold validate_query. destruct (py_eq _ _) eqn:Et; [cbn [negb]|done].
  destruct (pl_require_tenant_filter p && _) eqn:Er; [done|].
  destruct (List.find _ (_ ++ _)) eqn:Ef; [done|]. destruct (List.find _ (map fst _)) eqn:Eg; [done|].
  intros Htime. split.
  - by apply py_eq_str.
  - intros f Hf. pose proof (find_none_elem _ _ Ef f Hf) as H. cbv beta in H. apply negb_false_iff in H. unfold field_ok in H.
    apply andb_true_iff in H as [H Ha]. apply andb_true_iff in H as [Hi Hb]. apply negb_true_iff in Hb.
    split; [done|]. split; [by apply str_in_false|by apply str_in_spec].
  - intros f Hf. pose proof (find_none_elem _ _ Eg f Hf) as H. cbv beta in H. apply negb_false_iff in H. by apply str_in_spec.
  - intros t Ht. rewrite Ht in Htime. destruct (str_in t _) eqn:E; [by apply str_in_spec|done].
  - intros Hr. rewrite Hr in Er. cbn in Er. apply negb_false_iff in Er. destruct (dlookup _ _) as [v|]; [by exists v|done].
Qed.

Lemma find_by_spec key id l d : find_by key id l = Ok (Some d) -> VDict d ∈ l /\ py_eq (get_or (dlookup key d) VNone) id = true.
Proof.
  induction l as [|v l IH]; cbn [find_by]; [done|]. destruct v as [| | | | | |m]; try done. cbn [vget rbind].
  destruct (py_eq (get_or (dlookup key m) VNone) id) eqn:E.
  - cbn. intros [= ->]. split; [by left|done].
  - intros H. destruct (IH H). split; [by right|done].
Qed.

Lemma find_by_ext key id id' l : (forall x, py_eq x id = py_eq x id') -> find_by key id l = find_by key id' l.
Proof. intros H. induction l as [|v l IH]; cbn [find_by]; [done|]. destruct (vget v key VNone); [|done]. cbn [rbind]. by rewrite H, IH. Qed.

Lemma as_dict_ok v d : as_dict v = Ok d -> v = VDict d.
Proof. destruct v; try done. cbn. by intros [= ->]. Qed.

(** What a successful build went through. *)
Record built (fr : Q -> string) (iot : string -> option Z) (sk : QuerySkill) (tid : pyval) (context : pydict) (q : StructuredQuery)
    (template target table given tf filters : pydict) (policy : StructuredQueryPolicy) : Prop := {
  bt_template : find_template fr sk tid = Ok template;
  bt_target : find_target fr sk (get_or (dlookup "target_id" template) (VStr "")) = Ok target;
  bt_table : find_table fr target (get_or (dlookup "table_name" template) (VStr "")) = Ok table;
  bt_given : get_or (dlookup "filters" context) (VDict []) = VDict given;
  bt_tenant : tenant_filters (qk_policy_constraints sk) context (fold_left (set_default context) tf given) = Ok filters;
  bt_filters : sq_filters q = without_time (resolve_time_filter tf context) filters;
  bt_limit : query_limit iot (qk_policy_constraints sk) context = Ok (sq_limit q);
  bt_id : opt_str tid = Ok (sq_query_template_id q);
  bt_db : as_str (get_or (dlookup "db_id" target) (VStr "")) = Ok (sq_db_id q);
  bt_name : as_str (get_or (dlookup "table_name" table) (VStr "")) = Ok (sq_table_name q);
  bt_dimensions : names_of template "dimensions" = Ok (sq_dimensions q);
  bt_metrics : names_of template "metrics" = Ok (sq_metrics q);
  bt_columns : sq_columns q = unique (sq_dimensions q ++ sq_metrics q);
  bt_policy : new_policy fr table (qk_policy_constraints sk) = Ok policy;
  bt_valid : validate_query policy q = None }.

Lemma build_inv fr iot sk tid context q : build fr iot sk tid context = Ok q ->
  exists template target table given tf filters policy, built fr iot sk tid context q template target table given tf filters policy.
Proof.
  unfold build. intros H.
  apply rbind_ok in H as (template & H1 & H). apply rbind_ok in H as (target & H2 & H). apply rbind_ok in H as (table & H3 & H).
  apply rbind_ok in H as (given & H4 & H). apply rbind_ok in H as (tf & H5 & H). apply rbind_ok in H as (filters & H6 & H).
  apply rbind_ok in H as (limit & H7 & H). apply rbind_ok in H as (dims & H8 & H). apply rbind_ok in H as (metrics & H9 & H).
  apply rbind_ok in H as (order & H10 & H). apply rbind_ok in H as (q0 & Hq & H). apply rbind_ok in H as (policy & H11 & H).
  destruct (validate_query policy q0) eqn:Hv; [done|]. apply (f_equal (fun r => match r with Ok x => x | Raise _ => q0 end)) in H. subst q0.
  exists template, target, table, given, tf, filters, policy. unfold validated in Hq.
  destruct (rbind (as_str _) _) as [q1|] eqn:Hb; [|done]. apply (f_equal (fun r => match r with Ok x => x | Raise _ => q1 end)) in Hq. subst q1.
  apply rbind_ok in Hb as (db & Hdb & Hb). apply rbind_ok in Hb as (name & Hname & Hb). apply rbind_ok in Hb as (tr & _ & Hb).
  apply rbind_ok in Hb as (tg & _ & Hb). apply rbind_ok in Hb as (id & Hid & Hb).
  apply (f_equal (fun r => match r with Ok x => x | Raise _ => q end)) in Hb. subst q.
  assert (get_or (dlookup "filters" context) (VDict []) = VDict given) as Hg.
  { by apply as_dict_ok. }
  by split.
Qed.

(** ** Lemmas: the tenant *)

Lemma dict_pop_lookup k f (d : pydict) : k <> f -> dlookup k (dict_pop f d) = dlookup k d.
Proof.
  intros Hk. induction d as [|[x v] d IH]; [done|]. unfold dict_pop in *. cbn [List.filter dlookup fst].
  destruct (String.eqb_spec x f) as [->|Hx]; cbn [negb].
  - destruct (String.eqb_spec k f); [done|]. done.
  - cbn [dlookup]. by rewrite IH.
Qed.

Lemma dict_pop_gone f (d : pydict) : dlookup f (dict_pop f d) = None.
Proof.
  apply dlookup_none_keys. unfold dict_pop. rewrite list_elem_of_In, in_map_iff. intros ([k v] & Hk & Hin). apply filter_In in Hin as [_ Hin].
  cbn in *. subst k. by rewrite String.eqb_refl in Hin.
Qed.

Lemma without_time_lookup time filters : (exists v, dlookup "tenant_id" (without_time time filters) = Some v) ->
  dlookup "tenant_id" (without_time time filters) = dlookup "tenant_id" filters.
Proof.
  destruct time as [[f|] v]; cbn; [|done]. intros [w Hw]. destruct v; try done; revert Hw; destruct (truthy f); intros Hw; try done;
    destruct (decide ("tenant_id" = f)) as [<-|Hf]; first [by rewrite dict_pop_gone in Hw|by apply dict_pop_lookup].
Qed.

Lemma built_tenant fr iot sk tid context q template target table given tf filters policy :
  built fr iot sk tid context q template target table given tf filters policy ->
  truthy (get_or (dlookup "require_tenant_filter" (qk_policy_constraints sk)) VNone) = true ->
  exists tenant, dlookup "tenant_id" context = Some tenant /\ truthy tenant = true /\ dlookup "tenant_id" (sq_filters q) = Some tenant.
Proof.
  intros B Hr. destruct (validate_query_spec _ _ (bt_valid _ _ _ _ _ _ _ _ _ _ _ _ _ B)) as [_ _ _ _ Ht].
  pose proof (bt_policy _ _ _ _ _ _ _ _ _ _ _ _ _ B) as Hp. unfold new_policy in Hp.
  apply rbind_ok in Hp as (? & _ & Hp). apply rbind_ok in Hp as (? & _ & Hp). apply rbind_ok in Hp as (? & _ & Hp).
  apply rbind_ok in Hp as (? & _ & Hp). apply (f_equal (fun r => match r with Ok x => x | Raise _ => policy end)) in Hp. subst policy.
  cbn [pl_require_tenant_filter] in Ht. destruct (Ht Hr) as (v & Hv & Hv'). pose proof (bt_tenant _ _ _ _ _ _ _ _ _ _ _ _ _ B) as H.
  unfold tenant_filters in H. rewrite Hr in H. destruct (dlookup "tenant_id" context) as [tenant|]; cbn [get_or] in H; [|done].
  exists tenant. destruct (truthy tenant) eqn:E; [|done]. split_and!; try done.
  apply (f_equal (fun r => match r with Ok x => x | Raise _ => filters end)) in H. subst filters.
  pose proof (bt_filters _ _ _ _ _ _ _ _ _ _ _ _ _ B) as Hf. rewrite Hf in Hv |- *. rewrite without_time_lookup in Hv |- * by eauto.
  apply dlookup_dset_eq.
Qed.

Lemma dset_NoDup {A} k (v : A) d : NoDup (map fst d) -> NoDup (map fst (dset k v d)).
Proof.
  intros H. rewrite dset_map_keys. destruct (str_in k _) eqn:E; [done|]. apply NoDup_app. split_and!; [done| |apply NoDup_singleton].
  intros x Hx Hx'. apply list_elem_of_singleton in Hx'. subst x. by apply str_in_false in E.
Qed.

Lemma dict_pop_NoDup f (d : pydict) : NoDup (map fst d) -> NoDup (map fst (dict_pop f d)).
Proof.
  unfold dict_pop. induction d as [|[k v] d IH]; cbn [map List.filter fst]; [done|]. intros H. apply NoDup_cons in H as [Hk Hd].
  destruct (negb _); [|by apply IH]. cbn [map fst]. apply NoDup_cons. split; [|by apply IH]. intros Hin. apply Hk.
  apply list_elem_of_In, in_map_iff in Hin as ([k' w] & Hk' & Hin). apply filter_In in Hin as [Hin _].
  apply list_elem_of_In, in_map_iff. by exists (k', w).
Qed.

Lemma set_defaults_NoDup context tf given : NoDup (map fst given) -> NoDup (map fst (fold_left (set_default context) tf given)).
Proof.
  revert given. induction tf as [|kv tf IH]; intros given H; [done|]. cbn [fold_left]. apply IH. unfold set_default.
  destruct (resolve_template_value _ _); try done; destruct (dlookup _ _); try done; by apply dset_NoDup.
Qed.

Lemma built_filters_NoDup fr iot sk tid context q template target table given tf filters policy :
  built fr iot sk tid context q template target table given tf filters policy -> NoDup (map fst given) -> NoDup (map fst (sq_filters q)).
Proof.
  intros B H. rewrite (bt_filters _ _ _ _ _ _ _ _ _ _ _ _ _ B). pose proof (bt_tenant _ _ _ _ _ _ _ _ _ _ _ _ _ B) as Ht.
  assert (NoDup (map fst filters)) as Hf.
  { unfold tenant_filters in Ht. apply (set_defaults_NoDup context tf) in H.
    destruct (truthy _); [destruct (truthy _); [|done]|]; apply (f_equal (fun r => match r with Ok x => x | Raise _ => filters end)) in Ht; subst filters;
      [by apply dset_NoDup|done]. }
  unfold without_time. destruct (resolve_time_filter tf context) as [[t|] v]; cbn; [|done].
  destruct v; try done; destruct (truthy t); try done; by apply dict_pop_NoDup.
Qed.

(** ** Lemmas: parameters *)

Abbreviation add_param := (fun (d : pydict) (p : string * string * string * pyval) => dset p.1.2 p.2 d).

Lemma add_params_other k ps d : (forall p, p ∈ ps -> p.1.2 <> k) -> dlookup k (fold_left add_param ps d) = dlookup k d.
Proof.
  revert d. induction ps as [|p ps IH]; intros d H; [done|]. cbn [fold_left]. rewrite IH by (intros p' Hp; apply H; by right).
  apply dlookup_dset_ne. intros ->. by apply (H p); [left|].
Qed.

Lemma add_filters_lookup k (filters : pydict) d : NoDup (map fst filters) ->
  dlookup k (fold_left add_param (map (fun kv => (kv.1, " = ", kv.1, kv.2)) filters) d) =
  match dlookup k filters with Some v => Some v | None => dlookup k d end.
Proof.
  revert d. induction filters as [|[x v] filters IH]; intros d H; [done|]. cbn [map fst] in H. apply NoDup_cons in H as [Hx Hf].
  cbn [map fold_left fst snd]. rewrite IH by done. cbn [dlookup]. destruct (String.eqb_spec k x) as [->|Hk].
  - apply dlookup_none_keys in Hx. rewrite Hx. apply dlookup_dset_eq.
  - by rewrite dlookup_dset_ne.
Qed.

Lemma append_length a b : String.length (String.append a b) = (String.length a + String.length b)%nat.
Proof. induction a as [|c a IH]; [done|]. change (S (String.length (String.append a b)) = S (String.length a + String.length b))%nat. by rewrite IH. Qed.

Lemma suffix_not_tenant t s : s = "_start" \/ s = "_end" -> String.append t s <> "tenant_id".
Proof.
  intros Hs H. assert (String.length t + String.length s = 9)%nat as Hl.
  { change 9%nat with (String.length "tenant_id"). rewrite <- H. by rewrite append_length. }
  destruct Hs as [-> | ->]; cbn in Hl.
  - do 3 (destruct t as [|? t]; [done|]). destruct t; [done|cbn in Hl; lia].
  - do 5 (destruct t as [|? t]; [done|]). destruct t; [done|cbn in Hl; lia].
Qed.

Lemma bounds_not_tenant q p : p ∈ time_bounds q -> p.1.2 <> "tenant_id".
Proof.
  unfold time_bounds. destruct (sq_time_field q) as [t|]; [|intros H; by apply elem_of_nil in H].
  destruct (sq_time_range q) as [r|]; [|intros H; by apply elem_of_nil in H].
  destruct (truthy t && truthy r); [|intros H; by apply elem_of_nil in H]. intros H. apply elem_of_app in H as [H|H].
  - destruct (get_or (dlookup "start" r) VNone); try (by apply elem_of_nil in H); apply list_elem_of_singleton in H as ->; cbn; apply suffix_not_tenant; auto.
  - destruct (get_or (dlookup "end" r) VNone); try (by apply elem_of_nil in H); apply list_elem_of_singleton in H as ->; cbn; apply suffix_not_tenant; auto.
Qed.

Lemma tenant_param q : NoDup (map fst (sq_filters q)) -> dlookup "tenant_id" (query_params q) = dlookup "tenant_id" (sq_filters q).
Proof.
  intros H. unfold query_params, predicates. rewrite dlookup_dset_ne by done. rewrite fold_left_app.
  rewrite add_params_other by apply bounds_not_tenant. rewrite add_filters_lookup by done. by destruct (dlookup _ _).
Qed.

Lemma tenant_predicate q tenant : dlookup "tenant_id" (sq_filters q) = Some tenant -> "tenant_id = :tenant_id" ∈ map predicate_text (predicates q).
Proof.
  intros H. apply dlookup_elem in H. apply list_elem_of_In, in_map_iff. exists ("tenant_id", " = ", "tenant_id", tenant). split; [done|].
  unfold predicates. apply in_or_app. left. apply in_map_iff. exists ("tenant_id", tenant). split; [done|]. by apply list_elem_of_In.
Qed.

(** ** What a built query may touch *)

(** A template, a target and a table of the skill. *)
Record declared_table (sk : QuerySkill) (tid : pyval) (template target table : pydict) : Prop := {
  dt_template : template ∈ qk_query_templates sk;
  dt_template_id : py_eq (get_or (dlookup "template_id" template) VNone) tid = true;
  dt_target : target ∈ qk_db_targets sk;
  dt_target_id : py_eq (get_or (dlookup "target_id" target) VNone) (get_or (dlookup "target_id" template) (VStr "")) = true;
  dt_table : exists tables, py_iter (get_or (dlookup "tables" target) (VList [])) = Ok tables /\ VDict table ∈ tables;
  dt_table_name : py_eq (get_or (dlookup "table_name" table) VNone) (get_or (dlookup "table_name" template) (VStr "")) = true }.

Lemma built_declared fr iot sk tid context q template target table given tf filters policy :
  built fr iot sk tid context q template target table given tf filters policy -> declared_table sk tid template target table.
Proof.
  intros [H1 H2 H3 _ _ _ _ _ _ _ _ _ _ _ _].
  assert (forall d l, VDict d ∈ map VDict l -> d ∈ l) as Hin.
  { intros d l H. apply list_elem_of_In, in_map_iff in H as (d' & [= ->] & H). by apply list_elem_of_In. }
  unfold find_template, find_target, find_table in *.
  apply rbind_ok in H1 as ([d1|] & H1 & E1); [|done]. injection E1 as ->. apply find_by_spec in H1 as [H1 H1'].
  apply rbind_ok in H2 as ([d2|] & H2 & E2); [|done]. injection E2 as ->. apply find_by_spec in H2 as [H2 H2'].
  apply rbind_ok in H3 as (tables & Ht & H3). apply rbind_ok in H3 as ([d3|] & H3 & E3); [|done]. injection E3 as ->.
  apply find_by_spec in H3 as [H3 H3']. split; eauto.
Qed.

Lemma elem_of_unique x l : x ∈ unique l <-> x ∈ l.
Proof.
  assert (forall acc, x ∈ fold_left (fun acc x => append_new x acc) l acc <-> x ∈ acc \/ x ∈ l) as H.
  { induction l as [|y l IH]; intros acc; cbn [fold_left]; [rewrite elem_of_nil; tauto|].
    rewrite IH, elem_of_append_new, elem_of_cons. tauto. }
  unfold unique. rewrite H, elem_of_nil. tauto.
Qed.

(** What the compiled statement reads: every column of the table when the
    template names none, the fields it names otherwise. *)
Lemma selected_columns q f : sq_columns q = unique (sq_dimensions q ++ sq_metrics q) -> f ∈ select_columns q ->
  (f = "*" /\ sq_dimensions q = [] /\ sq_metrics q = []) \/ f ∈ sq_dimensions q ++ sq_metrics q.
Proof.
  unfold select_columns. intros ->. assert (py_or (unique (sq_dimensions q ++ sq_metrics q)) (unique (sq_dimensions q ++ sq_metrics q)) =
    unique (sq_dimensions q ++ sq_metrics q)) as -> by (unfold py_or; by destruct (truthy _)).
  destruct (unique (sq_dimensions q ++ sq_metrics q)) as [|x l] eqn:E; unfold py_or; cbn [truthy truthy_list].
  - intros ->%list_elem_of_singleton. left. split; [done|].
    assert (sq_dimensions q ++ sq_metrics q = []) as En.
    { destruct (sq_dimensions q ++ sq_metrics q) as [|y k]; [done|]. assert (y ∈ unique (y :: k)) as Hy by (apply elem_of_unique; by left).
      rewrite E in Hy. by apply elem_of_nil in Hy. }
    by apply app_eq_nil in En.
  - rewrite <- E. intros Hf. right. by apply elem_of_unique.
Qed.

(** The fields the predicates of a statement test. *)
Lemma predicate_fields q p : p ∈ predicates q -> p.1.1.1 ∈ map fst (sq_filters q) \/ sq_time_field q = Some p.1.1.1.
Proof.
  unfold predicates. rewrite elem_of_app. intros [H|H].
  - left. apply list_elem_of_In, in_map_iff in H as (kv & <- & H). apply list_elem_of_In, in_map_iff. by exists kv.
  - right. unfold time_bounds in H. destruct (sq_time_field q) as [t|]; [|by apply elem_of_nil in H].
    destruct (sq_time_range q) as [r|]; [|by apply elem_of_nil in H].
    destruct (truthy t && truthy r); [|by apply elem_of_nil in H]. apply elem_of_app in H as [H|H];
      destruct (get_or _ _); try (by apply elem_of_nil in H); by apply list_elem_of_singleton in H as ->.
Qed.



(** ** Execution *)

Lemma find_by_id key v l s : py_eq v (VStr s) = true -> find_by key v l = find_by key (VStr s) l.
Proof. destruct v; try done. cbn. intros H. apply String.eqb_eq in H. by subst. Qed.

(** A query that was built is accepted again by the policy found for it, so its
    execution always gives a result. *)
Theorem built_query_runs fr iot et sk tid context q backend query_id ms (Hb : build fr iot sk (VStr tid) context = Ok q) :
  exists policy, policy_for fr sk q = Ok policy /\ validate_query policy q = None /\
    exists r, execute et backend query_id ms q policy = Ok r /\ (db_sql r, db_params r) = (compile_sql q, query_params q).
Proof.
  apply build_inv in Hb as (template & target & table & given & tf & filters & policy & B). exists policy.
  pose proof B as [H1 H2 H3 _ _ _ _ Hid _ _ _ _ _ Hp Hv]. split_and!; [|done|].
  - unfold policy_for. cbn in Hid. injection Hid as <-.
    assert (opt_or (Some tid) "" = tid) as -> by (unfold opt_or, py_or; destruct tid; done). rewrite H1. cbn [rbind].
    rewrite H2. cbn [rbind]. destruct (validate_query_spec _ _ Hv) as [Hn _ _ _ _].
    assert (pl_table_name policy = get_or (dlookup "table_name" table) VNone) as Hpn.
    { unfold new_policy in Hp. apply rbind_ok in Hp as (? & _ & Hp). apply rbind_ok in Hp as (? & _ & Hp). apply rbind_ok in Hp as (? & _ & Hp).
      apply rbind_ok in Hp as (? & _ & Hp). apply (f_equal (fun r => match r with Ok x => x | Raise _ => policy end)) in Hp. by subst policy. }
    destruct (built_declared _ _ _ _ _ _ _ _ _ _ _ _ _ B) as [_ _ _ _ _ Hname]. rewrite <- Hpn, Hn in Hname. apply py_eq_str in Hname.
    rewrite Hname in H3. rewrite H3. done.
  - unfold execute, compile. rewrite Hv. cbn. eexists. split; [done|]. destruct (backend _ _ _) as [rows|e]; [|done].
    by destruct (mask_rows policy rows) as [[masked fields]|].
Qed.

Lemma built_query_runs_witness : exists q policy,
  build no_float no_int example_sales (VStr "by_region") (example_context []) = Ok q /\ policy_for no_float example_sales q = Ok policy.
Proof.
  eexists. destruct (built_query_runs no_float no_int (fun _ => "error") example_sales "by_region" (example_context []) _
    (fun _ _ _ => inl []) "q1" 0 eq_refl) as (policy & H & _). exists policy. split; [reflexivity|exact H].
Defined.

Lemma mask_fields_spec p fields f : mask_fields p = Ok fields -> f ∈ pl_sensitive_fields p ->
  vget (pl_sensitive_field_policy p) f (VStr "mask") = Ok (VStr "mask") -> f ∈ fields.
Proof.
  unfold mask_fields. intros H Hf Hm. apply rbind_ok in H as (kept & Hk & H). injection H as <-. apply elem_of_unique in Hf.
  apply rmap_Forall2 in Hk. apply list_elem_of_lookup in Hf as [i Hi]. apply (Forall2_lookup_l _ _ _ _ _ Hk) in Hi as (y & Hy & E).
  rewrite Hm in E. cbn in E. injection E as <-. apply list_elem_of_In, in_concat. exists [f]. split; [|by left].
  apply list_elem_of_In. by eapply list_elem_of_lookup_2.
Qed.

(** [C11] A result that is returned never shows a value of a sensitive field, unless
    the skill says otherwise than "mask" for it. *)
Theorem sensitive_values_masked et backend query_id ms q policy r row field v (Hr : execute et backend query_id ms q policy = Ok r)
    (Hrow : row ∈ db_rows r) (Hv : (field, v) ∈ row) (Hf : field ∈ pl_sensitive_fields policy)
    (Hm : vget (pl_sensitive_field_policy policy) field (VStr "mask") = Ok (VStr "mask")) : v = VStr "***".
Proof.
  unfold execute in Hr. apply rbind_ok in Hr as (c & _ & Hr). apply (f_equal (fun x => match x with Ok y => y | Raise _ => r end)) in Hr. subst r.
  destruct (backend _ _ _) as [rows|e]; [|by apply elem_of_nil in Hrow].
  destruct (mask_rows policy rows) as [[masked fields]|] eqn:E; [|by apply elem_of_nil in Hrow]. cbn in Hrow.
  unfold mask_rows in E. apply rbind_ok in E as (mf & Hmf & E). injection E as <- _. apply list_elem_of_In, in_map_iff in Hrow as (row0 & <- & _).
  apply list_elem_of_In, in_map_iff in Hv as ([k w] & E & _). cbn in E. injection E as -> <-.
  assert (str_in field mf = true) as ->; [|done]. apply str_in_spec. by eapply mask_fields_spec.
Qed.

Definition example_policy : StructuredQueryPolicy :=
  mkPolicy (VStr "orders") ["region"; "amount"] ["region"; "tenant_id"] ["amount"] (VDict []) true FORBIDDEN_OPERATIONS.

Lemma sensitive_values_masked_witness : exists r row v,
  execute (fun _ => "error") (fun _ _ _ => inl [[("region", VStr "north"); ("amount", VInt 7)]]) "q1" 0
    (mkQuery "erp" "orders" ["region"] ["amount"] [("tenant_id", VStr "acme")] None None None [] 10 None None ["region"; "amount"]) example_policy = Ok r /\
  row ∈ db_rows r /\ ("amount", v) ∈ row /\ v = VStr "***".
Proof.
  eexists. exists [("region", VStr "north"); ("amount", VStr "***")], (VStr "***"). split; [reflexivity|]. split; [by left|]. split; [by right; left|].
  apply (sensitive_values_masked (fun _ => "error") (fun _ _ _ => inl [[("region", VStr "north"); ("amount", VInt 7)]]) "q1" 0
    (mkQuery "erp" "orders" ["region"] ["amount"] [("tenant_id", VStr "acme")] None None None [] 10 None None ["region"; "amount"]) example_policy
    _ [("region", VStr "north"); ("amount", VStr "***")] "amount" _ eq_refl); [by left|by right; left|by left|reflexivity].
Defined.

(** ** Writing the values into the text *)

(** A statement as fixed text and parameters. *)
Inductive piece : Type := Fixed (s : string) | Param (name : string).

Definition write (value_of : string -> string) (ps : list piece) : string :=
  fold_right (fun p rest => String.append (match p with Fixed s => s | Param n => value_of n end) rest) "" ps.

Definition predicate_pieces (p : string * string * string * pyval) : list piece := [Fixed (String.append p.1.1.1 p.1.1.2); Param p.1.2].

Fixpoint and_pieces (first : string) (l : list (string * string * string * pyval)) : list piece :=
  match l with [] => [] | p :: l' => Fixed first :: predicate_pieces p ++ and_pieces " AND " l' end.

(** The statement of a query with its parameters marked. *)
Definition statement (q : StructuredQuery) : list piece :=
  Fixed (join "" ["SELECT "; join ", " (select_columns q); " FROM "; sq_table_name q]) ::
  and_pieces " WHERE " (predicates q) ++
  [Fixed (join "" [match sq_metrics q with [] => "" | _ => clause " GROUP BY " ", " (sq_dimensions q) end;
                   clause " ORDER BY " ", " (sq_order_by q); " LIMIT "]); Param "limit"].

Lemma append_empty_r s : String.append s "" = s.
Proof. induction s as [|a s IH]; [done|]. change (String a (String.append s "") = String a s). by rewrite IH. Qed.

Lemma write_app f ps qs : write f (ps ++ qs) = String.append (write f ps) (write f qs).
Proof. induction ps as [|p ps IH]; [done|]. cbn [app write fold_right]. unfold write in IH. by rewrite IH, append_assoc. Qed.

Lemma write_cons f p ps : write f (p :: ps) = String.append (match p with Fixed s => s | Param n => f n end) (write f ps).
Proof. done. Qed.

Lemma write_and first l : l <> [] ->
  write placeholder (and_pieces first l) = String.append first (join " AND " (map predicate_text l)).
Proof.
  revert first. induction l as [|p l IH]; intros first H; [done|]. cbn [and_pieces]. rewrite write_cons, write_app.
  cbn [map]. rewrite join_cons. unfold predicate_pieces. rewrite !write_cons. cbn [write fold_right].
  assert (predicate_text p = String.append (String.append p.1.1.1 p.1.1.2) (placeholder p.1.2)) as Hp.
  { unfold predicate_text. cbn [join String.concat]. by rewrite append_assoc. }
  rewrite append_empty_r, <- Hp. destruct l as [|p' l]; [by rewrite append_empty_r|].
  rewrite IH by done. cbn [map]. by rewrite ?append_assoc.
Qed.

(** The compiled statement is the one with a placeholder for each parameter. *)
Lemma compile_statement q : compile_sql q = write placeholder (statement q).
Proof.
  unfold compile_sql, statement. rewrite write_cons, write_app, !write_cons. cbn [join String.concat write fold_right].
  rewrite !append_empty_r. destruct (predicates q) as [|p l] eqn:E.
  - cbn [map clause and_pieces write fold_right]. rewrite !append_assoc. done.
  - rewrite write_and by done. cbn [map clause]. rewrite !append_assoc. done.
Qed.

(** ** Lemmas: replacing a placeholder *)

Lemma prefix_cons a s b t : String.prefix (String a s) (String b t) = Ascii.eqb a b && String.prefix s t.
Proof. cbn. destruct (Ascii.ascii_dec a b) as [->|H]; [by rewrite Ascii.eqb_refl|]. apply Ascii.eqb_neq in H. by rewrite H. Qed.

Lemma prefix_app a b : String.prefix a (String.append a b) = true.
Proof.
  induction a as [|c a IH]; [by destruct b|]. change (String.append (String c a) b) with (String c (String.append a b)).
  by rewrite prefix_cons, Ascii.eqb_refl.
Qed.

Definition lacks (c : Ascii.ascii) (s : string) : bool := str_all (fun a => negb (Ascii.eqb a c)) s.

(** A name without blanks is a prefix of [m] followed by a blank only if it is one of [m]. *)
Lemma prefix_blank n m r : lacks " "%char n = true -> (r = "" \/ exists r', r = String " " r') ->
  String.prefix n (String.append m r) = true -> String.prefix n m = true.
Proof.
  intros Hn Hr. revert n Hn. induction m as [|c m IH]; intros [|a n] Hn H; try done.
  - change (String.append "" r) with r in H. destruct Hr as [->|[r' ->]]; [done|]. rewrite prefix_cons in H. apply andb_true_iff in H as [H _].
    cbn in Hn. apply Ascii.eqb_eq in H. subst a. done.
  - change (String.append (String c m) r) with (String c (String.append m r)) in H. rewrite prefix_cons in H |- *.
    apply andb_true_iff in H as [-> H]. cbn in Hn. apply andb_true_iff in Hn as [_ Hn]. by apply IH.
Qed.

Lemma replace_skip old new x y : replace_from old new (String.length x) (String.append x y) = str_replace old new y.
Proof. induction x as [|a x IH]; [done|]. exact IH. Qed.

Lemma replace_fixed n new s rest : lacks ":"%char s = true ->
  str_replace (placeholder n) new (String.append s rest) = String.append s (str_replace (placeholder n) new rest).
Proof.
  induction s as [|a s IH]; [done|]. intros H. cbn in H. apply andb_true_iff in H as [Ha H].
  change (String.append (String a s) rest) with (String a (String.append s rest)). unfold str_replace. cbn [replace_from].
  unfold placeholder. change (String.append ":" n) with (String ":" n). rewrite prefix_cons.
  apply negb_true_iff in Ha. rewrite Ascii.eqb_sym, Ha. cbn [andb]. exact (f_equal (String a) (IH H)).
Qed.

Lemma replace_hit n new rest :
  str_replace (placeholder n) new (String.append (placeholder n) rest) = String.append new (str_replace (placeholder n) new rest).
Proof.
  unfold placeholder. change (String.append ":" n) with (String ":" n). unfold str_replace at 1.
  change (String.append (String ":" n) rest) with (String ":" (String.append n rest)). cbn [replace_from].
  rewrite prefix_cons, Ascii.eqb_refl, prefix_app. cbn [andb String.length Nat.sub]. f_equal. rewrite Nat.sub_0_r. apply replace_skip.
Qed.

Lemma replace_miss n new m rest : lacks ":"%char m = true -> String.prefix n (String.append m rest) = false ->
  str_replace (placeholder n) new (String.append (placeholder m) rest) = String.append (placeholder m) (str_replace (placeholder n) new rest).
Proof.
  intros Hm Hp. unfold placeholder at 2 3. change (String.append ":" m) with (String ":" m).
  change (String.append (String ":" m) rest) with (String ":" (String.append m rest)). unfold str_replace at 1. cbn [replace_from].
  unfold placeholder at 1. change (String.append ":" n) with (String ":" n). rewrite prefix_cons, Hp, andb_false_r.
  change (String.append (String ":" m) ?x) with (String ":" (String.append m x)). exact (f_equal (String ":") (replace_fixed n new m rest Hm)).
Qed.

(** A statement whose fixed texts have no colon, whose parameters are plain
    names, and in which a blank or the end follows every parameter. *)
Fixpoint plain (ps : list piece) : bool :=
  match ps with
  | [] => true
  | Fixed s :: rest => lacks ":"%char s && plain rest
  | Param n :: rest =>
    lacks ":"%char n && match rest with [] => true | Fixed (String " " _) :: _ => true | _ => false end && plain rest
  end.

Definition param_names (ps : list piece) : list string := concat (map (fun p => match p with Param n => [n] | Fixed _ => [] end) ps).

Lemma plain_follow n rest f : plain (Param n :: rest) = true -> write f rest = "" \/ exists r, write f rest = String " " r.
Proof.
  cbn [plain]. intros H. apply andb_true_iff in H as [H _]. apply andb_true_iff in H as [_ H].
  destruct rest as [|[s|m] rest]; [by left| |done]. destruct s as [|a s]; [done|]. right. exists (String.append s (write f rest)).
  rewrite write_cons. destruct a as [[] [] [] [] [] [] [] []]; done.
Qed.

Lemma replace_one n lit ph ps : plain ps = true -> lacks " "%char n = true -> ph n = placeholder n ->
  (forall m, m ∈ param_names ps -> m = n \/ String.prefix n m = false) -> (forall m, ph m = placeholder m \/ lacks ":"%char (ph m) = true) ->
  str_replace (placeholder n) lit (write ph ps) = write (fun m => if String.eqb m n then lit else ph m) ps.
Proof.
  intros Hp Hn Hph Hnames Hclean. induction ps as [|[s|m] ps IH]; [done| |].
  - rewrite !write_cons. cbn [plain] in Hp. apply andb_true_iff in Hp as [Hs Hp]. rewrite replace_fixed, IH by done. done.
  - assert (plain ps = true /\ lacks ":"%char m = true) as [Hp' Hm].
    { cbn [plain] in Hp. apply andb_true_iff in Hp as [H H']. by apply andb_true_iff in H as [H _]. }
    assert (forall m', m' ∈ param_names ps -> m' = n \/ String.prefix n m' = false) as Hrest.
    { intros m' Hin. apply Hnames. change (m' ∈ m :: param_names ps). by right. }
    rewrite !write_cons. destruct (String.eqb_spec m n) as [->|Hne].
    + rewrite Hph, replace_hit, IH by done. done.
    + destruct (Hclean m) as [E|E].
      * rewrite E, replace_miss, IH; [done..|]. destruct (String.prefix n (String.append m _)) eqn:Ex; [|done].
        apply prefix_blank in Ex; [|done|by eapply plain_follow]. destruct (Hnames m) as [->|H]; [by left|done|congruence].
      * rewrite replace_fixed, IH by done. done.
Qed.

Lemma write_ext f g ps : (forall m, f m = g m) -> write f ps = write g ps.
Proof. intros H. induction ps as [|[s|m] ps IH]; [done| |]; rewrite !write_cons, IH; [done|by rewrite H]. Qed.

Definition name_fits (ps : list piece) (n : string) : bool :=
  lacks " "%char n && forallb (fun m => String.eqb m n || negb (String.prefix n m)) (param_names ps).

Lemma render_all fr ps params ph : NoDup (map fst params) -> plain ps = true ->
  (forall kv, kv ∈ params -> name_fits ps kv.1 = true /\ lacks ":"%char (sql_literal fr kv.2) = true /\ ph kv.1 = placeholder kv.1) ->
  (forall m, ph m = placeholder m \/ lacks ":"%char (ph m) = true) ->
  render_sql_parameters fr (write ph ps) params =
  write (fun m => match dlookup m params with Some v => sql_literal fr v | None => ph m end) ps.
Proof.
  intros Hnd Hp. revert ph. induction params as [|[k v] params IH]; intros ph H Hclean; [done|]. unfold render_sql_parameters. cbn [fold_left].
  destruct (H (k, v)) as (Hfit & Hlit & Hk); [by left|]. cbn [fst snd] in *. cbn [map fst] in Hnd. apply NoDup_cons in Hnd as [Hnk Hnd].
  apply andb_true_iff in Hfit as [Hs Hfit]. rewrite replace_one; [|done..| |done].
  2: { intros m Hm. pose proof (proj1 (forallb_true_forall _ _) Hfit m Hm) as E. cbv beta in E. apply orb_true_iff in E as [E|E].
       - left. by apply String.eqb_eq. - right. by apply negb_true_iff. }
  fold (render_sql_parameters fr (write (fun m => if String.eqb m k then sql_literal fr v else ph m) ps) params). rewrite IH; [|done| |].
  - apply write_ext. intros m. cbn [dlookup]. destruct (String.eqb_spec m k) as [->|]; [|done]. apply dlookup_none_keys in Hnk. by rewrite Hnk.
  - intros kv Hkv. destruct (H kv) as (? & ? & ?); [by right|]. split_and!; try done. destruct (String.eqb_spec kv.1 k) as [E|]; [|done].
    exfalso. apply Hnk. rewrite <- E. apply list_elem_of_In, in_map_iff. exists kv. split; [done|]. by apply list_elem_of_In.
  - intros m. destruct (String.eqb m k); [by right|apply Hclean].
Qed.

(** No value, written as SQL, contains a colon, no parameter name is a prefix
    of another one, and the names and the rest of the statement are plain. *)
Definition render_safe (fr : Q -> string) (q : StructuredQuery) : bool :=
  plain (statement q) &&
  forallb (fun kv => name_fits (statement q) kv.1 && lacks ":"%char (sql_literal fr kv.2)) (query_params q).

Lemma query_params_NoDup q : NoDup (map fst (query_params q)).
Proof.
  unfold query_params. apply dset_NoDup. assert (forall d, NoDup (map fst d) -> NoDup (map fst (fold_left add_param (predicates q) d))) as H.
  { induction (predicates q) as [|p l IH]; intros d Hd; [done|]. cbn [fold_left]. apply IH. by apply dset_NoDup. }
  apply H. constructor.
Qed.

(** [C13] The text the legacy server receives is the compiled statement with every
    parameter replaced by its own value as a literal, when the values contain
    no colon and no parameter name starts another. *)
Theorem rendered_statement fr q (Hsafe : render_safe fr q = true) :
  render_sql_parameters fr (compile_sql q) (query_params q) =
  write (fun n => match dlookup n (query_params q) with Some v => sql_literal fr v | None => placeholder n end) (statement q).
Proof.
  apply andb_true_iff in Hsafe as [Hp Hall]. rewrite compile_statement. apply render_all; [apply query_params_NoDup|done| |by left].
  intros kv Hkv. pose proof (proj1 (forallb_true_forall _ _) Hall kv Hkv) as H. cbv beta in H. apply andb_true_iff in H as [H1 H2]. done.
Qed.

Definition example_query (region : string) : StructuredQuery :=
  mkQuery "erp" "orders" ["region"] ["amount"] [("region", VStr region); ("status", VStr " OR 1=1 --"); ("tenant_id", VStr "acme")]
    None None None [] 100 None None ["region"; "amount"].

Lemma rendered_statement_witness :
  render_sql_parameters no_float (compile_sql (example_query "north")) (query_params (example_query "north")) =
  "SELECT region, amount FROM orders WHERE region = 'north' AND status = ' OR 1=1 --' AND tenant_id = 'acme' GROUP BY region LIMIT 100".
Proof. rewrite (rendered_statement no_float (example_query "north")) by (vm_compute; reflexivity). vm_compute. reflexivity. Defined.

(** Without these conditions a value is read as SQL: one that names another
    parameter closes its own quotes, and the text of that parameter takes the
    place of the condition; the filter of the tenant ends in a comment. *)
Example value_escapes_its_quotes :
  build no_float no_int example_sales (VStr "by_region") (example_context [("region", VStr ":status"); ("status", VStr " OR 1=1 --")]) =
    Ok (mkQuery "erp" "orders" ["region"] ["amount"] [("region", VStr ":status"); ("status", VStr " OR 1=1 --"); ("tenant_id", VStr "acme")]
          (Some "order_date") (Some [("start", VStr "2024-05-01"); ("end", VStr "2024-05-01")]) None [] 100 (Some "by_region") (Some "sales_data")
          ["region"; "amount"]) /\
  render_sql_parameters no_float (compile_sql (example_query ":status")) (query_params (example_query ":status")) =
    "SELECT region, amount FROM orders WHERE region = '' OR 1=1 --'' AND status = ' OR 1=1 --' AND tenant_id = 'acme' GROUP BY region LIMIT 100".
Proof. split; vm_compute; reflexivity. Qed.

(** The parameter of [region] is also replaced inside that of [region_id]. *)
Example name_prefix_breaks_statement :
  let q := mkQuery "erp" "orders" ["region"] [] [("region", VStr "north"); ("region_id", VInt 7)] None None None [] 10 None None ["region"] in
  render_sql_parameters no_float (compile_sql q) (query_params q) =
  "SELECT region FROM orders WHERE region = 'north' AND region_id = 'north'_id LIMIT 10".
Proof. vm_compute. reflexivity. Qed.

(** A template without dimensions and metrics selects every column, allowed or not. *)
Example no_columns_select_all :
  let q := mkQuery "erp" "orders" [] [] [("tenant_id", VStr "acme")] None None None [] 10 None None [] in
  validate_query example_policy q = None /\ compile_sql q = "SELECT * FROM orders WHERE tenant_id = :tenant_id LIMIT :limit".
Proof. split; reflexivity. Qed.
