(* ===== verification/SkillPlanner.v ===== *)
(** * Plans of resolved skills (skills/planner_adapter.py)

    A report skill with its data and retrieval skills becomes an execution
    plan: one step per query template, per retrieval target and for the graph,
    and the report step that waits for all of them.  Names in braces in
    filters and queries are replaced by values of the context.
    [str.casefold] is taken on ASCII texts. *)

From stdpp Require Import pretty.
From S2P Require Import Prelude PyFloat PyVal PyList PyText PyRegex RegExp AgentState DagScheduler RouteModels LlmRouter ToolContract ToolExecutors StructuredQuery.

(** ** What is read of the skills and the request *)

Record PlanReport : Type := mkPlanReport {
  pr_skill_id : string; pr_name : string; pr_required_context : list string; pr_required_evidence_types : list string;
  pr_default_format : option string }.
Record PlanData : Type := mkPlanData {
  pd_skill_id : string; pd_db_targets : list pydict; pd_query_templates : list pydict; pd_evidence_requirements : list pydict;
  pd_validation_rules : list pydict }.
Record PlanRetrieval : Type := mkPlanRetrieval {
  pt_skill_id : string; pt_rag_targets : list pydict; pt_evidence_requirements : list pydict; pt_query_context_requirements : pydict }.
Record PlanSkills : Type := mkPlanSkills { pk_report : PlanReport; pk_data : option PlanData; pk_retrieval : option PlanRetrieval }.

Record SkillPlanContext : Type := mkPlanContext {
  pc_user_question : string; pc_tenant_id : string; pc_time_range : option pydict; pc_report_date : option string; pc_query_lang : string;
  pc_skill_set : PlanSkills; pc_agent_config : pydict }.

(** ** Names in braces *)

Definition VARIABLE : re := RegExp.seq [lit "{"; plus (none_in "{}"); lit "}"].

(** The name of a match, between its braces. *)
Definition inner_name (text : string) : string := String.substring 1 (String.length text - 2) text.

(** [findall]: the names in a text, in order. *)
Definition variables (text : string) : list string := map inner_name (findall (longest VARIABLE) text).

(** [sub] with a function of the match. *)
Fixpoint sub_by (m : matcher) (f : string -> string) (skip : nat) (text : list string) : list string :=
  match text with
  | [] => []
  | c :: text' =>
    match skip with
    | S k => sub_by m f k text'
    | O =>
      match m text with
      | Some (S n) => f (concat_chars (c :: take n text')) :: sub_by m f n text'
      | _ => c :: sub_by m f O text'
      end
    end
  end.

Section planner.
Variable float_repr : Q -> string.
Variable int_of_text : string -> option Z.

Definition render_text (context : pydict) (text : string) : string :=
  concat_chars (sub_by (longest VARIABLE)
    (fun found => py_str float_repr (get_or (dlookup (inner_name found) context) (VStr found))) O (chars text)).

Fixpoint render_value (context : pydict) (value : pyval) : pyval :=
  match value with
  | VStr s => VStr (render_text context s)
  | VList l => VList (map (render_value context) l)
  | VDict d => VDict (map (fun kv => (kv.1, render_value context kv.2)) d)
  | _ => value
  end.

(** ** Context *)

Definition template_context (c : SkillPlanContext) : pydict :=
  dict_update
    [("tenant_id", VStr (pc_tenant_id c)); ("time_range", match pc_time_range c with Some r => VDict r | None => VNone end);
     ("report_date", match pc_report_date c with Some d => VStr d | None => VNone end); ("query_lang", VStr (pc_query_lang c))]
    (match dlookup "context" (pc_agent_config c) with Some (VDict extras) => extras | _ => [] end).

Definition strs_in (l : list pyval) : list string := concat (map (fun v => match v with VStr s => [s] | _ => [] end) l).

Definition data_required_context (d : PlanData) : result (list string) :=
  let! items := rmap (fun rule => py_iter (get_or (dlookup "required_context" rule) (VList []))) (pd_validation_rules d) in
  Ok (strs_in (concat items)).

Definition has_value (context : pydict) (name : string) : bool := truthy (get_or (dlookup name context) VNone).

Definition missing_required_context (c : SkillPlanContext) : result (list string) :=
  let! of_data := match pk_data (pc_skill_set c) with Some d => data_required_context d | None => Ok [] end in
  let required := unique (pr_required_context (pk_report (pc_skill_set c)) ++ of_data) in
  Ok (py_sorted (List.filter (fun name => negb (has_value (template_context c) name)) required)).

(** ** Steps *)

Definition skill_context (s : PlanSkills) : pydict :=
  [("skill_id", VStr (pr_skill_id (pk_report s)));
   ("data_skill_id", match pk_data s with Some d => VStr (pd_skill_id d) | None => VNone end);
   ("retrieval_skill_id", match pk_retrieval s with Some r => VStr (pt_skill_id r) | None => VNone end)].

Definition args_with (query db_id : string) (kb_ids : list string) (extra : pydict) : StepArgs :=
  let a := default_StepArgs in
  mkStepArgs query (sa_query_simplified a) kb_ids db_id (sa_mcp_server_name a) (sa_search_engine a) (sa_function a) (sa_function_params a)
    (sa_rest_endpoint a) (sa_rest_method a) (sa_rest_payload a) (sa_erp_domain a) (sa_source_type a) (sa_enable_pg a) (sa_max_rows a)
    (sa_max_result_chars a) (sa_enable_hybrid_retrieval a) (sa_timeout_ms a) extra.

(** [d[key]] and [str(d[key])] *)
Definition str_at (d : pydict) (key : string) : result string := dindex (fun v => Ok (py_str float_repr v)) d key.

(** The targets by their ids; the last one of an id wins. *)
Definition targets_by_id (targets : list pydict) : list (string * pydict) :=
  fold_left (fun m t => match dlookup "target_id" t with Some (VStr id) => dset id t m | _ => m end) targets [].

Definition database_step (c : SkillPlanContext) (context : pydict) (template target : pydict) (target_id : pyval) : result (@PlanStep StepArgs) :=
  let rendered_filters := render_value context (get_or (dlookup "filters" template) (VDict [])) in
  let! template_id := str_at template "template_id" in
  let! db_id := str_at target "db_id" in
  let! table_name := str_at template "table_name" in
  Ok (mkStep (String.append "query_" template_id) "database"
        (args_with (py_str float_repr (get_or (dlookup "purpose" template) (VStr (pc_user_question c)))) db_id []
           (dict_update (skill_context (pc_skill_set c))
              [("query_template_id", VStr template_id); ("table_name", VStr table_name); ("target_id", target_id); ("filters", rendered_filters)]))
        [] true (py_str float_repr (get_or (dlookup "purpose" template) (VStr "")))).

Definition build_database_steps (c : SkillPlanContext) (context : pydict) : result (list (@PlanStep StepArgs)) :=
  match pk_data (pc_skill_set c) with
  | None => Ok []
  | Some d =>
    let db_targets := targets_by_id (pd_db_targets d) in
    let! steps := rmap (fun template =>
      let target_id := get_or (dlookup "target_id" template) VNone in
      let! target := get_key target_id db_targets in
      match target with
      | None => Ok []
      | Some target => let! s := database_step c context template target target_id in Ok [s]
      end) (pd_query_templates d) in
    Ok (concat steps)
  end.

(** [_render_rag_queries], one template. *)
Definition rag_query (context : pydict) (optional : list string) (required : bool) (template : pyval) : result (list string) :=
  let! query := vget template "query" (VStr "") in
  let query := py_str float_repr query in
  let missing := List.filter (fun name => negb (has_value context name)) (variables query) in
  if truthy missing && (negb (forallb (fun name => str_in name optional) missing) || negb required) then Ok []
  else Ok [render_text context query].

Definition render_rag_queries (context : pydict) (optional : list string) (required : bool) (templates : pyval) : result (list string) :=
  let! l := py_iter templates in
  let! queries := rmap (rag_query context optional required) l in
  Ok (concat queries).

Definition template_ids (templates : pyval) : result (list string) :=
  let! l := py_iter templates in
  rmap (fun t => match t with VDict d => str_at d "template_id" | _ => Raise (TypeError "subscript") end) l.

Definition rag_step (c : SkillPlanContext) (context : pydict) (optional : list string) (target : pydict) : result (list (@PlanStep StepArgs)) :=
  let g k d := get_or (dlookup k target) d in
  let! target_id := str_at target "target_id" in
  let! queries := render_rag_queries context optional (truthy (g "required" (VBool false))) (g "query_templates" (VList [])) in
  if negb (truthy queries) then Ok []
  else
    let! kb_id := str_at target "kb_id" in
    let! ids := template_ids (g "query_templates" (VList [])) in
    Ok [mkStep (String.append "retrieve_" target_id) "rag"
          (args_with (join newline_char queries) "" [kb_id]
             (dict_update (skill_context (pc_skill_set c))
                [("rag_target_id", VStr target_id); ("query_template_ids", VStrs ids); ("document_filters", g "document_filters" (VDict []));
                 ("metadata_filters", render_value context (g "metadata_filters" (VDict [])))]))
          [] true (py_str float_repr (g "purpose" (VStr "")))].

Definition build_rag_steps (c : SkillPlanContext) (context : pydict) : result (list (@PlanStep StepArgs)) :=
  match pk_retrieval (pc_skill_set c) with
  | None => Ok []
  | Some r =>
    let! optional := texts_of (pt_query_context_requirements r) "optional_context" in
    let! steps := rmap (rag_step c context optional) (pt_rag_targets r) in
    Ok (concat steps)
  end.

Definition GRAPH_TYPES : list string := ["graph"; "graph_rows"; "graph_result"].

(** [(req.get("evidence_type") or "").casefold() in {...}] *)
Definition wants_graph (requirement : pydict) : result bool :=
  match vor (get_or (dlookup "evidence_type" requirement) VNone) (VStr "") with
  | VStr s => Ok (str_in (py_lower s) GRAPH_TYPES)
  | _ => Raise (AttributeError "casefold")
  end.

Fixpoint any_wants_graph (l : list pydict) : result bool :=
  match l with
  | [] => Ok false
  | r :: l' => let! b := wants_graph r in if b then Ok true else any_wants_graph l'
  end.

Definition skill_requires_graph (s : PlanSkills) : result bool :=
  if existsb (fun t => str_in (py_lower t) GRAPH_TYPES) (pr_required_evidence_types (pk_report s)) then Ok true
  else any_wants_graph
         (match pk_data s with Some d => pd_evidence_requirements d | None => [] end ++
          match pk_retrieval s with Some r => pt_evidence_requirements r | None => [] end).

Definition build_graph_steps (c : SkillPlanContext) : result (list (@PlanStep StepArgs)) :=
  let s := pc_skill_set c in
  let! required := skill_requires_graph s in
  if negb required then Ok []
  else
    let graph_config := vor (get_or (dlookup "graph_config" (pc_agent_config c)) (VDict [])) (VDict []) in
    let! source_type := vget graph_config "source_type" (VStr "Meeting") in
    let! max_rows := vget graph_config "max_rows" (VInt 20) in
    let! max_rows := to_int int_of_text max_rows in
    let! max_result_chars := vget graph_config "max_result_chars" (VInt 12000) in
    let! max_result_chars := to_int int_of_text max_result_chars in
    let! hybrid := vget graph_config "enable_hybrid_retrieval" (VBool false) in
    let! enable_pg := vget graph_config "enable_pg" (VBool false) in
    let! timeout_ms := vget graph_config "timeout_ms" (VInt 30000) in
    let! timeout_ms := to_int int_of_text timeout_ms in
    let a := default_StepArgs in
    Ok [mkStep (String.append "graph_" (pr_skill_id (pk_report s))) "graph"
          (mkStepArgs (pc_user_question c) (sa_query_simplified a) (sa_kb_ids a) (sa_db_id a) (sa_mcp_server_name a) (sa_search_engine a)
             (sa_function a) (sa_function_params a) (sa_rest_endpoint a) (sa_rest_method a) (sa_rest_payload a) (sa_erp_domain a)
             (py_str float_repr source_type) (truthy enable_pg) max_rows max_result_chars (truthy hybrid) timeout_ms
             (dict_update (skill_context s) [("graph_source", VStr "skill_evidence_requirement")]))
          [] true (String.append "图谱问答：" (pr_name (pk_report s)))].

Definition build_report_step (c : SkillPlanContext) (evidence_steps : list (@PlanStep StepArgs)) : @PlanStep StepArgs :=
  let r := pk_report (pc_skill_set c) in
  mkStep (String.append "generate_" (pr_skill_id r)) "report"
    (args_with (String.append "生成" (pr_name r)) "" []
       (dict_update (skill_context (pc_skill_set c)) [("format", VStr (opt_or (pr_default_format r) "markdown"))]))
    (map ps_step_id evidence_steps) false (String.append "生成" (pr_name r)).

(** [build_plan] *)
Definition evidence_steps (c : SkillPlanContext) : result (list (@PlanStep StepArgs)) :=
  let context := template_context c in
  let! db := build_database_steps c context in
  let! rag := build_rag_steps c context in
  let! graph := build_graph_steps c in
  Ok (db ++ rag ++ graph).

Definition build_plan (c : SkillPlanContext) : result SkillPlanResult :=
  let! missing := missing_required_context c in
  if truthy missing then Ok (mkSkillPlan None "MISSING_REQUIRED_CONTEXT" missing)
  else
    let! steps := evidence_steps c in
    Ok (mkSkillPlan (Some (mkPlan (String.append (pr_skill_id (pk_report (pc_skill_set c))) "_plan")
                             (steps ++ [build_report_step c steps]) 0 "skill_guided")) "" []).
End planner.

(** ** Lemmas *)

Lemma concat_elem {A} (x : A) ls : x ∈ concat ls <-> exists l, l ∈ ls /\ x ∈ l.
Proof. rewrite list_elem_of_In, in_concat. setoid_rewrite list_elem_of_In. done. Qed.

Lemma rmap_elem {A B} (f : A -> result B) l ys y : rmap f l = Ok ys -> y ∈ ys -> exists x, x ∈ l /\ f x = Ok y.
Proof.
  intros H Hy. apply rmap_Forall2 in H. apply list_elem_of_lookup in Hy as [i Hi]. apply (Forall2_lookup_r _ _ _ _ _ H) in Hi as (x & Hx & E).
  exists x. split; [|done]. by eapply list_elem_of_lookup_2.
Qed.

Lemma targets_by_id_elem id t targets : dlookup id (targets_by_id targets) = Some t -> t ∈ targets.
Proof.
  unfold targets_by_id. assert (forall m, dlookup id (fold_left (fun m t => match dlookup "target_id" t with Some (VStr id) => dset id t m | _ => m end)
    targets m) = Some t -> t ∈ targets \/ dlookup id m = Some t) as H.
  { induction targets as [|x l IH]; intros m; cbn [fold_left]; [by right|]. intros H. apply IH in H as [H|H]; [left; by right|].
    destruct (dlookup "target_id" x) as [[| | | |s| |]|]; try by right.
    destruct (decide (id = s)) as [->|Hne]; [|rewrite dlookup_dset_ne in H by done; by right].
    rewrite dlookup_dset_eq in H. injection H as ->. left. by left. }
  intros E. by apply H in E as [|].
Qed.

Lemma get_key_some {A} k (d : list (string * A)) x : get_key k d = Ok (Some x) -> exists s, k = VStr s /\ dlookup s d = Some x.
Proof. destruct k; cbn; try done. intros [= H]. eauto. Qed.

(** Where a step of a plan takes its data from. *)
Inductive sourced (fr : Q -> string) (c : SkillPlanContext) (s : @PlanStep StepArgs) : Prop :=
  | from_database d template target : pk_data (pc_skill_set c) = Some d -> template ∈ pd_query_templates d -> target ∈ pd_db_targets d ->
      ps_tool s = "database" -> str_at fr target "db_id" = Ok (sa_db_id (ps_args s)) -> sourced fr c s
  | from_knowledge_base r target kb : pk_retrieval (pc_skill_set c) = Some r -> target ∈ pt_rag_targets r ->
      ps_tool s = "rag" -> sa_kb_ids (ps_args s) = [kb] -> str_at fr target "kb_id" = Ok kb -> sourced fr c s
  | from_graph : skill_requires_graph (pc_skill_set c) = Ok true -> ps_tool s = "graph" -> sourced fr c s.

Lemma database_steps_sourced fr c context steps s : build_database_steps fr c context = Ok steps -> s ∈ steps -> sourced fr c s /\ ps_depends_on s = [].
Proof.
  unfold build_database_steps. destruct (pk_data _) as [d|] eqn:Ed; [|by intros [= <-] ?%elem_of_nil]. intros H Hs.
  apply rbind_ok in H as (ls & Hl & H). injection H as <-. apply concat_elem in Hs as (l & Hl' & Hs).
  destruct (rmap_elem _ _ _ _ Hl Hl') as (template & Ht & E). apply rbind_ok in E as ([target|] & Hg & E); [|by injection E as <-; apply elem_of_nil in Hs].
  apply rbind_ok in E as (s' & E & E'). injection E' as <-. apply list_elem_of_singleton in Hs as ->.
  apply get_key_some in Hg as (id & _ & Hg). apply targets_by_id_elem in Hg. unfold database_step in E.
  apply rbind_ok in E as (tid & _ & E). apply rbind_ok in E as (db & Hdb & E). apply rbind_ok in E as (tn & _ & E). injection E as <-.
  split; [|done]. by eapply from_database.
Qed.

Lemma rag_steps_sourced fr c context steps s : build_rag_steps fr c context = Ok steps -> s ∈ steps -> sourced fr c s /\ ps_depends_on s = [].
Proof.
  unfold build_rag_steps. destruct (pk_retrieval _) as [r|] eqn:Er; [|by intros [= <-] ?%elem_of_nil]. intros H Hs.
  apply rbind_ok in H as (optional & _ & H). apply rbind_ok in H as (ls & Hl & H). injection H as <-. apply concat_elem in Hs as (l & Hl' & Hs).
  destruct (rmap_elem _ _ _ _ Hl Hl') as (target & Ht & E). unfold rag_step in E. apply rbind_ok in E as (tid & _ & E).
  apply rbind_ok in E as (qs & _ & E). destruct (truthy qs); cbn [negb] in E; [|by injection E as <-; apply elem_of_nil in Hs].
  apply rbind_ok in E as (kb & Hkb & E). apply rbind_ok in E as (ids & _ & E). injection E as <-. apply list_elem_of_singleton in Hs as ->.
  split; [|done]. by eapply from_knowledge_base.
Qed.

Lemma graph_steps_sourced fr iot c steps s : build_graph_steps fr iot c = Ok steps -> s ∈ steps -> sourced fr c s /\ ps_depends_on s = [].
Proof.
  unfold build_graph_steps. intros H Hs. apply rbind_ok in H as ([] & Hr & H); cbn [negb] in H; [|by injection H as <-; apply elem_of_nil in Hs].
  repeat (apply rbind_ok in H as (? & _ & H)). injection H as <-. apply list_elem_of_singleton in Hs as ->. split; [|done]. by eapply from_graph.
Qed.

Lemma evidence_steps_sourced fr iot c steps s : evidence_steps fr iot c = Ok steps -> s ∈ steps -> sourced fr c s /\ ps_depends_on s = [].
Proof.
  unfold evidence_steps. intros H Hs. apply rbind_ok in H as (db & H1 & H). apply rbind_ok in H as (rag & H2 & H).
  apply rbind_ok in H as (graph & H3 & H). injection H as <-. rewrite !elem_of_app in Hs. destruct Hs as [Hs|[Hs|Hs]];
    eauto using database_steps_sourced, rag_steps_sourced, graph_steps_sourced.
Qed.

(** ** Scheduling: the evidence in one layer, the report in the next *)

Lemma remove_in_order {A} `{EqDecision A} (ev rest : list (@PlanStep A)) :
  fold_left (fun r s => list_remove_first s r) ev (ev ++ rest) = rest.
Proof. induction ev as [|e ev IH]; [done|]. cbn [fold_left app list_remove_first]. by rewrite bool_decide_true. Qed.

Definition plan_layers {A} (ev : list (@PlanStep A)) (report : @PlanStep A) : list (list (@PlanStep A)) :=
  match ev with [] => [[report]] | _ => [ev; [report]] end.

Lemma two_layers {A} `{EqDecision A} (ev : list (@PlanStep A)) report : (forall s, s ∈ ev -> ps_depends_on s = []) ->
  ps_depends_on report = map ps_step_id ev -> topological_layers (ev ++ [report]) = Ok (plan_layers ev report).
Proof.
  intros Hev Hr. unfold topological_layers. rewrite length_app. cbn [length].
  assert (forall done_, (forall d, d ∈ ps_depends_on report -> d ∈ done_) -> forall k, layers_loop (S k) done_ [report] = Ok [[report]]) as Hlast.
  { intros done_ Hd k. cbn [layers_loop List.filter]. rewrite (proj2 (ready_spec done_ report) Hd). cbn [fold_left list_remove_first].
    rewrite bool_decide_true by done. by destruct k. }
  destruct ev as [|e ev]; [cbn [length Nat.add app]; apply Hlast; rewrite Hr; by intros d Hd%elem_of_nil|].
  cbn [length Nat.add app layers_loop]. change (e :: ev ++ [report]) with ((e :: ev) ++ [report]). rewrite List.filter_app.
  rewrite (filter_all _ (e :: ev)). 2: { intros s Hs. apply ready_spec. rewrite Hev by done. by intros d Hd%elem_of_nil. }
  cbn [List.filter]. destruct (ready [] report) eqn:E.
  { pose proof (proj1 (ready_spec _ _) E (ps_step_id e)) as H. rewrite Hr in H. by apply elem_of_nil in H; [|left]. }
  rewrite app_nil_r. cbn [app]. rewrite (remove_in_order (e :: ev) [report]). rewrite Nat.add_1_r. rewrite Hlast; [done|].
  intros d Hd. by rewrite Hr in Hd.
Qed.

(** [C9] A plan is refused exactly for the required names without a value.  A plan
    that is built reads only declared targets, ends with the report step, and
    the scheduler runs its evidence in one layer and the report after it. *)
Theorem skill_plan_sound fr iot c r (Hr : build_plan fr iot c = Ok r) :
  exists missing, missing_required_context c = Ok missing /\
  match sp_plan r with
  | None => missing <> [] /\ sp_missing_context r = missing
  | Some p => missing = [] /\ exists ev, ep_steps p = ev ++ [build_report_step c ev] /\ Forall (sourced fr c) ev /\
                topological_layers (ep_steps p) = Ok (plan_layers ev (build_report_step c ev))
  end.
Proof.
  unfold build_plan in Hr. apply rbind_ok in Hr as (missing & Hm & Hr). exists missing. split; [done|].
  destruct missing as [|m l]; cbn [truthy truthy_list negb] in Hr.
  - apply rbind_ok in Hr as (ev & Hev & Hr). apply (f_equal (fun x => match x with Ok y => y | Raise _ => r end)) in Hr. subst r. cbn [sp_plan].
    split; [done|]. exists ev. cbn [ep_steps]. split_and!; [done| |].
    + apply Forall_forall. intros s Hs. by eapply evidence_steps_sourced.
    + apply two_layers; [|done]. intros s Hs. by eapply evidence_steps_sourced.
  - injection Hr as <-. done.
Qed.

Lemma missing_required_spec c missing name : missing_required_context c = Ok missing -> name ∈ missing ->
  has_value (template_context c) name = false.
Proof.
  unfold missing_required_context. intros H Hn. apply rbind_ok in H as (l & _ & H). injection H as <-.
  unfold py_sorted in Hn. rewrite merge_sort_Permutation in Hn. apply list_elem_of_In, filter_In in Hn as [_ Hn]. by apply negb_true_iff in Hn.
Qed.

Definition example_report : PlanReport := mkPlanReport "sales_report" "销售报告" ["tenant_id"] ["graph_rows"] None.
Definition example_data : PlanData :=
  mkPlanData "sales_data" (qk_db_targets example_sales) (qk_query_templates example_sales) [] [].
Definition example_retrieval : PlanRetrieval :=
  mkPlanRetrieval "sales_docs"
    [[("target_id", VStr "policies"); ("kb_id", VStr "kb1"); ("query_templates", VList [VDict [("template_id", VStr "q1"); ("query", VStr "销售政策 {region}")]])];
     [("target_id", VStr "notes"); ("kb_id", VStr "kb2"); ("query_templates", VList [VDict [("template_id", VStr "q2"); ("query", VStr "{quarter}")]])]]
    [] [("optional_context", VStrs ["quarter"])].
Definition example_plan_context : SkillPlanContext :=
  mkPlanContext "各区域销售额" "acme" None None "zh_CN" (mkPlanSkills example_report (Some example_data) (Some example_retrieval))
    [("context", VDict [("region", VStr "华东"); ("time_range", VDict [("start", VStr "2024-01-01")])])].

Lemma skill_plan_sound_witness : exists r p ev,
  build_plan no_float no_int example_plan_context = Ok r /\ sp_plan r = Some p /\
  map ps_step_id (ep_steps p) = ["query_by_region"; "retrieve_policies"; "graph_sales_report"; "generate_sales_report"] /\
  topological_layers (ep_steps p) = Ok (plan_layers ev (build_report_step example_plan_context ev)).
Proof.
  eexists. eexists. destruct (skill_plan_sound no_float no_int example_plan_context _ eq_refl) as (missing & _ & _ & ev & _ & _ & H).
  exists ev. split; [reflexivity|]. split; [reflexivity|]. split; [reflexivity|]. exact H.
Defined.

(** ** The filters of a planned query *)

(** Without a time range of its own the builder leaves the filters it is given alone. *)
Lemma given_filters_kept fr iot sk tid context q given f : build fr iot sk tid context = Ok q ->
  dlookup "filters" context = Some (VDict given) -> dlookup "time_range" context = None -> dlookup "report_date" context = None ->
  f <> "tenant_id" -> forall v, dlookup f given = Some v -> dlookup f (sq_filters q) = Some v.
Proof.
  intros H Hg Ht Hd Hf v Hv. apply build_inv in H as (template & target & table & given' & tf & filters & policy & B).
  rewrite (bt_filters _ _ _ _ _ _ _ _ _ _ _ _ _ B). unfold resolve_time_filter. rewrite Ht, Hd.
  assert (without_time match List.find is_time_filter tf with Some (field, _) => (Some field, VNone) | None => (None, VNone) end filters = filters) as Hw
    by (by destruct (List.find _ _) as [[]|]).
  cbn [get_or] in *. change (truthy VNone) with false. cbn match. rewrite Hw.
  pose proof (bt_given _ _ _ _ _ _ _ _ _ _ _ _ _ B) as Hg'. rewrite Hg in Hg'. injection Hg' as <-.
  pose proof (bt_tenant _ _ _ _ _ _ _ _ _ _ _ _ _ B) as Hten.
  assert (dlookup f (fold_left (set_default context) tf given) = Some v) as Hfold.
  { clear - Hv. revert given Hv. induction tf as [|kv tf IH]; intros given Hv; [done|]. cbn [fold_left]. apply IH. unfold set_default.
    destruct (resolve_template_value _ _); try done; destruct (dlookup kv.1 given) eqn:E; try done;
      (destruct (decide (f = kv.1)) as [->|]; [congruence|by rewrite dlookup_dset_ne]). }
  unfold tenant_filters in Hten. destruct (truthy _); [destruct (truthy _); [|done]|];
    apply (f_equal (fun r => match r with Ok x => x | Raise _ => filters end)) in Hten; subst filters; [by rewrite dlookup_dset_ne|done].
Qed.

Lemma dlookup_map_values (g : pyval -> pyval) f (d : pydict) : dlookup f (map (fun kv => (kv.1, g kv.2)) d) = option_map g (dlookup f d).
Proof. induction d as [|[k v] d IH]; [done|]. cbn. by destruct (String.eqb f k). Qed.

(** The time filter of a planned query: neither the plan nor the state gives
    the adapter a time range, so the column is compared with the Python text
    of the range the plan was built with ("None" when there was none). *)
Theorem planned_time_filter_is_text fr iot c template target target_id step tf field sk tid context q
  (Hs : database_step fr c (template_context c) template target target_id = Ok step)
  (Htf : dlookup "filters" template = Some (VDict tf)) (Hf : dlookup field tf = Some (VStr "{time_range}")) (Hne : field <> "tenant_id")
  (Hc : dlookup "filters" context = dlookup "filters" (sa_extra (ps_args step)))
  (Ht : dlookup "time_range" context = None) (Hd : dlookup "report_date" context = None) (Hq : build fr iot sk tid context = Ok q) :
  dlookup field (sq_filters q) = Some (VStr (py_str fr (get_or (dlookup "time_range" (template_context c)) (VStr "{time_range}")))).
Proof.
  unfold database_step in Hs. apply rbind_ok in Hs as (id & _ & Hs). apply rbind_ok in Hs as (db & _ & Hs). apply rbind_ok in Hs as (tn & _ & Hs).
  injection Hs as <-. rewrite Htf in Hc. cbn [ps_args sa_extra args_with get_or] in Hc. unfold dict_update, skill_context in Hc.
  assert (dlookup "filters" context = Some (VDict (map (fun kv => (kv.1, render_value fr (template_context c) kv.2)) tf))) as Hc' by exact Hc.
  eapply given_filters_kept; [exact Hq|exact Hc'|done..|]. rewrite dlookup_map_values, Hf. done.
Qed.

Definition example_template : pydict := get_or (head (qk_query_templates example_sales)) [].
Definition example_target : pydict := get_or (head (qk_db_targets example_sales)) [].

Lemma planned_time_filter_is_text_witness : exists step q,
  database_step no_float example_plan_context (template_context example_plan_context) example_template example_target (VStr "t1") = Ok step /\
  dlookup "order_date" (sq_filters q) = Some (VStr "{'start': '2024-01-01'}").
Proof.
  eexists. eexists. split; [reflexivity|].
  apply (planned_time_filter_is_text no_float no_int example_plan_context example_template example_target (VStr "t1") _
    [("order_date", VStr "{time_range}"); ("status", VStr "{status}")] "order_date" example_sales (VStr "by_region")
    [("tenant_id", VStr "acme"); ("filters", VDict [("order_date", VStr "{'start': '2024-01-01'}"); ("status", VStr "{status}")])] _ eq_refl);
    first [done|reflexivity].
Defined.
