(* ===== verification/Observability.v ===== *)
(** * The observability node (nodes/observability.py)

    The last node before the answer: it gathers the metrics of the run and an
    audit record in which personal data is replaced, and changes nothing but
    the timings.  Logging and the metrics backend are not modelled; what they
    are given is. *)

From Stdlib Require Import Ascii.
From S2P Require Import Prelude PyFloat PyVal PyList PyText PyRegex RegExp AgentState.

Definition REDACT_FIELDS : list string := ["user_question"; "content"; "source_uri"].
Definition TERMINAL_ACTIONS : list string := ["pass"; "filter"; "regenerate"; "reject"; "exhausted"].

Definition should_redact (field_name : string) : bool := str_in field_name REDACT_FIELDS.

(** ** Redaction *)

(** A text that starts with characters of the given classes. *)
Fixpoint fits (classes : list (string -> bool)) (text : list string) : bool :=
  match classes, text with
  | [], _ => true
  | p :: classes', c :: text' => p c && fits classes' text'
  | _ :: _, [] => false
  end.

Definition fixed (classes : list (string -> bool)) : matcher := fun text => if fits classes text then Some (length classes) else None.

Section redaction.
(** The digits beyond ASCII that [\d] matches. *)
Variable unicode_digit : string -> bool.
Variable float_repr : Q -> string.

Definition in_range (lo hi : ascii) (c : string) : bool :=
  match c with String a EmptyString => (nat_of_ascii lo <=? nat_of_ascii a)%nat && (nat_of_ascii a <=? nat_of_ascii hi)%nat | _ => false end.

Definition digit (c : string) : bool := match c with String a EmptyString => in_range "0" "9" c | _ => unicode_digit c end.

Definition PHONE : list (string -> bool) := [String.eqb "1"; in_range "3" "9"] ++ repeat digit 9.
Definition ID_CARD : list (string -> bool) := in_range "1" "9" :: repeat digit 16 ++ [fun c => digit c || str_in c ["X"; "x"]].

Definition letter (c : string) : bool := in_range "A" "Z" c || in_range "a" "z" c.
Definition alnum (c : string) : bool := letter c || in_range "0" "9" c.
Definition EMAIL : re :=
  RegExp.seq [plus (RSet (fun c => alnum c || str_in c ["."; "_"; "%"; "+"; "-"])); lit "@";
              plus (RSet (fun c => alnum c || str_in c ["."; "-"])); lit "."; at_least 2 (RSet letter)].

Definition replace_all (m : matcher) (placeholder : string) (text : list string) : list string := sub_from m (chars placeholder) O text.

(** [_redact_value] *)
Definition redact_chars (text : list string) : list string :=
  replace_all (longest EMAIL) "[EMAIL]" (replace_all (fixed ID_CARD) "[IDCARD]" (replace_all (fixed PHONE) "[PHONE]" text)).

Definition redact_value (value : pyval) : string :=
  match value with VNone => "" | _ => concat_chars (redact_chars (chars (py_str float_repr value))) end.

(** [_build_audit_record] *)
Definition raw_record (st : pystate) : pydict :=
  [("trace_id", sgetv st "trace_id" (VStr "")); ("evidence_snapshot_id", sgetv st "evidence_snapshot_id" (VStr ""));
   ("enforcement_mode", sgetv st "enforcement_mode" (VStr "")); ("policy_action", sgetv st "policy_action" (VStr ""));
   ("claim_verdicts", sgetv st "claim_verdicts" (VList [])); ("citation_metrics", vor (sgetv st "citation_metrics" (VDict [])) (VDict []));
   ("user_question", sgetv st "user_question" (VStr ""))].

Definition redact_field (kv : string * pyval) : string * pyval :=
  match kv.2 with
  | VStr _ => if should_redact kv.1 then (kv.1, VStr (redact_value kv.2)) else kv
  | _ => kv
  end.

Definition build_audit_record (st : pystate) : pydict := map redact_field (raw_record st).

(** ** The node *)

(** [len(v)], and [len(v) if v else 0]. *)
Definition value_len (v : pyval) : result Z :=
  match v with
  | VStr s => Ok (text_len s)
  | VList l => Ok (py_len l)
  | VDict d => Ok (py_len d)
  | _ => Raise (TypeError "len")
  end.
Definition len_or_zero (v : pyval) : result Z := if truthy v then value_len v else Ok 0%Z.

(** [int((now - start) * 1000)] *)
Definition elapsed_ms (now start : Q) : Z := match to_int (fun _ => None) (VFloat (fmul (fsub now start) 1000)) with Ok z => z | Raise _ => 0%Z end.

(** The time since the question, or, when its time is not known, of this node
    and of those that reported theirs. *)
Definition e2e_latency_ms (start now : Q) (st : pystate) : result Z :=
  let graph_start_time := sgetv st "graph_start_time" VNone in
  if truthy graph_start_time then
    let! t := as_float graph_start_time in Ok (elapsed_ms now t)
  else
    let! timings := as_dict (sgetv st "node_timings" (VDict [])) in
    let! values := rmap (fun kv => as_int kv.2) timings in
    Ok (elapsed_ms now start + fold_left Z.add values 0)%Z.

Definition log_data (latency : Z) (st : pystate) : result pydict :=
  let g k d := sgetv st k d in
  let! answer_length := value_len (g "generated_answer" (VStr "")) in
  let! verdicts := len_or_zero (g "claim_verdicts" (VList [])) in
  let! catalog := len_or_zero (g "citation_catalog" (VList [])) in
  Ok [("trace_id", g "trace_id" (VStr "")); ("route_target", g "route_target" (VStr "chitchat")); ("retry_count", g "retry_count" (VInt 0));
      ("e2e_latency_ms", VInt latency); ("node_timings", g "node_timings" (VDict [])); ("rag_quality_score", g "rag_quality_score" (VFloat 0));
      ("db_quality_score", g "db_quality_score" (VFloat 0)); ("hallucination_score", g "hallucination_score" (VFloat 0));
      ("hallucination_action", g "hallucination_action" (VStr "pass")); ("answer_length", VInt answer_length);
      ("evidence_snapshot_id", g "evidence_snapshot_id" (VStr "")); ("enforcement_mode", g "enforcement_mode" (VStr ""));
      ("claim_verdicts_count", VInt verdicts); ("citation_catalog_count", VInt catalog);
      ("citation_metrics", vor (g "citation_metrics" (VDict [])) (VDict [])); ("policy_action", g "policy_action" (VStr ""));
      ("verifier_status", g "verifier_status" (VStr "")); ("reject_reason", g "reject_reason" (VStr ""))].

(** What the node writes, and what it logs and audits. *)
Record Observed : Type := mkObserved { ob_update : pydict; ob_log : pydict; ob_audit : pydict; ob_unknown_action : bool }.

Definition observability_node (start now : Q) (ms : Z) (st : pystate) : result Observed :=
  let! node_timings := as_dict (sgetv st "node_timings" (VDict [])) in
  let! latency := e2e_latency_ms start now st in
  let policy_action := sgetv st "policy_action" (VStr "") in
  if negb (hashable policy_action) && truthy policy_action then Raise (TypeError "unhashable")
  else
    let! log := log_data latency st in
    Ok (mkObserved [("node_timings", VDict (dset "observability" (VInt ms) node_timings))] log (build_audit_record st)
          (truthy policy_action && negb (is_one_of policy_action TERMINAL_ACTIONS))).
End redaction.

(** ** Lemmas: what is replaced is gone *)

(** The classes fit somewhere in the text. *)
Fixpoint occurs (classes : list (string -> bool)) (text : list string) : bool :=
  fits classes text || match text with [] => false | _ :: text' => occurs classes text' end.

(** Texts that no character class accepts any character of. *)
Definition foreign (classes : list (string -> bool)) (text : list string) : Prop :=
  text <> [] /\ forall p c, p ∈ classes -> c ∈ text -> p c = false.

Lemma foreign_tail p classes text : foreign (p :: classes) text -> foreign classes text.
Proof. intros [H1 H2]. split; [done|]. intros q c Hq. apply H2. by right. Qed.

(** Replacing what any matcher finds by a foreign text makes no new fit. *)
Lemma fits_sub m repl classes text : foreign classes repl -> fits classes (sub_from m repl O text) = true -> fits classes text = true.
Proof.
  revert text. induction classes as [|p classes IH]; intros text Hf H; [done|]. destruct text as [|c text]; [done|].
  cbn [sub_from] in H. destruct (m (c :: text)) as [[|n]|].
  1, 3: cbn [fits] in *; apply andb_true_iff in H as [-> H]; apply IH; [by eapply foreign_tail|done].
  exfalso. destruct Hf as [Hne Hf]. destruct repl as [|x repl]; [done|]. cbn [app fits] in H. rewrite (Hf p x) in H by (by left). done.
Qed.

Lemma occurs_app_foreign classes repl text : classes <> [] -> foreign classes repl -> occurs classes (repl ++ text) = true -> occurs classes text = true.
Proof.
  intros Hc [_ Hf]. revert Hf. induction repl as [|x repl IH]; intros Hf H; [done|]. cbn [app occurs] in H. apply orb_true_iff in H as [H|H].
  - destruct classes as [|p classes]; [done|]. cbn [fits] in H. rewrite (Hf p x) in H by (by left). done.
  - apply IH; [|done]. intros q c Hq Hin. apply Hf; [done|by right].
Qed.

Lemma occurs_sub m repl classes skip text : classes <> [] -> foreign classes repl ->
  occurs classes (sub_from m repl skip text) = true -> occurs classes text = true.
Proof.
  intros Hc Hf. revert skip. induction text as [|c text IH]; intros skip H; [done|]. cbn [occurs]. apply orb_true_iff.
  destruct skip as [|k]; [|right; by apply (IH k)].
  cbn [sub_from] in H. destruct (m (c :: text)) as [[|n]|] eqn:E.
  2: { right. apply (IH n). by apply (occurs_app_foreign classes repl). }
  all: cbn [occurs] in H; apply orb_true_iff in H as [H|H]; [left|right; by apply (IH O)];
    apply (fits_sub m repl); [done|]; cbn [sub_from]; by rewrite E.
Qed.

(** After a pattern of fixed length is replaced it occurs nowhere. *)
Lemma fixed_sub_gone repl classes skip text : classes <> [] -> foreign classes repl ->
  occurs classes (sub_from (fixed classes) repl skip text) = false.
Proof.
  intros Hc Hf. revert skip. induction text as [|c text IH]; intros skip; [by destruct classes|].
  destruct skip as [|k]; [|by apply IH]. cbn [sub_from]. destruct (fixed classes (c :: text)) as [[|n]|] eqn:E.
  - unfold fixed in E. destruct (fits _ _); [|done]. destruct classes; done.
  - destruct (occurs _ (repl ++ _)) eqn:Eo; [|done]. apply occurs_app_foreign in Eo; [|done..]. by rewrite IH in Eo.
  - cbn [occurs]. rewrite IH, orb_false_r. destruct (fits classes (c :: _)) eqn:Ef; [|done].
    assert (fits classes (c :: text) = true) as H; [|unfold fixed in E; by rewrite H in E].
    apply (fits_sub (fixed classes) repl); [done|]. cbn [sub_from]. by rewrite E.
Qed.

Lemma in_repeat {A} (p q : A) n : p ∈ repeat q n -> p = q.
Proof. intros H. by eapply repeat_spec, list_elem_of_In. Qed.

(** The placeholders are foreign to the patterns. *)
Ltac foreign_class := intros c Hc; repeat (apply elem_of_cons in Hc as [->|Hc]; [done|]); by apply elem_of_nil in Hc.

Lemma phone_foreign ud s : s ∈ ["[PHONE]"; "[IDCARD]"; "[EMAIL]"] -> foreign (PHONE ud) (chars s).
Proof.
  intros Hs. assert (forall p, p ∈ PHONE ud -> p = String.eqb "1" \/ p = in_range "3" "9" \/ p = digit ud) as Hp.
  { intros p Hp. apply elem_of_app in Hp as [Hp|Hp]; [|right; right; by eapply in_repeat]. set_solver. }
  repeat (apply elem_of_cons in Hs as [->|Hs]); try by apply elem_of_nil in Hs.
  all: split; [done|]; intros p c H; apply Hp in H as [->|[->| ->]]; revert c; foreign_class.
Qed.

Lemma id_foreign ud s : s ∈ ["[IDCARD]"; "[EMAIL]"] -> foreign (ID_CARD ud) (chars s).
Proof.
  intros Hs. assert (forall p, p ∈ ID_CARD ud -> p = in_range "1" "9" \/ p = digit ud \/ p = (fun c => digit ud c || str_in c ["X"; "x"])) as Hp.
  { intros p Hp. apply elem_of_cons in Hp as [->|Hp]; [by left|]. apply elem_of_app in Hp as [Hp|Hp]; [right; left; by eapply in_repeat|].
    apply list_elem_of_singleton in Hp. by right; right. }
  repeat (apply elem_of_cons in Hs as [->|Hs]); try by apply elem_of_nil in Hs.
  all: split; [done|]; intros p c H; apply Hp in H as [->|[->| ->]]; revert c; foreign_class.
Qed.

(** [C10] Whatever the text, after the redaction it contains no phone number and no
    number of an identity card: none is missed, and none arises when the
    neighbouring text is replaced. *)
Theorem redacted_text_clean ud text : occurs (PHONE ud) (redact_chars ud text) = false /\ occurs (ID_CARD ud) (redact_chars ud text) = false.
Proof.
  unfold redact_chars, replace_all. split.
  - destruct (occurs _ _) eqn:E; [|done]. apply occurs_sub in E; [|done|apply phone_foreign; set_solver].
    apply occurs_sub in E; [|done|apply phone_foreign; set_solver]. rewrite fixed_sub_gone in E; [done|done|apply phone_foreign; set_solver].
  - destruct (occurs _ _) eqn:E; [|done]. apply occurs_sub in E; [|done|apply id_foreign; set_solver].
    rewrite fixed_sub_gone in E; [done|done|apply id_foreign; set_solver].
Qed.

(** The phone pattern is tried first and finds the birth date of a number of
    the 20th century: the identity pattern never sees it, and the region, the
    sequence and the check digit stay. *)
Example id_number_partly_kept :
  redact_value (fun _ => false) (fun _ => "") (VStr "440524196807080012") = "440524[PHONE]2" /\
  redact_value (fun _ => false) (fun _ => "") (VStr "440524200807080012 a.b@c.com.x") = "[IDCARD] [EMAIL].x".
Proof. split; vm_compute; reflexivity. Qed.

(** ** The node *)

Lemma observability_update ud fr start now ms st o : observability_node ud fr start now ms st = Ok o ->
  exists timings, sgetv st "node_timings" (VDict []) = VDict timings /\ ob_update o = [("node_timings", VDict (dset "observability" (VInt ms) timings))] /\
    ob_audit o = build_audit_record ud fr st.
Proof.
  unfold observability_node. intros H. apply rbind_ok in H as (timings & Ht & H). exists timings. apply rbind_ok in H as (lat & _ & H).
  destruct (negb _ && _); [done|]. apply rbind_ok in H as (log & _ & H). injection H as <-. split_and!; try done.
  destruct (sgetv st "node_timings" (VDict [])); try done. cbn in Ht. by injection Ht as ->.
Qed.

Lemma dlookup_redacted ud fr k d : dlookup k (map (redact_field ud fr) d) = option_map (fun v => (redact_field ud fr (k, v)).2) (dlookup k d).
Proof.
  induction d as [|[x v] d IH]; [done|]. cbn [map]. assert ((redact_field ud fr (x, v)).1 = x) as Hx.
  { unfold redact_field. cbn [fst snd]. destruct v; try done. by destruct (should_redact x). }
  destruct (redact_field ud fr (x, v)) as [x' w] eqn:E. cbn [fst] in Hx. subst x'. cbn [dlookup]. destruct (String.eqb_spec k x) as [->|]; [|done].
  cbn [option_map]. by rewrite E.
Qed.

(** The question is audited without the numbers it contains. *)
Lemma audited_question ud fr st q : st !! "user_question" = Some (VStr q) ->
  dlookup "user_question" (build_audit_record ud fr st) = Some (VStr (concat_chars (redact_chars ud (chars q)))).
Proof.
  intros H. unfold build_audit_record. rewrite dlookup_redacted.
  assert (dlookup "user_question" (raw_record st) = Some (VStr q)) as ->; [|reflexivity].
  unfold raw_record. cbn [dlookup]. repeat (rewrite (proj2 (String.eqb_neq _ _)) by done). rewrite String.eqb_refl. unfold sgetv. by rewrite H.
Qed.
