(* ===== verification/Reflection.v ===== *)
(** * Reflection on the tool results (nodes/reflection.py, api/utils/reflection.py)

    After the tools the model is asked what they found and whether it
    suffices.  The node collects what the tools wrote, reads the reply, and
    falls back to a default when there is none.  The reply, and the repair of
    its JSON text, are arguments. *)

From S2P Require Import Prelude PyFloat PyVal PyList PyText PyRegex RegExp AgentState RouteModels PreFilter LlmRouter.

Definition VALID_NEXT_ACTIONS : list string := ["proceed_to_generate"; "need_more_retrieval"; "need_web_search"].

Section reflection.
Variable unicode_space : string -> bool.
Variable float_repr : Q -> string.
Variable json_repair : string -> option pyval.

(** ** What the tools found *)

(** The texts of the first [k] documents, 500 characters each. *)
Definition doc_text (doc : pyval) : result string :=
  let! content := vget doc "content" (VStr "") in
  let! s := as_str content in Ok (text_take 500 s).

Definition joined_docs (k : Z) (docs : pyval) : result string :=
  match docs with
  | VList l => let! texts := rmap doc_text (py_take k l) in Ok (join newline_char texts)
  | _ => Raise (TypeError "docs")
  end.

Definition tool_content (tr : pyval) : result (list (pyval * string)) :=
  let! tool := vget tr "tool" (VStr "unknown") in
  let! rag_docs := vget tr "rag_docs" VNone in
  let! web_docs := vget tr "web_docs" VNone in
  let! db_result := vget tr "db_result" (VStr "") in
  let! content :=
    (if is_str tool "rag" && truthy rag_docs then joined_docs 3 rag_docs
     else if is_str tool "database" then Ok (text_take 2000 (py_str float_repr db_result))
     else if is_str tool "web" && truthy web_docs then joined_docs 3 web_docs
     else Ok "") in
  Ok (if truthy content then [(tool, content)] else []).

Definition collect_tool_results (st : pystate) : result (list (pyval * string)) :=
  let docs_of tool key :=
    let docs := sgetv st key (VList []) in
    if truthy docs then let! c := joined_docs 5 docs in Ok [(VStr tool, c)] else Ok [] in
  let db_result := sgetv st "db_result" (VDict []) in
  let! rag := docs_of "rag" "rag_docs" in
  let! db := (if truthy db_result
              then let! rows := vget db_result "rows" db_result in Ok [(VStr "database", text_take 2000 (py_str float_repr rows))]
              else Ok []) in
  let! web := docs_of "web" "web_docs" in
  let tool_results := sgetv st "tool_results" (VList []) in
  let! planned := (if truthy tool_results then let! l := py_iter tool_results in let! cs := rmap tool_content l in Ok (concat cs) else Ok []) in
  Ok (rag ++ db ++ web ++ planned).

(** ** Reading the reply *)

(** What follows the last occurrence of a text. *)
Fixpoint after_last (pattern text : list string) : option (list string) :=
  match text with
  | [] => if literal pattern [] then Some [] else None
  | c :: text' =>
    match after_last pattern text' with
    | Some r => Some r
    | None => if literal pattern text then Some (drop (length pattern) text) else None
    end
  end.

(** [re.sub("^.*```json\s*", "")], [re.sub("```\s*$", "")] and [re.sub("^.*```", "")]. *)
Definition drop_opening (text : list string) : list string :=
  match after_last (chars "```json") text with Some r => drop_spaces unicode_space r | None => text end.
Definition drop_closing (text : list string) : list string :=
  let reversed := drop_spaces unicode_space (rev text) in
  if literal (chars "```") reversed then rev (drop 3 reversed) else text.
Definition drop_fences (text : list string) : list string :=
  match after_last (chars "```") text with Some r => r | None => text end.

Definition reflection_dict (key_findings : list string) (info_sufficient : bool) (gaps : list string) (next_action text : string) : pydict :=
  [("key_findings", VStrs key_findings); ("info_sufficient", VBool info_sufficient); ("gaps", VStrs gaps); ("next_action", VStr next_action);
   ("reflection_text", VStr text)].

Definition default_result (raw_text : string) : pydict := reflection_dict [] true [] "proceed_to_generate" raw_text.

(** A list as it is, anything else that is truthy as a list of its text. *)
Definition text_items (v : pyval) : list string :=
  match v with VList l => map (py_str float_repr) l | _ => if truthy v then [py_str float_repr v] else [] end.

(** The text that is read as JSON. *)
Definition cleaned_text (raw_text : string) : string :=
  concat_chars (drop_fences (drop_closing (drop_opening (chars raw_text)))).

Definition parse_reflection_result (raw_text : string) : result pydict :=
  match json_repair (cleaned_text raw_text) with
  | Some (VDict obj) =>
    let g k d := get_or (dlookup k obj) d in
    let next_action := g "next_action" (VStr "proceed_to_generate") in
    if negb (hashable next_action) then Raise (TypeError "unhashable")
    else
      Ok (reflection_dict (text_items (g "key_findings" (VList []))) (truthy (g "info_sufficient" (VBool true))) (text_items (g "gaps" (VList [])))
            (match next_action with VStr a => if str_in a VALID_NEXT_ACTIONS then a else "proceed_to_generate" | _ => "proceed_to_generate" end) raw_text)
  | _ => Ok (default_result raw_text)
  end.

(** [call_reflection_llm]: the text of the reply, or nothing when the call fails. *)
Definition call_reflection_llm (reply : model_reply) : option string :=
  match reply with
  | Content text =>
    if startswith "**ERROR**" text then None
    else Some (py_strip unicode_space (concat_chars (drop_closing (drop_opening (chars text)))))
  | _ => None
  end.

(** ** Fallbacks and the node *)

Definition fallback_reflection (tool_results : list (pyval * string)) : pydict :=
  let preview c := String.append (text_take 80 c) (if (80 <? text_len c)%Z then "..." else "") in
  reflection_dict (map (fun r => join "" ["["; py_str float_repr r.1; "] "; preview r.2]) (List.filter (fun r => truthy r.2) tool_results))
    true [] "proceed_to_generate" "（降级反思：未调用 LLM，默认信息充分）".

Definition safe_fallback : pydict := reflection_dict [] true [] "proceed_to_generate" "反思降级：LLM 不可用，默认信息充分".

Definition reflect (reply : model_reply) (tool_results : list (pyval * string)) : pydict :=
  match call_reflection_llm reply with
  | Some text => match parse_reflection_result text with Ok r => r | Raise _ => fallback_reflection tool_results end
  | None => fallback_reflection tool_results
  end.

Definition reflection_node (reply : model_reply) (ms : Z) (st : pystate) : result pydict :=
  let! tool_results := collect_tool_results st in
  let result :=
    match tool_results with
    | [] => VNone
    | _ => VDict (if negb (truthy (sgetv st "tenant_id" (VStr ""))) || negb (truthy (sgetv st "llm_id" (VStr ""))) then safe_fallback
                  else reflect reply tool_results)
    end in
  Ok [("reflection_result", result); timing "reflection" ms].
End reflection.

(** ** What a reflection is *)

Inductive reflection_typed : pyval -> Prop :=
  | no_reflection : reflection_typed VNone
  | reflection key_findings info_sufficient gaps next_action text : next_action ∈ VALID_NEXT_ACTIONS ->
      reflection_typed (VDict (reflection_dict key_findings info_sufficient gaps next_action text)).

Lemma reflection_dict_typed kf s g a t : str_in a VALID_NEXT_ACTIONS = true -> reflection_typed (VDict (reflection_dict kf s g a t)).
Proof. intros H. constructor. by apply str_in_spec. Qed.

#[local] Hint Resolve reflection_dict_typed no_reflection : core.

Lemma parse_typed us fr jr text r : parse_reflection_result us fr jr text = Ok r -> reflection_typed (VDict r).
Proof.
  unfold parse_reflection_result, default_result. destruct (jr _) as [[| | | | | |obj]|]; try (intros [= <-]; by eauto).
  destruct (negb _); [done|]. intros [= <-]. apply reflection_dict_typed. destruct (get_or (dlookup "next_action" obj) _); try done.
  match goal with |- str_in (if ?b then _ else _) _ = true => destruct b eqn:E end; [exact E|done].
Qed.

(** The reply holds a JSON object: the call succeeded, and the text it left
    between the fences reads as one. *)
Definition reply_object (us : string -> bool) (jr : string -> option pyval) (reply : model_reply) : option (string * pydict) :=
  match call_reflection_llm us reply with
  | Some text => match jr (cleaned_text us text) with Some (VDict obj) => Some (text, obj) | _ => None end
  | None => None
  end.

(** The result when there is something to reflect on and a model to ask. *)
Lemma reflect_cases us fr jr reply trs :
  match reply_object us jr reply with
  | Some (text, obj) =>
    (hashable (get_or (dlookup "next_action" obj) (VStr "proceed_to_generate")) = false /\ reflect us fr jr reply trs = fallback_reflection fr trs) \/
    exists action, reflect us fr jr reply trs =
        reflection_dict (text_items fr (get_or (dlookup "key_findings" obj) (VList [])))
          (truthy (get_or (dlookup "info_sufficient" obj) (VBool true))) (text_items fr (get_or (dlookup "gaps" obj) (VList []))) action text /\
      action ∈ VALID_NEXT_ACTIONS /\
      (forall given, dlookup "next_action" obj = Some (VStr given) -> given ∈ VALID_NEXT_ACTIONS -> action = given)
  | None => exists findings text, reflect us fr jr reply trs = reflection_dict findings true [] "proceed_to_generate" text
  end.
Proof.
  unfold reply_object, reflect. destruct (call_reflection_llm us reply) as [text|]; [|by eexists _, _]. unfold parse_reflection_result.
  destruct (jr (cleaned_text us text)) as [[| | | | | |obj]|]; try (by eexists _, _).
  destruct (hashable _) eqn:Eh; cbn [negb]; [right|by left]. eexists. split; [reflexivity|].
  destruct (get_or (dlookup "next_action" obj) _) as [| | | |a| |] eqn:Ea; try (split; [str_mem|intros given Hg; rewrite Hg in Ea; discriminate Ea]).
  destruct (str_in a VALID_NEXT_ACTIONS) eqn:E.
  - split; [by apply str_in_spec|]. intros given Hg. rewrite Hg in Ea. by injection Ea as ->.
  - split; [str_mem|]. intros given Hg. rewrite Hg in Ea. injection Ea as ->. intros Hin%str_in_spec. by rewrite Hin in E.
Qed.


Definition example_tool_state : pystate :=
  {["rag_docs" := VList [VDict [("content", VStr "年假五天")]]; "tenant_id" := VStr "acme"; "llm_id" := VStr "m1"]}.

(** A model that asks for more, and a reader of its reply. *)
Definition example_reply : model_reply := Content "more".
Definition example_json (text : string) : option pyval :=
  if String.eqb text "more" then Some (VDict [("info_sufficient", VBool false); ("next_action", VStr "need_web_search")]) else None.


(** A remark after the closing fence: everything up to the fence is dropped,
    the object with it, and the reply counts as "sufficient". *)
Example remark_loses_reflection :
  let reply := join newline_char ["```json"; "{'info_sufficient': false}"; "```"; "说明：资料不足"] in
  concat_chars (drop_fences (drop_closing (fun _ => false) (drop_opening (fun _ => false) (chars reply)))) = String.append newline_char "说明：资料不足".
Proof. reflexivity. Qed.
