(* ===== verification/ReactStep.v ===== *)
(** * One step of the ReAct loop (react/step.py, react/executor.py)

    The prompt, the reading of the model's reply as an action, and the
    execution of an action by a tool.  The model, [json.loads] and the tools
    are arguments.  [ReactStep.step_run] is the loop of [ReactLoop] with these
    two halves in place. *)

From Stdlib Require Import Ascii.
From stdpp Require Import pretty.
From S2P Require Import Prelude PyFloat PyVal PyList PyText PyRegex RegExp Evidence AgentState EvidenceFusion ReactBudget ReactPolicy ReactLoop PreFilter.

(** ** The prompt *)

Definition history_lines (i : Z) (h : HistoryEntry) : list string :=
  [join "" ["- Step "; pretty i; ": "; text_take 150 (he_thought_summary h or_else he_purpose h)]; String.append "  → Action: " (he_action_type h)] ++
  (if truthy (he_result_summary h) then [String.append "  → Result: " (text_take 300 (he_result_summary h))] else []).

Definition evidence_lines (i : Z) (e : Evidence) : list string :=
  [join "" ["- Evidence "; pretty i; " ("; get_or (ev_source_type e) "unknown"; "): "; get_or (ev_title e) ""];
   String.append "  Content: " (text_take 200 (get_or (ev_content e) ""))].

Fixpoint numbered {A} (f : Z -> A -> list string) (i : Z) (l : list A) : list string :=
  match l with [] => [] | x :: l' => f i x ++ numbered f (i + 1) l' end.

Definition quoted (s : string) : string := String double_quote (String.append s (String double_quote "")).

Definition TASK_LINES : list string :=
  ["# Task"; ""; "Decide the next action. Output a single JSON object:"; ""; "```json"; "{";
   join "" ["  "; quoted "thought_summary"; ": "; quoted "<1-2 sentence summary>"; ","];
   join "" ["  "; quoted "action"; ": {"];
   join "" ["    "; quoted "type"; ": "; join " | " (map quoted ["rag_search"; "db_query"; "web_search"; "ask_clarification"; "finish"]); ","];
   join "" ["    "; quoted "tool_name"; ": "; quoted "<same as type>"; ","];
   join "" ["    "; quoted "purpose"; ": "; quoted "<natural language description>"; ","];
   join "" ["    "; quoted "arguments"; ": { ... }"]; "  },";
   join "" ["  "; quoted "stop"; ": true | false"]; "}"; "```"; ""; "# Rules";
   "1. JSON Only. No preamble, no explanation, no markdown.";
   join "" ["2. Set `stop: true` and `action.type: "; quoted "finish"; "` when evidence is sufficient."];
   "3. For db_query, only SELECT statements; must include LIMIT."; "4. thought_summary max 200 chars."; ""; "Output:"].

(** [_render_prompt]; the budget is the snapshot the run started with. *)
Definition render_prompt (goal : string) (snapshot : ReactBudget) (allowed_tools : list string) (history : list HistoryEntry)
    (evidence : list Evidence) : string :=
  let progress what n limit := join "" ["- "; what; ": "; pretty n; " / "; pretty limit] in
  join newline_char
    (["# ReAct Step"; ""; String.append "**Goal**: " goal; ""; "**Progress**:"; progress "Step" (step_count snapshot) (max_steps snapshot);
      progress "Tool calls" (tool_call_count snapshot) (max_tool_calls snapshot);
      progress "DB queries" (db_query_count snapshot) (max_db_queries snapshot); "";
      String.append "**Allowed Tools**: " (match allowed_tools with [] => "(none)" | _ => join ", " allowed_tools end); "";
      "**Action History**:"] ++
     (match history with [] => ["（无）"] | _ => numbered history_lines 1 history end) ++ [""; "**Available Evidence**:"] ++
     (match evidence with [] => ["（无）"] | _ => numbered evidence_lines 1 evidence end) ++ [""] ++ TASK_LINES).

Section step.
Variable unicode_space : string -> bool.
Variable float_repr : Q -> string.
Variable json_loads : string -> option pyval.

(** ** Reading the reply *)

(** After the opening fence: the text up to the first closing brace that is
    followed by a closing fence. *)
Fixpoint lazy_object (acc text : list string) : option (list string) :=
  match text with
  | [] => None
  | c :: text' =>
    if String.eqb c "}" && literal (chars "```") (drop_spaces unicode_space text') then Some (rev (c :: acc))
    else lazy_object (c :: acc) text'
  end.

(** Group 1 of the match of the fenced block at the start of a text. *)
Definition block_here (text : list string) : option (list string) :=
  if literal (chars "```") text then
    let rest := drop 3 text in
    let rest := if literal (chars "json") rest then drop 4 rest else rest in
    match drop_spaces unicode_space rest with
    | "{" :: text' => lazy_object ["{"] text'
    | _ => None
    end
  else None.

Fixpoint first_block (text : list string) : option (list string) :=
  match block_here text with
  | Some b => Some b
  | None => match text with [] => None | _ :: text' => first_block text' end
  end.

(** The text from an opening brace to the one that closes it. *)
Fixpoint balanced (depth : Z) (acc text : list string) : option (list string) :=
  match text with
  | [] => None
  | c :: text' =>
    let depth := if String.eqb c "{" then (depth + 1)%Z else if String.eqb c "}" then (depth - 1)%Z else depth in
    if String.eqb c "}" && (depth =? 0)%Z then Some (rev (c :: acc)) else balanced depth (c :: acc) text'
  end.

Fixpoint first_object (text : list string) : option pyval :=
  match text with
  | [] => None
  | c :: text' =>
    match (if String.eqb c "{" then balanced 0 [] text else None) with
    | Some candidate => match json_loads (concat_chars candidate) with Some v => Some v | None => first_object text' end
    | None => first_object text'
    end
  end.

(** [_extract_json]: an absent result and a JSON null are the same. *)
Definition extract_json (text : string) : pyval :=
  if negb (truthy text) then VNone
  else
    let text := py_strip unicode_space text in
    match json_loads text with
    | Some v => v
    | None =>
      match match first_block (chars text) with Some b => json_loads (concat_chars b) | None => None end with
      | Some v => v
      | None => get_or (first_object (chars text)) VNone
      end
    end.

(** [_coerce_to_action]; the flag [stop] is not read. *)
Definition coerce_to_action (parsed : pyval) : option ReactAction :=
  match parsed with
  | VDict d =>
    let g k := get_or (dlookup k d) VNone in
    let action_section := match g "action" with VDict a => a | _ => [] end in
    let ga k := get_or (dlookup k action_section) VNone in
    let action_type :=
      match vor (vor (vor (vor (ga "type") (g "type")) (g "action_type")) (g "tool_name")) (VStr "") with
      | VStr s => py_strip unicode_space s
      | _ => ""
      end in
    if negb (truthy action_type) then None
    else
      let thought :=
        match vor (vor (vor (g "thought_summary") (g "thought")) (g "reasoning")) (VStr "") with
        | VStr s => VStr (if (200 <? text_len s)%Z then text_take 200 s else s)
        | v => v
        end in
      let purpose := vor (vor (ga "purpose") (g "purpose")) (VStr "") in
      let arguments :=
        match vor (ga "arguments") (g "arguments") with
        | VNone => VDict (List.filter (fun kv => negb (str_in kv.1 ["type"; "tool_name"; "purpose"])) action_section)
        | v => v
        end in
      let arguments := match arguments with VDict a => a | v => [("value", v)] end in
      Some (mkAction action_type false (py_str float_repr thought) (py_str float_repr purpose) arguments)
  | _ => None
  end.

Definition finish_action (summary : string) : ReactAction :=
  mkAction "finish" false (if truthy summary then text_take 200 summary else "Finish") (summary or_else "结束 ReAct")
    [("summary", VStr summary); ("answer_hint", VStr "")].

Definition parse_llm_output (llm_output : string) : ReactAction :=
  match extract_json llm_output with
  | VNone => finish_action "LLM 输出解析失败，强制结束"
  | parsed => match coerce_to_action parsed with Some a => a | None => finish_action "Action 字段缺失，强制结束" end
  end.

(** [reason_step]: the model is given the prompt; a failed call raises. *)
Definition reason_step (llm : string -> result string) (goal : string) (snapshot : ReactBudget) (allowed_tools : list string) (s : ReactState) :
    result ReactAction :=
  let! output := llm (render_prompt goal snapshot allowed_tools (rs_action_history s) (rs_evidence s)) in
  Ok (parse_llm_output output).

(** ** Executing an action *)

Inductive tool_reply : Type := Replied (raw : pyval) | ToolTimedOut | ToolRaised (text : string).

Variable int_of_text : string -> option Z.
Variable float_of_text : string -> option Q.
Variables rag_tool db_runner web_tool : pydict -> tool_reply.
Variable exc_text : pyexc -> string.
Variable normalize : string -> pydict -> string -> result (list Evidence).

Definition MAX_OBSERVATION_CHARS : Z := 3000.

Definition arg (arguments : pydict) (key : string) (default : pyval) : pyval := get_or (dlookup key arguments) default.

Definition rag_input (arguments : pydict) (tenant_id llm_id : string) (kb_ids : list string) : result pydict :=
  let a := arg arguments in
  let! top_k := to_int int_of_text (a "top_k" (VInt 5)) in
  let! similarity_threshold := to_float float_of_text (a "similarity_threshold" (VFloat (rnd (2 # 10)))) in
  let! weight := to_float float_of_text (a "keywords_similarity_weight" (VFloat (1 # 2))) in
  Ok [("query", vor (vor (a "query" VNone) (a "query_text" VNone)) (VStr "")); ("query_simplified", a "query_simplified" (VStr ""));
      ("top_k", VInt top_k); ("enable_rewrite", a "enable_rewrite" (VBool true)); ("enable_rerank", a "enable_rerank" (VBool true));
      ("kb_ids", vor (a "kb_ids" VNone) (VStrs kb_ids)); ("tenant_id", VStr tenant_id); ("llm_id", VStr llm_id);
      ("similarity_threshold", VFloat similarity_threshold); ("keywords_similarity_weight", VFloat weight); ("rerank_id", a "rerank_id" (VStr ""))].

Definition db_input (arguments : pydict) (tenant_id llm_id db_id mcp_server_name : string) : pydict :=
  let a := arg arguments in
  [("query", vor (vor (a "query" VNone) (a "sql" VNone)) (VStr "")); ("db_id", vor (a "db_id" VNone) (VStr db_id)); ("tenant_id", VStr tenant_id);
   ("llm_id", VStr llm_id); ("mcp_server_name", vor (a "mcp_server_name" VNone) (VStr mcp_server_name));
   ("enable_self_healing", a "enable_self_healing" (VBool true))].

Definition web_input (arguments : pydict) : result pydict :=
  let a := arg arguments in
  let! max_results := to_int int_of_text (a "max_results" (VInt 5)) in
  Ok [("query", vor (a "query" VNone) (VStr "")); ("max_results", VInt max_results); ("search_engine", a "search_engine" (VStr "tavily"));
      ("search_depth", a "search_depth" (VStr "basic"))].

(** A call whose request could not be built raises too. *)
Definition called (tool : pydict -> tool_reply) (request : result pydict) : tool_reply :=
  match request with Ok r => tool r | Raise e => ToolRaised (exc_text e) end.

Definition call_tool (a : ReactAction) (tenant_id llm_id : string) (kb_ids : option (list string)) (db_id mcp_server_name : string) : option tool_reply :=
  let args := ra_arguments a in
  if String.eqb (ra_type a) "rag_search" then Some (called rag_tool (rag_input args tenant_id llm_id (get_or kb_ids [])))
  else if String.eqb (ra_type a) "db_query" then Some (called db_runner (Ok (db_input args tenant_id llm_id db_id mcp_server_name)))
  else if String.eqb (ra_type a) "web_search" then Some (called web_tool (web_input args))
  else None.

Definition error_observation (error : string) (ms : Z) : ReactObservation := mkObservation false "" error ms None.

Definition truncate_observation_content (content : string) : string * bool :=
  if (text_len content <=? MAX_OBSERVATION_CHARS)%Z then (content, false)
  else (String.append (text_take MAX_OBSERVATION_CHARS content) "…", true).

Definition evidence_summary (e : Evidence) : string :=
  join "" ["["; get_or (ev_source_type e) ""; "] "; get_or (ev_title e) ""; ": "; text_take 500 (get_or (ev_content e) "")].

Definition observation_text (raw : pyval) (evidences : list Evidence) : result string :=
  match evidences with
  | [] => match raw with VDict d => as_str (get_or (dlookup "formatted_result" d) (VStr "")) | _ => Ok (py_str float_repr raw) end
  | _ => Ok (join (join "" [newline_char; newline_char]) (map evidence_summary evidences))
  end.

(** [ReactExecutor.execute] *)
Definition execute_action (tenant_id llm_id : string) (kb_ids : option (list string)) (db_id mcp_server_name : string) (ms : Z) (a : ReactAction) :
    result (ReactObservation * list Evidence) :=
  if str_in (ra_type a) ["finish"; "ask_clarification"] then Ok (mkObservation true (ra_purpose a) "" 0 None, [])
  else
    match call_tool a tenant_id llm_id kb_ids db_id mcp_server_name with
    | None => Ok (error_observation (String.append "未知 action_type: " (ra_type a)) ms, [])
    | Some ToolTimedOut => Ok (error_observation "工具调用超时（>30.0s）" ms, [])
    | Some (ToolRaised e) => Ok (error_observation (String.append "工具执行异常: " e) ms, [])
    | Some (Replied raw) =>
      let! evidences := normalize (ra_type a) (match raw with VDict d => d | _ => [("raw", raw)] end) tenant_id in
      let! text := observation_text raw evidences in
      Ok (mkObservation true (truncate_observation_content text).1 "" ms None, evidences)
    end.
End step.

(** ** The loop with both halves in place *)

Section run.
Variable unicode_space : string -> bool.
Variable float_repr : Q -> string.
Variable json_loads : string -> option pyval.
Variable execute : ReactState -> ReactAction -> result (ReactObservation * list Evidence).
Variable digest : pydict -> string.
Variable policy : PolicyContext -> result PolicyResult.

(** [ReactSubgraph.run] for a model: every prompt shows the budget the run
    started with. *)
Definition step_run (llm : string -> result string) (goal : string) (config : LoopGuardConfig) (tenant_id user_id : string)
    (allowed_tools : list string) (kb_ids : option (list string)) (db_id : string) (clock : nat -> Q) (deadline : option Q) (b : ReactBudget) :
    option (result ReactExecutionResult) :=
  react_run digest policy (reason_step unicode_space float_repr json_loads llm goal b allowed_tools) execute config tenant_id user_id
    allowed_tools kb_ids db_id clock deadline b.
End run.

(** ** Lemmas *)

(** An action that was read has a type and never asks to stop: the flag "stop"
    of the reply is lost, whatever the prompt says about it. *)
Lemma parsed_action us fr jl text : let a := parse_llm_output us fr jl text in truthy (ra_type a) = true /\ ra_stop a = false.
Proof.
  unfold parse_llm_output. assert (forall s, truthy (ra_type (finish_action s)) = true /\ ra_stop (finish_action s) = false) as Hf by done.
  assert (forall p a, coerce_to_action us fr p = Some a -> truthy (ra_type a) = true /\ ra_stop a = false) as Hc.
  { intros p a H. destruct p; try done. cbn [coerce_to_action] in H.
    match type of H with (if negb (truthy ?t) then _ else _) = _ => destruct (truthy t) eqn:E end; cbn [negb] in H; [|done].
    injection H as <-. done. }
  destruct (extract_json us jl text) as [| | | | | |d]; try (destruct (coerce_to_action us fr _) eqn:E; [by apply Hc in E|apply Hf]). apply Hf.
Qed.

(** The request to a tool names the tenant of the run, whatever the model wrote. *)
Lemma requests_keep_tenant iot fot args tenant llm kbs db mcp r :
  rag_input iot fot args tenant llm kbs = Ok r -> dlookup "tenant_id" r = Some (VStr tenant) /\
  dlookup "tenant_id" (db_input args tenant llm db mcp) = Some (VStr tenant).
Proof.
  unfold rag_input. intros H. apply rbind_ok in H as (? & _ & H). apply rbind_ok in H as (? & _ & H). apply rbind_ok in H as (? & _ & H).
  injection H as <-. done.
Qed.

(** A model whose first reply is read as "finish" ends the run before any tool
    is called: nothing was executed, nothing found, and the run does not count
    as a success. *)
Lemma finishing_run us fr jl execute digest policy llm goal config tid uid tools kbs db clock deadline b out
  (Hb : can_proceed (clock 0%nat) (match deadline with Some d => set_deadline d b | None => b end) = None)
  (Hc : check_loop_guard_termination (initial_guard config) config = None)
  (Hllm : llm (render_prompt goal b tools [] []) = Ok out) (Hout : ra_type (parse_llm_output us fr jl out) = "finish") :
  exists r, step_run us fr jl execute digest policy llm goal config tid uid tools kbs db clock deadline b = Some (Ok r) /\
    rr_success r = false /\ rr_evidence r = [] /\ rr_finish_reason r = "completed" /\ rs_executed (rr_state r) = [].
Proof.
  set (b' := match deadline with Some d => set_deadline d b | None => b end) in *.
  set (s1 := with_budget (increment_llm_call 0 b') (initial_state config b')).
  set (reason := reason_step us fr jl llm goal b tools).
  assert (react_round digest policy reason execute config tid uid tools kbs db (clock 0%nat) (initial_state config b') =
          Ok (Break "completed" "" "" s1)) as Hround.
  { unfold react_round. change (rs_budget (initial_state config b')) with b'. rewrite Hb.
    change (rs_loop_guard (initial_state config b')) with (initial_guard config). rewrite Hc. fold s1.
    assert (reason s1 = Ok (parse_llm_output us fr jl out)) as ->.
    { unfold reason, reason_step. change (rs_action_history s1) with (@nil HistoryEntry). change (rs_evidence s1) with (@nil Evidence). by rewrite Hllm. }
    unfold act. by rewrite Hout. }
  unfold step_run, react_run. fold b'. cbn [react_loop]. fold reason. rewrite Hround. eexists. split; [reflexivity|]. done.
Qed.

Lemma as_str_text v text : as_str v = Ok text -> v = VStr text.
Proof. destruct v; try done. by intros ->%Ok_inj. Qed.

(** Under the policy guard the database runner is sent the text the guard
    looked at, unless the action carries two different texts. *)
Lemma db_input_text args tid llm db mcp sql : text_arg args ["sql"; "query"] = Ok sql ->
  let sent := get_or (dlookup "query" (db_input args tid llm db mcp)) VNone in
  (exists text, sent = VStr text /\ sql = strip text) \/
  (truthy (ReactPolicy.arg args "sql" VNone) = true /\ truthy (ReactPolicy.arg args "query" VNone) = true /\
   ReactPolicy.arg args "sql" VNone <> ReactPolicy.arg args "query" VNone).
Proof.
  unfold text_arg, db_input, arg. cbn [fold_right dlookup String.eqb Ascii.eqb Bool.eqb get_or].
  fold (ReactPolicy.arg args "sql" VNone) (ReactPolicy.arg args "query" VNone).
  set (s := ReactPolicy.arg args "sql" VNone). set (q := ReactPolicy.arg args "query" VNone). intros H.
  apply rbind_Ok in H as (text & Ht & H). apply Ok_inj in H as <-.
  unfold vor in *. destruct (truthy s) eqn:Es, (truthy q) eqn:Eq; rewrite ?Es, ?Eq in *.
  { destruct (decide (s = q)) as [E|]; [|by right]. left. exists text. split; [|done].
    rewrite <- E. by apply as_str_text. }
  all: left; exists text; split; [by apply as_str_text|done].
Qed.

(** ** Properties *)

(** [C19] The policy guard on what a run executes and sends: every executed
    action is white-listed, and the request that goes to the database runner
    for an executed query carries a text with no dangerous keyword, and with a
    LIMIT if it is a SELECT; the one exception is an action with two different
    texts "sql" and "query", of which the guard reads the first and the
    executor sends the second. *)
Theorem executed_requests_guarded us fr jl iot fot rag_tool db_runner web_tool exc_text normalize uw agent_config skills g digest
    llm goal config tid uid tools kbs db llm_id mcp ms now cfg ml b clock deadline res a :
  let execute (_ : ReactState) := execute_action fr iot fot rag_tool db_runner web_tool exc_text normalize tid llm_id kbs db mcp ms in
  build_budget_from_config now cfg ml = Ok b ->
  step_run us fr jl execute digest (evaluate uw fr agent_config skills g) llm goal config tid uid tools kbs db clock deadline b = Some (Ok res) ->
  a ∈ rs_executed (rr_state res) ->
  let args := ra_arguments a in let given k := get_or (dlookup k args) VNone in
  ra_type a ∈ "finish" :: "ask_clarification" :: pg_allowed_tools g /\
  (ra_type a = "db_query" ->
   exists request sent,
     call_tool iot fot rag_tool db_runner web_tool exc_text a tid llm_id kbs db mcp = Some (db_runner request) /\
     dlookup "query" request = Some sent /\
     ((exists text, sent = VStr text /\ let sql := py_lower (strip text) in
         (forall kw, kw ∈ HIGH_RISK_KEYWORDS -> contains kw sql = false) /\
         (startswith "select" sql = true -> search_word uw "limit" sql = true)) \/
      (truthy (given "sql") = true /\ truthy (given "query") = true /\ given "sql" <> given "query"))).
Proof.
  intros execute Hb Hr Ha. cbn zeta. destruct (executed_by_guard _ _ _ _ _ _ _ _ _ _ _ _ _ _ _ _ _ _ _ _ _ _ Hb Hr Ha) as [Hw Hq].
  split; [done|]. intros Ht. destruct Hq as (sql & Hs & Hk & Hl); [by apply String.eqb_eq|].
  exists (db_input (ra_arguments a) tid llm_id db mcp). eexists. unfold call_tool. rewrite Ht. split; [done|]. split; [reflexivity|].
  destruct (db_input_text _ tid llm_id db mcp _ Hs) as [(text & E & ->)|?]; [left; exists text; split; [exact E|done]|by right].
Qed.

(** The exception is real: the guard passes the action below for its harmless
    first text, and the runner is sent the second one. *)
Definition two_texts : ReactAction :=
  mkAction "db_query" false "" "" [("sql", VStr "select 1 limit 1"); ("query", VStr "drop table users")].

Theorem guard_and_executor_read_different_texts uw fr tid llm_id kbs db mcp iot fot rag_tool db_runner web_tool exc_text :
  rbind (evaluate uw fr (VDict []) None plain_guard
    (mkPolicyContext tid "" "db_query" "db_query" "" (ra_arguments two_texts) [])) (fun r => Ok (pr_decision r)) = Ok ALLOW /\
  exists request, call_tool iot fot rag_tool db_runner web_tool exc_text two_texts tid llm_id kbs db mcp = Some (db_runner request) /\
    dlookup "query" request = Some (VStr "drop table users").
Proof. split; [reflexivity|]. eexists. split; reflexivity. Qed.

(** A run whose model queries once, with replies read from its prompt: the
    first prompt has no history. *)
Definition reply_once (prompt : string) : result string :=
  Ok (if contains "- Step 1" prompt then "stop" else "query").
Definition reply_json (text : string) : option pyval :=
  if String.eqb text "query"
  then Some (VDict [("action", VDict [("type", VStr "db_query"); ("arguments", VDict [("sql", VStr "select name from orders limit 5")])])])
  else None.
Definition no_rows (_ : pydict) : tool_reply := Replied (VDict []).
Definition guarded_step_run : option (result ReactExecutionResult) :=
  step_run (fun _ => false) (fun _ => "") reply_json
    (fun _ => execute_action (fun _ => "") (fun _ => None) (fun _ => None) no_rows no_rows no_rows (fun _ => "") (fun _ _ _ => Ok []) "t" "" None "" "" 0)
    (fun _ => "") guarded reply_once "" DEFAULT_LOOP_GUARD_CONFIG "t" "" [] None "" (fun _ => 0%Q) None sample_budget.
Definition guarded_step_result : ReactExecutionResult :=
  match guarded_step_run with Some (Ok r) => r | _ => make_result "" "" "" (initial_state DEFAULT_LOOP_GUARD_CONFIG sample_budget) end.

Lemma executed_requests_guarded_witness :
  exists a, a ∈ rs_executed (rr_state guarded_step_result) /\ ra_type a ∈ "finish" :: "ask_clarification" :: DEFAULT_ALLOWED_TOOLS.
Proof.
  exists (mkAction "db_query" false "" "" [("sql", VStr "select name from orders limit 5")]).
  assert (mkAction "db_query" false "" "" [("sql", VStr "select name from orders limit 5")] ∈ rs_executed (rr_state guarded_step_result)) as Hin
    by (vm_compute; left).
  split; [exact Hin|].
  refine (proj1 (executed_requests_guarded (fun _ => false) (fun _ => "") reply_json (fun _ => None) (fun _ => None) no_rows no_rows no_rows
    (fun _ => "") (fun _ _ _ => Ok []) (fun _ => false) (VDict []) None plain_guard (fun _ => "") reply_once "" DEFAULT_LOOP_GUARD_CONFIG
    "t" "" [] None "" "" "" 0 0 None None sample_budget (fun _ => 0%Q) None guarded_step_result _ eq_refl _ Hin)).
  vm_compute. reflexivity.
Defined.

(** An empty object of arguments is read as an argument of that name. *)
Example empty_arguments_nested :
  option_map ra_arguments (coerce_to_action (fun _ => false) (fun _ => "")
    (VDict [("action", VDict [("type", VStr "rag_search"); ("arguments", VDict [])]); ("stop", VBool true)])) = Some [("arguments", VDict [])].
Proof. reflexivity. Qed.

Example fenced_action :
  extract_json (fun _ => false) (fun s => if String.eqb s "{a{b}}" then Some (VInt 1) else None)
    (join newline_char ["x ```json"; "{a{b}}"; "``` y"]) = VInt 1.
Proof. reflexivity. Qed.
