(* ===== verification/ReactNode.v ===== *)
(** * The node of the ReAct subgraph (nodes/react_subgraph.py)

    The node resolves the model, runs the loop of [ReactLoop] with the steps of
    [ReactStep], adds the evidence to that of the state and writes the
    termination fields. *)

From S2P Require Import Prelude PyFloat PyVal PyList PyText PyRegex RegExp Evidence AgentState EvidenceFusion ReactBudget ReactPolicy ReactLoop PreFilter ReactStep.

(** ** The model *)

(** The reply the node makes up when the service raises: "finish". *)
Definition llm_error_reply : pydict :=
  [("thought_summary", VStr "LLM 调用失败");
   ("action", VDict [("type", VStr "finish"); ("tool_name", VStr "finish"); ("purpose", VStr "LLM error fallback");
                     ("arguments", VDict [("summary", VStr "LLM error")])]); ("stop", VBool true)].

(** [_default_llm_callable] *)
Definition default_llm_reply : pydict :=
  [("thought_summary", VStr "默认 LLM 未注入，直接结束");
   ("action", VDict [("type", VStr "finish"); ("tool_name", VStr "finish"); ("purpose", VStr "默认 LLM 未注入");
                     ("arguments", VDict [("summary", VStr "Default LLM not provided")])]); ("stop", VBool true)].

(** The method of the tenant service the node calls.  The class
    (api/db/services/tenant_llm_service.py) and its base have no such method. *)
Definition tenant_inference : option (string -> result string) := None.

Section node.
Variable json_dumps : pyval -> string.

(** The call of [_llm]: whatever is raised becomes the made-up reply. *)
Definition tenant_llm (inference : option (string -> result string)) (prompt : string) : result string :=
  match match inference with Some f => f prompt | None => Raise (AttributeError "inference") end with
  | Ok text => Ok text
  | Raise _ => Ok (json_dumps (VDict llm_error_reply))
  end.

(** [_resolve_llm_callable] and [llm_callable or _default_llm_callable]; the
    state declares no field [react_state], through which a model could be
    injected. *)
Definition resolve_llm (injected : option (string -> result string)) (st : pystate) : string -> result string :=
  match injected with
  | Some f => f
  | None =>
    if truthy (sgetv st "llm_id" (VStr "")) && truthy (sgetv st "tenant_id" (VStr "")) then tenant_llm tenant_inference
    else fun _ => Ok (json_dumps (VDict default_llm_reply))
  end.

(** ** Results *)

Definition downgraded (finish_reason summary : string) : pydict :=
  [("success", VBool false); ("evidence", VList []); ("step_count", VInt 0); ("finish_reason", VStr finish_reason); ("summary", VStr summary)].

(** The ids of the evidence, and the evidence that is new among them. *)
Definition evidence_id_of (ev : pyval) : result pyval :=
  let! id := vget ev "evidence_id" (VStr "") in
  if hashable id then Ok id else Raise (TypeError "unhashable").

Fixpoint merge_new (seen acc new : list pyval) : result (list pyval) :=
  match new with
  | [] => Ok acc
  | ev :: rest =>
    let! eid := vget ev "evidence_id" (VStr "") in
    if truthy eid then
      if negb (hashable eid) then Raise (TypeError "unhashable")
      else if existsb (py_eq eid) seen then merge_new seen acc rest else merge_new (eid :: seen) (acc ++ [ev]) rest
    else merge_new seen (acc ++ [ev]) rest
  end.

Definition merge_evidence (existing new : pyval) : result (list pyval) :=
  let! old := py_iter (vor existing (VList [])) in
  let! seen := rmap evidence_id_of old in
  let! new := py_iter (vor new (VList [])) in
  merge_new seen old new.

Variable exc_text : pyexc -> string.

(** [react_subgraph_node]; [run] builds the subgraph for the configuration,
    which may raise, and runs it. *)
Definition react_subgraph_node (run : pyval -> result (result pydict)) (ms : Z) (st : pystate) : result pydict :=
  let skipped finish_reason summary :=
    [("react_execution_result", VDict (downgraded finish_reason summary)); ("evidence", sgetv st "evidence" (VList [])); timing "react_subgraph" ms] in
  if negb (truthy (sgetv st "react_enabled" (VBool false))) then Ok (skipped "disabled" "ReAct 子图未启用")
  else if negb (truthy (sgetv st "user_question" (VStr ""))) then Ok (skipped "empty_question" "用户问题为空")
  else
    let! outcome := run (vor (sgetv st "agent_config" (VDict [])) (VDict [])) in
    let result := match outcome with
                  | Ok r => r
                  | Raise e => downgraded "error" (String.append "ReAct 子图执行异常: " (exc_text e))
                  end in
    let g k d := get_or (dlookup k result) d in
    let! merged := merge_evidence (sgetv st "evidence" (VList [])) (g "evidence" (VList [])) in
    let loop_guard :=
      [("action_signature", g "last_action_signature" (VStr "")); ("same_action_count", g "same_action_count" (VInt 0));
       ("rerank_score_history", g "rerank_score_history" (VList [])); ("rerank_drop_count", g "rerank_drop_count" (VInt 0));
       ("retrieval_observations", g "retrieval_observations" (VList [])); ("termination_reason", g "termination_reason" (VStr ""));
       ("termination_source", g "termination_source" (VStr ""))] in
    Ok [("react_execution_result", VDict result); ("evidence", VList merged); timing "react_subgraph" ms;
        ("termination_reason", g "termination_reason" (VStr "")); ("termination_source", g "termination_source" (VStr ""));
        ("loop_guard", VDict loop_guard); ("rerank_score_history", g "rerank_score_history" (VList []));
        ("rerank_drop_count", g "rerank_drop_count" (VInt 0)); ("retrieval_observations", g "retrieval_observations" (VList []));
        ("agent_iteration_count", g "step_count" (VInt 0))].

(** The dictionary a run returns; [evidence_value] gives the dictionary of an evidence. *)
Variable evidence_value : Evidence -> pyval.

Definition build_summary (user_question : string) (s : ReactState) (finish_reason : string) : string :=
  join newline_char
    [String.append "问题: " (text_take 80 user_question); String.append "完成步数: " (pretty.pretty (py_len (rs_action_history s)));
     String.append "收集证据: " (pretty.pretty (py_len (rs_evidence s))); String.append "终止原因: " finish_reason].

Definition retrieval_value (o : RetrievalObservation) : pyval :=
  VDict [("iteration", VInt (ro_iteration o)); ("action_signature", VStr (ro_action_signature o)); ("tool_name", VStr (ro_tool_name o));
         ("evidence_gain", VInt (ro_evidence_gain o)); ("rerank_top_score", match ro_rerank_top_score o with Some q => VFloat q | None => VNone end)].

Definition execution_dict (user_question : string) (r : ReactExecutionResult) : pydict :=
  let g := rs_loop_guard (rr_state r) in
  [("success", VBool (rr_success r)); ("evidence", VList (map evidence_value (rr_evidence r))); ("step_count", VInt (rr_step_count r));
   ("finish_reason", VStr (rr_finish_reason r)); ("summary", VStr (build_summary user_question (rr_state r) (rr_finish_reason r)));
   ("termination_reason", VStr (rr_termination_reason r)); ("termination_source", VStr (rr_termination_source r));
   ("last_action_signature", VStr (lg_action_signature g)); ("same_action_count", VInt (lg_same_action_count g));
   ("rerank_score_history", VList (map VFloat (lg_rerank_score_history g))); ("rerank_drop_count", VInt (lg_rerank_drop_count g));
   ("can_continue", VBool (rr_can_continue r)); ("retrieval_observations", VList (map retrieval_value (lg_retrieval_observations g)))].
End node.

(** The run of the node's subgraph as the loop of [ReactStep]. *)
Definition subgraph_run us fr jl (json_dumps : pyval -> string) (evidence_value : Evidence -> pyval) injected execute digest policy config user_id
    tools clock (b : ReactBudget) (st : pystate) (question tenant_id db_id : string) (kb_ids : option (list string)) (_ : pyval) : result (result pydict) :=
  Ok match step_run us fr jl execute digest policy (resolve_llm json_dumps injected st) question config tenant_id user_id tools kb_ids db_id
             clock None b with
     | Some (Ok r) => Ok (execution_dict evidence_value question r)
     | Some (Raise e) => Raise e
     | None => Raise (OtherError "fuel")
     end.

(** ** Evidence *)

(** What is added to the evidence: each item has an id that none before it has, or none. *)
Fixpoint fresh (seen added : list pyval) : Prop :=
  match added with
  | [] => True
  | ev :: rest => exists id, vget ev "evidence_id" (VStr "") = Ok id /\
      if truthy id then Forall (fun s => py_eq id s = false) seen /\ fresh (id :: seen) rest else fresh seen rest
  end.

Lemma merge_new_spec seen acc new out : merge_new seen acc new = Ok out -> exists added, out = acc ++ added /\ sublist added new /\ fresh seen added.
Proof.
  revert seen acc. induction new as [|ev new IH]; intros seen acc H; cbn [merge_new] in H.
  - injection H as <-. exists []. rewrite app_nil_r. split_and!; done.
  - apply rbind_ok in H as (id & Hid & H). destruct (truthy id) eqn:Et.
    + destruct (negb (hashable id)); [done|]. destruct (existsb (py_eq id) seen) eqn:Es.
      * destruct (IH _ _ H) as (added & -> & Hs & Hf). exists added. split_and!; [done|by apply sublist_cons|done].
      * destruct (IH _ _ H) as (added & -> & Hs & Hf). exists (ev :: added). rewrite <- app_assoc. split_and!; [done|by apply sublist_skip|].
        exists id. split; [done|]. rewrite Et. split; [|done]. apply Forall_forall. by apply existsb_false_forall.
    + destruct (IH _ _ H) as (added & -> & Hs & Hf). exists (ev :: added). rewrite <- app_assoc. split_and!; [done|by apply sublist_skip|].
      exists id. split; [done|]. by rewrite Et.
Qed.

Lemma merge_evidence_spec existing new out : merge_evidence existing new = Ok out ->
  exists old ids added l, py_iter (vor existing (VList [])) = Ok old /\ rmap evidence_id_of old = Ok ids /\ py_iter (vor new (VList [])) = Ok l /\
    out = old ++ added /\ sublist added l /\ fresh ids added.
Proof.
  unfold merge_evidence. intros H. apply rbind_ok in H as (old & Ho & H). apply rbind_ok in H as (ids & Hi & H). apply rbind_ok in H as (l & Hl & H).
  destruct (merge_new_spec _ _ _ _ H) as (added & -> & Hs & Hf). by exists old, ids, added, l.
Qed.

(** ** The node as it is deployed *)

(** The node calls a method of the tenant service that does not exist, and
    without a model it uses a default that only finishes; so with no model
    injected every run ends at the first reply: no tool is called, the
    evidence stays what it was, and the result is no success. *)
Theorem deployed_react_is_idle us fr jl json_dumps exc_text evidence_value execute digest policy config uid tools clock b ms st q tenant kbs db old ids
  (Hjson : forall d, d ∈ [llm_error_reply; default_llm_reply] -> extract_json us jl (json_dumps (VDict d)) = VDict d)
  (Hb : can_proceed (clock 0%nat) b = None) (Hc : check_loop_guard_termination (initial_guard config) config = None)
  (Hen : truthy (sgetv st "react_enabled" (VBool false)) = true) (Hq : truthy (sgetv st "user_question" (VStr "")) = true)
  (Hold : py_iter (vor (sgetv st "evidence" (VList [])) (VList [])) = Ok old) (Hids : rmap evidence_id_of old = Ok ids) :
  exists u r, react_subgraph_node exc_text
      (subgraph_run us fr jl json_dumps evidence_value None execute digest policy config uid tools clock b st q tenant db kbs) ms st = Ok u /\
    dlookup "evidence" u = Some (VList old) /\ dlookup "react_execution_result" u = Some (VDict (execution_dict evidence_value q r)) /\
    rr_success r = false /\ rs_executed (rr_state r) = [].
Proof.
  assert (exists out, resolve_llm json_dumps None st (render_prompt q b tools [] []) = Ok out /\ ra_type (parse_llm_output us fr jl out) = "finish") as (out & Hllm & Hout).
  { unfold resolve_llm. destruct (truthy _ && truthy _).
    - exists (json_dumps (VDict llm_error_reply)). split; [done|]. unfold parse_llm_output. rewrite Hjson by set_solver. reflexivity.
    - exists (json_dumps (VDict default_llm_reply)). split; [done|]. unfold parse_llm_output. rewrite Hjson by set_solver. reflexivity. }
  destruct (finishing_run us fr jl execute digest policy (resolve_llm json_dumps None st) q config tenant uid tools kbs db clock None b out Hb Hc Hllm Hout)
    as (r & Hr & Hs & He & _ & Hx).
  unfold react_subgraph_node, subgraph_run. rewrite Hen, Hq. cbn [negb]. rewrite Hr. cbn [rbind].
  assert (get_or (dlookup "evidence" (execution_dict evidence_value q r)) (VList []) = VList []) as Hev by (cbn; by rewrite He).
  cbv zeta. rewrite Hev. unfold merge_evidence. rewrite Hold. cbn [rbind]. rewrite Hids. cbn [rbind py_iter vor truthy truthy_pyval merge_new].
  eexists. exists r. split; [reflexivity|]. done.
Qed.

Definition example_dumps (v : pyval) : string := if py_eq v (VDict llm_error_reply) then "e" else "d".
Definition example_loads (s : string) : option pyval := Some (VDict (if String.eqb s "e" then llm_error_reply else default_llm_reply)).
Definition example_react_state : pystate :=
  {["react_enabled" := VBool true; "user_question" := VStr "问题"; "llm_id" := VStr "m1"; "tenant_id" := VStr "acme";
    "evidence" := VList [VDict [("evidence_id", VStr "ev_1")]]]}.

Lemma deployed_react_is_idle_witness : exists u r,
  react_subgraph_node (fun _ => "error")
    (subgraph_run (fun _ => false) (fun _ => "") example_loads example_dumps (fun _ => VNone) None (fun _ _ => Raise (OtherError "tool")) (fun _ => "")
       guarded DEFAULT_LOOP_GUARD_CONFIG "u" ["rag_search"] (fun _ => 0%Q) sample_budget example_react_state "问题" "acme" "" None) 5 example_react_state = Ok u /\
  dlookup "evidence" u = Some (VList [VDict [("evidence_id", VStr "ev_1")]]) /\ rs_executed (rr_state r) = [].
Proof.
  destruct (deployed_react_is_idle (fun _ => false) (fun _ => "") example_loads example_dumps (fun _ => "error") (fun _ => VNone)
    (fun _ _ => Raise (OtherError "tool")) (fun _ => "") guarded DEFAULT_LOOP_GUARD_CONFIG "u" ["rag_search"] (fun _ => 0%Q) sample_budget 5
    example_react_state "问题" "acme" None "" [VDict [("evidence_id", VStr "ev_1")]] [VStr "ev_1"]) as (u & r & Hu & He & _ & _ & Hx);
    try (vm_compute; reflexivity).
  { intros d Hd. repeat (apply elem_of_cons in Hd as [->|Hd]; [vm_compute; reflexivity|]). by apply elem_of_nil in Hd. }
  exists u, r. split; [exact Hu|]. split; [exact He|exact Hx].
Defined.
