(* ===== verification/SkillComposite.v ===== *)
(** * Composite skills (skills/composite_manifest.py)

    Several skills answer one question together: their evidence
    specifications, claim rules and section templates are fused, the
    composition is rated, and the sections are turned into plan steps. *)

From stdpp Require Import pretty.
From S2P Require Import Prelude PyFloat PyVal PyList PyText SkillVersion SkillGraph DagScheduler.
From Stdlib Require Import Ascii.

(** ** Data *)

Record SkillEvidenceSpec : Type := mkSpec {
  es_min_freshness_score : Q; es_min_authority_score : Q; es_min_relevance_score : Q;
  es_source_quota : list (string * Z) }.

Definition default_spec : SkillEvidenceSpec := mkSpec 0 0 0 [].

(** The fields of the skills that are read here.  The rules of a report carry
    their object identity, which names a rule without a name. *)
Record CompReport : Type := mkCompReport {
  cr_skill_id : string; cr_claim_rules : list (Z * pyval); cr_section_templates : list pyval }.

(** A data or retrieval skill, or a manifest that carries a specification. *)
Record CompSource : Type := mkCompSource {
  cs_evidence_spec : option SkillEvidenceSpec; cs_evidence_requirements : list pyval }.

Record CompData : Type := mkCompData {
  cd_skill_id : string; cd_source : CompSource; cd_metric_bindings : pydict; cd_db_targets : list pyval }.

Record CompositeSkillSet : Type := mkComposite {
  cm_report_skills : list CompReport; cm_data_skills : list CompData; cm_retrieval_skills : list CompSource;
  cm_dependency_graph : SkillDependencyGraph; cm_fused_evidence_spec : SkillEvidenceSpec;
  cm_fused_claim_rules : list pydict; cm_fused_section_templates : list pydict;
  cm_composition_confidence : Q; cm_composition_reason : string }.

(** [d.get(k, default) or default'] for a dynamic dictionary. *)
Definition get_truthy (k : string) (d : pydict) (default : pyval) : pyval := get_or (dlookup k d) default or_else default.

(** The dictionaries of a list of dynamic values. *)
Definition dicts (l : list pyval) : list pydict :=
  concat (map (fun v => match v with VDict d => [d] | _ => [] end) l).

Section composite.
Context (float_of_text : string -> option Q) (int_of_text : string -> option Z) (float_repr : Q -> string).

(** ** Evidence specification *)

Fixpoint merge_quota (quota : list (string * Z)) (items : pydict) : result (list (string * Z)) :=
  match items with
  | [] => Ok quota
  | (k, v) :: items' =>
    let! n := to_int int_of_text (v or_else VInt 0) in
    merge_quota (dset k (Z.max (get_or (dlookup k quota) 0%Z) n) quota) items'
  end.

Definition requirement_step (spec : SkillEvidenceSpec) (req : pydict) : result SkillEvidenceSpec :=
  let get k := to_float float_of_text (get_truthy k req (VFloat 0)) in
  let! fresh := get "min_freshness_score" in
  let! auth := get "min_authority_score" in
  let! rel := get "min_relevance_score" in
  let! quota := match dlookup "source_quota" req with
                | Some (VDict sq) => merge_quota (es_source_quota spec) sq
                | _ => Ok (es_source_quota spec)
                end in
  Ok (mkSpec (fmax (es_min_freshness_score spec) fresh) (fmax (es_min_authority_score spec) auth)
        (fmax (es_min_relevance_score spec) rel) quota).

Fixpoint requirement_loop (spec : SkillEvidenceSpec) (reqs : list pydict) : result SkillEvidenceSpec :=
  match reqs with
  | [] => Ok spec
  | req :: reqs' => let! spec' := requirement_step spec req in requirement_loop spec' reqs'
  end.

Definition spec_from_requirements (reqs : list pyval) : result (option SkillEvidenceSpec) :=
  match dicts reqs with
  | [] => Ok None
  | ds => let! spec := requirement_loop default_spec ds in Ok (Some spec)
  end.

Fixpoint collect_evidence_specs (skills : list CompSource) : result (list SkillEvidenceSpec) :=
  match skills with
  | [] => Ok []
  | skill :: skills' =>
    let! own := match cs_evidence_spec skill with
                | Some es => Ok (Some es)
                | None => spec_from_requirements (cs_evidence_requirements skill)
                end in
    let! rest := collect_evidence_specs skills' in
    Ok (match own with Some es => es :: rest | None => rest end)
  end.

(** [max(f(s) for s in specs)] *)
Definition max_of (f : SkillEvidenceSpec -> Q) (specs : list SkillEvidenceSpec) : Q :=
  match specs with [] => 0 | s :: specs' => fold_left (fun m x => fmax m (f x)) specs' (f s) end.

Definition join_quota (quota : list (string * Z)) (spec : SkillEvidenceSpec) : list (string * Z) :=
  fold_left (fun q kv => dset kv.1 (Z.max (get_or (dlookup kv.1 q) 0%Z) kv.2) q) (es_source_quota spec) quota.

Definition fuse_evidence_spec (data_skills retrieval_skills : list CompSource) : result SkillEvidenceSpec :=
  let! specs := collect_evidence_specs (data_skills ++ retrieval_skills) in
  match specs with
  | [] => Ok default_spec
  | _ => Ok (mkSpec (max_of es_min_freshness_score specs) (max_of es_min_authority_score specs)
               (max_of es_min_relevance_score specs) (fold_left join_quota specs []))
  end.

(** ** Claim rules *)

Definition rule_key (skill_id : string) (identity : Z) (rule : pydict) : string :=
  py_str float_repr (get_truthy "claim_id" rule VNone or_else get_truthy "id" rule VNone or_else
    get_truthy "name" rule VNone or_else VStr (join ":" [skill_id; pretty identity])).

Definition is_empty_value (v : pyval) : bool := existsb (py_eq v) [VNone; VStr ""; VList []; VDict []].

Definition required_rule (rule : pydict) : bool := truthy (get_or (dlookup "is_required" rule) VNone).

Definition merge_rule (existing rule : pydict) : pydict :=
  let existing := if required_rule rule || required_rule existing then dset "is_required" (VBool true) existing else existing in
  fold_left (fun e kv =>
    if str_in kv.1 ["claim_id"; "id"; "name"; "is_required"] then e
    else if is_empty_value (get_or (dlookup kv.1 e) VNone) then dset kv.1 kv.2 e else e) rule existing.

Definition add_rule (merged : list (string * pydict)) (kr : string * pydict) : list (string * pydict) :=
  match dlookup kr.1 merged with
  | None => dset kr.1 kr.2 merged
  | Some existing => dset kr.1 (merge_rule existing kr.2) merged
  end.

(** The rules of all reports under their keys, in order. *)
Definition keyed_rules (report_skills : list CompReport) : list (string * pydict) :=
  concat (map (fun s => concat (map (fun ir => match ir.2 with
                                               | VDict r => [(rule_key (cr_skill_id s) ir.1 r, r)]
                                               | _ => []
                                               end) (cr_claim_rules s))) report_skills).

Definition fuse_claim_rules (report_skills : list CompReport) : list pydict :=
  map snd (fold_left add_rule (keyed_rules report_skills) []).

(** ** Section templates *)

Definition template_id (tmpl : pydict) : string :=
  py_str float_repr (get_truthy "section_id" tmpl VNone or_else get_truthy "id" tmpl VNone or_else
    get_truthy "name" tmpl VNone or_else VStr "").

Definition fuse_section_templates (report_skills : list CompReport) : list pydict :=
  first_by template_id [] (concat (map (fun s => dicts (cr_section_templates s)) report_skills)).

(** ** Rating *)

Definition base_confidence (n_report : Z) : Q :=
  if Z.eqb n_report 1 then 1 else fmax (rnd (1 # 2)) (fsub 1 (fmul (rnd (3 # 20)) (fint (n_report - 1)))).

Definition assess_composition (report_skills : list CompReport) (data_skills : list CompData) (retrieval_skills : list CompSource)
    (graph : SkillDependencyGraph) : result (Q * string) :=
  let n_report := py_len report_skills in
  if Z.eqb n_report 0 then Ok (0%Q, "无 ReportSkill，无法组合")
  else
    let! cycle := detect_cycle graph in
    let confidence := match cycle with
                      | Some (_ :: _) => fmul (base_confidence n_report) (rnd (1 # 2))
                      | _ => base_confidence n_report
                      end in
    let reasons :=
      (if (1 <? n_report)%Z then [join "" ["多 ReportSkill 组合（"; pretty n_report; " 个）"]] else []) ++
      (if truthy data_skills then [join "" [pretty (py_len data_skills); " 个 DataSkill"]] else []) ++
      (if truthy retrieval_skills then [join "" [pretty (py_len retrieval_skills); " 个 RetrievalSkill"]] else []) ++
      (match cycle with Some ((_ :: _) as c) => [join "" ["依赖图存在环："; join " -> " c]] | _ => [] end) in
    let clamped := if flt confidence 0 then 0%Q else if flt 1 confidence then 1%Q else confidence in
    Ok (clamped, join "；" reasons or_else "单一 ReportSkill 组合").

(** [CompositeManifestBuilder.build_composite_manifest] *)
Definition build_composite_manifest (report_skills : list CompReport) (graph : SkillDependencyGraph)
    (data_skills : list CompData) (retrieval_skills : list CompSource) : result CompositeSkillSet :=
  let! spec := fuse_evidence_spec (map cd_source data_skills) retrieval_skills in
  let! rating := assess_composition report_skills data_skills retrieval_skills graph in
  Ok (mkComposite report_skills data_skills retrieval_skills graph spec (fuse_claim_rules report_skills)
        (fuse_section_templates report_skills) rating.1 rating.2).

(** ** Dispatch of queries *)

(** How many of the metrics a data skill binds. *)
Fixpoint covered (metric_ids : list pyval) (bindings : pydict) : result Z :=
  match metric_ids with
  | [] => Ok 0%Z
  | m :: rest =>
    if hashable m then
      let! n := covered rest bindings in
      Ok (match m with VStr k => if dlookup k bindings then (n + 1)%Z else n | _ => n end)
    else Raise (TypeError "unhashable")
  end.

Fixpoint find_from (metric_ids : list pyval) (best : option CompData) (best_score : Z) (data_skills : list CompData) :
    result (option CompData) :=
  match data_skills with
  | [] => Ok best
  | skill :: rest =>
    let! n := covered metric_ids (cd_metric_bindings skill) in
    if Z.eqb n (py_len metric_ids) then Ok (Some skill)
    else if (best_score <? n)%Z then find_from metric_ids (Some skill) n rest
    else find_from metric_ids best best_score rest
  end.

Definition find_data_skill (data_skills : list CompData) (metric_ids : list pyval) : result (option CompData) :=
  match data_skills with
  | [] => Ok None
  | skill :: _ => if negb (truthy metric_ids) then Ok (Some skill) else find_from metric_ids None (-1)%Z data_skills
  end.

Definition first_db_id (data_skill : CompData) : string :=
  match List.find (fun d => truthy (get_or (dlookup "db_id" d) VNone)) (dicts (cd_db_targets data_skill)) with
  | Some d => py_str float_repr (get_or (dlookup "db_id" d) VNone)
  | None => ""
  end.

(** The arguments of a dispatched step. *)
Record QueryArgs : Type := mkQueryArgs { qa_query : string; qa_db_id : string; qa_extra : list (string * pyval) }.

Definition query_step (idx : Z) (tmpl : pydict) (metric_ids : list pyval) (skill : CompData) : @PlanStep QueryArgs :=
  let default_id := join "" ["section_"; pretty idx] in
  let section_id := py_str float_repr (get_or (dlookup "section_id" tmpl) (VStr default_id)) in
  mkStep (join "_" ["composite_query"; pretty idx; cd_skill_id skill]) "database"
    (mkQueryArgs (py_str float_repr (get_or (dlookup "query" tmpl) (get_or (dlookup "purpose" tmpl) (VStr ""))))
       (first_db_id skill)
       [("data_skill_id", VStr (cd_skill_id skill)); ("required_metric_ids", VList metric_ids); ("section_id", VStr section_id)])
    [] true
    (join "" ["组合分发："; cd_skill_id skill; " 处理章节 "; section_id; " 指标 "; py_repr_val float_repr (VList metric_ids)]).

Fixpoint dispatch_from (idx : Z) (data_skills : list CompData) (templates : list pyval) : result (list (@PlanStep QueryArgs)) :=
  match templates with
  | [] => Ok []
  | VDict tmpl :: rest =>
    let! metric_ids := py_iter (get_truthy "required_metric_ids" tmpl (VList [])) in
    let! found := find_data_skill data_skills metric_ids in
    let! steps := dispatch_from (idx + 1) data_skills rest in
    Ok (match found with Some skill => query_step idx tmpl metric_ids skill :: steps | None => steps end)
  | _ :: rest => dispatch_from (idx + 1) data_skills rest
  end.

Definition dispatch_queries (composite : CompositeSkillSet) (section_templates : list pyval) : result (list (@PlanStep QueryArgs)) :=
  if negb (truthy (cm_data_skills composite)) then Ok []
  else dispatch_from 0 (cm_data_skills composite) section_templates.
End composite.

#[export] Instance QueryArgs_eq_dec : EqDecision QueryArgs.
Proof. solve_decision. Defined.

(** ** Lemmas: rating *)

Lemma base_confidence_bounds n : (2 <= n)%Z -> (rnd (1 # 2) <= base_confidence n <= rnd (17 # 20))%Q.
Proof.
  intros Hn. unfold base_confidence. destruct (Z.eqb_spec n 1); [lia|]. split; [apply fmax_ge|].
  assert (fsub 1 (fmul (rnd (3 # 20)) (fint (n - 1))) <= rnd (17 # 20))%Q as Hle.
  { assert (fmul (rnd (3 # 20)) 1 <= fmul (rnd (3 # 20)) (fint (n - 1)))%Q as Hm.
    { apply fmul_mono; [vm_compute; discriminate|vm_compute; discriminate|apply Qle_refl|].
      unfold fint. rewrite <- rnd_1 at 1. apply rnd_mono. change 1%Q with (inject_Z 1). rewrite <- Zle_Qle. lia. }
    apply Qle_trans with (fsub 1 (fmul (rnd (3 # 20)) 1)); [unfold fsub; apply rnd_mono; lra|vm_compute; discriminate]. }
  destruct (fmax_case (rnd (1 # 2)) (fsub 1 (fmul (rnd (3 # 20)) (fint (n - 1))))) as [->| ->]; [vm_compute; discriminate|done].
Qed.

Lemma base_confidence_range n : (1 <= n)%Z ->
  (1 # 2 <= base_confidence n <= 1)%Q /\ (base_confidence n == 1 <-> n = 1%Z)%Q.
Proof.
  intros Hn. destruct (Z.eq_dec n 1%Z) as [->|Hne]; [split; [split; vm_compute; discriminate|done]|].
  destruct (base_confidence_bounds n) as [H1 H2]; [lia|].
  assert (rnd (1 # 2) == 1 # 2)%Q as Hhalf by (vm_compute; reflexivity).
  assert (rnd (17 # 20) < 1)%Q as Hlt by (vm_compute; reflexivity).
  split; [lra|]. split; [intros; lra|lia].
Qed.

Lemma halved x : (1 # 2 <= x <= 1)%Q -> (1 # 4 <= fmul x (rnd (1 # 2)) <= 1 # 2)%Q.
Proof.
  intros [H1 H2]. split.
  - apply Qle_trans with (fmul (1 # 2) (rnd (1 # 2))); [vm_compute; discriminate|].
    apply fmul_mono; [lra|vm_compute; discriminate|done|apply Qle_refl].
  - apply Qle_trans with (fmul 1 (rnd (1 # 2))); [|vm_compute; discriminate].
    apply fmul_mono; [lra|vm_compute; discriminate|done|apply Qle_refl].
Qed.

Lemma no_clamp c : (0 <= c <= 1)%Q -> (if flt c 0 then 0%Q else if flt 1 c then 1%Q else c) = c.
Proof.
  intros [H1 H2]. rewrite (proj2 (flt_false c 0) H1), (proj2 (flt_false 1 c) H2). done.
Qed.

(** ** Lemmas: evidence *)

(** One specification asks at least as much as another. *)
Record stricter (s s' : SkillEvidenceSpec) : Prop := {
  st_fresh : (es_min_freshness_score s <= es_min_freshness_score s')%Q;
  st_auth : (es_min_authority_score s <= es_min_authority_score s')%Q;
  st_rel : (es_min_relevance_score s <= es_min_relevance_score s')%Q;
  st_quota k n : dlookup k (es_source_quota s) = Some n -> exists m, dlookup k (es_source_quota s') = Some m /\ (n <= m)%Z }.

#[export] Instance stricter_preorder : PreOrder stricter.
Proof.
  split.
  - intros s. split; try apply Qle_refl. eauto using Z.le_refl.
  - intros a b c [A1 A2 A3 A4] [B1 B2 B3 B4]. split; [lra|lra|lra|]. intros k n Hk.
    destruct (A4 k n Hk) as (m & Hm & ?). destruct (B4 k m Hm) as (p & Hp & ?). exists p. split; [done|lia].
Qed.

(** [q'] has at least the entries of [q]. *)
Definition quota_le (q q' : list (string * Z)) : Prop :=
  forall k n, dlookup k q = Some n -> exists m, dlookup k q' = Some m /\ (n <= m)%Z.

#[export] Instance quota_le_preorder : PreOrder quota_le.
Proof.
  split; [intros q k n; eauto using Z.le_refl|].
  intros a b c A B k n Hk. destruct (A k n Hk) as (m & Hm & ?). destruct (B k m Hm) as (p & Hp & ?). exists p. split; [done|lia].
Qed.

Lemma quota_raise k n q : quota_le q (dset k (Z.max (get_or (dlookup k q) 0%Z) n) q) /\
  exists m, dlookup k (dset k (Z.max (get_or (dlookup k q) 0%Z) n) q) = Some m /\ (n <= m)%Z.
Proof.
  split; [|rewrite dlookup_dset_eq; eexists; split; [done|lia]].
  intros k' n' Hk. rewrite dlookup_dset. destruct (String.eqb_spec k' k) as [->|]; [|eauto using Z.le_refl].
  rewrite Hk. cbn. eexists. split; [done|lia].
Qed.

Lemma merge_quota_spec it items quota q' : merge_quota it quota items = Ok q' ->
  quota_le quota q' /\ forall k v n, (k, v) ∈ items -> to_int it (v or_else VInt 0) = Ok n ->
    exists m, dlookup k q' = Some m /\ (n <= m)%Z.
Proof.
  revert quota. induction items as [|[k v] items IH]; intros quota; cbn [merge_quota].
  - intros [= <-]. split; [done|]. intros k v n Hin. by apply not_elem_of_nil in Hin.
  - intros (n & Hn & H)%rbind_ok. destruct (IH _ H) as [Hle Hall]. destruct (quota_raise k n quota) as [Hr (m & Hm & Hmn)].
    split; [by etrans|]. intros k' v' n' [[= -> ->]|Hin]%elem_of_cons Hn'; [|eauto].
    rewrite Hn in Hn'. injection Hn' as <-. destruct (Hle _ _ Hm) as (p & Hp & ?). exists p. split; [done|lia].
Qed.

(** What a requirement asks. *)
Definition asks (ft : string -> option Q) (it : string -> option Z) (req : pydict) (s : SkillEvidenceSpec) : Prop :=
  (forall q, to_float ft (get_truthy "min_freshness_score" req (VFloat 0)) = Ok q -> (q <= es_min_freshness_score s)%Q) /\
  (forall q, to_float ft (get_truthy "min_authority_score" req (VFloat 0)) = Ok q -> (q <= es_min_authority_score s)%Q) /\
  (forall q, to_float ft (get_truthy "min_relevance_score" req (VFloat 0)) = Ok q -> (q <= es_min_relevance_score s)%Q) /\
  (forall sq k v n, dlookup "source_quota" req = Some (VDict sq) -> (k, v) ∈ sq -> to_int it (v or_else VInt 0) = Ok n ->
     exists m, dlookup k (es_source_quota s) = Some m /\ (n <= m)%Z).

Lemma asks_stricter ft it req s s' : stricter s s' -> asks ft it req s -> asks ft it req s'.
Proof.
  intros [H1 H2 H3 H4] (A1 & A2 & A3 & A4). split_and!.
  - intros q Hq. specialize (A1 q Hq). lra.
  - intros q Hq. specialize (A2 q Hq). lra.
  - intros q Hq. specialize (A3 q Hq). lra.
  - intros sq k v n Hs Hk Hn. destruct (A4 sq k v n Hs Hk Hn) as (m & Hm & ?). destruct (H4 k m Hm) as (p & Hp & ?).
    exists p. split; [done|lia].
Qed.

Lemma requirement_step_ok ft it spec req s : requirement_step ft it spec req = Ok s -> stricter spec s /\ asks ft it req s.
Proof.
  unfold requirement_step. intros (fr & Hf & (au & Ha & (re & Hr & (qu & Hq & [= <-])%rbind_ok)%rbind_ok)%rbind_ok)%rbind_ok.
  assert (quota_le (es_source_quota spec) qu) as Hle.
  { destruct (dlookup "source_quota" req) as [[]|]; try (injection Hq as <-; done). by apply merge_quota_spec in Hq as [? _]. }
  split; [split; cbn; try apply fmax_ge; exact Hle|]. split_and!; cbn.
  - intros q Hq'. rewrite Hf in Hq'. injection Hq' as <-. apply fmax_ge.
  - intros q Hq'. rewrite Ha in Hq'. injection Hq' as <-. apply fmax_ge.
  - intros q Hq'. rewrite Hr in Hq'. injection Hq' as <-. apply fmax_ge.
  - intros sq k v n Hs. rewrite Hs in Hq. apply merge_quota_spec in Hq as [_ Hall]. apply Hall.
Qed.

Lemma requirement_loop_ok ft it reqs spec s : requirement_loop ft it spec reqs = Ok s ->
  stricter spec s /\ forall req, req ∈ reqs -> asks ft it req s.
Proof.
  revert spec. induction reqs as [|req reqs IH]; intros spec; cbn [requirement_loop].
  - intros [= <-]. split; [done|]. intros req Hin. by apply not_elem_of_nil in Hin.
  - intros (s1 & H1 & H2)%rbind_ok. apply requirement_step_ok in H1 as [Hs Ha]. destruct (IH _ H2) as [Hs' Ha'].
    split; [by etrans|]. intros r [->|Hr]%elem_of_cons; [by eapply asks_stricter|auto].
Qed.

Lemma max_of_ge f specs s : s ∈ specs -> (f s <= max_of f specs)%Q.
Proof.
  destruct specs as [|x specs]; [by intros ?%not_elem_of_nil|]. cbn [max_of].
  assert (forall l b, (b <= fold_left (fun m x => fmax m (f x)) l b)%Q /\
    forall y, y ∈ l -> (f y <= fold_left (fun m x => fmax m (f x)) l b)%Q) as Hfold.
  { induction l as [|y l IH]; intros b; cbn [fold_left]; [split; [lra|by intros ? ?%not_elem_of_nil]|].
    destruct (IH (fmax b (f y))) as [H1 H2]. pose proof (fmax_ge b (f y)) as [? ?]. split; [lra|].
    intros z [->|Hz]%elem_of_cons; [lra|auto]. }
  destruct (Hfold specs (f x)) as [H1 H2]. intros [->|Hs]%elem_of_cons; auto.
Qed.

Lemma raise_all items q :
  let q' := fold_left (fun q kv => dset kv.1 (Z.max (get_or (dlookup kv.1 q) 0%Z) kv.2) q) items q in
  quota_le q q' /\ forall kv, kv ∈ items -> exists m, dlookup kv.1 q' = Some m /\ (kv.2 <= m)%Z.
Proof.
  revert q. induction items as [|[k n] items IH]; intros q; cbn [fold_left fst snd]; [split; [done|by intros ? ?%not_elem_of_nil]|].
  destruct (quota_raise k n q) as [Hr (m & Hm & Hmn)]. cbn zeta in IH. destruct (IH (dset k (Z.max (get_or (dlookup k q) 0%Z) n) q)) as [Hle Hall].
  split; [by etrans|]. intros kv [->|Hin]%elem_of_cons; [|auto]. destruct (Hle _ _ Hm) as (p & Hp & ?). exists p. split; [done|]. cbn. lia.
Qed.

Lemma join_quota_ge specs q :
  quota_le q (fold_left join_quota specs q) /\ forall s, s ∈ specs -> quota_le (es_source_quota s) (fold_left join_quota specs q).
Proof.
  revert q. induction specs as [|s specs IH]; intros q; cbn [fold_left]; [split; [done|by intros ? ?%not_elem_of_nil]|].
  destruct (IH (join_quota q s)) as [Hle Hall]. destruct (raise_all (es_source_quota s) q) as [Hr Hin].
  split; [by etrans|]. intros s' [->|Hs]%elem_of_cons; [|auto]. intros k n Hk%dlookup_elem.
  destruct (Hin _ Hk) as (m & Hm & ?). destruct (Hle _ _ Hm) as (p & Hp & ?). exists p. split; [done|]. cbn in *. lia.
Qed.

Lemma collect_evidence_specs_ok ft it skills specs : collect_evidence_specs ft it skills = Ok specs -> forall sk, sk ∈ skills ->
  (forall es, cs_evidence_spec sk = Some es -> es ∈ specs) /\
  (cs_evidence_spec sk = None -> forall req, req ∈ dicts (cs_evidence_requirements sk) -> exists es, es ∈ specs /\ asks ft it req es).
Proof.
  revert specs. induction skills as [|s skills IH]; intros specs; cbn [collect_evidence_specs]; [by intros _ ? ?%not_elem_of_nil|].
  intros (own & Hown & (rest & Hrest & [= <-])%rbind_ok)%rbind_ok. specialize (IH _ Hrest).
  assert (forall es, es ∈ rest -> es ∈ match own with Some x => x :: rest | None => rest end) as Hsub by (destruct own; set_solver).
  intros sk [->|Hin]%elem_of_cons.
  - split; [intros es Hes; rewrite Hes in Hown; injection Hown as <-; by left|]. intros Hnone req Hreq.
    rewrite Hnone in Hown. unfold spec_from_requirements in Hown. destruct (dicts (cs_evidence_requirements s)) as [|d ds] eqn:Ed;
      [by apply not_elem_of_nil in Hreq|]. apply rbind_ok in Hown as (es & He & [= <-]).
    apply requirement_loop_ok in He as [_ Hall]. exists es. split; [by left|auto].
  - destruct (IH sk Hin) as [H1 H2]. split; [auto|]. intros Hn req Hr. destruct (H2 Hn req Hr) as (es & ? & ?). eauto.
Qed.

(** ** Lemmas: claim rules *)

Definition identity_fields : list string := ["claim_id"; "id"; "name"; "is_required"].

Lemma merge_fold_keeps k rule e : k ∈ identity_fields ->
  dlookup k (fold_left (fun e kv => if str_in kv.1 identity_fields then e
    else if is_empty_value (get_or (dlookup kv.1 e) VNone) then dset kv.1 kv.2 e else e) rule e) = dlookup k e.
Proof.
  intros Hk. revert e. induction rule as [|[k' v] rule IH]; intros e; cbn [fold_left]; [done|]. rewrite IH. cbn [fst snd].
  destruct (str_in k' identity_fields) eqn:E; [done|]. destruct (is_empty_value _); [|done].
  apply dlookup_dset_ne. intros ->. apply str_in_false in E. contradiction.
Qed.

Lemma required_merge e rule : required_rule (merge_rule e rule) = required_rule rule || required_rule e.
Proof.
  unfold merge_rule, required_rule at 1. rewrite merge_fold_keeps by set_solver.
  destruct (required_rule rule || required_rule e) eqn:E; [by rewrite dlookup_dset_eq|].
  apply orb_false_iff in E as [_ E]. exact E.
Qed.

(** Whether some rule under this key is required. *)
Definition any_required (k : string) (rules : list (string * pydict)) : bool :=
  existsb (fun kr => String.eqb kr.1 k && required_rule kr.2) rules.

Lemma NoDup_snoc (x : string) l : x ∉ l -> NoDup l -> NoDup (l ++ [x]).
Proof. intros. apply NoDup_app. split_and!; [done|set_solver|apply NoDup_singleton]. Qed.

Lemma fuse_rules_inv rules : let m := fold_left add_rule rules [] in
  NoDup (map fst m) /\ (forall k, k ∈ map fst m <-> k ∈ map fst rules) /\
  forall k e, dlookup k m = Some e -> required_rule e = any_required k rules.
Proof.
  induction rules as [|[k r] rules IH] using rev_ind; cbn zeta in *; [cbn; split_and!; [constructor|done|done]|].
  rewrite fold_left_app. cbn [fold_left]. set (m := fold_left add_rule rules []) in *. destruct IH as (Hnd & Hk & Hreq).
  assert (forall k', any_required k' (rules ++ [(k, r)]) = any_required k' rules || String.eqb k k' && required_rule r) as Hany.
  { intros k'. unfold any_required. rewrite existsb_app. cbn [existsb fst snd]. by rewrite orb_false_r. }
  assert (forall e, map fst (dset k e m) = if str_in k (map fst m) then map fst m else map fst m ++ [k]) as Hkeys by (intros; apply dset_map_keys).
  unfold add_rule. cbn [fst snd]. destruct (dlookup k m) as [e0|] eqn:E.
  - assert (str_in k (map fst m) = true) as Hin.
    { apply str_in_spec. destruct (decide (k ∈ map fst m)); [done|]. apply dlookup_none_keys in n. congruence. }
    rewrite Hkeys, Hin. split_and!; [done| |].
    + intros k'. rewrite Hk, map_app, elem_of_app. cbn. apply str_in_spec in Hin. apply Hk in Hin. set_solver.
    + intros k' e. rewrite dlookup_dset, Hany. destruct (String.eqb_spec k' k) as [->|Hne].
      * intros [= <-]. rewrite required_merge, (Hreq k e0 E), String.eqb_refl. apply orb_comm.
      * intros He. rewrite (Hreq k' e He). destruct (String.eqb_spec k k'); [congruence|]. by rewrite orb_false_r.
  - apply dlookup_none_keys in E. rewrite Hkeys, (proj2 (str_in_false k (map fst m)) E). split_and!; [by apply NoDup_snoc| |].
    + intros k'. rewrite map_app, !elem_of_app, Hk. done.
    + intros k' e. rewrite dlookup_dset, Hany. destruct (String.eqb_spec k' k) as [->|Hne].
      * intros [= <-]. rewrite String.eqb_refl. assert (any_required k rules = false) as ->; [|done].
        apply existsb_false_forall. intros [k1 r1] Hin. cbn. destruct (String.eqb_spec k1 k) as [->|]; [|done].
        exfalso. apply E, Hk. apply list_elem_of_In, in_map_iff. exists (k, r1). split; [done|by apply list_elem_of_In].
      * intros He. rewrite (Hreq k' e He). destruct (String.eqb_spec k k'); [congruence|]. by rewrite orb_false_r.
Qed.

(** ** Lemmas: dispatch *)

Lemma covered_le ids bindings n : covered ids bindings = Ok n -> (0 <= n <= py_len ids)%Z.
Proof.
  unfold py_len. revert n. induction ids as [|m ids IH]; intros n; cbn [covered]; [intros [= <-]; cbn; lia|].
  destruct (hashable m); [|done]. intros (k & Hk & [= <-])%rbind_ok. specialize (IH k Hk). cbn [length].
  destruct m; try lia. destruct (dlookup s bindings); lia.
Qed.

Lemma find_from_best ids best score l r : find_from ids best score l = Ok r ->
  (forall s, best = Some s -> covered ids (cd_metric_bindings s) = Ok score) -> (score < py_len ids)%Z ->
  (best = None -> score = -1)%Z ->
  match r with
  | None => best = None /\ l = []
  | Some s => exists n, covered ids (cd_metric_bindings s) = Ok n /\ (score <= n)%Z /\ (s ∈ l \/ best = Some s) /\
      forall s' n', s' ∈ l -> covered ids (cd_metric_bindings s') = Ok n' -> (n' <= n)%Z
  end.
Proof.
  revert best score. induction l as [|x l IH]; intros best score; cbn [find_from].
  - intros [= <-] Hb _ Hn. destruct best as [s|]; [|done]. exists score. split_and!; [by apply Hb|lia|by right|].
    intros s' n' Hin. by apply not_elem_of_nil in Hin.
  - intros (n & Hn & H)%rbind_ok Hb Hlt Hnone. pose proof (covered_le _ _ _ Hn) as [H0 Hle].
    destruct (Z.eqb_spec n (py_len ids)) as [->|Hne].
    + injection H as <-. exists (py_len ids). split_and!; [done|lia|left; by left|]. intros s' n' _ Hc. apply covered_le in Hc. lia.
    + destruct (Z.ltb_spec score n).
      * apply IH in H; [|by intros s [= <-]|lia|done]. destruct r as [s|]; [|by destruct H]. destruct H as (m & Hm & ? & Hin & Hall).
        exists m. split_and!; [done|lia| |].
        { left. destruct Hin as [Hin|[= ->]]; [by right|by left]. }
        intros s' n' [->|Hs']%elem_of_cons Hc; [|by eapply Hall]. rewrite Hn in Hc. injection Hc as <-. lia.
      * apply IH in H; [|done..]. destruct r as [s|].
        { destruct H as (m & Hm & ? & Hin & Hall). exists m. split_and!; [done|lia|destruct Hin; [left; by right|by right]|].
          intros s' n' [->|Hs']%elem_of_cons Hc; [|by eapply Hall]. rewrite Hn in Hc. injection Hc as <-. lia. }
        destruct H as [-> _]. specialize (Hnone eq_refl). lia.
Qed.

Definition query_step_id (i : Z) (skill_id : string) : string := join "_" ["composite_query"; pretty i; skill_id].

Lemma query_step_id_index i j a b : (0 <= i)%Z -> (0 <= j)%Z -> query_step_id i a = query_step_id j b -> i = j.
Proof.
  intros Hi Hj E. destruct (pretty_number i Hi) as [Ni Di], (pretty_number j Hj) as [Nj Dj].
  assert (forall k c, (0 <= k)%Z -> str_all is_digit (pretty k) = true ->
    nth 2 (split_on "_"%char (query_step_id k c)) "" = pretty k) as Hs.
  { intros k c Hk Hd. change (query_step_id k c) with
      (String.append "composite" (String "_" (String.append "query" (String "_" (String.append (pretty k) (String "_" c)))))).
    rewrite !split_on_app; [done| |done|done]. eapply str_all_impl; [|exact Hd]. intros x Hx. destruct (Ascii.eqb_spec x "_"); [by subst|done]. }
  rewrite <- Ni, <- Nj, <- (Hs i a Hi Di), <- (Hs j b Hj Dj), E. done.
Qed.

Lemma dispatch_from_ids fr idx data templates steps : dispatch_from fr idx data templates = Ok steps -> (0 <= idx)%Z ->
  NoDup (map ps_step_id steps) /\ (length steps <= length templates) /\
  forall s, s ∈ steps -> ps_depends_on s = [] /\ exists i skill, (idx <= i)%Z /\ skill ∈ data /\
    ps_step_id s = query_step_id i (cd_skill_id skill).
Proof.
  revert idx steps. induction templates as [|t templates IH]; intros idx steps; cbn [dispatch_from].
  { intros [= <-] _. split_and!; [constructor|done|by intros ? ?%not_elem_of_nil]. }
  assert (forall steps, dispatch_from fr (idx + 1) data templates = Ok steps -> (0 <= idx)%Z ->
    NoDup (map ps_step_id steps) /\ (length steps <= length (t :: templates)) /\
    forall s, s ∈ steps -> ps_depends_on s = [] /\ exists i skill, (idx + 1 <= i)%Z /\ skill ∈ data /\
      ps_step_id s = query_step_id i (cd_skill_id skill)) as Hrest.
  { intros st H Hi. destruct (IH _ _ H ltac:(lia)) as (H1 & H2 & H3). split_and!; [done|cbn; lia|done]. }
  assert (forall steps, dispatch_from fr (idx + 1) data templates = Ok steps -> (0 <= idx)%Z ->
    NoDup (map ps_step_id steps) /\ (length steps <= length (t :: templates)) /\
    forall s, s ∈ steps -> ps_depends_on s = [] /\ exists i skill, (idx <= i)%Z /\ skill ∈ data /\
      ps_step_id s = query_step_id i (cd_skill_id skill)) as Hskip.
  { intros st H Hi. destruct (Hrest _ H Hi) as (H1 & H2 & H3). split_and!; [done..|]. intros s Hs.
    destruct (H3 s Hs) as (Hd & i & sk & ? & ? & ?). split; [done|]. exists i, sk. split_and!; [lia|done..]. }
  destruct t as [| | | | | |tmpl]; try apply Hskip.
  intros (ids & Hids & (found & Hf & (rest & Hr & [= <-])%rbind_ok)%rbind_ok)%rbind_ok Hi.
  destruct found as [skill|]; [|by apply Hskip].
  assert (skill ∈ data) as Hin.
  { unfold find_data_skill in Hf. destruct data as [|x data]; [done|]. destruct (negb (truthy ids)) eqn:Ei; [injection Hf as ->; by left|].
    apply find_from_best in Hf; [|done| |done].
    - destruct Hf as (n & _ & _ & [?|?] & _); done.
    - unfold py_len. lia. }
  destruct (Hrest _ Hr Hi) as (H1 & H2 & H3). split_and!.
  - cbn [map]. constructor; [|done]. intros (s & Hs & Hs')%list_elem_of_In%in_map_iff. apply list_elem_of_In in Hs'.
    destruct (H3 s Hs') as (_ & i & sk & Hle & _ & E). rewrite E in Hs.
    change (query_step_id i (cd_skill_id sk) = query_step_id idx (cd_skill_id skill)) in Hs.
    apply query_step_id_index in Hs; lia.
  - destruct (IH _ _ Hr ltac:(lia)) as (_ & ? & _). cbn. lia.
  - intros s [->|Hs]%elem_of_cons.
    + split; [done|]. exists idx, skill. split_and!; [lia|done|done].
    + destruct (Hskip _ Hr Hi) as (_ & _ & H4). auto.
Qed.

(** Steps that wait for nothing run in one layer. *)
Lemma independent_layers {A} `{EqDecision A} (steps : list (@PlanStep A)) : (forall s, s ∈ steps -> ps_depends_on s = []) ->
  topological_layers steps = Ok (match steps with [] => [] | _ => [steps] end).
Proof.
  intros Hd. unfold topological_layers. destruct steps as [|s0 steps]; [done|]. cbn [length layers_loop].
  assert (List.filter (ready []) (s0 :: steps) = s0 :: steps) as E.
  { apply List.forallb_filter_id, forallb_true_forall. intros s Hs. apply ready_spec. rewrite (Hd s Hs). intros dep Hin.
    by apply not_elem_of_nil in Hin. }
  rewrite E. assert (fold_left (fun r s => list_remove_first s r) (s0 :: steps) (s0 :: steps) = []) as ->.
  { apply Permutation_nil. symmetry. apply remove_all_perm. by rewrite app_nil_r. }
  by destruct (length steps).
Qed.

(** ** The properties *)

(** The rating of a composition of reports over any dependency graph: it is
    always given, lies between 1/4 and 1, is 1 only for a single report
    without a dependency cycle, and at least 1/2 without a cycle. *)
Theorem composition_rated report_skills data_skills retrieval_skills ops (Hne : report_skills <> []) :
  exists c reason, assess_composition report_skills data_skills retrieval_skills (build_graph ops) = Ok (c, reason) /\
    (1 # 4 <= c <= 1)%Q /\ ((c == 1)%Q <-> length report_skills = 1 /\ acyclic (build_graph ops)) /\
    (acyclic (build_graph ops) -> (1 # 2 <= c)%Q).
Proof.
  unfold assess_composition. assert (1 <= py_len report_skills)%Z as Hlen by (unfold py_len; destruct report_skills; [done|cbn; lia]).
  destruct (Z.eqb_spec (py_len report_skills) 0); [lia|].
  destruct (base_confidence_range (py_len report_skills) Hlen) as [Hb Hone].
  assert (py_len report_skills = 1%Z <-> length report_skills = 1) as Hl by (unfold py_len; lia).
  pose proof (build_graph_represents ops) as Hrep. destruct (detect_cycle_ok _ _ Hrep) as ([c|] & -> & Hp); cbn [rbind].
  - assert (~ acyclic (build_graph ops)) as Hcyc by (by apply cycle_not_acyclic with c).
    destruct Hp as (x & l & -> & _). cbn [app]. destruct (halved _ Hb) as [H1 H2].
    rewrite no_clamp by lra. eexists _, _. split_and!; [done|exact H1|lra| |done].
    split; [intros; lra|by intros [_ ?]].
  - assert (acyclic (build_graph ops)) as Hac by (destruct Hp as (fin & Hf & Hsub); by eapply all_ordered_acyclic).
    rewrite no_clamp by lra. eexists _, _. split_and!; [done|lra|lra| |intros _; lra].
    rewrite Hone, Hl. naive_solver.
Qed.

(** The fused specification is at least as strict as every specification of a
    manifest and as every requirement of a skill, and keeps every source with
    a quota. *)
Theorem fused_spec_strictest float_of_text int_of_text data_skills retrieval_skills spec
  (Hfuse : fuse_evidence_spec float_of_text int_of_text data_skills retrieval_skills = Ok spec) :
  forall sk, sk ∈ data_skills ++ retrieval_skills ->
    (forall es, cs_evidence_spec sk = Some es -> stricter es spec) /\
    (cs_evidence_spec sk = None -> forall req, req ∈ dicts (cs_evidence_requirements sk) -> asks float_of_text int_of_text req spec).
Proof.
  unfold fuse_evidence_spec in Hfuse. apply rbind_ok in Hfuse as (specs & Hs & H).
  assert (forall es, es ∈ specs -> stricter es spec) as Hall.
  { intros es Hes. destruct specs as [|s0 specs]; [by apply not_elem_of_nil in Hes|]. injection H as <-.
    split; [exact (max_of_ge es_min_freshness_score _ _ Hes)|exact (max_of_ge es_min_authority_score _ _ Hes)|
            exact (max_of_ge es_min_relevance_score _ _ Hes)|].
    apply (join_quota_ge (s0 :: specs) []), Hes. }
  intros sk Hsk. destruct (collect_evidence_specs_ok _ _ _ _ Hs sk Hsk) as [H1 H2]. split; [auto|].
  intros Hn req Hr. destruct (H2 Hn req Hr) as (es & Hes & Ha). eapply asks_stricter; eauto.
Qed.

(** Fusing claim rules gives one rule per key, and the rule of a key is
    required exactly when some rule under that key is. *)
Theorem fused_rules_union float_repr report_skills :
  let rules := keyed_rules float_repr report_skills in
  exists keys, NoDup keys /\ (forall k, k ∈ keys <-> k ∈ map fst rules) /\
    Forall2 (fun k rule => required_rule rule = any_required k rules) keys (fuse_claim_rules float_repr report_skills).
Proof.
  cbn zeta. unfold fuse_claim_rules. destruct (fuse_rules_inv (keyed_rules float_repr report_skills)) as (Hnd & Hk & Hreq).
  set (m := fold_left add_rule _ _) in *. exists (map fst m). split_and!; [done|done|].
  apply Forall2_fmap. apply Forall_Forall2_diag, Forall_forall. intros [k e] Hin. cbn. by apply Hreq, dlookup_unique.
Qed.

(** The fused templates are templates of the reports in their order, no named
    section twice, and every named section of a report present. *)
Theorem fused_templates_distinct float_repr report_skills :
  let all := concat (map (fun s => dicts (cr_section_templates s)) report_skills) in
  let fused := fuse_section_templates float_repr report_skills in
  sublist fused all /\ NoDup (List.filter (fun s => truthy s) (map (template_id float_repr) fused)) /\
  forall t, t ∈ all -> template_id float_repr t ∈ map (template_id float_repr) fused.
Proof.
  cbn zeta. unfold fuse_section_templates. destruct (first_by_spec (template_id float_repr) []
    (concat (map (fun s => dicts (cr_section_templates s)) report_skills))) as (H1 & _ & H3 & H4).
  split_and!; [done|done|]. intros t Ht. destruct (H4 t Ht) as [Hin|?]; [by apply not_elem_of_nil in Hin|done].
Qed.

(** A section is given to a data skill that binds as many of its metrics as
    any other does. *)
Theorem find_data_skill_best data_skills ids r
  (Hids : ids <> []) (Hne : data_skills <> []) (Hfind : find_data_skill data_skills ids = Ok r) :
  exists s n, r = Some s /\ s ∈ data_skills /\ covered ids (cd_metric_bindings s) = Ok n /\
    forall s' n', s' ∈ data_skills -> covered ids (cd_metric_bindings s') = Ok n' -> (n' <= n)%Z.
Proof.
  unfold find_data_skill in Hfind. destruct data_skills as [|x data_skills]; [done|].
  assert (truthy ids = true) as E by (by destruct ids). rewrite E in Hfind. cbn [negb] in Hfind.
  apply find_from_best in Hfind; [|done|unfold py_len; lia|done]. destruct r as [s|]; [|by destruct Hfind].
  destruct Hfind as (n & Hn & _ & [Hin|?] & Hall); [|done]. eauto 8.
Qed.

(** The steps made for the sections have distinct identifiers, wait for
    nothing, and are scheduled as a single layer of the plan. *)
Theorem dispatch_one_layer float_repr composite templates steps
  (Hd : dispatch_queries float_repr composite templates = Ok steps) :
  NoDup (map ps_step_id steps) /\ (length steps <= length templates) /\
  topological_layers steps = Ok (match steps with [] => [] | _ => [steps] end).
Proof.
  unfold dispatch_queries in Hd. destruct (negb _); [injection Hd as <-; split_and!; [constructor|cbn; lia|done]|].
  destruct (dispatch_from_ids _ _ _ _ _ Hd ltac:(lia)) as (H1 & H2 & H3). split_and!; [done..|].
  apply independent_layers. intros s Hs. by apply H3.
Qed.

(** ** Witnesses *)

Definition example_source (reqs : list pydict) : CompSource := mkCompSource None (map VDict reqs).

Lemma composition_rated_witness :
  exists c reason, assess_composition [mkCompReport "r1" [] []; mkCompReport "r2" [] []] [] [] (build_graph []) = Ok (c, reason) /\
    (1 # 4 <= c <= 1)%Q /\ ((c == 1)%Q <-> length [mkCompReport "r1" [] []; mkCompReport "r2" [] []] = 1 /\ acyclic (build_graph [])) /\
    (acyclic (build_graph []) -> (1 # 2 <= c)%Q).
Proof. apply composition_rated. discriminate. Defined.

Lemma fused_spec_strictest_witness :
  let a := example_source [[("min_freshness_score", VFloat (1 # 2)); ("source_quota", VDict [("db", VInt 3)])]] in
  let b := example_source [[("min_authority_score", VFloat (1 # 4)); ("source_quota", VDict [("db", VInt 5); ("rag", VNone)])]] in
  asks (fun _ => None) (fun _ => None) [("min_freshness_score", VFloat (1 # 2)); ("source_quota", VDict [("db", VInt 3)])]
    (mkSpec (1 # 2) (1 # 4) 0 [("db", 5%Z); ("rag", 0%Z)]).
Proof.
  cbn zeta. eapply (fused_spec_strictest (fun _ => None) (fun _ => None)
    [example_source [[("min_freshness_score", VFloat (1 # 2)); ("source_quota", VDict [("db", VInt 3)])]]]
    [example_source [[("min_authority_score", VFloat (1 # 4)); ("source_quota", VDict [("db", VInt 5); ("rag", VNone)])]]]).
  - vm_compute. reflexivity.
  - by left.
  - reflexivity.
  - by left.
Defined.

Definition example_data (id : string) (metrics : list string) : CompData :=
  mkCompData id (example_source []) (map (fun m => (m, VNone)) metrics) [VDict [("db_id", VStr "hr")]].

Lemma find_data_skill_best_witness :
  exists s n, Some (example_data "d2" ["m1"; "m2"]) = Some s /\ s ∈ [example_data "d1" ["m1"]; example_data "d2" ["m1"; "m2"]] /\
    covered [VStr "m1"; VStr "m2"] (cd_metric_bindings s) = Ok n /\
    forall s' n', s' ∈ [example_data "d1" ["m1"]; example_data "d2" ["m1"; "m2"]] ->
      covered [VStr "m1"; VStr "m2"] (cd_metric_bindings s') = Ok n' -> (n' <= n)%Z.
Proof. apply find_data_skill_best; [discriminate|discriminate|vm_compute; reflexivity]. Defined.

Definition example_composite : CompositeSkillSet :=
  mkComposite [] [example_data "d1" ["m1"]] [] empty_graph default_spec [] [] 1 "".

Definition example_steps : list (@PlanStep QueryArgs) :=
  [mkStep "composite_query_0_d1" "database"
     (mkQueryArgs "sales" "hr" [("data_skill_id", VStr "d1"); ("required_metric_ids", VList [VStr "m1"]); ("section_id", VStr "s1")])
     [] true "组合分发：d1 处理章节 s1 指标 ['m1']"].

Lemma dispatch_one_layer_witness :
  NoDup (map ps_step_id example_steps) /\ (length example_steps <= 1) /\
  topological_layers example_steps = Ok (match example_steps with [] => [] | _ => [example_steps] end).
Proof.
  apply (dispatch_one_layer (fun _ => "") example_composite
    [VDict [("section_id", VStr "s1"); ("query", VStr "sales"); ("required_metric_ids", VList [VStr "m1"])]]).
  vm_compute. reflexivity.
Defined.
