(* ===== verification/Authority.v ===== *)
(** * Authority of evidence (evidence/authority.py)

    A weighted sum of the weight of the source, the correctness of the query
    and the freshness of the data.  Reading an ISO time stamp is an argument:
    it gives microseconds since an epoch, a stamp without a zone being UTC. *)

From S2P Require Import Prelude PyFloat PyVal PyList PyText.
From Stdlib Require Import Ascii.

Definition DEFAULT_SOURCE_WEIGHTS : list (string * Q) :=
  [("db", rnd (19 # 20)); ("rest", rnd (9 # 10)); ("rag", rnd (4 # 5)); ("report", rnd (17 # 20)); ("web", rnd (1 # 2))].

Definition DEFAULT_FORMULA_WEIGHTS : list (string * Q) :=
  [("source_weight", rnd (2 # 5)); ("query_correctness", rnd (3 # 10)); ("freshness", rnd (3 # 10))].

Definition DEFAULT_QUERY_CORRECTNESS : list (string * Q) :=
  [("rag", rnd (4 # 5)); ("web", rnd (4 # 5)); ("report", rnd (4 # 5)); ("db", 1%Q)].

Definition FRESHNESS_TIERS : list (Z * Q) := [(30%Z, 1%Q); (90%Z, rnd (4 # 5)); (365%Z, rnd (1 # 2))].
Definition FRESHNESS_STALE : Q := rnd (3 # 10).
Definition FRESHNESS_UNKNOWN : Q := rnd (1 # 2).

(** [{**defaults, **(overrides or {})}] *)
Definition dict_override {A} (defaults : list (string * A)) (overrides : option (list (string * A))) : list (string * A) :=
  fold_left (fun d kv => dset kv.1 kv.2 d) (get_or overrides []) defaults.

Record AuthorityResolver : Type := mkResolver {
  ar_source_weights : list (string * Q); ar_formula_weights : list (string * Q);
  ar_default_query_correctness : list (string * Q) }.

Definition init_resolver (source_weights formula_weights default_query_correctness : option (list (string * Q))) : AuthorityResolver :=
  mkResolver (dict_override DEFAULT_SOURCE_WEIGHTS source_weights) (dict_override DEFAULT_FORMULA_WEIGHTS formula_weights)
    (dict_override DEFAULT_QUERY_CORRECTNESS default_query_correctness).

(** [d.get(k) or {}], a dictionary. *)
Definition dict_or_empty (k : string) (d : pydict) : result pydict :=
  match dlookup k d with
  | Some v => if truthy v then as_dict v else Ok []
  | None => Ok []
  end.

Section resolve.
Context (float_repr : Q -> string) (fromisoformat : string -> option Z) (now : Z).

Definition pick_timestamp (evidence : pydict) : result string :=
  let! metadata := dict_or_empty "metadata" evidence in
  let pick k d := match dlookup k d with Some v => if truthy v then Some (py_str float_repr v) else None | None => None end in
  Ok (match pick "as_of" metadata, pick "published_at" metadata, pick "fetched_at" metadata, pick "created_at" evidence with
      | Some t, _, _, _ | None, Some t, _, _ | None, None, Some t, _ | None, None, None, Some t => t
      | None, None, None, None => ""
      end).

(** [ts[:-1] + "+00:00"] when the text ends in Z. *)
Fixpoint zulu_offset (ts : string) : string :=
  match ts with
  | String "Z"%char EmptyString => "+00:00"
  | String a ts' => String a (zulu_offset ts')
  | EmptyString => EmptyString
  end.

Definition age_days (timestamp : string) : option Z :=
  if negb (truthy timestamp) then None
  else match fromisoformat (zulu_offset (strip timestamp)) with
       | Some t => Some (Z.max 0 ((now - t) / 86400000000))
       | None => None
       end.

Fixpoint tier_score (tiers : list (Z * Q)) (age : Z) : Q :=
  match tiers with
  | [] => FRESHNESS_STALE
  | (threshold, score) :: tiers' => if (age <=? threshold)%Z then score else tier_score tiers' age
  end.

Definition freshness_of_age (age : option Z) : Q :=
  match age with Some d => tier_score FRESHNESS_TIERS d | None => FRESHNESS_UNKNOWN end.

Definition compute_freshness (evidence : pydict) : result Q :=
  let! timestamp := pick_timestamp evidence in Ok (freshness_of_age (age_days timestamp)).

Definition compute_query_correctness (r : AuthorityResolver) (evidence : pydict) (source_type : pyval) : result Q :=
  if negb (py_eq source_type (VStr "db")) then
    let! q := get_key source_type (ar_default_query_correctness r) in Ok (get_or q (rnd (4 # 5)))
  else
    let! metadata := dict_or_empty "metadata" evidence in
    match dlookup "query_success" metadata with
    | Some v => Ok (if truthy v then 1%Q else 0%Q)
    | None =>
      if truthy (get_or (dlookup "error" metadata) VNone) then Ok 0%Q
      else match get_or (dlookup "structured_data" evidence) VNone or_else VDict [] with
           | VDict s => Ok (if truthy (get_or (dlookup "error" s) VNone) then 0%Q else 1%Q)
           | _ => Ok 1%Q
           end
    end.

(** The weighted sum, cut to the unit interval. *)
Definition authority_score (r : AuthorityResolver) (source_weight query_correctness freshness : Q) : Q :=
  let w k d := get_or (dlookup k (ar_formula_weights r)) d in
  let score := fadd (fadd (fmul source_weight (w "source_weight" (rnd (2 # 5))))
                          (fmul query_correctness (w "query_correctness" (rnd (3 # 10)))))
                    (fmul freshness (w "freshness" (rnd (3 # 10)))) in
  if flt score 0 then 0%Q else if flt 1 score then 1%Q else score.

Definition resolve (r : AuthorityResolver) (evidence : pydict) : result Q :=
  let source_type := get_or (dlookup "source_type" evidence) (VStr "web") in
  let! source_weight := get_key source_type (ar_source_weights r) in
  let! query_correctness := compute_query_correctness r evidence source_type in
  let! freshness := compute_freshness evidence in
  Ok (authority_score r (get_or source_weight (rnd (1 # 2))) query_correctness freshness).

Definition resolve_batch (r : AuthorityResolver) (evidences : list pydict) : result (list Q) := rmap (resolve r) evidences.
End resolve.

(** ** Lemmas *)

Lemma authority_score_unit r s q f : (0 <= authority_score r s q f <= 1)%Q.
Proof.
  unfold authority_score. set (x := fadd _ _). destruct (flt x 0) eqn:E1; [lra|]. destruct (flt 1 x) eqn:E2; [lra|]. fcompare. lra.
Qed.

(** Older data never has a better freshness. *)
Lemma tier_score_antitone a b : (a <= b)%Z -> (tier_score FRESHNESS_TIERS b <= tier_score FRESHNESS_TIERS a)%Q.
Proof.
  intros Hab. unfold FRESHNESS_TIERS, tier_score.
  destruct (Z.leb_spec b 30), (Z.leb_spec a 30), (Z.leb_spec b 90), (Z.leb_spec a 90), (Z.leb_spec b 365), (Z.leb_spec a 365);
    try lia; vm_compute; discriminate.
Qed.

Lemma freshness_range age : (rnd (3 # 10) <= freshness_of_age age <= 1)%Q.
Proof.
  destruct age as [d|]; [|split; vm_compute; discriminate]. cbn [freshness_of_age]. unfold FRESHNESS_TIERS, tier_score.
  destruct (d <=? 30)%Z; [split; vm_compute; discriminate|]. destruct (d <=? 90)%Z; [split; vm_compute; discriminate|].
  destruct (d <=? 365)%Z; split; vm_compute; discriminate.
Qed.

Lemma authority_score_mono r s q f f' :
  (0 <= get_or (dlookup "freshness" (ar_formula_weights r)) (rnd (3 # 10)))%Q -> (0 <= f)%Q -> (f <= f')%Q ->
  (authority_score r s q f <= authority_score r s q f')%Q.
Proof.
  intros Hw H0 Hf. unfold authority_score. set (a := fadd (fmul s _) (fmul q _)).
  set (w := get_or (dlookup "freshness" _) _) in *.
  assert (fadd a (fmul f w) <= fadd a (fmul f' w))%Q as Hle
    by (apply fadd_mono; [apply Qle_refl|apply fmul_mono; [done..|apply Qle_refl]]).
  destruct (flt (fadd a (fmul f w)) 0) eqn:E1, (flt (fadd a (fmul f' w)) 0) eqn:E2,
    (flt 1 (fadd a (fmul f w))) eqn:E3, (flt 1 (fadd a (fmul f' w))) eqn:E4; fcompare; lra.
Qed.

(** ** The properties *)

(** The same evidence seen later is never more authoritative, for any
    weights with a freshness weight that is not negative; and every score is
    between 0 and 1. *)
Theorem authority_decays float_repr fromisoformat now now' r evidence x y
  (Hw : (0 <= get_or (dlookup "freshness" (ar_formula_weights r)) (rnd (3 # 10)))%Q) (Hnow : (now <= now')%Z)
  (Hx : resolve float_repr fromisoformat now r evidence = Ok x)
  (Hy : resolve float_repr fromisoformat now' r evidence = Ok y) :
  (0 <= y /\ y <= x /\ x <= 1)%Q.
Proof.
  unfold resolve in *. apply rbind_ok in Hx as (t & Ht & (q & Hq & (f & Hf & [= <-])%rbind_ok)%rbind_ok).
  apply rbind_ok in Hy as (t' & Ht' & (q' & Hq' & (f' & Hf' & [= <-])%rbind_ok)%rbind_ok).
  rewrite Ht in Ht'. injection Ht' as <-. rewrite Hq in Hq'. injection Hq' as <-.
  split_and!; [apply authority_score_unit| |apply authority_score_unit].
  unfold compute_freshness in Hf, Hf'. apply rbind_ok in Hf as (ts & Hts & [= <-]). apply rbind_ok in Hf' as (ts' & Hts' & [= <-]).
  rewrite Hts in Hts'. injection Hts' as <-.
  apply authority_score_mono; [done|pose proof (freshness_range (age_days fromisoformat now' ts)) as [H _];
    eapply Qle_trans; [|exact H]; vm_compute; discriminate|].
  unfold age_days, freshness_of_age. destruct (negb (truthy ts)); [apply Qle_refl|].
  destruct (fromisoformat _) as [z|]; [|apply Qle_refl]. apply tier_score_antitone.
  apply Z.max_le_compat_l, Z.div_le_mono; lia.
Qed.

(** A failed database query loses exactly the weight of correctness. *)
Example db_failure_ex :
  let r := init_resolver None None None in
  let ev ok := [("source_type", VStr "db"); ("metadata", VDict [("query_success", VBool ok); ("as_of", VStr "t")])] in
  resolve (fun _ => "") (fun _ => Some 0%Z) 0 r (ev true) = Ok (authority_score r (rnd (19 # 20)) 1 1) /\
  resolve (fun _ => "") (fun _ => Some 0%Z) 0 r (ev false) = Ok (authority_score r (rnd (19 # 20)) 0 1).
Proof. split; vm_compute; reflexivity. Qed.

Definition example_evidence : pydict := [("source_type", VStr "web"); ("created_at", VStr "2026-01-01T00:00:00Z")].

Lemma authority_decays_witness :
  let r := init_resolver None None None in
  let score d := authority_score r (rnd (1 # 2)) (rnd (4 # 5)) (freshness_of_age (Some d)) in
  (0 <= score 400%Z /\ score 400%Z <= score 10%Z /\ score 10%Z <= 1)%Q.
Proof.
  apply (authority_decays (fun _ => "") (fun _ => Some 0%Z) (10 * 86400000000) (400 * 86400000000) (init_resolver None None None) example_evidence);
    [vm_compute; discriminate|lia|vm_compute; reflexivity|vm_compute; reflexivity].
Defined.
