(* ===== verification/Answerability.v ===== *)
(** * Is the evidence enough to answer?
    (evidence/answerability.py, skills/evidence_adapter.py,
    nodes/answerability_check.py)

    A score of the evidence decides how to go on; the evidence that the skills
    of the request declare as required is checked on top.  The validation of
    requirements and of skill sets by pydantic is an argument. *)

From S2P Require Import Prelude PyFloat PyVal PyList PyText.

(** ** Requirements of the skills *)

Record SkillEvidenceRequirement : Type := mkRequirement {
  rq_evidence_id : string; rq_evidence_type : string; rq_source_target_id : option string;
  rq_table_name : option string; rq_required : bool; rq_min_docs : Z; rq_required_for_sections : list string }.

Record SkillEvidenceCheckResult : Type := mkCheckResult {
  ck_answerable : bool; ck_publish_mode : string; ck_missing_required_evidence : list string;
  ck_section_coverage : list (string * bool); ck_reason : string }.

Section adapter.
Context (float_repr : Q -> string).

Definition evidence_ids (item : pydict) : list string :=
  match dlookup "evidence_ids" item with
  | Some (VList l) => map (py_str float_repr) l
  | _ => match dlookup "evidence_id" item with
         | Some v => if truthy v then [py_str float_repr v] else []
         | None => []
         end
  end.

(** A declared name that the evidence also names must agree. *)
Definition field_agrees (declared : option string) (field : string) (item : pydict) : bool :=
  match declared with
  | Some d => if truthy d then match dlookup field item with
                               | Some v => if truthy v then py_eq v (VStr d) else true
                               | None => true
                               end
              else true
  | None => true
  end.

Definition matches_metadata (r : SkillEvidenceRequirement) (item : pydict) : bool :=
  field_agrees (rq_source_target_id r) "source_target_id" item && field_agrees (rq_table_name r) "table_name" item.

Definition type_aliases : list (string * list string) :=
  [("db", ["db"; "db_rows"]); ("db_rows", ["db"; "db_rows"]); ("rag", ["rag"; "rag_docs"]); ("rag_docs", ["rag"; "rag_docs"]);
   ("graph", ["graph"; "graph_rows"]); ("graph_rows", ["graph"; "graph_rows"; "graph_result"])].

Definition source_type_matches (evidence_type : string) (source_type : pyval) : bool :=
  let normalized := py_lower (py_str float_repr (source_type or_else VStr "")) in
  let expected := py_lower evidence_type in
  str_in normalized (get_or (dlookup expected type_aliases) [expected]).

Definition matches_requirement (r : SkillEvidenceRequirement) (item : pydict) : bool :=
  if str_in (rq_evidence_id r) (evidence_ids item) then matches_metadata r item
  else startswith "report_" (rq_evidence_id r) &&
       source_type_matches (rq_evidence_type r) (get_or (dlookup "source_type" item) VNone).

Definition matched (evidence : list pydict) (r : SkillEvidenceRequirement) : bool := existsb (matches_requirement r) evidence.

(** The table of matches by evidence id, and a look-up in it. *)
Definition match_table (requirements : list SkillEvidenceRequirement) (evidence : list pydict) : list (string * bool) :=
  fold_left (fun d r => dset (rq_evidence_id r) (matched evidence r) d) requirements [].

Definition table_match (table : list (string * bool)) (r : SkillEvidenceRequirement) : bool :=
  get_or (dlookup (rq_evidence_id r) table) false.

Definition sections_of (requirements : list SkillEvidenceRequirement) : list string :=
  fold_left (fun acc s => append_new s acc) (concat (map rq_required_for_sections requirements)) [].

(** [SkillEvidenceAdapter.check]; the sections come in some order. *)
Definition check_evidence (requirements : list SkillEvidenceRequirement) (evidence : list pydict) : SkillEvidenceCheckResult :=
  let table := match_table requirements evidence in
  let missing := map rq_evidence_id (List.filter (fun r => rq_required r && negb (table_match table r)) requirements) in
  let coverage := map (fun section =>
      (section, forallb (fun r => negb (rq_required r && str_in section (rq_required_for_sections r)) || table_match table r) requirements))
    (sections_of requirements) in
  match missing with
  | [] => mkCheckResult true "full" [] coverage "Skill 声明的必需 Evidence 已满足"
  | _ => mkCheckResult false "summary_only" missing coverage (join "" ["缺少必需 Evidence: "; join ", " missing])
  end.

(** The raw requirements of a resolved skill set, data before retrieval
    before report types; the first of an id counts. *)
Definition collect_requirements (validate : pydict -> result SkillEvidenceRequirement) (data retrieval : option (list pydict))
    (required_evidence_types : list string) : result (list SkillEvidenceRequirement) :=
  let raw := get_or data [] ++ get_or retrieval [] ++
    map (fun t => [("evidence_id", VStr (join "" ["report_"; t; "_evidence"])); ("evidence_type", VStr t); ("required", VBool true);
                   ("required_for_sections", VList [])]) required_evidence_types in
  let! requirements := rmap validate raw in
  Ok (map snd (fold_left (fun d r => match dlookup (rq_evidence_id r) d with
                                     | Some _ => d
                                     | None => dset (rq_evidence_id r) r d
                                     end) requirements [])).

(** ** The decision *)

Definition COVERAGE_THRESHOLD : Q := rnd (3 # 5).
Definition HIGH_CONFIDENCE_THRESHOLD : Q := rnd (17 # 20).

Record AnswerabilityResult : Type := mkAnswerability {
  aw_answerable : bool; aw_coverage_score : Q; aw_missing_aspects : list string; aw_conflicts : list string;
  aw_needs_more_evidence : bool; aw_recommended_action : string; aw_reason : string;
  aw_skill : option SkillEvidenceCheckResult }.

Definition no_evidence_result : AnswerabilityResult :=
  mkAnswerability false 0 ["无任何证据"] [] true "ask_clarification" "没有任何证据，需要澄清问题或先做基础检索" None.

Context (float_of_text : string -> option Q).

Definition evidence_value (e : pydict) : result Q :=
  let! rel := to_float float_of_text (get_or (dlookup "relevance_score" e) (VFloat 0)) in
  let! auth := to_float float_of_text (get_or (dlookup "authority_score" e) (VFloat 0)) in
  Ok (fadd (fmul rel (rnd (3 # 5))) (fmul auth (rnd (2 # 5)))).

Definition of_source (source : string) (e : pydict) : bool := py_eq (get_or (dlookup "source_type" e) VNone) (VStr source).

Definition coverage_of (evidences : list pydict) : result Q :=
  let! values := rmap evidence_value evidences in
  Ok (fround (match evidences with [] => 0 | _ => fdiv (py_sum values) (inject_Z (py_len evidences)) end) 3).

(** Database and web evidence without a document to support them. *)
Definition base_conflicts (evidences : list pydict) : list string :=
  if existsb (of_source "db") evidences && existsb (of_source "web") evidences && negb (existsb (of_source "rag") evidences)
  then ["db_web_no_rag_support"] else [].

Definition check_base_answerability (evidences : list pydict) : result AnswerabilityResult :=
  let! coverage := coverage_of evidences in
  let conflicts := base_conflicts evidences in
  let text := float_repr coverage in
  Ok (if fge coverage COVERAGE_THRESHOLD && negb (truthy conflicts) then
        mkAnswerability true coverage [] conflicts false "generate" (join "" ["证据充分（coverage="; text; "）"]) None
      else if fge coverage HIGH_CONFIDENCE_THRESHOLD && truthy conflicts then
        mkAnswerability true coverage [] conflicts false "generate" (join "" ["高置信度（coverage="; text; "），忽略冲突"]) None
      else if (1 <=? py_len evidences)%Z && fge coverage (rnd (3 # 10)) then
        mkAnswerability true coverage ["部分信息可能不充分"] conflicts false "partial_answer"
          (join "" ["部分证据充分（coverage="; text; "），输出部分答案"]) None
      else if (py_len evidences <? 1)%Z then
        mkAnswerability false coverage ["证据数量不足"] conflicts true "ask_clarification" "证据数量不足，建议澄清" None
      else
        mkAnswerability false coverage ["证据相关性较低"] conflicts true "react_continue"
          (join "" ["证据相关性不足（coverage="; text; "），回到 ReAct 补充"]) None).

Definition merge_skill_evidence_result (base : AnswerabilityResult) (evidences : list pydict)
    (requirements : list SkillEvidenceRequirement) : AnswerabilityResult :=
  match requirements with
  | [] => base
  | _ =>
    let skill := check_evidence requirements evidences in
    if ck_answerable skill then
      mkAnswerability (aw_answerable base) (aw_coverage_score base) (aw_missing_aspects base) (aw_conflicts base)
        (aw_needs_more_evidence base) (aw_recommended_action base) (aw_reason base) (Some skill)
    else
      mkAnswerability false (aw_coverage_score base)
        (fold_left (fun acc s => append_new s acc) (aw_missing_aspects base ++ ck_missing_required_evidence skill) [])
        (aw_conflicts base) true "partial_answer" (ck_reason skill) (Some skill)
  end.

(** [resolve_skill_requirements]: the requirements that count, given the
    validation of raw ones and the resolved skill set ([None]: absent or
    invalid) with its declarations. *)
Record SkillDeclarations : Type := mkDeclarations {
  sd_data : option (list pydict); sd_retrieval : option (list pydict); sd_required_evidence_types : list string }.

Definition resolve_skill_requirements (validate : pydict -> result SkillEvidenceRequirement) (skill_set : option SkillDeclarations)
    (raw_requirements : option (list pydict)) : result (list SkillEvidenceRequirement) :=
  if truthy raw_requirements then rmap validate (get_or raw_requirements [])
  else match skill_set with
       | None => Ok []
       | Some s => collect_requirements validate (sd_data s) (sd_retrieval s) (sd_required_evidence_types s)
       end.

Definition check_answerability (validate : pydict -> result SkillEvidenceRequirement) (evidences : list pydict)
    (skill_set : option SkillDeclarations) (raw_requirements : option (list pydict)) : result AnswerabilityResult :=
  let! base := match evidences with [] => Ok no_evidence_result | _ => check_base_answerability evidences end in
  let! requirements := resolve_skill_requirements validate skill_set raw_requirements in
  Ok (merge_skill_evidence_result base evidences requirements).
End adapter.

(** [answerability_routing]: every action goes on to the quality check. *)
Definition answerability_routing (recommended_action : string) : string :=
  if str_in recommended_action ["generate"; "partial_answer"; "react_continue"] then "quality_check"
  else if String.eqb recommended_action "ask_clarification" then "quality_check"
  else "quality_check".

(** ** Lemmas *)

(** The last requirement of an id fills its place in the table. *)
Lemma match_table_lookup fr reqs ev k :
  match dlookup k (match_table fr reqs ev) with
  | Some b => exists r, r ∈ reqs /\ rq_evidence_id r = k /\ b = matched fr ev r
  | None => forall r, r ∈ reqs -> rq_evidence_id r <> k
  end.
Proof.
  unfold match_table. induction reqs as [|r reqs IH] using rev_ind; [by cbn; intros r ?%not_elem_of_nil|].
  rewrite fold_left_app. cbn [fold_left]. rewrite dlookup_dset. destruct (String.eqb_spec k (rq_evidence_id r)) as [->|Hne].
  - exists r. split_and!; [set_solver|done|done].
  - destruct (dlookup k _) as [b|].
    + destruct IH as (r' & Hr' & ? & ?). exists r'. split_and!; [set_solver|done|done].
    + intros r' [Hr'|Hr'%list_elem_of_singleton]%elem_of_app; [auto|congruence].
Qed.

Lemma table_match_distinct fr reqs ev r : NoDup (map rq_evidence_id reqs) -> r ∈ reqs ->
  table_match (match_table fr reqs ev) r = matched fr ev r.
Proof.
  intros Hnd Hr. unfold table_match. pose proof (match_table_lookup fr reqs ev (rq_evidence_id r)) as H.
  destruct (dlookup _ _) as [b|]; [|by destruct (H r Hr)]. destruct H as (r' & Hr' & He & ->). cbn.
  by rewrite (NoDup_map_inj _ _ _ _ Hnd Hr' Hr He).
Qed.

Lemma elem_of_append_all x l acc : x ∈ fold_left (fun acc s => append_new s acc) l acc <-> x ∈ acc \/ x ∈ l.
Proof.
  revert acc. induction l as [|y l IH]; intros acc; cbn [fold_left]; [set_solver|].
  rewrite IH, elem_of_append_new, elem_of_cons. naive_solver.
Qed.

(** The first requirement of each id, in order. *)
Lemma collect_distinct reqs :
  let d := fold_left (fun d r => match dlookup (rq_evidence_id r) d with Some _ => d | None => dset (rq_evidence_id r) r d end) reqs [] in
  NoDup (map fst d) /\ Forall (fun kr => kr.1 = rq_evidence_id kr.2 /\ kr.2 ∈ reqs) d.
Proof.
  cbn zeta. induction reqs as [|r reqs IH] using rev_ind; [split; constructor|]. rewrite fold_left_app. cbn [fold_left].
  destruct IH as [Hnd Hall]. assert (Forall (fun kr => kr.1 = rq_evidence_id kr.2 /\ kr.2 ∈ reqs ++ [r])
    (fold_left (fun d r => match dlookup (rq_evidence_id r) d with Some _ => d | None => dset (rq_evidence_id r) r d end) reqs [])) as Hall'.
  { eapply Forall_impl; [exact Hall|]. intros kr [? ?]. split; [done|set_solver]. }
  destruct (dlookup (rq_evidence_id r) _) eqn:E; [done|]. apply dlookup_none_keys in E. split.
  - rewrite dset_map_keys, (proj2 (str_in_false _ _) E). apply NoDup_app. split_and!; [done|set_solver|apply NoDup_singleton].
  - apply dset_Forall; [done|]. cbn. split; [done|set_solver].
Qed.

Lemma collect_requirements_distinct validate data retrieval types reqs :
  collect_requirements validate data retrieval types = Ok reqs -> NoDup (map rq_evidence_id reqs).
Proof.
  unfold collect_requirements. intros (l & _ & [= <-])%rbind_ok. destruct (collect_distinct l) as [Hnd Hall].
  rewrite map_map. erewrite map_ext_in; [exact Hnd|]. intros kr Hin. cbn. rewrite Forall_forall in Hall.
  symmetry. apply Hall. by apply list_elem_of_In.
Qed.

(** What each outcome of the score says. *)
Inductive base_outcome (evidences : list pydict) (r : AnswerabilityResult) : Prop :=
  | BaseGenerate : aw_answerable r = true -> aw_recommended_action r = "generate" ->
      (COVERAGE_THRESHOLD <= aw_coverage_score r)%Q /\ base_conflicts evidences = [] \/
      (HIGH_CONFIDENCE_THRESHOLD <= aw_coverage_score r)%Q -> base_outcome evidences r
  | BasePartial : aw_answerable r = true -> aw_recommended_action r = "partial_answer" -> evidences <> [] ->
      (rnd (3 # 10) <= aw_coverage_score r)%Q -> base_outcome evidences r
  | BaseRefuse : aw_answerable r = false -> aw_recommended_action r ∈ ["ask_clarification"; "react_continue"] ->
      evidences = [] \/ (aw_coverage_score r < rnd (3 # 10))%Q -> base_outcome evidences r.

Lemma base_answerable fr ft evidences r : check_base_answerability fr ft evidences = Ok r ->
  coverage_of ft evidences = Ok (aw_coverage_score r) /\ aw_skill r = None /\ base_outcome evidences r.
Proof.
  unfold check_base_answerability. intros (c & Hc & H)%rbind_ok.
  assert (py_len evidences < 1 <-> evidences = [])%Z as Hlen by (unfold py_len; destruct evidences; cbn; split; [done|lia|lia|done]).
  destruct (fge c COVERAGE_THRESHOLD && negb (truthy (base_conflicts evidences))) eqn:E1.
  { apply andb_true_iff in E1 as [E1 En]. injection H as <-. split_and!; [done..|]. apply BaseGenerate; [done..|].
    left. fcompare. split; [done|]. by destruct (base_conflicts evidences). }
  destruct (fge c HIGH_CONFIDENCE_THRESHOLD && truthy (base_conflicts evidences)) eqn:E2.
  { apply andb_true_iff in E2 as [E2 _]. injection H as <-. split_and!; [done..|]. apply BaseGenerate; [done..|].
    right. by fcompare. }
  destruct ((1 <=? py_len evidences)%Z && fge c (rnd (3 # 10))) eqn:E3.
  { apply andb_true_iff in E3 as [El%Z.leb_le E3]. injection H as <-. split_and!; [done..|]. apply BasePartial; [done..| |by fcompare].
    intros E. apply Hlen in E. lia. }
  destruct (py_len evidences <? 1)%Z eqn:E4; injection H as <-; (split_and!; [done..|]); (apply BaseRefuse; [done|by apply str_in_spec|]).
  - left. by apply Hlen, Z.ltb_lt.
  - right. apply Z.ltb_ge in E4. apply Z.leb_le in E4. rewrite E4 in E3. cbn [andb] in E3. by fcompare.
Qed.

Lemma answerable_matches fr reqs evidence q : ck_answerable (check_evidence fr reqs evidence) = true -> q ∈ reqs ->
  rq_required q = true -> exists q', q' ∈ reqs /\ rq_evidence_id q' = rq_evidence_id q /\ matched fr evidence q' = true.
Proof.
  unfold check_evidence. destruct (List.filter _ reqs) as [|x l] eqn:E; cbn [map]; [|done]. intros _ Hq Hreq.
  assert (table_match (match_table fr reqs evidence) q = true) as Hm.
  { destruct (table_match _ q) eqn:Em; [done|]. exfalso. assert (In q []) as []. rewrite <- E. apply List.filter_In.
    split; [by apply list_elem_of_In|by rewrite Hreq, Em]. }
  unfold table_match in Hm. pose proof (match_table_lookup fr reqs evidence (rq_evidence_id q)) as H.
  destruct (dlookup _ _) as [b|]; [|done]. cbn in Hm. subst b. destruct H as (q' & ? & ? & ?). eauto.
Qed.

(** ** The properties *)

(** With distinct evidence ids, the declared requirements are met exactly when
    every required one has a matching piece of evidence; otherwise the missing
    ones are reported, and a section is covered exactly when all its required
    evidence is there. *)
Theorem required_evidence_decides float_repr reqs evidence (Hnd : NoDup (map rq_evidence_id reqs)) :
  let r := check_evidence float_repr reqs evidence in
  (ck_answerable r = true <-> forall q, q ∈ reqs -> rq_required q = true -> matched float_repr evidence q = true) /\
  (forall id, id ∈ ck_missing_required_evidence r <->
     exists q, q ∈ reqs /\ rq_evidence_id q = id /\ rq_required q = true /\ matched float_repr evidence q = false) /\
  (forall s, s ∈ map fst (ck_section_coverage r) <-> exists q, q ∈ reqs /\ s ∈ rq_required_for_sections q) /\
  (forall s b, (s, b) ∈ ck_section_coverage r -> (b = true <-> forall q, q ∈ reqs -> rq_required q = true ->
     s ∈ rq_required_for_sections q -> matched float_repr evidence q = true)).
Proof.
  cbn zeta. unfold check_evidence. set (table := match_table float_repr reqs evidence).
  set (missing := map rq_evidence_id _). set (coverage := map _ (sections_of reqs)).
  assert (forall q, q ∈ reqs -> table_match table q = matched float_repr evidence q) as Ht by (intros; by apply table_match_distinct).
  assert (forall id, id ∈ missing <-> exists q, q ∈ reqs /\ rq_evidence_id q = id /\ rq_required q = true /\ matched float_repr evidence q = false) as Hm.
  { intros id. unfold missing. rewrite list_elem_of_In, in_map_iff. setoid_rewrite List.filter_In. setoid_rewrite <- list_elem_of_In.
    setoid_rewrite andb_true_iff. setoid_rewrite negb_true_iff. split.
    - intros (q & Hid & Hq & Hr & Hf). rewrite (Ht q Hq) in Hf. eauto 6.
    - intros (q & Hq & Hid & Hr & Hf). rewrite <- (Ht q Hq) in Hf. eauto 6. }
  assert (missing = [] <-> forall q, q ∈ reqs -> rq_required q = true -> matched float_repr evidence q = true) as Hnil.
  { split.
    - intros E q Hq Hr. destruct (matched float_repr evidence q) eqn:Ef; [done|]. exfalso.
      assert (rq_evidence_id q ∈ missing) as Hin by (apply Hm; eauto). rewrite E in Hin. by apply not_elem_of_nil in Hin.
    - intros Hall. destruct missing as [|id l] eqn:E; [done|]. exfalso.
      destruct (proj1 (Hm id)) as (q & Hq & _ & Hr & Hf); [by left|]. by rewrite (Hall q Hq Hr) in Hf. }
  assert (forall s, s ∈ sections_of reqs <-> exists q, q ∈ reqs /\ s ∈ rq_required_for_sections q) as Hsec.
  { intros s. unfold sections_of. rewrite elem_of_append_all, (list_elem_of_In (concat _)), in_concat. setoid_rewrite in_map_iff. split.
    - intros [?%not_elem_of_nil|(l & (q & <- & Hq) & Hs)]; [done|]. exists q. split; by apply list_elem_of_In.
    - intros (q & Hq%list_elem_of_In & Hs%list_elem_of_In). right. eauto. }
  assert (forall s, s ∈ map fst coverage <-> exists q, q ∈ reqs /\ s ∈ rq_required_for_sections q) as Hkeys
    by (intros s; unfold coverage; rewrite map_map; cbn; rewrite map_id; apply Hsec).
  assert (forall s b, (s, b) ∈ coverage -> (b = true <-> forall q, q ∈ reqs -> rq_required q = true ->
     s ∈ rq_required_for_sections q -> matched float_repr evidence q = true)) as Hcov.
  { intros s b (s' & [= -> <-] & _)%list_elem_of_In%in_map_iff. rewrite forallb_true_forall. split.
    - intros Hall q Hq Hr Hs. specialize (Hall q Hq). rewrite Hr, (proj2 (str_in_spec _ _) Hs), (Ht q Hq) in Hall. done.
    - intros Hall q Hq. rewrite (Ht q Hq). destruct (rq_required q) eqn:Er; [|done]. cbn [andb].
      destruct (str_in s (rq_required_for_sections q)) eqn:Es; [|done]. cbn [negb orb]. apply Hall; [done..|by apply str_in_spec]. }
  destruct missing as [|id l] eqn:E; cbn [ck_answerable ck_missing_required_evidence ck_section_coverage]; split_and!; try done.
  - by split; [intros _; apply Hnil|].
  - split; [done|]. intros Hall. exfalso. by apply Hnil in Hall.
Qed.

(** An answer is called possible only with evidence whose coverage reaches
    0.3 and with every required piece of evidence the skills declare; it is
    generated in full only from a coverage of 0.6 without a conflict of
    sources, or of 0.85. *)
Theorem answerable_sound float_repr float_of_text validate evidences skill_set raw r
  (H : check_answerability float_repr float_of_text validate evidences skill_set raw = Ok r) :
  (aw_answerable r = true -> evidences <> [] /\ coverage_of float_of_text evidences = Ok (aw_coverage_score r) /\
     (rnd (3 # 10) <= aw_coverage_score r)%Q /\
     exists reqs, resolve_skill_requirements validate skill_set raw = Ok reqs /\
       forall q, q ∈ reqs -> rq_required q = true ->
         exists q', q' ∈ reqs /\ rq_evidence_id q' = rq_evidence_id q /\ matched float_repr evidences q' = true) /\
  (aw_recommended_action r = "generate" -> aw_answerable r = true /\
     ((COVERAGE_THRESHOLD <= aw_coverage_score r)%Q /\ base_conflicts evidences = [] \/
      (HIGH_CONFIDENCE_THRESHOLD <= aw_coverage_score r)%Q)).
Proof.
  unfold check_answerability in H. apply rbind_ok in H as (base & Hb & (reqs & Hr & [= <-])%rbind_ok).
  assert ((evidences = [] /\ base = no_evidence_result) \/
    (evidences <> [] /\ coverage_of float_of_text evidences = Ok (aw_coverage_score base) /\ base_outcome evidences base)) as Hbase.
  { destruct evidences as [|e evs]; [injection Hb as <-; by left|]. right. destruct (base_answerable _ _ _ _ Hb) as (? & _ & ?). done. }
  assert (aw_answerable base = true -> evidences <> [] /\ coverage_of float_of_text evidences = Ok (aw_coverage_score base) /\
     (rnd (3 # 10) <= aw_coverage_score base)%Q) as Ha.
  { destruct Hbase as [[_ ->]|(Hne & Hc & Ho)]; [done|]. intros Ht. split_and!; [done..|].
    assert (rnd (3 # 10) < COVERAGE_THRESHOLD /\ rnd (3 # 10) < HIGH_CONFIDENCE_THRESHOLD)%Q as [? ?] by (split; vm_compute; reflexivity).
    destruct Ho as [_ _ [[? _]|?]|_ _ _ ?|Hf]; [lra|lra|done|congruence]. }
  assert (aw_recommended_action base = "generate" -> aw_answerable base = true /\
     ((COVERAGE_THRESHOLD <= aw_coverage_score base)%Q /\ base_conflicts evidences = [] \/
      (HIGH_CONFIDENCE_THRESHOLD <= aw_coverage_score base)%Q)) as Hg.
  { destruct Hbase as [[_ ->]|(_ & _ & [? _ ?|_ E|_ E _])]; [done|done|congruence|]. intros Ea. rewrite Ea in E. by apply str_in_spec in E. }
  destruct reqs as [|q0 reqs]; cbn [merge_skill_evidence_result].
  - split; [|exact Hg]. intros Ht. destruct (Ha Ht) as (? & ? & ?). split_and!; [done..|]. exists []. split; [done|].
    intros q Hq. by apply not_elem_of_nil in Hq.
  - destruct (ck_answerable _) eqn:Ek; [|done]. cbn. split; [|exact Hg]. intros Ht. destruct (Ha Ht) as (? & ? & ?).
    split_and!; [done..|]. exists (q0 :: reqs). split; [done|]. intros q Hq Hreq.
    by eapply answerable_matches.
Qed.

(** ** What the check does not do *)

(** The advice of the check never changes the way of the graph. *)
Lemma routing_constant action : answerability_routing action = "quality_check".
Proof. unfold answerability_routing. destruct (str_in _ _); [done|]. by destruct (String.eqb _ _). Qed.

(** A missing requirement turns "ask for clarification" into "answer in part". *)
Lemma missing_requirement_softens :
  let q := mkRequirement "ev" "db" None None true 0 [] in
  aw_recommended_action no_evidence_result = "ask_clarification" /\
  aw_recommended_action (merge_skill_evidence_result (fun _ => "") no_evidence_result [] [q]) = "partial_answer".
Proof. split; vm_compute; reflexivity. Qed.

(** ** Witnesses *)

Definition example_requirements : list SkillEvidenceRequirement :=
  [mkRequirement "ev1" "db" None None true 0 ["s1"]; mkRequirement "ev2" "rag" None None false 0 ["s2"]].

Definition example_item : pydict :=
  [("evidence_id", VStr "ev1"); ("source_type", VStr "db"); ("relevance_score", VFloat 1); ("authority_score", VFloat 1)].

Lemma required_evidence_decides_witness :
  let r := check_evidence (fun _ => "") example_requirements [example_item] in
  (ck_answerable r = true <-> forall q, q ∈ example_requirements -> rq_required q = true -> matched (fun _ => "") [example_item] q = true).
Proof.
  apply (required_evidence_decides (fun _ => "") example_requirements [example_item]).
  apply (bool_decide_unpack _). vm_compute. exact I.
Defined.

Definition example_validate (d : pydict) : result SkillEvidenceRequirement :=
  let! id := dindex as_str d "evidence_id" in
  let! t := dindex as_str d "evidence_type" in
  let! req := dget as_bool d "required" false in Ok (mkRequirement id t None None req 0 []).

Lemma answerable_sound_witness :
  [example_item] <> [] /\ coverage_of (fun _ => None) [example_item] = Ok 1%Q /\ (rnd (3 # 10) <= 1)%Q.
Proof.
  edestruct (answerable_sound (fun _ => "") (fun _ => None) example_validate [example_item]
    (Some (mkDeclarations (Some [[("evidence_id", VStr "ev1"); ("evidence_type", VStr "db"); ("required", VBool true)]]) None [])) None)
    as [Ha _]; [vm_compute; reflexivity|]. destruct (Ha eq_refl) as (H1 & H2 & H3 & _). exact (conj H1 (conj H2 H3)).
Defined.
