(* ===== verification/ResultAggregator.v ===== *)
(** * Aggregating the results of a plan (executor/result_aggregator.py)

    The results of the tools of a plan become the fields of the state that a
    single tool would have written.  Rows and documents are values: two
    results never share one. *)

From S2P Require Import Prelude PyFloat PyVal PyList PyText.

Definition AGGREGATION_MAX_KEEP : Z := 20.

Section aggregate.
Context (float_of_text : string -> option Q).

(** [get_document_relevance_score] (tools/rag_tool.py) *)
Definition document_relevance_score (doc : pydict) : result (Q * string) :=
  let scored k := match dlookup k doc with Some VNone | None => None | Some v => Some (to_float float_of_text v) end in
  match scored "rerank_score", scored "similarity", scored "score" with
  | Some q, _, _ => let! q := q in Ok (q, "rerank_score")
  | None, Some q, _ => let! q := q in Ok (q, "similarity")
  | None, None, Some q => let! q := q in Ok (q, "score")
  | None, None, None => Ok (0%Q, "none")
  end.

(** What the loop over the results collects. *)
Record Collected : Type := mkCollected {
  co_rag_docs : list pydict; co_score_sources : list string; co_db_rows : list pydict; co_db_sources : list pyval;
  co_max_db_score : Q; co_web_docs : list pyval; co_rest_docs : list pyval; co_max_rest_score : Q;
  co_report_artifacts : list pyval; co_report_summary : pyval; co_max_report_score : Q }.

Definition empty_collected : Collected := mkCollected [] [] [] [] 0 [] [] 0 [] (VStr "") 0.

(** [result.get(k, [])] used only when truthy. *)
Definition listed (k : string) (d : pydict) : result (list pyval) :=
  match dlookup k d with Some v => if truthy v then py_iter v else Ok [] | None => Ok [] end.

Definition score_field (k : string) (d : pydict) : result Q := as_float (get_or (dlookup k d) (VFloat 0)).

Definition collect_rag (acc : Collected) (result : pydict) : PyVal.result Collected :=
  let! docs := listed "rag_docs" result in
  match docs with
  | [] => Ok acc
  | _ =>
    let! dicts := rmap as_dict docs in
    let! source := match dlookup "rag_score_source" result with
                   | Some v => if truthy v then let! s := as_str v in Ok [s] else Ok []
                   | None => Ok []
                   end in
    Ok (mkCollected (co_rag_docs acc ++ dicts) (fold_left (fun l s => append_new s l) source (co_score_sources acc)) (co_db_rows acc)
          (co_db_sources acc) (co_max_db_score acc) (co_web_docs acc) (co_rest_docs acc) (co_max_rest_score acc)
          (co_report_artifacts acc) (co_report_summary acc) (co_max_report_score acc))
  end.

(** The rows of a database, each marked with where it comes from. *)
Definition collect_db (acc : Collected) (result : pydict) : PyVal.result Collected :=
  match get_or (dlookup "db_result" result) (VDict []) with
  | VDict db_result =>
    let! rows := listed "rows" db_result in
    match rows with
    | [] => Ok acc
    | _ =>
      let db_id := get_or (dlookup "db_id" result) (VStr "unknown") in
      let! rows := rmap as_dict rows in
      let! score := score_field "db_quality_score" result in
      Ok (mkCollected (co_rag_docs acc) (co_score_sources acc) (co_db_rows acc ++ map (dset "_source_db" db_id) rows)
            (co_db_sources acc ++ [db_id]) (fmax (co_max_db_score acc) score) (co_web_docs acc) (co_rest_docs acc) (co_max_rest_score acc)
            (co_report_artifacts acc) (co_report_summary acc) (co_max_report_score acc))
    end
  | v => if truthy v then Raise (AttributeError "get") else Ok acc
  end.

Definition collect_web (acc : Collected) (result : pydict) : PyVal.result Collected :=
  let! docs := listed "web_docs" result in
  Ok (mkCollected (co_rag_docs acc) (co_score_sources acc) (co_db_rows acc) (co_db_sources acc) (co_max_db_score acc)
        (co_web_docs acc ++ docs) (co_rest_docs acc) (co_max_rest_score acc)
        (co_report_artifacts acc) (co_report_summary acc) (co_max_report_score acc)).

Definition collect_rest (acc : Collected) (result : pydict) : PyVal.result Collected :=
  match get_or (dlookup "rest_result" result) (VDict []) with
  | VDict rest_result =>
    let! docs := listed "docs" rest_result in
    match docs with
    | [] => Ok acc
    | _ =>
      let! score := score_field "rest_quality_score" result in
      Ok (mkCollected (co_rag_docs acc) (co_score_sources acc) (co_db_rows acc) (co_db_sources acc) (co_max_db_score acc)
            (co_web_docs acc) (co_rest_docs acc ++ docs) (fmax (co_max_rest_score acc) score)
            (co_report_artifacts acc) (co_report_summary acc) (co_max_report_score acc))
    end
  | _ => Raise (AttributeError "get")
  end.

Definition collect_report (acc : Collected) (result : pydict) : PyVal.result Collected :=
  let! artifacts := listed "report_artifacts" result in
  match artifacts with
  | [] => Ok acc
  | _ =>
    let! score := score_field "report_quality_score" result in
    let summary := get_or (dlookup "report_summary" result) VNone in
    Ok (mkCollected (co_rag_docs acc) (co_score_sources acc) (co_db_rows acc) (co_db_sources acc) (co_max_db_score acc)
          (co_web_docs acc) (co_rest_docs acc) (co_max_rest_score acc)
          (co_report_artifacts acc ++ artifacts) (if truthy summary then summary else co_report_summary acc)
          (fmax (co_max_report_score acc) score))
  end.

Definition succeeded (result : pydict) : bool := truthy (get_or (dlookup "success" result) (VBool false)).

(** One result; a failed one is skipped. *)
Definition collect_result (acc : Collected) (result : pydict) : PyVal.result Collected :=
  if negb (succeeded result) then Ok acc
  else
    let! acc := collect_rag acc result in
    let! acc := collect_db acc result in
    let! acc := collect_web acc result in
    let! acc := collect_rest acc result in
    collect_report acc result.

Fixpoint collect_results (acc : Collected) (tool_results : list pydict) : PyVal.result Collected :=
  match tool_results with
  | [] => Ok acc
  | result :: rest => let! acc := collect_result acc result in collect_results acc rest
  end.

(** A document with its normalised score. *)
Definition score_doc (doc : pydict) : result (pydict * Q) :=
  let! s := document_relevance_score doc in Ok (dset "_relevance_score" (VFloat s.1) doc, s.1).

(** [doc.get("doc_id", "") or doc.get("chunk_id", "")] *)
Definition doc_key (doc : pydict) : pyval :=
  get_or (dlookup "doc_id" doc) (VStr "") or_else get_or (dlookup "chunk_id" doc) (VStr "").

Definition doc_id_text (doc : pydict) : string := match doc_key doc with VStr s => s | _ => "" end.

Definition scored_id (ds : pydict * Q) : string := doc_id_text ds.1.

(** Best first, one document per id, at most [max_keep]. *)
Definition rank_docs (max_keep : Z) (scored : list (pydict * Q)) : list (pydict * Q) :=
  py_take max_keep (first_by scored_id [] (sort_desc snd scored)).

Definition score_source_of (sources : list string) : string :=
  match sources with [] => "base" | [s] => s | _ => "mixed" end.

Record Aggregated : Type := mkAggregated {
  ag_rag_docs : list pydict; ag_rag_quality_score : Q; ag_rag_has_relevant : bool; ag_rag_relevant_count : Z;
  ag_rag_top_score : Q; ag_rag_avg_score : Q; ag_rag_result_count : Z; ag_rag_score_source : string;
  ag_db_rows : list pydict; ag_db_row_count : Z; ag_db_source : pyval; ag_source_dbs : list pyval; ag_db_quality_score : Q;
  ag_web_docs : list pyval; ag_rest_docs : list pyval; ag_rest_quality_score : Q;
  ag_report_artifacts : list pyval; ag_report_summary : pyval; ag_report_quality_score : Q }.

(** [ResultAggregator.aggregate]; document ids are texts. *)
Definition aggregate (tool_results : list pydict) (max_keep : Z) : result Aggregated :=
  let! c := collect_results empty_collected tool_results in
  let! scored := rmap score_doc (co_rag_docs c) in
  let kept := rank_docs max_keep scored in
  let scores := map snd kept in
  let top := match scores with [] => 0%Q | s :: rest => fold_left fmax rest s end in
  let avg := match scores with [] => 0%Q | _ => fdiv (py_sum scores) (inject_Z (py_len scores)) end in
  let count := py_len kept in
  Ok (mkAggregated (map fst kept) avg (0 <? count)%Z count top avg count (score_source_of (co_score_sources c))
        (co_db_rows c) (py_len (co_db_rows c))
        (match co_db_sources c with [] => VStr "" | [s] => s | _ => VStr "multi_db" end) (co_db_sources c) (co_max_db_score c)
        (co_web_docs c) (co_rest_docs c) (co_max_rest_score c)
        (co_report_artifacts c) (co_report_summary c) (co_max_report_score c)).
End aggregate.

(** ** What the results contribute *)

Definition values_of (k : string) (d : pydict) : list pyval := match listed k d with Ok l => l | Raise _ => [] end.
Definition dicts_of (l : list pyval) : list pydict := concat (map (fun v => match v with VDict d => [d] | _ => [] end) l).
Definition inner_dict (k : string) (d : pydict) : pydict := match dlookup k d with Some (VDict e) => e | _ => [] end.

Definition rag_docs_of (r : pydict) : list pydict := dicts_of (values_of "rag_docs" r).
Definition db_rows_of (r : pydict) : list pydict :=
  map (dset "_source_db" (get_or (dlookup "db_id" r) (VStr "unknown"))) (dicts_of (values_of "rows" (inner_dict "db_result" r))).
Definition rest_docs_of (r : pydict) : list pyval := values_of "docs" (inner_dict "rest_result" r).

(** The lists of [c] are those of [acc] and then what each result gives. *)
Record collected_from (acc c : Collected) (results : list pydict) : Prop := {
  cf_rag : co_rag_docs c = co_rag_docs acc ++ concat (map rag_docs_of results);
  cf_db : co_db_rows c = co_db_rows acc ++ concat (map db_rows_of results);
  cf_web : co_web_docs c = co_web_docs acc ++ concat (map (values_of "web_docs") results);
  cf_rest : co_rest_docs c = co_rest_docs acc ++ concat (map rest_docs_of results);
  cf_report : co_report_artifacts c = co_report_artifacts acc ++ concat (map (values_of "report_artifacts") results) }.

Lemma as_dict_map docs ds : rmap as_dict docs = Ok ds -> dicts_of docs = ds.
Proof.
  intros H%rmap_Forall2. induction H as [|v d docs ds Hv _ IH]; [done|]. destruct v; try done.
  injection Hv as <-. unfold dicts_of in *. cbn [map concat app]. by rewrite IH.
Qed.

(** Each step changes its own list only. *)
Definition same_others (keep : list (Collected -> list pydict)) (keepv : list (Collected -> list pyval)) (a b : Collected) : Prop :=
  Forall (fun f => f a = f b) keep /\ Forall (fun f => f a = f b) keepv.

Lemma collect_rag_ok acc r c : collect_rag acc r = Ok c ->
  co_rag_docs c = co_rag_docs acc ++ rag_docs_of r /\
  same_others [co_db_rows] [co_web_docs; co_rest_docs; co_report_artifacts] acc c.
Proof.
  unfold collect_rag, rag_docs_of, values_of. intros (docs & Hd & H)%rbind_ok. rewrite Hd.
  destruct docs as [|v docs]; [injection H as <-; rewrite app_nil_r; split; [done|by repeat constructor]|].
  apply rbind_ok in H as (ds & Hds & (src & _ & [= <-])%rbind_ok). apply as_dict_map in Hds as <-.
  split; [done|by repeat constructor].
Qed.

Lemma collect_db_ok acc r c : collect_db acc r = Ok c ->
  co_db_rows c = co_db_rows acc ++ db_rows_of r /\
  same_others [co_rag_docs] [co_web_docs; co_rest_docs; co_report_artifacts] acc c.
Proof.
  unfold collect_db, db_rows_of, inner_dict. destruct (dlookup "db_result" r) as [v|]; cbn [get_or].
  - destruct v as [| | | | | |d]; try (destruct (truthy _); [done|intros [= <-]; rewrite app_nil_r; split; [done|by repeat constructor]]).
    intros (rows & Hr & H)%rbind_ok. unfold values_of. rewrite Hr.
    destruct rows as [|v rows]; [injection H as <-; rewrite app_nil_r; split; [done|by repeat constructor]|].
    apply rbind_ok in H as (ds & Hds & (s & _ & [= <-])%rbind_ok). apply as_dict_map in Hds as <-. split; [done|by repeat constructor].
  - intros [= <-]. rewrite app_nil_r. split; [done|by repeat constructor].
Qed.

Lemma collect_web_ok acc r c : collect_web acc r = Ok c ->
  co_web_docs c = co_web_docs acc ++ values_of "web_docs" r /\
  same_others [co_rag_docs; co_db_rows] [co_rest_docs; co_report_artifacts] acc c.
Proof.
  unfold collect_web, values_of. intros (docs & -> & [= <-])%rbind_ok. split; [done|by repeat constructor].
Qed.

Lemma collect_rest_ok acc r c : collect_rest acc r = Ok c ->
  co_rest_docs c = co_rest_docs acc ++ rest_docs_of r /\
  same_others [co_rag_docs; co_db_rows] [co_web_docs; co_report_artifacts] acc c.
Proof.
  unfold collect_rest, rest_docs_of, inner_dict. destruct (dlookup "rest_result" r) as [v|]; cbn [get_or].
  - destruct v as [| | | | | |d]; try done. intros (docs & Hd & H)%rbind_ok. unfold values_of. rewrite Hd.
    destruct docs as [|v docs]; [injection H as <-; rewrite app_nil_r; split; [done|by repeat constructor]|].
    apply rbind_ok in H as (s & _ & [= <-]). split; [done|by repeat constructor].
  - intros [= <-]. rewrite app_nil_r. split; [done|by repeat constructor].
Qed.

Lemma collect_report_ok acc r c : collect_report acc r = Ok c ->
  co_report_artifacts c = co_report_artifacts acc ++ values_of "report_artifacts" r /\
  same_others [co_rag_docs; co_db_rows] [co_web_docs; co_rest_docs] acc c.
Proof.
  unfold collect_report, values_of. intros (docs & -> & H)%rbind_ok.
  destruct docs as [|v docs]; [injection H as <-; rewrite app_nil_r; split; [done|by repeat constructor]|].
  apply rbind_ok in H as (s & _ & [= <-]). split; [done|by repeat constructor].
Qed.

Lemma collect_result_ok acc r c : succeeded r = true -> collect_result acc r = Ok c -> collected_from acc c [r].
Proof.
  unfold collect_result. intros ->. cbn [negb].
  intros (c1 & [E1 [O1 P1]]%collect_rag_ok & (c2 & [E2 [O2 P2]]%collect_db_ok & (c3 & [E3 [O3 P3]]%collect_web_ok &
    (c4 & [E4 [O4 P4]]%collect_rest_ok & [E5 [O5 P5]]%collect_report_ok)%rbind_ok)%rbind_ok)%rbind_ok)%rbind_ok.
  repeat match goal with H : Forall _ (_ :: _) |- _ => apply Forall_cons_1 in H as [? H] end.
  split; cbn [map concat]; rewrite app_nil_r; congruence.
Qed.

Lemma collect_results_ok acc results c : collect_results acc results = Ok c ->
  collected_from acc c (List.filter succeeded results).
Proof.
  revert acc. induction results as [|r results IH]; intros acc; cbn [collect_results List.filter].
  - intros [= <-]. split; cbn; by rewrite app_nil_r.
  - intros (c1 & H1 & H2)%rbind_ok. destruct (IH c1 H2) as [A1 A2 A3 A4 A5]. destruct (succeeded r) eqn:Es.
    + destruct (collect_result_ok acc r c1 Es H1) as [B1 B2 B3 B4 B5]. cbn [map concat] in *. rewrite !app_nil_r in *.
      split; cbn [map concat]; rewrite app_assoc; congruence.
    + unfold collect_result in H1. rewrite Es in H1. cbn in H1. injection H1 as <-. by split.
Qed.

(** ** Ranking *)

Definition better (a b : pydict * Q) : Prop := (b.2 <= a.2)%Q.

Lemma sorted_scored scored : StronglySorted better (sort_desc snd scored).
Proof. exact (sort_desc_sorted snd scored). Qed.

Lemma rank_docs_sorted k scored : StronglySorted better (rank_docs k scored).
Proof.
  unfold rank_docs. destruct (py_take_app k (first_by scored_id [] (sort_desc snd scored))) as [l' Hl].
  eapply StronglySorted_sublist; [|apply sorted_scored].
  etrans; [|apply (first_by_spec scored_id [])]. rewrite Hl at 2. apply sublist_inserts_r. done.
Qed.

Lemma sublist_NoDup_ids (l l' : list string) p : sublist l l' -> NoDup (List.filter p l') -> NoDup (List.filter p l).
Proof.
  intros Hs Hn. eapply sublist_NoDup; [exact Hn|]. clear Hn. induction Hs as [|x l l' Hs IH|x l l' Hs IH]; cbn [List.filter]; [done| |].
  - destruct (p x); [by constructor|done].
  - destruct (p x); [by constructor|done].
Qed.

Lemma rank_docs_distinct k scored :
  NoDup (List.filter (fun s => truthy s) (map scored_id (rank_docs k scored))).
Proof.
  unfold rank_docs. eapply sublist_NoDup_ids; [|apply (first_by_spec scored_id [] (sort_desc snd scored))].
  set (l := first_by _ _ _). destruct (py_take_app k l) as [l' Hl]. rewrite Hl at 2. rewrite map_app. by apply sublist_inserts_r.
Qed.

(** Nothing better is left out. *)
Lemma rank_docs_best k scored ds : (0 <= k)%Z -> ds ∈ scored ->
  (exists ds', ds' ∈ rank_docs k scored /\ (ds.2 <= ds'.2)%Q /\ (ds' = ds \/ scored_id ds' = scored_id ds)) \/
  (py_len (rank_docs k scored) = k /\ forall ds', ds' ∈ rank_docs k scored -> (ds.2 <= ds'.2)%Q).
Proof.
  intros Hk Hin. unfold rank_docs. set (l := first_by _ _ _).
  assert (StronglySorted better l) as Hs.
  { eapply StronglySorted_sublist; [apply (first_by_spec scored_id [])|apply sorted_scored]. }
  destruct (first_by_sorted scored_id better [] (sort_desc snd scored)) with ds as [?|(ds' & Hds' & Hb & He)].
  - intros x. unfold better. apply Qle_refl.
  - apply sorted_scored.
  - by apply elem_of_sort_desc.
  - by apply not_elem_of_nil in H.
  - fold l in Hds'. pose proof (py_take_length_nonneg k l Hk) as Hlen.
    rewrite <- (py_take_rest k l) in Hds'. apply elem_of_app in Hds' as [Hds'|Hrest]; [left; eauto|]. right. split.
    + assert (length (py_rest k l) <> 0) by (destruct (py_rest k l); [by apply not_elem_of_nil in Hrest|done]).
      assert (length l = length (py_take k l) + length (py_rest k l)) as Hl by (rewrite <- (py_take_rest k l) at 1; by rewrite length_app).
      unfold py_len in *. lia.
    + intros d Hd. rewrite <- (py_take_rest k l) in Hs. unfold better in *.
      pose proof (StronglySorted_app_desc snd _ _ _ _ Hs Hd Hrest) as Hle. unfold desc in Hle. lra.
Qed.

Lemma top_of_sorted kept : StronglySorted better kept ->
  match map snd kept with [] => 0%Q | s :: rest => fold_left fmax rest s end = match kept with [] => 0%Q | ds :: _ => ds.2 end.
Proof.
  destruct 1 as [|ds kept _ Hall]; [done|]. cbn [map]. induction Hall as [|x kept Hx _ IH]; [done|]. cbn [map fold_left].
  assert (fmax ds.2 x.2 = ds.2) as ->; [|exact IH]. unfold fmax, better in *. by rewrite (proj2 (flt_false _ _) Hx).
Qed.

(** ** The properties *)

(** Failed results contribute nothing, successful ones all their rows (marked
    with their database), web and REST documents and artifacts, in order. *)
Theorem aggregate_complete float_of_text tool_results max_keep a
  (Hagg : aggregate float_of_text tool_results max_keep = Ok a) :
  let good := List.filter succeeded tool_results in
  ag_db_rows a = concat (map db_rows_of good) /\ ag_db_row_count a = py_len (ag_db_rows a) /\
  ag_web_docs a = concat (map (values_of "web_docs") good) /\ ag_rest_docs a = concat (map rest_docs_of good) /\
  ag_report_artifacts a = concat (map (values_of "report_artifacts") good).
Proof.
  unfold aggregate in Hagg. apply rbind_ok in Hagg as (c & Hc & (scored & _ & [= <-])%rbind_ok).
  destruct (collect_results_ok _ _ _ Hc) as [_ H2 H3 H4 H5]. cbn in *. by rewrite H2, H3, H4, H5.
Qed.

(** The documents kept are scored documents of the successful results, best
    first, no identified document twice, at most [max_keep]; a document that
    is not kept is beaten by one of its id, or by all of a full list.  The
    top score is the first one's. *)
Theorem aggregate_ranks float_of_text tool_results max_keep a (Hk : (0 <= max_keep)%Z)
  (Hagg : aggregate float_of_text tool_results max_keep = Ok a) :
  exists scored kept, rmap (score_doc float_of_text) (concat (map rag_docs_of (List.filter succeeded tool_results))) = Ok scored /\
    ag_rag_docs a = map fst kept /\ ag_rag_result_count a = py_len kept /\ (py_len kept <= max_keep)%Z /\
    kept ⊆ scored /\ StronglySorted better kept /\
    NoDup (List.filter (fun s => truthy s) (map scored_id kept)) /\
    (forall ds, ds ∈ scored ->
       (exists ds', ds' ∈ kept /\ (ds.2 <= ds'.2)%Q /\ (ds' = ds \/ scored_id ds' = scored_id ds)) \/
       (py_len kept = max_keep /\ forall ds', ds' ∈ kept -> (ds.2 <= ds'.2)%Q)) /\
    ag_rag_top_score a = match kept with [] => 0%Q | ds :: _ => ds.2 end.
Proof.
  unfold aggregate in Hagg. apply rbind_ok in Hagg as (c & Hc & (scored & Hs & [= <-])%rbind_ok).
  destruct (collect_results_ok _ _ _ Hc) as [H1 _ _ _ _]. cbn in H1. rewrite H1 in Hs.
  exists scored, (rank_docs max_keep scored). split_and!; try done.
  - unfold rank_docs. rewrite py_take_length_nonneg by done. lia.
  - intros ds Hin. unfold rank_docs in Hin. destruct (py_take_app max_keep (first_by scored_id [] (sort_desc snd scored))) as [l' Hl].
    assert (ds ∈ first_by scored_id [] (sort_desc snd scored)) as Hf by (rewrite Hl; apply elem_of_app; by left).
    eapply elem_of_sublist in Hf; [|apply (first_by_spec scored_id [])]. by apply elem_of_sort_desc in Hf.
  - apply rank_docs_sorted.
  - apply rank_docs_distinct.
  - intros ds Hin. by apply rank_docs_best.
  - apply top_of_sorted, rank_docs_sorted.
Qed.

(** The quality score is the average, not the best score. *)
Example quality_is_average :
  let docs := [VDict [("doc_id", VStr "a"); ("score", VFloat 1)]; VDict [("doc_id", VStr "b"); ("score", VFloat 0)]] in
  match aggregate (fun _ => None) [[("success", VBool true); ("rag_docs", VList docs)]] 20 with
  | Ok a => ag_rag_quality_score a = (1 # 2)%Q /\ ag_rag_top_score a = 1%Q
  | Raise _ => False
  end.
Proof. vm_compute. done. Qed.

(** ** Witnesses *)

Definition example_results : list pydict :=
  [[("success", VBool true); ("db_id", VStr "hr"); ("db_result", VDict [("rows", VList [VDict [("n", VInt 1)]])])];
   [("success", VBool false); ("web_docs", VList [VStr "w"])];
   [("success", VBool true); ("rag_docs", VList [VDict [("doc_id", VStr "a"); ("score", VFloat (1 # 2))];
                                                 VDict [("doc_id", VStr "a"); ("rerank_score", VFloat 1)]])]].

Definition example_aggregated : Aggregated :=
  mkAggregated [[("doc_id", VStr "a"); ("rerank_score", VFloat 1); ("_relevance_score", VFloat 1)]] 1 true 1 1 1 1 "base"
    [[("n", VInt 1); ("_source_db", VStr "hr")]] 1 (VStr "hr") [VStr "hr"] 0 [] [] 0 [] (VStr "") 0.

Lemma aggregate_complete_witness :
  let good := List.filter succeeded example_results in
  ag_db_rows example_aggregated = concat (map db_rows_of good) /\ ag_db_row_count example_aggregated = py_len (ag_db_rows example_aggregated) /\
  ag_web_docs example_aggregated = concat (map (values_of "web_docs") good) /\
  ag_rest_docs example_aggregated = concat (map rest_docs_of good) /\
  ag_report_artifacts example_aggregated = concat (map (values_of "report_artifacts") good).
Proof. apply (aggregate_complete (fun _ => None) example_results 20). vm_compute. reflexivity. Defined.

Lemma aggregate_ranks_witness :
  exists scored kept, rmap (score_doc (fun _ => None)) (concat (map rag_docs_of (List.filter succeeded example_results))) = Ok scored /\
    ag_rag_docs example_aggregated = map fst kept /\ ag_rag_result_count example_aggregated = py_len kept /\ (py_len kept <= 20)%Z /\
    kept ⊆ scored /\ StronglySorted better kept /\
    NoDup (List.filter (fun s => truthy s) (map scored_id kept)) /\
    (forall ds, ds ∈ scored ->
       (exists ds', ds' ∈ kept /\ (ds.2 <= ds'.2)%Q /\ (ds' = ds \/ scored_id ds' = scored_id ds)) \/
       (py_len kept = 20%Z /\ forall ds', ds' ∈ kept -> (ds.2 <= ds'.2)%Q)) /\
    ag_rag_top_score example_aggregated = match kept with [] => 0%Q | ds :: _ => ds.2 end.
Proof. apply (aggregate_ranks (fun _ => None) example_results 20); [lia|]. vm_compute. reflexivity. Defined.
