(* ===== verification/PlanExecutor.v ===== *)
(** * Executing a plan in the workflow (nodes/plan_executor.py)

    The node reads the plan out of the routing decision, runs it through the
    scheduler and the tool dispatcher, aggregates the results and writes the
    fields a single tool would have written.  It composes [RouteModels],
    [DagScheduler], [ToolContract], [ToolExecutors] and [ResultAggregator]. *)

From S2P Require Import Prelude PyFloat PyVal PyList PyText AgentState ToolNodes DagScheduler RouteModels ToolContract ToolExecutors.
From S2P Require Import ResultAggregator EvidenceFusion Evidence.

(** [_fallback_empty_result] *)
Definition fallback_empty_result (ms : Z) : pydict :=
  [("tool_results", VList []); ("plan_execution_status", VStr "failed"); ("rag_docs", VList []); ("rag_quality_score", VFloat 0);
   ("rag_has_relevant", VBool false); ("rag_relevant_count", VInt 0); ("rag_top_score", VFloat 0); ("db_result", VDict []);
   ("db_quality_score", VFloat 0); ("web_docs", VList []); timing "plan_executor" ms].

(** The entry [db_result] of the aggregation. *)
Definition aggregated_db_result (a : Aggregated) : pydict :=
  [("rows", VList (map VDict (ag_db_rows a))); ("row_count", VInt (ag_db_row_count a)); ("source", ag_db_source a);
   ("is_aggregated", VBool true); ("source_dbs", VList (ag_source_dbs a))].

Definition success_count (tool_results : list pydict) : Z := py_len (List.filter succeeded tool_results).

Definition executed_result (ms : Z) (plan : ExecutionPlan) (tool_results : list pydict) (a : Aggregated) : pydict :=
  let fail_count := (py_len tool_results - success_count tool_results)%Z in
  [("tool_results", VList (map VDict tool_results)); ("execution_plan", VDict (plan_dump plan));
   ("plan_execution_status", VStr (if (fail_count =? 0)%Z then "completed" else "partial"));
   ("rag_docs", VList (map VDict (ag_rag_docs a))); ("rag_quality_score", VFloat (ag_rag_quality_score a));
   ("rag_has_relevant", VBool (ag_rag_has_relevant a)); ("rag_relevant_count", VInt (ag_rag_relevant_count a));
   ("rag_top_score", VFloat (ag_rag_top_score a)); ("db_result", VDict (aggregated_db_result a));
   ("db_quality_score", VFloat (ag_db_quality_score a)); ("web_docs", VList (ag_web_docs a)); timing "plan_executor" ms].

Section node.
Context {P : Pydantic}.
Variables (call_error : string -> string) (registry : list (string * BaseTool)) (float_of_text : string -> option Q).
(** Milliseconds of a tool, of the dispatcher and of the node; the id of a plan without one. *)
Variables (tool_ms total_ms : @PlanStep StepArgs -> Z) (ms : Z) (default_id : string).

(** [_execute_step] *)
Definition execute_step (st : pystate) (step : @PlanStep StepArgs) (previous : list (string * pydict)) : pydict + string :=
  inl (dispatch call_error registry (tool_ms step) (total_ms step) st step previous).

(** The plan in the routing decision, when there is one that can be read. *)
Definition read_plan (plan_data : pyval) : result ExecutionPlan :=
  match plan_data with VDict d => parse_plan default_id d | _ => Raise (AttributeError "get") end.

Definition plan_executor_node (st : pystate) : result pydict :=
  let rd := sgetv st "route_decision" VNone in
  if negb (truthy rd) then Ok (fallback_empty_result ms)
  else
    let! metadata := vattr rd "metadata" in
    let! plan_data := vget metadata "plan" VNone in
    if negb (truthy plan_data) then Ok (fallback_empty_result ms)
    else
      match read_plan plan_data with
      | Raise _ => Ok (fallback_empty_result ms)
      | Ok plan =>
        match ep_steps plan with
        | [] => Ok (fallback_empty_result ms)
        | steps =>
          match execute_plan (execute_step st) steps with
          | Raise _ => Ok (fallback_empty_result ms)
          | Ok tool_results =>
            let! a := aggregate float_of_text tool_results AGGREGATION_MAX_KEEP in
            Ok (executed_result ms plan tool_results a)
          end
        end
      end.

(** ** Lemmas *)

(** A run of the node: the fallback, or a plan that was executed. *)
Inductive node_run (st : pystate) : pydict -> Prop :=
  | run_fallback : node_run st (fallback_empty_result ms)
  | run_executed plan tool_results a :
      ep_steps plan <> [] -> Forall (fun s => ps_tool s ∈ PLAN_TOOLS) (ep_steps plan) ->
      execute_plan (execute_step st) (ep_steps plan) = Ok tool_results ->
      aggregate float_of_text tool_results AGGREGATION_MAX_KEEP = Ok a ->
      node_run st (executed_result ms plan tool_results a).

Lemma plan_executor_runs st u : plan_executor_node st = Ok u -> node_run st u.
Proof.
  unfold plan_executor_node. destruct (negb _); [intros [= <-]; constructor|].
  intros (m & _ & (d & _ & H)%rbind_ok)%rbind_ok. destruct (negb _); [injection H as <-; constructor|].
  destruct (read_plan d) as [plan|] eqn:Er; [|injection H as <-; constructor].
  assert (Forall (fun s => ps_tool s ∈ PLAN_TOOLS) (ep_steps plan)) as Ht by (destruct d; try done; by eapply parse_plan_tools).
  destruct (ep_steps plan) as [|s steps] eqn:Es; [injection H as <-; constructor|]. rewrite <- Es in *.
  destruct (execute_plan _ _) as [results|] eqn:Ee; [|injection H as <-; constructor].
  apply rbind_ok in H as (a & Ha & [= <-]). constructor; [by rewrite Es|done..].
Qed.
End node.

(** *** Results of a plan *)

Section results.
Context {A : Type} `{EqDecision A}.
Variable call : @PlanStep A -> list (string * pydict) -> pydict + string.

Lemma execute_layers_Forall (R : string * pydict -> Prop) layers results :
  (forall s prev, s ∈ concat layers -> R (ps_step_id s, step_result call s prev)) -> Forall R results ->
  Forall R (execute_layers call layers results).
Proof.
  unfold execute_layers. revert results. induction layers as [|layer layers IH]; intros results HR Hres; cbn [fold_left]; [done|].
  apply IH; [intros s prev Hs; apply HR; cbn; apply elem_of_app; by right|].
  unfold execute_layer. assert (forall s prev, s ∈ layer -> R (ps_step_id s, step_result call s prev)) as Hl
    by (intros s prev Hs; apply HR; cbn; apply elem_of_app; by left).
  generalize results at 1 as acc0. intros prev0. clear IH HR.
  revert results Hres. induction layer as [|s layer IHl]; intros results Hres; cbn [map fold_left]; [done|].
  apply IHl; [intros s' p Hs'; apply Hl; by right|]. apply dset_Forall; [done|]. cbn. apply Hl. by left.
Qed.

(** With distinct step ids, the results are those of the steps, once each. *)
Lemma execute_layers_keys layers results : NoDup (map ps_step_id (concat layers)) ->
  (forall s, s ∈ concat layers -> ps_step_id s ∉ map fst results) ->
  map fst (execute_layers call layers results) = map fst results ++ map ps_step_id (concat layers).
Proof.
  unfold execute_layers. revert results. induction layers as [|layer layers IH]; intros results Hnd Hfr; cbn [fold_left concat map] in *.
  { by rewrite app_nil_r. }
  rewrite map_app in Hnd. apply NoDup_app in Hnd as (Hn1 & Hd & Hn2).
  assert (map fst (execute_layer call results layer) = map fst results ++ map ps_step_id layer) as Hk.
  { unfold execute_layer. assert (forall s, s ∈ layer -> ps_step_id s ∉ map fst results) as Hfl
      by (intros s Hs; apply Hfr, elem_of_app; by left).
    generalize results at 1 as prev. intros prev. clear Hfr IH Hd. revert results Hfl.
    induction layer as [|s layer IHl]; intros results Hfl; cbn [map fold_left]; [by rewrite app_nil_r|].
    cbn [map] in Hn1. apply NoDup_cons in Hn1 as [Hs Hn1]. rewrite IHl; [|done|].
    - rewrite dset_map_keys. cbn [fst]. rewrite (proj2 (str_in_false _ _)) by (apply Hfl; by left). by rewrite <- app_assoc.
    - intros s' Hs'. rewrite dset_map_keys. cbn [fst]. rewrite (proj2 (str_in_false _ _)) by (apply Hfl; by left).
      rewrite elem_of_app, list_elem_of_singleton. intros [Hin|Heq]; [by apply (Hfl s'); [right|]|].
      apply Hs. rewrite <- Heq. by apply (list_elem_of_fmap_2 ps_step_id). }
  rewrite IH; [by rewrite Hk, map_app, app_assoc|done|].
  intros s Hs. rewrite Hk, elem_of_app. intros [Hin|Hin]; [by apply (Hfr s); [apply elem_of_app; right|]|].
  eapply Hd; [exact Hin|]. by apply (list_elem_of_fmap_2 ps_step_id).
Qed.
End results.

(** *** Plans without a successful step *)

Lemma collect_failed acc results : Forall (fun r => succeeded r = false) results -> collect_results acc results = Ok acc.
Proof. induction 1 as [|r results Hr _ IH]; [done|]. cbn [collect_results]. unfold collect_result. by rewrite Hr. Qed.

Definition nothing_aggregated : Aggregated := mkAggregated [] 0 false 0 0 0 0 "base" [] 0 (VStr "") [] 0 [] [] 0 [] (VStr "") 0.

Lemma aggregate_failed float_of_text results k : Forall (fun r => succeeded r = false) results ->
  aggregate float_of_text results k = Ok nothing_aggregated.
Proof. intros H. unfold aggregate. rewrite collect_failed by done. cbn. unfold rank_docs. cbn. by rewrite py_take_nil. Qed.

Lemma failed_not_succeeded r : failed_result r -> succeeded r = false.
Proof. intros (H & _ & _). unfold succeeded. by rewrite H. Qed.

Lemma no_success results : Forall (fun r => succeeded r = false) results -> success_count results = 0%Z.
Proof. unfold success_count. induction 1 as [|r l Hr _ IH]; [done|]. cbn [List.filter]. by rewrite Hr. Qed.

(** The registered adapters all refuse the call. *)
Lemma source_registry_refuses database rag report rest web :
  Forall (fun kv => accepts (bt_signature kv.2) 2 [] = false /\ bt_validate kv.2 = no_validation)
    (source_registry database rag report rest web).
Proof. repeat constructor. Qed.

(** ** The properties *)

(** With distinct step ids a scheduled plan reports every step exactly once:
    the results name the steps of the plan, each says whether it succeeded. *)
Theorem planned_steps_reported call_error registry tool_ms total_ms st (steps : list (@PlanStep StepArgs)) results
  (Hnd : NoDup (map ps_step_id steps)) (Hrun : execute_plan (execute_step call_error registry tool_ms total_ms st) steps = Ok results) :
  map (dlookup "step_id") results ≡ₚ map (fun s => Some (VStr (ps_step_id s))) steps /\
  Forall (fun r => exists b, dlookup "success" r = Some (VBool b)) results.
Proof.
  unfold execute_plan in Hrun. apply rbind_ok in Hrun as (layers & Hl & [= <-]).
  apply layers_loop_sound in Hl as [Hp _]. set (call := execute_step _ _ _ _ _).
  assert (Forall (fun kv => dlookup "step_id" kv.2 = Some (VStr kv.1) /\ exists b, dlookup "success" kv.2 = Some (VBool b))
            (execute_layers call layers [])) as HF.
  { apply execute_layers_Forall; [|done]. intros s prev _. cbn. pose proof (dispatch_identified call_error registry (tool_ms s) (total_ms s) st s prev) as (? & _ & ?).
    done. }
  pose proof (execute_layers_keys call layers []) as Hk. cbn in Hk. rewrite Forall_forall in HF. split.
  - rewrite map_map. assert (map (fun kv : string * pydict => dlookup "step_id" kv.2) (execute_layers call layers []) =
      map (fun k => Some (VStr k)) (map fst (execute_layers call layers []))) as ->.
    { rewrite map_map. apply map_ext_in. intros kv Hin%list_elem_of_In. by destruct (HF _ Hin) as [-> _]. }
    rewrite Hk; [by rewrite map_map, Hp| |intros s _; apply not_elem_of_nil].
    by rewrite Hp.
  - apply Forall_forall. intros r Hr. apply list_elem_of_fmap in Hr as (kv & -> & Hkv). by apply HF in Hkv as [_ ?].
Qed.

(** [C7] The tools that are registered cannot be called by the base class, which
    passes the context as a positional argument although it is keyword-only:
    no planned step ever succeeds, a plan never completes and the node never
    writes a document or a row, whatever the tools themselves would do. *)
Theorem plans_never_complete {P : Pydantic} call_error float_of_text tool_ms total_ms ms default_id database rag report rest web st u
  (Hrun : plan_executor_node call_error (source_registry database rag report rest web) float_of_text tool_ms total_ms ms default_id st = Ok u) :
  dlookup "rag_docs" u = Some (VList []) /\ dlookup "web_docs" u = Some (VList []) /\
  dlookup "plan_execution_status" u <> Some (VStr "completed") /\
  exists results, dlookup "tool_results" u = Some (VList (map VDict results)) /\ Forall failed_result results.
Proof.
  apply plan_executor_runs in Hrun as [|plan results a Hne Ht Hex Hag]; [split_and!; try done; by exists []|].
  assert (Forall failed_result results /\ results <> []) as [Hf Hr].
  { unfold execute_plan in Hex. apply rbind_ok in Hex as (layers & Hl & [= <-]). set (call := execute_step _ _ _ _ _). split.
    - assert (Forall (fun kv => failed_result kv.2) (execute_layers call layers [])) as HF.
      { apply execute_layers_Forall; [|done]. intros s prev _. cbn. apply refused_dispatch, source_registry_refuses. }
      apply Forall_fmap. exact HF.
    - destruct (ep_steps plan) as [|s steps] eqn:Es; [done|]. intros Hnil.
      pose proof (execute_plan_complete (s :: steps) call layers Hl) as (_ & _ & _ & Hall).
      specialize (Hall s ltac:(by left)). destruct (execute_layers call layers []); [done|discriminate]. }
  assert (Forall (fun r => succeeded r = false) results) as Hs.
  { eapply Forall_impl; [exact Hf|]. intros r. apply failed_not_succeeded. }
  rewrite aggregate_failed in Hag by done. injection Hag as <-. unfold executed_result. cbn zeta.
  rewrite no_success by done. split_and!; try done; [|by eexists].
  destruct results as [|r results]; [done|]. cbn [dlookup]. change (String.eqb _ "tool_results") with false. cbn.
  destruct (Z.eqb_spec (py_len (r :: results) - 0) 0) as [E|]; [|congruence]. unfold py_len in E. cbn in E. lia.
Qed.

(** A plan that found no row, because no step asked a database or because the
    steps failed, still becomes evidence of an empty answer of the database,
    with full confidence. *)
Theorem plan_without_rows_fabricates {P : Pydantic} {R : StateRuntime} {RL : StateRuntimeLaws R} sha256_hex json_dumps float_repr float_of_text
    unicode_word unicode_digit now call_error registry tool_ms total_ms ms default_id tenant st u evs
  (Hrun : plan_executor_node call_error registry float_of_text tool_ms total_ms ms default_id st = Ok u)
  (Hex : dlookup "plan_execution_status" u <> Some (VStr "failed"))
  (Hrows : forall d, dlookup "db_result" u = Some (VDict d) -> dlookup "rows" d = Some (VList []))
  (Hev : normalize_current_tool_results sha256_hex json_dumps float_repr float_of_text unicode_word unicode_digit now (apply_updates st u) tenant = Ok evs) :
  exists e, e ∈ evs /\ ev_tenant_id e = Some tenant /\ ev_source_type e = Some "db" /\ ev_content e = Some "" /\
    ev_confidence e = Some 1%Q /\ ev_authority_score e = Some (rnd (19 # 20)).
Proof.
  apply plan_executor_runs in Hrun. destruct Hrun as [|plan results a Hne Ht Hpl Hag]; [exfalso; by apply Hex|]. specialize (Hrows _ eq_refl).
  unfold normalize_current_tool_results in Hev.
  apply rbind_ok in Hev as (rag & _ & (db & Hdb & (web & _ & (graph & _ & [= <-])%rbind_ok)%rbind_ok)%rbind_ok).
  unfold from_result in Hdb. rewrite (sgetv_apply_written st _ "db_result" (VDict (aggregated_db_result a))) in Hdb by done.
  change (normalize_db_evidence sha256_hex json_dumps float_repr float_of_text unicode_word unicode_digit now
            (aggregated_db_result a) tenant = Ok db) in Hdb.
  pose proof (db_normalized _ _ _ _ _ _ _ _ _ _ Hdb) as Hn.
  apply failed_query_is_evidence in Hdb as (e & -> & Hc & Hau & Hco); [|done|done].
  apply Forall_cons in Hn as [Hn _]. destruct Hn as [Hte Hso _ _ _]. exists e. split_and!; try done.
  apply elem_of_app. right. by left.
Qed.

(** ** Deviations *)

(** Two steps with one id: the result of the first is lost. *)
Lemma repeated_id_loses_step call_error registry :
  let steps := [example_plan_step "a" "rag" []; example_plan_step "a" "web" []] in
  match execute_plan (execute_step call_error registry (fun _ => 0%Z) (fun _ => 0%Z) ∅) steps with
  | Ok results => map (dlookup "tool") results = [Some (VStr "web")]
  | Raise _ => False
  end.
Proof.
  cbn zeta. set (steps := [_; _]). assert (topological_layers steps = Ok [steps]) as Hl by reflexivity.
  unfold execute_plan. rewrite Hl. cbn. by destruct (dispatch_identified call_error registry 0 0 ∅ (example_plan_step "a" "web" []) []) as (_ & -> & _).
Qed.

(** ** Witnesses *)

Definition example_plan : ExecutionPlan := mkPlan "p" [example_plan_step "a" "rag" []; example_plan_step "b" "report" ["a"]] 1000 "sequential".

Definition example_decision : RouteDecision := mkRoute "hybrid" 1 "planner" "" "complex" [] [("plan", VDict (plan_dump example_plan))].

Definition example_plan_state : pystate := {[ "route_decision" := route_value example_decision ]}.

Definition no_tool (i : ToolInput) (ctx : ToolContext) : ToolOutcome + tool_exc := inr (Other "").

Definition example_registry : list (string * BaseTool) := source_registry no_tool no_tool no_tool no_tool no_tool.

Definition example_plan_update : pydict :=
  match plan_executor_node (fun _ => "refused") example_registry (fun _ => None) (fun _ => 0%Z) (fun _ => 0%Z) 0 "q" example_plan_state with
  | Ok u => u
  | Raise _ => []
  end.

Lemma planned_steps_reported_witness :
  exists results, execute_plan (execute_step (fun _ => "refused") example_registry (fun _ => 0%Z) (fun _ => 0%Z) example_plan_state)
                    (ep_steps example_plan) = Ok results /\
    map (dlookup "step_id") results ≡ₚ map (fun s => Some (VStr (ps_step_id s))) (ep_steps example_plan) /\
    Forall (fun r => exists b, dlookup "success" r = Some (VBool b)) results.
Proof.
  eexists. split; [vm_compute; reflexivity|].
  apply (planned_steps_reported (fun _ => "refused") example_registry (fun _ => 0%Z) (fun _ => 0%Z) example_plan_state (ep_steps example_plan)).
  - apply (bool_decide_unpack _). vm_compute. exact I.
  - vm_compute. reflexivity.
Defined.

Lemma plans_never_complete_witness :
  dlookup "plan_execution_status" example_plan_update = Some (VStr "partial") /\
  dlookup "rag_docs" example_plan_update = Some (VList []) /\ dlookup "web_docs" example_plan_update = Some (VList []) /\
  dlookup "plan_execution_status" example_plan_update <> Some (VStr "completed") /\
  exists results, dlookup "tool_results" example_plan_update = Some (VList (map VDict results)) /\ Forall failed_result results.
Proof.
  split; [vm_compute; reflexivity|].
  apply (plans_never_complete (fun _ => "refused") (fun _ => None) (fun _ => 0%Z) (fun _ => 0%Z) 0 "q"
           no_tool no_tool no_tool no_tool no_tool example_plan_state).
  vm_compute. reflexivity.
Defined.

Lemma plan_without_rows_fabricates_witness :
  exists evs e, normalize_current_tool_results (fun _ => "0123456789abcdef0123") (fun _ => "") (fun _ => "") (fun _ => None)
      (fun _ => false) (fun _ => false) "now" (apply_updates example_plan_state example_plan_update) "t1" = Ok evs /\
    e ∈ evs /\ ev_tenant_id e = Some "t1" /\ ev_source_type e = Some "db" /\ ev_content e = Some "" /\
    ev_confidence e = Some 1%Q /\ ev_authority_score e = Some (rnd (19 # 20)).
Proof.
  destruct (normalize_current_tool_results (fun _ => "0123456789abcdef0123") (fun _ => "") (fun _ => "") (fun _ => None)
      (fun _ => false) (fun _ => false) "now" (apply_updates example_plan_state example_plan_update) "t1") as [evs|] eqn:E;
    [|vm_compute in E; discriminate].
  exists evs.
  destruct (plan_without_rows_fabricates (fun _ => "0123456789abcdef0123") (fun _ => "") (fun _ => "") (fun _ => None) (fun _ => false)
    (fun _ => false) "now" (fun _ => "refused") example_registry (fun _ => 0%Z) (fun _ => 0%Z) 0 "q" "t1" example_plan_state
    example_plan_update evs) as (e & He).
  - vm_compute. reflexivity.
  - vm_compute. discriminate.
  - intros d. vm_compute. by intros [= <-].
  - exact E.
  - by exists e.
Defined.
