(* ===== verification/SqlToolset.v ===== *)
(** * The database layer and the SQL agent's tools
    (tools/db_runtime.py, tools/sql_agent/tools.py)

    [DbRuntime] holds the MCP tools of the tenant and checks statements;
    [SqlAgentToolset] puts the guards around it.  The MCP server, the SQL parser
    and the text formats are arguments; every call that reaches the server is
    recorded in [ts_calls], in order.  The tools take the values the model
    wrote, of whatever type. *)

From stdpp Require Import pretty.
From S2P Require Import Prelude PyFloat PyVal PyList PyText PyRegex AgentState.

(** ** DbRuntime *)

Definition DANGEROUS_SQL_KEYWORDS : list string :=
  ["DROP"; "DELETE"; "UPDATE"; "INSERT"; "ALTER"; "TRUNCATE"; "CREATE"; "EXEC"; "EXECUTE"; "MERGE"].

(** [_db_tools]: tool name to description and database id, in registration order. *)
Record DbRuntime : Type := mkDbRuntime {
  rt_tools : list (string * (pyval * string)); rt_config : pydict }.

(** [name.split("_", 1)[1]] of a name that has an underscore. *)
Fixpoint after_underscore (s : string) : string :=
  match s with
  | EmptyString => ""
  | String a s' => if (Ascii.nat_of_ascii a =? 95)%nat then s' else after_underscore s'
  end.

(** The loop of [init_session] over the server's tools (name, description). *)
Definition register_tool (d : list (string * (pyval * string))) (tool : string * pyval) :=
  let (name, description) := tool in
  if startswith "query_" name || startswith "list_tables_" name || startswith "describe_table_" name
  then dset name (description, after_underscore name) d else d.

Definition init_session (rt : DbRuntime) (tools : list (string * pyval)) : DbRuntime :=
  mkDbRuntime (fold_left register_tool tools (rt_tools rt)) (rt_config rt).

Definition has_tool (rt : DbRuntime) (name : string) : bool :=
  match dlookup name (rt_tools rt) with Some _ => true | None => false end.

Definition validate_database (rt : DbRuntime) (db_id : string) : bool :=
  has_tool rt (String.append "query_" db_id).

Definition query_db_ids (rt : DbRuntime) : list string :=
  fold_left (fun ids kv => if startswith "query_" kv.1 && truthy kv.2.2 then append_new kv.2.2 ids else ids)
    (rt_tools rt) [].

Definition db_description (rt : DbRuntime) (db_id : string) : result pyval :=
  let! description := vget (vor (get_or (dlookup db_id (rt_config rt)) (VDict [])) (VDict [])) "description" (VStr "") in
  if truthy description then Ok description
  else Ok (match dlookup (String.append "query_" db_id) (rt_tools rt) with
           | Some (d, _) => vor d (VStr "")
           | None => VStr ""
           end).

(** A database entry: id and description. *)
Definition list_databases (rt : DbRuntime) : result (list (string * pyval)) :=
  rmap (fun db_id => let! d := db_description rt db_id in Ok (db_id, d)) (py_sorted (query_db_ids rt)).

(** The text of a server reply, and what [json.loads] makes of it ([None] when
    it is not JSON). *)
Record McpReply : Type := mkMcpReply { mr_text : string; mr_json : option pyval }.

Definition is_mcp_error (r : McpReply) : bool :=
  startswith "MCP server error" (mr_text r) || startswith "Error" (mr_text r).

(** A parsed SQL statement: its class, and the classes it is an instance of. *)
Record SqlStatement : Type := mkSqlStatement { ss_class : string; ss_classes : list string }.

Definition query_node_types : list string := ["Select"; "Union"; "Subquery"; "With"; "Intersect"; "Except"].

Definition is_query (s : SqlStatement) : bool := existsb (fun c => str_in c query_node_types) (ss_classes s).

(** The lines of a text, stripped, without the empty ones. *)
Definition newline : string := String (Ascii.ascii_of_nat 10) "".
Definition is_newline (a : Ascii.ascii) : bool := (Ascii.nat_of_ascii a =? 10)%nat.

Fixpoint lines_go (cur s : string) : list string :=
  match s with
  | EmptyString => [cur]
  | String a s' => if is_newline a then cur :: lines_go "" s' else lines_go (String.append cur (String a "")) s'
  end.

Definition stripped_lines (s : string) : list string :=
  List.filter (fun l => truthy l) (map strip (lines_go "" s)).

(** [set(l)], in the order of the first occurrences. *)
Definition set_of (l : list string) : list string := fold_left (fun l t => append_new t l) l [].

(** [list(set(tables + joins))] *)
Definition extract_tables (sql : string) : list string :=
  set_of (names_after "from" 0 sql ++ names_after "join" 0 sql).

Record TableEntry : Type := mkTableEntry { te_name : string; te_comment : string }.

Section runtime.
Variable float_repr : Q -> string.
(** The MCP server. *)
Variable tool_call : string -> pydict -> result McpReply.
(** [sqlglot.parse]: [None] when the package is missing or the text does not
    parse; an empty statement is [None]. *)
Variable sqlglot_parse : string -> option (list (option SqlStatement)).

Definition normalize_table_entry (entry : pyval) : TableEntry :=
  match entry with
  | VDict d =>
    let field a b := py_str float_repr (vor (vor (get_or (dlookup a d) VNone) (get_or (dlookup b d) VNone)) (VStr "")) in
    mkTableEntry (field "table_name" "name") (field "comment" "description")
  | v => mkTableEntry (py_str float_repr v) ""
  end.

(** The text of a caught exception. *)
Definition exc_text (e : pyexc) : string :=
  match e with
  | KeyError k => py_repr k | TypeError m | ValueError m | OtherError m => m
  | AttributeError n => n
  end.

Definition list_tables (rt : DbRuntime) (db_id : string) : result (list TableEntry) :=
  let name := String.append "list_tables_" db_id in
  if negb (has_tool rt name) then Raise (OtherError (join "" ["数据库 "; db_id; " 不存在或无权访问"]))
  else
    let! r := tool_call name [] in
    if is_mcp_error r then Raise (OtherError (String.append "获取表清单失败: " (mr_text r)))
    else
      let! raw := match mr_json r with
                  | Some v => let! tables := vget v "tables" (VList []) in py_iter tables
                  | None => Ok (map VStr (stripped_lines (mr_text r)))
                  end in
      Ok (map normalize_table_entry raw).

Definition describe_table (rt : DbRuntime) (db_id : string) (table_name : pyval) : result pyval :=
  let name := String.append "describe_table_" db_id in
  if negb (has_tool rt name) then Raise (OtherError (join "" ["数据库 "; db_id; " 不存在或无权访问"]))
  else
    let! r := tool_call name [("table_name", table_name)] in
    if is_mcp_error r then Raise (OtherError (String.append "获取表结构失败: " (mr_text r)))
    else Ok (get_or (mr_json r) (VDict [("raw", VStr (mr_text r))])).

(** [True] when the statements are all queries, [False] when nothing could be
    parsed; another statement raises. *)
Definition validate_sql_ast (sql : string) : result bool :=
  match sqlglot_parse sql with
  | None | Some [] => Ok false
  | Some statements =>
    match List.find (fun s => negb (is_query s)) (omap (fun s => s) statements) with
    | Some s => Raise (OtherError (String.append "AST 校验仅允许查询语句，检测到 " (ss_class s)))
    | None => Ok true
    end
  end.

Definition validate_sql_blacklist (sql : string) : result unit :=
  let sql_words := upper_runs "" (py_upper (strip sql)) in
  match List.find (fun keyword => str_in keyword sql_words) DANGEROUS_SQL_KEYWORDS with
  | Some keyword => Raise (OtherError (String.append "SQL 包含禁止关键词: " keyword))
  | None => Ok tt
  end.

Definition unknown_tables (sql : string) (allowed_tables : list string) : list string :=
  List.filter (fun t => negb (str_in t (map py_lower allowed_tables))) (set_of (map py_lower (extract_tables sql))).

Definition validate_sql (sql : string) (allowed_tables : option (list string)) : result unit :=
  let sql_upper := py_upper (strip sql) in
  if negb (startswith "SELECT" sql_upper || startswith "WITH" sql_upper) then
    Raise (OtherError (if truthy sql_upper
                       then join "" ["仅允许 SELECT/WITH 查询，当前 SQL 以 "; first_word sql_upper; " 开头"]
                       else "list index out of range"))
  else
    let! parsed := validate_sql_ast sql in
    let! _ := if parsed then Ok tt else validate_sql_blacklist sql in
    match allowed_tables with
    | Some allowed =>
      let unknown := unknown_tables sql allowed in
      if truthy unknown then
        Raise (OtherError (String.append "SQL 引用了白名单外的表: " (py_repr_list (py_sorted unknown))))
      else Ok tt
    | None => Ok tt
    end.

Definition execute_sql (rt : DbRuntime) (db_id sql : string) : result (list pyval) :=
  let name := String.append "query_" db_id in
  if negb (has_tool rt name) then Raise (OtherError (join "" ["数据库 "; db_id; " 不存在或无权访问"]))
  else
    let! r := tool_call name [("sql", VStr sql)] in
    if is_mcp_error r then Raise (OtherError (String.append "SQL 执行失败: " (mr_text r)))
    else Ok (match mr_json r with
             | Some (VList rows) => rows
             | Some (VDict d) => [VDict d]
             | _ => []
             end).
End runtime.

(** ** What the tools give back

    The text for the model, the structured data, and whether the call
    succeeded. *)
Record ToolReply : Type := mkReply { tr_text : string; tr_structured : pydict; tr_success : bool }.

Definition failed_reply (text : string) : ToolReply := mkReply text [] false.

(** The tools as the exploration uses them; a tool may raise. *)
Class Toolset (T : Type) : Type := {
  invoke_list_databases : T -> T * result ToolReply;
  invoke_list_tables : T -> pyval -> T * result ToolReply;
  invoke_describe_table : T -> pyval -> pyval -> T * result ToolReply;
  invoke_execute_sql : T -> pyval -> pyval -> T * result ToolReply }.

(** What the exploration needs of them: an invariant every call keeps, and a
    count of the statements sent, which only [execute_sql] can raise, by one. *)
Class ToolsetLaws (T : Type) `{Toolset T} (inv : T -> Prop) (sent : T -> nat) : Prop := {
  list_databases_law t : inv t -> inv (invoke_list_databases t).1 /\ sent (invoke_list_databases t).1 = sent t;
  list_tables_law t db : inv t -> inv (invoke_list_tables t db).1 /\ sent (invoke_list_tables t db).1 = sent t;
  describe_table_law t db tbl : inv t ->
    inv (invoke_describe_table t db tbl).1 /\ sent (invoke_describe_table t db tbl).1 = sent t;
  execute_sql_law t db sql : inv t ->
    inv (invoke_execute_sql t db sql).1 /\ sent (invoke_execute_sql t db sql).1 <= S (sent t) }.

(** ** SqlAgentToolset *)

Definition MAX_OBSERVATION_CHARS : Z := 3000.
Definition MAX_LIST_TABLES : Z := 200.
Definition MAX_COLUMNS_IN_OBSERVATION : Z := 50.

(** A call that reaches the server: its tool and arguments, and the database
    it was made for, as the model named it. *)
Record ServerCall : Type := mkCall { sc_db : pyval; sc_tool : string; sc_args : pydict }.

(** The keys of the two dictionaries are the values the model wrote. *)
Record SqlAgentToolset : Type := mkToolset {
  ts_runtime : DbRuntime; ts_max_result_rows : Z; ts_allowed_db_ids : option (list string);
  ts_describe_cache : list ((pyval * pyval) * pyval); ts_listed_tables : list (pyval * list string);
  ts_calls : list ServerCall }.

Definition SqlAgentToolset_init (rt : DbRuntime) (max_result_rows : Z) (allowed : option (list string))
    : SqlAgentToolset :=
  mkToolset rt max_result_rows (match allowed with Some [] => None | a => a end) [] [] [].

Definition ts_log (t : SqlAgentToolset) (call : ServerCall) : SqlAgentToolset :=
  mkToolset (ts_runtime t) (ts_max_result_rows t) (ts_allowed_db_ids t) (ts_describe_cache t)
    (ts_listed_tables t) (ts_calls t ++ [call]).

(** A runtime operation checks that its tool exists before it calls the server. *)
Definition ts_log_if_tool (t : SqlAgentToolset) (call : ServerCall) : SqlAgentToolset :=
  if has_tool (ts_runtime t) (sc_tool call) then ts_log t call else t.

Definition ts_set_listed (t : SqlAgentToolset) (db_id : pyval) (names : list string) : SqlAgentToolset :=
  mkToolset (ts_runtime t) (ts_max_result_rows t) (ts_allowed_db_ids t) (ts_describe_cache t)
    (kset py_eq db_id names (ts_listed_tables t)) (ts_calls t).

Definition pair_eq (k k' : pyval * pyval) : bool := py_eq k.1 k'.1 && py_eq k.2 k'.2.

Definition ts_set_cache (t : SqlAgentToolset) (key : pyval * pyval) (schema : pyval) : SqlAgentToolset :=
  mkToolset (ts_runtime t) (ts_max_result_rows t) (ts_allowed_db_ids t)
    (kset pair_eq key schema (ts_describe_cache t)) (ts_listed_tables t) (ts_calls t).

(** A key of a dictionary or set must be hashable. *)
Definition hashed (v : pyval) : result unit := if hashable v then Ok tt else Raise (TypeError "unhashable").

Definition truncate_text (text : string) : string :=
  if (text_len text <=? MAX_OBSERVATION_CHARS)%Z then text
  else String.append (text_take MAX_OBSERVATION_CHARS text) "…".

(** [s.rstrip(";")] *)
Fixpoint rstrip_semicolons (s : string) : string :=
  match s with
  | EmptyString => ""
  | String a s' => match rstrip_semicolons s' with
                   | EmptyString => if (Ascii.nat_of_ascii a =? 59)%nat then "" else String a ""
                   | r => String a r
                   end
  end.

Section toolset.
Variable float_repr : Q -> string.
Variable tool_call : string -> pydict -> result McpReply.
Variable sqlglot_parse : string -> option (list (option SqlStatement)).
Variable unicode_word : string -> bool.
(** [json.dumps(v, ensure_ascii=False, indent=2, default=str)] *)
Variable dumps : pyval -> string.

(** The guard of every tool that takes a database; [None] is the empty error. *)
Definition guard_db_id (t : SqlAgentToolset) (db_id : pyval) : result (option string) :=
  let shown := py_str float_repr db_id in
  if negb (truthy db_id) then Ok (Some "[ERROR] 缺少 db_id 参数")
  else
    let! foreign := match ts_allowed_db_ids t with
                    | Some l => let! _ := hashed db_id in Ok (negb (existsb (py_eq db_id) (map VStr l)))
                    | None => Ok false
                    end in
    if foreign then Ok (Some (join "" ["[ERROR] 数据库 "; shown; " 不在允许的库白名单内"]))
    else if negb (validate_database (ts_runtime t) shown)
         then Ok (Some (join "" ["[ERROR] 数据库 "; shown; " 不存在或无权访问"]))
    else Ok None.

(** The rest of a tool, past the guard. *)
Definition past_guard (t : SqlAgentToolset) (db_id : pyval) (tool : SqlAgentToolset * result ToolReply)
    : SqlAgentToolset * result ToolReply :=
  match guard_db_id t db_id with
  | Raise e => (t, Raise e)
  | Ok (Some error) => (t, Ok (failed_reply error))
  | Ok None => tool
  end.

(** [self._listed_tables.get(db_id)] *)
Definition listed_tables (t : SqlAgentToolset) (db_id : pyval) : result (option (list string)) :=
  let! _ := hashed db_id in Ok (kget py_eq db_id (ts_listed_tables t)).

Definition ensure_limit (max_result_rows : Z) (sql : string) : string :=
  if search_word unicode_word "limit" (py_lower sql) then sql
  else join "" [rstrip_semicolons (rstrip sql); " LIMIT "; pretty max_result_rows].

(** A schema that is not a dictionary makes the formatting raise. *)
Definition format_schema (schema : pyval) : result string :=
  match schema with
  | VDict d =>
    match dlookup "raw" d with
    | Some raw => Ok (text_take MAX_OBSERVATION_CHARS (py_str float_repr raw))
    | None =>
      match vor (vor (get_or (dlookup "columns" d) VNone) (get_or (dlookup "fields" d) VNone)) (VList []) with
      | VList ((_ :: _) as columns) =>
        let text := dumps (VList (py_take MAX_COLUMNS_IN_OBSERVATION columns)) in
        Ok (if (py_len columns >? MAX_COLUMNS_IN_OBSERVATION)%Z
            then join "" [text; newline; "...（共 "; pretty (py_len columns); " 列，仅展示前 ";
                          pretty MAX_COLUMNS_IN_OBSERVATION; " 列）"]
            else text)
      | _ => Ok (dumps schema)
      end
    end
  | _ => Raise (AttributeError "get")
  end.

Definition db_entry (e : string * pyval) : pyval := VDict [("db_id", VStr e.1); ("description", e.2)].

Definition toolset_list_databases (t : SqlAgentToolset) : SqlAgentToolset * result ToolReply :=
  (t, let! databases := list_databases (ts_runtime t) in
      let databases := match ts_allowed_db_ids t with
                       | Some l => List.filter (fun d : string * pyval => str_in d.1 l) databases
                       | None => databases
                       end in
      let value := VList (map db_entry databases) in
      if negb (truthy databases) then
        Ok (mkReply "当前没有可用的数据库。" [("databases", VList [])] false)
      else Ok (mkReply (truncate_text (join "" ["可用数据库清单："; newline; dumps value]))
                 [("databases", value)] true)).

Definition table_value (e : TableEntry) : pyval :=
  VDict [("table_name", VStr (te_name e)); ("comment", VStr (te_comment e))].

Definition table_names (entries : list TableEntry) : list string := List.filter (fun n => truthy n) (map te_name entries).

Definition toolset_list_tables (t : SqlAgentToolset) (db_id : pyval) : SqlAgentToolset * result ToolReply :=
  past_guard t db_id
    (let db := py_str float_repr db_id in
     let t1 := ts_log_if_tool t (mkCall db_id (String.append "list_tables_" db) []) in
     match list_tables float_repr tool_call (ts_runtime t) db with
     | Raise e => (t1, Ok (failed_reply (String.append "[ERROR] 获取表清单失败: " (exc_text e))))
     | Ok entries =>
       match hashed db_id with
       | Raise e => (t1, Raise e)
       | Ok _ =>
         let truncated := (py_len entries >? MAX_LIST_TABLES)%Z in
         let shown := VList (map table_value (py_take MAX_LIST_TABLES entries)) in
         let observation :=
           if truncated then join "" [dumps shown; newline; "...（共 "; pretty (py_len entries);
             " 张表，仅展示前 "; pretty MAX_LIST_TABLES; " 张，请用更精确的条件）"] else dumps shown in
         (ts_set_listed t1 db_id (table_names entries),
          Ok (mkReply
            (truncate_text (join "" ["数据库 "; db; " 的表清单（"; pretty (py_len entries); " 张）："; newline; observation]))
            [("tables", shown); ("table_count", VInt (py_len entries)); ("truncated", VBool truncated)] true))
       end
     end).

Definition schema_reply (title table_name : string) (schema : pyval) (cache_hit : bool) : result ToolReply :=
  let! text := format_schema schema in
  Ok (mkReply (truncate_text (join "" ["表 "; table_name; title; newline; text]))
        [("schema", schema); ("cache_hit", VBool cache_hit)] true).

Definition toolset_describe_table (t : SqlAgentToolset) (db_id table_name : pyval)
    : SqlAgentToolset * result ToolReply :=
  past_guard t db_id
    (let db := py_str float_repr db_id in
     let table := py_str float_repr table_name in
     match listed_tables t db_id with
     | Raise e => (t, Raise e)
     | Ok listed =>
       if match listed with Some names => negb (existsb (py_eq table_name) (map VStr names)) | None => false end
       then (t, Ok (failed_reply (join "" ["[ERROR] 表 "; table; " 不在数据库 "; db;
               " 的已披露表清单内，禁止查询未披露的表。请先从 list_tables 返回的清单中选择。"])))
       else
         match hashed table_name with
         | Raise e => (t, Raise e)
         | Ok _ =>
           match kget pair_eq (db_id, table_name) (ts_describe_cache t) with
           | Some schema => (t, schema_reply " 的结构（缓存）：" table schema true)
           | None =>
             let t1 := ts_log_if_tool t (mkCall db_id (String.append "describe_table_" db) [("table_name", table_name)]) in
             match describe_table tool_call (ts_runtime t) db table_name with
             | Raise e => (t1, Ok (failed_reply (String.append "[ERROR] 获取表结构失败: " (exc_text e))))
             | Ok schema => (ts_set_cache t1 (db_id, table_name) schema, schema_reply " 的结构：" table schema false)
             end
           end
         end
     end).

(** [sql.strip()] of what is no text. *)
Definition no_strip (v : pyval) : pyexc := AttributeError (join "" ["'"; type_name v; "' object has no attribute 'strip'"]).

Definition validate_value (sql : pyval) (allowed_tables : option (list string)) : result string :=
  match sql with
  | VStr text => let! _ := validate_sql sqlglot_parse text allowed_tables in Ok text
  | v => Raise (no_strip v)
  end.

Definition toolset_execute_sql (t : SqlAgentToolset) (db_id sql : pyval) : SqlAgentToolset * result ToolReply :=
  past_guard t db_id
    (let db := py_str float_repr db_id in
     match listed_tables t db_id with
     | Raise e => (t, Raise e)
     | Ok allowed_tables =>
       match validate_value sql allowed_tables with
       | Raise e => (t, Ok (failed_reply (String.append "[ERROR] SQL 安全校验失败: " (exc_text e))))
       | Ok sql =>
         let executed_sql := ensure_limit (ts_max_result_rows t) sql in
         let t1 := ts_log_if_tool t (mkCall db_id (String.append "query_" db) [("sql", VStr executed_sql)]) in
         match execute_sql tool_call (ts_runtime t) db executed_sql with
         | Raise e => (t1, Ok (failed_reply (String.append "[ERROR] SQL 执行失败: " (exc_text e))))
         | Ok rows =>
           let truncated := (py_len rows >? ts_max_result_rows t)%Z in
           let shown := py_take (ts_max_result_rows t) rows in
           let row_count := py_len shown in
           let observation :=
             if (row_count =? 0)%Z then String.append "查询成功，但结果为空（0 行）。SQL：" executed_sql
             else join "" ["查询成功，返回 "; pretty row_count; " 行"; (if truncated then "（已截断）" else ""); "。";
                    newline; dumps (VList (py_take 20 shown));
                    if (row_count >? 20)%Z
                    then join "" [newline; "...（仅展示前 20 行，共 "; pretty row_count; " 行）"] else ""] in
           (t1, Ok (mkReply (truncate_text observation)
             [("rows", VList shown); ("row_count", VInt row_count); ("truncated", VBool truncated);
              ("executed_sql", VStr executed_sql)] true))
         end
       end
     end).
End toolset.

(** ** Lemmas *)

(** Only a query: every parsed statement is one, or, when nothing could be
    parsed, no forbidden word occurs. *)
Definition read_only (parse : string -> option (list (option SqlStatement))) (sql : string) : Prop :=
  let sql_upper := py_upper (strip sql) in
  (startswith "SELECT" sql_upper = true \/ startswith "WITH" sql_upper = true) /\
  match parse sql with
  | Some ((_ :: _) as l) => forall s, Some s ∈ l -> is_query s = true
  | _ => forall keyword, keyword ∈ DANGEROUS_SQL_KEYWORDS -> keyword ∉ upper_runs "" sql_upper
  end.

(** Every table named after FROM or JOIN is a listed one. *)
Definition tables_listed (sql : string) (listed : list string) : Prop :=
  forall t, t ∈ extract_tables sql -> py_lower t ∈ map py_lower listed.

(** A statement the guards let through, under the rules in force, after the
    calls [earlier]: its database exists and is an allowed one; it is a query;
    it has a LIMIT, of [max_rows] if the toolset put it there; and if the tables
    of that database were listed before, it names none but those the server
    disclosed.  The last rule holds for a database named by a text. *)
Definition statement_ok float_repr tool_call parse uw (rt : DbRuntime) (max_rows : Z) (allowed : option (list string))
    (earlier : list ServerCall) (call : ServerCall) : Prop :=
  let db := py_str float_repr (sc_db call) in
  truthy (sc_db call) = true /\ validate_database rt db = true /\
  match allowed with Some l => sc_db call ∈ map VStr l | None => True end /\
  exists sql,
    sc_tool call = String.append "query_" db /\ sc_args call = [("sql", VStr (ensure_limit uw max_rows sql))] /\
    search_word uw "limit" (py_lower (ensure_limit uw max_rows sql)) = true /\ read_only parse sql /\
    (forall name listing entries, sc_db call = VStr name -> listing ∈ earlier -> sc_db listing = VStr name ->
       sc_tool listing = String.append "list_tables_" name -> list_tables float_repr tool_call rt name = Ok entries ->
       tables_listed sql (table_names entries)).

Lemma set_of_elem l x : x ∈ set_of l <-> x ∈ l.
Proof.
  unfold set_of. enough (forall acc, x ∈ fold_left (fun l t => append_new t l) l acc <-> x ∈ acc \/ x ∈ l) as H
    by (rewrite H; set_solver).
  induction l as [|y l IH]; intros acc; cbn; [set_solver|].
  rewrite IH, elem_of_append_new, elem_of_cons. tauto.
Qed.

Lemma validate_sql_ok parse sql allowed u : validate_sql parse sql allowed = Ok u ->
  read_only parse sql /\ match allowed with Some l => tables_listed sql l | None => True end.
Proof.
  unfold validate_sql, validate_sql_ast. destruct (negb _) eqn:Es; [done|].
  apply negb_false_iff, orb_true_iff in Es. intros H.
  apply rbind_Ok in H as (parsed & Hp & H). apply rbind_Ok in H as (u' & Hb & H). split.
  - split; [done|]. destruct (parse sql) as [[|s l]|].
    + destruct parsed; [done|]. unfold validate_sql_blacklist in Hb.
      destruct (List.find _ _) eqn:Ef; [done|].
      intros k Hk. apply str_in_false. by apply (find_none_elem _ _ Ef).
    + destruct (List.find _ _) eqn:Ef; [done|]. intros s' Hs.
      apply negb_false_iff. apply (find_none_elem _ _ Ef). apply list_elem_of_omap. exists (Some s'). done.
    + destruct parsed; [done|]. unfold validate_sql_blacklist in Hb.
      destruct (List.find _ _) eqn:Ef; [done|].
      intros k Hk. apply str_in_false. by apply (find_none_elem _ _ Ef).
  - destruct allowed as [l|]; [|done]. intros t Ht.
    destruct (unknown_tables sql l) eqn:Eu; [|done].
    destruct (str_in (py_lower t) (map py_lower l)) eqn:E; [by apply str_in_spec|].
    assert (py_lower t ∈ unknown_tables sql l) as Hin; [|rewrite Eu in Hin; set_solver].
    unfold unknown_tables. apply list_elem_of_In, filter_In. rewrite E. split; [|done].
    apply list_elem_of_In, set_of_elem, list_elem_of_fmap. eauto.
Qed.

(** A decimal text starts with a character of its own. *)
Definition own_head (s : string) : Prop :=
  match s with String a _ => is_continuation a = false | EmptyString => True end.

Lemma pretty_N_go_head x : forall s, own_head s -> own_head (pretty_N_go x s).
Proof.
  induction (N.lt_wf_0 x) as [x _ IH]. intros s Hs.
  destruct (decide (x = 0%N)) as [->|Hx]; [by rewrite pretty_N_go_0|].
  rewrite pretty_N_go_step by lia. apply IH; [apply N.div_lt; lia|].
  unfold own_head, pretty_N_char. by repeat case_match.
Qed.

Lemma pretty_Z_head (z : Z) : own_head (pretty z).
Proof.
  destruct z as [|p|p]; [done| |done].
  change (pretty (Z.pos p)) with (pretty (N.pos p)).
  unfold pretty, pretty_N. case_decide; [done|]. by apply pretty_N_go_head.
Qed.

Lemma chars_blank_head s : own_head s -> exists cs, chars (String (Ascii.ascii_of_nat 32) s) = " " :: cs.
Proof.
  destruct s as [|a s]; cbn; intros Ha; [eauto|].
  destruct (chars_app (String (Ascii.ascii_of_nat 32) EmptyString) s a Ha) as [].
  change (String (Ascii.ascii_of_nat 32) EmptyString) with " ".
  pose proof (chars_app " " s a Ha) as H. cbn [chars] in *. eexists. exact H.
Qed.

Lemma lower_head a : is_continuation (lower_ascii a) = is_continuation a.
Proof. destruct a as [[] [] [] [] [] [] [] []]; reflexivity. Qed.

Lemma own_head_lower s : own_head s -> own_head (py_lower s).
Proof. destruct s; cbn; [done|]. by rewrite lower_head. Qed.

Lemma ensure_limit_has_limit uw max_rows sql : search_word uw "limit" (py_lower (ensure_limit uw max_rows sql)) = true.
Proof.
  unfold ensure_limit. destruct (search_word uw "limit" (py_lower sql)) eqn:E; [done|].
  change (join "" [?a; ?b; ?c]) with (String.append a (String.append b c)).
  pose proof (own_head_lower _ (pretty_Z_head max_rows)) as Hn.
  set (a := rstrip_semicolons _). set (n := pretty _) in *.
  change (String.append " LIMIT " n) with (String.append " LIMIT" (String (Ascii.ascii_of_nat 32) n)).
  rewrite !py_lower_app. change (py_lower " LIMIT") with " limit".
  change (py_lower (String (Ascii.ascii_of_nat 32) n)) with (String (Ascii.ascii_of_nat 32) (py_lower n)).
  unfold search_word.
  change (String.append " limit" ?m) with (String (Ascii.ascii_of_nat 32) (String.append "limit" m)).
  rewrite chars_app by done.
  change (String (Ascii.ascii_of_nat 32) (String.append "limit" ?m)) with (String.append " limit" m).
  rewrite chars_app by done. change (chars " limit") with [" "; "l"; "i"; "m"; "i"; "t"].
  apply chars_blank_head in Hn as [cs ->]. cbn [app]. by apply search_word_app.
Qed.

(** ** The tools implement the interface *)

Definition is_query_call (call : ServerCall) : bool := startswith "query_" (sc_tool call).

(** The statements sent to the server so far. *)
Definition ts_sent (t : SqlAgentToolset) : nat := length (List.filter is_query_call (ts_calls t)).

Lemma guard_db_id_none fr t db_id : guard_db_id fr t db_id = Ok None ->
  truthy db_id = true /\ validate_database (ts_runtime t) (py_str fr db_id) = true /\
  match ts_allowed_db_ids t with Some l => db_id ∈ map VStr l | None => True end.
Proof.
  unfold guard_db_id. destruct (truthy db_id); cbn [negb]; [|done]. intros H. split; [done|].
  apply rbind_Ok in H as (foreign & Hf & H). destruct foreign; [done|].
  destruct (validate_database _ _); cbn [negb] in H; [|done]. split; [done|].
  destruct (ts_allowed_db_ids t) as [l|]; [|done]. apply rbind_Ok in Hf as (? & _ & Hf). apply Ok_inj in Hf.
  apply negb_false_iff, existsb_true_exists in Hf as (v & Hv & He).
  pose proof Hv as (s & -> & _)%list_elem_of_fmap. by apply py_eq_to_str in He as ->.
Qed.

(** What holds of the outcome of a tool holds if it holds of a refusal and of
    the rest of the tool for a database that passed the guard. *)
Lemma past_guard_elim fr t db_id tool (P : SqlAgentToolset -> Prop) : P t ->
  (guard_db_id fr t db_id = Ok None -> P tool.1) -> P (past_guard fr t db_id tool).1.
Proof. unfold past_guard. destruct (guard_db_id fr t db_id) as [[error|]|e]; auto. Qed.

Lemma snoc_split {A} (l e r : list A) x c : l ++ [x] = e ++ c :: r -> (r = [] /\ e = l /\ c = x) \/ exists r', l = e ++ c :: r'.
Proof.
  destruct r as [|y r _] using rev_ind; intros H.
  - apply app_inj_tail in H as [-> ->]. by left.
  - right. exists r. rewrite app_comm_cons, app_assoc in H. by apply app_inj_tail in H as [-> _].
Qed.

Section laws.
Context (float_repr : Q -> string) (tool_call : string -> pydict -> result McpReply).
Context (parse : string -> option (list (option SqlStatement))) (uw : string -> bool) (dumps : pyval -> string).

#[export] Instance agent_tools : Toolset SqlAgentToolset := {
  invoke_list_databases := toolset_list_databases dumps;
  invoke_list_tables := toolset_list_tables float_repr tool_call dumps;
  invoke_describe_table := toolset_describe_table float_repr tool_call dumps;
  invoke_execute_sql := toolset_execute_sql float_repr tool_call parse uw dumps }.

Context (rt : DbRuntime) (max_rows : Z) (allowed : option (list string)).

(** Every statement that was sent passed the guards. *)
Definition calls_ok (calls : list ServerCall) : Prop :=
  forall earlier call later, calls = earlier ++ call :: later -> is_query_call call = true ->
    statement_ok float_repr tool_call parse uw rt max_rows allowed earlier call.

(** The tables of a database that was listed are known. *)
Definition listed_ok (t : SqlAgentToolset) (calls : list ServerCall) : Prop :=
  forall name listing entries, listing ∈ calls -> sc_db listing = VStr name ->
    sc_tool listing = String.append "list_tables_" name -> list_tables float_repr tool_call rt name = Ok entries ->
    kget py_eq (VStr name) (ts_listed_tables t) = Some (table_names entries).

Record ts_ok (t : SqlAgentToolset) : Prop := mkTsOk {
  tok_runtime : ts_runtime t = rt; tok_max : ts_max_result_rows t = max_rows; tok_allowed : ts_allowed_db_ids t = allowed;
  tok_calls : calls_ok (ts_calls t); tok_listed : listed_ok t (ts_calls t) }.

Lemma calls_ok_snoc calls call : calls_ok calls ->
  (is_query_call call = true -> statement_ok float_repr tool_call parse uw rt max_rows allowed calls call) -> calls_ok (calls ++ [call]).
Proof.
  intros Hc Hn e c r He Hq. apply snoc_split in He as [(_ & -> & ->)|[r' ->]]; [by apply Hn|by eapply Hc].
Qed.

Lemma listed_ok_snoc t t' call : ts_listed_tables t' = ts_listed_tables t -> startswith "list_tables_" (sc_tool call) = false ->
  listed_ok t (ts_calls t) -> listed_ok t' (ts_calls t ++ [call]).
Proof.
  intros Hl Hn Ht name listing entries [Hin| ->%list_elem_of_singleton]%elem_of_app Hdb Hname Hent; [rewrite Hl; by eapply Ht|].
  by rewrite Hname, startswith_append in Hn.
Qed.

Lemma sent_log_if t call : is_query_call call = false -> ts_sent (ts_log_if_tool t call) = ts_sent t.
Proof.
  intros Hn. unfold ts_log_if_tool. destruct (has_tool _ _); [|done]. unfold ts_sent. cbn [ts_log ts_calls].
  rewrite List.filter_app. cbn [List.filter]. by rewrite Hn, app_nil_r.
Qed.

Lemma toolset_list_tables_ok t db_id : ts_ok t ->
  let t' := (toolset_list_tables float_repr tool_call dumps t db_id).1 in ts_ok t' /\ ts_sent t' = ts_sent t.
Proof.
  intros Hok. cbn zeta. apply (past_guard_elim _ _ _ _ (fun t' => ts_ok t' /\ ts_sent t' = ts_sent t)); [done|]. intros _. cbv beta zeta. destruct Hok as [Hrt Hmax Hal Hc Hl].
  set (call := mkCall db_id (String.append "list_tables_" (py_str float_repr db_id)) []).
  assert (is_query_call call = false) as Hq by done. pose proof (sent_log_if t call Hq) as Hs.
  assert (calls_ok (ts_calls (ts_log_if_tool t call))) as Hc'.
  { unfold ts_log_if_tool. destruct (has_tool _ _); [|done]. apply calls_ok_snoc; [done|congruence]. }
  assert (forall listing, listing ∈ ts_calls (ts_log_if_tool t call) -> listing ∈ ts_calls t \/ listing = call) as Hin.
  { unfold ts_log_if_tool. destruct (has_tool _ _); [|auto]. intros l [?| ->%list_elem_of_singleton]%elem_of_app; auto. }
  assert (ts_runtime (ts_log_if_tool t call) = rt /\ ts_max_result_rows (ts_log_if_tool t call) = max_rows /\
          ts_allowed_db_ids (ts_log_if_tool t call) = allowed /\ ts_listed_tables (ts_log_if_tool t call) = ts_listed_tables t)
    as (H1 & H2 & H3 & H4) by (unfold ts_log_if_tool; by destruct (has_tool _ _)).
  rewrite Hrt. destruct (list_tables _ _ _ _) as [entries|e] eqn:El.
  - destruct (hashed db_id) as [u|e] eqn:Eh; cbn; (split; [|done]).
    + split; try done. intros name listing entries' Hi Hdb Hname Hent. cbn [ts_listed_tables ts_set_listed]. rewrite H4.
      destruct (py_eq db_id (VStr name)) eqn:E.
      * apply py_eq_to_str in E as ->. cbn in El. rewrite Hent in El. apply Ok_inj in El as ->.
        apply (kget_kset py_eq). by apply py_eq_hashable.
      * rewrite (kget_kset_ne py_eq); [apply Hin in Hi as [Hi| ->]; [by eapply Hl|]|..].
        -- cbn in Hdb. subst db_id. by rewrite py_eq_hashable in E.
        -- destruct (py_eq (VStr name) db_id) eqn:E'; [|done]. apply py_eq_str in E' as ->. by rewrite py_eq_hashable in E.
        -- by intros k0 ->%py_eq_str.
    + split; try done. intros name listing entries' Hi Hdb Hname Hent. rewrite H4.
      apply Hin in Hi as [Hi| ->]; [by eapply Hl|]. cbn in Hdb. by subst db_id.
  - cbn. split; [|done]. split; try done. intros name listing entries' Hi Hdb Hname Hent. rewrite H4.
    apply Hin in Hi as [Hi| ->]; [by eapply Hl|]. cbn in Hdb. subst db_id. cbn in El. congruence.
Qed.

(** A call of another kind keeps the invariant. *)
Lemma log_other_ok t t' call : is_query_call call = false -> startswith "list_tables_" (sc_tool call) = false -> ts_ok t ->
  ts_runtime t' = ts_runtime t -> ts_max_result_rows t' = ts_max_result_rows t -> ts_allowed_db_ids t' = ts_allowed_db_ids t ->
  ts_listed_tables t' = ts_listed_tables t -> ts_calls t' = ts_calls (ts_log_if_tool t call) ->
  ts_ok t' /\ ts_sent t' = ts_sent t.
Proof.
  intros Hq Hl [Hrt Hmax Hal Hc Hli] E1 E2 E3 E4 E5. split; [|unfold ts_sent; rewrite E5; by apply sent_log_if].
  split; rewrite ?E1, ?E2, ?E3, ?E5; try done; unfold ts_log_if_tool; destruct (has_tool _ _); cbn [ts_log ts_calls].
  - apply calls_ok_snoc; [done|congruence].
  - done.
  - by apply listed_ok_snoc.
  - unfold listed_ok. by rewrite E4.
Qed.

Lemma toolset_describe_table_ok t db_id tbl : ts_ok t ->
  let t' := (toolset_describe_table float_repr tool_call dumps t db_id tbl).1 in ts_ok t' /\ ts_sent t' = ts_sent t.
Proof.
  intros Hok. cbn zeta. apply (past_guard_elim _ _ _ _ (fun t' => ts_ok t' /\ ts_sent t' = ts_sent t)); [done|]. intros _. cbv beta zeta.
  destruct (listed_tables t db_id) as [listed|e]; [|done]. destruct (match listed with Some _ => _ | None => _ end); [done|].
  destruct (hashed tbl); [|done]. destruct (kget pair_eq _ _); [done|].
  destruct (describe_table _ _ _ _); cbn [fst];
    apply (log_other_ok t _ (mkCall db_id (String.append "describe_table_" (py_str float_repr db_id)) [("table_name", tbl)]));
    try done; unfold ts_log_if_tool; by destruct (has_tool _ _).
Qed.

Lemma validate_value_ok sql tables text : validate_value parse sql tables = Ok text ->
  sql = VStr text /\ read_only parse text /\ match tables with Some l => tables_listed text l | None => True end.
Proof.
  destruct sql; try done. cbn. intros H. apply rbind_Ok in H as (u & Hv & H). apply Ok_inj in H as <-.
  split; [done|]. by eapply validate_sql_ok.
Qed.

(** A statement past the checks is one of those [statement_ok] describes. *)
Lemma checked_statement t db_id sql tables : ts_ok t -> guard_db_id float_repr t db_id = Ok None ->
  listed_tables t db_id = Ok tables -> read_only parse sql -> match tables with Some l => tables_listed sql l | None => True end ->
  statement_ok float_repr tool_call parse uw rt max_rows allowed (ts_calls t)
    (mkCall db_id (String.append "query_" (py_str float_repr db_id)) [("sql", VStr (ensure_limit uw max_rows sql))]).
Proof.
  intros [Hrt Hmax Hal _ Hl] (Ht & Hv & Ha)%guard_db_id_none Htab Hro Hwl. rewrite Hrt in Hv. rewrite Hal in Ha.
  split; [done|]. split; [done|]. split; [done|]. exists sql. split_and!; [done|done|apply ensure_limit_has_limit|done|].
  cbn [sc_db]. intros name listing entries -> Hin Hdb Hname Hent. cbn in Htab. apply Ok_inj in Htab as <-.
  by rewrite (Hl name listing entries Hin Hdb Hname Hent) in Hwl.
Qed.

Lemma toolset_execute_sql_ok t db_id sql : ts_ok t ->
  let t' := (toolset_execute_sql float_repr tool_call parse uw dumps t db_id sql).1 in ts_ok t' /\ ts_sent t' <= S (ts_sent t).
Proof.
  intros Hok. cbn zeta. apply (past_guard_elim _ _ _ _ (fun t' => ts_ok t' /\ ts_sent t' <= S (ts_sent t))); [auto with lia|]. intros Hg. cbv beta zeta.
  destruct (listed_tables t db_id) as [tables|e] eqn:El; [|cbn; auto with lia].
  destruct (validate_value _ _ _) as [text|e] eqn:Ev; [|cbn; auto with lia].
  apply validate_value_ok in Ev as (-> & Hro & Hwl). pose proof (tok_max _ Hok) as Hmax. rewrite Hmax.
  pose proof (checked_statement t db_id text tables Hok Hg El Hro Hwl) as Hst.
  match goal with |- context [ts_log_if_tool t ?c] => set (call := c) in * end.
  assert (ts_ok (ts_log_if_tool t call) /\ ts_sent (ts_log_if_tool t call) <= S (ts_sent t)) as Hlog.
  { destruct Hok as [Hrt _ Hal Hc Hl]. unfold ts_log_if_tool. destruct (has_tool _ _); [|split; [done|lia]]. split.
    - split; cbn; try done; [by apply calls_ok_snoc|by apply (listed_ok_snoc t)].
    - unfold ts_sent. cbn [ts_log ts_calls]. rewrite List.filter_app, length_app. cbn [List.filter].
      destruct (is_query_call call); cbn [length]; lia. }
  by destruct (execute_sql _ _ _ _).
Qed.

#[export] Instance agent_tools_laws : ToolsetLaws SqlAgentToolset ts_ok ts_sent.
Proof.
  split; intros; [done|by apply toolset_list_tables_ok|by apply toolset_describe_table_ok|by apply toolset_execute_sql_ok].
Qed.

Lemma init_ok : ts_allowed_db_ids (SqlAgentToolset_init rt max_rows allowed) = allowed -> ts_ok (SqlAgentToolset_init rt max_rows allowed).
Proof. intros H. split; [done|done|done| |]; [by intros [] ? ?|by intros ? ? ? ?%not_elem_of_nil]. Qed.
End laws.

(** ** Properties *)

(** A successful reply of [execute_sql] carries at most [max_result_rows] rows,
    and the statement that was sent. *)
Theorem rows_bounded fr tool_call parse uw dumps t db_id sql t' reply :
  toolset_execute_sql fr tool_call parse uw dumps t db_id sql = (t', Ok reply) -> tr_success reply = true ->
  (0 <= ts_max_result_rows t)%Z ->
  exists text rows, sql = VStr text /\ dlookup "executed_sql" (tr_structured reply) = Some (VStr (ensure_limit uw (ts_max_result_rows t) text)) /\
    dlookup "rows" (tr_structured reply) = Some (VList rows) /\ (py_len rows <= ts_max_result_rows t)%Z.
Proof.
  unfold toolset_execute_sql, past_guard. intros H Hs Hmax. destruct (guard_db_id fr t db_id) as [[error|]|e]; [by simplify_eq/=| |done].
  destruct (listed_tables t db_id) as [tables|e]; [|done].
  destruct (validate_value _ _ _) as [text|e] eqn:Ev; [|by simplify_eq/=]. apply validate_value_ok in Ev as (-> & _ & _).
  destruct (execute_sql _ _ _ _) as [rows|e]; [|by simplify_eq/=]. simplify_eq/=. exists text. eexists. split; [done|].
  split; [done|]. split; [reflexivity|]. rewrite py_take_length_nonneg by done. lia.
Qed.

(** A table is described at most once: after a successful call, the same call
    is answered from the cache, reaches no server and is marked so, which is
    what keeps it out of the describe budget. *)
Theorem describe_once float_repr tool_call dumps t db_id tbl t1 r :
  toolset_describe_table float_repr tool_call dumps t db_id tbl = (t1, Ok r) -> tr_success r = true ->
  exists r', toolset_describe_table float_repr tool_call dumps t1 db_id tbl = (t1, Ok r') /\
    tr_success r' = true /\ dlookup "cache_hit" (tr_structured r') = Some (VBool true).
Proof.
  intros H Hs. unfold toolset_describe_table, past_guard in H |- *.
  destruct (guard_db_id float_repr t db_id) as [[error|]|e] eqn:Eg; [by simplify_eq/=| |done].
  destruct (listed_tables t db_id) as [listed|e] eqn:El; [|done].
  destruct (match listed with Some _ => _ | None => _ end) eqn:Ei; [by simplify_eq/=|].
  destruct (hashed tbl) as [u|e] eqn:Eh; [|done].
  assert (exists schema title hit, schema_reply float_repr dumps title (py_str float_repr tbl) schema hit = Ok r /\
            kget pair_eq (db_id, tbl) (ts_describe_cache t1) = Some schema /\ guard_db_id float_repr t1 db_id = Ok None /\
            listed_tables t1 db_id = Ok listed) as (schema&title&hit&Hr&Hc&Hg&Hl).
  { destruct (kget pair_eq _ (ts_describe_cache t)) as [schema|] eqn:Ec; [simplify_eq/=; eauto 10|].
    destruct (describe_table _ _ _ _) as [schema|]; [|by simplify_eq/=].
    injection H as <- H. eexists schema, _, _. split; [exact H|]. split; [|unfold guard_db_id, listed_tables, ts_log_if_tool in *; by destruct (has_tool _ _)].
    apply (kget_kset pair_eq). unfold listed_tables, hashed in *. unfold pair_eq. cbn.
    destruct (hashable db_id) eqn:E1; [|done]. destruct (hashable tbl) eqn:E2; [|done]. by rewrite !py_eq_hashable. }
  rewrite Hg, Hl, Ei, Hc. unfold schema_reply in *.
  destruct (format_schema _ _ _); [|done]. eexists. split; [reflexivity|]. done.
Qed.

(** The check of the tables looks only at the name that follows FROM or JOIN: a
    second table of a comma join is not seen. *)
Theorem comma_join_escapes parse s :
  parse "select name, pay from orders, salaries" = Some [Some s] -> is_query s = true ->
  validate_sql parse "select name, pay from orders, salaries" (Some ["orders"]) = Ok tt.
Proof.
  intros Hp Hq. unfold validate_sql, validate_sql_ast. rewrite Hp. cbn [omap list_omap List.find].
  rewrite Hq. reflexivity.
Qed.

(** A number names the same database as its decimal text, but not in the
    dictionary of the listed tables: a statement for the database 7, named by a
    number, is not held to the tables that were listed for "7". *)
Theorem number_escapes_the_listed_tables t names : ts_listed_tables t = [(VStr "7", names)] ->
  listed_tables t (VStr "7") = Ok (Some names) /\ listed_tables t (VInt 7) = Ok None.
Proof. unfold listed_tables. by intros ->. Qed.

(** ** Instances *)

Definition sample_runtime : DbRuntime := init_session (mkDbRuntime [] [])
  [("query_sales", VStr "sales"); ("list_tables_sales", VNone); ("describe_table_sales", VNone)].
Definition sample_toolset : SqlAgentToolset :=
  ts_set_listed (SqlAgentToolset_init sample_runtime 500 None) (VStr "sales") ["orders"].
Definition as_select (_ : string) : option (list (option SqlStatement)) :=
  Some [Some (mkSqlStatement "Select" ["Select"; "Query"])].
Definition json_server (name : string) (_ : pydict) : result McpReply :=
  Ok (mkMcpReply "[]" (Some (if startswith "query_" name then VList [VDict [("n", VInt 1)]] else VDict [("columns", VList [VStr "n"])]))).
Definition run_statement (sql : pyval) : SqlAgentToolset * result ToolReply :=
  toolset_execute_sql (fun _ => "") json_server as_select (fun _ => false) (fun _ => "json") sample_toolset (VStr "sales") sql.

Example statement_sent :
  ts_calls (run_statement (VStr "select n from orders")).1 = [mkCall (VStr "sales") "query_sales" [("sql", VStr "select n from orders LIMIT 500")]] /\
  ts_calls (run_statement (VStr "select n from staff")).1 = [] /\
  (run_statement (VInt 3)).2 = Ok (failed_reply "[ERROR] SQL 安全校验失败: 'int' object has no attribute 'strip'").
Proof. repeat split. Qed.

Lemma rows_bounded_witness :
  exists text rows, VStr "select n from orders" = VStr text /\
    dlookup "rows" (match (run_statement (VStr "select n from orders")).2 with Ok r => tr_structured r | Raise _ => [] end) = Some (VList rows) /\
    (py_len rows <= 500)%Z.
Proof.
  destruct (rows_bounded (fun _ => "") json_server as_select (fun _ => false) (fun _ => "json") sample_toolset (VStr "sales")
    (VStr "select n from orders") _ _ eq_refl eq_refl ltac:(vm_compute; discriminate)) as (text & rows & H1 & _ & H2 & H3).
  exists text, rows. exact (conj H1 (conj H2 H3)).
Defined.

Lemma describe_once_witness :
  exists r', toolset_describe_table (fun _ => "") json_server (fun _ => "json")
    (toolset_describe_table (fun _ => "") json_server (fun _ => "json") sample_toolset (VStr "sales") (VStr "orders")).1 (VStr "sales") (VStr "orders") =
    ((toolset_describe_table (fun _ => "") json_server (fun _ => "json") sample_toolset (VStr "sales") (VStr "orders")).1, Ok r') /\
    tr_success r' = true.
Proof.
  destruct (describe_once (fun _ => "") json_server (fun _ => "json") sample_toolset (VStr "sales") (VStr "orders") _ _ eq_refl eq_refl)
    as (r' & H & Hs & _).
  exists r'. exact (conj H Hs).
Defined.
