(* ===== verification/SqlAgent.v ===== *)
(** * The SQL exploration agent (tools/sql_agent/budget.py, prompts.py, subgraph.py)

    A small graph of its own: budget guard, model call, tool call, final verdict.
    The tools are any implementation of [Toolset]; the model, the reading of a
    JSON object in its text, and the clock are arguments. *)

From stdpp Require Import pretty.
From S2P Require Import Prelude PyFloat PyVal PyList PyText PyRegex AgentState SqlToolset.

(** ** Budget *)

Record ExplorationBudget : Type := mkExplorationBudget {
  eb_max_agent_steps : Z; eb_max_llm_calls : Z; eb_max_sql_executions : Z; eb_max_describe_calls : Z;
  eb_max_wall_time_sec : Z; eb_max_result_rows : Z; eb_start_ts : Q }.

Definition ExplorationBudget_from_config (now : Q) (config : option pydict) : result ExplorationBudget :=
  let config := opt_or config [] in
  let! section := as_dict (get_or (dlookup "budget" config) (VDict config)) in
  let field name default := dget as_int section name default in
  let! steps := field "max_agent_steps" 10%Z in
  let! llm := field "max_llm_calls" 10%Z in
  let! sql := field "max_sql_executions" 4%Z in
  let! describe := field "max_describe_calls" 6%Z in
  let! wall := field "max_wall_time_sec" 90%Z in
  let! rows := field "max_result_rows" 500%Z in
  Ok (mkExplorationBudget steps llm sql describe wall rows now).

(** The reason names the exhausted item. *)
Inductive stop_reason : Type :=
  | StopSteps (limit : Z) | StopLlm (limit : Z) | StopSql (limit : Z) | StopDescribe (limit : Z)
  | StopTime (limit : Z).

(** [check]: [None] is [(True, "")]. *)
Definition budget_check (b : ExplorationBudget) (now : Q) (steps llm sql describe : Z) : option stop_reason :=
  if (steps >=? eb_max_agent_steps b)%Z then Some (StopSteps (eb_max_agent_steps b))
  else if (llm >=? eb_max_llm_calls b)%Z then Some (StopLlm (eb_max_llm_calls b))
  else if (sql >=? eb_max_sql_executions b)%Z then Some (StopSql (eb_max_sql_executions b))
  else if (describe >=? eb_max_describe_calls b)%Z then Some (StopDescribe (eb_max_describe_calls b))
  else if fge (fsub now (eb_start_ts b)) (fint (eb_max_wall_time_sec b))
       then Some (StopTime (eb_max_wall_time_sec b))
  else None.

(** ** State *)

Record AgentAction : Type := mkAgentAction { aa_thought : string; aa_action : string; aa_args : pydict }.

Record TraceEntry : Type := mkTrace {
  tr_step : Z; tr_thought : string; tr_action : string; tr_args : pydict; tr_observation : string;
  tr_ok : option bool }.

(** [budget_stop_reason] is [Some] exactly when [budget_exhausted] is true. *)
Record SqlAgentState : Type := mkSqlState {
  sa_db_id : string;
  sa_step_trace : list TraceEntry; sa_observations : list (string * string);
  sa_step_count : Z; sa_llm_call_count : Z; sa_sql_exec_count : Z; sa_describe_count : Z;
  sa_budget_stop : option stop_reason;
  sa_pending_action : option AgentAction;
  sa_finish_summary : string; sa_give_up_reason : string; sa_give_up_type : string;
  sa_llm_error : string;
  sa_final_db_id : pyval; sa_final_sql : pyval; sa_final_rows : pyval; sa_sql_succeeded : bool;
  sa_exploration_verdict : string; sa_parse_failures : Z }.

Definition sql_initial_state (db_id : string) : SqlAgentState :=
  mkSqlState db_id [] [] 0 0 0 0 None None "" "" "error" "" (VStr db_id) (VStr "") (VList []) false "" 0.

(** ** The model's action *)

Definition TOOL_ACTIONS : list string := ["list_databases"; "list_tables"; "describe_table"; "execute_sql"].

Definition valid_actions : list string := TOOL_ACTIONS ++ ["finish"; "give_up"].

Definition alias_map : list (string * string) :=
  [("list_database", "list_databases"); ("list_dbs", "list_databases"); ("show_tables", "list_tables");
   ("describe", "describe_table"); ("query", "execute_sql"); ("run_sql", "execute_sql");
   ("sql", "execute_sql"); ("done", "finish"); ("stop", "finish")].

Definition canonical_action (action_type : string) : option string :=
  if str_in action_type valid_actions then Some action_type else dlookup action_type alias_map.

Section parse.
Variable float_repr : Q -> string.

(** [parse_agent_action], after the JSON object has been read. *)
Definition parse_agent_action (parsed : pydict) : option AgentAction :=
  let field k := get_or (dlookup k parsed) VNone in
  match get_or (dlookup "action" parsed) (VStr "") with
  | VStr action_type =>
    if negb (truthy action_type) then None
    else
      match canonical_action action_type with
      | None => None
      | Some action =>
        let args := match vor (vor (field "args") (field "arguments")) (VDict []) with VDict d => d | _ => [] end in
        Some (mkAgentAction (py_str float_repr (vor (vor (field "thought") (field "thought_summary")) (VStr "")))
                action args)
      end
  | _ => None
  end.

(** [_summarize_args]: a long statement is cut in the trace. *)
Definition summarize_args (args : pydict) : pydict :=
  match dlookup "sql" args with
  | Some v =>
    let text := py_str float_repr v in
    if (text_len text >? 300)%Z then dset "sql" (VStr (String.append (text_take 300 text) "…")) args else args
  | None => args
  end.
End parse.

Definition MAX_PARSE_RETRIES : Z := 2.

(** [pending_action.get("action", "")]: an empty dictionary has no action. *)
Definition pending_type (s : SqlAgentState) : string :=
  match sa_pending_action s with Some a => aa_action a | None => "" end.

(** The last two are not nodes: the graph has ended, or a node has raised. *)
Inductive sql_node : Type := budget_guard | agent_llm | tool_exec | finalize | SQL_END | SQL_RAISED.

#[export] Instance sql_node_eq_dec : EqDecision sql_node.
Proof. solve_decision. Defined.

Section subgraph.
Context {T : Type} `{Toolset T}.
Variable float_repr : Q -> string.
Variable budget : ExplorationBudget.
(** The model on the prompt of a state: the text of an exception, or its output. *)
Variable llm : SqlAgentState -> string + string.
(** The JSON object found in a text ([_extract_json]). *)
Variable extract_json : string -> option pydict.

(** ** Nodes *)

Definition budget_guard_node (now : Q) (s : SqlAgentState) : SqlAgentState :=
  match budget_check budget now (sa_step_count s) (sa_llm_call_count s) (sa_sql_exec_count s)
          (sa_describe_count s) with
  | Some r =>
    mkSqlState (sa_db_id s) (sa_step_trace s) (sa_observations s) (sa_step_count s) (sa_llm_call_count s)
      (sa_sql_exec_count s) (sa_describe_count s) (Some r) (sa_pending_action s) (sa_finish_summary s)
      (sa_give_up_reason s) (sa_give_up_type s) (sa_llm_error s) (sa_final_db_id s) (sa_final_sql s)
      (sa_final_rows s) (sa_sql_succeeded s) (sa_exploration_verdict s) (sa_parse_failures s)
  | None => s
  end.

(** The fields the model node changes. *)
Definition after_llm (s : SqlAgentState) (trace : list TraceEntry) (obs : list (string * string))
    (pending : option AgentAction) (error : string) (parse_failures : Z) : SqlAgentState :=
  mkSqlState (sa_db_id s) (sa_step_trace s ++ trace) (sa_observations s ++ obs) (sa_step_count s)
    (sa_llm_call_count s + 1) (sa_sql_exec_count s) (sa_describe_count s) (sa_budget_stop s) pending
    (sa_finish_summary s) (sa_give_up_reason s) (sa_give_up_type s) error (sa_final_db_id s)
    (sa_final_sql s) (sa_final_rows s) (sa_sql_succeeded s) (sa_exploration_verdict s) parse_failures.

Definition PARSE_ERROR_TEXT : string := "你的输出不是合法 JSON action，请严格按格式重新输出。".

Definition agent_llm_node (s : SqlAgentState) : SqlAgentState :=
  match llm s with
  | inl error => after_llm s [] [] (sa_pending_action s) error (sa_parse_failures s)
  | inr output =>
    match extract_json output ≫= parse_agent_action float_repr with
    | None =>
      let failures := (sa_parse_failures s + 1)%Z in
      if (failures >=? MAX_PARSE_RETRIES)%Z then
        after_llm s [] [] (sa_pending_action s)
          (join "" ["LLM 输出连续 "; pretty failures; " 次无法解析为 JSON action"]) failures
      else
        after_llm s [mkTrace (sa_step_count s + 1) "" "parse_error" [] PARSE_ERROR_TEXT None]
          [("parse_error", PARSE_ERROR_TEXT)] None (sa_llm_error s) failures
    | Some a => after_llm s [] [] (Some a) (sa_llm_error s) (sa_parse_failures s)
    end
  end.

Definition route_after_llm (s : SqlAgentState) : sql_node :=
  if truthy (sa_llm_error s) then finalize
  else if str_in (pending_type s) ["finish"; "give_up"] then finalize
  else if negb (truthy (pending_type s)) then budget_guard
  else tool_exec.

(** [_dispatch]: the tools after the call, the reply, and whether the count of
    executed statements was raised.  The arguments go to the tools as the model
    wrote them. *)
Definition dispatch (t : T) (s : SqlAgentState) (action : string) (args : pydict)
    : T * result ToolReply * bool :=
  let missing text := (t, Ok (failed_reply text), false) in
  let arg key default := get_or (dlookup key args) default in
  let db_id := vor (arg "db_id" VNone) (VStr (sa_db_id s)) in
  if String.eqb action "list_databases" then (invoke_list_databases t, false)
  else if String.eqb action "list_tables" then (invoke_list_tables t db_id, false)
  else if String.eqb action "describe_table" then
    let table_name := arg "table_name" (VStr "") in
    if negb (truthy table_name) then missing "[ERROR] describe_table 缺少 table_name 参数"
    else (invoke_describe_table t db_id table_name, false)
  else if String.eqb action "execute_sql" then
    let sql := arg "sql" (VStr "") in
    if negb (truthy sql) then missing "[ERROR] execute_sql 缺少 sql 参数"
    else (invoke_execute_sql t db_id sql, true)
  else missing (String.append "[ERROR] 未知动作: " action).

(** What the tool node writes for a reply. *)
Definition tool_updates (s : SqlAgentState) (a : AgentAction) (r : ToolReply) (sent : bool) : SqlAgentState :=
  let step := (sa_step_count s + 1)%Z in
  let trace := sa_step_trace s ++
    [mkTrace step (aa_thought a) (aa_action a) (summarize_args float_repr (aa_args a))
       (text_take 500 (tr_text r)) (Some (tr_success r))] in
  let obs := sa_observations s ++ [(aa_action a, tr_text r)] in
  let sql_count := if sent then (sa_sql_exec_count s + 1)%Z else sa_sql_exec_count s in
  let found := String.eqb (aa_action a) "execute_sql" && tr_success r in
  let described := negb found && String.eqb (aa_action a) "describe_table"
                   && negb (truthy (get_or (dlookup "cache_hit" (tr_structured r)) (VBool true))) in
  mkSqlState (sa_db_id s) trace obs step (sa_llm_call_count s) sql_count
    (if described then (sa_describe_count s + 1)%Z else sa_describe_count s)
    (sa_budget_stop s) (sa_pending_action s) (sa_finish_summary s) (sa_give_up_reason s)
    (sa_give_up_type s) (sa_llm_error s)
    (if found then get_or (dlookup "db_id" (aa_args a)) (sa_final_db_id s) else sa_final_db_id s)
    (if found then get_or (dlookup "executed_sql" (tr_structured r)) (get_or (dlookup "sql" (aa_args a)) (VStr ""))
     else sa_final_sql s)
    (if found then get_or (dlookup "rows" (tr_structured r)) (VList []) else sa_final_rows s)
    (found || sa_sql_succeeded s) (sa_exploration_verdict s) (sa_parse_failures s).

Definition tool_exec_node (t : T) (s : SqlAgentState) : T * result SqlAgentState :=
  let a := match sa_pending_action s with Some a => a | None => mkAgentAction "" "" [] end in
  let '(t', r, sent) := dispatch t s (aa_action a) (aa_args a) in
  (t', let! reply := r in Ok (tool_updates s a reply sent)).

(** [_compute_verdict], from the state and the fields [finalize] sets. *)
Definition compute_verdict (s : SqlAgentState) (give_up_type give_up_reason : string) : string :=
  match sa_budget_stop s with
  | Some _ => "budget_exhausted"
  | None =>
    if truthy (sa_llm_error s) then "exploration_failed"
    else if truthy give_up_reason then
      if String.eqb give_up_type "no_data" then "no_data_confirmed" else "exploration_failed"
    else if truthy (sa_final_rows s) then "data_found"
    else if sa_sql_succeeded s then "no_data_confirmed"
    else "exploration_failed"
  end.

Definition finalize_node (s : SqlAgentState) : SqlAgentState :=
  let args := match sa_pending_action s with Some a => aa_args a | None => [] end in
  let text key := py_str float_repr (get_or (dlookup key args) (VStr "")) in
  let finish := String.eqb (pending_type s) "finish" in
  let gave_up := String.eqb (pending_type s) "give_up" in
  let reason := if gave_up then text "reason" else "" in
  let type := if gave_up then
                if is_one_of (get_or (dlookup "reason_type" args) (VStr "error")) ["no_data"]
                then "no_data" else "error"
              else "" in
  mkSqlState (sa_db_id s) (sa_step_trace s) (sa_observations s) (sa_step_count s) (sa_llm_call_count s)
    (sa_sql_exec_count s) (sa_describe_count s) (sa_budget_stop s) (sa_pending_action s)
    (if finish then text "summary" else sa_finish_summary s)
    (if gave_up then reason else sa_give_up_reason s) (if gave_up then type else sa_give_up_type s)
    (sa_llm_error s) (sa_final_db_id s) (sa_final_sql s) (sa_final_rows s) (sa_sql_succeeded s)
    (compute_verdict s (py_or type (sa_give_up_type s)) (py_or reason (sa_give_up_reason s)))
    (sa_parse_failures s).

(** ** The graph *)

Definition sql_step (now : Q) (c : sql_node * (T * SqlAgentState)) : sql_node * (T * SqlAgentState) :=
  let '(n, (t, s)) := c in
  match n with
  | budget_guard =>
    let s' := budget_guard_node now s in
    (match sa_budget_stop s' with Some _ => finalize | None => agent_llm end, (t, s'))
  | agent_llm => let s' := agent_llm_node s in (route_after_llm s', (t, s'))
  | tool_exec => match tool_exec_node t s with
                 | (t', Ok s') => (budget_guard, (t', s'))
                 | (t', Raise _) => (SQL_RAISED, (t', s))
                 end
  | finalize => (SQL_END, (t, finalize_node s))
  | SQL_END | SQL_RAISED => c
  end.

(** The first [fuel] nodes of a run; [clock i] is the time of node [i]. *)
Fixpoint sql_run_from (fuel : nat) (clock : nat -> Q) (i : nat) (c : sql_node * (T * SqlAgentState))
    : sql_node * (T * SqlAgentState) :=
  match fuel with
  | O => c
  | S k => sql_run_from k clock (S i) (sql_step (clock i) c)
  end.

(** Three nodes per model call, and the last guard and verdict. *)
Definition sql_fuel : nat := 3 * Z.to_nat (eb_max_llm_calls budget) + 2.

Definition sql_run (clock : nat -> Q) (t : T) (db_id : string) : sql_node * (T * SqlAgentState) :=
  sql_run_from sql_fuel clock 0 (budget_guard, (t, sql_initial_state db_id)).
End subgraph.

(** ** Lemmas *)

Lemma budget_check_room b now st l q d :
  budget_check b now st l q d = None -> (l < eb_max_llm_calls b)%Z /\ (q < eb_max_sql_executions b)%Z.
Proof.
  unfold budget_check. rewrite !Z.geb_leb. intros H.
  destruct (Z.leb_spec (eb_max_agent_steps b) st); [done|].
  destruct (Z.leb_spec (eb_max_llm_calls b) l); [done|].
  destruct (Z.leb_spec (eb_max_sql_executions b) q); done.
Qed.

Section invariant.
Context {T : Type} `{TL : ToolsetLaws T inv sent}.
Context (float_repr : Q -> string) (budget : ExplorationBudget).
Context (llm : SqlAgentState -> string + string) (extract_json : string -> option pydict).

Local Abbreviation agent_node := (agent_llm_node float_repr llm extract_json).
Local Abbreviation tool_node := (tool_exec_node float_repr).
Local Abbreviation step := (sql_step float_repr budget llm extract_json).

(** Rows are final only as the answer of a successful statement. *)
Definition rows_reported (s : SqlAgentState) : Prop :=
  truthy (sa_final_rows s) = true ->
    exists t db sql reply, (invoke_execute_sql t db sql).2 = Ok reply /\ tr_success reply = true /\
      get_or (dlookup "rows" (tr_structured reply)) (VList []) = sa_final_rows s.

(** The invariant of the walk: the counters count, statements sent since the
    start ([sent0] before it) are paid for, and a node past the guard has room. *)
Definition sql_ok (sent0 : nat) (c : sql_node * (T * SqlAgentState)) : Prop :=
  let '(n, (t, s)) := c in
  inv t /\ rows_reported s /\
  (0 <= sa_llm_call_count s <= Z.max 0 (eb_max_llm_calls budget))%Z /\
  (0 <= sa_sql_exec_count s <= Z.max 0 (eb_max_sql_executions budget))%Z /\
  (Z.of_nat (sent t) <= Z.of_nat sent0 + Z.max 0 (eb_max_sql_executions budget))%Z /\
  (n <> SQL_RAISED -> Z.of_nat (sent t) <= Z.of_nat sent0 + sa_sql_exec_count s)%Z /\
  match n with
  | budget_guard => sa_budget_stop s = None
  | agent_llm => sa_budget_stop s = None /\ (sa_llm_call_count s < eb_max_llm_calls budget)%Z /\
                 (sa_sql_exec_count s < eb_max_sql_executions budget)%Z
  | tool_exec => sa_budget_stop s = None /\ (sa_sql_exec_count s < eb_max_sql_executions budget)%Z
  | SQL_END => sa_exploration_verdict s = "data_found" -> truthy (sa_final_rows s) = true
  | _ => True
  end.

Lemma budget_guard_ok sent0 now ts : sql_ok sent0 (budget_guard, ts) -> sql_ok sent0 (step now (budget_guard, ts)).
Proof.
  destruct ts as [t s]. intros (?&?&?&?&?&?&Hs). cbn. unfold budget_guard_node, rows_reported in *.
  destruct (budget_check _ _ _ _ _ _) eqn:E; cbn; [auto 10|].
  rewrite Hs. apply budget_check_room in E as []. auto 10.
Qed.

Lemma agent_llm_after s : exists tr ob p e f, agent_node s = after_llm s tr ob p e f.
Proof.
  unfold agent_llm_node. destruct (llm s) as [|o]; [eauto 10|].
  destruct (extract_json o ≫= _); [eauto 10|]. case_match; eauto 10.
Qed.

Lemma route_after_llm_cases s :
  route_after_llm s = finalize \/ route_after_llm s = budget_guard \/ route_after_llm s = tool_exec.
Proof. unfold route_after_llm. repeat case_match; auto. Qed.

Lemma agent_llm_ok sent0 now ts : sql_ok sent0 (agent_llm, ts) -> sql_ok sent0 (step now (agent_llm, ts)).
Proof.
  destruct ts as [t s]. intros (?&?&?&?&?&Hsent&Hs&?&?). specialize (Hsent ltac:(done)). cbn [sql_step].
  destruct (agent_llm_after s) as (tr&ob&p&e&f&->).
  destruct (route_after_llm_cases (after_llm s tr ob p e f)) as [->|[->| ->]];
    unfold sql_ok, rows_reported in *; cbn; repeat split; try done; lia.
Qed.

(** A dispatched action keeps the tools' invariant; the statement count goes up
    by one only with the counter; and a successful reply of an [execute_sql]
    action is that of the tool. *)
Lemma dispatch_inv t s action args t' r paid : inv t -> dispatch t s action args = (t', r, paid) ->
  inv t' /\ sent t' <= sent t + (if paid then 1 else 0) /\
  (action = "execute_sql" -> forall reply, r = Ok reply -> tr_success reply = true ->
     exists db sql, (invoke_execute_sql t db sql).2 = Ok reply).
Proof.
  intros Hinv. unfold dispatch. cbn zeta.
  pose proof (list_databases_law t Hinv) as Hld. pose proof (fun d => list_tables_law t d Hinv) as Hlt.
  pose proof (fun d x => describe_table_law t d x Hinv) as Hdt. pose proof (fun d x => execute_sql_law t d x Hinv) as Hes.
  set (db := vor _ _).
  destruct (String.eqb_spec action "list_databases") as [->|].
  { destruct (invoke_list_databases t) as [t1 r1]. intros [= <- <- <-]. destruct Hld. repeat split; [done|cbn in *; lia|done]. }
  destruct (String.eqb_spec action "list_tables") as [->|].
  { specialize (Hlt db). destruct (invoke_list_tables t db) as [t1 r1]. intros [= <- <- <-].
    destruct Hlt. repeat split; [done|cbn in *; lia|done]. }
  destruct (String.eqb_spec action "describe_table") as [->|].
  { destruct (negb _); [intros [= <- <- <-]; repeat split; [done|lia|done]|]. set (x := get_or _ _).
    specialize (Hdt db x). destruct (invoke_describe_table t db x) as [t1 r1]. intros [= <- <- <-].
    destruct Hdt. repeat split; [done|cbn in *; lia|done]. }
  destruct (String.eqb_spec action "execute_sql") as [->|];
    [|intros [= <- <- <-]; repeat split; [done|lia|done]].
  destruct (negb _); [intros [= <- <- <-]; repeat split; [done|lia|intros _ ? [= <-]; done]|]. set (x := get_or _ _).
  specialize (Hes db x). destruct (invoke_execute_sql t db x) as [t1 r1] eqn:E. intros [= <- <- <-].
  destruct Hes. repeat split; [done|cbn in *; lia|]. intros _ reply -> _. exists db, x. by rewrite E.
Qed.

(** What a reply changes leaves the reported rows those of a statement. *)
Lemma tool_updates_rows s a r paid : rows_reported s ->
  (aa_action a = "execute_sql" -> tr_success r = true ->
     exists t db sql, (invoke_execute_sql t db sql).2 = Ok r) ->
  rows_reported (tool_updates float_repr s a r paid).
Proof.
  intros Hrows Hr. unfold rows_reported, tool_updates. cbn.
  destruct (String.eqb_spec (aa_action a) "execute_sql") as [Ha|]; cbn; [|done].
  destruct (tr_success r) eqn:Es; cbn; [|done]. intros _.
  destruct (Hr Ha eq_refl) as (t&db&sql&?). eauto 10.
Qed.

Lemma tool_exec_ok sent0 now ts : sql_ok sent0 (tool_exec, ts) -> sql_ok sent0 (step now (tool_exec, ts)).
Proof.
  destruct ts as [t s]. intros (Hinv&Hrows&?&?&?&Hsent&?&?). cbn [sql_step]. unfold tool_exec_node.
  set (a := match sa_pending_action s with Some a => a | None => _ end).
  destruct (dispatch t s (aa_action a) (aa_args a)) as [[t' r] paid] eqn:Ed.
  apply dispatch_inv in Ed as (Hinv'&Hpaid&Hrep); [|done]. specialize (Hsent ltac:(done)).
  destruct r as [reply|e]; cbn [rbind].
  - split; [done|]. split; [apply tool_updates_rows; [done|]; intros Ha Hs; destruct (Hrep Ha _ eq_refl Hs); eauto|].
    cbn. destruct paid; repeat split; try done; lia.
  - split; [done|]. split; [done|]. repeat split; try done; try lia. destruct paid; lia.
Qed.

Lemma finalize_ok sent0 now ts : sql_ok sent0 (finalize, ts) -> sql_ok sent0 (step now (finalize, ts)).
Proof.
  destruct ts as [t s]. intros (?&?&?&?&?&?&_). cbn -[compute_verdict py_str].
  repeat (split; [by auto|]). unfold compute_verdict. repeat case_match; done.
Qed.

Lemma sql_step_ok sent0 now c : sql_ok sent0 c -> sql_ok sent0 (step now c).
Proof.
  destruct c as [[] ts]; auto using budget_guard_ok, agent_llm_ok, tool_exec_ok, finalize_ok;
    destruct ts; done.
Qed.

(** The nodes still to visit, at most. *)
Definition sql_measure (c : sql_node * (T * SqlAgentState)) : nat :=
  let left := Z.to_nat (eb_max_llm_calls budget - sa_llm_call_count c.2.2) in
  match c.1 with
  | budget_guard => 3 * left + 2 | agent_llm => 3 * left + 1 | tool_exec => 3 * left + 3
  | finalize => 1 | SQL_END | SQL_RAISED => 0
  end.

Lemma sql_step_measure sent0 now c : sql_ok sent0 c -> sql_measure c <> 0 ->
  sql_measure (step now c) < sql_measure c.
Proof.
  destruct c as [[] [t s]]; intros Hok Hn; try done.
  - destruct Hok as (?&?&?&?&?&?&?). cbn. unfold budget_guard_node.
    destruct (budget_check _ _ _ _ _ _); cbn; [lia|]. case_match; cbn; lia.
  - destruct Hok as (?&?&?&?&?&?&?&?&?). cbn [sql_step].
    destruct (agent_llm_after s) as (tr&ob&p&e&f&->). unfold sql_measure. cbn [fst snd sa_llm_call_count after_llm].
    destruct (route_after_llm_cases (after_llm s tr ob p e f)) as [->|[->| ->]]; lia.
  - cbn [sql_step]. unfold tool_exec_node. destruct (dispatch _ _ _ _) as [[t' []] paid]; cbn; lia.
  - cbn. lia.
Qed.

Lemma sql_run_from_end sent0 fuel : forall clock i c, sql_ok sent0 c -> sql_measure c <= fuel ->
  let c' := sql_run_from float_repr budget llm extract_json fuel clock i c in
  sql_measure c' = 0 /\ sql_ok sent0 c'.
Proof.
  induction fuel as [|k IH]; intros clock i c Hok Hm; cbn; [split; [lia|done]|].
  apply IH; [by apply sql_step_ok|].
  destruct (decide (sql_measure c = 0)) as [Hz|Hz].
  - assert (step (clock i) c = c) as -> by (destruct c as [[] []]; cbn in Hz; (done || lia)). lia.
  - pose proof (sql_step_measure sent0 (clock i) c Hok Hz). lia.
Qed.

Lemma sql_run_end clock t db_id : inv t ->
  let c := sql_run float_repr budget llm extract_json clock t db_id in
  sql_measure c = 0 /\ sql_ok (sent t) c.
Proof.
  intros Hinv. apply sql_run_from_end.
  - unfold sql_ok, rows_reported. cbn. repeat split; try done; lia.
  - unfold sql_measure, sql_fuel. cbn. lia.
Qed.
End invariant.

(** ** Properties *)

(** [C29] The exploration ends: within [3 * max_llm_calls + 2] nodes, whatever the
    model, the database and the clock do, it reaches its verdict or a tool
    raises; by then at most [max_llm_calls] model calls were made, at most
    [max_sql_executions] statements were sent, the tools' invariant holds, and a
    "data_found" verdict means that the rows it reports are those of a
    statement that was executed and succeeded. *)
Theorem sql_run_sound {T} `{TL : ToolsetLaws T inv sent} float_repr budget llm extract_json clock t db_id :
  inv t ->
  let c := sql_run float_repr budget llm extract_json clock t db_id in
  (c.1 = SQL_END \/ c.1 = SQL_RAISED) /\ inv c.2.1 /\
  (sa_llm_call_count c.2.2 <= Z.max 0 (eb_max_llm_calls budget))%Z /\
  (Z.of_nat (sent c.2.1) <= Z.of_nat (sent t) + Z.max 0 (eb_max_sql_executions budget))%Z /\
  (c.1 = SQL_END -> sa_exploration_verdict c.2.2 = "data_found" ->
     truthy (sa_final_rows c.2.2) = true /\
     exists t0 db sql reply, (invoke_execute_sql t0 db sql).2 = Ok reply /\ tr_success reply = true /\
       get_or (dlookup "rows" (tr_structured reply)) (VList []) = sa_final_rows c.2.2).
Proof.
  intros Hinv. cbn zeta.
  destruct (sql_run_end float_repr budget llm extract_json clock t db_id Hinv) as [He Hok].
  destruct (sql_run _ _ _ _ _ _ _) as [n [t' s]].
  destruct Hok as (?&Hrows&?&?&?&?&Hv). cbn [fst snd].
  split; [destruct n; cbn in He; auto; lia|]. repeat split; [done|lia|lia|..]; subst n; auto.
Qed.

(** [C12] With the repository's own tools: every statement the exploration sends to
    the database server goes to a database that exists and was allowed, is a
    query with a LIMIT (of the toolset's own maximum if the model gave none),
    and, when the exploration listed the tables of that database before it,
    names after FROM and JOIN only tables the server had disclosed. *)
Theorem sql_run_guarded float_repr tool_call parse uw dumps budget llm extract_json clock rt max_rows allowed db_id :
  let t := SqlAgentToolset_init rt max_rows allowed in
  let c := @sql_run _ (agent_tools float_repr tool_call parse uw dumps)
             float_repr budget llm extract_json clock t db_id in
  forall earlier call later, ts_calls c.2.1 = earlier ++ call :: later -> is_query_call call = true ->
    statement_ok float_repr tool_call parse uw rt max_rows (ts_allowed_db_ids t) earlier call.
Proof.
  cbn zeta. set (t := SqlAgentToolset_init rt max_rows allowed).
  assert (ts_ok float_repr tool_call parse uw rt max_rows (ts_allowed_db_ids t) t) as Hinit by
    (split; [done..| |]; [by intros [] ? ?|by intros ? ? ? ?%not_elem_of_nil]).
  destruct (sql_run_end (TL := agent_tools_laws float_repr tool_call parse uw dumps rt max_rows (ts_allowed_db_ids t))
              float_repr budget llm extract_json clock t db_id Hinit) as [_ Hok].
  destruct (sql_run _ _ _ _ _ _ _) as [n [t' s]]. destruct Hok as ([_ _ _ Hc _]&_). exact Hc.
Qed.

(** A model call that fails with an exception whose text is empty is not seen as
    an error: the action the previous step left pending is executed again. *)
Theorem silent_error_repeats_action {T} `{Toolset T} float_repr budget llm extract_json now (t : T) s a :
  llm s = inl "" -> sa_pending_action s = Some a -> sa_llm_error s = "" ->
  str_in (aa_action a) ["finish"; "give_up"] = false -> aa_action a <> "" ->
  let c := sql_step float_repr budget llm extract_json now (agent_llm, (t, s)) in
  c.1 = tool_exec /\ sa_pending_action c.2.2 = Some a.
Proof.
  intros Hl Ha He Hf Hne. cbn. unfold agent_llm_node.
  rewrite Hl. unfold route_after_llm, pending_type. cbn [sa_llm_error sa_pending_action after_llm].
  rewrite Ha, Hf. split; [|done]. cbn. destruct (aa_action a); done.
Qed.

(** ** Instances *)

Definition sample_exploration : ExplorationBudget := mkExplorationBudget 10 10 4 6 90 500 0.
(** A model that sends one statement and stops. *)
Definition sample_model (s : SqlAgentState) : string + string :=
  inr (if sa_sql_succeeded s then "finish" else "query").
Definition sample_json (text : string) : option pydict :=
  Some (if String.eqb text "query"
        then [("action", VStr "sql"); ("args", VDict [("db_id", VStr "sales"); ("sql", VStr "select n from orders")])]
        else [("action", VStr "finish")]).
Local Abbreviation sample_walk :=
  (@sql_run _ (agent_tools (fun _ => "") json_server as_select (fun _ => false) (fun _ => "json"))
    (fun _ => "") sample_exploration sample_model sample_json (fun _ => 0%Q)
    (SqlAgentToolset_init sample_runtime 500 None) "").

Lemma sql_run_sound_witness :
  sample_walk.1 = SQL_END /\ sa_exploration_verdict sample_walk.2.2 = "data_found" /\
  truthy (sa_final_rows sample_walk.2.2) = true.
Proof.
  assert (sample_walk.1 = SQL_END) as He by (vm_compute; reflexivity).
  assert (sa_exploration_verdict sample_walk.2.2 = "data_found") as Hv by (vm_compute; reflexivity).
  split; [exact He|]. split; [exact Hv|].
  pose proof (init_ok (fun _ => "") json_server as_select (fun _ => false) sample_runtime 500 None eq_refl) as Hok.
  pose proof (@sql_run_sound _ _ _ ts_sent
    (agent_tools_laws (fun _ => "") json_server as_select (fun _ => false) (fun _ => "json") sample_runtime 500 None)
    (fun _ => "") sample_exploration sample_model sample_json (fun _ => 0%Q)
    (SqlAgentToolset_init sample_runtime 500 None) "" Hok) as (_ & _ & _ & _ & H).
  exact (proj1 (H He Hv)).
Defined.

(** A model that lists the tables of "sales" and then sends a statement. *)
Definition listing_server (name : string) (args : pydict) : result McpReply :=
  if startswith "list_tables_" name then Ok (mkMcpReply "" (Some (VDict [("tables", VList [VStr "orders"])]))) else json_server name args.
Definition listing_model (s : SqlAgentState) : string + string :=
  inr (if (sa_step_count s =? 0)%Z then "list" else if sa_sql_succeeded s then "finish" else "query").
Definition listing_json (text : string) : option pydict :=
  if String.eqb text "list" then Some [("action", VStr "show_tables"); ("args", VDict [("db_id", VStr "sales")])] else sample_json text.
Local Abbreviation listing_walk :=
  (@sql_run _ (agent_tools (fun _ => "") listing_server as_select (fun _ => false) (fun _ => "json"))
    (fun _ => "") sample_exploration listing_model listing_json (fun _ => 0%Q)
    (SqlAgentToolset_init sample_runtime 500 (Some ["sales"])) "").

Lemma sql_run_guarded_witness :
  let listing := mkCall (VStr "sales") "list_tables_sales" [] in
  let call := mkCall (VStr "sales") "query_sales" [("sql", VStr "select n from orders LIMIT 500")] in
  ts_calls listing_walk.2.1 = [listing; call] /\
  statement_ok (fun _ => "") listing_server as_select (fun _ => false) sample_runtime 500 (Some ["sales"]) [listing] call.
Proof.
  set (listing := mkCall _ _ []). set (call := mkCall _ "query_sales" _).
  assert (ts_calls listing_walk.2.1 = [listing] ++ call :: []) as Hc by (vm_compute; reflexivity).
  split; [exact Hc|].
  exact (sql_run_guarded (fun _ => "") listing_server as_select (fun _ => false) (fun _ => "json") sample_exploration
    listing_model listing_json (fun _ => 0%Q) sample_runtime 500 (Some ["sales"]) "" [listing] call [] Hc eq_refl).
Defined.
