(* ===== verification/GraphNodes.v ===== *)
(** * The nodes that the graph model leaves open (graph.py)

    [AgentGraph] proves its theorems for nodes that may write anything to
    their fields.  Here every one of them is the node of its own file, and the
    graph of these nodes is simulated by that of [AgentGraph]: what holds of
    every run there holds of every run of the program. *)

From S2P Require Import Prelude PyFloat PyVal PyList PyText AgentState Config Evidence QualityCheck Hallucination AnswerAst FinalAnswer ToolNodes.
From S2P Require Import EvidenceFusion PromptAssembly RouteModels LlmRouter IntentRouter ToolContract PlanExecutor Observability Reflection ReactNode.
From S2P Require Import AgentGraph.

(** The fields of the update of the fusion node. *)
Definition snapshot_value (evidence_value : Evidence -> pyval) (s : EvidenceSnapshot) : pyval :=
  VDict [("snapshot_id", VStr (sn_snapshot_id s)); ("evidences", VList (map evidence_value (sn_evidences s)));
         ("created_at", VStr (sn_created_at s)); ("tool_run_id", VStr (sn_tool_run_id s)); ("attempt_id", VInt (sn_attempt_id s));
         ("schema_version", VStr (sn_schema_version s))].

Definition fusion_fields (evidence_value : Evidence -> pyval) (ms : Z) (u : FusionUpdate) : pydict :=
  [("evidence", VList (map evidence_value (fu_evidence u))); ("evidence_snapshot_id", VStr (sn_snapshot_id (fu_snapshot u)));
   ("evidence_snapshot", snapshot_value evidence_value (fu_snapshot u)); ("active_tools", VStrs (fu_active_tools u));
   ("tool_token_counts", VDict (map (fun kv => (kv.1, VInt kv.2)) (fu_tool_token_counts u))); ("overflown_tools", VStrs (fu_overflown_tools u));
   ("compression_level", VStr (fu_compression_level u)); timing "evidence_fusion" ms].

Section nodes.
Context {P : Pydantic}.

(** A node run in a state, for some behaviour of the services it calls. *)
Inductive node_computes : AgentGraph.node -> pystate -> pydict -> Prop :=
  | computes_question d s ms t g st u : user_question_node d s ms t g st = Ok u -> node_computes question_input st u
  | computes_router us ud uw json_repair config services breaker ms st u breaker' :
      intent_router_node us ud uw json_repair config services breaker st = Ok (u, breaker') -> node_computes intent_router st (router_fields ms u)
  | computes_clarification i ms st u : clarification_node i ms st = Ok u -> node_computes clarification st u
  | computes_rag i ms st u : rag_tool_node i ms st = Ok u -> node_computes rag_tool st u
  | computes_db i ms st u : db_tool_node i ms st = Ok u -> node_computes db_tool st u
  | computes_web i ms st u : web_tool_node i ms st = Ok u -> node_computes web_tool st u
  | computes_rest i ms st u : rest_tool_node i ms st = Ok u -> node_computes rest_tool st u
  | computes_graph i ms st u : graph_tool_node i ms st = Ok u -> node_computes graph_tool st u
  | computes_plan call_error registry float_of_text tool_ms total_ms ms default_id st u :
      plan_executor_node call_error registry float_of_text tool_ms total_ms ms default_id st = Ok u -> node_computes plan_executor st u
  | computes_react exc_text run ms st u : react_subgraph_node exc_text run ms st = Ok u -> node_computes react_subgraph st u
  | computes_fusion encode sha json_dumps float_repr float_of_text uw ud now llm evidence_value ms st u :
      evidence_fusion_node encode sha json_dumps float_repr float_of_text uw ud now llm st = Ok u ->
      node_computes evidence_fusion st (fusion_fields evidence_value ms u)
  | computes_reflection us float_repr json_repair reply ms st u :
      reflection_node us float_repr json_repair reply ms st = Ok u -> node_computes AgentGraph.reflection st u
  | computes_quality ms st u : quality_check_node ms st = Ok u -> node_computes quality_check st u
  | computes_prompt encode format2 float_repr ms st u :
      prompt_assembly_node encode format2 float_repr ms st = Ok u -> node_computes prompt_assembly st u
  | computes_llm c ms st u : llm_generate_node c ms st = Ok u -> node_computes llm_generate st u
  | computes_hallucination config verify bind ms st u : hallucination_node config verify bind ms st = Ok u -> node_computes hallucination st u
  | computes_renderer from_dict ms st u : answer_renderer_node from_dict ms st = Ok u -> node_computes answer_renderer st u
  | computes_fallback ms st u : fallback_node ms st = Ok u -> node_computes fallback st u
  | computes_observability ud float_repr start now ms st o :
      observability_node ud float_repr start now ms st = Ok o -> node_computes observability st (ob_update o)
  | computes_answer json ms st u : final_answer_node json ms st = Ok u -> node_computes answer_output st u.

(** ** Lemmas *)

#[local] Hint Constructors node_updates : core.

Lemma opaque_by_keys n ks st u : opaque_writes n = Some ks -> forallb (fun kv => str_in kv.1 ks) u = true -> node_updates n st u.
Proof. intros Ho H. eapply upd_opaque; [done|]. by apply writes_only_compute. Qed.

Lemma router_writes us ud uw json_repair config services breaker ms st u breaker' :
  intent_router_node us ud uw json_repair config services breaker st = Ok (u, breaker') -> node_updates intent_router st (router_fields ms u).
Proof.
  intros H. eapply opaque_by_keys; [done|]. unfold router_fields. rewrite !forallb_app. cbn [map app forallb fst].
  apply andb_true_iff. split; [done|]. apply andb_true_iff. split; [|done]. apply forallb_true_forall. intros [k v] Hin. apply str_in_spec.
  assert (k ∈ map fst (ru_skills u)) as Hk by (apply list_elem_of_In, in_map_iff; exists (k, v); by rewrite <- list_elem_of_In).
  apply (router_keys us ud uw json_repair config services breaker st u breaker' k H) in Hk. cbn [fst]. set_solver.
Qed.

Lemma plan_writes call_error registry float_of_text tool_ms total_ms ms default_id st u :
  plan_executor_node call_error registry float_of_text tool_ms total_ms ms default_id st = Ok u -> node_updates plan_executor st u.
Proof. intros H. apply plan_executor_runs in H as []; by eapply opaque_by_keys. Qed.

Lemma react_writes exc_text run ms st u : react_subgraph_node exc_text run ms st = Ok u -> node_updates react_subgraph st u.
Proof.
  unfold react_subgraph_node. cbv zeta. destruct (negb _); [intros [= <-]; by eapply opaque_by_keys|].
  destruct (negb _); [intros [= <-]; by eapply opaque_by_keys|]. intros H. apply rbind_ok in H as (o & _ & H).
  apply rbind_ok in H as (m & _ & H). injection H as <-. by eapply opaque_by_keys.
Qed.

Lemma reflection_writes us fr jr reply ms st u : reflection_node us fr jr reply ms st = Ok u -> node_updates AgentGraph.reflection st u.
Proof. unfold reflection_node. intros H. apply rbind_ok in H as (trs & _ & H). injection H as <-. by eapply opaque_by_keys. Qed.

Lemma prompt_writes encode format2 fr ms st u : prompt_assembly_node encode format2 fr ms st = Ok u -> node_updates prompt_assembly st u.
Proof.
  unfold prompt_assembly_node. intros H. repeat (apply rbind_ok in H as (? & _ & H); try cbv zeta in H).
  repeat match goal with x : (_ * _)%type |- _ => destruct x end. repeat (apply rbind_ok in H as (? & _ & H); try cbv zeta in H).
  repeat match goal with x : (_ * _)%type |- _ => destruct x end.
  injection H as <-. destruct (truthy _); by eapply opaque_by_keys.
Qed.

(** Every node of the program writes only the fields the graph model lets it
    write, and the graph model's own nodes are the program's. *)
Lemma all_nodes_refine n st u : node_computes n st u -> node_updates n st u.
Proof.
  intros H. destruct H; eauto using router_writes, plan_writes, react_writes, reflection_writes, prompt_writes.
  - by eapply opaque_by_keys.
  - destruct (observability_update _ _ _ _ _ _ _ H) as (timings & _ & -> & _). by eapply opaque_by_keys.
Qed.
End nodes.

(** ** Runs of the program *)

Section runs.
Context {P : Pydantic} {R : StateRuntime} {RL : StateRuntimeLaws R}.

Inductive program_step : config -> config -> Prop :=
  | program_node n st u n' : node_computes n st u -> next n (apply_updates st u) = Ok n' -> program_step (n, st) (n', apply_updates st u).

(** A run of the program, with the edges it took. *)
Inductive program_run (c0 : config) : list (AgentGraph.node * AgentGraph.node) -> config -> Prop :=
  | program_start : program_run c0 [] c0
  | program_next tr c c' : program_run c0 tr c -> program_step c c' -> program_run c0 (tr ++ [(c.1, c'.1)]) c'.
End runs.

(** [C4] The graph model simulates the program: a run of the nodes of the program is
    a run of the model, along the same edges and to the same state. *)
Theorem program_simulated {P : Pydantic} {R : StateRuntime} c0 tr c (H : program_run c0 tr c) : run c0 tr c.
Proof.
  induction H as [|tr c c' _ IH Hs]; [constructor|]. apply run_step; [done|]. destruct Hs as [n st u n' Hu Hn].
  econstructor; [|done]. by apply all_nodes_refine.
Qed.

Lemma program_simulated_witness : exists st, run (question_input, (∅ : pystate)) [(question_input, intent_router)] (intent_router, st).
Proof.
  eexists. apply (program_simulated (question_input, ∅) ([] ++ [(question_input, intent_router)])).
  refine (program_next _ [] (question_input, ∅) (intent_router, _) _ _); [constructor|].
  eapply program_node; [eapply (computes_question (fun _ => ("zh_CN", "zh_CN")) (fun _ _ => "") 0 "t1" 0%Q ∅); reflexivity|reflexivity].
Defined.
