(* ===== verification/RestRuntime.v ===== *)
(** * The client of the REST server (tools/rest_runtime.py)

    One runtime serves all tenants of the process: it keeps a session, counts
    failures and opens a circuit breaker.  A request is a coroutine that gives
    the control up while it waits for a reply or before a retry; the requests of
    a process interleave at these points and share the runtime.  The database of
    servers, the session class, the replies and the clock are arguments. *)

From stdpp Require Import pretty.
From S2P Require Import Prelude PyFloat PyVal PyList PyText PyRegex AgentState SqlToolset.

Definition DEFAULT_TIMEOUT_MS : Z := 30000.
Definition DEFAULT_MAX_RETRIES : Z := 2.
Definition DEFAULT_MCP_SERVER_NAME : string := "erp_mcp_server".
Definition CIRCUIT_BREAKER_THRESHOLD : Z := 5.
Definition CIRCUIT_BREAKER_TIMEOUT_S : Q := 60.

(** What a call over a session gives: a value, no reply in time, or an exception. *)
Inductive mcp_reply : Type := McpValue (v : pyval) | McpTimeout | McpFailed (e : pyexc).

Section runtime.
(** A record of the server table, and an open session. *)
Variable Server Session : Type.

Record RestRuntime : Type := mkRest {
  rr_session : option Session; rr_tenant : string; rr_server : string;
  rr_circuit_open : bool; rr_open_at : Q; rr_failures : Z }.

Definition new_RestRuntime : RestRuntime := mkRest None "" "" false 0 0.

(** [MCPServerService.get_by_name_and_tenant]: the second component, [None] when it is false. *)
Variable get_by_name_and_tenant : string -> string -> option Server.
(** [MCPToolCallSession(mcp_server.url, tenant_id, mcp_server_name)] *)
Variable new_session : Server -> string -> string -> result Session.
Variable json_dumps : pyval -> string.
Variable json_loads : string -> option pyval.
Variable float_repr : Q -> string.

(** ** Session *)

Definition with_session (rt : RestRuntime) (s : option Session) (tenant_id server : string) : RestRuntime :=
  mkRest s tenant_id server (rr_circuit_open rt) (rr_open_at rt) (rr_failures rt).

Definition has_session (rt : RestRuntime) (tenant_id server : string) : bool :=
  match rr_session rt with Some _ => String.eqb (rr_tenant rt) tenant_id && String.eqb (rr_server rt) server | None => false end.

(** A failure leaves the runtime as it was. *)
Definition init_session (rt : RestRuntime) (tenant_id server : string) : result RestRuntime :=
  if has_session rt tenant_id server then Ok rt
  else
    match get_by_name_and_tenant server tenant_id with
    | None => Raise (OtherError (join "" ["MCP Server not found: "; server; " (tenant="; tenant_id; ")"]))
    | Some mcp_server => let! s := new_session mcp_server tenant_id server in Ok (with_session rt (Some s) tenant_id server)
    end.

Definition close_session (rt : RestRuntime) : RestRuntime :=
  match rr_session rt with Some _ => with_session rt None "" "" | None => rt end.

(** ** Circuit breaker *)

Definition with_breaker (rt : RestRuntime) (is_open : bool) (at_ : Q) (failures : Z) : RestRuntime :=
  mkRest (rr_session rt) (rr_tenant rt) (rr_server rt) is_open at_ failures.

(** [_check_circuit_breaker]: whether the request is rejected. *)
Definition check_circuit_breaker (now : Q) (rt : RestRuntime) : RestRuntime * bool :=
  if negb (rr_circuit_open rt) then (rt, false)
  else if fge (fsub now (rr_open_at rt)) CIRCUIT_BREAKER_TIMEOUT_S then (with_breaker rt false (rr_open_at rt) 0, false)
  else (rt, true).

Definition record_success (rt : RestRuntime) : RestRuntime := with_breaker rt false (rr_open_at rt) 0.

Definition record_failure (now : Q) (rt : RestRuntime) : RestRuntime :=
  let failures := (rr_failures rt + 1)%Z in
  if (CIRCUIT_BREAKER_THRESHOLD <=? failures)%Z then with_breaker rt true now failures
  else with_breaker rt (rr_circuit_open rt) (rr_open_at rt) failures.

(** ** Requests *)

Definition response_of (status data text : pyval) (latency_ms : Z) (headers : pyval) : pydict :=
  [("status_code", status); ("data", data); ("text", text); ("latency_ms", VInt latency_ms); ("headers", headers)].

(** [d.get("data", d.get("body", d))] *)
Definition data_of (d : pydict) : pyval := get_or (dlookup "data" d) (get_or (dlookup "body" d) (VDict d)).

(** [_parse_response] *)
Definition parse_response (r : pyval) (latency_ms : Z) : pydict :=
  let raw text := response_of (VInt 200) (VDict [("raw", VStr text)]) (VStr text) latency_ms (VDict []) in
  let status d := get_or (dlookup "status_code" d) (VInt 200) in
  let headers d := get_or (dlookup "headers" d) (VDict []) in
  match r with
  | VNone => response_of (VInt 200) (VDict []) (VStr "") latency_ms (VDict [])
  | VDict d => response_of (status d) (data_of d) (get_or (dlookup "text" d) (VStr (json_dumps (data_of d)))) latency_ms (headers d)
  | VStr s =>
    match json_loads s with
    | Some (VDict d) => response_of (status d) (data_of d) (VStr s) latency_ms (headers d)
    | _ => raw s
    end
  | VList _ => response_of (VInt 200) r (VStr (json_dumps r)) latency_ms (VDict [])
  | _ => raw (py_str float_repr r)
  end.

(** [payload] and [headers] are [VNone] when they are not given; the two times
    are the clock when the breaker is asked and when a failure is recorded. *)
Record RestRequest : Type := mkRequest {
  rq_endpoint : pyval; rq_method : pyval; rq_payload : pyval; rq_headers : pyval; rq_tenant : string; rq_server : string;
  rq_timeout_ms : Z; rq_max_retries : Z; rq_checked : Q; rq_failed : Q; rq_latency_ms : Z -> Z }.

Definition py_upper_val (v : pyval) : result string := match v with VStr s => Ok (py_upper s) | _ => Raise (AttributeError "upper") end.

Definition tool_args (q : RestRequest) : result pydict :=
  let! method := py_upper_val (rq_method q) in
  let optional key v := match v with VNone => [] | _ => [(key, VStr (json_dumps v))] end in
  Ok ([("endpoint", rq_endpoint q); ("method", VStr method)] ++ optional "payload" (rq_payload q) ++ optional "headers" (rq_headers q)).

(** The attempts 0, 1, ... of a request. *)
Definition attempts (q : RestRequest) : list Z := map Z.of_nat (seq 0 (Z.to_nat (rq_max_retries q + 1))).

Definition wait_ms (attempt : Z) : Z := Z.min (1000 * 2 ^ attempt) 10000.

Definition attempt_failed (q : RestRequest) (attempt : Z) (r : mcp_reply) : string :=
  match r with
  | McpFailed e => exc_text e
  | _ => join "" ["Timeout after "; pretty (rq_timeout_ms q); "ms (attempt "; pretty (attempt + 1)%Z; "/"; pretty (rq_max_retries q + 1)%Z; ")"]
  end.

(** A request between two points where it may give up the control: it has
    finished; or it waits for the reply to a call over a session (the number of
    the attempt and the arguments are given); or it sleeps.  Each form carries
    the runtime as this part of the request leaves it; what follows gets the
    runtime as it is then. *)
Inductive Coroutine : Type :=
  | Finished (rt : RestRuntime) (response : result pydict)
  | AwaitCall (rt : RestRuntime) (s : Session) (attempt : Z) (args : pydict) (k : mcp_reply -> RestRuntime -> Coroutine)
  | AwaitSleep (rt : RestRuntime) (ms : Z) (k : RestRuntime -> Coroutine).

(** The loop over the attempts, with [_call_mcp_tool], which reads the session
    of the runtime anew. *)
Fixpoint try_calls (q : RestRequest) (args : pydict) (last_error : string) (l : list Z) (rt : RestRuntime) : Coroutine :=
  match l with
  | [] => Finished (record_failure (rq_failed q) rt) (Raise (OtherError (String.append "All retries exhausted: " last_error)))
  | attempt :: l' =>
    let retry error rt :=
      if (attempt <? rq_max_retries q)%Z then AwaitSleep rt (wait_ms attempt) (try_calls q args error l')
      else try_calls q args error l' rt in
    match rr_session rt with
    | None => retry "MCP session is not initialized" rt
    | Some s =>
      AwaitCall rt s attempt args (fun r rt =>
        match r with
        | McpValue v => Finished (record_success rt) (Ok (parse_response v (rq_latency_ms q attempt)))
        | r => retry (attempt_failed q attempt r) rt
        end)
    end
  end.

Definition execute (q : RestRequest) (rt : RestRuntime) : Coroutine :=
  let (rt, rejected) := check_circuit_breaker (rq_checked q) rt in
  if rejected then Finished rt (Raise (OtherError "Circuit breaker is open, request rejected"))
  else
    match init_session rt (rq_tenant q) (rq_server q) with
    | Raise e => Finished (record_failure (rq_failed q) rt) (Raise (OtherError (String.append "Failed to init MCP session: " (exc_text e))))
    | Ok rt =>
      match rr_session rt with
      | None => Finished (record_failure (rq_failed q) rt) (Raise (OtherError "MCP session is not initialized"))
      | Some _ =>
        match tool_args q with
        | Raise e => Finished rt (Raise e)
        | Ok args => try_calls q args "None" (attempts q) rt
        end
      end
    end.

Definition co_runtime (c : Coroutine) : RestRuntime := match c with Finished rt _ | AwaitCall rt _ _ _ _ | AwaitSleep rt _ _ => rt end.

(** ** The requests of a process *)

(** A call over a session: the request (by its number), and what was sent. *)
Record RestCall : Type := mkRestCall { rc_task : nat; rc_session : Session; rc_attempt : Z; rc_args : pydict }.

Definition call_of (n : nat) (c : Coroutine) : list RestCall :=
  match c with AwaitCall _ s attempt args _ => [mkRestCall n s attempt args] | _ => [] end.

(** The runtime, the requests in the order of their arrival, and the calls made. *)
Record Process : Type := mkProcess { ps_runtime : RestRuntime; ps_tasks : list (RestRequest * Coroutine); ps_calls : list RestCall }.

Definition new_process : Process := mkProcess new_RestRuntime [] [].

(** What the event loop goes on with: a request arrives, the reply to the call
    of a request arrives (or times out), a request wakes up, the session is closed. *)
Inductive Event : Type := Arrive (q : RestRequest) | Reply (n : nat) (r : mcp_reply) | Wake (n : nat) | CloseSession.

Definition resume (p : Process) (n : nat) (q : RestRequest) (c : Coroutine) : Process :=
  mkProcess (co_runtime c) (<[n := (q, c)]> (ps_tasks p)) (ps_calls p ++ call_of n c).

Definition step (p : Process) (e : Event) : Process :=
  match e with
  | Arrive q =>
    let c := execute q (ps_runtime p) in
    mkProcess (co_runtime c) (ps_tasks p ++ [(q, c)]) (ps_calls p ++ call_of (length (ps_tasks p)) c)
  | Reply n r => match ps_tasks p !! n with Some (q, AwaitCall _ _ _ _ k) => resume p n q (k r (ps_runtime p)) | _ => p end
  | Wake n => match ps_tasks p !! n with Some (q, AwaitSleep _ _ k) => resume p n q (k (ps_runtime p)) | _ => p end
  | CloseSession => mkProcess (close_session (ps_runtime p)) (ps_tasks p) (ps_calls p)
  end.

Definition run_events (p : Process) (es : list Event) : Process := fold_left step es p.

(** One request from its start to its end: [call_tool] gives the replies, and
    [other] what the rest of the process does to the runtime before the request
    goes on for the n-th time. *)
Record Outcome : Type := mkOutcome {
  oc_runtime : RestRuntime; oc_calls : list (Session * pydict); oc_waits : list Z; oc_response : result pydict }.

Section drive.
Variable call_tool : Session -> Z -> pydict -> mcp_reply.
Variable other : nat -> RestRuntime -> RestRuntime.

Fixpoint drive (n : nat) (c : Coroutine) : Outcome :=
  match c with
  | Finished rt r => mkOutcome rt [] [] r
  | AwaitCall rt s attempt args k =>
    let o := drive (S n) (k (call_tool s attempt args) (other n rt)) in
    mkOutcome (oc_runtime o) ((s, args) :: oc_calls o) (oc_waits o) (oc_response o)
  | AwaitSleep rt ms k =>
    let o := drive (S n) (k (other n rt)) in mkOutcome (oc_runtime o) (oc_calls o) (ms :: oc_waits o) (oc_response o)
  end.

Definition execute_among (rt : RestRuntime) (q : RestRequest) : Outcome := drive 0 (execute q rt).
End drive.

(** ** What the runtime keeps *)

(** [s] was opened for this tenant and server. *)
Definition opened (s : Session) (tenant_id server : string) : Prop :=
  exists mcp_server, get_by_name_and_tenant server tenant_id = Some mcp_server /\ new_session mcp_server tenant_id server = Ok s.

Record runtime_ok (rt : RestRuntime) : Prop := {
  ro_session s : rr_session rt = Some s -> opened s (rr_tenant rt) (rr_server rt);
  ro_breaker : rr_circuit_open rt = (CIRCUIT_BREAKER_THRESHOLD <=? rr_failures rt)%Z;
  ro_failures : (0 <= rr_failures rt)%Z }.

Lemma new_runtime_ok : runtime_ok new_RestRuntime.
Proof. by constructor. Qed.

Lemma record_failure_ok now rt : runtime_ok rt -> runtime_ok (record_failure now rt).
Proof.
  intros [Hs Hb Hf]. unfold record_failure. destruct (CIRCUIT_BREAKER_THRESHOLD <=? rr_failures rt + 1)%Z eqn:E; constructor; cbn; try done; try lia.
  rewrite Hb. unfold CIRCUIT_BREAKER_THRESHOLD in *. lia.
Qed.

Lemma record_success_ok rt : runtime_ok rt -> runtime_ok (record_success rt).
Proof. intros [Hs Hb Hf]. by constructor. Qed.

Lemma close_session_ok rt : runtime_ok rt -> runtime_ok (close_session rt).
Proof. intros [Hs Hb Hf]. unfold close_session. destruct (rr_session rt) eqn:E; constructor; cbn; try done. by rewrite E. Qed.

Lemma check_breaker_ok now rt : runtime_ok rt -> runtime_ok (check_circuit_breaker now rt).1.
Proof.
  intros H. unfold check_circuit_breaker. destruct (negb _); [done|]. destruct (fge _ _); [|done]. destruct H. by constructor.
Qed.

(** After [init_session] the session is one opened for the tenant and the server. *)
Lemma init_session_ok rt tenant_id server rt' : runtime_ok rt -> init_session rt tenant_id server = Ok rt' ->
  runtime_ok rt' /\ exists s, rr_session rt' = Some s /\ rr_tenant rt' = tenant_id /\ rr_server rt' = server.
Proof.
  intros [Hs Hb Hf]. unfold init_session. destruct (has_session rt tenant_id server) eqn:Eh.
  - intros [= <-]. unfold has_session in Eh. destruct (rr_session rt) as [s|] eqn:Es; [|done].
    apply andb_true_iff in Eh as [E1%String.eqb_eq E2%String.eqb_eq]. split; [constructor; [by rewrite Es|done|done]|by exists s].
  - destruct (get_by_name_and_tenant server tenant_id) as [srv|] eqn:Eg; [|done].
    intros (s & En & [= <-])%rbind_ok. split; [|by exists s]. constructor; cbn; [|done|done]. intros ? [= <-]. by exists srv.
Qed.

(** ** Requests *)

Lemma wait_bounds attempt : (0 <= attempt)%Z -> (0 < wait_ms attempt <= 10000)%Z.
Proof. intros H. unfold wait_ms. pose proof (Z.pow_pos_nonneg 2 attempt). lia. Qed.

(** A request [q] that may make [budget] more calls, and has made one if
    [called]: however the runtime changes at its waits, it sends its own
    arguments over the session the runtime has at that moment; the first call
    goes over the session of its own tenant and server; the waits are at most
    ten seconds; and it never answers without a call. *)
Fixpoint served (q : RestRequest) (budget : nat) (called : bool) (c : Coroutine) : Prop :=
  match c with
  | Finished rt r => runtime_ok rt /\ (called = false -> exists e, r = Raise e)
  | AwaitCall rt s attempt args k =>
    runtime_ok rt /\ tool_args q = Ok args /\ rr_session rt = Some s /\
    (attempt = 0%Z -> rr_tenant rt = rq_tenant q /\ rr_server rt = rq_server q) /\
    match budget with
    | O => False
    | S budget => forall r rt', runtime_ok rt' -> served q budget true (k r rt')
    end
  | AwaitSleep rt ms k => runtime_ok rt /\ (0 < ms <= 10000)%Z /\ forall rt', runtime_ok rt' -> served q budget called (k rt')
  end.

Lemma served_runtime q budget called c : served q budget called c -> runtime_ok (co_runtime c).
Proof. destruct c; cbn; tauto. Qed.

Lemma try_calls_served q args l : tool_args q = Ok args -> Forall (fun a => 0 <= a)%Z l -> forall called e rt, runtime_ok rt ->
  (0%Z ∈ l -> rr_tenant rt = rq_tenant q /\ rr_server rt = rq_server q) -> 0%Z ∉ tail l ->
  served q (length l) called (try_calls q args e l rt).
Proof.
  intros Ha Hl. induction Hl as [|a l Ha0 Hl IH]; intros called e rt Hok Hown Htail; cbn [try_calls].
  { split; [by apply record_failure_ok|]. intros _. by eexists. }
  assert (0%Z ∉ tail l) as Htail' by (cbn in Htail; intros H; apply Htail; destruct l; [done|by right]).
  assert (forall called error rt', runtime_ok rt' -> served q (length l) called
    (if (a <? rq_max_retries q)%Z then AwaitSleep rt' (wait_ms a) (try_calls q args error l) else try_calls q args error l rt')) as Hretry.
  { intros called' error rt' Hok'. destruct (a <? rq_max_retries q)%Z; [split; [done|]; split; [by apply wait_bounds|]; intros rt'' Hok''|];
      apply IH; try done. }
  assert (forall n c called' , served q n called' c -> served q (S n) called' c) as Hmore.
  { clear. intros n c. revert n. induction c as [rt r|rt s a args k IH|rt ms k IH]; intros n called'; cbn; [done|..].
    - intros (? & ? & ? & ? & H). split_and!; try done. destruct n; [done|]. intros r rt' Hrt. apply IH. by apply H.
    - intros (? & ? & H). split_and!; try lia; try done. intros rt' Hrt. apply IH. by apply H. }
  destruct (rr_session rt) as [s|] eqn:Es; [|by apply Hmore, Hretry].
  cbn [served length]. split_and!; try done; [intros ->; apply Hown; by left|].
  intros [v| |ex] rt' Hok'; [|by apply Hretry|by apply Hretry]. split; [by apply record_success_ok|done].
Qed.

Lemma attempts_served q : Forall (fun a => 0 <= a)%Z (attempts q) /\ 0%Z ∉ tail (attempts q) /\ length (attempts q) = Z.to_nat (rq_max_retries q + 1).
Proof.
  unfold attempts. rewrite length_map, length_seq. split_and!; [|..|done].
  - apply Forall_forall. intros a Ha. apply list_elem_of_In, in_map_iff in Ha as (n & <- & _). lia.
  - destruct (Z.to_nat _) as [|n]; cbn; [apply not_elem_of_nil|]. intros H.
    apply list_elem_of_In, in_map_iff in H as (m & Hm & Hin). apply in_seq in Hin. lia.
Qed.

Lemma execute_served q rt : runtime_ok rt -> served q (Z.to_nat (rq_max_retries q + 1)) false (execute q rt).
Proof.
  intros H. unfold execute. pose proof (check_breaker_ok (rq_checked q) rt H) as Hc.
  destruct (check_circuit_breaker _ rt) as [rt1 rejected]. cbn [fst] in Hc.
  assert (forall rt' e, runtime_ok rt' -> served q (Z.to_nat (rq_max_retries q + 1)) false (Finished rt' (Raise e))) as Hraise
    by (intros rt' e Hrt; split; [done|by eexists]).
  destruct rejected; [by apply Hraise|].
  destruct (init_session rt1 _ _) as [rt2|e] eqn:Ei; [|by apply Hraise, record_failure_ok].
  destruct (init_session_ok _ _ _ _ Hc Ei) as (Hr & s & Es & Et & Ev). rewrite Es.
  destruct (tool_args q) as [args|e] eqn:Ea; [|by apply Hraise].
  destruct (attempts_served q) as (H1 & H2 & <-). by apply try_calls_served.
Qed.

(** Over every interleaving of the requests of a process. *)
Definition process_ok (p : Process) : Prop :=
  runtime_ok (ps_runtime p) /\
  (forall n q c, ps_tasks p !! n = Some (q, c) -> exists budget called, served q budget called c) /\
  (forall call, call ∈ ps_calls p -> exists q c, ps_tasks p !! rc_task call = Some (q, c) /\ tool_args q = Ok (rc_args call) /\
     (exists tenant_id server, opened (rc_session call) tenant_id server) /\
     (rc_attempt call = 0%Z -> opened (rc_session call) (rq_tenant q) (rq_server q))).

Lemma served_call q budget called c n call : served q budget called c -> call ∈ call_of n c ->
  rc_task call = n /\ tool_args q = Ok (rc_args call) /\ (exists tenant_id server, opened (rc_session call) tenant_id server) /\
  (rc_attempt call = 0%Z -> opened (rc_session call) (rq_tenant q) (rq_server q)).
Proof.
  destruct c as [| rt s a args k |]; cbn; [by intros _ ?%not_elem_of_nil| |by intros _ ?%not_elem_of_nil].
  intros (Hrt & Ha & Hs & Hown & _) ->%list_elem_of_singleton. cbn. pose proof (ro_session _ Hrt _ Hs) as Ho.
  split_and!; try done; [by eexists _, _|]. intros H0. destruct (Hown H0) as [<- <-]. exact Ho.
Qed.

Lemma resume_ok p n q c0 c budget called : process_ok p -> ps_tasks p !! n = Some (q, c0) -> served q budget called c -> process_ok (resume p n q c).
Proof.
  intros (Hrt & Ht & Hc) Hn Hs. split; [by eapply served_runtime|]. cbn [resume ps_tasks ps_calls]. split.
  - intros n' q' c' [(-> & [= <- <-] & _)|[Hne H]]%list_lookup_insert_Some; [by eexists _, _|by eapply Ht].
  - intros call [Hin|Hin]%elem_of_app.
    + destruct (Hc _ Hin) as (q' & c' & Hl & Hrest). destruct (decide (rc_task call = n)) as [E|E].
      * rewrite E, Hn in Hl. injection Hl as <- <-. exists q, c. rewrite E. split; [|done].
        apply list_lookup_insert_eq. by eapply lookup_lt_Some.
      * exists q', c'. split; [by rewrite list_lookup_insert_ne|done].
    + destruct (served_call _ _ _ _ _ _ Hs Hin) as (<- & Hrest). exists q, c. split; [|done].
      apply list_lookup_insert_eq. by eapply lookup_lt_Some.
Qed.

Lemma step_ok p e : process_ok p -> process_ok (step p e).
Proof.
  intros Hp. pose proof Hp as (Hrt & Ht & Hc). destruct e as [q|n r|n|]; cbn [step].
  - pose proof (execute_served q _ Hrt) as Hs. set (c := execute q (ps_runtime p)) in *. split; [by eapply served_runtime|]. split.
    + intros n q' c' Hl. cbn [ps_tasks] in Hl. apply lookup_app_Some in Hl as [Hl|[_ Hl]]; [by eapply Ht|].
      apply list_lookup_singleton_Some in Hl as [_ [= <- <-]]. by eexists _, _.
    + cbn [ps_calls ps_tasks]. intros call [Hin|Hin]%elem_of_app.
      * destruct (Hc _ Hin) as (q' & c' & Hl & Hrest). exists q', c'. split; [by apply lookup_app_l_Some|done].
      * destruct (served_call _ _ _ _ _ _ Hs Hin) as (E & Hrest). exists q, c. split; [|done]. rewrite E. by apply list_lookup_middle.
  - destruct (ps_tasks p !! n) as [[q [| rt s a args k |]]|] eqn:El; try done.
    destruct (Ht _ _ _ El) as (budget & called & _ & _ & _ & _ & Hk). destruct budget as [|budget]; [done|].
    eapply resume_ok; [done|done|by apply Hk].
  - destruct (ps_tasks p !! n) as [[q [| | rt ms k]]|] eqn:El; try done.
    destruct (Ht _ _ _ El) as (budget & called & _ & _ & Hk). eapply resume_ok; [done|done|by apply Hk].
  - split; [by apply close_session_ok|]. split; done.
Qed.

Lemma run_events_ok es : forall p, process_ok p -> process_ok (run_events p es).
Proof. induction es as [|e es IH]; intros p Hp; [done|]. by apply IH, step_ok. Qed.

(** Over every schedule of the requests of all tenants: each call carries the
    arguments of its own request, over a session that was opened for some tenant
    and server; the first call of a request goes over a session of its own.
    (A retry need not: see [retry_over_another_session].) *)
Theorem first_calls_isolated es call : call ∈ ps_calls (run_events new_process es) ->
  exists q c, ps_tasks (run_events new_process es) !! rc_task call = Some (q, c) /\ tool_args q = Ok (rc_args call) /\
    (exists tenant_id server, opened (rc_session call) tenant_id server) /\
    (rc_attempt call = 0%Z -> opened (rc_session call) (rq_tenant q) (rq_server q)).
Proof.
  apply (run_events_ok es new_process). split; [apply new_runtime_ok|]. split; [done|]. by intros ? ?%not_elem_of_nil.
Qed.

(** One request among others. *)
Record request_served (q : RestRequest) (o : Outcome) : Prop := {
  rs_runtime : runtime_ok (oc_runtime o);
  rs_calls : Forall (fun c => tool_args q = Ok c.2 /\ exists tenant_id server, opened c.1 tenant_id server) (oc_calls o);
  rs_length : length (oc_calls o) <= Z.to_nat (rq_max_retries q + 1);
  rs_waits : Forall (fun w => 0 < w <= 10000)%Z (oc_waits o);
  rs_answered d : oc_response o = Ok d -> oc_calls o <> [] }.

Lemma drive_served call_tool other q : (forall n rt, runtime_ok rt -> runtime_ok (other n rt)) ->
  forall c budget called n, served q budget called c -> let o := drive call_tool other n c in
  runtime_ok (oc_runtime o) /\ Forall (fun c => tool_args q = Ok c.2 /\ exists tenant_id server, opened c.1 tenant_id server) (oc_calls o) /\
  length (oc_calls o) <= budget /\ Forall (fun w => 0 < w <= 10000)%Z (oc_waits o) /\
  (forall d, oc_response o = Ok d -> called = false -> oc_calls o <> []).
Proof.
  intros Ho. induction c as [rt r|rt s a args k IH|rt ms k IH]; intros budget called n Hc; cbn [drive].
  - destruct Hc as [Hrt Hr]. cbn. split_and!; try done; [lia|]. intros d -> Hcalled. by destruct (Hr Hcalled).
  - destruct Hc as (Hrt & Ha & Hs & _ & Hk). destruct budget as [|budget]; [done|]. cbn zeta.
    destruct (IH _ _ _ _ (S n) (Hk (call_tool s a args) (other n rt) (Ho n rt Hrt))) as (H1 & H2 & H3 & H4 & _).
    cbn. split_and!; try done; [|lia]. constructor; [|done]. split; [done|]. eexists _, _. by apply (ro_session _ Hrt).
  - destruct Hc as (Hrt & Hms & Hk). cbn zeta. destruct (IH _ _ _ (S n) (Hk (other n rt) (Ho n rt Hrt))) as (H1 & H2 & H3 & H4 & H5).
    cbn. split_and!; try done. by constructor.
Qed.

Lemma execute_among_served call_tool other rt q : (forall n rt, runtime_ok rt -> runtime_ok (other n rt)) -> runtime_ok rt ->
  request_served q (execute_among call_tool other rt q).
Proof.
  intros Ho Hrt. destruct (drive_served call_tool other q Ho _ _ _ 0 (execute_served q rt Hrt)) as (H1 & H2 & H3 & H4 & H5).
  constructor; try done. intros d Hd. by apply (H5 d).
Qed.
End runtime.

(** ** The repository's servers *)

(** A row of the table of MCP servers. *)
Record McpServer : Type := mkMcpServer { ms_name : string; ms_tenant_id : string; ms_url : string }.

(** [get_by_name_and_tenant]: [query] gives the list of all rows that match. *)
Definition query_servers (table : list McpServer) (name tenant_id : string) : list McpServer :=
  List.filter (fun m => String.eqb (ms_name m) name && String.eqb (ms_tenant_id m) tenant_id) table.

Definition by_name_and_tenant (table : list McpServer) (name tenant_id : string) : option (list McpServer) :=
  match query_servers table name tenant_id with [] => None | rows => Some rows end.

(** [MCPToolCallSession(mcp_server.url, ...)] for such a list. *)
Definition session_of_rows (Session : Type) (rows : list McpServer) (tenant_id server : string) : result Session :=
  Raise (AttributeError "'list' object has no attribute 'url'").

Section deployed.
Context (table : list McpServer) (Session : Type) (json_dumps : pyval -> string) (json_loads : string -> option pyval) (float_repr : Q -> string).

(** A process over these servers, for any session class. *)
Definition deployed_events : list Event -> Process Session :=
  run_events (list McpServer) Session (by_name_and_tenant table) (session_of_rows Session) json_dumps json_loads float_repr (new_process Session).

#[local] Abbreviation deployed_execute :=
  (execute (list McpServer) Session (by_name_and_tenant table) (session_of_rows Session) json_dumps json_loads float_repr).
#[local] Abbreviation deployed_step :=
  (step (list McpServer) Session (by_name_and_tenant table) (session_of_rows Session) json_dumps json_loads float_repr).

(** What the attempt to open a session ends with. *)
Definition init_error (q : RestRequest) : string :=
  String.append "Failed to init MCP session: "
    match by_name_and_tenant table (rq_server q) (rq_tenant q) with
    | None => join "" ["MCP Server not found: "; rq_server q; " (tenant="; rq_tenant q; ")"]
    | Some _ => "'list' object has no attribute 'url'"
    end.
Definition BREAKER_ERROR : string := "Circuit breaker is open, request rejected".

Lemma record_failure_counts now rt :
  rr_failures Session (record_failure Session now rt) = (rr_failures Session rt + 1)%Z /\
  rr_circuit_open Session (record_failure Session now rt) = (5 <=? rr_failures Session rt + 1)%Z || rr_circuit_open Session rt /\
  rr_open_at Session (record_failure Session now rt) = (if (5 <=? rr_failures Session rt + 1)%Z then now else rr_open_at Session rt).
Proof. unfold record_failure, CIRCUIT_BREAKER_THRESHOLD. by destruct (5 <=? rr_failures Session rt + 1)%Z. Qed.

(** Without a session a request fails at its first step, and leaves none. *)
Lemma deployed_fails q rt : rr_session Session rt = None ->
  exists rt' error, deployed_execute q rt = Finished Session rt' (Raise (OtherError error)) /\ rr_session Session rt' = None /\
    (rr_circuit_open Session rt = false -> error = init_error q /\ rt' = record_failure Session (rq_failed q) rt) /\
    (rr_circuit_open Session rt = true -> fge (fsub (rq_checked q) (rr_open_at Session rt)) CIRCUIT_BREAKER_TIMEOUT_S = false ->
       error = BREAKER_ERROR /\ rt' = rt) /\
    (error = init_error q \/ error = BREAKER_ERROR).
Proof.
  intros Hs. unfold execute, check_circuit_breaker.
  assert (forall rt1, rr_session Session rt1 = None -> init_session (list McpServer) Session (by_name_and_tenant table) (session_of_rows Session) rt1 (rq_tenant q) (rq_server q) =
    Raise (match by_name_and_tenant table (rq_server q) (rq_tenant q) with
           | None => OtherError (join "" ["MCP Server not found: "; rq_server q; " (tenant="; rq_tenant q; ")"])
           | Some _ => AttributeError "'list' object has no attribute 'url'"
           end)) as Hi.
  { intros rt1 E. unfold init_session, has_session. rewrite E. by destruct (by_name_and_tenant _ _ _). }
  assert (forall e, String.append "Failed to init MCP session: " (exc_text (match by_name_and_tenant table (rq_server q) (rq_tenant q) with
           | None => OtherError (join "" ["MCP Server not found: "; rq_server q; " (tenant="; rq_tenant q; ")"])
           | Some _ => AttributeError "'list' object has no attribute 'url'"
           end)) = e -> e = init_error q) as He by (intros e <-; unfold init_error; by destruct (by_name_and_tenant _ _ _)).
  assert (forall now rt1, rr_session Session (record_failure Session now rt1) = rr_session Session rt1) as Hf
    by (intros now rt1; unfold record_failure; by destruct (_ <=? _)%Z).
  destruct (rr_circuit_open Session rt) eqn:Eo; cbn [negb].
  - destruct (fge _ _) eqn:Et; [|eexists _, _; split; [reflexivity|]; split_and!; try done; by right].
    rewrite Hi by done. eexists _, _. split; [reflexivity|]. split_and!; [by rewrite Hf|done|done|left; by apply He].
  - rewrite Hi by done. eexists _, _. split; [reflexivity|]. split_and!; [by rewrite Hf|intros _; split; [by apply He|done]|done|left; by apply He].
Qed.

(** A request that ended with this error. *)
Definition ended (t : RestRequest * Coroutine Session) (error : string) : Prop := exists rt, t.2 = Finished Session rt (Raise (OtherError error)).

(** The requests of a schedule that arrive while the breaker, opened by one of
    them, would not recover. *)
Definition within_recovery (es : list Event) : Prop :=
  forall q q', Arrive q ∈ es -> Arrive q' ∈ es -> fge (fsub (rq_checked q) (rq_failed q')) CIRCUIT_BREAKER_TIMEOUT_S = false.

Record outage (es : list Event) (p : Process Session) : Prop := mkOutage {
  og_failures : rr_failures Session (ps_runtime Session p) = Z.min 5 (py_len (ps_tasks Session p));
  og_open : rr_circuit_open Session (ps_runtime Session p) = (5 <=? py_len (ps_tasks Session p))%Z;
  og_open_at : rr_circuit_open Session (ps_runtime Session p) = true -> exists q, Arrive q ∈ es /\ rr_open_at Session (ps_runtime Session p) = rq_failed q;
  og_errors n t : ps_tasks Session p !! n = Some t -> ended t (if n <? 5 then init_error t.1 else BREAKER_ERROR) }.

Lemma deployed_silent es : let p := deployed_events es in
  ps_calls Session p = [] /\ rr_session Session (ps_runtime Session p) = None /\
  Forall (fun t => ended t (init_error t.1) \/ ended t BREAKER_ERROR) (ps_tasks Session p) /\ (within_recovery es -> outage es p).
Proof.
  cbn zeta. induction es as [|e es IH] using rev_ind.
  { split_and!; try done; constructor; try done. }
  unfold deployed_events, run_events in *. rewrite fold_left_app. cbn [fold_left].
  set (p := fold_left _ es _) in *. destruct IH as (Hc & Hs & Hf & Ho).
  assert (forall c, c ∈ ps_tasks Session p -> exists rt r, c.2 = Finished Session rt r) as Hdone.
  { intros c Hc'. rewrite Forall_forall in Hf. destruct (Hf c Hc') as [[rt E]|[rt E]]; by eexists _, _. }
  assert (within_recovery (es ++ [e]) -> within_recovery es) as Hw by (intros H q q' Hq Hq'; apply H; apply elem_of_app; by left).
  assert (forall p', ps_tasks Session p' = ps_tasks Session p -> ps_runtime Session p' = ps_runtime Session p -> within_recovery (es ++ [e]) -> outage (es ++ [e]) p') as Hsame.
  { intros p' E1 E2 H. destruct (Ho (Hw H)) as [O1 O2 O3 O4]. split; rewrite ?E1, ?E2; try done.
    intros Hopen. destruct (O3 Hopen) as (q & Hq & E). exists q. split; [apply elem_of_app; by left|done]. }
  assert (forall n, match ps_tasks Session p !! n with Some (_, Finished _ _ _) | None => True | _ => False end) as Hlook.
  { intros n. destruct (ps_tasks Session p !! n) as [[q c]|] eqn:El; [|done]. apply list_elem_of_lookup_2, Hdone in El as (rt & r & E). cbn in E. by rewrite E. }
  destruct e as [q|n r|n|]; cbn [step].
  - destruct (deployed_fails q _ Hs) as (rt' & error & E & Hs' & Hclosed & Hopen & He). rewrite E. cbn [ps_calls ps_runtime ps_tasks co_runtime call_of].
    split; [by rewrite Hc|]. split; [done|]. split.
    { apply Forall_app. split; [done|]. apply Forall_singleton. destruct He as [->| ->]; [left|right]; by eexists. }
    intros H. destruct (Ho (Hw H)) as [O1 O2 O3 O4]. set (len := py_len (ps_tasks Session p)) in *.
    assert (py_len (ps_tasks Session p ++ [(q, Finished Session rt' (Raise (OtherError error)))]) = len + 1)%Z as Hlen by (unfold len, py_len; rewrite length_app; cbn; lia).
    assert (0 <= len)%Z as H0 by (unfold len, py_len; lia).
    assert (error = (if length (ps_tasks Session p) <? 5 then init_error q else BREAKER_ERROR) /\
      rt' = (if length (ps_tasks Session p) <? 5 then record_failure Session (rq_failed q) (ps_runtime Session p) else ps_runtime Session p)) as [Eerr Ert].
    { destruct (Nat.ltb_spec (length (ps_tasks Session p)) 5).
      - apply Hclosed. rewrite O2. apply Z.leb_gt. unfold len, py_len. lia.
      - assert (rr_circuit_open Session (ps_runtime Session p) = true) as Eo by (rewrite O2; apply Z.leb_le; unfold len, py_len; lia).
        apply Hopen; [done|]. destruct (O3 Eo) as (q' & Hq' & ->). apply H; apply elem_of_app; [right; by left|by left]. }
    assert (forall n t, (ps_tasks Session p ++ [(q, Finished Session rt' (Raise (OtherError error)))]) !! n = Some t ->
      ended t (if n <? 5 then init_error t.1 else BREAKER_ERROR)) as Herr.
    { intros n t [Hl|[Hn Hl]]%lookup_app_Some; [by apply O4|]. apply list_lookup_singleton_Some in Hl as [Hz <-].
      assert (n = length (ps_tasks Session p)) as -> by lia. cbn [fst]. rewrite <- Eerr. by eexists. }
    assert (rr_failures Session rt' = Z.min 5 (len + 1) /\ rr_circuit_open Session rt' = (5 <=? len + 1)%Z /\
      (rr_circuit_open Session rt' = true -> exists q', Arrive q' ∈ es ++ [Arrive q] /\ rr_open_at Session rt' = rq_failed q')) as (F1 & F2 & F3).
    { rewrite Ert. destruct (Nat.ltb_spec (length (ps_tasks Session p)) 5) as [Hlt|Hge].
      - assert (len < 5)%Z as Hl5 by (unfold len, py_len; lia). rewrite O2 in *. rewrite (proj2 (Z.leb_gt 5 len) Hl5) in *.
        destruct (record_failure_counts (rq_failed q) (ps_runtime Session p)) as (-> & -> & ->). rewrite O1, O2.
        rewrite orb_false_r. replace (Z.min 5 len) with len by lia. split_and!; [lia|done|].
        intros ->. exists q. split; [apply elem_of_app; right; by left|done].
      - assert (5 <= len)%Z as Hl5 by (unfold len, py_len; lia). split_and!; [rewrite O1; lia| |].
        + rewrite O2. transitivity true; [apply Z.leb_le; lia|symmetry; apply Z.leb_le; lia].
        + intros Hx. destruct (O3 Hx) as (q' & Hq' & E'). exists q'. split; [apply elem_of_app; by left|done]. }
    split; cbn [ps_tasks ps_runtime]; rewrite ?Hlen; done.
  - specialize (Hlook n). destruct (ps_tasks Session p !! n) as [[q [| |]]|]; try done; split_and!; auto.
  - specialize (Hlook n). destruct (ps_tasks Session p !! n) as [[q [| |]]|]; try done; split_and!; auto.
  - unfold close_session. rewrite Hs. cbn [ps_calls ps_runtime ps_tasks]. split_and!; auto.
Qed.

(** [C35] With the servers of the repository no request is ever sent.  Whatever
    rows the table of servers has and however the requests of the tenants
    interleave: no call is made and no session is open; every request raises at
    its first step, because the row it looks for is missing or, being a list,
    has no address, or because the breaker is open; and while the breaker, once
    open, does not recover, it is the first five requests that fail on the
    lookup and all later ones, of every tenant, that are rejected. *)
Theorem rest_never_sends es : let p := deployed_events es in
  ps_calls Session p = [] /\ rr_session Session (ps_runtime Session p) = None /\
  Forall (fun t => ended t (init_error t.1) \/ ended t BREAKER_ERROR) (ps_tasks Session p) /\
  (within_recovery es -> forall n t, ps_tasks Session p !! n = Some t -> ended t (if n <? 5 then init_error t.1 else BREAKER_ERROR)).
Proof. destruct (deployed_silent es) as (H1 & H2 & H3 & H4). cbn zeta. split_and!; try done. intros Hw. by destruct (H4 Hw). Qed.
End deployed.

(** ** Examples *)

Definition example_request (tenant_id : string) (at_ : Q) : RestRequest :=
  mkRequest (VStr "/api/hr/attendance") (VStr "get") VNone VNone tenant_id DEFAULT_MCP_SERVER_NAME DEFAULT_TIMEOUT_MS DEFAULT_MAX_RETRIES
    at_ at_ (fun _ => 3%Z).

(** A process over servers that answer; a session is the tenant it is for. *)
Definition example_servers (has_server : string -> bool) (name tenant_id : string) : option unit := if has_server tenant_id then Some tt else None.

Definition example_events (has_server : string -> bool) (es : list Event) : Process string :=
  run_events unit string (example_servers has_server) (fun _ tenant_id _ => Ok tenant_id) (fun _ => "") (fun _ => None) (fun _ => "") (new_process string) es.

Definition ended_with (t : RestRequest * Coroutine string) : string :=
  match t.2 with Finished _ _ (Ok _) => "answered" | Finished _ _ (Raise e) => exc_text e | _ => "waiting" end.

(** A tenant without a server: its failures open the breaker of all tenants. *)
Example tenant_without_server_blocks_all :
  let arrive t := Arrive (example_request t 1) in
  map ended_with (ps_tasks _ (example_events (String.eqb "b") ([arrive "b"; Reply 0 (McpValue VNone)] ++ repeat (arrive "a") 5 ++ [arrive "b"]))) =
  ["answered"] ++ repeat "Failed to init MCP session: MCP Server not found: erp_mcp_server (tenant=a)" 5 ++ ["Circuit breaker is open, request rejected"].
Proof. vm_compute. reflexivity. Qed.

(** The first call of a request of tenant "a" fails; while it sleeps, a request
    of tenant "b" opens its own session; the retry of "a" goes over it. *)
Example retry_over_another_session :
  map (fun c => (rc_task _ c, rc_session _ c, rc_attempt _ c))
    (ps_calls _ (example_events (fun _ => true)
      [Arrive (example_request "a" 1); Reply 0 McpTimeout; Arrive (example_request "b" 1); Wake 0])) =
  [(0, "a", 0%Z); (1, "b", 0%Z); (0, "b", 1%Z)].
Proof. vm_compute. reflexivity. Qed.

(** Requests that arrive together are all let through: the breaker counts only
    those that have ended. *)
Example breaker_does_not_bound_concurrent_calls :
  length (ps_calls _ (example_events (fun _ => true) (repeat (Arrive (example_request "a" 1)) 20))) = 20.
Proof. vm_compute. reflexivity. Qed.

Lemma first_calls_isolated_witness :
  exists q c, ps_tasks _ (example_events (fun _ => true) [Arrive (example_request "a" 1)]) !! 0 = Some (q, c) /\
    opened unit string (example_servers (fun _ => true)) (fun _ tenant_id _ => Ok tenant_id) "a" (rq_tenant q) (rq_server q).
Proof.
  destruct (first_calls_isolated unit string (example_servers (fun _ => true)) (fun _ tenant_id _ => Ok tenant_id) (fun _ => "") (fun _ => None) (fun _ => "")
    [Arrive (example_request "a" 1)] (mkRestCall _ 0 "a" 0 [("endpoint", VStr "/api/hr/attendance"); ("method", VStr "GET")]) ltac:(vm_compute; left))
    as (q & c & H & _ & _ & Ho).
  exists q, c. exact (conj H (Ho eq_refl)).
Defined.

(** Seven requests of two tenants at one moment. *)
Definition example_table : list McpServer := [mkMcpServer "erp_mcp_server" "a" "http://erp"].
Definition example_arrivals : list Event := map (fun t => Arrive (example_request t 1)) ["a"; "b"; "a"; "b"; "a"; "a"; "b"].

Lemma rest_never_sends_witness :
  exists rt, option_map snd (ps_tasks _ (deployed_events example_table string (fun _ => "") (fun _ => None) (fun _ => "") example_arrivals) !! 5) =
    Some (Finished string rt (Raise (OtherError BREAKER_ERROR))).
Proof.
  pose proof (rest_never_sends example_table string (fun _ => "") (fun _ => None) (fun _ => "") example_arrivals) as (_ & _ & _ & H).
  assert (within_recovery example_arrivals) as Hw.
  { assert (forall q, Arrive q ∈ example_arrivals -> rq_checked q = 1%Q /\ rq_failed q = 1%Q) as Hq.
    { intros q Hq. apply list_elem_of_fmap in Hq as (t & [= ->] & _). done. }
    intros q q' [-> _]%Hq [_ ->]%Hq. vm_compute. reflexivity. }
  specialize (H Hw 5). destruct (ps_tasks _ _ !! 5) as [[q c]|] eqn:E; [|vm_compute in E; discriminate E].
  destruct (H _ eq_refl) as [rt Hrt]. exists rt. cbn in Hrt |- *. by rewrite Hrt.
Defined.
