(* ===== verification/RestTool.v ===== *)
(** * The REST tool (tools/rest_tool.py)

    Functions of the ERP system under the names the planner sees, with their
    registration, and the call of one: validation of the input, the query that
    some functions run first, the request, and the score of what comes back.
    Over the runtime of [RestRuntime] and the database runtime of [SqlToolset]. *)

From stdpp Require Import pretty.
From S2P Require Import Prelude PyFloat PyVal PyList PyText PyRegex AgentState SqlToolset RestRuntime ToolNodes.

(** ** Configuration of the functions *)

(** A mapper gets what the caller wrote as parameters; the enhanced one the row
    of the database first. *)
Record RestSkillConfig : Type := mkRestSkill {
  rs_endpoint : string; rs_method : string; rs_erp_domain : string; rs_description : string; rs_parameters_schema : pydict;
  rs_required_params : list string; rs_payload_mapper : pyval -> result pyval; rs_pre_query : option pydict;
  rs_enhanced_mapper : option (pydict -> pyval -> result pyval) }.

(** [v[k]] *)
Definition vindex (v : pyval) (k : string) : result pyval :=
  match v with
  | VDict d => match dlookup k d with Some x => Ok x | None => Raise (KeyError k) end
  | _ => Raise (TypeError "not subscriptable by a text")
  end.

Definition schema_entry (kind description : string) : pyval := VDict [("type", VStr kind); ("description", VStr description)].

Definition named_mapper (param : string) (v : pyval) : result pyval :=
  let! x := vindex v param in Ok (VDict [(param, x)]).
Definition default_mapper (param optional : string) (default : pyval) (v : pyval) : result pyval :=
  let! x := vindex v param in let! y := vget v optional default in Ok (VDict [(param, x); (optional, y)]).
Definition employee_mapper (row : pydict) (v : pyval) : result pyval :=
  let! x := vindex (VDict row) "employee_id" in let! y := vget v "year" (VInt 2024) in Ok (VDict [("employee_id", x); ("year", y)]).

Definition purchase_pre_query : pydict :=
  [("sql", VStr "SELECT employee_id FROM dim_employee WHERE employee_name = :employee_name");
   ("params_mapping", VDict [("employee_name", VStr "employee_name")]); ("output_fields", VStrs ["employee_id"]);
   ("db_id", VStr "boss_ai_data"); ("allow_empty", VBool false)].

Definition FUNCTION_SKILL_MAP : list (string * RestSkillConfig) :=
  [("query_annual_leave_balance",
    mkRestSkill "/api/hr/leave/balance" "GET" "hr" "查询员工的年假剩余天数"
      [("employee_name", schema_entry "string" "员工姓名"); ("year", schema_entry "integer" "查询年份，默认当年")]
      ["employee_name"] (default_mapper "employee_name" "year" (VInt 2024)) None None);
   ("query_attendance",
    mkRestSkill "/api/hr/attendance" "GET" "hr" "查询员工考勤记录（出勤/迟到/早退/缺勤）"
      [("employee_name", schema_entry "string" "员工姓名"); ("month", schema_entry "string" "查询月份，格式 YYYY-MM")]
      ["employee_name"] (default_mapper "employee_name" "month" (VStr "")) None None);
   ("query_purchase_order",
    mkRestSkill "/api/supply_chain/orders" "GET" "supply_chain" "查询采购订单详情"
      [("order_id", schema_entry "string" "订单编号")] ["order_id"] (named_mapper "order_id") None None);
   ("query_reimbursement_status",
    mkRestSkill "/api/financial/reimbursement" "GET" "financial" "查询报销单审批状态"
      [("reimbursement_id", schema_entry "string" "报销单编号")] ["reimbursement_id"] (named_mapper "reimbursement_id") None None);
   ("query_my_purchase_orders",
    mkRestSkill "/api/supply_chain/orders/by-employee" "GET" "supply_chain" "查询指定员工的采购订单列表（需先通过员工姓名查 employee_id）"
      [("employee_name", schema_entry "string" "员工姓名"); ("year", schema_entry "integer" "查询年份")]
      ["employee_name"] (default_mapper "employee_name" "year" (VInt 2024)) (Some purchase_pre_query) (Some employee_mapper))].

Definition VALID_ERP_DOMAINS : list string := ["hr"; "supply_chain"; "financial"; "finance"].
Definition VALID_HTTP_METHODS : list string := ["GET"; "POST"; "PUT"; "DELETE"; "PATCH"].

Section registration.
(** The text of a set, whose order Python leaves open. *)
Variable set_repr : list string -> string.

Definition missing_key (d : pydict) (key : string) : bool := negb (truthy (get_or (dlookup key d) VNone)).

(** [_validate_single_config]; a mapper of the model is always callable. *)
Definition validate_single_config (c : RestSkillConfig) : list string :=
  (if negb (truthy (rs_endpoint c)) then ["rest_endpoint 不能为空"]
   else if negb (startswith "/" (rs_endpoint c)) then [String.append "rest_endpoint 必须以 '/' 开头，当前值: " (rs_endpoint c)] else []) ++
  (if negb (str_in (py_upper (rs_method c)) VALID_HTTP_METHODS)
   then [(join "" ["rest_method 不合法: "; rs_method c; "，合法值: "; set_repr VALID_HTTP_METHODS])] else []) ++
  (if truthy (rs_erp_domain c) && negb (str_in (rs_erp_domain c) VALID_ERP_DOMAINS)
   then [(join "" ["erp_domain 未知: "; rs_erp_domain c; "，合法值: "; set_repr VALID_ERP_DOMAINS])] else []) ++
  (if negb (truthy (rs_description c)) then ["description 不能为空（Planner 依赖描述选择函数）"] else []) ++
  map (fun p => join "" ["required_params 中的 '"; p; "' 未在 parameters_schema 中定义"])
    (List.filter (fun p => negb (str_in p (map fst (rs_parameters_schema c)))) (rs_required_params c)) ++
  match rs_pre_query c with
  | None => []
  | Some pre =>
    (match rs_enhanced_mapper c with None => ["配置了 pre_query 但未提供 enhanced_payload_mapper"] | Some _ => [] end) ++
    (if missing_key pre "sql" then ["pre_query.sql 不能为空"] else []) ++
    (if missing_key pre "db_id" then ["pre_query.db_id 不能为空"] else []) ++
    (if missing_key pre "output_fields" then ["pre_query.output_fields 不能为空"] else [])
  end.

Definition validate_config (m : list (string * RestSkillConfig)) : bool * list string :=
  let errors := concat (map (fun kv => map (fun e => join "" ["["; kv.1; "] "; e]) (validate_single_config kv.2)) m) in
  ((py_len errors =? 0)%Z, errors).

Definition register_function (name : string) (c : RestSkillConfig) (m : list (string * RestSkillConfig))
    : list (string * RestSkillConfig) * (bool * string) :=
  let errs := validate_single_config c in
  if truthy errs then (m, (false, String.append "配置校验失败: " (join "; " errs)))
  else (dset name c m, (true, join "" ["函数 '"; name; match dlookup name m with Some _ => "' 已更新" | None => "' 已注册" end])).

Definition unregister_function (name : string) (m : list (string * RestSkillConfig)) : list (string * RestSkillConfig) * (bool * string) :=
  match dlookup name m with
  | None => (m, (false, join "" ["函数 '"; name; "' 不存在"]))
  | Some _ => (List.filter (fun kv => negb (String.eqb kv.1 name)) m, (true, join "" ["函数 '"; name; "' 已移除"]))
  end.
End registration.

Definition function_declaration (kv : string * RestSkillConfig) : pyval :=
  VDict [("name", VStr kv.1); ("description", VStr (rs_description kv.2));
         ("parameters", VDict [("type", VStr "object"); ("properties", VDict (rs_parameters_schema kv.2));
                               ("required", VStrs (rs_required_params kv.2))])].

Definition get_function_declarations (m : list (string * RestSkillConfig)) : list pyval := map function_declaration m.

Definition list_functions (m : list (string * RestSkillConfig)) : list pyval :=
  map (fun kv : string * RestSkillConfig =>
    VDict [("name", VStr kv.1); ("endpoint", VStr (rs_endpoint kv.2)); ("method", VStr (rs_method kv.2)); ("erp_domain", VStr (rs_erp_domain kv.2));
           ("description", VStr (rs_description kv.2)); ("required_params", VStrs (rs_required_params kv.2))]) m.

(** ** The call *)

Definition input_defaults : pydict :=
  [("query", VStr ""); ("query_simplified", VStr ""); ("query_lang", VStr "zh_CN"); ("tenant_id", VStr ""); ("llm_id", VStr "");
   ("mcp_server_name", VStr "erp_mcp_server"); ("function", VStr ""); ("function_params", VDict []); ("rest_endpoint", VStr "");
   ("rest_method", VStr "GET"); ("rest_payload", VNone); ("rest_headers", VNone); ("timeout_ms", VInt 30000); ("max_retries", VInt 2);
   ("erp_domain", VStr ""); ("extra", VDict [])].

Definition set_missing (d : pydict) (kv : string * pyval) : pydict :=
  match dlookup kv.1 d with None | Some VNone => dset kv.1 kv.2 d | Some _ => d end.

Definition validate_input (input_data : pydict) : pydict := fold_left set_missing input_defaults input_data.

Definition at_key (d : pydict) (key : string) : pyval := get_or (dlookup key d) VNone.

Definition empty_result (error error_code : string) (i : pydict) : pydict :=
  [("success", VBool false); ("error", VStr error); ("error_code", VStr error_code); ("rest_status_code", VInt 0); ("rest_response", VDict []);
   ("rest_response_text", VStr ""); ("rest_latency_ms", VInt 0); ("docs", VList []); ("quality_score", VFloat 0); ("result_count", VInt 0);
   ("rest_endpoint", get_or (dlookup "rest_endpoint" i) (VStr "")); ("rest_method", get_or (dlookup "rest_method" i) (VStr "GET"));
   ("erp_domain", get_or (dlookup "erp_domain" i) (VStr ""));
   ("mcp_server_name", get_or (dlookup "mcp_server_name" i) (VStr "erp_mcp_server")); ("rest_query_signature", VStr "");
   ("rest_evidence_signature", VStr ""); ("circuit_breaker_open", VBool false); ("fallback_used", VBool false); ("pre_query_used", VBool false);
   ("pre_query_latency_ms", VInt 0)].

Section call.
Variable float_repr : Q -> string.
Variable json_dumps : pyval -> string.
(** The hash of the signatures, for the text of a value with sorted keys. *)
Variable digest : pyval -> string.

(** *** The query that comes first *)

(** The tools of a database server for a tenant, and the server. *)
Variable db_tools : pyval -> pyval -> result (list (string * pyval)).
Variable db_call : string -> pydict -> result McpReply.

Definition sql_params (mapping : pydict) (function_params : pyval) : result pydict :=
  fold_left (fun acc kv =>
    let! d := acc in
    let! key := as_str kv.2 in
    let! value := vget function_params key VNone in
    Ok (match value with VNone => d | _ => dset kv.1 value d end)) mapping (Ok []).

Definition substituted (sql : string) (params : pydict) : string :=
  fold_left (fun sql kv => str_replace (String.append ":" kv.1) (py_repr_val float_repr kv.2) sql) params sql.

(** The runtime of the database, the statement sent to it, and the fields of
    the first row.  The configuration file of the databases, which this query
    does not read, is left out. *)
Definition execute_pre_query (db : DbRuntime) (pre : pydict) (function_params tenant_id : pyval)
    : DbRuntime * list (string * string) * result (option pydict) :=
  match (let! mapping := as_dict (get_or (dlookup "params_mapping" pre) (VDict [])) in sql_params mapping function_params) with
  | Raise e => (db, [], Raise e)
  | Ok params =>
    match as_str (get_or (dlookup "db_id" pre) (VStr "")) with
    | Raise e => (db, [], Raise e)
    | Ok db_id =>
      if negb (truthy db_id) then (db, [], Raise (OtherError "pre_query.db_id 不能为空"))
      else
        match db_tools tenant_id (get_or (dlookup "mcp_server_name" pre) (VStr "database_mcp_server")) with
        | Raise e => (db, [], Raise e)
        | Ok tools =>
          let db := SqlToolset.init_session db tools in
          match (let! sql := vindex (VDict pre) "sql" in as_str sql) with
          | Raise e => (db, [], Raise e)
          | Ok sql =>
            let sql := substituted sql params in
            (db, if has_tool db (String.append "query_" db_id) then [(db_id, sql)] else [],
             let! rows := execute_sql db_call db db_id sql in
             match rows with
             | [] => Ok (if truthy (get_or (dlookup "allow_empty" pre) (VBool false)) then Some [] else None)
             | row :: _ =>
               let! fields := as_list as_str (get_or (dlookup "output_fields" pre) (VList [])) in
               let! values := rmap (fun f => let! v := vget row f VNone in Ok (f, v)) fields in
               Ok (Some values)
             end)
          end
        end
    end
  end.

(** *** The response *)

Definition doc_of (id title : string) (item : pydict) : pyval :=
  VDict [("id", get_or (dlookup "id" item) (VStr id)); ("title", get_or (dlookup "title" item) (get_or (dlookup "name" item) (VStr title)));
         ("content", get_or (dlookup "content" item) (VStr (json_dumps (VDict item)))); ("structured_data", VDict item);
         ("score", VFloat (rnd (9 # 10)))].

Fixpoint docs_from (i : Z) (l : list pyval) : list pyval :=
  match l with
  | [] => []
  | VDict item :: l' => doc_of (pretty i) (String.append "Result " (pretty (i + 1)%Z)) item :: docs_from (i + 1) l'
  | _ :: l' => docs_from (i + 1) l'
  end.

Definition parse_response_to_docs (response : pydict) : list pyval :=
  let data := get_or (dlookup "data" response) (VDict []) in
  if negb (truthy data) then []
  else match data with
       | VList l => docs_from 0 l
       | VDict d => [doc_of "1" "ERP Query Result" d]
       | _ => []
       end.

Definition structured_fields (doc : pyval) : Z :=
  match doc with VDict d => match dlookup "structured_data" d with Some (VDict sd) => py_len sd | _ => 0%Z end | _ => 0%Z end.

Definition sum_Z (l : list Z) : Z := fold_right Z.add 0%Z l.

(** [_evaluate_quality]: comparing a status that is no number raises. *)
Definition evaluate_quality (docs : list pyval) (response : pydict) : result Q :=
  match as_number (get_or (dlookup "status_code" response) (VInt 0)) with
  | None => Raise (TypeError "'>=' not supported")
  | Some status =>
    Ok (if fge status 400 then 0%Q
        else match docs with
             | [] => rnd (1 # 10)
             | _ =>
               let bonus := fmin (fmul (fint (sum_Z (map structured_fields docs))) (rnd (2 # 100))) (rnd (15 # 100)) in
               fmin (fadd (rnd (8 # 10)) bonus) (rnd (95 # 100))
             end)
  end.

Definition query_signature (i : pydict) : string :=
  digest (VDict [("endpoint", get_or (dlookup "rest_endpoint" i) (VStr "")); ("method", get_or (dlookup "rest_method" i) (VStr "GET"));
                 ("payload", at_key i "rest_payload"); ("function", get_or (dlookup "function" i) (VStr ""));
                 ("function_params", get_or (dlookup "function_params" i) (VDict []))]).

Definition evidence_signature (response : pydict) : string := digest (get_or (dlookup "data" response) (VDict [])).

(** *** [invoke] *)

(** What a call will send, and how it was found. *)
Record Target : Type := mkTarget {
  tg_endpoint : pyval; tg_method : pyval; tg_payload : pyval; tg_domain : pyval; tg_pre_query_used : bool }.

Definition mapped (c : RestSkillConfig) (pre_used : bool) (text : string) (i : pydict) (payload : result pyval) : pydict + Target :=
  match payload with
  | Ok p => inr (mkTarget (VStr (rs_endpoint c)) (VStr (rs_method c)) p (VStr (rs_erp_domain c)) pre_used)
  | Raise e => inl (empty_result (String.append text (exc_text e)) "PAYLOAD_MAPPER_ERROR" i)
  end.

(** The function branch: the database, the statements sent to it, and a failure or a target. *)
Definition resolve_function (db : DbRuntime) (c : RestSkillConfig) (name : string) (i : pydict)
    : DbRuntime * list (string * string) * (pydict + Target) :=
  let function_params := at_key i "function_params" in
  match rs_pre_query c, rs_enhanced_mapper c with
  | Some pre, Some mapper =>
    let '(db, sqls, row) := execute_pre_query db pre function_params (at_key i "tenant_id") in
    (db, sqls,
     match row with
     | Raise e => inl (empty_result (String.append "Pre-query failed: " (exc_text e)) "PRE_QUERY_FAILED" i)
     | Ok None => inl (empty_result (String.append "No matching record found in pre-query for function: " name) "PRE_QUERY_EMPTY" i)
     | Ok (Some row) => mapped c true "Enhanced payload mapper failed: " i (mapper row function_params)
     end)
  | _, _ => (db, [], mapped c false "Function params mapping failed: " i (rs_payload_mapper c function_params))
  end.

Definition resolve (m : list (string * RestSkillConfig)) (db : DbRuntime) (i : pydict)
    : DbRuntime * list (string * string) * result (pydict + Target) :=
  let name := at_key i "function" in
  if truthy name then
    match get_key name m with
    | Raise e => (db, [], Raise e)
    | Ok None => (db, [], Ok (inl (empty_result (String.append "Unknown function: " (py_str float_repr name)) "UNKNOWN_FUNCTION" i)))
    | Ok (Some c) => let '(db, sqls, t) := resolve_function db c (py_str float_repr name) i in (db, sqls, Ok t)
    end
  else (db, [], Ok (inr (mkTarget (at_key i "rest_endpoint") (at_key i "rest_method") (at_key i "rest_payload") (at_key i "erp_domain") false))).

(** The clock of a call. *)
Record Clock : Type := mkClock { ck_checked : Q; ck_failed : Q; ck_latency_ms : Z -> Z; ck_pre_query_ms : Z }.

Definition request_of (t : Target) (i : pydict) (k : Clock) : result RestRequest :=
  let! tenant_id := as_str (at_key i "tenant_id") in
  let! server := as_str (at_key i "mcp_server_name") in
  let! timeout_ms := as_int (at_key i "timeout_ms") in
  let! max_retries := as_int (at_key i "max_retries") in
  Ok (mkRequest (tg_endpoint t) (tg_method t) (tg_payload t) (at_key i "rest_headers") tenant_id server timeout_ms max_retries
        (ck_checked k) (ck_failed k) (ck_latency_ms k)).

Definition success_result (t : Target) (i response : pydict) (docs : list pyval) (quality : Q) (k : Clock) : pydict :=
  let g key d := get_or (dlookup key response) d in
  [("success", VBool true); ("rest_status_code", g "status_code" (VInt 200)); ("rest_response", g "data" (VDict []));
   ("rest_response_text", g "text" (VStr "")); ("rest_latency_ms", g "latency_ms" (VInt 0)); ("docs", VList docs); ("quality_score", VFloat quality);
   ("result_count", VInt (py_len docs)); ("rest_endpoint", tg_endpoint t); ("rest_method", tg_method t); ("erp_domain", tg_domain t);
   ("mcp_server_name", at_key i "mcp_server_name"); ("rest_query_signature", VStr (query_signature i));
   ("rest_evidence_signature", VStr (evidence_signature response)); ("circuit_breaker_open", VBool false); ("fallback_used", VBool false);
   ("pre_query_used", VBool (tg_pre_query_used t));
   ("pre_query_latency_ms", VInt (if tg_pre_query_used t then ck_pre_query_ms k else 0))].

Variable Session : Type.
(** [RestRuntime.execute] on the runtime of the process, as it is when the
    request is made. *)
Variable execute : RestRuntime Session -> RestRequest -> Outcome Session.

(** What a call leaves: the runtimes, the statements of the query that came
    first, the request it handed to the runtime, the calls over a session, and
    the reply. *)
Record Invoked : Type := mkInvoked {
  iv_rest : RestRuntime Session; iv_db : DbRuntime; iv_sqls : list (string * string); iv_request : option RestRequest;
  iv_calls : list (Session * pydict); iv_reply : result pydict }.

Definition invoke (m : list (string * RestSkillConfig)) (rt : RestRuntime Session) (db : DbRuntime) (k : Clock) (input_data : pydict) : Invoked :=
  let i := validate_input input_data in
  let '(db, sqls, target) := resolve m db i in
  let unsent reply := mkInvoked rt db sqls None [] reply in
  match target with
  | Raise e => unsent (Raise e)
  | Ok (inl failure) => unsent (Ok failure)
  | Ok (inr t) =>
    if negb (truthy (tg_endpoint t)) then unsent (Ok (empty_result "No REST endpoint specified" "MISSING_ENDPOINT" i))
    else
      match request_of t i k with
      | Raise e => unsent (Ok (empty_result (exc_text e) "MCP_CALL_FAILED" i))
      | Ok q =>
        let o := execute rt q in
        mkInvoked (oc_runtime _ o) db sqls (Some q) (oc_calls _ o)
          match oc_response _ o with
          | Raise e => Ok (empty_result (exc_text e) "MCP_CALL_FAILED" i)
          | Ok response =>
            let docs := parse_response_to_docs response in
            let! quality := evaluate_quality docs response in
            Ok (success_result t i response docs quality k)
          end
      end
  end.
End call.

(** ** Registration *)

Inductive registry_op : Type := Register (name : string) (c : RestSkillConfig) | Unregister (name : string).

Definition apply_op (set_repr : list string -> string) (m : list (string * RestSkillConfig)) (op : registry_op) : list (string * RestSkillConfig) :=
  match op with
  | Register name c => (register_function set_repr name c m).1
  | Unregister name => (unregister_function name m).1
  end.

Lemma apply_op_valid set_repr m op : Forall (fun kv => validate_single_config set_repr kv.2 = []) m ->
  Forall (fun kv => validate_single_config set_repr kv.2 = []) (apply_op set_repr m op).
Proof.
  intros H. destruct op as [name c|name]; cbn [apply_op].
  - unfold register_function. destruct (truthy (validate_single_config set_repr c)) eqn:E; [done|]. cbn [fst].
    apply dset_Forall; [done|]. cbn [snd]. by destruct (validate_single_config set_repr c).
  - unfold unregister_function. destruct (dlookup name m); [|done]. cbn [fst]. apply Forall_forall. intros kv Hkv.
    apply list_elem_of_In, filter_In in Hkv as [Hkv _]. by apply (proj1 (Forall_forall _ _) H), list_elem_of_In.
Qed.

(** However functions are registered and removed at run time, the table of the
    tool passes its own check. *)
Theorem registry_stays_valid set_repr ops : validate_config set_repr (fold_left (apply_op set_repr) ops FUNCTION_SKILL_MAP) = (true, []).
Proof.
  assert (Forall (fun kv => validate_single_config set_repr kv.2 = []) (fold_left (apply_op set_repr) ops FUNCTION_SKILL_MAP)) as H.
  { assert (Forall (fun kv => validate_single_config set_repr kv.2 = []) FUNCTION_SKILL_MAP) as H0 by (repeat constructor).
    revert H0. generalize FUNCTION_SKILL_MAP. induction ops as [|op ops IH]; intros m Hm; [done|]. by apply IH, apply_op_valid. }
  unfold validate_config. replace (concat _) with (@nil string); [done|].
  induction H as [|kv m Hkv _ IH]; [done|]. cbn [map concat]. by rewrite Hkv, <- IH.
Qed.

(** ** Calls *)

Definition ERROR_CODES : list string :=
  ["UNKNOWN_FUNCTION"; "PRE_QUERY_FAILED"; "PRE_QUERY_EMPTY"; "PAYLOAD_MAPPER_ERROR"; "MISSING_ENDPOINT"; "MCP_CALL_FAILED"].

(** A reply without success. *)
Definition failed (d : pydict) : Prop :=
  exists error code i, d = empty_result error code i /\ code ∈ ERROR_CODES.

Lemma failed_by error code i : str_in code ERROR_CODES = true -> failed (empty_result error code i).
Proof. intros H. exists error, code, i. split; [done|]. by apply str_in_spec. Qed.

Definition quality_range (q : Q) : Prop := q = 0%Q \/ q = rnd (1 # 10) \/ (rnd (8 # 10) <= q <= rnd (95 # 100))%Q.

Lemma evaluate_quality_range docs response q : evaluate_quality docs response = Ok q -> quality_range q.
Proof.
  unfold evaluate_quality. destruct (as_number _) as [status|]; [|done]. intros [= <-].
  destruct (fge status 400); [by left|]. destruct docs as [|doc docs]; [by right; left|]. right; right.
  set (n := sum_Z _). assert (0 <= n)%Z as Hn.
  { subst n. generalize (doc :: docs). induction l as [|x l IH]; [done|]. cbn [map sum_Z fold_right]. fold (sum_Z (map structured_fields l)).
    assert (0 <= structured_fields x)%Z; [|lia]. unfold structured_fields. destruct x; try done. destruct (dlookup _ d) as [[]|]; try done. unfold py_len. lia. }
  set (bonus := fmin (fmul _ _) _). assert (0 <= bonus)%Q as Hb.
  { apply fmin_nonneg; [|by vm_compute]. apply fmul_nonneg; [|by vm_compute]. unfold fint. apply rnd_nonneg.
    change 0%Q with (inject_Z 0). by rewrite <- Zle_Qle. }
  split; [|apply fmin_le]. assert (rnd (8 # 10) <= fadd (rnd (8 # 10)) bonus)%Q by (apply fadd_ge_l; [apply is_float_rnd|done]).
  unfold fmin. destruct (flt _ _); [by vm_compute|done].
Qed.

Lemma as_str_inv v s : as_str v = Ok s -> v = VStr s.
Proof. destruct v; try done. by intros [= ->]. Qed.

Lemma as_int_inv v z : as_int v = Ok z -> v = VInt z.
Proof. destruct v; try done. by intros [= ->]. Qed.

(** *** The request of a named function *)

Section requests.
Context (float_repr : Q -> string) (json_dumps : pyval -> string) (digest : pyval -> string)
  (db_tools : pyval -> pyval -> result (list (string * pyval))) (db_call : string -> pydict -> result McpReply)
  (Session : Type) (execute : RestRuntime Session -> RestRequest -> Outcome Session).

Abbreviation resolve := (RestTool.resolve float_repr db_tools db_call).
Abbreviation invoke := (RestTool.invoke float_repr json_dumps digest db_tools db_call Session execute).

(** The payload of a function: what its mapper makes of the parameters, or, if
    it has a query that comes first, of the row that query found. *)
Definition payload_of (db : DbRuntime) (c : RestSkillConfig) (i : pydict) (payload : pyval) : Prop :=
  match rs_pre_query c, rs_enhanced_mapper c with
  | Some pre, Some mapper =>
    exists row, (execute_pre_query float_repr db_tools db_call db pre (at_key i "function_params") (at_key i "tenant_id")).2 = Ok (Some row) /\
      mapper row (at_key i "function_params") = Ok payload
  | _, _ => rs_payload_mapper c (at_key i "function_params") = Ok payload
  end.

(** What a target of the function [name] is. *)
Definition function_target (m : list (string * RestSkillConfig)) (db : DbRuntime) (i : pydict) (name : string) (t : Target) : Prop :=
  exists c, dlookup name m = Some c /\ tg_endpoint t = VStr (rs_endpoint c) /\ tg_method t = VStr (rs_method c) /\
    tg_domain t = VStr (rs_erp_domain c) /\ payload_of db c i (tg_payload t).

Lemma resolve_cases m db i t : (resolve m db i).2 = Ok t ->
  match t with
  | inl d => failed d
  | inr t => truthy (at_key i "function") = false \/ exists name, at_key i "function" = VStr name /\ function_target m db i name t
  end.
Proof.
  unfold RestTool.resolve. destruct (truthy (at_key i "function")) eqn:Ef; [|intros [= <-]; by left].
  destruct (get_key (at_key i "function") m) as [[c|]|e] eqn:Eg; [| |done].
  - unfold get_key in Eg. destruct (at_key i "function") as [| | | |name| |]; try done. injection Eg as Eg.
    destruct (resolve_function _ _ _ _ _ _) as [[db' sqls] r] eqn:Er. cbn [snd]. intros [= <-].
    assert (match r with inl d => failed d | inr t => function_target m db i name t end) as Hr; [|destruct r; [done|right; by exists name]].
    assert (forall pre text payload, (forall p, payload = Ok p -> payload_of db c i p) ->
      match mapped c pre text i payload with inl d => failed d | inr t => function_target m db i name t end) as Hm.
    { intros pre text [p|ex] Hp; cbn [mapped]; [|by apply failed_by]. exists c. split_and!; try done. by apply Hp. }
    revert Er. unfold resolve_function, payload_of in *. destruct (rs_pre_query c) as [pre|];
      [destruct (rs_enhanced_mapper c) as [mapper|]|]; [|intros [= <- <- <-]; by apply Hm..].
    destruct (execute_pre_query _ _ _ _ _ _ _) as [[db1 sqls1] [[row|]|ex]]; intros [= <- <- <-]; [|by apply failed_by..].
    apply Hm. intros p Hp. by exists row.
  - cbn [snd]. intros [= <-]. by apply failed_by.
Qed.

(** A request that is made, and its target. *)
Lemma invoke_request m rt db k input q : iv_request _ (invoke m rt db k input) = Some q ->
  exists t, (resolve m db (validate_input input)).2 = Ok (inr t) /\ request_of t (validate_input input) k = Ok q.
Proof.
  unfold RestTool.invoke. destruct (resolve m db _) as [[db' sqls] target]. cbn [snd].
  destruct target as [[d|t]|e]; try done. destruct (truthy (tg_endpoint t)); try done. cbn [negb].
  destruct (request_of t _ k) as [q'|e] eqn:Eq; try done. intros [= <-]. by exists t.
Qed.

#[local] Opaque validate_input.

(** A reply with success is that of a request, and names its target. *)
Lemma invoke_success m rt db k input d : iv_reply _ (invoke m rt db k input) = Ok d -> dlookup "success" d = Some (VBool true) ->
  exists t q, (resolve m db (validate_input input)).2 = Ok (inr t) /\ iv_request _ (invoke m rt db k input) = Some q /\
    dlookup "rest_endpoint" d = Some (tg_endpoint t) /\ dlookup "rest_method" d = Some (tg_method t) /\ dlookup "erp_domain" d = Some (tg_domain t).
Proof.
  unfold RestTool.invoke. destruct (resolve m db _) as [[db' sqls] target] eqn:Er. cbn [snd].
  destruct target as [[f|t]|e]; cbn [iv_reply]; [|..|done].
  - intros [= <-]. assert (failed f) as (? & ? & ? & -> & _); [|done].
    by apply (resolve_cases m db (validate_input input) (inl f)); rewrite Er.
  - destruct (truthy (tg_endpoint t)); cbn [negb iv_reply]; [|by intros [= <-]].
    destruct (request_of t _ k) as [q|e]; cbn [iv_reply]; [|by intros [= <-]].
    destruct (oc_response _ _) as [response|e]; [|by intros [= <-]]. intros (quality & _ & [= <-])%rbind_ok _. by exists t, q.
Qed.

(** [C36] A call of a function by its name hands the runtime a request for the
    endpoint and the method that are registered under that name, with the
    payload its mapper makes of the parameters (and of the row its preliminary
    query found), the headers the caller gave, the caller's tenant and server,
    and nothing of the endpoint, the method, the payload or the domain the
    caller wrote; an unknown name makes no request; and a reply with success
    reports the registered endpoint, method and domain. *)
Theorem function_call_confined m rt db k input name
  (Hf : at_key (validate_input input) "function" = VStr name) (Hn : name <> "") :
  let i := validate_input input in let iv := invoke m rt db k input in
  (forall q, iv_request _ iv = Some q -> exists c, dlookup name m = Some c /\
     rq_endpoint q = VStr (rs_endpoint c) /\ rq_method q = VStr (rs_method c) /\ payload_of db c i (rq_payload q) /\
     rq_headers q = at_key i "rest_headers" /\ at_key i "tenant_id" = VStr (rq_tenant q) /\ at_key i "mcp_server_name" = VStr (rq_server q) /\
     at_key i "timeout_ms" = VInt (rq_timeout_ms q) /\ at_key i "max_retries" = VInt (rq_max_retries q)) /\
  (forall d, iv_reply _ iv = Ok d -> dlookup "success" d = Some (VBool true) -> iv_request _ iv <> None /\ exists c, dlookup name m = Some c /\
     dlookup "rest_endpoint" d = Some (VStr (rs_endpoint c)) /\ dlookup "rest_method" d = Some (VStr (rs_method c)) /\
     dlookup "erp_domain" d = Some (VStr (rs_erp_domain c))).
Proof.
  assert (forall t, (resolve m db (validate_input input)).2 = Ok (inr t) -> function_target m db (validate_input input) name t) as Ht.
  { intros t [Ht|(name' & Hname & Ht)]%resolve_cases; rewrite Hf in *; [cbn in Ht; by destruct (String.eqb_spec name "")|]. by injection Hname as <-. }
  cbn zeta. split.
  - intros q (t & (c & Hc & He & Hm & _ & Hp)%Ht & Hq)%invoke_request. exists c. unfold request_of in Hq. inv_ok Hq. injection Hq as <-.
    repeat match goal with
           | H : as_str (at_key _ _) = Ok _ |- _ => apply as_str_inv in H
           | H : as_int (at_key _ _) = Ok _ |- _ => apply as_int_inv in H
           end.
    by split_and!.
  - intros d Hd Hs. destruct (invoke_success _ _ _ _ _ _ Hd Hs) as (t & q & (c & Hc & He & Hm & Hdom & _)%Ht & -> & E1 & E2 & E3).
    split; [done|]. exists c.
    rewrite E1, E2, E3, He, Hm, Hdom. by split_and!.
Qed.
End requests.

(** ** Calls over the runtime *)

Section calls.
Context (Server Session : Type) (get_by_name_and_tenant : string -> string -> option Server)
  (new_session : Server -> string -> string -> result Session) (call_tool : Session -> Z -> pydict -> mcp_reply)
  (json_dumps : pyval -> string) (json_loads : string -> option pyval) (float_repr : Q -> string) (digest : pyval -> string)
  (db_tools : pyval -> pyval -> result (list (string * pyval))) (db_call : string -> pydict -> result McpReply)
  (other : nat -> RestRuntime Session -> RestRuntime Session).

Notation execute := (execute_among Server Session get_by_name_and_tenant new_session json_dumps json_loads float_repr call_tool other).
Notation invoke := (RestTool.invoke float_repr json_dumps digest db_tools db_call Session execute).
Notation resolve := (RestTool.resolve float_repr db_tools db_call).
Notation runtime_ok := (RestRuntime.runtime_ok Server Session get_by_name_and_tenant new_session).
Context (Hother : forall n rt, runtime_ok rt -> runtime_ok (other n rt)).

#[local] Opaque evaluate_quality execute_among success_result empty_result parse_response_to_docs validate_input.

(** What a call does: it fails with a code, or it raises, or a request was
    answered and is scored. *)
Lemma invoke_cases m rt db k input : runtime_ok rt ->
  let i := validate_input input in let iv := invoke m rt db k input in
  (iv_calls _ iv = [] /\ iv_rest _ iv = rt /\ ((exists e, iv_reply _ iv = Raise e /\ hashable (at_key i "function") = false) \/ exists d, iv_reply _ iv = Ok d /\ failed d)) \/
  exists t q, (resolve m db i).2 = Ok (inr t) /\ request_of t i k = Ok q /\ iv_calls _ iv = oc_calls _ (execute rt q) /\ iv_rest _ iv = oc_runtime _ (execute rt q) /\
    match oc_response _ (execute rt q) with
    | Raise e => exists d, iv_reply _ iv = Ok d /\ failed d
    | Ok response => iv_reply _ iv = (let docs := parse_response_to_docs json_dumps response in
                       let! quality := evaluate_quality docs response in Ok (success_result digest t i response docs quality k))
    end.
Proof.
  intros Hok i iv. subst iv. unfold RestTool.invoke. fold i. destruct (resolve m db i) as [[db' sqls] target] eqn:Er.
  assert ((resolve m db i).2 = target) as Et by by rewrite Er. cbn zeta. destruct target as [[d|t]|e].
  - left. split_and!; try done. right. exists d. split; [done|]. exact (resolve_cases _ _ _ _ _ _ _ Et).
  - destruct (truthy (tg_endpoint t)); cbn [negb].
    2: { left. split_and!; try done. right. eexists. split; [done|by apply failed_by]. }
    destruct (request_of t i k) as [q|e] eqn:Eq.
    2: { left. split_and!; try done. right. eexists. split; [done|by apply failed_by]. }
    right. exists t, q. split_and!; try done. cbn [iv_reply]. destruct (oc_response _ _) as [response|e]; [done|]. eexists. split; [done|by apply failed_by].
  - left. split_and!; try done. left. exists e. split; [done|]. revert Et. unfold RestTool.resolve. destruct (truthy _); [|done].
    destruct (get_key _ m) as [[c|]|e'] eqn:Eg; [by destruct (resolve_function _ _ _ _ _ _) as [[? ?] ?]|done|].
    intros _. unfold get_key in Eg. destruct (at_key i "function"); try done.
Qed.

#[local] Transparent evaluate_quality execute_among success_result empty_result parse_response_to_docs validate_input.

(** A reply is a failure with one of six codes, no documents and quality 0, or
    the documents of an answered request with a quality in the documented
    ranges; only a status that is no number makes a call raise. *)
Theorem rest_reply_sound m rt db k input (Hok : runtime_ok rt) (Hf : hashable (at_key (validate_input input) "function") = true) :
  let iv := invoke m rt db k input in
  match iv_reply _ iv with
  | Ok d =>
    failed d /\ dlookup "success" d = Some (VBool false) /\ dlookup "docs" d = Some (VList []) /\ dlookup "quality_score" d = Some (VFloat 0) \/
    dlookup "success" d = Some (VBool true) /\ iv_calls _ iv <> [] /\ exists docs q, dlookup "docs" d = Some (VList docs) /\
      dlookup "result_count" d = Some (VInt (py_len docs)) /\ dlookup "quality_score" d = Some (VFloat q) /\ quality_range q
  | Raise _ => exists q response, oc_response _ (execute rt q) = Ok response /\ as_number (get_or (dlookup "status_code" response) (VInt 0)) = None
  end.
Proof.
  cbv zeta. assert (forall d, failed d -> failed d /\ dlookup "success" d = Some (VBool false) /\ dlookup "docs" d = Some (VList []) /\
    dlookup "quality_score" d = Some (VFloat 0)) as Hfail by (intros d (e & c & i & -> & Hc); split; [by eexists _, _, _|done]).
  destruct (invoke_cases m rt db k input Hok) as [(_ & _ & [(e & -> & He)|(d & -> & Hd)])|(t & q & _ & _ & Hcalls & _ & Hreply)].
  - by rewrite Hf in He.
  - left. by apply Hfail.
  - pose proof (execute_among_served _ _ _ _ json_dumps json_loads float_repr call_tool other rt q Hother Hok) as [_ _ _ _ Hans].
    destruct (oc_response _ (execute rt q)) as [response|e] eqn:Eo.
    + rewrite Hreply. cbn zeta. destruct (evaluate_quality _ response) as [quality|e] eqn:Eq; cbn [rbind].
      * right. split; [done|]. rewrite Hcalls. split; [by apply (Hans response)|]. eexists _, quality. split_and!; try done.
        by eapply evaluate_quality_range.
      * exists q, response. split; [done|]. unfold evaluate_quality in Eq. by destruct (as_number _).
    + destruct Hreply as (d & -> & Hd). left. by apply Hfail.
Qed.
End calls.

(** ** The tool with the repository's servers *)

Section deployed.
Context (table : list McpServer) (Session : Type) (call_tool : Session -> Z -> pydict -> mcp_reply)
  (json_dumps : pyval -> string) (json_loads : string -> option pyval) (float_repr : Q -> string) (digest : pyval -> string)
  (db_tools : pyval -> pyval -> result (list (string * pyval))) (db_call : string -> pydict -> result McpReply)
  (other : nat -> RestRuntime Session -> RestRuntime Session).

Definition deployed_invoke : list (string * RestSkillConfig) -> RestRuntime Session -> DbRuntime -> Clock -> pydict -> Invoked Session :=
  invoke float_repr json_dumps digest db_tools db_call Session
    (execute_among (list McpServer) Session (by_name_and_tenant table) (session_of_rows Session) json_dumps json_loads float_repr call_tool other).

(** The calls of the tool that a process makes one after the other, with other
    uses of the runtime between and during them. *)
Fixpoint run_calls (m : list (string * RestSkillConfig)) (rt : RestRuntime Session) (db : DbRuntime) (l : list (Clock * pydict)) : list (Invoked Session) :=
  match l with
  | [] => []
  | (k, input) :: l' => let iv := deployed_invoke m rt db k input in iv :: run_calls m (other 0 (iv_rest _ iv)) (iv_db _ iv) l'
  end.

Notation runtime_ok := (RestRuntime.runtime_ok (list McpServer) Session (by_name_and_tenant table) (session_of_rows Session)).
Context (Hother : forall n rt, runtime_ok rt -> runtime_ok (other n rt)).

Lemma deployed_invoke_fails m rt db k input : runtime_ok rt ->
  let iv := deployed_invoke m rt db k input in
  runtime_ok (iv_rest _ iv) /\ iv_calls _ iv = [] /\ ((exists e, iv_reply _ iv = Raise e) \/ exists d, iv_reply _ iv = Ok d /\ failed d).
Proof.
  intros Hok iv. subst iv. unfold deployed_invoke.
  destruct (invoke_cases _ _ (by_name_and_tenant table) (session_of_rows Session) call_tool json_dumps json_loads float_repr digest db_tools db_call
              other m rt db k input Hok) as [(Hc & -> & Hr)|(t & q & _ & _ & -> & -> & Hreply)].
  - split_and!; try done. destruct Hr as [(e & He & _)|Hd]; [left; by exists e|by right].
  - pose proof (execute_among_served _ _ _ _ json_dumps json_loads float_repr call_tool other rt q Hother Hok) as [Hrt Hcalls _ _ Hans].
    assert (oc_calls _ (execute_among (list McpServer) Session (by_name_and_tenant table) (session_of_rows Session) json_dumps json_loads float_repr call_tool other rt q) = []) as E.
    { destruct (oc_calls _ _) as [|c l]; [done|]. inversion Hcalls as [|? ? (_ & ? & ? & srv & _ & Hs) _]; subst. done. }
    rewrite E. split_and!; try done. destruct (oc_response _ _) as [response|e]; [by destruct (Hans response)|]. by right.
Qed.

Lemma run_calls_fail m l : forall rt db, runtime_ok rt ->
  Forall (fun iv => iv_calls _ iv = [] /\ ((exists e, iv_reply _ iv = Raise e) \/ exists d, iv_reply _ iv = Ok d /\ failed d)) (run_calls m rt db l).
Proof.
  induction l as [|[k input] l IH]; intros rt db Hok; cbn [run_calls]; [constructor|].
  destruct (deployed_invoke_fails m rt db k input Hok) as (Hrt & Hc & Hr). constructor; [done|by apply IH, Hother].
Qed.

(** With the servers of the repository every REST node of every run of a
    process writes a reply without documents, of status 0 and quality 0,
    whatever rows the table of servers has and whatever was asked. *)
Theorem deployed_rest_node_empty m db l iv ms st u (Hiv : iv ∈ run_calls m (new_RestRuntime Session) db l)
  (Hu : rest_tool_node (fun _ => let! d := iv_reply _ iv in Ok (VDict d)) ms st = Ok u) :
  dlookup "rest_quality_score" u = Some (VFloat 0) /\
  exists r, dlookup "rest_result" u = Some (VDict r) /\ dlookup "docs" r = Some (VList []) /\ dlookup "status_code" r = Some (VInt 0) /\ iv_calls _ iv = [].
Proof.
  pose proof (proj1 (Forall_forall _ _) (run_calls_fail m l (new_RestRuntime Session) db (new_runtime_ok _ _ _ _)) iv Hiv) as [Hc Hr].
  cbv beta in Hr. unfold rest_tool_node in Hu. apply rbind_ok in Hu as (params & _ & Hu).
  destruct Hr as [(e & He)|(d & Hd & (error & code & i & -> & _))]; [by rewrite He in Hu|]. rewrite Hd in Hu.
  cbn [rbind] in Hu. unfold empty_result in Hu. cbn [vget rbind dlookup get_or String.eqb Ascii.eqb Bool.eqb] in Hu.
  apply rbind_ok in Hu as (iteration & _ & Hu). injection Hu as <-. split; [done|]. eexists. by split_and!.
Qed.
End deployed.

(** ** Examples *)

Definition example_clock : Clock := mkClock 1 2 (fun _ => 12%Z) 4.

Definition example_invoke (input : pydict) : Invoked string :=
  invoke (fun _ => "") (fun _ => "{}") (fun _ => "0f") (fun _ _ => Ok [("query_boss_ai_data", VNone)])
    (fun _ _ => Ok (mkMcpReply "" (Some (VList [VDict [("employee_id", VInt 7)]])))) string
    (execute_among unit string (fun _ _ => Some tt) (fun _ tenant_id _ => Ok tenant_id) (fun _ => "{}") (fun _ => None) (fun _ => "")
       (fun _ _ _ => McpValue (VDict [("data", VList [VDict [("days", VInt 5); ("year", VInt 2024)]])])) (fun _ rt => rt))
    FUNCTION_SKILL_MAP (new_RestRuntime string) (mkDbRuntime [] []) example_clock input.

Definition orders_of (name : pyval) : pydict :=
  [("tenant_id", VStr "acme"); ("function", VStr "query_my_purchase_orders"); ("function_params", VDict [("employee_name", name)])].

Definition no_servers : list McpServer := [].

(** Over the servers of the repository: the request of a caller who wrote an
    endpoint of his own. *)
Lemma function_call_confined_witness :
  let iv := deployed_invoke no_servers unit (fun _ _ _ => McpTimeout) (fun _ => "") (fun _ => None) (fun _ => "") (fun _ => "")
    (fun _ _ => Ok [("query_boss_ai_data", VNone)]) (fun _ _ => Ok (mkMcpReply "" (Some (VList [VDict [("employee_id", VInt 7)]])))) (fun _ rt => rt)
    FUNCTION_SKILL_MAP (new_RestRuntime unit) (mkDbRuntime [] []) example_clock
    (orders_of (VStr "Li") ++ [("rest_endpoint", VStr "/api/financial/payments"); ("rest_method", VStr "DELETE")]) in
  exists q, iv_request _ iv = Some q /\ rq_endpoint q = VStr "/api/supply_chain/orders/by-employee" /\ rq_method q = VStr "GET".
Proof.
  cbn zeta. match goal with |- context [iv_request _ ?iv] => destruct (iv_request _ iv) as [q|] eqn:E; [|vm_compute in E; discriminate E] end.
  exists q. split; [reflexivity|].
  destruct (proj1 (function_call_confined _ _ _ _ _ unit _ FUNCTION_SKILL_MAP _ _ _
    (orders_of (VStr "Li") ++ [("rest_endpoint", VStr "/api/financial/payments"); ("rest_method", VStr "DELETE")])
    "query_my_purchase_orders" eq_refl ltac:(discriminate)) q E) as (c & Hc & He & Hm & _). vm_compute in Hc. injection Hc as <-. exact (conj He Hm).
Defined.

Lemma rest_reply_sound_witness :
  option_map snd (match iv_reply _ (example_invoke (orders_of (VStr "Li"))) with Ok d => List.find (fun kv => String.eqb kv.1 "quality_score") d | Raise _ => None end) =
    Some (VFloat (fadd (rnd (8 # 10)) (fmul (fint 2) (rnd (2 # 100))))) /\
  match iv_reply _ (example_invoke (orders_of (VStr "Li"))) with
  | Ok d => dlookup "success" d = Some (VBool false) \/ exists q, dlookup "quality_score" d = Some (VFloat q) /\ quality_range q
  | Raise _ => False
  end.
Proof.
  split; [vm_compute; reflexivity|].
  pose proof (rest_reply_sound unit string (fun _ _ => Some tt) (fun _ tenant_id _ => Ok tenant_id)
    (fun _ _ _ => McpValue (VDict [("data", VList [VDict [("days", VInt 5); ("year", VInt 2024)]])])) (fun _ => "{}") (fun _ => None) (fun _ => "")
    (fun _ => "0f") (fun _ _ => Ok [("query_boss_ai_data", VNone)]) (fun _ _ => Ok (mkMcpReply "" (Some (VList [VDict [("employee_id", VInt 7)]]))))
    (fun _ rt => rt) ltac:(done) FUNCTION_SKILL_MAP (new_RestRuntime string) (mkDbRuntime [] []) example_clock (orders_of (VStr "Li")) (new_runtime_ok _ _ _ _) eq_refl) as H.
  unfold example_invoke. cbv zeta in H. destruct (iv_reply _ _) as [d|e] eqn:E.
  - destruct H as [(_ & H & _)|(_ & _ & docs & q & _ & _ & Hq & Hr)]; [left; exact H|]. right. exists q. exact (conj Hq Hr).
  - exfalso. vm_compute in E. discriminate E.
Defined.

Definition example_state : pystate := {["route_decision" := VDict [("metadata", VDict [("function", VStr "query_attendance"); ("function_params", VDict [])])]]}.

Lemma deployed_rest_node_empty_witness :
  exists u, rest_tool_node (fun _ => Ok (VDict (empty_result "Failed to init MCP session: 'list' object has no attribute 'url'" "MCP_CALL_FAILED"
              (validate_input [("rest_endpoint", VStr "/api/hr/attendance")])))) 3 example_state = Ok u /\
    dlookup "rest_quality_score" u = Some (VFloat 0).
Proof.
  eexists. split; [vm_compute; reflexivity|].
  refine (proj1 (deployed_rest_node_empty [mkMcpServer "erp_mcp_server" "" "http://erp"] unit (fun _ _ _ => McpTimeout) (fun _ => "") (fun _ => None) (fun _ => "")
    (fun _ => "") (fun _ _ => Ok []) (fun _ _ => Raise (OtherError "")) (fun _ rt => rt) ltac:(done) FUNCTION_SKILL_MAP (mkDbRuntime [] [])
    [(example_clock, [("rest_endpoint", VStr "/api/hr/attendance")])] _ 3 example_state _ _ _)).
  - cbn [run_calls]. by left.
  - vm_compute. reflexivity.
Defined.

(** A name is written into the statement as a Python literal: an apostrophe
    gives a text in double quotes, which SQL reads as a column, and with both
    kinds of quotes the text ends at the escaped one where the backslash means
    nothing, so the condition becomes the caller's.  A parameter that is missing
    leaves its placeholder in the statement. *)
Example name_escapes_pre_query :
  map (fun v => map snd (iv_sqls _ (example_invoke (orders_of v))))
    [VStr "O'Brien"; VStr (join "" ["x' OR 1=1 -- "; String double_quote ""]); VNone] =
  [[join "" ["SELECT employee_id FROM dim_employee WHERE employee_name = "; String double_quote "O'Brien"; String double_quote ""]];
   [join "" ["SELECT employee_id FROM dim_employee WHERE employee_name = 'x\' OR 1=1 -- "; String double_quote ""; "'"]];
   ["SELECT employee_id FROM dim_employee WHERE employee_name = :employee_name"]].
Proof. vm_compute. reflexivity. Qed.

(** A status that is no number leaves the tool as an exception, past its replies. *)
Example status_text_raises :
  evaluate_quality [] [("status_code", VStr "200")] = Raise (TypeError "'>=' not supported").
Proof. reflexivity. Qed.
