(* ===== verification/ReportData.v ===== *)
(** * The data of reports (tools/report/models.py, evidence/provenance.py)

    The dictionaries of the report tool as records.  Evidence is the
    standardised one the report adapter hands over, whose fields are all there;
    an empty text stands for a field of a provenance that is not there, as the
    code does not tell them apart. *)

From S2P Require Import Prelude PyFloat PyVal PyList PyText AgentState.

(** ** Provenance *)

Record EvidenceProvenance : Type := mkProvenance {
  pv_db_id : string; pv_table_name : string; pv_query_id : string; pv_sql_fingerprint : string; pv_row_keys : list string;
  pv_kb_id : string; pv_doc_id : string; pv_chunk_id : string; pv_doc_title : string; pv_doc_uri : string; pv_retrieval_query : string;
  pv_query_template_id : string; pv_skill_id : string; pv_step_id : string }.

Definition no_provenance : EvidenceProvenance := mkProvenance "" "" "" "" [] "" "" "" "" "" "" "" "" "".

Definition build_db_provenance (db_id table_name query_id sql_fingerprint : string) (row_keys : list string) (skill_id step_id : string)
    : EvidenceProvenance :=
  mkProvenance db_id table_name query_id sql_fingerprint row_keys "" "" "" "" "" "" "" skill_id step_id.

Definition build_rag_provenance (kb_id doc_id chunk_id doc_title doc_uri retrieval_query skill_id step_id : string) : EvidenceProvenance :=
  mkProvenance "" "" "" "" [] kb_id doc_id chunk_id doc_title doc_uri retrieval_query "" skill_id step_id.

(** The keys a provenance has, which is the dictionary of its fields that are not empty. *)
Definition provenance_dict (p : EvidenceProvenance) : pydict :=
  let field k s := if truthy s then [(k, VStr s)] else [] in
  field "db_id" (pv_db_id p) ++ field "table_name" (pv_table_name p) ++ field "query_id" (pv_query_id p) ++
  field "sql_fingerprint" (pv_sql_fingerprint p) ++ (if truthy (pv_row_keys p) then [("row_keys", VStrs (pv_row_keys p))] else []) ++
  field "kb_id" (pv_kb_id p) ++ field "doc_id" (pv_doc_id p) ++ field "chunk_id" (pv_chunk_id p) ++ field "doc_title" (pv_doc_title p) ++
  field "doc_uri" (pv_doc_uri p) ++ field "retrieval_query" (pv_retrieval_query p) ++ field "query_template_id" (pv_query_template_id p) ++
  field "skill_id" (pv_skill_id p) ++ field "step_id" (pv_step_id p).

(** ** Evidence *)

Record ReportEvidence : Type := mkReportEvidence {
  re_evidence_id : string; re_source_type : string; re_title : string; re_content : string; re_source_uri : string; re_tenant_id : string;
  re_columns : list string; re_rows : list pydict; re_confidence : Q;
  (** metadata *)
  re_source_target_id : option string; re_table_name : option string; re_provenance : EvidenceProvenance }.

(** [attach_provenance_to_evidence]: an empty provenance changes nothing. *)
Definition attach_provenance_to_evidence (e : ReportEvidence) (p : EvidenceProvenance) : ReportEvidence :=
  match provenance_dict p with
  | [] => e
  | _ => mkReportEvidence (re_evidence_id e) (re_source_type e) (re_title e) (re_content e) (re_source_uri e) (re_tenant_id e) (re_columns e)
           (re_rows e) (re_confidence e) (re_source_target_id e) (re_table_name e) p
  end.

Record EvidenceSourceSummary : Type := mkSourceSummary {
  es_evidence_id : string; es_source_type : string; es_db_id : string; es_table_name : string; es_query_id : string; es_rows_used : Z;
  es_kb_id : string; es_doc_id : string; es_chunk_id : string; es_doc_title : string }.

Definition extract_provenance_summary (e : ReportEvidence) : EvidenceSourceSummary :=
  let p := re_provenance e in
  mkSourceSummary (re_evidence_id e) (re_source_type e) (pv_db_id p) (pv_table_name p) (pv_query_id p) (py_len (pv_row_keys p))
    (pv_kb_id p) (pv_doc_id p) (pv_chunk_id p) (pv_doc_title p).

(** [{ev["evidence_id"]: ev for ev in evidence}.get(ref)]: the last one wins. *)
Definition evidence_of (evidence : list ReportEvidence) (ref : string) : option ReportEvidence :=
  List.find (fun e => String.eqb (re_evidence_id e) ref) (rev evidence).

(** ** Report *)

(** The content of a section is [None] where the model wrote null. *)
Record ReportSection : Type := mkSection {
  sc_section_id : string; sc_title : string; sc_order : Z; sc_section_type : string; sc_content : option string; sc_evidence_refs : list string;
  sc_claim_refs : list string; sc_confidence : Q }.

Record ChartSpec : Type := mkChart {
  ch_chart_id : string; ch_chart_type : string; ch_title : string; ch_x_axis : string; ch_y_axis : string; ch_series : list pydict;
  ch_data : list pydict; ch_evidence_refs : list string; ch_claim_refs : list string; ch_notes : string; ch_metric_ids : list string }.

Record TableSpec : Type := mkTable {
  tb_table_id : string; tb_title : string; tb_columns : list string; tb_rows : list (list pyval); tb_evidence_refs : list string;
  tb_claim_refs : list string; tb_max_rows : Z; tb_metric_ids : list string }.

Record ReportClaim : Type := mkClaim {
  rc_claim_id : string; rc_text : string; rc_claim_type : string; rc_evidence_refs : list string; rc_evidence_sources : list EvidenceSourceSummary;
  rc_support_status : string; rc_verification_notes : list string; rc_confidence : Q; rc_needs_human_review : bool; rc_review_reason : string }.

Record DataSourceRef : Type := mkDataSource {
  ds_source_id : string; ds_source_type : string; ds_sections : list string; ds_charts : list string; ds_tables : list string;
  ds_claims : list string; ds_db_id : string; ds_table_name : string; ds_query_id : string; ds_query_template_id : string; ds_row_count : Z;
  ds_kb_id : string; ds_doc_id : string; ds_chunk_id : string; ds_doc_title : string; ds_doc_uri : string }.

Record SourceSummaryEntry : Type := mkSummaryEntry {
  se_label : string; se_source : string; se_query_id : string; se_used_for : list string; se_doc_id : string; se_chunk_id : string }.

(** [section_id], [chart_id] or [table_id] of an issue, or its field, with the value. *)
Record VerificationIssue : Type := mkIssue { is_code : string; is_severity : string; is_message : string; is_where : option (string * string) }.

Record VerificationResult : Type := mkVerification {
  vr_passed : bool; vr_score : Q; vr_issues : list VerificationIssue; vr_warnings : list string; vr_checks_performed : list string }.

Record ReportArtifact : Type := mkArtifact {
  ra_report_id : string; ra_title : string; ra_report_type : string; ra_format : string; ra_language : string; ra_summary : string;
  ra_sections : list ReportSection; ra_charts : list ChartSpec; ra_tables : list TableSpec; ra_evidence_refs : list string;
  ra_claims : list ReportClaim; ra_data_sources : list DataSourceRef; ra_source_summary : list SourceSummaryEntry;
  ra_human_review : pydict; ra_publish_status : string; ra_publish_status_reason : string; ra_verification : option VerificationResult;
  ra_tenant_id : string; ra_user_id : string; ra_created_at : string; ra_file_uri : string; ra_file_size_bytes : Z; ra_partial : bool;
  ra_failed_sections : list string; ra_coverage_score : Q }.

(** ** Lemmas *)

Lemma evidence_of_some evidence ref e : evidence_of evidence ref = Some e -> e ∈ evidence /\ re_evidence_id e = ref.
Proof.
  intros H. apply List.find_some in H as [Hin He]. split; [by apply list_elem_of_In, in_rev|by apply String.eqb_eq].
Qed.
