(* ===== verification/ReportScan.v ===== *)
(** * Sensitive data in reports (tools/report/sensitive_scanner.py)

    Eight patterns with a severity each, and the texts of a report that are
    scanned with them. *)

From Stdlib Require Import Ascii.
From S2P Require Import Prelude PyFloat PyVal PyList PyText PyRegex RegExp AgentState Observability ReportData.

(** ** [re.finditer] *)

Section finditer.
Variable unicode_word : string -> bool.

(** The length of the longest match that starts here; [last] is the character
    before.  It is the match of [re] for patterns whose repetitions are greedy
    and never compete for a character. *)
Fixpoint match_len (r : re) (t : re_tail) (last : option string) (n : nat) (best : option nat) (text : list string) : option nat :=
  let best := if nullable r && tail_ok unicode_word t last text then Some n else best in
  match text with [] => best | c :: text' => match_len (deriv c r) t (Some c) (S n) best text' end.

(** A pattern, which may start with a word boundary. *)
Record scan_re : Type := mkScanRe { sr_boundary : bool; sr_body : re; sr_tail : re_tail }.

Definition starts (p : scan_re) (last : option string) (text : list string) : option nat :=
  if sr_boundary p && negb (xorb (word_opt unicode_word last) (word_opt unicode_word (head text))) then None
  else match_len (sr_body p) (sr_tail p) last O None text.

(** The matches as start and length; [skip] characters belong to the last one. *)
Fixpoint finditer_from (p : scan_re) (last : option string) (pos skip : nat) (text : list string) : list (nat * nat) :=
  match text with
  | [] => []
  | c :: text' =>
    match skip with
    | S k => finditer_from p (Some c) (S pos) k text'
    | O => match starts p last text with
           | Some (S n) => (pos, S n) :: finditer_from p (Some c) (S pos) n text'
           | _ => finditer_from p (Some c) (S pos) O text'
           end
    end
  end.
Definition finditer (p : scan_re) (text : list string) : list (nat * nat) := finditer_from p None O O text.

(** A match of the pattern in a text: what stands before, the match, what follows. *)
Definition matches_at (p : scan_re) (pre m rest : list string) : Prop :=
  m <> [] /\ re_matches (sr_body p) m /\ tail_ok unicode_word (sr_tail p) (last_of None (pre ++ m)) rest = true /\
  (sr_boundary p = true -> word_opt unicode_word (last_of None pre) <> word_opt unicode_word (head (m ++ rest))).
End finditer.

(** ** The patterns *)

Section patterns.
Variable unicode_space unicode_digit : string -> bool.

Definition char_space (c : string) : bool := match c with String a EmptyString => is_space a | _ => unicode_space c end.
Definition key_char (extra : list string) : re := RSet (fun c => alnum c || str_in c extra).
Definition digits (lo hi : nat) : re := between lo hi (RSet (digit unicode_digit)).
Definition class (lo hi : ascii) : re := RSet (in_range lo hi).

(** A letter of [(?i)]: the small s also stands for the long one. *)
Definition any_case (c : string) : re := RSet (fun x => String.eqb (py_lower x) c || (String.eqb c "s" && String.eqb x "ſ")).
Definition word_any_case (s : string) : re := fold_right (fun c r => cat (any_case c) r) REps (chars s).

Definition dotted : re := RegExp.seq [lit "."; digits 1 3].

Record SensitivePattern : Type := mkSensitive {
  sp_code : string; sp_name : string; sp_pattern : scan_re; sp_severity : string; sp_description : string }.

Definition SENSITIVE_PATTERNS : list SensitivePattern :=
  [mkSensitive "SENS_ID_CARD" "身份证号"
     (mkScanRe true (RegExp.seq [digits 17 17; RSet (fun c => digit unicode_digit c || str_in c ["X"; "x"])]) TBoundary) "high" "18 位身份证号";
   mkSensitive "SENS_PHONE" "手机号"
     (mkScanRe true (RegExp.seq [lit "1"; class "3" "9"; digits 9 9]) TBoundary) "medium" "11 位中国大陆手机号";
   mkSensitive "SENS_EMAIL" "邮箱"
     (mkScanRe true (RegExp.seq [plus (key_char ["."; "_"; "%"; "+"; "-"]); lit "@"; plus (key_char ["."; "-"]); lit ".";
                                 at_least 2 (RSet (fun c => letter c || str_in c ["|"]))]) TBoundary) "low" "电子邮箱地址";
   mkSensitive "SENS_API_KEY" "API Key"
     (mkScanRe false
        (fold_right alt RVoid
           [RegExp.seq [lit "sk-"; at_least 20 (key_char ["_"; "-"])];
            RegExp.seq [lit "AKIA"; times 16 (RSet (fun c => in_range "0" "9" c || in_range "A" "Z" c))];
            RegExp.seq [lit "ghp_"; at_least 30 (key_char [])];
            RegExp.seq [lit "xoxb-"; at_least 20 (key_char ["-"])];
            RegExp.seq [lit "Bearer"; plus (RSet char_space); at_least 20 (key_char ["_"; "."; "-"])]]) TAny) "critical" "API Key / Token";
   mkSensitive "SENS_PASSWORD" "密码字段"
     (mkScanRe false
        (RegExp.seq [alt (word_any_case "password") (alt (word_any_case "pwd") (word_any_case "passwd")); RStar (RSet char_space);
                     RSet (fun c => str_in c [":"; "="]); RStar (RSet char_space); plus (RSet (fun c => negb (char_space c)))]) TAny)
     "high" "密码字段赋值";
   mkSensitive "SENS_DB_CONN" "数据库连接串"
     (mkScanRe false (RegExp.seq [any_lit ["mongodb"; "postgresql"; "mysql"; "redis"; "amqp"]; lit "://"; plus (RSet (fun c => negb (char_space c)))]) TAny)
     "critical" "数据库连接串（含凭据）";
   mkSensitive "SENS_INTERNAL_IP" "内网 IP"
     (mkScanRe true
        (fold_right alt RVoid
           [RegExp.seq [lit "10"; dotted; dotted; dotted];
            RegExp.seq [lit "172."; alt (RegExp.seq [lit "1"; class "6" "9"]) (alt (RegExp.seq [lit "2"; digits 1 1]) (RegExp.seq [lit "3"; class "0" "1"]));
                        dotted; dotted];
            RegExp.seq [lit "192.168"; dotted; dotted]]) TBoundary) "medium" "内网 IP 地址";
   mkSensitive "SENS_BANK_CARD" "银行卡号" (mkScanRe true (digits 16 19) TBoundary) "high" "16-19 位连续数字（疑似银行卡号）"].

(** ** Scanning *)

Variable unicode_word : string -> bool.
Variable float_repr : Q -> string.

Record Finding : Type := mkFinding {
  fd_code : string; fd_name : string; fd_severity : string; fd_description : string; fd_snippet : string; fd_start : nat; fd_end : nat;
  fd_location : string }.

Definition snippet_of (text : list string) (start len : nat) : string :=
  let snippet := take len (drop start text) in
  if (len <=? 50)%nat then concat_chars snippet else String.append (concat_chars (take 47 snippet)) "...".

(** [scan_text], with the location its callers write. *)
Definition scan_text (location : string) (text : string) : list Finding :=
  let cs := chars text in
  concat (map (fun p => map (fun se => mkFinding (sp_code p) (sp_name p) (sp_severity p) (sp_description p) (snippet_of cs se.1 se.2) se.1
                                         (se.1 + se.2) location) (finditer unicode_word (sp_pattern p) cs)) SENSITIVE_PATTERNS).

Definition row_text (row : list pyval) : string := join " " (map (py_str float_repr) row).

(** The texts of a report that are scanned, with their locations. *)
Definition scanned_texts (a : ReportArtifact) : list (string * string) :=
  [("summary", ra_summary a)] ++
  map (fun s => (String.append "section:" (sc_section_id s), get_or (sc_content s) "")) (ra_sections a) ++
  concat (map (fun t => map (fun row => (String.append "table:" (tb_table_id t), row_text row)) (tb_rows t)) (ra_tables a)) ++
  map (fun c => (String.append "chart:" (ch_chart_id c), ch_notes c)) (ra_charts a).

Definition scan_artifact (a : ReportArtifact) : list Finding := concat (map (fun lt => scan_text lt.1 lt.2) (scanned_texts a)).

Definition has_critical (findings : list Finding) : bool := existsb (fun f => String.eqb (fd_severity f) "critical") findings.
Definition has_high (findings : list Finding) : bool := existsb (fun f => str_in (fd_severity f) ["high"; "critical"]) findings.
End patterns.

(** ** Completeness of the scan *)

Section complete.
Variable unicode_word : string -> bool.

Lemma match_len_best r t last text : forall n best, best <> None -> match_len unicode_word r t last n best text <> None.
Proof.
  revert r last. induction text as [|c text IH]; intros r last n best H; cbn [match_len]; destruct (nullable r && _); try done; by apply IH.
Qed.

Lemma match_len_here r t last text : forall n best, match_here unicode_word r t last text = true -> match_len unicode_word r t last n best text <> None.
Proof.
  revert r last. induction text as [|c text IH]; intros r last n best H; cbn [match_len match_here] in *; destruct (nullable r && _); try done.
  - by apply match_len_best.
  - by apply IH.
Qed.

Lemma match_len_ge r t last text : forall n best k, match_len unicode_word r t last n best text = Some k -> best = Some k \/ n <= k.
Proof.
  revert r last. induction text as [|c text IH]; intros r last n best k; cbn [match_len]; destruct (nullable r && _).
  - intros [= ->]. right. lia.
  - by left.
  - intros H. apply IH in H as [[= ->]|H]; right; lia.
  - intros H. apply IH in H as [H|H]; [by left|right; lia].
Qed.

Lemma match_len_pos r t last c text : nullable r = false -> match_here unicode_word r t last (c :: text) = true ->
  exists n, match_len unicode_word r t last O None (c :: text) = Some (S n).
Proof.
  intros Hn H. destruct (match_len unicode_word r t last 0 None (c :: text)) as [k|] eqn:E; [|by apply match_len_here with (n := O) (best := None) in H].
  cbn [match_len] in E. rewrite Hn in E. cbn [andb] in E. apply match_len_ge in E as [?|E]; [done|]. destruct k; [lia|by eexists].
Qed.

(** A text that has a match is found, where the pattern never matches the empty text. *)
Lemma finditer_complete p pre m rest : nullable (sr_body p) = false -> matches_at unicode_word p pre m rest ->
  finditer unicode_word p (pre ++ m ++ rest) <> [].
Proof.
  intros Hn (Hm & Hr & Ht & Hb). unfold finditer. revert Ht Hb. generalize (@None string). generalize O at 1.
  induction pre as [|c pre IH]; intros pos before Ht Hb.
  - destruct m as [|c m]; [done|]. cbn [app finditer_from]. unfold starts.
    assert (sr_boundary p && negb (xorb (word_opt unicode_word before) (word_opt unicode_word (head (c :: m ++ rest)))) = false) as ->.
    { destruct (sr_boundary p); [|done]. specialize (Hb eq_refl). change (last_of before []) with before in Hb. cbn [app head] in Hb |- *.
      by destruct (word_opt unicode_word before), (word_opt unicode_word (Some c)). }
    destruct (match_len_pos (sr_body p) (sr_tail p) before c (m ++ rest) Hn) as (n & ->); [|done].
    apply match_here_spec. exists (c :: m), rest. done.
  - cbn [app finditer_from]. cbn [app] in Ht. rewrite last_of_cons in Ht.
    assert (sr_boundary p = true -> word_opt unicode_word (last_of (Some c) pre) <> word_opt unicode_word (head (m ++ rest))) as Hb'
      by (intros H; specialize (Hb H); by rewrite last_of_cons in Hb).
    destruct (starts unicode_word p before _) as [[|n]|]; [|done|]; by apply IH.
Qed.
End complete.

(** The scan reports every text of the report in which a pattern matches. *)
Lemma scan_complete us ud uw fr a location text p pre m rest :
  (location, text) ∈ scanned_texts fr a -> p ∈ SENSITIVE_PATTERNS us ud -> chars text = pre ++ m ++ rest ->
  matches_at uw (sp_pattern p) pre m rest ->
  exists f, f ∈ scan_artifact us ud uw fr a /\ fd_code f = sp_code p /\ fd_severity f = sp_severity p /\ fd_location f = location.
Proof.
  intros Ht Hp Hc Hm. assert (nullable (sr_body (sp_pattern p)) = false) as Hn.
  { unfold SENSITIVE_PATTERNS in Hp. repeat (apply elem_of_cons in Hp as [->|Hp]; [reflexivity|]). by apply not_elem_of_nil in Hp. }
  pose proof (finditer_complete uw _ _ _ _ Hn Hm) as Hf. rewrite <- Hc in Hf.
  destruct (finditer uw (sp_pattern p) (chars text)) as [|se l] eqn:E; [done|]. eexists. split_and!.
  - apply list_elem_of_In. unfold scan_artifact. apply in_concat. exists (scan_text us ud uw location text). split.
    + apply in_map_iff. exists (location, text). split; [done|by apply list_elem_of_In].
    + unfold scan_text. apply in_concat. eexists. split; [apply in_map_iff; exists p; split; [reflexivity|by apply list_elem_of_In]|].
      rewrite E. cbn [map]. by left.
  - done.
  - done.
  - done.
Qed.
