(* ===== verification/ReportBuild.v ===== *)
(** * Content of reports (tools/report/templates.py, planner.py, generator.py,
    chart_builder.py, table_builder.py)

    The plan of sections from a template or a skill, the text of a section from
    the model or from the evidence, and the charts and tables of database
    evidence.  The model, the JSON parser and the texts of floats are
    arguments. *)

From stdpp Require Import pretty.
From S2P Require Import Prelude PyFloat PyVal PyList PyText PyRegex RegExp AgentState PreFilter ReactStep ReportData.

(** ** Templates and plans *)

Record SectionTemplate : Type := mkTemplate {
  tp_section_id : string; tp_title : string; tp_section_type : string; tp_required_types : list string; tp_min_count : Z }.

Definition SECTION_TEMPLATES : list (string * list SectionTemplate) :=
  [("business_analysis",
    [mkTemplate "overview" "一、业务概览" "overview" ["db"; "rag"] 1;
     mkTemplate "key_metrics" "二、关键指标分析" "data" ["db"] 1;
     mkTemplate "trend" "三、趋势分析" "analysis" ["db"; "rag"] 1;
     mkTemplate "conclusion" "四、结论" "conclusion" ["db"; "rag"] 1;
     mkTemplate "recommendation" "五、建议" "recommendation" ["rag"] 0]);
   ("quality_analysis",
    [mkTemplate "overview" "一、总体概况" "overview" ["db"] 1;
     mkTemplate "trend" "二、异常趋势分析" "analysis" ["db"] 1;
     mkTemplate "root_cause" "三、原因分析" "analysis" ["db"; "rag"] 1;
     mkTemplate "conclusion" "四、结论" "conclusion" ["db"] 1;
     mkTemplate "recommendation" "五、改进建议" "recommendation" ["rag"; "db"] 0]);
   ("trend_analysis",
    [mkTemplate "overview" "一、趋势概览" "overview" ["db"] 1;
     mkTemplate "trend" "二、趋势详细分析" "analysis" ["db"] 1;
     mkTemplate "drivers" "三、驱动因素" "analysis" ["db"; "rag"; "web"] 1;
     mkTemplate "conclusion" "四、结论与预测" "conclusion" ["db"] 1]);
   ("comparison",
    [mkTemplate "overview" "一、对比概览" "overview" ["db"; "rag"] 1;
     mkTemplate "comparison_data" "二、对比数据" "data" ["db"] 1;
     mkTemplate "analysis" "三、对比分析" "analysis" ["db"; "rag"] 1;
     mkTemplate "conclusion" "四、结论" "conclusion" ["db"; "rag"] 1]);
   ("knowledge_summary",
    [mkTemplate "overview" "一、知识背景" "overview" ["rag"] 1;
     mkTemplate "key_points" "二、核心要点" "data" ["rag"] 1;
     mkTemplate "deep_dive" "三、深入分析" "analysis" ["rag"; "db"] 0;
     mkTemplate "conclusion" "四、总结" "conclusion" ["rag"] 1]);
   ("management_briefing",
    [mkTemplate "executive_summary" "一、执行摘要" "overview" ["db"; "rag"] 1;
     mkTemplate "key_findings" "二、关键发现" "data" ["db"; "rag"] 1;
     mkTemplate "risks" "三、风险提示" "analysis" ["db"; "rag"] 1;
     mkTemplate "recommendation" "四、建议事项" "recommendation" ["rag"] 0])].

Definition REPORT_TYPE_TITLES : list (string * string) :=
  [("business_analysis", "业务分析报告"); ("quality_analysis", "质量分析报告"); ("trend_analysis", "趋势分析报告");
   ("comparison", "对比分析报告"); ("knowledge_summary", "知识摘要报告"); ("management_briefing", "管理层汇报材料")].

Definition get_template (report_type : string) : list SectionTemplate :=
  get_or (dlookup report_type SECTION_TEMPLATES) (get_or (dlookup "business_analysis" SECTION_TEMPLATES) []).
Definition get_default_title (report_type : string) : string := get_or (dlookup report_type REPORT_TYPE_TITLES) "分析报告".
Definition list_report_types : list string := map fst SECTION_TEMPLATES.

(** A section of a plan; [pn_objective] is empty where none was written. *)
Record PlanSection : Type := mkPlanSection {
  pn_section_id : string; pn_title : string; pn_section_type : string; pn_required_types : list string; pn_objective : string;
  pn_evidence_ready : bool }.

Record ReportPlan : Type := mkReportPlan { rp_title : string; rp_sections : list PlanSection; rp_warnings : list string }.

Definition matching (evidence : list ReportEvidence) (types : list string) : list ReportEvidence :=
  List.filter (fun e => str_in (re_source_type e) types) evidence.

Definition with_objective (objective : string) (s : PlanSection) : PlanSection :=
  mkPlanSection (pn_section_id s) (pn_title s) (pn_section_type s) (pn_required_types s) objective (pn_evidence_ready s).

Section plans.
(** The text of a set, whose order Python leaves open. *)
Variable set_repr : list string -> string.

Definition template_ready (evidence : list ReportEvidence) (t : SectionTemplate) : bool :=
  negb ((tp_min_count t >? 0)%Z && (py_len (matching evidence (tp_required_types t)) <? tp_min_count t)%Z).

Definition template_warning (evidence : list ReportEvidence) (t : SectionTemplate) : string :=
  join "" ["章节「"; tp_title t; "」所需的 evidence 类型 "; set_repr (tp_required_types t); " 不足"; "（找到 ";
           pretty (py_len (matching evidence (tp_required_types t))); " 条，期望 "; pretty (tp_min_count t); " 条）"].

Definition build_report_plan (report_type title : string) (evidence : list ReportEvidence) (max_sections : Z) : ReportPlan :=
  let templates := py_take max_sections (get_template report_type) in
  mkReportPlan (py_or title (get_default_title report_type))
    (map (fun t => mkPlanSection (tp_section_id t) (tp_title t) (tp_section_type t) (tp_required_types t) "" (template_ready evidence t)) templates)
    (map (template_warning evidence) (List.filter (fun t => negb (template_ready evidence t)) templates) ++
     match evidence with [] => ["当前 evidence 列表为空，建议先收集数据"] | _ => [] end).

(** [max_sections or self._config.get("max_sections", 10)] *)
Definition effective_max (max_sections : option Z) (configured : Z) : Z := py_or (get_or max_sections 0%Z) configured.

Definition plan (configured : Z) (report_type title : string) (evidence : list ReportEvidence) (objective : string) (max_sections : option Z)
    : ReportPlan :=
  let p := build_report_plan report_type title evidence (effective_max max_sections configured) in
  mkReportPlan (rp_title p)
    (match rp_sections p with s :: l => (if truthy objective then with_objective objective s else s) :: l | [] => [] end)
    (rp_warnings p ++ match evidence with [] => ["evidence 列表为空，报告将基于模板生成占位内容"] | _ => [] end ++
     (if truthy title then [] else ["未提供报告标题，已使用默认标题"])).

(** A section of a skill, the metrics it defines and the rules of its claims. *)
Record SkillSection : Type := mkSkillSection {
  ss_section_id : string; ss_title : string; ss_section_type : string; ss_order : Z; ss_required_types : list string; ss_objective : string }.
Record MetricDefinition : Type := mkMetric { md_metric_id : string; md_source_fields : list string }.
Record ClaimRule : Type := mkClaimRule {
  cr_rule_id : string; cr_forbidden_terms : list string; cr_claim_types : list string; cr_required_source_types : list string }.

(** The fields of a report skill that the report tool reads. *)
Record ReportSkill : Type := mkReportSkill {
  rk_skill_id : string; rk_version : string; rk_report_type : string; rk_default_format : string; rk_sections : list SkillSection;
  rk_core_sections : list string; rk_metrics : list MetricDefinition; rk_claim_rules : list ClaimRule; rk_publish_policy : pydict;
  rk_min_evidence : option Z; rk_min_db_evidence : option Z; rk_min_rag_evidence : option Z }.

Definition skill_section (evidence : list ReportEvidence) (objective : string) (s : SkillSection) : PlanSection :=
  mkPlanSection (ss_section_id s) (ss_title s) (ss_section_type s) (ss_required_types s) (py_or objective (ss_objective s))
    (forallb (fun t => str_in t (map re_source_type evidence)) (ss_required_types s)).

Definition plan_from_skill (configured : Z) (k : ReportSkill) (title : string) (evidence : list ReportEvidence) (objective : string)
    (max_sections : option Z) : ReportPlan :=
  let chosen := py_take (effective_max max_sections configured) (sort_desc (fun s => inject_Z (- ss_order s)) (rk_sections k)) in
  let missing := py_sorted (List.filter (fun c => negb (str_in c (map ss_section_id chosen))) (remove_dups (rk_core_sections k))) in
  mkReportPlan title (map (skill_section evidence objective) chosen)
    (if truthy missing then [String.append "章节上限排除了核心章节: " (py_repr_list missing)] else []).
End plans.

(** ** Sections *)

Definition relevant (p : PlanSection) (evidence : list ReportEvidence) : list ReportEvidence :=
  if truthy (pn_required_types p) then matching evidence (pn_required_types p) else evidence.

(** What is generated before its type is known: a content of any type. *)
Record RawSection : Type := mkRaw { rw_plan : PlanSection; rw_content : pyval; rw_refs : list string; rw_confidence : Q }.

Section generator.
Variable unicode_space : string -> bool.
Variable json_loads : string -> option pyval.
Variable float_of_text : string -> option Q.

Definition nl : string := newline_char.

Definition format_evidence_for_prompt (evidence : list ReportEvidence) : string :=
  match evidence with
  | [] => "（无 evidence）"
  | _ => join nl (map (fun e => join "" ["- ["; re_evidence_id e; "] "; re_title e; nl; "  "; text_take 500 (re_content e)]) evidence)
  end.

Definition section_prompt (p : PlanSection) (evidence : list ReportEvidence) : string :=
  join nl
    ["你是一名专业的报告章节生成助手。请基于以下 evidence 生成章节正文。"; ""; "**章节信息**："; String.append "- 章节 ID：" (pn_section_id p);
     String.append "- 章节标题：" (pn_title p); String.append "- 章节类型：" (pn_section_type p);
     String.append "- 章节目标：" (py_or (pn_objective p) "无"); ""; "**可用 Evidence**（必须严格引用，禁止编造）：";
     format_evidence_for_prompt evidence; ""; "**输出要求**（JSON 格式）："; "{";
     join "" ["  "; String double_quote "content"; String double_quote ": "; String double_quote "章节正文（中文/英文，2-4 段，引用 evidence 事实，禁止编造）"; String double_quote ","];
     join "" ["  "; String double_quote "evidence_refs"; String double_quote ": ["; String double_quote "ev_xxx"; String double_quote ", "; String double_quote "ev_yyy"; String double_quote "],"];
     join "" ["  "; String double_quote "confidence"; String double_quote ": 0.85"]; "}"; ""; "**重要约束**：";
     "1. 每个论断必须基于 evidence，禁止凭空编造数字"; "2. evidence_refs 必须从上述 evidence_id 列表中选取"; "3. confidence 表示内容可信度（0.0-1.0）";
     join "" ["4. 如果 evidence 不足，content 说明"; String double_quote "证据不足"; String double_quote "并 confidence 低于 0.5"]; ""].

(** [\{.*\}], over lines: from the first opening brace to the last closing one. *)
Fixpoint last_brace (acc : list string) (best : option (list string)) (text : list string) : option (list string) :=
  match text with
  | [] => best
  | c :: text' => let acc := c :: acc in last_brace acc (if String.eqb c "}" then Some (rev acc) else best) text'
  end.

Fixpoint outer_braces (text : list string) : option (list string) :=
  match text with
  | [] => None
  | c :: text' => if String.eqb c "{" then last_brace ["{"] None text' else outer_braces text'
  end.

Definition json_text (result_text : string) : string :=
  let text := py_strip unicode_space result_text in
  let text := match first_block unicode_space (chars text) with Some b => concat_chars b | None => text end in
  match outer_braces (chars text) with Some b => concat_chars b | None => text end.

(** The references that are evidence; a value that cannot be hashed raises. *)
Fixpoint known_refs (ids : list string) (refs : list pyval) : result (list string) :=
  match refs with
  | [] => Ok []
  | r :: refs' =>
    if hashable r then
      let! l := known_refs ids refs' in
      Ok (match r with VStr s => if str_in s ids then s :: l else l | _ => l end)
    else Raise (TypeError "unhashable")
  end.

Definition parse_llm_output (p : PlanSection) (result_text : string) (evidence : list ReportEvidence) : result RawSection :=
  let! (content, refs, confidence) :=
    match json_loads (json_text result_text) with
    | Some (VDict d) => Ok (get_or (dlookup "content" d) (VStr ""), get_or (dlookup "evidence_refs" d) (VList []),
                            get_or (dlookup "confidence" d) (VFloat (rnd (7 # 10))))
    | Some _ => Raise (AttributeError "get")
    | None => Ok (VStr result_text, VStrs (List.filter (fun i => truthy i) (map re_evidence_id evidence)), VFloat (1 # 2))
    end in
  let! l := py_iter refs in
  let! refs := known_refs (map re_evidence_id evidence) l in
  let refs := match refs, evidence with [], e :: _ => [re_evidence_id e] | _, _ => refs end in
  let! confidence := match confidence with VNone => Ok (1 # 2)%Q | v => to_float float_of_text v end in
  Ok (mkRaw p content refs confidence).

Definition generate_with_template (p : PlanSection) (evidence : list ReportEvidence) : RawSection :=
  match evidence with
  | [] => mkRaw p (VStr (join "" ["证据不足，无法生成「"; pn_title p; "」章节的详细内容。"])) [] (rnd (3 # 10))
  | _ =>
    let summary := join "；" (map (fun e => join "" ["["; re_evidence_id e; "] "; re_title e; ": "; text_take 200 (re_content e)]) (take 5 evidence)) in
    mkRaw p (VStr (join "" ["根据 "; pretty (py_len evidence); " 条 evidence，"; pn_title p; " 的关键发现如下："; nl; summary; nl; nl;
                            "（注：本章节由模板生成，未使用 LLM 优化表达）"]))
      (List.filter (fun i => truthy i) (map re_evidence_id evidence)) (1 # 2)
  end.

(** [_generate_one], for the model's reply to a prompt if there is a model. *)
Definition generate_one (llm : option (string -> result string)) (evidence : list ReportEvidence) (p : PlanSection) : result RawSection :=
  let evidence := relevant p evidence in
  match llm with
  | Some ask => let! text := ask (section_prompt p evidence) in parse_llm_output p text evidence
  | None => Ok (generate_with_template p evidence)
  end.

(** The sections in order, and the ids of those that failed. *)
Definition generate_sections (llm : option (string -> result string)) (p : ReportPlan) (evidence : list ReportEvidence) : list RawSection * list string :=
  let made := map (fun s => (s, generate_one llm evidence s)) (rp_sections p) in
  (omap (fun m => match m.2 with Ok r => Some r | Raise _ => None end) made,
   omap (fun m => match m.2 with Ok _ => None | Raise _ => Some (pn_section_id m.1) end) made).

(** The section at its place.  A content that is no text is read as none where
    it is falsy ([sec.get("content", "") or ""]), and makes the claims raise
    otherwise. *)
Definition section_of (order : Z) (r : RawSection) : result ReportSection :=
  let! content := match rw_content r with VStr s => Ok (Some s) | v => if truthy v then Raise (TypeError "content") else Ok None end in
  Ok (mkSection (pn_section_id (rw_plan r)) (pn_title (rw_plan r)) order (pn_section_type (rw_plan r)) content (rw_refs r) [] (rw_confidence r)).

Fixpoint sections_from (order : Z) (l : list RawSection) : result (list ReportSection) :=
  match l with
  | [] => Ok []
  | r :: l' => let! s := section_of order r in let! rest := sections_from (order + 1) l' in Ok (s :: rest)
  end.
End generator.

(** ** Charts and tables *)

Definition is_numeric (v : pyval) : bool := match v with VInt _ | VFloat _ => true | _ => false end.

Definition find_numeric_columns (rows : list pydict) (columns : list string) : list string :=
  List.filter (fun c => existsb (fun row => is_numeric (get_or (dlookup c row) VNone)) (take 5 rows)) columns.

Definition refs_of (e : ReportEvidence) : list string := if truthy (re_evidence_id e) then [re_evidence_id e] else [].
Definition chart_id (e : ReportEvidence) (index : Z) : string := join "_" ["chart"; re_evidence_id e; pretty index].

Definition build_kpi_chart (e : ReportEvidence) (row : pydict) (numeric : list string) (index : Z) : ChartSpec :=
  let value c := get_or (dlookup c row) VNone in
  mkChart (chart_id e index) "kpi" (re_title e) "" ""
    (map (fun c => [("name", VStr c); ("value", value c)]) (List.filter (fun c => match value c with VNone => false | _ => true end) numeric))
    [row] (refs_of e) [] "" [].

Definition build_bar_chart (e : ReportEvidence) (rows : list pydict) (x_col y_col : string) (index : Z) : ChartSpec :=
  let y row := get_or (dlookup y_col row) (VInt 0) in
  mkChart (chart_id e index) "bar" (re_title e) x_col y_col [[("name", VStr y_col); ("data", VList (map y rows))]]
    (map (fun row => dset y_col (y row) [(x_col, get_or (dlookup x_col row) (VStr ""))]) rows) (refs_of e) [] "" [].

Definition build_table_chart (e : ReportEvidence) (rows : list pydict) (index : Z) : ChartSpec :=
  mkChart (chart_id e index) "table" (re_title e) "" "" [] rows (refs_of e) [] "" [].

Definition chart_from (e : ReportEvidence) (index : Z) : option ChartSpec :=
  match re_rows e with
  | [] => None
  | _ =>
    let preview := take 50 (re_rows e) in
    let numeric := find_numeric_columns preview (re_columns e) in
    Some (match preview, numeric, re_columns e with
          | [row], _ :: _, _ => build_kpi_chart e row numeric index
          | _, _ :: _, [x_col; y_col] => build_bar_chart e preview x_col y_col index
          | _, _, _ => build_table_chart e preview index
          end)
  end.

Definition table_from (max_rows : Z) (e : ReportEvidence) (index : Z) : option TableSpec :=
  match re_rows e, re_columns e with
  | [], _ | _, [] => None
  | rows, columns =>
    let rows := if (py_len rows >? max_rows)%Z then py_take max_rows rows else rows in
    Some (mkTable (join "_" ["table"; re_evidence_id e; pretty index]) (re_title e) columns
            (map (fun row => map (fun c => get_or (dlookup c row) (VStr "")) columns) rows) (refs_of e) [] max_rows [])
  end.

(** The loop of both builders: the items made so far give the index and the end. *)
Fixpoint build_items {A} (make : ReportEvidence -> Z -> option A) (limit : Z) (made : list A) (evidence : list ReportEvidence) : list A :=
  match evidence with
  | [] => made
  | e :: evidence' =>
    if (limit <=? py_len made)%Z then made
    else build_items make limit (match make e (py_len made) with Some a => made ++ [a] | None => made end) evidence'
  end.

Definition db_evidence (evidence : list ReportEvidence) : list ReportEvidence := matching evidence ["db"].
Definition build_charts (max_charts : Z) (evidence : list ReportEvidence) : list ChartSpec := build_items chart_from max_charts [] (db_evidence evidence).
Definition build_tables (max_rows max_tables : Z) (evidence : list ReportEvidence) : list TableSpec :=
  build_items (table_from max_rows) max_tables [] (db_evidence evidence).

(** [_apply_metric_definitions] of the report tool. *)
Definition metric_ids (metrics : list MetricDefinition) (fields : list string) : list string :=
  map md_metric_id (List.filter (fun m => existsb (fun f => str_in f fields) (md_source_fields m)) metrics).

Definition series_names (c : ChartSpec) : list string :=
  omap (fun s => match dlookup "name" s with Some (VStr n) => if truthy n then Some n else None | _ => None end) (ch_series c).

Definition chart_metrics (metrics : list MetricDefinition) (c : ChartSpec) : ChartSpec :=
  mkChart (ch_chart_id c) (ch_chart_type c) (ch_title c) (ch_x_axis c) (ch_y_axis c) (ch_series c) (ch_data c) (ch_evidence_refs c) (ch_claim_refs c)
    (ch_notes c) (metric_ids metrics (series_names c)).
Definition table_metrics (metrics : list MetricDefinition) (t : TableSpec) : TableSpec :=
  mkTable (tb_table_id t) (tb_title t) (tb_columns t) (tb_rows t) (tb_evidence_refs t) (tb_claim_refs t) (tb_max_rows t)
    (metric_ids metrics (tb_columns t)).
