(* ===== verification/ReportClaims.v ===== *)
(** * Claims, data sources and human review of reports
    (tools/report/claims.py, data_sources.py, human_review.py)

    Every section, chart and table of a report gives a claim with the evidence
    it rests on; the sources of the report are listed with what uses them; and a
    report goes to a reviewer before it is published where its policy, its type
    or its confidence asks for it. *)

From S2P Require Import Prelude PyFloat PyVal PyList PyText PyRegex AgentState PreFilter ReportData ReportBuild.

(** ** Claims *)

Definition CLAIM_TYPES_REQUIRE_EVIDENCE : list string := ["metric"; "comparison"; "trend"; "fact"].
Definition CLAIM_TYPES_ALLOW_NO_EVIDENCE : list string := ["recommendation"].

Section claims.
Variable unicode_space : string -> bool.
(** [md5(...).hexdigest()] *)
Variable md5 : string -> string.
Variable float_repr format2 : Q -> string.

Definition make_claim_id (text claim_type : string) : string :=
  String.append "claim_" (text_take 12 (md5 (join "|" [claim_type; text_take 200 text]))).

Definition build_evidence_sources (evidence : list ReportEvidence) (refs : list string) : list EvidenceSourceSummary :=
  map extract_provenance_summary (omap (evidence_of evidence) refs).

Definition compute_confidence (refs : list string) (evidence : list ReportEvidence) : Q :=
  match map re_confidence (omap (evidence_of evidence) refs) with
  | [] => 0
  | confs => fround (fdiv (py_sum confs) (inject_Z (py_len confs))) 4
  end.

(** [_create_claim], with the key and value of its place. *)
Definition create_claim (threshold : Q) (text claim_type : string) (refs : list string) (evidence : list ReportEvidence) (place : string * string)
    : option ReportClaim :=
  let has_evidence := truthy refs in
  if str_in claim_type CLAIM_TYPES_REQUIRE_EVIDENCE && negb has_evidence then None
  else
    let '(status, confidence, review, reason) :=
      if str_in claim_type CLAIM_TYPES_ALLOW_NO_EVIDENCE && negb has_evidence
      then ("unsupported", 0%Q, true, "recommendation 类型 Claim 未找到支撑 Evidence，建议人工确认")
      else
        let confidence := compute_confidence refs evidence in
        let review := flt confidence threshold in
        ("supported", confidence, review,
         if review then join "" ["Claim 支撑 Evidence 置信度 "; format2 confidence; "，低于阈值 "; format2 threshold] else "") in
    Some (mkClaim (make_claim_id text claim_type) (text_take 500 text) claim_type refs (build_evidence_sources evidence refs) status
            (if truthy place.2 then [String.append "位置: " (py_repr_val float_repr (VDict [(place.1, VStr place.2)]))] else [])
            confidence review reason).

(** [s.rstrip("：\n")] *)
Fixpoint rstrip_in (set cs : list string) : list string :=
  match cs with
  | [] => []
  | c :: cs' => match rstrip_in set cs' with [] => if str_in c set then [] else [c] | r => c :: r end
  end.

Definition section_text (s : ReportSection) : string :=
  let text := join "" [sc_title s; "："; nl; text_take 200 (get_or (sc_content s) "")] in
  py_or (concat_chars (rstrip_in ["："; nl] (chars (py_strip unicode_space text)))) "（章节内容）".

(** An item with its claim, whose id is added to its references (a set). *)
Definition claimed {A} (add : string -> A -> A) (make : A -> option ReportClaim) (a : A) : A * option ReportClaim :=
  match make a with Some c => (add (rc_claim_id c) a, Some c) | None => (a, None) end.

Definition add_section_claim (id : string) (s : ReportSection) : ReportSection :=
  mkSection (sc_section_id s) (sc_title s) (sc_order s) (sc_section_type s) (sc_content s) (sc_evidence_refs s) (append_new id (sc_claim_refs s))
    (sc_confidence s).
Definition add_chart_claim (id : string) (c : ChartSpec) : ChartSpec :=
  mkChart (ch_chart_id c) (ch_chart_type c) (ch_title c) (ch_x_axis c) (ch_y_axis c) (ch_series c) (ch_data c) (ch_evidence_refs c)
    (append_new id (ch_claim_refs c)) (ch_notes c) (ch_metric_ids c).
Definition add_table_claim (id : string) (t : TableSpec) : TableSpec :=
  mkTable (tb_table_id t) (tb_title t) (tb_columns t) (tb_rows t) (tb_evidence_refs t) (append_new id (tb_claim_refs t)) (tb_max_rows t) (tb_metric_ids t).

Definition section_claim (threshold : Q) (evidence : list ReportEvidence) (s : ReportSection) : option ReportClaim :=
  create_claim threshold (section_text s) "fact" (sc_evidence_refs s) evidence ("section_id", sc_section_id s).
Definition chart_claim (threshold : Q) (evidence : list ReportEvidence) (c : ChartSpec) : option ReportClaim :=
  create_claim threshold (ch_title c) "metric" (ch_evidence_refs c) evidence ("chart_id", ch_chart_id c).
Definition table_claim (threshold : Q) (evidence : list ReportEvidence) (t : TableSpec) : option ReportClaim :=
  create_claim threshold (tb_title t) "fact" (tb_evidence_refs t) evidence ("table_id", tb_table_id t).

(** [ClaimBuilder.build] *)
Definition build_claims (threshold : Q) (sections : list ReportSection) (charts : list ChartSpec) (tables : list TableSpec)
    (evidence : list ReportEvidence) : list ReportSection * list ChartSpec * list TableSpec * list ReportClaim :=
  let ss := map (claimed add_section_claim (section_claim threshold evidence)) sections in
  let cs := map (claimed add_chart_claim (chart_claim threshold evidence)) charts in
  let ts := map (claimed add_table_claim (table_claim threshold evidence)) tables in
  (map fst ss, map fst cs, map fst ts, omap snd ss ++ omap snd cs ++ omap snd ts).

Definition needs_human_review_for_claim (c : ReportClaim) : bool := rc_needs_human_review c || String.eqb (rc_support_status c) "unsupported".
End claims.

(** ** Data sources *)

Definition make_source_id (source_type ev_id : string) : string := join "_" ["src"; source_type; text_take 12 ev_id].

(** The sorted set of the ids of the items that refer to an evidence. *)
Definition users {A} (id : A -> string) (refs : A -> list string) (ev_id : string) (items : list A) : list string :=
  py_sorted (remove_dups (map id (List.filter (fun a => str_in ev_id (refs a)) items))).

(** [s.split("://")[-1].split("/")[0]] *)
Definition uri_host (s : string) : string := get_or (head (str_split "/" (List.last (str_split "://" s) ""))) "".

(** [DataSourceCollector.collect] *)
Definition data_source (sections : list ReportSection) (charts : list ChartSpec) (tables : list TableSpec) (claims : list ReportClaim)
    (e : ReportEvidence) : DataSourceRef :=
  let id := re_evidence_id e in
  let p := re_provenance e in
  let db s := if String.eqb (re_source_type e) "db" then s else "" in
  let rag s := if String.eqb (re_source_type e) "rag" then s else "" in
  mkDataSource (make_source_id (re_source_type e) id) (if str_in (re_source_type e) ["db"; "rag"; "web"] then re_source_type e else "db")
    (users sc_section_id sc_evidence_refs id sections) (users ch_chart_id ch_evidence_refs id charts)
    (users tb_table_id tb_evidence_refs id tables) (users rc_claim_id rc_evidence_refs id claims)
    (db (py_or (pv_db_id p) (uri_host (re_source_uri e)))) (db (pv_table_name p)) (db (pv_query_id p)) (db (pv_query_template_id p))
    (if String.eqb (re_source_type e) "db" then py_len (pv_row_keys p) else 0%Z)
    (rag (pv_kb_id p)) (rag (pv_doc_id p)) (rag (pv_chunk_id p)) (rag (pv_doc_title p)) (rag (pv_doc_uri p)).

Definition collect (evidence : list ReportEvidence) (sections : list ReportSection) (charts : list ChartSpec) (tables : list TableSpec)
    (claims : list ReportClaim) : list DataSourceRef :=
  map (data_source sections charts tables claims) (List.filter (fun e => truthy (re_evidence_id e)) evidence).

(** The title of a section id: the last section that has it. *)
Definition title_of (sections : list ReportSection) (id : string) : string :=
  match List.find (fun s => String.eqb (sc_section_id s) id) (rev sections) with Some s => sc_title s | None => id end.

Definition summary_entry (sections : list ReportSection) (d : DataSourceRef) : SourceSummaryEntry :=
  let '(label, source) :=
    if String.eqb (ds_source_type d) "db" then
      (py_or (ds_table_name d) "数据库查询",
       if truthy (ds_table_name d) then join "" ["数据库 "; ds_db_id d; "."; ds_table_name d] else String.append "数据库 " (ds_db_id d))
    else if String.eqb (ds_source_type d) "rag" then
      (py_or (ds_doc_title d) "知识库文档",
       if truthy (ds_doc_title d) then join "" ["知识库 "; ds_kb_id d; " / 文档《"; ds_doc_title d; "》"] else String.append "知识库 " (ds_kb_id d))
    else (String.append (ds_source_type d) " 来源", ds_source_type d) in
  let used_for := fold_left (fun l id => let t := title_of sections id in if truthy t then append_new t l else l) (ds_sections d) [] in
  let rag s := if String.eqb (ds_source_type d) "rag" then s else "" in
  mkSummaryEntry label source (ds_query_id d) used_for (rag (ds_doc_id d)) (rag (ds_chunk_id d)).

Definition build_source_summary (sources : list DataSourceRef) (sections : list ReportSection) : list SourceSummaryEntry :=
  map (summary_entry sections) sources.

(** ** Human review *)

Definition HIGH_SENSITIVITY_SKILL_TYPES : list string :=
  ["financial_report"; "cost_analysis"; "quality_analysis"; "ehs_report"; "hr_report"; "compliance_report"].
Definition DEFAULT_LOW_CONFIDENCE_THRESHOLD : Q := rnd (7 # 10).
Definition DEFAULT_LOW_CONFIDENCE_RATIO_THRESHOLD : Q := rnd (3 # 10).

Section review.
Variable format2 float_repr : Q -> string.

(** [(c.get("confidence", 1.0) or 1.0) < threshold] and the mark of the claim. *)
Definition low_confidence (threshold : Q) (c : ReportClaim) : bool :=
  rc_needs_human_review c || flt (if Qeq_bool (rc_confidence c) 0 then 1%Q else rc_confidence c) threshold.

Definition low_ratio (threshold : Q) (claims : list ReportClaim) : Q :=
  fdiv (inject_Z (py_len (List.filter (low_confidence threshold) claims))) (inject_Z (py_len claims)).

Definition should_require_human_review (claims : list ReportClaim) (publish_policy : option pydict) (skill_type : string)
    (threshold ratio_threshold : Q) : bool * string :=
  if match publish_policy with Some p => truthy (get_or (dlookup "require_human_review" p) (VBool false)) | None => false end
  then (true, "publish_policy.require_human_review=true")
  else if str_in skill_type HIGH_SENSITIVITY_SKILL_TYPES then (true, String.append "高敏 Skill 类型: " skill_type)
  else match claims with
       | [] => (false, "无 Claim，跳过")
       | _ =>
         let ratio := low_ratio threshold claims in
         if fgt ratio ratio_threshold
         then (true, join "" ["低置信度 Claim 占比 "; format2 ratio; " 超过阈值 "; float_repr ratio_threshold])
         else (false, "")
       end.

Definition review_result (comments : list pyval) (approved publish_allowed : bool) : pydict :=
  [("action", VStr "comment"); ("reviewer_id", VStr ""); ("reviewed_at", VStr ""); ("comments", VList comments); ("edited_sections", VList []);
   ("approved", VBool approved); ("publish_allowed", VBool publish_allowed)].

Definition build_initial_human_review_result (requires : bool) (reason skill_type : string) : pydict :=
  if requires
  then review_result [VDict [("reviewer_id", VStr "system"); ("comment", VStr (String.append "触发人工审核: " reason)); ("skill_type", VStr skill_type)]] false false
  else review_result [] true true.

(** [HumanReviewNode.evaluate] *)
Definition evaluate (claims : list ReportClaim) (publish_policy : option pydict) (skill_type : string) (threshold ratio_threshold : Q)
    : string * string * pydict :=
  let (requires, reason) := should_require_human_review claims publish_policy skill_type threshold ratio_threshold in
  let result := build_initial_human_review_result requires reason skill_type in
  if requires then ("pending_review", reason, result)
  else ("approved", reason, dset "publish_allowed" (VBool true) (dset "approved" (VBool true) result)).
End review.

Definition transition_publish_status (current_status : string) (review : pydict) : string * string :=
  if negb (truthy (VDict review)) then (current_status, "")
  else
    let action := get_or (dlookup "action" review) (VStr "") in
    let flag key := truthy (get_or (dlookup key review) (VBool false)) in
    if is_str action "approve" && flag "approved" then
      if flag "publish_allowed" then ("published", "用户已批准且允许发布") else ("approved", "用户已批准，等待发布")
    else if is_str action "reject" then ("rejected", "用户已驳回")
    else if is_str action "request_regenerate" then ("draft", "用户请求重新生成")
    else match action with
         | VStr a => if str_in a ["edit"; "comment"] then (current_status, String.append "用户 " a) else (current_status, "")
         | _ => (current_status, "")
         end.

(** [HumanReviewNode.apply_review], on the fields of the artifact it writes. *)
Definition apply_review (status reason : string) (review : pydict) : string * string * pydict :=
  let (new_status, new_reason) := transition_publish_status status review in
  (new_status, if truthy new_reason then new_reason else reason, review).
