(* ===== verification/ReportVerify.v ===== *)
(** * Verification of reports (tools/report/verifier.py)

    Thirteen checks of a report against its evidence; a report passes when none
    of them raises an issue of severity high or critical. *)

From stdpp Require Import pretty.
From S2P Require Import Prelude PyFloat PyVal PyList PyText PyRegex RegExp AgentState PreFilter Observability ReportData ReportScan ReportBuild ReportClaims.

Section verifier.
Variable unicode_space unicode_digit unicode_word : string -> bool.
Variable float_repr : Q -> string.
Variable set_repr : list string -> string.
(** [s.casefold()] *)
Variable casefold : string -> string.

(** [\b\d+(?:\.\d+)?%?\b] *)
Definition NUMBER_PATTERN : scan_re :=
  let d := plus (RSet (digit unicode_digit)) in
  mkScanRe true (RegExp.seq [d; opt (RegExp.seq [lit "."; d]); opt (lit "%")]) TBoundary.

Definition has_number (text : string) : bool := truthy (finditer unicode_word NUMBER_PATTERN (chars text)).

Definition content_of (s : ReportSection) : string := get_or (sc_content s) "".

Definition valid_ids (evidence : list ReportEvidence) : list string := List.filter (fun i => truthy i) (map re_evidence_id evidence).

Definition at_section (s : ReportSection) : option (string * string) := Some ("section_id", sc_section_id s).
Definition at_chart (c : ChartSpec) : option (string * string) := Some ("chart_id", ch_chart_id c).
Definition at_table (t : TableSpec) : option (string * string) := Some ("table_id", tb_table_id t).
Definition quoted_title (title : string) : string := join "" ["「"; title; "」"].
Definition is_recommendation (s : ReportSection) : bool := String.eqb (sc_section_type s) "recommendation".

(** ** The checks *)

Definition check_section_refs (s : ReportSection) : list VerificationIssue :=
  if negb (truthy (sc_evidence_refs s)) && negb (is_recommendation s)
  then [mkIssue "VER_SECTION_NO_REFS" "high" (join "" ["章节"; quoted_title (sc_title s); "没有任何 evidence_refs"]) (at_section s)] else [].

Definition section_refs_warning (s : ReportSection) : list string :=
  if negb (truthy (sc_evidence_refs s)) && is_recommendation s
  then [(join "" ["章节"; quoted_title (sc_title s); "(recommendation) 无 evidence_refs，"; "建议由人工补充或标注 unsupported"])] else [].

Definition check_numbers (s : ReportSection) : list VerificationIssue :=
  if has_number (content_of s) && negb (truthy (sc_evidence_refs s))
  then [mkIssue "VER_NUMBERS_NO_REFS" "high" (join "" ["章节"; quoted_title (sc_title s); "包含数字但无 evidence_refs"]) (at_section s)] else [].

Definition check_chart_refs (c : ChartSpec) : list VerificationIssue :=
  if negb (truthy (ch_evidence_refs c))
  then [mkIssue "VER_CHART_NO_REFS" "high" (join "" ["图表"; quoted_title (ch_title c); "没有绑定 evidence"]) (at_chart c)] else [].

Definition check_table_refs (t : TableSpec) : list VerificationIssue :=
  if negb (truthy (tb_evidence_refs t))
  then [mkIssue "VER_TABLE_NO_REFS" "high" (join "" ["表格"; quoted_title (tb_title t); "没有绑定 evidence"]) (at_table t)] else [].

Definition check_refs_exist (ids : list string) (kind title : string) (where_ : option (string * string)) (refs : list string) : list VerificationIssue :=
  map (fun ref => mkIssue "VER_REF_NOT_EXIST" "high" (join "" [kind; quoted_title title; "引用了不存在的 evidence_id: "; ref]) where_)
    (List.filter (fun ref => negb (str_in ref ids)) refs).

Definition all_refs_exist (ids : list string) (a : ReportArtifact) : list VerificationIssue :=
  concat (map (fun s => check_refs_exist ids "章节" (sc_title s) (at_section s) (sc_evidence_refs s)) (ra_sections a)) ++
  concat (map (fun c => check_refs_exist ids "图表" (ch_title c) (at_chart c) (ch_evidence_refs c)) (ra_charts a)) ++
  concat (map (fun t => check_refs_exist ids "表格" (tb_title t) (at_table t) (tb_evidence_refs t)) (ra_tables a)).

Definition sensitive_issue (severity : string) (f : Finding) : VerificationIssue :=
  mkIssue (String.append "VER_SENSITIVE_" (fd_code f)) severity
    (join "" ["检测到 "; severity; " 级敏感信息: "; fd_name f; "（位置: "; fd_location f; "）"]) (Some ("field", fd_location f)).

Definition check_sensitive (findings : list Finding) : list VerificationIssue :=
  if has_critical findings then map (sensitive_issue "critical") (List.filter (fun f => String.eqb (fd_severity f) "critical") findings)
  else if has_high findings then map (sensitive_issue "high") (List.filter (fun f => str_in (fd_severity f) ["high"; "critical"]) findings)
  else [].

Definition sensitive_warnings (findings : list Finding) : list string :=
  if has_critical findings || has_high findings then []
  else map (fun f => join "" ["检测到 "; fd_severity f; " 级敏感信息: "; fd_name f; "（位置: "; fd_location f; "）"]) findings.

Definition check_empty (s : ReportSection) : list VerificationIssue :=
  if truthy (py_strip unicode_space (content_of s)) then []
  else [mkIssue "VER_EMPTY_CONTENT" "medium" (join "" ["章节"; quoted_title (sc_title s); "内容为空"]) (at_section s)].

Definition count_of (x : string) (l : list string) : nat := length (List.filter (String.eqb x) l).

Definition check_duplicates (sections : list ReportSection) : list VerificationIssue :=
  let ids := map sc_section_id sections in
  let duplicates := remove_dups (List.filter (fun x => (1 <? count_of x ids)%nat) ids) in
  if truthy duplicates then [mkIssue "VER_DUPLICATE_SECTIONS" "medium" (String.append "发现重复的章节 ID: " (set_repr duplicates)) None] else [].

Definition check_limit (kind code : string) (n limit : Z) : list VerificationIssue :=
  if (n >? limit)%Z then [mkIssue code "medium" (join "" [kind; "数 "; pretty n; " 超过限制 "; pretty limit]) None] else [].

(** The type of the source of a reference, where there is such an evidence. *)
Definition source_of (evidence : list ReportEvidence) (ref : string) : option string := option_map re_source_type (evidence_of evidence ref).

Definition rule_applies (s : ReportSection) (r : ClaimRule) : bool :=
  str_in "recommendation" (cr_claim_types r) && is_recommendation s ||
  existsb (fun t => str_in t (cr_claim_types r)) ["metric"; "comparison"] && has_number (casefold (content_of s)).

Definition check_rule (evidence : list ReportEvidence) (s : ReportSection) (r : ClaimRule) : list VerificationIssue :=
  let content := casefold (content_of s) in
  let applies := rule_applies s r in
  (if existsb (fun term => contains (casefold term) content) (cr_forbidden_terms r)
   then [mkIssue "VER_SKILL_FORBIDDEN_CLAIM" "high" (String.append "章节包含 Skill 禁止声明: " (cr_rule_id r)) (at_section s)] else []) ++
  (if applies && negb (truthy (sc_evidence_refs s))
   then [mkIssue "VER_SKILL_CLAIM_NO_REFS" "high" (join "" ["Skill 规则 "; cr_rule_id r; " 要求声明关联 Evidence"]) (at_section s)] else []) ++
  (if applies && truthy (cr_required_source_types r) &&
      negb (forallb (fun t => existsb (fun ref => bool_decide (source_of evidence ref = Some t)) (sc_evidence_refs s)) (cr_required_source_types r))
   then [mkIssue "VER_SKILL_CLAIM_SOURCE_MISMATCH" "high"
           (join "" ["Skill 规则 "; cr_rule_id r; " 要求 Evidence 来源: "; py_repr_list (py_sorted (remove_dups (cr_required_source_types r)))]) (at_section s)]
   else []).

Definition check_rules (evidence : list ReportEvidence) (rules : list ClaimRule) (sections : list ReportSection) : list VerificationIssue :=
  concat (map (fun s => concat (map (check_rule evidence s) rules)) sections).

Definition requires_core (policy : pydict) : bool := truthy (get_or (dlookup "require_all_core_sections" policy) (VBool false)).

Definition check_core (policy : pydict) (core : list string) (sections : list ReportSection) : list VerificationIssue :=
  let missing := List.filter (fun c => negb (str_in c (map sc_section_id sections))) (remove_dups core) in
  if requires_core policy && truthy missing
  then [mkIssue "VER_SKILL_CORE_SECTION_MISSING" "high" (String.append "Skill 发布策略要求的核心章节缺失: " (py_repr_list (py_sorted missing))) None]
  else [].

(** [_check_claim_lineage] *)
Definition check_claim (ids : list string) (c : ReportClaim) : list VerificationIssue :=
  let at_claim := Some ("field", String.append "claim:" (rc_claim_id c)) in
  (if str_in (rc_claim_type c) CLAIM_TYPES_REQUIRE_EVIDENCE && negb (truthy (rc_evidence_refs c))
   then [mkIssue "VER_CLAIM_MISSING_EVIDENCE" "high" (join "" ["Claim "; rc_claim_id c; " ("; rc_claim_type c; ") 缺少 evidence_refs"]) at_claim] else []) ++
  map (fun ref => mkIssue "VER_CLAIM_EVIDENCE_NOT_EXIST" "high" (join "" ["Claim "; rc_claim_id c; " 引用了不存在的 evidence_id: "; ref]) at_claim)
    (List.filter (fun ref => negb (str_in ref ids)) (rc_evidence_refs c)) ++
  (if rc_needs_human_review c
   then [mkIssue "VER_CLAIM_NEEDS_HUMAN_REVIEW" "medium" (join "" ["Claim "; rc_claim_id c; " 需要人工核实: "; rc_review_reason c]) at_claim] else []) ++
  (if String.eqb (rc_support_status c) "unsupported"
   then [mkIssue "VER_CLAIM_UNSUPPORTED" "low"
           (join "" ["Claim "; rc_claim_id c; " ("; rc_claim_type c; ") 标记为 unsupported，"; "导出时将显示「未经验证」"]) at_claim] else []).

Definition check_claim_lineage (ids : list string) (claims : list ReportClaim) : list VerificationIssue := concat (map (check_claim ids) claims).

(** ** [verify] *)

Definition severe (i : VerificationIssue) : bool := str_in (is_severity i) ["critical"; "high"].

Definition weight (i : VerificationIssue) : Q :=
  get_or (dlookup (is_severity i) [("critical", rnd (30 # 100)); ("high", rnd (20 # 100)); ("medium", rnd (10 # 100)); ("low", rnd (5 # 100))]) (rnd (5 # 100)).

Definition calculate_score (issues : list VerificationIssue) (total_checks : Z) : Q :=
  match issues with
  | [] => 1%Q
  | _ =>
    let penalty := py_sum (map weight issues) in
    let max_penalty := fmax (fmul (rnd (20 # 100)) (inject_Z total_checks)) 1 in
    fround (fmax 0 (fsub 1 (fdiv penalty max_penalty))) 2
  end.

(** What a report is verified against. *)
Record VerifyOptions : Type := mkVerifyOptions {
  vo_max_sections : Z; vo_max_charts : Z; vo_max_tables : Z; vo_scan_sensitive : bool; vo_claim_rules : list ClaimRule;
  vo_publish_policy : pydict; vo_core_sections : list string }.

Definition checks_performed (o : VerifyOptions) (a : ReportArtifact) : list string :=
  ["section_has_evidence_refs"; "numbers_from_structured_evidence"; "charts_have_evidence"; "tables_have_evidence"; "refs_exist_in_evidence"] ++
  (if vo_scan_sensitive o then ["sensitive_data_scan"] else []) ++
  ["unauthorized_data_check"; "language_consistency"; "section_uniqueness"; "quantity_limits"] ++
  (if truthy (vo_claim_rules o) then ["skill_claim_rules"] else []) ++ (if truthy (vo_publish_policy o) then ["skill_publish_policy"] else []) ++
  (if truthy (ra_claims a) then ["claim_lineage_check"] else []).

Definition findings_of (o : VerifyOptions) (a : ReportArtifact) : list Finding :=
  if vo_scan_sensitive o then scan_artifact unicode_space unicode_digit unicode_word float_repr a else [].

Definition issues_of (o : VerifyOptions) (a : ReportArtifact) (evidence : list ReportEvidence) : list VerificationIssue :=
  let ids := valid_ids evidence in
  concat (map check_section_refs (ra_sections a)) ++ concat (map check_numbers (ra_sections a)) ++
  concat (map check_chart_refs (ra_charts a)) ++ concat (map check_table_refs (ra_tables a)) ++ all_refs_exist ids a ++
  check_sensitive (findings_of o a) ++ concat (map check_empty (ra_sections a)) ++ check_duplicates (ra_sections a) ++
  check_limit "章节" "VER_TOO_MANY_SECTIONS" (py_len (ra_sections a)) (vo_max_sections o) ++
  check_limit "图表" "VER_TOO_MANY_CHARTS" (py_len (ra_charts a)) (vo_max_charts o) ++
  check_limit "表格" "VER_TOO_MANY_TABLES" (py_len (ra_tables a)) (vo_max_tables o) ++
  check_rules evidence (vo_claim_rules o) (ra_sections a) ++ check_core (vo_publish_policy o) (vo_core_sections o) (ra_sections a) ++
  check_claim_lineage ids (ra_claims a).

Definition verify (o : VerifyOptions) (a : ReportArtifact) (evidence : list ReportEvidence) : VerificationResult :=
  let issues := issues_of o a evidence in
  let performed := checks_performed o a in
  mkVerification (negb (existsb severe issues)) (calculate_score issues (py_len performed)) issues
    (concat (map section_refs_warning (ra_sections a)) ++ sensitive_warnings (findings_of o a)) performed.

(** ** What a verified report is *)

Definition refs_known (evidence : list ReportEvidence) (refs : list string) : Prop :=
  forall r, r ∈ refs -> r <> "" /\ exists e, e ∈ evidence /\ re_evidence_id e = r.

Definition rule_met (evidence : list ReportEvidence) (s : ReportSection) (r : ClaimRule) : Prop :=
  (forall term, term ∈ cr_forbidden_terms r -> contains (casefold term) (casefold (content_of s)) = false) /\
  (rule_applies s r = true -> sc_evidence_refs s <> [] /\
   forall t, t ∈ cr_required_source_types r -> exists ref, ref ∈ sc_evidence_refs s /\ source_of evidence ref = Some t).

Record publishable (o : VerifyOptions) (a : ReportArtifact) (evidence : list ReportEvidence) : Prop := {
  pb_sections s : s ∈ ra_sections a -> (is_recommendation s = false \/ has_number (content_of s) = true -> sc_evidence_refs s <> []) /\
                  refs_known evidence (sc_evidence_refs s);
  pb_charts c : c ∈ ra_charts a -> ch_evidence_refs c <> [] /\ refs_known evidence (ch_evidence_refs c);
  pb_tables t : t ∈ ra_tables a -> tb_evidence_refs t <> [] /\ refs_known evidence (tb_evidence_refs t);
  pb_sensitive f : f ∈ findings_of o a -> fd_severity f ∉ ["high"; "critical"];
  pb_rules s r : s ∈ ra_sections a -> r ∈ vo_claim_rules o -> rule_met evidence s r;
  pb_core c : requires_core (vo_publish_policy o) = true -> c ∈ vo_core_sections o -> exists s, s ∈ ra_sections a /\ sc_section_id s = c;
  pb_claims c : c ∈ ra_claims a -> (rc_claim_type c ∈ CLAIM_TYPES_REQUIRE_EVIDENCE -> rc_evidence_refs c <> []) /\
                refs_known evidence (rc_evidence_refs c) }.

(** ** No severe issue *)

Definition mild (l : list VerificationIssue) : Prop := existsb severe l = false.

Lemma mild_app l1 l2 : mild (l1 ++ l2) <-> mild l1 /\ mild l2.
Proof. unfold mild. by rewrite existsb_app, orb_false_iff. Qed.

Lemma mild_concat {A} (f : A -> list VerificationIssue) l : mild (concat (map f l)) <-> forall x, x ∈ l -> mild (f x).
Proof.
  induction l as [|x l IH]; cbn [map concat]; [split; [by intros _ y Hy%not_elem_of_nil|done]|]. rewrite mild_app, IH. split.
  - intros [H1 H2] y [->|Hy]%elem_of_cons; auto.
  - intros H. split; [apply H; by left|]. intros y Hy. apply H. by right.
Qed.

Lemma mild_if (b : bool) code message where_ severity : str_in severity ["critical"; "high"] = true ->
  mild (if b then [mkIssue code severity message where_] else []) <-> b = false.
Proof. intros H. unfold mild. destruct b; [|done]. cbn [existsb]. unfold severe. cbn [is_severity]. by rewrite H. Qed.

Lemma mild_medium (b : bool) code message where_ severity : str_in severity ["critical"; "high"] = false ->
  mild (if b then [mkIssue code severity message where_] else []).
Proof. intros H. unfold mild. destruct b; [|done]. cbn [existsb]. unfold severe. cbn [is_severity]. by rewrite H. Qed.

Lemma mild_map {A} (f : A -> VerificationIssue) l : (forall x, severe (f x) = true) -> mild (map f l) <-> l = [].
Proof. intros H. destruct l as [|x l]; [done|]. unfold mild. cbn [map existsb]. by rewrite H. Qed.

Lemma valid_ids_spec evidence r : r ∈ valid_ids evidence <-> r <> "" /\ exists e, e ∈ evidence /\ re_evidence_id e = r.
Proof.
  unfold valid_ids. rewrite list_elem_of_In, filter_In, in_map_iff. cbv beta. unfold truthy, truthy_string. rewrite negb_true_iff, String.eqb_neq. split.
  - intros [(e & He & Hin) Hn]. split; [done|]. exists e. by rewrite list_elem_of_In.
  - intros [Hn (e & Hin & He)]. split; [|done]. exists e. by rewrite <- list_elem_of_In.
Qed.

Lemma unknown_refs evidence refs : List.filter (fun ref => negb (str_in ref (valid_ids evidence))) refs = [] <-> refs_known evidence refs.
Proof.
  unfold refs_known. rewrite <- (filter_nil_iff (fun ref => negb (str_in ref (valid_ids evidence))) refs). split; intros H r Hr.
  - apply valid_ids_spec, str_in_spec. specialize (H r Hr). by apply negb_false_iff in H.
  - apply negb_false_iff, str_in_spec, valid_ids_spec. by apply H.
Qed.

Lemma mild_refs evidence kind title where_ refs : mild (check_refs_exist (valid_ids evidence) kind title where_ refs) <-> refs_known evidence refs.
Proof. unfold check_refs_exist. rewrite mild_map by done. apply unknown_refs. Qed.

Lemma mild_sensitive findings : mild (check_sensitive findings) <-> forall f, f ∈ findings -> fd_severity f ∉ ["high"; "critical"].
Proof.
  assert (forall (p : Finding -> bool), (List.filter p findings = [] <-> existsb p findings = false)) as Hf.
  { intros p. induction findings as [|f l IH]; [done|]. cbn. destruct (p f); cbn; [done|done]. }
  assert (has_high findings = false <-> forall f, f ∈ findings -> fd_severity f ∉ ["high"; "critical"]) as Hh.
  { unfold has_high. rewrite existsb_false_forall. split; intros H f Hin; specialize (H f Hin); by apply str_in_false. }
  rewrite <- Hh. unfold check_sensitive. destruct (has_critical findings) eqn:Ec.
  - rewrite mild_map by done. rewrite Hf. unfold has_critical in Ec. rewrite Ec. split; [done|]. intros H.
    exfalso. apply existsb_exists in Ec as (f & Hin & He). apply String.eqb_eq in He. unfold has_high in H. rewrite existsb_false_forall in H.
    specialize (H f ltac:(by apply list_elem_of_In)). cbv beta in H. by rewrite He in H.
  - destruct (has_high findings) eqn:Eh; [|done]. rewrite mild_map by done. rewrite Hf. unfold has_high in Eh. by rewrite Eh.
Qed.

Lemma mild_rule evidence s r : mild (check_rule evidence s r) <-> rule_met evidence s r.
Proof.
  unfold check_rule. cbv zeta. rewrite !mild_app, !mild_if by done. unfold rule_met. rewrite existsb_false_forall.
  destruct (rule_applies s r); cbn [andb]; [|naive_solver]. split.
  - intros (H1 & H2 & H3). split; [done|]. intros _. split; [by destruct (sc_evidence_refs s)|]. intros t Ht.
    destruct (cr_required_source_types r) as [|x l] eqn:El; [by apply not_elem_of_nil in Ht|]. cbn [truthy truthy_list andb] in H3.
    apply negb_false_iff in H3. pose proof (proj1 (forallb_true_forall _ _) H3 t Ht) as H. cbv beta in H.
    apply existsb_exists in H as (ref & Hr & He). apply bool_decide_eq_true in He. exists ref. by rewrite list_elem_of_In.
  - intros (H1 & H2). destruct (H2 eq_refl) as [Hr Ht]. split_and!; [done|by destruct (sc_evidence_refs s)|].
    destruct (cr_required_source_types r) as [|x l] eqn:El; [done|]. cbn [truthy truthy_list andb]. apply negb_false_iff, forallb_true_forall.
    intros t Hin. destruct (Ht t Hin) as (ref & Hin' & He). apply existsb_exists. exists ref. split; [by apply list_elem_of_In|].
    by apply bool_decide_eq_true.
Qed.

Lemma mild_core policy core sections : mild (check_core policy core sections) <->
  (requires_core policy = true -> forall c, c ∈ core -> exists s, s ∈ sections /\ sc_section_id s = c).
Proof.
  unfold check_core. cbv zeta. rewrite mild_if by done. destruct (requires_core policy); cbn [andb]; [|naive_solver].
  assert (forall l : list string, truthy l = false <-> l = []) as Ht by (by intros []). rewrite Ht, <- filter_nil_iff. split.
  - intros H _ c Hc. specialize (H c). rewrite negb_false_iff, str_in_spec in H. apply elem_of_remove_dups in Hc.
    apply H in Hc. apply list_elem_of_In, in_map_iff in Hc as (s & Hs & Hin). exists s. by rewrite list_elem_of_In.
  - intros H c Hc. rewrite elem_of_remove_dups in Hc. destruct (H eq_refl c Hc) as (s & Hin & <-). apply negb_false_iff, str_in_spec, list_elem_of_In, in_map_iff.
    exists s. by rewrite <- list_elem_of_In.
Qed.

Lemma mild_claim evidence c : mild (check_claim (valid_ids evidence) c) <->
  (rc_claim_type c ∈ CLAIM_TYPES_REQUIRE_EVIDENCE -> rc_evidence_refs c <> []) /\ refs_known evidence (rc_evidence_refs c).
Proof.
  unfold check_claim. cbv zeta. rewrite !mild_app, mild_if, mild_map, unknown_refs by done. rewrite <- str_in_spec.
  pose proof (fun b code m w => mild_medium b code m w "medium" eq_refl) as Hm. pose proof (fun b code m w => mild_medium b code m w "low" eq_refl) as Hl.
  destruct (str_in (rc_claim_type c) CLAIM_TYPES_REQUIRE_EVIDENCE), (rc_evidence_refs c); cbn [andb negb truthy truthy_list]; naive_solver.
Qed.

(** [C31] A report passes exactly when it is publishable: its sections other than
    recommendations, and all sections with numbers, its charts, tables and
    factual claims name evidence, every reference names evidence that was
    given, nothing the scanner finds in it is of high or critical severity, the
    rules and the core sections of its skill are met. *)
Theorem verify_passes_iff o a evidence : vr_passed (verify o a evidence) = true <-> publishable o a evidence.
Proof.
  cbn [verify vr_passed]. rewrite negb_true_iff. fold (mild (issues_of o a evidence)). unfold issues_of, all_refs_exist, check_rules, check_claim_lineage.
  cbv zeta. rewrite !mild_app, !mild_concat, mild_sensitive, mild_core.
  assert (forall s, mild (check_empty s)) as He by (intros s; unfold check_empty; destruct (truthy _); [done|by apply (mild_medium true)]).
  assert (mild (check_duplicates (ra_sections a))) as Hd by (unfold check_duplicates; cbv zeta; by apply mild_medium).
  assert (forall k c n l, mild (check_limit k c n l)) as Hlim by (intros; unfold check_limit; by apply mild_medium).
  split.
  - intros (H1 & H2 & H3 & H4 & (H5 & H6 & H7) & H8 & _ & _ & _ & _ & _ & H9 & H10 & H11). constructor; try done.
    + intros s Hs. specialize (H1 s Hs). specialize (H2 s Hs). unfold check_section_refs in H1. unfold check_numbers in H2.
      rewrite mild_if in H1, H2 by done. split; [|exact (proj1 (mild_refs evidence _ _ _ _) (H5 s Hs))].
      intros Hor E. rewrite E in H1, H2. cbn in H1, H2. rewrite andb_true_r in H2. destruct Hor as [Hor|Hor]; [by rewrite Hor in H1|by rewrite Hor in H2].
    + intros c Hc. specialize (H3 c Hc). unfold check_chart_refs in H3. rewrite mild_if in H3 by done. split; [by destruct (ch_evidence_refs c)|].
      exact (proj1 (mild_refs evidence _ _ _ _) (H6 c Hc)).
    + intros t Ht. specialize (H4 t Ht). unfold check_table_refs in H4. rewrite mild_if in H4 by done. split; [by destruct (tb_evidence_refs t)|].
      exact (proj1 (mild_refs evidence _ _ _ _) (H7 t Ht)).
    + intros s r Hs Hr. apply mild_rule. specialize (H9 s Hs). cbv beta in H9. rewrite mild_concat in H9. by apply H9.
    + intros c Hr Hc. by apply H10.
    + intros c Hc. by apply mild_claim, H11.
  - intros [H1 H2 H3 H4 H5 H6 H7]. split_and!; try done; try (intros ? _; apply He).
    + intros s Hs. unfold check_section_refs. rewrite mild_if by done. destruct (H1 s Hs) as [H _]. destruct (is_recommendation s); [by rewrite andb_false_r|].
      destruct (sc_evidence_refs s); [by destruct H; [left|]|done].
    + intros s Hs. unfold check_numbers. rewrite mild_if by done. destruct (H1 s Hs) as [H _]. destruct (has_number _); [|done].
      destruct (sc_evidence_refs s); [by destruct H; [right|]|done].
    + intros c Hc. unfold check_chart_refs. rewrite mild_if by done. destruct (H2 c Hc) as [H _]. by destruct (ch_evidence_refs c).
    + intros t Ht. unfold check_table_refs. rewrite mild_if by done. destruct (H3 t Ht) as [H _]. by destruct (tb_evidence_refs t).
    + intros s Hs. apply mild_refs, H1, Hs.
    + intros c Hc. apply mild_refs, H2, Hc.
    + intros t Ht. apply mild_refs, H3, Ht.
    + intros s Hs. rewrite mild_concat. intros r Hr. by apply mild_rule, H5.
    + intros Hr c Hc. by apply H6.
    + intros c Hc. by apply mild_claim, H7.
Qed.
End verifier.
