(* ===== verification/ReportStorage.v ===== *)
(** * The store of reports (tools/report/storage.py)

    A report is one file below the directory of its tenant.  The file system is
    the map from the components of a path to the text of its file; a path that
    names no file of the map does not exist. *)

From Stdlib Require Import Ascii.
From stdpp Require Import pretty.
From S2P Require Import Prelude PyFloat PyVal PyList PyText.

(** ** Identifiers *)

Definition id_char (a : ascii) : bool :=
  let n := nat_of_ascii a in
  ((48 <=? n) && (n <=? 57))%nat || ((65 <=? n) && (n <=? 90))%nat || ((97 <=? n) && (n <=? 122))%nat || (n =? 95)%nat || (n =? 45)%nat.

(** The text without one line feed at its end, before which [$] matches too. *)
Fixpoint before_newline (s : string) : string :=
  match s with
  | EmptyString => EmptyString
  | String a EmptyString => if (nat_of_ascii a =? 10)%nat then EmptyString else s
  | String a s' => String a (before_newline s')
  end.

(** [^[a-zA-Z0-9_-]{1,64}$] *)
Definition SAFE_ID_PATTERN (value : string) : bool :=
  let s := before_newline value in str_all id_char s && (1 <=? String.length s)%nat && (String.length s <=? 64)%nat.

Definition is_safe_id (value : string) : bool :=
  if negb (truthy value) then false
  else if contains ".." value || contains "/" value || contains "\" value then false
  else SAFE_ID_PATTERN value.

(** ** Paths *)

(** A path is the list of its components. *)
Notation path := (list string).

(** [str(path)] *)
Definition path_text (p : path) : string := String.append "/" (join "/" p).

(** The components [Path] makes of a text: empty ones and dots disappear. *)
Definition path_parts (s : string) : path := List.filter (fun c => negb (str_in c [""; "."])) (split_on "/" s).

(** [s.lstrip(".")] *)
Fixpoint lstrip_dots (s : string) : string :=
  match s with String a s' => if Ascii.eqb a "." then lstrip_dots s' else s | EmptyString => EmptyString end.

Definition file_name (report_id ext : string) : string := String.append report_id (String "." ext).

(** Text mode reads every line end as a line feed. *)
Definition is_cr (a : ascii) : bool := (nat_of_ascii a =? 13)%nat.
Definition line_feed : ascii := ascii_of_nat 10.
Fixpoint universal_newlines (s : string) : string :=
  match s with
  | EmptyString => EmptyString
  | String a s' =>
    if is_cr a
    then match s' with
         | String b s'' => if Ascii.eqb b line_feed then universal_newlines s' else String line_feed (universal_newlines s')
         | EmptyString => String line_feed EmptyString
         end
    else String a (universal_newlines s')
  end.

(** ** The store *)

Notation files := (gmap (list string) string).

Record StorageResult : Type := mkStorageResult {
  st_artifact_id : string; st_file_uri : string; st_download_url : string; st_storage_backend : string; st_file_size_bytes : Z }.

Section storage.
(** [Path(root_path).resolve()] and the prefix of the links. *)
Variable root : path.
Variable download_base_url : string.

(** [s.rstrip("/")] *)
Fixpoint rstrip_slash (s : string) : string :=
  match s with
  | EmptyString => EmptyString
  | String a s' => match rstrip_slash s' with EmptyString => if Ascii.eqb a "/" then EmptyString else String a EmptyString | r => String a r end
  end.

Definition download_url (tenant_id report_id : string) (now : Z) : string :=
  join "" [rstrip_slash download_base_url; "/"; tenant_id; "/"; report_id; "/download"; "?expires="; pretty (now + 600)%Z].

(** [save], for the time [int(time.time())]; the size is in bytes. *)
Definition save (now : Z) (fs : files) (tenant_id report_id content extension : string) : result (files * StorageResult) :=
  if negb (is_safe_id tenant_id) then Raise (ValueError "非法的 tenant_id")
  else if negb (is_safe_id report_id) then Raise (ValueError "非法的 report_id")
  else
    let ext := py_lower (lstrip_dots extension) in
    if negb (str_in ext ["md"; "html"; "txt"]) then Raise (ValueError "不支持的文件扩展名")
    else
      let file_path := root ++ [tenant_id; file_name report_id ext] in
      Ok (<[file_path := content]> fs,
          mkStorageResult report_id (String.append "file://" (path_text file_path)) (download_url tenant_id report_id now) "local"
            (Z.of_nat (String.length content))).

Definition file_path (tenant_id report_id extension : string) : path :=
  root ++ tenant_id :: path_parts (file_name report_id (lstrip_dots extension)).

(** [read]; [None] is [FileNotFoundError]. *)
Definition read (fs : files) (tenant_id report_id extension : string) : result (option string) :=
  if negb (is_safe_id tenant_id) then Raise (ValueError "非法的 tenant_id")
  else if negb (is_safe_id report_id) then Raise (ValueError "非法的 report_id")
  else Ok (option_map universal_newlines (fs !! file_path tenant_id report_id extension)).

Definition exists_ (fs : files) (tenant_id report_id extension : string) : bool :=
  if negb (is_safe_id tenant_id) || negb (is_safe_id report_id) then false
  else bool_decide (is_Some (fs !! file_path tenant_id report_id extension)).
End storage.

(** [generate_report_id], for the hexadecimal digits of a new uuid. *)
Definition generate_report_id (uuid_hex : string) : string := String.append "rpt_" (text_take 16 uuid_hex).

(** A line feed may follow a safe identifier. *)
Example safe_id_newline : is_safe_id (String.append "acme" (String line_feed "")) = true /\ is_safe_id "../acme" = false.
Proof. by vm_compute. Qed.

(** ** Lemmas *)

Definition path_free (a : ascii) : bool := negb (Ascii.eqb a "/") && negb (Ascii.eqb a ".").

Lemma before_newline_all s : str_all id_char (before_newline s) = true -> str_all path_free s = true.
Proof.
  assert (forall a, id_char a = true -> path_free a = true) as Hid.
  { intros a Ha. unfold path_free. destruct (Ascii.eqb_spec a "/") as [->|_]; [by vm_compute in Ha|].
    by destruct (Ascii.eqb_spec a ".") as [->|_]; [vm_compute in Ha|]. }
  induction s as [|a [|b s] IH]; [done| |].
  - cbn [before_newline]. destruct (nat_of_ascii a =? 10)%nat eqn:E.
    + intros _. apply Nat.eqb_eq in E. rewrite <- (ascii_nat_embedding a), E. by vm_compute.
    + cbn [str_all]. rewrite !andb_true_r. apply Hid.
  - change (before_newline (String a (String b s))) with (String a (before_newline (String b s))). cbn [str_all].
    intros [Ha Hs]%andb_prop. apply andb_true_intro. split; [by apply Hid|]. apply IH, Hs.
Qed.

(** A safe identifier is not empty and has neither slash nor dot. *)
Lemma safe_id_free value : is_safe_id value = true -> value <> "" /\ str_all path_free value = true.
Proof.
  unfold is_safe_id. destruct (truthy value) eqn:Et; [|done]. cbn [negb]. destruct (_ || _); [done|]. intros H.
  split; [by intros ->|]. unfold SAFE_ID_PATTERN in H. apply andb_prop in H as [H _]. apply andb_prop in H as [H _]. by apply before_newline_all.
Qed.

(** The file name of a safe identifier starts with it, up to its first dot. *)
Lemma path_parts_name r ext : is_safe_id r = true -> exists x rest, path_parts (file_name r ext) = file_name r x :: rest /\
  (str_all (fun c => negb (Ascii.eqb c "/")) ext = true -> x = ext /\ rest = []).
Proof.
  intros [Hr Hf]%safe_id_free. assert (str_all (fun c => negb (Ascii.eqb c "/")) r = true) as Hs.
  { eapply str_all_impl, Hf. intros a Ha. by apply andb_prop in Ha as [Ha _]. }
  assert (forall s, split_on "/" (String.append r s) =
            match split_on "/" s with x :: l => String.append r x :: l | [] => [] end) as Hsplit.
  { intros s. clear Hr Hf. induction r as [|a r IH]; [change (String.append "" s) with s; by destruct (split_on "/" s)|].
    cbn [str_all] in Hs. apply andb_prop in Hs as [Ha Hs]. apply negb_true_iff in Ha.
    change (String.append (String a r) s) with (String a (String.append r s)). cbn [split_on]. rewrite Ha, IH by done.
    destruct (split_on "/" s) eqn:E; [|done]. exfalso. destruct s as [|b s]; [done|]. cbn in E. by destruct (Ascii.eqb b "/"), (split_on "/" s). }
  assert (forall x, str_in (file_name r x) [""; "."] = false) as Hne.
  { intros x. apply str_in_false. destruct r as [|a r]; [done|]. intros H.
    apply elem_of_cons in H as [H|H]; [done|]. apply list_elem_of_singleton in H. injection H as -> H.
    cbn [str_all] in Hf. by vm_compute in Hf. }
  unfold path_parts, file_name at 1. rewrite Hsplit.
  assert (exists x l, split_on "/" (String "." ext) = String "." x :: l /\ (str_all (fun c => negb (Ascii.eqb c "/")) ext = true -> x = ext /\ l = []))
    as (x & l & -> & Hx).
  { change (split_on "/" (String "." ext)) with (match split_on "/" ext with x :: l => String "." x :: l | [] => [String "." ""] end).
    destruct (split_on "/" ext) as [|x l] eqn:E; eexists _, _; (split; [reflexivity|]).
    - intros H. by rewrite split_on_none in E.
    - intros H. rewrite split_on_none in E by done. by injection E. }
  cbn [List.filter]. fold (file_name r x). rewrite Hne. cbn [negb]. eexists x, _. split; [reflexivity|]. intros H. apply Hx in H as [-> ->]. done.
Qed.

Lemma file_name_inj r x r' x' : str_all path_free r = true -> str_all path_free r' = true -> file_name r x = file_name r' x' -> r = r'.
Proof.
  revert r'. unfold file_name. induction r as [|a r IH]; intros [|b r'] Hr Hr' H; [done| | |].
  - injection H as <- _. by vm_compute in Hr'.
  - injection H as -> _. by vm_compute in Hr.
  - injection H as <- H. cbn [str_all] in Hr, Hr'. apply andb_prop in Hr as [_ Hr], Hr' as [_ Hr']. by rewrite (IH r').
Qed.

Lemma save_inv root base now fs t r content ext fs' res : save root base now fs t r content ext = Ok (fs', res) ->
  is_safe_id t = true /\ is_safe_id r = true /\
  exists e, e = py_lower (lstrip_dots ext) /\ e ∈ ["md"; "html"; "txt"] /\ fs' = <[root ++ [t; file_name r e] := content]> fs.
Proof.
  unfold save. destruct (is_safe_id t); [|done]. destruct (is_safe_id r); [|done]. cbn [negb]. cbv zeta.
  destruct (str_in _ _) eqn:E; [|done]. intros [= <- _]. split; [done|]. split; [done|]. eexists. split; [reflexivity|].
  split; [by apply str_in_spec|done].
Qed.

Lemma read_other root fs t r name content t' r' ext' : is_safe_id t = true -> is_safe_id r = true ->
  (t', r') <> (t, r) -> is_safe_id r' = true ->
  <[root ++ [t; file_name r name] := content]> fs !! file_path root t' r' ext' = (fs : files) !! file_path root t' r' ext'.
Proof.
  intros Ht Hr Hne Hr'. apply lookup_insert_ne. unfold file_path. intros H. apply app_inv_head in H.
  destruct (path_parts_name r' (lstrip_dots ext') Hr') as (x & rest & E & _). rewrite E in H. injection H as -> H _.
  apply Hne. f_equal. symmetry. eapply file_name_inj; [by apply safe_id_free..|done].
Qed.

(** [C34] A report that is saved is one file in the directory of its tenant: it is
    read back under the tenant, the identifier and the extension it was saved
    with, up to its line ends, and no other report of any tenant changes. *)
Theorem save_read_back root base now fs t r content ext fs' res :
  save root base now fs t r content ext = Ok (fs', res) ->
  (exists e, e ∈ ["md"; "html"; "txt"] /\ dom fs' = {[root ++ [t; file_name r e]]} ∪ dom fs /\
     str_all path_free t = true /\ str_all path_free r = true /\
     read root fs' t r e = Ok (Some (universal_newlines content)) /\ exists_ root fs' t r e = true) /\
  forall t' r' ext', (t', r') <> (t, r) ->
    read root fs' t' r' ext' = read root fs t' r' ext' /\ exists_ root fs' t' r' ext' = exists_ root fs t' r' ext'.
Proof.
  intros (Ht & Hr & e & _ & He & ->)%save_inv. split.
  - exists e. split; [done|]. split; [apply dom_insert_L|]. split; [by apply safe_id_free|]. split; [by apply safe_id_free|].
    assert (lstrip_dots e = e /\ str_all (fun c => negb (Ascii.eqb c "/")) e = true) as [He1 He2]
      by (repeat (apply elem_of_cons in He as [->|He]; [by vm_compute|]); by apply not_elem_of_nil in He).
    destruct (path_parts_name r e Hr) as (x & rest & E & Hx). destruct (Hx He2) as [-> ->].
    unfold read, exists_, file_path. rewrite Ht, Hr, He1, E, lookup_insert_eq. split; [done|]. by apply bool_decide_true.
  - intros t' r' ext' Hne. unfold read, exists_. destruct (is_safe_id t'); [|done]. destruct (is_safe_id r') eqn:Hr'; [|done]. cbn [negb orb].
    by rewrite read_other.
Qed.

Lemma save_read_back_witness : exists fs' res,
  save ["reports"] "/api/v1/reports" 0 ∅ "acme" "rpt_1" "text" ".md" = Ok (fs', res) /\
  forall t' r' ext', (t', r') <> ("acme", "rpt_1") ->
    read ["reports"] fs' t' r' ext' = read ["reports"] ∅ t' r' ext' /\ exists_ ["reports"] fs' t' r' ext' = exists_ ["reports"] ∅ t' r' ext'.
Proof.
  eexists _, _. split; [reflexivity|].
  exact (proj2 (save_read_back ["reports"] "/api/v1/reports" 0 ∅ "acme" "rpt_1" "text" ".md" _ _ eq_refl)).
Defined.

(** What is saved under an extension in capitals is not found under it. *)
Example extension_case (fs : files) now fs' res : fs !! ["reports"; "acme"; "rpt_1.MD"] = None ->
  save ["reports"] "/api/v1/reports" now fs "acme" "rpt_1" "text" ".MD" = Ok (fs', res) -> read ["reports"] fs' "acme" "rpt_1" ".MD" = Ok None.
Proof.
  intros H (_ & _ & e & -> & _ & ->)%save_inv. unfold read, file_path. cbn [negb is_safe_id]. rewrite lookup_insert_ne by done.
  change (["reports"] ++ "acme" :: path_parts (file_name "rpt_1" (lstrip_dots ".MD"))) with ["reports"; "acme"; "rpt_1.MD"]. by rewrite H.
Qed.
