(* ===== verification/ReportExport.v ===== *)
(** * Export of reports (tools/report/exporter.py)

    A report as Markdown and as a page of HTML, in which every text of the
    report is escaped.  Sections never carry [needs_human_review] and reports
    have no appendix (report_tool.py builds neither), so these lines of the
    Markdown have no counterpart. *)

From Stdlib Require Import Ascii.
From stdpp Require Import pretty.
From S2P Require Import Prelude PyFloat PyVal PyList PyText PyRegex AgentState PreFilter SkillVersion ReportData ReportBuild.

(** [f"{q:.2f}"] *)
Definition fixed2 (q : Q) : string :=
  let n := Z.abs (round_even (q * 100)) in
  join "" [if Qle_bool 0 q then "" else "-"; pretty (n / 100)%Z; "."; if (n mod 100 <? 10)%Z then "0" else ""; pretty (n mod 100)%Z].

(** ** Markdown *)

Section markdown.
Variable float_repr : Q -> string.

Definition blank_line : list string := [""].
Definition cells (l : list string) : string := join "" ["| "; join " | " l; " |"].
Definition rule_cells (columns : list string) : string := cells (map (fun _ => "---") columns).
Definition cell_of (row : pydict) (c : string) : pyval := get_or (dlookup c row) (VStr "").
Definition source_line (refs : list string) : list string := if truthy refs then ["> 来源: " +:+ join ", " refs] else [].

(** [_render_markdown_section]; a content of null makes [join] raise. *)
Definition render_markdown_section (s : ReportSection) : result string :=
  match sc_content s with
  | None => Raise (TypeError "sequence item: expected str instance, NoneType found")
  | Some content =>
    Ok (join nl (["## " +:+ sc_title s; ""; content; ""] ++
      (if truthy (sc_evidence_refs s)
       then ["> **引用依据**: " +:+ join ", " (map (fun ref => join "" ["["; ref; "](#"; ref; ")"]) (sc_evidence_refs s)); ""] else []) ++
      (if truthy (sc_claim_refs s) then [join "" ["> 本章节关联 "; pretty (py_len (sc_claim_refs s)); " 个 Claim"]; ""] else [])))
  end.

Definition kpi_line (c : ChartSpec) : string :=
  join " | " (map (fun s => join "" ["**"; py_str float_repr (cell_of s "name"); "**: "; py_str float_repr (cell_of s "value")]) (ch_series c)).

Definition render_markdown_chart (c : ChartSpec) : string :=
  join nl (["### " +:+ ch_title c; ""] ++
    (if String.eqb (ch_chart_type c) "kpi" then if truthy (ch_series c) then ["> " +:+ kpi_line c] else []
     else match ch_data c with
          | first :: _ =>
            let columns := map fst first in
            [cells columns; rule_cells columns] ++
            map (fun row => cells (map (fun k => py_str float_repr (cell_of row k)) columns)) (take 20 (ch_data c))
          | [] => ["（无数据）"]
          end) ++
    (if truthy (ch_evidence_refs c) then "" :: source_line (ch_evidence_refs c) else []) ++ [""]).

Definition render_markdown_table (t : TableSpec) : string :=
  join nl (["### " +:+ tb_title t; ""] ++
    (if negb (truthy (tb_columns t)) || negb (truthy (tb_rows t)) then ["（无数据）"]
     else [cells (tb_columns t); rule_cells (tb_columns t)] ++ map (fun row => cells (map (py_str float_repr) row)) (take 50 (tb_rows t))) ++
    (if truthy (tb_evidence_refs t) then "" :: source_line (tb_evidence_refs t) else []) ++ [""]).

Definition used_for (d : DataSourceRef) : string := if truthy (ds_sections d) then join "、" (ds_sections d) else "通用分析".

Definition markdown_source (d : DataSourceRef) : string :=
  if String.eqb (ds_source_type d) "db"
  then join "" ["- 数据库：`"; ds_db_id d; "."; ds_table_name d; "`，查询 ID：`"; ds_query_id d; "`，用于："; used_for d]
  else if String.eqb (ds_source_type d) "rag"
  then join "" ["- 知识库：`"; ds_kb_id d; "`，文档：《"; ds_doc_title d; "》"; "（doc_id: `"; ds_doc_id d; "`，chunk_id: `"; ds_chunk_id d;
                "`），用于："; used_for d]
  else join "" ["- "; ds_source_type d; " 来源"].

Definition markdown_claim (c : ReportClaim) : string :=
  let mark := if String.eqb (rc_support_status c) "unsupported" then "（未经验证）" else if rc_needs_human_review c then "（需人工核实）" else "" in
  join "" ["- `"; rc_claim_id c; "` ["; rc_claim_type c; "] "; text_take 80 (rc_text c); mark; " → refs: "; join ", " (rc_evidence_refs c)].

Definition metadata_lines (a : ReportArtifact) : list string :=
  (if truthy (ra_report_type a) then ["**报告类型**: " +:+ ra_report_type a] else []) ++
  (if truthy (ra_created_at a) then ["**生成时间**: " +:+ ra_created_at a] else []) ++
  (if truthy (ra_tenant_id a) then ["**租户**: " +:+ ra_tenant_id a] else []).

Definition markdown_verification (v : VerificationResult) : list string :=
  ["---"; "## 验证结果"; ""; "- 验证通过: " +:+ (if vr_passed v then "是" else "否"); "- 质量分: " +:+ fixed2 (vr_score v)] ++
  (if truthy (vr_issues v) then ["- 问题数: " +:+ pretty (py_len (vr_issues v))] else []) ++ [""].

Definition render_markdown (a : ReportArtifact) : result string :=
  let! sections := rmap render_markdown_section (ra_sections a) in
  Ok (join nl (["# " +:+ ra_title a; ""] ++
    (if truthy (metadata_lines a) then [join ("  " +:+ nl) (metadata_lines a); ""] else []) ++
    (if truthy (ra_summary a) then ["> **摘要**: " +:+ ra_summary a; ""] else []) ++
    ["---"; ""] ++ sections ++ map render_markdown_chart (ra_charts a) ++ map render_markdown_table (ra_tables a) ++
    match ra_verification a with Some v => markdown_verification v | None => [] end ++
    (if truthy (ra_evidence_refs a)
     then ["---"; "## Evidence 引用"; ""] ++ map (fun ref => join "" ["- `"; ref; "`"]) (ra_evidence_refs a) ++ [""] else []) ++
    (if truthy (ra_data_sources a) then ["---"; "## 数据来源"; ""] ++ map markdown_source (ra_data_sources a) ++ [""] else []) ++
    (if truthy (ra_claims a) then ["---"; "## Claim 血缘"; ""] ++ map markdown_claim (ra_claims a) ++ [""] else []))).
End markdown.

(** ** HTML *)

(** [html.escape] *)
Definition escape_char (a : ascii) : string :=
  if Ascii.eqb a "&" then "&amp;" else if Ascii.eqb a "<" then "&lt;" else if Ascii.eqb a ">" then "&gt;"
  else if Ascii.eqb a double_quote then "&quot;" else if Ascii.eqb a single_quote then "&#x27;" else String a "".

Fixpoint escape (s : string) : string :=
  match s with EmptyString => EmptyString | String a s' => String.append (escape_char a) (escape s') end.

(** A literal of the template, in which a tilde stands for a quotation mark. *)
Fixpoint lit (s : string) : string :=
  match s with EmptyString => EmptyString | String a s' => String (if Ascii.eqb a "~" then double_quote else a) (lit s') end.

Section html.
Variable unicode_space : string -> bool.
Variable float_repr : Q -> string.

Definition element (tag body : string) : string := join "" ["<" +:+ tag +:+ ">"; body; "</" +:+ tag +:+ ">"].
Definition code_refs (refs : list string) : string := join " " (map (fun ref => element "code" (escape ref)) refs).
Definition escaped_value (v : pyval) : string := escape (py_str float_repr v).

(** [_markdown_to_html_safe] *)
Definition markdown_to_html_safe (text : string) : string :=
  if negb (truthy text) then ""
  else join "" (map (fun p => element "p" (str_replace nl "<br>" p))
                  (List.filter (fun p => truthy (py_strip unicode_space p)) (str_split (nl +:+ nl) (escape text)))).

Definition evidence_html (label : string) (refs : list string) : string :=
  if truthy refs then join "" [lit "<div class=~evidence~>"; label; ": "; code_refs refs; "</div>"] else "".

Definition render_html_section (s : ReportSection) : string :=
  join "" [lit "<div class=~section~>"; element "h2" (escape (sc_title s)); markdown_to_html_safe (get_or (sc_content s) "");
           evidence_html (element "strong" "引用依据") (sc_evidence_refs s); "</div>"].

Definition html_rows (rows : list (list pyval)) : string :=
  join "" (map (fun row => element "tr" (join "" (map (fun v => element "td" (escaped_value v)) row))) rows).

Definition html_grid (columns : list string) (rows : list (list pyval)) : string :=
  element "table" (join "" [element "thead" (element "tr" (join "" (map (fun c => element "th" (escape c)) columns))); element "tbody" (html_rows rows)]).

Definition html_kpis (c : ChartSpec) : string :=
  join " | " (map (fun s => join "" [element "strong" (escaped_value (cell_of s "name")); ": "; escaped_value (cell_of s "value")]) (ch_series c)).

Definition chart_div (title inner refs : string) : string := join "" [lit "<div class=~chart~>"; element "h3" title; inner; refs; "</div>"].

Definition render_html_chart (c : ChartSpec) : string :=
  let inner :=
    if String.eqb (ch_chart_type c) "kpi"
    then if truthy (ch_series c) then join "" [lit "<div class=~kpi~>"; html_kpis c; "</div>"] else ""
    else match ch_data c with
         | first :: _ => let columns := map fst first in html_grid columns (map (fun row => map (cell_of row) columns) (take 20 (ch_data c)))
         | [] => element "em" "（无数据）"
         end in
  chart_div (escape (ch_title c)) inner (evidence_html "来源" (ch_evidence_refs c)).

Definition render_html_table (t : TableSpec) : string :=
  if negb (truthy (tb_columns t)) || negb (truthy (tb_rows t)) then chart_div (escape (tb_title t)) (element "em" "（无数据）") ""
  else chart_div (escape (tb_title t)) (html_grid (tb_columns t) (take 50 (tb_rows t))) (evidence_html "来源" (tb_evidence_refs t)).

Definition html_used_for (d : DataSourceRef) : string := if truthy (ds_sections d) then escape (join "、" (ds_sections d)) else "通用分析".

Definition html_source (d : DataSourceRef) : string :=
  element "li"
    (if String.eqb (ds_source_type d) "db"
     then join "" ["数据库 "; element "code" (join "." [escape (ds_db_id d); escape (ds_table_name d)]); "，";
                   "查询 ID "; element "code" (escape (ds_query_id d)); "，用于："; html_used_for d]
     else if String.eqb (ds_source_type d) "rag"
     then join "" ["知识库 "; element "code" (escape (ds_kb_id d)); "，"; "文档《"; element "code" (escape (ds_doc_title d)); "》";
                   "（doc_id "; element "code" (escape (ds_doc_id d)); "，chunk_id "; element "code" (escape (ds_chunk_id d)); "），";
                   "用于："; html_used_for d]
     else join "" [escape (ds_source_type d); " 来源"]).

Definition html_claim (c : ReportClaim) : string :=
  let mark := if String.eqb (rc_support_status c) "unsupported" then lit "<span class=~unverified~>（未经验证）</span>"
              else if rc_needs_human_review c then lit "<span class=~needs-review~>（需人工核实）</span>" else "" in
  element "li" (join "" [element "code" (escape (rc_claim_id c)); " ["; escape (rc_claim_type c); "] "; escape (text_take 80 (rc_text c)); " "; mark;
                         " → refs: "; code_refs (rc_evidence_refs c)]).

Definition details (opening title : string) (items : list string) : string :=
  if truthy items then join "" [opening; element "summary" title; element "ul" (join "" items); "</details>"] else "".

Definition html_metadata (a : ReportArtifact) : string :=
  join " | " ((if truthy (ra_report_type a) then ["报告类型: " +:+ escape (ra_report_type a)] else []) ++
              (if truthy (ra_created_at a) then ["生成时间: " +:+ escape (ra_created_at a)] else []) ++
              (if truthy (ra_tenant_id a) then ["租户: " +:+ escape (ra_tenant_id a)] else [])).

Definition html_verification (a : ReportArtifact) : string :=
  match ra_verification a with
  | Some v => element "p" (join "" ["验证: "; if vr_passed v then "通过" else "未通过"; " | "; "质量分: "; fixed2 (vr_score v); " | ";
                                    "问题数: "; pretty (py_len (vr_issues v))])
  | None => ""
  end +:+ (if truthy (ra_evidence_refs a) then element "p" ("Evidence 引用: " +:+ code_refs (ra_evidence_refs a)) else "").

Definition html_content (a : ReportArtifact) : string :=
  join nl (map render_html_section (ra_sections a) ++ map render_html_chart (ra_charts a) ++ map render_html_table (ra_tables a)) +:+
  details (lit "<details class=~data-sources~>") "数据来源" (map html_source (ra_data_sources a)) +:+ details (lit "<details class=~claim-lineage~>") "Claim 血缘" (map html_claim (ra_claims a)).

Definition html_summary (a : ReportArtifact) : string :=
  if truthy (ra_summary a)
  then join "" [lit "<div class=~summary~>"; element "strong" "摘要"; ": "; markdown_to_html_safe (ra_summary a); "</div>"] else "".

(** The style sheet of [HTML_TEMPLATE]. *)
Definition style_lines : list string :=
  [lit "body { font-family: -apple-system, ~Helvetica Neue~, ~Microsoft YaHei~, sans-serif; max-width: 960px; margin: 24px auto; padding: 0 16px; color: #1a1a1a; line-height: 1.6; }";
   "h1, h2, h3 { color: #2c3e50; }";
   "h1 { border-bottom: 2px solid #2c3e50; padding-bottom: 8px; }";
   "h2 { border-bottom: 1px solid #ddd; padding-bottom: 4px; margin-top: 32px; }";
   ".meta { color: #666; font-size: 0.9em; margin-bottom: 24px; }";
   ".summary { background: #f5f7fa; border-left: 4px solid #4a90e2; padding: 12px 16px; margin: 16px 0; }";
   ".evidence { background: #fafafa; padding: 8px 12px; margin: 8px 0; font-size: 0.9em; color: #555; border-left: 2px solid #ddd; }";
   "table { border-collapse: collapse; width: 100%; margin: 16px 0; }";
   "th, td { border: 1px solid #ddd; padding: 8px; text-align: left; }";
   "th { background: #f5f7fa; }";
   ".section { margin: 24px 0; }";
   ".chart { background: #fafbfc; padding: 12px; margin: 16px 0; border: 1px solid #eee; }";
   ".kpi { font-size: 1.1em; padding: 8px 0; }";
   ".footnote { color: #888; font-size: 0.85em; margin-top: 32px; border-top: 1px solid #eee; padding-top: 16px; }";
   ".unverified { color: #d9534f; font-size: 0.85em; font-weight: bold; }";
   ".needs-review { color: #f0ad4e; font-size: 0.85em; font-weight: bold; }";
   ".data-sources, .claim-lineage { background: #fafbfc; border: 1px solid #eee; padding: 8px 12px; margin: 16px 0; }";
   ".data-sources summary, .claim-lineage summary { cursor: pointer; font-weight: bold; color: #2c3e50; }"].

Definition html_opening (language : string) : string := join "" [lit "<html lang=~"; escape language; lit "~>"].

Definition html_head (a : ReportArtifact) : list string :=
  ["<head>";
   lit "<meta charset=~UTF-8~>";
   lit "<meta http-equiv=~Content-Security-Policy~ content=~default-src 'self'; script-src 'none'; style-src 'self' 'unsafe-inline'; img-src 'self' data:;~>";
   join "" ["<title>"; escape (ra_title a); "</title>"];
   "<style>"].

Definition html_body (a : ReportArtifact) : list string :=
  ["</style>";
   "</head>";
   "<body>";
   join "" ["<h1>"; escape (ra_title a); "</h1>"];
   lit "<div class=~meta~>";
   html_metadata a;
   "</div>";
   html_summary a;
   html_content a;
   lit "<div class=~footnote~>";
   join "" ["<p>报告 ID: <code>"; escape (ra_report_id a); "</code> | 生成时间: "; escape (ra_created_at a); "</p>"];
   html_verification a;
   "</div>";
   "</body>";
   "</html>";
   ""].

(** [render_html]: [HTML_TEMPLATE] with its fields. *)
Definition render_html (a : ReportArtifact) : string :=
  join nl ("<!DOCTYPE html>" :: html_opening (ra_language a) :: html_head a ++ style_lines ++ html_body a).
End html.

(** [ReportExporter.export]: the text and the extension of its file. *)
Definition export (unicode_space : string -> bool) (float_repr : Q -> string) (a : ReportArtifact) (format : string) : result (string * string) :=
  let fmt := py_lower format in
  if String.eqb fmt "markdown" || String.eqb fmt "md" then let! text := render_markdown float_repr a in Ok (text, "md")
  else if String.eqb fmt "html" then Ok (render_html unicode_space float_repr a, "html")
  else Raise (ValueError "不支持的报告格式").

(** ** The tags of a page *)

Definition angle_free (a : ascii) : bool := negb (Ascii.eqb a "<") && negb (Ascii.eqb a ">").

(** The texts between angle brackets, in order; [cur] is the open one.  A text
    whose brackets do not match has none. *)
Fixpoint tags_from (cur : option string) (s : string) : option (list string) :=
  match s with
  | EmptyString => match cur with None => Some [] | Some _ => None end
  | String a s' =>
    match cur with
    | None => if Ascii.eqb a "<" then tags_from (Some "") s' else if Ascii.eqb a ">" then None else tags_from None s'
    | Some t => if Ascii.eqb a ">" then option_map (cons t) (tags_from None s') else if Ascii.eqb a "<" then None
                else tags_from (Some (t +:+ String a "")) s'
    end
  end.
Definition tags : string -> option (list string) := tags_from None.

(** The tags of the template and of the elements the renderers write. *)
Definition TEMPLATE_TAGS : list string :=
  ["!DOCTYPE html"; "head"; lit "meta charset=~UTF-8~";
   lit "meta http-equiv=~Content-Security-Policy~ content=~default-src 'self'; script-src 'none'; style-src 'self' 'unsafe-inline'; img-src 'self' data:;~";
   "title"; "/title"; "style"; "/style"; "/head"; "body"; "/body"; "/html"; "h1"; "/h1"; "h2"; "/h2"; "h3"; "/h3";
   lit "div class=~meta~"; lit "div class=~summary~"; lit "div class=~footnote~"; lit "div class=~section~"; lit "div class=~chart~";
   lit "div class=~kpi~"; lit "div class=~evidence~"; "/div"; "p"; "/p"; "br"; "strong"; "/strong"; "em"; "/em"; "code"; "/code"; "table";
   "/table"; "thead"; "/thead"; "tbody"; "/tbody"; "tr"; "/tr"; "th"; "/th"; "td"; "/td"; lit "details class=~data-sources~";
   lit "details class=~claim-lineage~"; "/details"; "summary"; "/summary"; "ul"; "/ul"; "li"; "/li"; lit "span class=~unverified~";
   lit "span class=~needs-review~"; "/span"].

Definition safe (s : string) : Prop := exists l, tags s = Some l /\ forall t, t ∈ l -> t ∈ TEMPLATE_TAGS.
Definition safeb (s : string) : bool := match tags s with Some l => forallb (fun t => str_in t TEMPLATE_TAGS) l | None => false end.

Lemma safeb_sound s : safeb s = true -> safe s.
Proof.
  unfold safeb, safe. destruct (tags s) as [l|]; [|done]. intros H. exists l. split; [done|]. intros t Ht.
  by apply str_in_spec, (proj1 (forallb_true_forall _ _) H).
Qed.

Lemma tags_from_app s1 s2 : forall l cur, tags_from cur s1 = Some l -> tags_from cur (s1 +:+ s2) = option_map (app l) (tags s2).
Proof.
  unfold tags. induction s1 as [|a s1 IH]; intros l cur H.
  - destruct cur; [done|]. injection H as <-. change ("" +:+ s2) with s2. by destruct (tags_from None s2).
  - change (String a s1 +:+ s2) with (String a (s1 +:+ s2)). cbn [tags_from] in *. destruct cur as [t|].
    + destruct (Ascii.eqb a ">"); [|destruct (Ascii.eqb a "<"); [done|by apply IH]].
      destruct (tags_from None s1) as [l1|] eqn:E; [|done]. injection H as <-. rewrite (IH l1 None E). by destruct (tags_from None s2).
    + destruct (Ascii.eqb a "<"); [by apply IH|]. destruct (Ascii.eqb a ">"); [done|by apply IH].
Qed.

Lemma tags_app s1 s2 l : tags s1 = Some l -> tags (s1 +:+ s2) = option_map (app l) (tags s2).
Proof. apply tags_from_app. Qed.

Lemma safe_app s1 s2 : safe s1 -> safe s2 -> safe (s1 +:+ s2).
Proof.
  intros (l1 & E1 & H1) (l2 & E2 & H2). exists (l1 ++ l2). rewrite (tags_app _ _ l1 E1), E2. split; [done|].
  intros t [Ht|Ht]%elem_of_app; auto.
Qed.

Lemma safe_nil : safe "".
Proof. by apply safeb_sound. Qed.

Lemma safe_join sep l : safe sep -> Forall safe l -> safe (join sep l).
Proof.
  intros Hs. induction 1 as [|x l Hx Hl IH]; [apply safe_nil|]. rewrite join_cons. destruct l; [done|]. by repeat apply safe_app.
Qed.

Lemma safe_map {A} (f : A -> string) l : (forall x, safe (f x)) -> Forall safe (map f l).
Proof. intros H. induction l; constructor; auto. Qed.

Lemma safe_if (b : bool) s1 s2 : safe s1 -> safe s2 -> safe (if b then s1 else s2).
Proof. by destruct b. Qed.

Lemma safe_plain s : str_all angle_free s = true -> safe s.
Proof.
  intros H. exists []. split; [|by intros t Ht%not_elem_of_nil]. unfold tags. induction s as [|a s IH]; [done|].
  cbn [str_all] in H. apply andb_prop in H as [Ha Hs]. unfold angle_free in Ha. apply andb_prop in Ha as [H1%negb_true_iff H2%negb_true_iff].
  cbn [tags_from]. rewrite H1, H2. by apply IH.
Qed.

(** No angle bracket and no quotation mark. *)
Definition attribute_safe (a : ascii) : bool := angle_free a && negb (Ascii.eqb a double_quote) && negb (Ascii.eqb a single_quote).

Lemma escape_attribute s : str_all attribute_safe (escape s) = true.
Proof.
  induction s as [|a s IH]; [done|]. cbn [escape]. rewrite str_all_app, IH, andb_true_r. by destruct a as [[] [] [] [] [] [] [] []].
Qed.

Lemma escape_plain s : str_all angle_free (escape s) = true.
Proof. eapply str_all_impl, escape_attribute. intros a Ha. unfold attribute_safe in Ha. do 2 (apply andb_prop in Ha as [Ha _]). done. Qed.

Lemma safe_escape s : safe (escape s).
Proof. apply safe_plain, escape_plain. Qed.

Lemma safe_pretty z : (0 <= z)%Z -> safe (pretty z).
Proof.
  intros Hz. apply safe_plain. eapply str_all_impl; [|by apply pretty_number]. intros a. by destruct a as [[] [] [] [] [] [] [] []].
Qed.

Lemma safe_fixed2 q : safe (fixed2 q).
Proof.
  apply safe_join; [apply safe_nil|]. repeat constructor; try (apply safe_if; by apply safeb_sound); try (by apply safeb_sound); apply safe_pretty.
  - apply Z.div_pos; lia.
  - apply Z.mod_pos_bound. lia.
Qed.

Lemma safe_replace s skip : str_all angle_free s = true -> safe (replace_from nl "<br>" skip s).
Proof.
  revert skip. induction s as [|a s IH]; intros skip H; [apply safe_nil|]. cbn [str_all] in H. apply andb_prop in H as [Ha Hs].
  cbn [replace_from]. destruct skip; [|by apply IH]. destruct (String.prefix nl _).
  - apply safe_app; [by apply safeb_sound|by apply IH].
  - change (String a ?x) with (String a "" +:+ x). apply safe_app; [apply safe_plain; cbn; by rewrite Ha|by apply IH].
Qed.

Lemma split_all p sep s : forall cur skip, str_all p cur = true -> str_all p s = true ->
  Forall (fun x => str_all p x = true) (split_from sep cur skip s).
Proof.
  induction s as [|a s IH]; intros cur skip Hc Hs; cbn [split_from]; [by repeat constructor|]. cbn [str_all] in Hs. apply andb_prop in Hs as [Ha Hs].
  destruct skip; [|by apply IH]. destruct (String.prefix sep _); [constructor; [done|]; by apply IH|].
  apply IH; [|done]. rewrite str_all_app, Hc. cbn. by rewrite Ha.
Qed.

Lemma safe_element tag body : safeb ("<" +:+ tag +:+ ">") = true -> safeb ("</" +:+ tag +:+ ">") = true -> safe body -> safe (element tag body).
Proof.
  intros H1 H2 Hb. unfold element. apply safe_join; [apply safe_nil|]. repeat constructor; auto using safeb_sound.
Qed.

Create HintDb html.
#[export] Hint Resolve safe_nil safe_app safe_join safe_map safe_if safe_escape safe_pretty safe_fixed2 safe_element : html.
#[export] Hint Extern 1 (safe _) => (apply safeb_sound; reflexivity) : html.
#[export] Hint Extern 1 (safeb _ = true) => reflexivity : html.
#[export] Hint Extern 1 (Forall safe []) => constructor : html.
#[export] Hint Extern 2 (Forall safe (_ :: _)) => constructor : html.
#[export] Hint Extern 2 (0 <= _)%Z => (unfold py_len; lia) : html.

Section page.
Variable unicode_space : string -> bool.
Variable float_repr : Q -> string.

Lemma safe_paragraphs text : safe (markdown_to_html_safe unicode_space text).
Proof.
  unfold markdown_to_html_safe. apply safe_if; [auto with html|]. apply safe_join; [auto with html|].
  pose proof (split_all _ (nl +:+ nl) (escape text) "" O eq_refl (escape_plain text)) as H. fold (str_split (nl +:+ nl) (escape text)) in H.
  induction H as [|p l Hp _ IH]; [constructor|]. cbn [List.filter]. destruct (truthy _); [|done]. cbn [map].
  constructor; [|done]. apply safe_element; [done..|]. by apply safe_replace.
Qed.

Lemma safe_evidence label refs : safe label -> safe (evidence_html label refs).
Proof. intros H. unfold evidence_html, code_refs. auto 20 with html. Qed.
#[local] Hint Resolve safe_paragraphs safe_evidence : html.

Lemma safe_section s : safe (render_html_section unicode_space s).
Proof. unfold render_html_section. auto 20 with html. Qed.

Lemma safe_grid columns rows : safe (html_grid float_repr columns rows).
Proof. unfold html_grid, html_rows, escaped_value. auto 30 with html. Qed.

Lemma safe_chart_div title inner refs : safe title -> safe inner -> safe refs -> safe (chart_div title inner refs).
Proof. intros. unfold chart_div. auto 20 with html. Qed.

Lemma safe_kpis c : safe (html_kpis float_repr c).
Proof. unfold html_kpis, escaped_value. auto 20 with html. Qed.
#[local] Hint Resolve safe_section safe_grid safe_chart_div safe_kpis : html.

Lemma safe_chart c : safe (render_html_chart float_repr c).
Proof. unfold render_html_chart. cbv zeta. destruct (ch_data c); auto 20 with html. Qed.

Lemma safe_table t : safe (render_html_table float_repr t).
Proof. unfold render_html_table. auto 20 with html. Qed.

Lemma safe_source d : safe (html_source d).
Proof. unfold html_source, html_used_for. auto 40 with html. Qed.

Lemma safe_claim c : safe (html_claim c).
Proof. unfold html_claim, code_refs. auto 40 with html. Qed.

Lemma safe_details opening title items : safe opening -> safe title -> Forall safe items -> safe (details opening title items).
Proof. intros. unfold details. auto 20 with html. Qed.
#[local] Hint Resolve safe_chart safe_table safe_source safe_claim safe_details : html.

Lemma safe_content a : safe (html_content unicode_space float_repr a).
Proof.
  unfold html_content. apply safe_app; [|auto 20 with html]. apply safe_join; [auto with html|]. rewrite !Forall_app. auto with html.
Qed.

Lemma safe_optional (b : bool) label text : safe label -> Forall safe (if b then [label +:+ escape text] else []).
Proof. intros. destruct b; auto with html. Qed.

Lemma safe_metadata a : safe (html_metadata a).
Proof.
  unfold html_metadata. apply safe_join; [auto with html|]. rewrite !Forall_app. split_and!; apply safe_optional; auto with html.
Qed.

Lemma safe_verification a : safe (html_verification a).
Proof. unfold html_verification, code_refs. apply safe_app; [destruct (ra_verification a)|]; auto 30 with html. Qed.

Lemma safe_summary a : safe (html_summary unicode_space a).
Proof. unfold html_summary. auto 20 with html. Qed.
#[local] Hint Resolve safe_content safe_metadata safe_verification safe_summary : html.

Lemma tags_inside s rest : forall t, str_all angle_free s = true ->
  tags_from (Some t) (s +:+ String ">" rest) = option_map (cons (t +:+ s)) (tags rest).
Proof.
  induction s as [|a s IH]; intros t H.
  - change ("" +:+ String ">" rest) with (String ">" rest). cbn [tags_from]. change (Ascii.eqb ">" ">") with true. cbv iota.
    by rewrite append_nil_r.
  - cbn [str_all] in H. apply andb_prop in H as [Ha Hs]. unfold angle_free in Ha. apply andb_prop in Ha as [H1%negb_true_iff H2%negb_true_iff].
    change (String a s +:+ String ">" rest) with (String a (s +:+ String ">" rest)). cbn [tags_from]. rewrite H1, H2, IH by done.
    by rewrite append_assoc.
Qed.

Lemma opening_tag language s :
  tags (html_opening language +:+ s) = option_map (cons (lit "html lang=~" +:+ escape language +:+ lit "~")) (tags ("" +:+ s)).
Proof.
  change (html_opening language) with (String "<" (lit "html lang=~" +:+ (escape language +:+ lit "~>"))).
  change (lit "~>") with (lit "~" +:+ ">"). rewrite <- !append_assoc.
  change (String "<" ?x +:+ s) with (String "<" (x +:+ s)). unfold tags at 1. change (tags_from None (String "<" ?x)) with (tags_from (Some "") x).
  rewrite append_assoc. change (">" +:+ s) with (String ">" s). rewrite tags_inside; [by rewrite append_assoc|].
  rewrite !str_all_app, escape_plain. done.
Qed.

(** [C32] No text of a report becomes markup: whatever the report, the brackets of
    its page match, and its tags are the document type, the opening tag with its
    language, in which nothing ends the attribute, and tags of the template; in
    particular there is no script. *)
Theorem page_has_template_tags a : exists l,
  tags (render_html unicode_space float_repr a) = Some ("!DOCTYPE html" :: (lit "html lang=~" +:+ escape (ra_language a) +:+ lit "~") :: l) /\
  str_all attribute_safe (escape (ra_language a)) = true /\ forall t, t ∈ l -> t ∈ TEMPLATE_TAGS.
Proof.
  unfold render_html. generalize (eq_refl (html_head a ++ style_lines ++ html_body unicode_space float_repr a)). generalize (html_head a ++ style_lines ++ html_body unicode_space float_repr a) at 1 3. intros rest Er.
  assert (Forall safe rest) as Hrest.
  { rewrite Er. unfold html_head, style_lines, html_body. rewrite !Forall_app. split_and!; auto 50 with html. }
  assert (rest <> []) as Hne by (by rewrite Er). clear Er.
  destruct (safe_join nl ("" :: rest)) as (l & El & Hl); [auto with html..|]. exists l. split; [|split; [apply escape_attribute|done]].
  rewrite join_cons. rewrite (tags_app _ _ ["!DOCTYPE html"]) by done. rewrite (tags_app nl _ []) by done.
  rewrite join_cons in El. rewrite join_cons. destruct rest as [|x rest]; [done|]. by rewrite opening_tag, El.
Qed.
End page.
