(* ===== verification/ReportTool.v ===== *)
(** * The report tool (tools/report/report_tool.py)

    [invoke] from its input to its output: the skill set, the checks of the
    input and of the evidence, the plan, the content, the claims, the review,
    the verification, the export and the store.  The resolver and the registry
    of skills, the model and the store are arguments; the times that are only
    reported are arguments too. *)

From stdpp Require Import pretty.
From S2P Require Import Prelude PyFloat PyVal PyList PyText PyRegex RegExp AgentState PreFilter Observability ReportData ReportScan ReportBuild ReportClaims ReportVerify ReportStorage ReportExport.

(** ** Input and output *)

Definition REPORT_INPUT_INVALID : string := "REPORT_INPUT_INVALID".
Definition REPORT_EVIDENCE_INSUFFICIENT : string := "REPORT_EVIDENCE_INSUFFICIENT".
Definition REPORT_VERIFICATION_FAILED : string := "REPORT_VERIFICATION_FAILED".
Definition REPORT_EXPORT_FAILED : string := "REPORT_EXPORT_FAILED".
Definition REPORT_STORAGE_FAILED : string := "REPORT_STORAGE_FAILED".
Definition REPORT_PUBLISH_PENDING : string := "REPORT_PUBLISH_PENDING".
Definition REPORT_REJECTED : string := "REPORT_REJECTED".

Definition ALLOWED_REPORT_TYPES : list string :=
  ["business_analysis"; "quality_analysis"; "operations_analysis"; "factory_performance"; "delivery_analysis"; "production_daily"; "cost_analysis";
   "trend_analysis"; "comparison"; "knowledge_summary"; "management_briefing"].
Definition ALLOWED_FORMATS_STAGE1 : list string := ["markdown"; "html"].

Record EvidenceRequirement : Type := mkRequirement {
  er_required : bool; er_evidence_id : string; er_source_target_id : option string; er_table_name : option string }.

(** The report skill and the requirements of the data and retrieval skills. *)
Record ResolvedSkillSet : Type := mkSkillSet {
  ks_report : ReportSkill; ks_data : option (list EvidenceRequirement); ks_retrieval : option (list EvidenceRequirement) }.

(** An entry of the registry. *)
Inductive RegisteredSkill : Type :=
  | DataSkill (requirements : list EvidenceRequirement)
  | RetrievalSkill (requirements : list EvidenceRequirement)
  | OtherSkill.

Record SkillResolveContext : Type := mkResolveContext {
  rx_user_question : string; rx_tenant_id : string; rx_skill_id : option string; rx_report_type : option string; rx_route_decision : option pydict }.

(** A field is [None] where its key is absent; a limit may also be null.  A
    skill set that is supplied has passed or failed its validation. *)
Record ReportToolInput : Type := mkInput {
  in_skill_set : option (result ResolvedSkillSet); in_skill_id : option string; in_data_skill_id : option string; in_retrieval_skill_id : option string;
  in_route_decision : option pydict; in_report_type : option string; in_format : option string; in_title : option string; in_objective : option string;
  in_audience : option string; in_language : option string; in_tenant_id : option string; in_user_id : option string;
  in_evidence : option (list ReportEvidence); in_max_sections : option (option Z); in_max_charts : option (option Z); in_max_tables : option (option Z) }.

Record ReportToolOutput : Type := mkOutput {
  ro_success : bool; ro_error_message : string; ro_error_code : string; ro_artifact : option ReportArtifact; ro_summary : string; ro_quality_score : Q;
  ro_section_count : Z; ro_chart_count : Z; ro_table_count : Z; ro_evidence_count : Z; ro_generation_time_ms : Z; ro_export_time_ms : Z;
  ro_file_uri : string; ro_download_url : string; ro_partial : bool; ro_publish_mode : string; ro_publish_status : string;
  ro_needs_human_review : bool; ro_missing_required_evidence : list string }.

(** The configuration with its defaults. *)
Record ReportConfig : Type := mkConfig {
  rg_min_evidence_count : Z; rg_max_sections : Z; rg_max_table_rows : Z; rg_low_confidence_threshold : Q; rg_low_confidence_ratio_threshold : Q;
  rg_scan_sensitive_data : bool; rg_require_verified_evidence : bool }.
Definition default_config : ReportConfig :=
  mkConfig 1 10 100 DEFAULT_LOW_CONFIDENCE_THRESHOLD DEFAULT_LOW_CONFIDENCE_RATIO_THRESHOLD true true.

(** A store: what [save] makes of its state for the tenant, the report, its
    text and its extension. *)
Record ArtifactStorage (S : Type) : Type := mkStorage {
  save_artifact : S -> string -> string -> string -> string -> result (S * StorageResult) }.
Arguments save_artifact {S} _ _ _ _ _ _.

Definition local_storage (root : path) (base : string) (now : Z) : ArtifactStorage files :=
  mkStorage _ (fun fs tenant report content extension => save root base now fs tenant report content extension).

(** ** The steps *)

Section skills.
(** [SkillRegistry().get_by_id] and [SkillResolver(registry).resolve], with its reason. *)
Variable get_by_id : string -> option RegisteredSkill.
Variable resolve : SkillResolveContext -> option ResolvedSkillSet * string.
Variable exc_text : pyexc -> string.

Definition resolve_context (i : ReportToolInput) : SkillResolveContext :=
  mkResolveContext (get_or (in_objective i) "") (get_or (in_tenant_id i) "") (in_skill_id i) (in_report_type i) (in_route_decision i).

(** [_resolve_skill_set]; the text is the error. *)
Definition resolve_skill_set (i : ReportToolInput) : option ResolvedSkillSet + string :=
  match in_skill_set i with
  | Some (Ok k) => inl (Some k)
  | Some (Raise e) => inr ("无效的 skill_set: " +:+ exc_text e)
  | None =>
    if negb (existsb (fun o : option string => truthy o) [in_skill_id i; in_data_skill_id i; in_retrieval_skill_id i]) then inl None
    else
      match resolve (resolve_context i) with
      | (None, reason) => inr reason
      | (Some k, _) =>
        let with_data :=
          match in_data_skill_id i with
          | Some id =>
            if truthy id then
              match get_by_id id with
              | Some (DataSkill r) => inl (mkSkillSet (ks_report k) (Some r) (ks_retrieval k))
              | _ => inr ("DATA_SKILL_NOT_FOUND: " +:+ id)
              end
            else inl k
          | None => inl k
          end in
        match with_data with
        | inr e => inr e
        | inl k =>
          match in_retrieval_skill_id i with
          | Some id =>
            if truthy id then
              match get_by_id id with
              | Some (RetrievalSkill r) => inl (Some (mkSkillSet (ks_report k) (ks_data k) (Some r)))
              | _ => inr ("RETRIEVAL_SKILL_NOT_FOUND: " +:+ id)
              end
            else inl (Some k)
          | None => inl (Some k)
          end
        end
      end
  end.
End skills.

Definition requirement_met (evidence : list ReportEvidence) (r : EvidenceRequirement) : bool :=
  existsb (fun e => String.eqb (re_evidence_id e) (er_evidence_id r) ||
             match er_source_target_id r with Some t => bool_decide (re_source_target_id e = Some t) | None => false end ||
             match er_table_name r with Some t => bool_decide (re_table_name e = Some t) | None => false end) evidence.

Definition requirements (k : ResolvedSkillSet) : list EvidenceRequirement := get_or (ks_data k) [] ++ get_or (ks_retrieval k) [].

Definition source_count (source_type : string) (evidence : list ReportEvidence) : Z :=
  py_len (List.filter (fun e => String.eqb (re_source_type e) source_type) evidence).

(** [_missing_required_evidence] *)
Definition missing_required_evidence (k : ResolvedSkillSet) (evidence : list ReportEvidence) : list string :=
  fold_left (fun l id => append_new id l)
    (map er_evidence_id (List.filter (fun r => er_required r && negb (requirement_met evidence r)) (requirements k)) ++
     (if (source_count "db" evidence <? get_or (rk_min_db_evidence (ks_report k)) 0)%Z then ["minimum_db_evidence"] else []) ++
     (if (source_count "rag" evidence <? get_or (rk_min_rag_evidence (ks_report k)) 0)%Z then ["minimum_rag_evidence"] else [])) [].

(** [_validate_input], after the defaults of the skill set. *)
Definition is_empty_input (i : ReportToolInput) : bool :=
  match i with
  | mkInput None None None None None None None None None None None None None None None None None => true
  | _ => false
  end.

Definition validate_input (i : ReportToolInput) : option string :=
  let report_type := get_or (in_report_type i) "" in
  let fmt := get_or (in_format i) "markdown" in
  if is_empty_input i then Some "input_data 不能为空"
  else if negb (truthy report_type) then Some "report_type 不能为空"
  else if negb (str_in report_type ALLOWED_REPORT_TYPES) then Some ("不支持的 report_type: " +:+ report_type)
  else if negb (str_in fmt ALLOWED_FORMATS_STAGE1) then Some (join "" ["阶段一不支持的报告格式: "; fmt; "（仅支持 markdown / html）"])
  else if negb (truthy (get_or (in_tenant_id i) "")) then Some "tenant_id 不能为空"
  else None.

(** [effective_input.setdefault(...)] *)
Definition with_skill_defaults (k : option ResolvedSkillSet) (i : ReportToolInput) : ReportToolInput :=
  match k with
  | None => i
  | Some k =>
    mkInput (in_skill_set i) (in_skill_id i) (in_data_skill_id i) (in_retrieval_skill_id i) (in_route_decision i)
      (Some (get_or (in_report_type i) (rk_report_type (ks_report k))))
      (Some (get_or (in_format i) (py_or (rk_default_format (ks_report k)) "markdown"))) (in_title i) (in_objective i) (in_audience i) (in_language i)
      (in_tenant_id i) (in_user_id i) (in_evidence i) (in_max_sections i) (in_max_charts i) (in_max_tables i)
  end.

(** [_error_output] and [_skill_evidence_error] *)
Definition error_output (message code : string) (ms : Z) : ReportToolOutput :=
  mkOutput false message code None "" 0 0 0 0 0 ms 0 "" "" false "full" "" false [].

Definition skill_evidence_error (k : ResolvedSkillSet) (missing : list string) (ms : Z) : ReportToolOutput :=
  let mode := if truthy (get_or (dlookup "allow_summary_only" (rk_publish_policy (ks_report k))) (VBool false)) then "summary_only" else "partial" in
  mkOutput false (join "" ["Skill '"; rk_skill_id (ks_report k); "' 缺少必需证据: "; join ", " missing]) REPORT_EVIDENCE_INSUFFICIENT None "" 0 0 0 0 0
    ms 0 "" "" true mode "" false missing.

(** [_build_summary] *)
Definition first_paragraph (text : string) : string := get_or (head (str_split (nl +:+ nl) text)) "".

Definition build_summary (unicode_space : string -> bool) (sections : list ReportSection) : string :=
  match sections with
  | [] => "报告章节未生成。"
  | _ =>
    let combined := join nl (map first_paragraph (List.filter (fun c => truthy c) (map (fun s => py_strip unicode_space (get_or (sc_content s) "")) sections))) in
    if (text_len combined >? 500)%Z then text_take 500 combined +:+ "…" else combined
  end.

(** [_collect_evidence_refs] *)
Definition collect_evidence_refs (sections : list ReportSection) (charts : list ChartSpec) (tables : list TableSpec) : list string :=
  fold_left (fun l ref => if truthy ref then append_new ref l else l)
    (concat (map sc_evidence_refs sections) ++ concat (map ch_evidence_refs charts) ++ concat (map tb_evidence_refs tables)) [].

(** [_compute_coverage] *)
Definition compute_coverage (p : ReportPlan) : Q :=
  match rp_sections p with
  | [] => 0
  | l => fround (fdiv (inject_Z (py_len (List.filter pn_evidence_ready l))) (inject_Z (py_len l))) 2
  end.

Definition with_verification (v : VerificationResult) (a : ReportArtifact) : ReportArtifact :=
  mkArtifact (ra_report_id a) (ra_title a) (ra_report_type a) (ra_format a) (ra_language a) (ra_summary a) (ra_sections a) (ra_charts a) (ra_tables a)
    (ra_evidence_refs a) (ra_claims a) (ra_data_sources a) (ra_source_summary a) (ra_human_review a) (ra_publish_status a) (ra_publish_status_reason a)
    (Some v) (ra_tenant_id a) (ra_user_id a) (ra_created_at a) (ra_file_uri a) (ra_file_size_bytes a) (ra_partial a) (ra_failed_sections a)
    (ra_coverage_score a).

Definition with_file (status file_uri : string) (size : Z) (a : ReportArtifact) : ReportArtifact :=
  mkArtifact (ra_report_id a) (ra_title a) (ra_report_type a) (ra_format a) (ra_language a) (ra_summary a) (ra_sections a) (ra_charts a) (ra_tables a)
    (ra_evidence_refs a) (ra_claims a) (ra_data_sources a) (ra_source_summary a) (ra_human_review a) status (ra_publish_status_reason a)
    (ra_verification a) (ra_tenant_id a) (ra_user_id a) (ra_created_at a) file_uri size (ra_partial a) (ra_failed_sections a) (ra_coverage_score a).

(** ** [invoke] *)

Section tool.
Variable unicode_space unicode_digit unicode_word : string -> bool.
Variable json_loads : string -> option pyval.
Variable float_of_text : string -> option Q.
Variable float_repr format2 : Q -> string.
Variable set_repr : list string -> string.
Variable casefold md5 : string -> string.
Variable get_by_id : string -> option RegisteredSkill.
Variable resolve : SkillResolveContext -> option ResolvedSkillSet * string.
Variable exc_text : pyexc -> string.
(** The model, the digits of the new id, the time and the measured times. *)
Variable llm : option (string -> result string).
Variable uuid_hex now_iso : string.
Variable error_ms generation_ms export_ms : Z.
Variable cfg : ReportConfig.

(** What the first two steps pass on. *)
Record Prepared : Type := mkPrepared { pr_skills : option ResolvedSkillSet; pr_input : ReportToolInput; pr_evidence : list ReportEvidence }.

Definition min_evidence (k : option ResolvedSkillSet) : Z :=
  match k with Some k => Z.max (rg_min_evidence_count cfg) (get_or (rk_min_evidence (ks_report k)) 0%Z) | None => rg_min_evidence_count cfg end.

Definition missing_of (k : option ResolvedSkillSet) (evidence : list ReportEvidence) : list string :=
  match k with Some k => missing_required_evidence k evidence | None => [] end.

Definition prepare (i : ReportToolInput) : Prepared + ReportToolOutput :=
  match resolve_skill_set get_by_id resolve exc_text i with
  | inr e => inr (error_output e REPORT_INPUT_INVALID error_ms)
  | inl k =>
    let i := with_skill_defaults k i in
    match validate_input i with
    | Some e => inr (error_output e REPORT_INPUT_INVALID error_ms)
    | None =>
      let evidence := get_or (in_evidence i) [] in
      match k, missing_of k evidence with
      | Some ks, m :: ms => inr (skill_evidence_error ks (m :: ms) error_ms)
      | _, _ =>
        if (py_len evidence <? min_evidence k)%Z
        then inr (error_output (join "" ["证据不足：当前 "; pretty (py_len evidence); " 条，期望至少 "; pretty (min_evidence k); " 条"])
                    REPORT_EVIDENCE_INSUFFICIENT error_ms)
        else inl (mkPrepared k i evidence)
      end
    end
  end.

Definition report_type_of (i : ReportToolInput) : string := get_or (in_report_type i) "".

Definition report_plan (p : Prepared) : ReportPlan :=
  let i := pr_input p in
  let title := py_or (get_or (in_title i) "") (get_default_title (report_type_of i)) in
  let objective := get_or (in_objective i) "" in
  let max_sections := get_or (in_max_sections i) None in
  match pr_skills p with
  | Some k => plan_from_skill (rg_max_sections cfg) (ks_report k) title (pr_evidence p) objective max_sections
  | None => plan set_repr (rg_max_sections cfg) (report_type_of i) title (pr_evidence p) objective max_sections
  end.

(** A limit that is null cannot be compared. *)
Definition limit_of (o : option (option Z)) (default : Z) : result Z :=
  match get_or o (Some default) with Some n => Ok n | None => Raise (TypeError "'>' not supported between instances of 'int' and 'NoneType'") end.

Record Content : Type := mkContent {
  ct_plan : ReportPlan; ct_failed : list string; ct_sections : list ReportSection; ct_charts : list ChartSpec; ct_tables : list TableSpec;
  ct_claims : list ReportClaim }.

Definition generate_content (p : Prepared) (max_charts max_tables : Z) : result Content :=
  let rp := report_plan p in
  let evidence := pr_evidence p in
  let (raw, failed) := generate_sections unicode_space json_loads float_of_text llm rp evidence in
  let! sections := sections_from 0 raw in
  let charts := build_charts max_charts evidence in
  let tables := build_tables (rg_max_table_rows cfg) max_tables evidence in
  let (charts, tables) :=
    match pr_skills p with
    | Some k => (map (chart_metrics (rk_metrics (ks_report k))) charts, map (table_metrics (rk_metrics (ks_report k))) tables)
    | None => (charts, tables)
    end in
  let '(sections, charts, tables, claims) :=
    build_claims unicode_space md5 float_repr format2 (rg_low_confidence_threshold cfg) sections charts tables evidence in
  Ok (mkContent rp failed sections charts tables claims).

Definition publish_policy_of (p : Prepared) : option pydict := option_map (fun k => rk_publish_policy (ks_report k)) (pr_skills p).

Definition review (p : Prepared) (c : Content) : string * string * pydict :=
  evaluate format2 float_repr (ct_claims c) (publish_policy_of p) (report_type_of (pr_input p)) (rg_low_confidence_threshold cfg)
    (rg_low_confidence_ratio_threshold cfg).

Definition build_artifact (p : Prepared) (c : Content) : ReportArtifact :=
  let i := pr_input p in
  let '(status, reason, human) := review p c in
  let sources := collect (pr_evidence p) (ct_sections c) (ct_charts c) (ct_tables c) (ct_claims c) in
  mkArtifact (generate_report_id uuid_hex) (rp_title (ct_plan c)) (report_type_of i) (get_or (in_format i) "markdown") (get_or (in_language i) "zh_CN")
    (build_summary unicode_space (ct_sections c)) (ct_sections c) (ct_charts c) (ct_tables c)
    (collect_evidence_refs (ct_sections c) (ct_charts c) (ct_tables c)) (ct_claims c) sources (build_source_summary sources (ct_sections c))
    human status reason None (get_or (in_tenant_id i) "") (get_or (in_user_id i) "") now_iso "" 0 (truthy (ct_failed c)) (ct_failed c)
    (compute_coverage (ct_plan c)).

Definition verify_options (p : Prepared) (max_sections max_charts max_tables : Z) : VerifyOptions :=
  mkVerifyOptions max_sections max_charts max_tables (rg_scan_sensitive_data cfg)
    (match pr_skills p with Some k => rk_claim_rules (ks_report k) | None => [] end) (get_or (publish_policy_of p) [])
    (match pr_skills p with Some k => rk_core_sections (ks_report k) | None => [] end).

Definition verify_report (o : VerifyOptions) (a : ReportArtifact) (evidence : list ReportEvidence) : VerificationResult :=
  verify unicode_space unicode_digit unicode_word float_repr set_repr casefold o a evidence.

(** The output about a report that was generated. *)
Definition report_output (a : ReportArtifact) (v : VerificationResult) (evidence : list ReportEvidence) (success : bool)
    (message code summary : string) (export_time : Z) (file_uri link : string) (partial : bool) : ReportToolOutput :=
  mkOutput success message code (Some a) summary (vr_score v) (py_len (ra_sections a)) (py_len (ra_charts a)) (py_len (ra_tables a)) (py_len evidence)
    generation_ms export_time file_uri link partial (if partial then "partial" else "full") (ra_publish_status a)
    (String.eqb (ra_publish_status a) "pending_review") [].

Definition verification_failed (a : ReportArtifact) (v : VerificationResult) (evidence : list ReportEvidence) : ReportToolOutput :=
  report_output a v evidence false "报告验证未通过，无法导出" REPORT_VERIFICATION_FAILED
    "报告生成过程中发现部分数字无法与数据来源匹配，当前未导出正式报告。" 0 "" "" true.

Section store.
Context {S : Type} (storage : ArtifactStorage S).

(** Steps 9 and 10, for the exported text. *)
Definition store_report (a : ReportArtifact) (v : VerificationResult) (evidence : list ReportEvidence) (content extension : string) (s : S)
    : S * ReportToolOutput :=
  let status := ra_publish_status a in
  match save_artifact storage s (py_or (ra_tenant_id a) "unknown") (ra_report_id a) content extension with
  | Raise e =>
    (s, report_output a v evidence true ("存储失败: " +:+ exc_text e) REPORT_STORAGE_FAILED "报告生成成功但存储失败，可内联查看。" export_ms "" "" true)
  | Ok (s', r) =>
    let link := if str_in status ["approved"; "published"] then st_download_url r else "" in
    let final := if String.eqb status "approved" then "published" else status in
    let a := with_file final (st_file_uri r) (st_file_size_bytes r) a in
    let pending := String.eqb final "pending_review" in
    let rejected := String.eqb final "rejected" in
    let reason := ra_publish_status_reason a in
    (s', report_output a v evidence true
           (if pending then join "" ["报告进入人工审核（"; reason; "）"] else if rejected then "报告被驳回: " +:+ reason else "")
           (if pending then REPORT_PUBLISH_PENDING else if rejected then REPORT_REJECTED else "")
           (ra_summary a) export_ms (st_file_uri r) link (ra_partial a || pending))
  end.

Definition publish_report (a : ReportArtifact) (v : VerificationResult) (evidence : list ReportEvidence) (s : S) : S * ReportToolOutput :=
  if rg_require_verified_evidence cfg && negb (vr_passed v)
  then (s, verification_failed a v evidence)
  else
    match export unicode_space float_repr a (ra_format a) with
    | Raise e => (s, report_output a v evidence false ("导出失败: " +:+ exc_text e) REPORT_EXPORT_FAILED "报告生成成功但导出失败。" 0 "" "" true)
    | Ok (content, extension) => store_report a v evidence content extension s
    end.

Definition invoke (i : ReportToolInput) (s : S) : result (S * ReportToolOutput) :=
  match prepare i with
  | inr out => Ok (s, out)
  | inl p =>
    let! max_charts := limit_of (in_max_charts (pr_input p)) 6 in
    let! max_tables := limit_of (in_max_tables (pr_input p)) 8 in
    let! max_sections := limit_of (in_max_sections (pr_input p)) 10 in
    let! c := generate_content p max_charts max_tables in
    let a := build_artifact p c in
    let v := verify_report (verify_options p max_sections max_charts max_tables) a (pr_evidence p) in
    Ok (publish_report (with_verification v a) v (pr_evidence p) s)
  end.

(** ** What is published *)

Lemma prepare_ok i p : prepare i = inl p ->
  missing_of (pr_skills p) (pr_evidence p) = [] /\ (min_evidence (pr_skills p) <= py_len (pr_evidence p))%Z /\
  report_type_of (pr_input p) ∈ ALLOWED_REPORT_TYPES /\ get_or (in_tenant_id (pr_input p)) "" <> "".
Proof.
  unfold prepare. destruct (resolve_skill_set _ _ _ i) as [k|e]; [|done]. cbv zeta. destruct (validate_input _) as [e|] eqn:Ev; [done|].
  set (evidence := get_or _ _) in *. intros H.
  assert (missing_of k evidence = [] /\ (py_len evidence <? min_evidence k)%Z = false /\ p = mkPrepared k (with_skill_defaults k i) evidence)
    as (E1 & E2 & ->).
  { destruct k as [ks|]; [destruct (missing_of (Some ks) evidence) eqn:Em; [|done]|]; destruct (_ <? _)%Z eqn:El; try done; by injection H as <-. }
  cbn [pr_skills pr_evidence pr_input]. split; [done|]. split; [lia|].
  unfold validate_input in Ev. cbv zeta in Ev. destruct (is_empty_input _); [done|]. fold (report_type_of (with_skill_defaults k i)) in Ev.
  destruct (negb (truthy (report_type_of _))); [done|]. destruct (str_in (report_type_of _) _) eqn:Et; [|done]. cbn [negb] in Ev.
  destruct (negb (str_in _ ALLOWED_FORMATS_STAGE1)); [done|]. split; [by apply str_in_spec|]. intros E. by rewrite E in Ev.
Qed.

Lemma rejected_output i out : prepare i = inr out -> ro_success out = false /\ ro_download_url out = "" /\ ro_file_uri out = "" /\ ro_artifact out = None.
Proof.
  unfold prepare. destruct (resolve_skill_set _ _ _ i) as [k|e]; [|by intros [= <-]]. cbv zeta. destruct (validate_input _) as [e|]; [by intros [= <-]|].
  destruct k as [ks|]; [destruct (missing_of _ _); [|by intros [= <-]]|]; destruct (_ <? _)%Z; try done; by intros [= <-].
Qed.

(** No reviewer has to see a report with these claims. *)
Definition needs_no_review (p : Prepared) (claims : list ReportClaim) : Prop :=
  (forall policy, publish_policy_of p = Some policy -> truthy (get_or (dlookup "require_human_review" policy) (VBool false)) = false) /\
  report_type_of (pr_input p) ∉ HIGH_SENSITIVITY_SKILL_TYPES /\
  (claims <> [] -> fgt (low_ratio (rg_low_confidence_threshold cfg) claims) (rg_low_confidence_ratio_threshold cfg) = false).

Lemma review_status p c : (review p c).1.1 = "approved" /\ needs_no_review p (ct_claims c) \/ (review p c).1.1 = "pending_review".
Proof.
  unfold review, evaluate, should_require_human_review, needs_no_review. destruct (publish_policy_of p) as [policy|].
  - destruct (truthy (get_or _ _)) eqn:Er; [by right|]. destruct (str_in _ _) eqn:Es; [by right|]. apply str_in_false in Es.
    destruct (ct_claims c) as [|x l]; [left; split; [done|]; split_and!; [by intros ? [= <-]|done..]|].
    destruct (fgt _ _) eqn:Ef; [by right|]. left. split; [done|]. split_and!; [by intros ? [= <-]|done..].
  - destruct (str_in _ _) eqn:Es; [by right|]. apply str_in_false in Es.
    destruct (ct_claims c) as [|x l]; [left; by split|]. destruct (fgt _ _) eqn:Ef; [by right|]. left. by split.
Qed.

Lemma build_artifact_fields p c : ra_claims (build_artifact p c) = ct_claims c /\ ra_publish_status (build_artifact p c) = (review p c).1.1.
Proof. unfold build_artifact. by destruct (review p c) as [[status reason] human]. Qed.

(** [C5] A report with a public link is published: its skill's evidence was there,
    no reviewer has to see it, and, where the configuration requires verified
    evidence, it is publishable on the evidence of the call. *)
Theorem linked_report_is_publishable i s s' out : invoke i s = Ok (s', out) -> ro_download_url out <> "" ->
  exists p a o, prepare i = inl p /\ ro_artifact out = Some a /\ ro_publish_status out = "published" /\ ra_publish_status a = "published" /\
    missing_of (pr_skills p) (pr_evidence p) = [] /\ (min_evidence (pr_skills p) <= py_len (pr_evidence p))%Z /\ needs_no_review p (ra_claims a) /\
    vo_scan_sensitive o = rg_scan_sensitive_data cfg /\
    (rg_require_verified_evidence cfg = true ->
     publishable unicode_space unicode_digit unicode_word float_repr casefold o a (pr_evidence p)).
Proof.
  unfold invoke. destruct (prepare i) as [p|out0] eqn:Ep.
  - destruct (limit_of _ 6) as [n1|]; [|done]. cbn [rbind]. destruct (limit_of _ 8) as [n2|]; [|done]. cbn [rbind].
    destruct (limit_of _ 10) as [n3|]; [|done]. cbn [rbind]. destruct (generate_content p n1 n2) as [c|]; [|done]. cbn [rbind]. cbv zeta.
    set (o := verify_options p n3 n1 n2). set (a := build_artifact p c). set (v := verify_report o a (pr_evidence p)). intros [= H] Hlink.
    unfold publish_report in H. destruct (rg_require_verified_evidence cfg && negb (vr_passed v)) eqn:Ev; [injection H as <- <-; by destruct Hlink|].
    destruct (export _ _ _ _) as [[content extension]|]; [|injection H as <- <-; by destruct Hlink].
    unfold store_report in H. destruct (save_artifact _ _ _ _ _ _) as [[s1 r]|]; [|injection H as <- <-; by destruct Hlink].
    pose proof (build_artifact_fields p c) as [Hclaims Hstatus]. fold a in Hclaims, Hstatus.
    cbv zeta in H. injection H as <- <-. cbn [ro_download_url report_output] in Hlink.
    change (ra_publish_status (with_verification v a)) with (ra_publish_status a) in *.
    destruct (review_status p c) as [[Hr Hneeds]|Hr]; rewrite Hr in Hstatus; [|by rewrite Hstatus in Hlink].
    exists p, (with_file "published" (st_file_uri r) (st_file_size_bytes r) (with_verification v a)), o. rewrite Hstatus.
    destruct (prepare_ok i p Ep) as (Hm & Hmin & _ & _). split_and!; try done.
    + change (needs_no_review p (ra_claims a)). by rewrite Hclaims.
    + intros Hreq. rewrite Hreq in Ev. cbn [andb] in Ev. apply negb_false_iff in Ev. unfold v, verify_report in Ev.
      apply verify_passes_iff in Ev. destruct Ev. by constructor.
  - intros [= <- <-] Hlink. by apply rejected_output in Ep as (_ & Ep & _).
Qed.

(** What one call does to the store: nothing, or the file of one report whose
    preparation succeeded. *)
Lemma invoke_store i s s' out : invoke i s = Ok (s', out) ->
  s' = s /\ (ro_success out = false -> ro_download_url out = "" /\ ro_file_uri out = "" /\
    ro_error_code out ∈ [REPORT_INPUT_INVALID; REPORT_EVIDENCE_INSUFFICIENT; REPORT_VERIFICATION_FAILED; REPORT_EXPORT_FAILED]) \/
  ro_success out = true /\ exists p content extension r, prepare i = inl p /\
    save_artifact storage s (get_or (in_tenant_id (pr_input p)) "") (generate_report_id uuid_hex) content extension = Ok (s', r).
Proof.
  unfold invoke. destruct (prepare i) as [p|out0] eqn:Ep.
  - destruct (limit_of _ 6) as [n1|]; [|done]. cbn [rbind]. destruct (limit_of _ 8) as [n2|]; [|done]. cbn [rbind].
    destruct (limit_of _ 10) as [n3|]; [|done]. cbn [rbind]. destruct (generate_content p n1 n2) as [c|]; [|done]. cbn [rbind]. cbv zeta.
    set (v := verify_report _ _ _). intros [= H].
    assert (forall v, ra_tenant_id (with_verification v (build_artifact p c)) = get_or (in_tenant_id (pr_input p)) "" /\
                      ra_report_id (with_verification v (build_artifact p c)) = generate_report_id uuid_hex) as Ha.
    { intros v'. unfold build_artifact. by destruct (review p c) as [[? ?] ?]. }
    specialize (Ha v). set (a := with_verification v _) in *. clearbody a v. unfold publish_report in H.
    destruct (_ && _); [injection H as <- <-; left; split; [done|]; intros _; split_and!; [done..|str_mem]|].
    destruct (export _ _ _ _) as [[content extension]|]; [|injection H as <- <-; left; split; [done|]; intros _; split_and!; [done..|str_mem]].
    unfold store_report in H. destruct (save_artifact _ _ _ _ _ _) as [[s1 r]|] eqn:Es; [|injection H as <- <-; by left].
    injection H as <- <-. right. split; [done|]. exists p, content, extension, r. split; [done|].
    destruct Ha as [Ht Hr]. rewrite Ht, Hr in Es. destruct (prepare_ok i p Ep) as (_ & _ & _ & Hne). unfold py_or in Es.
    destruct (truthy _) eqn:E; [done|]. exfalso. apply Hne. unfold truthy, truthy_string in E. by apply negb_false_iff, String.eqb_eq in E.
  - intros [= <- <-]. left. split; [done|]. intros _. destruct (rejected_output i out0 Ep) as (_ & Hl & Hf & _). split_and!; [done..|].
    revert Ep. unfold prepare. destruct (resolve_skill_set _ _ _ i) as [k|e]; [|intros [= <-]; str_mem]. cbv zeta.
    destruct (validate_input _) as [e|]; [intros [= <-]; str_mem|].
    destruct k as [ks|]; [destruct (missing_of _ _); [|intros [= <-]; str_mem]|]; destruct (_ <? _)%Z; try done; intros [= <-]; str_mem.
Qed.

Lemma prepare_tenant i p : prepare i = inl p -> in_tenant_id (pr_input p) = in_tenant_id i.
Proof.
  unfold prepare. destruct (resolve_skill_set _ _ _ i) as [k|e]; [|done]. cbv zeta. destruct (validate_input _) as [e|]; [done|].
  destruct k as [ks|]; [destruct (missing_of _ _); [|done]|]; destruct (_ <? _)%Z; try done; by intros [= <-].
Qed.
End store.

(** [C33] A call with the local store changes at most one file, in the directory of
    its tenant, whose name has neither slash nor dot, and it changes nothing
    when it fails; then there is neither link nor file and the code tells why. *)
Theorem report_stays_in_tenant root base now i fs fs' out : invoke (local_storage root base now) i fs = Ok (fs', out) ->
  (ro_success out = false -> fs' = fs /\ ro_download_url out = "" /\ ro_file_uri out = "" /\
    ro_error_code out ∈ [REPORT_INPUT_INVALID; REPORT_EVIDENCE_INSUFFICIENT; REPORT_VERIFICATION_FAILED; REPORT_EXPORT_FAILED]) /\
  (fs' <> fs -> let tenant := get_or (in_tenant_id i) "" in
    str_all path_free tenant = true /\ tenant <> "" /\
    exists e content, e ∈ ["md"; "html"; "txt"] /\ fs' = <[root ++ [tenant; file_name (generate_report_id uuid_hex) e] := content]> fs).
Proof.
  intros H. apply invoke_store in H as [[-> H]|[Hs (p & content & extension & r & Ep & H)]].
  - split; [by intros Hf%H|done].
  - split; [by rewrite Hs|]. intros _. rewrite (prepare_tenant i p Ep) in H. cbn [save_artifact local_storage] in H.
    apply save_inv in H as (Ht & _ & e & _ & He & ->). apply safe_id_free in Ht as [Hne Hf]. split; [done|]. split; [done|]. eauto.
Qed.
End tool.

(** ** An example *)

Definition sample_input : ReportToolInput :=
  mkInput None None None None None (Some "business_analysis") None (Some "report") None None None (Some "acme") None
    (Some [mkReportEvidence "ev_1" "db" "output" "output per line" "db://erp/lines" "acme" ["line"; "output"]
             [[("line", VStr "L1"); ("output", VInt 10)]; [("line", VStr "L2"); ("output", VInt 12)]] (rnd (9 # 10)) None (Some "lines") no_provenance])
    None None None.

(** A call with stand-ins for what the code gets from elsewhere. *)
Definition sample_call (i : ReportToolInput) : result (files * ReportToolOutput) :=
  invoke (fun _ => false) (fun _ => false) (fun _ => false) (fun _ => None) (fun _ => None) (fun _ => "") (fun _ => "") (fun l => join "," l) (fun s => s)
    (fun s => s) (fun _ => None) (fun _ => (None, "no skill")) (fun _ => "error") None "00112233445566778899aabbccddeeff" "2024-01-01T00:00:00Z" 0 0 0
    default_config (local_storage ["reports"] "/api/v1/reports" 1700000000) i ∅.

(** A call that gave a link and a file. *)
Definition linked (r : result (files * ReportToolOutput)) : bool :=
  match r with Ok (fs, out) => truthy (ro_download_url out) && negb (bool_decide (size fs = O)) | Raise _ => false end.

Lemma linked_ok r : linked r = true -> exists fs out, r = Ok (fs, out) /\ ro_download_url out <> "" /\ fs <> ∅.
Proof.
  destruct r as [[fs out]|e]; [|done]. cbn [linked]. intros [H1 H2]%andb_prop. exists fs, out. split; [done|].
  split; [intros E; by rewrite E in H1|]. intros ->. by rewrite map_size_empty in H2.
Qed.

Lemma sample_runs : exists fs out, sample_call sample_input = Ok (fs, out) /\ ro_download_url out <> "" /\ fs <> ∅.
Proof. apply linked_ok. vm_compute. reflexivity. Qed.

Lemma linked_report_is_publishable_witness : exists fs out, sample_call sample_input = Ok (fs, out) /\ ro_download_url out <> "" /\
  exists a, ro_artifact out = Some a /\ ra_publish_status a = "published".
Proof.
  destruct sample_runs as (fs & out & E & Hl & _). exists fs, out. split; [exact E|]. split; [exact Hl|]. unfold sample_call in E.
  destruct (linked_report_is_publishable _ _ _ _ _ _ _ _ _ _ _ _ _ _ _ _ _ _ _ _ _ _ _ _ _ E Hl) as (p & a & o & _ & Ha & _ & Hs & _).
  exists a. split; [exact Ha|exact Hs].
Defined.

Lemma report_stays_in_tenant_witness : exists fs out, sample_call sample_input = Ok (fs, out) /\ fs <> ∅ /\
  exists e content, e ∈ ["md"; "html"; "txt"] /\ fs = <[["reports"; "acme"; file_name (generate_report_id "00112233445566778899aabbccddeeff") e] := content]> ∅.
Proof.
  destruct sample_runs as (fs & out & E & _ & Hne). exists fs, out. split; [exact E|]. split; [exact Hne|]. unfold sample_call in E.
  exact (proj2 (proj2 (proj2 (report_stays_in_tenant _ _ _ _ _ _ _ _ _ _ _ _ _ _ _ _ _ _ _ _ _ _ _ _ _ _ _ E) Hne))).
Defined.

(** ** What the tool does at its edges *)

(** A limit that is null makes the tool raise. *)
Example null_limit_raises : exists e,
  sample_call (mkInput None None None None None (Some "business_analysis") None None None None None (Some "acme") None
                 (in_evidence sample_input) (Some None) None None) = Raise e.
Proof. eexists. vm_compute. reflexivity. Qed.

(** Of the sensitive types, the tool accepts two. *)
Example sensitive_types_refused : List.filter (fun t => str_in t ALLOWED_REPORT_TYPES) HIGH_SENSITIVITY_SKILL_TYPES = ["cost_analysis"; "quality_analysis"].
Proof. reflexivity. Qed.

(** A skill of a sensitive type, called with the type of the adapter's default
    (tools/executors/report.py), is published without a reviewer. *)
Definition cost_skill : ResolvedSkillSet :=
  mkSkillSet (mkReportSkill "cost" "1" "cost_analysis" "" [mkSkillSection "overview" "Overview" "overview" 0 ["db"] ""] [] [] [] [] None None None) None None.
Definition cost_input (report_type : option string) : ReportToolInput :=
  mkInput (Some (Ok cost_skill)) None None None None report_type None None None None None (Some "acme") None (in_evidence sample_input) None None None.
Definition status_of (r : result (files * ReportToolOutput)) : string := match r with Ok (_, out) => ro_publish_status out | Raise _ => "" end.

Example sensitive_skill_published : status_of (sample_call (cost_input (Some "business_analysis"))) = "published" /\
  status_of (sample_call (cost_input None)) = "pending_review".
Proof. by vm_compute. Qed.

(** A rejected report and a draft are published by one approval. *)
Example approval_ignores_status status : transition_publish_status status
    [("action", VStr "approve"); ("approved", VBool true); ("publish_allowed", VBool true)] = ("published", "用户已批准且允许发布").
Proof. reflexivity. Qed.

(** A section for which the model names no evidence cites the first one. *)
Example section_cites_first us ft p e evidence :
  parse_llm_output us (fun _ => Some (VDict [("content", VStr "text"); ("evidence_refs", VList []); ("confidence", VFloat 1)])) ft p "{}" (e :: evidence) =
  Ok (mkRaw p (VStr "text") [re_evidence_id e] 1).
Proof. reflexivity. Qed.

(** Titles are not scanned. *)
Example title_not_scanned : exists a key, ra_title a = key /\
  scan_text (fun _ => false) (fun _ => false) (fun _ => false) "title" key <> [] /\
  scan_artifact (fun _ => false) (fun _ => false) (fun _ => false) (fun _ => "") a = [].
Proof.
  exists (mkArtifact "rpt_1" "AKIA0123456789ABCDEF" "comparison" "html" "zh_CN" "" [] [] [] [] [] [] [] [] "draft" "" None "acme" "" "" "" 0 false [] 0),
    "AKIA0123456789ABCDEF". split; [done|]. split; [by vm_compute|]. by vm_compute.
Qed.

(** A claim on evidence that does not exist is a supported one. *)
Example supported_without_evidence : exists c,
  create_claim (fun _ => "hash") (fun _ => "0") (fun _ => "0") (rnd (7 # 10)) "text" "metric" ["nowhere"] [] ("chart_id", "") = Some c /\
  rc_support_status c = "supported".
Proof. eexists. split; [vm_compute; reflexivity|reflexivity]. Qed.

Lemma create_claim_id md5 fr f2 t text ty refs evidence place k : create_claim md5 fr f2 t text ty refs evidence place = Some k ->
  rc_claim_id k = make_claim_id md5 text ty.
Proof.
  unfold create_claim. cbv zeta. destruct (_ && negb _); [discriminate|].
  destruct (if _ && negb _ then _ else _) as [[[status confidence] rev] reason]. intros H. injection H as <-. reflexivity.
Qed.

(** Charts with the same title share the id of their claim. *)
Example claim_ids_collide md5 fr f2 t evidence c1 c2 k1 k2 : ch_title c1 = ch_title c2 ->
  chart_claim md5 fr f2 t evidence c1 = Some k1 -> chart_claim md5 fr f2 t evidence c2 = Some k2 -> rc_claim_id k1 = rc_claim_id k2.
Proof. intros Ht H1%create_claim_id H2%create_claim_id. by rewrite H1, H2, Ht. Qed.
