(* ===== verification/SkillLoad.v ===== *)
(** * Loading the catalogue of skills
    (skills/validator.py, indexes.py, card.py, loader.py, catalog.py, registry.py)

    The configured skills are validated together, indexed, and described by
    cards; the registry replaces its snapshot only by one that was built.
    Reading and parsing the YAML files is the argument of a reload. *)

From S2P Require Import Prelude PyFloat PyVal PyList PyText RouteModels RegExp SkillCatalog SkillPlanner.

(** ** Skills *)

(** The fields of every skill, and those of each kind that are read here. *)
Record SkillBase : Type := mkBase {
  sb_skill_id : string; sb_version : string; sb_enabled : bool; sb_linked_report_skill_id : option string; sb_required_permissions : list string }.
Record ReportFields : Type := mkReportFields {
  rf_report_type : string; rf_linked_skills : list (string * string); rf_intent_keywords : list string; rf_allowed_tenants : list string;
  rf_section_templates : list pydict; rf_core_sections : list string; rf_required_evidence_types : list string; rf_metric_definitions : list pydict }.
Record DataFields : Type := mkDataFields {
  df_db_targets : list pydict; df_metric_bindings : pydict; df_query_templates : list pydict; df_evidence_requirements : list pydict }.
Record RetrievalFields : Type := mkRetrievalFields { tf_rag_targets : list pydict; tf_evidence_requirements : list pydict }.

Record ReportSkill : Type := mkReportSkill { rk_base : SkillBase; rk_fields : ReportFields }.
Record DataSkill : Type := mkDataSkill { dk_base : SkillBase; dk_fields : DataFields }.
Record RetrievalSkill : Type := mkRetrievalSkill { tk_base : SkillBase; tk_fields : RetrievalFields }.

Inductive Skill : Type :=
  | Report (r : ReportSkill)
  | Data (d : DataSkill)
  | Retrieval (t : RetrievalSkill).

Definition base_of (k : Skill) : SkillBase := match k with Report r => rk_base r | Data d => dk_base d | Retrieval t => tk_base t end.
Definition skill_id (k : Skill) : string := sb_skill_id (base_of k).
Definition report_id (r : ReportSkill) : string := sb_skill_id (rk_base r).
Definition report_type (r : ReportSkill) : string := rf_report_type (rk_fields r).
Definition link_of (b : SkillBase) : string := opt_or (sb_linked_report_skill_id b) "".

Definition reports (l : list Skill) : list ReportSkill := omap (fun k => match k with Report r => Some r | _ => None end) l.
Definition data_skills (l : list Skill) : list DataSkill := omap (fun k => match k with Data d => Some d | _ => None end) l.
Definition retrieval_skills (l : list Skill) : list RetrievalSkill := omap (fun k => match k with Retrieval t => Some t | _ => None end) l.

(** ** Validation (validator.py) *)

Definition FALLBACK_REPORT_SKILL_IDS : list string := ["generic_analysis"].

(** The values that a [Counter] counts more than once, sorted. *)
Definition duplicates (l : list string) : list string :=
  py_sorted (remove_dups (List.filter (fun x => (1 <? length (List.filter (String.eqb x) l))%nat) l)).

(** The texts among the values of a key. *)
Definition str_values (key : string) (l : list pydict) : list string :=
  omap (fun d => match dlookup key d with Some (VStr s) => Some s | _ => None end) l.

Definition issue_if (b : bool) (issue : list string) : list string := if b then [join "" issue] else [].

Section validator.
Variable float_repr : Q -> string.
Definition shown (v : pyval) : string := py_str float_repr v.

Definition validate_report (r : ReportSkill) : result (list string) :=
  let f := rk_fields r in
  let missing_sections := py_sorted (List.filter (fun c => negb (str_in c (str_values "section_id" (rf_section_templates f)))) (remove_dups (rf_core_sections f))) in
  let! wanted := rmap (fun s => py_iter (get_or (dlookup "required_metric_ids" s) (VList []))) (rf_section_templates f) in
  let required := omap (fun v => match v with VStr s => Some s | _ => None end) (concat wanted) in
  let missing_metrics := py_sorted (List.filter (fun m => negb (str_in m (str_values "metric_id" (rf_metric_definitions f)))) (remove_dups required)) in
  Ok (issue_if (truthy missing_sections)
        ["report skill '"; report_id r; "' core_sections reference missing section_id values: "; join ", " missing_sections] ++
      issue_if (truthy missing_metrics)
        ["report skill '"; report_id r; "' required_metric_ids reference missing metric_id values: "; join ", " missing_metrics]).

(** [_validate_report_link], with [require_link]. *)
Definition validate_report_link (b : SkillBase) (report_ids : list string) : list string :=
  let link := link_of b in
  if negb (truthy link) then [join "" ["skill '"; sb_skill_id b; "' is missing required linked_report_skill_id"]]
  else issue_if (negb (str_in link report_ids)) ["skill '"; sb_skill_id b; "' links to unknown report skill '"; link; "'"].

(** [v in keys] of a dictionary or a set of texts, which hashes the value. *)
Definition value_in (v : pyval) (keys : list string) : result bool :=
  if hashable v then Ok (match v with VStr s => str_in s keys | _ => false end) else Raise (TypeError "unhashable").

Definition validate_evidence_sources (id : string) (requirements : list pydict) (target_ids : list string) : result (list string) :=
  let! l := rmap (fun r =>
      let target := get_or (dlookup "source_target_id" r) VNone in
      let! known := value_in target target_ids in
      Ok (issue_if (negb known)
            ["skill '"; id; "' evidence requirement "; "'"; shown (get_or (dlookup "evidence_id" r) (VStr "<unknown>")); "' references unknown ";
             "source_target_id '"; shown target; "'"])) requirements in
  Ok (concat l).

(** The tables of the targets; the last target of an id wins. *)
Definition table_names (target : pydict) : result (list string) :=
  let! tables := py_iter (get_or (dlookup "tables" target) (VList [])) in
  Ok (omap (fun t => match t with VDict d => match dlookup "table_name" d with Some (VStr s) => Some s | _ => None end | _ => None end) tables).

Fixpoint targets_of (targets : list pydict) (acc : list (string * list string)) : result (list (string * list string)) :=
  match targets with
  | [] => Ok acc
  | t :: targets' =>
    match dlookup "target_id" t with
    | Some (VStr id) => let! names := table_names t in targets_of targets' (dset id names acc)
    | _ => targets_of targets' acc
    end
  end.

Definition tables_at (v : pyval) (targets : list (string * list string)) : list string :=
  match v with VStr s => get_or (dlookup s targets) [] | _ => [] end.

Definition validate_query (id : string) (targets : list (string * list string)) (q : pydict) : result (list string) :=
  let target := get_or (dlookup "target_id" q) VNone in
  let table := get_or (dlookup "table_name" q) VNone in
  let start := ["data skill '"; id; "' query template '"; shown (get_or (dlookup "template_id" q) (VStr "<unknown>")); "' "] in
  let! known := value_in target (map fst targets) in
  if negb known then Ok (issue_if true (start ++ ["references unknown target_id '"; shown target; "'"]))
  else
    let! known_table := value_in table (tables_at target targets) in
    Ok (issue_if (negb known_table) (start ++ ["references unknown table_name '"; shown table; "'"])).

Definition validate_binding (id : string) (targets : list (string * list string)) (mb : string * pyval) : result (list string) :=
  match mb.2 with
  | VDict binding =>
    let target := get_or (dlookup "source_target_id" binding) VNone in
    let table := get_or (dlookup "table_name" binding) VNone in
    if negb (truthy target) && negb (truthy table) then Ok []
    else
      let start := ["data skill '"; id; "' metric_bindings '"; mb.1; "' "] in
      let! known := value_in target (map fst targets) in
      if negb known then Ok (issue_if true (start ++ ["references unknown source_target_id '"; shown target; "'"]))
      else if negb (truthy table) then Ok []
      else
        let! known_table := value_in table (tables_at target targets) in
        Ok (issue_if (negb known_table) (start ++ ["references unknown table_name '"; shown table; "'"]))
  | _ => Ok []
  end.

Definition validate_data_skill (report_ids : list string) (d : DataSkill) : result (list string) :=
  let id := sb_skill_id (dk_base d) in
  let! targets := targets_of (df_db_targets (dk_fields d)) [] in
  let! queries := rmap (validate_query id targets) (df_query_templates (dk_fields d)) in
  let! bindings := rmap (validate_binding id targets) (df_metric_bindings (dk_fields d)) in
  let! sources := validate_evidence_sources id (df_evidence_requirements (dk_fields d)) (map fst targets) in
  Ok (validate_report_link (dk_base d) report_ids ++ concat queries ++ concat bindings ++ sources).

Definition validate_retrieval_skill (report_ids : list string) (t : RetrievalSkill) : result (list string) :=
  let id := sb_skill_id (tk_base t) in
  let targets := tf_rag_targets (tk_fields t) in
  let target_issue target :=
    issue_if (negb (truthy (get_or (dlookup "kb_id" target) VNone)))
      ["retrieval skill '"; id; "' rag target '"; shown (get_or (dlookup "target_id" target) VNone); "' is missing kb_id"] in
  let! sources := validate_evidence_sources id (tf_evidence_requirements (tk_fields t)) (str_values "target_id" targets) in
  Ok (validate_report_link (tk_base t) report_ids ++
      issue_if (negb (truthy targets)) ["retrieval skill '"; id; "' rag_targets must not be empty"] ++ concat (map target_issue targets) ++ sources).

(** The reverse links that a report must have. *)
Definition reverse_link_issues (data_links retrieval_links : list string) (r : ReportSkill) : list string :=
  if str_in (report_id r) FALLBACK_REPORT_SKILL_IDS then []
  else issue_if (negb (str_in (report_id r) data_links)) ["report skill '"; report_id r; "' has no reverse-linked data skill"] ++
       issue_if (negb (str_in (report_id r) retrieval_links)) ["report skill '"; report_id r; "' has no reverse-linked retrieval skill"].

(** The issues of [validate_skills], which raises when there is one. *)
Definition validate_skills (skills : list Skill) : result (list string) :=
  let report_ids := map report_id (reports skills) in
  let duplicate_ids := duplicates (map skill_id skills) in
  let duplicate_types := duplicates (map report_type (reports skills)) in
  let data_links := List.filter (fun l => truthy l) (map (fun d => link_of (dk_base d)) (data_skills skills)) in
  let retrieval_links := List.filter (fun l => truthy l) (map (fun t => link_of (tk_base t)) (retrieval_skills skills)) in
  let! report_issues := rmap (fun r => let! l := validate_report r in Ok (l ++ reverse_link_issues data_links retrieval_links r)) (reports skills) in
  let! data_issues := rmap (validate_data_skill report_ids) (data_skills skills) in
  let! retrieval_issues := rmap (validate_retrieval_skill report_ids) (retrieval_skills skills) in
  Ok (issue_if (truthy duplicate_ids) ["duplicate skill_id values: "; join ", " duplicate_ids] ++
      issue_if (truthy duplicate_types) ["duplicate report_type values: "; join ", " duplicate_types] ++
      concat report_issues ++ concat data_issues ++ concat retrieval_issues).
End validator.

(** ** Indices (indexes.py) *)

Record CatalogIndexes : Type := mkIndexes {
  ix_skills_by_id : list (string * Skill); ix_report_type_index : list (string * ReportSkill); ix_data_skill_index : list (string * DataSkill);
  ix_retrieval_skill_index : list (string * RetrievalSkill) }.

Definition index_skill (ix : CatalogIndexes) (k : Skill) : CatalogIndexes :=
  let by_id := dset (skill_id k) k (ix_skills_by_id ix) in
  let link := link_of (base_of k) in
  match k with
  | Report r => mkIndexes by_id (dset (report_type r) r (ix_report_type_index ix)) (ix_data_skill_index ix) (ix_retrieval_skill_index ix)
  | Data d => mkIndexes by_id (ix_report_type_index ix) (if truthy link then dset link d (ix_data_skill_index ix) else ix_data_skill_index ix)
                (ix_retrieval_skill_index ix)
  | Retrieval t => mkIndexes by_id (ix_report_type_index ix) (ix_data_skill_index ix)
                     (if truthy link then dset link t (ix_retrieval_skill_index ix) else ix_retrieval_skill_index ix)
  end.

Definition build_indexes (skills : list Skill) : CatalogIndexes := fold_left index_skill skills (mkIndexes [] [] [] []).

(** ** Cards (card.py) *)

Definition REPORT_TYPE_DOMAIN_MAP : list (string * list string) :=
  [("quality_analysis", ["quality"]); ("production_analysis", ["production"]); ("production_daily", ["production"]);
   ("factory_performance", ["production"]); ("cost_analysis", ["cost"]); ("delivery_analysis", ["delivery"]);
   ("operations_analysis", ["operations"]); ("supplier_quality_analysis", ["quality"; "supplier"]); ("generic_analysis", ["generic"])].
Definition HIGH_RISK_REPORT_PREFIXES : list string := ["financial"; "compliance"; "audit"].

Definition data_for (ix : CatalogIndexes) (id : string) : option DataSkill := dlookup id (ix_data_skill_index ix).
Definition retrieval_for (ix : CatalogIndexes) (id : string) : option RetrievalSkill := dlookup id (ix_retrieval_skill_index ix).

(** [_requires_graph] *)
Definition requires_graph (ix : CatalogIndexes) (r : ReportSkill) : result bool :=
  if existsb (fun t => str_in (py_lower t) GRAPH_TYPES) (rf_required_evidence_types (rk_fields r)) then Ok true
  else any_wants_graph
         (match data_for ix (report_id r) with Some d => df_evidence_requirements (dk_fields d) | None => [] end ++
          match retrieval_for ix (report_id r) with Some t => tf_evidence_requirements (tk_fields t) | None => [] end).

Definition derive_capabilities (ix : CatalogIndexes) (r : ReportSkill) : result (list string) :=
  let! graph := requires_graph ix r in
  Ok (["report"] ++ (match data_for ix (report_id r) with Some _ => ["database"] | None => [] end) ++
      (match retrieval_for ix (report_id r) with Some _ => ["rag"] | None => [] end) ++ (if graph then ["graph"] else [])).

Definition derive_risk_level (type : string) : string := if existsb (fun p => contains p (py_lower type)) HIGH_RISK_REPORT_PREFIXES then "high" else "medium".
Definition derive_cost_class (r : ReportSkill) : string :=
  if contains "batch" (py_lower (report_type r)) then "high"
  else if truthy (get_or (dlookup "data" (rf_linked_skills (rk_fields r))) "") then "medium" else "low".
Definition derive_latency_class (type : string) : string :=
  if existsb (fun t => contains t (py_lower type)) ["batch"; "monthly"; "quarterly"] then "batch" else "interactive".
Definition derive_required_dependency_ids (ix : CatalogIndexes) (r : ReportSkill) : list string :=
  match data_for ix (report_id r) with Some d => [sb_skill_id (dk_base d)] | None => [] end ++
  match retrieval_for ix (report_id r) with Some t => [sb_skill_id (tk_base t)] | None => [] end.
Definition lifecycle_status (b : SkillBase) : string := if sb_enabled b then "active" else "deprecated".

Definition build_report_card (ix : CatalogIndexes) (r : ReportSkill) : result SkillCard :=
  let b := rk_base r in
  match dlookup (report_type r) REPORT_TYPE_DOMAIN_MAP with
  | None => Raise (ValueError (join "" ["ReportSkill '"; sb_skill_id b; "' has unregistered report_type "; "'"; report_type r;
                                        "'; register it in REPORT_TYPE_DOMAIN_MAP"]))
  | Some domains =>
    let! capabilities := derive_capabilities ix r in
    Ok (mkCard (sb_skill_id b) (sb_version b) "report" domains capabilities (rf_intent_keywords (rk_fields r)) ["zh_CN"] []
          (sb_required_permissions b) (rf_allowed_tenants (rk_fields r)) (lifecycle_status b) [] (derive_risk_level (report_type r))
          (derive_cost_class r) (derive_latency_class (report_type r)) true (derive_required_dependency_ids ix r) "main_chain" (Some (report_type r)))
  end.

Definition plain_card (b : SkillBase) (type domain capability risk cost : string) : SkillCard :=
  mkCard (sb_skill_id b) (sb_version b) type [domain] [capability] [] ["zh_CN"] [] (sb_required_permissions b) [] (lifecycle_status b) [] risk cost
    "interactive" true [] "main_chain" None.

Definition build_card (ix : CatalogIndexes) (k : Skill) : result SkillCard :=
  match k with
  | Report r => build_report_card ix r
  | Data d => Ok (plain_card (dk_base d) "data" "data" "database" "medium" "medium")
  | Retrieval t => Ok (plain_card (tk_base t) "retrieval" "retrieval" "rag" "low" "low")
  end.

(** [(skill_id, version)]: a dictionary, in which a later card replaces an earlier one. *)
Fixpoint set_card (key : string * string) (c : SkillCard) (d : list (string * string * SkillCard)) : list (string * string * SkillCard) :=
  match d with
  | [] => [(key, c)]
  | (k, x) :: d' => if bool_decide (k = key) then (k, c) :: d' else (k, x) :: set_card key c d'
  end.

Fixpoint build_cards (ix : CatalogIndexes) (skills : list Skill) (acc : list (string * string * SkillCard)) : result (list (string * string * SkillCard)) :=
  match skills with
  | [] => Ok acc
  | k :: skills' => let! c := build_card ix k in build_cards ix skills' (set_card (sc_skill_id c, sc_version c) c acc)
  end.

(** [_build_skill_cards]: no cards where one cannot be built. *)
Definition build_skill_cards (skills : list Skill) (ix : CatalogIndexes) : list (string * string * SkillCard) :=
  match build_cards ix skills [] with Ok cards => cards | Raise _ => [] end.

(** ** Snapshot and registry (catalog.py, loader.py, registry.py) *)

Record SkillCatalogSnapshot : Type := mkSnapshot {
  sn_revision : string; sn_checksum : string; sn_indexes : CatalogIndexes; sn_skill_count : Z; sn_cards_by_key : list (string * string * SkillCard) }.

Definition get_by_id (s : SkillCatalogSnapshot) (id : string) : option Skill := dlookup id (ix_skills_by_id (sn_indexes s)).
Definition get_report_by_type (s : SkillCatalogSnapshot) (t : string) : option ReportSkill := dlookup t (ix_report_type_index (sn_indexes s)).
Definition get_data_for_report (s : SkillCatalogSnapshot) (id : string) : option DataSkill := data_for (sn_indexes s) id.
Definition get_retrieval_for_report (s : SkillCatalogSnapshot) (id : string) : option RetrievalSkill := retrieval_for (sn_indexes s) id.
Definition list_all (s : SkillCatalogSnapshot) : list Skill := map snd (ix_skills_by_id (sn_indexes s)).
Definition list_reports (s : SkillCatalogSnapshot) : list ReportSkill := reports (list_all s).

Section registry.
Variable float_repr : Q -> string.
Variable sha256_hex : string -> string.

Definition build_snapshot (revision : string) (skills : list Skill) : SkillCatalogSnapshot :=
  let ix := build_indexes skills in
  mkSnapshot revision (compute_checksum sha256_hex (map (fun k => (skill_id k, sb_version (base_of k))) skills)) ix (py_len skills)
    (build_skill_cards skills ix).

(** [load_catalog], for what reading the files gave and the new revision. *)
Definition load_catalog (files : result (list Skill)) (revision : string) : result SkillCatalogSnapshot :=
  let! skills := files in
  let! issues := validate_skills float_repr skills in
  match issues with
  | [] => Ok (build_snapshot revision skills)
  | _ => Raise (ValueError (join (String.append newline_char "- ") ("Invalid skill configuration:" :: issues)))
  end.

(** [SkillRegistry.reload]: the new state, and the exception it lets out; only
    a [ValueError] is caught, and only when there is an old snapshot. *)
Definition reload (s : option SkillCatalogSnapshot) (files : result (list Skill)) (revision : string) : option SkillCatalogSnapshot * result () :=
  match load_catalog files revision with
  | Ok new => (Some new, Ok ())
  | Raise (ValueError e) => match s with Some _ => (s, Ok ()) | None => (None, Raise (ValueError e)) end
  | Raise e => (s, Raise e)
  end.

(** A registry: the first load and the reloads that follow. *)
Definition new_registry (files : result (list Skill)) (revision : string) : result SkillCatalogSnapshot := load_catalog files revision.

Fixpoint reloads (s : option SkillCatalogSnapshot) (l : list (result (list Skill) * string)) : option SkillCatalogSnapshot :=
  match l with [] => s | (files, revision) :: l' => reloads (reload s files revision).1 l' end.
End registry.

(** ** Lemmas: uniqueness and indices *)

Lemma count_one_NoDup (l : list string) : (forall x, x ∈ l -> (length (List.filter (String.eqb x) l) <= 1)%nat) -> NoDup l.
Proof.
  induction l as [|x l IH]; intros H; [constructor|]. constructor.
  - intros Hx. specialize (H x ltac:(by left)). cbn [List.filter] in H. rewrite String.eqb_refl in H. cbn [length] in H.
    destruct (List.filter (String.eqb x) l) as [|y l'] eqn:E; [|cbn in H; lia].
    pose proof (proj2 (filter_nil_iff _ _) E x Hx) as Hf. cbv beta in Hf. by rewrite String.eqb_refl in Hf.
  - apply IH. intros y Hy. specialize (H y ltac:(by right)). cbn [List.filter] in H. destruct (String.eqb y x); cbn [length] in H; lia.
Qed.

Lemma duplicates_nil l : duplicates l = [] -> NoDup l.
Proof.
  unfold duplicates. intros H. apply count_one_NoDup. intros x Hx. destruct (length (List.filter (String.eqb x) l)) as [|[|n]] eqn:E; [lia..|].
  exfalso. assert (x ∈ py_sorted (remove_dups (List.filter (fun x => (1 <? length (List.filter (String.eqb x) l))%nat) l))) as Hin.
  { rewrite py_sorted_perm, elem_of_remove_dups. apply list_elem_of_In, filter_In. split; [by apply list_elem_of_In|]. by rewrite E. }
  rewrite H in Hin. by apply not_elem_of_nil in Hin.
Qed.

(** A dictionary filled in order from what [f] makes of the elements of a list. *)
Definition index_by {A V} (f : A -> option (string * V)) (l : list A) (d : list (string * V)) : list (string * V) :=
  fold_left (fun d a => match f a with Some (key, v) => dset key v d | None => d end) l d.

Lemma index_by_some {A V} (f : A -> option (string * V)) l : forall d key v, dlookup key (index_by f l d) = Some v ->
  dlookup key d = Some v \/ exists a, a ∈ l /\ f a = Some (key, v).
Proof.
  induction l as [|a l IH]; intros d key v H; [by left|]. cbn [index_by fold_left] in H. apply IH in H as [H|(b & Hb & E)].
  - destruct (f a) as [[k w]|] eqn:E; [|by left]. rewrite dlookup_dset in H. destruct (String.eqb_spec key k) as [->|_]; [|by left].
    injection H as ->. right. exists a. split; [by left|done].
  - right. exists b. split; [by right|done].
Qed.

Lemma index_by_is_some {A V} (f : A -> option (string * V)) l : forall d key, is_Some (dlookup key d) \/ (exists a v, a ∈ l /\ f a = Some (key, v)) ->
  is_Some (dlookup key (index_by f l d)).
Proof.
  induction l as [|a l IH]; intros d key H; [destruct H as [H|(a & v & Ha & _)]; [done|by apply not_elem_of_nil in Ha]|].
  cbn [index_by fold_left]. apply IH. destruct H as [H|(b & v & [->|Hb]%elem_of_cons & E)].
  - left. destruct (f a) as [[k w]|]; [|done]. rewrite dlookup_dset. by destruct (String.eqb key k).
  - left. by rewrite E, dlookup_dset_eq.
  - right. by exists b, v.
Qed.

(** Where equal keys mean equal values, the index is the search of the list. *)
Lemma index_by_iff {A V} (f : A -> option (string * V)) l key v :
  (forall a b va vb, a ∈ l -> b ∈ l -> f a = Some (key, va) -> f b = Some (key, vb) -> va = vb) ->
  dlookup key (index_by f l []) = Some v <-> exists a, a ∈ l /\ f a = Some (key, v).
Proof.
  intros Hu. split.
  - intros H. by apply index_by_some in H as [?|?].
  - intros (a & Ha & E). destruct (index_by_is_some f l [] key) as [w Hw]; [right; eauto|]. rewrite Hw.
    apply index_by_some in Hw as [?|(b & Hb & E')]; [done|]. by rewrite (Hu b a w v Hb Ha E' E).
Qed.

Definition by_id (k : Skill) : option (string * Skill) := Some (skill_id k, k).
Definition by_type (k : Skill) : option (string * ReportSkill) := match k with Report r => Some (report_type r, r) | _ => None end.
Definition by_data_link (k : Skill) : option (string * DataSkill) :=
  match k with Data d => if truthy (link_of (dk_base d)) then Some (link_of (dk_base d), d) else None | _ => None end.
Definition by_retrieval_link (k : Skill) : option (string * RetrievalSkill) :=
  match k with Retrieval t => if truthy (link_of (tk_base t)) then Some (link_of (tk_base t), t) else None | _ => None end.

Lemma build_indexes_by skills : build_indexes skills =
  mkIndexes (index_by by_id skills []) (index_by by_type skills []) (index_by by_data_link skills []) (index_by by_retrieval_link skills []).
Proof.
  unfold build_indexes. generalize (@nil (string * Skill)) (@nil (string * ReportSkill)) (@nil (string * DataSkill)) (@nil (string * RetrievalSkill)).
  induction skills as [|k skills IH]; intros d1 d2 d3 d4; [done|]. cbn [fold_left]. unfold index_by in *. cbn [fold_left].
  rewrite <- IH. f_equal. destruct k; [done| |]; unfold index_skill, by_id, by_type, by_data_link, by_retrieval_link; cbn; by destruct (truthy _).
Qed.

Lemma elem_of_reports r l : r ∈ reports l <-> Report r ∈ l.
Proof. unfold reports. rewrite list_elem_of_omap. split; [by intros ([] & H & [= <-])|intros H; by exists (Report r)]. Qed.
Lemma elem_of_data d l : d ∈ data_skills l <-> Data d ∈ l.
Proof. unfold data_skills. rewrite list_elem_of_omap. split; [by intros ([] & H & [= <-])|intros H; by exists (Data d)]. Qed.
Lemma elem_of_retrieval t l : t ∈ retrieval_skills l <-> Retrieval t ∈ l.
Proof. unfold retrieval_skills. rewrite list_elem_of_omap. split; [by intros ([] & H & [= <-])|intros H; by exists (Retrieval t)]. Qed.

(** ** A catalogue without issues *)

(** What the validation makes sure of across the skills. *)
Record consistent (skills : list Skill) : Prop := {
  co_ids : NoDup (map skill_id skills);
  co_types : NoDup (map report_type (reports skills));
  co_reports r : Report r ∈ skills -> report_id r ∉ FALLBACK_REPORT_SKILL_IDS ->
    (exists d, Data d ∈ skills /\ link_of (dk_base d) = report_id r /\ link_of (dk_base d) <> "") /\
    (exists t, Retrieval t ∈ skills /\ link_of (tk_base t) = report_id r /\ link_of (tk_base t) <> "");
  co_data d : Data d ∈ skills -> link_of (dk_base d) <> "" /\ exists r, Report r ∈ skills /\ report_id r = link_of (dk_base d);
  co_retrieval t : Retrieval t ∈ skills -> link_of (tk_base t) <> "" /\ exists r, Report r ∈ skills /\ report_id r = link_of (tk_base t) }.

Lemma issue_if_nil b issue : issue_if b issue = [] <-> b = false.
Proof. by destruct b. Qed.

Lemma truthy_false {A} (l : list A) : truthy l = false <-> l = [].
Proof. by destruct l. Qed.

Lemma concat_nil {A} (l : list (list A)) : concat l = [] -> forall x, x ∈ l -> x = [].
Proof.
  induction l as [|y l IH]; [by intros _ x ?%not_elem_of_nil|]. cbn [concat]. intros [-> H]%app_nil x [->|Hx]%elem_of_cons; auto.
Qed.

(** No issue of a list comes from any of its elements. *)
Lemma rmap_no_issue {A} (f : A -> result (list string)) l ys x : rmap f l = Ok ys -> concat ys = [] -> x ∈ l -> f x = Ok [].
Proof.
  intros H Hc Hx. apply rmap_Forall2 in H. apply list_elem_of_lookup in Hx as [i Hi].
  destruct (Forall2_lookup_l _ _ _ _ _ H Hi) as (y & Hy & E). rewrite E. f_equal. eapply concat_nil; [done|]. by apply list_elem_of_lookup_2 in Hy.
Qed.

Lemma link_issue_nil b report_ids : validate_report_link b report_ids = [] -> link_of b <> "" /\ link_of b ∈ report_ids.
Proof.
  unfold validate_report_link. cbv zeta. destruct (truthy (link_of b)) eqn:E; [|done]. cbn [negb]. rewrite issue_if_nil, negb_false_iff, str_in_spec.
  intros H. split; [by intros Hl; rewrite Hl in E|done].
Qed.

Lemma validate_consistent fr skills : validate_skills fr skills = Ok [] -> consistent skills.
Proof.
  unfold validate_skills. cbv zeta. intros (ri & Hri & H)%rbind_ok. apply rbind_ok in H as (di & Hdi & H). apply rbind_ok in H as (ti & Hti & H).
  injection H as H. apply app_nil in H as [H1 H]. apply app_nil in H as [H2 H]. apply app_nil in H as [H3 H]. apply app_nil in H as [H4 H5].
  apply issue_if_nil, truthy_false, duplicates_nil in H1. apply issue_if_nil, truthy_false, duplicates_nil in H2.
  constructor; [done|done| | |].
  - intros r Hr Hf. apply elem_of_reports in Hr. pose proof (rmap_no_issue _ _ _ _ Hri H3 Hr) as H. cbv beta in H.
    apply rbind_ok in H as (l & _ & H). injection H as H. apply app_nil in H as [_ H]. unfold reverse_link_issues in H.
    apply str_in_false in Hf. rewrite Hf in H. apply app_nil in H as [Hd Ht]. rewrite issue_if_nil, negb_false_iff, str_in_spec in Hd, Ht.
    apply list_elem_of_In, filter_In in Hd as [Hd Hne], Ht as [Ht Hne'].
    apply in_map_iff in Hd as (d & Ed & Hd), Ht as (t & Et & Ht). apply list_elem_of_In, elem_of_data in Hd. apply list_elem_of_In, elem_of_retrieval in Ht.
    split; [exists d|exists t]; (split_and!; [done|done|]); [rewrite Ed|rewrite Et]; by intros E; rewrite E in *.
  - intros d Hd. apply elem_of_data in Hd. pose proof (rmap_no_issue _ _ _ _ Hdi H4 Hd) as H. unfold validate_data_skill in H. cbv zeta in H.
    apply rbind_ok in H as (? & _ & H). apply rbind_ok in H as (? & _ & H). apply rbind_ok in H as (? & _ & H). apply rbind_ok in H as (? & _ & H).
    injection H as H. apply app_nil in H as [H _]. apply link_issue_nil in H as [Hne Hin]. split; [done|].
    apply list_elem_of_In, in_map_iff in Hin as (r & E & Hin). exists r. by rewrite <- elem_of_reports, list_elem_of_In.
  - intros t Ht. apply elem_of_retrieval in Ht. pose proof (rmap_no_issue _ _ _ _ Hti H5 Ht) as H. unfold validate_retrieval_skill in H. cbv zeta in H.
    apply rbind_ok in H as (? & _ & H). injection H as H. apply app_nil in H as [H _]. apply link_issue_nil in H as [Hne Hin]. split; [done|].
    apply list_elem_of_In, in_map_iff in Hin as (r & E & Hin). exists r. by rewrite <- elem_of_reports, list_elem_of_In.
Qed.

Lemma load_catalog_ok fr sha files revision s : load_catalog fr sha files revision = Ok s ->
  exists skills, files = Ok skills /\ validate_skills fr skills = Ok [] /\ s = build_snapshot sha revision skills.
Proof.
  unfold load_catalog. intros (skills & -> & H)%rbind_ok. apply rbind_ok in H as (issues & Hi & H). destruct issues as [|i issues]; [|done].
  injection H as <-. by exists skills.
Qed.

(** Without repeated keys, a dictionary filled in order is the list. *)
Lemma index_by_id_list (l : list Skill) : forall d, NoDup (map fst d ++ map skill_id l) ->
  index_by by_id l d = d ++ map (fun k => (skill_id k, k)) l.
Proof.
  induction l as [|k l IH]; intros d H; [by rewrite app_nil_r|]. cbn [index_by fold_left by_id map].
  assert (dset (skill_id k) k d = d ++ [(skill_id k, k)]) as ->.
  { assert (skill_id k ∉ map fst d) as Hk.
    { cbn [map] in H. apply NoDup_app in H as (_ & Hd & _). intros Hin. apply (Hd _ Hin). by left. }
    clear -Hk. induction d as [|[x v] d IH]; [done|]. cbn [map fst] in Hk. apply not_elem_of_cons in Hk as [Hne Hk]. cbn.
    destruct (String.eqb_spec (skill_id k) x); [done|]. by rewrite IH. }
  change (index_by by_id l (d ++ [(skill_id k, k)]) = d ++ (skill_id k, k) :: map (fun k => (skill_id k, k)) l).
  rewrite IH; [by rewrite <- app_assoc|]. rewrite map_app. cbn [map fst]. by rewrite <- app_assoc.
Qed.

Section consistent_index.
Context (skills : list Skill) (Hc : consistent skills).

Lemma index_by_id_iff id k : dlookup id (ix_skills_by_id (build_indexes skills)) = Some k <-> k ∈ skills /\ skill_id k = id.
Proof.
  rewrite build_indexes_by. cbn [ix_skills_by_id]. rewrite index_by_iff.
  - unfold by_id. split; [intros (a & Ha & [= <- <-])|intros [Hk <-]; exists k]; done.
  - intros a b va vb Ha Hb [= Ea <-] [= Eb <-]. apply (NoDup_map_inj _ _ _ _ (co_ids _ Hc) Ha Hb). congruence.
Qed.

Lemma index_by_type_iff t r : dlookup t (ix_report_type_index (build_indexes skills)) = Some r <-> Report r ∈ skills /\ report_type r = t.
Proof.
  rewrite build_indexes_by. cbn [ix_report_type_index]. rewrite index_by_iff.
  - split; [intros ([] & Ha & E); [by injection E as <- <-|done|done]|intros [Hr <-]; by exists (Report r)].
  - intros [ra| |] [rb| |] va vb Ha Hb Ea Eb; try done. injection Ea as Ea <-. injection Eb as Eb <-.
    apply elem_of_reports in Ha, Hb. apply (NoDup_map_inj _ _ _ _ (co_types _ Hc) Ha Hb). congruence.
Qed.

Lemma data_for_linked id d : data_for (build_indexes skills) id = Some d ->
  Data d ∈ skills /\ link_of (dk_base d) = id /\ exists r, Report r ∈ skills /\ report_id r = id.
Proof.
  unfold data_for. rewrite build_indexes_by. cbn [ix_data_skill_index]. intros [?|([|d'|] & Hd & E)]%index_by_some; try done.
  cbn [by_data_link] in E. destruct (truthy _); [|done]. injection E as <- <-. split_and!; [done..|]. by apply (co_data _ Hc).
Qed.

Lemma retrieval_for_linked id t : retrieval_for (build_indexes skills) id = Some t ->
  Retrieval t ∈ skills /\ link_of (tk_base t) = id /\ exists r, Report r ∈ skills /\ report_id r = id.
Proof.
  unfold retrieval_for. rewrite build_indexes_by. cbn [ix_retrieval_skill_index]. intros [?|([| |t'] & Ht & E)]%index_by_some; try done.
  cbn [by_retrieval_link] in E. destruct (truthy _); [|done]. injection E as <- <-. split_and!; [done..|]. by apply (co_retrieval _ Hc).
Qed.

Lemma report_has_links r : Report r ∈ skills -> report_id r ∉ FALLBACK_REPORT_SKILL_IDS ->
  is_Some (data_for (build_indexes skills) (report_id r)) /\ is_Some (retrieval_for (build_indexes skills) (report_id r)).
Proof.
  intros Hr Hf. destruct (co_reports _ Hc r Hr Hf) as [(d & Hd & Ed & Hne) (t & Ht & Et & Hne')].
  assert (forall x : string, x <> "" -> truthy x = true) as Htr by by intros [].
  unfold data_for, retrieval_for. rewrite build_indexes_by. cbn [ix_data_skill_index ix_retrieval_skill_index]. split.
  - apply index_by_is_some. right. exists (Data d), d. split; [done|]. cbn. by rewrite (Htr _ Hne), Ed.
  - apply index_by_is_some. right. exists (Retrieval t), t. split; [done|]. cbn. by rewrite (Htr _ Hne'), Et.
Qed.

Lemma listed_in_order : map snd (ix_skills_by_id (build_indexes skills)) = skills.
Proof.
  rewrite build_indexes_by. cbn [ix_skills_by_id]. rewrite index_by_id_list by apply Hc.
  cbn [app]. rewrite map_map. cbn [snd]. by rewrite map_id.
Qed.
End consistent_index.

(** What the successful loads of a list give. *)
Definition loaded (fr : Q -> string) (sha : string -> string) (l : list (result (list Skill) * string)) : list SkillCatalogSnapshot :=
  omap (fun x => match load_catalog fr sha x.1 x.2 with Ok s => Some s | Raise _ => None end) l.

Lemma reloads_last fr sha l : forall s, reloads fr sha (Some s) l = last (s :: loaded fr sha l).
Proof.
  induction l as [|[files revision] l IH]; intros s; [done|]. cbn [reloads]. unfold reload, loaded. cbn [omap list_omap fst snd].
  destruct (load_catalog fr sha files revision) as [new|e]; [exact (IH new)|]. destruct e; exact (IH s).
Qed.

Lemma elem_of_last {A} (l : list A) x : last l = Some x -> x ∈ l.
Proof. intros H. apply last_Some in H as [l' ->]. set_solver. Qed.

(** ** The properties *)

(** [C15] A catalogue that loads holds exactly the configured skills, in their
    order: a search by identifier or by report type finds the one skill that
    has it and nothing else, every report but the fallback one has a data and a
    retrieval skill, and whatever is found for a report links back to it. *)
Theorem catalog_lookup fr sha files revision s (H : load_catalog fr sha files revision = Ok s) :
  exists skills, files = Ok skills /\ list_all s = skills /\
    (forall id k, get_by_id s id = Some k <-> k ∈ skills /\ skill_id k = id) /\
    (forall t r, get_report_by_type s t = Some r <-> Report r ∈ skills /\ report_type r = t) /\
    (forall r, Report r ∈ skills -> report_id r ∉ FALLBACK_REPORT_SKILL_IDS ->
       is_Some (get_data_for_report s (report_id r)) /\ is_Some (get_retrieval_for_report s (report_id r))) /\
    (forall id d, get_data_for_report s id = Some d ->
       Data d ∈ skills /\ link_of (dk_base d) = id /\ exists r, Report r ∈ skills /\ report_id r = id) /\
    (forall id t, get_retrieval_for_report s id = Some t ->
       Retrieval t ∈ skills /\ link_of (tk_base t) = id /\ exists r, Report r ∈ skills /\ report_id r = id).
Proof.
  apply load_catalog_ok in H as (skills & -> & Hv & ->). apply validate_consistent in Hv. exists skills.
  split_and!; [done|by apply listed_in_order|..].
  - intros. by apply index_by_id_iff.
  - intros. by apply index_by_type_iff.
  - intros. by apply report_has_links.
  - intros. by apply data_for_linked.
  - intros. by apply retrieval_for_linked.
Qed.

(** [C16] Whatever reloads follow the first load, the registry serves the snapshot
    of the last load that succeeded, which was built completely from skills
    that are consistent with each other. *)
Theorem registry_serves_last_load fr sha files revision s l (H : new_registry fr sha files revision = Ok s) :
  reloads fr sha (Some s) l = last (loaded fr sha ((files, revision) :: l)) /\
  exists skills revision', reloads fr sha (Some s) l = Some (build_snapshot sha revision' skills) /\ consistent skills /\
    (Ok skills, revision') ∈ (files, revision) :: l.
Proof.
  unfold new_registry in H. assert (s :: loaded fr sha l = loaded fr sha ((files, revision) :: l)) as E.
  { unfold loaded at 2. cbn [omap list_omap fst snd]. by rewrite H. }
  rewrite reloads_last, E. split; [done|]. destruct (last (loaded fr sha ((files, revision) :: l))) as [s'|] eqn:Hl.
  - apply elem_of_last, list_elem_of_omap in Hl as ([f r] & Hin & Hs). cbn [fst snd] in Hs.
    destruct (load_catalog fr sha f r) as [s''|] eqn:Hf; [|done]. injection Hs as ->.
    apply load_catalog_ok in Hf as (skills & -> & Hv & ->). apply validate_consistent in Hv. by exists skills, r.
  - rewrite <- E in Hl. by apply last_None in Hl.
Qed.

(** ** Witnesses *)

Definition example_skill (id link : string) : SkillBase := mkBase id "1.0.0" true (if truthy link then Some link else None) [].
Definition example_skills (type : string) : list Skill :=
  [Report (mkReportSkill (example_skill "sales" "") (mkReportFields type [] ["sales"] [] [[("section_id", VStr "s1"); ("required_metric_ids", VList [VStr "m1"])]]
             ["s1"] ["db"] [[("metric_id", VStr "m1")]]));
   Data (mkDataSkill (example_skill "sales_data" "sales")
           (mkDataFields [[("target_id", VStr "erp"); ("tables", VList [VDict [("table_name", VStr "orders")]])]]
              [("m1", VDict [("source_target_id", VStr "erp"); ("table_name", VStr "orders")])]
              [[("template_id", VStr "q1"); ("target_id", VStr "erp"); ("table_name", VStr "orders")]]
              [[("evidence_id", VStr "e1"); ("source_target_id", VStr "erp")]]));
   Retrieval (mkRetrievalSkill (example_skill "sales_docs" "sales")
                (mkRetrievalFields [[("target_id", VStr "docs"); ("kb_id", VStr "kb1")]] []))].

Definition example_load (type : string) : result SkillCatalogSnapshot := load_catalog (fun _ => "0.5") (fun s => s) (Ok (example_skills type)) "catalog_1".
Definition example_snapshot (type : string) : SkillCatalogSnapshot := build_snapshot (fun s => s) "catalog_1" (example_skills type).

Lemma example_loads : example_load "operations_analysis" = Ok (example_snapshot "operations_analysis").
Proof. vm_compute. reflexivity. Qed.

Lemma catalog_lookup_witness : get_report_by_type (example_snapshot "operations_analysis") "operations_analysis" <> None.
Proof.
  destruct (catalog_lookup (fun _ => "0.5") (fun s => s) (Ok (example_skills "operations_analysis")) "catalog_1" _ example_loads)
    as (skills & [= <-] & _ & _ & Ht & _).
  assert (forall r, Report r ∈ example_skills "operations_analysis" -> report_type r = "operations_analysis" ->
    get_report_by_type (example_snapshot "operations_analysis") "operations_analysis" <> None) as Hr.
  { intros r Hin E. rewrite (proj2 (Ht _ r) (conj Hin E)). discriminate. }
  eapply Hr; [left|reflexivity].
Defined.

Lemma registry_serves_last_load_witness :
  reloads (fun _ => "0.5") (fun s => s) (Some (example_snapshot "operations_analysis"))
    [(Ok (take 2 (example_skills "operations_analysis")), "catalog_2")] = Some (example_snapshot "operations_analysis").
Proof.
  destruct (registry_serves_last_load (fun _ => "0.5") (fun s => s) (Ok (example_skills "operations_analysis")) "catalog_1" _
    [(Ok (take 2 (example_skills "operations_analysis")), "catalog_2")] example_loads) as [E _].
  rewrite E. reflexivity.
Defined.

(** ** What loading leaves open *)

(** A file that is not YAML raises the error of the parser, which is no
    [ValueError]: the reload does not return, although the snapshot stays. *)
Example syntax_error_escapes fr sha s revision : reload fr sha (Some s) (Raise (OtherError "ScannerError")) revision = (Some s, Raise (OtherError "ScannerError")).
Proof. reflexivity. Qed.

(** A directory that is not there gives no skills, and the empty catalogue
    replaces the one in use. *)
Example missing_directory_empties fr sha s revision : reload fr sha (Some s) (Ok []) revision = (Some (build_snapshot sha revision []), Ok ()).
Proof. reflexivity. Qed.

(** One report type without a domain leaves the catalogue without any card. *)
Example unknown_type_drops_cards :
  sn_cards_by_key (example_snapshot "sales_analysis") = [] /\ length (sn_cards_by_key (example_snapshot "cost_analysis")) = 3%nat.
Proof. split; vm_compute; reflexivity. Qed.
