(* ===== verification/SkillResolve.v ===== *)
(** * Resolving a report and its dependencies (skills/resolver.py)

    From the context of a request to a report skill with its data and
    retrieval skills: explicit identifier, report type, recall, default of the
    tenant, fallback, each behind the same filter.  The indices of the recall,
    the embedding model and the reranking model are arguments. *)

From stdpp Require Import pretty.
From S2P Require Import Prelude PyFloat PyVal PyList PyText Governance SkillCatalog SkillRouter SkillLoad.

(** ** Data (models.py) *)

Record ResolvedSkillSet : Type := mkSkillSet {
  ss_report_skill : ReportSkill; ss_data_skill : option DataSkill; ss_retrieval_skill : option RetrievalSkill;
  ss_resolution_source : string; ss_fallback_used : bool; ss_warnings : list string }.

(** A result: the reason of a failure, or a resolved set. *)
Record ResolveResult : Type := mkResolved {
  rs_skill_set : option ResolvedSkillSet; rs_resolved : bool; rs_fallback_used : bool; rs_reason : string; rs_warnings : list string }.

Definition resolve_failure (reason : string) : ResolveResult := mkResolved None false false reason [].

Record HybridRecallConfig : Type := mkRecallConfig {
  hc_enabled : bool; hc_bm25_top_k : Z; hc_embedding_top_k : Z; hc_rrf_top_k : Z; hc_reranker_max_candidates : Z;
  hc_enable_embedding : bool; hc_enable_reranker : bool }.
Definition default_recall_config : HybridRecallConfig := mkRecallConfig true 20 20 20 10 true true.

(** What an embedding function returns: vectors with a token count, vectors,
    or something that is searched as it is. *)
Inductive Embeddings (V : Type) : Type :=
  | EmTuple (vectors : list V)
  | EmList (vectors : list V)
  | EmOther (v : V).
Arguments EmTuple {V}. Arguments EmList {V}. Arguments EmOther {V}.

(** ** Filter *)

Definition config_of (context : SkillResolveContext) : pydict := opt_or (rx_agent_config context) [].

(** [_permission_ok] and [_dependency_permission_ok] *)
Definition permitted (required : list string) (context : SkillResolveContext) : result bool :=
  match dlookup "permissions" (config_of context) with
  | None | Some VNone => Ok true
  | Some (VList l) => let! user := set_of_values l in Ok (is_skill_available user required)
  | Some _ => Ok false
  end.

(** The [enabled] switch of a tool in the request's configuration. *)
Definition tool_switch (tool : string) (context : SkillResolveContext) : bool :=
  match dlookup tool (config_of context) with
  | Some (VDict d) => match dlookup "enabled" d with Some v => truthy v | None => true end
  | _ => true
  end.

Section resolver.
Variable snapshot : SkillCatalogSnapshot.

Definition skill_requires_graph (r : ReportSkill) : result bool := requires_graph (sn_indexes snapshot) r.

Definition runtime_capability (r : ReportSkill) (context : SkillResolveContext) : result bool :=
  if negb (tool_switch "db_tool" context) &&
     (match get_data_for_report snapshot (report_id r) with Some _ => true | None => false end ||
      str_in "db" (rf_required_evidence_types (rk_fields r))) then Ok false
  else if negb (tool_switch "graph_tool" context) then let! graph := skill_requires_graph r in Ok (negb graph)
  else Ok true.

Definition lifecycle_selectable (r : ReportSkill) (context : SkillResolveContext) : bool :=
  if negb (sb_enabled (rk_base r)) then false else is_selectable false SKILL_STATUS_ACTIVE (rx_tenant_id context) None.

(** [_prefilter_skill]: [None] lets the skill through. *)
Definition prefilter_skill (r : ReportSkill) (context : SkillResolveContext) : result (option string) :=
  if negb (lifecycle_selectable r context) then Ok (Some "SKILL_PERMISSION_DENIED")
  else if negb (tenant_allowed (rf_allowed_tenants (rk_fields r)) (rx_tenant_id context)) then Ok (Some "SKILL_PERMISSION_DENIED")
  else
    let! p := permitted (sb_required_permissions (rk_base r)) context in
    if negb p then Ok (Some "SKILL_PERMISSION_DENIED")
    else
      let! c := runtime_capability r context in
      Ok (if negb c then Some "SKILL_PERMISSION_DENIED" else None).

(** ** Dependencies *)

(** A dependency and the warning about it. *)
Definition keep_dependency {K} (base : K -> SkillBase) (label lower_label : string) (report : string) (k : option K) (context : SkillResolveContext) :
    result (option K * list string) :=
  match k with
  | None => Ok (None, [join "" ["No "; lower_label; " skill linked to '"; report; "'"]])
  | Some x =>
    let named suffix := [join "" [label; " skill '"; sb_skill_id (base x); "' "; suffix]] in
    if negb (sb_enabled (base x)) then Ok (None, named "is disabled")
    else
      let! p := permitted (sb_required_permissions (base x)) context in
      Ok (if p then (Some x, []) else (None, named "permission denied"))
  end.

Definition resolve_report_skill (r : ReportSkill) (source : string) (context : SkillResolveContext) (fallback_used : bool) : result ResolveResult :=
  let! reason := prefilter_skill r context in
  match reason with
  | Some reason => Ok (resolve_failure reason)
  | None =>
    let! data := keep_dependency dk_base "Data" "data" (report_id r) (get_data_for_report snapshot (report_id r)) context in
    let! retrieval := keep_dependency tk_base "Retrieval" "retrieval" (report_id r) (get_retrieval_for_report snapshot (report_id r)) context in
    let warnings := data.2 ++ retrieval.2 in
    Ok (mkResolved (Some (mkSkillSet r data.1 retrieval.1 source fallback_used warnings)) true fallback_used "RESOLVED" warnings)
  end.

(** ** Recall *)

Definition hit_length (question : string) (keywords : list string) : Z :=
  fold_right (fun keyword n => if contains (py_lower keyword) (py_lower question) then text_len keyword + n else n)%Z 0%Z keywords.

Definition ranked_keyword_candidates (question : string) : list ReportSkill :=
  let candidates := List.filter (fun r => sb_enabled (rk_base r)) (reports (list_all snapshot)) in
  let scored := map (fun r => (hit_length question (rf_intent_keywords (rk_fields r)), r)) candidates in
  map snd (sort_desc (fun sr => inject_Z sr.1) (List.filter (fun sr => 0 <? sr.1)%Z scored)).

Definition route_report_type (context : SkillResolveContext) : option string :=
  match dlookup "metadata" (opt_or (rx_route_decision context) []) with
  | Some (VDict m) => match dlookup "report_type" m with Some (VStr s) => Some s | _ => None end
  | _ => None
  end.

Definition tenant_default_skill (context : SkillResolveContext) : option string :=
  let default := match dlookup "default_skill_id" (config_of context) with Some (VStr s) => Some s | _ => None end in
  match get_or (dlookup "tenant_defaults" (config_of context)) (VDict []) with
  | VDict d => match dlookup (rx_tenant_id context) d with Some (VStr s) => Some s | _ => default end
  | _ => default
  end.

(** The reports that pass the filter. *)
Fixpoint legal_reports (l : list ReportSkill) (context : SkillResolveContext) : result (list ReportSkill) :=
  match l with
  | [] => Ok []
  | r :: l' =>
    let! reason := prefilter_skill r context in
    let! rest := legal_reports l' context in
    Ok (match reason with None => r :: rest | Some _ => rest end)
  end.

(** The first card of each of the skills. *)
Fixpoint cards_for_recall (ids seen : list string) (cards : list (string * string * SkillCard)) : list SkillCard :=
  match cards with
  | [] => []
  | ((sid, _), card) :: cards' =>
    if str_in sid ids && negb (str_in sid seen) then card :: cards_for_recall ids (sid :: seen) cards' else cards_for_recall ids seen cards'
  end.

(** [_filter_cards_by_domain]: the cards of the domains and the generic ones. *)
Definition filter_cards_by_domain (cards : list SkillCard) (domains : list string) : list SkillCard :=
  if str_in "generic" domains then cards
  else List.filter (fun card => if str_in "generic" (sc_domains card) then true else existsb (fun d => str_in d (sc_domains card)) domains) cards.

(** [_scored_to_skills]: the last report of an identifier, once. *)
Fixpoint scored_to_skills (by_id : list (string * ReportSkill)) (seen : list string) (results : list ScoredCard) : list ReportSkill :=
  match results with
  | [] => []
  | s :: results' =>
    let sid := sc_skill_id (sd_card s) in
    if str_in sid seen then scored_to_skills by_id seen results'
    else match dlookup sid by_id with
         | Some r => r :: scored_to_skills by_id (sid :: seen) results'
         | None => scored_to_skills by_id (sid :: seen) results'
         end
  end.

Section recall.
Context {V : Type} (float_of_text : string -> option Q) (float_repr : Q -> string).
(** The injected retrievers ([None] in the result: an exception), the
    reranker's limits, and whether the caller runs inside an event loop. *)
Variable bm25 : option (string -> Z -> option (list ScoredCard)).
Variable embedding : option (V -> Z -> option (list ScoredCard)).
Variable reranker : option Reranker.
Variable config : HybridRecallConfig.
Variable embed_func : option (string -> option (Embeddings V)).
Variable llm_call_func : option (string -> list ScoredCard -> llm_reply).
Variable loop_running : bool.

Definition query_vector (e : Embeddings V) : option V :=
  match e with EmTuple vs | EmList vs => head vs | EmOther v => Some v end.

Definition embedding_recall_and_fuse (question : string) (bm25_results : list ScoredCard) : list ScoredCard :=
  match embedding, embed_func, hc_enable_embedding config with
  | Some search, Some embed, true =>
    match (e ← embed question; v ← query_vector e; search v (hc_embedding_top_k config)) with
    | Some ((_ :: _) as embedding_results) =>
      if negb (truthy bm25_results) then embedding_results
      else reciprocal_rank_fusion bm25_results embedding_results (hc_rrf_top_k config) 60
    | _ => bm25_results
    end
  | _, _, _ => bm25_results
  end.

(** The candidates of a ranking, then those it left out. *)
Definition reorder (d : SkillRankDecision) (truncated : list ScoredCard) : list ScoredCard :=
  let scored_by_id := fold_left (fun m s => dset (sc_skill_id (sd_card s)) s m) truncated [] in
  let reranked := omap (fun c => s ← dlookup (rk_skill_id c) scored_by_id; Some (mkScored (sd_card s) (rk_score c) "reranker")) (rd_candidates d) in
  let ids := map rk_skill_id (rd_candidates d) in
  reranked ++ List.filter (fun s => negb (str_in (sc_skill_id (sd_card s)) ids)) truncated.

(** Inside a running loop no other loop may run: both attempts raise
    [RuntimeError] and the order of the recall stays. *)
Definition rerank_recall_results (question : string) (recall_results : list ScoredCard) : list ScoredCard :=
  match reranker, llm_call_func, hc_enable_reranker config with
  | Some rn, Some call, true =>
    if loop_running then recall_results
    else
      let truncated := py_take (hc_reranker_max_candidates config) recall_results in
      match rerank float_of_text float_repr (rn_max_candidates rn) (rn_output_top_k rn) (Some call) question truncated with
      | Ok d => if rd_rerank_degraded d then recall_results else reorder d truncated
      | Raise _ => recall_results
      end
  | _, _, _ => recall_results
  end.

(** The part of [_hybrid_recall_candidates] in which every exception leads to
    the keywords ([None]). *)
Definition bm25_recall (question : string) (all_reports : list ReportSkill) : option (list ReportSkill) :=
  match bm25 with
  | None => None
  | Some search =>
    match cards_for_recall (map report_id all_reports) [] (sn_cards_by_key snapshot) with
    | [] => None
    | cards =>
      match filter_cards_by_domain cards (classify_domains_by_rule question) with
      | [] => None
      | _ =>
        bm25_results ← search question (hc_bm25_top_k config);
        match embedding_recall_and_fuse question bm25_results with
        | [] => None
        | fused =>
          let by_id := fold_left (fun d r => dset (report_id r) r d) all_reports [] in
          Some (scored_to_skills by_id [] (rerank_recall_results question fused))
        end
      end
    end
  end.

Definition hybrid_recall_candidates (question : string) (context : SkillResolveContext) : result (list ReportSkill) :=
  let! enabled := match get_or (dlookup "skill_router" (config_of context)) (VDict []) with
                  | VDict d => Ok (match dlookup "enabled" d with Some v => truthy v | None => hc_enabled config end)
                  | _ => Raise (AttributeError "get")
                  end in
  if negb enabled then Ok (ranked_keyword_candidates question)
  else
    let! all_reports := legal_reports (reports (list_all snapshot)) context in
    match all_reports with
    | [] => Ok []
    | _ => Ok (get_or (bm25_recall question all_reports) (ranked_keyword_candidates question))
    end.

(** ** Resolution *)

(** The first candidate that resolves. *)
Fixpoint first_resolved (candidates : list ReportSkill) (context : SkillResolveContext) : result (option ResolveResult) :=
  match candidates with
  | [] => Ok None
  | r :: candidates' =>
    let! result := resolve_report_skill r "keyword" context false in
    if rs_resolved result then Ok (Some result) else first_resolved candidates' context
  end.

(** A report by its identifier. *)
Definition report_by_id (id : string) : option ReportSkill := match get_by_id snapshot id with Some (Report r) => Some r | _ => None end.

(** The report of the type of the context, or of its route. *)
Definition typed_report (context : SkillResolveContext) : option ReportSkill :=
  let report_type := if truthy (rx_report_type context) then rx_report_type context else route_report_type context in
  match report_type with Some ((String _ _) as t) => get_report_by_type snapshot t | _ => None end.

Definition resolve_default (context : SkillResolveContext) : result ResolveResult :=
  match (match tenant_default_skill context with Some ((String _ _) as id) => report_by_id id | _ => None end) with
  | Some r => resolve_report_skill r "tenant_default" context false
  | None =>
    match report_by_id "generic_analysis" with
    | Some r => resolve_report_skill r "fallback" context true
    | None => Ok (resolve_failure "NO_SKILL_AVAILABLE")
    end
  end.

Definition resolve (context : SkillResolveContext) : result ResolveResult :=
  match rx_skill_id context with
  | Some id =>
    if negb (truthy (strip id)) then Ok (resolve_failure "SKILL_NOT_FOUND")
    else match report_by_id (strip id) with
         | Some r => resolve_report_skill r "skill_id" context false
         | None => Ok (resolve_failure "SKILL_NOT_FOUND")
         end
  | None =>
    match typed_report context with
    | Some r => resolve_report_skill r "report_type" context false
    | None =>
      let! candidates := hybrid_recall_candidates (rx_user_question context) context in
      let! found := first_resolved candidates context in
      match found with Some result => Ok result | None => resolve_default context end
    end
  end.
End recall.
End resolver.

(** ** Lemmas: the filter *)

(** What a skill must satisfy to be used for a request. *)
Definition legal (snapshot : SkillCatalogSnapshot) (context : SkillResolveContext) (r : ReportSkill) : Prop :=
  sb_enabled (rk_base r) = true /\
  (rf_allowed_tenants (rk_fields r) = [] \/ rx_tenant_id context ∈ rf_allowed_tenants (rk_fields r)) /\
  permitted (sb_required_permissions (rk_base r)) context = Ok true /\
  runtime_capability snapshot r context = Ok true.

Lemma tenant_allowed_true l t : tenant_allowed l t = true <-> l = [] \/ t ∈ l.
Proof. unfold tenant_allowed. destruct l as [|x l]; [naive_solver|]. cbn [truthy truthy_list negb]. rewrite str_in_spec. naive_solver. Qed.

Lemma prefilter_none snapshot r context : prefilter_skill snapshot r context = Ok None <-> legal snapshot context r.
Proof.
  unfold prefilter_skill, legal, lifecycle_selectable. rewrite <- tenant_allowed_true.
  destruct (sb_enabled (rk_base r)); cbn [negb]; [|naive_solver].
  change (is_selectable false SKILL_STATUS_ACTIVE (rx_tenant_id context) None) with true. cbn [negb].
  destruct (tenant_allowed _ _); cbn [negb]; [|naive_solver].
  destruct (permitted _ context) as [[|]|e]; cbn [rbind negb]; [|naive_solver..].
  destruct (runtime_capability snapshot r context) as [[|]|e]; cbn [rbind negb]; naive_solver.
Qed.

(** A dependency that is kept is the one that is linked, enabled and allowed. *)
Lemma keep_dependency_some {K} (base : K -> SkillBase) label lower report k context r x :
  keep_dependency base label lower report k context = Ok r -> r.1 = Some x ->
  k = Some x /\ sb_enabled (base x) = true /\ permitted (sb_required_permissions (base x)) context = Ok true.
Proof.
  unfold keep_dependency. destruct k as [y|]; [|by intros [= <-]]. destruct (sb_enabled (base y)) eqn:E; cbn [negb]; [|by intros [= <-]].
  intros ([|] & Hp & [= <-])%rbind_ok; [|done]. cbn [fst]. intros [= <-]. done.
Qed.

(** What resolving one report gives: nothing, or a set that may be used. *)
Record usable_set (snapshot : SkillCatalogSnapshot) (context : SkillResolveContext) (set : ResolvedSkillSet) : Prop := {
  us_report : legal snapshot context (ss_report_skill set);
  us_data d : ss_data_skill set = Some d -> get_data_for_report snapshot (report_id (ss_report_skill set)) = Some d /\
    sb_enabled (dk_base d) = true /\ permitted (sb_required_permissions (dk_base d)) context = Ok true;
  us_retrieval t : ss_retrieval_skill set = Some t -> get_retrieval_for_report snapshot (report_id (ss_report_skill set)) = Some t /\
    sb_enabled (tk_base t) = true /\ permitted (sb_required_permissions (tk_base t)) context = Ok true }.

Lemma resolve_report_skill_set snapshot r source context fb res :
  resolve_report_skill snapshot r source context fb = Ok res -> rs_resolved res = true ->
  exists set, rs_skill_set res = Some set /\ ss_report_skill set = r /\ ss_resolution_source set = source /\ rs_fallback_used res = fb /\
    usable_set snapshot context set.
Proof.
  unfold resolve_report_skill. intros ([reason|] & Hp & H)%rbind_ok Hr; [by injection H as <-|].
  apply rbind_ok in H as (data & Hd & H). apply rbind_ok in H as (retrieval & Ht & [= <-]). eexists. split; [reflexivity|].
  cbn. split_and!; [done..|]. split; cbn [ss_report_skill ss_data_skill ss_retrieval_skill].
  - by apply prefilter_none.
  - intros d Hx. by apply (keep_dependency_some _ _ _ _ _ _ _ _ Hd).
  - intros t Hx. by apply (keep_dependency_some _ _ _ _ _ _ _ _ Ht).
Qed.

(** Resolving raises nothing and fails exactly by the filter where the
    permissions of the request can be read. *)
Lemma resolve_report_skill_refused snapshot r source context fb reason :
  prefilter_skill snapshot r context = Ok (Some reason) -> resolve_report_skill snapshot r source context fb = Ok (resolve_failure reason).
Proof. unfold resolve_report_skill. by intros ->. Qed.

Lemma resolve_report_skill_legal snapshot r source context fb res :
  prefilter_skill snapshot r context = Ok None -> resolve_report_skill snapshot r source context fb = Ok res -> rs_resolved res = true.
Proof. unfold resolve_report_skill. intros ->. cbn [rbind]. intros (data & _ & (t & _ & [= <-])%rbind_ok)%rbind_ok. done. Qed.

(** ** Lemmas: candidates *)

Lemma elem_of_ranked snapshot question r : r ∈ ranked_keyword_candidates snapshot question <->
  r ∈ reports (list_all snapshot) /\ sb_enabled (rk_base r) = true /\ (0 < hit_length question (rf_intent_keywords (rk_fields r)))%Z.
Proof.
  unfold ranked_keyword_candidates. rewrite list_elem_of_In, in_map_iff. split.
  - intros ([n r'] & <- & H). cbn [snd] in *. apply list_elem_of_In in H. rewrite elem_of_sort_desc in H.
    apply list_elem_of_In, filter_In in H as [H Hn]. apply in_map_iff in H as (r'' & [= <- <-] & H). apply filter_In in H as [H He].
    split_and!; [by apply list_elem_of_In|done|]. by apply Z.ltb_lt.
  - intros (H & He & Hn). exists (hit_length question (rf_intent_keywords (rk_fields r)), r). split; [done|].
    apply list_elem_of_In. rewrite elem_of_sort_desc. apply list_elem_of_In, filter_In. split; [|by apply Z.ltb_lt].
    apply in_map_iff. exists r. split; [done|]. apply filter_In. split; [by apply list_elem_of_In|done].
Qed.

Lemma elem_of_legal_reports snapshot l context : forall out r, legal_reports snapshot l context = Ok out -> r ∈ out -> r ∈ l.
Proof.
  induction l as [|x l IH]; intros out r H Hr; cbn [legal_reports] in H; [by injection H as <-|].
  apply rbind_ok in H as (reason & _ & H). apply rbind_ok in H as (rest & Hrest & [= <-]).
  destruct reason; [right; by eapply IH|]. apply elem_of_cons in Hr as [->|Hr]; [by left|right; by eapply IH].
Qed.

Lemma elem_of_scored_to_skills by_id results : forall seen r, r ∈ scored_to_skills by_id seen results -> exists id, dlookup id by_id = Some r.
Proof.
  induction results as [|s results IH]; intros seen r; cbn [scored_to_skills]; [by intros ?%not_elem_of_nil|].
  destruct (str_in _ seen); [apply IH|]. destruct (dlookup _ by_id) eqn:E; [|apply IH]. intros [->|H]%elem_of_cons; [eauto|by eapply IH].
Qed.

Lemma dict_of_reports (l : list ReportSkill) id r : dlookup id (fold_left (fun d r => dset (report_id r) r d) l []) = Some r -> r ∈ l.
Proof.
  pose proof (index_by_some (fun r => Some (report_id r, r)) l [] id r) as H. unfold index_by in H. intros E. specialize (H E) as [?|(a & Ha & [= _ ->])]; done.
Qed.

Section resolving.
Context {V : Type} (fot : string -> option Q) (fr : Q -> string) (snapshot : SkillCatalogSnapshot).
Variable bm25 : option (string -> Z -> option (list ScoredCard)).
Variable embedding : option (V -> Z -> option (list ScoredCard)).
Variable reranker : option Reranker.
Variable config : HybridRecallConfig.
Variable embed_func : option (string -> option (Embeddings V)).
Variable llm_call_func : option (string -> list ScoredCard -> llm_reply).
Variable loop_running : bool.

Notation candidates := (hybrid_recall_candidates snapshot fot fr bm25 embedding reranker config embed_func llm_call_func loop_running).
Notation resolve_all := (resolve snapshot fot fr bm25 embedding reranker config embed_func llm_call_func loop_running).

Lemma elem_of_bm25_recall question l out r :
  bm25_recall snapshot fot fr bm25 embedding reranker config embed_func llm_call_func loop_running question l = Some out -> r ∈ out -> r ∈ l.
Proof.
  unfold bm25_recall. destruct bm25 as [search|]; [|done]. destruct (cards_for_recall _ _ _) as [|c cs]; [done|].
  destruct (filter_cards_by_domain _ _); [done|]. destruct (search _ _) as [hits|]; [|done]. cbn [mbind option_bind].
  destruct (embedding_recall_and_fuse _ _ _ _ _) as [|x xs]; [done|]. intros [= <-] [id Hid]%elem_of_scored_to_skills. by apply dict_of_reports in Hid.
Qed.

(** Every candidate is a report of the catalogue. *)
Lemma elem_of_candidates question context out r : candidates question context = Ok out -> r ∈ out -> r ∈ reports (list_all snapshot).
Proof.
  unfold hybrid_recall_candidates. intros (enabled & _ & H)%rbind_ok Hr. destruct enabled; cbn [negb] in H.
  - apply rbind_ok in H as (l & Hl & H). assert (r ∈ l \/ r ∈ ranked_keyword_candidates snapshot question) as [Hin|Hin].
    { destruct l as [|x l]; [injection H as <-; by apply not_elem_of_nil in Hr|]. injection H as <-.
      destruct (bm25_recall _ _ _ _ _ _ _ _ _ _ _ _) as [found|] eqn:E; cbn [get_or] in Hr; [left; by eapply elem_of_bm25_recall|by right]. }
    + by eapply elem_of_legal_reports.
    + by apply elem_of_ranked in Hin as [? _].
  - injection H as <-. by apply elem_of_ranked in Hr as [? _].
Qed.

Lemma first_resolved_some l context res : first_resolved snapshot l context = Ok (Some res) ->
  exists r, r ∈ l /\ resolve_report_skill snapshot r "keyword" context false = Ok res.
Proof.
  induction l as [|r l IH]; cbn [first_resolved]; [done|]. intros (x & Hx & H)%rbind_ok. destruct (rs_resolved x).
  - injection H as <-. exists r. split; [by left|done].
  - destruct (IH H) as (r' & Hr & E). exists r'. split; [by right|done].
Qed.

(** A candidate behind others that are refused is tried all the same. *)
Lemma first_resolved_skips l1 r l2 context :
  Forall (fun x => exists reason, prefilter_skill snapshot x context = Ok (Some reason)) l1 -> prefilter_skill snapshot r context = Ok None ->
  first_resolved snapshot (l1 ++ r :: l2) context = (let! res := resolve_report_skill snapshot r "keyword" context false in Ok (Some res)).
Proof.
  intros Hl Hr. induction Hl as [|x l1 [reason Hx] Hl IH]; cbn [app first_resolved].
  - destruct (resolve_report_skill snapshot r "keyword" context false) as [res|] eqn:E; [|done]. cbn [rbind].
    by rewrite (resolve_report_skill_legal _ _ _ _ _ _ Hr E).
  - rewrite (resolve_report_skill_refused _ _ _ _ _ _ Hx). exact IH.
Qed.

(** What is resolved comes from one report of the catalogue. *)
Lemma resolve_one context res : resolve_all context = Ok res -> rs_resolved res = true ->
  exists r source fb, resolve_report_skill snapshot r source context fb = Ok res /\
    ((exists id, get_by_id snapshot id = Some (Report r) /\ (fb = true -> id = "generic_analysis")) \/
     (fb = false /\ (exists t, get_report_by_type snapshot t = Some r)) \/ (fb = false /\ r ∈ reports (list_all snapshot))).
Proof.
  assert (forall id r, report_by_id snapshot id = Some r -> get_by_id snapshot id = Some (Report r)) as Hid.
  { intros id r. unfold report_by_id. destruct (get_by_id snapshot id) as [[]|]; try done. by intros [= ->]. }
  unfold resolve. intros H Hr. destruct (rx_skill_id context) as [id|].
  - destruct (negb _); [by injection H as <-|]. destruct (report_by_id snapshot (strip id)) as [r|] eqn:E; [|by injection H as <-].
    exists r, "skill_id", false. split; [done|]. left. exists (strip id). split; [by apply Hid|done].
  - destruct (typed_report snapshot context) as [r|] eqn:E.
    + exists r, "report_type", false. split; [done|]. right; left. split; [done|]. unfold typed_report in E.
      destruct (if truthy _ then _ else _) as [[|a t]|]; [done|by eexists|done].
    + apply rbind_ok in H as (l & Hl & H). apply rbind_ok in H as ([found|] & Hf & H).
      * injection H as <-. apply first_resolved_some in Hf as (r & Hin & E'). exists r, "keyword", false. split; [done|].
        right; right. split; [done|]. by eapply elem_of_candidates.
      * unfold resolve_default in H. destruct (match tenant_default_skill context with Some "" => None | _ => _ end) as [r|] eqn:Ed.
        -- exists r, "tenant_default", false. split; [done|]. left. destruct (tenant_default_skill context) as [[|a id]|]; [done| |done].
           exists (String a id). split; [by apply Hid|done].
        -- destruct (report_by_id snapshot "generic_analysis") as [r|] eqn:Eg; [|by injection H as <-].
           exists r, "fallback", true. split; [done|]. left. exists "generic_analysis". split; [by apply Hid|done].
Qed.
End resolving.

(** ** The properties *)

(** [C14] However a request is resolved, by an explicit identifier, a report type,
    the indices and models of the recall, a default or the fallback, the skill
    set that comes out holds a configured report that is enabled, open to the
    tenant, permitted to the user and whose tools are switched on, with only
    those linked data and retrieval skills that are enabled and permitted; the
    fallback flag marks the generic report alone. *)
Theorem resolve_hard_filtered {V} fot fr sha files revision snapshot bm25 (embedding : option (V -> Z -> option (list ScoredCard)))
    reranker config embed llm running context res
  (Hload : load_catalog fr sha files revision = Ok snapshot)
  (Hres : resolve snapshot fot fr bm25 embedding reranker config embed llm running context = Ok res) (Hr : rs_resolved res = true) :
  exists skills set, files = Ok skills /\ rs_skill_set res = Some set /\ Report (ss_report_skill set) ∈ skills /\
    usable_set snapshot context set /\
    (rs_fallback_used res = true -> report_id (ss_report_skill set) = "generic_analysis").
Proof.
  apply load_catalog_ok in Hload as (skills & -> & Hv & ->). apply validate_consistent in Hv.
  apply resolve_one in Hres as (r & source & fb & E & Hwhere); [|done].
  apply resolve_report_skill_set in E as (set & Hset & Hset_r & _ & Hfb & Hu); [|done]. exists skills, set. subst r fb.
  split_and!; [done|done| |done|].
  - destruct Hwhere as [(id & Hid & _)|[(_ & t & Ht)|(_ & Hin)]].
    + by apply (index_by_id_iff _ Hv) in Hid as [? _].
    + by apply (index_by_type_iff _ Hv) in Ht as [? _].
    + apply elem_of_reports in Hin. pose proof (listed_in_order _ Hv) as El. unfold list_all, build_snapshot in Hin. cbn [sn_indexes] in Hin.
      by rewrite El in Hin.
  - intros Hfb. destruct Hwhere as [(id & Hid & Hg)|[(Hf & _)|(Hf & _)]]; [|congruence..].
    apply (index_by_id_iff _ Hv) in Hid as [_ <-]. by apply Hg.
Qed.

(** A skill that may not be used never stands in the way: without an explicit
    request the first candidate of the recall that passes the filter is
    resolved, whatever the candidates before it. *)
Theorem refused_candidates_are_skipped {V} fot fr snapshot bm25 (embedding : option (V -> Z -> option (list ScoredCard)))
    reranker config embed llm running context l1 r l2
  (Hid : rx_skill_id context = None) (Htype : typed_report snapshot context = None)
  (Hc : hybrid_recall_candidates snapshot fot fr bm25 embedding reranker config embed llm running (rx_user_question context) context = Ok (l1 ++ r :: l2))
  (Hrefused : Forall (fun x => exists reason, prefilter_skill snapshot x context = Ok (Some reason)) l1)
  (Hlegal : legal snapshot context r) :
  resolve snapshot fot fr bm25 embedding reranker config embed llm running context = resolve_report_skill snapshot r "keyword" context false.
Proof.
  unfold resolve. rewrite Hid, Htype, Hc. cbn [rbind]. apply prefilter_none in Hlegal. rewrite (first_resolved_skips _ _ _ _ _ Hrefused Hlegal).
  by destruct (resolve_report_skill snapshot r "keyword" context false).
Qed.

(** The candidates by keywords are the enabled reports with a keyword in the
    question, the longest matches first. *)
Theorem keyword_ranking snapshot question :
  (forall r, r ∈ ranked_keyword_candidates snapshot question <->
     r ∈ reports (list_all snapshot) /\ sb_enabled (rk_base r) = true /\ (0 < hit_length question (rf_intent_keywords (rk_fields r)))%Z) /\
  StronglySorted (fun a b => (hit_length question (rf_intent_keywords (rk_fields b)) <= hit_length question (rf_intent_keywords (rk_fields a)))%Z)
    (ranked_keyword_candidates snapshot question).
Proof.
  split; [intros r; apply elem_of_ranked|]. unfold ranked_keyword_candidates.
  set (l := List.filter _ (map _ _)).
  assert (Forall (fun sr => sr.1 = hit_length question (rf_intent_keywords (rk_fields sr.2))) (sort_desc (fun sr : Z * ReportSkill => inject_Z sr.1) l)) as Hall.
  { apply Forall_forall. intros sr Hsr. rewrite elem_of_sort_desc in Hsr. apply list_elem_of_In, filter_In in Hsr as [Hsr _].
    by apply in_map_iff in Hsr as (r & <- & _). }
  pose proof (sort_desc_sorted (fun sr : Z * ReportSkill => inject_Z sr.1) l) as Hs.
  induction Hs as [|x xs Hs IH Hx]; cbn [map]; [constructor|]. apply Forall_cons in Hall as [Ex Hall]. constructor; [by apply IH|].
  apply Forall_forall. intros b (y & <- & Hy)%list_elem_of_In%in_map_iff. apply list_elem_of_In in Hy.
  rewrite Forall_forall in Hx, Hall. specialize (Hx y Hy). rewrite <- (Hall y Hy), <- Ex. unfold desc in Hx. by rewrite Zle_Qle.
Qed.

(** [C17] The resolver's filter implies the router's on the card of the report: a
    skill that the resolver lets through is refused by the router for its
    latency class alone. *)
Theorem prefilter_refines_card_filter snapshot r context card
  (Hp : prefilter_skill snapshot r context = Ok None) (Hcard : build_report_card (sn_indexes snapshot) r = Ok card) :
  hard_check card (from_resolve_context context) =
    Ok (if latency_ok card (from_resolve_context context) then None else Some "LATENCY_MISMATCH").
Proof.
  apply prefilter_none in Hp as (He & Ht & Hperm & Hcap). unfold build_report_card in Hcard.
  destruct (dlookup _ REPORT_TYPE_DOMAIN_MAP) as [domains|]; [|done]. apply rbind_ok in Hcard as (caps & Hcaps & [= <-]).
  set (card := mkCard _ _ _ _ _ _ _ _ _ _ _ _ _ _ _ _ _ _ _). unfold hard_check.
  assert (is_lifecycle_selectable card (from_resolve_context context) = true) as ->.
  { unfold is_lifecycle_selectable, card, lifecycle_status. cbn. by rewrite He. }
  assert (tenant_allowed (sc_allowed_tenants card) (fc_tenant_id (from_resolve_context context)) = true) as -> by by apply tenant_allowed_true.
  assert (permission_ok card (from_resolve_context context) = Ok true) as ->.
  { unfold permission_ok, from_resolve_context, permitted, config_of in *. cbn [fc_user_permissions sc_required_permissions card] in *.
    destruct (dlookup "permissions" _) as [[| | | | |l|]|]; cbn in *; done. }
  assert (runtime_capability_ok card (from_resolve_context context) = true) as ->.
  { unfold runtime_capability_ok, runtime_capability, tool_switch, config_of in *. cbn [fc_agent_config from_resolve_context sc_capabilities card] in *.
    destruct (match dlookup "db_tool" _ with Some _ => _ | None => _ end); cbn [negb andb] in *; [done|].
    unfold get_data_for_report in Hcap. unfold derive_capabilities in Hcaps. apply rbind_ok in Hcaps as (graph & _ & [= <-]).
    destruct (data_for _ _); cbn [orb] in Hcap; [done|]. by destruct (retrieval_for _ _), graph. }
  cbn [negb rbind]. destruct (latency_ok card _); cbn [negb]; done.
Qed.

(** ** Witnesses *)

Definition request (question : string) (config : pydict) : SkillResolveContext := mkResolveContext question "t1" None None None (Some config).

(** Resolution over the catalogue of the examples, by keywords only. *)
Definition resolve_example (context : SkillResolveContext) : result ResolveResult :=
  resolve (V := Q) (example_snapshot "operations_analysis") (fun _ => None) (fun _ => "0.5") None None None default_recall_config None None false context.

Definition linked_ids (res : ResolveResult) : list string :=
  match rs_skill_set res with
  | Some set => [report_id (ss_report_skill set)] ++ from_option (fun d => [sb_skill_id (dk_base d)]) [] (ss_data_skill set) ++
                from_option (fun t => [sb_skill_id (tk_base t)]) [] (ss_retrieval_skill set)
  | None => []
  end.

Definition example_resolved : ResolveResult := match resolve_example (request "sales by region" []) with Ok r => r | Raise _ => resolve_failure "" end.

Example resolves_with_its_skills : linked_ids example_resolved = ["sales"; "sales_data"; "sales_docs"].
Proof. vm_compute. reflexivity. Qed.

Lemma resolve_hard_filtered_witness : exists set, rs_skill_set example_resolved = Some set /\ sb_enabled (rk_base (ss_report_skill set)) = true.
Proof.
  destruct (resolve_hard_filtered (V := Q) (fun _ => None) (fun _ => "0.5") (fun s => s) (Ok (example_skills "operations_analysis")) "catalog_1"
    (example_snapshot "operations_analysis") None None None default_recall_config None None false (request "sales by region" []) example_resolved
    example_loads ltac:(vm_compute; reflexivity) ltac:(vm_compute; reflexivity)) as (skills & set & _ & Hset & _ & Hu & _).
  exists set. split; [done|]. apply (us_report _ _ _ Hu).
Defined.

Definition example_report_skill : ReportSkill := match example_skills "operations_analysis" with Report r :: _ => r | _ => mkReportSkill (example_skill "" "") (mkReportFields "" [] [] [] [] [] [] []) end.

(** A report that the user may not use is refused and skipped. *)
Definition restricted_report : ReportSkill :=
  mkReportSkill (mkBase "old_sales" "1.0.0" true None ["audit"]) (mkReportFields "cost_analysis" [] ["sales by region"] [] [] [] [] []).
Definition two_reports : SkillCatalogSnapshot := build_snapshot (fun s => s) "catalog_2" (Report restricted_report :: example_skills "operations_analysis").

Lemma refused_candidates_are_skipped_witness :
  resolve (V := Q) two_reports (fun _ => None) (fun _ => "0.5") None None None default_recall_config None None false (request "sales by region" [("permissions", VList [])])
    = resolve_report_skill two_reports example_report_skill "keyword" (request "sales by region" [("permissions", VList [])]) false.
Proof.
  apply (refused_candidates_are_skipped (V := Q) (fun _ => None) (fun _ => "0.5") two_reports None None None default_recall_config None None false
    (request "sales by region" [("permissions", VList [])]) [restricted_report] example_report_skill []); [reflexivity|reflexivity|vm_compute; reflexivity| |].
  - constructor; [|constructor]. exists "SKILL_PERMISSION_DENIED". vm_compute. reflexivity.
  - apply prefilter_none. vm_compute. reflexivity.
Defined.

Definition example_report_card : SkillCard :=
  match build_report_card (sn_indexes (example_snapshot "operations_analysis")) example_report_skill with
  | Ok c => c
  | Raise _ => plain_card (rk_base example_report_skill) "" "" "" "" ""
  end.

Lemma prefilter_refines_card_filter_witness : hard_check example_report_card (from_resolve_context (request "sales by region" [])) = Ok None.
Proof.
  rewrite (prefilter_refines_card_filter (example_snapshot "operations_analysis") example_report_skill (request "sales by region" []) example_report_card);
    [reflexivity|vm_compute; reflexivity|vm_compute; reflexivity].
Defined.

(** ** Where the resolver and its documents differ *)

Definition plain_report (id type : string) (keywords evidence : list string) : ReportSkill :=
  mkReportSkill (mkBase id "1.0.0" true None []) (mkReportFields type [] keywords [] [] [] evidence []).
Definition reports_catalogue (l : list ReportSkill) : SkillCatalogSnapshot := build_snapshot (fun s => s) "catalog_3" (map Report l).
Definition cards_of_catalogue (s : SkillCatalogSnapshot) : list SkillCard := map snd (sn_cards_by_key s).

(** The domains of the question are computed, but the index is searched
    without them: a question about quality gets the report on costs. *)
Definition two_domains : SkillCatalogSnapshot :=
  reports_catalogue [plain_report "defects" "quality_analysis" [] []; plain_report "budget" "cost_analysis" [] []].
Definition costs_first : string -> Z -> option (list ScoredCard) :=
  fun _ _ => Some (map (fun c => mkScored c 1 "bm25") (rev (cards_of_catalogue two_domains))).
Definition candidate_names (r : result (list ReportSkill)) : option (list string) := match r with Ok l => Some (map report_id l) | Raise _ => None end.
Example domain_does_not_narrow :
  classify_domains_by_rule "质量" = ["quality"] /\
  candidate_names (hybrid_recall_candidates (V := Q) two_domains (fun _ => None) (fun _ => "0.5") (Some costs_first) None None default_recall_config None None false
    "质量" (request "质量" [])) = Some ["budget"; "defects"].
Proof. split; vm_compute; reflexivity. Qed.

(** The router's filter looks at the database switch only: a report on graph
    evidence passes it while graph queries are off. *)
Definition graph_report : ReportSkill := plain_report "network" "operations_analysis" [] ["graph"].
Example graph_switch_in_one_filter :
  let context := request "network" [("graph_tool", VDict [("enabled", VBool false)])] in
  prefilter_skill (reports_catalogue [graph_report]) graph_report context = Ok (Some "SKILL_PERMISSION_DENIED") /\
  map (fun c => hard_check c (from_resolve_context context)) (cards_of_catalogue (reports_catalogue [graph_report])) = [Ok None].
Proof. split; vm_compute; reflexivity. Qed.

(** Permissions that are no list refuse every skill in the resolver and none
    in the router. *)
Example unreadable_permissions :
  let context := request "network" [("permissions", VStr "admin")] in
  prefilter_skill (reports_catalogue [graph_report]) graph_report context = Ok (Some "SKILL_PERMISSION_DENIED") /\
  map (fun c => hard_check c (from_resolve_context context)) (cards_of_catalogue (reports_catalogue [graph_report])) = [Ok None].
Proof. split; vm_compute; reflexivity. Qed.

(** Called from a coroutine, the resolver never reranks. *)
Lemma reranker_idle_in_loop fot fr reranker config llm question results :
  rerank_recall_results fot fr reranker config llm true question results = results.
Proof. unfold rerank_recall_results. destruct reranker, llm; [|done..]. by destruct (hc_enable_reranker config). Qed.
