(* ===== verification/PairVerify.v ===== *)
(** * Verification of pairs by a model (evidence/pair_verifier.py)

    A claim and a piece of evidence are judged by rules; what the rules leave
    open goes in batches to a model, within a budget of calls, and falls back
    to the rules where the model does not answer.  The rules, the model and
    the repair of JSON text are arguments. *)

From stdpp Require Import pretty.
From S2P Require Import Prelude PyFloat PyVal PyList PyText PyRegex Evidence Claim AnswerAst CitationBinder.

(** ** Data *)

Record PairVerifierConfig : Type := mkVerifierConfig {
  pc_batch_size : Z; pc_skip_llm_when_rule_contradicted : bool; pc_skip_llm_when_rule_supported_with_entities : bool;
  pc_temperature : Q; pc_max_tokens : Z; pc_timeout_seconds : Z; pc_max_retries_per_batch : Z }.
Definition default_verifier_config : PairVerifierConfig := mkVerifierConfig 5 true true (1 # 10) 1024 30 1.

(** What the rules say of a pair. *)
Record RuleCheck : Type := mkRuleCheck { rc_result : string; rc_matched_evidence : option string; rc_entities : list pyval }.

Record PairResult : Type := mkPairResult {
  pr_evidence_id : string; pr_rule_result : string; pr_nli_result : string; pr_llm_result : string; pr_pair_status : string;
  pr_verifier_status : string; pr_matched_evidence : string; pr_extracted_entities : list pyval; pr_partial_failure : bool }.

Definition to_pair_verdict (r : PairResult) : PairVerdict :=
  mkPairVerdict (pr_evidence_id r) "1.0" (pr_pair_status r) (pr_verifier_status r) (pr_rule_result r) (pr_nli_result r) (pr_llm_result r) "" false.

(** ** Aggregation *)

Definition aggregate_pair_status (rule_result nli_result llm_result : string) : string :=
  if String.eqb rule_result "CONTRADICTED" || String.eqb nli_result "contradiction" || String.eqb llm_result "CONTRADICTED"
  then PairStatus_value PS_CONTRADICTED
  else if String.eqb rule_result "SUPPORTED" && String.eqb nli_result "entailment" && String.eqb llm_result "SUPPORTED"
  then PairStatus_value PS_SUPPORTED
  else PairStatus_value PS_INSUFFICIENT.

Definition short_circuit_values (rule_result : string) : string * string :=
  if String.eqb rule_result "CONTRADICTED" then ("contradiction", "CONTRADICTED")
  else if String.eqb rule_result "SUPPORTED" then ("entailment", "SUPPORTED")
  else ("neutral", "NOT_SUPPORTED").

Definition NLI_VALUES : list string := ["entailment"; "neutral"; "contradiction"].
Definition LLM_VALUES : list string := ["SUPPORTED"; "NOT_SUPPORTED"; "CONTRADICTED"].

(** The layers of a result set, and its status with them. *)
Definition set_layers (nli llm verifier_status : string) (partial : bool) (r : PairResult) : PairResult :=
  mkPairResult (pr_evidence_id r) (pr_rule_result r) nli llm (aggregate_pair_status (pr_rule_result r) nli llm) verifier_status
    (pr_matched_evidence r) (pr_extracted_entities r) partial.

(** ** Reading a reply *)

Definition in_quotes (s : string) : string := String double_quote (String.append s (String double_quote "")).

Definition FENCE3 : string := "```".

(** The text after the first opening of a JSON block, without a closing fence. *)
Definition drop_opening (text : string) : string :=
  match str_split "```json" text with
  | _ :: ((_ :: _) as rest) => lstrip (join "```json" rest)
  | _ => text
  end.
Definition drop_closing (text : string) : string :=
  let n := String.length text in
  if String.eqb (String.substring (n - 3) 3 text) FENCE3 then String.substring 0 (n - 3) text else text.
Definition json_text (response : string) : string := strip (drop_closing (drop_opening (strip response))).

Definition LIST_KEYS : list string := ["pair_verdicts"; "verdicts"; "results"; "pairs"].

Definition reply_items (parsed : pyval) : option (list pyval) :=
  match parsed with
  | VList l => Some l
  | VDict d => head (omap (fun key => match dlookup key d with Some (VList l) => Some l | _ => None end) LIST_KEYS)
  | _ => None
  end.

(** The 1-based pair that an item is about; an index 0 is read as the first. *)
Definition item_slot (expected_count : Z) (item : pyval) : option (Z * pydict) :=
  match item with
  | VDict d =>
    match (match get_or (dlookup "pair_index" d) VNone with VInt z => Some z | VBool b => Some (if b then 1 else 0)%Z | _ => None end) with
    | Some z => if (1 <=? z)%Z && (z <=? expected_count)%Z then Some (z, d)
                else if (0 <=? z)%Z && (z <? expected_count)%Z then Some ((z + 1)%Z, d)
                else None
    | None => None
    end
  | _ => None
  end.

(** The last item about a pair. *)
Definition item_for (slots : list (Z * pydict)) (i : Z) : option pydict :=
  match List.find (fun s => (s.1 =? i)%Z) (rev slots) with Some s => Some s.2 | None => None end.

Definition nli_of (raw : string) : option string :=
  if str_in raw NLI_VALUES then Some raw
  else if contains "contradict" raw then Some "contradiction"
  else if contains "entail" raw || contains "support" raw then Some "entailment"
  else if contains "neutral" raw then Some "neutral"
  else None.

Definition llm_of (raw : string) : option string :=
  if str_in raw LLM_VALUES then Some raw
  else if contains "CONTRADICT" raw then Some "CONTRADICTED"
  else if contains "NOT" raw || contains "UNSUPPORTED" raw then Some "NOT_SUPPORTED"
  else if contains "SUPPORTED" raw || contains "SUPPORT" raw then Some "SUPPORTED"
  else None.

Section verifier.
Variable float_repr : Q -> string.
(** [rule_check_fact(claim, docs)]; [None]: it raised. *)
Variable rule_check_fact : string -> list string -> option RuleCheck.
(** The n-th call of the model; [None]: it failed or timed out. *)
Variable call_llm : Z -> string -> option string.
Variable json_loads : string -> option pyval.
Variable config : PairVerifierConfig.
Variable max_llm_calls : Z.

Definition first_key (item : pydict) (keys : list string) : pyval :=
  get_or (head (omap (fun k => dlookup k item) keys)) (VStr "").

Definition item_verdict (item : pydict) : option (string * string) :=
  let nli_raw := strip (py_lower (py_str float_repr (first_key item ["nli"; "NLI"]))) in
  let llm_raw := strip (py_upper (py_str float_repr (first_key item ["llm"; "semantic"; "result"]))) in
  nli ← nli_of nli_raw; llm ← llm_of llm_raw; Some (nli, llm).

Definition parse_batch_response (response : string) (expected_count : nat) : list (option (string * string)) :=
  let none := replicate expected_count None in
  if negb (truthy response) then none
  else match (parsed ← json_loads (json_text response); reply_items parsed) with
       | None => none
       | Some items =>
         let slots := omap (item_slot (Z.of_nat expected_count)) items in
         map (fun i => item ← item_for slots (Z.of_nat i); item_verdict item) (List.seq 1 expected_count)
       end.

(** ** Rules *)

Definition rule_check (p : PairInput) : RuleCheck :=
  match rule_check_fact (pi_claim_text p) (if truthy (pi_evidence_content p) then [pi_evidence_content p] else []) with
  | Some r => r
  | None => mkRuleCheck "SUPPORTED" None []
  end.

Definition should_skip_llm (rule_result : string) (entities : list pyval) : bool :=
  (pc_skip_llm_when_rule_contradicted config && String.eqb rule_result "CONTRADICTED") ||
  (pc_skip_llm_when_rule_supported_with_entities config && String.eqb rule_result "SUPPORTED" && truthy entities).

Definition OK_STATUS : string := VerifierStatus_value VS_OK.

(** The result before any call of the model. *)
Definition initial_result (p : PairInput) : PairResult :=
  let rule := rule_check p in
  let placeholder := mkPairResult (pi_evidence_id p) (rc_result rule) "unknown" "unknown" (PairStatus_value PS_INSUFFICIENT) OK_STATUS
                       (opt_or (rc_matched_evidence rule) "") (rc_entities rule) false in
  if should_skip_llm (rc_result rule) (rc_entities rule)
  then let v := short_circuit_values (rc_result rule) in set_layers v.1 v.2 OK_STATUS false placeholder
  else placeholder.

Definition needs_llm (p : PairInput) : bool := let rule := rule_check p in negb (should_skip_llm (rc_result rule) (rc_entities rule)).

(** ** Batches *)

Definition pair_text (i : nat) (p : PairInput) : string :=
  let ev_text := if truthy (pi_evidence_content p) then text_take 2000 (pi_evidence_content p) else "(空)" in
  join "" ["Pair "; pretty (S i); ":"; nl; "  证据："; ev_text; nl; "  声明："; pi_claim_text p].

Definition build_batch_prompt (batch : list PairInput) : string :=
  join "" ["请分别判断以下各组证据和声明的关系。"; nl; nl; join (String.append nl nl) (imap pair_text batch); nl; nl;
           "对每个 pair，请判断："; nl; "1. NLI（自然语言推理）：声明是否可以被证据蕴含或存在矛盾？"; nl;
           "   - entailment：证据蕴含声明（证据支持声明）"; nl; "   - neutral：证据不足以判断声明（证据未提及或不相关）"; nl;
           "   - contradiction：声明与证据矛盾"; nl; "2. LLM 语义支持度：声明是否被证据支持？"; nl; "   - SUPPORTED：证据支持声明"; nl;
           "   - NOT_SUPPORTED：证据不支持声明"; nl; "   - CONTRADICTED：声明与证据矛盾"; nl; nl; "输出严格 JSON 格式（不要额外说明）："; nl;
           "[{"; in_quotes "pair_index"; ": 1, "; in_quotes "nli"; ": "; in_quotes "entailment|neutral|contradiction"; ", "; in_quotes "llm"; ": ";
           in_quotes "SUPPORTED|NOT_SUPPORTED|CONTRADICTED"; "}, ...]"].

(** One call: the new count of calls and the verdicts of the batch. *)
Definition verify_batch (used : Z) (batch : list PairInput) : Z * list (option (string * string)) :=
  ((used + 1)%Z, match call_llm used (build_batch_prompt batch) with
                 | None => replicate (length batch) None
                 | Some response => parse_batch_response response (length batch)
                 end).

Definition degrade_to_rule (used : Z) (r : PairResult) : PairResult :=
  let v := short_circuit_values (pr_rule_result r) in
  set_layers v.1 v.2 (if (max_llm_calls <=? used)%Z then VerifierStatus_value VS_BUDGET_EXHAUSTED else OK_STATUS) true r.

Definition fill_result (used : Z) (verdict : option (string * string)) (r : PairResult) : PairResult :=
  match verdict with
  | Some (nli, llm) => set_layers (if str_in nli NLI_VALUES then nli else "neutral") (if str_in llm LLM_VALUES then llm else "NOT_SUPPORTED") OK_STATUS false r
  | None => degrade_to_rule used r
  end.

Definition degrade_all (used : Z) (todo : list (nat * PairInput)) (results : list PairResult) : list PairResult :=
  fold_left (fun rs ip => alter (degrade_to_rule used) ip.1 rs) todo results.

Definition fill_batch (used : Z) (indices : list nat) (verdicts : list (option (string * string))) (results : list PairResult) : list PairResult :=
  fold_left (fun rs kv => alter (fill_result used kv.2) kv.1 rs) (imap (fun k i => (i, mjoin (verdicts !! k))) indices) results.

(** The fuel is the number of open pairs: a batch takes at least one. *)
Fixpoint process_batches (fuel : nat) (used : Z) (results : list PairResult) (todo : list (nat * PairInput)) : Z * list PairResult :=
  match fuel, todo with
  | O, _ | _, [] => (used, results)
  | S fuel', _ =>
    if (max_llm_calls <=? used)%Z then (used, degrade_all used todo results)
    else
      let n := Z.to_nat (pc_batch_size config) in
      let batch := take n todo in
      let '(used, verdicts) := verify_batch used (map snd batch) in
      process_batches fuel' used (fill_batch used (map fst batch) verdicts results) (drop n todo)
  end.

(** [verify_pairs], from the count of calls used so far. *)
Definition verify_pairs (used : Z) (pairs : list PairInput) : result (Z * list PairResult) :=
  match pairs with
  | [] => Ok (used, [])
  | _ =>
    let results := map initial_result pairs in
    let llm_pairs := List.filter (fun ip => needs_llm ip.2) (imap pair pairs) in
    if (max_llm_calls <=? used)%Z then Ok (used, degrade_all used llm_pairs results)
    else if (pc_batch_size config =? 0)%Z then Raise (ValueError "range")
    else if (pc_batch_size config <? 0)%Z then Ok (used, results)
    else Ok (process_batches (length llm_pairs) used results llm_pairs)
  end.
End verifier.

(** ** The claim gateway (gateways/local_verifier.py) *)

Definition default_budget : VerificationBudget := mkVerificationBudget 30 10 5 150 50 100 3000 30000 10 3 true 3600.

(** [verify_faithfulness_claims]: the binder with the verifier of pairs, or by
    rules alone for a tenant without a model. *)
Section gateway.
Variable unicode_digit : string -> option Z.
Variable float_repr : Q -> string.
Variable rule_check_fact : string -> list string -> option RuleCheck.
Variable call_llm : Z -> string -> option string.
Variable json_loads : string -> option pyval.

Definition injected_verifier (max_llm_calls : Z) (pairs : list PairInput) : result (list PairVerdict) :=
  let! r := verify_pairs float_repr rule_check_fact call_llm json_loads default_verifier_config max_llm_calls 0 pairs in
  Ok (map to_pair_verdict r.2).

Definition verify_faithfulness_claims (llm_id : string) (snapshot : EvidenceSnapshot) (tenant_id : string) (claims : list Claim) (answer_text : string) :
    result (list Claim) :=
  if negb (truthy llm_id) then Ok (bind unicode_digit snapshot tenant_id (Some default_budget) new_binder claims answer_text).2
  else
    let! r := bind_async unicode_digit snapshot tenant_id (Some default_budget) (Some (injected_verifier (vb_max_llm_calls default_budget)))
                new_binder claims answer_text in
    Ok r.2.
End gateway.

(** ** Lemmas: replies *)

Lemma nli_of_legal raw v : nli_of raw = Some v -> v ∈ NLI_VALUES.
Proof.
  unfold nli_of. destruct (str_in raw NLI_VALUES) eqn:E; [by intros [= <-]; apply str_in_spec|].
  split_ifs; intros H; inversion H; unfold NLI_VALUES; set_solver.
Qed.

Lemma llm_of_legal raw v : llm_of raw = Some v -> v ∈ LLM_VALUES.
Proof.
  unfold llm_of. destruct (str_in raw LLM_VALUES) eqn:E; [by intros [= <-]; apply str_in_spec|].
  split_ifs; intros H; inversion H; unfold LLM_VALUES; set_solver.
Qed.

(** Whatever the reply, there is one entry for each pair. *)
Lemma length_parse_batch_response fr json response n : length (parse_batch_response fr json response n) = n.
Proof.
  unfold parse_batch_response. destruct (negb _); [apply length_replicate|]. destruct (_ ≫= _); [|apply length_replicate].
  by rewrite length_map, List.length_seq.
Qed.

(** ** Lemmas: results *)

(** A result that is final: its layers are legal and its status follows from them. *)
Definition settled (r : PairResult) : Prop :=
  pr_pair_status r = aggregate_pair_status (pr_rule_result r) (pr_nli_result r) (pr_llm_result r) /\
  pr_nli_result r ∈ NLI_VALUES /\ pr_llm_result r ∈ LLM_VALUES.

Lemma set_layers_settled nli llm status partial r : nli ∈ NLI_VALUES -> llm ∈ LLM_VALUES -> settled (set_layers nli llm status partial r).
Proof. done. Qed.

Lemma short_circuit_legal rule : (short_circuit_values rule).1 ∈ NLI_VALUES /\ (short_circuit_values rule).2 ∈ LLM_VALUES.
Proof. unfold short_circuit_values. split_ifs; unfold NLI_VALUES, LLM_VALUES; set_solver. Qed.

Lemma degrade_settled max used r : settled (degrade_to_rule max used r).
Proof. apply set_layers_settled; apply short_circuit_legal. Qed.

Lemma fill_settled max used v r : settled (fill_result max used v r).
Proof.
  destruct v as [[nli llm]|]; [|apply degrade_settled]. cbn [fill_result]. apply set_layers_settled.
  - destruct (str_in nli NLI_VALUES) eqn:E; [by apply str_in_spec|unfold NLI_VALUES; set_solver].
  - destruct (str_in llm LLM_VALUES) eqn:E; [by apply str_in_spec|unfold LLM_VALUES; set_solver].
Qed.

(** A status of support needs all three layers, a contradiction one of them. *)
Lemma settled_supported r : settled r -> pr_pair_status r = PairStatus_value PS_SUPPORTED ->
  pr_rule_result r = "SUPPORTED" /\ pr_nli_result r = "entailment" /\ pr_llm_result r = "SUPPORTED".
Proof.
  intros (-> & _ & _). unfold aggregate_pair_status. destruct (_ || _); [done|].
  destruct (_ && _) eqn:E; [|done]. intros _. apply andb_true_iff in E as [E E3%String.eqb_eq]. apply andb_true_iff in E as [E1%String.eqb_eq E2%String.eqb_eq]. done.
Qed.

Lemma settled_contradicted r : settled r -> pr_rule_result r = "CONTRADICTED" -> pr_pair_status r = PairStatus_value PS_CONTRADICTED.
Proof. intros (-> & _ & _) ->. done. Qed.

(** Updates at a list of places. *)
Section updates.
Context {U R : Type} (f : U -> R -> R).
Definition apply_at (us : list (nat * U)) (rs : list R) : list R := fold_left (fun rs u => alter (f u.2) u.1 rs) us rs.

Lemma apply_at_lookup us : forall rs i r, apply_at us rs !! i = Some r -> (i ∉ map fst us /\ rs !! i = Some r) \/ (i ∈ map fst us /\ exists u r0, r = f u r0).
Proof.
  induction us as [|[j u] us IH] using rev_ind; intros rs i r H; [left; split; [apply not_elem_of_nil|done]|].
  unfold apply_at in H. rewrite fold_left_app in H. cbn [fold_left fst snd] in H. rewrite map_app. destruct (decide (i = j)) as [->|Hne].
  - rewrite list_lookup_alter, decide_True in H by done. apply fmap_Some in H as (r0 & _ & ->). right. split; [set_solver|eauto].
  - rewrite list_lookup_alter_ne in H by done. destruct (IH _ _ _ H) as [[Hn Hr]|[Hin Hr]]; [left|right]; set_solver.
Qed.

Lemma apply_at_Forall2 {P} (rel : P -> R -> Prop) us ps : (forall p u r, rel p r -> rel p (f u r)) -> forall rs, Forall2 rel ps rs -> Forall2 rel ps (apply_at us rs).
Proof.
  intros Hf. induction us as [|[j u] us IH]; intros rs H; [done|]. apply IH. apply Forall2_alter_r; [done|]. intros. by apply Hf.
Qed.
End updates.

Lemma degrade_all_at max used todo results : degrade_all max used todo results = apply_at (fun _ => degrade_to_rule max used) todo results.
Proof. done. Qed.

Lemma fill_batch_at max used indices verdicts results :
  fill_batch max used indices verdicts results = apply_at (fill_result max used) (imap (fun k i => (i, mjoin (verdicts !! k))) indices) results.
Proof. done. Qed.

Lemma map_fst_imap {A B} (f : nat -> A -> B) (l : list A) : map fst (imap (fun k i => (i, f k i)) l) = l.
Proof. revert f. induction l as [|x l IH]; intros f; [done|]. cbn [imap map fst]. f_equal. apply (IH (fun k => f (S k))). Qed.

Section verification.
Variable fr : Q -> string.
Variable rules : string -> list string -> option RuleCheck.
Variable model : Z -> string -> option string.
Variable json : string -> option pyval.
Variable config : PairVerifierConfig.
Variable max : Z.

(** A result about its pair, with what the rules said of it. *)
Definition about (p : PairInput) (r : PairResult) : Prop := pr_evidence_id r = pi_evidence_id p /\ pr_rule_result r = rc_result (rule_check rules p).

Lemma about_degrade p used r : about p r -> about p (degrade_to_rule max used r).
Proof. done. Qed.
Lemma about_fill p used v r : about p r -> about p (fill_result max used v r).
Proof. by destruct v as [[nli llm]|]. Qed.

Lemma initial_about p : about p (initial_result rules config p).
Proof. unfold initial_result, about. by destruct (should_skip_llm _ _ _). Qed.

Lemma initial_settled p : needs_llm rules config p = false -> settled (initial_result rules config p).
Proof.
  unfold needs_llm, initial_result. destruct (should_skip_llm _ _ _); [|done]. intros _. apply set_layers_settled; apply short_circuit_legal.
Qed.

(** What running the batches over [todo] leaves and costs. *)
Definition batches_ok (pairs : list PairInput) (used : Z) (results : list PairResult) (todo : list (nat * PairInput)) (out : Z * list PairResult) : Prop :=
  Forall2 about pairs out.2 /\
  (forall i r, out.2 !! i = Some r -> settled r \/ (i ∉ map fst todo /\ results !! i = Some r)) /\
  (used <= out.1 <= Z.max used max)%Z /\
  ((out.1 - used) * pc_batch_size config <= Z.max 0 (Z.of_nat (length todo) + pc_batch_size config - 1))%Z.

Lemma degrade_all_ok pairs used results todo : Forall2 about pairs results -> (0 < pc_batch_size config)%Z ->
  batches_ok pairs used results todo (used, degrade_all max used todo results).
Proof.
  intros Ha Hb. rewrite degrade_all_at. split_and!; cbn [fst snd]; [| |lia..].
  - apply apply_at_Forall2; [|done]. intros. by apply about_degrade.
  - intros i r Hr. destruct (apply_at_lookup _ _ _ _ _ Hr) as [?|(_ & u & r0 & ->)]; [by right|left; apply degrade_settled].
Qed.

Lemma process_batches_ok pairs : (0 < pc_batch_size config)%Z -> forall fuel used results todo, (length todo <= fuel)%nat -> Forall2 about pairs results ->
  batches_ok pairs used results todo (process_batches fr model json config max fuel used results todo).
Proof.
  intros Hb. induction fuel as [|fuel IH]; intros used results todo Hf Ha.
  { destruct todo; [|cbn in Hf; lia]. split_and!; cbn; [done| |lia..]. intros i r Hr. right. split; [apply not_elem_of_nil|done]. }
  destruct todo as [|ip todo]; cbn [process_batches].
  { split_and!; cbn; [done| |lia..]. intros i r Hr. right. split; [apply not_elem_of_nil|done]. }
  destruct (Z.leb_spec max used) as [|Hlt]; [by apply degrade_all_ok|].
  set (n := Z.to_nat (pc_batch_size config)). set (all := ip :: todo) in *. cbn [verify_batch].
  set (verdicts := match model used _ with None => _ | Some _ => _ end). rewrite fill_batch_at.
  set (us := imap (fun k i => (i, mjoin (verdicts !! k))) (map fst (take n all))).
  assert (Hus : map fst us = map fst (take n all)) by apply map_fst_imap.
  assert (Hd : length (drop n all) = (length all - n)%nat) by apply length_drop.
  assert (Hn : (1 <= length all)%nat) by (cbn; lia).
  assert (Hn1 : (1 <= n)%nat) by (unfold n; lia).
  destruct (IH (used + 1)%Z (apply_at (fill_result max (used + 1)) us results) (drop n all)) as (Hab & Hset & Hused & Hcost).
  { rewrite Hd. clear -Hf Hn Hn1. lia. }
  { apply apply_at_Forall2; [|done]. intros. by apply about_fill. }
  split_and!; [done| |lia|lia|].
  - intros i r Hr. destruct (Hset i r Hr) as [?|[Hi Hr']]; [by left|].
    destruct (apply_at_lookup _ _ _ _ _ Hr') as [[Hj ?]|(_ & v & r0 & ->)]; [|left; apply fill_settled].
    right. split; [|done]. rewrite Hus in Hj. rewrite <- (take_drop n all), map_app, elem_of_app. naive_solver.
  - rewrite Hd in Hcost. set (out := process_batches _ _ _ _ _ _ _ _ _) in *. change (length (ip :: todo)) with (length all).
    assert (out.1 - used = (out.1 - (used + 1)) + 1)%Z as -> by lia. set (d := (out.1 - (used + 1))%Z) in *.
    assert (0 <= d)%Z by (unfold d; lia). assert (Z.of_nat n = pc_batch_size config) by (unfold n; lia).
    destruct (Nat.le_gt_cases (length all) n).
    + assert (d = 0)%Z by nia. subst d. nia.
    + lia.
Qed.
End verification.

Lemma initial_about_all rules config pairs : Forall2 (about rules) pairs (map (initial_result rules config) pairs).
Proof. apply Forall2_fmap_r, Forall_Forall2_diag, Forall_true. intros p. apply initial_about. Qed.

(** The pairs left to the model, with their places. *)
Definition open_pairs (rules : string -> list string -> option RuleCheck) (config : PairVerifierConfig) (pairs : list PairInput) : list (nat * PairInput) :=
  List.filter (fun ip => needs_llm rules config ip.2) (imap pair pairs).

Lemma closed_settled rules config pairs i r : i ∉ map fst (open_pairs rules config pairs) ->
  map (initial_result rules config) pairs !! i = Some r -> settled r.
Proof.
  intros Hi Hr. change (map ?f pairs) with (f <$> pairs) in Hr. rewrite list_lookup_fmap in Hr.
  apply fmap_Some in Hr as (p & Hp & ->). apply initial_settled. destruct (needs_llm rules config p) eqn:E; [|done].
  exfalso. apply Hi. apply list_elem_of_In, in_map_iff. exists (i, p). split; [done|]. apply filter_In. split; [|done].
  apply list_elem_of_In, elem_of_lookup_imap. eauto.
Qed.

Lemma verify_pairs_ok fr rules model json config max used pairs : (0 < pc_batch_size config)%Z ->
  exists out, verify_pairs fr rules model json config max used pairs = Ok out /\
    batches_ok rules config max pairs used (map (initial_result rules config) pairs) (open_pairs rules config pairs) out.
Proof.
  intros Hb. unfold verify_pairs, open_pairs. destruct pairs as [|p pairs].
  { eexists. split; [done|]. split_and!; cbn; [constructor|done|lia..]. }
  destruct (max <=? used)%Z; [eexists; split; [done|]; apply degrade_all_ok; [apply initial_about_all|done]|].
  destruct (Z.eqb_spec (pc_batch_size config) 0); [lia|]. destruct (Z.ltb_spec (pc_batch_size config) 0); [lia|].
  eexists. split; [done|]. apply process_batches_ok; [done|done|apply initial_about_all].
Qed.

Lemma about_ids rules pairs rs : Forall2 (about rules) pairs rs -> map pr_evidence_id rs = map pi_evidence_id pairs.
Proof. induction 1 as [|p r ps rs [Hp _] _ IH]; [done|]. cbn [map]. by rewrite Hp, IH. Qed.

Lemma injected_ids fr rules model json max pairs verdicts :
  injected_verifier fr rules model json max pairs = Ok verdicts -> map pv_evidence_id verdicts = map pi_evidence_id pairs.
Proof.
  unfold injected_verifier. destruct (verify_pairs_ok fr rules model json default_verifier_config max 0 pairs) as (out & -> & Ha & _); [done|].
  cbn [rbind]. intros [= <-]. rewrite map_map. by apply (about_ids rules).
Qed.

Lemma length_bind_from ud snapshot tenant_id budget claims answer : forall i s, length (bind_from ud snapshot tenant_id budget i s claims answer).2 = length claims.
Proof.
  induction claims as [|c claims IH]; intros i s; [done|]. cbn [bind_from].
  destruct (if over_budget budget i then _ else _) as [s1 c1]. specialize (IH (S i) s1).
  destruct (bind_from _ _ _ _ (S i) s1 claims answer) as [s2 cs]. cbn in *. by rewrite IH.
Qed.

(** ** The properties *)

(** [C21] Verifying pairs always ends with one result for each pair, in order: its
    status follows from its layers, support needs the rules and both layers of
    the model to agree, a contradiction of the rules is never overruled, and
    the model is called at most once for every batch of open pairs and never
    beyond its budget. *)
Theorem verify_pairs_sound fr rules model json config max used pairs (Hb : (0 < pc_batch_size config)%Z) :
  exists used' rs, verify_pairs fr rules model json config max used pairs = Ok (used', rs) /\
    Forall2 (fun p r => pr_evidence_id r = pi_evidence_id p /\ pr_rule_result r = rc_result (rule_check rules p) /\ settled r /\
      (pr_pair_status r = PairStatus_value PS_SUPPORTED ->
         rc_result (rule_check rules p) = "SUPPORTED" /\ pr_nli_result r = "entailment" /\ pr_llm_result r = "SUPPORTED") /\
      (rc_result (rule_check rules p) = "CONTRADICTED" -> pr_pair_status r = PairStatus_value PS_CONTRADICTED)) pairs rs /\
    (used <= used' <= Z.max used max)%Z /\
    ((used' - used) * pc_batch_size config <= Z.max 0 (Z.of_nat (length (open_pairs rules config pairs)) + pc_batch_size config - 1))%Z.
Proof.
  destruct (verify_pairs_ok fr rules model json config max used pairs Hb) as ([used' rs] & E & Ha & Hs & Hu & Hc). cbn [fst snd] in *.
  exists used', rs. split_and!; [done| |lia|lia|done]. apply Forall2_same_length_lookup_2; [by eapply Forall2_length|].
  intros i p r Hp Hr. destruct (Forall2_lookup_lr _ _ _ _ _ _ Ha Hp Hr) as [Hid Hrule].
  assert (settled r) as Hr' by (destruct (Hs i r Hr) as [?|[Hi ?]]; [done|by eapply closed_settled]).
  split_and!; [done|done|done|..]; rewrite <- Hrule; [by apply settled_supported|by apply settled_contradicted].
Qed.

(** [C20] The claim gateway always answers, whatever its model replies: with one claim
    for each claim, each cut off by the budget or resting only on evidence of
    its own tenant that it declared. *)
Theorem gateway_claims_isolated ud fr rules model json llm_id snapshot tenant_id claims answer (Hd : distinct_ids snapshot) :
  exists cs, verify_faithfulness_claims ud fr rules model json llm_id snapshot tenant_id claims answer = Ok cs /\
    length cs = length claims /\
    forall j c, cs !! j = Some c ->
      c_final_status c = ClaimFinalStatus_value FS_TRUNCATED \/ bound_claim snapshot tenant_id (Some default_budget) c.
Proof.
  unfold verify_faithfulness_claims. destruct (truthy llm_id) eqn:El; cbn [negb].
  - destruct (bind_async ud snapshot tenant_id (Some default_budget) _ new_binder claims answer) as [[s cs]|e] eqn:E.
    + exists cs. split; [done|]. eapply bind_async_isolated in E as [Hl Hj]; [done|]. intros pairs verdicts. apply injected_ids.
    + exfalso. unfold bind_async, injected_verifier in E. set (ps := map snd _) in E.
      destruct (verify_pairs_ok fr rules model json default_verifier_config (vb_max_llm_calls default_budget) 0 ps) as (out & Ho & _); [done|].
      by rewrite Ho in E.
  - eexists. split; [done|]. split; [apply length_bind_from|]. intros j c Hc. eapply bind_isolated in Hc; [|done].
    by destruct (over_budget _ j); [left|right].
Qed.

(** ** Witnesses *)

(** Rules that support what repeats the claim, without any entity. *)
Definition example_rules (claim : string) (docs : list string) : option RuleCheck :=
  Some (mkRuleCheck (if existsb (contains claim) docs then "SUPPORTED" else "NOT_SUPPORTED") None []).
Definition reply_item (i : Z) (nli llm : string) : pyval := VDict [("pair_index", VInt i); ("nli", VStr nli); ("llm", VStr llm)].
Definition example_pairs : list PairInput := [mkPairInput "sales rose" "In Q3 sales rose." "e1"; mkPairInput "costs fell" "Costs are stable." "e2"].
Definition answered (items : list pyval) : result (Z * list PairResult) :=
  verify_pairs (fun _ => "0.5") example_rules (fun _ _ => Some "reply") (fun _ => Some (VList items)) default_verifier_config 50 0 example_pairs.

Example statuses : option_map (map pr_pair_status) (match answered [reply_item 2 "neutral" "NOT_SUPPORTED"; reply_item 1 "entailment" "SUPPORTED"] with Ok r => Some r.2 | _ => None end)
  = Some ["supported"; "insufficient"].
Proof. vm_compute. reflexivity. Qed.

Lemma verify_pairs_sound_witness : exists used' rs,
  answered [reply_item 1 "entailment" "SUPPORTED"; reply_item 2 "contradiction" "CONTRADICTED"] = Ok (used', rs) /\ length rs = 2%nat.
Proof.
  destruct (verify_pairs_sound (fun _ => "0.5") example_rules (fun _ _ => Some "reply")
    (fun _ => Some (VList [reply_item 1 "entailment" "SUPPORTED"; reply_item 2 "contradiction" "CONTRADICTED"])) default_verifier_config 50 0 example_pairs)
    as (used' & rs & E & Hf & _); [vm_compute; reflexivity|]. exists used', rs. split; [exact E|]. exact (eq_sym (Forall2_length _ _ _ Hf)).
Defined.

Lemma gateway_claims_isolated_witness : exists cs,
  verify_faithfulness_claims no_digit (fun _ => "0.5") example_rules (fun _ _ => None) (fun _ => None) "model" sample_snapshot "t1" [sample_claim] "" = Ok cs /\
  length cs = 1%nat.
Proof.
  destruct (gateway_claims_isolated no_digit (fun _ => "0.5") example_rules (fun _ _ => None) (fun _ => None) "model" sample_snapshot "t1" [sample_claim] "" sample_distinct)
    as (cs & E & Hl & _). exists cs. split; [exact E|exact Hl].
Defined.

(** ** What verification leaves open *)

(** Where the rules raise and the model fails, nothing was checked and the pair
    is supported, by a verifier whose status is [ok]. *)
Example nothing_checked_supports :
  option_map (map (fun r => (pr_pair_status r, pr_verifier_status r)))
    (match verify_pairs (fun _ => "0.5") (fun _ _ => None) (fun _ _ => None) (fun _ => None) default_verifier_config 50 0 example_pairs with Ok r => Some r.2 | _ => None end)
  = Some [("supported", "ok"); ("supported", "ok")].
Proof. vm_compute. reflexivity. Qed.

(** A reply that counts from 0 gives the first pair the verdict of the second. *)
Example zero_based_reply_shifts :
  option_map (map pr_pair_status) (match answered [reply_item 0 "entailment" "SUPPORTED"; reply_item 1 "contradiction" "CONTRADICTED"] with Ok r => Some r.2 | _ => None end)
  = Some ["contradicted"; "insufficient"].
Proof. vm_compute. reflexivity. Qed.

(** Negations are read by what they contain. *)
Example negated_words : nli_of "not entailed" = Some "entailment" /\ nli_of "unsupported" = Some "entailment".
Proof. split; reflexivity. Qed.
