(* ===== verification/ClaimClassify.v ===== *)
(** * Classes of claims (evidence/claim_classifier.py)

    The server classifies a claim by its text alone: the first class one of
    whose patterns occurs decides its type, whether it must be verified, and
    its risk.  What the model said of the claim is kept beside it. *)

From S2P Require Import Prelude PyFloat PyVal PyList PyText PyRegex RegExp Claim Observability ReportScan.

(** ** Patterns *)

Section classifier.
(** The spaces, digits and word characters beyond ASCII. *)
Variables unicode_space unicode_digit unicode_word : string -> bool.

Definition any_digit : re := RSet (digit unicode_digit).
Definition blanks : re := RStar (RSet (char_space unicode_space)).
Definition blank : re := opt (RSet (char_space unicode_space)).
(** [\d[\d,]*\.?\d*] *)
Definition quantity : re :=
  RegExp.seq [any_digit; RStar (RSet (fun c => digit unicode_digit c || String.eqb c ",")); opt (lit "."); RStar any_digit].
Definition digits_between (lo hi : nat) : re := between lo hi any_digit.
Definition currency_code : re := alt (word_any_case "usd") (word_any_case "rmb").

(** The patterns of each class, in order of priority; letters match in either case. *)
Definition PATTERNS : list (ClaimType * list re) :=
  [(CT_COMPLIANCE, [lit "符合"; any_lit ["违反"; "违犯"]; any_lit ["合规"; "违规"]; any_lit ["守法"; "违法"]; any_lit ["监管"; "处罚"; "惩处"; "罚款"]]);
   (CT_AMOUNT, [RegExp.seq [quantity; blanks; one_in "亿万圆元"];
                RegExp.seq [quantity; blanks; alt currency_code (any_lit ["美元"; "人民币"; "美金"])];
                RegExp.seq [currency_code; blank; quantity];
                RegExp.seq [lit "$"; blank; quantity]]);
   (CT_IDENTITY, [lit "适用于"; lit "属于"; RegExp.seq [lit "是"; up_to 10 dot; lit "类"]; any_lit ["归属"; "归类"; "划分为"; "划入"]; any_lit ["身份"; "类别为"]]);
   (CT_DATE, [RegExp.seq [digits_between 4 4; blanks; lit "年"];
              RegExp.seq [digits_between 4 4; blanks; one_in "-/.年"; blanks; digits_between 1 2; blanks; opt (lit "月")];
              RegExp.seq [digits_between 1 2; blanks; lit "月"; opt (lit "份")];
              RegExp.seq [any_case "q"; one_in "1234"]; RegExp.seq [one_in "上下"; lit "半年"];
              any_lit ["截至"; "截止"; "生效日期"; "到期日"]]);
   (CT_RATIO, [RegExp.seq [plus any_digit; opt (lit "."); RStar any_digit; blanks; one_in "%％"];
               any_lit ["增长"; "下降"; "上升"; "回落"; "同比"; "环比"; "增幅"; "降幅"; "增速"; "跌幅"; "涨幅"]]);
   (CT_CONCLUSION, [lit "综上"; lit "因此"; RegExp.seq [lit "结论"; one_in "是为：:"]; any_lit ["总而言之"; "由此可见"; "综合来看"; "据此"]])].

Definition REQUIRED_TYPES : list ClaimType := [CT_AMOUNT; CT_DATE; CT_RATIO; CT_IDENTITY; CT_COMPLIANCE; CT_CONCLUSION].

Definition RISK_LEVELS (t : ClaimType) : string :=
  match t with
  | CT_AMOUNT | CT_COMPLIANCE => "high"
  | CT_DATE | CT_RATIO | CT_IDENTITY | CT_CONCLUSION => "medium"
  | CT_STATEMENT => "low"
  end.

#[export] Instance ClaimType_eq_dec : EqDecision ClaimType.
Proof. solve_decision. Defined.

(** ** Classification *)

(** [pattern.search(text)] *)
Definition occurs_in (r : re) (text : string) : bool := search unicode_word (mkPattern false r TAny) text.

Definition detected_type (claim_text : string) : ClaimType :=
  match List.find (fun tp => existsb (fun r => occurs_in r claim_text) tp.2) PATTERNS with Some tp => tp.1 | None => CT_STATEMENT end.

(** The type, whether it is required, and the risk. *)
Definition classify (claim_text : string) : string * bool * string :=
  if negb (truthy claim_text) then (ClaimType_value CT_STATEMENT, false, RISK_LEVELS CT_STATEMENT)
  else let t := detected_type claim_text in (ClaimType_value t, bool_decide (t ∈ REQUIRED_TYPES), RISK_LEVELS t).

(** The fields of the server set. *)
Definition set_server (c : Claim) (r : string * bool * string) : Claim :=
  mkClaim (c_claim_id c) (c_text c) (c_schema_version c) (c_span c) (c_raw_declared_indices c) (c_resolved_declared_ids c) (c_invalid_indices c)
    (c_unauthorized_ids c) (c_truncated_citations c) (c_verified_support_ids c) (c_contradicting_ids c) (c_pair_verdicts c) (c_verifier_status c)
    (c_final_status c) (c_model_claim_type c) (c_model_is_required c) r.1.1 r.1.2 r.2.

Definition classify_claims (claims : list Claim) : list Claim := map (fun c => set_server c (classify (c_text c))) claims.

(** ** Lemmas *)

(** A pattern occurs in a text. *)
Definition has_match (r : re) (text : string) : Prop := exists pre m rest, chars text = pre ++ m ++ rest /\ re_matches r m.

Lemma occurs_in_spec r text : occurs_in r text = true <-> has_match r text.
Proof.
  unfold occurs_in, has_match. rewrite search_found. cbn [pt_start pt_body pt_tail]. split.
  - intros (pre & m & rest & ? & _ & ? & _). eauto.
  - intros (pre & m & rest & ? & ?). by exists pre, m, rest.
Qed.

Lemma detected_statement text : detected_type text = CT_STATEMENT <-> forall t rs r, (t, rs) ∈ PATTERNS -> r ∈ rs -> ~ has_match r text.
Proof.
  unfold detected_type. destruct (List.find _ PATTERNS) as [[t rs]|] eqn:E.
  - cbn [fst]. apply List.find_some in E as [Hin (r & Hr & Ho)%existsb_exists]. split.
    + intros ->. exfalso. apply list_elem_of_In in Hin. unfold PATTERNS in Hin. list_cases Hin; discriminate.
    + intros H. exfalso. apply list_elem_of_In in Hin, Hr. by eapply H, occurs_in_spec.
  - split; [|done]. intros _ t rs r Hin Hr Hm. pose proof (List.find_none _ _ E (t, rs) ltac:(by apply list_elem_of_In)) as Hf.
    cbn [snd] in Hf. apply occurs_in_spec in Hm. enough (existsb (fun r => occurs_in r text) rs = true) by congruence.
    apply existsb_exists. exists r. split; [by apply list_elem_of_In|done].
Qed.

Lemma required_not_statement t : t ∈ REQUIRED_TYPES <-> t <> CT_STATEMENT.
Proof. unfold REQUIRED_TYPES. destruct t; set_solver. Qed.

(** ** The properties *)

(** [C23] Whatever the model declared, a claim is required by the server exactly when
    one of the patterns occurs in its text; amounts and compliance are of
    high risk and plain statements alone of low risk; nothing of the model's
    own fields, nor anything else of the claim, changes, and classifying twice
    changes nothing. *)
Theorem classification_by_text claims :
  Forall2 (fun c c' => c_text c' = c_text c /\
      (c_server_is_required c' = true <-> exists t rs r, (t, rs) ∈ PATTERNS /\ r ∈ rs /\ has_match r (c_text c)) /\
      (c_risk_level c' = "low" <-> c_server_is_required c' = false) /\
      (c_risk_level c' = "high" <-> c_server_claim_type c' ∈ ["amount"; "compliance"]) /\
      c' = set_server c (c_server_claim_type c', c_server_is_required c', c_risk_level c')) claims (classify_claims claims) /\
  classify_claims (classify_claims claims) = classify_claims claims.
Proof.
  split; [|unfold classify_claims; by rewrite map_map]. apply Forall2_fmap_r, Forall_Forall2_diag, Forall_true. intros c.
  assert (detected_type "" = CT_STATEMENT) as He by reflexivity.
  assert (classify (c_text c) = (ClaimType_value (detected_type (c_text c)), bool_decide (detected_type (c_text c) ∈ REQUIRED_TYPES), RISK_LEVELS (detected_type (c_text c)))) as E.
  { unfold classify. destruct (c_text c); [by rewrite He|done]. }
  unfold compose. rewrite E. cbn [set_server c_text c_server_is_required c_risk_level c_server_claim_type fst snd].
  pose proof (detected_statement (c_text c)) as D. set (t := detected_type (c_text c)) in *.
  assert (bool_decide (t ∈ REQUIRED_TYPES) = true <-> t <> CT_STATEMENT) as Hb by (rewrite bool_decide_eq_true; apply required_not_statement).
  split_and!; [done| | | |done].
  - rewrite Hb, D. split.
    + intros H. destruct (decide (Exists (fun tp => Exists (fun r => occurs_in r (c_text c) = true) tp.2) PATTERNS)) as [Hex|Hno].
      * apply Exists_exists in Hex as ([t' rs] & Hin & (r & Hr & Ho)%Exists_exists). exists t', rs, r. split_and!; [done..|]. by apply occurs_in_spec.
      * exfalso. apply H. intros t' rs r Hin Hr Hm. apply Hno, Exists_exists. exists (t', rs). split; [done|]. apply Exists_exists. exists r.
        split; [done|]. by apply occurs_in_spec.
    + intros (t' & rs & r & Hin & Hr & Hm) H. by apply (H t' rs r).
  - rewrite <- not_true_iff_false, Hb. destruct t; cbn; naive_solver.
  - destruct t; cbn; set_solver.
Qed.
End classifier.

(** ** Examples *)

Definition no_char : string -> bool := fun _ => false.
Example classes : map (classify no_char no_char no_char) ["2024年营收15.3亿"; "Q3 sales"; "增长 5.2 %"; "因此持平"; "usd 100"; "好"; ""] =
  [("amount", true, "high"); ("date", true, "medium"); ("ratio", true, "medium"); ("conclusion", true, "medium"); ("amount", true, "high");
   ("statement", false, "low"); ("statement", false, "low")].
Proof. vm_compute. reflexivity. Qed.
