(* ===== verification/Response.v ===== *)
(** * The response with its citations (evidence/citation_metrics.py, evidence/response_builder.py)

    Verified claims, the evidence snapshot and the answer tree become one
    response: the answer, a catalogue of the sources in which what the user may
    not see is blanked, the verdicts and the measures of citation. *)

From Stdlib Require Import Ascii.
From S2P Require Import Prelude PyFloat PyVal PyList PyText Claim AnswerAst.

(** ** Measures (citation_metrics.py) *)

Definition count_if {A} (p : A -> bool) (l : list A) : Z := py_len (List.filter p l).
Definition total_len {A B} (f : A -> list B) (l : list A) : Z := fold_right (fun a n => py_len (f a) + n)%Z 0%Z l.

(** A ratio, 0 where there is nothing to count. *)
Definition share (n total : Z) : Q := if (total =? 0)%Z then 0%Q else fdiv (inject_Z n) (inject_Z total).

Definition citation_validity (claims : list Claim) : Q :=
  let total_resolved := total_len c_resolved_declared_ids claims in
  if (total_resolved =? 0)%Z then 0%Q
  else let v := fdiv (inject_Z (total_len c_verified_support_ids claims)) (inject_Z total_resolved) in if flt v 1 then v else 1%Q.

Definition citation_correctness (claims : list Claim) : Q := share (count_if has_verified_support claims) (py_len claims).

Definition citation_completeness (claims : list Claim) : Q :=
  let required_claims := List.filter is_required claims in
  share (count_if (fun c => truthy (c_resolved_declared_ids c)) required_claims) (py_len required_claims).

Definition faithfulness (claims : list Claim) : Q :=
  share (count_if (fun c => String.eqb (c_final_status c) (ClaimFinalStatus_value FS_SUPPORTED)) claims) (py_len claims).

Definition compute_metrics (claims : list Claim) : pydict :=
  [("citation_validity", VFloat (citation_validity claims)); ("citation_correctness", VFloat (citation_correctness claims));
   ("citation_completeness", VFloat (citation_completeness claims)); ("faithfulness", VFloat (faithfulness claims))].

(** ** The response (response_builder.py) *)

Definition VALID_ENFORCEMENT_MODES : list string := ["disabled"; "shadow"; "enforced"].
Definition DB_ADMIN : string := "db_admin".

(** [ResponseBuilder(mode)] *)
Definition new_builder (enforcement_mode : string) : result string :=
  if str_in enforcement_mode VALID_ENFORCEMENT_MODES then Ok enforcement_mode else Raise (ValueError "enforcement_mode").

(** [evidence.get(key, default)] *)
Definition ev_get (key : string) (default : pyval) (evidence : pydict) : pyval := get_or (dlookup key evidence) default.

Definition is_accessible (evidence : pydict) (tenant_id : string) (permissions : list string) : bool :=
  if negb (py_eq (ev_get "tenant_id" (VStr "") evidence) (VStr tenant_id)) then false
  else if py_eq (ev_get "source_type" VNone evidence) (VStr "db") && negb (str_in DB_ADMIN permissions) then false
  else true.

(** The table of an address [db://table/query/fingerprint/row]. *)
Definition table_part (uri : string) : string :=
  match str_split "/" uri with _ :: _ :: ((String _ _) as t) :: _ => t | _ => "unknown" end.

Definition scrub_uri (uri : pyval) (permissions : list string) : result pyval :=
  if str_in DB_ADMIN permissions then Ok uri
  else match uri with
       | VStr u => Ok (VStr (if startswith "db://" u then String.append "db://" (table_part u) else u))
       | _ => Raise (AttributeError "startswith")
       end.

Definition page_of (evidence : pydict) : result pyval :=
  match ev_get "metadata" (VDict []) evidence with VDict m => Ok (get_or (dlookup "page" m) (VStr "")) | _ => Raise (AttributeError "get") end.

Record CatalogItem : Type := mkItem {
  it_index : Z; it_evidence_id : pyval; it_source_type : pyval; it_source_uri : pyval; it_title : pyval; it_page : pyval;
  it_authority_score : pyval; it_accessible : bool; it_injection_warning : bool }.

Definition catalog_item (tenant_id : string) (permissions : list string) (index : Z) (ev : pydict) : result CatalogItem :=
  let accessible := is_accessible ev tenant_id permissions in
  let source_type := ev_get "source_type" (VStr "") ev in
  let! source_uri := if accessible then scrub_uri (ev_get "source_uri" (VStr "") ev) permissions else Ok (VStr "") in
  let! page := if accessible then page_of ev else Ok (VStr "") in
  Ok (mkItem index (ev_get "evidence_id" (VStr "") ev) source_type source_uri (if accessible then ev_get "title" (VStr "") ev else VStr "") page
        (if accessible then ev_get "authority_score" (VFloat 0) ev else VFloat 0) accessible (py_eq source_type (VStr "web"))).

Definition citation_catalog (tenant_id : string) (permissions : list string) (evidences : list pydict) : result (list CatalogItem) :=
  rmap (fun ie => catalog_item tenant_id permissions ie.1 ie.2) (imap (fun i ev => (Z.of_nat (S i), ev)) evidences).

Definition item_dict (i : CatalogItem) : pydict :=
  [("index", VInt (it_index i)); ("evidence_id", it_evidence_id i); ("source_type", it_source_type i); ("source_uri", it_source_uri i);
   ("title", it_title i); ("page", it_page i); ("authority_score", it_authority_score i); ("accessible", VBool (it_accessible i))] ++
  (if it_injection_warning i then [("injection_warning", VBool true)] else []).

Definition claim_verdict (c : Claim) : pydict :=
  [("claim_id", VStr (c_claim_id c)); ("text", VStr (c_text c)); ("final_status", VStr (c_final_status c));
   ("raw_declared_indices", VInts (c_raw_declared_indices c)); ("resolved_declared_ids", VStrs (c_resolved_declared_ids c));
   ("invalid_indices", VInts (c_invalid_indices c)); ("unauthorized_ids", VStrs (c_unauthorized_ids c));
   ("verified_support_ids", VStrs (c_verified_support_ids c)); ("contradicting_ids", VStrs (c_contradicting_ids c));
   ("claim_type", VStr (c_server_claim_type c)); ("is_required", VBool (is_required c)); ("server_is_required", VBool (c_server_is_required c))].

(** [ResponseBuilder.build] *)
Definition build_response (enforcement_mode : string) (answer_ast : AnswerAST) (claims : list Claim) (snapshot_id : string) (evidences : list pydict)
    (tenant_id : string) (user_permissions : list string) : result pydict :=
  let! catalog := citation_catalog tenant_id user_permissions evidences in
  Ok [("schema_version", VStr "1.0"); ("answer", VStr (render answer_ast)); ("evidence_snapshot_id", VStr snapshot_id);
      ("enforcement_mode", VStr enforcement_mode); ("citation_catalog", VList (map (fun i => VDict (item_dict i)) catalog));
      ("claim_verdicts", VList (map (fun c => VDict (claim_verdict c)) claims)); ("metrics", VDict (compute_metrics claims))].

(** ** Lemmas: measures *)

Lemma total_len_nonneg {A B} (f : A -> list B) l : (0 <= total_len f l)%Z.
Proof. induction l as [|a l IH]; [done|]. change (total_len f (a :: l)) with (py_len (f a) + total_len f l)%Z. unfold py_len. lia. Qed.

Lemma count_if_bounds {A} (p : A -> bool) l : (0 <= count_if p l <= py_len l)%Z.
Proof. unfold count_if, py_len. pose proof (List.filter_length_le p l). lia. Qed.

Lemma inject_Z_nonneg z : (0 <= z)%Z -> (0 <= inject_Z z)%Q.
Proof. intros H. change 0%Q with (inject_Z 0). by rewrite <- Zle_Qle. Qed.
Lemma inject_Z_pos z : (0 < z)%Z -> (0 < inject_Z z)%Q.
Proof. intros H. change 0%Q with (inject_Z 0). by rewrite <- Zlt_Qlt. Qed.

Lemma share_unit n total : (0 <= n <= total)%Z -> (0 <= share n total <= 1)%Q.
Proof.
  intros H. unfold share. destruct (Z.eqb_spec total 0); [split; lra|]. apply fdiv_unit; [apply inject_Z_nonneg; lia|rewrite <- Zle_Qle; lia|apply inject_Z_pos; lia].
Qed.

Lemma fdiv_nonneg x y : (0 <= x)%Q -> (0 < y)%Q -> (0 <= fdiv x y)%Q.
Proof. intros Hx Hy. apply rnd_nonneg. by apply Qle_shift_div_l; [|rewrite Qmult_0_l]. Qed.

Lemma citation_validity_unit claims : (0 <= citation_validity claims <= 1)%Q.
Proof.
  unfold citation_validity. pose proof (total_len_nonneg c_resolved_declared_ids claims) as Hr.
  pose proof (total_len_nonneg c_verified_support_ids claims) as Hv. destruct (Z.eqb_spec (total_len c_resolved_declared_ids claims) 0); [split; lra|].
  pose proof (fdiv_nonneg (inject_Z (total_len c_verified_support_ids claims)) (inject_Z (total_len c_resolved_declared_ids claims))
    ltac:(by apply inject_Z_nonneg) ltac:(apply inject_Z_pos; lia)) as H.
  destruct (flt _ 1) eqn:E; [|split; lra]. fcompare. split; lra.
Qed.

(** ** Lemmas: what a user sees *)

(** An evidence that may not be seen leaves its identifier and its kind. *)
Lemma hidden_item tenant_id permissions index ev : is_accessible ev tenant_id permissions = false ->
  catalog_item tenant_id permissions index ev =
    Ok (mkItem index (ev_get "evidence_id" (VStr "") ev) (ev_get "source_type" (VStr "") ev) (VStr "") (VStr "") (VStr "") (VFloat 0) false
          (py_eq (ev_get "source_type" (VStr "") ev) (VStr "web"))).
Proof. unfold catalog_item. by intros ->. Qed.

(** What a user may see: the evidence of the tenant, and rows of a database
    with the permission of an administrator only. *)
Definition may_see (tenant_id : string) (permissions : list string) (ev : pydict) : Prop :=
  py_eq (ev_get "tenant_id" (VStr "") ev) (VStr tenant_id) = true /\
  (py_eq (ev_get "source_type" VNone ev) (VStr "db") = true -> DB_ADMIN ∈ permissions).

Lemma accessible_iff ev tenant_id permissions : is_accessible ev tenant_id permissions = true <-> may_see tenant_id permissions ev.
Proof.
  unfold is_accessible, may_see. rewrite <- str_in_spec. destruct (py_eq (ev_get "tenant_id" _ ev) _); cbn [negb]; [|naive_solver].
  destruct (py_eq _ (VStr "db")), (str_in DB_ADMIN permissions); cbn; naive_solver.
Qed.

(** Two evidences that differ only in what the user may not see. *)
Definition alike (tenant_id : string) (permissions : list string) (ev ev' : pydict) : Prop :=
  ev = ev' \/ (~ may_see tenant_id permissions ev /\ ~ may_see tenant_id permissions ev' /\
               ev_get "evidence_id" (VStr "") ev = ev_get "evidence_id" (VStr "") ev' /\ ev_get "source_type" (VStr "") ev = ev_get "source_type" (VStr "") ev').

Lemma alike_item tenant_id permissions index ev ev' : alike tenant_id permissions ev ev' ->
  catalog_item tenant_id permissions index ev = catalog_item tenant_id permissions index ev'.
Proof.
  unfold alike. rewrite <- !accessible_iff. intros [->|(H%not_true_iff_false & H'%not_true_iff_false & E1 & E2)]; [done|].
  by rewrite (hidden_item _ _ _ _ H), (hidden_item _ _ _ _ H'), E1, E2.
Qed.

Lemma rmap_Forall2_eq {A B C} (f : A -> result C) (g : B -> result C) l l' : Forall2 (fun x y => f x = g y) l l' -> rmap f l = rmap g l'.
Proof. induction 1 as [|x y l l' E _ IH]; [done|]. cbn [rmap]. by rewrite E, IH. Qed.

Lemma alike_catalog tenant_id permissions evs evs' : Forall2 (alike tenant_id permissions) evs evs' ->
  citation_catalog tenant_id permissions evs = citation_catalog tenant_id permissions evs'.
Proof.
  intros Hall. apply rmap_Forall2_eq. assert (forall evs evs', Forall2 (alike tenant_id permissions) evs evs' -> forall f : nat -> Z,
    Forall2 (fun x y : Z * pydict => catalog_item tenant_id permissions x.1 x.2 = catalog_item tenant_id permissions y.1 y.2)
      (imap (fun i ev => (f i, ev)) evs) (imap (fun i ev => (f i, ev)) evs')) as Hg.
  { induction 1 as [|x y l l' Hxy _ IH]; intros f; [constructor|]. cbn [imap]. constructor; [by apply alike_item|apply (IH (fun i => f (S i)))]. }
  apply (Hg _ _ Hall (fun i => Z.of_nat (S i))).
Qed.

Lemma catalog_lookup_item tenant_id permissions evs items i ev : citation_catalog tenant_id permissions evs = Ok items -> evs !! i = Some ev ->
  exists it, items !! i = Some it /\ catalog_item tenant_id permissions (Z.of_nat (S i)) ev = Ok it.
Proof.
  intros H Hi. apply rmap_Forall2 in H. assert (imap (fun i ev => (Z.of_nat (S i), ev)) evs !! i = Some (Z.of_nat (S i), ev)) as Hl by by rewrite list_lookup_imap, Hi.
  destruct (Forall2_lookup_l _ _ _ _ _ H Hl) as (it & Hit & E). eauto.
Qed.

(** The parts of a split hold no separator. *)
Lemma contains_one p b s : contains (String p "") (String b s) = Ascii.eqb p b || contains (String p "") s.
Proof. cbn [contains]. by rewrite <- (startswith_one p (String b s)). Qed.

Lemma contains_slash_snoc cur a : contains "/" (String.append cur (String a "")) = contains "/" cur || Ascii.eqb "/"%char a.
Proof.
  induction cur as [|b cur IH].
  - change (String.append "" (String a "")) with (String a ""). rewrite contains_one. change (contains "/" "") with false. by rewrite orb_false_r.
  - change (String.append (String b cur) (String a "")) with (String b (String.append cur (String a ""))). by rewrite !contains_one, IH, orb_assoc.
Qed.

Lemma split_no_slash s : forall cur x, contains "/" cur = false -> x ∈ split_from "/" cur 0 s -> contains "/" x = false.
Proof.
  induction s as [|a s IH]; intros cur x Hc Hx; cbn [split_from] in Hx; [by apply list_elem_of_singleton in Hx as ->|].
  change (String.prefix "/" (String a s)) with (startswith "/" (String a s)) in Hx. rewrite startswith_one in Hx. destruct (Ascii.eqb "/"%char a) eqn:E.
  - apply elem_of_cons in Hx as [->|Hx]; [done|]. by eapply (IH ""); [|exact Hx].
  - eapply IH; [|exact Hx]. by rewrite contains_slash_snoc, Hc, E.
Qed.

Lemma table_part_no_slash uri : contains "/" (table_part uri) = false.
Proof.
  unfold table_part, str_split. destruct (split_from "/" "" 0 uri) as [|x [|y [|[|a t] l]]] eqn:E; try done.
  apply (split_no_slash uri ""); [done|]. rewrite E. set_solver.
Qed.

Lemma scrubbed uri permissions out : scrub_uri uri permissions = Ok out -> DB_ADMIN ∉ permissions ->
  exists u, uri = VStr u /\ out = VStr (if startswith "db://" u then String.append "db://" (table_part u) else u).
Proof. unfold scrub_uri. intros H Hn. apply str_in_false in Hn. rewrite Hn in H. destruct uri; try done. injection H as <-. eauto. Qed.

(** ** The properties *)

(** The four measures are within 0 and 1, whatever the claims. *)
Theorem metrics_within_unit claims :
  (0 <= citation_validity claims <= 1)%Q /\ (0 <= citation_correctness claims <= 1)%Q /\ (0 <= citation_completeness claims <= 1)%Q /\
  (0 <= faithfulness claims <= 1)%Q.
Proof. split; [apply citation_validity_unit|]. split; [|split]; apply share_unit, count_if_bounds. Qed.

(** [C22] A response tells a user nothing of the evidence of other tenants, nor,
    without the permission db_admin, of database rows, but that it is there:
    with any other content of such evidence, of the same identifier and kind,
    the response is the same. *)
Theorem response_noninterference mode ast claims snapshot_id evs evs' tenant_id permissions
  (Halike : Forall2 (alike tenant_id permissions) evs evs') :
  build_response mode ast claims snapshot_id evs tenant_id permissions = build_response mode ast claims snapshot_id evs' tenant_id permissions.
Proof. unfold build_response. by rewrite (alike_catalog _ _ _ _ Halike). Qed.

(** The catalogue of a response keeps the numbers of the snapshot: its i-th item
    is the i-th evidence, open exactly to its tenant (rows of a database to
    administrators only), blank otherwise, without the query of a database
    address for others, and web sources carry their warning. *)
Theorem catalog_follows_snapshot tenant_id permissions evs items (H : citation_catalog tenant_id permissions evs = Ok items) :
  length items = length evs /\
  forall i ev, evs !! i = Some ev -> exists it, items !! i = Some it /\
    it_index it = Z.of_nat (S i) /\ it_evidence_id it = ev_get "evidence_id" (VStr "") ev /\
    (it_accessible it = true <-> py_eq (ev_get "tenant_id" (VStr "") ev) (VStr tenant_id) = true /\
       (py_eq (ev_get "source_type" VNone ev) (VStr "db") = true -> DB_ADMIN ∈ permissions)) /\
    (it_accessible it = false -> it_source_uri it = VStr "" /\ it_title it = VStr "" /\ it_page it = VStr "" /\ it_authority_score it = VFloat 0) /\
    (DB_ADMIN ∉ permissions -> exists u, it_source_uri it = VStr u /\
       (startswith "db://" u = true -> exists t, u = String.append "db://" t /\ contains "/" t = false)) /\
    (it_injection_warning it = true <-> py_eq (it_source_type it) (VStr "web") = true).
Proof.
  split.
  - apply rmap_Forall2, Forall2_length in H. rewrite length_imap in H. done.
  - intros i ev Hi. destruct (catalog_lookup_item _ _ _ _ _ _ H Hi) as (it & Hit & E). exists it. split; [done|].
    fold (may_see tenant_id permissions ev). rewrite <- accessible_iff. unfold catalog_item in E. destruct (is_accessible ev tenant_id permissions).
    + apply rbind_ok in E as (uri & Hu & E). apply rbind_ok in E as (page & _ & [= <-]). cbn. split_and!; try done. intros Hn.
      destruct (scrubbed _ _ _ Hu Hn) as (u & _ & ->). destruct (startswith "db://" u) eqn:Eu; (eexists; split; [done|]).
      * intros _. exists (table_part u). split; [done|apply table_part_no_slash].
      * intros ?. congruence.
    + injection E as <-. cbn. split_and!; try done. intros _. exists "". split; [done|]. intros ?. discriminate.
Qed.

(** ** Witnesses *)

Definition example_row (tenant title : string) : pydict :=
  [("evidence_id", VStr "e1"); ("source_type", VStr "db"); ("tenant_id", VStr tenant); ("title", VStr title); ("source_uri", VStr "db://orders/q7/f3/r1")].
Definition example_view : pydict :=
  [("evidence_id", VStr "e2"); ("source_type", VStr "web"); ("tenant_id", VStr "t1"); ("title", VStr "news"); ("source_uri", VStr "db://orders/q7/f3/r1")].

Lemma response_noninterference_witness :
  build_response "enforced" (sample_ast) [] "es_1" [example_row "t2" "salaries"; example_view] "t1" []
    = build_response "enforced" (sample_ast) [] "es_1" [example_row "t2" "bonuses"; example_view] "t1" [].
Proof.
  apply (response_noninterference "enforced" sample_ast [] "es_1" [example_row "t2" "salaries"; example_view] [example_row "t2" "bonuses"; example_view] "t1" []).
  constructor; [right; split_and!; try reflexivity; intros [H _]; discriminate H|]. constructor; [by left|constructor].
Defined.

Definition example_items : list CatalogItem :=
  match citation_catalog "t1" [] [example_row "t1" "orders"; example_view] with Ok l => l | Raise _ => [] end.

Example catalog_of_a_user : map (fun i => (it_accessible i, it_source_uri i, it_injection_warning i)) example_items =
  [(false, VStr "", false); (true, VStr "db://orders", true)].
Proof. vm_compute. reflexivity. Qed.

Lemma catalog_follows_snapshot_witness : length example_items = 2%nat.
Proof. exact (proj1 (catalog_follows_snapshot "t1" [] [example_row "t1" "orders"; example_view] example_items ltac:(vm_compute; reflexivity))). Defined.

(** ** Where the builder and its documents differ *)

(** A user without the permission is said to see the table of a row; the row is
    hidden altogether, and the scrubbing is never applied to database sources. *)
Lemma database_never_scrubbed ev tenant_id permissions uri :
  is_accessible ev tenant_id permissions = true -> py_eq (ev_get "source_type" VNone ev) (VStr "db") = true -> scrub_uri uri permissions = Ok uri.
Proof. rewrite accessible_iff. intros [_ Hp] Hdb. unfold scrub_uri. by rewrite (proj2 (str_in_spec _ _) (Hp Hdb)). Qed.

(** A claim that the server does not require is required where the model says so. *)
Example model_makes_required : is_required (mkClaim "c1" "ok" "1.0" (0, 0)%Z [] [] [] [] [] [] [] [] "unknown" "pending" "statement" true "statement" false "low") = true.
Proof. reflexivity. Qed.
